(* ===== verification/_CoqProject ===== *)
-Q . S2P
Prelude.v
GoStd.v
Errors.v
GoTime.v
GoNum.v
GoUrl.v
Policies.v
PolicyLists.v
Authn.v
Roles.v
Pat.v
Auth.v
Redis.v
Connections.v
Hierarchy.v
Clients.v
Domains.v
Channels.v
Groups.v
Topics.v
Http.v
Users.v
Permissions.v
Authz.v
Grpc.v
Adapters.v
Guards.v
ChannelsHttp.v
ClientsHttp.v
GroupsHttp.v
DomainsHttp.v
RolesHttp.v
UsersHttp.v
Callout.v
Events.v
Journal.v
GroupEvents.v
ClientEvents.v
ChannelEvents.v
DomainEvents.v
UserEvents.v
