(* ===== verification/Prelude.v ===== *)
(** * SuperMQ: verification library (root file)

    ** The program

    SuperMQ is a messaging platform made of services that talk to each other
    over gRPC and an event store, and to PostgreSQL, Redis, SpiceDB and a
    message broker.  A request meets, from the outside in: the HTTP or gRPC
    edge, the authentication middleware, the authorization middleware of a
    service, and the service itself, which keeps its entities in a
    repository, the relationships between them and users in the policy
    service, and hot answers in a cache.  Messages meet an adapter (MQTT,
    HTTP and WebSocket, CoAP), which asks the private services of clients
    and channels whether the client may publish or subscribe.

    ** How the code is modelled

    A Go function that touches the outside is a function of an explicit state
    ([St], below); the outside itself (repository, policy server, caches,
    gRPC peers, clock, random source) is a record of operations, a parameter
    of the definitions, and what the code relies on of it is a class of laws.
    Every class has an instance in memory, on which the examples run the
    code.  Go errors are values with an identity, a type and a chain
    (Errors.v); a method that can panic has an optional result; loops without
    a bound run with a number of rounds; unsigned enumerations and sizes are
    [N], times and operation numbers [Z].  Logging, tracing, metrics,
    contexts and deadlines are left out.

    ** The files

    - Prelude.v: the state and panic monads, early returns, loops ([for_each]),
      frames (calls that leave a view of the state alone), record updates.
    - GoStd.v: package strings, encoding/base64, url.QueryUnescape.
    - Errors.v: pkg/errors, the sentinels of the service and repository
      layers, and EncodeError of api/http.
    - Policies.v, PolicyLists.v: pkg/policies and its SpiceDB implementation;
      [PolicyLaws] is the interface the services are proved against.
    - Authn.v, Authz.v: pkg/authn (sessions, packed credentials, the HTTP
      middleware), pkg/authz with the auth service behind its gRPC client and
      server.
    - Pat.v, Auth.v: package auth: keys, personal access tokens, the service.
    - Roles.v: pkg/roles, the provision manager in every entity service.
    - Permissions.v, Guards.v: pkg/permissions with the permissions file that
      ships and the wiring of cmd/*/main.go; the authorization middlewares.
    - Callout.v: pkg/callout and the callout middlewares.
    - Hierarchy.v, Clients.v, Channels.v, Groups.v, Domains.v: the entity
      services with their private services and caches (Redis.v, Connections.v).
    - Users.v: the users service, email verification and delete handler.
    - Grpc.v: the gRPC servers and clients between these services
      (<service>/api/grpc); [in_process] joins a client to its server.
    - Topics.v, Adapters.v: topics, their parser and resolver; the adapters.
    - GoNum.v, GoTime.v, GoUrl.v: strconv, the text of a time in JSON with
      time.Parse, and net/url.
    - Http.v: what the HTTP layers share (reading a query, validations,
      encoding an answer, the server of go-kit); ChannelsHttp.v,
      ClientsHttp.v, GroupsHttp.v, DomainsHttp.v, UsersHttp.v, RolesHttp.v:
      the HTTP layer of each service (<service>/api) and of roles.
    - Journal.v: the journal, its consumer, authorization and tables.
    - Events.v: JSON
      values, events, the event store and the consumer of roles, and how a
      log of messages is replayed ([replication]); GroupEvents.v,
      ClientEvents.v, ChannelEvents.v, DomainEvents.v, UserEvents.v: the
      event store of each service (<service>/events) and the consumer that
      keeps a copy of its table (pkg/<service>/events/consumer).

    Within a file a Module stands for a Go package and keeps its names; a
    method of an interface that is a parameter and has the name of a method
    of the service has the prefix of the interface (repo_, svc_).

    ** What the theorems show

    - Two stores stay together: relationships and rows of roles
      (Roles.no_excess_reachable), of parents ([*_parents_in_sync]), of users
      and connections (Register_atomic; Connect_over_grpc: two services with
      gRPC between them), over every sequence of operations and failures,
      failed rollbacks excepted; caches answer the stored
      status (domain_status_fresh) or the parsed topic
      (cached_parser_transparent).
    - Who may do what: the access matrices of the middlewares with the
      permissions that ship ([*_access_matrix]) on top of the decision of the
      authorization library (Authorize_decides); what the adapters publish
      and deliver was authorized (mqtt_publishes_where_authorized,
      coap_observes_while_authorized); configured parties agreed
      (calls_need_consent); tokens are verified, revoked and used
      once (IdentifyPAT_sound, refreshKey_sound, VerifyEmail_once).
    - Refinement and equivalence: the policy service implements its interface
      (NewPolicyService_refines), invitations their life cycle, the topic
      scanner its reference (ParseTopic_reference).
    - Termination and bounds: paging_is_complete, handle_terminates and
      handle_spins, ws_queue_fifo.
    - Copies in other services: the events of roles, groups and domains replay
      as the repository calls they stand for ([*_changes_replicated]), and the
      hierarchy of a copy of the groups follows that of the groups service
      whatever the order of calls and deliveries (group_tree_replicated).
    - Over HTTP: a service is only called with arguments that its requests
      admit ([*_called_admissibly]: two services that agree on those answer
      every request alike), the tree of a hierarchy is complete
      (tree_of_a_hierarchy), and a browser gets tokens from OAuth only after
      every step (callback_is_guarded).
    - The journal: an event delivered twice counts once
      (redelivery_changes_nothing), the counters are those of the entries
      (inbound_is_journalled), rows belong together whatever fails
      (Handle_consistent).
    - Encodings: topic_roundtrip, RetrieveUsers_over_grpc,
      IdentifyPAT_generated, EncodeError_wrap_chain.
    - Flaws that the model shows are theorems too, such as
      self_registration_grants_admin, remove_entity_members_panics and
      username_may_be_address; the manifest lists them as findings.

    ** Bounds and fuel

    [Wrap] of errors recurses with the size of its argument; the scanner of
    topics with the length of the topic; SpiceDB paging with the number of
    pages (paging_is_complete gives how many are enough); the delete handler
    with a number of rounds (handle_terminates: one more than the users to
    delete; handle_spins: no number is enough while one is not due).

    ** Not modelled

    PostgreSQL repositories other than the journal's (SQL text interpreted by
    the server), the HTTP layers of auth and of the journal, the command line
    tool and the Go SDK (clients of the HTTP layers), logging, tracing and
    metrics middlewares,
    generated gRPC code, the message brokers, mails, the JWT libraries and
    process wiring other than of permissions; see the components of the
    manifest. *)

From stdpp Require Export base tactics list gmap strings pretty.
From stdpp Require Import options.
From Stdlib Require Export Ascii ZArith Lia.

#[export] Set Default Goal Selector "1".
#[export] Set Warnings "-clear-no-such-hyp".

(** ** Effects: explicit state passing

    A Go method that may touch the outside (a repository, a cache, SpiceDB,
    the clock, the random source) is a function of the state [W] of that
    outside.  A Go result list [(x, err)] is a Coq tuple. *)
Definition St (W A : Type) : Type := W -> A * W.

Definition ret {W A} (a : A) : St W A := fun w => (a, w).
Definition bind {W A B} (m : St W A) (f : A -> St W B) : St W B :=
  fun w => let (a, w') := m w in f a w'.
Definition run_state {W A} (m : St W A) (w : W) : W := (m w).2.
Definition run_result {W A} (m : St W A) (w : W) : A := (m w).1.

Declare Scope go_scope.
Delimit Scope go_scope with go.
Open Scope go_scope.

Notation "x <- m ;; k" := (bind m (fun x => k))
  (at level 20, m at level 99, k at level 200) : go_scope.
Notation "' p <- m ;; k" := (bind m (fun p => k))
  (at level 20, p pattern, m at level 99, k at level 200) : go_scope.
Notation "m ;;; k" := (bind m (fun _ => k))
  (at level 100, right associativity) : go_scope.

(** [if err != nil { return a }; k] and [if b { return a }; k]. *)
Notation "'if_err' e 'return_' a ';;' k" :=
  (match e with Some _ => a | None => k end)
  (at level 20, e at level 99, a at level 99, k at level 200) : go_scope.
Notation "'if_' b 'return_' a ';;' k" :=
  (if b then a else k)
  (at level 20, b at level 99, a at level 99, k at level 200) : go_scope.

(** Comparison of Go strings. *)
Notation "a =s b" := (String.eqb a b) (at level 70, no associativity) : go_scope.
Notation "a <>s b" := (negb (String.eqb a b)) (at level 70, no associativity) : go_scope.

Definition is_nil {A} (e : option A) : bool :=
  match e with None => true | Some _ => false end.

(** [for _, x := range xs { if r := body(x); r decides { return r } }]: the
    first early return of the body, or [None] when the loop runs to its end. *)
Fixpoint for_each {W A R} (xs : list A) (body : A -> St W (option R)) : St W (option R) :=
  match xs with
  | [] => ret None
  | x :: xs' =>
      r <- body x ;;
      match r with
      | Some r => ret (Some r)
      | None => for_each xs' body
      end
  end.

(** The loop of the services that builds a slice and returns on the first
    error of its body. *)
Fixpoint map_err {W A B E} (xs : list A) (body : A -> St W (B * option E))
    : St W (list B * option E) :=
  match xs with
  | [] => ret ([], None)
  | x :: xs' =>
      '(y, e) <- body x ;;
      if_err e return_ ret ([], e) ;;
      '(ys, e) <- map_err xs' body ;;
      if_err e return_ ret ([], e) ;;
      ret (y :: ys, None)
  end.

(** [defer func() { if retErr != nil { retErr = rollback(retErr) } }()]. *)
Definition defer_err {W A E} (body : St W (A * option E))
    (rollback : option E -> St W (option E)) : St W (A * option E) :=
  '(a, e) <- body ;;
  match e with
  | None => ret (a, None)
  | Some _ => e' <- rollback e ;; ret (a, e')
  end.

Definition defer_err0 {W E} (body : St W (option E))
    (rollback : option E -> St W (option E)) : St W (option E) :=
  e <- body ;;
  match e with
  | None => ret None
  | Some _ => rollback e
  end.

(** ** Panics

    A method that can panic has an optional result: [None] is the panic,
    which ends the call with the effects made so far. *)
Definition call {W A} (m : St W A) : St W (option A) := a <- m ;; ret (Some a).
Definition pret {W A} (a : A) : St W (option A) := ret (Some a).
Definition panic {W A} : St W (option A) := ret None.
Definition pbind {W A B} (m : St W (option A)) (f : A -> St W (option B)) : St W (option B) :=
  r <- m ;; match r with None => ret None | Some a => f a end.
Notation "x <~ m ;; k" := (pbind m (fun x => k))
  (at level 20, m at level 99, k at level 200) : go_scope.
Notation "' p <~ m ;; k" := (pbind m (fun p => k))
  (at level 20, p pattern, m at level 99, k at level 200) : go_scope.

(** ** Struct literals and field assignment

    [r <| f := v |>] is [r] with field [f] set to [v]; a Go composite literal
    [T{f: v}] is [zeroT <| f := v |>].  A record gets the notation from one
    instance of [Fields], its identity written field by field. *)
Class Fields (R : Type) := fields : R -> R.
Class Setter {R T : Type} (f : R -> T) := set_field : T -> R -> R.
Arguments set_field {R T} f {_} / _ _.

Ltac derive_setter f R :=
  let inst := constr:(_ : Fields R) in
  let inst := eval cbv beta delta [fields] in inst in
  let v := fresh "v" in let r := fresh "r" in
  unfold Setter; intros v r;
  let body := constr:(inst r) in
  let body := lazymatch body with ?c r => eval cbv beta delta [c] in body end in
  let body := (eval pattern (f r) in body) in
  lazymatch body with ?g _ => let b := eval cbv beta in (g v) in exact b end.

#[export] Hint Extern 1 (@Setter ?R _ ?f) => derive_setter f R : typeclass_instances.

Notation "r <| f := v |>" := (set_field f v r)
  (at level 1, left associativity, f constr, v at level 200, format "r  <| f  :=  v |>") : go_scope.

(** An operation leaves a view of the state as it is. *)
Definition frames {W A V} (m : St W A) (view : W -> V) : Prop :=
  forall w, view (m w).2 = view w.

Section monad_lemmas.
Context {W : Type}.

Lemma bind_ret_l {A B} (a : A) (f : A -> St W B) w : bind (ret a) f w = f a w.
Proof. reflexivity. Qed.

Lemma bind_assoc {A B C} (m : St W A) (f : A -> St W B) (g : B -> St W C) w :
  bind (bind m f) g w = bind m (fun a => bind (f a) g) w.
Proof. unfold bind. by destruct (m w). Qed.

Lemma frames_ret {A V} (a : A) (view : W -> V) : frames (ret a) view.
Proof. done. Qed.

Lemma frames_bind {A B V} (m : St W A) (f : A -> St W B) (view : W -> V) :
  frames m view -> (forall a, frames (f a) view) -> frames (bind m f) view.
Proof.
  intros Hm Hf w. unfold bind. specialize (Hm w).
  destruct (m w) as [a w']; simpl in *. by rewrite (Hf a w').
Qed.

Lemma frames_eq {A V} (m : St W A) (view : W -> V) a w w' :
  frames m view -> m w = (a, w') -> view w' = view w.
Proof. intros H E. specialize (H w). by rewrite E in H. Qed.

Lemma for_each_frames {A R V} (xs : list A) (body : A -> St W (option R)) (view : W -> V) :
  (forall x, frames (body x) view) -> frames (for_each xs body) view.
Proof.
  intros H. induction xs as [|x xs IH]; simpl; [apply frames_ret|].
  apply frames_bind; [apply H|]. by intros [r|].
Qed.

Lemma map_err_frames {A B E V} (xs : list A) (body : A -> St W (B * option E)) (view : W -> V) :
  (forall x, frames (body x) view) -> frames (map_err xs body) view.
Proof.
  intros H. induction xs as [|x xs IH]; simpl; [apply frames_ret|].
  apply frames_bind; [apply H|]. intros [y [e|]]; [apply frames_ret|].
  apply frames_bind; [apply IH|]. by intros [ys [e|]].
Qed.
End monad_lemmas.

(** ** Time

    [time.Time] as the number of nanoseconds after the zero time, so that
    [IsZero] is the test against 0 and the order is that of instants. *)
Definition Time := Z.
Definition zeroTime : Time := 0%Z.
Definition IsZero (t : Time) : bool := Z.eqb t 0.
Definition Before (a b : Time) : bool := Z.ltb a b.
Definition After (a b : Time) : bool := Z.ltb b a.
Definition Minute : Z := 60 * 1000 * 1000 * 1000.
Definition Hour : Z := 60 * Minute.

(** ** JSON values, the contents of a [map[string]any] metadata field *)
#[warnings="-register-all"]
Inductive Json : Type :=
| JNull
| JBool (b : bool)
| JNumber (n : string)
| JString (s : string)
| JArray (l : list Json)
| JObject (l : list (string * Json)).

(** [None] is the nil map. *)
Definition Metadata : Type := option (list (string * Json)).

(** ** Tactics

    [go_step] runs one call of an operation whose body is not known (a
    dependency of a service) or one test of the code; [go_cases] runs the
    whole body and leaves one goal per path. *)
Ltac go_unfold :=
  unfold bind, ret, defer_err, defer_err0, is_nil in *; cbn beta iota zeta in *.

Ltac go_step :=
  match goal with
  | H : context [let (_, _) := ?t in _] |- _ => destruct t eqn:?; simplify_eq/=
  | H : context [match ?t with Some _ => _ | None => _ end] |- _ => destruct t eqn:?; simplify_eq/=
  | H : context [if ?t then _ else _] |- _ => destruct t eqn:?; simplify_eq/=
  | |- context [let (_, _) := ?t in _] => destruct t eqn:?; simplify_eq/=
  | |- context [match ?t with Some _ => _ | None => _ end] => destruct t eqn:?; simplify_eq/=
  | |- context [if ?t then _ else _] => destruct t eqn:?; simplify_eq/=
  end.

Ltac go_cases := go_unfold; repeat (go_step; go_unfold).

(** Boolean tests of the code as propositions. *)
Ltac go_bool :=
  repeat match goal with
  | H : String.eqb _ _ = true |- _ => apply String.eqb_eq in H
  | H : String.eqb _ _ = false |- _ => apply String.eqb_neq in H
  | H : negb _ = true |- _ => apply negb_true_iff in H
  | H : negb _ = false |- _ => apply negb_false_iff in H
  | H : andb _ _ = true |- _ => apply andb_true_iff in H; destruct H
  | H : orb _ _ = false |- _ => apply orb_false_iff in H; destruct H
  | H : Z.eqb _ _ = true |- _ => apply Z.eqb_eq in H
  | H : Z.eqb _ _ = false |- _ => apply Z.eqb_neq in H
  | H : Z.ltb _ _ = true |- _ => apply Z.ltb_lt in H
  | H : Z.ltb _ _ = false |- _ => apply Z.ltb_ge in H
  | H : Z.leb _ _ = true |- _ => apply Z.leb_le in H
  | H : Z.leb _ _ = false |- _ => apply Z.leb_gt in H
  end.

Create HintDb go.
Create Rewrite HintDb go_rw.
#[export] Hint Resolve frames_ret frames_bind for_each_frames map_err_frames : go.

Lemma eqb_refl_s (s : string) : (s =s s) = true.
Proof. apply String.eqb_refl. Qed.
#[export] Hint Rewrite eqb_refl_s : go_rw.

Lemma forallb_Forall {A} (f : A -> bool) (l : list A) :
  forallb f l = true <-> Forall (fun x => f x = true) l.
Proof.
  rewrite forallb_forall, Forall_forall.
  split; intros H x Hx; apply H; by apply list_elem_of_In.
Qed.

(** [frame_all view] records, for each call [m w = (a, w')] of the context
    whose operation is known to leave [view] alone (hint database [frame]),
    that [view w' = view w]. *)
Create HintDb frame.
#[export] Hint Resolve frames_ret : frame.
Ltac frame_all view :=
  repeat match goal with
  | H : ?m ?w = (?a, ?w') |- _ =>
      lazymatch goal with _ : view w' = view w |- _ => fail | _ => idtac end;
      assert (view w' = view w)
        by (apply (frames_eq m view a w w'); [solve [eauto with frame] | exact H])
  end.

(** What each element of a successful [map_err] comes from. *)
Lemma map_err_ok {W A B E} (xs : list A) (body : A -> St W (B * option E)) w ys w' :
  map_err xs body w = ((ys, None), w') ->
  Forall2 (fun x y => exists w1 w2, body x w1 = ((y, None), w2)) xs ys.
Proof.
  revert w ys w'. induction xs as [|x xs IH]; intros w ys w'; simpl.
  { intros [= <- <-]. constructor. }
  unfold bind, ret. destruct (body x w) as [[y [e|]] w1] eqn:E1; [done|].
  destruct (map_err xs body w1) as [[ys' [e|]] w2] eqn:E2; [done|].
  intros [= <- <-]. constructor; eauto.
Qed.

Lemma elem_of_map_list {A B} (f : A -> B) (l : list A) y : y ∈ map f l <-> exists x, x ∈ l /\ f x = y.
Proof. rewrite list_elem_of_In, in_map_iff. setoid_rewrite list_elem_of_In. naive_solver. Qed.
