(* ===== verification/GoStd.v ===== *)
(** * The parts of Go's standard library that the services compute with

    [strings] (Split, Cut, TrimPrefix, Contains, ...), [encoding/base64]
    (StdEncoding and URLEncoding), [net/url.QueryUnescape].  A Go string is
    a Coq [string] of bytes; the algorithms run on its list of bytes. *)

From S2P Require Import Prelude.

Definition chars (s : string) : list ascii := String.list_ascii_of_string s.
Definition str (l : list ascii) : string := String.string_of_list_ascii l.

Lemma chars_str l : chars (str l) = l.
Proof. apply String.list_ascii_of_string_of_list_ascii. Qed.
Lemma str_chars s : str (chars s) = s.
Proof. apply String.string_of_list_ascii_of_string. Qed.
Lemma chars_app a b : chars (a +:+ b) = chars a ++ chars b.
Proof. induction a as [|c a IH]; [done|]. exact (f_equal (cons c) IH). Qed.
Lemma str_app a b : str (a ++ b) = str a +:+ str b.
Proof. induction a as [|c a IH]; [done|]. exact (f_equal (String.String c) IH). Qed.
Lemma chars_cons c s : chars (String.String c s) = c :: chars s.
Proof. done. Qed.
Lemma chars_inj a b : chars a = chars b -> a = b.
Proof. intros H. by rewrite <- (str_chars a), H, str_chars. Qed.
Lemma str_inj a b : str a = str b -> a = b.
Proof. intros H. by rewrite <- (chars_str a), H, chars_str. Qed.
Lemma str_assoc a b c : a +:+ (b +:+ c) = (a +:+ b) +:+ c.
Proof. apply chars_inj. rewrite !chars_app. apply app_assoc. Qed.
Lemma chars_nil s : chars s = [] <-> s = "".
Proof. by destruct s. Qed.
Lemma str_nil l : str l = "" <-> l = [].
Proof. by destruct l. Qed.
#[export] Hint Rewrite chars_str str_chars chars_app str_app : go_rw.

Notation "a =c b" := (Ascii.eqb a b) (at level 70, no associativity) : go_scope.

Ltac char_case a b :=
  let E := fresh "E" in
  destruct (Ascii.eqb_spec a b) as [E|E]; [subst|].

(** ** package strings *)

Fixpoint is_prefix (p l : list ascii) : bool :=
  match p, l with
  | [], _ => true
  | x :: p', y :: l' => (x =c y) && is_prefix p' l'
  | _ :: _, [] => false
  end.

Lemma is_prefix_spec p l : is_prefix p l = true <-> exists r, l = p ++ r.
Proof.
  revert l. induction p as [|x p IH]; intros l; simpl.
  - split; [by exists l | done].
  - destruct l as [|y l]; simpl; [split; [done|by intros (?&?)]|].
    rewrite andb_true_iff, IH, Ascii.eqb_eq. split.
    + intros [-> [r ->]]. by exists r.
    + intros [r H]. simplify_eq. eauto.
Qed.

Definition HasPrefix (s p : string) : bool := is_prefix (chars p) (chars s).

Definition TrimPrefix (s p : string) : string :=
  if HasPrefix s p then str (drop (length (chars p)) (chars s)) else s.

Definition HasSuffix (s p : string) : bool := is_prefix (rev (chars p)) (rev (chars s)).

Definition TrimSuffix (s p : string) : string :=
  if HasSuffix s p
  then str (take (length (chars s) - length (chars p)) (chars s)) else s.

Definition mem (c : ascii) (l : list ascii) : bool := existsb (Ascii.eqb c) l.

Lemma mem_spec c l : mem c l = true <-> c ∈ l.
Proof.
  unfold mem. rewrite existsb_exists. split.
  - intros (x & Hin & Hx). apply Ascii.eqb_eq in Hx as ->. by apply list_elem_of_In.
  - intros H. exists c. split; [by apply list_elem_of_In|apply Ascii.eqb_refl].
Qed.
Lemma mem_false c l : mem c l = false <-> c ∉ l.
Proof. rewrite <- mem_spec. by destruct (mem c l). Qed.

Definition ContainsAny (s cs : string) : bool :=
  existsb (fun c => mem c (chars cs)) (chars s).

Lemma ContainsAny_false s cs :
  ContainsAny s cs = false <-> forall c, c ∈ chars s -> c ∉ chars cs.
Proof.
  unfold ContainsAny. rewrite <- not_true_iff_false, existsb_exists. split.
  - intros H c Hc Hcs. apply H. exists c. by rewrite mem_spec, <- list_elem_of_In.
  - intros H (c & Hc & Hcs). rewrite mem_spec in Hcs. eapply H; [|done]. by apply list_elem_of_In.
Qed.

(** [sub] occurs in [l]. *)
Fixpoint has_sub (sub l : list ascii) : bool :=
  is_prefix sub l || match l with [] => false | _ :: l' => has_sub sub l' end.

Definition Contains (s sub : string) : bool := has_sub (chars sub) (chars s).

Lemma has_sub_spec sub l : has_sub sub l = true <-> exists a b, l = a ++ sub ++ b.
Proof.
  induction l as [|x l IH]; simpl; rewrite orb_true_iff, is_prefix_spec.
  - split.
    + intros [[r H]|]; [by exists [], r|done].
    + intros (a & b & H). left. destruct a; [by exists b|done].
  - rewrite IH. split.
    + intros [[r H]|(a & b & H)]; [by exists [], r|]. exists (x :: a), b. by rewrite H.
    + intros ([|y a] & b & H); simplify_eq/=; eauto.
Qed.

(** Split and Cut at a separator of one byte. *)
Fixpoint split_bytes (c : ascii) (l : list ascii) : list (list ascii) :=
  match l with
  | [] => [[]]
  | x :: l' =>
      if x =c c then [] :: split_bytes c l'
      else match split_bytes c l' with
           | [] => [[x]]
           | p :: ps => (x :: p) :: ps
           end
  end.

Definition Split (s : string) (c : ascii) : list string := str <$> split_bytes c (chars s).

Lemma split_bytes_nonempty c l : split_bytes c l <> [].
Proof. destruct l as [|x l]; simpl; [done|]. destruct (x =c c); [done|]. by destruct (split_bytes c l). Qed.

Lemma split_bytes_none c l : c ∉ l -> split_bytes c l = [l].
Proof.
  induction l as [|x l IH]; simpl; [done|]. intros [Hx Hl]%not_elem_of_cons.
  char_case x c; [done|]. by rewrite IH.
Qed.

Lemma split_bytes_app c a b :
  c ∉ a -> split_bytes c (a ++ c :: b) = a :: split_bytes c b.
Proof.
  induction a as [|x a IH]; simpl; [by rewrite Ascii.eqb_refl|].
  intros [Hx Ha]%not_elem_of_cons. char_case x c; [done|]. by rewrite IH.
Qed.

(** Every piece is free of the separator. *)
Lemma split_bytes_pieces c l : Forall (fun p => c ∉ p) (split_bytes c l).
Proof.
  induction l as [|x l IH]; simpl; [constructor; [apply not_elem_of_nil|constructor]|].
  char_case x c; [constructor; [apply not_elem_of_nil|done]|].
  destruct (split_bytes c l) as [|p ps]; inversion IH; subst.
  - constructor; [|constructor]. rewrite not_elem_of_cons. split; [done|apply not_elem_of_nil].
  - constructor; [|done]. rewrite not_elem_of_cons. done.
Qed.

Lemma split_bytes_incl c l p x : p ∈ split_bytes c l -> x ∈ p -> x ∈ l.
Proof.
  revert p. induction l as [|y l IH]; simpl; intros p.
  - intros ->%list_elem_of_singleton. done.
  - destruct (y =c c).
    + intros [->|Hp]%elem_of_cons Hx; [by apply elem_of_nil in Hx|]. right. by eapply IH.
    + destruct (split_bytes c l) as [|q qs] eqn:Eq; [by destruct (split_bytes_nonempty c l)|].
      intros [->|Hp]%elem_of_cons Hx; [|right; eapply IH; [by right|done]].
      apply elem_of_cons in Hx as [->|Hx]; [by left|]. right. eapply IH; [by left|done].
Qed.

(** The pieces determine the text. *)
Fixpoint join_bytes (c : ascii) (ps : list (list ascii)) : list ascii :=
  match ps with
  | [] => []
  | [p] => p
  | p :: ps' => p ++ c :: join_bytes c ps'
  end.
Lemma join_split c l : join_bytes c (split_bytes c l) = l.
Proof.
  induction l as [|x l IH]; [done|]. cbn [split_bytes].
  pose proof (split_bytes_nonempty c l) as Hne. destruct (Ascii.eqb_spec x c) as [->|].
  - destruct (split_bytes c l); [done|]. change (c :: join_bytes c (l0 :: l1) = c :: l). by rewrite IH.
  - destruct (split_bytes c l) as [|p [|q ps]]; [done|simpl in *; by rewrite IH|].
    change (x :: join_bytes c (p :: q :: ps) = x :: l). by rewrite IH.
Qed.
Lemma split_bytes_inj c a b : split_bytes c a = split_bytes c b -> a = b.
Proof. intros H. by rewrite <- (join_split c a), H, join_split. Qed.

(** [Split] has one piece exactly on strings without the separator. *)
Lemma split_bytes_single c l p : split_bytes c l = [p] -> l = p /\ c ∉ l.
Proof.
  revert p. induction l as [|x l IH]; simpl; intros p H.
  - simplify_eq. split; [done|apply not_elem_of_nil].
  - char_case x c; [by destruct (split_bytes_nonempty c l); simplify_eq|].
    destruct (split_bytes c l) as [|q [|r qs]] eqn:Es; simplify_eq.
    + by destruct (split_bytes_nonempty c l).
    + destruct (IH _ eq_refl) as [-> ?]. by rewrite not_elem_of_cons.
Qed.

Fixpoint cut_bytes (c : ascii) (l : list ascii) : list ascii * list ascii * bool :=
  match l with
  | [] => ([], [], false)
  | x :: l' =>
      if x =c c then ([], l', true)
      else let '(a, b, found) := cut_bytes c l' in (x :: a, b, found)
  end.

Definition Cut (s : string) (c : ascii) : string * string * bool :=
  let '(a, b, found) := cut_bytes c (chars s) in (str a, str b, found).

Lemma cut_bytes_app c a b : c ∉ a -> cut_bytes c (a ++ c :: b) = (a, b, true).
Proof.
  induction a as [|x a IH]; simpl; [by rewrite Ascii.eqb_refl|].
  intros [Hx Ha]%not_elem_of_cons. char_case x c; [done|]. by rewrite IH.
Qed.

(** Replacer and ReplaceAll with one-byte patterns. *)
Definition replace1 (a b : ascii) (c : ascii) : ascii := if c =c a then b else c.
Definition ReplaceAll1 (s : string) (a b : ascii) : string :=
  str (replace1 a b <$> chars s).

(** Trim, TrimRight with a cutset. *)
Fixpoint drop_while (f : ascii -> bool) (l : list ascii) : list ascii :=
  match l with
  | [] => []
  | x :: l' => if f x then drop_while f l' else l
  end.
Definition trim_left (cs l : list ascii) := drop_while (fun c => mem c cs) l.
Definition trim_right (cs l : list ascii) := rev (drop_while (fun c => mem c cs) (rev l)).
Definition Trim (s cs : string) : string := str (trim_right (chars cs) (trim_left (chars cs) (chars s))).
Definition TrimRight (s cs : string) : string := str (trim_right (chars cs) (chars s)).

Lemma drop_while_suffix f l : exists p, l = p ++ drop_while f l /\ Forall (fun c => f c = true) p.
Proof.
  induction l as [|x l (p & H & Hp)]; simpl; [by exists []|].
  destruct (f x) eqn:E; [|by exists []]. exists (x :: p). split; [by rewrite H at 1|by constructor].
Qed.
Lemma drop_while_head f l x r : drop_while f l = x :: r -> f x = false.
Proof.
  induction l as [|y l IH]; simpl; [done|]. destruct (f y) eqn:E; [done|]. intros. by simplify_eq.
Qed.

(** TrimSpace removes leading and trailing Unicode white space; the UTF-8
    encodings of the White_Space code points are listed. *)
Definition byte (n : N) : ascii := ascii_of_N n.
Definition space_runes : list (list ascii) :=
  (fun n => [byte n]) <$> [9; 10; 11; 12; 13; 32]%N.
Definition space_runes_wide : list (list ascii) :=
  [ [byte 0xC2; byte 0x85]; [byte 0xC2; byte 0xA0]; [byte 0xE1; byte 0x9A; byte 0x80];
    [byte 0xE2; byte 0x80; byte 0xA8]; [byte 0xE2; byte 0x80; byte 0xA9];
    [byte 0xE2; byte 0x80; byte 0xAF]; [byte 0xE2; byte 0x81; byte 0x9F];
    [byte 0xE3; byte 0x80; byte 0x80] ]
  ++ ((fun n => [byte 0xE2; byte 0x80; byte n]) <$>
       [0x80; 0x81; 0x82; 0x83; 0x84; 0x85; 0x86; 0x87; 0x88; 0x89; 0x8A]%N).
Definition spaces : list (list ascii) := space_runes ++ space_runes_wide.

Fixpoint trim_runes (n : nat) (runes : list (list ascii)) (l : list ascii) : list ascii :=
  match n with
  | O => l
  | S n =>
      match List.find (fun r => is_prefix r l) runes with
      | Some r => trim_runes n runes (drop (length r) l)
      | None => l
      end
  end.

Definition TrimSpace (s : string) : string :=
  let l := trim_runes (length (chars s)) spaces (chars s) in
  str (rev (trim_runes (length l) ((fun r => rev r) <$> spaces) (rev l))).

(** ToLower on the ASCII letters, and on the two non-ASCII letters whose
    lower case is ASCII (U+0130 to i, U+212A to k); other non-ASCII bytes
    are kept. *)
Definition lower_ascii (c : ascii) : ascii :=
  let n := N_of_ascii c in
  if ((65 <=? n) && (n <=? 90))%N then byte (n + 32) else c.
Fixpoint lower_bytes (l : list ascii) : list ascii :=
  match l with
  | a :: l1 =>
      match l1 with
      | b :: l2 =>
          if (a =c byte 0xC4) && (b =c byte 0xB0) then byte 105 :: lower_bytes l2
          else match l2 with
               | c :: l3 =>
                   if (a =c byte 0xE2) && (b =c byte 0x84) && (c =c byte 0xAA)
                   then byte 107 :: lower_bytes l3
                   else lower_ascii a :: lower_bytes l1
               | [] => lower_ascii a :: lower_bytes l1
               end
      | [] => lower_ascii a :: lower_bytes l1
      end
  | [] => []
  end.
Definition ToLower (s : string) : string := str (lower_bytes (chars s)).

(** ** package net/url: QueryUnescape *)
Definition unhex (c : ascii) : option N :=
  let n := N_of_ascii c in
  if ((48 <=? n) && (n <=? 57))%N then Some (n - 48)%N
  else if ((97 <=? n) && (n <=? 102))%N then Some (n - 87)%N
  else if ((65 <=? n) && (n <=? 70))%N then Some (n - 55)%N
  else None.

Fixpoint unescape (l : list ascii) : option (list ascii) :=
  match l with
  | [] => Some []
  | x :: l' =>
      if x =c "%"%char then
        match l' with
        | a :: b :: l'' =>
            match unhex a, unhex b with
            | Some h, Some k =>
                match unescape l'' with
                | Some r => Some (byte (16 * h + k) :: r)
                | None => None
                end
            | _, _ => None
            end
        | _ => None
        end
      else
        match unescape l' with
        | Some r => Some ((if x =c "+"%char then " "%char else x) :: r)
        | None => None
        end
  end.
Definition QueryUnescape (s : string) : option string := str <$> unescape (chars s).

(** ** package encoding/base64 *)
Section base64.
Variable alphabet : list ascii.

Definition b64_char (n : N) : ascii := nth (N.to_nat n) alphabet "A"%char.
Fixpoint index_of (c : ascii) (l : list ascii) : option nat :=
  match l with
  | [] => None
  | x :: l' => if x =c c then Some 0 else S <$> index_of c l'
  end.
Definition b64_val (c : ascii) : option N := N.of_nat <$> index_of c alphabet.

Definition val24 (a b c : N) : N := (a * 65536 + b * 256 + c)%N.

Fixpoint b64_encode (l : list ascii) : list ascii :=
  match l with
  | [] => []
  | [a] =>
      let v := val24 (N_of_ascii a) 0 0 in
      [b64_char (v / 262144); b64_char (v / 4096 mod 64); "="%char; "="%char]
  | [a; b] =>
      let v := val24 (N_of_ascii a) (N_of_ascii b) 0 in
      [b64_char (v / 262144); b64_char (v / 4096 mod 64); b64_char (v / 64 mod 64); "="%char]
  | a :: b :: c :: l' =>
      let v := val24 (N_of_ascii a) (N_of_ascii b) (N_of_ascii c) in
      b64_char (v / 262144) :: b64_char (v / 4096 mod 64)
        :: b64_char (v / 64 mod 64) :: b64_char (v mod 64) :: b64_encode l'
  end.

Definition quantum (x y z t : N) : N := (x * 262144 + y * 4096 + z * 64 + t)%N.
Definition byte_at (v d : N) : ascii := byte (v / d mod 256).

(** Decoding skips CR and LF, wants the padding, and ignores trailing bits. *)
Fixpoint b64_quanta (l : list ascii) : option (list ascii) :=
  match l with
  | [] => Some []
  | a :: b :: c :: d :: l' =>
      match b64_val a, b64_val b with
      | Some x, Some y =>
          if c =c "="%char then
            if (d =c "="%char) && match l' with [] => true | _ => false end
            then Some [byte_at (quantum x y 0 0) 65536] else None
          else match b64_val c with
          | None => None
          | Some z =>
              if d =c "="%char then
                match l' with
                | [] => let v := quantum x y z 0 in Some [byte_at v 65536; byte_at v 256]
                | _ => None
                end
              else match b64_val d, b64_quanta l' with
              | Some t, Some r =>
                  let v := quantum x y z t in
                  Some (byte_at v 65536 :: byte_at v 256 :: byte_at v 1 :: r)
              | _, _ => None
              end
          end
      | _, _ => None
      end
  | _ => None
  end.
Definition is_newline (c : ascii) : bool := (c =c byte 10) || (c =c byte 13).
Definition b64_decode (l : list ascii) : option (list ascii) :=
  b64_quanta (List.filter (fun c => negb (is_newline c)) l).
End base64.

Ltac Zify.zify_post_hook ::= Z.to_euclidean_division_equations.

Section base64_roundtrip.
Variable alphabet : list ascii.

(** The 64 letters are distinct, and none is the padding or a line break. *)
Definition alphabet_ok : bool :=
  forallb (fun i =>
    let c := b64_char alphabet (N.of_nat i) in
    bool_decide (b64_val alphabet c = Some (N.of_nat i))
    && negb (c =c "="%char) && negb (is_newline c)) (seq 0 64).

Hypothesis Hok : alphabet_ok = true.

Lemma b64_letter n : (n < 64)%N ->
  b64_val alphabet (b64_char alphabet n) = Some n
  /\ (b64_char alphabet n =c "="%char) = false
  /\ is_newline (b64_char alphabet n) = false.
Proof using Hok.
  intros Hn. unfold alphabet_ok in Hok. rewrite forallb_forall in Hok.
  specialize (Hok (N.to_nat n)). rewrite N2Nat.id in Hok.
  assert (Hin : In (N.to_nat n) (seq 0 64)) by (apply in_seq; lia).
  specialize (Hok Hin). cbv zeta in Hok.
  rewrite !andb_true_iff, !negb_true_iff, bool_decide_eq_true in Hok. tauto.
Qed.

Lemma byte_bound c : (N_of_ascii c < 256)%N.
Proof. apply N_ascii_bounded. Qed.

Lemma quantum_val24 v : (v < 16777216)%N ->
  quantum (v / 262144) (v / 4096 mod 64) (v / 64 mod 64) (v mod 64) = v.
Proof. unfold quantum. intros. lia. Qed.

Lemma val24_bytes a b c : (a < 256)%N -> (b < 256)%N -> (c < 256)%N ->
  let v := val24 a b c in
  (v < 16777216 /\ v / 65536 mod 256 = a /\ v / 256 mod 256 = b /\ v / 1 mod 256 = c)%N.
Proof.
  intros Ha Hb Hc. unfold val24. cbv zeta. rewrite N.div_1_r. repeat split; lia.
Qed.

Lemma sextets_small v : (v < 16777216)%N ->
  (v / 262144 < 64 /\ v / 4096 mod 64 < 64 /\ v / 64 mod 64 < 64 /\ v mod 64 < 64)%N.
Proof. intros. repeat split; lia. Qed.

Lemma low_sextets_zero a : (val24 a 0 0 / 64 mod 64 = 0 /\ val24 a 0 0 mod 64 = 0)%N.
Proof. unfold val24. split; lia. Qed.
Lemma low_sextet_zero a b : (b < 256)%N -> (val24 a b 0 mod 64 = 0)%N.
Proof. unfold val24. lia. Qed.

Lemma byte_at_val24 a b c :
  byte_at (val24 (N_of_ascii a) (N_of_ascii b) (N_of_ascii c)) 65536 = a
  /\ byte_at (val24 (N_of_ascii a) (N_of_ascii b) (N_of_ascii c)) 256 = b
  /\ byte_at (val24 (N_of_ascii a) (N_of_ascii b) (N_of_ascii c)) 1 = c.
Proof.
  destruct (val24_bytes _ _ _ (byte_bound a) (byte_bound b) (byte_bound c)) as (_ & Ea & Eb & Ec).
  unfold byte_at, byte. rewrite Ea, Eb, Ec. by rewrite !ascii_N_embedding.
Qed.

Lemma list_ind3 {A} (P : list A -> Prop) :
  P [] -> (forall a, P [a]) -> (forall a b, P [a; b]) ->
  (forall a b c l, P l -> P (a :: b :: c :: l)) -> forall l, P l.
Proof.
  intros H0 H1 H2 H3. fix IH 1. intros [|a [|b [|c l]]]; [done|apply H1|apply H2|].
  apply H3. apply IH.
Qed.

Lemma byte_sextets a b c :
  let v := val24 (N_of_ascii a) (N_of_ascii b) (N_of_ascii c) in
  (v / 262144 < 64 /\ v / 4096 mod 64 < 64 /\ v / 64 mod 64 < 64 /\ v mod 64 < 64)%N.
Proof. apply sextets_small, val24_bytes; apply byte_bound. Qed.

(** The encoding uses letters of the alphabet and the padding only. *)
Lemma b64_encode_letters l :
  Forall (fun c => c = "="%char \/ exists n, (n < 64)%N /\ c = b64_char alphabet n)
    (b64_encode alphabet l).
Proof.
  induction l as [|a|a b|a b c l IH] using list_ind3; cbn [b64_encode]; cbv zeta.
  - constructor.
  - destruct (byte_sextets a zero zero) as (? & ? & _). change (N_of_ascii zero) with 0%N in *.
    repeat apply Forall_cons_2; eauto.
  - destruct (byte_sextets a b zero) as (? & ? & ? & _). change (N_of_ascii zero) with 0%N in *.
    repeat apply Forall_cons_2; eauto.
  - destruct (byte_sextets a b c) as (? & ? & ? & ?).
    repeat apply Forall_cons_2; eauto.
Qed.

Lemma b64_encode_no_newline l :
  Forall (fun c => negb (is_newline c) = true) (b64_encode alphabet l).
Proof using Hok.
  eapply Forall_impl; [apply b64_encode_letters|].
  intros c [->|(n & Hn & ->)]; [done|]. by destruct (b64_letter n Hn) as (_ & _ & ->).
Qed.

Lemma b64_roundtrip l : b64_decode alphabet (b64_encode alphabet l) = Some l.
Proof using Hok.
  unfold b64_decode.
  assert (Hf : List.filter (fun c => negb (is_newline c)) (b64_encode alphabet l)
               = b64_encode alphabet l).
  { pose proof (b64_encode_no_newline l) as H. induction H as [|c l' Hc H IH]; [done|].
    simpl. by rewrite Hc, IH. }
  rewrite Hf. clear Hf.
  induction l as [|a|a b|a b c l IH] using list_ind3; cbn [b64_encode b64_quanta]; cbv zeta.
  - done.
  - destruct (val24_bytes (N_of_ascii a) 0 0 (byte_bound a) eq_refl eq_refl) as (Hv & _).
    pose proof (quantum_val24 _ Hv) as Hq. destruct (low_sextets_zero (N_of_ascii a)) as [Hz Ht].
    rewrite Hz, Ht in Hq. destruct (sextets_small _ Hv) as (Hx & Hy & _).
    destruct (b64_letter _ Hx) as (-> & _), (b64_letter _ Hy) as (-> & _).
    simpl. rewrite Hq.
    destruct (byte_at_val24 a zero zero) as (Ea & _). change (N_of_ascii zero) with 0%N in Ea.
    by rewrite Ea.
  - destruct (val24_bytes (N_of_ascii a) (N_of_ascii b) 0 (byte_bound a) (byte_bound b) eq_refl) as (Hv & _).
    pose proof (quantum_val24 _ Hv) as Hq.
    rewrite (low_sextet_zero (N_of_ascii a) (N_of_ascii b) (byte_bound b)) in Hq.
    destruct (sextets_small _ Hv) as (Hx & Hy & Hz & _).
    destruct (b64_letter _ Hx) as (-> & _), (b64_letter _ Hy) as (-> & _).
    destruct (b64_letter _ Hz) as (-> & -> & _). simpl. rewrite Hq.
    destruct (byte_at_val24 a b zero) as (Ea & Eb & _). change (N_of_ascii zero) with 0%N in *.
    by rewrite Ea, Eb.
  - destruct (val24_bytes _ _ _ (byte_bound a) (byte_bound b) (byte_bound c)) as (Hv & _).
    pose proof (quantum_val24 _ Hv) as Hq.
    destruct (sextets_small _ Hv) as (Hx & Hy & Hz & Ht).
    destruct (b64_letter _ Hx) as (-> & _), (b64_letter _ Hy) as (-> & _).
    destruct (b64_letter _ Hz) as (-> & -> & _), (b64_letter _ Ht) as (-> & -> & _).
    rewrite IH, Hq. by destruct (byte_at_val24 a b c) as (-> & -> & ->).
Qed.
End base64_roundtrip.

Definition std_alphabet : list ascii :=
  chars "ABCDEFGHIJKLMNOPQRSTUVWXYZabcdefghijklmnopqrstuvwxyz0123456789+/".
Definition url_alphabet : list ascii :=
  chars "ABCDEFGHIJKLMNOPQRSTUVWXYZabcdefghijklmnopqrstuvwxyz0123456789-_".

Lemma std_alphabet_ok : alphabet_ok std_alphabet = true.
Proof. vm_compute. reflexivity. Qed.
Lemma url_alphabet_ok : alphabet_ok url_alphabet = true.
Proof. vm_compute. reflexivity. Qed.

Module StdEncoding.
Definition EncodeToString (l : list ascii) : string := str (b64_encode std_alphabet l).
Definition DecodeString (s : string) : option (list ascii) := b64_decode std_alphabet (chars s).
Lemma roundtrip l : DecodeString (EncodeToString l) = Some l.
Proof.
  unfold DecodeString, EncodeToString. rewrite chars_str.
  apply b64_roundtrip, std_alphabet_ok.
Qed.
End StdEncoding.
Module URLEncoding.
Definition EncodeToString (l : list ascii) : string := str (b64_encode url_alphabet l).
Definition DecodeString (s : string) : option (list ascii) := b64_decode url_alphabet (chars s).
End URLEncoding.
