(* ===== verification/Errors.v ===== *)
(** * pkg/errors: the error values of SuperMQ

    Source: src/pkg/errors/errors.go, error_types.go, sdk_errors.go, types.go,
    repository/types.go, service/types.go; the HTTP encoding of errors is
    EncodeError of src/api/http/common.go.

    Every error of the package is a message with an optional wrapped error
    and a concrete type; the concrete type is what the HTTP and gRPC edges
    turn into a status code.  A package-level variable has an identity
    ([addr]), which is what a comparison [err == ErrNotFound] looks at; the
    values built by [Wrap] are new objects ([addr = None]).  Errors of other
    packages ([fmt.Errorf], the standard library, a driver) are [Foreign]. *)

From S2P Require Import Prelude GoStd.

(** The concrete types of the package; an [*sdkError] is a custom error with
    an HTTP status. *)
Inductive kind :=
| CustomError | RequestError | AuthNError | AuthZError
| InternalError | ServiceError | MediaTypeError | NotFoundError
| SDKError (statusCode : Z).

#[global] Instance kind_eq_dec : EqDecision kind.
Proof. solve_decision. Defined.

(** [isNestable]: every type but the plain [*customError] and the [*sdkError]
    has the method. *)
Definition isNestable (k : kind) : bool :=
  match k with CustomError | SDKError _ => false | _ => true end.

#[warnings="-register-all"]
Inductive err : Type :=
| Err (addr : option string) (k : kind) (msg : string) (inner : option err)
| Foreign (addr : option string) (msg : string) (unwrap : option err).

(** A value of Go's [error] interface; [None] is nil. *)
Definition error : Type := option err.

Definition Sentinel (name : string) (k : kind) (msg : string) : err := Err (Some name) k msg None.
Definition New (text : string) : err := Err None CustomError text None.
Definition NewInternalErrorWithErr (e : error) : err :=
  Err None InternalError "internal server error" e.
(** [fmt.Errorf] without a wrapping verb. *)
Definition Errorf (msg : string) : err := Foreign None msg None.

(** http.StatusText of the standard library. *)
Definition status_texts : list (Z * string) :=
  [(100, "Continue"); (101, "Switching Protocols"); (102, "Processing"); (103, "Early Hints");
   (200, "OK"); (201, "Created"); (202, "Accepted"); (203, "Non-Authoritative Information"); (204, "No Content");
   (205, "Reset Content"); (206, "Partial Content"); (207, "Multi-Status"); (208, "Already Reported"); (226, "IM Used");
   (300, "Multiple Choices"); (301, "Moved Permanently"); (302, "Found"); (303, "See Other"); (304, "Not Modified");
   (305, "Use Proxy"); (307, "Temporary Redirect"); (308, "Permanent Redirect");
   (400, "Bad Request"); (401, "Unauthorized"); (402, "Payment Required"); (403, "Forbidden"); (404, "Not Found");
   (405, "Method Not Allowed"); (406, "Not Acceptable"); (407, "Proxy Authentication Required"); (408, "Request Timeout");
   (409, "Conflict"); (410, "Gone"); (411, "Length Required"); (412, "Precondition Failed");
   (413, "Request Entity Too Large"); (414, "Request URI Too Long"); (415, "Unsupported Media Type");
   (416, "Requested Range Not Satisfiable"); (417, "Expectation Failed"); (418, "I'm a teapot");
   (421, "Misdirected Request"); (422, "Unprocessable Entity"); (423, "Locked"); (424, "Failed Dependency");
   (425, "Too Early"); (426, "Upgrade Required"); (428, "Precondition Required"); (429, "Too Many Requests");
   (431, "Request Header Fields Too Large"); (451, "Unavailable For Legal Reasons");
   (500, "Internal Server Error"); (501, "Not Implemented"); (502, "Bad Gateway"); (503, "Service Unavailable");
   (504, "Gateway Timeout"); (505, "HTTP Version Not Supported"); (506, "Variant Also Negotiates");
   (507, "Insufficient Storage"); (508, "Loop Detected"); (510, "Not Extended");
   (511, "Network Authentication Required")]%Z.
Definition StatusText (code : Z) : string :=
  from_option snd "" (List.find (fun kv => Z.eqb kv.1 code) status_texts).

Fixpoint Error (e : err) : string :=
  match e with
  | Err _ k msg inner =>
      let text := match inner with None => msg | Some e' => msg +:+ " : " +:+ Error e' end in
      match k with
      | SDKError code => "Status: " +:+ StatusText code +:+ ": " +:+ text
      | _ => text
      end
  | Foreign _ msg _ => msg
  end.

Definition Msg (e : err) : string :=
  match e with Err _ _ msg _ | Foreign _ msg _ => msg end.

Definition addr_of (e : err) : option string :=
  match e with Err a _ _ _ | Foreign a _ _ => a end.

(** [err == s] for a package-level variable [s]. *)
Definition is_sentinel (e : error) (s : err) : bool :=
  match e, addr_of s with
  | Some e, Some a => bool_decide (addr_of e = Some a)
  | _, _ => false
  end.

(** [errors.Is] of the standard library: the chain of [Unwrap] methods;
    the types of this package have none. *)
Fixpoint errors_Is (e1 e2 : err) : bool :=
  is_sentinel (Some e1) e2 ||
  match e1 with
  | Foreign _ _ (Some u) => errors_Is u e2
  | _ => false
  end.

Fixpoint contains_err (e1 e2 : err) : bool :=
  match e1 with
  | Err _ _ msg inner =>
      (msg =s Error e2) ||
      match inner with Some e1' => contains_err e1' e2 | None => false end
  | Foreign _ msg _ => errors_Is e1 e2 || (msg =s Error e2)
  end.

Definition Contains (e1 e2 : error) : bool :=
  match e1, e2 with
  | Some e1, Some e2 => contains_err e1 e2
  | None, None => true
  | _, _ => false
  end.

(** [cast] makes an error of another package a plain one. *)
Definition cast (e : error) : error :=
  match e with
  | None => None
  | Some (Err _ _ _ _) => e
  | Some (Foreign _ msg _) => Some (New msg)
  end.

Fixpoint depth (e : err) : nat :=
  match e with
  | Err _ _ _ (Some e') => S (depth e')
  | _ => 1
  end.

(** [Wrap] and the [Embed] methods are mutually recursive; each call of
    [Wrap] from an [Embed] takes one layer off one of the two errors, so the
    sum of the depths bounds the recursion. *)
Fixpoint wrap_fuel (n : nat) (wrapper e : error) : error :=
  match n with
  | O => wrapper
  | S n =>
      match wrapper, e with
      | None, _ | _, None => wrapper
      | Some w, Some x =>
          let embed k msg inner (y : error) := Some (Err None k msg (wrap_fuel n y inner)) in
          match x, w with
          | Err _ k msg inner, _ =>
              if isNestable k then embed k msg inner wrapper
              else match w with
                   | Err _ kw msgw innerw =>
                       if isNestable kw then embed kw msgw innerw e
                       else Some (Err None CustomError (Error w) (cast e))
                   | Foreign _ _ _ => Some (Err None CustomError (Error w) (cast e))
                   end
          | Foreign _ _ _, Err _ kw msgw innerw =>
              if isNestable kw then embed kw msgw innerw e
              else Some (Err None CustomError (Error w) (cast e))
          | Foreign _ _ _, Foreign _ _ _ => Some (Err None CustomError (Error w) (cast e))
          end
      end
  end.

Definition depth_of (e : error) : nat := match e with Some e => depth e | None => 0 end.

Definition Wrap (wrapper e : error) : error :=
  wrap_fuel (S (depth_of wrapper + depth_of e)) wrapper e.

(** [Unwrap]: the outer message as an error, and what it wraps. *)
Definition Unwrap (e : error) : error * error :=
  match e with
  | None => (None, None)
  | Some (Err _ _ msg None) => (None, Some (New msg))
  | Some (Err _ _ msg inner) => (Some (New msg), inner)
  | Some (Foreign _ _ _) => (None, e)
  end.

(** [Embed] of each concrete type: the type and the message are kept and the
    argument goes in front of what was wrapped; an SDK error has the method of
    the custom error in it. *)
Definition Embed (e : err) (x : error) : error :=
  match e with
  | Err a k msg inner =>
      let k := match k with SDKError _ => CustomError | _ => k end in
      match x with
      | None => Some (if isNestable k then Err None k msg inner else Err a k msg inner)
      | Some _ => Some (Err None k msg (Wrap x inner))
      end
  | Foreign _ _ _ => Some e
  end.

(** [NewSDKErrorWithStatus], and [NewSDKError] without a status. *)
Definition NewSDKErrorWithStatus (e : error) (statusCode : Z) : error :=
  match e with
  | None => None
  | Some (Err _ _ msg inner) => Some (Err None (SDKError statusCode) msg (cast inner))
  | Some (Foreign _ msg _) => Some (Err None (SDKError statusCode) msg None)
  end.
Definition NewSDKError (e : error) : error := NewSDKErrorWithStatus e 0.

Definition kind_of (e : error) : option kind :=
  match e with Some (Err _ k _ _) => Some k | _ => None end.
Definition nestable (e : error) : bool :=
  match kind_of e with Some k => isNestable k | None => false end.

(** The messages of the layers, outermost first. *)
Fixpoint layers (e : err) : list string :=
  match e with
  | Err _ _ msg None => [msg]
  | Err _ _ msg (Some e') => msg :: layers e'
  | Foreign _ msg _ => [msg]
  end.

(** ** The package-level errors *)
Module errs.
(* src/pkg/errors/types.go *)
Definition ErrMalformedEntity : err := Sentinel "errors.ErrMalformedEntity" RequestError "malformed entity specification".
Definition ErrUnsupportedContentType : err := Sentinel "errors.ErrUnsupportedContentType" CustomError "invalid content type".
Definition ErrUnidentified : err := Sentinel "errors.ErrUnidentified" CustomError "unidentified error".
Definition ErrEmptyPath : err := Sentinel "errors.ErrEmptyPath" CustomError "empty file path".
Definition ErrRollbackTx : err := Sentinel "errors.ErrRollbackTx" CustomError "failed to rollback transaction".
Definition ErrAuthentication : err := Sentinel "errors.ErrAuthentication" CustomError "failed to perform authentication over the entity".
Definition ErrAuthorization : err := Sentinel "errors.ErrAuthorization" CustomError "failed to perform authorization over the entity".
Definition ErrMissingDomainMember : err := Sentinel "errors.ErrMissingDomainMember" CustomError "member id is not member of domain".
Definition ErrMissingMember : err := Sentinel "errors.ErrMissingMember" CustomError "member id is not found".
Definition ErrEmailAlreadyExists : err := Sentinel "errors.ErrEmailAlreadyExists" CustomError "email id already registered".
Definition ErrUsernameNotAvailable : err := Sentinel "errors.ErrUsernameNotAvailable" CustomError "username not available".
Definition ErrDomainRouteNotAvailable : err := Sentinel "errors.ErrDomainRouteNotAvailable" CustomError "domain route not available".
Definition ErrChannelRouteNotAvailable : err := Sentinel "errors.ErrChannelRouteNotAvailable" CustomError "channel route not available".
Definition ErrTryAgain : err := Sentinel "errors.ErrTryAgain" CustomError "Something went wrong, please try again".
Definition ErrRouteNotAvailable : err := Sentinel "errors.ErrRouteNotAvailable" RequestError "route not available".
End errs.

Module repoerr.
(* src/pkg/errors/repository/types.go *)
Definition ErrMalformedEntity : err := Sentinel "repoerr.ErrMalformedEntity" CustomError "malformed entity specification".
Definition ErrNotFound : err := Sentinel "repoerr.ErrNotFound" NotFoundError "entity not found".
Definition ErrConflict : err := Sentinel "repoerr.ErrConflict" CustomError "entity already exists".
Definition ErrCreateEntity : err := Sentinel "repoerr.ErrCreateEntity" CustomError "failed to create entity in the db".
Definition ErrViewEntity : err := Sentinel "repoerr.ErrViewEntity" CustomError "view entity failed".
Definition ErrUpdateEntity : err := Sentinel "repoerr.ErrUpdateEntity" CustomError "update entity failed".
Definition ErrRemoveEntity : err := Sentinel "repoerr.ErrRemoveEntity" CustomError "failed to remove entity".
Definition ErrFailedOpDB : err := Sentinel "repoerr.ErrFailedOpDB" CustomError "operation on db element failed".
Definition ErrRetrieveAllUsers : err := Sentinel "repoerr.ErrRetrieveAllUsers" CustomError "failed to retrieve all users".
Definition ErrFailedToRetrieveAllGroups : err := Sentinel "repoerr.ErrFailedToRetrieveAllGroups" CustomError "failed to retrieve all groups".
Definition ErrRoleMigration : err := Sentinel "repoerr.ErrRoleMigration" CustomError "failed to apply role migration".
Definition ErrMissingNames : err := Sentinel "repoerr.ErrMissingNames" CustomError "missing first or last name".
Definition ErrMarshalBDEntity : err := Sentinel "repoerr.ErrMarshalBDEntity" CustomError "failed to marshal db entity".
Definition ErrUnmarshalBDEntity : err := Sentinel "repoerr.ErrUnmarshalBDEntity" CustomError "failed to unmarshal db entity".
Definition ErrParseQueryParams : err := Sentinel "repoerr.ErrParseQueryParams" RequestError "failed to parse query parameters".
End repoerr.

Module svcerr.
(* src/pkg/errors/service/types.go *)
Definition ErrAuthentication : err := Sentinel "svcerr.ErrAuthentication" AuthNError "failed to perform authentication over the entity".
Definition ErrLogin : err := Sentinel "svcerr.ErrLogin" AuthNError "invalid credentials".
Definition ErrAuthorization : err := Sentinel "svcerr.ErrAuthorization" AuthZError "failed to perform authorization over the entity".
Definition ErrDomainAuthorization : err := Sentinel "svcerr.ErrDomainAuthorization" AuthZError "failed to perform authorization over the domain".
Definition ErrUnauthorizedPAT : err := Sentinel "svcerr.ErrUnauthorizedPAT" AuthZError "failed to authorize PAT".
Definition ErrSuperAdminAction : err := Sentinel "svcerr.ErrSuperAdminAction" AuthZError "not authorized to perform admin action".
Definition ErrCreateEntity : err := Sentinel "svcerr.ErrCreateEntity" ServiceError "failed to create entity".
Definition ErrRemoveEntity : err := Sentinel "svcerr.ErrRemoveEntity" ServiceError "failed to remove entity".
Definition ErrViewEntity : err := Sentinel "svcerr.ErrViewEntity" ServiceError "view entity failed".
Definition ErrUpdateEntity : err := Sentinel "svcerr.ErrUpdateEntity" ServiceError "update entity failed".
Definition ErrAddPolicies : err := Sentinel "svcerr.ErrAddPolicies" ServiceError "failed to add policies".
Definition ErrUserAlreadyVerified : err := Sentinel "svcerr.ErrUserAlreadyVerified" ServiceError "user already verified".
Definition ErrInvalidUserVerification : err := Sentinel "svcerr.ErrInvalidUserVerification" ServiceError "invalid verification".
Definition ErrIssueProviderID : err := Sentinel "svcerr.ErrIssueProviderID" ServiceError "failed to issue unique ID from id provider".
Definition ErrHashPassword : err := Sentinel "svcerr.ErrHashPassword" ServiceError "failed to hash password".
Definition ErrStatusAlreadyAssigned : err := Sentinel "svcerr.ErrStatusAlreadyAssigned" ServiceError "status already assigned".
Definition ErrDeletePolicies : err := Sentinel "svcerr.ErrDeletePolicies" ServiceError "failed to remove policies".
Definition ErrMissingUsername : err := Sentinel "svcerr.ErrMissingUsername" RequestError "missing usernames".
Definition ErrInvalidStatus : err := Sentinel "svcerr.ErrInvalidStatus" RequestError "invalid status".
Definition ErrInvalidRole : err := Sentinel "svcerr.ErrInvalidRole" RequestError "invalid client role".
Definition ErrMalformedEntity : err := Sentinel "svcerr.ErrMalformedEntity" CustomError "malformed entity specification".
Definition ErrNotFound : err := Sentinel "svcerr.ErrNotFound" NotFoundError "entity not found".
Definition ErrConflict : err := Sentinel "svcerr.ErrConflict" RequestError "entity already exists".
Definition ErrInvalidPolicy : err := Sentinel "svcerr.ErrInvalidPolicy" CustomError "invalid policy".
Definition ErrEnableClient : err := Sentinel "svcerr.ErrEnableClient" ServiceError "failed to enable client".
Definition ErrDisableClient : err := Sentinel "svcerr.ErrDisableClient" ServiceError "failed to disable client".
Definition ErrSearch : err := Sentinel "svcerr.ErrSearch" CustomError "failed to search clients".
Definition ErrInvitationAlreadyRejected : err := Sentinel "svcerr.ErrInvitationAlreadyRejected" RequestError "invitation already rejected".
Definition ErrInvitationAlreadyAccepted : err := Sentinel "svcerr.ErrInvitationAlreadyAccepted" RequestError "invitation already accepted".
Definition ErrParentGroupAuthorization : err := Sentinel "svcerr.ErrParentGroupAuthorization" CustomError "failed to authorize parent group".
Definition ErrEnableUser : err := Sentinel "svcerr.ErrEnableUser" ServiceError "failed to enable user".
Definition ErrDisableUser : err := Sentinel "svcerr.ErrDisableUser" ServiceError "failed to disable user".
Definition ErrRollbackRepo : err := Sentinel "svcerr.ErrRollbackRepo" CustomError "failed to rollback repo".
Definition ErrRetainOneMember : err := Sentinel "svcerr.ErrRetainOneMember" CustomError "must retain at least one member".
Definition ErrUserVerificationExpired : err := Sentinel "svcerr.ErrUserVerificationExpired" CustomError "verification expired, please generate new verification".
Definition ErrRegisterUser : err := Sentinel "svcerr.ErrRegisterUser" CustomError "failed to register user".
Definition ErrExternalAuthProviderCouldNotUpdate : err := Sentinel "svcerr.ErrExternalAuthProviderCouldNotUpdate" CustomError "account details can only be updated through your authentication provider's settings".
Definition ErrFailedToSaveEntityDB : err := Sentinel "svcerr.ErrFailedToSaveEntityDB" CustomError "failed to save entity to database".
End svcerr.

Module apiutil.
(* src/api/http/util/errors.go *)
Definition ErrValidation : err := Sentinel "apiutil.ErrValidation" RequestError "something went wrong with the request".
Definition ErrBearerToken : err := Sentinel "apiutil.ErrBearerToken" AuthNError "missing or invalid bearer user token".
Definition ErrBearerKey : err := Sentinel "apiutil.ErrBearerKey" AuthNError "missing or invalid bearer entity key".
Definition ErrMissingID : err := Sentinel "apiutil.ErrMissingID" RequestError "missing entity id".
Definition ErrMissingEntityID : err := Sentinel "apiutil.ErrMissingEntityID" RequestError "missing entity id".
Definition ErrMissingClientID : err := Sentinel "apiutil.ErrMissingClientID" RequestError "missing client id".
Definition ErrMissingChannelID : err := Sentinel "apiutil.ErrMissingChannelID" RequestError "missing channel id".
Definition ErrMissingConnectionType : err := Sentinel "apiutil.ErrMissingConnectionType" RequestError "missing connection type".
Definition ErrMissingParentGroupID : err := Sentinel "apiutil.ErrMissingParentGroupID" RequestError "missing parent group id".
Definition ErrMissingChildrenGroupIDs : err := Sentinel "apiutil.ErrMissingChildrenGroupIDs" RequestError "missing children group ids".
Definition ErrSelfParentingNotAllowed : err := Sentinel "apiutil.ErrSelfParentingNotAllowed" RequestError "self parenting not allowed".
Definition ErrInvalidChildGroupID : err := Sentinel "apiutil.ErrInvalidChildGroupID" RequestError "invalid child group id".
Definition ErrInvalidAuthKey : err := Sentinel "apiutil.ErrInvalidAuthKey" CustomError "invalid auth key".
Definition ErrInvalidIDFormat : err := Sentinel "apiutil.ErrInvalidIDFormat" RequestError "invalid id format provided".
Definition ErrNameSize : err := Sentinel "apiutil.ErrNameSize" RequestError "invalid name size".
Definition ErrEmailSize : err := Sentinel "apiutil.ErrEmailSize" RequestError "invalid email size".
Definition ErrInvalidRole : err := Sentinel "apiutil.ErrInvalidRole" RequestError "invalid client role".
Definition ErrLimitSize : err := Sentinel "apiutil.ErrLimitSize" RequestError "invalid limit size".
Definition ErrLevel : err := Sentinel "apiutil.ErrLevel" RequestError "invalid level".
Definition ErrOffsetSize : err := Sentinel "apiutil.ErrOffsetSize" RequestError "invalid offset size".
Definition ErrInvalidOrder : err := Sentinel "apiutil.ErrInvalidOrder" RequestError "invalid list order provided".
Definition ErrInvalidDirection : err := Sentinel "apiutil.ErrInvalidDirection" RequestError "invalid list direction provided".
Definition ErrInvalidMemberKind : err := Sentinel "apiutil.ErrInvalidMemberKind" RequestError "invalid member kind".
Definition ErrEmptyList : err := Sentinel "apiutil.ErrEmptyList" RequestError "empty list provided".
Definition ErrMissingRoleName : err := Sentinel "apiutil.ErrMissingRoleName" RequestError "empty role name".
Definition ErrMissingRoleID : err := Sentinel "apiutil.ErrMissingRoleID" RequestError "empty role id".
Definition ErrMissingRoleOperations : err := Sentinel "apiutil.ErrMissingRoleOperations" RequestError "empty role operations".
Definition ErrMissingRoleMembers : err := Sentinel "apiutil.ErrMissingRoleMembers" RequestError "empty role members".
Definition ErrMalformedPolicy : err := Sentinel "apiutil.ErrMalformedPolicy" RequestError "malformed policy".
Definition ErrMissingPolicySub : err := Sentinel "apiutil.ErrMissingPolicySub" RequestError "malformed policy subject".
Definition ErrMissingPolicyObj : err := Sentinel "apiutil.ErrMissingPolicyObj" RequestError "malformed policy object".
Definition ErrMalformedPolicyAct : err := Sentinel "apiutil.ErrMalformedPolicyAct" RequestError "malformed policy action".
Definition ErrMissingPolicyEntityType : err := Sentinel "apiutil.ErrMissingPolicyEntityType" RequestError "missing policy entity type".
Definition ErrMalformedPolicyPer : err := Sentinel "apiutil.ErrMalformedPolicyPer" RequestError "malformed policy permission".
Definition ErrMissingCertData : err := Sentinel "apiutil.ErrMissingCertData" RequestError "missing certificate data".
Definition ErrInvalidCertData : err := Sentinel "apiutil.ErrInvalidCertData" RequestError "invalid certificate data".
Definition ErrInvalidTopic : err := Sentinel "apiutil.ErrInvalidTopic" RequestError "invalid Subscription topic".
Definition ErrInvalidContact : err := Sentinel "apiutil.ErrInvalidContact" RequestError "invalid Subscription contact".
Definition ErrMissingEmail : err := Sentinel "apiutil.ErrMissingEmail" RequestError "missing email".
Definition ErrInvalidEmail : err := Sentinel "apiutil.ErrInvalidEmail" RequestError "invalid email".
Definition ErrMissingHost : err := Sentinel "apiutil.ErrMissingHost" RequestError "missing host".
Definition ErrMissingPass : err := Sentinel "apiutil.ErrMissingPass" RequestError "missing password".
Definition ErrMissingConfPass : err := Sentinel "apiutil.ErrMissingConfPass" RequestError "missing conf password".
Definition ErrInvalidResetPass : err := Sentinel "apiutil.ErrInvalidResetPass" RequestError "invalid reset password".
Definition ErrInvalidComparator : err := Sentinel "apiutil.ErrInvalidComparator" RequestError "invalid comparator".
Definition ErrMissingMemberIDs : err := Sentinel "apiutil.ErrMissingMemberIDs" RequestError "missing member ids".
Definition ErrMissingMemberType : err := Sentinel "apiutil.ErrMissingMemberType" RequestError "missing group member type".
Definition ErrMissingMemberKind : err := Sentinel "apiutil.ErrMissingMemberKind" RequestError "missing group member kind".
Definition ErrMissingRelation : err := Sentinel "apiutil.ErrMissingRelation" RequestError "missing relation".
Definition ErrInvalidRelation : err := Sentinel "apiutil.ErrInvalidRelation" RequestError "invalid relation".
Definition ErrInvalidAPIKey : err := Sentinel "apiutil.ErrInvalidAPIKey" RequestError "invalid api key type".
Definition ErrInvitationState : err := Sentinel "apiutil.ErrInvitationState" RequestError "invalid invitation state".
Definition ErrMissingIdentity : err := Sentinel "apiutil.ErrMissingIdentity" RequestError "missing entity identity".
Definition ErrMissingSecret : err := Sentinel "apiutil.ErrMissingSecret" RequestError "missing secret".
Definition ErrPasswordFormat : err := Sentinel "apiutil.ErrPasswordFormat" RequestError "password does not meet the requirements".
Definition ErrMissingName : err := Sentinel "apiutil.ErrMissingName" RequestError "missing identity name".
Definition ErrMissingRoute : err := Sentinel "apiutil.ErrMissingRoute" RequestError "missing route".
Definition ErrInvalidLevel : err := Sentinel "apiutil.ErrInvalidLevel" RequestError "invalid group level (should be between 0 and 5)".
Definition ErrNotFoundParam : err := Sentinel "apiutil.ErrNotFoundParam" RequestError "parameter not found in the query".
Definition ErrInvalidQueryParams : err := Sentinel "apiutil.ErrInvalidQueryParams" RequestError "invalid query parameters".
Definition ErrInvalidVisibilityType : err := Sentinel "apiutil.ErrInvalidVisibilityType" RequestError "invalid visibility type".
Definition ErrUnsupportedContentType : err := Sentinel "apiutil.ErrUnsupportedContentType" MediaTypeError "unsupported content type".
Definition ErrRollbackTx : err := Sentinel "apiutil.ErrRollbackTx" RequestError "failed to rollback transaction".
Definition ErrInvalidAggregation : err := Sentinel "apiutil.ErrInvalidAggregation" RequestError "invalid aggregation value".
Definition ErrInvalidInterval : err := Sentinel "apiutil.ErrInvalidInterval" RequestError "invalid interval value".
Definition ErrMissingFrom : err := Sentinel "apiutil.ErrMissingFrom" RequestError "missing from time value".
Definition ErrMissingTo : err := Sentinel "apiutil.ErrMissingTo" RequestError "missing to time value".
Definition ErrEmptyMessage : err := Sentinel "apiutil.ErrEmptyMessage" RequestError "empty message".
Definition ErrMissingEntityType : err := Sentinel "apiutil.ErrMissingEntityType" RequestError "missing entity type".
Definition ErrInvalidEntityType : err := Sentinel "apiutil.ErrInvalidEntityType" RequestError "invalid entity type".
Definition ErrInvalidTimeFormat : err := Sentinel "apiutil.ErrInvalidTimeFormat" RequestError "invalid time format use unix time".
Definition ErrEmptySearchQuery : err := Sentinel "apiutil.ErrEmptySearchQuery" RequestError "search query must not be empty".
Definition ErrLenSearchQuery : err := Sentinel "apiutil.ErrLenSearchQuery" RequestError "search query must be at least 3 characters".
Definition ErrMissingDomainID : err := Sentinel "apiutil.ErrMissingDomainID" RequestError "missing domainID".
Definition ErrMissingUsername : err := Sentinel "apiutil.ErrMissingUsername" RequestError "missing username".
Definition ErrInvalidUsername : err := Sentinel "apiutil.ErrInvalidUsername" RequestError "invalid username".
Definition ErrMissingFirstName : err := Sentinel "apiutil.ErrMissingFirstName" RequestError "missing first name".
Definition ErrMissingLastName : err := Sentinel "apiutil.ErrMissingLastName" RequestError "missing last name".
Definition ErrInvalidProfilePictureURL : err := Sentinel "apiutil.ErrInvalidProfilePictureURL" RequestError "invalid profile picture url".
Definition ErrMultipleEntitiesFilter : err := Sentinel "apiutil.ErrMultipleEntitiesFilter" RequestError "multiple entities are provided in filter are not supported".
Definition ErrMissingDescription : err := Sentinel "apiutil.ErrMissingDescription" RequestError "missing description".
Definition ErrUnsupportedTokenType : err := Sentinel "apiutil.ErrUnsupportedTokenType" RequestError "unsupported content token type".
Definition ErrMissingUserID : err := Sentinel "apiutil.ErrMissingUserID" RequestError "missing user id".
Definition ErrMissingPATID : err := Sentinel "apiutil.ErrMissingPATID" RequestError "missing pat id".
Definition ErrInvalidNameFormat : err := Sentinel "apiutil.ErrInvalidNameFormat" RequestError "invalid name format".
Definition ErrInvalidRouteFormat : err := Sentinel "apiutil.ErrInvalidRouteFormat" RequestError "invalid route format".
Definition ErrMissingUsernameEmail : err := Sentinel "apiutil.ErrMissingUsernameEmail" RequestError "missing username / email".
Definition ErrInvalidVerification : err := Sentinel "apiutil.ErrInvalidVerification" RequestError "invalid verification".
Definition ErrEmailNotVerified : err := Sentinel "apiutil.ErrEmailNotVerified" RequestError "email not verified".
Definition ErrMalformedRequestBody : err := Sentinel "apiutil.ErrMalformedRequestBody" RequestError "request body is not a valid JSON, expecting a valid JSON".
End apiutil.

(** ** EncodeError of the HTTP edge: the status code and, where a body is
    written, the message of the outermost layer (MarshalJSON).  An SDK error
    brings its own status. *)
Definition EncodeError (e : error) : Z * option string :=
  match e with
  | Some (Err _ k msg _) =>
      match k with
      | SDKError code => (code, Some msg)
      | RequestError => (400%Z, Some msg)
      | AuthNError => (401%Z, Some msg)
      | AuthZError => (403%Z, Some msg)
      | MediaTypeError => (415%Z, Some msg)
      | ServiceError => (422%Z, Some msg)
      | NotFoundError => (404%Z, Some msg)
      | InternalError | CustomError => (500%Z, None)
      end
  | _ => (500%Z, None)
  end.

(** [Wrap] with a package-level error in front, the form of the services. *)
Definition WrapE (w : err) (e : error) : error := Wrap (Some w) e.

(** ** Lemmas *)

Lemma err_induction (P : err -> Prop) :
  (forall a k m, P (Err a k m None)) ->
  (forall a k m x, P x -> P (Err a k m (Some x))) ->
  (forall a m, P (Foreign a m None)) ->
  (forall a m x, P x -> P (Foreign a m (Some x))) ->
  forall e, P e.
Proof.
  intros H1 H2 H3 H4. fix IH 1. intros [a k m [x|]|a m [x|]].
  - apply H2, IH.
  - apply H1.
  - apply H4, IH.
  - apply H3.
Qed.

Lemma depth_pos e : 1 <= depth e.
Proof. destruct e as [? ? ? [e|]|]; simpl; lia. Qed.

Lemma wrap_fuel_irrelevant n : forall m w e,
  depth_of w + depth_of e < n -> depth_of w + depth_of e < m ->
  wrap_fuel n w e = wrap_fuel m w e.
Proof.
  induction n as [|n IH]; intros [|m] w e Hn Hm; [lia..|].
  destruct w as [w|], e as [x|]; try done.
  assert (Hr : forall y z, depth_of y + depth_of z < depth w + depth x ->
    wrap_fuel n y z = wrap_fuel m y z).
  { intros y z H. simpl in Hn, Hm. apply IH; lia. }
  destruct x as [ax kx mx ix|ax mx ux]; destruct w as [aw kw mw iw|aw mw uw]; cbn [wrap_fuel];
    repeat case_match; try done; f_equal; f_equal; apply Hr;
    try destruct ix; try destruct iw; simpl in *; lia.
Qed.

Lemma wrap_fuel_enough n w e :
  depth_of w + depth_of e < n -> wrap_fuel n w e = Wrap w e.
Proof. intros H. apply wrap_fuel_irrelevant; [done|lia]. Qed.

Lemma Wrap_nil_l e : Wrap None e = None.
Proof. done. Qed.
Lemma Wrap_nil_r w : Wrap w None = w.
Proof. by destruct w. Qed.

(** The recursive equation of the source. *)
Lemma Wrap_equation w x :
  Wrap (Some w) (Some x) =
  if nestable (Some x) then Embed x (Some w)
  else if nestable (Some w) then Embed w (Some x)
  else Some (Err None CustomError (Error w) (cast (Some x))).
Proof.
  unfold nestable, kind_of, Embed.
  assert (Hx : forall a k m i, x = Err a k m i ->
    wrap_fuel (depth_of (Some w) + depth_of (Some x)) (Some w) i = Wrap (Some w) i).
  { intros a k m i ->. apply wrap_fuel_enough. simpl. destruct i; simpl; lia. }
  assert (Hw : forall a k m i, w = Err a k m i ->
    wrap_fuel (depth_of (Some w) + depth_of (Some x)) (Some x) i = Wrap (Some x) i).
  { intros a k m i ->. apply wrap_fuel_enough. simpl. destruct i; simpl; lia. }
  unfold Wrap at 1. cbn [wrap_fuel].
  destruct x as [ax kx mx ix|ax mx ux]; destruct w as [aw kw mw iw|aw mw uw];
    try (rewrite (Hx _ _ _ _ eq_refl)); try (rewrite (Hw _ _ _ _ eq_refl));
    repeat match goal with k : kind |- _ => destruct k end; reflexivity.
Qed.

(** The concrete type and message of a wrapped error. *)
Lemma Wrap_head w x :
  exists inner, Wrap (Some w) (Some x) = Some (Err None
    (if nestable (Some x) then default CustomError (kind_of (Some x))
     else if nestable (Some w) then default CustomError (kind_of (Some w)) else CustomError)
    (if nestable (Some x) then Msg x else if nestable (Some w) then Msg w else Error w) inner).
Proof.
  rewrite Wrap_equation. unfold nestable, kind_of, Embed.
  destruct x as [ax kx mx ix|ax mx ux]; destruct w as [aw kw mw iw|aw mw uw]; simpl;
    repeat case_match; simplify_eq/=; eauto.
Qed.

Lemma Wrap_some w e : exists x, Wrap (Some w) e = Some x.
Proof. destruct e as [x|]; [|rewrite Wrap_nil_r; eauto]. destruct (Wrap_head w x) as [i ->]; eauto. Qed.

Lemma WrapE_not_nil w e : WrapE w e <> None.
Proof. unfold WrapE. by destruct (Wrap_some w e) as [x ->]. Qed.
Lemma WrapE_inv w e x : WrapE w e = x -> x <> None.
Proof. intros <-. apply WrapE_not_nil. Qed.
Lemma WrapE_is_nil w e : is_nil (WrapE w e) = false.
Proof. unfold WrapE. by destruct (Wrap_some w e) as [x ->]. Qed.
#[export] Hint Resolve WrapE_not_nil : go.

(** A [flat] error wraps nothing and has no status: every package-level error
    is flat. *)
Definition flat (e : err) : bool :=
  match e with Err _ (SDKError _) _ _ => false | Err _ _ _ None => true | Foreign _ _ _ => true | _ => false end.

Lemma flat_Error w : flat w = true -> Error w = Msg w.
Proof. destruct w as [? [] ? [?|]|]; done. Qed.
Lemma flat_layers w : flat w = true -> layers w = [Msg w].
Proof. destruct w as [? [] ? [?|]|]; done. Qed.

Definition layers_of (e : error) : list string := match e with Some e => layers e | None => [] end.

Lemma layers_cast x : layers_of (cast (Some x)) = layers x.
Proof. by destruct x. Qed.

Lemma layers_Err a k m i : layers (Err a k m i) = m :: layers_of i.
Proof. by destruct i. Qed.

Lemma layers_of_Err a k m i : layers_of (Some (Err a k m i)) = m :: layers_of i.
Proof. apply layers_Err. Qed.

Lemma Wrap_into_err w a k m i : isNestable k = true ->
  Wrap (Some w) (Some (Err a k m i)) = Some (Err None k m (Wrap (Some w) i)).
Proof. intros Hk. rewrite Wrap_equation. unfold nestable, kind_of, Embed. rewrite Hk. by destruct k. Qed.

Lemma Wrap_into_wrapper x a k m i : nestable (Some x) = false -> isNestable k = true ->
  Wrap (Some (Err a k m i)) (Some x) = Some (Err None k m (Wrap (Some x) i)).
Proof.
  intros Hx Hk. rewrite Wrap_equation, Hx. unfold nestable, kind_of, Embed. rewrite Hk. by destruct k.
Qed.

Lemma Wrap_plain w x : nestable (Some x) = false -> nestable (Some w) = false ->
  Wrap (Some w) (Some x) = Some (Err None CustomError (Error w) (cast (Some x))).
Proof. intros Hx Hw. by rewrite Wrap_equation, Hx, Hw. Qed.

(** Case analysis on a wrap with a flat wrapper: the result, where the
    wrapped error is typed; where only the wrapper is; where neither is. *)
Lemma Wrap_flat_cases (P : err -> error -> Prop) w : flat w = true ->
  (forall a k m, isNestable k = true -> P (Err a k m None) (Some (Err None k m (Some w)))) ->
  (forall a k m x, isNestable k = true -> P x (Wrap (Some w) (Some x)) ->
     P (Err a k m (Some x)) (Some (Err None k m (Wrap (Some w) (Some x))))) ->
  (forall x a k m, w = Err a k m None -> isNestable k = true -> nestable (Some x) = false ->
     P x (Some (Err None k m (Some x)))) ->
  (forall x, nestable (Some w) = false -> nestable (Some x) = false ->
     P x (Some (Err None CustomError (Msg w) (cast (Some x))))) ->
  forall x, P x (Wrap (Some w) (Some x)).
Proof.
  intros Hw H1 H2 H3 H4.
  assert (Hplain : forall x, nestable (Some x) = false -> P x (Wrap (Some w) (Some x))).
  { intros x Hx. destruct (nestable (Some w)) eqn:Ew.
    - destruct w as [aw kw mw [?|]|aw mw uw]; [by destruct kw| |done].
      rewrite Wrap_into_wrapper, Wrap_nil_r by done. by apply (H3 x aw kw mw).
    - rewrite Wrap_plain, (flat_Error _ Hw) by done. by apply H4. }
  induction x as [ax kx mx|ax kx mx x' IH|ax mx|ax mx x' IH] using err_induction;
    try (by apply Hplain); destruct (isNestable kx) eqn:Ek; try (by apply Hplain).
  - rewrite Wrap_into_err, Wrap_nil_r by done. by apply H1.
  - rewrite Wrap_into_err by done. by apply H2.
Qed.

Lemma Wrap_layers_perm w x : flat w = true ->
  layers_of (Wrap (Some w) (Some x)) ≡ₚ Msg w :: layers x.
Proof.
  intros Hw. pattern x, (Wrap (Some w) (Some x)). revert x.
  apply (Wrap_flat_cases _ w Hw); intros; rewrite ?layers_of_Err.
  - simpl. rewrite (flat_layers _ Hw). apply Permutation_swap.
  - rewrite H0. apply Permutation_swap.
  - by subst.
  - by rewrite layers_cast.
Qed.

(** No layer of another package has an identity or wraps something of its
    own: what [fmt.Errorf] and [errors.New] build. *)
Fixpoint own (e : err) : bool :=
  match e with
  | Err _ _ _ None => true
  | Err _ _ _ (Some e') => own e'
  | Foreign None _ None => true
  | Foreign _ _ _ => false
  end.

Lemma is_sentinel_heap e s : addr_of e = None -> is_sentinel (Some e) s = false.
Proof. intros He. unfold is_sentinel. rewrite He. by destruct (addr_of s). Qed.

(** [Contains] looks for the full text of the second error among the
    messages of the layers of the first one. *)
Lemma contains_err_layers e s : own e = true ->
  contains_err e s = true <-> Error s ∈ layers e.
Proof.
  induction e as [a k m|a k m x IH|a m|a m x IH] using err_induction;
    cbn [own contains_err errors_Is layers]; intros Ho.
  - rewrite orb_false_r, String.eqb_eq, list_elem_of_singleton. naive_solver.
  - rewrite orb_true_iff, String.eqb_eq, (IH Ho), elem_of_cons. naive_solver.
  - destruct a; [done|]. rewrite (is_sentinel_heap (Foreign None m None)) by done.
    simpl. rewrite String.eqb_eq, list_elem_of_singleton. naive_solver.
  - by destruct a.
Qed.

Lemma own_cast x : own x = true -> match cast (Some x) with Some y => own y = true | None => False end.
Proof. by destruct x. Qed.

Lemma own_Wrap w x : own w = true -> own x = true -> flat w = true ->
  match Wrap (Some w) (Some x) with Some y => own y = true | None => False end.
Proof.
  intros Hw Hx Hf. revert Hx. pattern x, (Wrap (Some w) (Some x)). revert x.
  apply (Wrap_flat_cases _ w Hf); simpl; try done.
  - intros a k m x _ IH Hx. specialize (IH Hx). by destruct (Wrap _ _).
  - intros x _ _ Hx. pose proof (own_cast _ Hx) as Hc. simpl in Hc. by destruct x.
Qed.

Lemma EncodeError_Wrap w x :
  EncodeError (Wrap (Some w) (Some x)) =
  if nestable (Some x) then EncodeError (Some x)
  else if nestable (Some w) then EncodeError (Some w) else (500%Z, None).
Proof.
  destruct (Wrap_head w x) as [i ->]. unfold nestable, kind_of.
  destruct x as [? kx ? ?|]; destruct w as [? kw ? ?|]; simpl; repeat case_match; simplify_eq/=; try done.
Qed.

Lemma nestable_Wrap w x :
  nestable (Wrap (Some w) (Some x)) = nestable (Some x) || nestable (Some w).
Proof.
  destruct (Wrap_head w x) as [i ->]. unfold nestable, kind_of.
  destruct x as [? kx ? ?|]; destruct w as [? kw ? ?|]; simpl; repeat case_match; simplify_eq/=; try done.
Qed.

(** A status of its own, which only an SDK error has. *)
Definition own_status (e : err) : bool := match e with Err _ (SDKError _) _ _ => true | _ => false end.
Lemma EncodeError_untyped e : nestable (Some e) = false -> own_status e = false -> EncodeError (Some e) = (500%Z, None).
Proof. by destruct e as [? [] ? ?|]. Qed.

(** [Wrap(w1, Wrap(w2, ... err))]. *)
Fixpoint wrap_chain (ws : list err) (e : err) : error :=
  match ws with
  | [] => Some e
  | w :: ws => Wrap (Some w) (wrap_chain ws e)
  end.

Definition first_typed (l : list err) : option err := List.find (fun e => nestable (Some e)) l.

Lemma find_app {A} (f : A -> bool) l1 l2 :
  List.find f (l1 ++ l2) = match List.find f l1 with Some x => Some x | None => List.find f l2 end.
Proof. induction l1 as [|x l1 IH]; simpl; [done|]. by destruct (f x). Qed.

Lemma first_typed_app l1 l2 :
  first_typed (l1 ++ l2) = match first_typed l1 with Some x => Some x | None => first_typed l2 end.
Proof. apply find_app. Qed.

Lemma first_typed_nestable l t : first_typed l = Some t -> nestable (Some t) = true.
Proof. intros H. by apply List.find_some in H as [_ ?]. Qed.

(** ** Properties *)

(** C25: the HTTP answer to an error (status code and message) is decided by
    the innermost error that has a type of the package: however many layers
    the services put around it, [EncodeError] of the chain is [EncodeError]
    of the first typed error counted from the cause outwards, and 500
    without a body where the chain has none.  An SDK error, which brings a
    status of its own, is answered with it as long as nothing is around it,
    and counts for nothing in a chain. *)
Theorem EncodeError_wrap_chain (ws : list err) (e : err) :
  EncodeError (wrap_chain ws e) =
  match first_typed (e :: reverse ws) with
  | Some t => EncodeError (Some t)
  | None => match ws, e with [], Err _ (SDKError code) msg _ => (code, Some msg) | _, _ => (500%Z, None) end
  end.
Proof.
  destruct ws as [|w0 ws0].
  { unfold first_typed. cbn [wrap_chain List.find]. change (reverse []) with (@nil err). cbn [List.find].
    by destruct e as [? [] ? ?|]. }
  assert (H : forall w ws, (exists y, wrap_chain (w :: ws) e = Some y) /\
    nestable (wrap_chain (w :: ws) e) = negb (is_nil (first_typed (e :: reverse (w :: ws)))) /\
    EncodeError (wrap_chain (w :: ws) e) =
      match first_typed (e :: reverse (w :: ws)) with
      | Some t => EncodeError (Some t) | None => (500%Z, None) end); [|apply H].
  clear w0 ws0. intros w ws. revert w.
  assert (Hstep : forall w x l, nestable (Some x) = negb (is_nil (first_typed l)) ->
    (nestable (Some x) = true -> EncodeError (Some x) = EncodeError (first_typed l)) ->
    (exists y, Wrap (Some w) (Some x) = Some y)
    /\ nestable (Wrap (Some w) (Some x)) = negb (is_nil (first_typed (l ++ [w])))
    /\ EncodeError (Wrap (Some w) (Some x))
       = match first_typed (l ++ [w]) with Some t => EncodeError (Some t) | None => (500%Z, None) end).
  { intros w x l Hn He. split; [apply Wrap_some|]. rewrite nestable_Wrap, EncodeError_Wrap, first_typed_app, Hn.
    destruct (first_typed l) as [t|]; cbn [is_nil negb orb] in *; [by rewrite He|].
    unfold first_typed. cbn [List.find]. by destruct (nestable (Some w)) eqn:Ew. }
  induction ws as [|w1 ws IH]; intros w; rewrite reverse_cons;
    change (e :: (reverse ?l ++ [w])) with ((e :: reverse l) ++ [w]).
  - cbn [wrap_chain]. apply (Hstep w e (e :: reverse [])); change (reverse []) with (@nil err); unfold first_typed;
      cbn [List.find]; destruct (nestable (Some e)) eqn:E; try done; by rewrite E.
  - destruct (IH w1) as ([y Hy] & Hn & He). change (wrap_chain (w :: w1 :: ws) e) with (Wrap (Some w) (wrap_chain (w1 :: ws) e)).
    rewrite Hy in *. apply Hstep; [exact Hn|]. intros Ht. rewrite Hn in Ht.
    destruct (first_typed (e :: reverse (w1 :: ws))); [exact He|done].
Qed.

(** Wrapping with a package-level error adds that error and loses none:
    [Contains] finds in [Wrap(w, err)] what it finds in [w] or in [err]. *)
Lemma Contains_Wrap (w x s : err) (Hw : flat w = true) (How : own w = true) (Hox : own x = true) :
  Contains (Wrap (Some w) (Some x)) (Some s) = Contains (Some w) (Some s) || Contains (Some x) (Some s).
Proof.
  pose proof (Wrap_layers_perm w x Hw) as Hp. pose proof (own_Wrap w x How Hox Hw) as Ho.
  destruct (Wrap (Some w) (Some x)) as [y|]; [|done].
  apply eq_true_iff_eq. unfold Contains.
  rewrite orb_true_iff, !contains_err_layers by done.
  rewrite (flat_layers _ Hw). simpl in Hp. rewrite Hp. set_solver.
Qed.
Lemma Contains_Wrap_witness :
  Contains (Wrap (Some svcerr.ErrViewEntity) (Some repoerr.ErrNotFound)) (Some svcerr.ErrNotFound) = true.
Proof.
  rewrite (Contains_Wrap svcerr.ErrViewEntity repoerr.ErrNotFound svcerr.ErrNotFound eq_refl eq_refl eq_refl).
  reflexivity.
Defined.

Lemma append_longer (a b : string) : b <> "" -> a <> a +:+ b.
Proof.
  intros Hb H. apply Hb, chars_nil. apply (f_equal chars) in H. rewrite chars_app in H.
  rewrite <- (app_nil_r (chars a)) in H at 1. by apply app_inv_head in H.
Qed.

(** A plain wrapper that already wraps something is flattened into one
    message, so the layer it had in front is no longer found: with plain
    errors [Contains(Wrap(Wrap(a, b), c), a)] is false. *)
Theorem Wrap_flattens_wrapper (a b c : string) (Hac : a <> c) :
  Contains (Wrap (Wrap (Some (New a)) (Some (New b))) (Some (New c))) (Some (New a)) = false.
Proof.
  rewrite (Wrap_plain (New a) (New b)) by done. rewrite Wrap_plain by done.
  change (cast (Some (New b))) with (Some (New b)). simpl.
  assert ((a +:+ " : " +:+ b =s a) = false) as ->.
  { apply String.eqb_neq. intros H. symmetry in H. by apply append_longer in H. }
  simpl. rewrite orb_false_r. apply String.eqb_neq. congruence.
Qed.
Lemma Wrap_flattens_wrapper_witness :
  Contains (Wrap (Wrap (Some (New "1")) (Some (New "2"))) (Some (New "3"))) (Some (New "1")) = false
  /\ Contains (Wrap (Some (New "1")) (Some (New "2"))) (Some (New "1")) = true.
Proof. split; [apply (Wrap_flattens_wrapper "1" "2" "3"); discriminate | reflexivity]. Defined.
