(* ===== verification/GoTime.v ===== *)
(** * Times as text

    The event store carries times as the text that time.Time.MarshalJSON
    writes (RFC 3339 with nanoseconds, in UTC), and the consumers read it
    with time.Parse and the layout "2006-01-02T15:04:05.999999Z".  Both are
    modelled here, with the calendar of package time, for times in UTC from
    the year 1 on; [Parse_MarshalText] is that reading gives back what was
    written. *)

From S2P Require Import Prelude GoStd Errors.
Open Scope Z_scope.
Open Scope go_scope.

(** ** The calendar *)
Definition Second : Z := 1000000000.
Definition Day : Z := 24 * Hour.
Definition daysPer400Years : Z := 146097.
Definition daysPer100Years : Z := 36524.
Definition daysPer4Years : Z := 1461.

Definition isLeap (year : Z) : bool :=
  (year mod 4 =? 0) && (negb (year mod 100 =? 0) || (year mod 400 =? 0)).
(** Days before the month (from 1) of a year. *)
Definition daysBefore (leap : bool) (month : Z) : Z :=
  let l := if leap then 1 else 0 in
  match month with
  | 1 => 0 | 2 => 31 | 3 => 59 + l | 4 => 90 + l | 5 => 120 + l | 6 => 151 + l | 7 => 181 + l | 8 => 212 + l
  | 9 => 243 + l | 10 => 273 + l | 11 => 304 + l | 12 => 334 + l | _ => 365 + l
  end.
Definition daysIn (leap : bool) (month : Z) : Z := daysBefore leap (month + 1) - daysBefore leap month.

(** Days from the first of January of the year 1 to that of [year]. *)
Definition daysBeforeYear (year : Z) : Z :=
  let y := year - 1 in 365 * y + y / 4 - y / 100 + y / 400.
Definition dayNumber (year month day : Z) : Z :=
  daysBeforeYear year + daysBefore (isLeap year) month + day - 1.

(** The year and the day in it of a day number. *)
Definition yearDay (days : Z) : Z * Z :=
  let n400 := days / daysPer400Years in let d := days mod daysPer400Years in
  let n100 := d / daysPer100Years in let n100 := n100 - n100 / 4 in let d := d - daysPer100Years * n100 in
  let n4 := d / daysPer4Years in let d := d - daysPer4Years * n4 in
  let n1 := d / 365 in let n1 := n1 - n1 / 4 in let d := d - 365 * n1 in
  (400 * n400 + 100 * n100 + 4 * n4 + n1 + 1, d).
(** The month and day of a day of the year: the last month that begins before. *)
Fixpoint monthFrom (leap : bool) (yday : Z) (months : list Z) : Z :=
  match months with
  | [] => 1
  | m :: ms => if daysBefore leap m <=? yday then m else monthFrom leap yday ms
  end.
Definition monthDay (leap : bool) (yday : Z) : Z * Z :=
  let m := monthFrom leap yday [12; 11; 10; 9; 8; 7; 6; 5; 4; 3; 2] in
  (m, yday - daysBefore leap m + 1).

Lemma yearDay_correct days : 0 <= days ->
  let '(y, d) := yearDay days in 1 <= y /\ daysBeforeYear y + d = days /\ 0 <= d < 365 + (if isLeap y then 1 else 0).
Proof.
  intros Hd. unfold yearDay, daysPer400Years, daysPer100Years, daysPer4Years. cbv zeta.
  set (n400 := days / 146097). set (d400 := days mod 146097).
  assert (0 <= n400 /\ days = 146097 * n400 + d400 /\ 0 <= d400 < 146097) as (H400 & Edays & Hd400)
    by (subst n400 d400; Z.to_euclidean_division_equations; lia).
  clearbody n400 d400. set (b := d400 / 36524 - d400 / 36524 / 4).
  assert (0 <= b <= 3 /\ 0 <= d400 - 36524 * b /\ (d400 - 36524 * b < 36524 \/ b = 3 /\ d400 - 36524 * b <= 36524)) as (Hb & Hb0 & Hb1)
    by (subst b; Z.to_euclidean_division_equations; lia).
  clearbody b. set (d100 := d400 - 36524 * b) in *. set (c := d100 / 1461). set (d4 := d100 - 1461 * c).
  assert (0 <= c <= 24 /\ 0 <= d4 < 1461 /\ d100 = 1461 * c + d4) as (Hc & Hd4 & Ed100)
    by (subst c d4; Z.to_euclidean_division_equations; lia).
  clearbody c d4. set (a := d4 / 365 - d4 / 365 / 4). set (d1 := d4 - 365 * a).
  assert (0 <= a <= 3 /\ 0 <= d1 /\ (d1 < 365 \/ a = 3 /\ d1 = 365) /\ d4 = 365 * a + d1) as (Ha & Hd1 & Hd1' & Ed4)
    by (subst a d1; Z.to_euclidean_division_equations; lia).
  clearbody a d1. set (y := 400 * n400 + 100 * b + 4 * c + a + 1).
  assert (Ey4 : (y - 1) / 4 = 100 * n400 + 25 * b + c) by (subst y; Z.to_euclidean_division_equations; lia).
  assert (Ey100 : (y - 1) / 100 = 4 * n400 + b) by (subst y; Z.to_euclidean_division_equations; lia).
  assert (Ey400 : (y - 1) / 400 = n400) by (subst y; Z.to_euclidean_division_equations; lia).
  split; [lia|]. split; [unfold daysBeforeYear; rewrite Ey4, Ey100, Ey400; subst y; lia|]. split; [done|].
  destruct Hd1' as [?|[-> ->]]; [destruct (isLeap y); lia|].
  assert (isLeap y = true) as ->; [|lia]. unfold isLeap.
  assert (y mod 4 = 0) as -> by (subst y; Z.to_euclidean_division_equations; lia). simpl.
  destruct (Z.eq_dec c 24) as [->|]; apply orb_true_iff.
  - right. apply Z.eqb_eq. subst y d100. destruct Hb1 as [?|[-> ?]]; [lia|]. Z.to_euclidean_division_equations; lia.
  - left. apply negb_true_iff, Z.eqb_neq. subst y. Z.to_euclidean_division_equations; lia.
Qed.

Lemma monthDay_correct (leap : bool) yday : 0 <= yday < 365 + (if leap then 1 else 0) ->
  let '(m, d) := monthDay leap yday in
  1 <= m <= 12 /\ 1 <= d <= daysIn leap m /\ daysBefore leap m + d - 1 = yday.
Proof.
  intros H. unfold monthDay, monthFrom.
  repeat match goal with
  | |- context [daysBefore leap ?m <=? yday] => destruct (Z.leb_spec (daysBefore leap m) yday)
  end; destruct leap; unfold daysIn in *; simpl in *; lia.
Qed.

(** ** Text *)
Definition digit (d : Z) : ascii := ascii_of_nat (48 + Z.to_nat d).
(** The last [k] decimal digits. *)
Fixpoint digits (k : nat) (n : Z) : list ascii :=
  match k with O => [] | S k => digits k (n / 10) ++ [digit (n mod 10)] end.
Definition isDigit (c : ascii) : bool := Nat.leb 48 (nat_of_ascii c) && Nat.leb (nat_of_ascii c) 57.
Definition digitVal (c : ascii) : Z := Z.of_nat (nat_of_ascii c) - 48.
Definition number (l : list ascii) : Z := foldl (fun n c => 10 * n + digitVal c) 0 l.

(** The digits of a fraction, without the zeros at the end. *)
Fixpoint dropZeros (l : list ascii) : list ascii :=
  match l with c :: l' => if c =c "0"%char then dropZeros l' else l | [] => [] end.
Definition trimZeros (l : list ascii) : list ascii := rev (dropZeros (rev l)).

(** Time.MarshalJSON without the quotes; [None] is the error for a year of
    more than four digits. *)
Definition MarshalText (t : Time) : option string :=
  let '(year, yday) := yearDay (t / Day) in
  let '(month, day) := monthDay (isLeap year) yday in
  let s := t mod Day / Second in let nsec := t mod Second in
  if 9999 <? year then None
  else Some (str (digits 4 year ++ "-"%char :: digits 2 month ++ "-"%char :: digits 2 day ++ "T"%char
    :: digits 2 (s / 3600) ++ ":"%char :: digits 2 (s / 60 mod 60) ++ ":"%char :: digits 2 (s mod 60)
    ++ (if nsec =? 0 then [] else "."%char :: trimZeros (digits 9 nsec)) ++ ["Z"%char])).

(** *** time.Parse with the layout of the consumers *)
Definition ParseError : err := Errorf "parsing time".

(** A number of exactly [k] digits; [getnum] with [fixed], and the year. *)
Definition getnum (k : nat) (l : list ascii) : option (Z * list ascii) :=
  if Nat.ltb (length l) k || negb (forallb isDigit (take k l)) then None else Some (number (take k l), drop k l).
(** [getnum] without [fixed]: one digit or two. *)
Definition getnum12 (l : list ascii) : option (Z * list ascii) :=
  match l with
  | a :: b :: l' => if negb (isDigit a) then None
                    else if isDigit b then Some (number [a; b], l') else Some (digitVal a, b :: l')
  | [a] => if isDigit a then Some (digitVal a, []) else None
  | [] => None
  end.
Definition literal (c : ascii) (l : list ascii) : option (list ascii) :=
  match l with x :: l' => if x =c c then Some l' else None | [] => None end.
Fixpoint spanDigits (l : list ascii) : list ascii * list ascii :=
  match l with
  | c :: l' => if isDigit c then let '(a, b) := spanDigits l' in (c :: a, b) else ([], l)
  | [] => ([], [])
  end.
(** The fraction, any number of digits, of which nine are read. *)
Definition fraction (l : list ascii) : Z * list ascii :=
  match l with
  | p :: c :: _ =>
      if ((p =c "."%char) || (p =c ","%char)) && isDigit c then
        let '(ds, rest) := spanDigits (tail l) in
        let ds := take 9 ds in (number ds * 10 ^ (9 - Z.of_nat (length ds)), rest)
      else (0, l)
  | _ => (0, l)
  end.
Definition inRange (a n b : Z) : option unit := if (a <=? n) && (n <=? b) then Some tt else None.

Definition parse (l : list ascii) : option Time :=
  '(year, l) ← getnum 4 l; l ← literal "-" l;
  '(month, l) ← getnum 2 l; _ ← inRange 1 month 12; l ← literal "-" l;
  '(day, l) ← getnum 2 l; l ← literal "T" l;
  '(hour, l) ← getnum12 l; _ ← inRange 0 hour 23; l ← literal ":" l;
  '(min, l) ← getnum 2 l; _ ← inRange 0 min 59; l ← literal ":" l;
  '(sec, l) ← getnum 2 l; _ ← inRange 0 sec 59;
  let '(nsec, l) := fraction l in
  l ← literal "Z" l;
  if negb (is_nil (head l)) then None else
  _ ← inRange 1 day (daysIn (isLeap year) month);
  Some (Day * dayNumber year month day + Second * (3600 * hour + 60 * min + sec) + nsec).
Definition Parse (s : string) : Time * error :=
  match parse (chars s) with Some t => (t, None) | None => (zeroTime, Some ParseError) end.

(** *** time.Parse with time.RFC3339 *)
(** The zone: [Z] or an offset of hours and minutes. *)
Definition zone (l : list ascii) : option (Z * list ascii) :=
  match l with
  | c :: l' =>
      if c =c "Z"%char then Some (0, l') else
      sign ← (if c =c "+"%char then Some 1 else if c =c "-"%char then Some (-1) else None);
      '(hr, l) ← getnum 2 l'; l ← literal ":" l; '(mm, l) ← getnum 2 l;
      _ ← inRange 0 hr 24; _ ← inRange 0 mm 60;
      Some (sign * (3600 * hr + 60 * mm), l)
  | [] => None
  end.
Definition parse3339 (l : list ascii) : option Time :=
  '(year, l) ← getnum 4 l; l ← literal "-" l;
  '(month, l) ← getnum 2 l; _ ← inRange 1 month 12; l ← literal "-" l;
  '(day, l) ← getnum 2 l; l ← literal "T" l;
  '(hour, l) ← getnum12 l; _ ← inRange 0 hour 23; l ← literal ":" l;
  '(min, l) ← getnum 2 l; _ ← inRange 0 min 59; l ← literal ":" l;
  '(sec, l) ← getnum 2 l; _ ← inRange 0 sec 59;
  let '(nsec, l) := fraction l in
  '(offset, l) ← zone l;
  if negb (is_nil (head l)) then None else
  _ ← inRange 1 day (daysIn (isLeap year) month);
  Some (Day * dayNumber year month day + Second * (3600 * hour + 60 * min + sec - offset) + nsec).
Definition ParseRFC3339 (s : string) : Time * error :=
  match parse3339 (chars s) with Some t => (t, None) | None => (zeroTime, Some ParseError) end.

Example zero_text : MarshalText zeroTime = Some "0001-01-01T00:00:00Z".
Proof. vm_compute. reflexivity. Qed.
Example some_text : MarshalText 63844808706123456000 = Some "2024-02-29T13:05:06.123456Z".
Proof. vm_compute. reflexivity. Qed.
Example some_time : Parse "2024-02-29T13:05:06.123456Z" = (63844808706123456000, None).
Proof. vm_compute. reflexivity. Qed.
Example no_such_day : (Parse "2023-02-29T13:05:06Z").2 = Some ParseError.
Proof. vm_compute. reflexivity. Qed.

(** ** Reading back *)
Lemma digit_spec d : 0 <= d < 10 -> isDigit (digit d) = true /\ digitVal (digit d) = d.
Proof.
  intros H. assert (d = 0 \/ d = 1 \/ d = 2 \/ d = 3 \/ d = 4 \/ d = 5 \/ d = 6 \/ d = 7 \/ d = 8 \/ d = 9) as Hd by lia.
  by repeat destruct Hd as [->|Hd]; [..|subst d].
Qed.

Lemma digits_length k n : length (digits k n) = k.
Proof. revert n. induction k as [|k IH]; intros n; simpl; [done|]. rewrite length_app, IH. simpl. lia. Qed.
Lemma digits_isDigit k n : Forall (fun c => isDigit c = true) (digits k n).
Proof.
  revert n. induction k as [|k IH]; intros n; simpl; [constructor|].
  apply Forall_app. split; [apply IH|]. constructor; [|constructor].
  apply digit_spec. apply Z.mod_pos_bound. lia.
Qed.
Lemma number_snoc l c : number (l ++ [c]) = 10 * number l + digitVal c.
Proof. unfold number. by rewrite foldl_app. Qed.
Lemma number_digits k n : 0 <= n -> number (digits k n) = n mod 10 ^ Z.of_nat k.
Proof.
  revert n. induction k as [|k IH]; intros n Hn.
  { simpl. by rewrite Z.mod_1_r. }
  cbn [digits]. rewrite number_snoc, IH by (apply Z.div_pos; lia).
  destruct (digit_spec (n mod 10)) as [_ ->]; [apply Z.mod_pos_bound; lia|].
  rewrite Nat2Z.inj_succ, Z.pow_succ_r by lia. rewrite Z.rem_mul_r by lia. lia.
Qed.

Lemma getnum_digits k n l : 0 <= n < 10 ^ Z.of_nat k -> getnum k (digits k n ++ l) = Some (n, l).
Proof.
  intros Hn. unfold getnum. rewrite length_app, digits_length.
  rewrite take_app_length', drop_app_length' by (by rewrite digits_length).
  replace (Nat.ltb (k + length l) k) with false by (symmetry; apply Nat.ltb_ge; lia).
  replace (forallb isDigit (digits k n)) with true by (symmetry; apply forallb_Forall, digits_isDigit).
  simpl. rewrite number_digits by lia. by rewrite Z.mod_small.
Qed.
Lemma getnum12_digits n l : 0 <= n < 100 -> getnum12 (digits 2 n ++ l) = Some (n, l).
Proof.
  intros Hn. pose proof (number_digits 2 n (proj1 Hn)) as Hv. pose proof (digits_isDigit 2 n) as Hd.
  pose proof (digits_length 2 n) as Hl. rewrite Z.mod_small in Hv by (change (10 ^ Z.of_nat 2) with 100; lia).
  destruct (digits 2 n) as [|a [|b [|]]]; [done..| |done].
  apply Forall_cons in Hd as [Ha Hd]. apply Forall_cons in Hd as [Hb _].
  cbn [app getnum12]. rewrite Ha, Hb. cbn [negb]. by rewrite Hv.
Qed.

Lemma dropZeros_cons c l : dropZeros (c :: l) = if c =c "0"%char then dropZeros l else c :: l.
Proof. done. Qed.
(** The value of the digits, most significant last. *)
Lemma dropZeros_number l : let d := dropZeros l in
  (length d <= length l)%nat /\ number (rev d) * 10 ^ Z.of_nat (length l - length d) = number (rev l)
  /\ exists z, l = z ++ d.
Proof.
  cbv zeta. induction l as [|c l (Hl & Hn & z & Hz)].
  { simpl. repeat split; [lia|by exists []]. }
  rewrite dropZeros_cons. destruct (Ascii.eqb_spec c "0"%char) as [->|Hc].
  - split; [simpl; lia|]. split; [|exists ("0"%char :: z); by rewrite Hz at 1].
    simpl rev. rewrite number_snoc, <- Hn. replace (digitVal "0"%char) with 0 by done.
    replace (length ("0"%char :: l) - length (dropZeros l))%nat with (S (length l - length (dropZeros l))) by (simpl; lia).
    rewrite Nat2Z.inj_succ, Z.pow_succ_r by lia. lia.
  - split; [done|]. split; [|by exists []]. rewrite Nat.sub_diag. simpl (10 ^ _). lia.
Qed.

Lemma spanDigits_app l c rest : Forall (fun c => isDigit c = true) l -> isDigit c = false ->
  spanDigits (l ++ c :: rest) = (l, c :: rest).
Proof. induction 1 as [|x l Hx _ IH]; intros Hc; simpl; [by rewrite Hc|]. by rewrite Hx, IH. Qed.

Lemma fraction_trimmed n c rest : 0 < n < 10 ^ 9 -> isDigit c = false ->
  fraction ("."%char :: trimZeros (digits 9 n) ++ c :: rest) = (n, c :: rest).
Proof.
  intros Hn Hc. unfold trimZeros. destruct (dropZeros_number (rev (digits 9 n))) as (Hl & Hv & z & Hz).
  set (d := dropZeros (rev (digits 9 n))) in *. rewrite rev_involutive, number_digits in Hv by lia.
  rewrite Z.mod_small in Hv by (change (Z.of_nat 9) with 9; lia).
  rewrite length_rev, digits_length in Hl, Hv.
  assert (Hd : Forall (fun c => isDigit c = true) (rev d)).
  { apply Forall_rev. assert (H : Forall (fun c => isDigit c = true) (rev (digits 9 n))) by apply Forall_rev, digits_isDigit.
    rewrite Hz in H. by apply Forall_app in H as [_ H]. }
  assert (Hne : rev d <> []). { intros E. rewrite E in Hv. unfold number in Hv. cbn [foldl] in Hv. lia. }
  assert (Hlen : (length (rev d) <= 9)%nat) by (rewrite length_rev; lia).
  assert (Hnum : number (rev d) * 10 ^ (9 - Z.of_nat (length (rev d))) = n).
  { rewrite length_rev. rewrite <- Hv. f_equal. f_equal. lia. }
  clearbody d. clear Hv Hl Hz. destruct (rev d) as [|a l] eqn:E; [done|].
  unfold fraction. cbn [app tail]. destruct (proj1 (Forall_cons _ _ _) Hd) as [Ha _].
  rewrite Ha. cbn [Ascii.eqb orb andb].
  change (a :: l ++ c :: rest) with ((a :: l) ++ c :: rest). rewrite spanDigits_app by (rewrite ?E; done).
  simpl Bool.eqb. cbn [orb andb]. rewrite take_ge by done. by rewrite Hnum.
Qed.
Lemma fraction_none rest : fraction ("Z"%char :: rest) = (0, "Z"%char :: rest).
Proof. by destruct rest. Qed.

Lemma daysIn_31 leap month : 1 <= month <= 12 -> daysIn leap month <= 31.
Proof.
  intros Hm. assert (month = 1 \/ month = 2 \/ month = 3 \/ month = 4 \/ month = 5 \/ month = 6 \/ month = 7 \/ month = 8
    \/ month = 9 \/ month = 10 \/ month = 11 \/ month = 12) as Hcases by lia. clear Hm.
  repeat destruct Hcases as [->|Hcases]; [..|subst month]; by destruct leap.
Qed.

Lemma inRange_ok a n b : a <= n <= b -> inRange a n b = Some tt.
Proof. intros [Ha Hb]. unfold inRange. apply Z.leb_le in Ha, Hb. by rewrite Ha, Hb. Qed.
Lemma getnum2_digits n l : 0 <= n <= 99 -> getnum 2 (digits 2 n ++ l) = Some (n, l).
Proof. intros Hn. apply getnum_digits. change (10 ^ Z.of_nat 2) with 100. lia. Qed.
Ltac parse_step :=
  first [rewrite getnum2_digits by lia | rewrite getnum12_digits by lia | rewrite inRange_ok by lia];
  cbn [mbind option_bind literal Ascii.eqb Bool.eqb app].

(** Reading the text of a time, in UTC and from the year 1 to 9999, gives
    the time back. *)
Lemma Parse_MarshalText t s : 0 <= t -> MarshalText t = Some s -> Parse s = (t, None).
Proof.
  intros Ht. unfold MarshalText, Parse.
  assert (Hdays : 0 <= t / Day) by (apply Z.div_pos; [done|unfold Day, Hour, Minute; lia]).
  pose proof (yearDay_correct _ Hdays) as Hy. destruct (yearDay (t / Day)) as [year yday]. destruct Hy as (Hy1 & Hyd & Hyday).
  pose proof (monthDay_correct _ _ Hyday) as Hm. destruct (monthDay (isLeap year) yday) as [month day].
  destruct Hm as (Hm & Hd & Hmd). destruct (Z.ltb_spec 9999 year); [discriminate|].
  intros E. apply (inj Some) in E. subst s. rewrite chars_str.
  pose proof (daysIn_31 (isLeap year) month Hm) as Hday31.
  set (sec := t mod Day / Second). set (nsec := t mod Second).
  assert (Hsec : 0 <= sec < 86400 /\ 0 <= nsec < 1000000000 /\ t mod Day = Second * sec + nsec).
  { subst sec nsec. unfold Day, Hour, Minute, Second. Z.to_euclidean_division_equations; lia. }
  destruct Hsec as (Hsec & Hnsec & Hmod).
  assert (Htime : Day * dayNumber year month day + Second * sec + nsec = t).
  { unfold dayNumber. rewrite (Z.div_mod t Day) by (unfold Day, Hour, Minute; lia). lia. }
  clearbody sec nsec.
  assert (0 <= sec / 3600 < 24 /\ 0 <= sec / 60 mod 60 < 60 /\ 0 <= sec mod 60 < 60
    /\ 3600 * (sec / 3600) + 60 * (sec / 60 mod 60) + sec mod 60 = sec) as (Hh & Hmi & Hs & Hsum)
    by (Z.to_euclidean_division_equations; lia).
  set (frac := if nsec =? 0 then [] else "."%char :: trimZeros (digits 9 nsec)).
  assert (Hfrac : fraction (frac ++ ["Z"%char]) = (nsec, ["Z"%char])).
  { subst frac. destruct (Z.eqb_spec nsec 0) as [->|]; [done|]. apply fraction_trimmed; [lia|done]. }
  unfold parse. rewrite getnum_digits by (change (10 ^ Z.of_nat 4) with 10000; lia).
  cbn [mbind option_bind literal Ascii.eqb Bool.eqb app].
  do 10 parse_step. rewrite Hfrac. cbn [mbind option_bind literal Ascii.eqb Bool.eqb app head is_nil negb].
  by rewrite Hsum, Htime.
Qed.

(** The layout of the consumers and RFC 3339 read a text in UTC alike. *)
Lemma parse3339_utc l t : parse l = Some t -> parse3339 l = Some t.
Proof.
  unfold parse, parse3339. intros H.
  repeat (match type of H with (?m ≫= _) = _ => destruct m as [[? ?]|] + destruct m; [|discriminate H] end;
    cbn [mbind option_bind] in H |- *; cbn beta iota in H |- * ).
  destruct (fraction _) as [nsec rest]. destruct rest as [|c rest]; [discriminate H|].
  unfold zone. cbn [literal] in H |- *. destruct (c =c "Z"%char); [|discriminate H]. cbn [mbind option_bind] in H |- *.
  by rewrite Z.sub_0_r.
Qed.
Lemma ParseRFC3339_MarshalText t s : 0 <= t -> MarshalText t = Some s -> ParseRFC3339 s = (t, None).
Proof.
  intros Ht Hs. pose proof (Parse_MarshalText t s Ht Hs) as H. unfold Parse in H. unfold ParseRFC3339.
  destruct (parse (chars s)) as [u|] eqn:E; [|discriminate H]. by rewrite (parse3339_utc _ _ E).
Qed.
