(* ===== verification/GoNum.v ===== *)
(** * Numbers as text, and floating point

    Package strconv (ParseUint, ParseInt, ParseBool, base 10) and the numbers
    of encoding/json: a JSON number is decoded to the nearest float64, ties to
    the even mantissa.  A finite float64 is the pair of its mantissa and
    exponent.  [number_pretty] is that the decimal text of a number reads
    back, [float_of_Z_error] how far a float64 is from an integer. *)

From S2P Require Import Prelude GoStd Errors GoTime.
Open Scope Z_scope.
Open Scope go_scope.

(** ** strconv *)
Definition maxUint64 : Z := 2 ^ 64 - 1.
Definition maxInt64 : Z := 2 ^ 63 - 1.
Definition ErrSyntax : err := Foreign (Some "strconv.ErrSyntax") "invalid syntax" None.
Definition ErrRange : err := Foreign (Some "strconv.ErrRange") "value out of range" None.

Section strconv.
(** strconv.Quote, which looks characters up in the tables of Unicode. *)
Context (Quote : string -> string).
(** NumError.Error *)
Definition NumError (Func Num : string) (e : err) : err :=
  Foreign None ("strconv." +:+ Func +:+ ": parsing " +:+ Quote Num +:+ ": " +:+ Error e) (Some e).

Definition ParseUint (s : string) (bitSize : Z) : Z * error :=
  let l := chars s in
  if Nat.eqb (length l) 0 || negb (forallb isDigit l) then (0, Some (NumError "ParseUint" s ErrSyntax))
  else if 2 ^ bitSize - 1 <? number l then (2 ^ bitSize - 1, Some (NumError "ParseUint" s ErrRange))
  else (number l, None).
(** The digits after the sign. *)
Definition ParseInt (s : string) (bitSize : Z) : Z * error :=
  let '(neg, l) := match chars s with
                   | c :: l => if c =c "-"%char then (true, l) else if c =c "+"%char then (false, l) else (false, c :: l)
                   | [] => (false, [])
                   end in
  let cutoff := 2 ^ (bitSize - 1) in
  if Nat.eqb (length l) 0 || negb (forallb isDigit l) then (0, Some (NumError "ParseInt" s ErrSyntax))
  else if negb neg && (cutoff <=? number l) then (cutoff - 1, Some (NumError "ParseInt" s ErrRange))
  else if neg && (cutoff <? number l) then (- cutoff, Some (NumError "ParseInt" s ErrRange))
  else (if neg then - number l else number l, None).
Definition ParseBool (s : string) : bool * error :=
  if existsb (String.eqb s) ["1"; "t"; "T"; "true"; "TRUE"; "True"] then (true, None)
  else if existsb (String.eqb s) ["0"; "f"; "F"; "false"; "FALSE"; "False"] then (false, None)
  else (false, Some (NumError "ParseBool" s ErrSyntax)).
End strconv.

(** ** float64 *)
Record float64 := MkFloat { mant : Z; fexp : Z }.
Definition isZero (f : float64) : bool := mant f =? 0.

(** The integer nearest to [n / d], the even one of two. *)
Definition roundHalfEven (n d : Z) : Z :=
  let q := n / d in let r := n mod d in
  if 2 * r <? d then q else if d <? 2 * r then q + 1 else if Z.even q then q else q + 1.
(** The ratio [n * 2^-e / d]. *)
Definition scaled (n d e : Z) : Z * Z := if e <? 0 then (n * 2 ^ (- e), d) else (n, d * 2 ^ e).
(** The float64 nearest to [n / d], for [n] and [d] positive; [None] is an
    overflow. *)
Definition float_of_ratio (n d : Z) : option float64 :=
  let l := Z.log2 n - Z.log2 d in
  let l := if (let '(a, b) := scaled n d l in a <? b) then l - 1 else l in
  let e := Z.max (l - 52) (-1074) in
  let m := (let '(a, b) := scaled n d e in roundHalfEven a b) in
  if (2 ^ 53 <=? m) && (970 <? e) || (971 <? e) then None else Some (MkFloat m e).

(** int64(f): truncated; out of range what the amd64 instruction gives. *)
Definition int64_of (f : float64) : Z :=
  let z := if fexp f <? 0 then Z.quot (mant f) (2 ^ (- fexp f)) else mant f * 2 ^ fexp f in
  if (- 2 ^ 63 <=? z) && (z <=? maxInt64) then z else - 2 ^ 63.

(** ** The text of a JSON number *)
(** [-] digits [. digits] [e [sign] digits], as a mantissa and a power of ten. *)
Definition number_parts (l : list ascii) : Z * Z :=
  let '(neg, l) := match l with c :: l' => if c =c "-"%char then (true, l') else (false, l) | [] => (false, []) end in
  let '(int, l) := spanDigits l in
  let '(frac, l) := match l with c :: l' => if c =c "."%char then spanDigits l' else ([], l) | [] => ([], []) end in
  let exponent := match l with
                  | _ :: l' =>
                      match l' with
                      | c :: l'' => if c =c "-"%char then - number l'' else if c =c "+"%char then number l'' else number l'
                      | [] => 0
                      end
                  | [] => 0
                  end in
  let m := number (int ++ frac) in
  (if neg then - m else m, exponent - Z.of_nat (length frac)).
(** convertNumber of encoding/json. *)
Definition json_float (s : string) : option float64 :=
  let '(m, e) := number_parts (chars s) in
  if m =? 0 then Some (MkFloat 0 0) else
  f ← (if e <? 0 then float_of_ratio (Z.abs m) (10 ^ (- e)) else float_of_ratio (Z.abs m * 10 ^ e) 1);
  Some (MkFloat (if m <? 0 then - mant f else mant f) (fexp f)).

(** ** Decimal text *)
Lemma pretty_digit d : (d < 10)%N -> pretty_N_char d = digit (Z.of_N d).
Proof.
  intros H. destruct d as [|p]; [done|]. do 4 (destruct p as [p|p|]; try done); exfalso; lia.
Qed.
Lemma isDigit_digit d : 0 <= d < 10 -> isDigit (digit d) = true /\ digitVal (digit d) = d.
Proof.
  intros H. assert (d = 0 \/ d = 1 \/ d = 2 \/ d = 3 \/ d = 4 \/ d = 5 \/ d = 6 \/ d = 7 \/ d = 8 \/ d = 9) as Hc by lia.
  repeat destruct Hc as [->|Hc]; [done..|by subst d].
Qed.

Lemma number_from l : forall a, foldl (fun n c => 10 * n + digitVal c) a l = a * 10 ^ Z.of_nat (length l) + number l.
Proof.
  unfold number. induction l as [|c l IH]; intros a; cbn [foldl length]; [simpl; lia|].
  rewrite (IH (10 * a + digitVal c)), (IH (10 * 0 + digitVal c)), Nat2Z.inj_succ, Z.pow_succ_r by lia. lia.
Qed.
Lemma number_cons c l : number (c :: l) = digitVal c * 10 ^ Z.of_nat (length l) + number l.
Proof. unfold number at 1. cbn [foldl]. rewrite number_from. lia. Qed.

(** The text that [pretty] builds in front of [s]. *)
Lemma pretty_N_go_digits (x : N) : forall s, exists ds,
  chars (pretty_N_go x s) = ds ++ chars s /\ Forall (fun c => isDigit c = true) ds /\ number ds = Z.of_N x
  /\ (x <> 0%N -> ds <> []).
Proof.
  induction (N.lt_wf_0 x) as [x _ IH]. intros s. destruct (decide (x = 0%N)) as [->|Hx].
  { exists []. by rewrite pretty_N_go_0. }
  rewrite pretty_N_go_step by lia.
  destruct (IH (x `div` 10)%N) with (s := String.String (pretty_N_char (x `mod` 10)%N) s) as (ds & E & Hd & Hn & _).
  { apply N.div_lt; lia. }
  assert (Hm : (x `mod` 10 < 10)%N) by (apply N.mod_lt; lia).
  rewrite pretty_digit in E by done.
  destruct (isDigit_digit (Z.of_N (x `mod` 10)%N)) as [Hi Hv]; [lia|].
  exists (ds ++ [digit (Z.of_N (x `mod` 10)%N)]). rewrite pretty_digit by done. split; [|split; [|split]].
  - rewrite E, chars_cons, <- app_assoc. done.
  - apply Forall_app. split; [done|]. by constructor.
  - rewrite number_snoc, Hn, Hv. pose proof (N.div_mod x 10). lia.
  - intros _ H. by destruct ds.
Qed.
Lemma pretty_digits (n : N) : exists ds,
  chars (pretty n) = ds /\ ds <> [] /\ Forall (fun c => isDigit c = true) ds /\ number ds = Z.of_N n.
Proof.
  destruct (decide (n = 0%N)) as [->|Hn].
  { eexists. split; [reflexivity|]. split; [done|]. split; [by repeat constructor|done]. }
  destruct (pretty_N_go_digits n "") as (ds & E & Hd & Hv & Hne). exists ds.
  unfold pretty, pretty_N. rewrite decide_False by done. rewrite E, app_nil_r. eauto.
Qed.

Lemma spanDigits_all l : Forall (fun c => isDigit c = true) l -> spanDigits l = (l, []).
Proof. induction 1 as [|c l Hc _ IH]; [done|]. simpl. by rewrite Hc, IH. Qed.

(** A natural number written in decimal is a JSON number of its value. *)
Lemma number_parts_pretty (n : N) : number_parts (chars (pretty n)) = (Z.of_N n, 0).
Proof.
  destruct (pretty_digits n) as (ds & -> & Hne & Hd & Hv). unfold number_parts.
  destruct ds as [|c l] eqn:E; [done|].
  assert (Hc : (c =c "-"%char) = false).
  { apply Forall_cons in Hd as [Hc _]. by destruct (Ascii.eqb_spec c "-"%char) as [->|]. }
  rewrite Hc, spanDigits_all by done. cbn [app length]. by rewrite app_nil_r, Hv.
Qed.

Lemma ParseUint_pretty Quote (n : N) b : Z.of_N n < 2 ^ b -> ParseUint Quote (pretty n) b = (Z.of_N n, None).
Proof.
  intros Hb. unfold ParseUint. destruct (pretty_digits n) as (ds & -> & Hne & Hd & Hv).
  rewrite (proj2 (forallb_Forall _ _)) by done. destruct ds; [done|]. cbn [length Nat.eqb orb negb]. rewrite Hv.
  destruct (Z.ltb_spec (2 ^ b - 1) (Z.of_N n)); [lia|done].
Qed.

(** ** The error of a float64 *)
Lemma roundHalfEven_near n d : 0 < d -> 2 * Z.abs (roundHalfEven n d * d - n) <= d.
Proof.
  intros Hd. unfold roundHalfEven. pose proof (Z.div_mod n d). pose proof (Z.mod_pos_bound n d Hd).
  destruct (Z.ltb_spec (2 * (n mod d)) d); [nia|]. destruct (Z.ltb_spec d (2 * (n mod d))); [nia|].
  destruct (Z.even (n / d)); nia.
Qed.
Lemma roundHalfEven_1 n : roundHalfEven n 1 = n.
Proof. unfold roundHalfEven. rewrite Z.div_1_r, Z.mod_1_r. done. Qed.

(** An integer below [2^(53+k)] is at most half of [2^k] away from its float64,
    which is the integer itself below [2^53]. *)
Lemma float_of_Z_error n k : 0 < n -> 0 < k <= 900 -> n < 2 ^ (53 + k) ->
  exists f, float_of_ratio n 1 = Some f /\ mant f <> 0 /\
    let z := if fexp f <? 0 then Z.quot (mant f) (2 ^ (- fexp f)) else mant f * 2 ^ fexp f in
    0 < z /\ 2 * Z.abs (z - n) <= 2 ^ k.
Proof.
  intros Hn Hk Hlt. unfold float_of_ratio. change (Z.log2 1) with 0. rewrite Z.sub_0_r.
  pose proof (Z.log2_nonneg n) as Hl0. destruct (Z.log2_spec n Hn) as [Hlo Hhi].
  assert (Hlk : Z.log2 n < 53 + k) by (apply (proj1 (Z.log2_lt_pow2 _ _ Hn) Hlt)).
  assert (Hs : scaled n 1 (Z.log2 n) = (n, 2 ^ Z.log2 n)).
  { unfold scaled. destruct (Z.ltb_spec (Z.log2 n) 0); [lia|]. by rewrite Z.mul_1_l. }
  cbv zeta. rewrite Hs. destruct (Z.ltb_spec n (2 ^ Z.log2 n)); [lia|]. rewrite Z.max_l by lia. set (e := Z.log2 n - 52) in *.
  assert (He971 : (971 <? e) = false) by (apply Z.ltb_ge; lia).
  assert (He970 : (970 <? e) = false) by (apply Z.ltb_ge; lia).
  rewrite He971, He970, andb_false_r. cbn [orb]. unfold scaled. destruct (Z.ltb_spec e 0) as [He|He].
  - rewrite roundHalfEven_1. eexists. split; [done|]. cbn [mant fexp].
    assert (0 < 2 ^ (- e)) by (apply Z.pow_pos_nonneg; lia). split; [nia|].
    cbv zeta. destruct (Z.ltb_spec e 0); [|lia]. rewrite Z.quot_mul by lia.
    assert (0 < 2 ^ k) by (apply Z.pow_pos_nonneg; lia). replace (n - n) with 0 by lia. simpl. lia.
  - rewrite Z.mul_1_l. assert (Hp : 0 < 2 ^ e) by (apply Z.pow_pos_nonneg; lia).
    pose proof (roundHalfEven_near n (2 ^ e) Hp) as Hnear. set (m := roundHalfEven n (2 ^ e)) in *.
    assert (Hbig : 2 ^ e < n).
    { assert (2 ^ e < 2 ^ Z.log2 n) by (apply Z.pow_lt_mono_r; lia). lia. }
    assert (Hmp : 0 < m) by nia.
    eexists. split; [done|]. cbn [mant fexp]. split; [lia|]. cbv zeta. destruct (Z.ltb_spec e 0); [lia|].
    assert (2 ^ e <= 2 ^ k) by (apply Z.pow_le_mono_r; lia). split; [nia|lia].
Qed.

Example json_float_time : int64_of <$> json_float "1700000000123456789" = Some 1700000000123456768.
Proof. by vm_compute. Qed.
Example json_float_fraction : int64_of <$> json_float "-12.75e1" = Some (-127).
Proof. by vm_compute. Qed.
