(* ===== verification/GoUrl.v ===== *)
(** * Queries of URLs

    Package net/url: Values.Encode and QueryEscape, which write a query, and
    ParseQuery, which reads one.  A query is a list of keys and values in
    their order, of which [get] gives the values of a key.  What was written
    reads back: [QueryUnescape_QueryEscape], [get_Encode]. *)

From S2P Require Import Prelude GoStd.
From stdpp Require Import sorting.

(** ** Values.Encode *)
Definition hexdigit (n : nat) : ascii := nth n (chars "0123456789ABCDEF") "0"%char.
Definition between (a b c : ascii) : bool := Nat.leb (nat_of_ascii a) (nat_of_ascii c) && Nat.leb (nat_of_ascii c) (nat_of_ascii b).
Definition unreserved (c : ascii) : bool :=
  between "a" "z" c || between "A" "Z" c || between "0" "9" c || existsb (Ascii.eqb c) (chars "-_.~").
Definition escape (c : ascii) : list ascii :=
  if unreserved c then [c]
  else if Ascii.eqb c " "%char then ["+"%char]
  else ["%"%char; hexdigit (nat_of_ascii c / 16); hexdigit (nat_of_ascii c mod 16)].
Definition QueryEscape (s : string) : string := str (chars s ≫= escape).
Definition key_le (a b : string * string) : Prop := String.leb a.1 b.1 = true.
#[global] Instance key_le_dec : RelDecision key_le.
Proof. intros a b. unfold key_le. apply _. Defined.
(** The keys in their order. *)
Definition Encode (v : gmap string string) : string :=
  String.concat "&" (map (fun kv => QueryEscape kv.1 +:+ "=" +:+ QueryEscape kv.2)
    (merge_sort key_le (map_to_list v))).

(** ** ParseQuery, without its error, which URL.Query drops *)
Definition parsePair (piece : string) : option (string * string) :=
  if GoStd.Contains piece ";" || (piece =s "") then None else
  let '(key, value, _) := Cut piece "="%char in
  match QueryUnescape key, QueryUnescape value with
  | Some key, Some value => Some (key, value)
  | _, _ => None
  end.
Definition ParseQuery (query : string) : list (string * string) := omap parsePair (Split query "&"%char).
(** [r.URL.Query()[key]] *)
Definition get (query : list (string * string)) (key : string) : list string :=
  snd <$> List.filter (fun kv => kv.1 =s key) query.

(** ** What was written reads back *)
Ltac each_ascii c := destruct c as [[] [] [] [] [] [] [] []]; vm_compute.
Lemma unescape_escape c l : unescape (escape c ++ l) = match unescape l with Some r => Some (c :: r) | None => None end.
Proof. destruct c as [[] [] [] [] [] [] [] []]; reflexivity. Qed.
Lemma QueryUnescape_QueryEscape s : QueryUnescape (QueryEscape s) = Some s.
Proof.
  unfold QueryUnescape, QueryEscape. rewrite chars_str.
  assert (H : forall l, unescape (l ≫= escape) = Some l).
  { induction l as [|c l IH]; [done|]. rewrite bind_cons, unescape_escape. by rewrite IH. }
  rewrite H. simpl. by rewrite str_chars.
Qed.
(** No separator is left in an escaped text. *)
Lemma escape_plain c x : x ∈ chars "&=;" -> x ∉ escape c.
Proof.
  intros Hx Hin. assert (H : forallb (fun y => negb (existsb (Ascii.eqb y) (chars "&=;"))) (escape c) = true)
    by (each_ascii c; reflexivity).
  rewrite forallb_forall in H. apply list_elem_of_In in Hin. specialize (H _ Hin). apply negb_true_iff in H.
  apply not_true_iff_false in H. apply H. apply existsb_exists. exists x. rewrite <- list_elem_of_In. split; [done|].
  apply Ascii.eqb_refl.
Qed.
Lemma QueryEscape_plain s x : x ∈ chars "&=;" -> x ∉ chars (QueryEscape s).
Proof.
  unfold QueryEscape. rewrite chars_str. intros Hx Hin. apply list_elem_of_bind in Hin as (c & Hc & _).
  by apply (escape_plain c x).
Qed.

Lemma chars_concat (sep : ascii) (ps : list string) :
  chars (String.concat (String.String sep "") ps) = join_bytes sep (chars <$> ps).
Proof.
  induction ps as [|p ps IH]; [done|]. destruct ps as [|q ps]; [done|].
  change (String.concat (String.String sep "") (p :: q :: ps)) with (p +:+ String.String sep "" +:+ String.concat (String.String sep "") (q :: ps)).
  rewrite !chars_app, IH. done.
Qed.
Lemma split_join c ps : ps <> [] -> Forall (fun p => c ∉ p) ps -> split_bytes c (join_bytes c ps) = ps.
Proof.
  intros Hne H. induction H as [|p ps Hp Hps IH]; [done|]. destruct ps as [|q ps]; [by apply split_bytes_none|].
  change (join_bytes c (p :: q :: ps)) with (p ++ c :: join_bytes c (q :: ps)). rewrite split_bytes_app by done.
  by rewrite IH.
Qed.

Definition pair_text (kv : string * string) : string := QueryEscape kv.1 +:+ "=" +:+ QueryEscape kv.2.
Lemma pair_text_plain kv x : x ∈ chars "&;" -> x ∉ chars (pair_text kv).
Proof.
  unfold pair_text. rewrite !chars_app. intros Hx [H|[H|H]%elem_of_app]%elem_of_app.
  - apply (QueryEscape_plain kv.1 x); [|done]. revert Hx. clear. cbn. set_solver.
  - revert Hx H. clear. cbn. set_solver.
  - apply (QueryEscape_plain kv.2 x); [|done]. revert Hx. clear. cbn. set_solver.
Qed.
Lemma parsePair_text kv : parsePair (pair_text kv) = Some kv.
Proof.
  unfold parsePair. assert (H : GoStd.Contains (pair_text kv) ";" = false).
  { apply not_true_iff_false. unfold GoStd.Contains. rewrite has_sub_spec. intros (a & b & E).
    apply (pair_text_plain kv ";"%char); [by vm_compute; set_solver|]. rewrite E. set_solver. }
  rewrite H. destruct (pair_text kv =s "") eqn:Ee.
  { go_bool. unfold pair_text in Ee. by destruct (QueryEscape kv.1). }
  cbn [orb]. clear H Ee. unfold Cut, pair_text. rewrite !chars_app. cbn [chars String.list_ascii_of_string app].
  rewrite cut_bytes_app by (apply QueryEscape_plain; vm_compute; set_solver). rewrite !str_chars.
  rewrite !QueryUnescape_QueryEscape. by destruct kv.
Qed.
Lemma Encode_pairs v : Encode v = String.concat "&" (map pair_text (merge_sort key_le (map_to_list v))).
Proof. done. Qed.

(** Reading an encoded map gives its pairs, in the order of the keys. *)
Lemma ParseQuery_Encode v : ParseQuery (Encode v) = merge_sort key_le (map_to_list v).
Proof.
  rewrite Encode_pairs. unfold ParseQuery, Split. rewrite chars_concat. set (l := merge_sort _ _). clearbody l.
  destruct l as [|kv l]; [done|]. rewrite split_join; [|done|].
  - rewrite <- list_fmap_compose. induction (kv :: l) as [|x m IH]; [done|].
    cbn [map fmap list_fmap compose omap list_omap]. rewrite str_chars, parsePair_text. f_equal. exact IH.
  - apply Forall_forall. intros p Hp. apply list_elem_of_fmap in Hp as (s & -> & Hs).
    apply elem_of_map_list in Hs as (kv' & _ & <-). apply pair_text_plain. vm_compute. set_solver.
Qed.
Lemma get_Encode v k : get (ParseQuery (Encode v)) k = match v !! k with Some x => [x] | None => [] end.
Proof.
  rewrite ParseQuery_Encode. unfold get.
  assert (Hp : merge_sort key_le (map_to_list v) ≡ₚ map_to_list v) by apply merge_sort_Permutation.
  assert (Hn : NoDup (fst <$> merge_sort key_le (map_to_list v))) by (rewrite Hp; apply NoDup_fst_map_to_list).
  assert (Hin : forall x, (k, x) ∈ merge_sort key_le (map_to_list v) <-> v !! k = Some x)
    by (intros x; rewrite Hp; apply elem_of_map_to_list).
  clear Hp. revert Hn Hin. generalize (merge_sort key_le (map_to_list v)) as l. intros l Hn.
  assert (H : forall x, (k, x) ∈ l -> snd <$> List.filter (fun kv => kv.1 =s k) l = [x]).
  { intros x Hx. induction l as [|[k' y] l IH]; [by apply elem_of_nil in Hx|]. cbn [fmap list_fmap fst] in Hn.
    apply NoDup_cons in Hn as [Hk Hn]. cbn [List.filter fst]. apply elem_of_cons in Hx as [Hx|Hx].
    - injection Hx as <- <-. rewrite eqb_refl_s. cbn [fmap list_fmap snd]. f_equal.
      clear IH Hn. induction l as [|[k' z] l IH]; [done|]. cbn [fmap list_fmap fst] in Hk. cbn [List.filter fst].
      destruct (String.eqb_spec k' k) as [->|]; [by exfalso; apply Hk; left|]. apply IH. intros H. apply Hk. by right.
    - destruct (String.eqb_spec k' k) as [->|]; [|by apply IH]. exfalso. apply Hk. apply list_elem_of_fmap. by exists (k, x). }
  intros Hin. destruct (v !! k) as [x|] eqn:E; [by apply H, Hin|].
  assert (Hno : forall x, (k, x) ∉ l) by (intros x Hx; by apply Hin in Hx). clear H Hin Hn.
  induction l as [|[k' y] l IH]; [done|]. cbn [List.filter fst]. destruct (String.eqb_spec k' k) as [->|].
  - exfalso. apply (Hno y). by left.
  - apply IH. intros x Hx. apply (Hno x). by right.
Qed.
