(* ===== verification/Policies.v ===== *)
(** * pkg/policies: policies, and their SpiceDB implementation

    Source: src/pkg/policies/service.go, evaluator.go and
    spicedb/service.go, spicedb/evaluator.go.  The SpiceDB server is a
    parameter ([PermissionsServiceClient]); what the code relies on is the
    class [SpiceDBLaws].  The services use this file through the class
    [PolicyLaws], which the implementation is proved to satisfy. *)

From S2P Require Import Prelude GoStd Errors.

Module policies.
(** ** src/pkg/policies/evaluator.go: names *)
Definition NewGroupKind := "new_group".
Definition NewChannelKind := "new_channel".
Definition NewClientKind := "new_client".
Definition ChannelsKind := "channels".
Definition UsersKind := "users".

Definition RoleType := "role".
Definition GroupType := "group".
Definition ClientType := "client".
Definition ChannelType := "channel".
Definition UserType := "user".
Definition DomainType := "domain".
Definition PlatformType := "platform".

Definition AdministratorRelation := "administrator".
Definition EditorRelation := "editor".
Definition ContributorRelation := "contributor".
Definition MemberRelation := "member".
Definition DomainRelation := "domain".
Definition ParentGroupRelation := "parent_group".
Definition GuestRelation := "guest".

Definition AdminPermission := "admin".
Definition EditPermission := "edit".
Definition ViewPermission := "view".
Definition MembershipPermission := "membership".

Definition SuperMQObject := "supermq".

Record Policy := MkPolicy {
  TokenType : N;
  Domain : string;
  Subject : string;
  SubjectType : string;
  SubjectKind : string;
  SubjectRelation : string;
  ObjectPrefix : string;
  Object : string;
  ObjectKind : string;
  ObjectType : string;
  Relation : string;
  Permission : string }.
#[global] Instance Policy_fields : Fields Policy := fun p =>
  MkPolicy (TokenType p) (Domain p) (Subject p) (SubjectType p) (SubjectKind p)
    (SubjectRelation p) (ObjectPrefix p) (Object p) (ObjectKind p) (ObjectType p)
    (Relation p) (Permission p).
Definition Policy0 : Policy := MkPolicy 0 "" "" "" "" "" "" "" "" "" "" "".

Definition EncodeDomainUserID (domainID userID : string) : string :=
  if (domainID =s "") || (userID =s "") then "" else domainID +:+ "_" +:+ userID.

(** The interface of the policy service, and of the evaluator. *)
Record PolicyService (W : Type) := {
  AddPolicy : Policy -> St W error;
  AddPolicies : list Policy -> St W error;
  DeletePolicyFilter : Policy -> St W error;
  DeletePolicies : list Policy -> St W error }.
Arguments AddPolicy {W}.
Arguments AddPolicies {W}.
Arguments DeletePolicyFilter {W}.
Arguments DeletePolicies {W}.

Record Evaluator (W : Type) := { CheckPolicy : Policy -> St W error }.
Arguments CheckPolicy {W}.

End policies.

(** ** The relationship tuples SpiceDB stores *)
Record Relationship := MkRel {
  res_type : string; res_id : string; rel : string;
  sub_type : string; sub_id : string; sub_rel : string }.

#[global] Instance Relationship_eq_dec : EqDecision Relationship.
Proof. solve_decision. Defined.
#[global] Program Instance Relationship_countable : Countable Relationship :=
  inj_countable'
    (fun r => (res_type r, res_id r, rel r, sub_type r, sub_id r, sub_rel r))
    (fun '(a, b, c, d, e, f) => MkRel a b c d e f) _.
Next Obligation. by intros []. Qed.

(** The relationship a policy is written as. *)
Definition relationship (pr : policies.Policy) : Relationship :=
  MkRel (policies.ObjectType pr) (policies.Object pr) (policies.Relation pr)
    (policies.SubjectType pr) (policies.Subject pr) (policies.SubjectRelation pr).

Record SubjectFilter := {
  sf_type : string; sf_id : string; sf_relation : option string }.
Record RelationshipFilter := {
  rf_type : string; rf_id : string; rf_prefix : string; rf_relation : string;
  rf_subject : option SubjectFilter }.

(** An empty optional field of a filter matches everything. *)
Definition opt_match (pattern s : string) : bool := (pattern =s "") || (s =s pattern).

Definition filter_matches (f : RelationshipFilter) (r : Relationship) : bool :=
  opt_match (rf_type f) (res_type r) && opt_match (rf_id f) (res_id r)
  && HasPrefix (res_id r) (rf_prefix f) && opt_match (rf_relation f) (rel r)
  && match rf_subject f with
     | None => true
     | Some s =>
         (sub_type r =s sf_type s) && opt_match (sf_id s) (sub_id r)
         && match sf_relation s with None => true | Some x => sub_rel r =s x end
     end.

Inductive UpdateOp := OPERATION_CREATE | OPERATION_DELETE.
Definition RelationshipUpdate : Type := UpdateOp * Relationship.
Inductive PrecondOp := OPERATION_MUST_MATCH | OPERATION_MUST_NOT_MATCH.
Definition Precondition : Type := PrecondOp * RelationshipFilter.

(** ** The SpiceDB client: a parameter *)
Inductive Code :=
| OK | Canceled | Unknown | InvalidArgument | DeadlineExceeded | NotFound | AlreadyExists
| PermissionDenied | ResourceExhausted | FailedPrecondition | Aborted | OutOfRange
| Unimplemented | Internal | Unavailable | DataLoss | Unauthenticated.
(** An error of a gRPC call: a status, or an error that carries none. *)
Inductive GrpcError := GStatus (c : Code) (msg : string) | GOther (e : err).

Inductive Permissionship := UNSPECIFIED | NO_PERMISSION | HAS_PERMISSION | CONDITIONAL_PERMISSION | UNKNOWN_PERMISSIONSHIP.

Record PermissionsServiceClient (W : Type) := {
  WriteRelationships : list RelationshipUpdate -> list Precondition -> St W (option GrpcError);
  DeleteRelationships : RelationshipFilter -> St W (option GrpcError);
  CheckPermission : Relationship -> St W (Permissionship * option GrpcError) }.
Arguments WriteRelationships {W}.
Arguments DeleteRelationships {W}.
Arguments CheckPermission {W}.

(** ** src/pkg/policies/spicedb *)
Module spicedb.
Import policies.
Definition errAddPolicies : err := Sentinel "spicedb.errAddPolicies" CustomError "failed to add policies".
Definition errRemovePolicies : err := Sentinel "spicedb.errRemovePolicies" CustomError "failed to remove the policies".
Definition errNoPolicies : err := Sentinel "spicedb.errNoPolicies" CustomError "no policies provided".
Definition errInternal : err := Sentinel "spicedb.errInternal" CustomError "spicedb internal error".
Definition errPlatform : err := Sentinel "spicedb.errPlatform" CustomError "invalid platform id".

Definition code_string (c : Code) : string :=
  match c with
  | OK => "OK" | Canceled => "Canceled" | Unknown => "Unknown"
  | InvalidArgument => "InvalidArgument" | DeadlineExceeded => "DeadlineExceeded"
  | NotFound => "NotFound" | AlreadyExists => "AlreadyExists"
  | PermissionDenied => "PermissionDenied" | ResourceExhausted => "ResourceExhausted"
  | FailedPrecondition => "FailedPrecondition" | Aborted => "Aborted"
  | OutOfRange => "OutOfRange" | Unimplemented => "Unimplemented" | Internal => "Internal"
  | Unavailable => "Unavailable" | DataLoss => "DataLoss" | Unauthenticated => "Unauthenticated"
  end.

Definition convertGRPCStatusToError (c : Code) (msg : string) : error :=
  match c with
  | NotFound => WrapE repoerr.ErrNotFound (Some (New msg))
  | InvalidArgument => WrapE errs.ErrMalformedEntity (Some (New msg))
  | AlreadyExists => WrapE repoerr.ErrConflict (Some (New msg))
  | Unauthenticated => WrapE svcerr.ErrAuthentication (Some (New msg))
  | Internal => WrapE errInternal (Some (New msg))
  | OK => if msg <>s "" then WrapE errs.ErrUnidentified (Some (New msg)) else None
  | FailedPrecondition => WrapE errs.ErrMalformedEntity (Some (New msg))
  | PermissionDenied => WrapE svcerr.ErrAuthorization (Some (New msg))
  | _ => WrapE (Errorf ("unexpected gRPC status: " +:+ code_string c
                        +:+ " (status code:" +:+ code_string c +:+ ")")) (Some (New msg))
  end.

Definition handleSpicedbError (e : GrpcError) : error :=
  match e with
  | GStatus c msg => convertGRPCStatusToError c msg
  | GOther e => Some e
  end.

Definition policyValidation (pr : Policy) : error :=
  if (ObjectType pr =s PlatformType) && (Object pr <>s SuperMQObject) then Some errPlatform else None.

(** Filters of the preconditions. *)
Definition pre (op : PrecondOp) (type id relation : string) (stype sid : string) : Precondition :=
  (op, {| rf_type := type; rf_id := id; rf_prefix := ""; rf_relation := relation;
          rf_subject := Some {| sf_type := stype; sf_id := sid; sf_relation := None |} |}).

Definition groupPreConditions (pr : Policy) : list Precondition * error :=
  let precond := [pre OPERATION_MUST_MATCH GroupType (Subject pr) DomainRelation DomainType (Domain pr)] in
  let precond :=
    if ObjectKind pr <>s ChannelsKind
    then precond ++ [pre OPERATION_MUST_NOT_MATCH GroupType (Object pr) ParentGroupRelation GroupType ""]
    else precond in
  let precond :=
    if (ObjectType pr =s GroupType) && (ObjectKind pr =s NewGroupKind)
    then precond ++ [pre OPERATION_MUST_NOT_MATCH GroupType (Object pr) DomainRelation DomainType ""]
    else precond ++ [pre OPERATION_MUST_MATCH GroupType (Object pr) DomainRelation DomainType (Domain pr)] in
  (precond, None).

Section service.
Context {W : Type} (permissionClient : PermissionsServiceClient W).

Definition checkPolicy (pr : Policy) : St W error :=
  '(permissionship, e) <- CheckPermission permissionClient
      (MkRel (ObjectType pr) (Object pr) (Permission pr) (SubjectType pr) (Subject pr) (SubjectRelation pr)) ;;
  match e with
  | Some e => ret (handleSpicedbError e)
  | None =>
      match permissionship with
      | HAS_PERMISSION => ret None
      | UNSPECIFIED => ret (WrapE svcerr.ErrAuthorization (Some (New "PERMISSIONSHIP_UNSPECIFIED")))
      | NO_PERMISSION => ret (WrapE svcerr.ErrAuthorization (Some (New "PERMISSIONSHIP_NO_PERMISSION")))
      | CONDITIONAL_PERMISSION =>
          ret (WrapE svcerr.ErrAuthorization (Some (New "PERMISSIONSHIP_CONDITIONAL_PERMISSION")))
      | UNKNOWN_PERMISSIONSHIP => ret (Some svcerr.ErrAuthorization)
      end
  end.

(** policyEvaluator.CheckPolicy has the same body. *)
Definition evaluatorCheckPolicy (pr : Policy) : St W error := checkPolicy pr.
Definition NewPolicyEvaluator : Evaluator W := {| CheckPolicy := evaluatorCheckPolicy |}.

Definition superAdminPolicy (pr : Policy) : Policy :=
  Policy0 <| Subject := Subject pr |> <| SubjectType := SubjectType pr |>
          <| Permission := AdminPermission |> <| Object := SuperMQObject |>
          <| ObjectType := PlatformType |>.

Definition userGroupPreConditions (pr : Policy) : St W (list Precondition * error) :=
  let preconds := [pre OPERATION_MUST_NOT_MATCH GroupType (Object pr) "" UserType (Subject pr)] in
  e <- checkPolicy (superAdminPolicy pr) ;;
  let isSuperAdmin := is_nil e in
  let preconds :=
    if negb isSuperAdmin
    then preconds ++ [pre OPERATION_MUST_MATCH DomainType (Domain pr) "" UserType (Subject pr)]
    else preconds in
  let preconds :=
    if (ObjectKind pr =s NewGroupKind) || (ObjectKind pr =s NewChannelKind)
    then preconds ++ [pre OPERATION_MUST_NOT_MATCH GroupType (Object pr) DomainRelation DomainType ""]
    else preconds ++ [pre OPERATION_MUST_MATCH GroupType (Object pr) DomainRelation DomainType (Domain pr)] in
  ret (preconds, None).

Definition userClientPreConditions (pr : Policy) : St W (list Precondition * error) :=
  let preconds := [pre OPERATION_MUST_NOT_MATCH ClientType (Object pr) "" UserType (Subject pr)] in
  e <- checkPolicy (superAdminPolicy pr) ;;
  let isSuperAdmin := is_nil e in
  let preconds :=
    if negb isSuperAdmin
    then preconds ++ [pre OPERATION_MUST_MATCH DomainType (Domain pr) "" UserType (Subject pr)]
    else preconds in
  let preconds :=
    if ObjectKind pr =s NewClientKind
    then preconds ++ [pre OPERATION_MUST_NOT_MATCH ClientType (Object pr) DomainRelation DomainType ""]
    else preconds ++ [pre OPERATION_MUST_MATCH ClientType (Object pr) DomainRelation DomainType (Domain pr)] in
  ret (preconds, None).

Definition userDomainPreConditions (pr : Policy) : St W (list Precondition * error) :=
  e <- checkPolicy (superAdminPolicy pr) ;;
  if is_nil e then ret ([], Some (Errorf "use already exists in domain"))
  else ret ([pre OPERATION_MUST_NOT_MATCH DomainType (Object pr) "" UserType (Subject pr)], None).

Definition addPolicyPreCondition (pr : Policy) : St W (list Precondition * error) :=
  if (SubjectType pr =s UserType) && (ObjectType pr =s GroupType) then userGroupPreConditions pr
  else if (SubjectType pr =s UserType) && (ObjectType pr =s ClientType) then userClientPreConditions pr
  else if (SubjectType pr =s GroupType) && (ObjectType pr =s GroupType) then ret (groupPreConditions pr)
  else if (SubjectType pr =s UserType) && (ObjectType pr =s DomainType) then userDomainPreConditions pr
  else if (SubjectType pr =s DomainType) && (Relation pr =s DomainRelation)
          && ((ObjectType pr =s ClientType) || (ObjectType pr =s GroupType))
  then ret ([pre OPERATION_MUST_NOT_MATCH (ObjectType pr) (Object pr) DomainRelation DomainType ""], None)
  else ret ([], None).

Definition addPolicy (pr : Policy) : St W error :=
  if_err policyValidation pr return_ ret (WrapE svcerr.ErrInvalidPolicy (policyValidation pr)) ;;
  '(precond, e) <- addPolicyPreCondition pr ;;
  if_err e return_ ret e ;;
  e <- WriteRelationships permissionClient [(OPERATION_CREATE, relationship pr)] precond ;;
  match e with
  | Some e => ret (WrapE errAddPolicies (handleSpicedbError e))
  | None => ret None
  end.

(** The loop of AddPolicies that collects updates and preconditions. *)
Definition addPolicies_one (pr : Policy)
    : St W ((RelationshipUpdate * list Precondition) * error) :=
  if_err policyValidation pr
    return_ ret (((OPERATION_CREATE, relationship pr), []), WrapE svcerr.ErrInvalidPolicy (policyValidation pr)) ;;
  '(precond, e) <- addPolicyPreCondition pr ;;
  ret (((OPERATION_CREATE, relationship pr), precond), e).

Definition addPolicies (prs : list Policy) : St W error :=
  '(collected, e) <- map_err prs addPolicies_one ;;
  if_err e return_ ret e ;;
  let updates := collected.*1 in
  let preconds := concat collected.*2 in
  if_ Nat.eqb (length updates) 0
    return_ ret (WrapE errs.ErrMalformedEntity (Some errNoPolicies)) ;;
  e <- WriteRelationships permissionClient updates preconds ;;
  match e with
  | Some e => ret (WrapE errAddPolicies (handleSpicedbError e))
  | None => ret None
  end.

Definition policyFilter (pr : Policy) : RelationshipFilter :=
  {| rf_type := ObjectType pr; rf_id := Object pr; rf_prefix := ObjectPrefix pr;
     rf_relation := if Relation pr <>s "" then Relation pr else "";
     rf_subject :=
       if SubjectType pr <>s ""
       then Some {| sf_type := SubjectType pr;
                    sf_id := if Subject pr <>s "" then Subject pr else "";
                    sf_relation := if SubjectRelation pr <>s "" then Some (SubjectRelation pr) else None |}
       else None |}.

Definition deletePolicyFilter (pr : Policy) : St W error :=
  e <- DeleteRelationships permissionClient (policyFilter pr) ;;
  match e with
  | Some e => ret (WrapE errRemovePolicies (handleSpicedbError e))
  | None => ret None
  end.

Definition deletePolicies_one (pr : Policy) : St W (RelationshipUpdate * error) :=
  if_err policyValidation pr
    return_ ret ((OPERATION_DELETE, relationship pr), WrapE svcerr.ErrInvalidPolicy (policyValidation pr)) ;;
  ret ((OPERATION_DELETE, relationship pr), None).

Definition deletePolicies (prs : list Policy) : St W error :=
  '(updates, e) <- map_err prs deletePolicies_one ;;
  if_err e return_ ret e ;;
  if_ Nat.eqb (length updates) 0
    return_ ret (WrapE errs.ErrMalformedEntity (Some errNoPolicies)) ;;
  e <- WriteRelationships permissionClient updates [] ;;
  match e with
  | Some e => ret (WrapE errRemovePolicies (handleSpicedbError e))
  | None => ret None
  end.

Definition NewPolicyService : PolicyService W := {|
  AddPolicy := addPolicy;
  AddPolicies := addPolicies;
  DeletePolicyFilter := deletePolicyFilter;
  DeletePolicies := deletePolicies |}.
End service.
End spicedb.

(** ** What the services rely on

    [tuples] is the set of relationships the policy store holds in a state.
    Adding creates every relationship or none, and fails where one exists
    already; deleting removes the given ones or none; a filter removes what
    it matches or nothing. *)
Definition rel_set (prs : list policies.Policy) : gset Relationship := list_to_set (relationship <$> prs).

Definition policy_matches (pr : policies.Policy) (r : Relationship) : bool :=
  filter_matches (spicedb.policyFilter pr) r.

Definition remove_matching (f : Relationship -> bool) (s : gset Relationship) : gset Relationship :=
  filter (fun r => f r = false) s.

Class PolicyLaws {W : Type} (P : policies.PolicyService W) (tuples : W -> gset Relationship) : Prop := {
  AddPolicies_ok : forall prs w w', policies.AddPolicies P prs w = (None, w') ->
    tuples w' = tuples w ∪ rel_set prs /\ tuples w ## rel_set prs;
  AddPolicies_err : forall prs w e w', policies.AddPolicies P prs w = (Some e, w') ->
    tuples w' = tuples w;
  AddPolicy_ok : forall pr w w', policies.AddPolicy P pr w = (None, w') ->
    tuples w' = tuples w ∪ {[relationship pr]} /\ relationship pr ∉ tuples w;
  AddPolicy_err : forall pr w e w', policies.AddPolicy P pr w = (Some e, w') -> tuples w' = tuples w;
  DeletePolicies_ok : forall prs w w', policies.DeletePolicies P prs w = (None, w') ->
    tuples w' = tuples w ∖ rel_set prs;
  DeletePolicies_err : forall prs w e w', policies.DeletePolicies P prs w = (Some e, w') ->
    tuples w' = tuples w;
  DeletePolicyFilter_ok : forall pr w w', policies.DeletePolicyFilter P pr w = (None, w') ->
    tuples w' = remove_matching (policy_matches pr) (tuples w);
  DeletePolicyFilter_err : forall pr w e w', policies.DeletePolicyFilter P pr w = (Some e, w') ->
    tuples w' = tuples w }.

(** ** What the implementation relies on: the documented behaviour of a
    SpiceDB server.  A write request is atomic: it is applied where every
    precondition holds and no relationship to create exists, and otherwise
    it fails and changes nothing; a check changes nothing. *)
Definition precond_holds (s : gset Relationship) (p : Precondition) : Prop :=
  match p.1 with
  | OPERATION_MUST_MATCH => exists r, r ∈ s /\ filter_matches p.2 r = true
  | OPERATION_MUST_NOT_MATCH => forall r, r ∈ s -> filter_matches p.2 r = false
  end.

Definition apply_update (s : gset Relationship) (u : RelationshipUpdate) : gset Relationship :=
  match u.1 with
  | OPERATION_CREATE => s ∪ {[u.2]}
  | OPERATION_DELETE => s ∖ {[u.2]}
  end.
Definition creates (us : list RelationshipUpdate) (r : Relationship) : Prop := (OPERATION_CREATE, r) ∈ us.

Class SpiceDBLaws {W : Type} (C : PermissionsServiceClient W) (rels : W -> gset Relationship) : Prop := {
  Write_ok : forall us ps w w', WriteRelationships C us ps w = (None, w') ->
    rels w' = foldl apply_update (rels w) us
    /\ (forall r, creates us r -> r ∉ rels w) /\ (forall p, p ∈ ps -> precond_holds (rels w) p);
  Write_err : forall us ps w e w', WriteRelationships C us ps w = (Some e, w') -> rels w' = rels w;
  Delete_ok : forall f w w', DeleteRelationships C f w = (None, w') ->
    rels w' = remove_matching (filter_matches f) (rels w);
  Delete_err : forall f w e w', DeleteRelationships C f w = (Some e, w') -> rels w' = rels w;
  Check_frame : forall r w, rels (CheckPermission C r w).2 = rels w }.

(** An in-memory server: the laws can hold. *)
Module memdb.
Definition precond_holdsb (s : gset Relationship) (p : Precondition) : bool :=
  match p.1 with
  | OPERATION_MUST_MATCH => existsb (filter_matches p.2) (elements s)
  | OPERATION_MUST_NOT_MATCH => negb (existsb (filter_matches p.2) (elements s))
  end.
Definition clash (s : gset Relationship) (u : RelationshipUpdate) : bool :=
  match u.1 with OPERATION_CREATE => bool_decide (u.2 ∈ s) | OPERATION_DELETE => false end.
Definition write (us : list RelationshipUpdate) (ps : list Precondition)
    : St (gset Relationship) (option GrpcError) := fun s =>
  if negb (forallb (precond_holdsb s) ps) then (Some (GStatus FailedPrecondition "precondition"), s)
  else if existsb (clash s) us then (Some (GStatus AlreadyExists "exists"), s)
  else (None, foldl apply_update s us).
Definition delete (f : RelationshipFilter) : St (gset Relationship) (option GrpcError) :=
  fun s => (None, remove_matching (filter_matches f) s).
(** Every stored relation is also the permission of its name. *)
Definition check (r : Relationship) : St (gset Relationship) (Permissionship * option GrpcError) :=
  fun s => ((if bool_decide (r ∈ s) then HAS_PERMISSION else NO_PERMISSION, None), s).
Definition client : PermissionsServiceClient (gset Relationship) :=
  {| WriteRelationships := write; DeleteRelationships := delete; CheckPermission := check |}.

Lemma precond_holdsb_spec s p : precond_holdsb s p = true -> precond_holds s p.
Proof.
  unfold precond_holdsb, precond_holds. destruct p.1.
  - intros (r & Hr & Hm)%existsb_exists. exists r. split; [|done].
    by apply elem_of_elements, list_elem_of_In.
  - rewrite negb_true_iff. intros H r Hr. destruct (filter_matches p.2 r) eqn:E; [|done].
    enough (existsb (filter_matches p.2) (elements s) = true) by congruence.
    apply existsb_exists. exists r. split; [|done]. by apply list_elem_of_In, elem_of_elements.
Qed.

#[export] Instance laws : SpiceDBLaws client id.
Proof.
  split; simpl; unfold write, delete, check, id; intros *.
  - destruct (forallb _ _) eqn:Ep; simpl; [|done]. destruct (existsb _ us) eqn:Ec; [done|].
    intros [= <-]. split_and!; [done| |].
    + intros r Hr Hin. enough (existsb (clash w) us = true) by congruence.
      apply existsb_exists. exists (OPERATION_CREATE, r). split; [by apply list_elem_of_In|].
      by apply bool_decide_eq_true.
    + intros p Hp. apply precond_holdsb_spec. rewrite forallb_forall in Ep.
      by apply Ep, list_elem_of_In.
  - destruct (forallb _ _); simpl; [destruct (existsb _ us)|]; naive_solver.
  - naive_solver.
  - done.
  - done.
Qed.
End memdb.

(** ** The implementation satisfies the laws *)
Lemma foldl_create (us : list RelationshipUpdate) s :
  Forall (fun u => u.1 = OPERATION_CREATE) us ->
  foldl apply_update s us = s ∪ list_to_set us.*2.
Proof.
  intros H. revert s. induction H as [|[o r] us Ho _ IH]; intros s; simpl in *; [set_solver|].
  subst o. rewrite IH. unfold apply_update; simpl. set_solver.
Qed.

Lemma foldl_delete (us : list RelationshipUpdate) s :
  Forall (fun u => u.1 = OPERATION_DELETE) us ->
  foldl apply_update s us = s ∖ list_to_set us.*2.
Proof.
  intros H. revert s. induction H as [|[o r] us Ho _ IH]; intros s; simpl in *; [set_solver|].
  subst o. rewrite IH. unfold apply_update; simpl. set_solver.
Qed.

Section implementation.
Context {W : Type} (C : PermissionsServiceClient W) (rels : W -> gset Relationship).
Context {L : SpiceDBLaws C rels}.

Lemma checkPolicy_frames pr : frames (spicedb.checkPolicy C pr) rels.
Proof.
  apply frames_bind; [intros w; apply Check_frame|].
  intros [[] [e|]]; apply frames_ret.
Qed.

Lemma addPolicyPreCondition_frames pr : frames (spicedb.addPolicyPreCondition C pr) rels.
Proof.
  unfold spicedb.addPolicyPreCondition. repeat case_match; try apply frames_ret;
    apply frames_bind; try apply checkPolicy_frames; intros a; [..|destruct (is_nil a)]; apply frames_ret.
Qed.

(** What the loop of AddPolicies collects. *)
Lemma collect_updates prs w cs e w' :
  map_err prs (spicedb.addPolicies_one C) w = ((cs, e), w') ->
  rels w' = rels w
  /\ (e = None -> cs.*1 = (fun pr => (OPERATION_CREATE, relationship pr)) <$> prs).
Proof.
  revert w cs e w'. induction prs as [|pr prs IH]; intros w cs e w'; cbn [map_err].
  { intros [= <- <- <-]. done. }
  unfold spicedb.addPolicies_one at 1. unfold bind, ret.
  destruct (spicedb.policyValidation pr) eqn:Ev; simpl.
  { case_match eqn:E; [by intros [= <- <- <-]|]. by apply WrapE_not_nil in E. }
  pose proof (addPolicyPreCondition_frames pr w) as Hf.
  destruct (spicedb.addPolicyPreCondition C pr w) as [[pc [e1|]] w1]; simpl in *.
  { intros [= <- <- <-]. done. }
  destruct (map_err prs (spicedb.addPolicies_one C) w1) as [[ys [e2|]] w2] eqn:E; simpl;
    intros [= <- <- <-]; destruct (IH _ _ _ _ E) as [H1 H2]; split; try congruence.
  intros _. rewrite fmap_cons. f_equal. by apply H2.
Qed.

Lemma collect_deletes prs (w : W) us e w' :
  map_err prs spicedb.deletePolicies_one w = ((us, e), w') ->
  w' = w /\ (e = None -> us = (fun pr => (OPERATION_DELETE, relationship pr)) <$> prs).
Proof.
  revert us e. induction prs as [|pr prs IH]; intros us e; cbn [map_err].
  { intros [= <- <- <-]. done. }
  unfold spicedb.deletePolicies_one at 1. unfold bind, ret.
  destruct (spicedb.policyValidation pr) eqn:Ev; simpl.
  { case_match eqn:E; [by intros [= <- <- <-]|]. by apply WrapE_not_nil in E. }
  destruct (map_err prs spicedb.deletePolicies_one w) as [[ys [e2|]] w2] eqn:E; simpl;
    intros [= <- <- <-]; (edestruct IH as [H1 H2]; [done|]); split; try congruence.
  intros _. f_equal. by apply H2.
Qed.

Lemma rel_set_updates (o : UpdateOp) prs :
  list_to_set ((fun pr => (o, relationship pr)) <$> prs).*2 = rel_set prs.
Proof. unfold rel_set. by rewrite <- list_fmap_compose. Qed.

Lemma AddPolicies_laws prs w e w' :
  spicedb.addPolicies C prs w = (e, w') ->
  match e with
  | None => rels w' = rels w ∪ rel_set prs /\ rels w ## rel_set prs
  | Some _ => rels w' = rels w
  end.
Proof.
  unfold spicedb.addPolicies, bind, ret.
  destruct (map_err prs (spicedb.addPolicies_one C) w) as [[cs [e1|]] w1] eqn:E;
    destruct (collect_updates _ _ _ _ _ E) as [Hf Hu]; simpl; [by intros [= <- <-]|].
  case_match; [intros [= <- <-]|].
  { case_match eqn:Ew; [done|]. by apply WrapE_not_nil in Ew. }
  specialize (Hu eq_refl). rewrite Hu.
  destruct (WriteRelationships C _ _ w1) as [[e2|] w2] eqn:Ew; intros [= <- <-].
  - case_match eqn:E2; [|by apply WrapE_not_nil in E2]. apply Write_err in Ew. congruence.
  - apply Write_ok in Ew as (H1 & H2 & _). rewrite H1, Hf, foldl_create, rel_set_updates.
    + split; [done|]. intros r Hr Hs. unfold rel_set in Hs.
      apply elem_of_list_to_set, list_elem_of_fmap in Hs as (pr & -> & Hin).
      rewrite <- Hf in Hr. apply (H2 (relationship pr)); [|done].
      unfold creates. apply list_elem_of_fmap. by exists pr.
    + apply Forall_fmap, Forall_true. done.
Qed.

Lemma AddPolicy_laws pr w e w' :
  spicedb.addPolicy C pr w = (e, w') ->
  match e with
  | None => rels w' = rels w ∪ {[relationship pr]} /\ relationship pr ∉ rels w
  | Some _ => rels w' = rels w
  end.
Proof.
  unfold spicedb.addPolicy, bind, ret.
  destruct (spicedb.policyValidation pr) eqn:Ev.
  { intros [= <- <-]. case_match eqn:Ew; [done|]. by apply WrapE_not_nil in Ew. }
  pose proof (addPolicyPreCondition_frames pr w) as Hf.
  destruct (spicedb.addPolicyPreCondition C pr w) as [[pc [e1|]] w1]; simpl in *;
    [by intros [= <- <-]|].
  destruct (WriteRelationships C _ _ w1) as [[e2|] w2] eqn:Ew; intros [= <- <-].
  - case_match eqn:E2; [|by apply WrapE_not_nil in E2]. apply Write_err in Ew. congruence.
  - apply Write_ok in Ew as (H1 & H2 & _). rewrite H1, <- Hf. split; [done|].
    apply H2. unfold creates. set_solver.
Qed.

Lemma DeletePolicies_laws prs w e w' :
  spicedb.deletePolicies C prs w = (e, w') ->
  match e with
  | None => rels w' = rels w ∖ rel_set prs
  | Some _ => rels w' = rels w
  end.
Proof.
  unfold spicedb.deletePolicies, bind, ret.
  destruct (map_err prs spicedb.deletePolicies_one w) as [[us [e1|]] w1] eqn:E;
    destruct (collect_deletes _ _ _ _ _ E) as [-> Hu]; simpl; [by intros [= <- <-]|].
  case_match; [intros [= <- <-]|].
  { case_match eqn:Ew; [done|]. by apply WrapE_not_nil in Ew. }
  specialize (Hu eq_refl). rewrite Hu.
  destruct (WriteRelationships C _ _ w) as [[e2|] w2] eqn:Ew; intros [= <- <-].
  - case_match eqn:E2; [|by apply WrapE_not_nil in E2]. by apply Write_err in Ew.
  - apply Write_ok in Ew as (H1 & _). rewrite H1, foldl_delete, rel_set_updates; [done|].
    apply Forall_fmap, Forall_true. done.
Qed.

Lemma DeletePolicyFilter_laws pr w e w' :
  spicedb.deletePolicyFilter C pr w = (e, w') ->
  match e with
  | None => rels w' = remove_matching (policy_matches pr) (rels w)
  | Some _ => rels w' = rels w
  end.
Proof.
  unfold spicedb.deletePolicyFilter, bind, ret.
  destruct (DeleteRelationships C _ w) as [[e2|] w2] eqn:Ew; intros [= <- <-].
  - case_match eqn:E2; [|by apply WrapE_not_nil in E2]. by apply Delete_err in Ew.
  - by apply Delete_ok in Ew.
Qed.

#[global] Instance NewPolicyService_laws : PolicyLaws (spicedb.NewPolicyService C) rels.
Proof.
  split; simpl; intros *; intros E.
  - apply (AddPolicies_laws _ _ _ _ E).
  - apply (AddPolicies_laws _ _ _ _ E).
  - apply (AddPolicy_laws _ _ _ _ E).
  - apply (AddPolicy_laws _ _ _ _ E).
  - apply (DeletePolicies_laws _ _ _ _ E).
  - apply (DeletePolicies_laws _ _ _ _ E).
  - apply (DeletePolicyFilter_laws _ _ _ _ E).
  - apply (DeletePolicyFilter_laws _ _ _ _ E).
Qed.
End implementation.

(** ** A group has at most one parent

    A batch asks the server that no child has a parent yet and that parent
    and child are in the domain of the policy; the server checks both before
    it writes. *)
Section group_tree.
Context {W : Type} (C : PermissionsServiceClient W) (rels : W -> gset Relationship).
Context {L : SpiceDBLaws C rels}.
Import policies spicedb.

Definition parent_link (r : Relationship) : Prop :=
  res_type r = GroupType /\ rel r = ParentGroupRelation /\ sub_type r = GroupType.

Definition single_parent (s : gset Relationship) : Prop :=
  forall r1 r2, r1 ∈ s -> r2 ∈ s -> parent_link r1 -> parent_link r2 ->
    res_id r1 = res_id r2 -> r1 = r2.

(** A call of the policy service.  The two side conditions of the batch
    are what the group service does: no policy of the channels kind between
    groups, and the objects of a batch differ. *)
Inductive policy_step : W -> W -> Prop :=
| step_add prs w e w' :
    Forall (fun pr => ObjectKind pr <> ChannelsKind) prs -> NoDup (Object <$> prs) ->
    AddPolicies (NewPolicyService C) prs w = (e, w') -> policy_step w w'
| step_add1 pr w e w' :
    ObjectKind pr <> ChannelsKind ->
    AddPolicy (NewPolicyService C) pr w = (e, w') -> policy_step w w'
| step_delete prs w e w' :
    DeletePolicies (NewPolicyService C) prs w = (e, w') -> policy_step w w'
| step_filter pr w e w' :
    DeletePolicyFilter (NewPolicyService C) pr w = (e, w') -> policy_step w w'.

Lemma opt_match_refl s : opt_match s s = true.
Proof. unfold opt_match. rewrite eqb_refl_s. apply orb_true_r. Qed.

Lemma HasPrefix_empty s : HasPrefix s "" = true.
Proof. reflexivity. Qed.

(** The precondition of a policy between groups. *)
Lemma group_precondition pr w pcs w' :
  parent_link (relationship pr) -> ObjectKind pr <> ChannelsKind ->
  addPolicyPreCondition C pr w = ((pcs, None), w') ->
  pre OPERATION_MUST_NOT_MATCH GroupType (Object pr) ParentGroupRelation GroupType "" ∈ pcs
  /\ pre OPERATION_MUST_MATCH GroupType (Subject pr) DomainRelation DomainType (Domain pr) ∈ pcs.
Proof.
  intros (Ht & Hr & Hs) Hk. simpl in *. unfold addPolicyPreCondition.
  rewrite Ht, Hs. simpl. unfold groupPreConditions, ret.
  apply String.eqb_neq in Hk. rewrite Hk. simpl. intros [= <- <-].
  case_match; set_solver.
Qed.

Lemma no_parent_precondition (s : gset Relationship) c r :
  precond_holds s (pre OPERATION_MUST_NOT_MATCH GroupType c ParentGroupRelation GroupType "") ->
  r ∈ s -> parent_link r -> res_id r = c -> False.
Proof.
  intros H Hr (Ht & Hl & Hs) Hc. specialize (H r Hr). simpl in H.
  unfold filter_matches in H; simpl in H.
  rewrite Ht, Hl, Hs, Hc, HasPrefix_empty, !opt_match_refl in H. done.
Qed.

(** The preconditions of a successful batch held before it. *)
Lemma collect_preconds prs w cs w' :
  map_err prs (addPolicies_one C) w = ((cs, None), w') ->
  Forall (fun pr => parent_link (relationship pr) -> ObjectKind pr <> ChannelsKind ->
    pre OPERATION_MUST_NOT_MATCH GroupType (Object pr) ParentGroupRelation GroupType ""
      ∈ concat cs.*2) prs.
Proof.
  revert w cs w'. induction prs as [|pr prs IH]; intros w cs w'; cbn [map_err]; [done|].
  unfold addPolicies_one at 1. unfold bind, ret.
  destruct (policyValidation pr) eqn:Ev; simpl.
  { case_match eqn:E; [done|]. by apply WrapE_not_nil in E. }
  destruct (addPolicyPreCondition C pr w) as [[pc [e1|]] w1] eqn:Ep; simpl; [done|].
  destruct (map_err prs (addPolicies_one C) w1) as [[ys [e2|]] w2] eqn:E; [done|].
  intros [= <- <-]. constructor; simpl.
  - intros Hl Hk. apply elem_of_app. left. by apply (group_precondition _ _ _ _ Hl Hk Ep).
  - eapply Forall_impl; [apply (IH _ _ _ E)|]. simpl. intros p Hp Hl Hk.
    apply elem_of_app. right. by apply Hp.
Qed.

Lemma addPolicies_no_parent prs w w' :
  addPolicies C prs w = (None, w') ->
  forall pr r, pr ∈ prs -> parent_link (relationship pr) -> ObjectKind pr <> ChannelsKind ->
    r ∈ rels w -> parent_link r -> res_id r = Object pr -> False.
Proof.
  unfold addPolicies, bind, ret.
  destruct (map_err prs (addPolicies_one C) w) as [[cs [e1|]] w1] eqn:E; [done|].
  destruct (collect_updates C rels _ _ _ _ _ E) as [Hf _]. case_match; [by intros [= ? ?%eq_sym]; exfalso; eapply WrapE_not_nil|].
  destruct (WriteRelationships C _ _ w1) as [[e2|] w2] eqn:Ew; [by intros [= ?%WrapE_inv]|].
  intros _ pr r Hin Hl Hk Hr Hlr Hid. apply Write_ok in Ew as (_ & _ & Hp).
  pose proof (collect_preconds _ _ _ _ E) as Hc. rewrite Forall_forall in Hc.
  specialize (Hp _ (Hc pr Hin Hl Hk)). rewrite <- Hf in Hr.
  by eapply no_parent_precondition.
Qed.

(** A policy added on its own is a batch of one. *)
Lemma addPolicy_batch pr w w' :
  addPolicy C pr w = (None, w') -> addPolicies C [pr] w = (None, w').
Proof.
  unfold addPolicy, addPolicies, addPolicies_one, map_err, bind, ret.
  destruct (policyValidation pr) eqn:Ev; [by intros [= ?%WrapE_inv]|].
  destruct (addPolicyPreCondition C pr w) as [[pc [e1|]] w1]; [done|]. simpl.
  rewrite app_nil_r. destruct (WriteRelationships C _ _ w1) as [[e2|] w2]; [by intros [= ?%WrapE_inv]|done].
Qed.

Lemma single_parent_subseteq s s' : s' ⊆ s -> single_parent s -> single_parent s'.
Proof. unfold single_parent. set_solver. Qed.

Lemma single_parent_add (s : gset Relationship) prs :
  single_parent s -> NoDup (Object <$> prs) ->
  (forall pr r, pr ∈ prs -> parent_link (relationship pr) -> r ∈ s -> parent_link r ->
     res_id r = Object pr -> False) ->
  single_parent (s ∪ rel_set prs).
Proof.
  intros Hs Hnd Hnew r1 r2 H1 H2 L1 L2 Hid.
  assert (Hmem : forall r, r ∈ rel_set prs <-> exists pr, r = relationship pr /\ pr ∈ prs).
  { intros r. unfold rel_set. rewrite elem_of_list_to_set. apply list_elem_of_fmap. }
  apply elem_of_union in H1 as [H1|H1], H2 as [H2|H2]; [by apply Hs|..];
    repeat match goal with H : _ ∈ rel_set _ |- _ => apply Hmem in H as (? & -> & ?) end.
  - exfalso. by eapply (Hnew _ r1).
  - exfalso. by eapply (Hnew _ r2).
  - simpl in Hid. f_equal.
    match goal with A : ?x ∈ prs, B : ?y ∈ prs |- _ =>
      apply list_elem_of_lookup in A as [i Hi], B as [j Hj] end.
    assert (i = j) as ->; [|congruence].
    eapply (NoDup_lookup (Object <$> prs)); [done|rewrite list_lookup_fmap, Hi; done|].
    rewrite list_lookup_fmap, Hj. simpl. congruence.
Qed.

Lemma policy_step_single_parent w w' :
  policy_step w w' -> single_parent (rels w) -> single_parent (rels w').
Proof.
  intros Hstep Hs. destruct Hstep as [prs w [e|] w' Hk Hnd E|pr w [e|] w' Hk E
    |prs w [e|] w' E|pr w [e|] w' E]; simpl in *.
  - apply (AddPolicies_laws C rels) in E. by rewrite E.
  - pose proof (addPolicies_no_parent _ _ _ E) as Hnp.
    apply (AddPolicies_laws C rels) in E as [E _]. rewrite E. apply single_parent_add; [done..|].
    intros pr r Hin Hl Hr Hlr Hid. rewrite Forall_forall in Hk. by eapply Hnp; eauto.
  - apply (AddPolicy_laws C rels) in E. by rewrite E.
  - assert (Hb : addPolicies C [pr] w = (None, w')) by (by apply addPolicy_batch).
    apply (AddPolicy_laws C rels) in E as [E _]. rewrite E.
    replace {[relationship pr]} with (rel_set [pr]) by (unfold rel_set; set_solver).
    apply single_parent_add; [done|apply NoDup_singleton|].
    intros p r Hin%list_elem_of_singleton Hl Hr Hlr Hid. subst p.
    by eapply (addPolicies_no_parent _ _ _ Hb pr r); eauto; set_solver.
  - apply (DeletePolicies_laws C rels) in E. by rewrite E.
  - apply (DeletePolicies_laws C rels) in E. rewrite E.
    eapply single_parent_subseteq; [|done]. set_solver.
  - apply (DeletePolicyFilter_laws C rels) in E. by rewrite E.
  - apply (DeletePolicyFilter_laws C rels) in E. rewrite E.
    eapply single_parent_subseteq; [|done]. unfold remove_matching. set_solver.
Qed.
End group_tree.

(** C3: the SpiceDB policy service implements the policy interface the other
    services are proved against: adding a batch creates every relationship
    or none (and never one that exists), deleting a batch or a filter
    removes exactly what it names, and a call that returns an error changes
    nothing, whichever of validation, precondition or write failed. *)
Theorem NewPolicyService_refines {W} (C : PermissionsServiceClient W) (rels : W -> gset Relationship)
    (L : SpiceDBLaws C rels) : PolicyLaws (spicedb.NewPolicyService C) rels.
Proof. exact (NewPolicyService_laws C rels). Qed.

Lemma NewPolicyService_refines_witness : PolicyLaws (spicedb.NewPolicyService memdb.client) id.
Proof. apply (NewPolicyService_refines memdb.client id memdb.laws). Defined.

(** Over every sequence of policy operations a group has at most one
    parent group: a policy between groups is written only where its object
    has no parent link, on every path of AddPolicy and AddPolicies, and
    deletions keep it. *)
Theorem single_parent_reachable {W} (C : PermissionsServiceClient W) (rels : W -> gset Relationship)
    (L : SpiceDBLaws C rels) (w w' : W) (Hw : single_parent (rels w))
    (Hsteps : rtc (policy_step C) w w') : single_parent (rels w').
Proof. induction Hsteps; [done|]. apply IHHsteps. by eapply policy_step_single_parent. Qed.

Module group_example.
Definition link (p c : string) : policies.Policy :=
  set_field policies.Object c (set_field policies.Relation policies.ParentGroupRelation
    (set_field policies.ObjectType policies.GroupType (set_field policies.SubjectType policies.GroupType
      (set_field policies.Subject p (set_field policies.Domain "d" policies.Policy0))))).
Definition in_domain (g : string) : Relationship :=
  MkRel policies.GroupType g policies.DomainRelation policies.DomainType "d" "".
Definition w0 : gset Relationship := {[in_domain "a"]} ∪ ({[in_domain "b"]} ∪ {[in_domain "c"]}).

Lemma single_parent_reachable_witness :
  let w1 := (spicedb.addPolicy memdb.client (link "a" "c") w0).2 in
  bool_decide (relationship (link "a" "c") ∈ w1) = true
  /\ is_nil (spicedb.addPolicy memdb.client (link "b" "c") w1).1 = false
  /\ single_parent w1.
Proof.
  split; [vm_compute; reflexivity|split; [vm_compute; reflexivity|]].
  apply (single_parent_reachable memdb.client id memdb.laws w0).
  - intros r1 r2 H1 H2 (_ & E & _). exfalso. revert H1 E. unfold w0, in_domain, id.
    rewrite !elem_of_union, !elem_of_singleton. intros [->|[->| ->]]; vm_compute; discriminate.
  - apply rtc_once. eapply (step_add1 memdb.client (link "a" "c")); [vm_compute; discriminate|]. apply surjective_pairing.
Defined.
End group_example.
