(* ===== verification/PolicyLists.v ===== *)
(** * The listing operations of the policy service

    Source: src/pkg/policies/service.go, evaluator.go and
    spicedb/service.go.  The SpiceDB client is a parameter: a lookup answers
    with an error, or with a stream, which is the list of its responses and
    how it ends (io.EOF, or an error).  Paging loops run with a number of
    rounds; [None] when these are not enough. *)

From S2P Require Import Prelude GoStd Errors Policies.

Module policy_lists.
Import policies spicedb.

(** ** src/pkg/policies *)
Definition DeletePermission := "delete".
Definition SharePermission := "share".
Definition PublishPermission := "publish".
Definition SubscribePermission := "subscribe".
Definition CreatePermission := "create".
Record PolicyPage := MkPolicyPage { Policies : list string; NextPageToken : string }.
Definition PolicyPage0 : PolicyPage := MkPolicyPage [] "".

(** ** src/pkg/policies/spicedb *)
Definition errRetrievePolicies : err :=
  Sentinel "spicedb.errRetrievePolicies" CustomError "failed to retrieve policies".
Definition defRetrieveAllLimit : N := 1000.

Definition defClientsFilterPermissions : list string :=
  [AdminPermission; DeletePermission; EditPermission; ViewPermission; SharePermission; PublishPermission; SubscribePermission].
Definition defGroupsFilterPermissions : list string :=
  [AdminPermission; DeletePermission; EditPermission; ViewPermission; MembershipPermission; SharePermission].
Definition defDomainsFilterPermissions : list string :=
  [AdminPermission; EditPermission; ViewPermission; MembershipPermission; SharePermission].
Definition defPlatformFilterPermissions : list string := [AdminPermission; MembershipPermission].

(** A lookup: the relationship asked about, with the permission as its
    relation and nothing where the answers are, a limit (a uint32; 0 is
    none) and a cursor. *)
Record Lookup := MkLookup { lk_rel : Relationship; lk_limit : N; lk_cursor : string }.
(** A response: the object or subject, and the token of its cursor if any. *)
Definition Response : Type := string * option string.
Definition Stream : Type := list Response * option GrpcError.
(** A pair of a bulk check: an error, or the permission of the request (if
    one is there) with the answer (if one is there). *)
Definition BulkPair : Type := (Code * string) + (option string * option Permissionship).

Record LookupClient (W : Type) := {
  LookupResources : Lookup -> St W (Stream + GrpcError);
  LookupSubjects : Lookup -> St W (Stream + GrpcError);
  CheckBulkPermissions : list Relationship -> St W (list BulkPair + GrpcError) }.
Arguments LookupResources {W}. Arguments LookupSubjects {W}. Arguments CheckBulkPermissions {W}.

(** The conversion of a uint64 to uint32. *)
Definition uint32 (n : N) : N := (n mod 4294967296)%N.

Definition objectsToAuthPolicies (objects : list Response) : list Policy :=
  map (fun r => Policy0 <| Object := r.1 |>) objects.
Definition subjectsToAuthPolicies (subjects : list Response) : list Policy :=
  map (fun r => Policy0 <| Subject := r.1 |>) subjects.

(** The token of the last response. *)
Definition lastToken (rs : list Response) : string :=
  match last rs with Some (_, Some token) => token | _ => "" end.

Definition wrapRetrieve (e : GrpcError) : error := WrapE errRetrievePolicies (handleSpicedbError e).

Section service.
Context {W : Type} (client : LookupClient W).

(** The loop over a stream, with what becomes of its responses. *)
Definition receive (toPolicies : list Response -> list Policy) (answer : Stream + GrpcError)
    : (list Policy * string) * error :=
  match answer with
  | inr e => (([], ""), wrapRetrieve e)
  | inl (rs, None) => ((toPolicies rs, lastToken rs), None)
  | inl (rs, Some e) => (([], lastToken rs), wrapRetrieve e)
  end.

Definition objectsLookup (pr : Policy) (limit : N) (token : string) : Lookup :=
  MkLookup (MkRel (ObjectType pr) "" (Permission pr) (SubjectType pr) (Subject pr) (SubjectRelation pr)) limit token.
Definition subjectsLookup (pr : Policy) (limit : N) (token : string) : Lookup :=
  MkLookup (MkRel (ObjectType pr) (Object pr) (Permission pr) (SubjectType pr) "" (SubjectRelation pr)) limit token.

Definition retrieveObjects (pr : Policy) (nextPageToken : string) (limit : N) : St W ((list Policy * string) * error) :=
  answer <- LookupResources client (objectsLookup pr (uint32 limit) nextPageToken) ;;
  ret (receive objectsToAuthPolicies answer).

Definition retrieveSubjects (pr : Policy) (nextPageToken : string) (limit : N) : St W ((list Policy * string) * error) :=
  answer <- LookupSubjects client (subjectsLookup pr (uint32 limit) nextPageToken) ;;
  ret (receive subjectsToAuthPolicies answer).

(** A response that is not the end of the stream is an object. *)
Definition retrieveAllObjects (pr : Policy) : St W (list Policy * error) :=
  answer <- LookupResources client (objectsLookup pr 0 "") ;;
  match answer with
  | inr e => ret ([], wrapRetrieve e)
  | inl (rs, None) => ret (objectsToAuthPolicies rs, None)
  | inl (rs, Some e) => ret (objectsToAuthPolicies rs, wrapRetrieve e)
  end.

(** The loop of retrieveAllSubjects, with the tuples so far. *)
Fixpoint allSubjects (fuel : nat) (pr : Policy) (tuples : list Policy) (nextPageToken : string)
    : St W (option (list Policy * error)) :=
  match fuel with
  | O => ret None
  | S fuel =>
      '((relationTuples, npt), e) <- retrieveSubjects pr nextPageToken defRetrieveAllLimit ;;
      if_err e return_ ret (Some (tuples, e)) ;;
      let tuples := tuples ++ relationTuples in
      if_ (npt =s "") || N.ltb (N.of_nat (length tuples)) defRetrieveAllLimit return_ ret (Some (tuples, None)) ;;
      allSubjects fuel pr tuples npt
  end.
Definition retrieveAllSubjects (fuel : nat) (pr : Policy) : St W (option (list Policy * error)) :=
  allSubjects fuel pr [] "".

Definition defaultLimit (limit : N) : N := if N.leb limit 0 then 100%N else limit.

Definition ListObjects (pr : Policy) (nextPageToken : string) (limit : N) : St W (PolicyPage * error) :=
  '((res, npt), e) <- retrieveObjects pr nextPageToken (defaultLimit limit) ;;
  if_err e return_ ret (PolicyPage0, WrapE svcerr.ErrViewEntity e) ;;
  ret (MkPolicyPage (map Object res) npt, None).

Definition ListAllObjects (pr : Policy) : St W (PolicyPage * error) :=
  '(res, e) <- retrieveAllObjects pr ;;
  if_err e return_ ret (PolicyPage0, WrapE svcerr.ErrViewEntity e) ;;
  ret (MkPolicyPage (map Object res) "", None).

(** A uint64: the sum wraps around. *)
Definition uint64 (n : N) : N := (n mod 18446744073709551616)%N.

(** The loop of CountObjects and of CountSubjects. *)
Fixpoint countPages (retrieve : string -> St W ((list Policy * string) * error)) (fuel : nat) (count : N)
    (nextPageToken : string) : St W (option (N * error)) :=
  match fuel with
  | O => ret None
  | S fuel =>
      '((relationTuples, npt), e) <- retrieve nextPageToken ;;
      if_err e return_ ret (Some (count, e)) ;;
      let count := uint64 (count + N.of_nat (length relationTuples)) in
      if_ npt =s "" return_ ret (Some (count, None)) ;;
      countPages retrieve fuel count npt
  end.
Definition CountObjects (fuel : nat) (pr : Policy) : St W (option (N * error)) :=
  countPages (fun token => retrieveObjects pr token defRetrieveAllLimit) fuel 0 "".

Definition ListSubjects (pr : Policy) (nextPageToken : string) (limit : N) : St W (PolicyPage * error) :=
  '((res, npt), e) <- retrieveSubjects pr nextPageToken (defaultLimit limit) ;;
  if_err e return_ ret (PolicyPage0, WrapE svcerr.ErrViewEntity e) ;;
  ret (MkPolicyPage (map Subject res) npt, None).

Definition ListAllSubjects (fuel : nat) (pr : Policy) : St W (option (PolicyPage * error)) :=
  r <- retrieveAllSubjects fuel pr ;;
  match r with
  | None => ret None
  | Some (res, e) =>
      if_err e return_ ret (Some (PolicyPage0, WrapE svcerr.ErrViewEntity e)) ;;
      ret (Some (MkPolicyPage (map Subject res) "", None))
  end.

Definition CountSubjects (fuel : nat) (pr : Policy) : St W (option (N * error)) :=
  countPages (fun token => retrieveSubjects pr token defRetrieveAllLimit) fuel 0 "".

Definition permissionCheck (pr : Policy) (fp : string) : Relationship :=
  MkRel (ObjectType pr) (Object pr) fp (SubjectType pr) (Subject pr) (SubjectRelation pr).

(** The loop over the pairs of the answer. *)
Fixpoint permitted (pairs : list BulkPair) (permissions : list string) : list string * error :=
  match pairs with
  | [] => (permissions, None)
  | inl (c, msg) :: _ => ([], WrapE errRetrievePolicies (convertGRPCStatusToError c msg))
  | inr (Some perm, Some HAS_PERMISSION) :: pairs => permitted pairs (permissions ++ [perm])
  | inr _ :: pairs => permitted pairs permissions
  end.

Definition retrievePermissions (pr : Policy) (filterPermission : list string) : St W (list string * error) :=
  answer <- CheckBulkPermissions client (map (permissionCheck pr) filterPermission) ;;
  match answer with
  | inr e => ret ([], wrapRetrieve e)
  | inl pairs => ret (permitted pairs [])
  end.

Definition defaultPermissions (objectType : string) : option (list string) :=
  if objectType =s ClientType then Some defClientsFilterPermissions
  else if objectType =s GroupType then Some defGroupsFilterPermissions
  else if objectType =s PlatformType then Some defPlatformFilterPermissions
  else if objectType =s DomainType then Some defDomainsFilterPermissions
  else None.

Definition ListPermissions (pr : Policy) (permissionsFilter : list string) : St W (list string * error) :=
  match (if length permissionsFilter =? 0 then defaultPermissions (ObjectType pr) else Some permissionsFilter) with
  | None => ret ([], Some svcerr.ErrMalformedEntity)
  | Some permissionsFilter =>
      '(pers, e) <- retrievePermissions pr permissionsFilter ;;
      if_err e return_ ret ([], WrapE svcerr.ErrViewEntity e) ;;
      ret (pers, None)
  end.
End service.
End policy_lists.

(** ** What the paging loops rely on: a server that answers a lookup with the
    [answers] to it in a fixed order, from the position of the cursor on and
    up to the limit, each with the cursor of the position after it. *)
Section paging.
Import policy_lists.

Class PagingLaws {W} (look : Lookup -> St W (Stream + GrpcError)) (I : W -> Prop)
    (answers : Relationship -> list string) (token : nat -> string) := {
  token_not_empty k : token k <> "";
  look_page r limit k w : I w -> exists w', I w' /\
    look (MkLookup r limit (if k =? 0 then "" else token k)) w
    = (inl (imap (fun i x => (x, Some (token (k + S i))))
              (if N.eqb limit 0 then drop k (answers r) else take (N.to_nat limit) (drop k (answers r))), None), w') }.
End paging.

Section paging_theory.
Import policies policy_lists.
Context {W : Type} (client : LookupClient W) (I : W -> Prop).
Context (objects subjects : Relationship -> list string) (token : nat -> string).
Context `{HO : !PagingLaws (LookupResources client) I objects token}.
Context `{HS : !PagingLaws (LookupSubjects client) I subjects token}.

Definition cursor (k : nat) : string := if k =? 0 then "" else token k.

Lemma lastToken_page k (l : list string) :
  lastToken (imap (fun i x => (x, Some (token (k + S i)))) l) = if length l =? 0 then "" else token (k + length l).
Proof.
  unfold lastToken. destruct l as [|y l' _] using rev_ind; [done|].
  rewrite imap_app. simpl. rewrite last_snoc, length_app. simpl.
  replace (length l' + 1) with (S (length l')) by lia. simpl. f_equal. lia.
Qed.
Lemma map_page {A} (f : Response -> A) k (l : list string) :
  (forall x t, f (x, t) = f (x, None)) ->
  map f (imap (fun i x => (x, Some (token (k + S i)))) l) = map (fun x => f (x, None)) l.
Proof.
  intros Hf. revert k. induction l as [|x l IH]; intros k; [done|]. simpl. rewrite Hf. f_equal.
  rewrite <- (IH (S k)). f_equal. apply imap_ext. intros i y _. simpl. do 3 f_equal. lia.
Qed.

(** A page that is asked for from position [k]. *)
Definition page_of {A} (f : string -> A) (l : list string) (k : nat) : list A * string :=
  (map f (take 1000 (drop k l)), if length l <=? k then "" else token (k + length (take 1000 (drop k l)))).

Lemma token_of_page (l : list string) k :
  (if length (take 1000 (drop k l)) =? 0 then "" else token (k + length (take 1000 (drop k l))))
  = if length l <=? k then "" else token (k + length (take 1000 (drop k l))).
Proof.
  destruct (Nat.leb_spec (length l) k) as [Hl|Hl].
  - by rewrite drop_ge, take_nil by lia.
  - destruct (Nat.eqb_spec (length (take 1000 (drop k l))) 0) as [Hz|]; [|done].
    rewrite length_take, length_drop in Hz. lia.
Qed.

Lemma retrieveObjects_page pr k w : I w -> exists w', I w' /\
  retrieveObjects client pr (cursor k) defRetrieveAllLimit w
  = ((page_of (fun x => Policy0 <| Object := x |>) (objects (lk_rel (objectsLookup pr 0 ""))) k, None), w').
Proof.
  intros Hw. unfold retrieveObjects, objectsLookup, bind, ret, cursor.
  destruct (look_page (look := LookupResources client)
    (MkRel (ObjectType pr) "" (Permission pr) (SubjectType pr) (Subject pr) (SubjectRelation pr))
    (uint32 defRetrieveAllLimit) k w Hw) as (w' & Hw' & Hl). rewrite Hl.
  exists w'. split; [done|]. unfold receive. do 2 f_equal. unfold page_of, objectsToAuthPolicies.
  rewrite lastToken_page, map_page by done. simpl N.eqb. cbv iota.
  change (N.to_nat (uint32 defRetrieveAllLimit)) with 1000. by rewrite token_of_page.
Qed.
Lemma retrieveSubjects_page pr k w : I w -> exists w', I w' /\
  retrieveSubjects client pr (cursor k) defRetrieveAllLimit w
  = ((page_of (fun x => Policy0 <| Subject := x |>) (subjects (lk_rel (subjectsLookup pr 0 ""))) k, None), w').
Proof.
  intros Hw. unfold retrieveSubjects, subjectsLookup, bind, ret, cursor.
  destruct (look_page (look := LookupSubjects client)
    (MkRel (ObjectType pr) (Object pr) (Permission pr) (SubjectType pr) "" (SubjectRelation pr))
    (uint32 defRetrieveAllLimit) k w Hw) as (w' & Hw' & Hl). rewrite Hl.
  exists w'. split; [done|]. unfold receive. do 2 f_equal. unfold page_of, subjectsToAuthPolicies.
  rewrite lastToken_page, map_page by done. simpl N.eqb. cbv iota.
  change (N.to_nat (uint32 defRetrieveAllLimit)) with 1000. by rewrite token_of_page.
Qed.

(** Retrieving from a cursor gives the page at its position. *)
Definition pages_of {A} (f : string -> A) (l : list string) (retrieve : string -> St W ((list A * string) * error)) : Prop :=
  forall k w, I w -> exists w', I w' /\ retrieve (cursor k) w = ((page_of f l k, None), w').

(** Where a page leaves off: at the end of the list, or at the cursor of the
    position after it. *)
Lemma page_next {A} (f : string -> A) (l : list string) k : k <= length l ->
  let k' := k + length (page_of f l k).1 in
  k' <= length l /\ ((k = length l /\ k' = k /\ (page_of f l k).2 = "")
                    \/ (k < k' /\ length l - k' <= (length l - k) - 1000 /\ (page_of f l k).2 = cursor k' /\ cursor k' <> "")).
Proof.
  intros Hk k'. unfold k', page_of. simpl. rewrite length_map, length_take, length_drop. split; [lia|].
  destruct (Nat.leb_spec (length l) k) as [Hl|Hl]; [left; split_and!; [lia|lia|done]|right].
  split_and!; [lia|lia| |].
  - unfold cursor. by destruct (Nat.eqb_spec (k + 1000 `min` (length l - k)) 0); [lia|].
  - unfold cursor. destruct (Nat.eqb_spec (k + 1000 `min` (length l - k)) 0); [lia|].
    apply (token_not_empty (PagingLaws := HO)).
Qed.

Lemma countPages_all (f : string -> Policy) (l : list string) retrieve n k w : pages_of f l retrieve ->
  I w -> k <= length l -> length l - k <= 1000 * n -> (N.of_nat (length l) < 18446744073709551616)%N ->
  exists w', I w' /\ countPages retrieve (S n) (N.of_nat k) (cursor k) w = (Some (N.of_nat (length l), None), w').
Proof.
  intros Hr. revert k w. induction n as [|n IH]; intros k w Hw Hk Hn Hlen;
    destruct (Hr k w Hw) as (w1 & Hw1 & Hpage); destruct (page_next f l k Hk) as [Hk' Hcase];
    change (countPages retrieve (S ?m) ?c ?t w) with
      (('((relationTuples, npt), e) <- retrieve t ;;
        if_err e return_ ret (Some (c, e)) ;;
        let count := uint64 (c + N.of_nat (length relationTuples)) in
        if_ npt =s "" return_ ret (Some (count, None)) ;;
        countPages retrieve m count npt) w);
    unfold bind, ret; rewrite Hpage; destruct (page_of f l k) as [ps npt] eqn:Ep; simpl in Hk', Hcase;
    assert (Hc : uint64 (N.of_nat k + N.of_nat (length ps)) = N.of_nat (k + length ps))
      by (unfold uint64; rewrite N.mod_small; lia); cbv zeta; rewrite Hc.
  - destruct Hcase as [(-> & Hz & ->)|(Hlt & Hrem & _)]; [|lia]. simpl. exists w1. by rewrite Hz.
  - destruct Hcase as [(-> & Hz & ->)|(Hlt & Hrem & -> & Hne)]; [simpl; exists w1; by rewrite Hz|].
    apply String.eqb_neq in Hne as ->. apply IH; [done|done|lia|done].
Qed.

(** The pages add up to the list. *)
Lemma page_append {A} (f : string -> A) (l : list string) k :
  map f (take k l) ++ (page_of f l k).1 = map f (take (k + length (page_of f l k).1) l).
Proof.
  unfold page_of. cbn [fst]. rewrite length_map, length_take, length_drop, <- map_app. f_equal.
  destruct (Nat.le_ge_cases (k + 1000) (length l)).
  - rewrite take_take_drop. do 2 f_equal. lia.
  - rewrite (take_ge (drop k l)) by (rewrite length_drop; lia). rewrite take_drop, take_ge; [done|lia].
Qed.

Lemma allSubjects_all pr n k w : let ss := subjects (lk_rel (subjectsLookup pr 0 "")) in
  let f := fun x => Policy0 <| Subject := x |> in
  I w -> k <= length ss -> length ss - k <= 1000 * n ->
  exists w', I w' /\ allSubjects client (S n) pr (map f (take k ss)) (cursor k) w = (Some (map f ss, None), w').
Proof.
  intros ss f. revert k w. induction n as [|n IH]; intros k w Hw Hk Hn;
    destruct (retrieveSubjects_page pr k w Hw) as (w1 & Hw1 & Hpage); destruct (page_next f ss k Hk) as [Hk' Hcase];
    fold ss f in Hpage; pose proof (page_append f ss k) as Hts;
    change (allSubjects client (S ?m) pr ?ts ?t w) with
      (('((relationTuples, npt), e) <- retrieveSubjects client pr t defRetrieveAllLimit ;;
        if_err e return_ ret (Some (ts, e)) ;;
        let tuples := ts ++ relationTuples in
        if_ (npt =s "") || N.ltb (N.of_nat (length tuples)) defRetrieveAllLimit return_ ret (Some (tuples, None)) ;;
        allSubjects client m pr tuples npt) w);
    unfold bind, ret; rewrite Hpage;
    assert (Hfull : (page_of f ss k).2 = "" \/ 1000 <= k + length (page_of f ss k).1 \/ k + length (page_of f ss k).1 = length ss)
      by (unfold page_of; cbn [fst]; rewrite length_map, length_take, length_drop; lia);
    destruct (page_of f ss k) as [ps npt]; cbn [fst snd] in Hk', Hcase, Hts, Hfull; cbv zeta; rewrite Hts, length_map, length_take;
    destruct Hcase as [(-> & Hz & ->)|(Hlt & Hrem & -> & Hne)].
  - exists w1. split; [done|]. cbn. by rewrite take_ge by lia.
  - replace (k + length ps) with (length ss) in * by lia. lia.
  - exists w1. split; [done|]. cbn. by rewrite take_ge by lia.
  - destruct Hfull as [?|Hfull]; [done|].
    apply String.eqb_neq in Hne as ->. simpl orb.
    destruct (N.ltb_spec (N.of_nat ((k + length ps) `min` length ss)) defRetrieveAllLimit) as [Hs|Hs].
    + exists w1. split; [done|]. unfold defRetrieveAllLimit in Hs. rewrite take_ge; [done|lia].
    + apply IH; [done|lia|lia].
Qed.

(** C16: on a server that answers page by page, the loops over the pages end
    with everything there is: CountObjects and CountSubjects give the number
    of the objects and of the subjects, and ListAllSubjects all the subjects
    in order, although it stops early when it has few of them.  One round per
    thousand answers and one more are enough. *)
Theorem paging_is_complete pr n w (Hw : I w) :
  let os := objects (lk_rel (objectsLookup pr 0 "")) in
  let ss := subjects (lk_rel (subjectsLookup pr 0 "")) in
  (length os <= 1000 * n -> (N.of_nat (length os) < 18446744073709551616)%N ->
     (CountObjects client (S n) pr w).1 = Some (N.of_nat (length os), None))
  /\ (length ss <= 1000 * n -> (N.of_nat (length ss) < 18446744073709551616)%N ->
     (CountSubjects client (S n) pr w).1 = Some (N.of_nat (length ss), None))
  /\ (length ss <= 1000 * n ->
     (ListAllSubjects client (S n) pr w).1 = Some (MkPolicyPage ss "", None)).
Proof.
  intros os ss. split_and!; intros Hn.
  - intros Hlen.
    destruct (countPages_all _ os (fun t => retrieveObjects client pr t defRetrieveAllLimit) n 0 w
      (retrieveObjects_page pr) Hw) as (w' & _ & Hc); [lia|lia|done|]. exact (f_equal fst Hc).
  - intros Hlen.
    destruct (countPages_all _ ss (fun t => retrieveSubjects client pr t defRetrieveAllLimit) n 0 w
      (retrieveSubjects_page pr) Hw) as (w' & _ & Hc); [lia|lia|done|]. exact (f_equal fst Hc).
  - destruct (allSubjects_all pr n 0 w Hw) as (w' & _ & Hc); [lia|fold ss; lia|]. fold ss in Hc.
    unfold ListAllSubjects, retrieveAllSubjects, bind.
    change (cursor 0) with "" in Hc. change (map _ (take 0 ss)) with (@nil Policy) in Hc. rewrite Hc. cbn. do 3 f_equal.
    rewrite map_map. apply map_id.
Qed.
End paging_theory.

(** ** A server over lists: the cursor of a position is as long as it. *)
Module memlists.
Import policies policy_lists.

Definition token (k : nat) : string := Nat.iter (S k) (String "x") "".
Definition position (cursor : string) : nat := Nat.pred (String.length cursor).
Definition look (answers : list string) (l : Lookup) : St unit (Stream + GrpcError) := fun w =>
  let rest := drop (position (lk_cursor l)) answers in
  let page := if N.eqb (lk_limit l) 0 then rest else take (N.to_nat (lk_limit l)) rest in
  (inl (imap (fun i x => (x, Some (token (position (lk_cursor l) + S i)))) page, None), w).
Definition server (objects subjects : list string) : LookupClient unit := {|
  LookupResources := look objects; LookupSubjects := look subjects;
  CheckBulkPermissions := fun rels => ret (inl (map (fun r => inr (Some (rel r), Some HAS_PERMISSION)) rels)) |}.

Lemma position_token k : position (token k) = k.
Proof. unfold position, token. simpl. induction k; simpl; congruence. Qed.

#[export] Instance look_paging answers : PagingLaws (look answers) (fun _ => True) (fun _ => answers) token.
Proof.
  split; [done|]. intros r limit k w _. exists w. split; [done|].
  assert (Hp : position (if k =? 0 then "" else token k) = k)
    by (destruct (Nat.eqb_spec k 0) as [->|]; [done|apply position_token]).
  unfold look. cbn [lk_limit lk_cursor]. by rewrite Hp.
Qed.

Example lists_pages : let c := server (replicate 250 "o") (replicate 3 "s") in let pr := Policy0 in
  let '((p, e), _) := ListObjects c pr "" 0 tt in
  length (Policies p) = 100 /\ NextPageToken p = token 100 /\ e = None
  /\ let '((p', _), _) := ListObjects c pr (token 200) 0 tt in length (Policies p') = 50.
Proof. vm_compute. auto. Qed.

(** A limit that is a multiple of 2^32 is no limit. *)
Example limit_wraps : let c := server (replicate 250 "o") [] in
  length (Policies (ListObjects c Policy0 "" 4294967296 tt).1.1) = 250.
Proof. vm_compute. reflexivity. Qed.

Lemma paging_is_complete_witness : let us := replicate 1500 "u" in
  (ListAllSubjects (server us us) 3 Policy0 tt).1 = Some (MkPolicyPage us "", None)
  /\ (CountObjects (server us us) 3 Policy0 tt).1 = Some (1500%N, None)
  /\ (CountSubjects (server us us) 3 Policy0 tt).1 = Some (1500%N, None).
Proof.
  intros us.
  destruct (paging_is_complete (server us us) (fun _ => True) (fun _ => us) (fun _ => us) token Policy0 2 tt I)
    as (Ho & Hs & Ha).
  split_and!; [apply Ha; vm_compute; lia|apply Ho|apply Hs]; vm_compute; (lia || reflexivity).
Defined.
End memlists.
