(* ===== verification/Authn.v ===== *)
(** * pkg/authn: sessions, and the packed credentials of the messaging edge

    Source: src/pkg/authn/authn.go. *)

From S2P Require Import Prelude GoStd Errors.

Module authn.

(** TokenType *)
Definition AccessToken : N := 0.
Definition PersonalAccessToken : N := 1.
Definition PatPrefix := "pat_".

Definition TokenType_String (t : N) : string :=
  if N.eqb t AccessToken then "access token"
  else if N.eqb t PersonalAccessToken then "pat"
  else "unknown".

(** Role *)
Definition UserRole : N := 1.
Definition SuperAdminRole : N := 2.

Record Session := MkSession {
  Type_ : N;
  PatID : string;
  UserID : string;
  DomainID : string;
  DomainUserID : string;
  SuperAdmin : bool;
  Verified : bool;
  Role : N }.
#[global] Instance Session_fields : Fields Session := fun s =>
  MkSession (Type_ s) (PatID s) (UserID s) (DomainID s) (DomainUserID s) (SuperAdmin s) (Verified s) (Role s).
Definition Session0 : Session := MkSession 0 "" "" "" "" false false 0.

Definition authSep : ascii := ":".

(** AuthPrefix: an int, indexing [authPrefixStrings]. *)
Definition Unknown : nat := 0.
Definition BasicAuth : nat := 1.
Definition DomainAuth : nat := 2.
Definition authPrefixStrings : list string := ["Unknown"; "Basic"; "Domain"].

Definition AuthPrefix_String (a : nat) : string :=
  if Nat.ltb a (length authPrefixStrings) then nth a authPrefixStrings "" else "Unknown".

Definition ErrNotEncoded : err := Foreign (Some "authn.ErrNotEncoded") "token is not encoded with suffix" None.
(** base64.CorruptInputError; the offset in its message is left out. *)
Definition CorruptInputError : err := Errorf "illegal base64 data".

(** The loop of AuthUnpack that looks for a prefix. *)
Fixpoint strip_prefix (i : nat) (prefs : list string) (token : string) : nat * string :=
  match prefs with
  | [] => (Unknown, token)
  | pref :: prefs' =>
      if HasPrefix token pref then (i, TrimPrefix token pref) else strip_prefix (S i) prefs' token
  end.

Definition AuthUnpack (token : string) : nat * string * string * error :=
  let '(auth, token) := strip_prefix 0 authPrefixStrings token in
  match StdEncoding.DecodeString token with
  | None => (Unknown, token, "", Some CorruptInputError)
  | Some payload =>
      let '(id, key, found) := Cut (str payload) authSep in
      if negb found then (auth, id, key, Some ErrNotEncoded)
      else (auth, id, key, None)
  end.

Definition AuthPack (prefix : nat) (id key : string) : string :=
  AuthPrefix_String prefix +:+ StdEncoding.EncodeToString (chars (id +:+ ":" +:+ key)).

(** ** Lemmas *)

Lemma HasPrefix_app p s : HasPrefix (p +:+ s) p = true.
Proof. unfold HasPrefix. apply is_prefix_spec. exists (chars s). apply chars_app. Qed.

Lemma TrimPrefix_app p s : TrimPrefix (p +:+ s) p = s.
Proof.
  unfold TrimPrefix. rewrite HasPrefix_app, chars_app, drop_app_length. apply str_chars.
Qed.

Lemma strip_prefix_Pack a s : a < 3 ->
  strip_prefix 0 authPrefixStrings (AuthPrefix_String a +:+ s) = (a, s).
Proof.
  intros Ha. destruct a as [|[|[|?]]]; [..|lia]; cbn -[HasPrefix TrimPrefix];
    by rewrite HasPrefix_app, TrimPrefix_app.
Qed.
End authn.

Import authn.

(** AuthUnpack recovers the prefix, the identifier and the key AuthPack
    was given, for each declared prefix, every key (which may hold the
    separator itself) and every identifier that holds no separator. *)
Lemma AuthUnpack_Pack (prefix : nat) (id key : string)
    (Hp : prefix <= DomainAuth) (Hid : authSep ∉ chars id) :
  AuthUnpack (AuthPack prefix id key) = (prefix, id, key, None).
Proof.
  unfold AuthUnpack, AuthPack. rewrite strip_prefix_Pack by (unfold DomainAuth in Hp; lia).
  rewrite StdEncoding.roundtrip. unfold Cut. rewrite chars_str, !chars_app.
  change (chars ":") with [authSep]. simpl. rewrite cut_bytes_app by done. by rewrite !str_chars.
Qed.

Lemma AuthUnpack_Pack_witness :
  AuthPack DomainAuth "dom" "k:1" = "DomainZG9tOms6MQ=="
  /\ AuthUnpack "DomainZG9tOms6MQ==" = (DomainAuth, "dom", "k:1", None).
Proof.
  split; [vm_compute; reflexivity|].
  apply (AuthUnpack_Pack DomainAuth "dom" "k:1"); [unfold DomainAuth; lia|].
  apply mem_false. reflexivity.
Defined.
