(* ===== verification/Roles.v ===== *)
(** * pkg/roles: the roles of an entity, and their policies

    Source: src/pkg/roles/roles.go and provisionmanage.go.  Every service of
    the system (clients, channels, groups, domains) embeds the provision
    manager of this file.  A role is kept twice, as a row of the repository
    and as relationships of the policy service: the theorems are about the
    two staying together when one of them fails.

    A Go map of built-in roles is the list of its entries, in the order of
    one iteration. *)

From S2P Require Import Prelude GoStd Errors Policies Authn.

Module roles.
Import policies.

Record Role := MkRole {
  ID : string; Name : string; EntityID : string;
  CreatedBy : string; CreatedAt : Time; UpdatedBy : string; UpdatedAt : Time }.
#[global] Instance Role_fields : Fields Role := fun r =>
  MkRole (ID r) (Name r) (EntityID r) (CreatedBy r) (CreatedAt r) (UpdatedBy r) (UpdatedAt r).
Definition Role0 : Role := MkRole "" "" "" "" zeroTime "" zeroTime.

Record RoleProvision := MkRoleProvision {
  Role_ : Role;
  OptionalActions : list string;
  OptionalMembers : list string }.
#[global] Instance RoleProvision_fields : Fields RoleProvision := fun r =>
  MkRoleProvision (Role_ r) (OptionalActions r) (OptionalMembers r).
Definition RoleProvision0 : RoleProvision := MkRoleProvision Role0 [] [].

Record RolePage := MkRolePage { rp_Total : N; rp_Offset : N; rp_Limit : N; rp_Roles : list Role }.
Definition RolePage0 : RolePage := MkRolePage 0 0 0 [].

Record MembersPage := MkMembersPage { mp_Total : N; mp_Offset : N; mp_Limit : N; mp_Members : list string }.
Definition MembersPage0 : MembersPage := MkMembersPage 0 0 0 [].

Record MemberRoleActions := MkMemberRoleActions {
  mra_RoleID : string; mra_RoleName : string; mra_Actions : list string;
  AccessProviderID : string; AccessProviderPath : string; AccessType : string }.
Record MemberRoles := MkMemberRoles { MemberID : string; mr_Roles : list MemberRoleActions }.
Record MembersRolePage := MkMembersRolePage {
  mrp_Total : N; mrp_Offset : N; mrp_Limit : N; mrp_Members : list MemberRoles }.
Definition MembersRolePage0 : MembersRolePage := MkMembersRolePage 0 0 0 [].
Record MembersRolePageQuery := MkMembersRolePageQuery {
  q_Total : N; q_Offset : N; q_Limit : N; q_Order : string; q_Dir : string;
  q_AccessProviderID : string; q_RoleID : string; q_RoleName : string;
  q_Actions : list string; q_AccessType : string }.

Record EntityActionRole := MkEntityActionRole { ear_EntityID : string; ear_Action : string; ear_RoleID : string }.
Record EntityMemberRole := MkEntityMemberRole { emr_EntityID : string; emr_MemberID : string; emr_RoleID : string }.

(** The repository of roles: one interface, implemented over the tables of
    each entity type. *)
Record Repository (W : Type) := {
  AddRoles : list RoleProvision -> St W (list RoleProvision * error);
  RemoveRoles : list string -> St W error;
  UpdateRole : Role -> St W (Role * error);
  RetrieveEntityRole : string -> string -> St W (Role * error);
  repo_RetrieveAllRoles : string -> N -> N -> St W (RolePage * error);
  repo_RoleAddActions : Role -> list string -> St W (list string * error);
  repo_RoleListActions : string -> St W (list string * error);
  repo_RoleCheckActionsExists : string -> list string -> St W (bool * error);
  repo_RoleRemoveActions : Role -> list string -> St W error;
  repo_RoleRemoveAllActions : Role -> St W error;
  repo_RoleAddMembers : Role -> list string -> St W (list string * error);
  repo_RoleListMembers : string -> N -> N -> St W (MembersPage * error);
  repo_RoleCheckMembersExists : string -> list string -> St W (bool * error);
  repo_RoleRemoveMembers : Role -> list string -> St W error;
  repo_RoleRemoveAllMembers : Role -> St W error;
  RetrieveEntitiesRolesActionsMembers :
    list string -> St W (list EntityActionRole * list EntityMemberRole * error);
  repo_ListEntityMembers : string -> MembersRolePageQuery -> St W (MembersRolePage * error);
  repo_RemoveEntityMembers : string -> list string -> St W error;
  repo_RemoveMemberFromAllRoles : string -> St W error }.
Arguments AddRoles {W}. Arguments RemoveRoles {W}. Arguments UpdateRole {W}.
Arguments RetrieveEntityRole {W}. Arguments repo_RetrieveAllRoles {W}.
Arguments repo_RoleAddActions {W}. Arguments repo_RoleListActions {W}.
Arguments repo_RoleCheckActionsExists {W}. Arguments repo_RoleRemoveActions {W}.
Arguments repo_RoleRemoveAllActions {W}. Arguments repo_RoleAddMembers {W}.
Arguments repo_RoleListMembers {W}. Arguments repo_RoleCheckMembersExists {W}.
Arguments repo_RoleRemoveMembers {W}. Arguments repo_RoleRemoveAllMembers {W}.
Arguments RetrieveEntitiesRolesActionsMembers {W}. Arguments repo_ListEntityMembers {W}.
Arguments repo_RemoveEntityMembers {W}. Arguments repo_RemoveMemberFromAllRoles {W}.

Definition errRemoveOptionalDeletePolicies : err :=
  Sentinel "roles.errRemoveOptionalDeletePolicies" CustomError "failed to delete the additional requested policies".
Definition errRemoveOptionalFilterDeletePolicies : err :=
  Sentinel "roles.errRemoveOptionalFilterDeletePolicies" CustomError "failed to filter delete the additional requested policies".
Definition errRollbackRoles : err :=
  Sentinel "roles.errRollbackRoles" CustomError "failed to rollback roles".

Record ProvisionManageService (W : Type) := {
  entityType : string;
  repo : Repository W;
  sidProvider : St W (string * error);
  policy : PolicyService W;
  actions : list string;
  builtInRoles : list (string * list string) }.
Arguments entityType {W}. Arguments repo {W}. Arguments sidProvider {W}.
Arguments policy {W}. Arguments actions {W}. Arguments builtInRoles {W}.

(** The lookup [m[k]] of a map given by its entries. *)
Fixpoint map_lookup {V} (k : string) (m : list (string * V)) : option V :=
  match m with
  | [] => None
  | (k', v) :: m' => if k =s k' then Some v else map_lookup k m'
  end.

(** The two shapes of policies a role has: an action of the role on its
    entity, and the membership of a user in the role. *)
Definition actionPolicy (entityType entityID roleID cap : string) : Policy :=
  Policy0 <| SubjectType := RoleType |> <| SubjectRelation := MemberRelation |>
    <| Subject := roleID |> <| Relation := cap |> <| Object := entityID |> <| ObjectType := entityType |>.
Definition memberPolicy (domainID roleID member : string) : Policy :=
  Policy0 <| SubjectType := UserType |> <| Subject := EncodeDomainUserID domainID member |>
    <| Relation := MemberRelation |> <| Object := roleID |> <| ObjectType := RoleType |>.

Section service.
Context {W : Type} (now : St W Time) (r : ProvisionManageService W).

Definition BuiltInRoleActions (name : string) : list string * error :=
  match map_lookup name (builtInRoles r) with
  | None => ([], WrapE svcerr.ErrNotFound (Some (Errorf ("role " +:+ name +:+ " not found"))))
  | Some actions => (actions, None)
  end.

Definition isActionAllowed (action : string) : bool :=
  existsb (fun cap => cap =s action) (actions r).

Fixpoint validateActions (acts : list string) : error :=
  match acts with
  | [] => None
  | ac :: acts' =>
      if negb (isActionAllowed ac)
      then WrapE svcerr.ErrMalformedEntity (Some (Errorf ("invalid action " +:+ ac +:+ " ")))
      else validateActions acts'
  end.

Definition deletePoliciesOf (domainID : string)
    (ears : list EntityActionRole) (emrs : list EntityMemberRole) : list Policy :=
  map (fun ear => Policy0 <| Subject := ear_RoleID ear |> <| SubjectRelation := MemberRelation |>
                    <| SubjectType := RoleType |> <| Relation := ear_Action ear |>
                    <| ObjectType := entityType r |> <| Object := ear_EntityID ear |>) ears
  ++ map (fun emr => Policy0 <| Subject := EncodeDomainUserID domainID (emr_MemberID emr) |>
                       <| SubjectType := UserType |> <| Relation := MemberRelation |>
                       <| ObjectType := RoleType |> <| Object := emr_RoleID emr |>) emrs.

Definition RemoveEntitiesRoles (domainID userID : string) (entityIDs : list string)
    (optionalFilterDeletePolicies optionalDeletePolicies : list Policy) : St W error :=
  '(ears, emrs, e) <- RetrieveEntitiesRolesActionsMembers (repo r) entityIDs ;;
  if_err e return_ ret e ;;
  e <- DeletePolicies (policy r) (deletePoliciesOf domainID ears emrs) ;;
  if_err e return_ ret (WrapE svcerr.ErrDeletePolicies e) ;;
  e <- (if Nat.ltb 1 (length optionalDeletePolicies)
        then DeletePolicies (policy r) optionalDeletePolicies else ret None) ;;
  if_err e return_ ret (WrapE errRemoveOptionalDeletePolicies e) ;;
  e <- for_each optionalFilterDeletePolicies (fun pr =>
    e <- DeletePolicyFilter (policy r) pr ;;
    match e with
    | Some _ => ret (Some (WrapE errRemoveOptionalFilterDeletePolicies e))
    | None => ret None
    end) ;;
  match e with Some e => ret e | None => ret None end.

(** [defer func() { if retErr != nil { rollback } }()] of the add
    operations. *)
Definition rollbackRoles (prs : list Policy) (retErr : error) : St W error :=
  errRollBack <- DeletePolicies (policy r) prs ;;
  if_err errRollBack return_ ret (Wrap retErr (WrapE errRollbackRoles errRollBack)) ;;
  ret retErr.

(** One iteration of the two loops of AddNewEntitiesRoles. *)
Definition newEntityRole (domainID userID entityID : string) (entry : string * list string)
    : St W ((RoleProvision * list Policy) * error) :=
  let '(defaultRole, members) := entry in
  match map_lookup defaultRole (builtInRoles r) with
  | None => ret ((RoleProvision0, []),
                 Some (Errorf ("default role " +:+ defaultRole +:+ " not found in in-built roles")))
  | Some caps =>
      '(sid, e) <- sidProvider r ;;
      if_err e return_ ret ((RoleProvision0, []), WrapE svcerr.ErrCreateEntity e) ;;
      let id := entityType r +:+ "_" +:+ sid in
      if_err validateActions caps
        return_ ret ((RoleProvision0, []), WrapE svcerr.ErrMalformedEntity (validateActions caps)) ;;
      t <- now ;;
      let rp := RoleProvision0
        <| Role_ := Role0 <| ID := id |> <| Name := defaultRole |> <| EntityID := entityID |>
                          <| CreatedAt := t |> <| CreatedBy := userID |> |>
        <| OptionalActions := caps |> <| OptionalMembers := members |> in
      ret ((rp, map (actionPolicy (entityType r) entityID id) caps
                ++ map (memberPolicy domainID id) members), None)
  end.

Definition AddNewEntitiesRoles (domainID userID : string) (entityIDs : list string)
    (optionalEntityPolicies : list Policy) (newBuiltInRoleMembers : list (string * list string))
    : St W (list RoleProvision * error) :=
  '(created, e) <- map_err entityIDs (fun entityID =>
      map_err newBuiltInRoleMembers (newEntityRole domainID userID entityID)) ;;
  if_err e return_ ret ([], e) ;;
  let newRolesProvision := (concat created).*1 in
  let p := concat (concat created).*2 ++ optionalEntityPolicies in
  let addRoles :=
    '(rp, e) <- AddRoles (repo r) newRolesProvision ;;
    if_err e return_ ret ([], WrapE svcerr.ErrCreateEntity e) ;;
    ret (rp, None) in
  if Nat.ltb 0 (length p) then
    e <- AddPolicies (policy r) p ;;
    if_err e return_ ret ([], WrapE svcerr.ErrCreateEntity e) ;;
    defer_err addRoles (rollbackRoles p)
  else addRoles.

Definition AddRole (session : authn.Session) (entityID roleName : string)
    (optionalActions optionalMembers : list string) : St W (RoleProvision * error) :=
  '(sid, e) <- sidProvider r ;;
  if_err e return_ ret (RoleProvision0, WrapE svcerr.ErrCreateEntity e) ;;
  let id := entityType r +:+ "_" +:+ sid in
  if_err validateActions optionalActions
    return_ ret (RoleProvision0, WrapE svcerr.ErrMalformedEntity (validateActions optionalActions)) ;;
  t <- now ;;
  let newRoleProvisions := [RoleProvision0
    <| Role_ := Role0 <| ID := id |> <| Name := roleName |> <| EntityID := entityID |>
                      <| CreatedAt := t |> <| CreatedBy := authn.UserID session |> |>
    <| OptionalActions := optionalActions |> <| OptionalMembers := optionalMembers |>] in
  let prs := map (actionPolicy (entityType r) entityID id) optionalActions
             ++ map (memberPolicy (authn.DomainID session) id) optionalMembers in
  let addRoles :=
    '(rp, e) <- AddRoles (repo r) newRoleProvisions ;;
    if_err e return_ ret (RoleProvision0, WrapE svcerr.ErrCreateEntity e) ;;
    match rp with
    | [] => ret (RoleProvision0, Some svcerr.ErrCreateEntity)
    | rp0 :: _ => ret (rp0, None)
    end in
  if Nat.ltb 0 (length prs) then
    e <- AddPolicies (policy r) prs ;;
    if_err e return_ ret (RoleProvision0, WrapE svcerr.ErrCreateEntity e) ;;
    defer_err addRoles (rollbackRoles prs)
  else addRoles.

Definition RemoveRole (session : authn.Session) (entityID roleID : string) : St W error :=
  '(ro, e) <- RetrieveEntityRole (repo r) entityID roleID ;;
  if_err e return_ ret (WrapE svcerr.ErrRemoveEntity e) ;;
  let req := Policy0 <| SubjectType := RoleType |> <| Subject := ID ro |> in
  e <- DeletePolicyFilter (policy r) req ;;
  if_err e return_ ret (WrapE svcerr.ErrRemoveEntity e) ;;
  e <- RemoveRoles (repo r) [ID ro] ;;
  if_err e return_ ret (WrapE svcerr.ErrRemoveEntity e) ;;
  ret None.

Definition UpdateRoleName (session : authn.Session) (entityID roleID newRoleName : string)
    : St W (Role * error) :=
  '(ro, e) <- RetrieveEntityRole (repo r) entityID roleID ;;
  if_err e return_ ret (Role0, WrapE svcerr.ErrUpdateEntity e) ;;
  t <- now ;;
  '(ro, e) <- UpdateRole (repo r) (Role0 <| ID := ID ro |> <| EntityID := entityID |>
    <| Name := newRoleName |> <| UpdatedBy := authn.UserID session |> <| UpdatedAt := t |>) ;;
  if_err e return_ ret (Role0, WrapE svcerr.ErrUpdateEntity e) ;;
  ret (ro, None).

Definition RetrieveRole (session : authn.Session) (entityID roleID : string) : St W (Role * error) :=
  '(ro, e) <- RetrieveEntityRole (repo r) entityID roleID ;;
  if_err e return_ ret (Role0, WrapE svcerr.ErrViewEntity e) ;;
  ret (ro, None).

Definition RetrieveAllRoles (session : authn.Session) (entityID : string) (limit offset : N)
    : St W (RolePage * error) :=
  '(ros, e) <- repo_RetrieveAllRoles (repo r) entityID limit offset ;;
  if_err e return_ ret (RolePage0, WrapE svcerr.ErrViewEntity e) ;;
  ret (ros, None).

Definition ListAvailableActions (session : authn.Session) : St W (list string * error) :=
  ret (actions r, None).

Definition RoleAddActions (session : authn.Session) (entityID roleID : string) (acts : list string)
    : St W (list string * error) :=
  '(ro, e) <- RetrieveEntityRole (repo r) entityID roleID ;;
  if_err e return_ ret ([], WrapE svcerr.ErrUpdateEntity e) ;;
  if_ Nat.eqb (length acts) 0 return_ ret ([], Some svcerr.ErrMalformedEntity) ;;
  if_err validateActions acts
    return_ ret ([], WrapE svcerr.ErrMalformedEntity (validateActions acts)) ;;
  let prs := map (actionPolicy (entityType r) entityID (ID ro)) acts in
  e <- AddPolicies (policy r) prs ;;
  if_err e return_ ret ([], WrapE svcerr.ErrAddPolicies e) ;;
  defer_err (
    t <- now ;;
    let ro := ro <| UpdatedAt := t |> <| UpdatedBy := authn.UserID session |> in
    '(resActs, e) <- repo_RoleAddActions (repo r) ro acts ;;
    if_err e return_ ret ([], WrapE svcerr.ErrCreateEntity e) ;;
    ret (resActs, None))
  (rollbackRoles prs).

Definition RoleListActions (session : authn.Session) (entityID roleID : string)
    : St W (list string * error) :=
  '(ro, e) <- RetrieveEntityRole (repo r) entityID roleID ;;
  if_err e return_ ret ([], WrapE svcerr.ErrViewEntity e) ;;
  '(acts, e) <- repo_RoleListActions (repo r) (ID ro) ;;
  if_err e return_ ret ([], WrapE svcerr.ErrViewEntity e) ;;
  ret (acts, None).

Definition RoleCheckActionsExists (session : authn.Session) (entityID roleID : string)
    (acts : list string) : St W (bool * error) :=
  '(ro, e) <- RetrieveEntityRole (repo r) entityID roleID ;;
  if_err e return_ ret (false, WrapE svcerr.ErrViewEntity e) ;;
  '(result, e) <- repo_RoleCheckActionsExists (repo r) (ID ro) acts ;;
  if_err e return_ ret (true, WrapE svcerr.ErrViewEntity e) ;;
  ret (result, None).

Definition RoleRemoveActions (session : authn.Session) (entityID roleID : string)
    (acts : list string) : St W error :=
  '(ro, e) <- RetrieveEntityRole (repo r) entityID roleID ;;
  if_err e return_ ret (WrapE svcerr.ErrRemoveEntity e) ;;
  if_ Nat.eqb (length acts) 0 return_ ret (Some svcerr.ErrMalformedEntity) ;;
  let prs := map (actionPolicy (entityType r) entityID (ID ro)) acts in
  e <- DeletePolicies (policy r) prs ;;
  if_err e return_ ret (WrapE svcerr.ErrDeletePolicies e) ;;
  t <- now ;;
  let ro := ro <| UpdatedAt := t |> <| UpdatedBy := authn.UserID session |> in
  e <- repo_RoleRemoveActions (repo r) ro acts ;;
  if_err e return_ ret (WrapE svcerr.ErrRemoveEntity e) ;;
  ret None.

Definition RoleRemoveAllActions (session : authn.Session) (entityID roleID : string) : St W error :=
  '(ro, e) <- RetrieveEntityRole (repo r) entityID roleID ;;
  if_err e return_ ret (WrapE svcerr.ErrRemoveEntity e) ;;
  let prs := Policy0 <| SubjectType := RoleType |> <| Subject := ID ro |> in
  e <- DeletePolicyFilter (policy r) prs ;;
  if_err e return_ ret (WrapE svcerr.ErrDeletePolicies e) ;;
  t <- now ;;
  let ro := ro <| UpdatedAt := t |> <| UpdatedBy := authn.UserID session |> in
  e <- repo_RoleRemoveAllActions (repo r) ro ;;
  if_err e return_ ret (WrapE svcerr.ErrRemoveEntity e) ;;
  ret None.

Definition RoleAddMembers (session : authn.Session) (entityID roleID : string) (members : list string)
    : St W (list string * error) :=
  '(ro, e) <- RetrieveEntityRole (repo r) entityID roleID ;;
  if_err e return_ ret ([], WrapE svcerr.ErrUpdateEntity e) ;;
  if_ Nat.eqb (length members) 0 return_ ret ([], Some svcerr.ErrMalformedEntity) ;;
  let prs := map (memberPolicy (authn.DomainID session) (ID ro)) members in
  e <- AddPolicies (policy r) prs ;;
  if_err e return_ ret ([], WrapE svcerr.ErrAddPolicies e) ;;
  defer_err (
    t <- now ;;
    let ro := ro <| UpdatedAt := t |> <| UpdatedBy := authn.UserID session |> in
    '(mems, e) <- repo_RoleAddMembers (repo r) ro members ;;
    if_err e return_ ret ([], WrapE svcerr.ErrCreateEntity e) ;;
    ret (mems, None))
  (rollbackRoles prs).

Definition RoleListMembers (session : authn.Session) (entityID roleID : string) (limit offset : N)
    : St W (MembersPage * error) :=
  '(ro, e) <- RetrieveEntityRole (repo r) entityID roleID ;;
  if_err e return_ ret (MembersPage0, WrapE svcerr.ErrViewEntity e) ;;
  '(mp, e) <- repo_RoleListMembers (repo r) (ID ro) limit offset ;;
  if_err e return_ ret (MembersPage0, WrapE svcerr.ErrViewEntity e) ;;
  ret (mp, None).

Definition RoleCheckMembersExists (session : authn.Session) (entityID roleID : string)
    (members : list string) : St W (bool * error) :=
  '(ro, e) <- RetrieveEntityRole (repo r) entityID roleID ;;
  if_err e return_ ret (false, WrapE svcerr.ErrViewEntity e) ;;
  '(result, e) <- repo_RoleCheckMembersExists (repo r) (ID ro) members ;;
  if_err e return_ ret (true, WrapE svcerr.ErrViewEntity e) ;;
  ret (result, None).

Definition RoleRemoveMembers (session : authn.Session) (entityID roleID : string)
    (members : list string) : St W error :=
  '(ro, e) <- RetrieveEntityRole (repo r) entityID roleID ;;
  if_err e return_ ret (WrapE svcerr.ErrRemoveEntity e) ;;
  if_ Nat.eqb (length members) 0 return_ ret (Some svcerr.ErrMalformedEntity) ;;
  let prs := map (memberPolicy (authn.DomainID session) (ID ro)) members in
  e <- DeletePolicies (policy r) prs ;;
  if_err e return_ ret (WrapE svcerr.ErrDeletePolicies e) ;;
  t <- now ;;
  let ro := ro <| UpdatedAt := t |> <| UpdatedBy := authn.UserID session |> in
  e <- repo_RoleRemoveMembers (repo r) ro members ;;
  if_err e return_ ret (WrapE svcerr.ErrRemoveEntity e) ;;
  ret None.

Definition RoleRemoveAllMembers (session : authn.Session) (entityID roleID : string) : St W error :=
  '(ro, e) <- RetrieveEntityRole (repo r) entityID roleID ;;
  if_err e return_ ret (WrapE svcerr.ErrRemoveEntity e) ;;
  let prs := Policy0 <| ObjectType := RoleType |> <| Object := ID ro |> <| SubjectType := UserType |> in
  e <- DeletePolicyFilter (policy r) prs ;;
  if_err e return_ ret (WrapE svcerr.ErrDeletePolicies e) ;;
  t <- now ;;
  let ro := ro <| UpdatedAt := t |> <| UpdatedBy := authn.UserID session |> in
  e <- repo_RoleRemoveAllMembers (repo r) ro ;;
  if_err e return_ ret (WrapE svcerr.ErrRemoveEntity e) ;;
  ret None.

Definition ListEntityMembers (session : authn.Session) (entityID : string)
    (pageQuery : MembersRolePageQuery) : St W (MembersRolePage * error) :=
  '(mp, e) <- repo_ListEntityMembers (repo r) entityID pageQuery ;;
  if_err e return_ ret (MembersRolePage0, e) ;;
  ret (mp, None).

Definition RemoveEntityMembers (session : authn.Session) (entityID : string) (members : list string)
    : St W error :=
  e <- repo_RemoveEntityMembers (repo r) entityID members ;;
  if_err e return_ ret e ;;
  ret None.

Definition allMembersFilter : Policy :=
  Policy0 <| ObjectType := RoleType |> <| ObjectPrefix := entityType r +:+ "_" |>
          <| SubjectType := UserType |>.

Definition RemoveMemberFromAllRoles (session : authn.Session) (member : string) : St W error :=
  e <- repo_RemoveMemberFromAllRoles (repo r) member ;;
  if_err e return_ ret (WrapE svcerr.ErrRemoveEntity e) ;;
  e <- DeletePolicyFilter (policy r) allMembersFilter ;;
  if_err e return_ ret (WrapE svcerr.ErrDeletePolicies e) ;;
  ret (Some (Errorf "not implemented")).
End service.
End roles.

(** ** What the services rely on

    [grants] is the set of (entity, action, role) relationships the rows of
    the repository stand for; [tuples] is the policy store.  The repository
    does not touch the policy store. *)
Section laws.
Import policies roles.

Definition grant (entityType entityID roleID cap : string) : Relationship :=
  relationship (actionPolicy entityType entityID roleID cap).
Definition provision_grants (entityType : string) (rp : RoleProvision) : list Relationship :=
  map (grant entityType (EntityID (Role_ rp)) (ID (Role_ rp))) (OptionalActions rp).

Class RoleRepoLaws {W : Type} (entityType : string) (R : Repository W)
    (tuples grants : W -> gset Relationship) : Prop := {
  frame_AddRoles rps : frames (AddRoles R rps) tuples;
  frame_RemoveRoles ids : frames (RemoveRoles R ids) tuples;
  frame_UpdateRole ro : frames (UpdateRole R ro) tuples;
  frame_RetrieveEntityRole a b : frames (RetrieveEntityRole R a b) tuples;
  frame_RoleAddActions ro acts : frames (repo_RoleAddActions R ro acts) tuples;
  frame_RoleRemoveActions ro acts : frames (repo_RoleRemoveActions R ro acts) tuples;
  frame_RoleRemoveAllActions ro : frames (repo_RoleRemoveAllActions R ro) tuples;
  frame_RoleAddMembers ro ms : frames (repo_RoleAddMembers R ro ms) tuples;
  frame_RoleRemoveMembers ro ms : frames (repo_RoleRemoveMembers R ro ms) tuples;
  frame_RoleRemoveAllMembers ro : frames (repo_RoleRemoveAllMembers R ro) tuples;
  frame_RetrieveAll ids : frames (RetrieveEntitiesRolesActionsMembers R ids) tuples;
  frame_RemoveMember m : frames (repo_RemoveMemberFromAllRoles R m) tuples;
  grants_Retrieve a b : frames (RetrieveEntityRole R a b) grants;
  grants_RoleAddMembers ro ms : frames (repo_RoleAddMembers R ro ms) grants;
  grants_RoleRemoveMembers ro ms : frames (repo_RoleRemoveMembers R ro ms) grants;
  grants_RoleRemoveAllMembers ro : frames (repo_RoleRemoveAllMembers R ro) grants;
  Retrieve_ok a b w ro w' : RetrieveEntityRole R a b w = ((ro, None), w') ->
    EntityID ro = a /\ ID ro = b;
  AddRoles_ok rps w rps' w' : AddRoles R rps w = ((rps', None), w') ->
    grants w' = grants w ∪ list_to_set (rps ≫= provision_grants entityType);
  AddRoles_err rps w rps' e w' : AddRoles R rps w = ((rps', Some e), w') -> grants w' = grants w;
  AddActions_ok ro acts w a w' : repo_RoleAddActions R ro acts w = ((a, None), w') ->
    grants w' = grants w ∪ list_to_set (map (grant entityType (EntityID ro) (ID ro)) acts);
  AddActions_err ro acts w a e w' : repo_RoleAddActions R ro acts w = ((a, Some e), w') ->
    grants w' = grants w;
  RemoveActions_ok ro acts w w' : repo_RoleRemoveActions R ro acts w = (None, w') ->
    grants w' = grants w ∖ list_to_set (map (grant entityType (EntityID ro) (ID ro)) acts);
  RemoveActions_err ro acts w e w' : repo_RoleRemoveActions R ro acts w = (Some e, w') ->
    grants w' = grants w;
  RemoveAllActions_ok ro w w' : repo_RoleRemoveAllActions R ro w = (None, w') ->
    grants w' = filter (fun g => sub_id g <> ID ro) (grants w);
  RemoveAllActions_err ro w e w' : repo_RoleRemoveAllActions R ro w = (Some e, w') ->
    grants w' = grants w;
  RemoveRoles_ok ids w w' : RemoveRoles R ids w = (None, w') ->
    grants w' = filter (fun g => sub_id g ∉ ids) (grants w);
  RemoveRoles_err ids w e w' : RemoveRoles R ids w = (Some e, w') -> grants w' = grants w }.
End laws.

#[export] Hint Resolve frame_AddRoles frame_RemoveRoles frame_UpdateRole frame_RetrieveEntityRole
  frame_RoleAddActions frame_RoleRemoveActions frame_RoleRemoveAllActions frame_RoleAddMembers
  frame_RoleRemoveMembers frame_RoleRemoveAllMembers frame_RetrieveAll frame_RemoveMember
  grants_Retrieve grants_RoleAddMembers grants_RoleRemoveMembers grants_RoleRemoveAllMembers : frame.

(** The environment of a provision manager: the laws of its policy service
    and repository, and that neither these two stores nor the clock and the
    identifier provider write to one another. *)
Class RolesEnv {W : Type} (now : St W Time) (r : roles.ProvisionManageService W)
    (tuples grants : W -> gset Relationship) : Prop := {
  env_policy :: PolicyLaws (roles.policy r) tuples;
  env_repo :: RoleRepoLaws (roles.entityType r) (roles.repo r) tuples grants;
  now_tuples : frames now tuples;
  now_grants : frames now grants;
  sid_tuples : frames (roles.sidProvider r) tuples;
  sid_grants : frames (roles.sidProvider r) grants;
  add_grants prs : frames (policies.AddPolicies (roles.policy r) prs) grants;
  delete_grants prs : frames (policies.DeletePolicies (roles.policy r) prs) grants;
  filter_grants pr : frames (policies.DeletePolicyFilter (roles.policy r) pr) grants }.
#[export] Hint Resolve now_tuples now_grants sid_tuples sid_grants add_grants delete_grants filter_grants : frame.
#[export] Hint Extern 2 (RoleRepoLaws _ _ _ _) => typeclasses eauto : frame.

Section theory.
Context {W : Type} (now : St W Time) (r : roles.ProvisionManageService W).
Context (tuples grants : W -> gset Relationship).
Import policies roles.
Context {Env : RolesEnv now r tuples grants}.

(** The error of an operation whose rollback failed too. *)
Definition rollback_failed (e : error) : Prop :=
  exists e0 er, e = WrapE e0 (WrapE errRollbackRoles (Some er)).

(** Every policy of the call was added, or none. *)
Definition all_or_nothing (prs : list Policy) (w w' : W) (e : error) : Prop :=
  match e with
  | None => tuples w' = tuples w ∪ rel_set prs
  | Some _ => tuples w' = tuples w \/ (tuples w' = tuples w ∪ rel_set prs /\ rollback_failed e)
  end.

(** The repository records every action the policies grant to a role. *)
Definition covers (prs : list Policy) (w : W) : Prop :=
  forall pr, pr ∈ prs -> ObjectType pr = entityType r -> SubjectType pr = RoleType ->
    relationship pr ∈ grants w.

(** An operation that adds the policies [prs] and the rows they stand for. *)
Definition grow (prs : list Policy) (w w' : W) (e : error) : Prop :=
  all_or_nothing prs w w' e /\ grants w ⊆ grants w' /\ (e = None -> covers prs w').

(** The repository call that follows the policies. *)
Definition stores {A} (body : St W (A * error)) (prs : list Policy) : Prop :=
  frames body tuples
  /\ forall w a e w', body w = ((a, e), w') -> grants w ⊆ grants w' /\ (e = None -> covers prs w').

Lemma all_or_nothing_start prs w0 w w' e :
  tuples w = tuples w0 -> all_or_nothing prs w w' e -> all_or_nothing prs w0 w' e.
Proof. unfold all_or_nothing. by intros ->. Qed.

Lemma grow_start prs w0 w w' e :
  tuples w = tuples w0 -> grants w = grants w0 -> grow prs w w' e -> grow prs w0 w' e.
Proof. unfold grow, all_or_nothing. by intros -> ->. Qed.

Lemma grow_err prs w w' e :
  e <> None -> tuples w' = tuples w -> grants w' = grants w -> grow prs w w' e.
Proof. intros He Ht Hg. destruct e; [|done]. split_and!; [by left|by rewrite Hg|done]. Qed.

Lemma add_then_rollback {A} (body : St W (A * error)) prs w w1 a e w' :
  stores body prs -> AddPolicies (policy r) prs w = (None, w1) ->
  defer_err body (rollbackRoles r prs) w1 = ((a, e), w') ->
  grow prs w w' e.
Proof.
  intros [Hb Hg] E. frame_all grants. apply AddPolicies_ok in E as [Ha Hd].
  unfold defer_err, rollbackRoles, bind, ret.
  pose proof (Hb w1) as Hf. destruct (body w1) as [[b [e1|]] w2] eqn:Eb; simpl in Hf;
    specialize (Hg _ _ _ _ Eb) as [Hm Hc].
  - destruct (DeletePolicies (policy r) prs w2) as [[er|] w3] eqn:Ed; frame_all grants; intros [= <- <- <-].
    + destruct (Wrap_some e1 (WrapE errRollbackRoles (Some er))) as [x Hx]. rewrite Hx.
      apply DeletePolicies_err in Ed. split_and!; [right|set_solver|done].
      split; [congruence|]. exists e1, er. symmetry. exact Hx.
    + apply DeletePolicies_ok in Ed. split_and!; [|set_solver|done]. left. rewrite Ed, Hf, Ha. set_solver.
  - intros [= <- <- <-]. split_and!; [|set_solver|by intros _; apply Hc]. simpl. congruence.
Qed.

(** The shape shared by AddRole and AddNewEntitiesRoles. *)
Lemma provision_grow {A} (body : St W (A * error)) (a0 : A) prs w a e w' :
  stores body prs ->
  (if Nat.ltb 0 (length prs)
   then e <- AddPolicies (policy r) prs ;;
        if_err e return_ ret (a0, WrapE svcerr.ErrCreateEntity e) ;;
        defer_err body (rollbackRoles r prs)
   else body) w = ((a, e), w') ->
  grow prs w w' e.
Proof.
  intros Hb. destruct (Nat.ltb_spec 0 (length prs)) as [Hl|Hl]; unfold bind, ret.
  - destruct (AddPolicies (policy r) prs w) as [[e1|] w1] eqn:Ea; frame_all grants.
    + apply AddPolicies_err in Ea. intros [= <- <- <-].
      apply grow_err; [apply WrapE_not_nil|done..].
    + intros E. by eapply add_then_rollback.
  - intros E. assert (prs = []) as -> by (destruct prs; simpl in Hl; [done|lia]).
    destruct Hb as [Hb Hg]. specialize (Hg _ _ _ _ E) as [Hm _].
    assert (Ht : tuples w' = tuples w) by (rewrite <- (Hb w), E; done).
    split_and!; [|done|by intros _ pr Hpr%elem_of_nil].
    destruct e; simpl; [by left|]. unfold rel_set. set_solver.
Qed.

Lemma stores_AddRoles {A} (k : list RoleProvision * error -> A * error) rps prs :
  (forall rp e, (k (rp, Some e)).2 <> None) ->
  (forall w, list_to_set (rps ≫= provision_grants (entityType r)) ⊆ grants w -> covers prs w) ->
  stores (x <- AddRoles (repo r) rps ;; ret (k x)) prs.
Proof.
  intros Hk Hc. split; [apply frames_bind; [eauto with frame|done]|].
  intros w a e w'. unfold bind, ret.
  destruct (AddRoles (repo r) rps w) as [[rp [er|]] w1] eqn:E; intros [= Hr <-].
  - apply AddRoles_err in E. split; [by rewrite E|]. intros ->. exfalso. apply (Hk rp er). exact (f_equal snd Hr).
  - apply AddRoles_ok in E. split; [set_solver|]. intros _. apply Hc. set_solver.
Qed.

Lemma RoleAddActions_spec session entityID roleID acts w a e w' :
  RoleAddActions now r session entityID roleID acts w = ((a, e), w') ->
  grow (map (actionPolicy (entityType r) entityID roleID) acts) w w' e.
Proof.
  unfold RoleAddActions, bind at 1.
  destruct (RetrieveEntityRole (repo r) entityID roleID w) as [[ro er] w1] eqn:Er.
  frame_all tuples; frame_all grants. destruct er as [er|]; unfold ret.
  { intros [= <- <- <-]. apply grow_err; [apply WrapE_not_nil|done..]. }
  apply Retrieve_ok in Er as [He <-].
  case_match; [intros [= <- <- <-]; by apply grow_err|].
  case_match; [intros [= <- <- <-]; apply grow_err; [apply WrapE_not_nil|done..]|].
  unfold bind at 1. destruct (AddPolicies (policy r) _ w1) as [[e1|] w2] eqn:Ea; frame_all grants.
  { apply AddPolicies_err in Ea. intros [= <- <- <-].
    apply grow_err; [apply WrapE_not_nil|congruence..]. }
  intros E. eapply grow_start; [done..|]. eapply add_then_rollback; [|exact Ea|exact E]. split.
  - apply frames_bind; [eauto with frame|]. intros t. apply frames_bind; [eauto with frame|].
    intros [? [?|]]; apply frames_ret.
  - intros wa b eb wb. unfold bind, ret. destruct (now wa) as [t wc] eqn:Et. frame_all grants.
    destruct (repo_RoleAddActions (repo r) _ acts wc) as [[x [ex|]] wd] eqn:Ex; intros [= <- <- <-].
    + apply AddActions_err in Ex. split; [set_solver|]. by intros ?%WrapE_inv.
    + apply AddActions_ok in Ex. simpl in Ex. split; [set_solver|]. intros _ pr Hpr _ _. rewrite Ex.
      apply elem_of_union_r, elem_of_list_to_set. apply list_elem_of_In, in_map_iff in Hpr as (c & <- & Hc).
      apply list_elem_of_In, in_map_iff. exists c. unfold grant. by rewrite He.
Qed.

Lemma RoleAddMembers_spec session entityID roleID ms w a e w' :
  RoleAddMembers now r session entityID roleID ms w = ((a, e), w') ->
  grow (map (memberPolicy (authn.DomainID session) roleID) ms) w w' e.
Proof.
  unfold RoleAddMembers, bind at 1.
  destruct (RetrieveEntityRole (repo r) entityID roleID w) as [[ro er] w1] eqn:Er.
  frame_all tuples; frame_all grants. destruct er as [er|]; unfold ret.
  { intros [= <- <- <-]. apply grow_err; [apply WrapE_not_nil|done..]. }
  apply Retrieve_ok in Er as [He <-].
  case_match; [intros [= <- <- <-]; by apply grow_err|].
  unfold bind at 1. destruct (AddPolicies (policy r) _ w1) as [[e1|] w2] eqn:Ea; frame_all grants.
  { apply AddPolicies_err in Ea. intros [= <- <- <-].
    apply grow_err; [apply WrapE_not_nil|congruence..]. }
  intros E. eapply grow_start; [done..|]. eapply add_then_rollback; [|exact Ea|exact E]. split.
  - apply frames_bind; [eauto with frame|]. intros t. apply frames_bind; [eauto with frame|].
    intros [? [?|]]; apply frames_ret.
  - intros wa b eb wb. unfold bind, ret. destruct (now wa) as [t wc] eqn:Et.
    destruct (repo_RoleAddMembers (repo r) _ ms wc) as [x wd] eqn:Ex. frame_all grants.
    destruct x as [x [ex|]]; intros [= <- <- <-]; (split; [set_solver|]).
    + by intros ?%WrapE_inv.
    + intros _ pr Hpr _ Hs. apply list_elem_of_In, in_map_iff in Hpr as (c & <- & Hc). done.
Qed.

Lemma AddRole_spec session entityID roleName acts ms w a e w' :
  AddRole now r session entityID roleName acts ms w = ((a, e), w') ->
  exists sid, let id := entityType r +:+ "_" +:+ sid in
    grow (map (actionPolicy (entityType r) entityID id) acts
          ++ map (memberPolicy (authn.DomainID session) id) ms) w w' e.
Proof.
  unfold AddRole, bind at 1.
  destruct (sidProvider r w) as [[sid er] w1] eqn:Er. frame_all tuples; frame_all grants.
  intros E0. exists sid. cbv zeta. revert E0. destruct er as [er|]; unfold ret.
  { intros [= <- <- <-]. apply grow_err; [apply WrapE_not_nil|done..]. }
  case_match; [intros [= <- <- <-]; apply grow_err; [apply WrapE_not_nil|done..]|].
  unfold bind at 1. destruct (now w1) as [t w2] eqn:Et. frame_all tuples; frame_all grants.
  intros E. eapply grow_start; [..|eapply provision_grow; [|exact E]]; [congruence..|].
  set (id := entityType r +:+ "_" +:+ sid).
  set (rps := [_] : list RoleProvision).
  set (k := fun x : list RoleProvision * error => match x with
    | (_, Some e) => (RoleProvision0, WrapE svcerr.ErrCreateEntity (Some e))
    | ([], None) => (RoleProvision0, Some svcerr.ErrCreateEntity)
    | (rp0 :: _, None) => (rp0, None) end).
  enough (Hs : stores (x <- AddRoles (repo r) rps ;; ret (k x))
     (map (actionPolicy (entityType r) entityID id) acts
      ++ map (memberPolicy (authn.DomainID session) id) ms)).
  { unfold stores, frames, bind, ret in *. destruct Hs as [Hs1 Hs2]. split.
    - intros wx. specialize (Hs1 wx). by destruct (AddRoles _ _ wx) as [[[] [?|]] ?].
    - intros wx ? ? ?. specialize (Hs2 wx).
      destruct (AddRoles _ _ wx) as [[[] [?|]] ?]; eauto. }
  apply stores_AddRoles; [by intros [] ex; simpl; apply WrapE_not_nil|].
  intros wx Hw pr Hpr Ho Hs. apply Hw, elem_of_list_to_set. simpl. rewrite app_nil_r.
  apply elem_of_app in Hpr as [Hpr|Hpr];
    apply list_elem_of_In, in_map_iff in Hpr as (c & <- & Hc); [|done].
  apply list_elem_of_In, in_map_iff. by exists c.
Qed.

(** The policies of a role that is being created. *)
Definition provision_policies (domainID : string) (rp : RoleProvision) : list Policy :=
  map (actionPolicy (entityType r) (EntityID (Role_ rp)) (ID (Role_ rp))) (OptionalActions rp)
  ++ map (memberPolicy domainID (ID (Role_ rp))) (OptionalMembers rp).

(** A role made for an entity from an entry of the requested roles. *)
Definition provisions (userID entityID : string) (entry : string * list string) (rp : RoleProvision) : Prop :=
  EntityID (Role_ rp) = entityID /\ Name (Role_ rp) = entry.1 /\ CreatedBy (Role_ rp) = userID
  /\ OptionalMembers rp = entry.2
  /\ map_lookup entry.1 (builtInRoles r) = Some (OptionalActions rp)
  /\ HasPrefix (ID (Role_ rp)) (entityType r +:+ "_") = true.

Lemma newEntityRole_frames domainID userID entityID entry :
  frames (newEntityRole now r domainID userID entityID entry) tuples.
Proof.
  destruct entry as [name ms]. unfold newEntityRole. case_match; [|apply frames_ret].
  apply frames_bind; [eauto with frame|]. intros [sid [?|]]; [apply frames_ret|].
  case_match; [apply frames_ret|]. apply frames_bind; [eauto with frame|]. intros t. apply frames_ret.
Qed.

Lemma newEntityRole_ok domainID userID entityID entry w rp ps w' :
  newEntityRole now r domainID userID entityID entry w = ((rp, ps, None), w') ->
  ps = provision_policies domainID rp /\ provisions userID entityID entry rp.
Proof.
  destruct entry as [name ms]. unfold newEntityRole, bind, ret.
  destruct (map_lookup name (builtInRoles r)) as [caps|] eqn:Em; [|done].
  destruct (sidProvider r w) as [[sid [?|]] w1]; [by intros [= ? ? ?%WrapE_inv]|].
  case_match; [by intros [= ? ? ?%WrapE_inv]|].
  destruct (now w1) as [t w2]. intros [= <- <- <-]. split; [done|].
  split_and!; try done. simpl. rewrite str_assoc. apply authn.HasPrefix_app.
Qed.

Lemma newEntityRole_frames_grants domainID userID entityID entry :
  frames (newEntityRole now r domainID userID entityID entry) grants.
Proof.
  destruct entry as [name ms]. unfold newEntityRole. case_match; [|apply frames_ret].
  apply frames_bind; [eauto with frame|]. intros [sid [?|]]; [apply frames_ret|].
  case_match; [apply frames_ret|]. apply frames_bind; [eauto with frame|]. intros t. apply frames_ret.
Qed.

(** What the loops of AddNewEntitiesRoles collect. *)
Lemma collect_roles domainID userID entityIDs members w created w1 :
  map_err entityIDs (fun id => map_err members (newEntityRole now r domainID userID id)) w
    = ((created, None), w1) ->
  Forall2 (fun x (y : RoleProvision * list Policy) =>
      y.2 = provision_policies domainID y.1 /\ provisions userID x.1 x.2 y.1)
    (entityIDs ≫= fun id => (fun m => (id, m)) <$> members) (concat created).
Proof.
  intros Ec%map_err_ok. induction Ec as [|id y ids ys (wa & wb & Hy) _ IH]; [constructor|].
  simpl. apply Forall2_app; [|exact IH]. apply map_err_ok in Hy. apply Forall2_fmap_l.
  eapply Forall2_impl; [exact Hy|]. intros entry [rp ps] (w2 & w3 & Hn). simpl.
  by eapply newEntityRole_ok.
Qed.

Lemma concat_policies domainID (l : list (RoleProvision * list Policy)) :
  Forall (fun y => y.2 = provision_policies domainID y.1) l ->
  concat l.*2 = l.*1 ≫= provision_policies domainID.
Proof.
  induction 1 as [|[rp ps] ys Hp _ IH]; [done|]. simpl in *. subst ps. f_equal. exact IH.
Qed.

Lemma provisions_covered domainID rps optional w :
  Forall (fun pr => SubjectType pr <> RoleType) optional ->
  list_to_set (rps ≫= provision_grants (entityType r)) ⊆ grants w ->
  covers ((rps ≫= provision_policies domainID) ++ optional) w.
Proof.
  intros Ho Hw pr [Hpr|Hpr]%elem_of_app Ht Hs.
  2: { rewrite Forall_forall in Ho. by destruct (Ho _ Hpr). }
  apply list_elem_of_bind in Hpr as (rp & Hpr & Hrp).
  apply Hw, elem_of_list_to_set, list_elem_of_bind. exists rp. split; [|done].
  unfold provision_policies in Hpr. apply elem_of_app in Hpr as [Hpr|Hpr];
    apply list_elem_of_In, in_map_iff in Hpr as (c & <- & Hc); [|done].
  apply list_elem_of_In, in_map_iff. by exists c.
Qed.

Lemma AddNewEntitiesRoles_spec domainID userID entityIDs optional members w a e w' :
  Forall (fun pr => SubjectType pr <> RoleType) optional ->
  AddNewEntitiesRoles now r domainID userID entityIDs optional members w = ((a, e), w') ->
  exists rps : list RoleProvision,
    grow ((rps ≫= provision_policies domainID) ++ optional) w w' e
    /\ (e = None -> Forall2 (fun x rp => provisions userID x.1 x.2 rp)
          (entityIDs ≫= fun id => (fun m => (id, m)) <$> members) rps).
Proof.
  intros Ho. unfold AddNewEntitiesRoles, bind at 1.
  destruct (map_err entityIDs _ w) as [[created er] w1] eqn:Ec.
  assert (Hf : tuples w1 = tuples w /\ grants w1 = grants w).
  { split; (eapply frames_eq, Ec; apply map_err_frames; intros id; apply map_err_frames; intros entry);
      [apply newEntityRole_frames|apply newEntityRole_frames_grants]. }
  destruct er as [er|]; unfold ret.
  { intros [= <- <- <-]. exists []. split; [by apply grow_err; destruct Hf|done]. }
  apply collect_roles in Ec. intros E. exists (concat created).*1. split.
  - rewrite <- concat_policies.
    2: { clear -Ec. by induction Ec as [|? ? ? ? [? _]]; constructor. }
    eapply grow_start; [apply Hf..|]. eapply provision_grow; [|exact E].
    set (rps := (concat created).*1).
    set (k := fun x : list RoleProvision * error => match x with
      | (_, Some e) => ([], WrapE svcerr.ErrCreateEntity (Some e)) | (rp, None) => (rp, None) end).
    enough (Hs : stores (x <- AddRoles (repo r) rps ;; ret (k x)) (concat (concat created).*2 ++ optional)).
    { unfold stores, frames, bind, ret in *. destruct Hs as [Hs1 Hs2]. split.
      - intros wx. specialize (Hs1 wx). by destruct (AddRoles _ _ wx) as [[? [?|]] ?].
      - intros wx ? ? ?. specialize (Hs2 wx). destruct (AddRoles _ _ wx) as [[? [?|]] ?]; eauto. }
    apply stores_AddRoles; [by intros ? ex; simpl; apply WrapE_not_nil|].
    intros wx Hw. rewrite (concat_policies domainID).
    2: { clear -Ec. by induction Ec as [|? ? ? ? [? _]]; constructor. }
    by apply provisions_covered.
  - intros _. apply Forall2_fmap_r. eapply Forall2_impl; [exact Ec|]. by intros ? ? [_ ?].
Qed.

(** No role grants an action that the repository does not record. *)
Definition no_excess (w : W) : Prop :=
  forall t, t ∈ tuples w -> res_type t = entityType r -> sub_type t = RoleType -> t ∈ grants w.

Lemma grow_no_excess prs w w' e :
  grow prs w w' e -> ~ rollback_failed e -> no_excess w -> no_excess w'.
Proof.
  intros (Ha & Hm & Hc) Hr Hw t Ht Hres Hsub. destruct e as [e|]; simpl in Ha.
  - destruct Ha as [Ha|[_ Ha]]; [|done]. apply Hm, Hw; [by rewrite <- Ha|done..].
  - rewrite Ha in Ht. apply elem_of_union in Ht as [Ht|Ht]; [by apply Hm, Hw|].
    unfold rel_set in Ht. apply elem_of_list_to_set, list_elem_of_fmap in Ht as (pr & -> & Hpr).
    by apply Hc.
Qed.

(** An operation that takes policies and rows away. *)
Definition shrink (w w' : W) : Prop :=
  forall t, t ∈ tuples w' -> res_type t = entityType r -> sub_type t = RoleType ->
    t ∈ tuples w /\ (t ∈ grants w -> t ∈ grants w').

Lemma shrink_no_excess w w' : shrink w w' -> no_excess w -> no_excess w'.
Proof. intros Hs Hw t Ht Hr Hs'. destruct (Hs t Ht Hr Hs') as [H1 H2]. by apply H2, Hw. Qed.

Lemma shrink_same w w' : tuples w' = tuples w -> grants w' = grants w -> shrink w w'.
Proof. intros Ht Hg t. by rewrite Ht, Hg. Qed.

Lemma shrink_le w w' : tuples w' ⊆ tuples w -> grants w' = grants w -> shrink w w'.
Proof. intros Ht Hg t ?. rewrite Hg. set_solver. Qed.

Lemma remove_matching_subseteq f s : remove_matching f s ⊆ s.
Proof. unfold remove_matching. set_solver. Qed.

(** The filter of RemoveRole and RoleRemoveAllActions takes every action
    of the role. *)
Lemma role_filter_matches id t : sub_type t = RoleType -> sub_id t = id ->
  policy_matches (set_field Subject id (set_field SubjectType RoleType Policy0)) t = true.
Proof.
  intros H1 H2. unfold policy_matches, filter_matches. simpl. rewrite H1. simpl.
  destruct (id =s "") eqn:E; simpl.
  - done.
  - by rewrite H2, opt_match_refl.
Qed.

Lemma RoleRemoveActions_shrink session entityID roleID acts w e w' :
  RoleRemoveActions now r session entityID roleID acts w = (e, w') -> shrink w w'.
Proof.
  unfold RoleRemoveActions, bind, ret.
  destruct (RetrieveEntityRole (repo r) entityID roleID w) as [[ro [er|]] w1] eqn:Er;
    frame_all tuples; frame_all grants; [intros [= <- <-]; by apply shrink_same|].
  apply Retrieve_ok in Er as [He <-].
  case_match; [intros [= <- <-]; by apply shrink_same|].
  destruct (DeletePolicies (policy r) _ w1) as [[e1|] w2] eqn:Ed; frame_all grants.
  { apply DeletePolicies_err in Ed. intros [= <- <-]. apply shrink_same; congruence. }
  apply DeletePolicies_ok in Ed. destruct (now w2) as [t w3] eqn:Et. frame_all tuples; frame_all grants.
  destruct (repo_RoleRemoveActions (repo r) _ acts w3) as [[e2|] w4] eqn:Ex; frame_all tuples;
    intros [= <- <-].
  - apply RemoveActions_err in Ex. apply shrink_le; [set_solver|congruence].
  - apply RemoveActions_ok in Ex. simpl in Ex. rewrite He in Ex. intros x Hx _ _.
    rewrite H5, H3, Ed, H in Hx. apply elem_of_difference in Hx as [Hx Hn]. split; [done|].
    intros Hg. rewrite Ex. apply elem_of_difference. split; [congruence|].
    intros Hin. apply Hn. unfold rel_set. apply elem_of_list_to_set.
    apply elem_of_list_to_set, list_elem_of_In, in_map_iff in Hin as (c & <- & Hc).
    apply list_elem_of_fmap. eexists. split; [reflexivity|].
    apply list_elem_of_In, in_map_iff. by exists c.
Qed.

Lemma after_role_filter id w w' :
  tuples w' = remove_matching
    (policy_matches (set_field Subject id (set_field SubjectType RoleType Policy0))) (tuples w) ->
  forall t, t ∈ tuples w' -> sub_type t = RoleType -> t ∈ tuples w /\ sub_id t <> id.
Proof.
  intros E t Ht Hs. rewrite E in Ht. unfold remove_matching in Ht.
  apply elem_of_filter in Ht as [Hm Ht]. split; [done|]. intros Hid.
  by rewrite role_filter_matches in Hm.
Qed.

Lemma RemoveRole_shrink session entityID roleID w e w' :
  RemoveRole r session entityID roleID w = (e, w') -> shrink w w'.
Proof.
  unfold RemoveRole, bind, ret.
  destruct (RetrieveEntityRole (repo r) entityID roleID w) as [[ro [er|]] w1] eqn:Er;
    frame_all tuples; frame_all grants; [intros [= <- <-]; by apply shrink_same|].
  destruct (DeletePolicyFilter (policy r) _ w1) as [[e1|] w2] eqn:Ed; frame_all grants.
  { apply DeletePolicyFilter_err in Ed. intros [= <- <-]. apply shrink_same; congruence. }
  apply DeletePolicyFilter_ok in Ed.
  destruct (RemoveRoles (repo r) _ w2) as [[e2|] w3] eqn:Ex; frame_all tuples; intros [= <- <-].
  - apply RemoveRoles_err in Ex. apply shrink_le; [|congruence].
    rewrite H2, Ed, H. apply remove_matching_subseteq.
  - apply RemoveRoles_ok in Ex. intros t Ht _ Hs. rewrite H2 in Ht.
    destruct (after_role_filter _ _ _ Ed t Ht Hs) as [Hin Hid]. split; [congruence|].
    intros Hg. rewrite Ex. apply elem_of_filter. split; [set_solver|congruence].
Qed.

Lemma RoleRemoveAllActions_shrink session entityID roleID w e w' :
  RoleRemoveAllActions now r session entityID roleID w = (e, w') -> shrink w w'.
Proof.
  unfold RoleRemoveAllActions, bind, ret.
  destruct (RetrieveEntityRole (repo r) entityID roleID w) as [[ro [er|]] w1] eqn:Er;
    frame_all tuples; frame_all grants; [intros [= <- <-]; by apply shrink_same|].
  destruct (DeletePolicyFilter (policy r) _ w1) as [[e1|] w2] eqn:Ed; frame_all grants.
  { apply DeletePolicyFilter_err in Ed. intros [= <- <-]. apply shrink_same; congruence. }
  apply DeletePolicyFilter_ok in Ed. destruct (now w2) as [t w3] eqn:Et.
  frame_all tuples; frame_all grants.
  destruct (repo_RoleRemoveAllActions (repo r) _ w3) as [[e2|] w4] eqn:Ex; frame_all tuples; intros [= <- <-].
  - apply RemoveAllActions_err in Ex. apply shrink_le; [|congruence].
    rewrite H4, H2, Ed, H. apply remove_matching_subseteq.
  - apply RemoveAllActions_ok in Ex. simpl in Ex. intros x Hx _ Hs. rewrite H4, H2 in Hx.
    destruct (after_role_filter _ _ _ Ed x Hx Hs) as [Hin Hid]. split; [congruence|].
    intros Hg. rewrite Ex. apply elem_of_filter. split; [done|congruence].
Qed.

(** The member operations leave the actions of the repository alone. *)
Lemma members_shrink (prs : list Policy + Policy) {B} (m : St W B) w e w' b w'' :
  match prs with
  | inl l => DeletePolicies (policy r) l w = (e, w')
  | inr f => DeletePolicyFilter (policy r) f w = (e, w')
  end ->
  frames m tuples -> frames m grants -> m w' = (b, w'') -> shrink w w''.
Proof.
  intros Hd Ht Hg E. specialize (Ht w'); specialize (Hg w'). rewrite E in Ht, Hg. simpl in *.
  destruct prs as [l|f]; frame_all grants; (apply shrink_le; [|congruence]); rewrite Ht.
  - destruct e; [apply DeletePolicies_err in Hd|apply DeletePolicies_ok in Hd]; set_solver.
  - destruct e; [apply DeletePolicyFilter_err in Hd|apply DeletePolicyFilter_ok in Hd]; rewrite Hd;
      [done|apply remove_matching_subseteq].
Qed.

Lemma RoleRemoveMembers_shrink session entityID roleID ms w e w' :
  RoleRemoveMembers now r session entityID roleID ms w = (e, w') -> shrink w w'.
Proof.
  unfold RoleRemoveMembers, bind at 1.
  destruct (RetrieveEntityRole (repo r) entityID roleID w) as [[ro [er|]] w1] eqn:Er;
    frame_all tuples; frame_all grants; [intros [= <- <-]; by apply shrink_same|].
  case_match; [intros [= <- <-]; by apply shrink_same|]. unfold bind at 1.
  destruct (DeletePolicies (policy r) _ w1) as [e1 w2] eqn:Ed. intros E.
  enough (shrink w1 w') by (unfold shrink in *; by rewrite H, H0 in *).
  eapply (members_shrink (inl _)); [exact Ed|..|exact E]; (destruct e1; [apply frames_ret|]);
    repeat first [apply frames_bind; [eauto with frame|intros ?] | case_match; apply frames_ret | apply frames_ret].
Qed.

Lemma RoleRemoveAllMembers_shrink session entityID roleID w e w' :
  RoleRemoveAllMembers now r session entityID roleID w = (e, w') -> shrink w w'.
Proof.
  unfold RoleRemoveAllMembers, bind at 1.
  destruct (RetrieveEntityRole (repo r) entityID roleID w) as [[ro [er|]] w1] eqn:Er;
    frame_all tuples; frame_all grants; [intros [= <- <-]; by apply shrink_same|]. unfold bind at 1.
  destruct (DeletePolicyFilter (policy r) _ w1) as [e1 w2] eqn:Ed. intros E.
  enough (shrink w1 w') by (unfold shrink in *; by rewrite H, H0 in *).
  eapply (members_shrink (inr _)); [exact Ed|..|exact E]; (destruct e1; [apply frames_ret|]);
    repeat first [apply frames_bind; [eauto with frame|intros ?] | case_match; apply frames_ret | apply frames_ret].
Qed.

(** A call of an operation that adds to or takes from the roles of an
    entity, except one whose rollback failed. *)
Inductive role_step : W -> W -> Prop :=
| step_AddNewEntitiesRoles domainID userID entityIDs optional members w a e w' :
    Forall (fun pr => SubjectType pr <> RoleType) optional -> ~ rollback_failed e ->
    AddNewEntitiesRoles now r domainID userID entityIDs optional members w = ((a, e), w') -> role_step w w'
| step_AddRole session entityID roleName acts ms w a e w' :
    ~ rollback_failed e ->
    AddRole now r session entityID roleName acts ms w = ((a, e), w') -> role_step w w'
| step_RoleAddActions session entityID roleID acts w a e w' :
    ~ rollback_failed e ->
    RoleAddActions now r session entityID roleID acts w = ((a, e), w') -> role_step w w'
| step_RoleAddMembers session entityID roleID ms w a e w' :
    ~ rollback_failed e ->
    RoleAddMembers now r session entityID roleID ms w = ((a, e), w') -> role_step w w'
| step_RemoveRole session entityID roleID w e w' :
    RemoveRole r session entityID roleID w = (e, w') -> role_step w w'
| step_RoleRemoveActions session entityID roleID acts w e w' :
    RoleRemoveActions now r session entityID roleID acts w = (e, w') -> role_step w w'
| step_RoleRemoveAllActions session entityID roleID w e w' :
    RoleRemoveAllActions now r session entityID roleID w = (e, w') -> role_step w w'
| step_RoleRemoveMembers session entityID roleID ms w e w' :
    RoleRemoveMembers now r session entityID roleID ms w = (e, w') -> role_step w w'
| step_RoleRemoveAllMembers session entityID roleID w e w' :
    RoleRemoveAllMembers now r session entityID roleID w = (e, w') -> role_step w w'.

Lemma role_step_no_excess w w' : role_step w w' -> no_excess w -> no_excess w'.
Proof.
  intros [].
  - edestruct AddNewEntitiesRoles_spec as (? & ? & _); [done..|]. by eapply grow_no_excess.
  - edestruct AddRole_spec as (? & ?); [done|]. by eapply grow_no_excess.
  - eapply grow_no_excess; [by eapply RoleAddActions_spec|done].
  - eapply grow_no_excess; [by eapply RoleAddMembers_spec|done].
  - by eapply shrink_no_excess, RemoveRole_shrink.
  - by eapply shrink_no_excess, RoleRemoveActions_shrink.
  - by eapply shrink_no_excess, RoleRemoveAllActions_shrink.
  - by eapply shrink_no_excess, RoleRemoveMembers_shrink.
  - by eapply shrink_no_excess, RoleRemoveAllMembers_shrink.
Qed.

(** The policies of the removed entities' roles. *)
Lemma filters_done fs w e w' :
  for_each fs (fun pr =>
    e <- DeletePolicyFilter (policy r) pr ;;
    match e with
    | Some _ => ret (Some (WrapE errRemoveOptionalFilterDeletePolicies e))
    | None => ret None
    end) w = (e, w') ->
  match e with
  | None => tuples w' = foldl (fun s f => remove_matching (policy_matches f) s) (tuples w) fs
  | Some e => e <> None /\ tuples w' ⊆ tuples w
  end.
Proof.
  revert w. induction fs as [|f fs IH]; intros w; cbn [for_each].
  { by intros [= <- <-]. }
  unfold bind, ret. destruct (DeletePolicyFilter (policy r) f w) as [[e1|] w1] eqn:E.
  - apply DeletePolicyFilter_err in E. intros [= <- <-]. split; [apply WrapE_not_nil|set_solver].
  - apply DeletePolicyFilter_ok in E. intros H%IH. destruct e as [e|].
    + destruct H as [? H]. split; [done|]. rewrite H, E. apply remove_matching_subseteq.
    + simpl. by rewrite <- E.
Qed.
End theory.

(** ** Entities created together with their roles

    The services save their entities first, add the roles second and delete
    the entities again when that fails. *)
Section creation.
Context {W : Type} (now : St W Time) (r : roles.ProvisionManageService W).
Context (tuples grants : W -> gset Relationship).
Import policies roles.
Context {Env : RolesEnv now r tuples grants}.

(** The errors of a failed rollback of the repository [sent], or of the
    policies. *)
Definition repo_undo_failed (sent : err) (e : error) : Prop :=
  exists e0 er, e = WrapE e0 (WrapE sent (Some er)).
Definition policies_undo_failed (added sent : err) (e : error) : Prop :=
  exists e1, rollback_failed e1 /\
    (e = WrapE added e1
     \/ exists er, e = Wrap (WrapE added e1) (WrapE sent er)).

(** One role per entity where one built-in role is asked for. *)
Lemma one_role_each userID (m : string * list string) ids new :
  Forall2 (fun x rp => provisions r userID x.1 x.2 rp)
    (ids ≫= fun i => (fun m => (i, m)) <$> [m]) new ->
  EntityID <$> (Role_ <$> new) = ids.
Proof.
  assert (Hb : (ids ≫= fun i => (fun m => (i, m)) <$> [m]) = (fun i => (i, m)) <$> ids).
  { induction ids as [|i ids IH]; [done|]. simpl. by f_equal. }
  rewrite Hb, <- list_fmap_compose. intros H%Forall2_fmap_l.
  induction H as [|i rp ids' rps (He & _) _ IH]; [done|]. simpl in *. f_equal; [done|].
  apply IH. clear. by induction ids'.
Qed.

Lemma create_entities {A V} (view : W -> V) (delete : St W error) (added sent : err)
    (finish : list RoleProvision -> A) (a0 : A) d u ids optional m w a e w' :
  Forall (fun pr => SubjectType pr <> RoleType) optional ->
  frames (AddNewEntitiesRoles now r d u ids optional [m]) view -> frames delete tuples ->
  defer_err
    ('(rp, e) <- AddNewEntitiesRoles now r d u ids optional [m] ;;
     if_err e return_ ret (a0, WrapE added e) ;;
     ret (finish rp, None))
    (fun retErr => errRollBack <- delete ;;
       if_err errRollBack return_ ret (Wrap retErr (WrapE sent errRollBack)) ;;
       ret retErr) w = ((a, e), w') ->
  match e with
  | None => view w' = view w /\ exists rp new, a = finish rp
      /\ tuples w' = tuples w ∪ rel_set ((new ≫= provision_policies r d) ++ optional)
      /\ EntityID <$> (Role_ <$> new) = ids
  | Some _ =>
      (exists w3 er, view w3 = view w /\ delete w3 = (er, w') /\ (er = None \/ repo_undo_failed sent e))
      /\ (tuples w' = tuples w \/ policies_undo_failed added sent e)
  end.
Proof.
  intros Ho Hv Hd. unfold defer_err, bind at 1. unfold bind at 1.
  destruct (AddNewEntitiesRoles now r _ _ _ _ _ w) as [[rp er] w3] eqn:E3.
  pose proof (frames_eq _ view _ _ _ Hv E3) as Hv3.
  apply (AddNewEntitiesRoles_spec now _ tuples grants) in E3 as (new & (Hall & _) & Hprov); [|done].
  destruct er as [er|].
  - destruct (WrapE added (Some er)) as [x|] eqn:Hx; [|by apply WrapE_not_nil in Hx].
    unfold bind, ret. destruct (delete w3) as [[ed|] w4] eqn:E4;
      pose proof (frames_eq _ tuples _ _ _ Hd E4) as Ht4; intros [= <- <- <-].
    + destruct (Wrap_some x (WrapE sent (Some ed))) as [y Hy]. rewrite Hy. split.
      * exists w3, (Some ed). split_and!; [done..|]. right. exists x, ed. by rewrite <- Hy.
      * destruct Hall as [Ht|[_ Hf]]; [left; congruence|right]. exists (Some er). split; [done|].
        right. exists (Some ed). by rewrite Hx, Hy.
    + split; [exists w3, None; split_and!; [done..|by left]|].
      destruct Hall as [Ht|[_ Hf]]; [left; congruence|right]. exists (Some er). split; [done|].
      left. by rewrite Hx.
  - unfold ret. intros [= <- <- <-]. split; [done|]. exists rp, new. split_and!; [done..|].
    by apply (one_role_each u m), Hprov.
Qed.

(** A table of entities that the service saves and deletes in bulk. *)
Definition rows {C} (id : C -> string) (cs : list C) : gmap string C := list_to_map (map (fun c => (id c, c)) cs).
Class RowLaws {C} (id : C -> string) (save : list C -> St W (list C * error)) (delete : list string -> St W error)
    (stored : W -> gmap string C) : Prop := {
  stored_save cs w cs' w' : save cs w = ((cs', None), w') ->
    map id cs' = map id cs /\ (forall c, c ∈ cs -> stored w !! id c = None)
    /\ stored w' = rows id cs' ∪ stored w;
  stored_save_err cs w cs' e w' : save cs w = ((cs', Some e), w') -> stored w' = stored w;
  stored_delete ids w w' : delete ids w = (None, w') -> stored w' = filter (fun kv => kv.1 ∉ ids) (stored w);
  stored_delete_err ids w e w' : delete ids w = (Some e, w') -> stored w' = stored w;
  tuples_save cs : frames (save cs) tuples;
  tuples_delete ids : frames (delete ids) tuples }.

Lemma delete_saved {C} (id : C -> string) (cs : list C) (s : gmap string C) :
  (forall c, c ∈ cs -> s !! id c = None) -> filter (fun kv => kv.1 ∉ map id cs) (rows id cs ∪ s) = s.
Proof.
  intros Hnew. apply map_eq. intros k. rewrite map_lookup_filter, lookup_union. unfold rows.
  destruct (decide (k ∈ map id cs)) as [Hk|Hk].
  - apply elem_of_map_list in Hk as (c & Hc & <-).
    rewrite Hnew by done. destruct (list_to_map _ !! _) eqn:E; simpl; [|done].
    rewrite option_guard_False; [done|]. simpl. intros Hn. apply Hn. apply elem_of_map_list. by exists c.
  - rewrite not_elem_of_list_to_map_1.
    + rewrite (left_id_L None _). destruct (s !! k); simpl; [|done]. by rewrite option_guard_True.
    + intros Hin. apply Hk. clear -Hin. rewrite <- list_fmap_compose in Hin. exact Hin.
Qed.

(** What a service that creates entities does, up to the preparation of the
    entities: [stored] and [tuples] of before. *)
Definition created {C} (id : C -> string) (stored : W -> gmap string C) (added sent : err)
    (d : string) (optional : list string -> list Policy) (w w' : W) (cs : list C) (e : error) : Prop :=
  match e with
  | None =>
      stored w' = rows id cs ∪ stored w /\ (forall c, c ∈ cs -> stored w !! id c = None)
      /\ exists new : list RoleProvision,
           tuples w' = tuples w ∪ rel_set ((new ≫= provision_policies r d) ++ optional (map id cs))
           /\ EntityID <$> (Role_ <$> new) = map id cs
  | Some _ =>
      (stored w' = stored w \/ repo_undo_failed sent e)
      /\ (tuples w' = tuples w \/ policies_undo_failed added sent e)
  end.

Lemma created_same {C} (id : C -> string) (stored : W -> gmap string C) added sent d optional w w' cs e :
  stored w' = stored w -> tuples w' = tuples w -> created id stored added sent d optional w w' cs (Some e).
Proof. by split; left. Qed.

Lemma create_rows {C} (id : C -> string) save delete (stored : W -> gmap string C)
    {RL : RowLaws id save delete stored} added sent d u optional m prepared saved w w1 w2 cs rps e w' :
  (forall ids, Forall (fun pr => SubjectType pr <> RoleType) (optional ids)) ->
  (forall ids os, frames (AddNewEntitiesRoles now r d u ids os [m]) stored) ->
  stored w1 = stored w -> tuples w1 = tuples w -> save prepared w1 = ((saved, None), w2) ->
  defer_err
    ('(rp, e) <- AddNewEntitiesRoles now r d u (map id saved) (optional (map id saved)) [m] ;;
     if_err e return_ ret (([], []), WrapE added e) ;;
     ret ((saved, rp), None))
    (fun retErr => errRollBack <- delete (map id saved) ;;
       if_err errRollBack return_ ret (Wrap retErr (WrapE sent errRollBack)) ;;
       ret retErr) w2 = (((cs, rps), e), w') ->
  created id stored added sent d optional w w' cs e.
Proof.
  intros Hopt Hframe Hs1 Ht1 E2 Hd. pose proof (frames_eq _ tuples _ _ _ (tuples_save prepared) E2) as Ht2.
  apply stored_save in E2 as (Hid & Hnew & Hst).
  assert (Hnew' : forall c, c ∈ saved -> stored w !! id c = None).
  { intros c Hc. assert (id c ∈ map id prepared) as (c' & Hc' & Heq)%elem_of_map_list
      by (rewrite <- Hid; apply elem_of_map_list; eauto). rewrite <- Hs1, <- Heq. by apply Hnew. }
  apply (create_entities stored) in Hd; [|apply Hopt|apply Hframe|apply tuples_delete].
  destruct e as [e|]; simpl.
  - destruct Hd as [(w3 & er & Hv & E4 & Hor) Htup]. split; [|by rewrite <- Ht1, <- Ht2].
    destruct er as [er|]; [right; by destruct Hor|]. left.
    apply stored_delete in E4. by rewrite E4, Hv, Hst, delete_saved, Hs1 by (by rewrite Hs1).
  - destruct Hd as (Hv & rp & new & Ha & Htup & Hids). simplify_eq.
    split_and!; [congruence|done|]. exists new. split; [congruence|done].
Qed.
End creation.
Arguments stored_save {W tuples C id save delete stored _}. Arguments stored_save_err {W tuples C id save delete stored _}.
Arguments stored_delete {W tuples C id save delete stored _}. Arguments stored_delete_err {W tuples C id save delete stored _}.
Arguments tuples_save {W tuples C id save delete stored _}. Arguments tuples_delete {W tuples C id save delete stored _}.

(** What the operations it calls leave alone, AddNewEntitiesRoles does. *)
Lemma AddNewEntitiesRoles_frames {W V} (now : St W Time) (r : roles.ProvisionManageService W) (view : W -> V)
    d u ids os ms :
  frames now view -> frames (roles.sidProvider r) view ->
  (forall l, frames (policies.AddPolicies (roles.policy r) l) view) ->
  (forall l, frames (policies.DeletePolicies (roles.policy r) l) view) ->
  (forall l, frames (roles.AddRoles (roles.repo r) l) view) ->
  frames (roles.AddNewEntitiesRoles now r d u ids os ms) view.
Proof.
  intros Hn Hs Ha Hd Hr. unfold roles.AddNewEntitiesRoles. apply frames_bind.
  { apply map_err_frames. intros i. apply map_err_frames. intros [m mem]. unfold roles.newEntityRole.
    case_match; [|apply frames_ret]. apply frames_bind; [done|]. intros [? [?|]]; [apply frames_ret|].
    cbv zeta. case_match; [apply frames_ret|]. apply frames_bind; [done|]. intros ?. apply frames_ret. }
  intros [c [?|]]; [apply frames_ret|]. cbv zeta.
  assert (Hadd : frames ('(rp, e) <- roles.AddRoles (roles.repo r) (concat c).*1 ;;
    if_err e return_ ret ([], WrapE svcerr.ErrCreateEntity e) ;; ret (rp, None)) view).
  { apply frames_bind; [done|]. intros [? [?|]]; apply frames_ret. }
  case_match; [|done]. apply frames_bind; [done|]. intros [?|]; [apply frames_ret|].
  unfold defer_err. apply frames_bind; [done|]. intros [? [?|]]; [|apply frames_ret].
  apply frames_bind; [|intros ?; apply frames_ret].
  unfold roles.rollbackRoles. apply frames_bind; [done|]. intros [?|]; apply frames_ret.
Qed.

(** An in-memory repository and policy service: the environment can hold.
    A role without a name is refused. *)
Module memroles.
Import roles.
Section memory.
(** [T] is what else the service at hand keeps. *)
Context {T : Type}.
Definition state : Type := (gset Relationship * gset Relationship) * T.
Definition tuples (s : state) : gset Relationship := s.1.1.
Definition grants (s : state) : gset Relationship := s.1.2.
Definition lift {A} (m : St (gset Relationship) A) : St state A :=
  fun s => let (a, t) := m s.1.1 in (a, ((t, s.1.2), s.2)).
Definition client : PermissionsServiceClient state :=
  {| WriteRelationships := fun us ps => lift (memdb.write us ps);
     DeleteRelationships := fun f => lift (memdb.delete f);
     CheckPermission := fun r => lift (memdb.check r) |}.

Definition upd {A} (a : A) (f : gset Relationship -> gset Relationship) : St state A :=
  fun s => (a, ((s.1.1, f s.1.2), s.2)).

Section repository.
Context (et : string).
Definition acts_of (ro : Role) (acts : list string) : gset Relationship :=
  list_to_set (map (grant et (EntityID ro) (ID ro)) acts).
Definition repo : Repository state :=
  {| AddRoles := fun rps =>
       if existsb (fun rp => Name (Role_ rp) =s "") rps
       then ret ([], Some repoerr.ErrMalformedEntity)
       else upd (rps, None) (fun g => g ∪ list_to_set (rps ≫= provision_grants et));
     RemoveRoles := fun ids => upd None (filter (fun g => sub_id g ∉ ids));
     UpdateRole := fun ro => ret (ro, None);
     RetrieveEntityRole := fun e id =>
       ret (set_field EntityID e (set_field ID id Role0), None);
     repo_RetrieveAllRoles := fun _ _ _ => ret (RolePage0, None);
     repo_RoleAddActions := fun ro acts => upd (acts, None) (fun g => g ∪ acts_of ro acts);
     repo_RoleListActions := fun _ => ret ([], None);
     repo_RoleCheckActionsExists := fun _ _ => ret (false, None);
     repo_RoleRemoveActions := fun ro acts => upd None (fun g => g ∖ acts_of ro acts);
     repo_RoleRemoveAllActions := fun ro => upd None (filter (fun g => sub_id g <> ID ro));
     repo_RoleAddMembers := fun _ ms => ret (ms, None);
     repo_RoleListMembers := fun _ _ _ => ret (MembersPage0, None);
     repo_RoleCheckMembersExists := fun _ _ => ret (false, None);
     repo_RoleRemoveMembers := fun _ _ => ret None;
     repo_RoleRemoveAllMembers := fun _ => ret None;
     RetrieveEntitiesRolesActionsMembers := fun ids =>
       ret (map (fun id => MkEntityActionRole id "read" "r1") ids, [], None);
     repo_ListEntityMembers := fun _ _ => ret (MembersRolePage0, None);
     repo_RemoveEntityMembers := fun _ _ => ret None;
     repo_RemoveMemberFromAllRoles := fun _ => ret None |}.
End repository.

Definition now : St state Time := ret 1%Z.
Definition svc (et : string) (acts : list string) (builtin : list (string * list string))
    : ProvisionManageService state :=
  {| entityType := et; roles.repo := repo et; sidProvider := ret ("id", None);
     policy := spicedb.NewPolicyService client; actions := acts; builtInRoles := builtin |}.

#[export] Instance client_laws : SpiceDBLaws client tuples.
Proof.
  pose proof memdb.laws. split; simpl; unfold lift; intros *.
  - destruct (memdb.write us ps w.1.1) as [? ?] eqn:E. intros [= -> <-]. by apply (Write_ok (C := memdb.client) (rels := id)) in E.
  - destruct (memdb.write us ps w.1.1) as [? ?] eqn:E. intros [= -> <-]. by apply (Write_err (C := memdb.client) (rels := id)) in E.
  - by intros [= <-].
  - done.
  - done.
Qed.

#[export] Instance repo_laws et : RoleRepoLaws et (repo et) tuples grants.
Proof.
  split; simpl; unfold ret, upd; intros *; try done; try naive_solver.
  - intros w. by case_match.
  - case_match; naive_solver.
  - case_match; naive_solver.
Qed.

Lemma lift_frames {A V} (m : St (gset Relationship) A) (view : state -> V) :
  (forall a b t, view ((a, b), t) = view ((∅, b), t)) -> frames (lift m) view.
Proof. intros H [[a b] t]. unfold lift. simpl. destruct (m a) as [x a']. simpl. by rewrite H, (H a). Qed.

(** The policy service changes the policies and nothing else. *)
Section policies_only.
Context {V : Type} (view : state -> V) (only : forall a b t, view ((a, b), t) = view ((∅, b), t)).

Lemma precond_frames pr : frames (spicedb.addPolicyPreCondition client pr) view.
Proof.
  assert (Hc : forall p, frames (spicedb.checkPolicy client p) view).
  { intros p. apply frames_bind; [by apply lift_frames|]. by intros [[] [?|]]. }
  unfold spicedb.addPolicyPreCondition. repeat case_match; try apply frames_ret;
    apply frames_bind; try apply Hc; intros a; [..|destruct (is_nil a)]; apply frames_ret.
Qed.
Lemma AddPolicies_frames prs : frames (spicedb.addPolicies client prs) view.
Proof.
  apply frames_bind.
  - apply map_err_frames. intros pr. unfold spicedb.addPolicies_one. case_match; [apply frames_ret|].
    apply frames_bind; [apply precond_frames|]. by intros [? ?].
  - intros [cs [?|]]; [apply frames_ret|]. cbv zeta. case_match; [apply frames_ret|].
    apply frames_bind; [by apply lift_frames|]. by intros [?|].
Qed.
Lemma AddPolicy_frames pr : frames (spicedb.addPolicy client pr) view.
Proof.
  unfold spicedb.addPolicy. case_match; [apply frames_ret|].
  apply frames_bind; [apply precond_frames|]. intros [ps [?|]]; [apply frames_ret|].
  apply frames_bind; [by apply lift_frames|]. by intros [?|].
Qed.
Lemma DeletePolicies_frames prs : frames (spicedb.deletePolicies client prs) view.
Proof.
  apply frames_bind.
  - apply map_err_frames. intros pr. unfold spicedb.deletePolicies_one. by case_match.
  - intros [cs [?|]]; [apply frames_ret|]. cbv zeta. case_match; [apply frames_ret|].
    apply frames_bind; [by apply lift_frames|]. by intros [?|].
Qed.
Lemma DeletePolicyFilter_frames pr : frames (spicedb.deletePolicyFilter client pr) view.
Proof. apply frames_bind; [by apply lift_frames|]. by intros [?|]. Qed.
End policies_only.

Lemma create_frames et acts builtin d u ids os ms :
  frames (AddNewEntitiesRoles now (svc et acts builtin) d u ids os ms) snd.
Proof.
  apply AddNewEntitiesRoles_frames; try apply frames_ret; simpl; intros l.
  - by apply AddPolicies_frames.
  - by apply DeletePolicies_frames.
  - by case_match.
Qed.

(** The operations on members write the policies alone. *)
Lemma RoleAddMembers_frames et acts builtin s e r ms :
  frames (RoleAddMembers now (svc et acts builtin) s e r ms) snd.
Proof.
  unfold RoleAddMembers. apply frames_bind; [apply frames_ret|]. intros [ro [?|]]; [apply frames_ret|].
  destruct (Nat.eqb _ _); [apply frames_ret|]. cbv zeta.
  apply frames_bind; [by apply AddPolicies_frames|]. intros [?|]; [apply frames_ret|].
  apply frames_bind.
  - apply frames_bind; [apply frames_ret|]. intros t. apply frames_bind; [apply frames_ret|]. by intros [? [?|]].
  - intros [? [?|]]; [|apply frames_ret]. apply frames_bind; [|intros ?; apply frames_ret].
    apply frames_bind; [by apply DeletePolicies_frames|]. by intros [?|].
Qed.

Lemma RoleRemoveMembers_frames et acts builtin s e r ms :
  frames (RoleRemoveMembers now (svc et acts builtin) s e r ms) snd.
Proof.
  unfold RoleRemoveMembers. apply frames_bind; [apply frames_ret|]. intros [ro [?|]]; [apply frames_ret|].
  destruct (Nat.eqb _ _); [apply frames_ret|]. cbv zeta.
  apply frames_bind; [by apply DeletePolicies_frames|]. intros [?|]; [apply frames_ret|].
  apply frames_bind; [apply frames_ret|]. intros t. apply frames_bind; [apply frames_ret|]. by intros [?|].
Qed.

#[export] Instance env et acts builtin : RolesEnv now (svc et acts builtin) tuples grants.
Proof.
  split; simpl; try apply _; try (intros; apply frames_ret); intros l.
  - by apply AddPolicies_frames.
  - by apply DeletePolicies_frames.
  - by apply DeletePolicyFilter_frames.
Qed.
End memory.
Arguments state : clear implicits.
End memroles.

(** ** Properties *)
Section properties.
Context {W : Type} (now : St W Time) (r : roles.ProvisionManageService W).
Context (tuples grants : W -> gset Relationship).
Import policies roles.
Context (Env : RolesEnv now r tuples grants).

(** Creating the roles of new entities adds the policies of every role
    (one per action and per member) together with the optional policies,
    or none of them where any step fails, unless the rollback itself fails,
    which the error then says; and on success there is exactly one role
    per entity and requested built-in role, with the actions of that
    built-in role, recorded by the repository. *)
Theorem AddNewEntitiesRoles_atomic domainID userID entityIDs optional members w a e w'
    (Hoptional : Forall (fun pr => SubjectType pr <> RoleType) optional)
    (Hrun : AddNewEntitiesRoles now r domainID userID entityIDs optional members w = ((a, e), w')) :
  exists rps : list RoleProvision,
    grow r tuples grants ((rps ≫= provision_policies r domainID) ++ optional) w w' e
    /\ (e = None -> Forall2 (fun x rp => provisions r userID x.1 x.2 rp)
          (entityIDs ≫= fun id => (fun m => (id, m)) <$> members) rps).
Proof. by eapply AddNewEntitiesRoles_spec. Qed.

(** AddRole, RoleAddActions and RoleAddMembers add every policy they
    stand for and the row, or leave the policies of before; an error after
    the policies were added takes them back. *)
Lemma role_additions_atomic session entityID roleID roleName acts ms w :
  (let '((_, e), w') := RoleAddActions now r session entityID roleID acts w in
     grow r tuples grants (map (actionPolicy (entityType r) entityID roleID) acts) w w' e)
  /\ (let '((_, e), w') := RoleAddMembers now r session entityID roleID ms w in
     grow r tuples grants (map (memberPolicy (authn.DomainID session) roleID) ms) w w' e)
  /\ (let '((_, e), w') := AddRole now r session entityID roleName acts ms w in
     exists sid, let id := entityType r +:+ "_" +:+ sid in
       grow r tuples grants (map (actionPolicy (entityType r) entityID id) acts
         ++ map (memberPolicy (authn.DomainID session) id) ms) w w' e).
Proof.
  split_and!.
  - destruct (RoleAddActions _ _ _ _ _ _ w) as [[? ?] ?] eqn:E. by eapply RoleAddActions_spec.
  - destruct (RoleAddMembers _ _ _ _ _ _ w) as [[? ?] ?] eqn:E. by eapply RoleAddMembers_spec.
  - destruct (AddRole _ _ _ _ _ _ _ w) as [[? ?] ?] eqn:E. by eapply AddRole_spec.
Qed.

(** C2: over every sequence of role operations, successful or not, except
    a failed rollback, the policy store never grants a role an action on an
    entity that the repository does not record for it. *)
Theorem no_excess_reachable w w' (Hw : no_excess r tuples grants w)
    (Hsteps : rtc (role_step now r) w w') : no_excess r tuples grants w'.
Proof. induction Hsteps; [done|]. apply IHHsteps. by eapply role_step_no_excess. Qed.

Lemma RemoveEntitiesRoles_spec domainID userID ids fs optional w ears emrs w1 e w'
    (Hret : RetrieveEntitiesRolesActionsMembers (repo r) ids w = ((ears, emrs, None), w1))
    (Hrun : RemoveEntitiesRoles r domainID userID ids fs optional w = (e, w')) :
  match e with
  | None => tuples w' =
      foldl (fun s f => remove_matching (policy_matches f) s)
        (tuples w ∖ rel_set (deletePoliciesOf r domainID ears emrs)
           ∖ (if Nat.ltb 1 (length optional) then rel_set optional else ∅)) fs
  | Some _ => tuples w' ⊆ tuples w
  end.
Proof.
  revert Hrun. unfold RemoveEntitiesRoles, bind at 1. rewrite Hret. frame_all tuples.
  unfold bind at 1. destruct (DeletePolicies (policy r) _ w1) as [[e1|] w2] eqn:E1.
  { apply DeletePolicies_err in E1. intros [= <- <-].
    destruct (WrapE svcerr.ErrDeletePolicies (Some e1)) eqn:Ee; [set_solver|by apply WrapE_not_nil in Ee]. }
  apply DeletePolicies_ok in E1. unfold bind at 1.
  match goal with |- context [let (_, _) := ?m w2 in _] => destruct (m w2) as [[e2|] w3] eqn:E2 end.
  { intros [= <- <-].
    destruct (WrapE errRemoveOptionalDeletePolicies (Some e2)) eqn:Ee; [|by apply WrapE_not_nil in Ee].
    case_match; [apply DeletePolicies_err in E2; set_solver|done]. }
  assert (Hw3 : tuples w3 = tuples w ∖ rel_set (deletePoliciesOf r domainID ears emrs)
           ∖ (if Nat.ltb 1 (length optional) then rel_set optional else ∅)).
  { rewrite <- H, <- E1. case_match; [by apply DeletePolicies_ok in E2|].
    injection E2 as <-. set_solver. }
  unfold bind at 1. destruct (for_each fs _ w3) as [e3 w4] eqn:E3.
  apply (filters_done now r tuples grants) in E3. destruct e3 as [e3|]; unfold ret; intros [= <- <-].
  - destruct E3 as [He Hs]. destruct e3 as [e3|]; [|done]. set_solver.
  - by rewrite E3, Hw3.
Qed.

(** Removing the roles of entities takes exactly the policies of
    those roles, then the optional policies where there are at least two
    of them (a single optional policy is skipped), then what each filter
    matches; an error removes no more than that. *)
Lemma RemoveEntitiesRoles_effect domainID userID ids fs optional w ears emrs w1 e w'
    (Hret : RetrieveEntitiesRolesActionsMembers (repo r) ids w = ((ears, emrs, None), w1))
    (Hrun : RemoveEntitiesRoles r domainID userID ids fs optional w = (e, w')) :
  match e with
  | None => tuples w' =
      foldl (fun s f => remove_matching (policy_matches f) s)
        (tuples w ∖ rel_set (deletePoliciesOf r domainID ears emrs)
           ∖ (if Nat.ltb 1 (length optional) then rel_set optional else ∅)) fs
  | Some _ => tuples w' ⊆ tuples w
  end.
Proof. by eapply RemoveEntitiesRoles_spec. Qed.

(** RemoveMemberFromAllRoles never succeeds, and where both of its
    steps do, it has taken the membership of every user in every role of
    the entity type, not of the given member alone. *)
Theorem RemoveMemberFromAllRoles_clears_everyone session member w :
  (RemoveMemberFromAllRoles r session member w).1 <> None
  /\ forall w1 w2, repo_RemoveMemberFromAllRoles (repo r) member w = (None, w1) ->
     DeletePolicyFilter (policy r) (allMembersFilter r) w1 = (None, w2) ->
     (RemoveMemberFromAllRoles r session member w).2 = w2
     /\ forall t, res_type t = RoleType -> HasPrefix (res_id t) (entityType r +:+ "_") = true ->
          sub_type t = UserType -> t ∉ tuples w2.
Proof.
  unfold RemoveMemberFromAllRoles, bind, ret. split.
  - destruct (repo_RemoveMemberFromAllRoles _ _ w) as [[?|] w1]; [apply WrapE_not_nil|].
    destruct (DeletePolicyFilter _ _ w1) as [[?|] w2]; [apply WrapE_not_nil|done].
  - intros w1 w2 E1 E2. rewrite E1, E2. split; [done|]. intros t H1 H2 H3 Ht.
    apply DeletePolicyFilter_ok in E2. rewrite E2 in Ht. unfold remove_matching in Ht.
    apply elem_of_filter in Ht as [Hm _]. unfold policy_matches, filter_matches in Hm.
    simpl in Hm. rewrite H1, H2, H3 in Hm. done.
Qed.
End properties.

Module roles_example.
Import roles.
Definition s0 : memroles.state unit := ((∅, ∅), tt).
Definition svc : ProvisionManageService (memroles.state unit) := memroles.svc "client" ["read"] [("admin", ["read"])].
Definition alice : authn.Session := set_field authn.UserID "u" (set_field authn.DomainID "d" authn.Session0).

Lemma AddNewEntitiesRoles_atomic_witness :
  let run := AddNewEntitiesRoles memroles.now svc "d" "u" ["c1"] [] [("admin", ["u"])] s0 in
  is_nil run.1.2 = true /\ size (memroles.tuples run.2) = 2
  /\ exists rps, grow svc memroles.tuples memroles.grants ((rps ≫= provision_policies svc "d") ++ []) s0 run.2 run.1.2.
Proof.
  split; [vm_compute; reflexivity|split; [vm_compute; reflexivity|]].
  edestruct (AddNewEntitiesRoles_atomic memroles.now svc memroles.tuples memroles.grants
    (memroles.env _ _ _) "d" "u" ["c1"] [] [("admin", ["u"])] s0) as (rps & H & _).
  - constructor.
  - rewrite (surjective_pairing (AddNewEntitiesRoles _ _ _ _ _ _ _ _)). f_equal.
  - exists rps. exact H.
Defined.

(** The repository refuses the role: its policies are taken back. *)
Lemma role_additions_atomic_witness :
  let run := AddRole memroles.now svc alice "c1" "" ["read"] ["u"] s0 in
  is_nil run.1.2 = false /\ memroles.tuples run.2 = ∅
  /\ (let '((_, e), w') := RoleAddActions memroles.now svc alice "c1" "r1" ["read"] s0 in
       grow svc memroles.tuples memroles.grants (map (actionPolicy "client" "c1" "r1") ["read"]) s0 w' e).
Proof.
  split; [vm_compute; reflexivity|split; [vm_compute; reflexivity|]].
  apply (role_additions_atomic memroles.now svc memroles.tuples memroles.grants (memroles.env _ _ _)
    alice "c1" "r1" "" ["read"] ["u"] s0).
Defined.

Lemma no_excess_reachable_witness :
  let w1 := (RoleAddActions memroles.now svc alice "c1" "r1" ["read"] s0).2 in
  size (memroles.tuples w1) = 1 /\ no_excess svc memroles.tuples memroles.grants w1.
Proof.
  split; [vm_compute; reflexivity|].
  apply (no_excess_reachable memroles.now svc memroles.tuples memroles.grants (memroles.env _ _ _) s0).
  - intros t Ht. by apply elem_of_empty in Ht.
  - assert (Hr : (RoleAddActions memroles.now svc alice "c1" "r1" ["read"] s0).1 = (["read"], None))
      by (vm_compute; reflexivity).
    apply rtc_once. eapply (step_RoleAddActions memroles.now svc alice "c1" "r1" ["read"] s0 ["read"] None).
    + intros (e0 & er & He). symmetry in He. by apply WrapE_not_nil in He.
    + pose proof (surjective_pairing (RoleAddActions memroles.now svc alice "c1" "r1" ["read"] s0)) as Hp.
      rewrite Hr in Hp. exact Hp.
Defined.

(** A store with the action of a role, a single optional policy and the
    membership of another user. *)
Definition optional1 : policies.Policy :=
  set_field policies.Object "c1" (set_field policies.ObjectType "client" policies.Policy0).
Definition s1 : memroles.state unit :=
  ({[grant "client" "c1" "r1" "read"]} ∪ {[relationship optional1]}
   ∪ {[relationship (memberPolicy "d" "client_x" "v")]}, ∅, tt).

(** The single optional policy stays. *)
Lemma RemoveEntitiesRoles_effect_witness :
  let run := RemoveEntitiesRoles svc "d" "u" ["c1"] [] [optional1] s1 in
  is_nil run.1 = true /\ bool_decide (relationship optional1 ∈ memroles.tuples run.2) = true
  /\ match run.1 with
     | None => memroles.tuples run.2 = memroles.tuples s1 ∖ rel_set [actionPolicy "client" "c1" "r1" "read"] ∖ ∅
     | Some _ => memroles.tuples run.2 ⊆ memroles.tuples s1
     end.
Proof.
  split; [vm_compute; reflexivity|split; [vm_compute; reflexivity|]].
  apply (RemoveEntitiesRoles_effect memroles.now svc memroles.tuples memroles.grants (memroles.env _ _ _) "d" "u" ["c1"] []
    [optional1] s1 [MkEntityActionRole "c1" "read" "r1"] [] s1 _ _ eq_refl).
  apply surjective_pairing.
Defined.

(** Removing member u takes the membership of v. *)
Lemma RemoveMemberFromAllRoles_clears_everyone_witness :
  bool_decide (relationship (memberPolicy "d" "client_x" "v") ∈ memroles.tuples s1) = true
  /\ relationship (memberPolicy "d" "client_x" "v") ∉ (RemoveMemberFromAllRoles svc alice "u" s1).2.1.1.
Proof.
  split; [vm_compute; reflexivity|].
  destruct (RemoveMemberFromAllRoles_clears_everyone memroles.now svc memroles.tuples memroles.grants (memroles.env _ _ _) alice "u" s1)
    as [_ H].
  edestruct H as [Hw Ht]; [reflexivity|reflexivity|]. rewrite Hw. apply Ht; reflexivity.
Defined.
End roles_example.
