(* ===== verification/Pat.v ===== *)
(** * auth: keys, personal access tokens, their scopes

    Source: src/auth/keys.go, status.go, pat.go and the interfaces of
    key_manager.go and hasher.go.  A uint enumeration is an N with the
    declared constants; values outside the constants are kept, since Go
    keeps them. *)

From S2P Require Import Prelude GoStd Errors Policies.

Module keys.
Definition ErrKeyExpired : err := Foreign (Some "auth.ErrKeyExpired") "use of expired key" None.
Definition ErrUnsupportedKeyAlgorithm : err := Sentinel "auth.ErrUnsupportedKeyAlgorithm" CustomError "unsupported key algorithm".
Definition ErrRevokedToken : err := Sentinel "auth.ErrRevokedToken" AuthNError "token is revoked".

Record Token := MkToken { AccessToken : string; RefreshToken : string; AccessType : string }.
#[global] Instance Token_fields : Fields Token := fun t =>
  MkToken (AccessToken t) (RefreshToken t) (AccessType t).
Definition Token0 : Token := MkToken "" "" "".

(** KeyType *)
Definition AccessKey : N := 0.
Definition RefreshKey : N := 1.
Definition RecoveryKey : N := 2.
Definition APIKey : N := 3.
Definition PersonalAccessToken : N := 4.
Definition InvitationKey : N := 5.

Definition KeyType_Validate (kt : N) : bool := N.leb AccessKey kt && N.leb kt InvitationKey.

Definition KeyType_String (kt : N) : string :=
  if N.eqb kt AccessKey then "access"
  else if N.eqb kt RefreshKey then "refresh"
  else if N.eqb kt RecoveryKey then "recovery"
  else if N.eqb kt APIKey then "API"
  else if N.eqb kt PersonalAccessToken then "pat"
  else "unknown".

(** Role *)
Definition UserRole : N := 1.
Definition AdminRole : N := 2.
Definition Role_String (r : N) : string :=
  if N.eqb r UserRole then "user" else if N.eqb r AdminRole then "admin" else "unknown".
Definition Role_Validate (r : N) : bool := N.leb UserRole r && N.leb r AdminRole.

Record Key := MkKey {
  ID : string; Type_ : N; Issuer : string; Subject : string; Role : N;
  IssuedAt : Time; ExpiresAt : Time; Verified : bool; Description : string }.
#[global] Instance Key_fields : Fields Key := fun k =>
  MkKey (ID k) (Type_ k) (Issuer k) (Subject k) (Role k) (IssuedAt k) (ExpiresAt k) (Verified k) (Description k).
Definition Key0 : Key := MkKey "" 0 "" "" 0 zeroTime zeroTime false "".

(** [now] is the result of the call of time.Now. *)
Definition Expired (now : Time) (key : Key) : bool :=
  if N.eqb (Type_ key) APIKey && IsZero (ExpiresAt key) then false
  else Before (ExpiresAt key) now.

Record PublicKeyInfo := MkPublicKeyInfo {
  KeyID : string; KeyType : string; Algorithm : string; Use : string; Curve : string; X : string }.
Record TokenInfo := MkTokenInfo { ti_ID : string; ti_Description : string }.

Definition IsSymmetricAlgorithm (alg : string) : bool * error :=
  if alg =s "EdDSA" then (false, None)
  else if (alg =s "HS256") || (alg =s "HS384") || (alg =s "HS512") then (true, None)
  else (false, Some ErrUnsupportedKeyAlgorithm).

Record KeyRepository (W : Type) := {
  keys_Save : Key -> St W (string * error);
  keys_Retrieve : string -> string -> St W (Key * error);
  keys_Remove : string -> string -> St W error }.
Arguments keys_Save {W}. Arguments keys_Retrieve {W}. Arguments keys_Remove {W}.

Record Tokenizer (W : Type) := {
  tok_Issue : Key -> St W (string * error);
  tok_Parse : string -> St W (Key * error);
  tok_RetrieveJWKS : St W (list PublicKeyInfo * error) }.
Arguments tok_Issue {W}. Arguments tok_Parse {W}. Arguments tok_RetrieveJWKS {W}.

Record UserActiveTokensCache (W : Type) := {
  SaveActive : string -> string -> string -> Time -> St W error;
  IsActive : string -> St W (bool * error);
  ListUserTokens : string -> St W (list TokenInfo * error);
  RemoveActive : string -> string -> St W error }.
Arguments SaveActive {W}. Arguments IsActive {W}. Arguments ListUserTokens {W}. Arguments RemoveActive {W}.

Record Hasher (W : Type) := {
  Hash : string -> St W (string * error);
  Compare : string -> string -> St W error }.
Arguments Hash {W}. Arguments Compare {W}.
End keys.

Module pat.
Import keys.

(** ** src/auth/status.go *)
Definition ActiveStatus : N := 0.
Definition RevokedStatus : N := 1.
Definition ExpiredStatus : N := 2.
Definition AllStatus : N := 3.
Definition Active := "active".
Definition Revoked_ := "revoked".
Definition Expired_ := "expired".
Definition All := "all".
Definition Unknown := "unknown".

Definition Status_String (s : N) : string :=
  if N.eqb s ActiveStatus then Active
  else if N.eqb s RevokedStatus then Revoked_
  else if N.eqb s ExpiredStatus then Expired_
  else if N.eqb s AllStatus then All
  else Unknown.

Definition ToStatus (status : string) : N * error :=
  if (status =s "") || (status =s Active) then (ActiveStatus, None)
  else if status =s Revoked_ then (RevokedStatus, None)
  else if status =s All then (AllStatus, None)
  else if status =s Expired_ then (ExpiredStatus, None)
  else (0%N, Some svcerr.ErrInvalidStatus).

(** ** src/auth/pat.go *)
Definition AnyIDs := "*".
Definition RoleOperationPrefix := "role_".
Definition OpCreate := "create".
Definition OpList := "list".
Definition OpCreateClients := "create_clients".
Definition OpListClients := "list_clients".
Definition OpCreateChannels := "create_channels".
Definition OpListChannels := "list_channels".
Definition OpCreateGroups := "create_groups".
Definition OpListGroups := "list_groups".
Definition OpShare := "share".
Definition OpUnshare := "unshare".
Definition OpDashboardShare := "dashboard_share".
Definition OpDashboardUnshare := "dashboard_unshare".
Definition OpPublish := "publish".
Definition OpSubscribe := "subscribe".
Definition OpMessagePublish := "message_publish".
Definition OpMessageSubscribe := "message_subscribe".

Definition errInvalidEntityOp : err := Sentinel "auth.errInvalidEntityOp" RequestError "operation not valid for entity type".
Definition errInvalidScope : err := Sentinel "auth.errInvalidScope" CustomError "invalid scope".

(** EntityType *)
Definition GroupsType : N := 0.
Definition ChannelsType : N := 1.
Definition ClientsType : N := 2.
Definition DashboardType : N := 3.
Definition MessagesType : N := 4.
Definition DomainsType : N := 5.
Definition UsersType : N := 6.
Definition GroupsScopeStr := "groups".
Definition ChannelsScopeStr := "channels".
Definition ClientsScopeStr := "clients".
Definition DashboardsStr := "dashboards".
Definition MessagesStr := "messages".
Definition DomainsStr := "domains".
Definition UsersStr := "users".

Definition EntityType_String (et : N) : string :=
  if N.eqb et GroupsType then GroupsScopeStr
  else if N.eqb et ChannelsType then ChannelsScopeStr
  else if N.eqb et ClientsType then ClientsScopeStr
  else if N.eqb et DashboardType then DashboardsStr
  else if N.eqb et MessagesType then MessagesStr
  else if N.eqb et DomainsType then DomainsStr
  else if N.eqb et UsersType then UsersStr
  else "unknown domain entity type " +:+ pretty et.

Definition ParseEntityType (et : string) : N * error :=
  if et =s GroupsScopeStr then (GroupsType, None)
  else if et =s ChannelsScopeStr then (ChannelsType, None)
  else if et =s ClientsScopeStr then (ClientsType, None)
  else if et =s DashboardsStr then (DashboardType, None)
  else if et =s MessagesStr then (MessagesType, None)
  else if et =s DomainsStr then (DomainsType, None)
  else if et =s UsersStr then (UsersType, None)
  else (0%N, Some (Errorf ("unknown domain entity type " +:+ et))).

(** UnmarshalText (and UnmarshalJSON): quotes at both ends are dropped. *)
Definition quote : string := String (Ascii.ascii_of_nat 34) EmptyString.
Definition EntityType_UnmarshalText (data : string) : N * error := ParseEntityType (Trim data quote).

Definition IsValidOperationForEntity (entityType : N) (operation : string) : bool :=
  if N.eqb entityType ClientsType || N.eqb entityType ChannelsType
     || N.eqb entityType GroupsType || N.eqb entityType DomainsType then true
  else if N.eqb entityType DashboardType then
    (operation =s OpDashboardShare) || (operation =s OpDashboardUnshare)
  else if N.eqb entityType MessagesType then
    (operation =s OpMessagePublish) || (operation =s OpMessageSubscribe)
  else false.

Record Scope := MkScope {
  sc_ID : string; sc_PatID : string; sc_DomainID : string;
  sc_EntityType : N; sc_EntityID : string; sc_Operation : string }.
#[global] Instance Scope_fields : Fields Scope := fun s =>
  MkScope (sc_ID s) (sc_PatID s) (sc_DomainID s) (sc_EntityType s) (sc_EntityID s) (sc_Operation s).
Definition Scope0 : Scope := MkScope "" "" "" 0 "" "".

(** Scope.UnmarshalJSON, after the decoding of the object: the generic
    operation names are made specific to the entity type. *)
Definition normalizeScope (s : Scope) : Scope :=
  let op := sc_Operation s in
  let set o := s <| sc_Operation := o |> in
  if N.eqb (sc_EntityType s) ClientsType then
    if op =s OpCreate then set OpCreateClients else if op =s OpList then set OpListClients else s
  else if N.eqb (sc_EntityType s) ChannelsType then
    if op =s OpCreate then set OpCreateChannels else if op =s OpList then set OpListChannels else s
  else if N.eqb (sc_EntityType s) GroupsType then
    if op =s OpCreate then set OpCreateGroups else if op =s OpList then set OpListGroups else s
  else if N.eqb (sc_EntityType s) DashboardType then
    if op =s OpShare then set OpDashboardShare else if op =s OpUnshare then set OpDashboardUnshare else s
  else if N.eqb (sc_EntityType s) MessagesType then
    if op =s OpPublish then set OpMessagePublish else if op =s OpSubscribe then set OpMessageSubscribe else s
  else s.

(** [None] is the nil scope. *)
Definition Authorized (s : option Scope) (entityType : N) (domainID operation entityID : string) : bool :=
  match s with
  | None => false
  | Some s =>
      if negb (N.eqb (sc_EntityType s) entityType) then false
      else if (sc_DomainID s <>s "") && (sc_DomainID s <>s domainID) then false
      else if sc_Operation s <>s operation then false
      else if sc_EntityID s =s "*" then true
      else if sc_EntityID s =s entityID then true
      else false
  end.

Definition Scope_Validate (s : option Scope) : error :=
  match s with
  | None => Some errInvalidScope
  | Some s =>
      if sc_EntityID s =s "" then Some apiutil.ErrMissingEntityID
      else if sc_DomainID s =s "" then Some apiutil.ErrMissingDomainID
      else if negb (IsValidOperationForEntity (sc_EntityType s) (sc_Operation s))
      then WrapE apiutil.ErrInvalidQueryParams (Some errInvalidEntityOp)
      else None
  end.

Record PATAuthz := MkPATAuthz {
  pa_PatID : string; pa_UserID : string; pa_EntityType : N; pa_EntityID : string;
  pa_Operation : string; pa_Domain : string }.

Record PAT := MkPAT {
  ID : string; User : string; Name : string; Description : string; Secret : string; Role : N;
  IssuedAt : Time; ExpiresAt : Time; UpdatedAt : Time; LastUsedAt : Time;
  Revoked : bool; RevokedAt : Time; Status : N }.
#[global] Instance PAT_fields : Fields PAT := fun p =>
  MkPAT (ID p) (User p) (Name p) (Description p) (Secret p) (Role p) (IssuedAt p) (ExpiresAt p)
    (UpdatedAt p) (LastUsedAt p) (Revoked p) (RevokedAt p) (Status p).
Definition PAT0 : PAT :=
  MkPAT "" "" "" "" "" 0 zeroTime zeroTime zeroTime zeroTime false zeroTime 0.

Definition PAT_Validate (p : option PAT) : error :=
  match p with
  | None => Some (New "PAT cannot be nil")
  | Some p =>
      if Name p =s "" then Some (New "PAT name cannot be empty")
      else if User p =s "" then Some (New "PAT user cannot be empty")
      else None
  end.

Record PATSPageMeta := MkPATSPageMeta {
  pm_Offset : N; pm_Limit : N; pm_Name : string; pm_ID : string; pm_Status : N }.
Record PATSPage := MkPATSPage { pg_Total : N; pg_Offset : N; pg_Limit : N; pg_PATS : list PAT }.
Definition PATSPage0 : PATSPage := MkPATSPage 0 0 0 [].
Record ScopesPageMeta := MkScopesPageMeta { sm_Offset : N; sm_Limit : N; sm_PatID : string; sm_ID : string }.
Record ScopesPage := MkScopesPage { sp_Total : N; sp_Offset : N; sp_Limit : N; sp_Scopes : list Scope }.
Definition ScopesPage0 : ScopesPage := MkScopesPage 0 0 0 [].

Record PATSRepository (W : Type) := {
  pats_Save : PAT -> St W error;
  pats_Retrieve : string -> string -> St W (PAT * error);
  pats_RetrieveScope : ScopesPageMeta -> St W (ScopesPage * error);
  pats_RetrieveSecretAndRevokeStatus : string -> string -> St W (string * bool * bool * error);
  pats_UpdateName : string -> string -> string -> St W (PAT * error);
  pats_UpdateDescription : string -> string -> string -> St W (PAT * error);
  pats_UpdateTokenHash : string -> string -> string -> Time -> St W (PAT * error);
  pats_RetrieveAll : string -> PATSPageMeta -> St W (PATSPage * error);
  pats_Revoke : string -> string -> St W error;
  pats_Reactivate : string -> string -> St W error;
  pats_Remove : string -> string -> St W error;
  pats_RemoveAllPAT : string -> St W error;
  pats_AddScope : string -> list Scope -> St W error;
  pats_RemoveScope : string -> list string -> St W error;
  pats_CheckScope : string -> string -> N -> string -> string -> string -> St W error;
  pats_RemoveAllScope : string -> St W error }.
Arguments pats_Save {W}. Arguments pats_Retrieve {W}. Arguments pats_RetrieveScope {W}.
Arguments pats_RetrieveSecretAndRevokeStatus {W}. Arguments pats_UpdateName {W}.
Arguments pats_UpdateDescription {W}. Arguments pats_UpdateTokenHash {W}. Arguments pats_RetrieveAll {W}.
Arguments pats_Revoke {W}. Arguments pats_Reactivate {W}. Arguments pats_Remove {W}.
Arguments pats_RemoveAllPAT {W}. Arguments pats_AddScope {W}. Arguments pats_RemoveScope {W}.
Arguments pats_CheckScope {W}. Arguments pats_RemoveAllScope {W}.
End pat.

(** ** Properties *)
Import pat.

Lemma entity_cases et : (et <= UsersType)%N ->
  et = GroupsType \/ et = ChannelsType \/ et = ClientsType \/ et = DashboardType
  \/ et = MessagesType \/ et = DomainsType \/ et = UsersType.
Proof. unfold UsersType, GroupsType, ChannelsType, ClientsType, DashboardType, MessagesType, DomainsType. lia. Qed.

(** The text form of an entity type is read back, with or without the
    quotes of its JSON form, for every declared type; and a text that is
    accepted is the name of the declared type it is read as. *)
Theorem EntityType_roundtrip et s :
  ((et <= UsersType)%N ->
     EntityType_UnmarshalText (EntityType_String et) = (et, None)
     /\ EntityType_UnmarshalText (quote +:+ EntityType_String et +:+ quote) = (et, None))
  /\ (ParseEntityType s = (et, None) -> (et <= UsersType)%N /\ EntityType_String et = s).
Proof.
  split.
  - intros H%entity_cases. repeat destruct H as [->|H]; [..|subst]; split; vm_compute; reflexivity.
  - unfold ParseEntityType.
    repeat match goal with |- context [if ?a =s ?b then _ else _] =>
      destruct (String.eqb_spec a b) as [->|_]; [intros [= <-]; split; [vm_compute; discriminate|reflexivity]|] end.
    done.
Qed.
