(* ===== verification/Auth.v ===== *)
(** * auth: the authentication and authorization service

    Source: src/auth/service.go.  The UUID library, the JWT tokenizer, the
    hasher, the repositories and the source of random bytes are parameters.
    The methods that reach IdentifyPAT can panic and have an optional result
    (see [pbind]). *)

From S2P Require Import Prelude GoStd Errors Policies Pat.

(** github.com/google/uuid *)
Record UUIDLib := {
  uuid_Parse : string -> list ascii * error;
  uuid_String : list ascii -> string }.

Module auth.
Import policies keys pat.

Definition recoveryDuration : Z := 5 * Minute.
Definition randStr := "abcdefghijklmnopqrstuvwxyzABCDEFGHIJKLMNOPQRSTUVWXYZ1234567890!@#$%^&&*|+-=".
Definition patPrefix := "pat".
Definition patSecretSeparator : ascii := "_".

Definition ErrExpiry : err := Sentinel "auth.ErrExpiry" CustomError "token is expired".
Definition errIssueUser : err := Sentinel "auth.errIssueUser" CustomError "failed to issue new login key".
Definition errIssueTmp : err := Sentinel "auth.errIssueTmp" CustomError "failed to issue new temporary key".
Definition errRevoke : err := Sentinel "auth.errRevoke" CustomError "failed to remove key".
Definition errRetrieve : err := Sentinel "auth.errRetrieve" CustomError "failed to retrieve key data".
Definition errIdentify : err := Sentinel "auth.errIdentify" CustomError "failed to validate token".
Definition errPlatform : err := Sentinel "auth.errPlatform" CustomError "invalid platform id".
Definition errRoleAuth : err := Sentinel "auth.errRoleAuth" CustomError "failed to authorize user role".
Definition errSaveRefreshKey : err := Sentinel "auth.errSaveRefreshKey" ServiceError "failed to save refresh key".
Definition errRevokeRefreshKey : err := Sentinel "auth.errRevokeRefreshKey" ServiceError "failed to revoke refresh key".
Definition errListRefreshKeys : err := Sentinel "auth.errListRefreshKeys" ServiceError "failed to list refresh keys".
Definition errMalformedPAT : err := Sentinel "auth.errMalformedPAT" CustomError "malformed personal access token".
Definition errFailedToParseUUID : err := Sentinel "auth.errFailedToParseUUID" CustomError "failed to parse string to UUID".
Definition errInvalidLenFor2UUIDs : err := Sentinel "auth.errInvalidLenFor2UUIDs" CustomError "invalid input length for 2 UUID, excepted 32 byte".
Definition errRevokedPAT : err := Sentinel "auth.errRevokedPAT" ServiceError "revoked pat".
Definition errCreatePAT : err := Sentinel "auth.errCreatePAT" ServiceError "failed to create PAT".
Definition errUpdatePAT : err := Sentinel "auth.errUpdatePAT" ServiceError "failed to update PAT".
Definition errRetrievePAT : err := Sentinel "auth.errRetrievePAT" ServiceError "failed to retrieve PAT".
Definition errDeletePAT : err := Sentinel "auth.errDeletePAT" ServiceError "failed to delete PAT".

(** Switch the relative permission for the relation. *)
Definition SwitchToPermission (relation : string) : string :=
  if relation =s AdministratorRelation then AdminPermission
  else if relation =s EditorRelation then EditPermission
  else if relation =s ContributorRelation then ViewPermission
  else if relation =s MemberRelation then MembershipPermission
  else if relation =s GuestRelation then ViewPermission
  else relation.

Definition EncodeDomainUserID (domainID userID : string) : string :=
  if (domainID =s "") || (userID =s "") then "" else domainID +:+ "_" +:+ userID.

Definition DecodeDomainUserID (domainUserID : string) : string * string :=
  if domainUserID =s "" then (domainUserID, domainUserID)
  else match Split domainUserID "_" with
       | [d; u] => (d, u)
       | [d] => (d, "")
       | _ => ("", "")
       end.

Definition encode (userID patID : list ascii) : string := StdEncoding.EncodeToString (userID ++ patID).

(** base64.CorruptInputError; the offset in its message is left out. *)
Definition CorruptInputError : err := Errorf "illegal base64 data".
Definition uuid_Nil : list ascii := replicate 16 (byte 0).

Definition decode (encoded : string) : list ascii * list ascii * error :=
  match StdEncoding.DecodeString encoded with
  | None => (uuid_Nil, uuid_Nil, Some CorruptInputError)
  | Some data =>
      if negb (Nat.eqb (length data) 32) then (uuid_Nil, uuid_Nil, Some errInvalidLenFor2UUIDs)
      else (take 16 data, drop 16 data, None)
  end.

Record service (W : Type) := {
  keys : KeyRepository W;
  pats : PATSRepository W;
  tokensCache : UserActiveTokensCache W;
  hasher : Hasher W;
  idProvider : St W (string * error);
  evaluator : Evaluator W;
  policysvc : PolicyService W;
  tokenizer : Tokenizer W;
  loginDuration : Z;
  refreshDuration : Z;
  invitationDuration : Z }.
Arguments keys {W}. Arguments pats {W}. Arguments tokensCache {W}. Arguments hasher {W}.
Arguments idProvider {W}. Arguments evaluator {W}. Arguments policysvc {W}. Arguments tokenizer {W}.
Arguments loginDuration {W}. Arguments refreshDuration {W}. Arguments invitationDuration {W}.

Section service.
Context {W : Type} (now : St W Time) (rand_Read : nat -> St W (list ascii * error)) (U : UUIDLib).
Context (svc : service W).

Definition PolicyValidation (pr : Policy) : error :=
  if (ObjectType pr =s PlatformType) && (Object pr <>s SuperMQObject) then Some errPlatform else None.

Definition checkPolicy (pr : Policy) : St W error :=
  e <- CheckPolicy (evaluator svc) pr ;;
  if_err e return_ ret (WrapE svcerr.ErrAuthorization e) ;;
  ret None.

Definition AuthorizePAT (userID patID : string) (entityType : N) (domainID operation entityID : string)
    : St W error :=
  e <- pats_CheckScope (pats svc) userID patID entityType domainID operation entityID ;;
  if_err e return_ ret (WrapE svcerr.ErrAuthorization e) ;;
  ret None.

Definition Authorize (pr : Policy) (patAuthz : option PATAuthz) : St W error :=
  e <- match patAuthz with
       | Some p => AuthorizePAT (pa_UserID p) (pa_PatID p) (pa_EntityType p) (pa_Domain p)
                     (pa_Operation p) (pa_EntityID p)
       | None => ret None
       end ;;
  if_err e return_ ret e ;;
  if_err PolicyValidation pr return_ ret (WrapE svcerr.ErrMalformedEntity (PolicyValidation pr)) ;;
  e <- checkPolicy pr ;;
  if_err e return_ ret e ;;
  ret None.

Definition platformPolicy (subject permission : string) : Policy :=
  Policy0 <| policies.Subject := subject |> <| SubjectType := UserType |> <| Permission := permission |>
          <| Object := SuperMQObject |> <| ObjectType := PlatformType |>.

Definition checkUserRole (key : Key) : St W error :=
  if N.eqb (keys.Role key) AdminRole then
    e <- Authorize (platformPolicy (keys.Subject key) AdminPermission) None ;;
    if_err e return_ ret (Some errRoleAuth) ;;
    ret None
  else if N.eqb (keys.Role key) UserRole then
    e <- Authorize (platformPolicy (keys.Subject key) MembershipPermission) None ;;
    if_err e return_ ret (Some errRoleAuth) ;;
    ret None
  else ret None.

Definition getUserRole (userID : string) : St W N :=
  e <- Authorize (platformPolicy userID AdminPermission) None ;;
  ret (if is_nil e then AdminRole else UserRole).

Definition authenticate (token : string) : St W (string * string * error) :=
  '(key, e) <- tok_Parse (tokenizer svc) token ;;
  if_err e return_ ret ("", "", WrapE svcerr.ErrAuthentication e) ;;
  if_ negb (N.eqb (keys.Type_ key) AccessKey) || (keys.Issuer key =s "")
    return_ ret ("", "", Some svcerr.ErrAuthentication) ;;
  ret (keys.Issuer key, keys.Subject key, None).

Definition tmpKey (duration : Z) (key : Key) : St W (Token * error) :=
  t <- now ;;
  let key := key <| keys.ExpiresAt := (t + duration)%Z |> in
  e <- checkUserRole key ;;
  if_err e return_ ret (Token0, WrapE errIssueTmp e) ;;
  '(value, e) <- tok_Issue (tokenizer svc) key ;;
  if_err e return_ ret (Token0, WrapE errIssueTmp e) ;;
  ret (Token0 <| AccessToken := value |>, None).

Definition accessKey (key : Key) : St W (Token * error) :=
  let key := key <| keys.Type_ := AccessKey |> in
  t <- now ;;
  let key := key <| keys.ExpiresAt := (t + loginDuration svc)%Z |> in
  e <- checkUserRole key ;;
  if_err e return_ ret (Token0, WrapE errIssueUser e) ;;
  '(access, e) <- tok_Issue (tokenizer svc) key ;;
  if_err e return_ ret (Token0, WrapE errIssueTmp e) ;;
  t <- now ;;
  let key := key <| keys.ExpiresAt := (t + refreshDuration svc)%Z |> in
  let key := key <| keys.Type_ := RefreshKey |> in
  '(id, e) <- idProvider svc ;;
  if_err e return_ ret (Token0, WrapE errIssueTmp e) ;;
  let key := key <| keys.ID := id |> in
  '(refresh, e) <- tok_Issue (tokenizer svc) key ;;
  if_err e return_ ret (Token0, WrapE errIssueTmp e) ;;
  e <- (if keys.Subject key <>s "" then
          t <- now ;;
          if After (keys.ExpiresAt key) t then
            e <- SaveActive (tokensCache svc) (keys.Subject key) (keys.ID key) (keys.Description key)
                   (keys.ExpiresAt key) ;;
            if_err e return_ ret (WrapE errSaveRefreshKey e) ;;
            ret None
          else ret None
        else ret None) ;;
  if_err e return_ ret (Token0, e) ;;
  ret (Token0 <| AccessToken := access |> <| RefreshToken := refresh |>, None).

Definition invitationKey (key : Key) : St W (Token * error) :=
  let key := key <| keys.Type_ := InvitationKey |> in
  t <- now ;;
  let key := key <| keys.ExpiresAt := (t + invitationDuration svc)%Z |> in
  e <- checkUserRole key ;;
  if_err e return_ ret (Token0, WrapE errIssueTmp e) ;;
  '(access, e) <- tok_Issue (tokenizer svc) key ;;
  if_err e return_ ret (Token0, WrapE errIssueTmp e) ;;
  ret (Token0 <| AccessToken := access |>, None).

Definition refreshKey (token : string) (key : Key) : St W (Token * error) :=
  '(k, e) <- tok_Parse (tokenizer svc) token ;;
  if_err e return_ ret (Token0, WrapE errRetrieve e) ;;
  if_ negb (N.eqb (keys.Type_ k) RefreshKey) return_ ret (Token0, Some errIssueUser) ;;
  '(ok, e) <- IsActive (tokensCache svc) (keys.ID k) ;;
  if_err e return_ ret (Token0, WrapE svcerr.ErrViewEntity e) ;;
  if_ negb ok return_ ret (Token0, Some ErrRevokedToken) ;;
  let key := key <| keys.ID := keys.ID k |> in
  let key := key <| keys.Type_ := AccessKey |> in
  let key := key <| keys.Subject := keys.Subject k |> in
  e <- checkUserRole key ;;
  if_err e return_ ret (Token0, WrapE errIssueUser e) ;;
  let key := key <| keys.Role := keys.Role k |> in
  t <- now ;;
  let key := key <| keys.ExpiresAt := (t + loginDuration svc)%Z |> in
  '(access, e) <- tok_Issue (tokenizer svc) key ;;
  if_err e return_ ret (Token0, WrapE errIssueTmp e) ;;
  let key := key <| keys.ExpiresAt := keys.ExpiresAt k |> in
  let key := key <| keys.Type_ := RefreshKey |> in
  '(refresh, e) <- tok_Issue (tokenizer svc) key ;;
  if_err e return_ ret (Token0, WrapE errIssueTmp e) ;;
  ret (Token0 <| AccessToken := access |> <| RefreshToken := refresh |>, None).

Definition userKey (token : string) (key : Key) : St W (Token * error) :=
  '(id, sub, e) <- authenticate token ;;
  if_err e return_ ret (Token0, WrapE errIssueUser e) ;;
  let key := key <| keys.Issuer := id |> in
  let key := if keys.Subject key =s "" then key <| keys.Subject := sub |> else key in
  e <- checkUserRole key ;;
  if_err e return_ ret (Token0, WrapE errIssueUser e) ;;
  '(keyID, e) <- idProvider svc ;;
  if_err e return_ ret (Token0, WrapE errIssueUser e) ;;
  let key := key <| keys.ID := keyID |> in
  '(_, e) <- keys_Save (keys svc) key ;;
  if_err e return_ ret (Token0, WrapE errIssueUser e) ;;
  '(tkn, e) <- tok_Issue (tokenizer svc) key ;;
  if_err e return_ ret (Token0, WrapE errIssueUser e) ;;
  ret (Token0 <| AccessToken := tkn |>, None).

Definition Issue (token : string) (key : Key) : St W (Token * error) :=
  t <- now ;;
  let key := key <| keys.IssuedAt := t |> in
  if N.eqb (keys.Type_ key) APIKey then userKey token key
  else if N.eqb (keys.Type_ key) RefreshKey then refreshKey token key
  else if N.eqb (keys.Type_ key) RecoveryKey then tmpKey recoveryDuration key
  else if N.eqb (keys.Type_ key) InvitationKey then invitationKey key
  else accessKey key.

Definition RevokeToken (userID tokenID : string) : St W error :=
  e <- RemoveActive (tokensCache svc) userID tokenID ;;
  if_err e return_ ret (WrapE errRevokeRefreshKey e) ;;
  ret None.

Definition Revoke (token id : string) : St W error :=
  '(issuerID, _, e) <- authenticate token ;;
  if_err e return_ ret (WrapE errRevoke e) ;;
  e <- keys_Remove (keys svc) issuerID id ;;
  if_err e return_ ret (WrapE errRevoke e) ;;
  ret None.

Definition RetrieveKey (token id : string) : St W (Key * error) :=
  '(issuerID, _, e) <- authenticate token ;;
  if_err e return_ ret (Key0, WrapE errRetrieve e) ;;
  '(key, e) <- keys_Retrieve (keys svc) issuerID id ;;
  if_err e return_ ret (Key0, WrapE svcerr.ErrViewEntity e) ;;
  ret (key, None).

Definition RetrieveJWKS : St W (list PublicKeyInfo) :=
  '(ks, e) <- tok_RetrieveJWKS (tokenizer svc) ;;
  if_err e return_ ret [] ;;
  ret ks.

Definition ListUserRefreshTokens (userID : string) : St W (list TokenInfo * error) :=
  '(tokenInfo, e) <- ListUserTokens (tokensCache svc) userID ;;
  if_err e return_ ret ([], WrapE errListRefreshKeys e) ;;
  ret (tokenInfo, None).

(** [parts[1]] is out of range where the secret has no separator. *)
Definition IdentifyPAT (secret : string) : St W (option (PAT * error)) :=
  let parts := Split secret patSecretSeparator in
  if_ negb (Nat.eqb (length parts) 3) && (nth 0 parts "" <>s patPrefix)
    return_ pret (PAT0, WrapE svcerr.ErrAuthentication (Some errMalformedPAT)) ;;
  match nth_error parts 1 with
  | None => panic
  | Some part1 =>
      let '(userID, patID, e) := decode part1 in
      if_err e return_ pret (PAT0, WrapE svcerr.ErrAuthentication (Some errMalformedPAT)) ;;
      '(secretHash, revoked, expired, e) <~
        call (pats_RetrieveSecretAndRevokeStatus (pats svc) (uuid_String U userID) (uuid_String U patID)) ;;
      if_err e return_ pret (PAT0, WrapE svcerr.ErrAuthentication e) ;;
      if_ revoked return_ pret (PAT0, WrapE svcerr.ErrAuthentication (Some errRevokedPAT)) ;;
      if_ expired return_ pret (PAT0, WrapE svcerr.ErrAuthentication (Some ErrExpiry)) ;;
      e <~ call (Compare (hasher svc) secret secretHash) ;;
      if_err e return_ pret (PAT0, WrapE svcerr.ErrAuthentication e) ;;
      role <~ call (getUserRole (uuid_String U userID)) ;;
      pret (PAT0 <| pat.ID := uuid_String U patID |> <| User := uuid_String U userID |>
                 <| pat.Role := role |>, None)
  end.

Definition Identify (token : string) : St W (option (Key * error)) :=
  '(key, e) <~ call (tok_Parse (tokenizer svc) token) ;;
  if_ Errors.Contains e (Some ErrExpiry) return_ (
    e <~ call (keys_Remove (keys svc) (keys.Issuer key) (keys.ID key)) ;;
    pret (Key0, WrapE svcerr.ErrAuthentication (WrapE ErrKeyExpired e))) ;;
  if_err e return_ pret (Key0, WrapE svcerr.ErrAuthentication (WrapE errIdentify e)) ;;
  if N.eqb (keys.Type_ key) PersonalAccessToken then
    '(res, e) <~ IdentifyPAT token ;;
    if_err e return_ pret (Key0, e) ;;
    pret (Key0 <| keys.ID := pat.ID res |> <| keys.Type_ := PersonalAccessToken |>
               <| keys.Subject := User res |> <| keys.Role := pat.Role res |>, None)
  else if N.eqb (keys.Type_ key) RecoveryKey || N.eqb (keys.Type_ key) AccessKey
          || N.eqb (keys.Type_ key) InvitationKey || N.eqb (keys.Type_ key) RefreshKey then
    pret (key, None)
  else if N.eqb (keys.Type_ key) APIKey then
    '(_, e) <~ call (keys_Retrieve (keys svc) (keys.Issuer key) (keys.ID key)) ;;
    if_err e return_ pret (Key0, Some svcerr.ErrAuthentication) ;;
    pret (key, None)
  else pret (Key0, Some svcerr.ErrAuthentication).

Definition authnAuthzUserPAT (token patID : string) : St W (option (Key * error)) :=
  '(key, e) <~ Identify token ;;
  if_err e return_ pret (Key0, e) ;;
  '(_, e) <~ call (pats_Retrieve (pats svc) (keys.Subject key) patID) ;;
  match e with
  | Some _ =>
      if Errors.Contains e (Some repoerr.ErrNotFound) then pret (Key0, Some svcerr.ErrNotFound)
      else pret (Key0, WrapE svcerr.ErrAuthorization e)
  | None => pret (key, None)
  end.

(** [letterRunes[int(randBytes[i]) % len(letterRunes)]] *)
Definition randLetter (b : ascii) : ascii :=
  let letterRunes := chars randStr in
  nth (nat_of_ascii b mod length letterRunes) letterRunes "a"%char.

Definition generateRandomString (n : nat) : St W (string * error) :=
  '(randBytes, e) <- rand_Read n ;;
  if_err e return_ ret ("", WrapE (New "failed to generate random string") e) ;;
  ret (str (map randLetter randBytes), None).

Definition patSecret (uID pID : list ascii) (randomPart : string) : string :=
  let sep := str [patSecretSeparator] in
  patPrefix +:+ sep +:+ encode uID pID +:+ sep +:+ randomPart.

Definition generateSecretAndHash (userID patID : string) : St W (string * string * error) :=
  let '(uID, e) := uuid_Parse U userID in
  if_err e return_ ret ("", "", WrapE errFailedToParseUUID e) ;;
  let '(pID, e) := uuid_Parse U patID in
  if_err e return_ ret ("", "", WrapE errFailedToParseUUID e) ;;
  '(randomPart, e) <- generateRandomString 100 ;;
  if_err e return_ ret ("", "", e) ;;
  let secret := patSecret uID pID randomPart in
  '(secretHash, e) <- Hash (hasher svc) secret ;;
  ret (secret, secretHash, e).

Definition CreatePAT (token name description : string) (duration : Z) : St W (option (PAT * error)) :=
  '(key, e) <~ Identify token ;;
  if_err e return_ pret (PAT0, e) ;;
  '(id, e) <~ call (idProvider svc) ;;
  if_err e return_ pret (PAT0, WrapE svcerr.ErrCreateEntity e) ;;
  '(secret, hash, e) <~ call (generateSecretAndHash (keys.Subject key) id) ;;
  if_err e return_ pret (PAT0, WrapE svcerr.ErrCreateEntity e) ;;
  t <~ call now ;;
  let p := PAT0 <| pat.ID := id |> <| User := keys.Subject key |> <| Name := name |>
    <| pat.Description := description |> <| Secret := hash |> <| pat.IssuedAt := t |>
    <| pat.ExpiresAt := (t + duration)%Z |> <| Status := ActiveStatus |> <| Revoked := false |> in
  if_err PAT_Validate (Some p)
    return_ pret (PAT0, WrapE svcerr.ErrCreateEntity (PAT_Validate (Some p))) ;;
  e <~ call (pats_Save (pats svc) p) ;;
  if_err e return_ pret (PAT0, WrapE errCreatePAT e) ;;
  pret (p <| Secret := secret |>, None).

Definition UpdatePATName (token patID name : string) : St W (option (PAT * error)) :=
  '(key, e) <~ authnAuthzUserPAT token patID ;;
  if_err e return_ pret (PAT0, e) ;;
  '(p, e) <~ call (pats_UpdateName (pats svc) (keys.Subject key) patID name) ;;
  if_err e return_ pret (PAT0, WrapE errUpdatePAT e) ;;
  pret (p, None).

Definition UpdatePATDescription (token patID description : string) : St W (option (PAT * error)) :=
  '(key, e) <~ authnAuthzUserPAT token patID ;;
  if_err e return_ pret (PAT0, e) ;;
  '(p, e) <~ call (pats_UpdateDescription (pats svc) (keys.Subject key) patID description) ;;
  if_err e return_ pret (PAT0, WrapE errUpdatePAT e) ;;
  pret (p, None).

Definition RetrievePAT (token patID : string) : St W (option (PAT * error)) :=
  '(key, e) <~ Identify token ;;
  if_err e return_ pret (PAT0, e) ;;
  '(p, e) <~ call (pats_Retrieve (pats svc) (keys.Subject key) patID) ;;
  if_err e return_ pret (PAT0, WrapE errRetrievePAT e) ;;
  pret (p, None).

Definition ListPATS (token : string) (pm : PATSPageMeta) : St W (option (PATSPage * error)) :=
  '(key, e) <~ Identify token ;;
  if_err e return_ pret (PATSPage0, e) ;;
  '(page, e) <~ call (pats_RetrieveAll (pats svc) (keys.Subject key) pm) ;;
  if_err e return_ pret (PATSPage0, WrapE errRetrievePAT e) ;;
  pret (page, None).

Definition DeletePAT (token patID : string) : St W (option error) :=
  '(key, e) <~ authnAuthzUserPAT token patID ;;
  if_err e return_ pret e ;;
  e <~ call (pats_Remove (pats svc) (keys.Subject key) patID) ;;
  if_err e return_ pret (WrapE errDeletePAT e) ;;
  pret None.

Definition ResetPATSecret (token patID : string) (duration : Z) : St W (option (PAT * error)) :=
  '(key, e) <~ authnAuthzUserPAT token patID ;;
  if_err e return_ pret (PAT0, e) ;;
  '(secret, hash, e) <~ call (generateSecretAndHash (keys.Subject key) patID) ;;
  if_err e return_ pret (PAT0, WrapE svcerr.ErrUpdateEntity e) ;;
  t <~ call now ;;
  '(p, e) <~ call (pats_UpdateTokenHash (pats svc) (keys.Subject key) patID hash (t + duration)%Z) ;;
  if_err e return_ pret (PAT0, WrapE svcerr.ErrUpdateEntity e) ;;
  e <~ call (pats_Reactivate (pats svc) (keys.Subject key) patID) ;;
  if_err e return_ pret (PAT0, WrapE svcerr.ErrUpdateEntity e) ;;
  pret (p <| Secret := secret |> <| Status := ActiveStatus |> <| RevokedAt := zeroTime |>, None).

Definition RevokePATSecret (token patID : string) : St W (option error) :=
  '(key, e) <~ authnAuthzUserPAT token patID ;;
  if_err e return_ pret e ;;
  e <~ call (pats_Revoke (pats svc) (keys.Subject key) patID) ;;
  if_err e return_ pret (WrapE svcerr.ErrUpdateEntity e) ;;
  pret None.

Definition RemoveAllPAT (token : string) : St W (option error) :=
  '(key, e) <~ Identify token ;;
  if_err e return_ pret e ;;
  e <~ call (pats_RemoveAllPAT (pats svc) (keys.Subject key)) ;;
  if_err e return_ pret (WrapE svcerr.ErrRemoveEntity e) ;;
  pret None.

(** The loop of AddScope writes into the slice of the caller. *)
Fixpoint assignScopeIDs (patID : string) (scopes : list Scope) : St W (list Scope * error) :=
  match scopes with
  | [] => ret ([], None)
  | s :: scopes' =>
      '(id, e) <- idProvider svc ;;
      let s := s <| sc_ID := id |> in
      if_err e return_ ret (s :: scopes', WrapE svcerr.ErrCreateEntity e) ;;
      let s := s <| sc_PatID := patID |> in
      '(rest, e) <- assignScopeIDs patID scopes' ;;
      ret (s :: rest, e)
  end.

(** The result and the caller's slice afterwards. *)
Definition AddScope (token patID : string) (scopes : list Scope) : St W (option (error * list Scope)) :=
  '(key, e) <~ authnAuthzUserPAT token patID ;;
  if_err e return_ pret (e, scopes) ;;
  '(scopes, e) <~ call (assignScopeIDs patID scopes) ;;
  if_err e return_ pret (e, scopes) ;;
  e <~ call (pats_AddScope (pats svc) (keys.Subject key) scopes) ;;
  if_err e return_ pret (WrapE svcerr.ErrCreateEntity e, scopes) ;;
  pret (None, scopes).

Definition RemoveScope (token patID : string) (scopesIDs : list string) : St W (option error) :=
  '(key, e) <~ authnAuthzUserPAT token patID ;;
  if_err e return_ pret e ;;
  e <~ call (pats_RemoveScope (pats svc) (keys.Subject key) scopesIDs) ;;
  if_err e return_ pret (WrapE svcerr.ErrRemoveEntity e) ;;
  pret None.

Definition ListScopes (token : string) (pm : ScopesPageMeta) : St W (option (ScopesPage * error)) :=
  '(_, e) <~ authnAuthzUserPAT token (sm_PatID pm) ;;
  if_err e return_ pret (ScopesPage0, e) ;;
  '(page, e) <~ call (pats_RetrieveScope (pats svc) pm) ;;
  if_err e return_ pret (ScopesPage0, WrapE errRetrievePAT e) ;;
  pret (page, None).

Definition RemovePATAllScope (token patID : string) : St W (option error) :=
  '(_, e) <~ authnAuthzUserPAT token patID ;;
  if_err e return_ pret e ;;
  e <~ call (pats_RemoveAllScope (pats svc) patID) ;;
  if_err e return_ pret (WrapE svcerr.ErrRemoveEntity e) ;;
  pret None.
End service.
End auth.

(** ** Lemmas *)

Lemma Split_single s c : c ∉ chars s -> Split s c = [s].
Proof. intros H. unfold Split. rewrite split_bytes_none by done. simpl. by rewrite str_chars. Qed.

Lemma Split_cons a b c : c ∉ chars a -> Split (a +:+ str [c] +:+ b) c = a :: Split b c.
Proof.
  intros H. unfold Split. rewrite !chars_app, chars_str. simpl.
  rewrite split_bytes_app by done. simpl. by rewrite str_chars.
Qed.

Lemma Split_single_iff s c : Split s c = [s] <-> c ∉ chars s.
Proof.
  split; [|apply Split_single]. unfold Split. intros H.
  destruct (split_bytes c (chars s)) as [|p [|? ?]] eqn:E; simplify_eq/=.
  by apply split_bytes_single in E as [? ?].
Qed.

Lemma Split_length s c : length (Split s c) = 1 <-> Split s c = [s].
Proof.
  split; [|by intros ->]. unfold Split. rewrite length_fmap.
  destruct (split_bytes c (chars s)) as [|p [|? ?]] eqn:E; simpl; try done. intros _.
  apply split_bytes_single in E as [<- ?]. by rewrite str_chars.
Qed.

Lemma Split_nonempty s c : Split s c <> [].
Proof. unfold Split. pose proof (split_bytes_nonempty c (chars s)). by destruct (split_bytes c (chars s)). Qed.

Lemma no_underscore_base64 l : "_"%char ∉ chars (StdEncoding.EncodeToString l).
Proof.
  unfold StdEncoding.EncodeToString. rewrite chars_str. intros Hin.
  pose proof (b64_encode_letters std_alphabet l) as H.
  rewrite Forall_forall in H. destruct (H _ Hin) as [?|(n & _ & Hn)]; [done|].
  unfold b64_char in Hn.
  assert (Ha : "_"%char ∉ std_alphabet) by (apply mem_false; reflexivity).
  destruct (nth_in_or_default (N.to_nat n) std_alphabet "A"%char) as [Hc|Hc].
  - apply Ha. rewrite Hn. by apply list_elem_of_In.
  - rewrite Hc in Hn. done.
Qed.

Lemma randLetter_no_underscore b : auth.randLetter b <> "_"%char.
Proof.
  assert (Ha : "_"%char ∉ chars auth.randStr) by (apply mem_false; reflexivity).
  unfold auth.randLetter. cbv zeta. set (i := _ mod _). set (l := chars auth.randStr) in *.
  destruct (nth_in_or_default i l "a"%char) as [Hc|Hc].
  - intros E. apply Ha. rewrite <- E. by apply list_elem_of_In.
  - rewrite Hc. done.
Qed.

Lemma Split_patSecret u p rnd : "_"%char ∉ chars rnd ->
  Split (auth.patSecret u p rnd) auth.patSecretSeparator = [auth.patPrefix; auth.encode u p; rnd].
Proof.
  intros H. unfold auth.patSecret. cbv zeta. rewrite Split_cons by (apply mem_false; reflexivity).
  rewrite Split_cons by apply no_underscore_base64. by rewrite Split_single by done.
Qed.

(** An error made by Wrap is not nil. *)
Ltac no_wrap H :=
  exfalso; revert H;
  match goal with |- context [WrapE ?a ?b] =>
    let Hw := fresh in destruct (WrapE a b) eqn:Hw; [done | by apply WrapE_not_nil in Hw] end.

Section auth_theory.
Import policies keys pat auth.
Context {W : Type} (now : St W Time) (rand_Read : nat -> St W (list ascii * error)) (U : UUIDLib).
Context (svc : service W).

Lemma random_no_underscore n w s w' :
  generateRandomString rand_Read n w = ((s, None), w') -> "_"%char ∉ chars s.
Proof.
  unfold generateRandomString, bind, ret. destruct (rand_Read n w) as [[bs [e|]] w1].
  { by intros [= ? ?%WrapE_inv]. }
  intros [= <- <-]. rewrite chars_str. intros (b & Hb & _)%list_elem_of_In%in_map_iff.
  by apply randLetter_no_underscore in Hb.
Qed.

Lemma decode_encode u p : length u = 16 -> length p = 16 -> decode (encode u p) = (u, p, None).
Proof.
  intros Hu Hp. unfold decode, encode. rewrite StdEncoding.roundtrip, length_app, Hu, Hp. simpl.
  by rewrite take_app_length', drop_app_length' by done.
Qed.

(** The shape of a generated secret. *)
Lemma generated_secret userID patID w secret hash w' :
  generateSecretAndHash rand_Read U svc userID patID w = ((secret, hash, None), w') ->
  exists ub pb rnd w1, uuid_Parse U userID = (ub, None) /\ uuid_Parse U patID = (pb, None)
    /\ Split secret patSecretSeparator = [patPrefix; encode ub pb; rnd]
    /\ Hash (hasher svc) secret w1 = ((hash, None), w').
Proof.
  unfold generateSecretAndHash, bind, ret.
  destruct (uuid_Parse U userID) as [ub [e|]]; [by intros [= ? ? ?%WrapE_inv]|].
  destruct (uuid_Parse U patID) as [pb [e|]]; [by intros [= ? ? ?%WrapE_inv]|].
  destruct (generateRandomString rand_Read 100 w) as [[rnd [e|]] w1] eqn:Er; [done|].
  destruct (Hash (hasher svc) _ w1) as [[h e] w2] eqn:Eh. intros [= <- <- -> ->].
  exists ub, pb, rnd, w1. split_and!; [done..| |done].
  apply Split_patSecret. by eapply random_no_underscore.
Qed.

Lemma IdentifyPAT_parts secret w :
  match nth_error (Split secret patSecretSeparator) 1 with
  | None => (IdentifyPAT U svc secret w).1 = None <-> secret = patPrefix
  | Some _ => (IdentifyPAT U svc secret w).1 <> None
  end.
Proof.
  unfold IdentifyPAT. destruct (nth_error _ 1) as [part1|] eqn:E.
  - unfold pbind, call, pret, bind, ret, decode. repeat (case_match; simplify_eq/=; try done).
  - assert (Hs : Split secret patSecretSeparator = [secret]).
    { apply Split_length. pose proof (Split_nonempty secret patSecretSeparator).
      destruct (Split secret patSecretSeparator) as [|? [|? ?]]; done. }
    rewrite Hs. simpl. destruct (secret =s patPrefix) eqn:Ep; simpl.
    + apply String.eqb_eq in Ep. done.
    + apply String.eqb_neq in Ep. done.
Qed.

(** A personal access token made by generateSecretAndHash for a user and a
    token identifier (16-byte UUIDs that print back to the given text) is
    identified as that user's token, while the repository has its hash,
    neither revoked nor expired, and the hasher accepts it; the role is the
    user's current one. *)
Theorem IdentifyPAT_generated userID patID ub pb w secret hash w1 w2 w3 w4
    (Hu : uuid_Parse U userID = (ub, None)) (Hul : length ub = 16) (Hus : uuid_String U ub = userID)
    (Hp : uuid_Parse U patID = (pb, None)) (Hpl : length pb = 16) (Hps : uuid_String U pb = patID)
    (Hgen : generateSecretAndHash rand_Read U svc userID patID w = ((secret, hash, None), w1))
    (Hrepo : pats_RetrieveSecretAndRevokeStatus (pats svc) userID patID w2
             = ((hash, false, false, None), w3))
    (Hcmp : Compare (hasher svc) secret hash w3 = (None, w4)) :
  let (role, w5) := getUserRole svc userID w4 in
  IdentifyPAT U svc secret w2 =
    (Some (set_field pat.Role role (set_field User userID (set_field pat.ID patID PAT0)), None), w5).
Proof.
  destruct (generated_secret _ _ _ _ _ _ Hgen) as (ub' & pb' & rnd & w0 & Hu' & Hp' & Hs & _).
  rewrite Hu in Hu'; rewrite Hp in Hp'. injection Hu' as <-. injection Hp' as <-.
  unfold IdentifyPAT. rewrite Hs. cbn [length Nat.eqb negb andb nth_error].
  rewrite decode_encode by done.
  rewrite Hus, Hps. unfold pbind, call, pret, bind, ret. rewrite Hrepo, Hcmp.
  destruct (getUserRole svc userID w4) as [role w5]. done.
Qed.

(** IdentifyPAT panics (index out of range) exactly on the secret "pat",
    and the tokenizer hands exactly such strings to it: Identify "pat"
    panics too. *)
Lemma IdentifyPAT_panics_iff secret w :
  ((IdentifyPAT U svc secret w).1 = None <-> secret = patPrefix)
  /\ (forall w1, tok_Parse (tokenizer svc) patPrefix w
                = ((set_field keys.Type_ keys.PersonalAccessToken Key0, None), w1) ->
      (Identify U svc patPrefix w).1 = None).
Proof.
  split.
  - pose proof (IdentifyPAT_parts secret w) as H.
    destruct (nth_error (Split secret patSecretSeparator) 1) eqn:E; [|done].
    split; [done|]. intros ->. done.
  - intros w1 Hp. unfold Identify, pbind, call, bind, ret. rewrite Hp. cbn.
    destruct (IdentifyPAT_parts patPrefix w1) as [_ H]. specialize (H eq_refl).
    destruct (IdentifyPAT U svc patPrefix w1) as [[?|] ?]; [done|reflexivity].
Qed.

(** C19: what identifies a personal access token, exactly: it has three parts
    or begins with the prefix (the source tests [&&], so one of the two is
    enough), its second part decodes to two UUIDs, the repository has a secret
    hash for them that is neither revoked nor expired, and the hasher accepts
    the whole secret against that hash; the answer names those UUIDs and has
    the role that the policies give the user after that. *)
Theorem IdentifyPAT_sound secret w p w' :
  IdentifyPAT U svc secret w = (Some (p, None), w') <->
  exists part1 ub pb hash w1 w2 role,
    let parts := Split secret patSecretSeparator in
    (length parts = 3%nat \/ nth 0 parts "" = patPrefix)
    /\ nth_error parts 1 = Some part1 /\ decode part1 = (ub, pb, None)
    /\ pats_RetrieveSecretAndRevokeStatus (pats svc) (uuid_String U ub) (uuid_String U pb) w
         = ((hash, false, false, None), w1)
    /\ Compare (hasher svc) secret hash w1 = (None, w2)
    /\ getUserRole svc (uuid_String U ub) w2 = (role, w')
    /\ p = PAT0 <| pat.ID := uuid_String U pb |> <| User := uuid_String U ub |> <| pat.Role := role |>.
Proof.
  unfold IdentifyPAT, pbind, call, pret, bind, ret. cbv zeta. set (parts := Split secret patSecretSeparator).
  assert (Hparts : (length parts = 3%nat \/ nth 0 parts "" = patPrefix) <->
    negb (Nat.eqb (length parts) 3) && (nth 0 parts "" <>s patPrefix) = false).
  { destruct (Nat.eqb_spec (length parts) 3), (String.eqb_spec (nth 0 parts "") patPrefix); simpl; naive_solver. }
  setoid_rewrite Hparts. clear Hparts. split.
  - case_match; [by intros [= ? ?%WrapE_inv]|].
    destruct (nth_error _ 1) as [part1|] eqn:E1; [|done].
    destruct (decode part1) as [[ub pb] [e|]] eqn:E2; [by intros [= ? ?%WrapE_inv]|].
    destruct (pats_RetrieveSecretAndRevokeStatus _ _ _ w) as [[[[hash rv] ex] [e|]] w1] eqn:E3;
      [by intros [= ? ?%WrapE_inv]|].
    destruct rv; [by intros [= ? ?%WrapE_inv]|]. destruct ex; [by intros [= ? ?%WrapE_inv]|].
    destruct (Compare _ _ _ w1) as [[e|] w2] eqn:E4; [by intros [= ? ?%WrapE_inv]|].
    destruct (getUserRole _ _ w2) as [role w3] eqn:E5. intros [= <- <-].
    exists part1, ub, pb, hash, w1, w2, role. by split_and!.
  - intros (part1 & ub & pb & hash & w1 & w2 & role & -> & -> & -> & -> & -> & -> & ->). done.
Qed.

(** Authorize succeeds exactly where the token scope (when the request
    carries one) allows the operation, a platform policy names the platform
    object, and the evaluator grants the policy. *)
Theorem Authorize_iff pr patAuthz w :
  is_nil (Authorize svc pr patAuthz w).1 = true <->
  exists w1,
    match patAuthz with
    | Some p => pats_CheckScope (pats svc) (pa_UserID p) (pa_PatID p) (pa_EntityType p) (pa_Domain p)
                  (pa_Operation p) (pa_EntityID p) w = (None, w1)
    | None => w1 = w
    end
    /\ ~ (ObjectType pr = PlatformType /\ Object pr <> SuperMQObject)
    /\ (CheckPolicy (evaluator svc) pr w1).1 = None.
Proof.
  assert (Hpl : PolicyValidation pr = None <-> ~ (ObjectType pr = PlatformType /\ Object pr <> SuperMQObject)).
  { unfold PolicyValidation. destruct (String.eqb_spec (ObjectType pr) PlatformType);
      destruct (String.eqb_spec (Object pr) SuperMQObject); simpl; naive_solver. }
  setoid_rewrite <- Hpl. unfold Authorize, AuthorizePAT, checkPolicy, bind, ret. split.
  - intros H. destruct patAuthz as [p|].
    + destruct (pats_CheckScope _ _ _ _ _ _ _ w) as [[e|] w1]; [no_wrap H|]. exists w1. split; [done|].
      destruct (PolicyValidation pr); [no_wrap H|]. split; [done|].
      destruct (CheckPolicy _ _ w1) as [[e|] w2]; [no_wrap H|done].
    + exists w. split; [done|]. destruct (PolicyValidation pr); [no_wrap H|]. split; [done|].
      destruct (CheckPolicy _ _ w) as [[e|] w2]; [no_wrap H|done].
  - intros (w1 & H1 & H2 & H3). destruct patAuthz as [p|].
    + rewrite H1, H2. destruct (CheckPolicy _ _ w1) as [? ?]; simpl in *; by subst.
    + subst w1. rewrite H2. destruct (CheckPolicy _ _ w) as [? ?]; simpl in *; by subst.
Qed.

(** C20: a refresh succeeds only with a refresh token whose identifier is
    active in the cache, and where the role of the request, if it names one,
    may be issued; the new access token lasts the login duration from then,
    the new refresh token keeps the identifier, the subject and the expiry of
    the old one, which stays active, and both carry the role written in the
    old token. *)
Theorem refreshKey_sound token key w t w'
    (Hrun : refreshKey now svc token key w = ((t, None), w')) :
  exists k w1 w2 w3 wa wb tm,
    let claims role ty ex := Key0 <| keys.ID := keys.ID k |> <| keys.Type_ := ty |>
      <| Issuer := Issuer key |> <| keys.Subject := keys.Subject k |> <| keys.Role := role |>
      <| keys.IssuedAt := keys.IssuedAt key |> <| keys.ExpiresAt := ex |>
      <| Verified := Verified key |> <| keys.Description := keys.Description key |> in
    tok_Parse (tokenizer svc) token w = ((k, None), w1) /\ keys.Type_ k = RefreshKey
    /\ IsActive (tokensCache svc) (keys.ID k) w1 = ((true, None), w2)
    /\ checkUserRole svc (claims (keys.Role key) AccessKey (keys.ExpiresAt key)) w2 = (None, w3)
    /\ now w3 = (tm, wa)
    /\ tok_Issue (tokenizer svc) (claims (keys.Role k) AccessKey (tm + loginDuration svc)%Z) wa = ((AccessToken t, None), wb)
    /\ tok_Issue (tokenizer svc) (claims (keys.Role k) RefreshKey (keys.ExpiresAt k)) wb = ((RefreshToken t, None), w').
Proof.
  revert Hrun. unfold refreshKey, bind, ret.
  destruct (tok_Parse _ token w) as [[k [e|]] w1] eqn:E1; [by intros [= ? ?%WrapE_inv]|].
  destruct (N.eqb (keys.Type_ k) RefreshKey) eqn:Et; simpl; [|done]. apply N.eqb_eq in Et.
  destruct (IsActive _ _ w1) as [[[] [e|]] w2] eqn:E2; simpl; try done;
    try by intros [= ? ?%WrapE_inv].
  destruct (checkUserRole _ _ w2) as [[e|] w3] eqn:Er; [by intros [= ? ?%WrapE_inv]|].
  destruct (now w3) as [tm w4] eqn:En.
  match goal with |- context [tok_Issue _ ?x w4] => destruct (tok_Issue (tokenizer svc) x w4) as [[access [e|]] w5] eqn:E3 end;
    [by intros [= ? ?%WrapE_inv]|].
  match goal with |- context [tok_Issue _ ?x w5] => destruct (tok_Issue (tokenizer svc) x w5) as [[refresh [e|]] w6] eqn:E4 end;
    [by intros [= ? ?%WrapE_inv]|].
  intros [= <- <-]. exists k, w1, w2, w3, w4, w5, tm. cbv zeta. by destruct key.
Qed.

(** The evaluator of a service replaced by another. *)
Definition with_evaluator (ev : Evaluator W) : service W :=
  {| auth.keys := auth.keys svc; pats := pats svc; tokensCache := tokensCache svc; hasher := hasher svc;
     idProvider := idProvider svc; evaluator := ev; policysvc := policysvc svc; tokenizer := tokenizer svc;
     loginDuration := loginDuration svc; refreshDuration := refreshDuration svc;
     invitationDuration := invitationDuration svc |}.

(** The refresh request of the token API names no role, and then a
    refresh consults no policy at all: whatever the policies say by now, the
    role of the old token is written into the new ones. *)
Theorem refreshKey_role_unchecked ev token key w
    (Hrole : keys.Role key <> AdminRole /\ keys.Role key <> UserRole) :
  refreshKey now (with_evaluator ev) token key w = refreshKey now svc token key w.
Proof.
  destruct Hrole as [Ha Hu]. apply N.eqb_neq in Ha, Hu.
  unfold refreshKey, bind, ret. cbn [tokenizer tokensCache loginDuration with_evaluator].
  destruct (tok_Parse _ token w) as [[k [e|]] w1]; [done|].
  case_match; [done|]. destruct (IsActive _ _ w1) as [[ok [e|]] w2]; [done|].
  case_match; [done|]. unfold checkUserRole. simpl. by rewrite Ha, Hu.
Qed.
End auth_theory.

(** ** Revocation *)

(** The cache of active refresh tokens, as the set of active identifiers. *)
Class TokensCacheLaws {W : Type} (C : keys.UserActiveTokensCache W) (active : W -> gset string) : Prop := {
  IsActive_ok id w b w' : keys.IsActive C id w = ((b, None), w') -> b = bool_decide (id ∈ active w);
  IsActive_frame id : frames (keys.IsActive C id) active;
  RemoveActive_ok u id w w' : keys.RemoveActive C u id w = (None, w') -> active w' = active w ∖ {[id]};
  RemoveActive_err u id w e w' : keys.RemoveActive C u id w = (Some e, w') -> active w' ⊆ active w;
  SaveActive_only u id d t w : active (keys.SaveActive C u id d t w).2 ⊆ active w ∪ {[id]} }.

(** The other dependencies leave the cache alone, and the identifier
    provider does not repeat [id]. *)
Class AuthEnv {W : Type} (now : St W Time) (svc : auth.service W) (active : W -> gset string) (id : string) : Prop := {
  env_cache :: TokensCacheLaws (auth.tokensCache svc) active;
  active_now : frames now active;
  active_Issue k : frames (keys.tok_Issue (auth.tokenizer svc) k) active;
  active_Parse t : frames (keys.tok_Parse (auth.tokenizer svc) t) active;
  active_id : frames (auth.idProvider svc) active;
  active_Check pr : frames (policies.CheckPolicy (auth.evaluator svc) pr) active;
  active_Save k : frames (keys.keys_Save (auth.keys svc) k) active;
  id_fresh w : (auth.idProvider svc w).1.1 <> id }.
#[export] Hint Resolve active_now active_Issue active_Parse active_id active_Check active_Save : frame.
#[export] Hint Extern 1 (frames (keys.IsActive _ _) _) => eapply IsActive_frame; typeclasses eauto : frame.

Section revocation.
Import policies keys pat auth.
Context {W : Type} (now : St W Time) (svc : service W) (active : W -> gset string) (id : string).
Context {Env : AuthEnv now svc active id}.

(** An operation that does not activate [id]. *)
Definition keeps_inactive {A} (m : St W A) : Prop := forall w, id ∉ active w -> id ∉ active (m w).2.

Lemma keeps_frames {A} (m : St W A) : frames m active -> keeps_inactive m.
Proof. intros H w. by rewrite (H w). Qed.
Lemma keeps_bind {A B} (m : St W A) (f : A -> St W B) :
  keeps_inactive m -> (forall a, keeps_inactive (f a)) -> keeps_inactive (bind m f).
Proof. intros Hm Hf w Hw. unfold bind. specialize (Hm w Hw). destruct (m w) as [a w1]. by apply Hf. Qed.
Lemma keeps_ret {A} (a : A) : keeps_inactive (ret a).
Proof. intros w Hw. exact Hw. Qed.

Lemma keeps_checkUserRole key : keeps_inactive (checkUserRole svc key).
Proof.
  apply keeps_frames. unfold checkUserRole, Authorize, checkPolicy.
  repeat first [apply frames_ret | apply frames_bind; [|intros] | solve [eauto with frame]
    | match goal with |- frames (match ?x with _ => _ end) _ => destruct x end ].
Qed.
Hint Resolve keeps_checkUserRole : core.

Lemma keeps_Save u i d t : i <> id -> keeps_inactive (SaveActive (tokensCache svc) u i d t).
Proof. intros Hi w Hw. pose proof (SaveActive_only u i d t w). set_solver. Qed.

Lemma keeps_fresh {A} (f : string * error -> St W A) :
  (forall i e, i <> id -> keeps_inactive (f (i, e))) -> keeps_inactive (bind (idProvider svc) f).
Proof.
  intros Hf w Hw. unfold bind. pose proof (id_fresh w) as Hid. pose proof (active_id w) as Ha.
  destruct (idProvider svc w) as [[i e] w1]. simpl in *. apply Hf; [done|]. by rewrite Ha.
Qed.

(** One call of the monad, or one test, at a time. *)
Ltac keeps :=
  repeat first
    [ apply keeps_ret
    | apply keeps_fresh; intros ? [?|] ?
    | apply keeps_bind; [solve [apply keeps_frames; eauto with frame | eauto]|]; intros; cbv zeta
    | match goal with |- keeps_inactive (match ?x with _ => _ end) => destruct x end
    | match goal with |- keeps_inactive (if ?b then _ else _) => destruct b end ].

Lemma keeps_authenticate t : keeps_inactive (authenticate svc t).
Proof. unfold authenticate. keeps. Qed.
Hint Resolve keeps_authenticate : core.

Lemma keeps_accessKey key : keeps_inactive (accessKey now svc key).
Proof.
  unfold accessKey. keeps.
  apply keeps_bind; [|intros ?; keeps]. destruct (_ <>s _); [|keeps].
  apply keeps_bind; [apply keeps_frames; eauto with frame|]. intros t. destruct (After _ _); [|keeps].
  apply keeps_bind; [by apply keeps_Save|]. intros ?; keeps.
Qed.

Lemma keeps_Issue token key : keeps_inactive (Issue now svc token key).
Proof.
  unfold Issue. apply keeps_bind; [apply keeps_frames; eauto with frame|]. intros t. cbv zeta.
  repeat case_match; [unfold userKey|unfold refreshKey|unfold tmpKey|unfold invitationKey
    |apply keeps_accessKey]; keeps.
Qed.

Lemma keeps_RevokeToken u i : keeps_inactive (RevokeToken svc u i).
Proof.
  intros w Hw. unfold RevokeToken, bind, ret.
  destruct (RemoveActive _ u i w) as [[e|] w1] eqn:E; simpl.
  - apply RemoveActive_err in E. set_solver.
  - apply RemoveActive_ok in E. set_solver.
Qed.

(** Any issue of a key of any type, and any other revocation. *)
Inductive auth_step : W -> W -> Prop :=
| step_Issue token key w : auth_step w (Issue now svc token key w).2
| step_RevokeToken u i w : auth_step w (RevokeToken svc u i w).2.

Lemma auth_step_inactive w w' : rtc auth_step w w' -> id ∉ active w -> id ∉ active w'.
Proof.
  induction 1 as [|? ? ? [] _ IH]; [done|..]; intros Hw; apply IH; [by apply keeps_Issue|by apply keeps_RevokeToken].
Qed.

(** C21: after a successful RevokeToken of a refresh token, no refresh with a
    token that carries its identifier succeeds any more, directly or as the
    Issue of a refresh key, whatever keys are issued, refreshed or revoked in
    between, successfully or not.  (Identify still accepts the token, which
    [memauth.revoked_token_identified] shows.) *)
Theorem revoked_token_rejected userID w w1 w2 token key
    (Hrevoke : RevokeToken svc userID id w = (None, w1)) (Hsteps : rtc auth_step w1 w2)
    (Htoken : forall v k v', tok_Parse (tokenizer svc) token v = ((k, None), v') -> keys.ID k = id)
    (Hkey : keys.Type_ key = RefreshKey) :
  is_nil (refreshKey now svc token key w2).1.2 = false /\ is_nil (Issue now svc token key w2).1.2 = false.
Proof.
  assert (Hrefresh : forall k v, id ∉ active v -> is_nil (refreshKey now svc token k v).1.2 = false).
  { intros k v Hv. unfold refreshKey, bind, ret.
    destruct (tok_Parse _ token v) as [[kt [e|]] v1] eqn:Ep; [apply WrapE_is_nil|].
    pose proof (frames_eq _ active _ _ _ (active_Parse token) Ep) as Hp. case_match; [done|].
    destruct (IsActive _ (keys.ID kt) v1) as [[b [e|]] w4] eqn:Ea; [apply WrapE_is_nil|].
    apply IsActive_ok in Ea. rewrite (Htoken _ _ _ Ep), Hp in Ea. rewrite bool_decide_eq_false_2 in Ea by done. by subst b. }
  assert (Hw1 : id ∉ active w1).
  { revert Hrevoke. unfold RevokeToken, bind, ret.
    destruct (RemoveActive _ userID id w) as [[e|] wr] eqn:E; [by intros [= ?%WrapE_inv]|].
    intros [= <-]. apply RemoveActive_ok in E. set_solver. }
  pose proof (auth_step_inactive _ _ Hsteps Hw1) as Hw2. split; [by apply Hrefresh|].
  unfold Issue, bind. pose proof (active_now w2) as Hn. destruct (now w2) as [t w3]. simpl in Hn. cbv zeta.
  simpl. rewrite Hkey. simpl. apply Hrefresh. by rewrite Hn.
Qed.
End revocation.

(** ** Domain user identifiers *)
Section domain_users.
Import auth.

Lemma Split_one_cut a b c : c ∉ chars a -> c ∉ chars b -> Split (a +:+ str [c] +:+ b) c = [a; b].
Proof. intros Ha Hb. by rewrite Split_cons, Split_single. Qed.

Lemma split_bytes_count c l : length (split_bytes c l) = S (length (List.filter (Ascii.eqb c) l)).
Proof.
  induction l as [|x l IH]; [done|]. simpl. rewrite (Ascii.eqb_sym c x).
  destruct (x =c c); simpl; [by rewrite IH|]. destruct (split_bytes c l); simpl in *; lia.
Qed.

Lemma filter_some c l : c ∈ l -> 1 <= length (List.filter (Ascii.eqb c) l).
Proof.
  intros H. apply list_elem_of_In in H. assert (Hf : In c (List.filter (Ascii.eqb c) l)).
  { apply filter_In. split; [done|]. apply Ascii.eqb_refl. }
  destruct (List.filter _ l); simpl in *; [done|lia].
Qed.

(** For a domain and a user with non-empty identifiers, decoding the
    encoded pair gives the pair back exactly where neither identifier holds
    an underscore; where one does, the decoded pair is empty (and never a
    different domain or user). *)
Theorem DecodeDomainUserID_Encode d u (Hd : d <> "") (Hu : u <> "") :
  DecodeDomainUserID (EncodeDomainUserID d u)
  = if mem "_" (chars d) || mem "_" (chars u) then ("", "") else (d, u).
Proof.
  assert (He : EncodeDomainUserID d u = d +:+ str ["_"%char] +:+ u).
  { unfold EncodeDomainUserID. apply String.eqb_neq in Hd, Hu. by rewrite Hd, Hu. }
  rewrite He. unfold DecodeDomainUserID.
  destruct (_ =s "") eqn:E; [apply String.eqb_eq in E; by destruct d|].
  destruct (mem "_" (chars d) || mem "_" (chars u)) eqn:Em.
  - assert (Hl : 3 <= length (Split (d +:+ str ["_"%char] +:+ u) "_")).
    { unfold Split. rewrite length_fmap, split_bytes_count, !chars_app, chars_str, !List.filter_app, !length_app.
      simpl. apply orb_true_iff in Em as [Em|Em]; apply mem_spec, filter_some in Em; lia. }
    destruct (Split _ _) as [|? [|? [|? ?]]]; simpl in Hl; try lia. done.
  - apply orb_false_iff in Em as [E1%mem_false E2%mem_false]. by rewrite Split_one_cut.
Qed.

Lemma DecodeDomainUserID_Encode_witness :
  DecodeDomainUserID (EncodeDomainUserID "d1" "u1") = ("d1", "u1")
  /\ DecodeDomainUserID (EncodeDomainUserID "d_1" "u1") = ("", "").
Proof.
  split; [exact (DecodeDomainUserID_Encode "d1" "u1" ltac:(discriminate) ltac:(discriminate))
         |exact (DecodeDomainUserID_Encode "d_1" "u1" ltac:(discriminate) ltac:(discriminate))].
Defined.
End domain_users.

(** ** A concrete service: the hypotheses can hold

    The state is the secret hash of the one stored token and the active
    refresh tokens.  UUIDs are texts of 16 bytes. *)
Module memauth.
Import policies keys pat auth.
Definition state : Type := string * gset string.

Definition lib : UUIDLib :=
  {| uuid_Parse := fun s => if Nat.eqb (length (chars s)) 16 then (chars s, None)
                            else (uuid_Nil, Some (Errorf "invalid UUID length"));
     uuid_String := str |}.
Definition user := "user-user-user-u".
Definition token_id := "token-token-tokn".

(** Tokens: "pat..." and the refresh token "refresh" of identifier "r". *)
Definition tok : Tokenizer state :=
  {| tok_Issue := fun k => ret ("issued:" +:+ keys.ID k, None);
     tok_Parse := fun t =>
       if HasPrefix t "pat" then ret (set_field keys.Type_ PersonalAccessToken Key0, None)
       else if t =s "refresh" then
         ret (set_field keys.ID "r" (set_field keys.Type_ RefreshKey (set_field keys.Role AdminRole
                (set_field keys.Subject user Key0))), None)
       else ret (Key0, Some (Errorf "malformed"));
     tok_RetrieveJWKS := ret ([], None) |}.
Definition cache : UserActiveTokensCache state :=
  {| SaveActive := fun _ id _ _ s => (None, (s.1, s.2 ∪ {[id]}));
     IsActive := fun id s => ((bool_decide (id ∈ s.2), None), s);
     ListUserTokens := fun _ => ret ([], None);
     RemoveActive := fun _ id s => (None, (s.1, s.2 ∖ {[id]})) |}.
Definition hash : Hasher state :=
  {| Hash := fun x => ret ("h" +:+ x, None);
     Compare := fun x h => ret (if h =s ("h" +:+ x) then None else Some (Errorf "mismatch")) |}.
Definition repo : PATSRepository state :=
  {| pats_Save := fun p s => (None, (pat.Secret p, s.2));
     pats_Retrieve := fun _ _ => ret (PAT0, None);
     pats_RetrieveScope := fun _ => ret (ScopesPage0, None);
     pats_RetrieveSecretAndRevokeStatus := fun _ _ s => ((s.1, false, false, None), s);
     pats_UpdateName := fun _ _ _ => ret (PAT0, None);
     pats_UpdateDescription := fun _ _ _ => ret (PAT0, None);
     pats_UpdateTokenHash := fun _ _ h _ s => ((PAT0, None), (h, s.2));
     pats_RetrieveAll := fun _ _ => ret (PATSPage0, None);
     pats_Revoke := fun _ _ => ret None;
     pats_Reactivate := fun _ _ => ret None;
     pats_Remove := fun _ _ => ret None;
     pats_RemoveAllPAT := fun _ => ret None;
     pats_AddScope := fun _ _ => ret None;
     pats_RemoveScope := fun _ _ => ret None;
     pats_CheckScope := fun _ _ _ _ _ _ => ret None;
     pats_RemoveAllScope := fun _ => ret None |}.
Definition keyrepo : KeyRepository state :=
  {| keys_Save := fun k => ret (keys.ID k, None);
     keys_Retrieve := fun _ _ => ret (Key0, None);
     keys_Remove := fun _ _ => ret None |}.
Definition nobody : Evaluator state := {| CheckPolicy := fun _ => ret (Some (Errorf "denied")) |}.
Definition svc : service state :=
  {| auth.keys := keyrepo; pats := repo; tokensCache := cache; hasher := hash;
     idProvider := ret ("fresh", None); evaluator := nobody;
     policysvc := {| AddPolicy := fun _ => ret None; AddPolicies := fun _ => ret None;
                     DeletePolicyFilter := fun _ => ret None; DeletePolicies := fun _ => ret None |};
     tokenizer := tok; loginDuration := 10; refreshDuration := 100; invitationDuration := 5 |}.
Definition now : St state Time := ret 7%Z.
Definition rnd (n : nat) : St state (list ascii * error) := ret (replicate n "k"%char, None).

Definition gen := generateSecretAndHash rnd lib svc user token_id ("", ∅).
Definition secret : string := gen.1.1.1.
Definition stored : string := gen.1.1.2.
Definition s0 : state := (stored, {["r"]}).

Lemma IdentifyPAT_generated_witness :
  (IdentifyPAT lib svc secret s0).1
  = Some (set_field pat.Role UserRole (set_field User user (set_field pat.ID token_id PAT0)), None).
Proof.
  assert (Hg : gen = ((secret, stored, None), ("", ∅))) by (vm_compute; reflexivity).
  pose proof (IdentifyPAT_generated rnd lib svc user token_id (chars user) (chars token_id) ("", ∅)
    secret stored ("", ∅) s0 s0 s0 eq_refl eq_refl eq_refl eq_refl eq_refl eq_refl Hg eq_refl) as H.
  specialize (H ltac:(vm_compute; reflexivity)).
  assert (Hr : getUserRole svc user s0 = (UserRole, s0)) by reflexivity.
  rewrite Hr in H. rewrite H. reflexivity.
Defined.

(** The secret "pat" reaches the panic through Identify. *)
Lemma IdentifyPAT_panics_iff_witness : (Identify lib svc "pat" s0).1 = None.
Proof. apply (IdentifyPAT_panics_iff lib svc "pat" s0) with (w1 := s0). reflexivity. Defined.

Lemma IdentifyPAT_sound_witness : exists part1 ub pb,
  nth_error (Split secret patSecretSeparator) 1 = Some part1 /\ decode part1 = (ub, pb, None).
Proof.
  assert (Hi : exists p, IdentifyPAT lib svc secret s0 = (Some (p, None), s0)).
  { eexists. vm_compute. reflexivity. }
  destruct Hi as [p Hi].
  destruct (proj1 (IdentifyPAT_sound lib svc secret s0 p s0) Hi) as (part1 & ub & pb & ? & ? & ? & ? & _ & H1 & H2 & _).
  by exists part1, ub, pb.
Defined.

Definition refreshed := refreshKey now svc "refresh" (set_field Verified true Key0) s0.

Lemma refreshKey_sound_witness : is_nil refreshed.1.2 = true
  /\ exists k, keys.Type_ k = RefreshKey /\ tok_Parse tok "refresh" s0 = ((k, None), s0).
Proof.
  split; [vm_compute; reflexivity|].
  assert (Hr : refreshed = ((refreshed.1.1, None), s0)) by (vm_compute; reflexivity).
  destruct (refreshKey_sound now svc "refresh" (set_field Verified true Key0) s0 _ _ Hr)
    as (k & w1 & ? & ? & ? & ? & ? & Hp & Ht & _).
  exists k. split; [done|]. assert (w1 = s0) as -> by (revert Hp; simpl; unfold ret; congruence). done.
Defined.

(** A service that denies everything refreshes the role of an administrator. *)
Lemma refreshKey_role_unchecked_witness :
  is_nil refreshed.1.2 = true
  /\ refreshKey now (with_evaluator svc {| CheckPolicy := fun _ => ret None |}) "refresh" Key0 s0
     = refreshKey now svc "refresh" Key0 s0.
Proof.
  split; [vm_compute; reflexivity|].
  apply (refreshKey_role_unchecked now svc). split; discriminate.
Defined.

#[export] Instance cache_laws : TokensCacheLaws cache snd.
Proof. split; simpl; try done; naive_solver. Qed.
#[export] Instance env id : id <> "fresh" -> AuthEnv now svc snd id.
Proof.
  intros Hid. split; try apply _; simpl; try (intros; apply frames_ret).
  - intros t. simpl. repeat case_match; apply frames_ret.
  - by intros w ?.
Qed.

Definition refresh_request : Key := set_field keys.Type_ RefreshKey Key0.
Lemma revoked_token_rejected_witness :
  let w1 := (RevokeToken svc user "r" s0).2 in
  let w2 := (Issue now svc "" (set_field keys.Subject user Key0) w1).2 in
  bool_decide ("fresh" ∈ w2.2) = true
  /\ is_nil (refreshKey now svc "refresh" refresh_request w2).1.2 = false
  /\ is_nil (Issue now svc "refresh" refresh_request w2).1.2 = false.
Proof.
  split; [vm_compute; reflexivity|].
  eapply (revoked_token_rejected now svc snd "r" (Env := env "r" ltac:(discriminate)) user s0).
  - apply surjective_pairing.
  - apply rtc_once, step_Issue.
  - intros v k v'. simpl. unfold ret. by intros [= <- _].
  - reflexivity.
Defined.

(** The token that was refused is still identified as its user. *)
Lemma revoked_token_identified :
  let w1 := (RevokeToken svc user "r" s0).2 in
  match (Identify lib svc "refresh" w1).1 with Some (k, e) => keys.Type_ k = RefreshKey /\ is_nil e = true | None => False end.
Proof. vm_compute. by split. Qed.
End memauth.
