(* ===== verification/Redis.v ===== *)
(** * Redis, the store behind the caches

    The caches of the clients, channels and domains services keep strings in
    Redis.  The client library is a parameter; [RedisLaws] is what the
    properties of the caches assume of it, and [memredis] an instance. *)

From S2P Require Import Prelude GoStd Errors.

Record Redis (W : Type) := {
  redis_Set : string -> string -> Z -> St W error;
  redis_Get : string -> St W (string * error);
  redis_Del : list string -> St W error }.
Arguments redis_Set {W}. Arguments redis_Get {W}. Arguments redis_Del {W}.

(** The error of a Get of a missing key. *)
Definition redis_Nil : err := Foreign (Some "redis.Nil") "redis: nil" None.

(** Redis as a map.  Any call may fail, and a call that changes something may
    fail before or after it did; a Get that succeeds answers what is stored. *)
Class RedisLaws {W : Type} (client : Redis W) (store : W -> gmap string string) : Prop := {
  Set_ok k v d w e w' : redis_Set client k v d w = (e, w') ->
    store w' = <[k:=v]> (store w) \/ (e <> None /\ store w' = store w);
  Get_ok k w v e w' : redis_Get client k w = ((v, e), w') -> store w' = store w
    /\ match e with
       | None => store w !! k = Some v
       | Some _ => is_sentinel e redis_Nil = true -> store w !! k = None
       end;
  Del_ok ks w e w' : redis_Del client ks w = (e, w') ->
    store w' = filter (fun kv => kv.1 ∉ ks) (store w) \/ (e <> None /\ store w' = store w) }.

(** A Get of the key gets an answer: a value, or that there is none. *)
Definition responds {W} (client : Redis W) (k : string) (w : W) : Prop :=
  (redis_Get client k w).1.2 = None \/ (redis_Get client k w).1.2 = Some redis_Nil.

Section laws.
Context {W : Type} (client : Redis W) (store : W -> gmap string string) {RL : RedisLaws client store}.

Lemma Set_done k v d w w' : redis_Set client k v d w = (None, w') -> store w' = <[k:=v]> (store w).
Proof. by intros [?|[? _]]%Set_ok. Qed.
Lemma Del_done ks w w' : redis_Del client ks w = (None, w') -> store w' = filter (fun kv => kv.1 ∉ ks) (store w).
Proof. by intros [?|[? _]]%Del_ok. Qed.
Lemma Del_one k w w' : redis_Del client [k] w = (None, w') -> store w' = delete k (store w).
Proof.
  intros H%Del_done. rewrite H. apply map_eq. intros j. rewrite map_lookup_filter, lookup_delete.
  destruct (store w !! j) eqn:Ej; simpl; case_decide; subst; try done.
  - rewrite option_guard_False; [done|]. set_solver.
  - rewrite option_guard_True; [done|]. set_solver.
Qed.
Lemma Get_responds k w v e w' : responds client k w -> redis_Get client k w = ((v, e), w') ->
  match store w !! k with Some x => v = x /\ e = None | None => e = Some redis_Nil end.
Proof.
  unfold responds. intros Hr E. rewrite E in Hr. simpl in Hr. apply Get_ok in E as [_ E].
  destruct Hr as [->| ->]; [by rewrite E|]. by rewrite E.
Qed.
End laws.

(** Redis in memory, inside a larger state. *)
Module memredis.
Section memory.
Context {W : Type} (get : W -> gmap string string) (put : gmap string string -> W -> W).
Context (get_put : forall m w, get (put m w) = m).

Definition client : Redis W :=
  {| redis_Set := fun k v _ w => (None, put (<[k := v]> (get w)) w);
     redis_Get := fun k w => match get w !! k with
       | Some v => ((v, None), w) | None => (("", Some redis_Nil), w) end;
     redis_Del := fun ks w => (None, put (filter (fun kv => kv.1 ∉ ks) (get w)) w) |}.

Lemma laws : RedisLaws client get.
Proof.
  split; simpl; intros k.
  - intros v _ w e w' [= <- <-]. by left.
  - intros w v e w'. destruct (get w !! k) eqn:E; intros H; injection H as <- <- <-; done.
  - intros w e w' [= <- <-]. by left.
Qed.
Lemma client_responds k w : responds client k w.
Proof. unfold responds. simpl. destruct (get w !! k); [by left|by right]. Qed.

(** A server that cannot be reached obeys the laws too. *)
Definition unreachable : Redis W :=
  {| redis_Set := fun _ _ _ => ret (Some (New "dial tcp")); redis_Get := fun _ => ret ("", Some (New "dial tcp"));
     redis_Del := fun _ => ret (Some (New "dial tcp")) |}.
Lemma unreachable_laws : RedisLaws unreachable get.
Proof.
  split; simpl.
  - intros k v d w e w' [= <- <-]. by right.
  - intros k w v e w' [= <- <- <-]. by split.
  - intros ks w e w' [= <- <-]. by right.
Qed.
End memory.
End memredis.
