(* ===== verification/Connections.v ===== *)
(** * pkg/connections: connection types, and the gRPC clients between services

    Source: src/pkg/connections/type.go.  The gRPC clients are
    generated code and parameters of the services: a record per client with
    the calls the services make, the request flattened into arguments and
    the response into the fields that are read. *)

From S2P Require Import Prelude GoStd Errors Policies.

Module connections.
Definition errInvalidConnType : err := Sentinel "connections.errInvalidConnType" CustomError "invalid connection type".

(** ConnType, a uint8 *)
Definition Invalid : N := 0.
Definition Publish : N := 1.
Definition Subscribe : N := 2.

Definition unknownConnType (c : N) : string := "Unknown connection type " +:+ pretty c.

Definition CheckConnType (c : N) : error :=
  if N.eqb c Publish then None
  else if N.eqb c Subscribe then None
  else Some (Errorf (unknownConnType c)).

Definition ConnType_String (c : N) : string :=
  if N.eqb c Publish then "Publish"
  else if N.eqb c Subscribe then "Subscribe"
  else unknownConnType c.

Definition Permission (c : N) : string * error :=
  if N.eqb c Publish then ("publish_permission", None)
  else if N.eqb c Subscribe then ("subscribe_permission", None)
  else ("", Some (Errorf (unknownConnType c))).

(** The conversion of a uint to ConnType keeps the low byte. *)
Definition uint8 (c : N) : N := (c mod 256)%N.

Definition NewType (c : N) : N * error :=
  if_err CheckConnType (uint8 c) return_ (Invalid, CheckConnType (uint8 c)) ;;
  (uint8 c, None).

Definition ParseConnType (c : string) : N * error :=
  if ToLower c =s "publish" then (Publish, None)
  else if ToLower c =s "subscribe" then (Subscribe, None)
  else (Invalid, WrapE errInvalidConnType (Some (Errorf c))).
End connections.

(** ** The gRPC clients: parameters *)
Module grpc.
Record EntityBasic := MkEntityBasic {
  Id : string; DomainId : string; ParentGroupId : string; Status : N }.
Definition EntityBasic0 : EntityBasic := MkEntityBasic "" "" "" 0.
Record Connection := MkConnection { ClientId : string; ChannelId : string; conn_DomainId : string; conn_Type : N }.

Record ClientsServiceClient (W : Type) := {
  clients_RetrieveEntity : string -> St W (EntityBasic * error);
  clients_AddConnections : list Connection -> St W error;
  clients_RemoveConnections : list Connection -> St W error;
  clients_RemoveChannelConnections : string -> St W error;
  clients_UnsetParentGroupFromClient : string -> St W error }.
Arguments clients_RetrieveEntity {W}. Arguments clients_AddConnections {W}.
Arguments clients_RemoveConnections {W}. Arguments clients_RemoveChannelConnections {W}.
Arguments clients_UnsetParentGroupFromClient {W}.

Record ChannelsServiceClient (W : Type) := {
  channels_RemoveClientConnections : string -> St W error;
  channels_UnsetParentGroupFromChannels : string -> St W error }.
Arguments channels_RemoveClientConnections {W}. Arguments channels_UnsetParentGroupFromChannels {W}.

Record GroupsServiceClient (W : Type) := {
  groups_RetrieveEntity : string -> St W (EntityBasic * error) }.
Arguments groups_RetrieveEntity {W}.
End grpc.

(** ** Properties *)
Import connections.

(** A connection type read from its name, in any mixture of cases, is the
    declared one, NewType accepts exactly the numbers whose low byte is a
    declared type, and only those have a permission. *)
Theorem ConnType_roundtrip c s :
  (CheckConnType c = None -> ParseConnType (ConnType_String c) = (c, None) /\ (Permission c).2 = None)
  /\ ((ParseConnType s).2 = None ->
        CheckConnType (ParseConnType s).1 = None
        /\ ToLower s = ToLower (ConnType_String (ParseConnType s).1))
  /\ ((NewType c).2 = None <-> (c mod 256 = Publish \/ c mod 256 = Subscribe)%N).
Proof.
  split_and!.
  - unfold CheckConnType. destruct (N.eqb_spec c Publish) as [->|_]; [done|].
    by destruct (N.eqb_spec c Subscribe) as [->|_].
  - unfold ParseConnType. destruct (String.eqb_spec (ToLower s) "publish") as [E|_]; [by rewrite E|].
    destruct (String.eqb_spec (ToLower s) "subscribe") as [E|_]; [by rewrite E|].
    cbn [snd]. intros H. by apply WrapE_not_nil in H.
  - unfold NewType, CheckConnType, uint8. destruct (N.eqb_spec (c mod 256) Publish) as [E|E]; [by split; [left|]|].
    destruct (N.eqb_spec (c mod 256) Subscribe) as [E'|E']; [by split; [right|]|]. naive_solver.
Qed.
