(* ===== verification/Hierarchy.v ===== *)
(** * Parents in the repository and in the policy store

    Clients, channels and groups each keep the parent group of an entity in
    a column of their repository and as a relationship of the policy store.
    Their services change the policies first, then the column, and undo the
    policies in a deferred function when the column cannot be changed.  This
    file has that deferred function and the lemmas that the two stay the
    same, used by the three services. *)

From S2P Require Import Prelude GoStd Errors Policies.

Module hierarchy.
Import policies.
Section operations.
Context {W : Type} (P : PolicyService W).

(** The deferred functions of SetParentGroup and RemoveParentGroup. *)
Definition undoAdd (pols : list Policy) (retErr : error) : St W error :=
  errRollback <- DeletePolicies P pols ;;
  if_err errRollback return_ ret (Wrap retErr (WrapE apiutil.ErrRollbackTx errRollback)) ;;
  ret retErr.

Definition undoDelete (pols : list Policy) (retErr : error) : St W error :=
  errRollback <- AddPolicies P pols ;;
  if_err errRollback return_ ret (Wrap retErr (WrapE apiutil.ErrRollbackTx errRollback)) ;;
  ret retErr.
End operations.
End hierarchy.

Section theory.
Import policies hierarchy.
Context {W : Type} (P : PolicyService W) (tuples : W -> gset Relationship).
Context {PL : PolicyLaws P tuples}.
(** The object type of the entities, and the parent column. *)
Context (type : string) (parent : W -> string -> string).

Definition link (g c : string) : Relationship := MkRel type c ParentGroupRelation GroupType g "".

(** An entity has a parent relationship to a group exactly where its column
    says so. *)
Definition in_sync (w : W) : Prop := forall c g, g <> "" -> (link g c ∈ tuples w <-> parent w c = g).

(** The error of an operation whose rollback failed too. *)
Definition undo_failed (e : error) : Prop :=
  exists e0 er, e = WrapE e0 (WrapE apiutil.ErrRollbackTx (Some er)).

(** A call of the repository that gives the entities [cs] the parent [g]. *)
Definition assigns_at (w : W) (body : St W error) (cs : list string) (g : string) : Prop :=
  forall e w', body w = (e, w') -> tuples w' = tuples w
    /\ match e with
       | None => forall x, parent w' x = if bool_decide (x ∈ cs) then g else parent w x
       | Some _ => forall x, parent w' x = parent w x
       end.
Definition assigns (body : St W error) (cs : list string) (g : string) : Prop :=
  forall w, assigns_at w body cs g.

Lemma link_inj g c g' c' : link g c = link g' c' -> g = g' /\ c = c'.
Proof. by intros [= -> ->]. Qed.

Lemma in_sync_ext w w' : tuples w' = tuples w -> (forall x, parent w' x = parent w x) -> in_sync w -> in_sync w'.
Proof. intros Ht Hp Hs c g Hg. rewrite Ht, Hp. by apply Hs. Qed.

Lemma elem_of_links prs cs g r : relationship <$> prs = link g <$> cs ->
  r ∈ rel_set prs <-> exists c, c ∈ cs /\ r = link g c.
Proof.
  intros H. unfold rel_set. rewrite H, elem_of_list_to_set, list_elem_of_fmap. naive_solver.
Qed.

Lemma in_sync_same w w' : tuples w' = tuples w -> parent w' = parent w -> in_sync w -> in_sync w'.
Proof. intros Ht Hp. apply in_sync_ext; [done|]. intros x. by rewrite Hp. Qed.

(** Without parents and without parent relationships the two agree. *)
Lemma in_sync_start {C} (rows : gmap string C) (column : C -> string) w :
  (forall x, parent w x = from_option column "" (rows !! x)) ->
  forallb (fun r => negb (rel r =s ParentGroupRelation)) (elements (tuples w)) = true ->
  forallb (fun kv => kv.2 =s "") (map_to_list (column <$> rows)) = true -> in_sync w.
Proof.
  intros Hp Hl Ht c g Hg. split.
  - intros Hin. rewrite forallb_forall in Hl.
    apply elem_of_elements, list_elem_of_In, Hl in Hin. discriminate Hin.
  - rewrite Hp. intros <-. destruct Hg. destruct (rows !! c) as [x|] eqn:Ec; [|done].
    rewrite forallb_forall in Ht. apply (String.eqb_eq (column x)), (Ht (c, column x)).
    apply list_elem_of_In, elem_of_map_to_list. by rewrite lookup_fmap, Ec.
Qed.

(** Policies first, then the column. *)
Lemma add_parent_sync prs cs g body w w1 e w' :
  relationship <$> prs = link g <$> cs -> g <> "" -> (forall c, c ∈ cs -> parent w c = "") ->
  assigns_at w1 body cs g -> (forall x, parent w1 x = parent w x) ->
  (forall l wa wb ea x, DeletePolicies P l wa = (ea, wb) -> parent wb x = parent wa x) ->
  AddPolicies P prs w = (None, w1) ->
  defer_err0 body (undoAdd P prs) w1 = (e, w') ->
  ~ undo_failed e -> in_sync w -> in_sync w'.
Proof.
  intros Hrel Hg Hno Hb Hp1 Hpd Ha Hd Hf Hs. apply AddPolicies_ok in Ha as [Ha Hdis].
  revert Hd. unfold defer_err0, undoAdd, bind, ret.
  destruct (body w1) as [[eb|] w2] eqn:Eb; specialize (Hb _ _ Eb) as [Ht Hp].
  - destruct (DeletePolicies P prs w2) as [[er|] w3] eqn:Ed; intros [= <- <-].
    { exfalso. apply Hf. by exists eb, er. }
    apply (in_sync_ext w); [| |done].
    + apply DeletePolicies_ok in Ed. rewrite Ed, Ht, Ha. set_solver.
    + intros x. rewrite (Hpd _ _ _ _ x Ed). by rewrite Hp, Hp1.
  - intros [= <- <-]. intros c g' Hg'. rewrite Ht, Ha, Hp, Hp1, elem_of_union, (elem_of_links _ _ _ _ Hrel).
    specialize (Hs c g' Hg'). case_bool_decide as Hc.
    + rewrite Hno in Hs by done. split; [|intros <-; right; by exists c].
      intros [H|(c' & Hc' & [-> ->]%link_inj)]; [naive_solver|done].
    + rewrite <- Hs. split; [|by left]. intros [H|(c' & Hc' & [-> ->]%link_inj)]; done.
Qed.

(** The policies of entities that all have the parent [g] taken away, with a
    rollback that puts them back, whatever it makes of the error. *)
Lemma remove_parent_undone prs cs g body (undo : error -> St W error) w w1 e w' :
  relationship <$> prs = link g <$> cs -> g <> "" -> (forall c, c ∈ cs -> parent w c = g) ->
  assigns_at w1 body cs "" -> (forall x, parent w1 x = parent w x) ->
  (forall l wa wb ea x, AddPolicies P l wa = (ea, wb) -> parent wb x = parent wa x) ->
  DeletePolicies P prs w = (None, w1) ->
  (forall x w2, (undo x w2).2 = (AddPolicies P prs w2).2) ->
  (forall x w2, body w1 = (Some x, w2) -> (AddPolicies P prs w2).1 = None) ->
  defer_err0 body undo w1 = (e, w') -> in_sync w -> in_sync w'.
Proof.
  intros Hrel Hg Hall Hb Hp1 Hpa Ha Hu Hf Hd Hs. apply DeletePolicies_ok in Ha.
  assert (Hsub : rel_set prs ⊆ tuples w).
  { intros r (c & Hc & ->)%(elem_of_links _ _ _ _ Hrel). apply Hs; [done|]. by apply Hall. }
  revert Hd. unfold defer_err0, bind, ret.
  destruct (body w1) as [[eb|] w2] eqn:Eb; specialize (Hb _ _ Eb) as [Ht Hp].
  - intros Hd. specialize (Hu (Some eb) w2). specialize (Hf _ _ eq_refl). rewrite Hd in Hu. simpl in Hu.
    destruct (AddPolicies P prs w2) as [er w3] eqn:Ed. simpl in Hu, Hf. subst er w'.
    apply (in_sync_ext w); [| |done].
    + apply AddPolicies_ok in Ed as [Ed _]. rewrite Ed, Ht, Ha.
      apply set_eq. intros r. rewrite elem_of_union, elem_of_difference.
      destruct (decide (r ∈ rel_set prs)); set_solver.
    + intros x. rewrite (Hpa _ _ _ _ x Ed). by rewrite Hp, Hp1.
  - intros [= <- <-]. intros c g' Hg'. rewrite Ht, Ha, Hp, Hp1, elem_of_difference, (elem_of_links _ _ _ _ Hrel).
    specialize (Hs c g' Hg'). case_bool_decide as Hc.
    + split; [|by intros <-]. intros [H Hn]. apply Hs in H. rewrite Hall in H by done. subst g'.
      exfalso. apply Hn. by exists c.
    + rewrite <- Hs. split; [by intros [? _]|]. intros H. split; [done|].
      intros (c' & Hc' & [-> ->]%link_inj). done.
Qed.
Lemma remove_parent_sync prs cs g body w w1 e w' :
  relationship <$> prs = link g <$> cs -> g <> "" -> (forall c, c ∈ cs -> parent w c = g) ->
  assigns_at w1 body cs "" -> (forall x, parent w1 x = parent w x) ->
  (forall l wa wb ea x, AddPolicies P l wa = (ea, wb) -> parent wb x = parent wa x) ->
  DeletePolicies P prs w = (None, w1) ->
  defer_err0 body (undoDelete P prs) w1 = (e, w') ->
  ~ undo_failed e -> in_sync w -> in_sync w'.
Proof.
  intros Hrel Hg Hall Hb Hp1 Hpa Ha Hd Hf. eapply (remove_parent_undone prs cs g body (undoDelete P prs)); try done.
  - intros x w2. unfold undoDelete, bind, ret. by destruct (AddPolicies P prs w2) as [[?|] ?].
  - intros x w2 Eb. destruct (AddPolicies P prs w2) as [[er|] w3] eqn:Ed; [|done]. exfalso. apply Hf.
    revert Hd. unfold defer_err0, undoDelete, bind, ret. rewrite Eb, Ed. intros [= <- _]. by exists x, er.
Qed.

(** The repository call that follows the clock. *)
Lemma after_now (now : St W Time) (body : Time -> St W error) cs g (f : error -> error) :
  frames now tuples -> frames now parent ->
  (forall t, assigns (body t) cs g) -> (forall e, f (Some e) <> None) ->
  assigns (t <- now ;; e <- body t ;; match e with Some _ => ret (f e) | None => ret None end) cs g.
Proof.
  intros Ht Hp Hk Hf w e w'. unfold bind, ret. destruct (now w) as [t w1] eqn:Et.
  pose proof (frames_eq _ tuples _ _ _ Ht Et) as Ht1. pose proof (frames_eq _ parent _ _ _ Hp Et) as Hp1.
  destruct (body t w1) as [[e1|] w2] eqn:Ek; intros [= <- <-];
    specialize (Hk t _ _ _ Ek) as [Hkt Hkp]; (split; [congruence|]).
  - destruct (f (Some e1)) eqn:Ef; [|by destruct (Hf e1)]. intros x. by rewrite Hkp, Hp1.
  - intros x. by rewrite Hkp, Hp1.
Qed.
End theory.

(** An early return: the state is as it was. *)
Ltac nothing H := intros [= <- <-] _; exact H.
