(* ===== verification/Clients.v ===== *)
(** * clients: the clients service, its private service and its cache

    Source: src/clients/clients.go, service.go, status.go, roles.go,
    errors.go, private/service.go, cache/clients.go.  The repository (which
    is also the role repository of the provision manager), the gRPC clients
    and Redis are parameters. *)

From S2P Require Import Prelude GoStd Errors Policies Authn Roles Redis Connections Hierarchy.

Module clients.
Import policies hierarchy grpc.

(** ** src/clients/status.go, roles.go *)
Definition EnabledStatus : N := 0.
Definition DisabledStatus : N := 1.
Definition DeletedStatus : N := 2.
Definition AllStatus : N := 3.
Definition Disabled := "disabled".
Definition Enabled := "enabled".
Definition Deleted := "deleted".
Definition All := "all".
Definition Unknown := "unknown".

Definition Status_String (s : N) : string :=
  if N.eqb s DisabledStatus then Disabled
  else if N.eqb s EnabledStatus then Enabled
  else if N.eqb s DeletedStatus then Deleted
  else if N.eqb s AllStatus then All
  else Unknown.

Definition ToStatus (status : string) : N * error :=
  if (status =s "") || (status =s Enabled) then (EnabledStatus, None)
  else if status =s Disabled then (DisabledStatus, None)
  else if status =s Deleted then (DeletedStatus, None)
  else if status =s All then (AllStatus, None)
  else (0%N, Some svcerr.ErrInvalidStatus).

(** ** src/clients/clients.go *)
Record Credentials := MkCredentials { cr_Identity : string; Secret : string }.
#[global] Instance Credentials_fields : Fields Credentials := fun c => MkCredentials (cr_Identity c) (Secret c).
Definition Credentials0 : Credentials := MkCredentials "" "".

(** The fields the repository adds to a client it lists. *)
Record Extended := MkExtended {
  ParentGroupPath : string; RoleID : string; RoleName : string; Actions : list string;
  AccessType : string; AccessProviderId : string; AccessProviderRoleId : string;
  AccessProviderRoleName : string; AccessProviderRoleActions : list string;
  ConnectionTypes : list N; MemberId : string; ext_Roles : list roles.MemberRoleActions }.
Definition Extended0 : Extended := MkExtended "" "" "" [] "" "" "" "" [] [] "" [].

Record Client := MkClient {
  ID : string; Name : string; Tags : list string; Domain : string; ParentGroup : string;
  Credentials_ : Credentials; Metadata_ : Metadata; PrivateMetadata : Metadata;
  CreatedAt : Time; UpdatedAt : Time; UpdatedBy : string; Status : N; Identity : string;
  Extended_ : Extended }.
#[global] Instance Client_fields : Fields Client := fun c =>
  MkClient (ID c) (Name c) (Tags c) (Domain c) (ParentGroup c) (Credentials_ c) (Metadata_ c)
    (PrivateMetadata c) (CreatedAt c) (UpdatedAt c) (UpdatedBy c) (Status c) (Identity c) (Extended_ c).
Definition Client0 : Client :=
  MkClient "" "" [] "" "" Credentials0 None None zeroTime zeroTime "" 0 "" Extended0.

Record Connection := MkConnection { ClientID : string; ChannelID : string; DomainID : string; Type_ : N }.

(** Operator and TagsQuery *)
Definition OrOp : N := 0.
Definition AndOp : N := 1.
Record TagsQuery := MkTagsQuery { Elements : list string; Operator : N }.
Definition TagsQuery0 : TagsQuery := MkTagsQuery [] 0.

Definition ToTagsQuery (s : string) : TagsQuery :=
  if GoStd.Contains s "+" then MkTagsQuery (map TrimSpace (Split s "+")) AndOp
  else if GoStd.Contains s "," then MkTagsQuery (map TrimSpace (Split s ",")) OrOp
  else MkTagsQuery [s] OrOp.

Record Page := MkPage {
  pg_Total : N; pg_Offset : N; pg_Limit : N; pg_OnlyTotal : bool; pg_Order : string; pg_Dir : string;
  pg_ID : string; pg_Name : string; pg_Metadata : Metadata; pg_Domain : string; pg_Tags : TagsQuery;
  pg_Status : N; pg_Identity : string; pg_Group : option string; pg_Channel : string;
  pg_ConnectionType : string; pg_RoleName : string; pg_RoleID : string; pg_Actions : list string;
  pg_AccessType : string; pg_IDs : list string; pg_CreatedFrom : Time; pg_CreatedTo : Time }.
#[global] Instance Page_fields : Fields Page := fun p =>
  MkPage (pg_Total p) (pg_Offset p) (pg_Limit p) (pg_OnlyTotal p) (pg_Order p) (pg_Dir p) (pg_ID p)
    (pg_Name p) (pg_Metadata p) (pg_Domain p) (pg_Tags p) (pg_Status p) (pg_Identity p) (pg_Group p)
    (pg_Channel p) (pg_ConnectionType p) (pg_RoleName p) (pg_RoleID p) (pg_Actions p) (pg_AccessType p)
    (pg_IDs p) (pg_CreatedFrom p) (pg_CreatedTo p).
Definition Page0 : Page :=
  MkPage 0 0 0 false "" "" "" "" None "" TagsQuery0 0 "" None "" "" "" "" [] "" [] zeroTime zeroTime.

Record ClientsPage := MkClientsPage { cp_Page : Page; cp_Clients : list Client }.
Definition ClientsPage0 : ClientsPage := MkClientsPage Page0 [].

Record Repository (W : Type) := {
  RetrieveByID : string -> St W (Client * error);
  RetrieveByIDWithRoles : string -> string -> St W (Client * error);
  RetrieveAll : Page -> St W (ClientsPage * error);
  RetrieveUserClients : string -> string -> Page -> St W (ClientsPage * error);
  repo_RetrieveByIds : list string -> St W (ClientsPage * error);
  repo_Update : Client -> St W (Client * error);
  repo_UpdateTags : Client -> St W (Client * error);
  repo_UpdateSecret : Client -> St W (Client * error);
  ChangeStatus : Client -> St W (Client * error);
  repo_Delete : list string -> St W error;
  Save : list Client -> St W (list Client * error);
  RetrieveBySecret : string -> string -> nat -> St W (Client * error);
  repo_AddConnections : list Connection -> St W error;
  repo_RemoveConnections : list Connection -> St W error;
  DoesClientHaveConnections : string -> St W (bool * error);
  repo_RemoveChannelConnections : string -> St W error;
  repo_SetParentGroup : Client -> St W error;
  repo_RemoveParentGroup : Client -> St W error;
  RetrieveParentGroupClients : string -> St W (list Client * error);
  repo_UnsetParentGroupFromClient : string -> St W error;
  role_repo : roles.Repository W }.
Arguments RetrieveByID {W}. Arguments RetrieveByIDWithRoles {W}. Arguments RetrieveAll {W}.
Arguments RetrieveUserClients {W}. Arguments repo_RetrieveByIds {W}. Arguments repo_Update {W}.
Arguments repo_UpdateTags {W}. Arguments repo_UpdateSecret {W}. Arguments ChangeStatus {W}.
Arguments repo_Delete {W}. Arguments Save {W}. Arguments RetrieveBySecret {W}.
Arguments repo_AddConnections {W}. Arguments repo_RemoveConnections {W}.
Arguments DoesClientHaveConnections {W}. Arguments repo_RemoveChannelConnections {W}.
Arguments repo_SetParentGroup {W}. Arguments repo_RemoveParentGroup {W}.
Arguments RetrieveParentGroupClients {W}. Arguments repo_UnsetParentGroupFromClient {W}.
Arguments role_repo {W}.

Record Cache (W : Type) := {
  cache_Save : string -> string -> St W error;
  cache_ID : string -> St W (string * error);
  cache_Remove : string -> St W error }.
Arguments cache_Save {W}. Arguments cache_ID {W}. Arguments cache_Remove {W}.

(** ** src/clients/service.go, errors.go *)
Definition errRollbackRepo : err := Sentinel "clients.errRollbackRepo" CustomError "failed to rollback repo".
Definition errSetParentGroup : err := Sentinel "clients.errSetParentGroup" RequestError "client already have parent".
Definition errSetSameParentGroup : err := Sentinel "clients.errSetSameParentGroup" RequestError "client already assigned to the parent group".
Definition errParentGroupDomainID : err := Sentinel "clients.errParentGroupDomainID" RequestError "parent group has invalid domain id".
Definition errParentGroupDisabled : err := Sentinel "clients.errParentGroupDisabled" RequestError "parent group is not enabled".
Definition ErrEnableClient : err := Foreign (Some "clients.ErrEnableClient") "failed to enable client" None.
Definition ErrDisableClient : err := Foreign (Some "clients.ErrDisableClient") "failed to disable client" None.
Definition BuiltInRoleAdmin := "admin".

Record service (W : Type) := {
  repo : Repository W;
  policy : PolicyService W;
  channels : ChannelsServiceClient W;
  groups : GroupsServiceClient W;
  cache : Cache W;
  idProvider : St W (string * error);
  sidProvider : St W (string * error);
  availableActions : list string;
  builtInRoles : list (string * list string) }.
Arguments repo {W}. Arguments policy {W}. Arguments channels {W}. Arguments groups {W}.
Arguments cache {W}. Arguments idProvider {W}. Arguments sidProvider {W}.
Arguments availableActions {W}. Arguments builtInRoles {W}.

Section service.
Context {W : Type} (now : St W Time) (svc : service W).

(** The embedded provision manager, as NewService makes it. *)
Definition ProvisionManageService : roles.ProvisionManageService W :=
  {| roles.entityType := ClientType; roles.repo := role_repo (repo svc);
     roles.sidProvider := sidProvider svc; roles.policy := policy svc;
     roles.actions := availableActions svc; roles.builtInRoles := builtInRoles svc |}.

(** The body of the first loop of CreateClients. *)
Definition prepareClient (session : authn.Session) (c : Client) : St W (Client * error) :=
  '(c, e) <- (if ID c =s "" then
                '(clientID, e) <- idProvider svc ;;
                if_err e return_ ret (c, WrapE svcerr.ErrIssueProviderID e) ;;
                ret (c <| ID := clientID |>, None)
              else ret (c, None)) ;;
  if_err e return_ ret (c, e) ;;
  '(c, e) <- (if Secret (Credentials_ c) =s "" then
                '(key, e) <- idProvider svc ;;
                if_err e return_ ret (c, WrapE svcerr.ErrIssueProviderID e) ;;
                ret (c <| Credentials_ := (Credentials_ c) <| Secret := key |> |>, None)
              else ret (c, None)) ;;
  if_err e return_ ret (c, e) ;;
  if_ negb (N.eqb (Status c) DisabledStatus) && negb (N.eqb (Status c) EnabledStatus)
    return_ ret (c, Some svcerr.ErrInvalidStatus) ;;
  let c := c <| Domain := authn.DomainID session |> in
  t <- now ;;
  ret (c <| CreatedAt := t |>, None).

Definition domainPolicy (domainID clientID : string) : Policy :=
  Policy0 <| policies.Domain := domainID |> <| SubjectType := DomainType |> <| Subject := domainID |>
    <| Relation := DomainRelation |> <| ObjectType := ClientType |> <| Object := clientID |>.

Definition rollbackSave (newClientIDs : list string) (retErr : error) : St W error :=
  errRollBack <- repo_Delete (repo svc) newClientIDs ;;
  if_err errRollBack return_ ret (Wrap retErr (WrapE errRollbackRepo errRollBack)) ;;
  ret retErr.

Definition CreateClients (session : authn.Session) (cls : list Client)
    : St W ((list Client * list roles.RoleProvision) * error) :=
  '(clients, e) <- map_err cls (prepareClient session) ;;
  if_err e return_ ret (([], []), e) ;;
  '(newClients, e) <- Save (repo svc) clients ;;
  if_err e return_ ret (([], []), WrapE svcerr.ErrCreateEntity e) ;;
  let newClientIDs := map ID newClients in
  defer_err (
    let newBuiltInRoleMembers := [(BuiltInRoleAdmin, [authn.UserID session])] in
    let optionalPolicies := map (domainPolicy (authn.DomainID session)) newClientIDs in
    '(rp, e) <- roles.AddNewEntitiesRoles now ProvisionManageService (authn.DomainID session)
                  (authn.UserID session) newClientIDs optionalPolicies newBuiltInRoleMembers ;;
    if_err e return_ ret (([], []), WrapE svcerr.ErrAddPolicies e) ;;
    ret ((newClients, rp), None))
  (rollbackSave newClientIDs).

Definition View (session : authn.Session) (id : string) (withRoles : bool) : St W (Client * error) :=
  '(client, e) <- (if withRoles then RetrieveByIDWithRoles (repo svc) id (authn.UserID session)
                   else RetrieveByID (repo svc) id) ;;
  if_err e return_ ret (Client0, WrapE svcerr.ErrViewEntity e) ;;
  ret (client, None).

Definition ListClients (session : authn.Session) (pm : Page) : St W (ClientsPage * error) :=
  if authn.SuperAdmin session then
    let pm := pm <| pg_Domain := authn.DomainID session |> in
    '(cp, e) <- RetrieveAll (repo svc) pm ;;
    if_err e return_ ret (ClientsPage0, WrapE svcerr.ErrViewEntity e) ;;
    ret (cp, None)
  else
    '(cp, e) <- RetrieveUserClients (repo svc) (authn.DomainID session) (authn.UserID session) pm ;;
    if_err e return_ ret (ClientsPage0, WrapE svcerr.ErrViewEntity e) ;;
    ret (cp, None).

Definition ListUserClients (session : authn.Session) (userID : string) (pm : Page) : St W (ClientsPage * error) :=
  '(cp, e) <- RetrieveUserClients (repo svc) (authn.DomainID session) userID pm ;;
  if_err e return_ ret (ClientsPage0, WrapE svcerr.ErrViewEntity e) ;;
  ret (cp, None).

Definition Update (session : authn.Session) (cli : Client) : St W (Client * error) :=
  t <- now ;;
  let client := Client0 <| ID := ID cli |> <| Name := Name cli |> <| Metadata_ := Metadata_ cli |>
    <| PrivateMetadata := PrivateMetadata cli |> <| UpdatedAt := t |> <| UpdatedBy := authn.UserID session |> in
  '(client, e) <- repo_Update (repo svc) client ;;
  if_err e return_ ret (Client0, WrapE svcerr.ErrUpdateEntity e) ;;
  ret (client, None).

Definition UpdateTags (session : authn.Session) (cli : Client) : St W (Client * error) :=
  t <- now ;;
  let client := Client0 <| ID := ID cli |> <| Tags := Tags cli |> <| UpdatedAt := t |>
    <| UpdatedBy := authn.UserID session |> in
  '(client, e) <- repo_UpdateTags (repo svc) client ;;
  if_err e return_ ret (Client0, WrapE svcerr.ErrUpdateEntity e) ;;
  ret (client, None).

Definition UpdateSecret (session : authn.Session) (id key : string) : St W (Client * error) :=
  t <- now ;;
  let client := Client0 <| ID := id |> <| Credentials_ := Credentials0 <| Secret := key |> |>
    <| UpdatedAt := t |> <| UpdatedBy := authn.UserID session |> <| Status := EnabledStatus |> in
  '(client, e) <- repo_UpdateSecret (repo svc) client ;;
  if_err e return_ ret (Client0, WrapE svcerr.ErrUpdateEntity e) ;;
  ret (client, None).

Definition changeClientStatus (session : authn.Session) (client : Client) : St W (Client * error) :=
  '(dbClient, e) <- RetrieveByID (repo svc) (ID client) ;;
  if_err e return_ ret (Client0, WrapE svcerr.ErrViewEntity e) ;;
  if_ N.eqb (Status dbClient) (Status client) return_ ret (Client0, Some svcerr.ErrStatusAlreadyAssigned) ;;
  let client := client <| UpdatedBy := authn.UserID session |> in
  '(client, e) <- ChangeStatus (repo svc) client ;;
  if_err e return_ ret (Client0, WrapE svcerr.ErrUpdateEntity e) ;;
  ret (client, None).

Definition Enable (session : authn.Session) (id : string) : St W (Client * error) :=
  t <- now ;;
  let client := Client0 <| ID := id |> <| Status := EnabledStatus |> <| UpdatedAt := t |> in
  '(client, e) <- changeClientStatus session client ;;
  if_err e return_ ret (Client0, WrapE ErrEnableClient e) ;;
  ret (client, None).

Definition Disable (session : authn.Session) (id : string) : St W (Client * error) :=
  t <- now ;;
  let client := Client0 <| ID := id |> <| Status := DisabledStatus |> <| UpdatedAt := t |> in
  '(client, e) <- changeClientStatus session client ;;
  if_err e return_ ret (Client0, WrapE ErrDisableClient e) ;;
  e <- cache_Remove (cache svc) (ID client) ;;
  if_err e return_ ret (client, WrapE svcerr.ErrRemoveEntity e) ;;
  ret (client, None).

Definition parentPolicy (domainID group id : string) : Policy :=
  Policy0 <| policies.Domain := domainID |> <| SubjectType := GroupType |> <| Subject := group |>
    <| Relation := ParentGroupRelation |> <| ObjectType := ClientType |> <| Object := id |>.

Definition SetParentGroup (session : authn.Session) (parentGroupID id : string) : St W error :=
  '(cli, e) <- RetrieveByID (repo svc) id ;;
  if_err e return_ ret (WrapE svcerr.ErrUpdateEntity e) ;;
  if_ ParentGroup cli =s parentGroupID
    return_ ret (WrapE svcerr.ErrConflict (Some errSetSameParentGroup)) ;;
  if_ ParentGroup cli <>s ""
    return_ ret (WrapE svcerr.ErrConflict (Some errSetParentGroup)) ;;
  '(entity, e) <- groups_RetrieveEntity (groups svc) parentGroupID ;;
  if_err e return_ ret (WrapE svcerr.ErrUpdateEntity e) ;;
  if_ DomainId entity <>s authn.DomainID session
    return_ ret (WrapE svcerr.ErrUpdateEntity (Some errParentGroupDomainID)) ;;
  if_ negb (N.eqb (grpc.Status entity) EnabledStatus)
    return_ ret (WrapE svcerr.ErrUpdateEntity (Some errParentGroupDisabled)) ;;
  let pols := [parentPolicy (authn.DomainID session) parentGroupID id] in
  e <- AddPolicies (policy svc) pols ;;
  if_err e return_ ret (WrapE svcerr.ErrAddPolicies e) ;;
  defer_err0 (
    t <- now ;;
    let cli := Client0 <| ID := id |> <| ParentGroup := parentGroupID |>
      <| UpdatedBy := authn.UserID session |> <| UpdatedAt := t |> in
    e <- repo_SetParentGroup (repo svc) cli ;;
    if_err e return_ ret (WrapE svcerr.ErrUpdateEntity e) ;;
    ret None)
  (undoAdd (policy svc) pols).

Definition RemoveParentGroup (session : authn.Session) (id : string) : St W error :=
  '(cli, e) <- RetrieveByID (repo svc) id ;;
  if_err e return_ ret (WrapE svcerr.ErrViewEntity e) ;;
  if ParentGroup cli <>s "" then
    let pols := [parentPolicy (authn.DomainID session) (ParentGroup cli) id] in
    e <- DeletePolicies (policy svc) pols ;;
    if_err e return_ ret (WrapE svcerr.ErrDeletePolicies e) ;;
    defer_err0 (
      t <- now ;;
      let cli := Client0 <| ID := id |> <| UpdatedBy := authn.UserID session |> <| UpdatedAt := t |> in
      e <- repo_RemoveParentGroup (repo svc) cli ;;
      if_err e return_ ret (WrapE svcerr.ErrUpdateEntity e) ;;
      ret None)
    (undoDelete (policy svc) pols)
  else ret None.

Definition deleteFilters (id : string) : list Policy :=
  [Policy0 <| SubjectType := ClientType |> <| Subject := id |>;
   Policy0 <| ObjectType := ClientType |> <| Object := id |>].

Definition Delete (session : authn.Session) (id : string) : St W error :=
  '(ok, e) <- DoesClientHaveConnections (repo svc) id ;;
  if_err e return_ ret (WrapE svcerr.ErrRemoveEntity e) ;;
  e <- (if ok then channels_RemoveClientConnections (channels svc) id else ret None) ;;
  if_err e return_ ret (WrapE svcerr.ErrRemoveEntity e) ;;
  '(_, e) <- ChangeStatus (repo svc) (Client0 <| ID := id |> <| Status := DeletedStatus |>) ;;
  if_err e return_ ret (WrapE svcerr.ErrRemoveEntity e) ;;
  e <- cache_Remove (cache svc) id ;;
  if_err e return_ ret (WrapE svcerr.ErrRemoveEntity e) ;;
  let deletePolicies := [Policy0 <| SubjectType := DomainType |> <| Subject := authn.DomainID session |>
    <| Relation := DomainRelation |> <| ObjectType := ClientType |> <| Object := id |>] in
  e <- roles.RemoveEntitiesRoles ProvisionManageService (authn.DomainID session)
         (authn.DomainUserID session) [id] (deleteFilters id) deletePolicies ;;
  if_err e return_ ret (WrapE svcerr.ErrDeletePolicies e) ;;
  e <- repo_Delete (repo svc) [id] ;;
  if_err e return_ ret (WrapE svcerr.ErrRemoveEntity e) ;;
  ret None.
End service.
End clients.

(** ** src/clients/private/service.go *)
Module clients_private.
Import policies clients.
Record service (W : Type) := {
  repo : Repository W;
  cache : Cache W;
  evaluator : Evaluator W;
  policy : PolicyService W }.
Arguments repo {W}. Arguments cache {W}. Arguments evaluator {W}. Arguments policy {W}.

Section service.
Context {W : Type} (svc : service W).

Definition Authenticate (token : string) : St W (string * error) :=
  '(id, e) <- cache_ID (cache svc) token ;;
  match e with
  | None => ret (id, None)
  | Some _ =>
      let '(prefix, id, key, e) := authn.AuthUnpack token in
      if_ negb (is_nil e) && negb (is_sentinel e authn.ErrNotEncoded) return_ ret ("", e) ;;
      '(client, e) <- RetrieveBySecret (clients_private.repo svc) key id prefix ;;
      if_err e return_ ret ("", WrapE svcerr.ErrAuthorization e) ;;
      e <- cache_Save (cache svc) token (ID client) ;;
      if_err e return_ ret ("", WrapE svcerr.ErrAuthorization e) ;;
      ret (ID client, None)
  end.

Definition RetrieveById (id : string) : St W (Client * error) := RetrieveByID (clients_private.repo svc) id.
Definition RetrieveByIds (ids : list string) : St W (ClientsPage * error) :=
  repo_RetrieveByIds (clients_private.repo svc) ids.
Definition AddConnections (conns : list Connection) : St W error :=
  repo_AddConnections (clients_private.repo svc) conns.
Definition RemoveConnections (conns : list Connection) : St W error :=
  repo_RemoveConnections (clients_private.repo svc) conns.
Definition RemoveChannelConnections (channelID : string) : St W error :=
  repo_RemoveChannelConnections (clients_private.repo svc) channelID.

(** The deferred function tests [err], which is nil at that point, and not
    the error of the rollback: that error is lost. *)
Definition undoUnset (prs : list Policy) (retErr : error) : St W error :=
  _ <- AddPolicies (clients_private.policy svc) prs ;;
  ret retErr.

Definition unsetPolicy (c : Client) : Policy :=
  Policy0 <| SubjectType := GroupType |> <| Subject := ParentGroup c |>
    <| Relation := ParentGroupRelation |> <| ObjectType := ClientType |> <| Object := ID c |>.

Definition UnsetParentGroupFromClient (parentGroupID : string) : St W error :=
  '(cls, e) <- RetrieveParentGroupClients (clients_private.repo svc) parentGroupID ;;
  if_err e return_ ret (WrapE svcerr.ErrViewEntity e) ;;
  if Nat.ltb 0 (length cls) then
    let prs := map unsetPolicy cls in
    e <- DeletePolicies (clients_private.policy svc) prs ;;
    if_err e return_ ret (WrapE svcerr.ErrDeletePolicies e) ;;
    defer_err0 (
      e <- repo_UnsetParentGroupFromClient (clients_private.repo svc) parentGroupID ;;
      if_err e return_ ret (WrapE svcerr.ErrRemoveEntity e) ;;
      ret None)
    (undoUnset prs)
  else ret None.
End service.
End clients_private.

(** ** src/clients/cache/clients.go *)
Module clients_cache.
Definition keyPrefix := "client_key".
Definition idPrefix := "client_id".

Section cache.
Context {W : Type} (client : Redis W) (keyDuration : Z).

Definition ckey (clientKey : string) : string := keyPrefix +:+ ":" +:+ clientKey.
Definition tid (clientID : string) : string := idPrefix +:+ ":" +:+ clientID.

Definition Save (clientKey clientID : string) : St W error :=
  if_ (clientKey =s "") || (clientID =s "")
    return_ ret (WrapE repoerr.ErrCreateEntity (Some (New "client key or client id is empty"))) ;;
  e <- redis_Set client (ckey clientKey) clientID keyDuration ;;
  if_err e return_ ret (WrapE repoerr.ErrCreateEntity e) ;;
  e <- redis_Set client (tid clientID) clientKey keyDuration ;;
  if_err e return_ ret (WrapE repoerr.ErrCreateEntity e) ;;
  ret None.

Definition ID (clientKey : string) : St W (string * error) :=
  if_ clientKey =s "" return_ ret ("", Some repoerr.ErrNotFound) ;;
  '(clientID, e) <- redis_Get client (ckey clientKey) ;;
  if_err e return_ ret ("", WrapE repoerr.ErrNotFound e) ;;
  ret (clientID, None).

Definition Remove (clientID : string) : St W error :=
  '(key, e) <- redis_Get client (tid clientID) ;;
  if_ is_sentinel e redis_Nil return_ ret None ;;
  if_err e return_ ret (WrapE repoerr.ErrRemoveEntity e) ;;
  e <- redis_Del client [ckey key; tid clientID] ;;
  if_err e return_ ret (WrapE repoerr.ErrRemoveEntity e) ;;
  ret None.

Definition NewCache : clients.Cache W :=
  {| clients.cache_Save := Save; clients.cache_ID := ID; clients.cache_Remove := Remove |}.
End cache.
End clients_cache.

(** ** Creating clients *)
Section create.
Import policies clients.
Context {W : Type} (now : St W Time) (svc : service W).
Context (tuples grants : W -> gset Relationship) (stored : W -> gmap string Client).
Context {RE : RolesEnv now (ProvisionManageService svc) tuples grants}.
Context {RL : RowLaws tuples ID (Save (repo svc)) (repo_Delete (repo svc)) stored}.
Context (now_stored : frames now stored) (id_stored : frames (idProvider svc) stored).
Context (id_tuples : frames (idProvider svc) tuples).
Context (roles_stored : forall d u ids os ms,
  frames (roles.AddNewEntitiesRoles now (ProvisionManageService svc) d u ids os ms) stored).

Lemma prepareClient_frames {V} (view : W -> V) session c :
  frames now view -> frames (idProvider svc) view -> frames (prepareClient now svc session c) view.
Proof.
  intros Hn Hi. unfold prepareClient. apply frames_bind.
  { destruct (ID c =s ""); [|apply frames_ret]. apply frames_bind; [done|]. by intros [? [?|]]. }
  intros [c1 [?|]]; [apply frames_ret|]. apply frames_bind.
  { destruct (Secret _ =s ""); [|apply frames_ret]. apply frames_bind; [done|]. by intros [? [?|]]. }
  intros [c2 [?|]]; [apply frames_ret|]. destruct (_ && _); [apply frames_ret|]. cbv zeta.
  apply frames_bind; [done|]. intros t. apply frames_ret.
Qed.

(** CreateClients either stores all the clients together with the policies
    of their roles, one role per client, or returns an error and leaves
    clients and policies as they were, unless a rollback failed, which the
    error then says. *)
Theorem CreateClients_atomic session cls w cs rps e w'
    (Hrun : CreateClients now svc session cls w = ((cs, rps, e), w')) :
  created (ProvisionManageService svc) tuples ID stored svcerr.ErrAddPolicies errRollbackRepo
    (authn.DomainID session) (map (domainPolicy (authn.DomainID session))) w w' cs e.
Proof.
  revert Hrun. unfold CreateClients, bind at 1.
  destruct (map_err cls _ w) as [[prepared er] w1] eqn:E1.
  assert (Hf : stored w1 = stored w /\ tuples w1 = tuples w).
  { split; (eapply frames_eq, E1; apply map_err_frames; intros c; apply prepareClient_frames); try done.
    apply now_tuples. }
  destruct Hf as [Hs1 Ht1]. destruct er as [er|]; unfold ret at 1.
  { intros [= <- <- <- <-]. by apply created_same. }
  unfold bind at 1. destruct (Save (repo svc) prepared w1) as [[saved er] w2] eqn:E2.
  destruct er as [er|].
  { pose proof (frames_eq _ tuples _ _ _ (tuples_save prepared) E2) as Ht2. apply stored_save_err in E2.
    destruct (WrapE svcerr.ErrCreateEntity (Some er)) as [x|] eqn:Hx; [|by apply WrapE_not_nil in Hx].
    intros [= <- <- <- <-]. apply created_same; congruence. }
  eapply (create_rows now _ tuples grants ID); [exact RL| |intros ? ?; apply roles_stored|exact Hs1|exact Ht1|exact E2].
  intros ids. apply Forall_forall. by intros pr (i & _ & <-)%elem_of_map_list.
Qed.
End create.

(** ** The parent group of a client *)
Class ClientParentLaws {W : Type} (R : clients.Repository W) (tuples : W -> gset Relationship)
    (parent : W -> string -> string) : Prop := {
  parent_RetrieveByID id : frames (clients.RetrieveByID R id) parent;
  ptuples_RetrieveByID id : frames (clients.RetrieveByID R id) tuples;
  RetrieveByID_parent id w c w' : clients.RetrieveByID R id w = ((c, None), w') -> clients.ParentGroup c = parent w id;
  SetParentGroup_assigns c :
    assigns tuples parent (clients.repo_SetParentGroup R c) [clients.ID c] (clients.ParentGroup c);
  RemoveParentGroup_assigns c : assigns tuples parent (clients.repo_RemoveParentGroup R c) [clients.ID c] "";
  parent_children g : frames (clients.RetrieveParentGroupClients R g) parent;
  tuples_children g : frames (clients.RetrieveParentGroupClients R g) tuples;
  RetrieveParentGroupClients_ok g w cs w' : g <> "" -> clients.RetrieveParentGroupClients R g w = ((cs, None), w') ->
    (forall c, c ∈ cs -> clients.ParentGroup c = g)
    /\ forall x, x ∈ map clients.ID cs <-> parent w x = g;
  UnsetParentGroup_effect g w e w' : clients.repo_UnsetParentGroupFromClient R g w = (e, w') ->
    tuples w' = tuples w
    /\ forall x, parent w' x =
         match e with None => if parent w x =s g then "" else parent w x | Some _ => parent w x end }.
#[export] Hint Resolve parent_RetrieveByID ptuples_RetrieveByID parent_children tuples_children : frame.

Section parents.
Import policies hierarchy grpc clients.
Context {W : Type} (now : St W Time) (svc : service W) (priv : clients_private.service W).
Context (tuples : W -> gset Relationship) (parent : W -> string -> string).
Context {PL : PolicyLaws (policy svc) tuples} {CL : ClientParentLaws (repo svc) tuples parent}.
(** The private service works on the same repository and policies. *)
Context (same_repo : clients_private.repo priv = repo svc) (same_policy : clients_private.policy priv = policy svc).
Context (now_parent : frames now parent) (now_t : frames now tuples).
Context (entity_parent : forall g, frames (groups_RetrieveEntity (groups svc) g) parent).
Context (entity_tuples : forall g, frames (groups_RetrieveEntity (groups svc) g) tuples).
Context (add_parent : forall l, frames (AddPolicies (policy svc) l) parent).
Context (delete_parent : forall l, frames (DeletePolicies (policy svc) l) parent).
Hint Resolve now_parent now_t entity_parent entity_tuples add_parent delete_parent : frame.

Definition synced := in_sync tuples ClientType parent.

Lemma SetParentGroup_sync session g id w e w' : g <> "" ->
  SetParentGroup now svc session g id w = (e, w') -> ~ undo_failed e -> synced w -> synced w'.
Proof.
  intros Hg. unfold SetParentGroup, bind at 1.
  destruct (RetrieveByID (repo svc) id w) as [[c er] w1] eqn:E1.
  frame_all tuples; frame_all parent. assert (Hbase : synced w -> synced w1) by (by apply in_sync_same).
  destruct er as [er|]; unfold ret at 1; [nothing Hbase|].
  apply RetrieveByID_parent in E1. destruct (_ =s g); [nothing Hbase|].
  destruct (_ <>s "") eqn:Ep; [nothing Hbase|]. go_bool.
  unfold bind at 1. destruct (groups_RetrieveEntity (groups svc) g w1) as [[en er] w2] eqn:E2.
  frame_all tuples; frame_all parent.
  assert (Hbase2 : synced w -> synced w2) by (apply in_sync_same; congruence).
  destruct er as [er|]; unfold ret at 1; [nothing Hbase2|].
  destruct (_ <>s _); [nothing Hbase2|]. destruct (negb _); [nothing Hbase2|].
  unfold bind at 1. destruct (AddPolicies (policy svc) _ w2) as [[ea|] w3] eqn:E3; frame_all parent.
  { apply AddPolicies_err in E3. intros [= <- <-] _. apply in_sync_same; congruence. }
  intros Hd Hf Hs. eapply (add_parent_sync (policy svc) tuples ClientType parent _ [id] g);
    [..|exact E3|exact Hd|exact Hf|by apply Hbase2].
  - done.
  - done.
  - intros x ->%list_elem_of_singleton. rewrite H2, H0, <- E1. exact Ep.
  - apply (after_now tuples parent now _ _ _ (WrapE svcerr.ErrUpdateEntity) now_t now_parent);
      [|intros ?; apply WrapE_not_nil].
    intros t. match goal with |- assigns _ _ (_ ?c) _ _ => exact (SetParentGroup_assigns c) end.
  - intros x. by rewrite H3.
  - intros l wa wb el x Hl. by rewrite (frames_eq _ parent _ _ _ (delete_parent l) Hl).
Qed.

Lemma RemoveParentGroup_sync session id w e w' :
  RemoveParentGroup now svc session id w = (e, w') -> ~ undo_failed e -> synced w -> synced w'.
Proof.
  unfold RemoveParentGroup, bind at 1.
  destruct (RetrieveByID (repo svc) id w) as [[c er] w1] eqn:E1.
  frame_all tuples; frame_all parent. assert (Hbase : synced w -> synced w1) by (by apply in_sync_same).
  destruct er as [er|]; unfold ret at 1; [nothing Hbase|].
  apply RetrieveByID_parent in E1. destruct (_ <>s "") eqn:Ep; [|nothing Hbase]. go_bool.
  unfold bind at 1. destruct (DeletePolicies (policy svc) _ w1) as [[ea|] w3] eqn:E3; frame_all parent.
  { apply DeletePolicies_err in E3. intros [= <- <-] _. apply in_sync_same; congruence. }
  intros Hd Hf Hs. eapply (remove_parent_sync (policy svc) tuples ClientType parent _ [id] (ParentGroup c));
    [..|exact E3|exact Hd|exact Hf|by apply Hbase].
  - done.
  - done.
  - intros x ->%list_elem_of_singleton. by rewrite H0.
  - apply (after_now tuples parent now _ _ _ (WrapE svcerr.ErrUpdateEntity) now_t now_parent);
      [|intros ?; apply WrapE_not_nil].
    intros t. match goal with |- assigns _ _ (_ ?c) _ _ => exact (RemoveParentGroup_assigns c) end.
  - intros x. by rewrite H1.
  - intros l wa wb el x Hl. by rewrite (frames_eq _ parent _ _ _ (add_parent l) Hl).
Qed.

(** The rollback of the private service loses its error, so that it cannot be
    told from the answer whether it failed: where the policies of the children
    of [g] are deleted in this run and the table then is not changed, the
    policies can be added again. *)
Definition unset_undone (g : string) (w : W) : Prop :=
  forall cs w1 w2 eb w3, RetrieveParentGroupClients (repo svc) g w = ((cs, None), w1) ->
    DeletePolicies (policy svc) (map clients_private.unsetPolicy cs) w1 = (None, w2) ->
    repo_UnsetParentGroupFromClient (repo svc) g w2 = (Some eb, w3) ->
    (AddPolicies (policy svc) (map clients_private.unsetPolicy cs) w3).1 = None.

Lemma UnsetParentGroupFromClient_sync g w e w' : g <> "" -> unset_undone g w ->
  clients_private.UnsetParentGroupFromClient priv g w = (e, w') -> synced w -> synced w'.
Proof.
  intros Hg Hundo. unfold clients_private.UnsetParentGroupFromClient, bind at 1. rewrite same_repo, same_policy.
  destruct (RetrieveParentGroupClients (repo svc) g w) as [[cs er] w1] eqn:E1.
  frame_all tuples; frame_all parent. assert (Hbase : synced w -> synced w1) by (by apply in_sync_same).
  destruct er as [er|]; unfold ret at 1; [by intros [= _ <-]|].
  destruct (Nat.ltb 0 _); [|by intros [= _ <-]].
  destruct (RetrieveParentGroupClients_ok _ _ _ _ Hg E1) as [Hg' Hall].
  unfold bind at 1. destruct (DeletePolicies (policy svc) _ w1) as [[ea|] w3] eqn:E3; frame_all parent.
  { apply DeletePolicies_err in E3. intros [= _ <-]. apply in_sync_same; congruence. }
  intros Hd Hs. eapply (remove_parent_undone (policy svc) tuples ClientType parent
    (map clients_private.unsetPolicy cs) (map ID cs) g); [..|exact E3| | |exact Hd|by apply Hbase].
  - rewrite <- !list_fmap_compose. apply list_fmap_ext. intros i c Hc%list_elem_of_lookup_2.
    by rewrite <- (Hg' c Hc).
  - done.
  - intros x Hx%Hall. by rewrite H0.
  - intros eb w4. unfold bind, ret. destruct (repo_UnsetParentGroupFromClient _ _ w3) as [eb' w4'] eqn:Eb.
    pose proof (UnsetParentGroup_effect _ _ _ _ Eb) as [Ht Hp]. destruct eb' as [x|]; intros [= <- <-]; (split; [done|]).
    + destruct (WrapE svcerr.ErrRemoveEntity (Some x)) eqn:Hx; [done|by apply WrapE_not_nil in Hx].
    + intros x. rewrite Hp. case_bool_decide as Hx.
      * apply Hall in Hx. by rewrite H1, H0, Hx, eqb_refl_s.
      * destruct (String.eqb_spec (parent w3 x) g) as [E|]; [|done]. destruct Hx. apply Hall. congruence.
  - intros x. by rewrite H1.
  - intros l wa wb el x Hl. by rewrite (frames_eq _ parent _ _ _ (add_parent l) Hl).
  - intros x w2. unfold clients_private.undoUnset, bind, ret. rewrite same_policy. by destruct (AddPolicies _ _ w2).
  - intros x w2. unfold bind, ret. destruct (repo_UnsetParentGroupFromClient _ _ w3) as [[eb|] w4] eqn:Eb; [|done].
    intros [= _ <-]. by eapply Hundo.
Qed.

(** A call that changes a parent group, unless its rollback failed. *)
Inductive parent_step : W -> W -> Prop :=
| step_SetParentGroup session g id w e w' : g <> "" -> ~ undo_failed e ->
    SetParentGroup now svc session g id w = (e, w') -> parent_step w w'
| step_RemoveParentGroup session id w e w' : ~ undo_failed e ->
    RemoveParentGroup now svc session id w = (e, w') -> parent_step w w'
| step_UnsetParentGroupFromClient g w e w' : g <> "" -> unset_undone g w ->
    clients_private.UnsetParentGroupFromClient priv g w = (e, w') -> parent_step w w'.

(** C9: over every sequence of SetParentGroup, RemoveParentGroup and
    UnsetParentGroupFromClient for a group that is named, failed ones included
    unless their rollback failed too, a client has a parent relationship in
    the policy store exactly to the group its row names. *)
Theorem client_parents_in_sync w w' (Hw : synced w) (Hsteps : rtc parent_step w w') : synced w'.
Proof.
  induction Hsteps as [|w1 w2 w3 Hstep _ IH]; [done|]. apply IH. destruct Hstep.
  - by eapply SetParentGroup_sync.
  - by eapply RemoveParentGroup_sync.
  - by eapply UnsetParentGroupFromClient_sync.
Qed.
End parents.

(** ** The cache of credentials *)

Section cache_theory.
Import clients_cache.
Context {W : Type} (client : Redis W) (d : Z) (store : W -> gmap string string).
Context {RL : RedisLaws client store}.

Lemma ckey_inj a b : ckey a = ckey b -> a = b.
Proof. unfold ckey. intros H. by simplify_eq/=. Qed.
Lemma tid_inj a b : tid a = tid b -> a = b.
Proof. unfold tid. intros H. by simplify_eq/=. Qed.
Lemma ckey_tid a b : ckey a <> tid b.
Proof. done. Qed.

Lemma Save_store k i w w' : Save client d k i w = (None, w') ->
  k <> "" /\ i <> "" /\ store w' = <[tid i := k]> (<[ckey k := i]> (store w)).
Proof.
  unfold Save. destruct (_ || _) eqn:Ek; [by intros [= ?%WrapE_inv]|]. go_bool.
  unfold bind, ret. destruct (redis_Set _ _ _ _ w) as [[e1|] w1] eqn:E1; [by intros [= ?%WrapE_inv]|].
  destruct (redis_Set _ _ _ _ w1) as [[e2|] w2] eqn:E2; [by intros [= ?%WrapE_inv]|]. intros [= <-].
  apply (Set_done client store) in E1, E2. by rewrite E2, E1.
Qed.

Lemma Remove_store i w w' : Remove client i w = (None, w') ->
  store w' = match store w !! tid i with
             | Some k => delete (ckey k) (delete (tid i) (store w))
             | None => store w
             end.
Proof.
  unfold Remove, bind, ret. destruct (redis_Get _ _ w) as [[k e1] w1] eqn:E1.
  apply Get_ok in E1 as [Hs E1]. destruct e1 as [e1|].
  - destruct (is_sentinel _ _) eqn:En; [|by intros [= ?%WrapE_inv]]. rewrite E1 by done. by intros [= <-].
  - simpl. rewrite E1. destruct (redis_Del _ _ w1) as [[e2|] w2] eqn:E2; [by intros [= ?%WrapE_inv]|].
    apply (Del_done client store) in E2. intros [= <-]. rewrite E2, Hs.
    apply map_eq. intros j. rewrite map_lookup_filter, !lookup_delete.
    destruct (store w !! j) eqn:Ej; simpl; repeat case_decide; subst; try done.
    + rewrite option_guard_False; [done|]. set_solver.
    + rewrite option_guard_False; [done|]. set_solver.
    + rewrite option_guard_True; [done|]. set_solver.
Qed.

Lemma ID_store k w : k <> "" -> responds client (ckey k) w ->
  (ID client k w).1 = match store w !! ckey k with
                      | Some i => (i, None)
                      | None => ("", WrapE repoerr.ErrNotFound (Some redis_Nil))
                      end.
Proof.
  intros Hk Hr. unfold ID. apply String.eqb_neq in Hk as ->. unfold bind, ret.
  destruct (redis_Get _ _ w) as [[i e] w1] eqn:E. apply (Get_responds client store) in E; [|done].
  destruct (store w !! ckey k); [by destruct E as [-> ->]|by rewrite E].
Qed.

End cache_theory.

Section credentials.
Import clients clients_cache.
Context {W : Type} (now : St W Time) (svc : service W) (priv : clients_private.service W).
Context (client : Redis W) (d : Z) (store : W -> gmap string string).
Context {RL : RedisLaws client store}.
(** Both services use the Redis cache; the database is not in Redis. *)
Context (svc_cache : cache svc = NewCache client d) (priv_cache : clients_private.cache priv = NewCache client d).
Context (now_store : frames now store) (get_store : forall id, frames (RetrieveByID (repo svc) id) store).
Context (status_store : forall c, frames (ChangeStatus (repo svc) c) store).
Context (status_id : forall c w c' w', ChangeStatus (repo svc) c w = ((c', None), w') -> clients.ID c' = clients.ID c).
Hint Resolve now_store get_store status_store : frame.

Lemma Authenticate_hit token v i : token <> "" -> responds client (ckey token) v -> store v !! ckey token = Some i ->
  clients_private.Authenticate priv token v = ((i, None), (redis_Get client (ckey token) v).2).
Proof.
  intros Ht Hr Hv. unfold clients_private.Authenticate, bind, ret. rewrite priv_cache. simpl. unfold ID.
  apply String.eqb_neq in Ht as ->. unfold bind, ret.
  destruct (redis_Get client (ckey token) v) as [[j e] v1] eqn:E. apply (Get_responds client store) in E; [|done].
  rewrite Hv in E. by destruct E as [-> ->].
Qed.

(** What the database answered for the parts of a packed credential. *)
Definition retrieved (token id : string) : Prop :=
  exists prefix i key e c w1 w2, authn.AuthUnpack token = (prefix, i, key, e)
    /\ RetrieveBySecret (clients_private.repo priv) key i prefix w1 = ((c, None), w2) /\ clients.ID c = id.

Lemma Authenticate_inv token w id w' : token <> "" ->
  clients_private.Authenticate priv token w = ((id, None), w') ->
  store w' !! ckey token = Some id /\ (store w !! ckey token = Some id \/ retrieved token id).
Proof.
  intros Ht. unfold clients_private.Authenticate, bind at 1. rewrite priv_cache. simpl. unfold ID at 1.
  apply String.eqb_neq in Ht as Ht'. rewrite Ht'. unfold bind at 1, ret at 1.
  destruct (redis_Get client (ckey token) w) as [[j e] w1] eqn:E. apply Get_ok in E as [Hs E].
  destruct e as [e|]; unfold ret at 1.
  2: { intros [= <- <-]. split; [congruence|by left]. }
  destruct (WrapE repoerr.ErrNotFound _) eqn:Hw; [|by apply WrapE_not_nil in Hw].
  destruct (authn.AuthUnpack token) as [[[prefix i] key] eu] eqn:Eu. destruct (_ && _) eqn:Eb.
  { unfold ret. intros [= <- -> <-]. done. }
  unfold bind at 1. destruct (RetrieveBySecret _ _ _ _ w1) as [[c [er|]] w2] eqn:Er; unfold ret at 1.
  { by intros [= _ ?%WrapE_inv _]. }
  unfold bind. destruct (Save client d token (clients.ID c) w2) as [[es|] w3] eqn:Es; unfold ret.
  { by intros [= _ ?%WrapE_inv _]. }
  intros [= <- <-]. split; [|right; unfold retrieved; by eauto 10].
  apply (Save_store client d store) in Es as (_ & _ & Es). by rewrite Es, lookup_insert_ne, lookup_insert_eq.
Qed.

(** A credential that authenticates as a client was found in the cache
    or in the database under the parts that AuthUnpack reads from it, and
    from then on the cache answers for it, without the database, as long as
    Redis answers. *)
Theorem Authenticate_cached token w id w' (Ht : token <> "")
    (Hrun : clients_private.Authenticate priv token w = ((id, None), w')) (Hr : responds client (ckey token) w') :
  (store w !! ckey token = Some id \/ retrieved token id)
  /\ clients_private.Authenticate priv token w' = ((id, None), (redis_Get client (ckey token) w').2).
Proof.
  apply Authenticate_inv in Hrun as [Hin Hor]; [|done]. split; [done|]. by apply Authenticate_hit.
Qed.

Lemma changeClientStatus_ok session c w c' w' :
  changeClientStatus svc session c w = ((c', None), w') -> store w' = store w /\ clients.ID c' = clients.ID c.
Proof.
  unfold changeClientStatus, bind at 1.
  destruct (RetrieveByID _ _ w) as [[db [er|]] w2] eqn:E1; unfold ret at 1; [by intros [= _ ?%WrapE_inv]|].
  destruct (N.eqb _ _); [by intros [= _ ?%WrapE_inv]|]. unfold bind.
  destruct (ChangeStatus _ _ w2) as [[c1 [er|]] w3] eqn:E2; unfold ret; [by intros [= _ ?%WrapE_inv]|].
  intros [= <- <-]. frame_all store. apply status_id in E2. split; [congruence|done].
Qed.

(** Disabling a client makes the cache forget the credential it saved
    last for the client, and only that one: a credential of the client that
    was saved before, such as the secret before an UpdateSecret,
    authenticates as the client afterwards. *)
Lemma Disable_forgets_last_credential session id last w c w' : last <> "" ->
  store w !! tid id = Some last ->
  Disable now svc session id w = ((c, None), w') -> (forall k, responds client (ckey k) w') ->
  (ID client last w').1 = ("", WrapE repoerr.ErrNotFound (Some redis_Nil))
  /\ forall k i, k <> "" -> k <> last -> store w !! ckey k = Some i ->
       (clients_private.Authenticate priv k w').1 = (i, None).
Proof.
  intros Hl Hlast. unfold Disable, bind at 1. destruct (now w) as [t w1] eqn:Et. unfold bind at 1.
  destruct (changeClientStatus _ _ _ w1) as [[c1 [er|]] w3] eqn:E1; unfold ret at 1; [by intros [= _ ?%WrapE_inv]|].
  apply changeClientStatus_ok in E1 as [Hs1 E2]. frame_all store. simpl in E2.
  rewrite svc_cache. unfold bind. simpl. destruct (Remove client (clients.ID c1) w3) as [[e3|] w4] eqn:E3;
    unfold ret; [by intros [= _ ?%WrapE_inv]|].
  rewrite E2 in E3. apply (Remove_store client store) in E3. intros [= <- <-] Hr.
  assert (Hs : store w3 = store w) by congruence. rewrite Hs, Hlast in E3. split.
  - rewrite (ID_store client store) by done. by rewrite E3, lookup_delete_eq.
  - intros k i Hk Hne Hc. rewrite (Authenticate_hit _ _ i); [done..|].
    rewrite E3, !lookup_delete_ne; [done|done|]. intros ?%ckey_inj. congruence.
Qed.
End credentials.

(** ** A database and a cache in memory, for the examples *)
Module memclients.
Import policies clients.
Definition mem : Type := gmap string Client * gmap string string.
Definition state : Type := memroles.state mem.
Definition table (s : state) : gmap string Client := s.2.1.
Definition redis (s : state) : gmap string string := s.2.2.
Definition parent (s : state) (id : string) : string := from_option ParentGroup "" (table s !! id).
Definition put (s : state) (t : gmap string Client) : state := (s.1, (t, redis s)).

(** [UPDATE ... WHERE id = id]: an error where there is no row. *)
Definition modify (id : string) (f : Client -> Client) : St state (Client * error) := fun s =>
  match table s !! id with
  | None => ((Client0, Some repoerr.ErrNotFound), s)
  | Some c => ((f c, None), put s (<[id := f c]> (table s)))
  end.
Definition modify_ (id : string) (f : Client -> Client) : St state error :=
  '(_, e) <- modify id f ;; ret e.

Definition children (g : string) (s : state) : list Client :=
  (fun kv => kv.2 <| ID := kv.1 |>) <$> map_to_list (filter (fun kv => ParentGroup kv.2 = g) (table s)).

Definition repo : Repository state :=
  {| RetrieveByID := fun id s => match table s !! id with
       | Some c => ((c, None), s) | None => ((Client0, Some repoerr.ErrNotFound), s) end;
     RetrieveByIDWithRoles := fun _ _ => ret (Client0, None);
     RetrieveAll := fun _ => ret (ClientsPage0, None);
     RetrieveUserClients := fun _ _ _ => ret (ClientsPage0, None);
     repo_RetrieveByIds := fun _ => ret (ClientsPage0, None);
     repo_Update := fun c => modify (ID c) (fun o => o <| Name := Name c |>);
     repo_UpdateTags := fun c => modify (ID c) (fun o => o <| Tags := Tags c |>);
     repo_UpdateSecret := fun c => modify (ID c) (fun o => o <| Credentials_ := Credentials_ c |>);
     ChangeStatus := fun c => modify (ID c) (fun o => o <| ID := ID c |> <| Status := Status c |>);
     repo_Delete := fun ids s => (None, put s (filter (fun kv => kv.1 ∉ ids) (table s)));
     Save := fun cs s => if existsb (fun c => negb (is_nil (table s !! ID c))) cs
       then (([], Some repoerr.ErrConflict), s)
       else ((cs, None), put s (rows ID cs ∪ table s));
     RetrieveBySecret := fun key id _ s => match table s !! id with
       | Some c => if Secret (Credentials_ c) =s key then ((c, None), s)
                   else ((Client0, Some repoerr.ErrNotFound), s)
       | None => ((Client0, Some repoerr.ErrNotFound), s) end;
     repo_AddConnections := fun _ => ret None;
     repo_RemoveConnections := fun _ => ret None;
     DoesClientHaveConnections := fun _ => ret (false, None);
     repo_RemoveChannelConnections := fun _ => ret None;
     repo_SetParentGroup := fun c => modify_ (ID c) (fun o => o <| ParentGroup := ParentGroup c |>);
     repo_RemoveParentGroup := fun c s => (None, (modify (ID c) (fun o => o <| ParentGroup := "" |>) s).2);
     RetrieveParentGroupClients := fun g s => ((children g s, None), s);
     repo_UnsetParentGroupFromClient := fun g s =>
       (None, put s ((fun c => if ParentGroup c =s g then c <| ParentGroup := "" |> else c) <$> table s));
     role_repo := memroles.repo ClientType |}.

Definition set_redis (r : gmap string string) (s : state) : state := (s.1, (table s, r)).
Definition cache : Redis state := memredis.client redis set_redis.

Definition svc : service state :=
  {| clients.repo := repo; policy := spicedb.NewPolicyService memroles.client;
     channels := {| grpc.channels_RemoveClientConnections := fun _ => ret None;
                    grpc.channels_UnsetParentGroupFromChannels := fun _ => ret None |};
     groups := {| grpc.groups_RetrieveEntity := fun id => ret (grpc.MkEntityBasic id "d" "" EnabledStatus, None) |};
     clients.cache := clients_cache.NewCache cache 1; idProvider := ret ("new", None);
     sidProvider := ret ("id", None); availableActions := ["read"]; builtInRoles := [("admin", ["read"])] |}.
Definition priv : clients_private.service state :=
  {| clients_private.repo := repo; clients_private.cache := clients_cache.NewCache cache 1;
     clients_private.evaluator := {| policies.CheckPolicy := fun _ => ret None |};
     clients_private.policy := policy svc |}.

#[export] Instance redis_laws : RedisLaws cache redis.
Proof. by apply memredis.laws. Qed.

#[export] Instance repo_laws : RowLaws memroles.tuples ID (Save repo) (repo_Delete repo) table.
Proof.
  split; simpl; intros *; try (by intros w); try by intros [= <-].
  - destruct (existsb _ cs) eqn:E; [done|]. intros [= <- <-]. split_and!; [done| |done].
    intros c Hc. destruct (table w !! ID c) eqn:Ec; [|done].
    assert (existsb (fun c => negb (is_nil (table w !! ID c))) cs = true); [|congruence].
    apply existsb_exists. exists c. rewrite <- list_elem_of_In, Ec. done.
  - destruct (existsb _ cs); by intros [= <- <- <-].
  - intros w. by case_match.
Qed.

Lemma modify_parent id f s e s' : modify_ id f s = (e, s') -> memroles.tuples s' = memroles.tuples s /\
  match e with
  | None => forall g, (forall c, ParentGroup (f c) = g) ->
      forall x, parent s' x = if bool_decide (x ∈ [id]) then g else parent s x
  | Some _ => s' = s
  end.
Proof.
  unfold modify_, modify, bind, ret. destruct (table s !! id) as [c|] eqn:Ec; intros [= <- <-]; [|done].
  split; [done|]. intros g Hg x. unfold parent, table, put. cbn [fst snd]. case_bool_decide as Hx.
  - apply list_elem_of_singleton in Hx as ->. rewrite lookup_insert_eq. simpl. apply Hg.
  - rewrite lookup_insert_ne; [done|]. set_solver.
Qed.

#[export] Instance parent_laws : ClientParentLaws repo memroles.tuples parent.
Proof.
  split; simpl; intros *; try (by intros w).
  - intros w. by case_match.
  - intros w. by case_match.
  - unfold parent. destruct (table w !! id); [|done]. by intros [= <- <-].
  - intros w e w' H%modify_parent. destruct H as [? H]. split; [done|]. destruct e; [by subst|]. by apply H.
  - intros w e w' [= <- <-].
    pose proof (modify_parent (ID c) (fun o => o <| ParentGroup := "" |>) w) as H.
    unfold modify_, bind in H. destruct (modify _ _ w) as [[o [er|]] w1] eqn:E; unfold ret in H;
      specialize (H _ _ eq_refl) as [Ht H]; (split; [done|]); [|by apply H]. intros x. simpl. subst w1.
    revert E. unfold modify, parent. destruct (table w !! ID c) eqn:Ec; [done|]. intros _.
    case_bool_decide as Hx; [|done]. apply list_elem_of_singleton in Hx as ->. by rewrite Ec.
  - intros Hg [= <- <-]. unfold children. split.
    + intros c ((k & c') & -> & H%elem_of_map_to_list)%list_elem_of_fmap.
      apply map_lookup_filter_Some in H. by destruct H.
    + intros x. rewrite elem_of_map_list. unfold parent. split.
      * intros (c & ((k & c') & -> & H%elem_of_map_to_list)%list_elem_of_fmap & <-).
        apply map_lookup_filter_Some in H as [Hk Hp]. simpl in *. by rewrite Hk.
      * intros Hx. destruct (table w !! x) as [c|] eqn:Ex; [|by subst].
        exists (c <| ID := x |>). split; [|done]. apply list_elem_of_fmap. exists (x, c).
        split; [done|]. apply elem_of_map_to_list, map_lookup_filter_Some. done.
  - intros [= <- <-]. split; [done|]. intros x. unfold parent, table at 1, put. cbn [fst snd]. rewrite lookup_fmap.
    destruct (table w !! x) as [c|]; simpl; [|by case_match].
    by destruct (ParentGroup c =s g).
Qed.
End memclients.

Module clients_example.
Import clients memclients.
Definition client_a : Client := Client0 <| ID := "a" |> <| Name := "lamp" |>.
Definition start : state := ((∅, ∅), (∅, ∅)).
Definition created : state := (CreateClients memroles.now svc roles_example.alice [client_a] start).2.

Lemma CreateClients_atomic_witness :
  let run := CreateClients memroles.now svc roles_example.alice [client_a] start in
  map ID run.1.1.1 = ["a"] /\ is_nil run.1.2 = true
  /\ table created = rows ID run.1.1.1 ∪ table start.
Proof.
  split; [vm_compute; reflexivity|split; [vm_compute; reflexivity|]].
  assert (Hn : (CreateClients memroles.now svc roles_example.alice [client_a] start).1.2 = None)
    by (vm_compute; reflexivity).
  pose proof (CreateClients_atomic memroles.now svc memroles.tuples memroles.grants table
    (RE := memroles.env _ _ _) (RL := repo_laws) (fun _ => eq_refl) (fun _ => eq_refl) (fun _ => eq_refl)
    (fun d u ids os ms w => f_equal fst (memroles.create_frames _ _ _ d u ids os ms w))
    roles_example.alice [client_a] start) as H.
  fold created in *. unfold created in *. destruct (CreateClients _ _ _ _ _) as [[[cs rps] e] w'].
  simpl in *. subst e. apply (H cs rps None w' eq_refl).
Defined.

Lemma policies_parent l : frames (policies.AddPolicies (policy svc) l) parent
  /\ frames (policies.DeletePolicies (policy svc) l) parent.
Proof. split; [by apply memroles.AddPolicies_frames|by apply memroles.DeletePolicies_frames]. Defined.

(** The client gets group g1 as its parent. *)
Definition moved : state := (SetParentGroup memroles.now svc roles_example.alice "g1" "a" created).2.
Lemma client_parents_in_sync_witness :
  parent moved "a" = "g1" /\ synced memroles.tuples parent moved.
Proof.
  split; [vm_compute; reflexivity|].
  eapply (client_parents_in_sync memroles.now svc priv memroles.tuples parent
    (PL := @NewPolicyService_laws _ _ _ memroles.client_laws) (CL := parent_laws) eq_refl eq_refl
    (fun _ => eq_refl) (fun _ => eq_refl) (fun _ _ => eq_refl) (fun _ _ => eq_refl)
    (fun l => proj1 (policies_parent l)) (fun l => proj2 (policies_parent l)) created).
  - apply (in_sync_start _ _ _ (table created) ParentGroup); [done|vm_compute; reflexivity..].
  - apply rtc_once.
    apply (step_SetParentGroup _ _ _ roles_example.alice "g1" "a" _
      (SetParentGroup memroles.now svc roles_example.alice "g1" "a" created).1); [done| |apply surjective_pairing].
    assert ((SetParentGroup memroles.now svc roles_example.alice "g1" "a" created).1 = None) as ->
      by (vm_compute; reflexivity).
    intros (e0 & er & He). symmetry in He. by apply WrapE_not_nil in He.
Defined.

(** The credential a/new, used, and then the client with another secret. *)
Definition secret_of (s : state) : string := from_option (fun c => Secret (Credentials_ c)) "" (table s !! "a").
Definition token (secret : string) : string := authn.AuthPack 0 "a" secret.
Definition used : state := (clients_private.Authenticate priv (token "new") created).2.
Definition changed : state := (UpdateSecret memroles.now svc roles_example.alice "a" "other" used).2.
Definition used_again : state := (clients_private.Authenticate priv (token "other") changed).2.

Lemma Authenticate_cached_witness :
  (clients_private.Authenticate priv (token "new") created).1 = ("a", None)
  /\ clients_private.Authenticate priv (token "new") used
     = (("a", None), (redis_Get cache (clients_cache.ckey (token "new")) used).2).
Proof.
  assert (H : (clients_private.Authenticate priv (token "new") created).1 = ("a", None)) by (vm_compute; reflexivity).
  split; [exact H|].
  refine (proj2 (Authenticate_cached priv cache 1 redis eq_refl (token "new") created "a" used _ _ _)).
  - vm_compute. discriminate.
  - rewrite <- H. apply surjective_pairing.
  - apply memredis.client_responds.
Defined.

(** The old secret authenticates a disabled client. *)
Lemma Disable_forgets_last_credential_witness :
  secret_of used_again = "other"
  /\ let run := Disable memroles.now svc roles_example.alice "a" used_again in
     is_nil run.1.2 = true /\ (clients_private.Authenticate priv (token "new") run.2).1 = ("a", None).
Proof.
  split; [vm_compute; reflexivity|]. cbv zeta. split; [vm_compute; reflexivity|].
  assert (Hn : (Disable memroles.now svc roles_example.alice "a" used_again).1.2 = None) by (vm_compute; reflexivity).
  destruct (Disable memroles.now svc roles_example.alice "a" used_again) as [[c e] w'] eqn:E. simpl in Hn. subst e.
  refine (proj2 (Disable_forgets_last_credential memroles.now svc priv cache 1 redis eq_refl eq_refl _ _ _ _
    roles_example.alice "a" (token "other") used_again c w' _ _ E _) (token "new") "a" _ _ _).
  - intros w. done.
  - intros i w. simpl. by case_match.
  - intros x w. simpl. unfold modify. by case_match.
  - intros x w x' w1. simpl. unfold modify. case_match; [|done]. by intros [= <- _].
  - vm_compute. discriminate.
  - vm_compute. reflexivity.
  - intros k. apply memredis.client_responds.
  - vm_compute. discriminate.
  - vm_compute. discriminate.
  - vm_compute. reflexivity.
Defined.
End clients_example.
