(* ===== verification/Domains.v ===== *)
(** * domains: the domains service, invitations, the private service and the cache

    Source: src/domains/domains.go, state.go, invitations.go, service.go,
    private/service.go, cache/domains.go.  The repository (which is also the
    role repository of the provision manager) and Redis are parameters. *)

From S2P Require Import Prelude GoStd Errors Policies Authn Roles Redis.

Module domains.
Import policies.

(** ** src/domains/domains.go *)
Definition EnabledStatus : N := 0.
Definition DisabledStatus : N := 1.
Definition FreezeStatus : N := 2.
Definition DeletedStatus : N := 3.
Definition AllStatus : N := 4.
Definition Disabled := "disabled".
Definition Enabled := "enabled".
Definition Freezed := "freezed".
Definition Deleted := "deleted".
Definition All := "all".
Definition Unknown := "unknown".

Definition Status_String (s : N) : string :=
  if N.eqb s DisabledStatus then Disabled
  else if N.eqb s EnabledStatus then Enabled
  else if N.eqb s AllStatus then All
  else if N.eqb s FreezeStatus then Freezed
  else if N.eqb s DeletedStatus then Deleted
  else Unknown.

Definition ToStatus (status : string) : N * error :=
  if (status =s "") || (status =s Enabled) then (EnabledStatus, None)
  else if status =s Disabled then (DisabledStatus, None)
  else if status =s Freezed then (FreezeStatus, None)
  else if status =s Deleted then (DeletedStatus, None)
  else if status =s All then (AllStatus, None)
  else (0%N, Some svcerr.ErrInvalidStatus).

(** A nil pointer is [None]: the field is not updated. *)
Record DomainReq := MkDomainReq {
  rq_Name : option string; rq_Metadata : option Metadata; rq_Tags : option (list string);
  rq_Status : option N; rq_UpdatedBy : option string; rq_UpdatedAt : option Time }.
#[global] Instance DomainReq_fields : Fields DomainReq := fun r =>
  MkDomainReq (rq_Name r) (rq_Metadata r) (rq_Tags r) (rq_Status r) (rq_UpdatedBy r) (rq_UpdatedAt r).
Definition DomainReq0 : DomainReq := MkDomainReq None None None None None None.

Record Domain := MkDomain {
  ID : string; Name : string; Metadata_ : Metadata; Tags : list string; Route : string; Status : N;
  RoleID : string; RoleName : string; Actions : list string; CreatedBy : string; CreatedAt : Time;
  UpdatedBy : string; UpdatedAt : Time; MemberID : string; dom_Roles : list roles.MemberRoleActions }.
#[global] Instance Domain_fields : Fields Domain := fun d =>
  MkDomain (ID d) (Name d) (Metadata_ d) (Tags d) (Route d) (Status d) (RoleID d) (RoleName d) (Actions d)
    (CreatedBy d) (CreatedAt d) (UpdatedBy d) (UpdatedAt d) (MemberID d) (dom_Roles d).
Definition Domain0 : Domain :=
  MkDomain "" "" None [] "" 0 "" "" [] "" zeroTime "" zeroTime "" [].

Definition OrOp : N := 0.
Definition AndOp : N := 1.
Record TagsQuery := MkTagsQuery { Elements : list string; Operator : N }.
Definition TagsQuery0 : TagsQuery := MkTagsQuery [] 0.

Definition ToTagsQuery (s : string) : TagsQuery :=
  if GoStd.Contains s "+" then MkTagsQuery (map TrimSpace (Split s "+")) AndOp
  else if GoStd.Contains s "," then MkTagsQuery (map TrimSpace (Split s ",")) OrOp
  else MkTagsQuery [s] OrOp.

Record Page := MkPage {
  pg_Total : N; pg_Offset : N; pg_Limit : N; pg_OnlyTotal : bool; pg_Name : string; pg_Order : string;
  pg_Dir : string; pg_Metadata : Metadata; pg_Tags : TagsQuery; pg_RoleName : string; pg_RoleID : string;
  pg_Actions : list string; pg_Status : N; pg_ID : string; pg_IDs : list string; pg_Identity : string;
  pg_UserID : string; pg_CreatedFrom : Time; pg_CreatedTo : Time }.
#[global] Instance Page_fields : Fields Page := fun p =>
  MkPage (pg_Total p) (pg_Offset p) (pg_Limit p) (pg_OnlyTotal p) (pg_Name p) (pg_Order p) (pg_Dir p)
    (pg_Metadata p) (pg_Tags p) (pg_RoleName p) (pg_RoleID p) (pg_Actions p) (pg_Status p) (pg_ID p)
    (pg_IDs p) (pg_Identity p) (pg_UserID p) (pg_CreatedFrom p) (pg_CreatedTo p).
Definition Page0 : Page :=
  MkPage 0 0 0 false "" "" "" None TagsQuery0 "" "" [] 0 "" [] "" "" zeroTime zeroTime.

Record DomainsPage := MkDomainsPage { dp_Total : N; dp_Offset : N; dp_Limit : N; dp_Domains : list Domain }.
#[global] Instance DomainsPage_fields : Fields DomainsPage := fun p =>
  MkDomainsPage (dp_Total p) (dp_Offset p) (dp_Limit p) (dp_Domains p).
Definition DomainsPage0 : DomainsPage := MkDomainsPage 0 0 0 [].

(** ** src/domains/state.go, invitations.go *)
Definition AllState : N := 0.
Definition Pending : N := 1.
Definition Accepted : N := 2.
Definition Rejected : N := 3.
Definition all := "all".
Definition pending := "pending".
Definition accepted := "accepted".
Definition rejected := "rejected".
Definition UnknownState := "unknown".

Definition State_String (s : N) : string :=
  if N.eqb s AllState then all
  else if N.eqb s Pending then pending
  else if N.eqb s Accepted then accepted
  else if N.eqb s Rejected then rejected
  else UnknownState.

Definition ToState (status : string) : N * error :=
  if status =s all then (AllState, None)
  else if status =s pending then (Pending, None)
  else if status =s accepted then (Accepted, None)
  else if status =s rejected then (Rejected, None)
  else (0%N, Some apiutil.ErrInvitationState).

Record Invitation := MkInvitation {
  InvitedBy : string; InviteeUserID : string; DomainID : string; DomainName : string; inv_RoleID : string;
  inv_RoleName : string; inv_Actions : list string; inv_CreatedAt : Time; inv_UpdatedAt : Time;
  ConfirmedAt : Time; RejectedAt : Time; Resend : bool }.
#[global] Instance Invitation_fields : Fields Invitation := fun i =>
  MkInvitation (InvitedBy i) (InviteeUserID i) (DomainID i) (DomainName i) (inv_RoleID i) (inv_RoleName i)
    (inv_Actions i) (inv_CreatedAt i) (inv_UpdatedAt i) (ConfirmedAt i) (RejectedAt i) (Resend i).
Definition Invitation0 : Invitation :=
  MkInvitation "" "" "" "" "" "" [] zeroTime zeroTime zeroTime zeroTime false.

Record InvitationPage := MkInvitationPage {
  ip_Total : N; ip_Offset : N; ip_Limit : N; ip_Invitations : list Invitation }.
Definition InvitationPage0 : InvitationPage := MkInvitationPage 0 0 0 [].

Record InvitationPageMeta := MkInvitationPageMeta {
  im_Offset : N; im_Limit : N; im_OnlyTotal : bool; im_InvitedBy : string; im_InviteeUserID : string;
  im_DomainID : string; im_RoleID : string; im_InvitedByOrUserID : string; im_State : N }.
#[global] Instance InvitationPageMeta_fields : Fields InvitationPageMeta := fun m =>
  MkInvitationPageMeta (im_Offset m) (im_Limit m) (im_OnlyTotal m) (im_InvitedBy m) (im_InviteeUserID m)
    (im_DomainID m) (im_RoleID m) (im_InvitedByOrUserID m) (im_State m).

(** [RetrieveRole] is a method of the embedded role repository that the
    provision manager does not call. *)
Record Repository (W : Type) := {
  SaveDomain : Domain -> St W (Domain * error);
  RetrieveDomainByIDWithRoles : string -> string -> St W (Domain * error);
  RetrieveDomainByID : string -> St W (Domain * error);
  RetrieveDomainByRoute : string -> St W (Domain * error);
  RetrieveAllDomainsByIDs : Page -> St W (DomainsPage * error);
  repo_UpdateDomain : string -> DomainReq -> St W (Domain * error);
  DeleteDomain : string -> St W error;
  repo_ListDomains : Page -> St W (DomainsPage * error);
  SaveInvitation : Invitation -> St W error;
  RetrieveInvitation : string -> string -> St W (Invitation * error);
  RetrieveAllInvitations : InvitationPageMeta -> St W (InvitationPage * error);
  UpdateConfirmation : Invitation -> St W error;
  UpdateRejection : Invitation -> St W error;
  DeleteUsersInvitations : string -> list string -> St W error;
  repo_RetrieveRole : string -> St W (roles.Role * error);
  role_repo : roles.Repository W }.
Arguments SaveDomain {W}. Arguments RetrieveDomainByIDWithRoles {W}. Arguments RetrieveDomainByID {W}.
Arguments RetrieveDomainByRoute {W}. Arguments RetrieveAllDomainsByIDs {W}. Arguments repo_UpdateDomain {W}.
Arguments DeleteDomain {W}. Arguments repo_ListDomains {W}. Arguments SaveInvitation {W}.
Arguments RetrieveInvitation {W}. Arguments RetrieveAllInvitations {W}. Arguments UpdateConfirmation {W}.
Arguments UpdateRejection {W}. Arguments DeleteUsersInvitations {W}. Arguments repo_RetrieveRole {W}.
Arguments role_repo {W}.

Record Cache (W : Type) := {
  SaveStatus : string -> N -> St W error;
  SaveID : string -> string -> St W error;
  cache_Status : string -> St W (N * error);
  cache_ID : string -> St W (string * error);
  RemoveStatus : string -> St W error;
  RemoveID : string -> St W error }.
Arguments SaveStatus {W}. Arguments SaveID {W}. Arguments cache_Status {W}. Arguments cache_ID {W}.
Arguments RemoveStatus {W}. Arguments RemoveID {W}.

(** ** src/domains/service.go *)
Definition errCreateDomainPolicy : err := Sentinel "domains.errCreateDomainPolicy" CustomError "failed to create domain policy".
Definition errRollbackRepo : err := Sentinel "domains.errRollbackRepo" CustomError "failed to rollback repo".
Definition BuiltInRoleAdmin := "admin".

Record service (W : Type) := {
  repo : Repository W;
  cache : Cache W;
  policy : PolicyService W;
  idProvider : St W (string * error);
  sidProvider : St W (string * error);
  availableActions : list string;
  builtInRoles : list (string * list string) }.
Arguments repo {W}. Arguments cache {W}. Arguments policy {W}. Arguments idProvider {W}.
Arguments sidProvider {W}. Arguments availableActions {W}. Arguments builtInRoles {W}.

Section service.
Context {W : Type} (now : St W Time) (svc : service W).

(** The embedded provision manager, as New makes it. *)
Definition ProvisionManageService : roles.ProvisionManageService W :=
  {| roles.entityType := DomainType; roles.repo := role_repo (repo svc);
     roles.sidProvider := sidProvider svc; roles.policy := policy svc;
     roles.actions := availableActions svc; roles.builtInRoles := builtInRoles svc |}.

Definition organizationPolicy (id : string) : Policy :=
  Policy0 <| Subject := SuperMQObject |> <| SubjectType := PlatformType |> <| Relation := "organization" |>
    <| Object := id |> <| ObjectType := DomainType |>.

Definition rollbackSave (id : string) (retErr : error) : St W error :=
  errRollBack <- DeleteDomain (repo svc) id ;;
  if_err errRollBack return_ ret (Wrap retErr (WrapE errRollbackRepo errRollBack)) ;;
  ret retErr.

Definition CreateDomain (session : authn.Session) (d : Domain) : St W ((Domain * list roles.RoleProvision) * error) :=
  let d := d <| CreatedBy := authn.UserID session |> in
  '(d, e) <- (if ID d =s "" then
                '(domainID, e) <- idProvider svc ;;
                if_err e return_ ret (d, WrapE svcerr.ErrCreateEntity e) ;;
                ret (d <| ID := domainID |>, None)
              else ret (d, None)) ;;
  if_err e return_ ret ((Domain0, []), e) ;;
  if_ negb (N.eqb (Status d) DisabledStatus) && negb (N.eqb (Status d) EnabledStatus)
    return_ ret ((Domain0, []), Some svcerr.ErrInvalidStatus) ;;
  t <- now ;;
  let d := d <| CreatedAt := t |> in
  '(dom, e) <- SaveDomain (repo svc) d ;;
  match e with
  | Some _ =>
      if_ Errors.Contains e (Some errs.ErrRouteNotAvailable)
        return_ ret ((Domain0, []), Some errs.ErrRouteNotAvailable) ;;
      ret ((Domain0, []), WrapE svcerr.ErrCreateEntity e)
  | None =>
      defer_err (
        let newBuiltInRoleMembers := [(BuiltInRoleAdmin, [authn.UserID session])] in
        let optionalPolicies := [organizationPolicy (ID d)] in
        '(rps, e) <- roles.AddNewEntitiesRoles now ProvisionManageService (ID d) (authn.UserID session)
                       [ID d] optionalPolicies newBuiltInRoleMembers ;;
        if_err e return_ ret ((Domain0, []), WrapE errCreateDomainPolicy e) ;;
        ret ((dom, rps), None))
      (rollbackSave (ID d))
  end.

Definition RetrieveDomain (session : authn.Session) (id : string) (withRoles : bool) : St W (Domain * error) :=
  '(domain, e) <- (if authn.SuperAdmin session then RetrieveDomainByID (repo svc) id
                   else if withRoles then RetrieveDomainByIDWithRoles (repo svc) id (authn.UserID session)
                   else RetrieveDomainByID (repo svc) id) ;;
  if_err e return_ ret (Domain0, WrapE svcerr.ErrViewEntity e) ;;
  ret (domain, None).

Definition UpdateDomain (session : authn.Session) (id : string) (d : DomainReq) : St W (Domain * error) :=
  updatedAt <- now ;;
  let d := d <| rq_UpdatedAt := Some updatedAt |> <| rq_UpdatedBy := Some (authn.UserID session) |> in
  '(dom, e) <- repo_UpdateDomain (repo svc) id d ;;
  if_err e return_ ret (Domain0, WrapE svcerr.ErrUpdateEntity e) ;;
  ret (dom, None).

(** The common body of EnableDomain, DisableDomain and FreezeDomain. *)
Definition changeStatus (status : N) (session : authn.Session) (id : string) : St W (Domain * error) :=
  updatedAt <- now ;;
  '(dom, e) <- repo_UpdateDomain (repo svc) id (DomainReq0 <| rq_Status := Some status |>
    <| rq_UpdatedBy := Some (authn.UserID session) |> <| rq_UpdatedAt := Some updatedAt |>) ;;
  if_err e return_ ret (Domain0, WrapE svcerr.ErrUpdateEntity e) ;;
  e <- RemoveStatus (cache svc) id ;;
  if_err e return_ ret (dom, WrapE svcerr.ErrRemoveEntity e) ;;
  ret (dom, None).

Definition EnableDomain := changeStatus EnabledStatus.
Definition DisableDomain := changeStatus DisabledStatus.
Definition FreezeDomain := changeStatus FreezeStatus.

Definition ListDomains (session : authn.Session) (p : Page) : St W (DomainsPage * error) :=
  let p := p <| pg_UserID := authn.UserID session |> in
  let p := if authn.SuperAdmin session then p <| pg_UserID := "" |> else p in
  '(dp, e) <- repo_ListDomains (repo svc) p ;;
  if_err e return_ ret (DomainsPage0, WrapE svcerr.ErrViewEntity e) ;;
  ret (dp, None).

Definition resendInvitation (invitation : Invitation) : St W error :=
  '(inv, e) <- RetrieveInvitation (repo svc) (InviteeUserID invitation) (DomainID invitation) ;;
  if_err e return_ ret (WrapE svcerr.ErrViewEntity e) ;;
  if_ negb (IsZero (ConfirmedAt inv)) return_ ret (Some svcerr.ErrInvitationAlreadyAccepted) ;;
  if negb (IsZero (RejectedAt inv)) then
    let invitation := invitation <| RejectedAt := zeroTime |> in
    t <- now ;;
    let invitation := invitation <| inv_UpdatedAt := t |> in
    e <- UpdateRejection (repo svc) invitation ;;
    if_err e return_ ret (WrapE svcerr.ErrUpdateEntity e) ;;
    ret None
  else ret None.

Definition SendInvitation (session : authn.Session) (invitation : Invitation) : St W (Invitation * error) :=
  '(role, e) <- repo_RetrieveRole (repo svc) (inv_RoleID invitation) ;;
  if_err e return_ ret (Invitation0, WrapE svcerr.ErrInvalidRole e) ;;
  let invitation := invitation <| inv_RoleName := roles.Name role |> in
  '(domain, e) <- RetrieveDomainByID (repo svc) (DomainID invitation) ;;
  if_err e return_ ret (Invitation0, WrapE svcerr.ErrViewEntity e) ;;
  let invitation := invitation <| DomainName := Name domain |> <| InvitedBy := authn.UserID session |> in
  t <- now ;;
  let invitation := invitation <| inv_CreatedAt := t |> in
  if Resend invitation then
    e <- resendInvitation invitation ;;
    if_err e return_ ret (Invitation0, e) ;;
    ret (invitation, None)
  else
    e <- SaveInvitation (repo svc) invitation ;;
    if_err e return_ ret (Invitation0, WrapE svcerr.ErrCreateEntity e) ;;
    ret (invitation, None).

Definition ListInvitations (session : authn.Session) (page : InvitationPageMeta) : St W (InvitationPage * error) :=
  let page := page <| im_InviteeUserID := authn.UserID session |> in
  '(ip, e) <- RetrieveAllInvitations (repo svc) page ;;
  if_err e return_ ret (InvitationPage0, WrapE svcerr.ErrViewEntity e) ;;
  ret (ip, None).

Definition ListDomainInvitations (session : authn.Session) (page : InvitationPageMeta)
    : St W (InvitationPage * error) :=
  let page := page <| im_DomainID := authn.DomainID session |> in
  '(ip, e) <- RetrieveAllInvitations (repo svc) page ;;
  if_err e return_ ret (InvitationPage0, WrapE svcerr.ErrViewEntity e) ;;
  ret (ip, None).

Definition populateDetails (inv : Invitation) (domainID : string) : St W (Invitation * error) :=
  '(inv, e) <- (if DomainName inv =s "" then
                  '(domain, e) <- RetrieveDomainByID (repo svc) domainID ;;
                  if_err e return_ ret (Invitation0, WrapE svcerr.ErrViewEntity e) ;;
                  ret (inv <| DomainName := Name domain |>, None)
                else ret (inv, None)) ;;
  if_err e return_ ret (inv, e) ;;
  if inv_RoleName inv =s "" then
    '(role, e) <- repo_RetrieveRole (repo svc) (inv_RoleID inv) ;;
    if_err e return_ ret (Invitation0, WrapE svcerr.ErrViewEntity e) ;;
    ret (inv <| inv_RoleName := roles.Name role |>, None)
  else ret (inv, None).

Definition AcceptInvitation (session : authn.Session) (domainID : string) : St W (Invitation * error) :=
  '(inv, e) <- RetrieveInvitation (repo svc) (authn.UserID session) domainID ;;
  if_err e return_ ret (Invitation0, WrapE svcerr.ErrViewEntity e) ;;
  if_ InviteeUserID inv <>s authn.UserID session return_ ret (Invitation0, Some svcerr.ErrAuthorization) ;;
  if_ negb (IsZero (ConfirmedAt inv)) return_ ret (Invitation0, Some svcerr.ErrInvitationAlreadyAccepted) ;;
  if_ negb (IsZero (RejectedAt inv)) return_ ret (Invitation0, Some svcerr.ErrInvitationAlreadyRejected) ;;
  '(inv, e) <- populateDetails inv domainID ;;
  if_err e return_ ret (Invitation0, e) ;;
  let session := session <| authn.DomainID := domainID |> in
  '(_, e) <- roles.RoleAddMembers now ProvisionManageService session domainID (inv_RoleID inv)
               [authn.UserID session] ;;
  if_err e return_ ret (Invitation0, WrapE svcerr.ErrUpdateEntity e) ;;
  t <- now ;;
  let inv := inv <| ConfirmedAt := t |> <| inv_UpdatedAt := t |> in
  e <- UpdateConfirmation (repo svc) inv ;;
  if_err e return_ ret (Invitation0, WrapE svcerr.ErrUpdateEntity e) ;;
  ret (inv, None).

Definition RejectInvitation (session : authn.Session) (domainID : string) : St W (Invitation * error) :=
  '(inv, e) <- RetrieveInvitation (repo svc) (authn.UserID session) domainID ;;
  if_err e return_ ret (Invitation0, WrapE svcerr.ErrViewEntity e) ;;
  if_ InviteeUserID inv <>s authn.UserID session return_ ret (Invitation0, Some svcerr.ErrAuthorization) ;;
  if_ negb (IsZero (ConfirmedAt inv)) return_ ret (Invitation0, Some svcerr.ErrInvitationAlreadyAccepted) ;;
  if_ negb (IsZero (RejectedAt inv)) return_ ret (Invitation0, Some svcerr.ErrInvitationAlreadyRejected) ;;
  '(inv, e) <- populateDetails inv domainID ;;
  if_err e return_ ret (Invitation0, e) ;;
  t <- now ;;
  let inv := inv <| RejectedAt := t |> <| inv_UpdatedAt := t |> in
  e <- UpdateRejection (repo svc) inv ;;
  if_err e return_ ret (Invitation0, WrapE svcerr.ErrUpdateEntity e) ;;
  ret (inv, None).

Definition DeleteInvitation (session : authn.Session) (inviteeUserID domainID : string) : St W error :=
  if authn.UserID session =s inviteeUserID then
    e <- DeleteUsersInvitations (repo svc) domainID [inviteeUserID] ;;
    if_err e return_ ret (WrapE svcerr.ErrRemoveEntity e) ;;
    ret None
  else
    '(inv, e) <- RetrieveInvitation (repo svc) inviteeUserID domainID ;;
    if_err e return_ ret (WrapE svcerr.ErrRemoveEntity e) ;;
    if_ negb (IsZero (ConfirmedAt inv))
      return_ ret (WrapE svcerr.ErrRemoveEntity (Some svcerr.ErrInvitationAlreadyAccepted)) ;;
    if_ negb (IsZero (RejectedAt inv))
      return_ ret (WrapE svcerr.ErrRemoveEntity (Some svcerr.ErrInvitationAlreadyRejected)) ;;
    e <- DeleteUsersInvitations (repo svc) domainID [inviteeUserID] ;;
    if_err e return_ ret (WrapE svcerr.ErrRemoveEntity e) ;;
    ret None.

(** [err != nil && err != repoerr.ErrNotFound] *)
Definition refused (e : error) : bool := negb (is_nil e) && negb (is_sentinel e repoerr.ErrNotFound).

Definition RemoveEntityMembers (session : authn.Session) (entityID : string) (members : list string) : St W error :=
  e <- DeleteUsersInvitations (repo svc) entityID members ;;
  if_ refused e return_ ret e ;;
  roles.RemoveEntityMembers ProvisionManageService session entityID members.

Definition RoleRemoveMembers (session : authn.Session) (entityID roleID : string) (members : list string)
    : St W error :=
  '(ro, e) <- roles.RetrieveEntityRole (role_repo (repo svc)) entityID roleID ;;
  if_err e return_ ret (WrapE svcerr.ErrViewEntity e) ;;
  r <- (if is_nil (roles.BuiltInRoleActions ProvisionManageService (roles.Name ro)).2 then
          '(membersPage, e) <- roles.repo_RoleListMembers (role_repo (repo svc)) (roles.ID ro) 0 0 ;;
          if_err e return_ ret (WrapE svcerr.ErrViewEntity e) ;;
          if_ N.leb (roles.mp_Total membersPage) (N.of_nat (length members))
            return_ ret (Some svcerr.ErrRetainOneMember) ;;
          ret None
        else ret None) ;;
  if_err r return_ ret r ;;
  e <- DeleteUsersInvitations (repo svc) entityID members ;;
  if_ refused e return_ ret e ;;
  roles.RoleRemoveMembers now ProvisionManageService session entityID roleID members.

Definition RoleRemoveAllMembers (session : authn.Session) (entityID roleID : string) : St W error :=
  '(ro, e) <- roles.RetrieveEntityRole (role_repo (repo svc)) entityID roleID ;;
  if_err e return_ ret (WrapE svcerr.ErrViewEntity e) ;;
  if_ is_nil (roles.BuiltInRoleActions ProvisionManageService (roles.Name ro)).2
    return_ ret (Some svcerr.ErrRetainOneMember) ;;
  roles.RoleRemoveAllMembers now ProvisionManageService session entityID roleID.
End service.
End domains.

(** ** src/domains/private/service.go *)
Module domains_private.
Import domains.
Record service (W : Type) := { repo : Repository W; cache : Cache W }.
Arguments repo {W}. Arguments cache {W}.

Definition defLimit : Z := 100.

(** The conversion of a uint64 to int. *)
Definition int_of_uint64 (n : N) : Z :=
  let z := Z.of_N n in if Z.ltb z (2 ^ 63) then z else (z - 2 ^ 64)%Z.

Section service.
Context {W : Type} (svc : service W).

Definition RetrieveStatus (id : string) : St W (N * error) :=
  '(status, e) <- cache_Status (cache svc) id ;;
  match e with
  | None => ret (status, None)
  | Some _ =>
      '(dom, e) <- RetrieveDomainByID (repo svc) id ;;
      if_err e return_ ret (AllStatus, WrapE svcerr.ErrViewEntity e) ;;
      e <- SaveStatus (cache svc) id (Status dom) ;;
      if_err e return_ ret (AllStatus, WrapE svcerr.ErrUpdateEntity e) ;;
      ret (Status dom, None)
  end.

(** The loop over the pages after the first one; [fuel] bounds its
    iterations.  The pages that it collects are not used. *)
Fixpoint morePages (fuel : nat) (id : string) (total i : Z) (ds : list Domain) : St W (list Domain * error) :=
  match fuel with
  | O => ret (ds, None)
  | S fuel =>
      if Z.ltb i total then
        '(dp, e) <- repo_ListDomains (repo svc)
                      (Page0 <| pg_UserID := id |> <| pg_Offset := Z.to_N i |> <| pg_Limit := Z.to_N defLimit |>) ;;
        if_err e return_ ret (ds, e) ;;
        morePages fuel id total (i + defLimit) (ds ++ dp_Domains dp)
      else ret (ds, None)
  end.

(** Enough for the pages after the first one. *)
Definition pages_fuel (total : Z) : nat := S (Z.to_nat (total / defLimit)).

Definition DeleteUserFromDomains (id : string) : St W error :=
  '(domainsPage, e) <- repo_ListDomains (repo svc)
                         (Page0 <| pg_UserID := id |> <| pg_Limit := Z.to_N defLimit |>) ;;
  if_err e return_ ret e ;;
  if N.ltb (Z.to_N defLimit) (dp_Total domainsPage) then
    let total := int_of_uint64 (dp_Total domainsPage) in
    '(_, e) <- morePages (pages_fuel total) id total defLimit (dp_Domains domainsPage) ;;
    if_err e return_ ret e ;;
    ret None
  else ret None.

Definition RetrieveIDByRoute (route : string) : St W (string * error) :=
  '(id, e) <- cache_ID (cache svc) route ;;
  match e with
  | None => ret (id, None)
  | Some _ =>
      '(dom, e) <- RetrieveDomainByRoute (repo svc) route ;;
      if_err e return_ ret ("", WrapE svcerr.ErrViewEntity e) ;;
      e <- SaveID (cache svc) route (ID dom) ;;
      if_err e return_ ret ("", WrapE svcerr.ErrUpdateEntity e) ;;
      ret (ID dom, None)
  end.
End service.
End domains_private.

(** ** src/domains/cache/domains.go *)
Module domains_cache.
Definition ErrEmptyDomainID : err := Sentinel "domains_cache.ErrEmptyDomainID" CustomError "domain ID is empty".
Definition ErrEmptyRoute : err := Sentinel "domains_cache.ErrEmptyRoute" CustomError "route is empty".

Section cache.
Context {W : Type} (client : Redis W) (duration : Z).

Definition SaveStatus (domainID : string) (status : N) : St W error :=
  if_ domainID =s "" return_ ret (WrapE repoerr.ErrCreateEntity (Some ErrEmptyDomainID)) ;;
  if_ domains.Status_String status =s domains.Unknown
    return_ ret (WrapE repoerr.ErrCreateEntity (Some svcerr.ErrInvalidStatus)) ;;
  e <- redis_Set client domainID (domains.Status_String status) duration ;;
  if_err e return_ ret (WrapE repoerr.ErrCreateEntity e) ;;
  ret None.

Definition SaveID (route domainID : string) : St W error :=
  if_ route =s "" return_ ret (WrapE repoerr.ErrCreateEntity (Some ErrEmptyRoute)) ;;
  if_ domainID =s "" return_ ret (WrapE repoerr.ErrCreateEntity (Some ErrEmptyDomainID)) ;;
  e <- redis_Set client route domainID duration ;;
  if_err e return_ ret (WrapE repoerr.ErrCreateEntity e) ;;
  ret None.

Definition Status (domainID : string) : St W (N * error) :=
  '(st, e) <- redis_Get client domainID ;;
  if_err e return_ ret (domains.AllStatus, WrapE repoerr.ErrNotFound e) ;;
  let (status, e) := domains.ToStatus st in
  if_err e return_ ret (domains.AllStatus, WrapE repoerr.ErrNotFound e) ;;
  ret (status, None).

Definition ID (route : string) : St W (string * error) :=
  if_ route =s "" return_ ret ("", WrapE repoerr.ErrNotFound (Some ErrEmptyRoute)) ;;
  '(domainID, e) <- redis_Get client route ;;
  if_err e return_ ret ("", WrapE repoerr.ErrNotFound e) ;;
  ret (domainID, None).

Definition RemoveStatus (domainID : string) : St W error :=
  if_ domainID =s "" return_ ret (WrapE repoerr.ErrRemoveEntity (Some ErrEmptyDomainID)) ;;
  e <- redis_Del client [domainID] ;;
  if_err e return_ ret (WrapE repoerr.ErrRemoveEntity e) ;;
  ret None.

Definition RemoveID (route : string) : St W error :=
  if_ route =s "" return_ ret (WrapE repoerr.ErrRemoveEntity (Some ErrEmptyRoute)) ;;
  e <- redis_Del client [route] ;;
  if_err e return_ ret (WrapE repoerr.ErrRemoveEntity e) ;;
  ret None.

Definition NewDomainsCache : domains.Cache W :=
  {| domains.SaveStatus := SaveStatus; domains.SaveID := SaveID; domains.cache_Status := Status;
     domains.cache_ID := ID; domains.RemoveStatus := RemoveStatus; domains.RemoveID := RemoveID |}.
End cache.
End domains_cache.

(** ** What the services rely on

    [doms] is the table of domains and [store] the contents of Redis. *)
Definition updated (r : domains.DomainReq) (d : domains.Domain) (d' : domains.Domain) : Prop :=
  domains.ID d' = domains.ID d /\ domains.Route d' = domains.Route d
  /\ domains.Status d' = default (domains.Status d) (domains.rq_Status r).

Class DomainRepoLaws {W : Type} (R : domains.Repository W) (tuples : W -> gset Relationship)
    (doms : W -> gmap string domains.Domain) : Prop := {
  RetrieveDomainByID_ok id w d w' : domains.RetrieveDomainByID R id w = ((d, None), w') -> doms w !! id = Some d;
  doms_RetrieveDomainByID id : frames (domains.RetrieveDomainByID R id) doms;
  RetrieveDomainByRoute_ok route w d w' : domains.RetrieveDomainByRoute R route w = ((d, None), w') ->
    domains.Route d = route /\ doms w !! domains.ID d = Some d;
  doms_RetrieveDomainByRoute route : frames (domains.RetrieveDomainByRoute R route) doms;
  UpdateDomain_ok id r w d' w' : domains.repo_UpdateDomain R id r w = ((d', None), w') ->
    exists d, doms w !! id = Some d /\ updated r d d' /\ doms w' = <[id := d']> (doms w);
  UpdateDomain_err id r w d' e w' : domains.repo_UpdateDomain R id r w = ((d', Some e), w') -> doms w' = doms w;
  SaveDomain_ok d w d' w' : domains.SaveDomain R d w = ((d', None), w') ->
    doms w !! domains.ID d = None /\ doms w' = <[domains.ID d := d']> (doms w);
  SaveDomain_err d w d' e w' : domains.SaveDomain R d w = ((d', Some e), w') -> doms w' = doms w;
  DeleteDomain_ok id w w' : domains.DeleteDomain R id w = (None, w') -> doms w' = delete id (doms w);
  DeleteDomain_err id w e w' : domains.DeleteDomain R id w = (Some e, w') -> doms w' = doms w;
  tuples_SaveDomain d : frames (domains.SaveDomain R d) tuples;
  tuples_DeleteDomain id : frames (domains.DeleteDomain R id) tuples }.
#[export] Hint Resolve doms_RetrieveDomainByID doms_RetrieveDomainByRoute tuples_SaveDomain tuples_DeleteDomain : frame.

Section create.
Import policies domains.
Context {W : Type} (now : St W Time) (svc : service W).
Context (tuples grants : W -> gset Relationship) (doms : W -> gmap string Domain).
Context {RE : RolesEnv now (ProvisionManageService svc) tuples grants}.
Context {DL : DomainRepoLaws (repo svc) tuples doms}.
Context (now_doms : frames now doms) (id_doms : frames (idProvider svc) doms).
Context (id_tuples : frames (idProvider svc) tuples).
Context (roles_doms : forall d u ids os ms,
  frames (roles.AddNewEntitiesRoles now (ProvisionManageService svc) d u ids os ms) doms).
Hint Resolve now_doms id_doms id_tuples roles_doms : frame.

(** CreateDomain stores the domain with the policies of its one role and
    its link to the platform, or returns an error and leaves domains and
    policies as they were, unless a rollback failed, which the error says. *)
Theorem CreateDomain_atomic session d w d' rps e w'
    (Hrun : CreateDomain now svc session d w = ((d', rps, e), w')) :
  match e with
  | None => exists id (new : list roles.RoleProvision),
      doms w !! id = None /\ doms w' = <[id := d']> (doms w) /\ (ID d <> "" -> id = ID d)
      /\ tuples w' = tuples w ∪ rel_set ((new ≫= provision_policies (ProvisionManageService svc) id)
           ++ [organizationPolicy id])
      /\ roles.EntityID <$> (roles.Role_ <$> new) = [id]
  | Some _ =>
      (doms w' = doms w \/ repo_undo_failed errRollbackRepo e)
      /\ (tuples w' = tuples w \/ policies_undo_failed errCreateDomainPolicy errRollbackRepo e)
  end.
Proof.
  revert Hrun. unfold CreateDomain, bind at 1. cbv zeta.
  match goal with |- context [let (_, _) := ?m w in _] => destruct (m w) as [[d1 er] w1] eqn:E1 end.
  assert (H1 : doms w1 = doms w /\ tuples w1 = tuples w /\ (ID d <> "" -> ID d1 = ID d)).
  { revert E1. destruct (_ =s "") eqn:Ei; go_bool; [|by intros [= <- _ <-]]. unfold bind, ret.
    destruct (idProvider svc w) as [[i ei] w2] eqn:Eid. frame_all doms. frame_all tuples.
    destruct ei; intros [= <- _ <-]; done. }
  destruct H1 as (Hd1 & Ht1 & Hid1). destruct er as [er|]; unfold ret at 1.
  { intros [= <- <- <- <-]. by split; left. }
  destruct (_ && _); [intros [= <- <- <- <-]; by split; left|].
  unfold bind at 1. destruct (now w1) as [t w2] eqn:E2. frame_all doms.
  pose proof (frames_eq _ tuples _ _ _ now_tuples E2) as Ht2. unfold bind at 1.
  destruct (SaveDomain (repo svc) _ w2) as [[dom er] w3] eqn:E3. frame_all tuples. destruct er as [er|].
  { apply SaveDomain_err in E3. destruct (Errors.Contains _ _); unfold ret.
    - intros [= <- <- <- <-]. split; left; congruence.
    - destruct (WrapE svcerr.ErrCreateEntity (Some er)) as [x|] eqn:Hx; [|by apply WrapE_not_nil in Hx].
      intros [= <- <- <- <-]. split; left; congruence. }
  apply SaveDomain_ok in E3 as [Hnew Hst]. simpl in Hnew, Hst. intros Hd.
  apply (create_entities now _ tuples grants doms) in Hd;
    [|by repeat constructor|apply roles_doms|apply tuples_DeleteDomain].
  destruct e as [e|].
  - destruct Hd as [(w4 & er & Hv & E4 & Hor) Htup]. split; [|by rewrite <- Ht1, <- Ht2, <- H0].
    destruct er as [er|]; [right; by destruct Hor|]. left.
    apply DeleteDomain_ok in E4. rewrite E4, Hv, Hst. simpl.
    rewrite delete_insert_id by exact Hnew. congruence.
  - destruct Hd as (Hv & rp & new & Ha & Htup & Hids). simplify_eq.
    exists (ID d1), new. split_and!; [congruence|congruence|done| |done].
    simpl in Htup. rewrite Htup. f_equal. congruence.
Qed.
End create.

(** ** The cached status of a domain *)
Lemma ToStatus_String s : domains.Status_String s <> domains.Unknown ->
  domains.ToStatus (domains.Status_String s) = (s, None).
Proof.
  unfold domains.Status_String. intros H.
  repeat match goal with |- context [N.eqb ?a ?b] => destruct (N.eqb_spec a b); [by subst|] end. done.
Qed.

Section status_cache.
Import domains.
Context {W : Type} (now : St W Time) (svc : service W) (priv : domains_private.service W).
Context (client : Redis W) (d : Z) (store : W -> gmap string string).
Context (tuples : W -> gset Relationship) (doms : W -> gmap string Domain).
Context {DL : DomainRepoLaws (repo svc) tuples doms} {RL : RedisLaws client store}.
(** Both services use the same repository and the Redis cache; the database
    is not in Redis and Redis not in the database. *)
Context (same_repo : domains_private.repo priv = repo svc).
Context (svc_cache : cache svc = domains_cache.NewDomainsCache client d).
Context (priv_cache : domains_private.cache priv = domains_cache.NewDomainsCache client d).
Context (now_doms : frames now doms) (now_store : frames now store).
Context (get_store : forall id, frames (RetrieveDomainByID (repo svc) id) store).
Context (route_store : forall r, frames (RetrieveDomainByRoute (repo svc) r) store).
Context (update_store : forall id r, frames (repo_UpdateDomain (repo svc) id r) store).
Context (set_doms : forall k v t, frames (redis_Set client k v t) doms).
Context (redis_get_doms : forall k, frames (redis_Get client k) doms).
Context (del_doms : forall ks, frames (redis_Del client ks) doms).
(** Of CreateDomain: saving and deleting a row, and the roles, leave Redis
    alone, the roles the domains, and no fresh identifier reads as a status. *)
Context (save_store : forall dom, frames (SaveDomain (repo svc) dom) store).
Context (delete_store : forall id, frames (DeleteDomain (repo svc) id) store).
Context (id_doms : frames (idProvider svc) doms) (id_store : frames (idProvider svc) store).
Context (id_fresh : forall w i w', idProvider svc w = ((i, None), w') -> (ToStatus i).2 <> None).
Context (roles_doms : forall dom u ids os ms,
  frames (roles.AddNewEntitiesRoles now (ProvisionManageService svc) dom u ids os ms) doms).
Context (roles_store : forall dom u ids os ms,
  frames (roles.AddNewEntitiesRoles now (ProvisionManageService svc) dom u ids os ms) store).
Hint Resolve now_doms now_store get_store route_store update_store set_doms redis_get_doms del_doms
  save_store delete_store id_doms id_store roles_doms roles_store : frame.

(** Every status that the cache can answer is the one of the database; no
    identifier of a domain reads as a status. *)
Definition coherent (w : W) : Prop :=
  store w !! "" = None
  /\ (forall id st s, store w !! id = Some st -> ToStatus st = (s, None) ->
        exists dom, doms w !! id = Some dom /\ Status dom = s)
  /\ forall id dom, doms w !! id = Some dom -> (ToStatus id).2 <> None.

Lemma coherent_ext w w' : store w' = store w -> doms w' = doms w -> coherent w -> coherent w'.
Proof. unfold coherent. by intros -> ->. Qed.

Lemma coherent_set k st w w' : k <> "" -> store w' = <[k := st]> (store w) -> doms w' = doms w ->
  (forall s, ToStatus st = (s, None) -> exists dom, doms w !! k = Some dom /\ Status dom = s) ->
  coherent w -> coherent w'.
Proof.
  intros Hk Hs Hd Hst (H1 & H2 & H3). unfold coherent. rewrite Hs, Hd. split_and!; [|intros id st' s|done].
  - by rewrite lookup_insert_ne.
  - intros [[<- <-]|[_ Hl]]%lookup_insert_Some; [apply Hst|by apply H2].
Qed.

(** Entries may have gone. *)
Lemma coherent_sub w w' : store w' ⊆ store w -> doms w' = doms w -> coherent w -> coherent w'.
Proof.
  intros Hs Hd (H1 & H2 & H3). unfold coherent. rewrite Hd. split_and!; [|intros id st s Hk|done].
  - destruct (store w' !! "") eqn:E; [|done]. eapply lookup_weaken in E; [|exact Hs]. congruence.
  - eapply H2. by eapply lookup_weaken.
Qed.

Lemma coherent_changed id dom dom' w w' : doms w !! id = Some dom -> doms w' = <[id := dom']> (doms w) ->
  store w' ⊆ store w -> Status dom' = Status dom \/ store w' !! id = None ->
  coherent w -> coherent w'.
Proof.
  intros Hl Hd Hs Hst (H1 & H2 & H3).
  assert (Hsub : forall k st, store w' !! k = Some st -> store w !! k = Some st) by (intros; by eapply lookup_weaken).
  split_and!; [|intros k st s Hk Hto|intros k x]; rewrite ?Hd.
  - destruct (store w' !! "") eqn:E; [|done]. apply Hsub in E. congruence.
  - destruct (decide (k = id)) as [->|Hne].
    + rewrite lookup_insert_eq. exists dom'. split; [done|]. destruct Hst as [->|Hst]; [|congruence].
      destruct (H2 id st s (Hsub _ _ Hk) Hto) as (x & Hx & <-). congruence.
    + rewrite lookup_insert_ne by done. apply (H2 k st); [by apply Hsub|done].
  - intros [[<- _]|[_ Hx]]%lookup_insert_Some; by eapply H3.
Qed.

(** A new domain has no entry yet, nor one whose row is rolled back. *)
Lemma coherent_new id dom w w' : doms w !! id = None -> (ToStatus id).2 <> None ->
  doms w' = doms w \/ doms w' = <[id := dom]> (doms w) -> store w' = store w -> coherent w -> coherent w'.
Proof.
  intros Hn Hid [Hd|Hd] Hs Hc; [by apply (coherent_ext w)|]. destruct Hc as (H1 & H2 & H3).
  unfold coherent. rewrite Hs, Hd. split_and!; [done|intros k st s Hk Hto|intros k x].
  - destruct (H2 k st s Hk Hto) as (y & Hy & Hst). exists y. rewrite lookup_insert_ne; [done|]. congruence.
  - intros [[<- _]|[_ Hx]]%lookup_insert_Some; [done|by eapply H3].
Qed.

(** What the cache answers, and what the entries it saves are. *)
Lemma Status_hit id w s e w' : domains_cache.Status client id w = ((s, e), w') ->
  store w' = store w /\ doms w' = doms w
  /\ (e = None -> exists st, store w !! id = Some st /\ ToStatus st = (s, None)).
Proof.
  unfold domains_cache.Status, bind, ret. destruct (redis_Get client id w) as [[st er] w1] eqn:E.
  frame_all doms. apply Get_ok in E as [Hs E]. destruct er as [er|].
  { intros [= <- <- <-]. split_and!; [done..|]. by intros ?%WrapE_not_nil. }
  destruct (ToStatus st) as [s0 [e0|]] eqn:Et; intros [= <- <- <-]; split_and!; try done.
  - by intros ?%WrapE_not_nil.
  - intros _. by exists st.
Qed.

Lemma SaveStatus_ok id s w e w' : domains_cache.SaveStatus client d id s w = (e, w') ->
  doms w' = doms w
  /\ (store w' = store w
      \/ id <> "" /\ ToStatus (Status_String s) = (s, None) /\ store w' = <[id := Status_String s]> (store w)).
Proof.
  unfold domains_cache.SaveStatus. destruct (id =s "") eqn:Ei; go_bool; [intros [= <- <-]; auto|].
  destruct (_ =s _) eqn:Eu; go_bool; [intros [= <- <-]; auto|].
  unfold bind, ret. destruct (redis_Set _ _ _ _ w) as [er w1] eqn:E. frame_all doms. apply Set_ok in E.
  intros Hr. assert (w' = w1) as -> by (destruct er; by injection Hr). split; [done|].
  destruct E as [E|[_ E]]; [right|by left]. by split_and!; [|apply ToStatus_String|].
Qed.

Lemma RetrieveStatus_spec id w s e w' : domains_private.RetrieveStatus priv id w = ((s, e), w') ->
  coherent w -> coherent w' /\ doms w' = doms w
    /\ (e = None -> exists dom, doms w !! id = Some dom /\ Status dom = s).
Proof.
  unfold domains_private.RetrieveStatus, bind at 1. rewrite priv_cache, same_repo. simpl.
  destruct (domains_cache.Status client id w) as [[s0 er] w1] eqn:E1. apply Status_hit in E1 as (Hs1 & Hd1 & E1).
  intros Hrun Hc. assert (Hc1 : coherent w1) by (by apply (coherent_ext w)). revert Hrun.
  destruct er as [er|]; unfold ret at 1.
  - unfold bind at 1. destruct (RetrieveDomainByID (repo svc) id w1) as [[dom er2] w2] eqn:E2.
    frame_all store. frame_all doms. destruct er2 as [er2|].
    { intros [= <- <- <-]. split_and!; [by apply (coherent_ext w1)|congruence|by intros ?%WrapE_not_nil]. }
    apply RetrieveDomainByID_ok in E2. unfold bind, ret.
    destruct (domains_cache.SaveStatus client d id (Status dom) w2) as [er3 w3] eqn:E3.
    apply SaveStatus_ok in E3 as [Hd3 E3]. intros Hr.
    assert (w' = w3) as -> by (destruct er3; by injection Hr).
    assert (Hdom : doms w !! id = Some dom) by congruence. split_and!; [|congruence|].
    + destruct E3 as [Hs3|(Hne & Hto & Hs3)]; [apply (coherent_ext w1); congruence|].
      apply (coherent_set id (Status_String (Status dom)) w1); [done|congruence..| |done].
      intros s'. rewrite Hto, Hd1. intros [= <-]. by exists dom.
    + destruct er3; [by injection Hr as <- <-; intros ?%WrapE_not_nil|]. injection Hr as <- <-. intros _. by exists dom.
  - intros [= <- <- <-]. split_and!; [done..|]. intros _. destruct (E1 eq_refl) as (st & Hst & Hto).
    destruct Hc as (_ & H2 & _). by eapply H2.
Qed.

(** A successful change of the status, or one that changed nothing; where
    only the removal of the cached status failed, the stale one stays. *)
Lemma changeStatus_spec st session id w x e w' : changeStatus now svc st session id w = ((x, e), w') ->
  (e = None \/ doms w' = doms w) -> coherent w ->
  coherent w' /\ (e = None -> exists dom, doms w' !! id = Some dom /\ Status dom = st).
Proof.
  unfold changeStatus, bind at 1. destruct (now w) as [t w1] eqn:E1.
  frame_all store. frame_all doms. unfold bind at 1.
  destruct (repo_UpdateDomain (repo svc) id _ w1) as [[dom er] w2] eqn:E2. frame_all store.
  destruct er as [er|]; unfold ret at 1.
  { apply UpdateDomain_err in E2. intros [= <- <- <-] _ Hc.
    split; [apply (coherent_ext w); [congruence..|done]|by intros ?%WrapE_not_nil]. }
  apply UpdateDomain_ok in E2 as (dom0 & Hl & (_ & _ & Hu) & Hd). simpl in Hu.
  rewrite svc_cache. unfold bind. simpl. unfold domains_cache.RemoveStatus.
  destruct (String.eqb_spec id "") as [->|Hid].
  { unfold ret. intros [= <- <- <-] [?%WrapE_not_nil|Hsame] Hc; [done|].
    split; [by apply (coherent_ext w); [congruence|congruence|]|by intros ?%WrapE_not_nil]. }
  unfold bind, ret. destruct (redis_Del client [id] w2) as [er w3] eqn:E3. frame_all doms. destruct er as [er|].
  - intros Hr [->|Hsame] Hc.
    { destruct (WrapE repoerr.ErrRemoveEntity _) eqn:Hx; [|by apply WrapE_not_nil in Hx].
      injection Hr as _ Hr _. by apply WrapE_not_nil in Hr. }
    destruct (WrapE repoerr.ErrRemoveEntity _) eqn:Hx; [|by apply WrapE_not_nil in Hx].
    injection Hr as <- <- <-. split; [|by intros ?%WrapE_not_nil].
    apply (coherent_sub w); [|done|done]. apply Del_ok in E3 as [E3|[_ E3]]; rewrite E3, H1, H; [|done].
    apply map_filter_subseteq.
  - apply (Del_one client store) in E3. intros [= <- <- <-] _ Hc.
    assert (Hdel : store w3 = delete id (store w)) by congruence. split.
    + apply (coherent_changed id dom0 dom w); [congruence|congruence| | |done].
      * rewrite Hdel. apply delete_subseteq.
      * right. by rewrite Hdel, lookup_delete_eq.
    + intros _. exists dom. by rewrite H2, Hd, lookup_insert_eq.
Qed.

Lemma UpdateDomain_spec session id r w x e w' : UpdateDomain now svc session id r w = ((x, e), w') ->
  rq_Status r = None -> coherent w -> coherent w'.
Proof.
  unfold UpdateDomain, bind at 1. destruct (now w) as [t w1] eqn:E1. frame_all store. frame_all doms.
  unfold bind, ret. destruct (repo_UpdateDomain (repo svc) id _ w1) as [[dom er] w2] eqn:E2. frame_all store.
  destruct er as [er|]; intros [= <- <- <-] Hr Hc.
  { apply UpdateDomain_err in E2. apply (coherent_ext w); [congruence..|done]. }
  apply UpdateDomain_ok in E2 as (dom0 & Hl & (_ & _ & Hu) & Hd). simpl in Hu. rewrite Hr in Hu. simpl in Hu.
  apply (coherent_changed id dom0 dom w); [congruence|congruence| |by left|done].
  by rewrite H1, H.
Qed.

Lemma CreateDomain_spec session dom w r w' : CreateDomain now svc session dom w = (r, w') ->
  ID dom = "" \/ (ToStatus (ID dom)).2 <> None -> coherent w -> coherent w'.
Proof.
  intros Hrun Hid Hc. revert Hrun. unfold CreateDomain, bind at 1. cbv zeta.
  match goal with |- context [let (_, _) := ?m w in _] => destruct (m w) as [[d1 er] w1] eqn:E1 end.
  assert (H1 : doms w1 = doms w /\ store w1 = store w /\ (er = None -> (ToStatus (ID d1)).2 <> None)).
  { revert E1. destruct (_ =s "") eqn:Ei; go_bool.
    - unfold bind, ret. destruct (idProvider svc w) as [[i ei] w2] eqn:Eid. frame_all doms. frame_all store.
      destruct ei; intros [= <- <- <-]; (split_and!; [done..|]); [by intros ?%WrapE_not_nil|].
      intros _. simpl. by eapply id_fresh.
    - intros [= <- <- <-]. split_and!; [done..|]. intros _. simpl. destruct Hid as [Hid|Hid]; [|done].
      simpl in Ei. congruence. }
  destruct H1 as (Hd1 & Hs1 & Hid1). destruct er as [er|]; unfold ret at 1.
  { intros [= <- <-]. by apply (coherent_ext w). }
  specialize (Hid1 eq_refl).
  destruct (_ && _); [intros [= <- <-]; by apply (coherent_ext w)|].
  unfold bind at 1. destruct (now w1) as [t w2] eqn:E2. frame_all doms. frame_all store. unfold bind at 1.
  destruct (SaveDomain (repo svc) _ w2) as [[dm er] w3] eqn:E3. frame_all store. destruct er as [er|].
  { apply SaveDomain_err in E3. destruct (Errors.Contains _ _); unfold ret; intros [= <- <-];
      apply (coherent_ext w); congruence. }
  apply SaveDomain_ok in E3 as [Hnew Hst]. simpl in Hnew, Hst.
  assert (Hn : doms w !! ID d1 = None) by congruence.
  unfold defer_err, bind, ret. simpl.
  destruct (roles.AddNewEntitiesRoles _ _ _ _ _ _ _ w3) as [[rps er] w4] eqn:E4. frame_all doms. frame_all store.
  assert (Hw4 : coherent w4) by (apply (coherent_new (ID d1) dm w); [done|done|right; congruence|congruence|done]).
  destruct er as [er|]; [|intros [= _ <-]; exact Hw4].
  destruct (WrapE errCreateDomainPolicy _) eqn:Hx; [|by apply WrapE_not_nil in Hx].
  unfold rollbackSave, bind, ret. destruct (DeleteDomain (repo svc) _ w4) as [er5 w5] eqn:E5. frame_all store.
  assert (Hw5 : coherent w5).
  { destruct er5 as [er5|].
    - apply DeleteDomain_err in E5. by apply (coherent_ext w4).
    - apply DeleteDomain_ok in E5. apply (coherent_ext w); [congruence| |done]. simpl in E5. rewrite E5.
      replace (doms w4) with (<[ID d1 := dm]> (doms w)) by congruence. by apply delete_insert_id. }
  destruct er5; intros [= _ <-]; exact Hw5.
Qed.

Lemma RetrieveIDByRoute_spec route w x e w' : domains_private.RetrieveIDByRoute priv route w = ((x, e), w') ->
  coherent w -> coherent w'.
Proof.
  unfold domains_private.RetrieveIDByRoute, bind at 1. rewrite priv_cache, same_repo. simpl.
  unfold domains_cache.ID. destruct (route =s "") eqn:Er; go_bool.
  { unfold ret at 1. destruct (WrapE repoerr.ErrNotFound _) eqn:Hx; [|by apply WrapE_not_nil in Hx].
    unfold bind, ret. subst route. destruct (RetrieveDomainByRoute (repo svc) "" w) as [[dom er] w1] eqn:E1.
    frame_all store. frame_all doms. destruct er as [er|]; intros [= <- <- <-]; by apply coherent_ext. }
  unfold bind at 1, ret at 1. destruct (redis_Get client route w) as [[i er] w1] eqn:E1.
  frame_all doms. apply Get_ok in E1 as [Hs1 _]. destruct er as [er|]; unfold ret at 1.
  2: { intros [= <- <- <-]. by apply coherent_ext. }
  destruct (WrapE repoerr.ErrNotFound _) eqn:Hx; [|by apply WrapE_not_nil in Hx]. unfold bind at 1.
  destruct (RetrieveDomainByRoute (repo svc) route w1) as [[dom er2] w2] eqn:E2. frame_all store. frame_all doms.
  destruct er2 as [er2|]; [intros [= <- <- <-]; apply coherent_ext; congruence|].
  apply RetrieveDomainByRoute_ok in E2 as [_ Hdom]. unfold domains_cache.SaveID.
  apply String.eqb_neq in Er as Hr. rewrite Hr. destruct (ID dom =s ""); unfold bind, ret.
  { destruct (WrapE repoerr.ErrCreateEntity _) eqn:Hy; [|by apply WrapE_not_nil in Hy].
    intros [= <- <- <-]. apply coherent_ext; congruence. }
  destruct (redis_Set client route (ID dom) d w2) as [er3 w3] eqn:E3. frame_all doms.
  apply Set_ok in E3. intros Hrun Hc. assert (w' = w3) as ->.
  { destruct er3; [destruct (WrapE repoerr.ErrCreateEntity _)|]; by injection Hrun. }
  destruct E3 as [E3|[_ E3]]; [|apply (coherent_ext w); congruence].
  apply (coherent_set route (ID dom) w); [done|congruence|congruence| |done].
  intros s Hto. destruct Hc as (_ & _ & Hids). rewrite H in Hdom. specialize (Hids _ _ Hdom).
  by rewrite Hto in Hids.
Qed.

(** A call of either service that reads or writes a status or the cache, with
    whatever result, and the expiry of entries.  Left out are a call that
    changed the status and then failed to remove the cached one, and an
    UpdateDomain with a Status, which does not touch the cache. *)
Inductive status_step : W -> W -> Prop :=
| step_changeStatus st session id w x e w' : e = None \/ doms w' = doms w ->
    changeStatus now svc st session id w = ((x, e), w') -> status_step w w'
| step_UpdateDomain session id rq w r w' : rq_Status rq = None ->
    UpdateDomain now svc session id rq w = (r, w') -> status_step w w'
| step_CreateDomain session dom w r w' : ID dom = "" \/ (ToStatus (ID dom)).2 <> None ->
    CreateDomain now svc session dom w = (r, w') -> status_step w w'
| step_RetrieveStatus id w r w' : domains_private.RetrieveStatus priv id w = (r, w') -> status_step w w'
| step_RetrieveIDByRoute route w r w' : domains_private.RetrieveIDByRoute priv route w = (r, w') -> status_step w w'
| step_expire w w' : store w' ⊆ store w -> doms w' = doms w -> status_step w w'.

Lemma status_steps_coherent w w' : rtc status_step w w' -> coherent w -> coherent w'.
Proof.
  induction 1 as [|w1 w2 w3 Hstep _ IH]; [done|]. intros Hc. apply IH. clear IH.
  destruct Hstep as [st session id w x e w' Hor E|session id rq w [x e] w' Hrq E|session dom w r w' Hid E
    |id w [s e] w' E|route w [s e] w' E|w w' Hs Hd].
  - by eapply changeStatus_spec.
  - by eapply UpdateDomain_spec.
  - by eapply CreateDomain_spec.
  - by eapply RetrieveStatus_spec.
  - by eapply RetrieveIDByRoute_spec.
  - by eapply coherent_sub.
Qed.

(** C22: the status that RetrieveStatus answers, from the cache or from the
    database, is the stored one, after every sequence of CreateDomain,
    UpdateDomain without a Status, EnableDomain, DisableDomain, FreezeDomain,
    RetrieveStatus, RetrieveIDByRoute and expiries of entries, whatever
    Redis fails to do, except for a status change whose removal of the cached
    status failed; so a successful EnableDomain, DisableDomain or FreezeDomain
    is in effect at once.  Identifiers of domains are none of the words that
    read as a status. *)
Theorem domain_status_fresh w w1 id (Hw : coherent w) (Hsteps : rtc status_step w w1) :
  (forall s w2, domains_private.RetrieveStatus priv id w1 = ((s, None), w2) ->
     exists dom, doms w1 !! id = Some dom /\ Status dom = s)
  /\ forall st session x w2 s w3, changeStatus now svc st session id w1 = ((x, None), w2) ->
       domains_private.RetrieveStatus priv id w2 = ((s, None), w3) -> s = st.
Proof.
  assert (Hc : coherent w1) by (by eapply status_steps_coherent). split.
  - intros s w2 E. eapply RetrieveStatus_spec in E as (_ & _ & E); [|done]. by apply E.
  - intros st session x w2 s w3 E1 E2. eapply changeStatus_spec in E1 as [Hc2 E1]; [|by left|done].
    eapply RetrieveStatus_spec in E2 as (_ & _ & E2); [|done].
    destruct (E1 eq_refl) as (d1 & H1 & <-). destruct (E2 eq_refl) as (d2 & H2 & <-). congruence.
Qed.
End status_cache.

(** ** Invitations

    [inv] is the table of invitations, with the invited user and the domain
    as key. *)
Section invitation_laws.
Import domains.
Context {W : Type} (R : Repository W) (inv : W -> gmap (string * string) Invitation).
Definition inv_key (i : Invitation) : string * string := (InviteeUserID i, DomainID i).

(** The row [k] is [i] with the fields of an update. *)
Definition row_becomes (k : string * string) (f : Invitation -> Invitation) (w w' : W) : Prop :=
  exists i, inv w !! k = Some i /\ inv w' = <[k := f i]> (inv w).

Class InvitationRepoLaws : Prop := {
  inv_RetrieveInvitation u d : frames (RetrieveInvitation R u d) inv;
  RetrieveInvitation_ok u d w i w' : RetrieveInvitation R u d w = ((i, None), w') ->
    inv w !! (u, d) = Some i /\ InviteeUserID i = u /\ DomainID i = d;
  SaveInvitation_ok i w w' : SaveInvitation R i w = (None, w') ->
    inv w !! inv_key i = None
    /\ exists i', ConfirmedAt i' = zeroTime /\ RejectedAt i' = zeroTime /\ inv w' = <[inv_key i := i']> (inv w);
  SaveInvitation_err i w e w' : SaveInvitation R i w = (Some e, w') -> inv w' = inv w;
  UpdateConfirmation_ok i w w' : UpdateConfirmation R i w = (None, w') ->
    row_becomes (inv_key i) (fun o => o <| ConfirmedAt := ConfirmedAt i |> <| inv_UpdatedAt := inv_UpdatedAt i |>) w w';
  UpdateConfirmation_err i w e w' : UpdateConfirmation R i w = (Some e, w') -> inv w' = inv w;
  UpdateRejection_ok i w w' : UpdateRejection R i w = (None, w') ->
    row_becomes (inv_key i) (fun o => o <| RejectedAt := RejectedAt i |> <| inv_UpdatedAt := inv_UpdatedAt i |>) w w';
  UpdateRejection_err i w e w' : UpdateRejection R i w = (Some e, w') -> inv w' = inv w;
  DeleteUsersInvitations_ok d us w w' : DeleteUsersInvitations R d us w = (None, w') ->
    inv w' = filter (fun kv => ~ (kv.1.2 = d /\ kv.1.1 ∈ us)) (inv w);
  DeleteUsersInvitations_err d us w e w' : DeleteUsersInvitations R d us w = (Some e, w') -> inv w' = inv w;
  DeleteUsersInvitations_none d us w e w' : DeleteUsersInvitations R d us w = (e, w') ->
    is_sentinel e repoerr.ErrNotFound = true -> forall u, u ∈ us -> inv w !! (u, d) = None }.
End invitation_laws.
Arguments inv_RetrieveInvitation {W R inv _}. Arguments RetrieveInvitation_ok {W R inv _}.
Arguments SaveInvitation_ok {W R inv _}. Arguments SaveInvitation_err {W R inv _}.
Arguments UpdateConfirmation_ok {W R inv _}. Arguments UpdateConfirmation_err {W R inv _}.
Arguments UpdateRejection_ok {W R inv _}. Arguments UpdateRejection_err {W R inv _}.
Arguments DeleteUsersInvitations_ok {W R inv _}. Arguments DeleteUsersInvitations_err {W R inv _}.
Arguments DeleteUsersInvitations_none {W R inv _}.
#[export] Hint Resolve inv_RetrieveInvitation : frame.

(** The state of an invitation, as the queries of the repository read it. *)
Definition state_of (i : domains.Invitation) : N :=
  if negb (IsZero (domains.ConfirmedAt i)) then domains.Accepted
  else if negb (IsZero (domains.RejectedAt i)) then domains.Rejected
  else domains.Pending.

(** The calls that may change an invitation, and the specification of each:
    which invitation it is about, which states it may take it from, and the
    state it leaves it in; [ok] is whether the call succeeded.  Everything
    else stays as it was. *)
Inductive invitation_call :=
| CSend (session : authn.Session) (i : domains.Invitation)
| CAccept (session : authn.Session) (domainID : string)
| CReject (session : authn.Session) (domainID : string)
| CDelete (session : authn.Session) (inviteeUserID domainID : string)
| CRemoveEntityMembers (session : authn.Session) (entityID : string) (members : list string)
| CRoleRemoveMembers (session : authn.Session) (entityID roleID : string) (members : list string).

Definition lifecycle (c : invitation_call) (ok : bool) (k : string * string) (s s' : option N) : Prop :=
  match c with
  | CSend session i =>
      if ok && bool_decide (k = inv_key i)
      then (if domains.Resend i then s = Some domains.Pending \/ s = Some domains.Rejected else s = None)
           /\ s' = Some domains.Pending
      else s' = s
  | CAccept session d =>
      if ok && bool_decide (k = (authn.UserID session, d))
      then s = Some domains.Pending /\ s' = Some domains.Accepted else s' = s
  | CReject session d =>
      if ok && bool_decide (k = (authn.UserID session, d))
      then s = Some domains.Pending /\ s' = Some domains.Rejected else s' = s
  | CDelete session u d =>
      if ok && bool_decide (k = (u, d))
      then (authn.UserID session = u \/ s = Some domains.Pending) /\ s' = None else s' = s
  | CRemoveEntityMembers session id ms | CRoleRemoveMembers session id _ ms =>
      if bool_decide (k.2 = id /\ k.1 ∈ ms) then s' = None \/ (ok = false /\ s' = s) else s' = s
  end.

Section invitations.
Import domains.
Context {W : Type} (now : St W Time) (svc : service W) (inv : W -> gmap (string * string) Invitation).
Context {IL : InvitationRepoLaws (repo svc) inv}.
Context (now_nonzero : forall w t w', now w = (t, w') -> t <> zeroTime).
(** The other tables, and the role operations, are apart from the
    invitations. *)
Context (now_inv : frames now inv) (get_inv : forall id, frames (RetrieveDomainByID (repo svc) id) inv).
Context (role_inv : forall id, frames (repo_RetrieveRole (repo svc) id) inv).
Context (entity_role_inv : forall e r, frames (roles.RetrieveEntityRole (role_repo (repo svc)) e r) inv).
Context (list_members_inv : forall r o l, frames (roles.repo_RoleListMembers (role_repo (repo svc)) r o l) inv).
Context (add_members_inv : forall s e r ms,
  frames (roles.RoleAddMembers now (ProvisionManageService svc) s e r ms) inv).
Context (remove_members_inv : forall s e r ms,
  frames (roles.RoleRemoveMembers now (ProvisionManageService svc) s e r ms) inv).
Context (remove_entity_inv : forall s e ms,
  frames (roles.RemoveEntityMembers (ProvisionManageService svc) s e ms) inv).
Hint Resolve now_inv get_inv role_inv entity_role_inv list_members_inv add_members_inv remove_members_inv
  remove_entity_inv : frame.

Definition inv_state (w : W) (k : string * string) : option N := state_of <$> inv w !! k.

(** No invitation is both confirmed and rejected. *)
Definition exclusive (w : W) : Prop :=
  forall k i, inv w !! k = Some i -> ConfirmedAt i = zeroTime \/ RejectedAt i = zeroTime.

(** Every invitation moves as [spec] says. *)
Definition evolves (spec : string * string -> option N -> option N -> Prop) (w w' : W) : Prop :=
  (forall k, spec k (inv_state w k) (inv_state w' k)) /\ (exclusive w -> exclusive w').

Lemma evolves_same (spec : string * string -> option N -> option N -> Prop) w w' :
  (forall k s, spec k s s) -> inv w' = inv w -> evolves spec w w'.
Proof. intros Hs H. unfold evolves, inv_state, exclusive. rewrite H. by split. Qed.

Lemma evolves_trans spec w w1 w' : inv w1 = inv w -> evolves spec w1 w' -> evolves spec w w'.
Proof. unfold evolves, inv_state, exclusive. by intros ->. Qed.

(** One invitation is written. *)
Lemma evolves_insert (spec : string * string -> option N -> option N -> Prop) k i w w' :
  inv w' = <[k := i]> (inv w) -> spec k (inv_state w k) (Some (state_of i)) ->
  (forall k' s, k' <> k -> spec k' s s) -> ConfirmedAt i = zeroTime \/ RejectedAt i = zeroTime -> evolves spec w w'.
Proof.
  intros Hw Hk Hs Hex. unfold evolves, inv_state, exclusive in *. rewrite Hw. split.
  - intros k'. destruct (decide (k' = k)) as [->|Hne]; [by rewrite lookup_insert_eq|].
    rewrite lookup_insert_ne by done. by apply Hs.
  - intros He k' j [[<- <-]|[_ Hj]]%lookup_insert_Some; [done|by eapply He].
Qed.

Lemma evolves_delete (spec : string * string -> option N -> option N -> Prop) d us w w' :
  DeleteUsersInvitations (repo svc) d us w = (None, w') ->
  (forall k, k.2 = d /\ k.1 ∈ us -> spec k (inv_state w k) None) ->
  (forall k s, ~ (k.2 = d /\ k.1 ∈ us) -> spec k s s) -> evolves spec w w'.
Proof.
  intros H Hd Hs. apply DeleteUsersInvitations_ok in H. unfold evolves, inv_state, exclusive in *. rewrite H. split.
  - intros k. rewrite map_lookup_filter. destruct (decide (k.2 = d /\ k.1 ∈ us)) as [Hk|Hk].
    + replace (_ <$> _ ≫= _) with (@None N); [by apply Hd|].
      destruct (inv w !! k); simpl; [|done]. by rewrite option_guard_False by naive_solver.
    + replace (inv w !! k ≫= _) with (inv w !! k); [by apply Hs|].
      destruct (inv w !! k); simpl; [|done]. by rewrite option_guard_True by done.
  - intros He k i [Hi _]%map_lookup_filter_Some. by eapply He.
Qed.

Lemma populate_key i dom w i' w' : populateDetails svc i dom w = ((i', None), w') ->
  inv w' = inv w /\ InviteeUserID i' = InviteeUserID i /\ DomainID i' = DomainID i
  /\ inv_RoleID i' = inv_RoleID i /\ ConfirmedAt i' = ConfirmedAt i /\ RejectedAt i' = RejectedAt i.
Proof.
  unfold populateDetails, bind at 1.
  match goal with |- context [let (_, _) := ?m w in _] => destruct (m w) as [[i1 er] w1] eqn:E1 end.
  destruct er as [er|]; [done|].
  assert (H1 : inv w1 = inv w /\ InviteeUserID i1 = InviteeUserID i /\ DomainID i1 = DomainID i
    /\ inv_RoleID i1 = inv_RoleID i /\ ConfirmedAt i1 = ConfirmedAt i /\ RejectedAt i1 = RejectedAt i).
  { revert E1. unfold bind, ret. destruct (_ =s ""); [|by intros [= <- <-]].
    destruct (RetrieveDomainByID (repo svc) dom w) as [[x [ex|]] w2] eqn:Ed; frame_all inv; [|by intros [= <- <-]].
    intros H0. injection H0 as _ He _. by apply WrapE_inv in He. }
  unfold bind, ret. destruct (inv_RoleName i1 =s ""); [|by intros [= <- <-]].
  destruct (repo_RetrieveRole (repo svc) _ w1) as [[x [ex|]] w2] eqn:Er; frame_all inv.
  { intros H2. injection H2 as _ He _. by apply WrapE_inv in He. }
  intros [= <- <-]. destruct H1 as (? & ? & ? & ? & ? & ?). simpl. by split_and!; [congruence|..].
Qed.

Lemma populate_frames i dom : frames (populateDetails svc i dom) inv.
Proof.
  unfold populateDetails. apply frames_bind.
  - destruct (_ =s ""); [|apply frames_ret]. apply frames_bind; [apply get_inv|]. by intros [? [?|]].
  - intros [? [?|]]; [apply frames_ret|]. destruct (_ =s ""); [|apply frames_ret].
    apply frames_bind; [apply role_inv|]. by intros [? [?|]].
Qed.
Hint Resolve populate_frames : frame.

Lemma pending_state i : ConfirmedAt i = zeroTime -> RejectedAt i = zeroTime -> state_of i = Pending.
Proof. unfold state_of. by intros -> ->. Qed.
Lemma confirmed_state i t : t <> zeroTime -> ConfirmedAt i = t -> state_of i = Accepted.
Proof. unfold state_of, IsZero, zeroTime. intros Ht ->. by apply Z.eqb_neq in Ht as ->. Qed.
Lemma rejected_state i t : ConfirmedAt i = zeroTime -> t <> zeroTime -> RejectedAt i = t -> state_of i = Rejected.
Proof. unfold state_of, IsZero, zeroTime. intros -> Ht ->. by apply Z.eqb_neq in Ht as ->. Qed.

Lemma IsZero_true t : negb (IsZero t) = false -> t = zeroTime.
Proof. unfold IsZero. intros H. go_bool. done. Qed.
Lemma IsZero_false t : negb (IsZero t) = true -> t <> zeroTime.
Proof. unfold IsZero. intros H. go_bool. done. Qed.

Lemma inv_state_row w k i : inv w !! k = Some i -> inv_state w k = Some (state_of i).
Proof. intros H. unfold inv_state. by rewrite H. Qed.

(** A call that failed may leave every invitation as it was. *)
Lemma removal_same c k s : lifecycle c false k s s.
Proof. destruct c; simpl; try done; case_bool_decide; auto. Qed.

Lemma UpdateRejection_evolves spec w w1 i j u d : inv w !! (u, d) = Some i -> inv_key j = (u, d) ->
  UpdateRejection (repo svc) j w = (None, w1) -> ConfirmedAt i = zeroTime ->
  spec (u, d) (Some (state_of i)) (Some (if negb (IsZero (RejectedAt j)) then Rejected else Pending)) ->
  (forall k' s, k' <> (u, d) -> spec k' s s) -> evolves spec w w1.
Proof.
  intros Hi Hk E Hc Hspec Hs. apply UpdateRejection_ok in E as (i' & Hi' & Hw). rewrite Hk in Hi', Hw. simplify_eq.
  eapply evolves_insert; [exact Hw| |exact Hs|by left]. rewrite (inv_state_row w _ i) by done.
  unfold state_of at 2. simpl. by rewrite Hc.
Qed.

Lemma resend_evolves session i w e w' : Resend i = true ->
  resendInvitation now svc i w = (e, w') -> evolves (lifecycle (CSend session i) (is_nil e)) w w'.
Proof.
  intros Hr. unfold resendInvitation, bind at 1.
  destruct (RetrieveInvitation _ _ _ w) as [[j er] w1] eqn:E1. frame_all inv. destruct er as [er|].
  { intros [= <- <-]. destruct (WrapE svcerr.ErrViewEntity _) eqn:Hx; [|by apply WrapE_not_nil in Hx]. by apply evolves_same. }
  apply RetrieveInvitation_ok in E1 as (Hj & _ & _).
  destruct (negb (IsZero (ConfirmedAt j))) eqn:Ec; [intros [= <- <-]; by apply evolves_same|].
  apply IsZero_true in Ec.
  assert (Hother : forall k' (s : option N), k' <> (InviteeUserID i, DomainID i) -> lifecycle (CSend session i) true k' s s).
  { intros k' s Hk. simpl. by rewrite bool_decide_eq_false_2. }
  destruct (negb (IsZero (RejectedAt j))) eqn:Er.
  - unfold bind, ret. cbv zeta. destruct (now w1) as [t w2] eqn:E2. frame_all inv.
    destruct (UpdateRejection _ _ w2) as [[e2|] w3] eqn:E3; intros [= <- <-].
    + destruct (WrapE svcerr.ErrUpdateEntity _) eqn:Hx; [|by apply WrapE_not_nil in Hx].
      apply UpdateRejection_err in E3. apply evolves_same; [done|congruence].
    + apply (evolves_trans _ w w2); [congruence|].
      eapply UpdateRejection_evolves; [|reflexivity|exact E3|exact Ec| |exact Hother].
      * rewrite H0, H. exact Hj.
      * simpl. unfold inv_key. rewrite bool_decide_eq_true_2, Hr by done. split; [right|done].
        unfold state_of. by rewrite Ec, Er.
  - intros [= <- <-]. apply IsZero_true in Er. split; [|unfold exclusive; by rewrite H].
    intros k. unfold inv_state at 2. rewrite H. fold (inv_state w k). simpl. case_bool_decide as Hk; [|done].
    rewrite Hr. subst k. unfold inv_key. rewrite (inv_state_row w _ j), pending_state by done. auto.
Qed.

Lemma SendInvitation_evolves session i w r w' : SendInvitation now svc session i w = (r, w') ->
  evolves (lifecycle (CSend session i) (is_nil r.2)) w w'.
Proof.
  unfold SendInvitation, bind at 1. destruct (repo_RetrieveRole _ _ w) as [[ro er] w1] eqn:E1. frame_all inv.
  destruct er as [er|].
  { intros [= <- <-]. simpl. destruct (WrapE _ _) eqn:Hx; [|by apply WrapE_not_nil in Hx]. by apply evolves_same. }
  cbv zeta. unfold bind at 1.
  destruct (RetrieveDomainByID _ _ w1) as [[dom er] w2] eqn:E2. frame_all inv.
  destruct er as [er|].
  { intros [= <- <-]. simpl. destruct (WrapE _ _) eqn:Hx; [|by apply WrapE_not_nil in Hx].
    apply evolves_same; [done|congruence]. }
  unfold bind at 1. destruct (now w2) as [t w3] eqn:E3. frame_all inv. assert (H3 : inv w3 = inv w) by congruence.
  simpl (Resend _). destruct (Resend i) eqn:Hr.
  - unfold bind, ret. destruct (resendInvitation _ _ _ w3) as [er w4] eqn:E4. apply (resend_evolves session) in E4; [|done].
    destruct er as [er|]; intros [= <- <-]; simpl; by apply (evolves_trans _ w w3).
  - unfold bind, ret. destruct (SaveInvitation _ _ w3) as [[er|] w4] eqn:E4; intros [= <- <-]; simpl.
    { destruct (WrapE _ _) eqn:Hx; [|by apply WrapE_not_nil in Hx].
      apply SaveInvitation_err in E4. apply evolves_same; [done|congruence]. }
    apply SaveInvitation_ok in E4 as (Hn & i' & Hc & Hre & Hw). apply (evolves_trans _ w w3); [done|].
    eapply evolves_insert; [exact Hw| | |by left].
    + unfold inv_state. rewrite Hn. simpl. rewrite bool_decide_eq_true_2, Hr, pending_state by done. done.
    + intros k' s Hk. simpl. by rewrite bool_decide_eq_false_2.
Qed.

(** What the two answers of the invited user share. *)
Lemma answer_evolves c k (w w2 : W) j f w3 (Hj : inv w !! k = Some j) (Hw : row_becomes inv k f w2 w3)
    (Hf : inv w2 = inv w) (Hc : ConfirmedAt j = zeroTime) (Hr : RejectedAt j = zeroTime) :
  (forall k' s, k' <> k -> lifecycle c true k' s s) ->
  lifecycle c true k (Some Pending) (Some (state_of (f j))) ->
  ConfirmedAt (f j) = zeroTime \/ RejectedAt (f j) = zeroTime -> evolves (lifecycle c true) w w3.
Proof.
  intros Hs Hk Hex. apply (evolves_trans _ w w2); [done|]. destruct Hw as (j' & Hj' & Hw).
  assert (j' = j) as -> by congruence. eapply evolves_insert; [exact Hw| |done|done].
  rewrite (inv_state_row w2 k j), (pending_state j) by congruence. done.
Qed.

Lemma AcceptInvitation_evolves session d w r w' : AcceptInvitation now svc session d w = (r, w') ->
  evolves (lifecycle (CAccept session d) (is_nil r.2)) w w'.
Proof.
  unfold AcceptInvitation, bind at 1.
  destruct (RetrieveInvitation _ _ _ w) as [[j er] w1] eqn:E1. frame_all inv. destruct er as [er|].
  { intros [= <- <-]. simpl. destruct (WrapE _ _) eqn:Hx; [|by apply WrapE_not_nil in Hx]. by apply evolves_same. }
  apply RetrieveInvitation_ok in E1 as (Hj & Hu & Hd).
  destruct (negb (_ =s _)); [intros [= <- <-]; by apply evolves_same|].
  destruct (negb (IsZero (ConfirmedAt j))) eqn:Ec; [intros [= <- <-]; by apply evolves_same|].
  destruct (negb (IsZero (RejectedAt j))) eqn:Er; [intros [= <- <-]; by apply evolves_same|].
  apply IsZero_true in Ec, Er. unfold bind at 1.
  destruct (populateDetails svc j d w1) as [[i [er|]] w2] eqn:E2; frame_all inv.
  { intros [= <- <-]. apply evolves_same; [done|congruence]. }
  apply populate_key in E2 as (_ & Hiu & Hid & _ & Hic & Hir). cbv zeta. unfold bind at 1.
  destruct (roles.RoleAddMembers _ _ _ _ _ _ w2) as [[ms [er|]] w3] eqn:E3; frame_all inv.
  { intros [= <- <-]. simpl. destruct (WrapE _ _) eqn:Hx; [|by apply WrapE_not_nil in Hx].
    apply evolves_same; [done|congruence]. }
  unfold bind, ret. destruct (now w3) as [t w4] eqn:E4. frame_all inv. apply now_nonzero in E4.
  destruct (UpdateConfirmation _ _ w4) as [[er|] w5] eqn:E5; intros [= <- <-]; simpl.
  { destruct (WrapE _ _) eqn:Hx; [|by apply WrapE_not_nil in Hx].
    apply UpdateConfirmation_err in E5. apply evolves_same; [done|congruence]. }
  apply UpdateConfirmation_ok in E5. unfold inv_key in E5. simpl in E5. rewrite Hiu, Hu, Hid, Hd in E5.
  eapply (answer_evolves _ _ _ _ j); [exact Hj|exact E5|congruence|done|done|..].
  - intros k' s Hk. simpl. by rewrite bool_decide_eq_false_2.
  - simpl. rewrite bool_decide_eq_true_2, (confirmed_state _ t) by done. done.
  - by right.
Qed.

Lemma RejectInvitation_evolves session d w r w' : RejectInvitation now svc session d w = (r, w') ->
  evolves (lifecycle (CReject session d) (is_nil r.2)) w w'.
Proof.
  unfold RejectInvitation, bind at 1.
  destruct (RetrieveInvitation _ _ _ w) as [[j er] w1] eqn:E1. frame_all inv. destruct er as [er|].
  { intros [= <- <-]. simpl. destruct (WrapE _ _) eqn:Hx; [|by apply WrapE_not_nil in Hx]. by apply evolves_same. }
  apply RetrieveInvitation_ok in E1 as (Hj & Hu & Hd).
  destruct (negb (_ =s _)); [intros [= <- <-]; by apply evolves_same|].
  destruct (negb (IsZero (ConfirmedAt j))) eqn:Ec; [intros [= <- <-]; by apply evolves_same|].
  destruct (negb (IsZero (RejectedAt j))) eqn:Er; [intros [= <- <-]; by apply evolves_same|].
  apply IsZero_true in Ec, Er. unfold bind at 1.
  destruct (populateDetails svc j d w1) as [[i [er|]] w2] eqn:E2; frame_all inv.
  { intros [= <- <-]. apply evolves_same; [done|congruence]. }
  apply populate_key in E2 as (_ & Hiu & Hid & _ & Hic & Hir). cbv zeta.
  unfold bind, ret. destruct (now w2) as [t w3] eqn:E3. frame_all inv. apply now_nonzero in E3.
  destruct (UpdateRejection _ _ w3) as [[er|] w4] eqn:E4; intros [= <- <-]; simpl.
  { destruct (WrapE _ _) eqn:Hx; [|by apply WrapE_not_nil in Hx].
    apply UpdateRejection_err in E4. apply evolves_same; [done|congruence]. }
  apply UpdateRejection_ok in E4. unfold inv_key in E4. simpl in E4. rewrite Hiu, Hu, Hid, Hd in E4.
  eapply (answer_evolves _ _ _ _ j); [exact Hj|exact E4|congruence|done|done|..].
  - intros k' s Hk. simpl. by rewrite bool_decide_eq_false_2.
  - simpl. rewrite bool_decide_eq_true_2, (rejected_state _ t) by done. done.
  - by left.
Qed.

Lemma delete_evolves session u d w e w' :
  (authn.UserID session = u \/ inv_state w (u, d) = Some Pending) ->
  DeleteUsersInvitations (repo svc) d [u] w = (e, w') -> evolves (lifecycle (CDelete session u d) (is_nil e)) w w'.
Proof.
  intros Hp. destruct e as [e|]; [intros H%DeleteUsersInvitations_err; by apply evolves_same|].
  intros H. eapply evolves_delete; [exact H|..].
  - intros [u' d'] [Hd Hu%list_elem_of_singleton]. simpl in *. subst. by rewrite bool_decide_eq_true_2.
  - intros [u' d'] s Hk. simpl in *. rewrite bool_decide_eq_false_2; [done|].
    intros [= -> ->]. apply Hk. split; [done|by apply list_elem_of_singleton].
Qed.

Lemma DeleteInvitation_evolves session u d w e w' : DeleteInvitation svc session u d w = (e, w') ->
  evolves (lifecycle (CDelete session u d) (is_nil e)) w w'.
Proof.
  unfold DeleteInvitation. destruct (String.eqb_spec (authn.UserID session) u) as [Hu|_].
  - unfold bind, ret. destruct (DeleteUsersInvitations _ _ _ w) as [er w1] eqn:E1.
    apply (delete_evolves session) in E1; [|by left]. destruct er as [er|]; intros [= <- <-]; [|done].
    destruct (WrapE _ _) eqn:Hx; [done|by apply WrapE_not_nil in Hx].
  - unfold bind at 1. destruct (RetrieveInvitation _ _ _ w) as [[j er] w1] eqn:E1. frame_all inv.
    destruct er as [er|].
    { intros [= <- <-]. destruct (WrapE _ _) eqn:Hx; [by apply evolves_same|by apply WrapE_not_nil in Hx]. }
    apply RetrieveInvitation_ok in E1 as (Hj & _).
    destruct (negb (IsZero (ConfirmedAt j))) eqn:Ec; [intros [= <- <-]; by apply evolves_same|].
    destruct (negb (IsZero (RejectedAt j))) eqn:Er; [intros [= <- <-]; by apply evolves_same|].
    apply IsZero_true in Ec, Er.
    unfold bind, ret. destruct (DeleteUsersInvitations _ _ _ w1) as [er w2] eqn:E2.
    apply (delete_evolves session) in E2;
      [|right; rewrite (inv_state_row w1 _ j), pending_state by congruence; done].
    apply (evolves_trans _ w w1) in E2; [|done]. destruct er as [er|]; intros [= <- <-]; [|done].
    destruct (WrapE _ _) eqn:Hx; [done|by apply WrapE_not_nil in Hx].
Qed.

(** Removing members deletes their invitations first. *)
Lemma removal_evolves c id ms w e0 w1 w' ok
    (Hc : (exists s, c = CRemoveEntityMembers s id ms) \/ exists s r, c = CRoleRemoveMembers s id r ms)
    (E : DeleteUsersInvitations (repo svc) id ms w = (e0, w1)) (Hw : inv w' = inv w1)
    (Hok : ok = true -> refused e0 = false) : evolves (lifecycle c ok) w w'.
Proof.
  assert (Hspec : forall k s s', (if bool_decide (k.2 = id /\ k.1 ∈ ms) then s' = None \/ (ok = false /\ s' = s) else s' = s) ->
    lifecycle c ok k s s') by (destruct Hc as [[? ->]|(? & ? & ->)]; done).
  destruct e0 as [e0|].
  - pose proof (DeleteUsersInvitations_err _ _ _ _ _ E) as H. split; [|unfold exclusive; by rewrite Hw, H].
    intros k. apply Hspec. unfold inv_state. rewrite Hw, H. case_bool_decide as Hk; [|done].
    destruct ok; [left|by right]. specialize (Hok eq_refl). unfold refused in Hok. simpl in Hok. go_bool.
    destruct k as [u d], Hk as [Hd Hu]. simpl in *. subst d.
    by rewrite (DeleteUsersInvitations_none _ _ _ _ _ E).
  - apply (evolves_delete (lifecycle c ok)) in E.
    + unfold evolves, inv_state, exclusive in *. by rewrite Hw.
    + intros k Hk. apply Hspec. rewrite bool_decide_eq_true_2 by done. by left.
    + intros k s Hk. apply Hspec. by rewrite bool_decide_eq_false_2.
Qed.

Lemma RemoveEntityMembers_evolves session id ms w e w' : RemoveEntityMembers svc session id ms w = (e, w') ->
  evolves (lifecycle (CRemoveEntityMembers session id ms) (is_nil e)) w w'.
Proof.
  unfold RemoveEntityMembers, bind, ret. destruct (DeleteUsersInvitations _ _ _ w) as [er w1] eqn:E1.
  destruct (refused er) eqn:Hr.
  - intros [= <- <-]. eapply removal_evolves; [left; by eexists|exact E1|done|by destruct er].
  - intros E2. frame_all inv. eapply removal_evolves; [left; by eexists|exact E1|done|done].
Qed.

Lemma RoleRemoveMembers_evolves session id r ms w e w' : RoleRemoveMembers now svc session id r ms w = (e, w') ->
  evolves (lifecycle (CRoleRemoveMembers session id r ms) (is_nil e)) w w'.
Proof.
  unfold RoleRemoveMembers, bind at 1. destruct (roles.RetrieveEntityRole _ _ _ w) as [[ro er] w1] eqn:E1.
  frame_all inv. destruct er as [er|].
  { intros [= <- <-]. destruct (WrapE _ _) eqn:Hx; [|by apply WrapE_not_nil in Hx].
    apply evolves_same; [apply removal_same|done]. }
  unfold bind at 1.
  match goal with |- context [let (_, _) := ?m w1 in _] => destruct (m w1) as [er w2] eqn:E2 end.
  assert (H2 : inv w2 = inv w1).
  { revert E2. destruct (is_nil _); [|by intros [= _ <-]]. unfold bind, ret.
    destruct (roles.repo_RoleListMembers _ _ _ _ w1) as [[mp ep] w3] eqn:E3. frame_all inv.
    destruct ep; [by intros [= _ <-]|]. destruct (N.leb _ _); by intros [= _ <-]. }
  destruct er as [er|]; [intros [= <- <-]; apply evolves_same; [apply removal_same|congruence]|].
  unfold bind, ret. destruct (DeleteUsersInvitations _ _ _ w2) as [er w3] eqn:E3.
  intros E4. apply (evolves_trans _ w w2); [congruence|]. destruct (refused er) eqn:Hr.
  - injection E4 as <- <-. eapply removal_evolves; [right; by do 2 eexists|exact E3|done|by destruct er].
  - frame_all inv. eapply removal_evolves; [right; by do 2 eexists|exact E3|done|done].
Qed.

(** The call itself, with its error. *)
Definition invoke (c : invitation_call) : St W error :=
  match c with
  | CSend session i => '(_, e) <- SendInvitation now svc session i ;; ret e
  | CAccept session d => '(_, e) <- AcceptInvitation now svc session d ;; ret e
  | CReject session d => '(_, e) <- RejectInvitation now svc session d ;; ret e
  | CDelete session u d => DeleteInvitation svc session u d
  | CRemoveEntityMembers session id ms => RemoveEntityMembers svc session id ms
  | CRoleRemoveMembers session id r ms => RoleRemoveMembers now svc session id r ms
  end.
Definition invitation_step (w w' : W) : Prop := exists c e, invoke c w = (e, w').

Lemma err_of_pair {A} (m : St W (A * error)) w : ('(_, e) <- m ;; ret e) w = ((m w).1.2, (m w).2).
Proof. unfold bind, ret. by destruct (m w) as [[a e] w']. Qed.

Lemma invoke_evolves c w e w' : invoke c w = (e, w') -> evolves (lifecycle c (is_nil e)) w w'.
Proof.
  destruct c; simpl.
  - rewrite err_of_pair. intros [= <- <-]. apply SendInvitation_evolves with (1 := surjective_pairing _).
  - rewrite err_of_pair. intros [= <- <-]. apply AcceptInvitation_evolves with (1 := surjective_pairing _).
  - rewrite err_of_pair. intros [= <- <-]. apply RejectInvitation_evolves with (1 := surjective_pairing _).
  - apply DeleteInvitation_evolves.
  - apply RemoveEntityMembers_evolves.
  - apply RoleRemoveMembers_evolves.
Qed.

(** C6: the invitations refine their life cycle.  In every state that calls,
    successful or not, reach from a table in which no invitation is both
    confirmed and rejected, there is still none, and the next call moves
    every invitation exactly as [lifecycle] has it: a successful
    SendInvitation makes a pending one where there was none, or with Resend
    of a pending or rejected one; AcceptInvitation and RejectInvitation take
    the caller's own from pending; DeleteInvitation removes the caller's own,
    and another user's only while it is pending; removing members from the
    domain or a role removes theirs; every other invitation, and after a
    failure every one but those of members being removed, is as it was.  So
    an accepted invitation can only be removed. *)
Theorem invitations_refine_lifecycle w0 w c e w' (Hw : exclusive w0) (Hreach : rtc invitation_step w0 w)
    (Hcall : invoke c w = (e, w')) :
  (forall k, lifecycle c (is_nil e) k (inv_state w k) (inv_state w' k)) /\ exclusive w'.
Proof.
  assert (He : exclusive w).
  { induction Hreach as [|w1 w2 w3 (c' & e' & H) _ IH]; [done|]. apply IH; [|done]. by eapply invoke_evolves. }
  apply invoke_evolves in Hcall as [Hl He']. auto.
Qed.
End invitations.

(** ** Accepting an invitation, and the last member of a role *)
Section accept.
Import policies domains.
Context {W : Type} (now : St W Time) (svc : service W) (inv : W -> gmap (string * string) Invitation).
Context (tuples grants : W -> gset Relationship).
Context {IL : InvitationRepoLaws (repo svc) inv} {RE : RolesEnv now (ProvisionManageService svc) tuples grants}.
Context (now_inv : frames now inv) (get_inv : forall id, frames (RetrieveDomainByID (repo svc) id) inv).
Context (role_inv : forall id, frames (repo_RetrieveRole (repo svc) id) inv).
Context (add_members_inv : forall s e r ms,
  frames (roles.RoleAddMembers now (ProvisionManageService svc) s e r ms) inv).
Context (get_tuples : forall id, frames (RetrieveDomainByID (repo svc) id) tuples).
Context (role_tuples : forall id, frames (repo_RetrieveRole (repo svc) id) tuples).
Context (invitation_tuples : forall u d, frames (RetrieveInvitation (repo svc) u d) tuples).
Context (confirmation_tuples : forall i, frames (UpdateConfirmation (repo svc) i) tuples).
Hint Resolve now_inv get_inv role_inv add_members_inv get_tuples role_tuples invitation_tuples
  confirmation_tuples : frame.

Lemma populate_tuples i d : frames (populateDetails svc i d) tuples.
Proof.
  unfold populateDetails. apply frames_bind.
  - destruct (_ =s ""); [|apply frames_ret]. apply frames_bind; [apply get_tuples|]. by intros [? [?|]].
  - intros [? [?|]]; [apply frames_ret|]. destruct (inv_RoleName _ =s ""); [|apply frames_ret].
    apply frames_bind; [apply role_tuples|]. by intros [? [?|]].
Qed.

(** Accepting an invitation succeeds only for the invited user of a
    pending invitation, and then makes the user a member of the invited role
    in the policy store; a failed call leaves the policies as they were,
    except where a rollback failed or, after the member was added, the
    invitation could not be confirmed: then the member stays. *)
Lemma AcceptInvitation_adds_member session d w i e w'
    (Hrun : AcceptInvitation now svc session d w = ((i, e), w')) :
  let member o := rel_set [roles.memberPolicy d (inv_RoleID o) (authn.UserID session)] in
  match e with
  | None => exists o, inv w !! (authn.UserID session, d) = Some o /\ state_of o = Pending
      /\ InviteeUserID o = authn.UserID session /\ tuples w' = tuples w ∪ member o
  | Some _ => tuples w' = tuples w
      \/ (exists e1, rollback_failed e1 /\ e = WrapE svcerr.ErrUpdateEntity e1)
      \/ exists o j er w1, inv w !! (authn.UserID session, d) = Some o /\ tuples w' = tuples w ∪ member o
           /\ UpdateConfirmation (repo svc) j w1 = (Some er, w')
  end.
Proof.
  revert Hrun. unfold AcceptInvitation, bind at 1.
  destruct (RetrieveInvitation _ _ _ w) as [[o er] w1] eqn:E1. frame_all inv. frame_all tuples.
  destruct er as [er|].
  { destruct (WrapE svcerr.ErrViewEntity (Some er)) eqn:Hx; [|by apply WrapE_not_nil in Hx].
    intros [= <- <- <-]. by left. }
  apply RetrieveInvitation_ok in E1 as (Ho & Hu & Hd).
  destruct (_ <>s _); [intros [= <- <- <-]; by left|].
  destruct (negb (IsZero (ConfirmedAt o))) eqn:Ec; [intros [= <- <- <-]; by left|].
  destruct (negb (IsZero (RejectedAt o))) eqn:Er; [intros [= <- <- <-]; by left|].
  apply IsZero_true in Ec, Er. unfold bind at 1.
  destruct (populateDetails svc o d w1) as [[j er] w2] eqn:E2.
  pose proof (frames_eq _ tuples _ _ _ (populate_tuples o d) E2) as Ht2.
  destruct er as [er|]; [intros [= <- <- <-]; left; congruence|].
  assert (Hrole : inv_RoleID j = inv_RoleID o) by (by eapply populate_key in E2 as (_ & _ & _ & ? & _)).
  cbv zeta. unfold bind at 1.
  destruct (roles.RoleAddMembers _ _ _ _ _ _ w2) as [[ms er] w3] eqn:E3. frame_all inv.
  apply (RoleAddMembers_spec now _ tuples grants) in E3 as [Hall _]. rewrite Hrole in Hall. simpl in Hall.
  destruct er as [er|].
  { destruct (WrapE svcerr.ErrUpdateEntity (Some er)) as [x|] eqn:Hx; [|by apply WrapE_not_nil in Hx].
    intros [= <- <- <-]. destruct Hall as [Hall|[_ Hf]]; [left; congruence|right; left].
    exists (Some er). split; [done|]. by rewrite Hx. }
  unfold bind, ret. destruct (now w3) as [t w4] eqn:E4.
  pose proof (frames_eq _ tuples _ _ _ now_tuples E4) as Ht4.
  destruct (UpdateConfirmation _ _ w4) as [er w5] eqn:E5. frame_all tuples.
  assert (Ht : tuples w5 = tuples w ∪ rel_set [roles.memberPolicy d (inv_RoleID o) (authn.UserID session)])
    by congruence.
  destruct er as [er|].
  - destruct (WrapE svcerr.ErrUpdateEntity (Some er)) as [x|] eqn:Hx; [|by apply WrapE_not_nil in Hx].
    intros [= <- <- <-]. right; right. exists o. eexists _, er, w4. split_and!; [congruence|done|exact E5].
  - intros [= <- <- <-]. exists o. split_and!; [congruence|by apply pending_state|done|done].
Qed.
End accept.

Lemma size_list_to_set_le (l : list string) : size (list_to_set l : gset string) <= length l.
Proof.
  induction l as [|x l IH]; [done|]. simpl.
  rewrite size_union_alt, size_singleton.
  assert (size (list_to_set l ∖ {[x]} : gset string) <= size (list_to_set l : gset string)); [|lia].
  apply subseteq_size. set_solver.
Qed.

Section retain.
Import policies domains.
Context {W : Type} (now : St W Time) (svc : service W) (members : W -> string -> gset string).
(** The members of a role: listing with limit 0 counts them, removing takes
    the named ones from one role. *)
Context (list_frames : forall r, frames (roles.repo_RoleListMembers (role_repo (repo svc)) r 0 0) members).
Context (list_total : forall r w mp w', roles.repo_RoleListMembers (role_repo (repo svc)) r 0 0 w = ((mp, None), w') ->
  roles.mp_Total mp = N.of_nat (size (members w r))).
Context (remove_ok : forall ro ms w w', roles.repo_RoleRemoveMembers (role_repo (repo svc)) ro ms w = (None, w') ->
  forall r, members w' r = if bool_decide (r = roles.ID ro) then members w r ∖ list_to_set ms else members w r).
Context (remove_err : forall ro ms w e w', roles.repo_RoleRemoveMembers (role_repo (repo svc)) ro ms w = (Some e, w') ->
  members w' = members w).
Context (retrieve_frames : forall e r, frames (roles.RetrieveEntityRole (role_repo (repo svc)) e r) members).
Context (retrieve_ok : forall e r w ro w', roles.RetrieveEntityRole (role_repo (repo svc)) e r w = ((ro, None), w') ->
  roles.ID ro = r).
Context (delete_frames : forall d us, frames (DeleteUsersInvitations (repo svc) d us) members).
Context (policy_frames : forall l, frames (DeletePolicies (policy svc) l) members) (now_members : frames now members).
Hint Resolve list_frames retrieve_frames delete_frames policy_frames now_members : frame.

(** The role of this name is one of the built-in ones. *)
Definition builtin (name : string) : Prop :=
  (roles.BuiltInRoleActions (ProvisionManageService svc) name).2 = None.

Lemma provision_RoleRemoveMembers session id r ms w e w' :
  roles.RoleRemoveMembers now (ProvisionManageService svc) session id r ms w = (e, w') ->
  members w' r = members w r \/ members w' r = members w r ∖ list_to_set ms.
Proof.
  unfold roles.RoleRemoveMembers, bind at 1. simpl.
  destruct (roles.RetrieveEntityRole _ _ _ w) as [[ro er] w1] eqn:E1. frame_all members.
  destruct er as [er|]; [intros [= <- <-]; left; congruence|]. apply retrieve_ok in E1 as Hr. rewrite Hr.
  destruct (Nat.eqb _ _); [intros [= <- <-]; left; congruence|]. unfold bind, ret.
  destruct (DeletePolicies _ _ w1) as [er w2] eqn:E2. frame_all members.
  destruct er as [er|]; [intros [= <- <-]; left; congruence|].
  destruct (now w2) as [t w3] eqn:E3. frame_all members.
  destruct (roles.repo_RoleRemoveMembers _ _ _ w3) as [[er|] w4] eqn:E4; intros [= <- <-].
  - apply remove_err in E4. left. congruence.
  - apply remove_ok with (r := r) in E4. simpl in E4. rewrite bool_decide_true in E4 by done.
    right. congruence.
Qed.

(** C26: the admin role of a domain, like every built-in role, keeps a member:
    RoleRemoveMembers and RoleRemoveAllMembers, which are the ways to take
    members from one role, never leave it empty. *)
Theorem builtin_role_keeps_a_member session id r ms w ro w0 e w'
    (Hro : roles.RetrieveEntityRole (role_repo (repo svc)) id r w = ((ro, None), w0))
    (Hbuiltin : builtin (roles.Name ro)) (Hne : members w r <> ∅)
    (Hrun : RoleRemoveMembers now svc session id r ms w = (e, w')
            \/ RoleRemoveAllMembers now svc session id r w = (e, w')) :
  members w' r <> ∅.
Proof.
  pose proof (retrieve_ok _ _ _ _ _ Hro) as Hid. frame_all members. destruct Hrun as [Hrun|Hrun]; revert Hrun.
  - unfold RoleRemoveMembers, bind at 1. rewrite Hro. rewrite Hbuiltin. cbn [is_nil]. unfold bind at 1.
    match goal with |- context [let (_, _) := ?m w0 in _] => destruct (m w0) as [er w1] eqn:E1 end.
    revert E1. unfold bind at 1, ret at 1.
    destruct (roles.repo_RoleListMembers _ _ _ _ w0) as [[mp ep] w2] eqn:E2. frame_all members.
    destruct ep as [ep|].
    { destruct (WrapE svcerr.ErrViewEntity (Some ep)) eqn:Hx; [|by apply WrapE_not_nil in Hx].
      intros [= <- <-] [= <- <-]. congruence. }
    apply list_total in E2. destruct (N.leb_spec (roles.mp_Total mp) (N.of_nat (length ms))) as [Hle|Hlt].
    { intros [= <- <-] [= <- <-]. congruence. }
    intros [= <- <-]. unfold bind at 1. destruct (DeleteUsersInvitations _ _ _ w2) as [er w3] eqn:E3.
    frame_all members. destruct (refused er); [intros [= <- <-]; congruence|].
    intros [Hm|Hm]%provision_RoleRemoveMembers; rewrite Hm, H1, H0, H; [done|]. intros Hem.
    apply (f_equal size) in Hem. rewrite size_empty in Hem.
    assert (Hsub : size (members w r) <= length ms); [|rewrite E2, Hid in Hlt; rewrite H in Hlt; lia].
    transitivity (size (list_to_set ms : gset string)); [|apply size_list_to_set_le].
    apply subseteq_size. apply size_empty_inv in Hem. set_solver.
  - unfold RoleRemoveAllMembers, bind at 1. rewrite Hro, Hbuiltin. cbn [is_nil]. intros [= <- <-]. congruence.
Qed.
End retain.

(** ** A database and a cache in memory, for the examples *)
Module memdomains.
Import policies domains.
Record mem := MkMem {
  m_doms : gmap string Domain; m_invs : gmap (string * string) Invitation; m_redis : gmap string string }.
#[global] Instance mem_fields : Fields mem := fun m => MkMem (m_doms m) (m_invs m) (m_redis m).
Definition state : Type := memroles.state mem.
Definition doms (s : state) := m_doms s.2.
Definition invs (s : state) := m_invs s.2.
Definition redis (s : state) := m_redis s.2.
Definition put_doms (m : gmap string Domain) (s : state) : state := (s.1, s.2 <| m_doms := m |>).
Definition put_invs (m : gmap (string * string) Invitation) (s : state) : state := (s.1, s.2 <| m_invs := m |>).
Definition put_redis (m : gmap string string) (s : state) : state := (s.1, s.2 <| m_redis := m |>).

Definition apply_req (r : DomainReq) (d : Domain) : Domain :=
  d <| Name := default (Name d) (rq_Name r) |> <| Status := default (Status d) (rq_Status r) |>.
(** [UPDATE ... WHERE key = k], with ErrNotFound where no row changes. *)
Definition modify (k : string * string) (f : Invitation -> Invitation) : St state error := fun s =>
  match invs s !! k with
  | None => (Some repoerr.ErrNotFound, s)
  | Some i => (None, put_invs (<[k := f i]> (invs s)) s)
  end.

Definition repo : Repository state :=
  {| SaveDomain := fun d s => match doms s !! ID d with
       | Some _ => ((Domain0, Some repoerr.ErrConflict), s)
       | None => ((d, None), put_doms (<[ID d := d]> (doms s)) s) end;
     RetrieveDomainByIDWithRoles := fun _ _ => ret (Domain0, None);
     RetrieveDomainByID := fun id s => match doms s !! id with
       | Some d => ((d, None), s) | None => ((Domain0, Some repoerr.ErrNotFound), s) end;
     RetrieveDomainByRoute := fun _ => ret (Domain0, Some repoerr.ErrNotFound);
     RetrieveAllDomainsByIDs := fun _ => ret (DomainsPage0, None);
     repo_UpdateDomain := fun id r s => match doms s !! id with
       | Some d => ((apply_req r d, None), put_doms (<[id := apply_req r d]> (doms s)) s)
       | None => ((Domain0, Some repoerr.ErrNotFound), s) end;
     DeleteDomain := fun id s => (None, put_doms (delete id (doms s)) s);
     repo_ListDomains := fun _ => ret (DomainsPage0, None);
     SaveInvitation := fun i s => match invs s !! inv_key i with
       | Some _ => (Some repoerr.ErrConflict, s)
       | None => (None, put_invs (<[inv_key i := i <| ConfirmedAt := zeroTime |> <| RejectedAt := zeroTime |>]> (invs s)) s) end;
     RetrieveInvitation := fun u d s => match invs s !! (u, d) with
       | Some i => if bool_decide (inv_key i = (u, d)) then ((i, None), s)
                   else ((Invitation0, Some repoerr.ErrNotFound), s)
       | None => ((Invitation0, Some repoerr.ErrNotFound), s) end;
     RetrieveAllInvitations := fun _ => ret (InvitationPage0, None);
     UpdateConfirmation := fun i => modify (inv_key i)
       (fun o => o <| ConfirmedAt := ConfirmedAt i |> <| inv_UpdatedAt := inv_UpdatedAt i |>);
     UpdateRejection := fun i => modify (inv_key i)
       (fun o => o <| RejectedAt := RejectedAt i |> <| inv_UpdatedAt := inv_UpdatedAt i |>);
     DeleteUsersInvitations := fun d us s =>
       (None, put_invs (filter (fun kv => ~ (kv.1.2 = d /\ kv.1.1 ∈ us)) (invs s)) s);
     repo_RetrieveRole := fun id => ret (set_field roles.Name "admin" (set_field roles.ID id roles.Role0), None);
     role_repo := memroles.repo DomainType |}.

Definition cache : Redis state := memredis.client redis put_redis.
Definition svc : service state :=
  {| domains.repo := repo; domains.cache := domains_cache.NewDomainsCache cache 1;
     policy := spicedb.NewPolicyService memroles.client; idProvider := ret ("new", None);
     sidProvider := ret ("id", None); availableActions := ["read"]; builtInRoles := [("admin", ["read"])] |}.
Definition priv : domains_private.service state :=
  {| domains_private.repo := repo; domains_private.cache := domains_cache.NewDomainsCache cache 1 |}.

#[export] Instance redis_laws : RedisLaws cache redis.
Proof. by apply memredis.laws. Qed.

#[export] Instance repo_laws : DomainRepoLaws repo memroles.tuples doms.
Proof.
  split; simpl; intros *; try (intros w; by case_match).
  - destruct (doms w !! id); by intros [= <- <-].
  - done.
  - by intros _ w.
  - destruct (doms w !! id) as [d|] eqn:E; [|done]. intros H. injection H as <- <-. by exists d.
  - destruct (doms w !! id); by intros [= _ _ <-].
  - destruct (doms w !! ID d) eqn:E; [done|]. intros H. by injection H as <- <-.
  - destruct (doms w !! ID d); by intros [= _ _ <-].
  - by intros [= <-].
  - done.
  - by intros w.
Qed.

Lemma modify_ok k f w w' : modify k f w = (None, w') -> row_becomes invs k f w w'.
Proof. unfold modify. destruct (invs w !! k) as [i|] eqn:E; [|done]. intros [= <-]. by exists i. Qed.
Lemma modify_err k f w e w' : modify k f w = (Some e, w') -> invs w' = invs w.
Proof. unfold modify. destruct (invs w !! k); by intros [= _ <-]. Qed.

#[export] Instance invitation_laws : InvitationRepoLaws repo invs.
Proof.
  split; simpl; intros *.
  - intros w. by repeat case_match.
  - destruct (invs w !! (u, d)) as [j|] eqn:E; [|done]. case_bool_decide as Hk; [|done].
    intros H. injection H as <- <-. by injection Hk.
  - destruct (invs w !! inv_key i) eqn:E; [done|]. intros H. injection H as <-. split; [done|].
    by exists (i <| ConfirmedAt := zeroTime |> <| RejectedAt := zeroTime |>).
  - destruct (invs w !! inv_key i); by intros [= _ <-].
  - apply modify_ok.
  - apply modify_err.
  - apply modify_ok.
  - apply modify_err.
  - by intros [= <-].
  - done.
  - by intros [= <- <-].
Qed.
End memdomains.

Module domains_example.
Import policies domains memdomains.
Definition start : state := ((∅, ∅), MkMem ∅ ∅ ∅).
Definition home : Domain := Domain0 <| ID := "d" |> <| Name := "home" |>.
Definition created : state := (CreateDomain memroles.now svc roles_example.alice home start).2.

Lemma create_rest d u ids os ms :
  frames (roles.AddNewEntitiesRoles memroles.now (ProvisionManageService svc) d u ids os ms) snd.
Proof. apply memroles.create_frames. Qed.

Lemma CreateDomain_atomic_witness :
  (CreateDomain memroles.now svc roles_example.alice home start).1.2 = None
  /\ doms created !! "d" <> None /\ exists id d', doms created = <[id := d']> (doms start).
Proof.
  assert (Hn : (CreateDomain memroles.now svc roles_example.alice home start).1.2 = None) by (vm_compute; reflexivity).
  split; [exact Hn|]. split; [vm_compute; discriminate|].
  pose proof (CreateDomain_atomic memroles.now svc memroles.tuples memroles.grants doms
    (RE := memroles.env _ _ _) (DL := repo_laws) (fun _ => eq_refl) (fun _ => eq_refl) (fun _ => eq_refl)
    (fun d u ids os ms w => f_equal m_doms (create_rest d u ids os ms w))
    roles_example.alice home start) as H.
  unfold created. destruct (CreateDomain _ _ _ _ _) as [[[d' rps] e] w']. simpl in *. subst e.
  destruct (H d' rps None w' eq_refl) as (id & new & _ & Hd & _). exists id, d'. exact Hd.
Defined.

(** The status is read, so cached, and then changed. *)
Definition read : state := (domains_private.RetrieveStatus priv "d" created).2.
Definition disabled : state := (DisableDomain memroles.now svc roles_example.alice "d" read).2.

Lemma start_coherent : coherent redis doms created.
Proof.
  assert (Hr : map_to_list (redis created) = []) by (vm_compute; reflexivity).
  assert (Hd : map fst (map_to_list (doms created)) = ["d"]) by (vm_compute; reflexivity).
  apply map_to_list_empty_iff in Hr. unfold coherent. rewrite Hr. split_and!; [done|done|].
  intros id dom Hi%elem_of_map_to_list. apply (list_elem_of_fmap_2 fst) in Hi.
  change (map fst (map_to_list (doms created))) with (fst <$> map_to_list (doms created)) in Hd.
  rewrite Hd in Hi. apply list_elem_of_singleton in Hi. simpl in Hi. by subst.
Qed.

Lemma domain_status_fresh_witness :
  redis read !! "d" = Some "enabled"
  /\ (forall s w2, domains_private.RetrieveStatus priv "d" disabled = ((s, None), w2) ->
       exists dom, doms disabled !! "d" = Some dom /\ Status dom = s).
Proof.
  split; [vm_compute; reflexivity|].
  refine (proj1 (domain_status_fresh memroles.now svc priv cache 1 redis memroles.tuples doms
    (DL := repo_laws) (RL := redis_laws) eq_refl eq_refl eq_refl (fun _ => eq_refl) (fun _ => eq_refl)
    _ _ _ (fun _ _ _ _ => eq_refl) _ (fun _ _ => eq_refl) _ (fun _ _ => eq_refl) (fun _ => eq_refl) (fun _ => eq_refl)
    _ _ _ created disabled "d" start_coherent _)).
  - intros id w. simpl. by case_match.
  - done.
  - intros id r w. simpl. by case_match.
  - intros k w. simpl. by case_match.
  - intros dom w. simpl. by case_match.
  - intros w i w' [= <- _]. vm_compute. discriminate.
  - intros dom u ids os ms w. exact (f_equal m_doms (memroles.create_frames _ _ _ dom u ids os ms w)).
  - intros dom u ids os ms w. exact (f_equal m_redis (memroles.create_frames _ _ _ dom u ids os ms w)).
  - eapply rtc_l; [eapply step_RetrieveStatus; exact (surjective_pairing (domains_private.RetrieveStatus priv "d" created))|].
    apply rtc_once. destruct (changeStatus memroles.now svc DisabledStatus roles_example.alice "d" read) as [[x e] w'] eqn:E.
    assert (Hw : disabled = w') by (unfold disabled, DisableDomain; by rewrite E). rewrite Hw.
    eapply step_changeStatus; [|exact E]. left.
    assert (Hn : (changeStatus memroles.now svc DisabledStatus roles_example.alice "d" read).1.2 = None)
      by (vm_compute; reflexivity).
    by rewrite E in Hn.
Defined.

(** UpdateDomain with a Status changes the row and leaves the cached one. *)
Definition updated_ : state :=
  (UpdateDomain memroles.now svc roles_example.alice "d" (DomainReq0 <| rq_Status := Some DisabledStatus |>) read).2.
Lemma UpdateDomain_leaves_stale_status :
  Status <$> doms updated_ !! "d" = Some DisabledStatus
  /\ (domains_private.RetrieveStatus priv "d" updated_).1 = (EnabledStatus, None).
Proof. split; vm_compute; reflexivity. Qed.

(** Alice is invited to the domain, and accepts. *)
Definition invitation : Invitation :=
  Invitation0 <| InviteeUserID := "u" |> <| DomainID := "d" |> <| inv_RoleID := "domain_x" |>.
Definition invited : state := (SendInvitation memroles.now svc roles_example.alice invitation created).2.
Definition joined : state := (AcceptInvitation memroles.now svc roles_example.alice "d" invited).2.

Lemma get_rest id : frames (RetrieveDomainByID repo id) snd.
Proof. intros w. simpl. by case_match. Qed.
Lemma add_rest s e r ms : frames (roles.RoleAddMembers memroles.now (ProvisionManageService svc) s e r ms) snd.
Proof. apply memroles.RoleAddMembers_frames. Qed.
Lemma remove_rest s e r ms : frames (roles.RoleRemoveMembers memroles.now (ProvisionManageService svc) s e r ms) snd.
Proof. apply memroles.RoleRemoveMembers_frames. Qed.
Lemma now_nonzero w t (w' : state) : memroles.now w = (t, w') -> t <> zeroTime.
Proof. by intros [= <- _]. Qed.

Lemma no_invitations s : map_to_list (invs s) = [] -> invs s = ∅.
Proof. apply map_to_list_empty_iff. Qed.

Lemma invitations_refine_lifecycle_witness :
  (inv_state invs created ("u", "d") = None /\ inv_state invs invited ("u", "d") = Some Pending
   /\ inv_state invs joined ("u", "d") = Some Accepted)
  /\ (forall k, lifecycle (CAccept roles_example.alice "d") true k (inv_state invs invited k) (inv_state invs joined k))
  /\ exclusive invs joined.
Proof.
  split; [vm_compute; done|].
  refine (invitations_refine_lifecycle memroles.now svc invs (IL := invitation_laws) now_nonzero
    (fun _ => eq_refl) (fun id w => f_equal m_invs (get_rest id w)) (fun _ _ => eq_refl) (fun _ _ _ => eq_refl)
    (fun _ _ _ _ => eq_refl) (fun s e r ms w => f_equal m_invs (add_rest s e r ms w))
    (fun s e r ms w => f_equal m_invs (remove_rest s e r ms w)) (fun _ _ _ _ => eq_refl)
    created invited (CAccept roles_example.alice "d") None joined _ _ _).
  - intros k i. rewrite no_invitations by (vm_compute; reflexivity). done.
  - apply rtc_once. exists (CSend roles_example.alice invitation), (SendInvitation memroles.now svc roles_example.alice invitation created).1.2.
    apply err_of_pair.
  - assert (Hn : (AcceptInvitation memroles.now svc roles_example.alice "d" invited).1.2 = None)
      by (vm_compute; reflexivity).
    rewrite <- Hn. apply err_of_pair.
Defined.

Lemma AcceptInvitation_adds_member_witness :
  let run := AcceptInvitation memroles.now svc roles_example.alice "d" invited in
  run.1.2 = None /\ exists o, invs invited !! ("u", "d") = Some o
    /\ memroles.tuples run.2 = memroles.tuples invited ∪ rel_set [roles.memberPolicy "d" (inv_RoleID o) "u"].
Proof.
  cbv zeta. assert (Hn : (AcceptInvitation memroles.now svc roles_example.alice "d" invited).1.2 = None)
    by (vm_compute; reflexivity).
  split; [exact Hn|].
  destruct (AcceptInvitation _ _ _ _ _) as [[i e] w'] eqn:E. simpl in *. subst e.
  eapply (AcceptInvitation_adds_member memroles.now svc invs memroles.tuples memroles.grants
    (IL := invitation_laws) (RE := memroles.env _ _ _)) in E.
  - destruct E as (o & Ho & _ & _ & Ht). exists o. split; [exact Ho|exact Ht].
  - intros id w. exact (f_equal m_invs (get_rest id w)).
  - exact (fun _ _ => eq_refl).
  - intros s e r ms w. exact (f_equal m_invs (add_rest s e r ms w)).
  - intros id w. clear. simpl. by case_match.
  - exact (fun _ _ => eq_refl).
  - intros u d w. clear. simpl. by repeat case_match.
  - intros j w. clear. simpl. unfold modify. by case_match.
Defined.
End domains_example.

(** One role with its members. *)
Module memmembers.
Import policies domains.
Definition state : Type := gset string.
Definition admin : roles.Role := set_field roles.Name "admin" (set_field roles.ID "domain_admin" roles.Role0).
Definition page (n : nat) : roles.MembersPage := roles.MkMembersPage (N.of_nat n) 0 0 [].
Definition role_repo : roles.Repository state :=
  {| roles.AddRoles := fun l => ret (l, None); roles.RemoveRoles := fun _ => ret None;
     roles.UpdateRole := fun r => ret (r, None);
     roles.RetrieveEntityRole := fun _ id => ret (set_field roles.ID id admin, None);
     roles.repo_RetrieveAllRoles := fun _ _ _ => ret (roles.RolePage0, None);
     roles.repo_RoleAddActions := fun _ l => ret (l, None); roles.repo_RoleListActions := fun _ => ret ([], None);
     roles.repo_RoleCheckActionsExists := fun _ _ => ret (false, None);
     roles.repo_RoleRemoveActions := fun _ _ => ret None; roles.repo_RoleRemoveAllActions := fun _ => ret None;
     roles.repo_RoleAddMembers := fun _ l => ret (l, None);
     roles.repo_RoleListMembers := fun r _ _ s => ((page (if r =s "domain_admin" then size s else 0), None), s);
     roles.repo_RoleCheckMembersExists := fun _ _ => ret (false, None);
     roles.repo_RoleRemoveMembers := fun ro ms s =>
       (None, if roles.ID ro =s "domain_admin" then s ∖ list_to_set ms else s);
     roles.repo_RoleRemoveAllMembers := fun _ => ret None;
     roles.RetrieveEntitiesRolesActionsMembers := fun _ => ret ([], [], None);
     roles.repo_ListEntityMembers := fun _ _ => ret (roles.MembersRolePage0, None);
     roles.repo_RemoveEntityMembers := fun _ _ => ret None;
     roles.repo_RemoveMemberFromAllRoles := fun _ => ret None |}.
Definition repo : Repository state :=
  {| SaveDomain := fun d => ret (d, None); RetrieveDomainByIDWithRoles := fun _ _ => ret (Domain0, None);
     RetrieveDomainByID := fun _ => ret (Domain0, None); RetrieveDomainByRoute := fun _ => ret (Domain0, None);
     RetrieveAllDomainsByIDs := fun _ => ret (DomainsPage0, None);
     repo_UpdateDomain := fun _ _ => ret (Domain0, None); DeleteDomain := fun _ => ret None;
     repo_ListDomains := fun _ => ret (DomainsPage0, None); SaveInvitation := fun _ => ret None;
     RetrieveInvitation := fun _ _ => ret (Invitation0, None);
     RetrieveAllInvitations := fun _ => ret (InvitationPage0, None);
     UpdateConfirmation := fun _ => ret None; UpdateRejection := fun _ => ret None;
     DeleteUsersInvitations := fun _ _ => ret (Some repoerr.ErrNotFound);
     repo_RetrieveRole := fun _ => ret (admin, None); domains.role_repo := role_repo |}.
Definition svc : service state :=
  {| domains.repo := repo;
     cache := {| SaveStatus := fun _ _ => ret None; SaveID := fun _ _ => ret None;
                 cache_Status := fun _ => ret (0%N, None); cache_ID := fun _ => ret ("", None);
                 RemoveStatus := fun _ => ret None; RemoveID := fun _ => ret None |};
     policy := {| AddPolicy := fun _ => ret None; AddPolicies := fun _ => ret None;
                  DeletePolicyFilter := fun _ => ret None; DeletePolicies := fun _ => ret None |};
     idProvider := ret ("", None); sidProvider := ret ("", None); availableActions := [];
     builtInRoles := [("admin", [])] |}.
Definition members (s : state) (r : string) : gset string := if r =s "domain_admin" then s else ∅.

Definition two : state := {["u"]} ∪ {["v"]}.
Definition removed := RoleRemoveMembers (ret 1%Z) svc roles_example.alice "d" "domain_admin" ["u"] two.

Lemma builtin_role_keeps_a_member_witness :
  is_nil removed.1 = true /\ members removed.2 "domain_admin" <> ∅.
Proof.
  split; [vm_compute; reflexivity|].
  eapply (builtin_role_keeps_a_member (ret 1%Z) svc members) with (w := two) (e := removed.1); try done.
  - intros r w mp w'. simpl. intros H. injection H as <- <-. unfold members. simpl. by destruct (r =s "domain_admin").
  - intros ro ms w w'. simpl. intros H. injection H as <-. intros r. unfold members.
    case_bool_decide as Hr; [subst r; destruct (_ =s "domain_admin"); [done|apply set_eq; set_solver]|].
    destruct (String.eqb_spec r "domain_admin") as [->|]; [|done].
    destruct (String.eqb_spec (roles.ID ro) "domain_admin"); [by subst|done].
  - by intros e r w ro w' [= <- _].
  - left. apply surjective_pairing.
Defined.
End memmembers.
