(* ===== verification/Channels.v ===== *)
(** * channels: the channels service, its private service and its cache

    Source: src/channels/channels.go, status.go, errors.go, service.go,
    private/service.go, cache/channels.go.  The repository (which is also
    the role repository of the provision manager), the gRPC clients and
    Redis are parameters. *)

From S2P Require Import Prelude GoStd Errors Policies Authn Roles Redis Connections Hierarchy Domains.

Module channels.
Import policies hierarchy grpc connections.

(** ** src/channels/status.go, errors.go *)
Definition EnabledStatus : N := 0.
Definition DisabledStatus : N := 1.
Definition DeletedStatus : N := 2.
Definition AllStatus : N := 3.
Definition Disabled := "disabled".
Definition Enabled := "enabled".
Definition Deleted := "deleted".
Definition All := "all".
Definition Unknown := "unknown".

Definition Status_String (s : N) : string :=
  if N.eqb s DisabledStatus then Disabled
  else if N.eqb s EnabledStatus then Enabled
  else if N.eqb s DeletedStatus then Deleted
  else if N.eqb s AllStatus then All
  else Unknown.

Definition ToStatus (status : string) : N * error :=
  if status =s Disabled then (DisabledStatus, None)
  else if status =s Enabled then (EnabledStatus, None)
  else if status =s Deleted then (DeletedStatus, None)
  else if status =s All then (AllStatus, None)
  else (0%N, Some svcerr.ErrInvalidStatus).

(** These two are values of the standard library's errors package. *)
Definition ErrEnableChannel : err := Foreign (Some "channels.ErrEnableChannel") "failed to enable channel" None.
Definition ErrDisableChannel : err := Foreign (Some "channels.ErrDisableChannel") "failed to disable channel" None.

(** ** src/channels/channels.go *)
Record Extended := MkExtended {
  ParentGroupPath : string; RoleID : string; RoleName : string; Actions : list string;
  AccessType : string; AccessProviderId : string; AccessProviderRoleId : string;
  AccessProviderRoleName : string; AccessProviderRoleActions : list string;
  ConnectionTypes : list N; MemberId : string; ext_Roles : list roles.MemberRoleActions }.
Definition Extended0 : Extended := MkExtended "" "" "" [] "" "" "" "" [] [] "" [].

Record Channel := MkChannel {
  ID : string; Name : string; Tags : list string; ParentGroup : string; Domain : string; Route : string;
  Metadata_ : Metadata; CreatedBy : string; CreatedAt : Time; UpdatedAt : Time; UpdatedBy : string;
  Status : N; Extended_ : Extended }.
#[global] Instance Channel_fields : Fields Channel := fun c =>
  MkChannel (ID c) (Name c) (Tags c) (ParentGroup c) (Domain c) (Route c) (Metadata_ c) (CreatedBy c)
    (CreatedAt c) (UpdatedAt c) (UpdatedBy c) (Status c) (Extended_ c).
Definition Channel0 : Channel := MkChannel "" "" [] "" "" "" None "" zeroTime zeroTime "" 0 Extended0.

Definition OrOp : N := 0.
Definition AndOp : N := 1.
Record TagsQuery := MkTagsQuery { Elements : list string; Operator : N }.
Definition TagsQuery0 : TagsQuery := MkTagsQuery [] 0.

Definition ToTagsQuery (s : string) : TagsQuery :=
  if GoStd.Contains s "+" then MkTagsQuery (map TrimSpace (Split s "+")) AndOp
  else if GoStd.Contains s "," then MkTagsQuery (map TrimSpace (Split s ",")) OrOp
  else MkTagsQuery [s] OrOp.

Record Page := MkPage {
  pg_Total : N; pg_Offset : N; pg_Limit : N; pg_OnlyTotal : bool; pg_Order : string; pg_Dir : string;
  pg_ID : string; pg_Name : string; pg_Metadata : Metadata; pg_Domain : string; pg_Tags : TagsQuery;
  pg_Status : N; pg_Group : option string; pg_Client : string; pg_ConnectionType : string;
  pg_RoleName : string; pg_RoleID : string; pg_Actions : list string; pg_AccessType : string;
  pg_IDs : list string; pg_CreatedFrom : Time; pg_CreatedTo : Time }.
#[global] Instance Page_fields : Fields Page := fun p =>
  MkPage (pg_Total p) (pg_Offset p) (pg_Limit p) (pg_OnlyTotal p) (pg_Order p) (pg_Dir p) (pg_ID p)
    (pg_Name p) (pg_Metadata p) (pg_Domain p) (pg_Tags p) (pg_Status p) (pg_Group p) (pg_Client p)
    (pg_ConnectionType p) (pg_RoleName p) (pg_RoleID p) (pg_Actions p) (pg_AccessType p) (pg_IDs p)
    (pg_CreatedFrom p) (pg_CreatedTo p).
Definition Page0 : Page :=
  MkPage 0 0 0 false "" "" "" "" None "" TagsQuery0 0 None "" "" "" "" [] "" [] zeroTime zeroTime.

Record ChannelsPage := MkChannelsPage { cp_Page : Page; cp_Channels : list Channel }.
Definition ChannelsPage0 : ChannelsPage := MkChannelsPage Page0 [].

Record Connection := MkConnection { ClientID : string; ChannelID : string; DomainID : string; Type_ : N }.

Record AuthzReq := MkAuthzReq {
  az_DomainID : string; az_ChannelID : string; az_ClientID : string; az_ClientType : string; az_Type : N }.

Record Repository (W : Type) := {
  Save : list Channel -> St W (list Channel * error);
  repo_Update : Channel -> St W (Channel * error);
  repo_UpdateTags : Channel -> St W (Channel * error);
  ChangeStatus : Channel -> St W (Channel * error);
  RetrieveUserChannels : string -> string -> Page -> St W (ChannelsPage * error);
  RetrieveByID : string -> St W (Channel * error);
  RetrieveByRoute : string -> string -> St W (Channel * error);
  RetrieveByIDWithRoles : string -> string -> St W (Channel * error);
  RetrieveAll : Page -> St W (ChannelsPage * error);
  repo_Remove : list string -> St W error;
  repo_SetParentGroup : Channel -> St W error;
  repo_RemoveParentGroup : Channel -> St W error;
  repo_AddConnections : list Connection -> St W error;
  repo_RemoveConnections : list Connection -> St W error;
  CheckConnection : Connection -> St W error;
  ClientAuthorize : Connection -> St W error;
  DoesChannelHaveConnections : string -> St W (bool * error);
  repo_RemoveClientConnections : string -> St W error;
  repo_RemoveChannelConnections : string -> St W error;
  RetrieveParentGroupChannels : string -> St W (list Channel * error);
  repo_UnsetParentGroupFromChannels : string -> St W error;
  role_repo : roles.Repository W }.
Arguments Save {W}. Arguments repo_Update {W}. Arguments repo_UpdateTags {W}. Arguments ChangeStatus {W}.
Arguments RetrieveUserChannels {W}. Arguments RetrieveByID {W}. Arguments RetrieveByRoute {W}.
Arguments RetrieveByIDWithRoles {W}. Arguments RetrieveAll {W}. Arguments repo_Remove {W}.
Arguments repo_SetParentGroup {W}. Arguments repo_RemoveParentGroup {W}. Arguments repo_AddConnections {W}.
Arguments repo_RemoveConnections {W}. Arguments CheckConnection {W}. Arguments ClientAuthorize {W}.
Arguments DoesChannelHaveConnections {W}. Arguments repo_RemoveClientConnections {W}.
Arguments repo_RemoveChannelConnections {W}. Arguments RetrieveParentGroupChannels {W}.
Arguments repo_UnsetParentGroupFromChannels {W}. Arguments role_repo {W}.

Record Cache (W : Type) := {
  cache_Save : string -> string -> string -> St W error;
  cache_ID : string -> string -> St W (string * error);
  cache_Remove : string -> string -> St W error }.
Arguments cache_Save {W}. Arguments cache_ID {W}. Arguments cache_Remove {W}.

(** ** src/channels/service.go *)
Definition errAddConnectionsClients : err := Sentinel "channels.errAddConnectionsClients" CustomError "failed to add connections in clients service".
Definition errRemoveConnectionsClients : err := Sentinel "channels.errRemoveConnectionsClients" CustomError "failed to remove connections from clients service".
Definition errSetParentGroup : err := Sentinel "channels.errSetParentGroup" CustomError "channel already have parent".
Definition errSetSameParentGroup : err := Sentinel "channels.errSetSameParentGroup" CustomError "channel already assigned to the parent group".
Definition BuiltInRoleAdmin := "admin".

Record service (W : Type) := {
  repo : Repository W;
  cache : Cache W;
  policy : PolicyService W;
  idProvider : St W (string * error);
  clients : ClientsServiceClient W;
  groups : GroupsServiceClient W;
  sidProvider : St W (string * error);
  availableActions : list string;
  builtInRoles : list (string * list string) }.
Arguments repo {W}. Arguments cache {W}. Arguments policy {W}. Arguments idProvider {W}. Arguments clients {W}.
Arguments groups {W}. Arguments sidProvider {W}. Arguments availableActions {W}. Arguments builtInRoles {W}.

Section service.
Context {W : Type} (now : St W Time) (svc : service W).

(** The embedded provision manager, as New makes it. *)
Definition ProvisionManageService : roles.ProvisionManageService W :=
  {| roles.entityType := ChannelType; roles.repo := role_repo (repo svc);
     roles.sidProvider := sidProvider svc; roles.policy := policy svc;
     roles.actions := availableActions svc; roles.builtInRoles := builtInRoles svc |}.

(** The body of the first loop of CreateChannels. *)
Definition prepareChannel (session : authn.Session) (c : Channel) : St W (Channel * error) :=
  '(c, e) <- (if ID c =s "" then
                '(clientID, e) <- idProvider svc ;;
                if_err e return_ ret (c, e) ;;
                ret (c <| ID := clientID |>, None)
              else ret (c, None)) ;;
  if_err e return_ ret (c, e) ;;
  if_ negb (N.eqb (Status c) DisabledStatus) && negb (N.eqb (Status c) EnabledStatus)
    return_ ret (c, Some svcerr.ErrInvalidStatus) ;;
  let c := c <| Domain := authn.DomainID session |> in
  t <- now ;;
  ret (c <| CreatedAt := t |>, None).

Definition domainPolicy (domainID chID : string) : Policy :=
  Policy0 <| SubjectType := DomainType |> <| Subject := domainID |>
    <| Relation := DomainRelation |> <| ObjectType := ChannelType |> <| Object := chID |>.

Definition rollbackSave (chIDs : list string) (retErr : error) : St W error :=
  errRollBack <- repo_Remove (repo svc) chIDs ;;
  if_err errRollBack return_ ret (Wrap retErr (WrapE svcerr.ErrRollbackRepo errRollBack)) ;;
  ret retErr.

Definition CreateChannels (session : authn.Session) (chs : list Channel)
    : St W ((list Channel * list roles.RoleProvision) * error) :=
  '(reChs, e) <- map_err chs (prepareChannel session) ;;
  if_err e return_ ret (([], []), e) ;;
  '(savedChs, e) <- Save (repo svc) reChs ;;
  match e with
  | Some _ =>
      if_ Errors.Contains e (Some errs.ErrRouteNotAvailable)
        return_ ret (([], []), Some errs.ErrRouteNotAvailable) ;;
      ret (([], []), WrapE svcerr.ErrCreateEntity e)
  | None =>
      let chIDs := map ID savedChs in
      defer_err (
        let newBuiltInRoleMembers := [(BuiltInRoleAdmin, [authn.UserID session])] in
        let optionalPolicies := map (domainPolicy (authn.DomainID session)) chIDs in
        '(rp, e) <- roles.AddNewEntitiesRoles now ProvisionManageService (authn.DomainID session)
                      (authn.UserID session) chIDs optionalPolicies newBuiltInRoleMembers ;;
        if_err e return_ ret (([], []), WrapE svcerr.ErrAddPolicies e) ;;
        ret ((savedChs, rp), None))
      (rollbackSave chIDs)
  end.

Definition UpdateChannel (session : authn.Session) (ch : Channel) : St W (Channel * error) :=
  t <- now ;;
  let channel := Channel0 <| ID := ID ch |> <| Name := Name ch |> <| Metadata_ := Metadata_ ch |>
    <| UpdatedAt := t |> <| UpdatedBy := authn.UserID session |> in
  '(channel, e) <- repo_Update (repo svc) channel ;;
  if_err e return_ ret (Channel0, WrapE svcerr.ErrUpdateEntity e) ;;
  ret (channel, None).

Definition UpdateChannelTags (session : authn.Session) (ch : Channel) : St W (Channel * error) :=
  t <- now ;;
  let channel := Channel0 <| ID := ID ch |> <| Tags := Tags ch |>
    <| UpdatedAt := t |> <| UpdatedBy := authn.UserID session |> in
  '(channel, e) <- repo_UpdateTags (repo svc) channel ;;
  if_err e return_ ret (Channel0, WrapE svcerr.ErrUpdateEntity e) ;;
  ret (channel, None).

Definition changeChannelStatus (userID : string) (channel : Channel) : St W (Channel * error) :=
  '(dbchannel, e) <- RetrieveByID (repo svc) (ID channel) ;;
  if_err e return_ ret (Channel0, WrapE svcerr.ErrViewEntity e) ;;
  if_ N.eqb (Status dbchannel) (Status channel) return_ ret (Channel0, Some svcerr.ErrStatusAlreadyAssigned) ;;
  let channel := channel <| UpdatedBy := userID |> in
  '(channel, e) <- ChangeStatus (repo svc) channel ;;
  if_err e return_ ret (Channel0, WrapE svcerr.ErrUpdateEntity e) ;;
  ret (channel, None).

Definition EnableChannel (session : authn.Session) (id : string) : St W (Channel * error) :=
  t <- now ;;
  let channel := Channel0 <| ID := id |> <| Status := EnabledStatus |> <| UpdatedAt := t |> in
  '(ch, e) <- changeChannelStatus (authn.UserID session) channel ;;
  if_err e return_ ret (Channel0, WrapE ErrEnableChannel e) ;;
  ret (ch, None).

Definition DisableChannel (session : authn.Session) (id : string) : St W (Channel * error) :=
  t <- now ;;
  let channel := Channel0 <| ID := id |> <| Status := DisabledStatus |> <| UpdatedAt := t |> in
  '(ch, e) <- changeChannelStatus (authn.UserID session) channel ;;
  if_err e return_ ret (Channel0, WrapE ErrDisableChannel e) ;;
  ret (ch, None).

Definition ViewChannel (session : authn.Session) (id : string) (withRoles : bool) : St W (Channel * error) :=
  '(ch, e) <- (if withRoles then RetrieveByIDWithRoles (repo svc) id (authn.UserID session)
               else RetrieveByID (repo svc) id) ;;
  if_err e return_ ret (Channel0, WrapE svcerr.ErrViewEntity e) ;;
  ret (ch, None).

Definition ListChannels (session : authn.Session) (pm : Page) : St W (ChannelsPage * error) :=
  if authn.SuperAdmin session then
    let pm := pm <| pg_Domain := authn.DomainID session |> in
    '(cp, e) <- RetrieveAll (repo svc) pm ;;
    if_err e return_ ret (ChannelsPage0, WrapE svcerr.ErrViewEntity e) ;;
    ret (cp, None)
  else
    '(cp, e) <- RetrieveUserChannels (repo svc) (authn.DomainID session) (authn.UserID session) pm ;;
    if_err e return_ ret (ChannelsPage0, WrapE svcerr.ErrViewEntity e) ;;
    ret (cp, None).

Definition ListUserChannels (session : authn.Session) (userID : string) (pm : Page) : St W (ChannelsPage * error) :=
  '(cp, e) <- RetrieveUserChannels (repo svc) (authn.DomainID session) userID pm ;;
  if_err e return_ ret (ChannelsPage0, WrapE svcerr.ErrViewEntity e) ;;
  ret (cp, None).

Definition removePolicies (domainID id parentGroup : string) : list Policy :=
  [Policy0 <| SubjectType := DomainType |> <| Subject := domainID |> <| Relation := DomainRelation |>
     <| ObjectType := ChannelType |> <| Object := id |>]
  ++ (if parentGroup <>s "" then
        [Policy0 <| SubjectType := GroupType |> <| Subject := parentGroup |> <| Relation := ParentGroupRelation |>
           <| ObjectType := ChannelType |> <| Object := id |>]
      else []).

Definition removeFilters (id : string) : list Policy :=
  [Policy0 <| SubjectType := ChannelType |> <| Subject := id |>;
   Policy0 <| ObjectType := ChannelType |> <| Object := id |>].

Definition RemoveChannel (session : authn.Session) (id : string) : St W error :=
  '(ok, e) <- DoesChannelHaveConnections (repo svc) id ;;
  if_err e return_ ret (WrapE svcerr.ErrRemoveEntity e) ;;
  e <- (if ok then clients_RemoveChannelConnections (clients svc) id else ret None) ;;
  if_err e return_ ret (WrapE svcerr.ErrRemoveEntity e) ;;
  '(ch, e) <- ChangeStatus (repo svc) (Channel0 <| ID := id |> <| Status := DeletedStatus |>) ;;
  if_err e return_ ret (WrapE svcerr.ErrRemoveEntity e) ;;
  e <- (if Route ch <>s "" then cache_Remove (cache svc) (Route ch) (Domain ch) else ret None) ;;
  if_err e return_ ret (WrapE svcerr.ErrRemoveEntity e) ;;
  let deletePolicies := removePolicies (authn.DomainID session) id (ParentGroup ch) in
  e <- roles.RemoveEntitiesRoles ProvisionManageService (authn.DomainID session)
         (authn.DomainUserID session) [id] (removeFilters id) deletePolicies ;;
  if_err e return_ ret (WrapE svcerr.ErrDeletePolicies e) ;;
  e <- repo_Remove (repo svc) [id] ;;
  if_err e return_ ret (WrapE svcerr.ErrRemoveEntity e) ;;
  ret None.

(** The loops of Connect and Disconnect. *)
Definition connectChannel (session : authn.Session) (chID : string) : St W (option error) :=
  '(c, e) <- RetrieveByID (repo svc) chID ;;
  if_err e return_ ret (Some (WrapE svcerr.ErrCreateEntity e)) ;;
  if_ negb (N.eqb (Status c) EnabledStatus)
    return_ ret (Some (WrapE svcerr.ErrCreateEntity
                         (Some (Errorf ("channel id " +:+ chID +:+ " is not in enabled state"))))) ;;
  if_ Domain c <>s authn.DomainID session
    return_ ret (Some (WrapE svcerr.ErrCreateEntity
                         (Some (Errorf ("channel id " +:+ chID +:+ " has invalid domain id"))))) ;;
  ret None.

Definition connectClient (session : authn.Session) (thID : string) : St W (option error) :=
  '(entity, e) <- clients_RetrieveEntity (clients svc) thID ;;
  if_err e return_ ret (Some (WrapE svcerr.ErrCreateEntity e)) ;;
  if_ negb (N.eqb (grpc.Status entity) EnabledStatus)
    return_ ret (Some (WrapE svcerr.ErrCreateEntity
                         (Some (Errorf ("client id " +:+ thID +:+ " is not in enabled state"))))) ;;
  if_ DomainId entity <>s authn.DomainID session
    return_ ret (Some (WrapE svcerr.ErrCreateEntity
                         (Some (Errorf ("client id " +:+ thID +:+ " has invalid domain id"))))) ;;
  ret None.

Definition conns (domainID : string) (chIDs thIDs : list string) (connTypes : list N) : list Connection :=
  chIDs ≫= fun chID => thIDs ≫= fun thID => map (fun connType => MkConnection thID chID domainID connType) connTypes.

Definition cliConns (domainID : string) (chIDs thIDs : list string) (connTypes : list N) : list grpc.Connection :=
  chIDs ≫= fun chID => thIDs ≫= fun thID =>
    map (fun connType => grpc.MkConnection thID chID domainID connType) connTypes.

Definition checkNew (conn : Connection) : St W (option error) :=
  e <- CheckConnection (repo svc) conn ;;
  if_ is_nil e
    return_ ret (Some (WrapE svcerr.ErrConflict
      (Some (Errorf ("channel " +:+ ChannelID conn +:+ " and client " +:+ ClientID conn
        +:+ " are already connected for type " +:+ ConnType_String (Type_ conn) +:+ " in domain "
        +:+ DomainID conn +:+ " "))))) ;;
  if_ negb (is_sentinel e repoerr.ErrNotFound)
    return_ ret (Some (WrapE svcerr.ErrCreateEntity e)) ;;
  ret None.

Definition Connect (session : authn.Session) (chIDs thIDs : list string) (connTypes : list N) : St W error :=
  r <- for_each chIDs (connectChannel session) ;;
  if_err r return_ ret (default None r) ;;
  r <- for_each thIDs (connectClient session) ;;
  if_err r return_ ret (default None r) ;;
  let cs := conns (authn.DomainID session) chIDs thIDs connTypes in
  r <- for_each cs checkNew ;;
  if_err r return_ ret (default None r) ;;
  e <- clients_AddConnections (clients svc) (cliConns (authn.DomainID session) chIDs thIDs connTypes) ;;
  if_err e return_ ret (WrapE svcerr.ErrCreateEntity (WrapE errAddConnectionsClients e)) ;;
  e <- repo_AddConnections (repo svc) cs ;;
  if_err e return_ ret (WrapE svcerr.ErrCreateEntity e) ;;
  ret None.

Definition disconnectChannel (session : authn.Session) (chID : string) : St W (option error) :=
  '(c, e) <- RetrieveByID (repo svc) chID ;;
  if_err e return_ ret (Some (WrapE svcerr.ErrRemoveEntity e)) ;;
  if_ Domain c <>s authn.DomainID session
    return_ ret (Some (WrapE svcerr.ErrRemoveEntity
                         (Some (Errorf ("channel id " +:+ chID +:+ " has invalid domain id"))))) ;;
  ret None.

Definition disconnectClient (session : authn.Session) (thID : string) : St W (option error) :=
  '(entity, e) <- clients_RetrieveEntity (clients svc) thID ;;
  if_err e return_ ret (Some (WrapE svcerr.ErrRemoveEntity e)) ;;
  if_ DomainId entity <>s authn.DomainID session
    return_ ret (Some (WrapE svcerr.ErrRemoveEntity
                         (Some (Errorf ("client id " +:+ thID +:+ " has invalid domain id"))))) ;;
  ret None.

Definition Disconnect (session : authn.Session) (chIDs thIDs : list string) (connTypes : list N) : St W error :=
  r <- for_each chIDs (disconnectChannel session) ;;
  if_err r return_ ret (default None r) ;;
  r <- for_each thIDs (disconnectClient session) ;;
  if_err r return_ ret (default None r) ;;
  e <- clients_RemoveConnections (clients svc) (cliConns (authn.DomainID session) chIDs thIDs connTypes) ;;
  if_err e return_ ret (WrapE svcerr.ErrRemoveEntity (WrapE errRemoveConnectionsClients e)) ;;
  e <- repo_RemoveConnections (repo svc) (conns (authn.DomainID session) chIDs thIDs connTypes) ;;
  if_err e return_ ret (WrapE svcerr.ErrRemoveEntity e) ;;
  ret None.

Definition parentPolicy (domainID group id : string) : Policy :=
  Policy0 <| policies.Domain := domainID |> <| SubjectType := GroupType |> <| Subject := group |>
    <| Relation := ParentGroupRelation |> <| ObjectType := ChannelType |> <| Object := id |>.

Definition SetParentGroup (session : authn.Session) (parentGroupID id : string) : St W error :=
  '(ch, e) <- RetrieveByID (repo svc) id ;;
  if_err e return_ ret (WrapE svcerr.ErrUpdateEntity e) ;;
  '(entity, e) <- groups_RetrieveEntity (groups svc) parentGroupID ;;
  if_err e return_ ret (WrapE svcerr.ErrUpdateEntity e) ;;
  if_ DomainId entity <>s authn.DomainID session
    return_ ret (WrapE svcerr.ErrUpdateEntity
                   (Some (Errorf ("parent group id " +:+ parentGroupID +:+ " has invalid domain id")))) ;;
  if_ negb (N.eqb (grpc.Status entity) EnabledStatus)
    return_ ret (WrapE svcerr.ErrUpdateEntity
                   (Some (Errorf ("parent group id " +:+ parentGroupID +:+ " is not in enabled state")))) ;;
  if_ ParentGroup ch =s parentGroupID
    return_ ret (WrapE svcerr.ErrConflict (Some errSetSameParentGroup)) ;;
  if_ ParentGroup ch <>s ""
    return_ ret (WrapE svcerr.ErrConflict (Some errSetParentGroup)) ;;
  let pols := [parentPolicy (authn.DomainID session) parentGroupID id] in
  e <- AddPolicies (policy svc) pols ;;
  if_err e return_ ret (WrapE svcerr.ErrAddPolicies e) ;;
  defer_err0 (
    t <- now ;;
    let ch := Channel0 <| ID := id |> <| ParentGroup := parentGroupID |>
      <| UpdatedBy := authn.UserID session |> <| UpdatedAt := t |> in
    e <- repo_SetParentGroup (repo svc) ch ;;
    if_err e return_ ret (WrapE svcerr.ErrUpdateEntity e) ;;
    ret None)
  (undoAdd (policy svc) pols).

Definition RemoveParentGroup (session : authn.Session) (id : string) : St W error :=
  '(ch, e) <- RetrieveByID (repo svc) id ;;
  if_err e return_ ret (WrapE svcerr.ErrUpdateEntity e) ;;
  if ParentGroup ch <>s "" then
    let pols := [parentPolicy (authn.DomainID session) (ParentGroup ch) id] in
    e <- DeletePolicies (policy svc) pols ;;
    if_err e return_ ret (WrapE svcerr.ErrDeletePolicies e) ;;
    defer_err0 (
      t <- now ;;
      let ch := Channel0 <| ID := id |> <| UpdatedBy := authn.UserID session |> <| UpdatedAt := t |> in
      e <- repo_RemoveParentGroup (repo svc) ch ;;
      if_err e return_ ret e ;;
      ret None)
    (undoDelete (policy svc) pols)
  else ret None.
End service.
End channels.

(** ** src/channels/private/service.go *)
Module channels_private.
Import policies channels.
Definition errDisabledDomain : err := Sentinel "channels_private.errDisabledDomain" CustomError "domain is disabled or frozen".

(** [domains] is the method RetrieveStatus of pkg/domains.Authorization. *)
Record service (W : Type) := {
  repo : Repository W;
  cache : Cache W;
  evaluator : Evaluator W;
  policy : PolicyService W;
  domains : string -> St W (N * error) }.
Arguments repo {W}. Arguments cache {W}. Arguments evaluator {W}. Arguments policy {W}. Arguments domains {W}.

Section service.
Context {W : Type} (svc : service W).

Definition authzPolicy (req : AuthzReq) (permission : string) : Policy :=
  Policy0 <| Subject := az_ClientID req |> <| SubjectType := UserType |> <| Object := az_ChannelID req |>
    <| Permission := permission |> <| ObjectType := ChannelType |>.

Definition Authorize (req : AuthzReq) : St W error :=
  '(status, e) <- domains svc (az_DomainID req) ;;
  if_err e return_ ret (WrapE svcerr.ErrAuthorization e) ;;
  if_ negb (N.eqb status Domains.domains.EnabledStatus)
    return_ ret (WrapE svcerr.ErrAuthorization (Some errDisabledDomain)) ;;
  if az_ClientType req =s UserType then
    let (permission, e) := connections.Permission (az_Type req) in
    if_err e return_ ret e ;;
    e <- CheckPolicy (evaluator svc) (authzPolicy req permission) ;;
    if_err e return_ ret (WrapE svcerr.ErrAuthorization e) ;;
    ret None
  else if az_ClientType req =s ClientType then
    e <- ClientAuthorize (channels_private.repo svc)
           (MkConnection (az_ClientID req) (az_ChannelID req) (az_DomainID req) (az_Type req)) ;;
    if_err e return_ ret (WrapE svcerr.ErrAuthorization e) ;;
    ret None
  else ret (Some svcerr.ErrAuthentication).

Definition RemoveClientConnections (clientID : string) : St W error :=
  repo_RemoveClientConnections (channels_private.repo svc) clientID.

(** The deferred function tests [err], which is nil at that point, and not
    the error of the rollback: that error is lost. *)
Definition undoUnset (prs : list Policy) (retErr : error) : St W error :=
  _ <- AddPolicies (channels_private.policy svc) prs ;;
  ret retErr.

Definition unsetPolicy (ch : Channel) : Policy :=
  Policy0 <| SubjectType := GroupType |> <| Subject := ParentGroup ch |>
    <| Relation := ParentGroupRelation |> <| ObjectType := ChannelType |> <| Object := ID ch |>.

Definition UnsetParentGroupFromChannels (parentGroupID : string) : St W error :=
  '(chs, e) <- RetrieveParentGroupChannels (channels_private.repo svc) parentGroupID ;;
  if_err e return_ ret (WrapE svcerr.ErrViewEntity e) ;;
  if Nat.ltb 0 (length chs) then
    let prs := map unsetPolicy chs in
    e <- DeletePolicies (channels_private.policy svc) prs ;;
    if_err e return_ ret (WrapE svcerr.ErrDeletePolicies e) ;;
    defer_err0 (
      e <- repo_UnsetParentGroupFromChannels (channels_private.repo svc) parentGroupID ;;
      if_err e return_ ret (WrapE svcerr.ErrRemoveEntity e) ;;
      ret None)
    (undoUnset prs)
  else ret None.

Definition RetrieveByID (id : string) : St W (Channel * error) := channels.RetrieveByID (channels_private.repo svc) id.

Definition RetrieveIDByRoute (route domainID : string) : St W (string * error) :=
  '(id, e) <- cache_ID (channels_private.cache svc) route domainID ;;
  match e with
  | None => ret (id, None)
  | Some _ =>
      '(chn, e) <- RetrieveByRoute (channels_private.repo svc) route domainID ;;
      if_err e return_ ret ("", WrapE svcerr.ErrViewEntity e) ;;
      e <- cache_Save (channels_private.cache svc) route domainID (ID chn) ;;
      if_err e return_ ret ("", WrapE svcerr.ErrUpdateEntity e) ;;
      ret (ID chn, None)
  end.
End service.
End channels_private.

(** ** src/channels/cache/channels.go *)
Module channels_cache.
Definition ErrEmptyDomainID : err := Sentinel "channels_cache.ErrEmptyDomainID" CustomError "domain ID is empty".
Definition ErrEmptyChannelID : err := Sentinel "channels_cache.ErrEmptyChannelID" CustomError "channel ID is empty".
Definition ErrEmptyChannelRoute : err := Sentinel "channels_cache.ErrEmptyChannelRoute" CustomError "channel route is empty".

Definition encodeKey (domainID channelRoute : string) : string * error :=
  if_ domainID =s "" return_ ("", Some ErrEmptyDomainID) ;;
  if_ channelRoute =s "" return_ ("", Some ErrEmptyChannelRoute) ;;
  (domainID +:+ ":" +:+ channelRoute, None).

Section cache.
Context {W : Type} (client : Redis W) (duration : Z).

Definition Save (route domainID channelID : string) : St W error :=
  let (key, e) := encodeKey domainID route in
  if_err e return_ ret (WrapE repoerr.ErrCreateEntity e) ;;
  if_ channelID =s "" return_ ret (WrapE repoerr.ErrCreateEntity (Some ErrEmptyChannelID)) ;;
  e <- redis_Set client key channelID duration ;;
  if_err e return_ ret (WrapE repoerr.ErrCreateEntity e) ;;
  ret None.

Definition ID (channelRoute domainID : string) : St W (string * error) :=
  let (key, e) := encodeKey domainID channelRoute in
  if_err e return_ ret ("", WrapE repoerr.ErrNotFound e) ;;
  '(id, e) <- redis_Get client key ;;
  if_err e return_ ret ("", WrapE repoerr.ErrNotFound e) ;;
  ret (id, None).

Definition Remove (channelRoute domainID : string) : St W error :=
  let (key, e) := encodeKey domainID channelRoute in
  if_err e return_ ret (WrapE repoerr.ErrRemoveEntity e) ;;
  e <- redis_Del client [key] ;;
  if_err e return_ ret (WrapE repoerr.ErrRemoveEntity e) ;;
  ret None.

Definition NewChannelsCache : channels.Cache W :=
  {| channels.cache_Save := Save; channels.cache_ID := ID; channels.cache_Remove := Remove |}.
End cache.
End channels_cache.

(** ** Creating channels *)
Section create.
Import policies channels.
Context {W : Type} (now : St W Time) (svc : service W).
Context (tuples grants : W -> gset Relationship) (stored : W -> gmap string Channel).
Context {RE : RolesEnv now (ProvisionManageService svc) tuples grants}.
Context {RL : RowLaws tuples ID (Save (repo svc)) (repo_Remove (repo svc)) stored}.
Context (now_stored : frames now stored) (id_stored : frames (idProvider svc) stored).
Context (id_tuples : frames (idProvider svc) tuples).
Context (roles_stored : forall d u ids os ms,
  frames (roles.AddNewEntitiesRoles now (ProvisionManageService svc) d u ids os ms) stored).

Lemma prepareChannel_frames {V} (view : W -> V) session c :
  frames now view -> frames (idProvider svc) view -> frames (prepareChannel now svc session c) view.
Proof.
  intros Hn Hi. unfold prepareChannel. apply frames_bind.
  { destruct (ID c =s ""); [|apply frames_ret]. apply frames_bind; [done|]. by intros [? [?|]]. }
  intros [c1 [?|]]; [apply frames_ret|]. destruct (_ && _); [apply frames_ret|]. cbv zeta.
  apply frames_bind; [done|]. intros t. apply frames_ret.
Qed.

(** CreateChannels either stores all the channels together with the
    policies of their roles, one role per channel, or returns an error and
    leaves channels and policies as they were, unless a rollback failed,
    which the error then says. *)
Theorem CreateChannels_atomic session chs w cs rps e w'
    (Hrun : CreateChannels now svc session chs w = ((cs, rps, e), w')) :
  created (ProvisionManageService svc) tuples ID stored svcerr.ErrAddPolicies svcerr.ErrRollbackRepo
    (authn.DomainID session) (map (domainPolicy (authn.DomainID session))) w w' cs e.
Proof.
  revert Hrun. unfold CreateChannels, bind at 1.
  destruct (map_err chs _ w) as [[prepared er] w1] eqn:E1.
  assert (Hf : stored w1 = stored w /\ tuples w1 = tuples w).
  { split; (eapply frames_eq, E1; apply map_err_frames; intros c; apply prepareChannel_frames); try done.
    apply now_tuples. }
  destruct Hf as [Hs1 Ht1]. destruct er as [er|]; unfold ret at 1.
  { intros [= <- <- <- <-]. by apply created_same. }
  unfold bind at 1. destruct (Save (repo svc) prepared w1) as [[saved er] w2] eqn:E2.
  destruct er as [er|].
  { pose proof (frames_eq _ tuples _ _ _ (tuples_save prepared) E2) as Ht2. apply stored_save_err in E2.
    destruct (Errors.Contains _ _); [intros [= <- <- <- <-]; apply created_same; congruence|].
    destruct (WrapE svcerr.ErrCreateEntity (Some er)) as [x|] eqn:Hx; [|by apply WrapE_not_nil in Hx].
    intros [= <- <- <- <-]. apply created_same; congruence. }
  eapply (create_rows now _ tuples grants ID); [exact RL| |intros ? ?; apply roles_stored|exact Hs1|exact Ht1|exact E2].
  intros ids. apply Forall_forall. by intros pr (i & _ & <-)%elem_of_map_list.
Qed.
End create.

(** ** The parent group of a channel *)
Class ChannelParentLaws {W : Type} (R : channels.Repository W) (tuples : W -> gset Relationship)
    (parent : W -> string -> string) : Prop := {
  ch_parent_RetrieveByID id : frames (channels.RetrieveByID R id) parent;
  ch_tuples_RetrieveByID id : frames (channels.RetrieveByID R id) tuples;
  ch_RetrieveByID_parent id w c w' : channels.RetrieveByID R id w = ((c, None), w') ->
    channels.ParentGroup c = parent w id;
  ch_SetParentGroup_assigns c :
    assigns tuples parent (channels.repo_SetParentGroup R c) [channels.ID c] (channels.ParentGroup c);
  ch_RemoveParentGroup_assigns c : assigns tuples parent (channels.repo_RemoveParentGroup R c) [channels.ID c] "";
  ch_parent_children g : frames (channels.RetrieveParentGroupChannels R g) parent;
  ch_tuples_children g : frames (channels.RetrieveParentGroupChannels R g) tuples;
  ch_RetrieveParentGroup_ok g w cs w' : g <> "" -> channels.RetrieveParentGroupChannels R g w = ((cs, None), w') ->
    (forall c, c ∈ cs -> channels.ParentGroup c = g)
    /\ forall x, x ∈ map channels.ID cs <-> parent w x = g;
  ch_UnsetParentGroup_effect g w e w' : channels.repo_UnsetParentGroupFromChannels R g w = (e, w') ->
    tuples w' = tuples w
    /\ forall x, parent w' x =
         match e with None => if parent w x =s g then "" else parent w x | Some _ => parent w x end }.
#[export] Hint Resolve ch_parent_RetrieveByID ch_tuples_RetrieveByID ch_parent_children ch_tuples_children : frame.

Section parents.
Import policies hierarchy grpc channels.
Context {W : Type} (now : St W Time) (svc : service W) (priv : channels_private.service W).
Context (tuples : W -> gset Relationship) (parent : W -> string -> string).
Context {PL : PolicyLaws (policy svc) tuples} {CL : ChannelParentLaws (repo svc) tuples parent}.
(** The private service works on the same repository and policies. *)
Context (same_repo : channels_private.repo priv = repo svc) (same_policy : channels_private.policy priv = policy svc).
Context (now_parent : frames now parent) (now_t : frames now tuples).
Context (entity_parent : forall g, frames (groups_RetrieveEntity (groups svc) g) parent).
Context (entity_tuples : forall g, frames (groups_RetrieveEntity (groups svc) g) tuples).
Context (add_parent : forall l, frames (AddPolicies (policy svc) l) parent).
Context (delete_parent : forall l, frames (DeletePolicies (policy svc) l) parent).
Hint Resolve now_parent now_t entity_parent entity_tuples add_parent delete_parent : frame.

Definition synced := in_sync tuples ChannelType parent.

Lemma channel_SetParentGroup_sync session g id w e w' : g <> "" ->
  SetParentGroup now svc session g id w = (e, w') -> ~ undo_failed e -> synced w -> synced w'.
Proof.
  intros Hg. unfold SetParentGroup, bind at 1.
  destruct (RetrieveByID (repo svc) id w) as [[c er] w1] eqn:E1.
  frame_all tuples; frame_all parent. assert (Hbase : synced w -> synced w1) by (by apply in_sync_same).
  destruct er as [er|]; [nothing Hbase|].
  apply ch_RetrieveByID_parent in E1.
  unfold bind at 1. destruct (groups_RetrieveEntity (groups svc) g w1) as [[en er] w2] eqn:E2.
  frame_all tuples; frame_all parent.
  assert (Hbase2 : synced w -> synced w2) by (apply in_sync_same; congruence).
  destruct er as [er|]; [nothing Hbase2|].
  destruct (_ <>s _); [nothing Hbase2|]. destruct (negb _); [nothing Hbase2|].
  destruct (_ =s g); [nothing Hbase2|]. destruct (_ <>s "") eqn:Ep; [nothing Hbase2|]. go_bool.
  unfold bind at 1. destruct (AddPolicies (policy svc) _ w2) as [[ea|] w3] eqn:E3; frame_all parent.
  { apply AddPolicies_err in E3. intros [= <- <-] _. apply in_sync_same; congruence. }
  intros Hd Hf Hs. eapply (add_parent_sync (policy svc) tuples ChannelType parent _ [id] g);
    [..|exact E3|exact Hd|exact Hf|by apply Hbase2].
  - done.
  - done.
  - intros x ->%list_elem_of_singleton. rewrite H2, H0, <- E1. exact Ep.
  - apply (after_now tuples parent now _ _ _ (WrapE svcerr.ErrUpdateEntity) now_t now_parent);
      [|intros ?; apply WrapE_not_nil].
    intros t. match goal with |- assigns _ _ (_ ?c) _ _ => exact (ch_SetParentGroup_assigns c) end.
  - intros x. by rewrite H3.
  - intros l wa wb el x Hl. by rewrite (frames_eq _ parent _ _ _ (delete_parent l) Hl).
Qed.

Lemma channel_RemoveParentGroup_sync session id w e w' :
  RemoveParentGroup now svc session id w = (e, w') -> ~ undo_failed e -> synced w -> synced w'.
Proof.
  unfold RemoveParentGroup, bind at 1.
  destruct (RetrieveByID (repo svc) id w) as [[c er] w1] eqn:E1.
  frame_all tuples; frame_all parent. assert (Hbase : synced w -> synced w1) by (by apply in_sync_same).
  destruct er as [er|]; [nothing Hbase|].
  apply ch_RetrieveByID_parent in E1. destruct (_ <>s "") eqn:Ep; [|nothing Hbase]. go_bool.
  unfold bind at 1. destruct (DeletePolicies (policy svc) _ w1) as [[ea|] w3] eqn:E3; frame_all parent.
  { apply DeletePolicies_err in E3. intros [= <- <-] _. apply in_sync_same; congruence. }
  intros Hd Hf Hs. eapply (remove_parent_sync (policy svc) tuples ChannelType parent _ [id] (ParentGroup c));
    [..|exact E3|exact Hd|exact Hf|by apply Hbase].
  - done.
  - done.
  - intros x ->%list_elem_of_singleton. by rewrite H0.
  - apply (after_now tuples parent now _ _ _ (fun e => e) now_t now_parent); [|done].
    intros t. match goal with |- assigns _ _ (_ ?c) _ _ => exact (ch_RemoveParentGroup_assigns c) end.
  - intros x. by rewrite H1.
  - intros l wa wb el x Hl. by rewrite (frames_eq _ parent _ _ _ (add_parent l) Hl).
Qed.

(** The rollback of the private service loses its error, so only a nil error
    says that the two agree. *)
Lemma UnsetParentGroupFromChannels_sync g w w' : g <> "" ->
  channels_private.UnsetParentGroupFromChannels priv g w = (None, w') -> synced w -> synced w'.
Proof.
  intros Hg. unfold channels_private.UnsetParentGroupFromChannels, bind at 1. rewrite same_repo, same_policy.
  destruct (RetrieveParentGroupChannels (repo svc) g w) as [[cs er] w1] eqn:E1.
  frame_all tuples; frame_all parent.
  destruct er as [er|]; unfold ret at 1; [by intros [= ?%WrapE_inv]|].
  destruct (Nat.ltb 0 _); [|intros [= <-]; by apply in_sync_same].
  destruct (ch_RetrieveParentGroup_ok _ _ _ _ Hg E1) as [Hg' Hall].
  unfold bind at 1. destruct (DeletePolicies (policy svc) _ w1) as [[ea|] w3] eqn:E3; frame_all parent;
    [by intros [= ?%WrapE_inv]|].
  intros Hd Hs. eapply (remove_parent_sync (policy svc) tuples ChannelType parent
    (map channels_private.unsetPolicy cs) (map ID cs) g); [..|exact E3| | |by apply (in_sync_same _ _ _ w)].
  - rewrite <- !list_fmap_compose. apply list_fmap_ext. intros i c Hc%list_elem_of_lookup_2.
    by rewrite <- (Hg' c Hc).
  - done.
  - intros x Hx%Hall. by rewrite H0.
  - intros eb w4 Eb. apply ch_UnsetParentGroup_effect in Eb as [Ht Hp]. split; [done|].
    destruct eb; intros x; rewrite Hp; [done|]. case_bool_decide as Hx.
    + apply Hall in Hx. by rewrite H1, H0, Hx, eqb_refl_s.
    + destruct (String.eqb_spec (parent w3 x) g) as [E|]; [|done]. destruct Hx. apply Hall. congruence.
  - intros x. by rewrite H1.
  - intros l wa wb el x Hl. by rewrite (frames_eq _ parent _ _ _ (add_parent l) Hl).
  - revert Hd. unfold defer_err0, bind, ret.
    destruct (repo_UnsetParentGroupFromChannels _ _ w3) as [[eb|] w4] eqn:Eb; [|done].
    destruct (WrapE svcerr.ErrRemoveEntity (Some eb)) as [x|] eqn:Hx; [|by apply WrapE_not_nil in Hx].
    unfold channels_private.undoUnset, bind. by destruct (AddPolicies _ _ w4).
  - intros (e0 & er & He). symmetry in He. by apply WrapE_not_nil in He.
Qed.

(** A call that changes a parent group, unless its rollback failed. *)
Inductive parent_step : W -> W -> Prop :=
| step_SetParentGroup session g id w e w' : g <> "" -> ~ undo_failed e ->
    SetParentGroup now svc session g id w = (e, w') -> parent_step w w'
| step_RemoveParentGroup session id w e w' : ~ undo_failed e ->
    RemoveParentGroup now svc session id w = (e, w') -> parent_step w w'
| step_UnsetParentGroupFromChannels g w w' : g <> "" ->
    channels_private.UnsetParentGroupFromChannels priv g w = (None, w') -> parent_step w w'.

(** Over every sequence of SetParentGroup, RemoveParentGroup and
    UnsetParentGroupFromChannels, failed ones included, a channel has a
    parent relationship in the policy store exactly to the group its row
    names. *)
Theorem channel_parents_in_sync w w' (Hw : synced w) (Hsteps : rtc parent_step w w') : synced w'.
Proof.
  induction Hsteps as [|w1 w2 w3 Hstep _ IH]; [done|]. apply IH. destruct Hstep.
  - by eapply channel_SetParentGroup_sync.
  - by eapply channel_RemoveParentGroup_sync.
  - by eapply UnsetParentGroupFromChannels_sync.
Qed.
End parents.

(** ** Connections

    The channels service and the clients service each have a table of
    connections: [connected] and [cliConnected]. *)
Definition toCli (c : channels.Connection) : grpc.Connection :=
  grpc.MkConnection (channels.ClientID c) (channels.ChannelID c) (channels.DomainID c) (channels.Type_ c).

(** What Connect reads: the two tables of connections, the rows of the
    channels and what the clients service has of each client. *)
Definition conn_tables {W} (connected : W -> channels.Connection -> Prop) (cliConnected : W -> grpc.Connection -> Prop)
    (chRow : W -> string -> option channels.Channel) (clRow : W -> string -> option grpc.EntityBasic) (w : W) :=
  (connected w, cliConnected w, chRow w, clRow w).

Class ConnectionLaws {W : Type} (R : channels.Repository W) (C : grpc.ClientsServiceClient W)
    (connected : W -> channels.Connection -> Prop) (cliConnected : W -> grpc.Connection -> Prop)
    (chRow : W -> string -> option channels.Channel) (clRow : W -> string -> option grpc.EntityBasic) : Prop := {
  conn_Check c : frames (channels.CheckConnection R c) (conn_tables connected cliConnected chRow clRow);
  Check_not_found c w e w' : channels.CheckConnection R c w = (e, w') ->
    is_sentinel e repoerr.ErrNotFound = true -> ~ connected w c;
  conn_RetrieveByID id : frames (channels.RetrieveByID R id) (conn_tables connected cliConnected chRow clRow);
  RetrieveByID_row id w c w' : channels.RetrieveByID R id w = ((c, None), w') -> chRow w id = Some c;
  conn_RetrieveEntity id : frames (grpc.clients_RetrieveEntity C id) (conn_tables connected cliConnected chRow clRow);
  RetrieveEntity_row id w en w' : grpc.clients_RetrieveEntity C id w = ((en, None), w') -> clRow w id = Some en;
  cli_Add cs w e w' : Forall (fun c => grpc.conn_Type c < 256)%N cs -> grpc.clients_AddConnections C cs w = (e, w') ->
    connected w' = connected w
    /\ forall c, cliConnected w' c <-> cliConnected w c \/ (e = None /\ c ∈ cs);
  conn_Add cs w e w' : channels.repo_AddConnections R cs w = (e, w') ->
    cliConnected w' = cliConnected w
    /\ forall c, connected w' c <-> connected w c \/ (e = None /\ c ∈ cs);
  cli_Remove cs w e w' : Forall (fun c => grpc.conn_Type c < 256)%N cs -> grpc.clients_RemoveConnections C cs w = (e, w') ->
    connected w' = connected w
    /\ forall c, cliConnected w' c <-> cliConnected w c /\ ~ (e = None /\ c ∈ cs);
  conn_Remove cs w e w' : channels.repo_RemoveConnections R cs w = (e, w') ->
    cliConnected w' = cliConnected w
    /\ forall c, connected w' c <-> connected w c /\ ~ (e = None /\ c ∈ cs) }.
#[export] Hint Resolve conn_Check conn_RetrieveByID conn_RetrieveEntity : frame.

Lemma elem_of_conns d chs ths ts c : c ∈ channels.conns d chs ths ts <->
  channels.ChannelID c ∈ chs /\ channels.ClientID c ∈ ths /\ channels.Type_ c ∈ ts /\ channels.DomainID c = d.
Proof.
  unfold channels.conns. rewrite list_elem_of_bind. setoid_rewrite list_elem_of_bind.
  setoid_rewrite elem_of_map_list. split.
  - intros (ch & (th & (t & Ht & <-) & Hth) & Hch). done.
  - destruct c as [th ch d' t]. simpl. intros (Hch & Hth & Ht & ->). eauto 10.
Qed.

Lemma cliConns_conns d chs ths ts : channels.cliConns d chs ths ts = map toCli (channels.conns d chs ths ts).
Proof.
  unfold channels.cliConns, channels.conns. induction chs as [|ch chs IH]; [done|].
  rewrite !bind_cons, map_app, IH. f_equal. clear IH. induction ths as [|th ths IH]; [done|].
  rewrite !bind_cons, map_app, IH. f_equal. by rewrite map_map.
Qed.

Lemma conns_uint8 d chs ths ts : Forall (fun t => t < 256)%N ts ->
  Forall (fun c => grpc.conn_Type c < 256)%N (map toCli (channels.conns d chs ths ts)).
Proof.
  rewrite Forall_forall. intros H. rewrite Forall_map, Forall_forall. intros c (_ & _ & Ht & _)%elem_of_conns. by apply H.
Qed.

(** A loop that returns an error early or has run its body for every
    element. *)
Definition returns_errors {W A} (body : A -> St W (option error)) : Prop :=
  forall x w r w', body x w = (Some r, w') -> r <> None.

Lemma for_each_stage {W A V} (view : W -> V) (xs : list A) (body : A -> St W (option error)) w r w' :
  (forall x, frames (body x) view) -> returns_errors body -> for_each xs body w = (r, w') ->
  view w' = view w
  /\ match r with
     | Some r => r <> None
     | None => forall x, x ∈ xs -> exists w1 w2, view w1 = view w /\ body x w1 = (None, w2)
     end.
Proof.
  intros Hf Hr. revert w. induction xs as [|x xs IH]; intros w; cbn [for_each].
  { intros [= <- <-]. split; [done|]. set_solver. }
  unfold bind, ret. destruct (body x w) as [[r'|] w1] eqn:E; pose proof (frames_eq _ view _ _ _ (Hf x) E) as Hv.
  { intros [= <- <-]. split; [done|]. by apply (Hr _ _ _ _ E). }
  intros H%IH. destruct H as [Hv' H]. split; [congruence|]. destruct r; [done|].
  intros y [->|Hy]%elem_of_cons; [by exists w, w1|].
  destruct (H y Hy) as (w2 & w3 & ? & ?). exists w2, w3. split; [congruence|done].
Qed.

Section connect.
Import policies grpc channels.
Context {W : Type} (svc : service W).
Context (connected : W -> channels.Connection -> Prop) (cliConnected : W -> grpc.Connection -> Prop).
Context (chRow : W -> string -> option Channel) (clRow : W -> string -> option EntityBasic).
Context {CL : ConnectionLaws (repo svc) (clients svc) connected cliConnected chRow clRow}.

(** In state [w] the channel, or the client, is there, is enabled and is in
    the domain of the session. *)
Definition channel_ok (w : W) (session : authn.Session) (id : string) : Prop :=
  exists c, chRow w id = Some c /\ Status c = EnabledStatus /\ Domain c = authn.DomainID session.
Definition client_ok (w : W) (session : authn.Session) (id : string) : Prop :=
  exists en, clRow w id = Some en /\ grpc.Status en = EnabledStatus /\ DomainId en = authn.DomainID session.

Lemma connectChannel_ok session id w w' : connectChannel svc session id w = (None, w') -> channel_ok w session id.
Proof.
  unfold connectChannel, bind, ret. destruct (RetrieveByID (repo svc) id w) as [[c [e|]] w1] eqn:E; [done|].
  destruct (N.eqb_spec (Status c) EnabledStatus) as [Hs|]; [|done]. simpl.
  destruct (String.eqb_spec (Domain c) (authn.DomainID session)) as [Hd|]; [|done].
  intros _. exists c. by rewrite (RetrieveByID_row _ _ _ _ E).
Qed.
Lemma connectClient_ok session id w w' : connectClient svc session id w = (None, w') -> client_ok w session id.
Proof.
  unfold connectClient, bind, ret. destruct (clients_RetrieveEntity (clients svc) id w) as [[c [e|]] w1] eqn:E; [done|].
  destruct (N.eqb_spec (grpc.Status c) EnabledStatus) as [Hs|]; [|done]. simpl.
  destruct (String.eqb_spec (DomainId c) (authn.DomainID session)) as [Hd|]; [|done].
  intros _. exists c. by rewrite (RetrieveEntity_row _ _ _ _ E).
Qed.
Lemma checkNew_ok c w w' : checkNew svc c w = (None, w') -> ~ connected w c.
Proof.
  unfold checkNew, bind, ret. destruct (CheckConnection (repo svc) c w) as [[e|] w1] eqn:E; [|done]. cbn [is_nil].
  destruct (is_sentinel (Some e) repoerr.ErrNotFound) eqn:Es; [|done]. intros _.
  by apply Check_not_found in E.
Qed.

(** The loops of Connect and Disconnect change nothing and return errors. *)
Definition loop_ok {A V} (view : W -> V) (body : A -> St W (option error)) : Prop :=
  (forall x, frames (body x) view) /\ returns_errors body.

Ltac loop_body :=
  let x := fresh "x" in let w := fresh "w" in let r := fresh "r" in let w' := fresh "w'" in
  let b := fresh "b" in let w1 := fresh "w1" in
  split; [intros x; apply frames_bind; [done|]; intros b | intros x w r w'; unfold bind;
    match goal with |- context [let (_, _) := ?m w in _] => destruct (m w) as [b w1] end];
  first [destruct b as [? [?|]] | destruct b as [?|]]; cbn [is_nil];
  repeat (match goal with |- context [if ?t then _ else _] => destruct t end);
  try apply frames_ret; unfold ret; intros; simplify_eq; try apply WrapE_not_nil.

Lemma connectChannel_loop {V} (view : W -> V) session :
  (forall id, frames (RetrieveByID (repo svc) id) view) -> loop_ok view (connectChannel svc session).
Proof. intros H. unfold connectChannel. loop_body. Qed.
Lemma connectClient_loop {V} (view : W -> V) session :
  (forall id, frames (clients_RetrieveEntity (clients svc) id) view) -> loop_ok view (connectClient svc session).
Proof. intros H. unfold connectClient. loop_body. Qed.
Lemma disconnectChannel_loop {V} (view : W -> V) session :
  (forall id, frames (RetrieveByID (repo svc) id) view) -> loop_ok view (disconnectChannel svc session).
Proof. intros H. unfold disconnectChannel. loop_body. Qed.
Lemma disconnectClient_loop {V} (view : W -> V) session :
  (forall id, frames (clients_RetrieveEntity (clients svc) id) view) -> loop_ok view (disconnectClient svc session).
Proof. intros H. unfold disconnectClient. loop_body. Qed.
Lemma checkNew_loop {V} (view : W -> V) :
  (forall c, frames (CheckConnection (repo svc) c) view) -> loop_ok view (checkNew svc).
Proof. intros H. unfold checkNew. loop_body. Qed.

Local Abbreviation tables := (conn_tables connected cliConnected chRow clRow).

(** Connect returns nil only where, in the state it starts from, every
    channel and every client is enabled and of the session's domain and none of the connections (the
    product of channels, clients and types) existed, and then both services
    have exactly these more; with an error the channels service has the
    connections of before and the clients service too, or all the new ones
    where only the last step failed. *)
Theorem Connect_effect session chIDs thIDs types w e w' (Htypes : Forall (fun t => t < 256)%N types)
    (Hrun : Connect svc session chIDs thIDs types w = (e, w')) :
  let new := conns (authn.DomainID session) chIDs thIDs types in
  match e with
  | None => (forall c, connected w' c <-> connected w c \/ c ∈ new)
      /\ (forall c, cliConnected w' c <-> cliConnected w c \/ c ∈ map toCli new)
      /\ (forall c, c ∈ new -> ~ connected w c)
      /\ Forall (channel_ok w session) chIDs /\ Forall (client_ok w session) thIDs
  | Some _ => (forall c, connected w' c <-> connected w c)
      /\ ((forall c, cliConnected w' c <-> cliConnected w c)
          \/ forall c, cliConnected w' c <-> cliConnected w c \/ c ∈ map toCli new)
  end.
Proof.
  revert Hrun. unfold Connect. cbv zeta. unfold bind at 1.
  destruct (for_each chIDs _ w) as [r1 w1] eqn:E1.
  destruct (connectChannel_loop tables session) as [Hf1 Hr1]; [eauto with frame|].
  apply (for_each_stage tables _ _ _ _ _ Hf1 Hr1) in E1 as [Hv1 H1]. destruct r1 as [[er|]|]; [|done|].
  { intros [= <- <-]. injection Hv1 as -> -> _ _. split; [done|by left]. }
  unfold bind at 1. destruct (for_each thIDs _ w1) as [r2 w2] eqn:E2.
  destruct (connectClient_loop tables session) as [Hf2 Hr2]; [eauto with frame|].
  apply (for_each_stage tables _ _ _ _ _ Hf2 Hr2) in E2 as [Hv2 H2]. rewrite Hv1 in Hv2. destruct r2 as [[er|]|]; [|done|].
  { intros [= <- <-]. injection Hv2 as -> -> _ _. split; [done|by left]. }
  unfold bind at 1. destruct (for_each (conns _ _ _ _) _ w2) as [r3 w3] eqn:E3.
  destruct (checkNew_loop tables) as [Hf3 Hr3]; [eauto with frame|].
  apply (for_each_stage tables _ _ _ _ _ Hf3 Hr3) in E3 as [Hv3 H3]. rewrite Hv2 in Hv3. destruct r3 as [[er|]|]; [|done|].
  { intros [= <- <-]. injection Hv3 as -> -> _ _. split; [done|by left]. }
  unfold bind at 1. rewrite cliConns_conns. injection Hv3 as Hc3 Hl3 _ _.
  destruct (clients_AddConnections _ _ w3) as [er w4] eqn:E4. apply cli_Add in E4 as [Hc4 Hl4]; [|by apply conns_uint8].
  rewrite Hc3 in Hc4. rewrite Hl3 in Hl4. destruct er as [er|].
  { destruct (WrapE svcerr.ErrCreateEntity _) eqn:Hx; [|by apply WrapE_not_nil in Hx].
    intros [= <- <-]. rewrite Hc4. split; [done|left]. naive_solver. }
  unfold bind, ret. destruct (repo_AddConnections _ _ w4) as [er w5] eqn:E5. apply conn_Add in E5 as [Hl5 Hc5].
  rewrite Hc4 in Hc5. destruct er as [er|].
  { destruct (WrapE svcerr.ErrCreateEntity _) eqn:Hx; [|by apply WrapE_not_nil in Hx].
    intros [= <- <-]. rewrite Hl5. split; [naive_solver|right; naive_solver]. }
  intros [= <- <-]. rewrite Hl5. split_and!; [naive_solver|naive_solver|..].
  - intros c Hc. destruct (H3 c Hc) as (v1 & v2 & Hv & E). apply checkNew_ok in E.
    rewrite Hv2 in Hv. injection Hv as Hc1 _ _ _. by rewrite <- Hc1.
  - apply Forall_forall. intros x Hx. destruct (H1 x Hx) as (v1 & v2 & Hv & E). injection Hv as _ _ Hr _.
    unfold channel_ok. rewrite <- Hr. by eapply connectChannel_ok.
  - apply Forall_forall. intros x Hx. destruct (H2 x Hx) as (v1 & v2 & Hv & E). rewrite Hv1 in Hv. injection Hv as _ _ _ Hr.
    unfold client_ok. rewrite <- Hr. by eapply connectClient_ok.
Qed.

(** Disconnect returns nil only after both services have lost exactly
    the named connections; with an error the channels service keeps its
    connections, and the clients service too unless only the last step
    failed. *)
Theorem Disconnect_effect session chIDs thIDs types w e w' (Htypes : Forall (fun t => t < 256)%N types)
    (Hrun : Disconnect svc session chIDs thIDs types w = (e, w')) :
  let old := conns (authn.DomainID session) chIDs thIDs types in
  match e with
  | None => (forall c, connected w' c <-> connected w c /\ c ∉ old)
      /\ (forall c, cliConnected w' c <-> cliConnected w c /\ c ∉ map toCli old)
  | Some _ => (forall c, connected w' c <-> connected w c)
      /\ ((forall c, cliConnected w' c <-> cliConnected w c)
          \/ forall c, cliConnected w' c <-> cliConnected w c /\ c ∉ map toCli old)
  end.
Proof.
  revert Hrun. unfold Disconnect. cbv zeta. unfold bind at 1.
  destruct (for_each chIDs _ w) as [r1 w1] eqn:E1.
  destruct (disconnectChannel_loop tables session) as [Hf1 Hr1]; [eauto with frame|].
  apply (for_each_stage tables _ _ _ _ _ Hf1 Hr1) in E1 as [Hv1 H1]. destruct r1 as [[er|]|]; [|done|].
  { intros [= <- <-]. injection Hv1 as -> -> _ _. split; [done|by left]. }
  unfold bind at 1. destruct (for_each thIDs _ w1) as [r2 w2] eqn:E2.
  destruct (disconnectClient_loop tables session) as [Hf2 Hr2]; [eauto with frame|].
  apply (for_each_stage tables _ _ _ _ _ Hf2 Hr2) in E2 as [Hv2 H2]. rewrite Hv1 in Hv2. destruct r2 as [[er|]|]; [|done|].
  { intros [= <- <-]. injection Hv2 as -> -> _ _. split; [done|by left]. }
  unfold bind at 1. rewrite cliConns_conns. injection Hv2 as Hc3 Hl3 _ _.
  destruct (clients_RemoveConnections _ _ w2) as [er w4] eqn:E4. apply cli_Remove in E4 as [Hc4 Hl4]; [|by apply conns_uint8].
  rewrite Hc3 in Hc4. rewrite Hl3 in Hl4. destruct er as [er|].
  { destruct (WrapE svcerr.ErrRemoveEntity _) eqn:Hx; [|by apply WrapE_not_nil in Hx].
    intros [= <- <-]. rewrite Hc4. split; [done|left]. naive_solver. }
  unfold bind, ret. destruct (repo_RemoveConnections _ _ w4) as [er w5] eqn:E5. apply conn_Remove in E5 as [Hl5 Hc5].
  rewrite Hc4 in Hc5. destruct er as [er|].
  { destruct (WrapE svcerr.ErrRemoveEntity _) eqn:Hx; [|by apply WrapE_not_nil in Hx].
    intros [= <- <-]. rewrite Hl5. split; [naive_solver|right; naive_solver]. }
  intros [= <- <-]. rewrite Hl5. split; naive_solver.
Qed.
End connect.

(** ** The private service *)
Section private.
Import policies channels channels_private.
Context {W : Type} (svc : channels_private.service W).

(** What Authorize needs of the rest. *)
Definition domain_enabled (req : AuthzReq) (w w1 : W) : Prop :=
  domains svc (az_DomainID req) w = ((Domains.domains.EnabledStatus, None), w1).
Definition user_permitted (req : AuthzReq) (w w1 : W) : Prop :=
  exists permission, connections.Permission (az_Type req) = (permission, None)
    /\ CheckPolicy (evaluator svc) (authzPolicy req permission) w = (None, w1).
Definition client_connected (req : AuthzReq) (w w1 : W) : Prop :=
  ClientAuthorize (repo svc) (MkConnection (az_ClientID req) (az_ChannelID req) (az_DomainID req) (az_Type req)) w
    = (None, w1).

(** Authorize accepts exactly the requests of a user with the permission
    of the connection type on the channel, and of a client that is connected
    to it, in a domain that is enabled; requests of any other kind, also of
    an unknown connection type, are refused. *)
Lemma channel_Authorize_iff req w w' :
  Authorize svc req w = (None, w') <->
  exists w1, domain_enabled req w w1
    /\ ((az_ClientType req = UserType /\ user_permitted req w1 w')
        \/ (az_ClientType req = ClientType /\ client_connected req w1 w')).
Proof.
  unfold Authorize, domain_enabled, user_permitted, client_connected, bind, ret. split.
  - destruct (domains svc _ w) as [[st [e|]] w1] eqn:E1; [by intros [= ?%WrapE_inv]|].
    destruct (N.eqb_spec st Domains.domains.EnabledStatus) as [->|]; simpl; [|by intros [= ?%WrapE_inv]].
    intros H. exists w1. split; [done|]. revert H.
    destruct (String.eqb_spec (az_ClientType req) UserType) as [Ht|_].
    + destruct (connections.Permission _) as [p [e|]] eqn:Ep; [done|].
      destruct (CheckPolicy _ _ w1) as [[e|] w2] eqn:E2; [by intros [= ?%WrapE_inv]|]. intros [= <-]. left. eauto.
    + destruct (String.eqb_spec (az_ClientType req) ClientType) as [Ht|_]; [|done].
      destruct (ClientAuthorize _ _ w1) as [[e|] w2] eqn:E2; [by intros [= ?%WrapE_inv]|]. intros [= <-]. by right.
  - intros (w1 & -> & H). simpl. destruct H as [[-> (p & Hp & Hc)]|[-> Hc]]; simpl.
    + by rewrite Hp, Hc.
    + by rewrite Hc.
Qed.
End private.

(** ** The cache of routes *)
Section route_cache.
Import channels_cache.
Context {W : Type} (client : Redis W) (d : Z) (store : W -> gmap string string).
Context {RL : RedisLaws client store}.

Lemma encodeKey_inj dom r dom' r' k : ":"%char ∉ chars dom -> ":"%char ∉ chars dom' ->
  encodeKey dom r = (k, None) -> encodeKey dom' r' = (k, None) -> dom = dom' /\ r = r'.
Proof.
  unfold encodeKey. destruct (dom =s ""), (r =s ""), (dom' =s ""), (r' =s ""); try done.
  intros Hd Hd' [= <-] [= Heq%(f_equal chars)]. rewrite !chars_app, !chars_cons in Heq. simpl in Heq.
  pose proof (cut_bytes_app ":" _ (chars r) Hd) as H1. pose proof (cut_bytes_app ":" _ (chars r') Hd') as H2.
  rewrite Heq in H2. rewrite H2 in H1. injection H1 as Hx Hy. by split; apply chars_inj.
Qed.

Lemma channel_Save_store route dom id w w' key : encodeKey dom route = (key, None) ->
  Save client d route dom id w = (None, w') -> store w' = <[key := id]> (store w).
Proof.
  intros Hk. unfold Save. rewrite Hk. destruct (id =s ""); [by intros [= ?%WrapE_inv]|]. unfold bind, ret.
  destruct (redis_Set _ _ _ _ w) as [[e1|] w1] eqn:E1; [by intros [= ?%WrapE_inv]|]. intros [= <-].
  by apply (Set_done client store) in E1.
Qed.

Lemma channel_ID_store route dom w key : encodeKey dom route = (key, None) -> responds client key w ->
  (ID client route dom w).1 = match store w !! key with
                              | Some i => (i, None)
                              | None => ("", WrapE repoerr.ErrNotFound (Some redis_Nil))
                              end.
Proof.
  intros Hk Hr. unfold ID. rewrite Hk. unfold bind, ret.
  destruct (redis_Get _ _ w) as [[i e] w1] eqn:E. apply (Get_responds client store) in E; [|done].
  destruct (store w !! key); [by destruct E as [-> ->]|by rewrite E].
Qed.

Lemma channel_Remove_store route dom w w' key : encodeKey dom route = (key, None) ->
  Remove client route dom w = (None, w') -> store w' = delete key (store w).
Proof.
  intros Hk. unfold Remove. rewrite Hk. unfold bind, ret.
  destruct (redis_Del _ _ w) as [[e1|] w1] eqn:E1; [by intros [= ?%WrapE_inv]|]. intros [= <-].
  by apply (Del_one client store) in E1.
Qed.

(** The cache of routes behaves like a map from domain and route to
    channel: after a successful Save the route answers the channel, after a
    successful Remove nothing, and every other route of every other domain
    answers as before, whenever Redis answers (identifiers of domains have no
    colon). *)
Theorem route_cache_map dom route id w w1 w2 dom' route'
    (Hdom : ":"%char ∉ chars dom) (Hdom' : ":"%char ∉ chars dom') (Hne' : dom' <> "" /\ route' <> "")
    (Hsave : Save client d route dom id w = (None, w1)) (Hremove : Remove client route dom w = (None, w2))
    (Hup : forall k v, v ∈ [w; w1; w2] -> responds client k v) :
  let same := bool_decide (dom' = dom /\ route' = route) in
  let miss := ("", WrapE repoerr.ErrNotFound (Some redis_Nil)) in
  (ID client route' dom' w1).1 = (if same then (id, None) else (ID client route' dom' w).1)
  /\ (ID client route' dom' w2).1 = (if same then miss else (ID client route' dom' w).1).
Proof.
  cbv zeta. destruct Hne' as [Hd' Hr'].
  assert (Hk' : exists key, encodeKey dom' route' = (key, None))
    by (unfold encodeKey; apply String.eqb_neq in Hd' as ->, Hr' as ->; by eexists).
  destruct (encodeKey dom route) as [k ek] eqn:Hk.
  assert (ek = None) as ->.
  { revert Hsave. unfold Save. rewrite Hk. destruct ek; [|done]. by intros [= ?%WrapE_inv]. }
  destruct Hk' as [k' Hk']. rewrite !(channel_ID_store _ _ _ k') by (first [done|apply Hup; set_solver]).
  rewrite (channel_Save_store _ _ _ _ _ k Hk Hsave), (channel_Remove_store _ _ _ _ k Hk Hremove).
  case_bool_decide as Hsame.
  - destruct Hsame as [-> ->]. rewrite Hk in Hk'. injection Hk' as <-. by rewrite lookup_insert_eq, lookup_delete_eq.
  - rewrite lookup_insert_ne, lookup_delete_ne; [done|..]; intros ->; apply Hsame;
      by apply (encodeKey_inj _ _ _ _ k').
Qed.
End route_cache.

(** ** A database and a cache in memory, for the examples *)
#[global] Instance Connection_dec : EqDecision channels.Connection.
Proof. solve_decision. Defined.
#[global] Instance grpc_Connection_dec : EqDecision grpc.Connection.
Proof. solve_decision. Defined.

Module memchannels.
Import policies channels.
Record mem := MkMem {
  m_table : gmap string Channel; m_conns : list Connection; m_cli : list grpc.Connection; m_redis : gmap string string }.
#[global] Instance mem_fields : Fields mem := fun m => MkMem (m_table m) (m_conns m) (m_cli m) (m_redis m).
Definition state : Type := memroles.state mem.
Definition table (s : state) := m_table s.2.
Definition redis (s : state) := m_redis s.2.
Definition connected (s : state) (c : Connection) : Prop := c ∈ m_conns s.2.
Definition cliConnected (s : state) (c : grpc.Connection) : Prop := c ∈ m_cli s.2.
Definition parent (s : state) (id : string) : string := from_option ParentGroup "" (table s !! id).
Definition put (t : gmap string Channel) (s : state) : state := (s.1, s.2 <| m_table := t |>).
Definition put_redis (r : gmap string string) (s : state) : state := (s.1, s.2 <| m_redis := r |>).
Definition without {A} `{EqDecision A} (cs l : list A) : list A := filter (fun c => c ∉ cs) l.

Definition set_parent (id g : string) : St state error := fun s =>
  match table s !! id with
  | None => (Some repoerr.ErrNotFound, s)
  | Some c => (None, put (<[id := c <| ParentGroup := g |>]> (table s)) s)
  end.
Definition change_status (c : Channel) : St state (Channel * error) := fun s =>
  match table s !! ID c with
  | None => ((Channel0, Some repoerr.ErrNotFound), s)
  | Some o => ((o <| Status := Status c |>, None), put (<[ID c := o <| Status := Status c |>]> (table s)) s)
  end.
Definition children (g : string) (s : state) : list Channel :=
  (fun kv => kv.2 <| ID := kv.1 |>) <$> map_to_list (filter (fun kv => ParentGroup kv.2 = g) (table s)).

Definition repo : Repository state :=
  {| Save := fun cs s => if existsb (fun c => negb (is_nil (table s !! ID c))) cs
       then (([], Some repoerr.ErrConflict), s) else ((cs, None), put (rows ID cs ∪ table s) s);
     repo_Update := fun c => ret (c, None); repo_UpdateTags := fun c => ret (c, None);
     ChangeStatus := change_status;
     RetrieveUserChannels := fun _ _ _ => ret (ChannelsPage0, None);
     RetrieveByID := fun id s => match table s !! id with
       | Some c => ((c, None), s) | None => ((Channel0, Some repoerr.ErrNotFound), s) end;
     RetrieveByRoute := fun _ _ => ret (Channel0, Some repoerr.ErrNotFound);
     RetrieveByIDWithRoles := fun _ _ => ret (Channel0, None);
     RetrieveAll := fun _ => ret (ChannelsPage0, None);
     repo_Remove := fun ids s => (None, put (filter (fun kv => kv.1 ∉ ids) (table s)) s);
     repo_SetParentGroup := fun c => set_parent (ID c) (ParentGroup c);
     repo_RemoveParentGroup := fun c => set_parent (ID c) "";
     repo_AddConnections := fun cs s => (None, (s.1, s.2 <| m_conns := cs ++ m_conns s.2 |>));
     repo_RemoveConnections := fun cs s => (None, (s.1, s.2 <| m_conns := without cs (m_conns s.2) |>));
     CheckConnection := fun c s =>
       (if bool_decide (c ∈ m_conns s.2) then None else Some repoerr.ErrNotFound, s);
     ClientAuthorize := fun c s =>
       (if bool_decide (c ∈ m_conns s.2) then None else Some repoerr.ErrNotFound, s);
     DoesChannelHaveConnections := fun _ => ret (false, None);
     repo_RemoveClientConnections := fun _ => ret None; repo_RemoveChannelConnections := fun _ => ret None;
     RetrieveParentGroupChannels := fun g s => ((children g s, None), s);
     repo_UnsetParentGroupFromChannels := fun g s =>
       (None, put ((fun c => if ParentGroup c =s g then c <| ParentGroup := "" |> else c) <$> table s) s);
     role_repo := memroles.repo ChannelType |}.

Definition cache : Redis state := memredis.client redis put_redis.
Definition clients : grpc.ClientsServiceClient state :=
  {| grpc.clients_RetrieveEntity := fun id => ret (grpc.MkEntityBasic id "d" "" EnabledStatus, None);
     grpc.clients_AddConnections := fun cs s => (None, (s.1, s.2 <| m_cli := cs ++ m_cli s.2 |>));
     grpc.clients_RemoveConnections := fun cs s => (None, (s.1, s.2 <| m_cli := without cs (m_cli s.2) |>));
     grpc.clients_RemoveChannelConnections := fun _ => ret None;
     grpc.clients_UnsetParentGroupFromClient := fun _ => ret None |}.
Definition svc : service state :=
  {| channels.repo := repo; channels.cache := channels_cache.NewChannelsCache cache 1;
     policy := spicedb.NewPolicyService memroles.client; idProvider := ret ("new", None);
     channels.clients := clients;
     groups := {| grpc.groups_RetrieveEntity := fun id => ret (grpc.MkEntityBasic id "d" "" EnabledStatus, None) |};
     sidProvider := ret ("id", None); availableActions := ["read"]; builtInRoles := [("admin", ["read"])] |}.
Definition priv : channels_private.service state :=
  {| channels_private.repo := repo; channels_private.cache := channels_cache.NewChannelsCache cache 1;
     channels_private.evaluator := {| CheckPolicy := fun _ => ret None |};
     channels_private.policy := policy svc; channels_private.domains := fun _ => ret (0%N, None) |}.

#[export] Instance redis_laws : RedisLaws cache redis.
Proof. by apply memredis.laws. Qed.

#[export] Instance repo_laws : RowLaws memroles.tuples ID (Save repo) (repo_Remove repo) table.
Proof.
  split; simpl; intros *; try (by intros w); try by intros [= <-].
  - destruct (existsb _ cs) eqn:E; [done|]. intros [= <- <-]. split_and!; [done| |done].
    intros c Hc. destruct (table w !! ID c) eqn:Ec; [|done].
    assert (existsb (fun c => negb (is_nil (table w !! ID c))) cs = true); [|congruence].
    apply existsb_exists. exists c. rewrite <- list_elem_of_In, Ec. done.
  - destruct (existsb _ cs); by intros [= <- <- <-].
  - intros w. by case_match.
Qed.

Lemma set_parent_assigns id g : assigns memroles.tuples parent (set_parent id g) [id] g.
Proof.
  intros w e w'. unfold set_parent. destruct (table w !! id) as [c|] eqn:Ec; intros [= <- <-]; [|done].
  split; [done|]. intros x. unfold parent, table, put. simpl. case_bool_decide as Hx.
  - apply list_elem_of_singleton in Hx as ->. by rewrite lookup_insert_eq.
  - rewrite lookup_insert_ne; [done|]. set_solver.
Qed.

#[export] Instance parent_laws : ChannelParentLaws repo memroles.tuples parent.
Proof.
  split; simpl; intros *; try (by intros w); try apply set_parent_assigns.
  - intros w. by case_match.
  - intros w. by case_match.
  - unfold parent. destruct (table w !! id); [|done]. by intros [= <- <-].
  - intros Hg [= <- <-]. unfold children. split.
    + intros c ((k & c') & -> & H%elem_of_map_to_list)%list_elem_of_fmap.
      apply map_lookup_filter_Some in H. by destruct H.
    + intros x. rewrite elem_of_map_list. unfold parent. split.
      * intros (c & ((k & c') & -> & H%elem_of_map_to_list)%list_elem_of_fmap & <-).
        apply map_lookup_filter_Some in H as [Hk Hp]. simpl in *. by rewrite Hk.
      * intros Hx. destruct (table w !! x) as [c|] eqn:Ex; [|by subst].
        exists (c <| ID := x |>). split; [|done]. apply list_elem_of_fmap. exists (x, c).
        split; [done|]. apply elem_of_map_to_list, map_lookup_filter_Some. done.
  - intros [= <- <-]. split; [done|]. intros x. unfold parent, table at 1, put. simpl. rewrite lookup_fmap.
    fold (table w). destruct (table w !! x) as [c|]; simpl; [|by case_match].
    by destruct (ParentGroup c =s g).
Qed.

Lemma elem_of_without {A} `{EqDecision A} (cs l : list A) c : c ∈ without cs l <-> c ∈ l /\ c ∉ cs.
Proof. unfold without. rewrite list_elem_of_filter. naive_solver. Qed.

Definition row (s : state) (id : string) : option Channel := table s !! id.
Definition client_row (s : state) (id : string) : option grpc.EntityBasic := Some (grpc.MkEntityBasic id "d" "" EnabledStatus).
#[export] Instance connection_laws : ConnectionLaws repo clients connected cliConnected row client_row.
Proof.
  split; simpl; intros *; try (by intros w); try (intros w; by case_match).
  - case_bool_decide as Hc; intros [= <- <-]; done.
  - unfold row. case_match; [|done]. by intros [= -> <-].
  - by intros [= <- <-].
  - intros _ [= <- <-]. split; [done|]. intros c. unfold cliConnected. simpl. rewrite elem_of_app. naive_solver.
  - intros [= <- <-]. split; [done|]. intros c. unfold connected. simpl. rewrite elem_of_app. naive_solver.
  - intros _ [= <- <-]. split; [done|]. intros c. unfold cliConnected. simpl. rewrite elem_of_without. naive_solver.
  - intros [= <- <-]. split; [done|]. intros c. unfold connected. simpl. rewrite elem_of_without. naive_solver.
Qed.
End memchannels.

Module channels_example.
Import channels memchannels.
Definition channel_c : Channel := Channel0 <| ID := "c" |> <| Name := "readings" |>.
Definition start : state := ((∅, ∅), MkMem ∅ [] [] ∅).
Definition created_ : state := (CreateChannels memroles.now svc roles_example.alice [channel_c] start).2.

Lemma CreateChannels_atomic_witness :
  let run := CreateChannels memroles.now svc roles_example.alice [channel_c] start in
  map ID run.1.1.1 = ["c"] /\ is_nil run.1.2 = true
  /\ table created_ = rows ID run.1.1.1 ∪ table start.
Proof.
  split; [vm_compute; reflexivity|split; [vm_compute; reflexivity|]].
  assert (Hn : (CreateChannels memroles.now svc roles_example.alice [channel_c] start).1.2 = None)
    by (vm_compute; reflexivity).
  pose proof (CreateChannels_atomic memroles.now svc memroles.tuples memroles.grants table
    (RE := memroles.env _ _ _) (RL := repo_laws) (fun _ => eq_refl) (fun _ => eq_refl) (fun _ => eq_refl)
    (fun d u ids os ms w => f_equal m_table (memroles.create_frames _ _ _ d u ids os ms w))
    roles_example.alice [channel_c] start) as H.
  unfold created_. destruct (CreateChannels _ _ _ _ _) as [[[cs rps] e] w'].
  simpl in *. subst e. apply (H cs rps None w' eq_refl).
Defined.

(** The channel gets group g1 as its parent. *)
Definition moved : state := (SetParentGroup memroles.now svc roles_example.alice "g1" "c" created_).2.

Lemma channel_policies_parent l : frames (policies.AddPolicies (policy svc) l) parent
  /\ frames (policies.DeletePolicies (policy svc) l) parent.
Proof. split; [by apply memroles.AddPolicies_frames|by apply memroles.DeletePolicies_frames]. Defined.

Lemma channel_parents_in_sync_witness :
  parent moved "c" = "g1" /\ synced memroles.tuples parent moved.
Proof.
  split; [vm_compute; reflexivity|].
  eapply (channel_parents_in_sync memroles.now svc priv memroles.tuples parent
    (PL := @NewPolicyService_laws _ _ _ memroles.client_laws) (CL := parent_laws) eq_refl eq_refl
    (fun _ => eq_refl) (fun _ => eq_refl) (fun _ _ => eq_refl) (fun _ _ => eq_refl)
    (fun l => proj1 (channel_policies_parent l)) (fun l => proj2 (channel_policies_parent l)) created_).
  - apply (in_sync_start _ _ _ (table created_) ParentGroup); [done|vm_compute; reflexivity..].
  - apply rtc_once.
    apply (step_SetParentGroup _ _ _ roles_example.alice "g1" "c" _
      (SetParentGroup memroles.now svc roles_example.alice "g1" "c" created_).1); [done| |apply surjective_pairing].
    assert ((SetParentGroup memroles.now svc roles_example.alice "g1" "c" created_).1 = None) as ->
      by (vm_compute; reflexivity).
    intros (e0 & er & He). symmetry in He. by apply WrapE_not_nil in He.
Defined.

Definition joined := Connect svc roles_example.alice ["c"] ["a"; "b"] [connections.Publish] created_.
Definition link (th : string) : Connection := MkConnection th "c" "d" connections.Publish.

Lemma Connect_effect_witness :
  is_nil joined.1 = true /\ (forall c, connected joined.2 c <-> connected created_ c \/ c ∈ [link "a"; link "b"]).
Proof.
  assert (Hn : joined.1 = None) by (vm_compute; reflexivity). split; [by rewrite Hn|].
  pose proof (Connect_effect svc connected cliConnected row client_row (CL := connection_laws) roles_example.alice
    ["c"] ["a"; "b"] [connections.Publish] created_ joined.1 joined.2
    ltac:(by repeat constructor) (surjective_pairing _)) as H.
  rewrite Hn in H. exact (proj1 H).
Defined.

Definition parted := Disconnect svc roles_example.alice ["c"] ["b"] [connections.Publish] joined.2.

Lemma Disconnect_effect_witness :
  is_nil parted.1 = true /\ (forall c, connected parted.2 c <-> connected joined.2 c /\ c ∉ [link "b"]).
Proof.
  assert (Hn : parted.1 = None) by (vm_compute; reflexivity). split; [by rewrite Hn|].
  pose proof (Disconnect_effect svc connected cliConnected row client_row (CL := connection_laws) roles_example.alice
    ["c"] ["b"] [connections.Publish] joined.2 parted.1 parted.2
    ltac:(by repeat constructor) (surjective_pairing _)) as H.
  rewrite Hn in H. exact (proj1 H).
Defined.

Lemma route_cache_map_witness :
  (channels_cache.ID cache "lamps" "d2" (channels_cache.Save cache 1 "lamps" "d" "c" start).2).1
    = (channels_cache.ID cache "lamps" "d2" start).1.
Proof.
  refine (proj1 (route_cache_map cache 1 redis (RL := redis_laws) "d" "lamps" "c" start _
    (channels_cache.Remove cache "lamps" "d" start).2 "d2" "lamps" _ _ _ _ _ _)).
  - by rewrite <- mem_false.
  - by rewrite <- mem_false.
  - done.
  - reflexivity.
  - reflexivity.
  - intros. apply memredis.client_responds.
Defined.
End channels_example.
