(* ===== verification/Groups.v ===== *)
(** * groups: the groups service and its private service

    Source: src/groups/groups.go, page.go, status.go, errors.go, service.go,
    private/service.go.  The repository (which is also the role repository
    of the provision manager) and the gRPC clients are parameters. *)

From S2P Require Import Prelude GoStd Errors Policies Authn Roles Connections Hierarchy.

#[local] Set Warnings "-register-all".
Module groups.
Import policies hierarchy grpc.

(** ** src/groups/status.go *)
Definition EnabledStatus : N := 0.
Definition DisabledStatus : N := 1.
Definition DeletedStatus : N := 2.
Definition AllStatus : N := 3.
Definition Disabled := "disabled".
Definition Enabled := "enabled".
Definition Deleted := "deleted".
Definition All := "all".
Definition Unknown := "unknown".

Definition Status_String (s : N) : string :=
  if N.eqb s DisabledStatus then Disabled
  else if N.eqb s EnabledStatus then Enabled
  else if N.eqb s DeletedStatus then Deleted
  else if N.eqb s AllStatus then All
  else Unknown.

Definition ToStatus (status : string) : N * error :=
  if status =s Disabled then (DisabledStatus, None)
  else if status =s Enabled then (EnabledStatus, None)
  else if status =s Deleted then (DeletedStatus, None)
  else if status =s All then (AllStatus, None)
  else (0%N, Some svcerr.ErrInvalidStatus).

(** ** src/groups/groups.go, page.go *)
Record Extended := MkExtended {
  RoleID : string; RoleName : string; Actions : list string; AccessType : string; AccessProviderId : string;
  AccessProviderRoleId : string; AccessProviderRoleName : string; AccessProviderRoleActions : list string;
  MemberId : string; ext_Roles : list roles.MemberRoleActions }.
Definition Extended0 : Extended := MkExtended "" "" [] "" "" "" "" [] "" [].

(** [Children] is filled in by the repository for a tree of groups. *)
Inductive Group := MkGroup {
  ID : string; Domain : string; Parent : string; Name : string; Description : option string;
  Tags : list string; Metadata_ : Metadata; Level : Z; Path : string; Children : list Group;
  CreatedAt : Time; UpdatedAt : Time; UpdatedBy : string; Status : N; Extended_ : Extended }.
#[global] Instance Group_fields : Fields Group := fun g =>
  MkGroup (ID g) (Domain g) (Parent g) (Name g) (Description g) (Tags g) (Metadata_ g) (Level g) (Path g)
    (Children g) (CreatedAt g) (UpdatedAt g) (UpdatedBy g) (Status g) (Extended_ g).
Definition Group0 : Group := MkGroup "" "" "" "" None [] None 0 "" [] zeroTime zeroTime "" 0 Extended0.

Definition OrOp : N := 0.
Definition AndOp : N := 1.
Record TagsQuery := MkTagsQuery { Elements : list string; Operator : N }.
Definition TagsQuery0 : TagsQuery := MkTagsQuery [] 0.

Definition ToTagsQuery (s : string) : TagsQuery :=
  if GoStd.Contains s "+" then MkTagsQuery (map TrimSpace (Split s "+")) AndOp
  else if GoStd.Contains s "," then MkTagsQuery (map TrimSpace (Split s ",")) OrOp
  else MkTagsQuery [s] OrOp.

Record PageMeta := MkPageMeta {
  pm_Total : N; pm_Offset : N; pm_Limit : N; pm_OnlyTotal : bool; pm_Name : string; pm_ID : string;
  pm_Dir : string; pm_Order : string; pm_Path : string; pm_DomainID : string; pm_Tags : TagsQuery;
  pm_Metadata : Metadata; pm_Status : N; pm_RoleName : string; pm_RoleID : string; pm_Actions : list string;
  pm_AccessType : string; pm_RootGroup : bool; pm_CreatedFrom : Time; pm_CreatedTo : Time }.
#[global] Instance PageMeta_fields : Fields PageMeta := fun p =>
  MkPageMeta (pm_Total p) (pm_Offset p) (pm_Limit p) (pm_OnlyTotal p) (pm_Name p) (pm_ID p) (pm_Dir p)
    (pm_Order p) (pm_Path p) (pm_DomainID p) (pm_Tags p) (pm_Metadata p) (pm_Status p) (pm_RoleName p)
    (pm_RoleID p) (pm_Actions p) (pm_AccessType p) (pm_RootGroup p) (pm_CreatedFrom p) (pm_CreatedTo p).
Definition PageMeta0 : PageMeta :=
  MkPageMeta 0 0 0 false "" "" "" "" "" "" TagsQuery0 None 0 "" "" [] "" false zeroTime zeroTime.

Record Page := MkPage { pg_Meta : PageMeta; Groups : list Group }.
Definition Page0 : Page := MkPage PageMeta0 [].
Record HierarchyPageMeta := MkHierarchyPageMeta { hm_Level : N; hm_Direction : Z; hm_Tree : bool }.
Record HierarchyPage := MkHierarchyPage { hp_Meta : HierarchyPageMeta; hp_Groups : list Group }.
Definition HierarchyPage0 : HierarchyPage := MkHierarchyPage (MkHierarchyPageMeta 0 0 false) [].

Record Repository (W : Type) := {
  Save : Group -> St W (Group * error);
  repo_Update : Group -> St W (Group * error);
  repo_UpdateTags : Group -> St W (Group * error);
  RetrieveByID : string -> St W (Group * error);
  RetrieveByIDAndUser : string -> string -> string -> St W (Group * error);
  RetrieveByIDWithRoles : string -> string -> St W (Group * error);
  RetrieveAll : PageMeta -> St W (Page * error);
  RetrieveByIDs : PageMeta -> list string -> St W (Page * error);
  RetrieveHierarchy : string -> string -> string -> HierarchyPageMeta -> St W (HierarchyPage * error);
  ChangeStatus : Group -> St W (Group * error);
  AssignParentGroup : string -> list string -> St W error;
  UnassignParentGroup : string -> list string -> St W error;
  UnassignAllChildrenGroups : string -> St W error;
  RetrieveUserGroups : string -> string -> PageMeta -> St W (Page * error);
  RetrieveChildrenGroups : string -> string -> string -> Z -> Z -> PageMeta -> St W (Page * error);
  RetrieveAllParentGroups : string -> string -> string -> PageMeta -> St W (Page * error);
  repo_Delete : string -> St W error;
  role_repo : roles.Repository W }.
Arguments Save {W}. Arguments repo_Update {W}. Arguments repo_UpdateTags {W}. Arguments RetrieveByID {W}.
Arguments RetrieveByIDAndUser {W}. Arguments RetrieveByIDWithRoles {W}. Arguments RetrieveAll {W}.
Arguments RetrieveByIDs {W}. Arguments RetrieveHierarchy {W}. Arguments ChangeStatus {W}.
Arguments AssignParentGroup {W}. Arguments UnassignParentGroup {W}. Arguments UnassignAllChildrenGroups {W}.
Arguments RetrieveUserGroups {W}. Arguments RetrieveChildrenGroups {W}. Arguments RetrieveAllParentGroups {W}.
Arguments repo_Delete {W}. Arguments role_repo {W}.

(** ** src/groups/service.go *)
Definition ErrGroupIDs : err := Sentinel "groups.ErrGroupIDs" CustomError "invalid group ids".
Definition errChangeGroupStatus : err := Sentinel "groups.errChangeGroupStatus" ServiceError "failed to change group status".
Definition errGroupHaveParent : err := Sentinel "groups.errGroupHaveParent" RequestError "group already have parent".
Definition errDifferentParent : err := Sentinel "groups.errDifferentParent" RequestError "groups have different parent".
Definition BuiltInRoleAdmin := "admin".

Record service (W : Type) := {
  repo : Repository W;
  policy : PolicyService W;
  idProvider : St W (string * error);
  channels : ChannelsServiceClient W;
  clients : ClientsServiceClient W;
  sidProvider : St W (string * error);
  availableActions : list string;
  builtInRoles : list (string * list string) }.
Arguments repo {W}. Arguments policy {W}. Arguments idProvider {W}. Arguments channels {W}. Arguments clients {W}.
Arguments sidProvider {W}. Arguments availableActions {W}. Arguments builtInRoles {W}.

Section service.
Context {W : Type} (now : St W Time) (svc : service W).

(** The embedded provision manager, as NewService makes it. *)
Definition ProvisionManageService : roles.ProvisionManageService W :=
  {| roles.entityType := GroupType; roles.repo := role_repo (repo svc);
     roles.sidProvider := sidProvider svc; roles.policy := policy svc;
     roles.actions := availableActions svc; roles.builtInRoles := builtInRoles svc |}.

Definition rollbackSave (id : string) (retErr : error) : St W error :=
  errRollback <- repo_Delete (repo svc) id ;;
  if_err errRollback return_ ret (Wrap retErr (WrapE apiutil.ErrRollbackTx errRollback)) ;;
  ret retErr.

Definition groupPolicies (domainID : string) (saved : Group) : list Policy :=
  [Policy0 <| policies.Domain := domainID |> <| SubjectType := DomainType |> <| Subject := domainID |>
     <| Relation := DomainRelation |> <| ObjectType := GroupType |> <| Object := ID saved |>]
  ++ (if Parent saved <>s "" then
        [Policy0 <| policies.Domain := domainID |> <| SubjectType := GroupType |> <| Subject := Parent saved |>
           <| Relation := ParentGroupRelation |> <| ObjectType := GroupType |> <| ObjectKind := NewGroupKind |>
           <| Object := ID saved |>]
      else []).

Definition CreateGroup (session : authn.Session) (g : Group) : St W ((Group * list roles.RoleProvision) * error) :=
  '(groupID, e) <- idProvider svc ;;
  if_err e return_ ret ((Group0, []), WrapE svcerr.ErrCreateEntity e) ;;
  if_ negb (N.eqb (Status g) EnabledStatus) && negb (N.eqb (Status g) DisabledStatus)
    return_ ret ((Group0, []), Some svcerr.ErrInvalidStatus) ;;
  t <- now ;;
  let g := g <| ID := groupID |> <| CreatedAt := t |> <| Domain := authn.DomainID session |> in
  '(saved, e) <- Save (repo svc) g ;;
  if_err e return_ ret ((Group0, []), WrapE svcerr.ErrCreateEntity e) ;;
  defer_err (
    let oprs := groupPolicies (authn.DomainID session) saved in
    let newBuiltInRoleMembers := [(BuiltInRoleAdmin, [authn.UserID session])] in
    '(rp, e) <- roles.AddNewEntitiesRoles now ProvisionManageService (authn.DomainID session)
                  (authn.UserID session) [ID saved] oprs newBuiltInRoleMembers ;;
    if_err e return_ ret ((Group0, []), WrapE svcerr.ErrAddPolicies e) ;;
    ret ((saved, rp), None))
  (rollbackSave (ID saved)).

Definition ViewGroup (session : authn.Session) (id : string) (withRoles : bool) : St W (Group * error) :=
  '(group, e) <- (if withRoles then RetrieveByIDWithRoles (repo svc) id (authn.UserID session)
                  else RetrieveByID (repo svc) id) ;;
  if_err e return_ ret (Group0, WrapE svcerr.ErrViewEntity e) ;;
  ret (group, None).

Definition ListGroups (session : authn.Session) (gm : PageMeta) : St W (Page * error) :=
  if authn.SuperAdmin session then
    let gm := gm <| pm_DomainID := authn.DomainID session |> in
    '(page, e) <- RetrieveAll (repo svc) gm ;;
    if_err e return_ ret (Page0, WrapE svcerr.ErrViewEntity e) ;;
    ret (page, None)
  else
    '(page, e) <- RetrieveUserGroups (repo svc) (authn.DomainID session) (authn.UserID session) gm ;;
    if_err e return_ ret (Page0, WrapE svcerr.ErrViewEntity e) ;;
    ret (page, None).

Definition ListUserGroups (session : authn.Session) (userID : string) (pm : PageMeta) : St W (Page * error) :=
  '(page, e) <- RetrieveUserGroups (repo svc) (authn.DomainID session) userID pm ;;
  if_err e return_ ret (Page0, WrapE svcerr.ErrViewEntity e) ;;
  ret (page, None).

Definition UpdateGroup (session : authn.Session) (g : Group) : St W (Group * error) :=
  t <- now ;;
  let g := g <| UpdatedAt := t |> <| UpdatedBy := authn.UserID session |> in
  '(group, e) <- repo_Update (repo svc) g ;;
  if_err e return_ ret (Group0, WrapE svcerr.ErrUpdateEntity e) ;;
  ret (group, None).

Definition UpdateGroupTags (session : authn.Session) (g : Group) : St W (Group * error) :=
  t <- now ;;
  let group := Group0 <| ID := ID g |> <| Tags := Tags g |> <| UpdatedAt := t |>
    <| UpdatedBy := authn.UserID session |> in
  '(group, e) <- repo_UpdateTags (repo svc) group ;;
  if_err e return_ ret (Group0, WrapE svcerr.ErrUpdateEntity e) ;;
  ret (group, None).

Definition changeGroupStatus (session : authn.Session) (group : Group) : St W (Group * error) :=
  '(dbGroup, e) <- RetrieveByID (repo svc) (ID group) ;;
  if_err e return_ ret (Group0, WrapE svcerr.ErrViewEntity e) ;;
  if_ N.eqb (Status dbGroup) (Status group) return_ ret (Group0, Some svcerr.ErrStatusAlreadyAssigned) ;;
  let group := group <| UpdatedBy := authn.UserID session |> in
  ChangeStatus (repo svc) group.

Definition EnableGroup (session : authn.Session) (id : string) : St W (Group * error) :=
  t <- now ;;
  let group := Group0 <| ID := id |> <| Status := EnabledStatus |> <| UpdatedAt := t |> in
  '(group, e) <- changeGroupStatus session group ;;
  if_err e return_ ret (Group0, WrapE errChangeGroupStatus e) ;;
  ret (group, None).

Definition DisableGroup (session : authn.Session) (id : string) : St W (Group * error) :=
  t <- now ;;
  let group := Group0 <| ID := id |> <| Status := DisabledStatus |> <| UpdatedAt := t |> in
  '(group, e) <- changeGroupStatus session group ;;
  if_err e return_ ret (Group0, WrapE errChangeGroupStatus e) ;;
  ret (group, None).

Definition RetrieveGroupHierarchy (session : authn.Session) (id : string) (hm : HierarchyPageMeta)
    : St W (HierarchyPage * error) :=
  '(hp, e) <- RetrieveHierarchy (repo svc) (authn.DomainID session) (authn.UserID session) id hm ;;
  if_err e return_ ret (HierarchyPage0, WrapE svcerr.ErrViewEntity e) ;;
  ret (hp, None).

Definition parentPolicy (domainID parentID id : string) : Policy :=
  Policy0 <| policies.Domain := domainID |> <| SubjectType := GroupType |> <| Subject := parentID |>
    <| Relation := ParentGroupRelation |> <| ObjectType := GroupType |> <| Object := id |>.

Definition AddParentGroup (session : authn.Session) (id parentID : string) : St W error :=
  '(group, e) <- RetrieveByID (repo svc) id ;;
  if_err e return_ ret (WrapE svcerr.ErrViewEntity e) ;;
  if_ Parent group <>s ""
    return_ ret (WrapE svcerr.ErrConflict (Some (Errorf (ID group +:+ " group already have parent")))) ;;
  let pols := [parentPolicy (authn.DomainID session) parentID (ID group)] in
  e <- AddPolicies (policy svc) pols ;;
  if_err e return_ ret (WrapE svcerr.ErrAddPolicies e) ;;
  defer_err0 (
    e <- AssignParentGroup (repo svc) parentID [ID group] ;;
    if_err e return_ ret e ;;
    ret None)
  (undoAdd (policy svc) pols).

Definition RemoveParentGroup (session : authn.Session) (id : string) : St W error :=
  '(group, e) <- RetrieveByID (repo svc) id ;;
  if_err e return_ ret (WrapE svcerr.ErrViewEntity e) ;;
  if Parent group <>s "" then
    let pols := [parentPolicy (authn.DomainID session) (Parent group) (ID group)] in
    e <- DeletePolicies (policy svc) pols ;;
    if_err e return_ ret (WrapE svcerr.ErrDeletePolicies e) ;;
    defer_err0 (
      e <- UnassignParentGroup (repo svc) (Parent group) [ID group] ;;
      if_err e return_ ret (WrapE svcerr.ErrRemoveEntity e) ;;
      ret None)
    (undoDelete (policy svc) pols)
  else ret None.

(** [PageMeta{Limit: 1<<63 - 1}] *)
Definition allGroups : PageMeta := PageMeta0 <| pm_Limit := (2 ^ 63 - 1)%N |>.

Definition AddChildrenGroups (session : authn.Session) (parentGroupID : string) (childrenGroupIDs : list string)
    : St W error :=
  '(childrenGroupsPage, e) <- RetrieveByIDs (repo svc) allGroups childrenGroupIDs ;;
  if_err e return_ ret (WrapE svcerr.ErrViewEntity e) ;;
  if_ Nat.eqb (length (Groups childrenGroupsPage)) 0 return_ ret (Some ErrGroupIDs) ;;
  if_ existsb (fun childGroup => Parent childGroup <>s "") (Groups childrenGroupsPage)
    return_ ret (WrapE svcerr.ErrConflict (Some errGroupHaveParent)) ;;
  let pols := map (fun childGroup => parentPolicy (authn.DomainID session) parentGroupID (ID childGroup))
                (Groups childrenGroupsPage) in
  e <- AddPolicies (policy svc) pols ;;
  if_err e return_ ret (WrapE svcerr.ErrAddPolicies e) ;;
  defer_err0 (
    e <- AssignParentGroup (repo svc) parentGroupID childrenGroupIDs ;;
    if_err e return_ ret (WrapE svcerr.ErrUpdateEntity e) ;;
    ret None)
  (undoAdd (policy svc) pols).

Definition RemoveChildrenGroups (session : authn.Session) (parentGroupID : string) (childrenGroupIDs : list string)
    : St W error :=
  '(childrenGroupsPage, e) <- RetrieveByIDs (repo svc) allGroups childrenGroupIDs ;;
  if_err e return_ ret (WrapE svcerr.ErrViewEntity e) ;;
  if_ Nat.eqb (length (Groups childrenGroupsPage)) 0 return_ ret (Some ErrGroupIDs) ;;
  if_ existsb (fun group => (Parent group <>s "") && (Parent group <>s parentGroupID)) (Groups childrenGroupsPage)
    return_ ret (WrapE svcerr.ErrConflict (Some errDifferentParent)) ;;
  let pols := map (fun group => parentPolicy (authn.DomainID session) parentGroupID (ID group))
                (Groups childrenGroupsPage) in
  e <- DeletePolicies (policy svc) pols ;;
  if_err e return_ ret (WrapE svcerr.ErrDeletePolicies e) ;;
  defer_err0 (
    e <- UnassignParentGroup (repo svc) parentGroupID childrenGroupIDs ;;
    if_err e return_ ret (WrapE svcerr.ErrUpdateEntity e) ;;
    ret None)
  (undoDelete (policy svc) pols).

Definition childrenFilter (domainID id : string) : Policy :=
  Policy0 <| policies.Domain := domainID |> <| SubjectType := GroupType |> <| Subject := id |>
    <| Relation := ParentGroupRelation |> <| ObjectType := GroupType |>.

Definition RemoveAllChildrenGroups (session : authn.Session) (id : string) : St W error :=
  e <- DeletePolicyFilter (policy svc) (childrenFilter (authn.DomainID session) id) ;;
  if_err e return_ ret (WrapE svcerr.ErrDeletePolicies e) ;;
  e <- UnassignAllChildrenGroups (repo svc) id ;;
  if_err e return_ ret (WrapE svcerr.ErrRemoveEntity e) ;;
  ret None.

Definition ListChildrenGroups (session : authn.Session) (id : string) (startLevel endLevel : Z) (pm : PageMeta)
    : St W (Page * error) :=
  '(page, e) <- RetrieveChildrenGroups (repo svc) (authn.DomainID session) (authn.UserID session) id
                  startLevel endLevel pm ;;
  if_err e return_ ret (Page0, WrapE svcerr.ErrViewEntity e) ;;
  ret (page, None).

Definition deleteFilters (id : string) : list Policy :=
  [Policy0 <| SubjectType := GroupType |> <| Subject := id |>;
   Policy0 <| ObjectType := GroupType |> <| Object := id |>].

Definition deletePolicies (domainID id parent : string) : list Policy :=
  [Policy0 <| SubjectType := DomainType |> <| Subject := domainID |> <| Relation := DomainRelation |>
     <| ObjectType := GroupType |> <| Object := id |>]
  ++ (if parent <>s "" then
        [Policy0 <| policies.Domain := domainID |> <| SubjectType := GroupType |> <| Subject := parent |>
           <| Relation := ParentGroupRelation |> <| ObjectType := GroupType |> <| Object := id |>]
      else []).

Definition DeleteGroup (session : authn.Session) (id : string) : St W error :=
  e <- channels_UnsetParentGroupFromChannels (channels svc) id ;;
  if_err e return_ ret (WrapE svcerr.ErrRemoveEntity e) ;;
  e <- clients_UnsetParentGroupFromClient (clients svc) id ;;
  if_err e return_ ret (WrapE svcerr.ErrRemoveEntity e) ;;
  '(g, e) <- ChangeStatus (repo svc) (Group0 <| ID := id |> <| Status := DeletedStatus |>) ;;
  if_err e return_ ret (WrapE svcerr.ErrRemoveEntity e) ;;
  e <- roles.RemoveEntitiesRoles ProvisionManageService (authn.DomainID session)
         (authn.DomainUserID session) [id] (deleteFilters id) (deletePolicies (authn.DomainID session) id (Parent g)) ;;
  if_err e return_ ret (WrapE svcerr.ErrDeletePolicies e) ;;
  e <- repo_Delete (repo svc) id ;;
  if_err e return_ ret (WrapE svcerr.ErrRemoveEntity e) ;;
  ret None.
End service.
End groups.

(** ** src/groups/private/service.go *)
Module groups_private.
Record service (W : Type) := { repo : groups.Repository W }.
Arguments repo {W}.
Definition RetrieveById {W} (svc : service W) (id : string) : St W (groups.Group * error) :=
  groups.RetrieveByID (repo svc) id.
End groups_private.

(** ** What the services rely on: the table of groups

    [rows] is the table.  Its parent column is a foreign key with ON DELETE
    SET NULL: a group that is inserted is nobody's parent yet, and deleting a
    group clears the column of its children. *)
Definition parentOf (rows : gmap string groups.Group) (id : string) : string :=
  from_option groups.Parent "" (rows !! id).

(** The query of RetrieveByIDs selects on the status of its page, and the
    services ask with the zero value: it gives the enabled groups only. *)
Definition enabledRow (rows : gmap string groups.Group) (id : string) : Prop :=
  exists g, rows !! id = Some g /\ groups.Status g = groups.EnabledStatus.
Definition all_enabled (rows : gmap string groups.Group) (ids : list string) : Prop :=
  forall x, x ∈ ids -> is_Some (rows !! x) -> enabledRow rows x.

Class GroupRepoLaws {W : Type} (R : groups.Repository W) (tuples : W -> gset Relationship)
    (rows : W -> gmap string groups.Group) : Prop := {
  Save_ok g w g' w' : groups.Save R g w = ((g', None), w') ->
    rows w !! groups.ID g = None /\ (forall x, parentOf (rows w) x = groups.ID g -> groups.ID g = "")
    /\ groups.ID g' = groups.ID g /\ groups.Parent g' = groups.Parent g
    /\ rows w' = <[groups.ID g := g']> (rows w);
  Save_err g w g' e w' : groups.Save R g w = ((g', Some e), w') -> rows w' = rows w;
  Delete_ok id w w' : groups.repo_Delete R id w = (None, w') -> dom (rows w') = dom (rows w) ∖ {[id]}
    /\ forall x, x <> id -> rows w' !! x =
         (fun g => if groups.Parent g =s id then set_field groups.Parent "" g else g) <$> rows w !! x;
  Delete_err id w e w' : groups.repo_Delete R id w = (Some e, w') -> rows w' = rows w;
  tuples_Save g : frames (groups.Save R g) tuples;
  tuples_Delete id : frames (groups.repo_Delete R id) tuples;
  RetrieveByID_row id w g w' : groups.RetrieveByID R id w = ((g, None), w') ->
    is_Some (rows w !! id) /\ groups.ID g = id /\ groups.Parent g = parentOf (rows w) id;
  rows_RetrieveByID id : frames (groups.RetrieveByID R id) rows;
  tuples_RetrieveByID id : frames (groups.RetrieveByID R id) tuples;
  RetrieveByIDs_rows ids w pg w' : groups.RetrieveByIDs R groups.allGroups ids w = ((pg, None), w') ->
    (forall g, g ∈ groups.Groups pg -> groups.Parent g = parentOf (rows w) (groups.ID g))
    /\ forall x, x ∈ map groups.ID (groups.Groups pg) <-> x ∈ ids /\ enabledRow (rows w) x;
  rows_RetrieveByIDs pm ids : frames (groups.RetrieveByIDs R pm ids) rows;
  tuples_RetrieveByIDs pm ids : frames (groups.RetrieveByIDs R pm ids) tuples;
  ChangeStatus_rows g w g' e w' : groups.ChangeStatus R g w = ((g', e), w') ->
    forall x, parentOf (rows w') x = parentOf (rows w) x;
  ChangeStatus_ok g w g' w' : groups.ChangeStatus R g w = ((g', None), w') ->
    groups.Parent g' = parentOf (rows w) (groups.ID g);
  tuples_ChangeStatus g : frames (groups.ChangeStatus R g) tuples;
  AssignParentGroup_effect p ids w e w' : groups.AssignParentGroup R p ids w = (e, w') -> tuples w' = tuples w
    /\ forall x, parentOf (rows w') x =
         match e with
         | None => if bool_decide (x ∈ ids) && bool_decide (is_Some (rows w !! x)) then p else parentOf (rows w) x
         | Some _ => parentOf (rows w) x
         end;
  UnassignParentGroup_effect p ids w e w' : groups.UnassignParentGroup R p ids w = (e, w') -> tuples w' = tuples w
    /\ forall x, parentOf (rows w') x =
         match e with
         | None => if bool_decide (x ∈ ids) && (parentOf (rows w) x =s p) then "" else parentOf (rows w) x
         | Some _ => parentOf (rows w) x
         end;
  UnassignAllChildrenGroups_effect p w e w' : groups.UnassignAllChildrenGroups R p w = (e, w') ->
    tuples w' = tuples w
    /\ forall x, parentOf (rows w') x =
         match e with
         | None => if parentOf (rows w) x =s p then "" else parentOf (rows w) x
         | Some _ => parentOf (rows w) x
         end }.
#[export] Hint Resolve tuples_Save tuples_Delete rows_RetrieveByID tuples_RetrieveByID rows_RetrieveByIDs
  tuples_RetrieveByIDs tuples_ChangeStatus : frame.

Section create.
Import policies groups.
Context {W : Type} (now : St W Time) (svc : service W).
Context (tuples grants : W -> gset Relationship) (rows : W -> gmap string Group).
Context {RE : RolesEnv now (ProvisionManageService svc) tuples grants}.
Context {GL : GroupRepoLaws (repo svc) tuples rows}.
Context (now_rows : frames now rows) (id_rows : frames (idProvider svc) rows).
Context (id_tuples : frames (idProvider svc) tuples).
Context (roles_rows : forall d u ids os ms,
  frames (roles.AddNewEntitiesRoles now (ProvisionManageService svc) d u ids os ms) rows).
Hint Resolve now_rows id_rows id_tuples roles_rows : frame.

(** What CreateGroup does to the table and to the policies. *)
Definition group_created (session : authn.Session) (w w' : W) (g' : Group) (e : error) : Prop :=
  match e with
  | None => exists new : list roles.RoleProvision,
      rows w !! ID g' = None /\ (forall x, parentOf (rows w) x = ID g' -> ID g' = "")
      /\ rows w' = <[ID g' := g']> (rows w)
      /\ tuples w' = tuples w ∪ rel_set ((new ≫= provision_policies (ProvisionManageService svc) (authn.DomainID session))
           ++ groupPolicies (authn.DomainID session) g')
      /\ roles.EntityID <$> (roles.Role_ <$> new) = [ID g']
  | Some _ =>
      (rows w' = rows w \/ repo_undo_failed apiutil.ErrRollbackTx e)
      /\ (tuples w' = tuples w \/ policies_undo_failed svcerr.ErrAddPolicies apiutil.ErrRollbackTx e)
  end.

(** Deleting the group that was saved gives the table of before. *)
Lemma delete_new_row g g' w w1 w2 : rows w !! ID g = None ->
  (forall x, parentOf (rows w) x = ID g -> ID g = "") ->
  rows w1 = <[ID g := g']> (rows w) -> repo_Delete (repo svc) (ID g) w1 = (None, w2) -> rows w2 = rows w.
Proof.
  intros Hnew Hno H1 Hdel. apply Delete_ok in Hdel as [Hdom Hrest]. apply map_eq. intros x.
  destruct (decide (x = ID g)) as [->|Hx].
  { rewrite Hnew. apply not_elem_of_dom. rewrite Hdom. set_solver. }
  rewrite Hrest, H1, lookup_insert_ne by done. specialize (Hno x). unfold parentOf in Hno.
  destruct (rows w !! x) as [c|]; [|done]. simpl in *.
  destruct (String.eqb_spec (Parent c) (ID g)) as [E|E]; [|done].
  rewrite <- (Hno E) in *. f_equal. destruct c. simpl in *. unfold set_field. simpl. congruence.
Qed.

Lemma CreateGroup_spec session g w g' rps e w' :
  CreateGroup now svc session g w = ((g', rps, e), w') -> group_created session w w' g' e.
Proof.
  assert (Hsame : forall w1 x, rows w1 = rows w -> tuples w1 = tuples w -> group_created session w w1 g' (Some x)).
  { intros w1 x Hr Ht. split; left; done. }
  unfold CreateGroup, bind at 1.
  destruct (idProvider svc w) as [[i er] w1] eqn:E1. frame_all rows. frame_all tuples. destruct er as [er|]; unfold ret at 1.
  { destruct (WrapE svcerr.ErrCreateEntity (Some er)) eqn:Hx; [|by apply WrapE_not_nil in Hx].
    intros [= <- <- <- <-]. by apply Hsame. }
  destruct (_ && _); [intros [= <- <- <- <-]; by apply Hsame|].
  unfold bind at 1. destruct (now w1) as [t w2] eqn:E2. cbv zeta. frame_all rows.
  pose proof (frames_eq _ tuples _ _ _ now_tuples E2) as Ht2. unfold bind at 1.
  destruct (Save (repo svc) _ w2) as [[saved er] w3] eqn:E3. frame_all tuples. destruct er as [er|].
  { apply Save_err in E3. destruct (WrapE svcerr.ErrCreateEntity (Some er)) eqn:Hx; [|by apply WrapE_not_nil in Hx].
    intros [= <- <- <- <-]. apply Hsame; congruence. }
  apply Save_ok in E3 as (Hnew & Hno & Hid & Hpar & Hst). rewrite <- Hid in *. intros Hd.
  assert (Hr : rows w2 = rows w) by congruence. rewrite Hr in *.
  apply (create_entities now _ tuples grants rows) in Hd;
    [|by unfold groupPolicies; case_match; repeat constructor|apply roles_rows|apply tuples_Delete].
  destruct e as [e|].
  - destruct Hd as [(w4 & er & Hv & E4 & Hor) Htup].
    assert (Htw : tuples w3 = tuples w) by congruence. split; [|by rewrite <- Htw].
    destruct er as [er|]; [right; by destruct Hor|]. left. eapply delete_new_row; [exact Hnew|exact Hno| |exact E4].
    by rewrite Hv, Hst.
  - destruct Hd as (Hv & rp & new & Ha & Htup & Hids). simplify_eq.
    exists new. split_and!; [done|done|congruence| |done]. rewrite Htup. f_equal. congruence.
Qed.

(** CreateGroup stores the group with the policies of its one role, its
    link to the domain and to its parent, or returns an error and leaves
    groups and policies as they were, unless a rollback failed, which the
    error says. *)
Theorem CreateGroup_atomic session g w g' rps e w'
    (Hrun : CreateGroup now svc session g w = ((g', rps, e), w')) : group_created session w w' g' e.
Proof. by eapply CreateGroup_spec. Qed.
End create.

(** ** The parent of a group *)
Section parents.
Import policies hierarchy groups.
Context {W : Type} (now : St W Time) (svc : service W).
Context (tuples grants : W -> gset Relationship) (rows : W -> gmap string Group).
Context {RE : RolesEnv now (ProvisionManageService svc) tuples grants}.
Context {GL : GroupRepoLaws (repo svc) tuples rows} {PL : PolicyLaws (policy svc) tuples}.
Context (now_rows : frames now rows) (id_rows : frames (idProvider svc) rows).
Context (id_tuples : frames (idProvider svc) tuples).
Context (roles_rows : forall d u ids os ms,
  frames (roles.AddNewEntitiesRoles now (ProvisionManageService svc) d u ids os ms) rows).
Context (remove_rows : forall d u ids fs os,
  frames (roles.RemoveEntitiesRoles (ProvisionManageService svc) d u ids fs os) rows).
Context (add_rows : forall l, frames (AddPolicies (policy svc) l) rows).
Context (delete_rows : forall l, frames (DeletePolicies (policy svc) l) rows).
Context (filter_rows : forall p, frames (DeletePolicyFilter (policy svc) p) rows).
(** The services of channels and clients keep their own parents. *)
Context (unset_rows : forall g, frames (grpc.channels_UnsetParentGroupFromChannels (channels svc) g) rows
  /\ frames (grpc.clients_UnsetParentGroupFromClient (clients svc) g) rows).
Context (unset_links : forall g w e w',
  grpc.channels_UnsetParentGroupFromChannels (channels svc) g w = (e, w')
    \/ grpc.clients_UnsetParentGroupFromClient (clients svc) g w = (e, w') ->
  forall r, res_type r = GroupType -> r ∈ tuples w' <-> r ∈ tuples w).
Hint Resolve now_rows id_rows id_tuples roles_rows add_rows delete_rows filter_rows : frame.

Definition parent (w : W) (id : string) : string := parentOf (rows w) id.
Definition synced := in_sync tuples GroupType parent.

Lemma group_synced_ext w w' : tuples w' = tuples w -> rows w' = rows w -> synced w -> synced w'.
Proof. intros Ht Hp. apply in_sync_ext; [done|]. intros x. unfold parent. by rewrite Hp. Qed.

Lemma undo_policies_keep l : (forall wa wb ea x, DeletePolicies (policy svc) l wa = (ea, wb) -> parent wb x = parent wa x)
  /\ (forall wa wb ea x, AddPolicies (policy svc) l wa = (ea, wb) -> parent wb x = parent wa x).
Proof. split; intros wa wb ea x H; frame_all rows; unfold parent; congruence. Qed.

(** A repository call whose error is wrapped on the way out. *)
Lemma wrapped_assigns (body : St W error) (f : error -> error) w cs g :
  (forall e, f (Some e) <> None) -> assigns_at tuples parent w body cs g ->
  assigns_at tuples parent w (e <- body ;; match e with Some _ => ret (f e) | None => ret None end) cs g.
Proof.
  intros Hf Hb e w'. unfold bind, ret. destruct (body w) as [[e1|] w1] eqn:E; intros [= <- <-];
    apply Hb in E as [Ht Hp]; (split; [done|]); [|done]. destruct (f (Some e1)) eqn:Ef; [done|by destruct (Hf e1)].
Qed.

(** The calls of the repository on groups that exist. *)
Lemma assign_existing p ids w cs : (forall x, x ∈ cs <-> x ∈ ids /\ is_Some (rows w !! x)) ->
  assigns_at tuples parent w (AssignParentGroup (repo svc) p ids) cs p.
Proof.
  intros Hcs e w' H. apply AssignParentGroup_effect in H as [Ht Hp]. split; [done|].
  destruct e; intros x; unfold parent; rewrite Hp; [done|]. rewrite <- bool_decide_and.
  by rewrite (bool_decide_ext _ _ (Hcs x)).
Qed.

Lemma unassign_children p ids w cs : (forall x, x ∈ cs -> x ∈ ids /\ parent w x = p) ->
  (forall x, x ∈ ids -> parent w x = p -> p <> "" -> x ∈ cs) ->
  assigns_at tuples parent w (UnassignParentGroup (repo svc) p ids) cs "".
Proof.
  intros Hcs Hall e w' H. apply UnassignParentGroup_effect in H as [Ht Hp]. split; [done|].
  destruct e; intros x; unfold parent; rewrite Hp; [done|]. fold (parent w x).
  case_bool_decide as Hx; case_bool_decide as Hc; simpl.
  - apply Hcs in Hc as [_ ->]. by rewrite eqb_refl_s.
  - destruct (String.eqb_spec (parent w x) p) as [E|]; [|done].
    destruct (decide (p = "")); [congruence|]. destruct Hc. by apply Hall.
  - by apply Hcs in Hc as [? _].
  - done.
Qed.

Lemma AddParentGroup_sync session id g w e w' : g <> "" ->
  AddParentGroup svc session id g w = (e, w') -> ~ undo_failed e -> synced w -> synced w'.
Proof.
  intros Hg. unfold AddParentGroup, bind at 1.
  destruct (RetrieveByID (repo svc) id w) as [[c er] w1] eqn:E1. frame_all tuples; frame_all rows.
  assert (Hbase : synced w -> synced w1) by (by apply group_synced_ext).
  destruct er as [er|]; unfold ret at 1; [nothing Hbase|].
  apply RetrieveByID_row in E1 as (Hrow & Hid & Hp). destruct (_ <>s "") eqn:Ep; [nothing Hbase|]. go_bool.
  cbv zeta. unfold bind at 1. destruct (AddPolicies (policy svc) _ w1) as [[ea|] w2] eqn:E2; frame_all rows.
  { apply AddPolicies_err in E2. intros [= <- <-] _. apply group_synced_ext; congruence. }
  intros Hd Hf Hs. eapply (add_parent_sync (policy svc) tuples GroupType parent _ [ID c] g);
    [..|exact E2|exact Hd|exact Hf|by apply Hbase].
  - done.
  - done.
  - intros x ->%list_elem_of_singleton. unfold parent. by rewrite H0, Hid, <- Hp.
  - intros ex wx. unfold bind, ret. destruct (AssignParentGroup _ _ _ w2) as [[eb|] w3] eqn:Eb; intros [= <- <-];
      apply (assign_existing g [ID c] w2 [ID c]) in Eb; try done; intros x; split; [|naive_solver| |naive_solver];
      intros ->%list_elem_of_singleton; (split; [set_solver|]); by rewrite H1, H0, Hid.
  - intros x. unfold parent. by rewrite H1.
  - intros l wa wb el x. apply undo_policies_keep.
Qed.

Lemma group_RemoveParentGroup_sync session id w e w' :
  RemoveParentGroup svc session id w = (e, w') -> ~ undo_failed e -> synced w -> synced w'.
Proof.
  unfold RemoveParentGroup, bind at 1.
  destruct (RetrieveByID (repo svc) id w) as [[c er] w1] eqn:E1. frame_all tuples; frame_all rows.
  assert (Hbase : synced w -> synced w1) by (by apply group_synced_ext).
  destruct er as [er|]; unfold ret at 1; [nothing Hbase|].
  apply RetrieveByID_row in E1 as (Hrow & Hid & Hp). destruct (_ <>s "") eqn:Ep; [|nothing Hbase]. go_bool.
  cbv zeta. unfold bind at 1. destruct (DeletePolicies (policy svc) _ w1) as [[ea|] w2] eqn:E2; frame_all rows.
  { apply DeletePolicies_err in E2. intros [= <- <-] _. apply group_synced_ext; congruence. }
  intros Hd Hf Hs. eapply (remove_parent_sync (policy svc) tuples GroupType parent _ [ID c] (Parent c));
    [..|exact E2|exact Hd|exact Hf|by apply Hbase].
  - done.
  - done.
  - intros x ->%list_elem_of_singleton. unfold parent. by rewrite H0, Hid, <- Hp.
  - apply (wrapped_assigns _ (WrapE svcerr.ErrRemoveEntity)); [intros ?; apply WrapE_not_nil|].
    apply unassign_children; [|done]. intros x ->%list_elem_of_singleton. split; [set_solver|].
    unfold parent. by rewrite H1, H0, Hid, <- Hp.
  - intros x. unfold parent. by rewrite H1.
  - intros l wa wb el x. apply undo_policies_keep.
Qed.

Lemma children_policies d g (l : list Group) :
  relationship <$> map (fun c => parentPolicy d g (ID c)) l = link GroupType g <$> map ID l.
Proof. change (map ID l) with (ID <$> l). rewrite <- !list_fmap_compose. by apply list_fmap_ext. Qed.

Lemma AddChildrenGroups_sync session g ids w e w' : g <> "" -> all_enabled (rows w) ids ->
  AddChildrenGroups svc session g ids w = (e, w') -> ~ undo_failed e -> synced w -> synced w'.
Proof.
  intros Hg Hen. unfold AddChildrenGroups, bind at 1.
  destruct (RetrieveByIDs (repo svc) allGroups ids w) as [[pg er] w1] eqn:E1. frame_all tuples; frame_all rows.
  assert (Hbase : synced w -> synced w1) by (by apply group_synced_ext).
  destruct er as [er|]; unfold ret at 1; [nothing Hbase|].
  apply RetrieveByIDs_rows in E1 as [Hp Hids]. destruct (Nat.eqb _ 0); [nothing Hbase|].
  destruct (existsb _ _) eqn:Ex; [nothing Hbase|].
  cbv zeta. unfold bind at 1. destruct (AddPolicies (policy svc) _ w1) as [[ea|] w2] eqn:E2; frame_all rows.
  { apply AddPolicies_err in E2. intros [= <- <-] _. apply group_synced_ext; congruence. }
  intros Hd Hf Hs. eapply (add_parent_sync (policy svc) tuples GroupType parent _ (map ID (Groups pg)) g);
    [..|exact E2|exact Hd|exact Hf|by apply Hbase].
  - apply children_policies.
  - done.
  - intros x (c & Hc & <-)%elem_of_map_list. unfold parent. rewrite H0, <- Hp by done.
    destruct (String.eqb_spec (Parent c) "") as [|Hn]; [done|]. exfalso.
    assert (existsb (fun c => Parent c <>s "") (Groups pg) = true); [|congruence].
    apply existsb_exists. exists c. split; [by apply list_elem_of_In|]. apply String.eqb_neq in Hn. by rewrite Hn.
  - apply (wrapped_assigns _ (WrapE svcerr.ErrUpdateEntity)); [intros ?; apply WrapE_not_nil|].
    apply assign_existing. intros x. rewrite Hids, H1, H0. split; [|by intros [? ?]; auto].
    intros [? (c & Hc & _)]. by rewrite Hc.
  - intros x. unfold parent. by rewrite H1.
  - intros l wa wb el x. apply undo_policies_keep.
Qed.

(** Only a nil error says that the two agree here: the rollbacks of these
    operations do not restore what was there (see below), or do not exist. *)
Lemma RemoveChildrenGroups_sync session g ids w w' : g <> "" -> all_enabled (rows w) ids ->
  RemoveChildrenGroups svc session g ids w = (None, w') -> synced w -> synced w'.
Proof.
  intros Hg Hen. unfold RemoveChildrenGroups, bind at 1.
  destruct (RetrieveByIDs (repo svc) allGroups ids w) as [[pg er] w1] eqn:E1. frame_all tuples; frame_all rows.
  destruct er as [er|]; unfold ret at 1; [by intros [= ?%WrapE_inv]|].
  apply RetrieveByIDs_rows in E1 as [Hp Hids]. destruct (Nat.eqb _ 0); [done|].
  destruct (existsb _ _) eqn:Ex; [by intros [= ?%WrapE_inv]|].
  cbv zeta. unfold bind at 1. destruct (DeletePolicies (policy svc) _ w1) as [[ea|] w2] eqn:E2; frame_all rows;
    [by intros [= ?%WrapE_inv]|].
  apply DeletePolicies_ok in E2. unfold defer_err0, bind, ret.
  destruct (UnassignParentGroup _ _ _ w2) as [[eb|] w3] eqn:E3.
  { destruct (WrapE svcerr.ErrUpdateEntity (Some eb)) as [x|] eqn:Hx; [|by apply WrapE_not_nil in Hx].
    unfold undoDelete, bind, ret. destruct (AddPolicies _ _ w3) as [[er|] w4]; [|done].
    destruct (Wrap_some x (WrapE apiutil.ErrRollbackTx (Some er))) as [y ->]. done. }
  apply UnassignParentGroup_effect in E3 as [Ht Hpar]. intros [= <-] Hs c g' Hg'.
  rewrite Ht, E2, elem_of_difference, H, (elem_of_links _ _ _ _ _ (children_policies _ _ _)).
  specialize (Hs c g' Hg'). unfold parent. rewrite Hpar, H1, H0. rewrite Hs. unfold parent.
  case_bool_decide as Hc; simpl.
  - destruct (String.eqb_spec (parentOf (rows w) c) g) as [E|E].
    + split; [|by intros <-]. intros [E' Hn]. exfalso. apply Hn. exists c. split; [|congruence].
      apply Hids. split; [done|]. apply Hen; [done|]. unfold parentOf in E. by destruct (rows w !! c).
    + split; [by intros [? _]|]. intros E'. split; [done|]. intros (c' & _ & [-> ->]%link_inj). done.
  - split; [by intros [? _]|]. intros E'. split; [done|]. intros (c' & Hc'%Hids & [-> ->]%link_inj). by destruct Hc'.
Qed.

Lemma RemoveAllChildrenGroups_sync session g w w' : g <> "" ->
  RemoveAllChildrenGroups svc session g w = (None, w') -> synced w -> synced w'.
Proof.
  intros Hg. unfold RemoveAllChildrenGroups, bind at 1.
  destruct (DeletePolicyFilter (policy svc) _ w) as [[ea|] w1] eqn:E1; frame_all rows; [by intros [= ?%WrapE_inv]|].
  apply DeletePolicyFilter_ok in E1. unfold bind, ret.
  destruct (UnassignAllChildrenGroups _ _ w1) as [[eb|] w2] eqn:E2; [by intros [= ?%WrapE_inv]|].
  apply UnassignAllChildrenGroups_effect in E2 as [Ht Hpar]. intros [= <-] Hs c g' Hg'.
  rewrite Ht, E1. unfold remove_matching. rewrite elem_of_filter, (Hs c g' Hg').
  unfold parent. rewrite Hpar, H. unfold policy_matches, filter_matches. simpl. unfold opt_match. simpl.
  apply String.eqb_neq in Hg as Hg''. rewrite Hg''. simpl. rewrite Hg'', andb_true_r. simpl.
  destruct (String.eqb_spec (parentOf (rows w) c) g) as [E|E].
  - split; [|by intros <-]. intros [Hn E']. rewrite <- E', E, eqb_refl_s in Hn. done.
  - split; [by intros [_ ?]|]. intros E'. split; [|done]. by apply String.eqb_neq; rewrite <- E'.
Qed.

(** The policies of roles are no parent relationships. *)
Lemma role_policies_no_link d (new : list roles.RoleProvision) g c :
  link GroupType g c ∉ rel_set (new ≫= provision_policies (ProvisionManageService svc) d).
Proof.
  unfold rel_set. rewrite elem_of_list_to_set, list_elem_of_fmap. intros (pr & Hpr & Hin).
  apply list_elem_of_bind in Hin as (rp & Hin & _).
  apply elem_of_app in Hin as [Hin|Hin]; apply elem_of_map_list in Hin as (x & _ & <-); discriminate Hpr.
Qed.

Lemma deletePoliciesOf_no_link d ears emrs g c :
  link GroupType g c ∉ rel_set (roles.deletePoliciesOf (ProvisionManageService svc) d ears emrs).
Proof.
  unfold rel_set. rewrite elem_of_list_to_set, list_elem_of_fmap. intros (pr & Hpr & Hin).
  apply elem_of_app in Hin as [Hin|Hin]; apply elem_of_map_list in Hin as (x & _ & <-); discriminate Hpr.
Qed.

Lemma groupPolicies_link d (saved : Group) g c : g <> "" ->
  link GroupType g c ∈ rel_set (groupPolicies d saved) <-> c = ID saved /\ g = Parent saved.
Proof.
  intros Hg. unfold rel_set, groupPolicies. rewrite elem_of_list_to_set.
  destruct (String.eqb_spec (Parent saved) "") as [->|Hn]; simpl; split.
  - intros H%list_elem_of_singleton. discriminate H.
  - intros [_ ->]. done.
  - intros [H|H%list_elem_of_singleton]%elem_of_cons; [discriminate H|by injection H as -> ->].
  - intros [-> ->]. right. by left.
Qed.

Lemma CreateGroup_sync session g w g' rps e w' : ID g' <> "" \/ e <> None ->
  CreateGroup now svc session g w = ((g', rps, e), w') ->
  ~ repo_undo_failed apiutil.ErrRollbackTx e ->
  ~ policies_undo_failed svcerr.ErrAddPolicies apiutil.ErrRollbackTx e -> synced w -> synced w'.
Proof.
  intros Hid Hc Hf1 Hf2. apply (CreateGroup_spec now svc tuples grants rows) in Hc; [|done..].
  destruct e as [e|]; simpl in Hc.
  { destruct Hc as [[Hr|?] [Ht|?]]; try done. by apply group_synced_ext. }
  destruct Hid as [Hid|]; [|done]. destruct Hc as (new & Hnew & Hno & Hr & Ht & _). intros Hs c p Hp.
  rewrite Ht, elem_of_union. unfold rel_set. rewrite fmap_app, list_to_set_app_L, elem_of_union.
  fold (rel_set (groupPolicies (authn.DomainID session) g')).
  fold (rel_set (new ≫= provision_policies (ProvisionManageService svc) (authn.DomainID session))).
  rewrite groupPolicies_link by done. pose proof (role_policies_no_link (authn.DomainID session) new p c) as Hrole.
  rewrite (Hs c p Hp). unfold parent, parentOf. rewrite Hr.
  destruct (decide (c = ID g')) as [->|Hc].
  - rewrite lookup_insert_eq, Hnew. simpl. naive_solver.
  - rewrite lookup_insert_ne by done. naive_solver.
Qed.

(** What the policies of a deleted group leave of the parent relationships. *)
Lemma deleted_links d d' id pa (s : gset Relationship) ears emrs g c : id <> "" ->
  link GroupType g c ∈ foldl (fun s f => remove_matching (policy_matches f) s)
    (s ∖ rel_set (roles.deletePoliciesOf (ProvisionManageService svc) d ears emrs)
       ∖ (if Nat.ltb 1 (length (deletePolicies d' id pa)) then rel_set (deletePolicies d' id pa) else ∅))
    (deleteFilters id)
  <-> link GroupType g c ∈ s /\ c <> id /\ g <> id.
Proof.
  intros Hid. simpl. unfold remove_matching. rewrite !elem_of_filter, !elem_of_difference.
  pose proof (deletePoliciesOf_no_link d ears emrs g c) as Hno.
  apply String.eqb_neq in Hid as Hid'. unfold policy_matches, filter_matches. simpl. unfold opt_match. simpl.
  rewrite !Hid'. simpl. rewrite !Hid'. simpl. rewrite ?andb_true_r.
  split.
  - intros (Hc%String.eqb_neq & Hp%String.eqb_neq & [? _] & _). done.
  - intros (Hin & Hc & Hp). apply String.eqb_neq in Hp as ->. apply String.eqb_neq in Hc as Hc'. rewrite Hc'.
    split_and!; try done. case_match; [|set_solver]. unfold rel_set, deletePolicies.
    rewrite elem_of_list_to_set. destruct (String.eqb_spec pa "") as [->|Hn]; simpl; intros H'.
    + apply list_elem_of_singleton in H'. discriminate H'.
    + apply elem_of_cons in H' as [H'|H'%list_elem_of_singleton]; [discriminate H'|].
      injection H' as -> _. by destruct Hc.
Qed.

Lemma DeleteGroup_sync session id w w' : id <> "" ->
  DeleteGroup svc session id w = (None, w') -> synced w -> synced w'.
Proof.
  intros Hid. unfold DeleteGroup, bind at 1. pose proof (unset_rows id) as [Hu1 Hu2].
  destruct (grpc.channels_UnsetParentGroupFromChannels _ _ w) as [[e1|] w1] eqn:E1; 
    [by intros [= ?%WrapE_inv]|].
  pose proof (unset_links _ _ _ _ (or_introl E1)) as Ht1. apply (frames_eq _ rows _ _ _ Hu1) in E1.
  unfold bind at 1. destruct (grpc.clients_UnsetParentGroupFromClient _ _ w1) as [[e2|] w2] eqn:E2;
    [by intros [= ?%WrapE_inv]|].
  pose proof (unset_links _ _ _ _ (or_intror E2)) as Ht2. apply (frames_eq _ rows _ _ _ Hu2) in E2.
  unfold bind at 1. destruct (ChangeStatus _ _ w2) as [[gr [e3|]] w3] eqn:E3;
    [by intros [= ?%WrapE_inv]|].
  pose proof (ChangeStatus_rows _ _ _ _ _ E3) as Hr3. frame_all tuples. clear E3.
  unfold bind at 1. destruct (roles.RemoveEntitiesRoles _ _ _ _ _ _ w3) as [[e4|] w4] eqn:E4;
    [by intros [= ?%WrapE_inv]|].
  pose proof (frames_eq _ rows _ _ _ (remove_rows _ _ _ _ _) E4) as Hr4.
  destruct (roles.RetrieveEntitiesRolesActionsMembers (role_repo (repo svc)) [id] w3) as [[[ears emrs] er] w5] eqn:Er.
  destruct er as [er|].
  { exfalso. revert E4. unfold roles.RemoveEntitiesRoles, bind at 1. simpl. rewrite Er. done. }
  apply (RemoveEntitiesRoles_spec now _ tuples grants RE _ _ _ _ _ _ _ _ _ _ _ Er) in E4. cbv beta iota in E4.
  unfold bind, ret. destruct (repo_Delete _ _ w4) as [[e5|] w6] eqn:E5; [by intros [= ?%WrapE_inv]|].
  frame_all tuples. apply Delete_ok in E5 as [Hdom Hrest]. intros [= <-] Hs c g Hg.
  rewrite H0, E4, deleted_links by done. rewrite H, Ht2, Ht1, (Hs c g Hg) by done.
  unfold parent. specialize (Hr3 c). destruct (decide (c = id)) as [->|Hc].
  { assert (rows w6 !! id = None) as Hn by (apply not_elem_of_dom; rewrite Hdom; set_solver).
    unfold parentOf at 2. rewrite Hn. simpl. naive_solver. }
  unfold parentOf at 2. rewrite Hrest, Hr4 by done. rewrite E2, E1 in Hr3. rewrite <- Hr3. unfold parentOf.
  destruct (rows w3 !! c) as [row|]; simpl; [|naive_solver].
  destruct (String.eqb_spec (Parent row) id) as [E|E]; [destruct row; simpl in *; naive_solver|naive_solver].
Qed.

(** C39: Only the enabled ones of the groups that are asked for are looked at and
    get a policy, but the rows of all of them get the parent: a group that is
    disabled becomes a child without a parent relationship. *)
Theorem disabled_child_gets_no_policy session g ids w w' x row (Hg : g <> "") (Hx : x ∈ ids)
    (Hrow : rows w !! x = Some row) (Hdis : Status row <> EnabledStatus) (Hpar : Parent row <> g) (Hs : synced w)
    (Hrun : AddChildrenGroups svc session g ids w = (None, w')) :
  parent w' x = g /\ (link GroupType g x ∉ tuples w') /\ ~ synced w'.
Proof.
  assert (Hw : parent w' x = g /\ link GroupType g x ∉ tuples w').
  { revert Hrun. unfold AddChildrenGroups, bind at 1.
    destruct (RetrieveByIDs (repo svc) allGroups ids w) as [[pg [er|]] w1] eqn:E1; [by intros [= ?%WrapE_inv]|].
    frame_all tuples; frame_all rows. apply RetrieveByIDs_rows in E1 as [_ Hids].
    destruct (Nat.eqb _ 0); [done|]. destruct (existsb _ _); [by intros [= ?%WrapE_inv]|]. cbv zeta. unfold bind at 1.
    destruct (AddPolicies (policy svc) _ w1) as [[ea|] w2] eqn:E2; [by intros [= ?%WrapE_inv]|]. frame_all rows.
    apply AddPolicies_ok in E2 as [E2 _]. unfold defer_err0, bind, ret.
    destruct (AssignParentGroup _ _ _ w2) as [[eb|] w3] eqn:E3.
    { unfold undoAdd, bind, ret. destruct (WrapE svcerr.ErrUpdateEntity (Some eb)) as [y|] eqn:Hy; [|by apply WrapE_not_nil in Hy].
      destruct (DeletePolicies _ _ w3) as [[er|] w4]; [|done].
      by destruct (Wrap_some y (WrapE apiutil.ErrRollbackTx (Some er))) as [z ->]. }
    intros [= <-]. apply AssignParentGroup_effect in E3 as [Ht Hp]. split.
    - unfold parent. rewrite Hp, H1, H0, Hrow, !bool_decide_true; done.
    - rewrite Ht, E2, H. intros [Hin|Hin]%elem_of_union.
      + apply (Hs x g Hg) in Hin. unfold parent, parentOf in Hin. rewrite Hrow in Hin. done.
      + apply (elem_of_links _ _ _ _ _ (children_policies _ _ _)) in Hin as (y & [_ (c & Hc & Hst)]%Hids & [_ <-]%link_inj).
        congruence. }
  destruct Hw as [Hp Hl]. split_and!; [done..|]. intros Hs'. by apply Hl, (Hs' x g Hg).
Qed.

(** A call that changes the groups or their parents.  Operations that roll
    back what they did may fail, unless the rollback fails too; the other
    three have to succeed.  The groups that a call makes children, or takes
    away, are enabled. *)
Inductive group_step : W -> W -> Prop :=
| step_CreateGroup session g w g' rps e w' : ID g' <> "" \/ e <> None ->
    ~ repo_undo_failed apiutil.ErrRollbackTx e ->
    ~ policies_undo_failed svcerr.ErrAddPolicies apiutil.ErrRollbackTx e ->
    CreateGroup now svc session g w = ((g', rps, e), w') -> group_step w w'
| step_AddParentGroup session id g w e w' : g <> "" -> ~ undo_failed e ->
    AddParentGroup svc session id g w = (e, w') -> group_step w w'
| step_RemoveParentGroup session id w e w' : ~ undo_failed e ->
    RemoveParentGroup svc session id w = (e, w') -> group_step w w'
| step_AddChildrenGroups session g ids w e w' : g <> "" -> all_enabled (rows w) ids -> ~ undo_failed e ->
    AddChildrenGroups svc session g ids w = (e, w') -> group_step w w'
| step_RemoveChildrenGroups session g ids w w' : g <> "" -> all_enabled (rows w) ids ->
    RemoveChildrenGroups svc session g ids w = (None, w') -> group_step w w'
| step_RemoveAllChildrenGroups session g w w' : g <> "" ->
    RemoveAllChildrenGroups svc session g w = (None, w') -> group_step w w'
| step_DeleteGroup session id w w' : id <> "" ->
    DeleteGroup svc session id w = (None, w') -> group_step w w'.

(** C10: over every sequence of calls of CreateGroup, AddParentGroup,
    RemoveParentGroup and AddChildrenGroups, failed ones included (failed
    rollbacks excepted), and of successful calls of RemoveChildrenGroups,
    RemoveAllChildrenGroups and DeleteGroup, which do not undo what they did,
    a group has a parent relationship in the policy store exactly to the
    group its row names, as long as no disabled group is among those that are
    made children or taken away ([disabled_child_gets_no_policy]). *)
Theorem group_parents_in_sync w w' (Hw : synced w) (Hsteps : rtc group_step w w') : synced w'.
Proof.
  induction Hsteps as [|w1 w2 w3 Hstep _ IH]; [done|]. apply IH. destruct Hstep.
  - by eapply CreateGroup_sync.
  - by eapply AddParentGroup_sync.
  - by eapply group_RemoveParentGroup_sync.
  - by eapply AddChildrenGroups_sync.
  - by eapply RemoveChildrenGroups_sync.
  - by eapply RemoveAllChildrenGroups_sync.
  - by eapply DeleteGroup_sync.
Qed.

End parents.

Section rollback.
Import policies hierarchy groups.
Context {W : Type} (svc : service W) (tuples : W -> gset Relationship) (rows : W -> gmap string Group).
Context {GL : GroupRepoLaws (repo svc) tuples rows} {PL : PolicyLaws (policy svc) tuples}.
Context (add_rows : forall l, frames (AddPolicies (policy svc) l) rows).
Context (delete_rows : forall l, frames (DeletePolicies (policy svc) l) rows).

(** RemoveChildrenGroups accepts groups that have no parent.  Where the
    repository then fails, its rollback adds the policies of all the groups
    it was asked for, so that a group without a parent is left with a parent
    relationship it did not have, and the two no longer agree. *)
Theorem RemoveChildrenGroups_rollback_adds_links session g ids w pg w1 w2 er w3 w4 c
    (Hg : g <> "") (Hs : synced tuples rows w)
    (Hread : RetrieveByIDs (repo svc) allGroups ids w = ((pg, None), w1))
    (Hparents : forall c, c ∈ Groups pg -> Parent c = "" \/ Parent c = g)
    (Hc : c ∈ Groups pg) (Hroot : Parent c = "")
    (Hdelete : DeletePolicies (policy svc)
       (map (fun x => parentPolicy (authn.DomainID session) g (ID x)) (Groups pg)) w1 = (None, w2))
    (Hunassign : UnassignParentGroup (repo svc) g ids w2 = (Some er, w3))
    (Hundo : AddPolicies (policy svc)
       (map (fun x => parentPolicy (authn.DomainID session) g (ID x)) (Groups pg)) w3 = (None, w4)) :
  RemoveChildrenGroups svc session g ids w = (WrapE svcerr.ErrUpdateEntity (Some er), w4)
  /\ (link GroupType g (ID c) ∉ tuples w) /\ link GroupType g (ID c) ∈ tuples w4 /\ (~ synced tuples rows w4).
Proof.
  pose proof Hread as Hrows. apply RetrieveByIDs_rows in Hrows as [Hp _]. specialize (Hp _ Hc).
  assert (Hpw : parent rows w (ID c) = "") by (unfold parent; congruence).
  assert (Hin : link GroupType g (ID c) ∈ tuples w4).
  { apply AddPolicies_ok in Hundo as [-> _]. apply elem_of_union. right.
    apply (elem_of_links _ _ _ _ _ (children_policies _ _ _)). exists (ID c). split; [|done].
    apply elem_of_map_list. by exists c. }
  assert (Hp4 : parent rows w4 (ID c) = "").
  { pose proof (frames_eq _ rows _ _ _ (delete_rows _) Hdelete) as H2.
    pose proof (frames_eq _ rows _ _ _ (add_rows _) Hundo) as H4.
    pose proof (frames_eq _ rows _ _ _ (rows_RetrieveByIDs _ _) Hread) as H1.
    apply UnassignParentGroup_effect in Hunassign as [_ H3]. unfold parent in Hpw |- *.
    by rewrite H4, H3, H2, H1. }
  split_and!.
  - unfold RemoveChildrenGroups, bind at 1. rewrite Hread.
    destruct (Nat.eqb (length _) 0) eqn:El; [apply Nat.eqb_eq, nil_length_inv in El; rewrite El in Hc; set_solver|].
    destruct (existsb _ _) eqn:Ex.
    { exfalso. apply existsb_exists in Ex as (x & Hx%list_elem_of_In & Hb). apply andb_true_iff in Hb as [H1 H2].
      go_bool. by destruct (Hparents x Hx). }
    cbv zeta. unfold bind at 1. rewrite Hdelete. unfold defer_err0, bind, ret. rewrite Hunassign.
    destruct (WrapE svcerr.ErrUpdateEntity (Some er)) as [x|] eqn:Hx; [|by apply WrapE_not_nil in Hx].
    unfold undoDelete, bind, ret. by rewrite Hundo.
  - rewrite (Hs _ _ Hg). congruence.
  - done.
  - intros H4. apply (H4 _ _ Hg) in Hin. congruence.
Qed.
End rollback.

(** A table of groups in memory: the environment can hold. *)
Module memgroups.
Import policies groups.
Definition state : Type := memroles.state (gmap string Group).
Definition rows (s : state) : gmap string Group := s.2.
Definition put (t : gmap string Group) (s : state) : state := (s.1, t).
Definition set_parent (p : string) (keep : string -> Group -> bool) : St state error := fun s =>
  (None, put (map_imap (fun x g => Some (if keep x g then g else g <| Parent := p |>)) (rows s)) s).
Definition among (ids : list string) (s : state) : list Group :=
  (fun kv => kv.2 <| ID := kv.1 |>) <$> map_to_list (filter (fun kv => kv.1 ∈ ids /\ Status kv.2 = EnabledStatus) (rows s)).
Definition page (gs : list Group) : Page := MkPage PageMeta0 gs.

(** [broken]: the repository cannot take parents away. *)
Definition repo (broken : bool) : Repository state :=
  {| Save := fun g s => match rows s !! ID g with
       | Some _ => ((Group0, Some repoerr.ErrConflict), s)
       | None => if existsb (fun kv => (Parent kv.2 =s ID g) && (ID g <>s "")) (map_to_list (rows s))
                 then ((Group0, Some repoerr.ErrConflict), s) else ((g, None), put (<[ID g := g]> (rows s)) s)
       end;
     repo_Update := fun g => ret (g, None); repo_UpdateTags := fun g => ret (g, None);
     RetrieveByID := fun id s => match rows s !! id with
       | Some g => ((g <| ID := id |>, None), s) | None => ((Group0, Some repoerr.ErrNotFound), s) end;
     RetrieveByIDAndUser := fun _ _ _ => ret (Group0, None);
     RetrieveByIDWithRoles := fun _ _ => ret (Group0, None);
     RetrieveAll := fun _ => ret (Page0, None);
     RetrieveByIDs := fun _ ids s => ((page (among ids s), None), s);
     RetrieveHierarchy := fun _ _ _ _ => ret (HierarchyPage0, None);
     ChangeStatus := fun g s => match rows s !! ID g with
       | Some o => ((o <| Status := Status g |>, None), put (<[ID g := o <| Status := Status g |>]> (rows s)) s)
       | None => ((Group0, Some repoerr.ErrNotFound), s) end;
     AssignParentGroup := fun p ids => set_parent p (fun x _ => negb (bool_decide (x ∈ ids)));
     UnassignParentGroup := fun p ids => if broken then ret (Some repoerr.ErrUpdateEntity)
       else set_parent "" (fun x g => negb (bool_decide (x ∈ ids) && (Parent g =s p)));
     UnassignAllChildrenGroups := fun p => set_parent "" (fun _ g => negb (Parent g =s p));
     RetrieveUserGroups := fun _ _ _ => ret (Page0, None);
     RetrieveChildrenGroups := fun _ _ _ _ _ _ => ret (Page0, None);
     RetrieveAllParentGroups := fun _ _ _ _ => ret (Page0, None);
     repo_Delete := fun id s =>
       (None, put ((fun g => if Parent g =s id then g <| Parent := "" |> else g) <$> delete id (rows s)) s);
     role_repo := memroles.repo GroupType |}.

Lemma set_parent_effect p keep w e w' : set_parent p keep w = (e, w') -> e = None /\ memroles.tuples w' = memroles.tuples w
  /\ forall x, parentOf (rows w') x = from_option (fun g => if keep x g then Parent g else p) "" (rows w !! x).
Proof.
  intros [= <- <-]. split_and!; [done..|]. intros x. unfold parentOf, put, rows. simpl. rewrite map_lookup_imap.
  destruct (w.2 !! x) as [g|]; [|done]. simpl. by destruct (keep x g).
Qed.

#[export] Instance repo_laws broken : GroupRepoLaws (repo broken) memroles.tuples rows.
Proof.
  split; simpl; intros *; try done; try (by intros w); try (intros w; by case_match).
  - destruct (rows w !! ID g) eqn:Eg; [done|]. destruct (existsb _ _) eqn:Ex; [done|]. intros [= <- <-].
    split_and!; try done. intros x Hx. destruct (decide (ID g = "")) as [|Hn]; [done|]. exfalso.
    assert (existsb (fun kv => (Parent kv.2 =s ID g) && (ID g <>s "")) (map_to_list (rows w)) = true); [|congruence].
    unfold parentOf in Hx. destruct (rows w !! x) as [c|] eqn:Ec; [|by simpl in Hx].
    apply existsb_exists. exists (x, c). split; [by apply list_elem_of_In, elem_of_map_to_list|].
    simpl in *. rewrite Hx, eqb_refl_s. by apply String.eqb_neq in Hn as ->.
  - destruct (rows w !! ID g) eqn:Eg; [by intros [= _ _ <-]|]. destruct (existsb _ _); [by intros [= _ _ <-]|done].
  - intros [= <-]. unfold put, rows. simpl. split; [set_solver|]. intros x Hx.
    by rewrite lookup_fmap, lookup_delete_ne.
  - intros w. case_match; [done|]. by case_match.
  - destruct (rows w !! id) as [c|] eqn:Ec; [|done]. intros [= <- <-]. unfold parentOf. by rewrite Ec.
  - intros [= <- <-]. simpl. unfold among. split.
    + intros g ((k & c) & -> & Hk%elem_of_map_to_list)%list_elem_of_fmap.
      apply map_lookup_filter_Some in Hk as [Hk _]. unfold parentOf. simpl. by rewrite Hk.
    + intros x. rewrite elem_of_map_list. split.
      * intros (g & ((k & c) & -> & Hk%elem_of_map_to_list)%list_elem_of_fmap & <-).
        apply map_lookup_filter_Some in Hk as [Hk [Hi Hst]]. split; [done|]. by exists c.
      * intros (Hx & c & Hc & Hst). exists (c <| ID := x |>). split; [|done]. apply list_elem_of_fmap. exists (x, c).
        split; [done|]. by apply elem_of_map_to_list, map_lookup_filter_Some.
  - unfold parentOf. destruct (rows w !! ID g) as [c|] eqn:Ec; intros [= <- <- <-] x; [|done].
    unfold put, rows. simpl. destruct (decide (x = ID g)) as [->|Hx];
      [by rewrite lookup_insert_eq; unfold rows in Ec; rewrite Ec|by rewrite lookup_insert_ne].
  - unfold parentOf. destruct (rows w !! ID g) as [c|] eqn:Ec; [|done]. by intros [= <- <-].
  - intros (-> & Ht & Hp)%set_parent_effect. split; [done|]. intros x. rewrite Hp. unfold parentOf.
    destruct (rows w !! x); simpl; case_bool_decide; simpl; try done.
  - destruct broken; [by intros [= <- <-]|].
    intros (-> & Ht & Hp)%set_parent_effect. split; [done|]. intros x. rewrite Hp. unfold parentOf.
    destruct (rows w !! x) as [c|]; simpl; case_bool_decide; simpl; try done;
      [by destruct (Parent c =s p)|by case_match].
  - intros (-> & Ht & Hp)%set_parent_effect. split; [done|]. intros x. rewrite Hp. unfold parentOf.
    destruct (rows w !! x) as [c|]; simpl; [by destruct (Parent c =s p)|by case_match].
Qed.

Definition svc (broken : bool) : service state :=
  {| groups.repo := repo broken; policy := spicedb.NewPolicyService memroles.client; idProvider := ret ("g2", None);
     channels := {| grpc.channels_RemoveClientConnections := fun _ => ret None;
                    grpc.channels_UnsetParentGroupFromChannels := fun _ => ret None |};
     clients := {| grpc.clients_RetrieveEntity := fun id => ret (grpc.MkEntityBasic id "d" "" EnabledStatus, None);
                   grpc.clients_AddConnections := fun _ => ret None;
                   grpc.clients_RemoveConnections := fun _ => ret None;
                   grpc.clients_RemoveChannelConnections := fun _ => ret None;
                   grpc.clients_UnsetParentGroupFromClient := fun _ => ret None |};
     sidProvider := ret ("id", None); availableActions := ["read"]; builtInRoles := [("admin", ["read"])] |}.

Lemma remove_frames b d u ids fs os :
  frames (roles.RemoveEntitiesRoles (ProvisionManageService (svc b)) d u ids fs os) snd.
Proof.
  apply frames_bind; [apply frames_ret|]. intros [[ears emrs] [?|]]; [apply frames_ret|].
  apply frames_bind; [by apply memroles.DeletePolicies_frames|]. intros [?|]; [apply frames_ret|].
  apply frames_bind; [case_match; [by apply memroles.DeletePolicies_frames|apply frames_ret]|].
  intros [?|]; [apply frames_ret|]. apply frames_bind; [|by intros [?|]]. apply for_each_frames. intros p.
  apply frames_bind; [by apply memroles.DeletePolicyFilter_frames|]. by intros [?|].
Qed.
End memgroups.

Module groups_example.
Import policies groups memgroups.
(** Group g1 has no parent; group g2 is then created under it. *)
Definition start : state :=
  (({[MkRel GroupType "g1" DomainRelation DomainType "d" ""]}, ∅), {["g1" := Group0 <| ID := "g1" |>]}).
Definition child : Group := Group0 <| Name := "floor" |> <| Parent := "g1" |>.
Definition run := CreateGroup memroles.now (svc false) roles_example.alice child start.

Lemma CreateGroup_atomic_witness :
  is_nil run.1.2 = true /\ parentOf (rows run.2) "g2" = "g1"
  /\ group_created (svc false) memroles.tuples rows roles_example.alice start run.2 run.1.1.1 run.1.2.
Proof.
  split; [vm_compute; reflexivity|split; [vm_compute; reflexivity|]].
  apply (CreateGroup_atomic memroles.now (svc false) memroles.tuples memroles.grants rows
    (RE := memroles.env _ _ _) (GL := repo_laws false) (fun _ => eq_refl) (fun _ => eq_refl) (fun _ => eq_refl)
    (fun d u ids os ms => memroles.create_frames _ _ _ d u ids os ms)
    roles_example.alice child start run.1.1.1 run.1.1.2 run.1.2 run.2).
  unfold run. by destruct (CreateGroup _ _ _ _ _) as [[[? ?] ?] ?].
Defined.

Lemma policies_rows b l : (frames (AddPolicies (policy (svc b)) l) rows /\ frames (DeletePolicies (policy (svc b)) l) rows)
  /\ forall p, frames (DeletePolicyFilter (policy (svc b)) p) rows.
Proof.
  split; [split|intros p]; [by apply memroles.AddPolicies_frames|by apply memroles.DeletePolicies_frames|
    by apply memroles.DeletePolicyFilter_frames].
Defined.

(** The child is created, taken out again and its parent deleted. *)
Definition freed := RemoveChildrenGroups (svc false) roles_example.alice "g1" ["g2"] run.2.
Definition gone := DeleteGroup (svc false) roles_example.alice "g1" freed.2.

Lemma no_repo_failure {e0 : err} : ~ repo_undo_failed e0 None.
Proof. intros (e1 & er & He). symmetry in He. by apply WrapE_not_nil in He. Qed.
Lemma no_policies_failure {a e0 : err} : ~ policies_undo_failed a e0 None.
Proof.
  intros (e1 & _ & [He|(er & He)]); symmetry in He; [by apply WrapE_not_nil in He|].
  destruct (WrapE a e1) as [x|] eqn:Ex; [|by apply WrapE_not_nil in Ex].
  destruct (Wrap_some x (WrapE e0 er)) as [y Hy]. congruence.
Qed.

Lemma enabled_g2 : all_enabled (rows run.2) ["g2"].
Proof.
  intros x ->%list_elem_of_singleton _. assert (H : Status <$> rows run.2 !! "g2" = Some EnabledStatus) by (vm_compute; reflexivity).
  unfold enabledRow. revert H. generalize (rows run.2 !! "g2"). intros o (g & -> & Hs)%fmap_Some. exists g. auto.
Qed.
Lemma group_parents_in_sync_witness :
  map fst (map_to_list (rows gone.2)) = ["g2"] /\ synced memroles.tuples rows gone.2.
Proof.
  split; [vm_compute; reflexivity|].
  eapply (group_parents_in_sync memroles.now (svc false) memroles.tuples memroles.grants rows
    (RE := memroles.env _ _ _) (GL := repo_laws false) (PL := @NewPolicyService_laws _ _ _ memroles.client_laws)
    (fun _ => eq_refl) (fun _ => eq_refl) (fun _ => eq_refl)
    (fun d u ids os ms => memroles.create_frames _ _ _ d u ids os ms)
    (fun d u ids fs os => remove_frames false d u ids fs os)
    (fun l => proj1 (proj1 (policies_rows false l))) (fun l => proj2 (proj1 (policies_rows false l)))
    (proj2 (policies_rows false [])) (fun _ => conj (fun _ => eq_refl) (fun _ => eq_refl))).
  - intros g w e w' [H|H] r _; by injection H as <- <-.
  - apply (in_sync_start _ _ _ (rows start) Parent); [done|vm_compute; reflexivity..].
  - apply (rtc_l _ _ run.2); [|apply (rtc_l _ _ freed.2); [|apply rtc_once]].
    + apply (step_CreateGroup _ _ _ roles_example.alice child start run.1.1.1 run.1.1.2 None run.2);
        [left; vm_compute; discriminate| | |].
      * exact no_repo_failure.
      * exact no_policies_failure.
      * assert (run.1.2 = None) as <- by (vm_compute; reflexivity).
        unfold run. by destruct (CreateGroup _ _ _ _ _) as [[[? ?] ?] ?].
    + apply (step_RemoveChildrenGroups _ _ _ roles_example.alice "g1" ["g2"]); [done|exact enabled_g2|].
      assert (freed.1 = None) as <- by (vm_compute; reflexivity). apply surjective_pairing.
    + apply (step_DeleteGroup _ _ _ roles_example.alice "g1"); [done|].
      assert (gone.1 = None) as <- by (vm_compute; reflexivity). apply surjective_pairing.
Defined.

(** Two groups without parents, in a repository that cannot unassign. *)
Definition roots : state :=
  (({[MkRel GroupType "g1" DomainRelation DomainType "d" ""; MkRel GroupType "g2" DomainRelation DomainType "d" ""]}, ∅),
   {["g1" := Group0 <| ID := "g1" |>; "g2" := Group0 <| ID := "g2" |>]}).
Definition g2 : Group := Group0 <| ID := "g2" |>.
Definition asked : list Policy := [parentPolicy "d" "g1" "g2"].

Lemma RemoveChildrenGroups_rollback_adds_links_witness :
  exists w', RemoveChildrenGroups (svc true) roles_example.alice "g1" ["g2"] roots
      = (WrapE svcerr.ErrUpdateEntity (Some repoerr.ErrUpdateEntity), w')
    /\ ~ synced memroles.tuples rows w'.
Proof.
  assert (Hd : (DeletePolicies (policy (svc true)) asked roots).1 = None) by (vm_compute; reflexivity).
  assert (Hu : (AddPolicies (policy (svc true)) asked (DeletePolicies (policy (svc true)) asked roots).2).1 = None)
    by (vm_compute; reflexivity).
  assert (Hr : among ["g2"] roots = [g2]) by (vm_compute; reflexivity).
  destruct (DeletePolicies (policy (svc true)) asked roots) as [ed w2] eqn:Ed. simpl in Hd. subst ed.
  change ((None, w2).2) with w2 in Hu.
  destruct (AddPolicies (policy (svc true)) asked w2) as [eu w4] eqn:Eu. simpl in Hu. subst eu.
  exists w4.
  destruct (RemoveChildrenGroups_rollback_adds_links (svc true) memroles.tuples rows
    (GL := repo_laws true) (PL := @NewPolicyService_laws _ _ _ memroles.client_laws)
    (fun l => proj1 (proj1 (policies_rows true l))) (fun l => proj2 (proj1 (policies_rows true l)))
    roles_example.alice "g1" ["g2"] roots (page [g2]) roots w2 repoerr.ErrUpdateEntity w2 w4 g2)
    as (Hrun & _ & _ & Hs).
  - discriminate.
  - apply (in_sync_start _ _ _ (rows roots) Parent); [done|vm_compute; reflexivity..].
  - unfold page. rewrite <- Hr. exact eq_refl.
  - intros c ->%list_elem_of_singleton. by left.
  - by left.
  - reflexivity.
  - exact Ed.
  - exact eq_refl.
  - exact Eu.
  - exact (conj Hrun Hs).
Defined.

(** Group g3 is disabled and asked for together with g2. *)
Definition off : state :=
  (roots.1, <["g3" := Group0 <| ID := "g3" |> <| Status := DisabledStatus |>]> roots.2).
Definition joined := AddChildrenGroups (svc false) roles_example.alice "g1" ["g2"; "g3"] off.
Lemma disabled_child_gets_no_policy_witness :
  joined.1 = None /\ parentOf (rows joined.2) "g3" = "g1" /\ ~ synced memroles.tuples rows joined.2.
Proof.
  assert (Hn : joined.1 = None) by (vm_compute; reflexivity). split; [done|].
  destruct (disabled_child_gets_no_policy (svc false) memroles.tuples rows
    (GL := repo_laws false) (PL := @NewPolicyService_laws _ _ _ memroles.client_laws)
    (fun l => proj1 (proj1 (policies_rows false l))) roles_example.alice "g1" ["g2"; "g3"] off joined.2 "g3"
    (Group0 <| ID := "g3" |> <| Status := DisabledStatus |>)) as (Hp & _ & Hs).
  - discriminate.
  - right. by left.
  - vm_compute. reflexivity.
  - discriminate.
  - discriminate.
  - apply (in_sync_start _ _ _ (rows off) Parent); [done|vm_compute; reflexivity..].
  - rewrite <- Hn. apply surjective_pairing.
  - exact (conj Hp Hs).
Defined.
End groups_example.
