(* ===== verification/Topics.v ===== *)
(** * messaging: topics, their parser and resolver

    Source: src/pkg/messaging/topics.go, health.go.  A topic is scanned by
    index, as in the source: an access out of range is a panic ([None]).  The
    cache of parsed topics (ristretto), the UUID library and the gRPC clients
    that resolve routes are parameters. *)

From S2P Require Import Prelude GoStd Errors.

Module messaging.

(** ** src/pkg/messaging/topics.go: constants *)
Definition MsgTopicPrefix : ascii := "m".
Definition ChannelTopicPrefix : ascii := "c".
Definition HealthTopicPrefix := "hc".
Definition mqWildcards := "+#".
Definition wildcards := "*>".
Definition subtopicInvalidChars := " #+".
Definition wildcardsReplacer (s : string) : string := ReplaceAll1 (ReplaceAll1 s "+" "*") "#" ">".
Definition pathReplacer (s : string) : string := ReplaceAll1 s "/" ".".

Definition ErrMalformedTopic : err := Sentinel "messaging.ErrMalformedTopic" CustomError "malformed topic".
Definition ErrMalformedSubtopic : err := Sentinel "messaging.ErrMalformedSubtopic" CustomError "malformed subtopic".
Definition ErrEmptyRouteID : err := Sentinel "messaging.ErrEmptyRouteID" CustomError "empty route or id".
Definition ErrFailedResolveDomain : err :=
  Sentinel "messaging.ErrFailedResolveDomain" CustomError "failed to resolve domain route".
Definition ErrFailedResolveChannel : err :=
  Sentinel "messaging.ErrFailedResolveChannel" CustomError "failed to resolve channel route".

(** type TopicType uint8 *)
Definition InvalidType : N := 0.
Definition MessageType : N := 1.
Definition HealthType : N := 2.

(** ** ParseTopic *)
Definition slash : ascii := "/".
Definition result : Type := (string * string * string * N) * error.
Definition failed (e : err) : result := (("", "", "", InvalidType), Some e).

(** [l[a:b]] of a slice of bytes. *)
Definition slice (l : list ascii) (a b : nat) : option (list ascii) :=
  if (a <=? b) && (b <=? length l) then Some (take (b - a) (drop a l)) else None.

(** [for i := i0; i < i0 + count; i++ { if test(i) { ...; break } }]: the
    first index that passes the test. *)
Fixpoint find_index (test : nat -> option bool) (count i : nat) : option (option nat) :=
  match count with
  | O => Some None
  | S count =>
      match test i with
      | None => None
      | Some true => Some (Some i)
      | Some false => find_index test count (S i)
      end
  end.

Section scan.
Context (l : list ascii).
(** [topic[i] == c] *)
Definition is_at (c : ascii) (i : nat) : option bool := (fun b => b =c c) <$> l !! i.
(** [a && b] of tests that may panic. *)
Definition and_then (a b : option bool) : option bool :=
  match a with Some true => b | _ => a end.
Definition channel_at (i : nat) : option bool :=
  and_then (is_at slash i) (and_then (is_at ChannelTopicPrefix (i + 1)) (is_at slash (i + 2))).
End scan.

Definition parse_health (l : list ascii) (start : nat) : option result :=
  let n := length l in
  if n =? start + 3 then Some (failed ErrMalformedTopic)
  else match slice l (start + 3) n, find_index (is_at l slash) (n - (start + 3)) (start + 3) with
       | Some domainID, Some None => Some ((str domainID, "", "", HealthType), None)
       | Some _, Some (Some _) => Some (failed ErrMalformedTopic)
       | _, _ => None
       end.

(** From the channel on: [pos] is the index after "/c/". *)
Definition parse_channel (l : list ascii) (domainID : list ascii) (pos : nat) : option result :=
  let n := length l in
  if n <=? pos then Some (failed ErrMalformedTopic)
  else
    let finish chanID subtopic :=
      if length chanID =? 0 then Some (failed ErrMalformedTopic)
      else Some ((str domainID, str chanID, str subtopic, MessageType), None) in
    match find_index (is_at l slash) (n - pos) pos with
    | None => None
    | Some None => match slice l pos n with Some chanID => finish chanID [] | None => None end
    | Some (Some i) =>
        match slice l pos i, slice l (i + 1) n with
        | Some chanID, Some subtopic => finish chanID subtopic
        | _, _ => None
        end
    end.

Definition parse_message (l : list ascii) (start : nat) : option result :=
  let n := length l in
  if n <? start + 5 then Some (failed ErrMalformedTopic)
  else match and_then (is_at l MsgTopicPrefix start) (is_at l slash (start + 1)) with
       | None => None
       | Some false => Some (failed ErrMalformedTopic)
       | Some true =>
           let pos := start + 2 in
           match find_index (channel_at l) (n - 2 - pos) pos with
           | None => None
           | Some None => Some (failed ErrMalformedTopic)
           | Some (Some i) =>
               if i =? pos then Some (failed ErrMalformedTopic)
               else match slice l pos i with
                    | Some domainID => parse_channel l domainID (i + 3)
                    | None => None
                    end
           end
       end.

(** After the optional leading '/'. *)
Definition parse_from (l : list ascii) (start : nat) : option result :=
  let n := length l in
  if n <=? start then Some (failed ErrMalformedTopic)
  else
    match (if start + 3 <? n then (fun p => bool_decide (p = chars HealthTopicPrefix)) <$> slice l start (start + 2)
           else Some false) with
    | None => None
    | Some true => parse_health l start
    | Some false => parse_message l start
    end.

(** [None] is a panic. *)
Definition ParseTopic (topic : string) : option result :=
  let l := chars topic in
  match (if 0 <? length l then is_at l slash 0 else Some false) with
  | None => None
  | Some first => parse_from l (if first then 1 else 0)
  end.

(** ** Subtopics *)

(** url.EscapeError; the offending text in its message is left out. *)
Definition EscapeError : err := Errorf "invalid URL escape".

Definition formatSubtopic (subtopic : string) : string * error :=
  match QueryUnescape subtopic with
  | None => ("", Some EscapeError)
  | Some subtopic =>
      let subtopic := TrimPrefix subtopic "/" in
      let subtopic := TrimSuffix subtopic "/" in
      let subtopic := TrimSpace subtopic in
      (pathReplacer subtopic, None)
  end.

Definition ParsePublishSubtopic (subtopic : string) : string * error :=
  if_ subtopic =s "" return_ (subtopic, None) ;;
  let (subtopic, e) := formatSubtopic subtopic in
  if_err e return_ ("", WrapE ErrMalformedSubtopic e) ;;
  if_ ContainsAny subtopic (subtopicInvalidChars +:+ wildcards) return_ ("", Some ErrMalformedSubtopic) ;;
  if_ GoStd.Contains subtopic ".." return_ ("", Some ErrMalformedSubtopic) ;;
  (subtopic, None).

Definition ParseSubscribeSubtopic (subtopic : string) : string * error :=
  if_ subtopic =s "" return_ ("", None) ;;
  let subtopic := if ContainsAny subtopic mqWildcards then wildcardsReplacer subtopic else subtopic in
  let (subtopic, e) := formatSubtopic subtopic in
  if_err e return_ ("", WrapE ErrMalformedSubtopic e) ;;
  if_ ContainsAny subtopic subtopicInvalidChars return_ ("", Some ErrMalformedSubtopic) ;;
  if_ GoStd.Contains subtopic ".." return_ ("", Some ErrMalformedSubtopic) ;;
  if_ existsb (fun elem => (1 <? String.length elem) && ContainsAny elem wildcards) (Split subtopic ".")
    return_ ("", Some ErrMalformedSubtopic) ;;
  (subtopic, None).

Definition parse_with (parseSubtopic : string -> string * error) (topic : string) : option result :=
  match ParseTopic topic with
  | None => None
  | Some (_, Some e) => Some (failed e)
  | Some ((domainID, chanID, subtopic, topicType), None) =>
      let (subtopic, e) := parseSubtopic subtopic in
      match e with
      | Some _ => Some (("", "", "", InvalidType), WrapE ErrMalformedTopic e)
      | None => Some ((domainID, chanID, subtopic, topicType), None)
      end
  end.
Definition ParsePublishTopic (topic : string) : option result := parse_with ParsePublishSubtopic topic.
Definition ParseSubscribeTopic (topic : string) : option result := parse_with ParseSubscribeSubtopic topic.

(** ** Encoding *)
Definition EncodeTopicSuffix (domainID channelID subtopic : string) : string :=
  let subject := domainID +:+ "." +:+ "c" +:+ "." +:+ channelID in
  if subtopic <>s "" then subject +:+ "." +:+ subtopic else subject.
Definition EncodeTopic (domainID channelID subtopic : string) : string :=
  "m" +:+ "." +:+ EncodeTopicSuffix domainID channelID subtopic.

(** messaging.Message; Payload is a list of bytes. *)
Record Message := MkMessage {
  Channel : string; Domain : string; Subtopic : string; Publisher : string; Protocol : string;
  Payload : list ascii; Created : Z }.
#[global] Instance Message_fields : Fields Message := fun m =>
  MkMessage (Channel m) (Domain m) (Subtopic m) (Publisher m) (Protocol m) (Payload m) (Created m).
Definition Message0 : Message := MkMessage "" "" "" "" "" [] 0.

Definition EncodeMessageTopic (m : Message) : string := EncodeTopicSuffix (Domain m) (Channel m) (Subtopic m).
Definition EncodeMessageMQTTTopic (m : Message) : string :=
  let topic := "m" +:+ "/" +:+ Domain m +:+ "/" +:+ "c" +:+ "/" +:+ Channel m in
  if Subtopic m <>s "" then topic +:+ "/" +:+ ReplaceAll1 (Subtopic m) "." "/" else topic.

Definition encodeAdapterTopic (domain channel subtopic : string) (topicType : N) : string :=
  if N.eqb topicType HealthType then HealthTopicPrefix +:+ "/" +:+ domain
  else
    let topic := "m" +:+ "/" +:+ domain +:+ "/" +:+ "c" +:+ "/" +:+ channel in
    if subtopic <>s "" then topic +:+ "/" +:+ subtopic else topic.

(** ** The resolver *)

(** The UUID library: the canonical form of the identifier that was read
    (the nil identifier where it fails), and the error. *)
Record uuidlib := { FromString : string -> string * error }.

Record resolver (W : Type) := {
  channels_RetrieveIDByRoute : string -> string -> St W (string * error);
  domains_RetrieveIDByRoute : string -> St W (string * error) }.
Arguments channels_RetrieveIDByRoute {W}. Arguments domains_RetrieveIDByRoute {W}.

Section resolve.
Context (uuid : uuidlib) {W : Type} (r : resolver W).

(** Where the text is an identifier but not in its canonical form, [err] is
    nil and nil is returned. *)
Definition validateUUID (extID : string) : error :=
  let (id, e) := FromString uuid extID in
  if_ (id <>s extID) || negb (is_nil e) return_ e ;;
  None.

Definition resolveDomain (domain : string) : St W ((string * bool) * error) :=
  if_ is_nil (validateUUID domain) return_ ret ((domain, false), None) ;;
  '(d, e) <- domains_RetrieveIDByRoute r domain ;;
  if_err e return_ ret (("", false), e) ;;
  ret ((d, true), None).

Definition resolveChannel (channel domainID : string) : St W ((string * bool) * error) :=
  if_ is_nil (validateUUID channel) return_ ret ((channel, false), None) ;;
  '(c, e) <- channels_RetrieveIDByRoute r channel domainID ;;
  if_err e return_ ret (("", false), e) ;;
  ret ((c, true), None).

Definition Resolve (domain channel : string) : St W ((string * string * bool) * error) :=
  if_ domain =s "" return_ ret (("", "", false), Some ErrEmptyRouteID) ;;
  '((domainID, isDomainRoute), e) <- resolveDomain domain ;;
  if_err e return_ ret (("", "", false), WrapE ErrFailedResolveDomain e) ;;
  if_ channel =s "" return_ ret ((domainID, "", isDomainRoute), None) ;;
  '((channelID, isChannelRoute), e) <- resolveChannel channel domainID ;;
  if_err e return_ ret (("", "", false), WrapE ErrFailedResolveChannel e) ;;
  ret ((domainID, channelID, isDomainRoute || isChannelRoute), None).

Definition ResolveTopic (topic : string) : St W (option (string * error)) :=
  match ParseTopic topic with
  | None => panic
  | Some (_, Some e) => pret ("", WrapE ErrMalformedTopic (Some e))
  | Some ((domain, channel, subtopic, topicType), None) =>
      '((domainID, channelID, _), e) <- Resolve domain channel ;;
      if_err e return_ pret ("", e) ;;
      pret (encodeAdapterTopic domainID channelID subtopic topicType, None)
  end.
End resolve.

(** ** The parser with its cache *)
Record parsedTopic := MkParsedTopic { pt_domainID : string; pt_channelID : string; pt_subtopic : string; pt_err : error }.

Record Cache (W : Type) := {
  cache_Get : string -> St W (option parsedTopic);
  cache_Set : string -> parsedTopic -> St W unit }.
Arguments cache_Get {W}. Arguments cache_Set {W}.

Record parser (W : Type) := { cache : Cache W; p_resolver : resolver W }.
Arguments cache {W}. Arguments p_resolver {W}.

Section parser.
Context (uuid : uuidlib) {W : Type} (p : parser W).

Definition saveToCache (topic domainID channelID subtopic : string) (e : error) : St W unit :=
  cache_Set (cache p) topic (MkParsedTopic domainID channelID subtopic e).

Definition resolve_topic (resolve : bool) (domainID channelID : string) : St W ((string * string * bool) * error) :=
  if resolve then Resolve uuid (p_resolver p) domainID channelID else ret ((domainID, channelID, false), None).

Definition parser_ParsePublishTopic (topic : string) (resolve : bool) : St W (option result) :=
  hit <- cache_Get (cache p) topic ;;
  match hit with
  | Some val => pret ((pt_domainID val, pt_channelID val, pt_subtopic val, MessageType), pt_err val)
  | None =>
      match ParsePublishTopic topic with
      | None => panic
      | Some (_, Some e) => saveToCache topic "" "" "" (Some e) ;;; pret (failed e)
      | Some ((domainID, channelID, subtopic, topicType), None) =>
          '((domainID, channelID, isRoute), e) <- resolve_topic resolve domainID channelID ;;
          if_err e return_ pret (("", "", "", InvalidType), e) ;;
          (if negb isRoute && N.eqb topicType MessageType
           then saveToCache topic domainID channelID subtopic None else ret tt) ;;;
          pret ((domainID, channelID, subtopic, topicType), None)
      end
  end.

Definition parser_ParseSubscribeTopic (topic : string) (resolve : bool) : St W (option result) :=
  match ParseSubscribeTopic topic with
  | None => panic
  | Some (_, Some e) => pret (failed e)
  | Some ((domainID, channelID, subtopic, topicType), None) =>
      '((domainID, channelID, _), e) <- resolve_topic resolve domainID channelID ;;
      if_err e return_ pret (("", "", "", InvalidType), e) ;;
      pret ((domainID, channelID, subtopic, topicType), None)
  end.
End parser.

(** len of the strings of an entry *)
Definition costFunc (val : parsedTopic) : Z :=
  let errLen := match pt_err val with Some e => String.length (Error e) | None => 0%nat end in
  Z.of_nat (String.length (pt_domainID val) + String.length (pt_channelID val) + String.length (pt_subtopic val) + errLen).
End messaging.

(** ** A reference definition of ParseTopic by pattern matching *)
Module reference.
Import messaging.

(** What precedes and what follows the first "/c/". *)
Fixpoint cut_channel (l : list ascii) : option (list ascii * list ascii) :=
  if is_prefix (chars "/c/") l then Some ([], drop 3 l)
  else match l with
       | [] => None
       | x :: l' => match cut_channel l' with Some (d, r) => Some (x :: d, r) | None => None end
       end.

Definition health (d : list ascii) : result :=
  if mem slash d then failed ErrMalformedTopic else ((str d, "", "", HealthType), None).

Definition message (rest : list ascii) : result :=
  match cut_channel rest with
  | None => failed ErrMalformedTopic
  | Some (d, r) =>
      let '(chanID, subtopic, _) := cut_bytes slash r in
      match d, chanID with
      | _ :: _, _ :: _ => ((str d, str chanID, str subtopic, MessageType), None)
      | _, _ => failed ErrMalformedTopic
      end
  end.

(** "hc", any byte and a domain, or "m/", a domain, "/c/", a channel and
    optionally "/" and a subtopic. *)
Definition body (l : list ascii) : result :=
  match l with
  | a :: b :: rest =>
      if bool_decide ([a; b] = chars HealthTopicPrefix /\ 1 < length rest) then health (drop 1 rest)
      else if (a =c MsgTopicPrefix) && (b =c slash) then message rest
      else failed ErrMalformedTopic
  | _ => failed ErrMalformedTopic
  end.

Definition parse (topic : string) : result :=
  match chars topic with
  | x :: l => if x =c slash then body l else body (x :: l)
  | [] => failed ErrMalformedTopic
  end.
End reference.

#[local] Arguments Ascii.eqb : simpl never.

Section parse_theory.
Import messaging reference.

Lemma lookup_at (pre l : list ascii) x k : l !! k = Some x -> (pre ++ l) !! (length pre + k) = Some x.
Proof. intros H. by rewrite lookup_app_r, Nat.add_comm, Nat.add_sub by lia. Qed.

Lemma slice_app (a b c : list ascii) : slice (a ++ b ++ c) (length a) (length a + length b) = Some b.
Proof.
  unfold slice. replace (length a <=? length a + length b) with true by (symmetry; apply Nat.leb_le; lia).
  rewrite !length_app. replace (_ <=? _) with true by (symmetry; apply Nat.leb_le; lia). simpl.
  by rewrite drop_app_length, Nat.add_comm, Nat.add_sub, take_app_length.
Qed.

Lemma slice_end (a b : list ascii) : slice (a ++ b) (length a) (length (a ++ b)) = Some b.
Proof. rewrite length_app. pose proof (slice_app a b []) as H. by rewrite app_nil_r in H. Qed.

Lemma find_slash pre s :
  find_index (is_at (pre ++ s) slash) (length s) (length pre) =
    Some (let '(a, _, found) := cut_bytes slash s in if found then Some (length pre + length a) else None).
Proof.
  revert pre. induction s as [|x s IH]; intros pre; [done|]. simpl.
  unfold is_at at 1. rewrite list_lookup_middle by done. simpl. destruct (x =c slash) eqn:E; [by rewrite Nat.add_0_r|].
  specialize (IH (pre ++ [x])). rewrite length_app in IH. simpl in IH. rewrite Nat.add_1_r, <- app_assoc in IH.
  simpl in IH. rewrite IH. destruct (cut_bytes slash s) as [[a b] []]; simpl; [|done]. do 2 f_equal. lia.
Qed.

Lemma channel_at_prefix pre s : 3 <= length s ->
  channel_at (pre ++ s) (length pre) = Some (is_prefix (chars "/c/") s).
Proof.
  destruct s as [|x [|y [|z s]]]; simpl; try lia. intros _. unfold channel_at, is_at.
  rewrite list_lookup_middle by done. rewrite (lookup_at pre (x :: y :: z :: s) y 1 eq_refl).
  rewrite (lookup_at pre (x :: y :: z :: s) z 2 eq_refl). simpl.
  unfold slash, ChannelTopicPrefix.
  rewrite (Ascii.eqb_sym "/" x), (Ascii.eqb_sym "c" y), (Ascii.eqb_sym "/" z), andb_true_r.
  by destruct (x =c "/"), (y =c "c").
Qed.

Lemma cut_channel_short s : length s < 3 -> cut_channel s = None.
Proof. destruct s as [|x [|y [|z s]]]; simpl; try lia; rewrite ?andb_false_r; done. Qed.

Lemma find_channel pre s :
  find_index (channel_at (pre ++ s)) (length s - 2) (length pre) =
    Some (match cut_channel s with Some (d, _) => Some (length pre + length d) | None => None end).
Proof.
  revert pre. induction s as [|x s IH]; intros pre; [done|].
  destruct (decide (length (x :: s) < 3)) as [Hs|Hs].
  { rewrite cut_channel_short by done. simpl in *. by replace (length s - 1) with 0 by lia. }
  simpl in Hs. replace (length (x :: s) - 2) with (S (length s - 2)) by (simpl; lia).
  simpl find_index. rewrite channel_at_prefix by (simpl; lia). cbn [cut_channel].
  destruct (is_prefix (chars "/c/") (x :: s)); [by rewrite Nat.add_0_r|].
  specialize (IH (pre ++ [x])). rewrite length_app in IH. simpl in IH. rewrite Nat.add_1_r, <- app_assoc in IH.
  simpl in IH. rewrite IH. destruct (cut_channel s) as [[d r]|]; simpl; [|done]. do 2 f_equal. lia.
Qed.

Lemma cut_channel_Some s d r : cut_channel s = Some (d, r) -> s = d ++ chars "/c/" ++ r.
Proof.
  revert d. induction s as [|x s IH]; intros d; [done|]. cbn [cut_channel].
  destruct (is_prefix (chars "/c/") (x :: s)) eqn:E.
  - apply is_prefix_spec in E as [q E]. rewrite E. by intros [= <- <-].
  - destruct (cut_channel s) as [[d' r']|]; [|done]. intros [= <- <-]. simpl. f_equal. by apply IH.
Qed.

Lemma cut_bytes_Some l a b : cut_bytes slash l = (a, b, true) -> l = a ++ slash :: b.
Proof.
  revert a. induction l as [|x l IH]; intros a; simpl; [done|].
  destruct (x =c slash) eqn:E; [intros [= <- <-]; by apply Ascii.eqb_eq in E as ->|].
  destruct (cut_bytes slash l) as [[a' b'] f]. intros [= <- <- ->]. simpl. f_equal. by apply IH.
Qed.

Lemma cut_bytes_None l a b : cut_bytes slash l = (a, b, false) -> a = l /\ b = [].
Proof.
  revert a. induction l as [|x l IH]; intros a; simpl; [by intros [= <- <-]|].
  destruct (x =c slash); [done|]. destruct (cut_bytes slash l) as [[a' b'] f].
  intros [= <- <- ->]. destruct (IH a') as [-> ->]; done.
Qed.

Lemma mem_cut l : mem slash l = snd (cut_bytes slash l).
Proof.
  induction l as [|x l IH]; [done|]. cbn [mem existsb cut_bytes]. rewrite Ascii.eqb_sym.
  destruct (x =c slash); [done|]. simpl. fold (mem slash l). rewrite IH. by destruct (cut_bytes slash l) as [[? ?] ?].
Qed.

Lemma parse_channel_spec pre r d : parse_channel (pre ++ r) d (length pre) =
  Some (let '(chanID, subtopic, _) := cut_bytes slash r in
        match chanID with [] => failed ErrMalformedTopic
        | _ => ((str d, str chanID, str subtopic, MessageType), None) end).
Proof.
  unfold parse_channel. destruct r as [|x r]; [by rewrite app_nil_r, Nat.leb_refl|].
  rewrite length_app. replace (_ <=? _) with false by (symmetry; apply Nat.leb_gt; simpl; lia).
  rewrite Nat.add_comm, Nat.add_sub, find_slash.
  destruct (cut_bytes slash (x :: r)) as [[a b] []] eqn:E.
  - apply cut_bytes_Some in E as ->. rewrite slice_app.
    replace (length pre + length a + 1) with (length (pre ++ a ++ [slash])) by (rewrite !length_app; simpl; lia).
    replace (length (a ++ slash :: b) + length pre) with (length ((pre ++ a ++ [slash]) ++ b))
      by (rewrite !length_app; simpl; lia).
    replace (pre ++ a ++ slash :: b) with ((pre ++ a ++ [slash]) ++ b) by (by rewrite <- !app_assoc).
    rewrite slice_end. by destruct a.
  - apply cut_bytes_None in E as [-> ->]. rewrite (Nat.add_comm _ (length pre)), <- length_app, slice_end. done.
Qed.

Lemma parse_message_spec pre t : parse_message (pre ++ t) (length pre) =
  Some (match t with
        | a :: b :: rest => if (a =c MsgTopicPrefix) && (b =c slash) then message rest else failed ErrMalformedTopic
        | _ => failed ErrMalformedTopic
        end).
Proof.
  unfold parse_message. rewrite length_app.
  destruct (length pre + length t <? length pre + 5) eqn:El.
  - apply Nat.ltb_lt in El. destruct t as [|a [|b rest]]; try done. destruct (_ && _); [|done].
    unfold message. destruct (cut_channel rest) as [[d r]|] eqn:Ec; [|done].
    apply cut_channel_Some in Ec as ->. simpl in El. rewrite length_app in El. simpl in El.
    destruct d; [by destruct (cut_bytes slash r) as [[? ?] ?]|]. simpl in El. lia.
  - apply Nat.ltb_ge in El. destruct t as [|a [|b rest]]; simpl in El; try lia.
    unfold is_at at 1 2. rewrite list_lookup_middle by done. rewrite (lookup_at pre (a :: b :: rest) b 1 eq_refl).
    simpl. destruct (a =c MsgTopicPrefix); [|done]. simpl. destruct (b =c slash); [|done].
    replace (pre ++ a :: b :: rest) with ((pre ++ [a; b]) ++ rest) by (by rewrite <- app_assoc).
    replace (length pre + 2) with (length (pre ++ [a; b])) by (by rewrite length_app).
    replace (length pre + S (S (length rest)) - 2 - length (pre ++ [a; b])) with (length rest - 2)
      by (rewrite length_app; simpl; lia).
    rewrite find_channel. unfold message. destruct (cut_channel rest) as [[d r]|] eqn:Ec; [|done].
    apply cut_channel_Some in Ec as ->. destruct d as [|x d].
    { rewrite Nat.add_0_r, Nat.eqb_refl. by destruct (cut_bytes slash r) as [[? ?] ?]. }
    replace (_ =? _) with false by (symmetry; apply Nat.eqb_neq; simpl; lia).
    rewrite slice_app.
    replace (length (pre ++ [a; b]) + length (x :: d) + 3) with (length ((pre ++ [a; b]) ++ (x :: d) ++ chars "/c/"))
      by (rewrite !length_app; simpl; lia).
    replace ((pre ++ [a; b]) ++ (x :: d) ++ chars "/c/" ++ r) with (((pre ++ [a; b]) ++ (x :: d) ++ chars "/c/") ++ r)
      by (by rewrite <- !app_assoc).
    rewrite parse_channel_spec. by destruct (cut_bytes slash r) as [[[|? ?] ?] ?].
Qed.

Lemma parse_health_spec pre a b c d : d <> [] -> parse_health (pre ++ a :: b :: c :: d) (length pre) = Some (health d).
Proof.
  intros Hd. unfold parse_health, health.
  replace (pre ++ a :: b :: c :: d) with ((pre ++ [a; b; c]) ++ d) by (by rewrite <- app_assoc).
  replace (length pre + 3) with (length (pre ++ [a; b; c])) by (by rewrite length_app).
  rewrite slice_end, (length_app _ d).
  replace (_ =? _) with false by (symmetry; apply Nat.eqb_neq; destruct d; simpl; [done|lia]).
  rewrite Nat.add_comm, Nat.add_sub, find_slash, mem_cut. by destruct (cut_bytes slash d) as [[? ?] []].
Qed.

Lemma parse_from_spec pre t : parse_from (pre ++ t) (length pre) = Some (body t).
Proof.
  unfold parse_from. rewrite length_app.
  destruct t as [|a t]; [by rewrite Nat.add_0_r, Nat.leb_refl|].
  replace (_ <=? _) with false by (symmetry; apply Nat.leb_gt; simpl; lia).
  destruct t as [|b t].
  { replace (_ <? _) with false by (symmetry; apply Nat.ltb_ge; simpl; lia). rewrite parse_message_spec. done. }
  destruct (length pre + 3 <? length pre + length (a :: b :: t)) eqn:El.
  - apply Nat.ltb_lt in El. pose proof (slice_app pre [a; b] t) as Hs. simpl in Hs. rewrite Hs. simpl in El |- *.
    destruct (decide ([a; b] = chars HealthTopicPrefix)) as [Hh|Hh].
    + rewrite bool_decide_true by done. rewrite bool_decide_true by (split; [done|lia]). destruct t as [|c d]; simpl in El; [lia|].
      apply (parse_health_spec pre a b c d). intros ->. simpl in El. lia.
    + rewrite bool_decide_false by done. rewrite bool_decide_false by naive_solver. by rewrite parse_message_spec.
  - apply Nat.ltb_ge in El. simpl in El |- *. rewrite bool_decide_false by (intros [_ ?]; lia).
    by rewrite parse_message_spec.
Qed.

Lemma ParseTopic_parse topic : ParseTopic topic = Some (parse topic).
Proof.
  unfold ParseTopic, parse. destruct (chars topic) as [|x l]; [done|]. simpl.
  destruct (x =c slash); [exact (parse_from_spec [x] l)|exact (parse_from_spec [] (x :: l))].
Qed.
End parse_theory.

(** ** Subtopics *)
Section subtopic_theory.
Import messaging.

Lemma unescape_plain l : "%"%char ∉ l -> "+"%char ∉ l -> unescape l = Some l.
Proof.
  induction l as [|x l IH]; [done|]. intros [Hx Hl]%not_elem_of_cons [Hy Hm]%not_elem_of_cons. cbn [unescape].
  destruct (Ascii.eqb_spec x "%"); [congruence|]. rewrite IH by done.
  destruct (Ascii.eqb_spec x "+"); [congruence|done].
Qed.

(** An empty level between two others is "..". *)
Lemma split_inner c l i : split_bytes c l !! S i = Some [] -> S (S i) < length (split_bytes c l) ->
  has_sub [c; c] l = true.
Proof.
  revert i. induction l as [|x l IH]; intros i; [done|]. cbn [split_bytes has_sub].
  destruct (x =c c) eqn:E.
  - apply Ascii.eqb_eq in E as ->. simpl. destruct i as [|i].
    + destruct l as [|y l]; simpl; [intros _ ?; lia|]. destruct (y =c c) eqn:E.
      * intros _ _. rewrite Ascii.eqb_refl, Ascii.eqb_sym, E. done.
      * destruct (split_bytes c l); simpl; [by intros [=]|by intros [=]].
    + intros Hi Hlen. apply orb_true_iff. right. apply (IH i); [done|lia].
  - pose proof (IH i) as IH'. destruct (split_bytes c l) as [|p ps]; simpl; [done|].
    intros Hi Hlen. apply orb_true_iff. right. apply IH'; done.
Qed.

Lemma inner_level_nonempty t i lvl : GoStd.Contains t ".." = false ->
  Split t "." !! i = Some lvl -> 0 < i -> S i < length (Split t ".") -> lvl <> "".
Proof.
  intros Hc Hi Hpos Hlen ->. destruct i as [|i]; [lia|]. unfold Split in *. rewrite length_fmap in Hlen.
  rewrite list_lookup_fmap in Hi. destruct (split_bytes "." (chars t) !! S i) as [p|] eqn:Ep; [|done].
  injection Hi as Hp. apply str_nil in Hp as ->. unfold GoStd.Contains in Hc.
  change (chars "..") with ["."%char; "."%char] in Hc. rewrite (split_inner _ _ i) in Hc; done.
Qed.

Lemma not_in_replaced s a b : a <> b -> a ∉ chars (ReplaceAll1 s a b).
Proof.
  intros Hab. unfold ReplaceAll1. rewrite chars_str, list_elem_of_fmap. intros (x & Hx & _).
  unfold replace1 in Hx. destruct (Ascii.eqb_spec x a); congruence.
Qed.

Lemma formatSubtopic_no_slash s t : formatSubtopic s = (t, None) -> "/"%char ∉ chars t.
Proof.
  unfold formatSubtopic. destruct (QueryUnescape s); [|done]. intros [= <-]. by apply not_in_replaced.
Qed.

Lemma not_in_cs c (cs l : list ascii) : forallb (fun x => negb (mem x cs)) l = true -> c ∈ l -> c ∉ cs.
Proof.
  rewrite forallb_forall. intros H Hc%list_elem_of_In%H Hin. apply mem_spec in Hin. by rewrite Hin in Hc.
Qed.

Lemma publish_inv s t : ParsePublishSubtopic s = (t, None) ->
  (s = "" /\ t = "")
  \/ (s <> "" /\ formatSubtopic s = (t, None) /\ ContainsAny t (subtopicInvalidChars +:+ wildcards) = false
      /\ GoStd.Contains t ".." = false).
Proof.
  unfold ParsePublishSubtopic. destruct (String.eqb_spec s ""); [intros [= <-]; by left|].
  destruct (formatSubtopic s) as [x [e|]]; [by intros [= _ ?%WrapE_inv]|].
  destruct (ContainsAny x _) eqn:E1; [done|]. destruct (GoStd.Contains x _) eqn:E2; [done|].
  intros [= <-]. by right.
Qed.

Lemma subscribe_inv s t : ParseSubscribeSubtopic s = (t, None) ->
  (s = "" /\ t = "")
  \/ (formatSubtopic (if ContainsAny s mqWildcards then wildcardsReplacer s else s) = (t, None)
      /\ ContainsAny t subtopicInvalidChars = false /\ GoStd.Contains t ".." = false
      /\ forall elem, elem ∈ Split t "." -> String.length elem <= 1 \/ ContainsAny elem wildcards = false).
Proof.
  unfold ParseSubscribeSubtopic. destruct (String.eqb_spec s ""); [intros [= <-]; by left|]. cbv zeta.
  destruct (formatSubtopic _) as [x [e|]]; [by intros [= _ ?%WrapE_inv]|].
  destruct (ContainsAny x _) eqn:E1; [done|]. destruct (GoStd.Contains x _) eqn:E2; [done|].
  destruct (existsb _ _) eqn:E3; [done|]. intros [= <-]. right. split_and!; try done.
  intros elem He. destruct (Nat.leb_spec (String.length elem) 1) as [|Hl]; [by left|]. right.
  destruct (ContainsAny elem wildcards) eqn:E4; [|done]. rewrite <- E3. symmetry. apply existsb_exists.
  exists elem. rewrite list_elem_of_In in He. rewrite E4. split; [done|]. by apply Nat.ltb_lt in Hl as ->.
Qed.

(** C27: a subtopic accepted for publishing has no space, no slash and no
    wildcard of MQTT or of the broker, and no empty level between two levels
    (the first and the last may be empty: [//a] is [.a]); where it was written
    without + and #, it is accepted for subscribing as well, and read the
    same. *)
Theorem publish_subtopic_sound s t (Hs : ParsePublishSubtopic s = (t, None)) :
  (forall c, c ∈ chars t -> c ∉ chars " #+*>/")
  /\ (forall i lvl, Split t "." !! i = Some lvl -> 0 < i -> S i < length (Split t ".") -> lvl <> "")
  /\ (ContainsAny s mqWildcards = false -> ParseSubscribeSubtopic s = (t, None)).
Proof.
  apply publish_inv in Hs as [[-> ->]|(Hne & Hf & Ha & Hd)].
  { split_and!; [by intros c ?%elem_of_nil| |done]. intros [|[|i]] lvl; simpl; [lia|done|done]. }
  assert (Hc : forall c, c ∈ chars t -> c ∉ chars " #+*>/").
  { intros c Hc Hin. apply ContainsAny_false with (c := c) in Ha; [|done]. apply formatSubtopic_no_slash in Hf.
    change (chars " #+*>/") with (chars (subtopicInvalidChars +:+ wildcards) ++ [slash]) in Hin.
    apply elem_of_app in Hin as [?| ->%list_elem_of_singleton]; done. }
  split_and!; [done|by intros; eapply inner_level_nonempty|]. intros Hm.
  unfold ParseSubscribeSubtopic. apply String.eqb_neq in Hne as ->. rewrite Hm. cbv zeta. rewrite Hf.
  rewrite Hd. destruct (ContainsAny t subtopicInvalidChars) eqn:E1.
  { apply existsb_exists in E1 as (c & Hc1%list_elem_of_In & Hc2). apply mem_spec in Hc2. destruct (Hc c Hc1).
    revert Hc2. change (chars subtopicInvalidChars) with [" "%char; "#"%char; "+"%char].
    change (chars " #+*>/") with ([" "%char; "#"%char; "+"%char] ++ chars "*>/"). set_solver. }
  destruct (existsb _ _) eqn:E2; [|done]. exfalso.
  apply existsb_exists in E2 as (elem & He%list_elem_of_In & Hb). apply andb_true_iff in Hb as [_ Hb].
  apply existsb_exists in Hb as (c & Hc1%list_elem_of_In & Hc2). apply mem_spec in Hc2.
  assert (Hct : c ∈ chars t).
  { unfold Split in He. apply list_elem_of_fmap in He as (p & -> & Hp). rewrite chars_str in Hc1.
    by eapply split_bytes_incl. }
  destruct (Hc c Hct). change (chars " #+*>/") with (chars " #+" ++ chars wildcards ++ [slash]).
  rewrite !elem_of_app. auto.
Qed.
End subtopic_theory.

(** *** Trimming *)
Section trim_theory.
#[local] Notation "'stripped' runes l" := (List.find (fun r => is_prefix r l) runes = None)
  (at level 10, runes at level 9, l at level 9).

Lemma trim_runes_fix n runes l : stripped runes l -> trim_runes n runes l = l.
Proof. destruct n; [done|]. simpl. by intros ->. Qed.

Lemma trim_runes_stripped n runes l : Forall (fun r => r <> []) runes -> length l <= n ->
  stripped runes (trim_runes n runes l).
Proof.
  intros Hr. assert (Hnil : stripped runes ([] : list ascii)).
  { induction Hr as [|r runes Hr _ IH]; simpl; [done|]. by destruct r; [|exact IH]. }
  revert l. induction n as [|n IH]; intros l Hl; [by destruct l; [|simpl in Hl; lia]|].
  cbn [trim_runes]. destruct (List.find (fun r => is_prefix r l) runes) as [r|] eqn:Ef; [|exact Ef]. apply IH. rewrite length_drop.
  apply find_some in Ef as [Hin%list_elem_of_In _]. rewrite Forall_forall in Hr. specialize (Hr r Hin).
  destruct r; [done|]. simpl. lia.
Qed.

Lemma trim_runes_suffix n runes l : exists p, l = p ++ trim_runes n runes l.
Proof.
  revert l. induction n as [|n IH]; intros l; [by exists []|]. simpl.
  destruct (List.find _ runes) as [r|]; [|by exists []]. destruct (IH (drop (length r) l)) as [p Hp].
  exists (take (length r) l ++ p). rewrite <- app_assoc, <- Hp. by rewrite take_drop.
Qed.

Lemma find_prefix_mono runes (a b : list ascii) : stripped runes (a ++ b) -> stripped runes a.
Proof.
  intros H. destruct (List.find (fun r => is_prefix r a) runes) as [r|] eqn:E; [|done]. exfalso.
  apply find_some in E as [Hin Hr]. apply is_prefix_spec in Hr as [x ->].
  eapply find_none in H; [|exact Hin]. simpl in H. apply not_true_iff_false in H. apply H.
  apply is_prefix_spec. exists (x ++ b). by rewrite app_assoc.
Qed.

(** Replacing a byte that no rune has. *)
Lemma is_prefix_replace a b r l : a ∉ r -> b ∉ r -> is_prefix r (replace1 a b <$> l) = is_prefix r l.
Proof.
  revert l. induction r as [|x r IH]; intros [|y l]; try done. intros Ha Hb. simpl.
  apply not_elem_of_cons in Ha as [Ha Ha']. apply not_elem_of_cons in Hb as [Hb Hb']. rewrite IH by done. f_equal.
  unfold replace1. destruct (Ascii.eqb_spec y a) as [->|]; [|done].
  destruct (Ascii.eqb_spec x b), (Ascii.eqb_spec x a); congruence.
Qed.

Lemma stripped_replace a b runes l : Forall (fun r => (a ∉ r) /\ (b ∉ r)) runes ->
  stripped runes l -> stripped runes (replace1 a b <$> l).
Proof.
  intros H. induction H as [|r runes [Ha Hb] _ IH]; simpl; [done|]. rewrite is_prefix_replace by done.
  destruct (is_prefix r l); [done|exact IH].
Qed.

(** [TrimSpace] leaves a string alone exactly if it begins and ends with no
    white space. *)
Definition trimmed (l : list ascii) : Prop := stripped spaces l /\ stripped ((fun r => rev r) <$> spaces) (rev l).

Lemma TrimSpace_fix l : trimmed l -> TrimSpace (str l) = str l.
Proof.
  intros [H1 H2]. unfold TrimSpace. rewrite chars_str. cbv zeta.
  by rewrite (trim_runes_fix _ spaces l H1), (trim_runes_fix _ _ (rev l) H2), rev_involutive.
Qed.

Lemma TrimSpace_trimmed s : trimmed (chars (TrimSpace s)).
Proof.
  unfold TrimSpace. rewrite chars_str. cbv zeta.
  pose proof (trim_runes_stripped (length (chars s)) spaces (chars s)) as H1.
  set (u := trim_runes (length (chars s)) spaces (chars s)) in *.
  pose proof (trim_runes_stripped (length u) ((fun r => rev r) <$> spaces) (rev u)) as H2.
  destruct (trim_runes_suffix (length u) ((fun r => rev r) <$> spaces) (rev u)) as [p Hp].
  set (v := trim_runes (length u) _ (rev u)) in *. split.
  - apply (find_prefix_mono _ _ (rev p)). rewrite <- rev_app_distr, <- Hp, rev_involutive.
    apply H1; [|done]. repeat constructor; discriminate.
  - rewrite rev_involutive. apply H2; [|by rewrite length_rev]. repeat constructor; discriminate.
Qed.

Lemma trimmed_replace a b l : Forall (fun r => (a ∉ r) /\ (b ∉ r)) spaces -> trimmed l -> trimmed (replace1 a b <$> l).
Proof.
  intros Hs [H1 H2]. split; [by apply stripped_replace|].
  change (replace1 a b <$> l) with (map (replace1 a b) l). rewrite <- map_rev. apply stripped_replace; [|done].
  apply Forall_fmap. eapply Forall_impl; [exact Hs|]. intros r [Ha Hb]. simpl.
  by rewrite !list_elem_of_In, <- !in_rev, <- !list_elem_of_In.
Qed.

Lemma spaces_no_dot_slash : Forall (fun r => ("."%char ∉ r) /\ ("/"%char ∉ r)) spaces.
Proof. repeat (constructor; [split; rewrite <- mem_false; reflexivity|]). constructor. Qed.
End trim_theory.

(** *** Properties of the parsers *)
Section parsers.
Import messaging.

(** A subtopic accepted for subscribing is a sequence of levels of which
    each is one wildcard of the broker or has no wildcard, no space and no
    slash, and no level between two levels is empty. *)
Theorem subscribe_subtopic_sound s t (Hs : ParseSubscribeSubtopic s = (t, None)) i lvl
    (Hi : Split t "." !! i = Some lvl) :
  (lvl = "*" \/ lvl = ">" \/ forall c, c ∈ chars lvl -> c ∉ chars " #+*>/.")
  /\ (0 < i -> S i < length (Split t ".") -> lvl <> "").
Proof.
  apply subscribe_inv in Hs as [[-> ->]|(Hf & Ha & Hd & Hl)].
  { destruct i as [|i]; [|done]. injection Hi as <-. split; [|lia]. do 2 right. intros c Hc. by apply elem_of_nil in Hc. }
  split; [|intros; by eapply inner_level_nonempty].
  assert (Hin : lvl ∈ Split t ".") by (by eapply list_elem_of_lookup_2).
  assert (Hplain : forall c, c ∈ chars lvl -> c ∉ chars " #+" ++ [slash; "."%char]).
  { unfold Split in Hin. apply list_elem_of_fmap in Hin as (p & -> & Hp). intros c Hc. rewrite chars_str in Hc.
    assert (Hct : c ∈ chars t) by (by eapply split_bytes_incl). rewrite elem_of_app. intros [Hb|Hb].
    - by apply ContainsAny_false with (c := c) in Ha.
    - apply elem_of_cons in Hb as [-> | ->%list_elem_of_singleton]; [by apply formatSubtopic_no_slash in Hf|].
      pose proof (split_bytes_pieces "." (chars t)) as Hall. rewrite Forall_forall in Hall. by apply (Hall p). }
  destruct (Hl lvl Hin) as [Hlen|Hw].
  - destruct lvl as [|c [|c' lvl]]; simpl in Hlen; [|destruct (decide (c ∈ chars wildcards)) as [Hc|Hc]|lia].
    + do 2 right. intros c Hc. by apply elem_of_nil in Hc.
    + change (chars wildcards) with ["*"%char; ">"%char] in Hc.
      apply elem_of_cons in Hc as [-> | ->%list_elem_of_singleton]; auto.
    + do 2 right. intros x Hx. specialize (Hplain x Hx). simpl in Hx. apply list_elem_of_singleton in Hx as ->.
      change (chars " #+*>/.") with (chars " #+" ++ chars wildcards ++ [slash; "."%char]).
      rewrite !elem_of_app in *. tauto.
  - do 2 right. intros x Hx. specialize (Hplain x Hx). apply ContainsAny_false with (c := x) in Hw; [|done].
    change (chars " #+*>/.") with (chars " #+" ++ chars wildcards ++ [slash; "."%char]).
    rewrite !elem_of_app in *. tauto.
Qed.

(** C17: ParseTopic, which scans the topic by index, never goes out of range
    and returns what the grammar "hc", one byte, a domain, or
    "m/domain/c/channel[/subtopic]", with an optional leading slash, says. *)
Theorem ParseTopic_reference topic : ParseTopic topic = Some (reference.parse topic).
Proof. apply ParseTopic_parse. Qed.

Lemma cut_channel_same d r r' : reference.cut_channel (d ++ chars "/c/" ++ r) = Some (d, r) ->
  reference.cut_channel (d ++ chars "/c/" ++ r') = Some (d, r').
Proof.
  induction d as [|x d IH]; [done|]. change ((x :: d) ++ ?k) with (x :: (d ++ k)). cbn [reference.cut_channel].
  assert (Hp : is_prefix (chars "/c/") (x :: d ++ chars "/c/" ++ r) = is_prefix (chars "/c/") (x :: d ++ chars "/c/" ++ r')).
  { by destruct d as [|y [|z d]]. }
  rewrite Hp. clear Hp. destruct (is_prefix _ _); [by intros [=]|].
  destruct (reference.cut_channel (d ++ chars "/c/" ++ r)) as [[d0 r0]|]; [|done].
  intros [= -> ->]. by rewrite IH.
Qed.

Lemma cut_bytes_fst l a b f : cut_bytes slash l = (a, b, f) -> slash ∉ a.
Proof.
  revert a. induction l as [|x l IH]; intros a; simpl; [intros [= <- _ _]; apply not_elem_of_nil|].
  destruct (x =c slash) eqn:E; [intros [= <- _ _]; apply not_elem_of_nil|].
  destruct (cut_bytes slash l) as [[a' b'] f']. intros [= <- <- <-].
  apply not_elem_of_cons. split; [|by apply IH]. apply Ascii.eqb_neq in E. congruence.
Qed.

(** The parts of a message topic. *)
Definition message_parts (d c : string) : Prop :=
  d <> "" /\ c <> "" /\ (slash ∉ chars c)
  /\ forall r, reference.cut_channel (chars d ++ chars "/c/" ++ r) = Some (chars d, r).

Lemma parse_inv topic d c s ty : reference.parse topic = ((d, c, s, ty), None) ->
  (ty = MessageType /\ message_parts d c)
  \/ (ty = HealthType /\ c = "" /\ s = "" /\ d <> "" /\ slash ∉ chars d).
Proof.
  assert (Hb : forall l, reference.body l = ((d, c, s, ty), None) ->
    (ty = MessageType /\ message_parts d c) \/ (ty = HealthType /\ c = "" /\ s = "" /\ d <> "" /\ slash ∉ chars d)).
  { intros [|a [|b rest]]; try done. simpl. case_bool_decide as Hh.
    - unfold reference.health. destruct (mem slash _) eqn:Em; [done|]. intros [= <- <- <- <-]. right.
      rewrite chars_str. split_and!; try done; [|by apply mem_false].
      intros Hn%str_nil. destruct Hh as [_ Hh]. destruct rest as [|x [|y rest]]; simpl in *; [lia|lia|done].
    - destruct (_ && _); [|done]. unfold reference.message.
      destruct (reference.cut_channel rest) as [[d0 r]|] eqn:Ec; [|done].
      destruct (cut_bytes slash r) as [[c0 s0] f] eqn:Er. destruct d0 as [|x d0]; [done|].
      destruct c0 as [|y c0]; [done|]. intros [= <- <- <- <-]. left. split; [done|].
      apply cut_bytes_fst in Er. pose proof (cut_channel_Some _ _ _ Ec) as ->. unfold message_parts.
      rewrite !chars_cons, !chars_str. split_and!; try done. intros r'. by eapply cut_channel_same. }
  unfold reference.parse. destruct (chars topic) as [|x l]; [done|]. destruct (x =c slash); apply Hb.
Qed.

Lemma parse_message_text d c s : message_parts d c ->
  reference.parse ("m/" +:+ d +:+ "/c/" +:+ c +:+ (if s <>s "" then "/" +:+ s else "")) = ((d, c, s, MessageType), None).
Proof.
  intros (Hd & Hc & Hsl & Hcut). unfold reference.parse. rewrite !chars_app. cbn [chars String.list_ascii_of_string app].
  change ("m"%char =c slash) with false. cbn [reference.body]. rewrite bool_decide_false by (by intros [? _]).
  change (("m"%char =c MsgTopicPrefix) && ("/"%char =c slash)) with true. cbn [app]. cbv iota.
  unfold reference.message. pose proof (Hcut (chars c ++ chars (if s <>s "" then "/" +:+ s else ""))) as Hc2.
  change (chars "/c/" ++ ?k) with ("/"%char :: "c"%char :: "/"%char :: k) in Hc2. rewrite Hc2.
  assert (Hb : cut_bytes slash (chars c ++ chars (if s <>s "" then "/" +:+ s else ""))
    = (chars c, chars s, if s <>s "" then true else false)).
  { destruct (String.eqb_spec s "") as [->|Hs]; simpl.
    - rewrite app_nil_r. clear -Hsl. induction (chars c) as [|x l IH]; [done|].
      apply not_elem_of_cons in Hsl as [Hx Hl]. simpl. destruct (Ascii.eqb_spec x slash); [congruence|]. by rewrite IH.
    - by apply cut_bytes_app. }
  rewrite Hb, <- (str_chars d), <- (str_chars c), <- (str_chars s), !chars_str.
  rewrite <- chars_nil in Hd, Hc. by destruct (chars d), (chars c).
Qed.

Lemma str_app_nil (s : string) : s +:+ "" = s.
Proof. apply chars_inj. by rewrite chars_app, app_nil_r. Qed.

Lemma message_topic_text d c s : encodeAdapterTopic d c s MessageType =
  "m/" +:+ d +:+ "/c/" +:+ c +:+ (if s <>s "" then "/" +:+ s else "").
Proof.
  unfold encodeAdapterTopic. simpl. destruct (s <>s ""); simpl.
  - by rewrite <- !str_assoc.
  - by rewrite (str_app_nil c).
Qed.

Lemma mqtt_topic_text m : EncodeMessageMQTTTopic m =
  encodeAdapterTopic (Domain m) (Channel m) (ReplaceAll1 (Subtopic m) "." "/") MessageType.
Proof.
  unfold EncodeMessageMQTTTopic, encodeAdapterTopic. simpl. destruct (String.eqb_spec (Subtopic m) "") as [->|Hs]; [done|].
  destruct (String.eqb_spec (ReplaceAll1 (Subtopic m) "." "/") "") as [He|]; [|done]. exfalso. apply Hs.
  unfold ReplaceAll1 in He. apply str_nil, fmap_nil_inv in He. by apply chars_nil.
Qed.

Lemma replace_back s : "/"%char ∉ chars s -> ReplaceAll1 (ReplaceAll1 s "." "/") "/" "." = s.
Proof.
  intros Hs. unfold ReplaceAll1. rewrite chars_str, <- list_fmap_compose.
  transitivity (str (chars s)); [f_equal|apply str_chars].
  transitivity (id <$> chars s); [|apply list_fmap_id].
  apply list_fmap_ext. intros i x Hx%list_elem_of_lookup_2. simpl.
  unfold replace1. destruct (Ascii.eqb_spec x ".") as [->|]; [done|].
  destruct (Ascii.eqb_spec x "/") as [->|]; done.
Qed.

Lemma replaced_elem s a b x : x <> a -> x <> b -> x ∈ chars (ReplaceAll1 s a b) -> x ∈ chars s.
Proof.
  unfold ReplaceAll1. rewrite chars_str. intros Ha Hb (y & Hy & Hin)%list_elem_of_fmap.
  unfold replace1 in Hy. destruct (Ascii.eqb_spec y a); congruence.
Qed.

Lemma TrimPrefix_none s c : HasPrefix s (str [c]) = false -> TrimPrefix s (str [c]) = s.
Proof. unfold TrimPrefix. by intros ->. Qed.
Lemma TrimSuffix_none s c : HasSuffix s (str [c]) = false -> TrimSuffix s (str [c]) = s.
Proof. unfold TrimSuffix. by intros ->. Qed.

Lemma head_replaced l : "/"%char ∉ l -> is_prefix (chars ".") l = false ->
  is_prefix (chars "/") (replace1 "." "/" <$> l) = false.
Proof.
  destruct l as [|x l]; [done|]. intros [Hx _]%not_elem_of_cons. simpl. rewrite !andb_true_r. unfold replace1.
  intros Hd%Ascii.eqb_neq. destruct (Ascii.eqb_spec x "."); [congruence|]. by apply Ascii.eqb_neq.
Qed.

(** The subtopic of a message, written with slashes. *)
Lemma publish_again raw s : ParsePublishSubtopic raw = (s, None) -> "%"%char ∉ chars s ->
  HasPrefix s "." = false -> HasSuffix s "." = false ->
  ParsePublishSubtopic (ReplaceAll1 s "." "/") = (s, None).
Proof.
  intros Hraw Hp Hpre Hsuf. destruct (decide (s = "")) as [->|Hne]; [done|].
  apply publish_inv in Hraw as [[_ ->]|(_ & Hf & Ha & Hd)]; [done|].
  pose proof (formatSubtopic_no_slash _ _ Hf) as Hsl.
  assert (Hplus : "+"%char ∉ chars s) by (intros Hin; by apply ContainsAny_false with (c := "+"%char) in Ha; [apply Ha; set_solver|]).
  set (s' := ReplaceAll1 s "." "/").
  assert (Hfmt : formatSubtopic s' = (s, None)).
  { unfold formatSubtopic, QueryUnescape. rewrite unescape_plain.
    2,3: intros Hin%replaced_elem; done. simpl. rewrite str_chars.
    change "/" with (str ["/"%char]). rewrite TrimPrefix_none, TrimSuffix_none.
    - rewrite <- (str_chars s') at 1. rewrite TrimSpace_fix; [rewrite str_chars; unfold pathReplacer, s'; by rewrite replace_back|].
      unfold s', ReplaceAll1. rewrite chars_str. apply trimmed_replace; [apply spaces_no_dot_slash|].
      revert Hf. unfold formatSubtopic. destruct (QueryUnescape raw); [|done]. intros [= <-].
      unfold pathReplacer, ReplaceAll1. rewrite chars_str. apply trimmed_replace; [|apply TrimSpace_trimmed].
      eapply Forall_impl; [apply spaces_no_dot_slash|]. intros r [Hr1 Hr2]. by split.
    - unfold HasSuffix, s', ReplaceAll1. rewrite !chars_str.
      change (replace1 "." "/" <$> chars s) with (map (replace1 "." "/") (chars s)). rewrite <- map_rev.
      apply head_replaced; [|exact Hsuf].
      by rewrite list_elem_of_In, <- in_rev, <- list_elem_of_In.
    - unfold HasPrefix, s', ReplaceAll1. rewrite !chars_str. by apply head_replaced. }
  unfold ParsePublishSubtopic. rewrite Hfmt. destruct (String.eqb_spec s' "") as [He|_].
  { unfold s', ReplaceAll1 in He. by apply str_nil, fmap_nil_inv, chars_nil in He. }
  by rewrite Ha, Hd.
Qed.

(** C30: the text that encodeAdapterTopic writes for the parts of a topic that
    ParseTopic reads parses to the same parts; and where ParsePublishTopic
    reads a topic as a message topic whose subtopic has no percent sign and no
    dot at its ends, the MQTT topic of a message with that domain, channel and
    subtopic is read as them again. *)
Theorem topic_roundtrip topic d c s ty :
  (ParseTopic topic = Some ((d, c, s, ty), None) ->
     ParseTopic (encodeAdapterTopic d c s ty) = Some ((d, c, s, ty), None))
  /\ (ParsePublishTopic topic = Some ((d, c, s, MessageType), None) ->
      "%"%char ∉ chars s -> HasPrefix s "." = false -> HasSuffix s "." = false ->
      forall m, Domain m = d -> Channel m = c -> Subtopic m = s ->
      ParsePublishTopic (EncodeMessageMQTTTopic m) = Some ((d, c, s, MessageType), None)).
Proof.
  split.
  - rewrite !ParseTopic_parse. intros [= Hp]. apply parse_inv in Hp as [[-> Hm]|(-> & -> & -> & Hd & Hsl)].
    + by rewrite message_topic_text, parse_message_text.
    + change (encodeAdapterTopic d "" "" HealthType) with ("hc/" +:+ d). unfold reference.parse. rewrite chars_app.
      change (chars "hc/" ++ chars d) with ("h"%char :: "c"%char :: "/"%char :: chars d).
      cbv beta iota. change ("h"%char =c slash) with false. cbv iota. cbn [reference.body]. rewrite bool_decide_true.
      * unfold reference.health. apply mem_false in Hsl.
        change (drop 1 ("/"%char :: chars d)) with (chars d). by rewrite Hsl, str_chars.
      * split; [done|]. rewrite <- chars_nil in Hd. destruct (chars d); [done|]. simpl. lia.
  - unfold ParsePublishTopic, parse_with. rewrite !ParseTopic_parse.
    destruct (reference.parse topic) as [[[[d0 c0] s0] ty0] [e|]] eqn:Ep; [by intros [=]|].
    destruct (ParsePublishSubtopic s0) as [s1 [e|]] eqn:Es; [intros [= _ _ _ _ H]; by apply WrapE_inv in H|].
    intros [= -> -> -> ->] Hp Hpre Hsuf m <- <- <-.
    apply parse_inv in Ep as [[_ Hm]|(? & _)]; [|done].
    rewrite mqtt_topic_text, message_topic_text, ParseTopic_parse, parse_message_text by done.
    by rewrite (publish_again s0).
Qed.

Lemma after_c l : split_bytes "." ("c"%char :: "."%char :: l) = ["c"%char] :: split_bytes "." l.
Proof. apply (split_bytes_app "." ["c"%char] l). by rewrite <- mem_false. Qed.

(** Over domains and channels without dots, two messages have the same
    subject at the broker exactly if they are in the same domain, channel and
    subtopic. *)
Theorem EncodeTopicSuffix_inj d c s d' c' s' (Hd : "."%char ∉ chars d) (Hc : "."%char ∉ chars c)
    (Hd' : "."%char ∉ chars d') (Hc' : "."%char ∉ chars c') :
  EncodeTopicSuffix d c s = EncodeTopicSuffix d' c' s' <-> d = d' /\ c = c' /\ s = s'.
Proof.
  split; [|by intros (-> & -> & ->)].
  assert (Hsplit : forall d c s, "."%char ∉ chars d -> "."%char ∉ chars c ->
    split_bytes "." (chars (EncodeTopicSuffix d c s)) =
      chars d :: ["c"%char] :: chars c :: (if s <>s "" then split_bytes "." (chars s) else [])).
  { clear. intros d c s Hd Hc. unfold EncodeTopicSuffix. destruct (s <>s ""); rewrite ?chars_app; simpl.
    - rewrite <- !app_assoc. simpl. rewrite split_bytes_app by done. f_equal. rewrite after_c. f_equal.
      by rewrite split_bytes_app.
    - rewrite split_bytes_app by done. f_equal. rewrite after_c. f_equal. by apply split_bytes_none. }
  intros H. apply (f_equal (fun x => split_bytes "." (chars x))) in H. rewrite !Hsplit in H by done.
  injection H as E1 E2 E3. apply chars_inj in E1 as ->. apply chars_inj in E2 as ->. split_and!; [done..|].
  destruct (String.eqb_spec s "") as [->|Hs], (String.eqb_spec s' "") as [->|Hs']; simpl in E3; [done|..].
  - by destruct (split_bytes_nonempty "." (chars s')).
  - by destruct (split_bytes_nonempty "." (chars s)).
  - apply chars_inj. by eapply split_bytes_inj.
Qed.
End parsers.

(** ** The parser and its cache *)

(** What the cache promises: an entry that it returns is the one that was
    set last for the topic; it may forget an entry at any time. *)
Class CacheLaws {W : Type} (C : messaging.Cache W) (entries : W -> gmap string messaging.parsedTopic) : Prop := {
  Get_ok t w r w' : messaging.cache_Get C t w = (r, w') -> entries w' ⊆ entries w
    /\ forall v, r = Some v -> entries w !! t = Some v;
  Set_ok t v w u w' : messaging.cache_Set C t v w = (u, w') -> entries w' ⊆ <[t := v]> (entries w) }.

Section cache_theory.
Import messaging.
Context (uuid : uuidlib) {W : Type} (p : parser W) (entries : W -> gmap string parsedTopic).
Context {CL : CacheLaws (cache p) entries}.
Context (resolve_entries : forall b d c, frames (resolve_topic uuid p b d c) entries).

(** What the cache holds is what the parser would answer for it, with
    [resolve] as it is here: a parse error, or the parts of a message topic
    that the resolver leaves alone. *)
Definition sound (resolve : bool) (t : string) (v : parsedTopic) : Prop :=
  match ParsePublishTopic t with
  | Some (_, Some e) => v = MkParsedTopic "" "" "" (Some e)
  | Some ((d, c, s, ty), None) =>
      ty = MessageType /\ pt_err v = None /\ pt_subtopic v = s
      /\ (if resolve
          then is_nil (validateUUID uuid d) && is_nil (validateUUID uuid c) = true
               /\ pt_domainID v = d /\ pt_channelID v = c
          else pt_domainID v = d /\ pt_channelID v = c)
  | None => False
  end.
Definition cache_sound (resolve : bool) (w : W) : Prop := forall t v, entries w !! t = Some v -> sound resolve t v.

Lemma sound_subset resolve w w' : entries w' ⊆ entries w -> cache_sound resolve w -> cache_sound resolve w'.
Proof. intros Hsub Hs t v Hv. apply Hs. by eapply lookup_weaken. Qed.

Lemma saveToCache_sound resolve t d c s e w u w' :
  saveToCache p t d c s e w = (u, w') -> sound resolve t (MkParsedTopic d c s e) ->
  cache_sound resolve w -> cache_sound resolve w'.
Proof.
  intros Hset%Set_ok Hv Hs t' v' Hv'. eapply lookup_weaken in Hv'; [|exact Hset].
  destruct (decide (t' = t)) as [->|Ht]; [by rewrite lookup_insert_eq in Hv'; injection Hv' as <-|].
  rewrite lookup_insert_ne in Hv' by done. by apply Hs.
Qed.

(** An identifier that reads as a UUID is left alone. *)
Lemma Resolve_not_route d c w x w' : Resolve uuid (p_resolver p) d c w = ((x, None), w') -> x.2 = false -> c <> "" ->
  is_nil (validateUUID uuid d) && is_nil (validateUUID uuid c) = true /\ x.1 = (d, c) /\ w' = w.
Proof.
  unfold Resolve. destruct (String.eqb_spec d "") as [|Hd]; [done|].
  unfold bind at 1, resolveDomain. destruct (is_nil (validateUUID uuid d)) eqn:Ed; simpl.
  - destruct (String.eqb_spec c "") as [|Hc]; [done|]. unfold bind at 1, resolveChannel.
    destruct (is_nil (validateUUID uuid c)) eqn:Ec; simpl; [by intros [= <- <-]|].
    unfold bind. destruct (channels_RetrieveIDByRoute _ _ _ w) as [[i [e|]] w1]; simpl;
      [intros [= _ H _]; by apply WrapE_inv in H|by intros [= <- _]].
  - unfold bind at 1. destruct (domains_RetrieveIDByRoute _ _ w) as [[i [e|]] w1]; simpl;
      [intros [= _ H _]; by apply WrapE_inv in H|].
    destruct (String.eqb_spec c "") as [|Hc]; [done|]. unfold bind at 1.
    destruct (resolveChannel _ _ _ _ w1) as [[[j b] [e|]] w2]; simpl;
      [intros [= _ H _]; by apply WrapE_inv in H|by intros [= <- _]].
Qed.

Lemma Resolve_identifiers d c w : d <> "" -> c <> "" ->
  is_nil (validateUUID uuid d) && is_nil (validateUUID uuid c) = true ->
  Resolve uuid (p_resolver p) d c w = ((d, c, false, None), w).
Proof.
  intros Hd Hc [H1 H2]%andb_true_iff. unfold Resolve, resolveDomain, resolveChannel, bind, ret.
  apply String.eqb_neq in Hd as ->, Hc as ->. by rewrite H1, H2.
Qed.

(** The parser without its cache. *)
Definition uncached (topic : string) (resolve : bool) : St W (option result) :=
  match ParsePublishTopic topic with
  | None => panic
  | Some (_, Some e) => pret (failed e)
  | Some ((domainID, channelID, subtopic, topicType), None) =>
      '((domainID, channelID, _), e) <- resolve_topic uuid p resolve domainID channelID ;;
      if_err e return_ pret (("", "", "", InvalidType), e) ;;
      pret ((domainID, channelID, subtopic, topicType), None)
  end.

(** Equal answers; with an error the other results do not count. *)
Definition agree (a b : option result) : Prop :=
  match a, b with
  | Some (_, Some e), Some (_, Some e') => e = e'
  | _, _ => a = b
  end.

Lemma agree_refl a : agree a a.
Proof. by destruct a as [[? [?|]]|]. Qed.

Lemma ParsePublishTopic_parts topic d c s ty : ParsePublishTopic topic = Some ((d, c, s, ty), None) ->
  ty = MessageType -> d <> "" /\ c <> "".
Proof.
  unfold ParsePublishTopic, parse_with. rewrite ParseTopic_parse.
  destruct (reference.parse topic) as [[[[d0 c0] s0] ty0] [e|]] eqn:Ep; [by intros [=]|].
  destruct (ParsePublishSubtopic s0) as [s1 [e|]]; [intros [= _ _ _ _ H]; by apply WrapE_inv in H|].
  intros [= -> -> -> ->] ->. apply parse_inv in Ep as [[_ (? & ? & _)]|(? & _)]; done.
Qed.

Lemma cached_parser_agrees resolve topic w r w' : cache_sound resolve w ->
  parser_ParsePublishTopic uuid p topic resolve w = (r, w') ->
  agree r (uncached topic resolve (cache_Get (cache p) topic w).2).1 /\ cache_sound resolve w'.
Proof.
  intros Hs Hrun.
  revert Hrun. unfold parser_ParsePublishTopic, bind at 1, uncached.
  destruct (cache_Get (cache p) topic w) as [hit w1] eqn:Eg. apply Get_ok in Eg as [Hsub Hget].
  assert (Hs1 : cache_sound resolve w1) by (by eapply sound_subset). simpl snd.
  destruct hit as [v|].
  - intros [= <- <-]. split; [|done]. specialize (Hs topic v (Hget v eq_refl)). unfold sound in Hs.
    destruct (ParsePublishTopic topic) as [[[[[d c] s] ty] [e|]]|] eqn:Ep; [by subst v| |done].
    destruct Hs as (-> & He & <- & Hr). destruct (ParsePublishTopic_parts _ _ _ _ _ Ep eq_refl) as [Hd Hc].
    rewrite He. unfold resolve_topic. destruct resolve.
    + destruct Hr as (Hu & <- & <-). unfold bind. by rewrite Resolve_identifiers.
    + by destruct Hr as [<- <-].
  - destruct (ParsePublishTopic topic) as [[[[[d c] s] ty] [e|]]|] eqn:Ep.
    + unfold bind at 1. destruct (saveToCache _ _ _ _ _ _ w1) as [u w2] eqn:Es. intros [= <- <-].
      split; [done|]. eapply saveToCache_sound; [exact Es| |done]. unfold sound. by rewrite Ep.
    + unfold bind, pret, ret. destruct (resolve_topic uuid p resolve d c w1) as [[[[d' c'] route] [e|]] w2] eqn:Er;
        pose proof (frames_eq _ entries _ _ _ (resolve_entries resolve d c) Er) as Hent.
      { intros [= <- <-]. split; [done|]. eapply sound_subset; [|exact Hs1]. by rewrite Hent. }
      assert (Hs2 : cache_sound resolve w2) by (eapply sound_subset; [|exact Hs1]; by rewrite Hent).
      destruct (negb route && N.eqb ty MessageType) eqn:Eb; [|by intros [= <- <-]].
      apply andb_true_iff in Eb as [Hroute%negb_true_iff Hty%N.eqb_eq].
      destruct (saveToCache _ _ _ _ _ _ w2) as [u w3] eqn:Es. intros [= <- <-]. split; [done|].
      eapply saveToCache_sound; [exact Es| |done]. unfold sound. rewrite Ep. split_and!; try done.
      destruct (ParsePublishTopic_parts _ _ _ _ _ Ep Hty) as [Hd Hc].
      unfold resolve_topic in Er. destruct resolve; [|by injection Er as -> -> _ _].
      apply Resolve_not_route in Er as (Hu & [= -> ->] & _); done.
    + by intros [= <- <-].
Qed.

(** Without resolution the parser answers as the pure function does. *)
Lemma uncached_pure topic w : agree (uncached topic false w).1 (ParsePublishTopic topic).
Proof.
  unfold uncached. destruct (ParsePublishTopic topic) as [[[[[d c] s] ty] [e|]]|]; done.
Qed.
Lemma agree_trans a b c : agree a b -> agree b c -> agree a c.
Proof. by destruct a as [[? [?|]]|], b as [[? [?|]]|], c as [[? [?|]]|]; simpl; intros; subst; simplify_eq. Qed.
Lemma cached_parser_pure topic w r w' : cache_sound false w ->
  parser_ParsePublishTopic uuid p topic false w = (r, w') -> agree r (ParsePublishTopic topic) /\ cache_sound false w'.
Proof.
  intros Hs [Ha Hs']%cached_parser_agrees; [|done]. split; [|done]. eapply agree_trans; [exact Ha|]. apply uncached_pure.
Qed.

(** What happens to a parser that is always asked with the same [resolve],
    as every adapter asks it: a topic is parsed, or anything else changes,
    routes among it, and the cache forgets entries. *)
Inductive parser_step (resolve : bool) : W -> W -> Prop :=
| step_parse topic w r w' : parser_ParsePublishTopic uuid p topic resolve w = (r, w') -> parser_step resolve w w'
| step_other w w' : entries w' ⊆ entries w -> parser_step resolve w w'.

Lemma ParsePublishTopic_type topic d c s ty : ParsePublishTopic topic = Some ((d, c, s, ty), None) ->
  ty = MessageType \/ ty = HealthType.
Proof.
  unfold ParsePublishTopic, parse_with. rewrite ParseTopic_parse.
  destruct (reference.parse topic) as [[[[d0 c0] s0] ty0] [e|]] eqn:Ep; [by intros [=]|].
  destruct (ParsePublishSubtopic s0) as [s1 [e|]]; [intros [= _ _ _ _ H]; by apply WrapE_inv in H|].
  intros [= -> -> -> ->]. apply parse_inv in Ep. naive_solver.
Qed.

(** C18: the cache of the parser cannot be seen.  From an empty cache, after
    any sequence of topics parsed with the same [resolve] and of other
    changes in between, such as routes that now name other domains or
    channels and entries that the cache dropped, the next topic is answered
    as the parser without its cache would answer it at that moment; without
    resolution that is the answer of the function ParsePublishTopic.  Looking
    a topic up in the cache changes no route. *)
Theorem cached_parser_transparent resolve w0 w topic r w'
    (resolve_get : forall t d c v,
      (resolve_topic uuid p resolve d c (cache_Get (cache p) t v).2).1 = (resolve_topic uuid p resolve d c v).1)
    (Hempty : entries w0 = ∅) (Hsteps : rtc (parser_step resolve) w0 w)
    (Hrun : parser_ParsePublishTopic uuid p topic resolve w = (r, w')) :
  agree r (uncached topic resolve w).1 /\ (resolve = false -> agree r (ParsePublishTopic topic)).
Proof.
  assert (Hs : cache_sound resolve w).
  { assert (Hs0 : cache_sound resolve w0) by (intros t v; by rewrite Hempty, lookup_empty).
    clear -Hs0 Hsteps CL resolve_entries. induction Hsteps as [|w1 w2 w3 Hstep _ IH]; [done|]. apply IH.
    destruct Hstep as [topic w1 r w2 E|w1 w2 Hsub]; [by eapply cached_parser_agrees|by eapply sound_subset]. }
  apply cached_parser_agrees in Hrun as [Ha _]; [|done].
  assert (Hg : agree r (uncached topic resolve w).1).
  { revert Ha. unfold uncached. destruct (ParsePublishTopic topic) as [[[[[d c] s] ty] [e|]]|]; [done| |done].
    unfold bind, pret, ret. specialize (resolve_get topic d c w).
    destruct (resolve_topic _ _ _ d c (cache_Get _ _ _).2) as [x v1], (resolve_topic _ _ _ d c w) as [y v2].
    simpl in resolve_get. subst y. by destruct x as [[[? ?] ?] [?|]]. }
  split; [done|]. intros ->. eapply agree_trans; [exact Hg|]. apply uncached_pure.
Qed.

(** An identifier is accepted as a UUID whether or not it is written in the
    canonical form that its comparison asks for. *)
Lemma validateUUID_noncanonical id : validateUUID uuid id = None <-> (FromString uuid id).2 = None.
Proof.
  unfold validateUUID. destruct (FromString uuid id) as [c [e|]]; simpl; [by rewrite orb_true_r|].
  rewrite orb_false_r. by destruct (c <>s id).
Qed.
End cache_theory.

Module topics_example.
Import messaging.

(** The separator after "hc" is not looked at, and a subtopic may begin with
    an empty level. *)
Lemma health_separator_unchecked : ParseTopic "hcxhome" = Some (("home", "", "", HealthType), None).
Proof. vm_compute. reflexivity. Qed.
Lemma publish_leading_dot : ParsePublishSubtopic "//a" = (".a", None).
Proof. vm_compute. reflexivity. Qed.

Lemma publish_subtopic_sound_witness :
  ParsePublishSubtopic "a/b" = ("a.b", None) /\ ParseSubscribeSubtopic "a/b" = ("a.b", None).
Proof.
  assert (H : ParsePublishSubtopic "a/b" = ("a.b", None)) by (vm_compute; reflexivity).
  split; [exact H|]. apply (publish_subtopic_sound "a/b" "a.b" H). vm_compute. reflexivity.
Defined.

Lemma subscribe_subtopic_sound_witness :
  ParseSubscribeSubtopic "a/+/#" = ("a.*.>", None)
  /\ ("*" = "*" \/ "*" = ">" \/ forall c, c ∈ chars "*" -> c ∉ chars " #+*>/.").
Proof.
  assert (H : ParseSubscribeSubtopic "a/+/#" = ("a.*.>", None)) by (vm_compute; reflexivity).
  split; [exact H|]. apply (subscribe_subtopic_sound "a/+/#" "a.*.>" H 1). vm_compute. reflexivity.
Defined.

Definition lamp : Message :=
  Message0 <| Domain := "d" |> <| Channel := "c" |> <| Subtopic := "kitchen.lamp" |>.

Lemma topic_roundtrip_witness :
  ParseTopic (encodeAdapterTopic "d" "c" "kitchen/lamp" MessageType) = Some (("d", "c", "kitchen/lamp", MessageType), None)
  /\ ParsePublishTopic (EncodeMessageMQTTTopic lamp) = Some (("d", "c", "kitchen.lamp", MessageType), None).
Proof.
  split.
  - apply (topic_roundtrip "m/d/c/c/kitchen/lamp"). vm_compute. reflexivity.
  - apply (topic_roundtrip "m/d/c/c/kitchen/lamp" "d" "c" "kitchen.lamp" MessageType); try (vm_compute; reflexivity).
    rewrite <- mem_false. vm_compute. reflexivity.
Defined.

Lemma EncodeTopicSuffix_inj_witness :
  EncodeTopicSuffix "d" "c" "a" <> EncodeTopicSuffix "d" "c" "b".
Proof.
  intros H. apply EncodeTopicSuffix_inj in H; [by destruct H as (_ & _ & [=])|..];
    rewrite <- mem_false; vm_compute; reflexivity.
Defined.

(** A cache in memory, and routes of domains. *)
Definition state : Type := gmap string parsedTopic * gmap string string.
Definition memcache : Cache state :=
  {| cache_Get := fun t s => (s.1 !! t, s); cache_Set := fun t v s => (tt, (<[t := v]> s.1, s.2)) |}.
Definition routes : resolver state :=
  {| channels_RetrieveIDByRoute := fun _ _ => ret ("", Some repoerr.ErrNotFound);
     domains_RetrieveIDByRoute := fun r s =>
       (match s.2 !! r with Some i => (i, None) | None => ("", Some repoerr.ErrNotFound) end, s) |}.
Definition p : parser state := {| cache := memcache; p_resolver := routes |}.
(** Identifiers begin with "id". *)
Definition uuid : uuidlib :=
  {| FromString := fun s => if HasPrefix s "id" then (s, None) else ("", Some (Errorf "incorrect UUID")) |}.

#[export] Instance memcache_laws : CacheLaws memcache fst.
Proof. split; simpl; intros *; [intros [= <- <-]; by split|by intros [= _ <-]]. Qed.

Lemma resolve_keeps b d c : frames (resolve_topic uuid p b d c) fst.
Proof.
  intros w. unfold resolve_topic, Resolve, resolveDomain, resolveChannel, bind, ret. simpl.
  destruct b; [|done]. repeat case_match; simplify_eq/=; done.
Qed.

(** The route "home" names id1, a topic is parsed, and then it names id3. *)
Definition before : state := (∅, {["home" := "id1"]}).
Definition parse (topic : string) : St state (option result) := parser_ParsePublishTopic uuid p topic true.
Definition asked : state := (parse "m/home/c/id2" before).2.
Definition rerouted : state := (asked.1, {["home" := "id3"]}).

Lemma cached_parser_transparent_witness :
  (parse "m/home/c/id2" before).1 = Some (("id1", "id2", "", MessageType), None)
  /\ (parse "m/home/c/id2" rerouted).1 = Some (("id3", "id2", "", MessageType), None)
  /\ agree (parse "m/home/c/id2" rerouted).1 (uncached uuid p "m/home/c/id2" true rerouted).1.
Proof.
  split; [vm_compute; reflexivity|]. split; [vm_compute; reflexivity|].
  refine (proj1 (cached_parser_transparent uuid p fst (CL := memcache_laws) resolve_keeps true before rerouted
    "m/home/c/id2" _ _ (fun _ _ _ _ => eq_refl) eq_refl _ (surjective_pairing _))).
  eapply rtc_l; [eapply step_parse; exact (surjective_pairing (parse "m/home/c/id2" before))|].
  apply rtc_once, step_other. done.
Defined.
End topics_example.
