(* ===== verification/Http.v ===== *)
(** * Http: what the HTTP layers share

    Source: src/api/http/util/transport.go and token.go (the readers of a
    query), src/api/http/common.go (the validations and the encoding of a
    response) and src/internal/nullable/parsers.go.

    A request has its query as text, which is read with GoUrl.v; the body is
    of a type of its own, and what json.Decode makes of it is a parameter
    ([Unmarshal]), as are UUIDs (github.com/gofrs/uuid) and the JSON text of
    a query.  A reader or decoder gives an error, with the layers that the
    code puts around it, or the value.  [handle] is the server of
    go-kit/kit/transport/http: decode, call the endpoint, encode. *)

From S2P Require Import Prelude GoStd GoTime GoNum GoUrl Errors Authn Topics.

Module http.
(** ** A request *)
Record Request := MkRequest {
  RawQuery : string; Authorization : string; ContentTypeHeader : string; URLParam : string -> string }.
Definition Query (r : Request) : list (string * string) := ParseQuery (RawQuery r).
(** url.Values.Has *)
Definition Has (q : list (string * string)) (key : string) : bool := existsb (fun kv => kv.1 =s key) q.
(** What the decoder of JSON makes of a struct, from a body. *)
Class Unmarshal (B T : Type) := Decode : T -> B -> error + T.

(** ** src/api/http/common.go *)
Definition OffsetKey := "offset".
Definition DirKey := "dir".
Definition OrderKey := "order".
Definition LimitKey := "limit".
Definition OnlyTotal := "only_total".
Definition NameOrder := "name".
Definition IDOrder := "id".
Definition AscDir := "asc".
Definition DescDir := "desc".
Definition UpdatedAtOrder := "updated_at".
Definition CreatedAtOrder := "created_at".
Definition MetadataKey := "metadata".
Definition NameKey := "name".
Definition TagsKey := "tags".
Definition StatusKey := "status".
Definition ClientKey := "client".
Definition ChannelKey := "channel".
Definition ConnTypeKey := "connection_type".
Definition GroupKey := "group".
Definition StartLevelKey := "start_level".
Definition EndLevelKey := "end_level".
Definition TreeKey := "tree".
Definition LevelKey := "level".
Definition RootGroupKey := "root_group".
Definition RolesKey := "roles".
Definition ActionsKey := "actions".
Definition RoleIDKey := "role_id".
Definition RoleNameKey := "role_name".
Definition AccessProviderIDKey := "access_provider_id".
Definition AccessTypeKey := "access_type".
Definition TokenKey := "token".
Definition UsernameKey := "username".
Definition UserKey := "user".
Definition EmailKey := "email".
Definition FirstNameKey := "first_name".
Definition LastNameKey := "last_name".
Definition DefOffset : Z := 0.
Definition DefOrder := "updated_at".
Definition DefDir := "desc".
Definition DefLimit : Z := 10.
Definition DefLevel : Z := 0.
Definition DefStartLevel : Z := 1.
Definition DefEndLevel : Z := 0.
Definition ContentType := "application/json".
Definition MaxLimitSize : N := 100.
Definition MaxNameSize : nat := 1024.
Definition errUnreadableName : err :=
  Sentinel "api.errUnreadableName" CustomError "name containing double underscores or double dashes not allowed".

(** The regular expressions: a first byte, and a number of others. *)
Definition lower (c : ascii) : bool := between "a" "z" c.
Definition digit_char (c : ascii) : bool := between "0" "9" c.
Definition alpha (c : ascii) : bool := lower c || between "A" "Z" c.
Definition routeRegExp (s : string) : bool :=
  match chars s with
  | c :: l => alpha c && Nat.leb (length l) 35
              && forallb (fun c => alpha c || digit_char c || (c =c "_"%char) || (c =c "-"%char)) l
  | [] => false
  end.
Definition ValidateRoute (route : string) : error :=
  if_ negb (routeRegExp route) return_ Some apiutil.ErrInvalidRouteFormat ;;
  if_ GoStd.Contains route "__" || GoStd.Contains route "--"
  return_ WrapE apiutil.ErrInvalidRouteFormat (Some errUnreadableName) ;;
  None.
Definition userNameRegExp (s : string) : bool :=
  match chars s with
  | c :: l => (alpha c || digit_char c) && Nat.leb (length l) 31
              && forallb (fun c => alpha c || digit_char c || (c =c "_"%char) || (c =c "-"%char)) l
  | [] => false
  end.
Definition ValidateUserName (name : string) : error :=
  if_ negb (userNameRegExp name) return_ Some apiutil.ErrInvalidUsername ;;
  if_ GoStd.Contains name "__" || GoStd.Contains name "--"
  return_ WrapE apiutil.ErrInvalidUsername (Some errUnreadableName) ;;
  None.
(** [ParseAddress]: whether net/mail parses the address. *)
Definition ValidateEmail (ParseAddress : string -> bool) (email : string) : error :=
  if_ negb (ParseAddress email) return_ Some apiutil.ErrInvalidEmail ;;
  None.
(** The nil UUID has a text of its own, which an error comes with. *)
Definition ValidateUUID (uuid : messaging.uuidlib) (extID : string) : error :=
  let '(id, err) := messaging.FromString uuid extID in
  if_ (id <>s extID) || negb (is_nil err) return_ Some apiutil.ErrInvalidIDFormat ;;
  None.

(** [for _, id := range ids { if err := api.ValidateUUID(id); err != nil { return err } }; k] *)
Fixpoint validateIDs (uuid : messaging.uuidlib) (ids : list string) (k : error) : error :=
  match ids with
  | [] => k
  | id :: ids => if_err ValidateUUID uuid id return_ ValidateUUID uuid id ;; validateIDs uuid ids k
  end.

(** ** src/api/http/util/transport.go *)
Definition ReadStringQuery (r : Request) (key def : string) : error + string :=
  match get (Query r) key with
  | [] => inr def
  | [val] => inr val
  | _ => inl (Some apiutil.ErrInvalidQueryParams)
  end.
Section readers.
(** json.Unmarshal into a map, and strconv.Quote. *)
Context (unmarshal : string -> err + Metadata) (Quote : string -> string).
Definition ReadMetadataQuery (r : Request) (key : string) (def : Metadata) : error + Metadata :=
  match get (Query r) key with
  | [] => inr def
  | [val] =>
      match unmarshal val with
      | inl e => inl (WrapE apiutil.ErrInvalidQueryParams (Some e))
      | inr m => inr m
      end
  | _ => inl (Some apiutil.ErrInvalidQueryParams)
  end.
Definition ReadBoolQuery (r : Request) (key : string) (def : bool) : error + bool :=
  match get (Query r) key with
  | [] => inr def
  | [val] =>
      let '(b, err) := ParseBool Quote val in
      if_err err return_ inl (WrapE apiutil.ErrInvalidQueryParams err) ;;
      inr b
  | _ => inl (Some apiutil.ErrInvalidQueryParams)
  end.
(** The type of the default value; no decoder reads a float64. *)
Inductive number := Int64 | Uint64 | Uint16.
Definition ReadNumQuery (N : number) (r : Request) (key : string) (def : Z) : error + Z :=
  match get (Query r) key with
  | [] => inr def
  | [val] =>
      let '(v, err) := match N with
                       | Int64 => ParseInt Quote val 64
                       | Uint64 => ParseUint Quote val 64
                       | Uint16 => ParseUint Quote val 16
                       end in
      if_err err return_ inl (WrapE apiutil.ErrInvalidQueryParams err) ;;
      inr v
  | _ => inl (Some apiutil.ErrInvalidQueryParams)
  end.
End readers.

(** token.go *)
Definition BearerPrefix := "Bearer ".
Definition ExtractBearerToken (r : Request) : string :=
  let token := Authorization r in
  if_ negb (HasPrefix token BearerPrefix) return_ "" ;;
  TrimPrefix token BearerPrefix.

(** src/internal/nullable: Parse with ParseString *)
Definition nullable_ErrInvalidQueryParams : err :=
  Foreign (Some "nullable.ErrInvalidQueryParams") "invalid query parameters" None.
Definition nullable_Parse (q : list (string * string)) (key : string) : error + option string :=
  match get q key with
  | [] => inr None
  | [val] => inr (Some val)
  | _ => inl (Some nullable_ErrInvalidQueryParams)
  end.

(** ** Decoders *)
(** [x, err := m; if err != nil { return errors.Wrap(apiutil.ErrValidation, err) }] *)
Notation "x <-? m ;; k" := (match m with inl err => inl (WrapE apiutil.ErrValidation err) | inr x => k end)
  (at level 20, m at level 99, k at level 200) : go_scope.
(** The error is returned as it is. *)
Notation "x <-! m ;; k" := (match m with inl err => inl err | inr x => k end)
  (at level 20, m at level 99, k at level 200) : go_scope.

(** [if t != "" { if x, err = time.Parse(time.RFC3339, t); err != nil { ... } }] *)
Definition readTime (t : string) : error + Time :=
  if t <>s "" then
    let '(x, err) := ParseRFC3339 t in
    if_err err return_ inl (WrapE apiutil.ErrInvalidQueryParams err) ;;
    inr x
  else inr zeroTime.
(** [all = strings.TrimSpace(all); if all != "" { actions = strings.Split(all, ",") }] *)
Definition readActions (all : string) : list string :=
  let all := TrimSpace all in if all <>s "" then Split all ","%char else [].
(** [json.NewDecoder(r.Body).Decode(&req)] *)
Definition decodeJSON {B T} `{Unmarshal B T} (req : T) (body : B) : error + T :=
  match Decode req body with
  | inl err => inl (WrapE apiutil.ErrMalformedRequestBody err)
  | inr req => inr req
  end.
(** A decoder of a body: the type of the content, then the body. *)
Definition decodeBody {B T} `{Unmarshal B T} (r : Request) (req : T) (body : B) : error + T :=
  if_ negb (GoStd.Contains (ContentTypeHeader r) ContentType)
  return_ inl (WrapE apiutil.ErrValidation (Some apiutil.ErrUnsupportedContentType)) ;;
  decodeJSON req body.

(** ** Responses *)
Definition StatusOK : Z := 200.
Definition StatusCreated : Z := 201.
Definition StatusNoContent : Z := 204.
Definition StatusBadRequest : Z := 400.
(** supermq.Response: the code, the headers, and whether there is no body. *)
Class Response (R : Type) := {
  Code : R -> Z; Headers : R -> list (string * string); Empty : R -> bool }.
Record answer (R : Type) := MkAnswer { status : Z; headers : list (string * string); body : option R; message : option string }.
Arguments MkAnswer {R}. Arguments status {R}. Arguments headers {R}. Arguments body {R}. Arguments message {R}.
Definition EncodeResponse {R} `{Response R} (r : R) : answer R :=
  MkAnswer (Code r) (Headers r ++ [("Content-Type", ContentType)]) (if Empty r then None else Some r) None.
Definition encodeError {R} (e : error) : answer R :=
  MkAnswer (EncodeError e).1 [("Content-Type", ContentType)] None (EncodeError e).2.

(** [session, ok := ctx.Value(authn.SessionKey).(authn.Session)] *)
Notation "x <-ctx o 'or_return' r ;; k" := (match o with Some x => k | None => r end)
  (at level 20, o at level 99, r at level 99, k at level 200) : go_scope.

(** kithttp.Server.ServeHTTP; when the endpoint panics the connection is
    closed without an answer. *)
Definition handle {W B T R} `{Response R} (decode : Request -> B -> error + T)
    (endpoint : option authn.Session -> T -> St W (option (error + R)))
    (ctx : option authn.Session) (r : Request) (b : B) : St W (option (answer R)) :=
  match decode r b with
  | inl err => pret (encodeError err)
  | inr req =>
      res <~ endpoint ctx req ;;
      match res with
      | inl err => pret (encodeError err)
      | inr res => pret (EncodeResponse res)
      end
  end.
Record route (W B R : Type) := MkRoute {
  method : string; path : string; serve : option authn.Session -> Request -> B -> St W (option (answer R)) }.
Arguments MkRoute {W B R}. Arguments method {W B R}. Arguments path {W B R}. Arguments serve {W B R}.
Definition GET := "GET".
Definition POST := "POST".
Definition PUT := "PUT".
Definition PATCH := "PATCH".
Definition DELETE := "DELETE".
End http.

(** ** What the theorems about the layers share *)
Module http_theory.
Import http.

Lemma not_empty_list {A} (l : list A) : Nat.eqb (length l) 0 = false -> l <> [].
Proof. destruct l; done. Qed.
Lemma id_test_ok (id : string) (a : err) : (if_ id =s "" return_ Some a ;; None) = None -> id <> "".
Proof. destruct (id =s "") eqn:E; [done|]. by go_bool. Qed.
Lemma two_tests_ok (id id' : string) (a a' : err) :
  (if_ id =s "" return_ Some a ;; if_ id' =s "" return_ Some a' ;; None) = None -> id <> "" /\ id' <> "".
Proof. destruct (id =s "") eqn:E; [done|]. destruct (id' =s "") eqn:E'; [done|]. by go_bool. Qed.

(** The tests of a page. *)
Definition limit_ok (limit : N) : Prop := (1 <= limit <= 100)%N.
Definition name_ok (name : string) : Prop := (String.length name <= MaxNameSize)%nat.
Definition order_ok (order : string) : Prop := order ∈ [""; "name"; "created_at"; "updated_at"].
Definition dir_ok (dir : string) : Prop := dir ∈ [""; "asc"; "desc"].
Lemma limit_test_ok limit : N.ltb MaxLimitSize limit || N.ltb limit 1 = false -> limit_ok limit.
Proof.
  intros H. apply orb_false_iff in H as [L1 L2]. apply N.ltb_ge in L1, L2. unfold limit_ok, MaxLimitSize in *. lia.
Qed.
Lemma name_test_ok name : Nat.ltb MaxNameSize (String.length name) = false -> name_ok name.
Proof. intros H. by apply Nat.ltb_ge in H. Qed.
Lemma order_test_ok order : negb (existsb (String.eqb order) [""; NameOrder; CreatedAtOrder; UpdatedAtOrder]) = false -> order_ok order.
Proof. intros H. apply negb_false_iff, existsb_exists in H as (o&I&E). go_bool. subst o. by apply list_elem_of_In. Qed.
Lemma dir_test_ok dir : (dir <>s "") && ((dir <>s DescDir) && (dir <>s AscDir)) = false -> dir_ok dir.
Proof.
  intros H. apply andb_false_iff in H as [D|D]; [|apply andb_false_iff in D as [D|D]]; go_bool; rewrite D; unfold dir_ok; set_solver.
Qed.

(** [guards H]: the tests that a validation [H], which passes, has made. *)
Lemma guard_ok (b : bool) (a : err) (k : error) : (if_ b return_ Some a ;; k) = None -> b = false /\ k = None.
Proof. by destruct b. Qed.
Ltac guards H := repeat (apply guard_ok in H as [? H]);
  repeat match goal with L : _ || N.ltb _ 1 = false |- _ => apply limit_test_ok in L end; go_bool.

Definition uuid_ok (uuid : messaging.uuidlib) (id : string) : Prop := messaging.FromString uuid id = (id, None).
Lemma ValidateUUID_spec uuid id : ValidateUUID uuid id = None <-> uuid_ok uuid id.
Proof.
  unfold ValidateUUID, uuid_ok. destruct (messaging.FromString uuid id) as [i e]; destruct (i =s id) eqn:E, e; cbn;
    go_bool; split; intros; simplify_eq; done.
Qed.
Lemma validateIDs_ok uuid ids (k : error) : validateIDs uuid ids k = None -> Forall (uuid_ok uuid) ids /\ k = None.
Proof.
  induction ids as [|id ids IH]; cbn; intros H; [done|].
  destruct (ValidateUUID uuid id) eqn:U; [done|]. apply ValidateUUID_spec in U. destruct (IH H). auto.
Qed.
Lemma ValidateRoute_None route : ValidateRoute route = None ->
  routeRegExp route = true /\ GoStd.Contains route "__" = false /\ GoStd.Contains route "--" = false.
Proof. unfold ValidateRoute. intros H. go_cases; go_bool; done. Qed.

(** An endpoint: past the validation, and with a session, two services that
    agree on the call answer alike. *)
Lemma endpoint_agree {W A R} (check : error) (reject : St W (option (error + R))) (ctx : option authn.Session)
    (none : St W (option (error + R))) (m m' : authn.Session -> St W A) (k : A -> St W (option (error + R))) :
  (check = None -> forall s, m s = m' s) ->
  (if_err check return_ reject ;; s <-ctx ctx or_return none ;; x <~ call (m s) ;; k x)
  = (if_err check return_ reject ;; s <-ctx ctx or_return none ;; x <~ call (m' s) ;; k x).
Proof. intros H. destruct check; [done|]. destruct ctx as [s|]; [|done]. by rewrite H. Qed.

(** Two routes that answer every request alike. *)
Definition same_route {W B R} (r r' : route W B R) : Prop :=
  method r = method r' /\ path r = path r' /\ forall ctx req b, serve r ctx req b = serve r' ctx req b.
Lemma same_handle {W B R T} `{Response R} m p (decode : Request -> B -> error + T)
    (e e' : option authn.Session -> T -> St W (option (error + R))) :
  (forall ctx req, e ctx req = e' ctx req) -> same_route (MkRoute m p (handle decode e)) (MkRoute m p (handle decode e')).
Proof.
  intros E. repeat split. intros ctx r b. cbn. unfold handle. destruct (decode r b); [done|]. by rewrite E.
Qed.
End http_theory.
