(* ===== verification/Users.v ===== *)
(** * users: the users service, its private service and the delete handler

    Source: src/users/users.go, status.go, roles.go, verification.go,
    service.go, delete_handler.go, private/service.go.  The repository, the
    token client, the hasher, the mailer, encoding/json and net/mail are
    parameters. *)

From S2P Require Import Prelude GoStd Errors Policies Authn Roles Pat Connections.

Module users.
Import policies.

(** ** src/users/status.go, roles.go *)
Definition EnabledStatus : N := 0.
Definition DisabledStatus : N := 1.
Definition DeletedStatus : N := 2.
Definition AllStatus : N := 3.
Definition Disabled := "disabled".
Definition Enabled := "enabled".
Definition Deleted := "deleted".
Definition All := "all".
Definition Unknown := "unknown".

Definition Status_String (s : N) : string :=
  if N.eqb s DisabledStatus then Disabled
  else if N.eqb s EnabledStatus then Enabled
  else if N.eqb s DeletedStatus then Deleted
  else if N.eqb s AllStatus then All
  else Unknown.
Definition ToStatus (status : string) : N * error :=
  if (status =s "") || (status =s Enabled) then (EnabledStatus, None)
  else if status =s Disabled then (DisabledStatus, None)
  else if status =s Deleted then (DeletedStatus, None)
  else if status =s All then (AllStatus, None)
  else (0%N, Some svcerr.ErrInvalidStatus).

Definition UserRole : N := 0.
Definition AdminRole : N := 1.
Definition AllRole : N := 2.
Definition Admin := "admin".
Definition user := "user".
Definition Role_String (r : N) : string :=
  if N.eqb r AdminRole then Admin
  else if N.eqb r UserRole then user
  else if N.eqb r AllRole then All
  else Unknown.
Definition ToRole (status : string) : N * error :=
  if (status =s "") || (status =s user) then (UserRole, None)
  else if status =s Admin then (AdminRole, None)
  else if status =s All then (AllRole, None)
  else (0%N, Some apiutil.ErrInvalidRole).

(** ** src/users/users.go *)
Record Credentials := MkCredentials { Username : string; Secret : string }.
#[global] Instance Credentials_fields : Fields Credentials := fun c => MkCredentials (Username c) (Secret c).
Definition Credentials0 : Credentials := MkCredentials "" "".

Record User := MkUser {
  ID : string; FirstName : string; LastName : string; Tags : list string;
  u_Metadata : Metadata; PrivateMetadata : Metadata; Status : N; Role : N;
  ProfilePicture : string; Creds : Credentials; Permissions : list string; Email : string;
  CreatedAt : Time; UpdatedAt : Time; UpdatedBy : string; VerifiedAt : Time; AuthProvider : string }.
#[global] Instance User_fields : Fields User := fun u =>
  MkUser (ID u) (FirstName u) (LastName u) (Tags u) (u_Metadata u) (PrivateMetadata u) (Status u) (Role u)
    (ProfilePicture u) (Creds u) (Permissions u) (Email u) (CreatedAt u) (UpdatedAt u) (UpdatedBy u)
    (VerifiedAt u) (AuthProvider u).
Definition User0 : User :=
  MkUser "" "" "" [] None None 0 0 "" Credentials0 [] "" zeroTime zeroTime "" zeroTime "".

(** The pointers of a request: [None] is nil. *)
Record UserReq := MkUserReq {
  r_FirstName : option string; r_LastName : option string; r_Metadata : option Metadata;
  r_PrivateMetadata : option Metadata; r_Tags : option (list string); r_ProfilePicture : option string;
  r_UpdatedBy : option string; r_UpdatedAt : option Time }.
#[global] Instance UserReq_fields : Fields UserReq := fun r =>
  MkUserReq (r_FirstName r) (r_LastName r) (r_Metadata r) (r_PrivateMetadata r) (r_Tags r) (r_ProfilePicture r)
    (r_UpdatedBy r) (r_UpdatedAt r).
Definition UserReq0 : UserReq := MkUserReq None None None None None None None None.

Definition OrOp : N := 0.
Definition AndOp : N := 1.
Record TagsQuery := MkTagsQuery { Elements : list string; Operator : N }.
Definition ToTagsQuery (s : string) : TagsQuery :=
  if GoStd.Contains s "+" then MkTagsQuery (TrimSpace <$> Split s "+") AndOp
  else if GoStd.Contains s "," then MkTagsQuery (TrimSpace <$> Split s ",") OrOp
  else MkTagsQuery [s] OrOp.

Record Page := MkPage {
  Total : N; Offset : N; Limit : N; OnlyTotal : bool; p_Id : string; Order : string; Dir : string;
  p_Metadata : Metadata; p_Domain : string; p_Tags : TagsQuery; p_Permission : string; p_Status : N;
  IDs : list string; p_Role : N; ListPerms : bool; p_Username : string; p_FirstName : string;
  p_LastName : string; p_Email : string; Verified : bool; CreatedFrom : Time; CreatedTo : Time }.
#[global] Instance Page_fields : Fields Page := fun p =>
  MkPage (Total p) (Offset p) (Limit p) (OnlyTotal p) (p_Id p) (Order p) (Dir p) (p_Metadata p) (p_Domain p)
    (p_Tags p) (p_Permission p) (p_Status p) (IDs p) (p_Role p) (ListPerms p) (p_Username p) (p_FirstName p)
    (p_LastName p) (p_Email p) (Verified p) (CreatedFrom p) (CreatedTo p).
Definition Page0 : Page :=
  MkPage 0 0 0 false "" "" "" None "" (MkTagsQuery [] 0) "" 0 [] 0 false "" "" "" "" false zeroTime zeroTime.
Record UsersPage := MkUsersPage { up_Page : Page; Users : list User }.
Definition UsersPage0 : UsersPage := MkUsersPage Page0 [].

(** ** src/users/verification.go *)
Definition VerificationExpiryDuration : Z := 24 * Hour.
Definition errFailedToCreateUserVerification : err :=
  Sentinel "users.errFailedToCreateUserVerification" CustomError "failed to create new user verification".
Definition errFailedToEncodeUserVerification : err :=
  Sentinel "users.errFailedToEncodeUserVerification" CustomError "failed to encode user verification".
Definition errFailedToDecodeUserVerification : err :=
  Sentinel "users.errFailedToDecodeUserVerification" CustomError "failed to decode user verification".

Record UserVerification := MkUserVerification {
  UserID : string; v_Email : string; OTP : string;
  v_CreatedAt : Time; ExpiresAt : Time; UsedAt : Time }.
#[global] Instance UserVerification_fields : Fields UserVerification := fun v =>
  MkUserVerification (UserID v) (v_Email v) (OTP v) (v_CreatedAt v) (ExpiresAt v) (UsedAt v).
Definition UserVerification0 : UserVerification := MkUserVerification "" "" "" zeroTime zeroTime zeroTime.

(** encoding/json on the record: the three identifiers are written and read,
    the times are not ("-"). *)
Record jsonlib := {
  Marshal : UserVerification -> list ascii * error;
  Unmarshal : list ascii -> (string * string * string) * error }.

Section verification.
Context {W : Type} (now : St W Time) (rand_Read : nat -> St W (list ascii * error)) (J : jsonlib).

Definition NewUserVerification (userID email : string) : St W (UserVerification * error) :=
  '(randomBytes, e) <- rand_Read 32 ;;
  if_err e return_ ret (UserVerification0, WrapE errFailedToCreateUserVerification e) ;;
  created <- now ;;
  expires <- now ;;
  ret (MkUserVerification userID email (URLEncoding.EncodeToString randomBytes) created
         (expires + VerificationExpiryDuration)%Z zeroTime, None).

Definition Encode (u : UserVerification) : string * error :=
  let (jsonBytes, e) := Marshal J u in
  if_err e return_ ("", WrapE errFailedToEncodeUserVerification e) ;;
  (URLEncoding.EncodeToString jsonBytes, None).

Definition Decode (data : string) : UserVerification * error :=
  match URLEncoding.DecodeString data with
  | None => (UserVerification0, WrapE errFailedToDecodeUserVerification (Some authn.CorruptInputError))
  | Some decodedPayload =>
      let '((uid, email, otp), e) := Unmarshal J decodedPayload in
      let u := MkUserVerification uid email otp zeroTime zeroTime zeroTime in
      if_err e return_ (u, WrapE errFailedToDecodeUserVerification e) ;;
      if_ (uid =s "") || (email =s "") || (otp =s "") return_ (u, Some svcerr.ErrInvalidUserVerification) ;;
      (u, None)
  end.

Definition Valid (u : UserVerification) : St W error :=
  if_ (UserID u =s "") || (v_Email u =s "") || (OTP u =s "") return_ ret (Some svcerr.ErrInvalidUserVerification) ;;
  if_ IsZero (v_CreatedAt u) return_ ret (Some svcerr.ErrInvalidUserVerification) ;;
  if_ IsZero (ExpiresAt u) return_ ret (Some svcerr.ErrInvalidUserVerification) ;;
  if_ Before (ExpiresAt u) (v_CreatedAt u) return_ ret (Some svcerr.ErrInvalidUserVerification) ;;
  t <- now ;;
  if_ After t (ExpiresAt u) return_ ret (Some svcerr.ErrUserVerificationExpired) ;;
  if_ negb (IsZero (UsedAt u)) return_ ret (Some svcerr.ErrUserVerificationExpired) ;;
  ret None.

Definition Match (u ruv : UserVerification) : error :=
  if_ UserID u <>s UserID ruv return_ Some svcerr.ErrInvalidUserVerification ;;
  if_ v_Email u <>s v_Email ruv return_ Some svcerr.ErrInvalidUserVerification ;;
  if_ OTP u <>s OTP ruv return_ Some svcerr.ErrInvalidUserVerification ;;
  None.
End verification.

Record Repository (W : Type) := {
  RetrieveByID : string -> St W (User * error);
  RetrieveAll : Page -> St W (UsersPage * error);
  RetrieveByEmail : string -> St W (User * error);
  RetrieveByUsername : string -> St W (User * error);
  repo_Update : string -> UserReq -> St W (User * error);
  repo_UpdateUsername : User -> St W (User * error);
  repo_UpdateSecret : User -> St W (User * error);
  repo_UpdateEmail : User -> St W (User * error);
  repo_UpdateRole : User -> St W (User * error);
  UpdateVerifiedAt : User -> St W (User * error);
  ChangeStatus : User -> St W (User * error);
  repo_Delete : string -> St W error;
  repo_SearchUsers : Page -> St W (UsersPage * error);
  RetrieveAllByIDs : Page -> St W (UsersPage * error);
  CheckSuperAdmin : string -> St W error;
  Save : User -> St W (User * error);
  AddUserVerification : UserVerification -> St W error;
  RetrieveUserVerification : string -> string -> St W (UserVerification * error);
  UpdateUserVerification : UserVerification -> St W error }.
Arguments RetrieveByID {W}. Arguments RetrieveAll {W}. Arguments RetrieveByEmail {W}.
Arguments RetrieveByUsername {W}. Arguments repo_Update {W}. Arguments repo_UpdateUsername {W}.
Arguments repo_UpdateSecret {W}. Arguments repo_UpdateEmail {W}. Arguments repo_UpdateRole {W}.
Arguments UpdateVerifiedAt {W}. Arguments ChangeStatus {W}. Arguments repo_Delete {W}.
Arguments repo_SearchUsers {W}. Arguments RetrieveAllByIDs {W}. Arguments CheckSuperAdmin {W}.
Arguments Save {W}. Arguments AddUserVerification {W}. Arguments RetrieveUserVerification {W}.
Arguments UpdateUserVerification {W}.

(** ** Usernames of users that come from an OAuth provider *)
Definition defaultUsernamePrefix := "user".

Definition in_range (a b c : ascii) : bool :=
  N.leb (N_of_ascii a) (N_of_ascii c) && N.leb (N_of_ascii c) (N_of_ascii b).
Definition is_alnum (c : ascii) : bool := in_range "a" "z" c || in_range "0" "9" c.
Definition is_dash (c : ascii) : bool := (c =c "-") || (c =c "_").

(** usernameRegExp: ^[a-z0-9][a-z0-9_-]{34}[a-z0-9]$ *)
Definition usernameRegExp_matches (l : list ascii) : bool :=
  (length l =? 36) && forallb (fun c => is_alnum c || is_dash c) l
  && match head l with Some c => is_alnum c | None => false end
  && match last l with Some c => is_alnum c | None => false end.

(** The loop of sanitizeForUsername with [lastChar], a byte that is 0 at the
    start and after any other character. *)
Fixpoint filter_chars (lastChar : N) (l : list ascii) : list ascii :=
  match l with
  | [] => []
  | c :: l =>
      if is_alnum c || is_dash c then
        if is_dash c && N.eqb (N_of_ascii c) lastChar then filter_chars lastChar l
        else c :: filter_chars (N_of_ascii c) l
      else filter_chars 0 l
  end.

Definition sanitizeForUsername (s : string) (maxLen : nat) : string :=
  if_ s =s "" return_ "" ;;
  let s := ToLower s in
  let cleaned := str (filter_chars 0 (chars s)) in
  let cleaned := Trim cleaned "-_" in
  if maxLen <? length (chars cleaned) then TrimRight (str (take maxLen (chars cleaned))) "-_" else cleaned.

(** strings.Split with a separator has at least one part. *)
Definition extractEmailPrefix (email : string) : string :=
  match Split email "@" with
  | [] => defaultUsernamePrefix
  | prefix :: _ =>
      let cleaned := if usernameRegExp_matches (chars prefix) then "" else prefix in
      let cleaned := sanitizeForUsername cleaned 15 in
      if cleaned =s "" then defaultUsernamePrefix else cleaned
  end.

Definition hex_digit (n : N) : ascii := nth (N.to_nat n) (chars "0123456789abcdef") "0"%char.
Fixpoint hex_bytes (l : list ascii) : list ascii :=
  match l with
  | [] => []
  | c :: l => hex_digit (N_of_ascii c / 16) :: hex_digit (N_of_ascii c mod 16) :: hex_bytes l
  end.
(** fmt "%x" of a non-negative number, by [fuel] digits. *)
Fixpoint hex_number (fuel : nat) (n : N) (acc : list ascii) : list ascii :=
  match fuel with
  | O => acc
  | S fuel =>
      let acc := hex_digit (n mod 16) :: acc in
      if N.ltb n 16 then acc else hex_number fuel (n / 16) acc
  end.
Definition hex_time (t : Time) : list ascii :=
  if Z.ltb t 0 then "-"%char :: hex_number 16 (Z.to_N (- t)) [] else hex_number 16 (Z.to_N t) [].
(** [s[:10]] *)
Definition first10 (l : list ascii) : option string := if length l <? 10 then None else Some (str (take 10 l)).

Section username.
Context {W : Type} (now : St W Time) (rand_Read : nat -> St W (list ascii * error)) (NewV4 : St W (list ascii * error)).

(** [None] is a panic; UnixNano is the time itself, 64 bits wide. *)
Definition generateRandomID : St W (option string) :=
  '(randomBytes, e) <- rand_Read 8 ;;
  match e with
  | None => ret (first10 (hex_bytes randomBytes))
  | Some _ =>
      '(id, uuidErr) <- NewV4 ;;
      match uuidErr with
      | Some _ => t <- now ;; ret (first10 (hex_time t))
      | None => ret (first10 (hex_bytes id))
      end
  end.

Definition generateUsername (email : string) : St W (option string) :=
  uniqueSuffix <~ generateRandomID ;;
  pret (extractEmailPrefix email +:+ "_" +:+ uniqueSuffix).
End username.

(** ** src/users/service.go *)
Definition errIssueToken : err := Sentinel "users.errIssueToken" ServiceError "failed to issue token".
Definition errRecoveryToken : err :=
  Sentinel "users.errRecoveryToken" ServiceError "failed to generate password recovery token".
Definition errLoginDisableUser : err := Sentinel "users.errLoginDisableUser" AuthNError "failed to login in disabled user".
Definition errMatchUserVerification : err :=
  Sentinel "users.errMatchUserVerification" RequestError "user verification does not match with stored verification".
Definition errSimilarUpdateEmail : err :=
  Sentinel "users.errSimilarUpdateEmail" RequestError "new email is similar to the current email".

(** The messages of the token service. *)
Record IssueReq := MkIssueReq {
  iss_UserId : string; iss_UserRole : N; iss_Type : N; iss_Verified : bool; iss_Description : string }.
Record Token := MkToken { AccessToken : string; RefreshToken_ : option string; AccessType : string }.
Definition Token0 : Token := MkToken "" None "".
Record RefreshTokenInfo := MkRefreshTokenInfo { tok_Id : string; tok_Description : string }.
Record TokenServiceClient (W : Type) := {
  token_Issue : IssueReq -> St W (Token * error);
  token_Refresh : string -> bool -> St W (Token * error);
  token_Revoke : string -> string -> St W error;
  token_ListUserRefreshTokens : string -> St W (list RefreshTokenInfo * error) }.
Arguments token_Issue {W}. Arguments token_Refresh {W}. Arguments token_Revoke {W}.
Arguments token_ListUserRefreshTokens {W}.

Record Emailer (W : Type) := {
  email_SendPasswordReset : list string -> string -> string -> St W error;
  email_SendVerification : list string -> string -> string -> St W error }.
Arguments email_SendPasswordReset {W}. Arguments email_SendVerification {W}.

Record service (W : Type) := {
  token : TokenServiceClient W;
  users_ : Repository W;
  idProvider : St W (string * error);
  policy : PolicyService W;
  hasher : keys.Hasher W;
  email : Emailer W }.
Arguments token {W}. Arguments users_ {W}. Arguments idProvider {W}. Arguments policy {W}.
Arguments hasher {W}. Arguments email {W}.

Definition changed (updated : option string) (old : string) : bool :=
  match updated with None => false | Some u => u <>s old end.

Section service.
Context {W : Type} (now : St W Time) (rand_Read : nat -> St W (list ascii * error)) (NewV4 : St W (list ascii * error)).
(** mail.ParseAddress accepts the text. *)
Context (J : jsonlib) (ParseAddress : string -> bool).
Context (svc : service W).

Definition checkSuperAdmin (session : authn.Session) : St W error :=
  if negb (authn.SuperAdmin session) then
    e <- CheckSuperAdmin (users_ svc) (authn.UserID session) ;;
    if_err e return_ ret (WrapE svcerr.ErrAuthorization e) ;;
    ret None
  else ret None.

(** [if session.UserID != id { checkSuperAdmin }] *)
Definition checkSelf (session : authn.Session) (id : string) : St W error :=
  if authn.UserID session <>s id then checkSuperAdmin session else ret None.

Definition memberPolicy (userID : string) : Policy :=
  Policy0 <| SubjectType := UserType |> <| Subject := userID |> <| Relation := MemberRelation |>
    <| ObjectType := PlatformType |> <| Object := SuperMQObject |>.
Definition adminPolicy (userID : string) : Policy :=
  Policy0 <| SubjectType := UserType |> <| Subject := userID |> <| Relation := AdministratorRelation |>
    <| ObjectType := PlatformType |> <| Object := SuperMQObject |>.
Definition userPolicies (userID : string) (role : N) : list Policy :=
  [memberPolicy userID] ++ (if N.eqb role AdminRole then [adminPolicy userID] else []).

Definition addUserPolicy (userID : string) (role : N) : St W error :=
  e <- AddPolicies (policy svc) (userPolicies userID role) ;;
  if_err e return_ ret (WrapE svcerr.ErrAddPolicies e) ;;
  ret None.
Definition addUserPolicyRollback (userID : string) (role : N) : St W error :=
  e <- DeletePolicies (policy svc) (userPolicies userID role) ;;
  if_err e return_ ret (WrapE svcerr.ErrDeletePolicies e) ;;
  ret None.

Definition updateUserPolicy (userID : string) (role : N) : St W error :=
  if N.eqb role AdminRole then
    e <- AddPolicy (policy svc) (adminPolicy userID) ;;
    if_err e return_ ret (WrapE svcerr.ErrAddPolicies e) ;;
    ret None
  else
    e <- DeletePolicyFilter (policy svc) (adminPolicy userID) ;;
    if_err e return_ ret (WrapE svcerr.ErrDeletePolicies e) ;;
    ret None.

Definition hashSecret (u : User) : St W (User * error) :=
  if Secret (Creds u) <>s "" then
    '(hash, e) <- keys.Hash (hasher svc) (Secret (Creds u)) ;;
    if_err e return_ ret (User0, WrapE svcerr.ErrHashPassword e) ;;
    ret (u <| Creds := (Creds u) <| Secret := hash |> |>, None)
  else ret (u, None).

(** The deferred function of Register. *)
Definition rollbackRegister (u : User) (retErr : error) : St W error :=
  errRollback <- addUserPolicyRollback (ID u) (Role u) ;;
  if_err errRollback return_ ret (Wrap (WrapE apiutil.ErrRollbackTx errRollback) retErr) ;;
  ret retErr.

Definition Register (session : authn.Session) (u : User) (selfRegister : bool) : St W (User * error) :=
  e <- (if selfRegister then ret None else checkSuperAdmin session) ;;
  if_err e return_ ret (User0, e) ;;
  '(userID, e) <- idProvider svc ;;
  if_err e return_ ret (User0, WrapE svcerr.ErrIssueProviderID e) ;;
  '(u, e) <- hashSecret u ;;
  if_err e return_ ret (User0, e) ;;
  if_ negb (N.eqb (Status u) DisabledStatus) && negb (N.eqb (Status u) EnabledStatus)
    return_ ret (User0, Some svcerr.ErrInvalidStatus) ;;
  if_ negb (N.eqb (Role u) UserRole) && negb (N.eqb (Role u) AdminRole)
    return_ ret (User0, Some svcerr.ErrInvalidRole) ;;
  t <- now ;;
  let u := u <| ID := userID |> <| CreatedAt := t |> in
  e <- addUserPolicy (ID u) (Role u) ;;
  if_err e return_ ret (User0, WrapE svcerr.ErrAddPolicies e) ;;
  defer_err (
    '(user, e) <- Save (users_ svc) u ;;
    if_err e return_ ret (User0, WrapE svcerr.ErrCreateEntity e) ;;
    ret (user, None)) (rollbackRegister u).

Definition SendVerification (session : authn.Session) : St W error :=
  '(dbUser, e) <- RetrieveByID (users_ svc) (authn.UserID session) ;;
  if_err e return_ ret (WrapE svcerr.ErrViewEntity e) ;;
  if_ negb (IsZero (VerifiedAt dbUser)) return_ ret (Some svcerr.ErrUserAlreadyVerified) ;;
  '(uv, e) <- RetrieveUserVerification (users_ svc) (ID dbUser) (Email dbUser) ;;
  if_ negb (is_nil e) && negb (is_sentinel e repoerr.ErrNotFound) return_ ret (WrapE svcerr.ErrCreateEntity e) ;;
  e <- Valid now uv ;;
  '(uv, e) <- (match e with
    | None => ret (uv, None)
    | Some _ =>
        '(uv, e) <- NewUserVerification now rand_Read (ID dbUser) (Email dbUser) ;;
        if_err e return_ ret (uv, WrapE svcerr.ErrCreateEntity e) ;;
        e <- AddUserVerification (users_ svc) uv ;;
        if_err e return_ ret (uv, WrapE svcerr.ErrCreateEntity e) ;;
        ret (uv, None)
    end) ;;
  if_err e return_ ret e ;;
  let (uvs, e) := Encode J uv in
  if_err e return_ ret (WrapE svcerr.ErrCreateEntity e) ;;
  e <- email_SendVerification (email svc) [Email dbUser] (Username (Creds dbUser)) uvs ;;
  if_err e return_ ret (WrapE svcerr.ErrCreateEntity e) ;;
  ret None.

Definition VerifyEmail (tok : string) : St W (User * error) :=
  let (received, e) := Decode J tok in
  if_err e return_ ret (User0, WrapE svcerr.ErrInvalidUserVerification e) ;;
  '(stored, e) <- RetrieveUserVerification (users_ svc) (UserID received) (v_Email received) ;;
  if_err e return_ ret (User0, WrapE svcerr.ErrViewEntity e) ;;
  if_err Match stored received return_ ret (User0, WrapE errMatchUserVerification (Match stored received)) ;;
  e <- Valid now stored ;;
  if_err e return_ (
    if is_sentinel e svcerr.ErrUserVerificationExpired then ret (User0, e)
    else ret (User0, WrapE svcerr.ErrMalformedEntity e)) ;;
  t <- now ;;
  let stored := stored <| UsedAt := t |> in
  e <- UpdateUserVerification (users_ svc) stored ;;
  if_err e return_ ret (User0, WrapE svcerr.ErrUpdateEntity e) ;;
  t <- now ;;
  '(user, e) <- UpdateVerifiedAt (users_ svc)
    (User0 <| ID := UserID stored |> <| Email := v_Email stored |> <| VerifiedAt := t |>) ;;
  if_ is_sentinel e repoerr.ErrNotFound return_ ret (User0, Some svcerr.ErrInvalidUserVerification) ;;
  if_err e return_ ret (User0, WrapE svcerr.ErrUpdateEntity e) ;;
  ret (user, None).

(** A uint8 in Go: the sum wraps around. *)
Definition tokenRole (r : N) : N := connections.uint8 (r + 1).

Definition IssueToken (identity secret description : string) : St W (Token * error) :=
  '(dbUser, e) <- (if ParseAddress identity then RetrieveByEmail (users_ svc) identity
                   else RetrieveByUsername (users_ svc) identity) ;;
  if_ is_sentinel e repoerr.ErrNotFound return_ ret (Token0, WrapE svcerr.ErrLogin e) ;;
  if_err e return_ ret (Token0, WrapE svcerr.ErrAuthentication e) ;;
  e <- keys.Compare (hasher svc) secret (Secret (Creds dbUser)) ;;
  if_err e return_ ret (Token0, WrapE svcerr.ErrLogin e) ;;
  '(tok, e) <- token_Issue (token svc) (MkIssueReq (ID dbUser) (tokenRole (Role dbUser)) keys.AccessKey
                 (negb (IsZero (VerifiedAt dbUser))) description) ;;
  if_err e return_ ret (Token0, WrapE errIssueToken e) ;;
  ret (tok, None).

(** The user of the session, who may not be disabled. *)
Definition retrieveActive (session : authn.Session) : St W (User * error) :=
  '(dbUser, e) <- RetrieveByID (users_ svc) (authn.UserID session) ;;
  if_err e return_ ret (User0, WrapE svcerr.ErrAuthentication e) ;;
  if_ N.eqb (Status dbUser) DisabledStatus
    return_ ret (User0, WrapE svcerr.ErrAuthentication (Some errLoginDisableUser)) ;;
  ret (dbUser, None).

Definition RefreshToken (session : authn.Session) (refreshToken : string) : St W (Token * error) :=
  '(dbUser, e) <- retrieveActive session ;;
  if_err e return_ ret (Token0, e) ;;
  '(tok, e) <- token_Refresh (token svc) refreshToken (negb (IsZero (VerifiedAt dbUser))) ;;
  if_err e return_ ret (Token0, WrapE errIssueToken e) ;;
  ret (tok, None).

Definition RevokeRefreshToken (session : authn.Session) (tokenID : string) : St W error :=
  '(_, e) <- retrieveActive session ;;
  if_err e return_ ret e ;;
  e <- token_Revoke (token svc) (authn.UserID session) tokenID ;;
  if_err e return_ (
    if Errors.Contains e (Some svcerr.ErrNotFound) then ret (WrapE svcerr.ErrNotFound e)
    else ret (WrapE svcerr.ErrRemoveEntity e)) ;;
  ret None.

Definition ListActiveRefreshTokens (session : authn.Session) : St W (list RefreshTokenInfo * error) :=
  '(_, e) <- retrieveActive session ;;
  if_err e return_ ret ([], e) ;;
  '(toks, e) <- token_ListUserRefreshTokens (token svc) (authn.UserID session) ;;
  if_err e return_ ret ([], WrapE svcerr.ErrAuthentication e) ;;
  ret (toks, None).

(** A user who is neither the one asked for nor an administrator sees the
    public fields. *)
Definition View (session : authn.Session) (id : string) : St W (User * error) :=
  '(user, e) <- RetrieveByID (users_ svc) id ;;
  if_err e return_ ret (User0, WrapE svcerr.ErrViewEntity e) ;;
  e <- checkSelf session id ;;
  match e with
  | Some _ =>
      ret (User0 <| FirstName := FirstName user |> <| LastName := LastName user |> <| ID := ID user |>
             <| u_Metadata := u_Metadata user |> <| Creds := MkCredentials (Username (Creds user)) "" |>, None)
  | None => ret (user <| Creds := (Creds user) <| Secret := "" |> |>, None)
  end.

Definition ViewProfile (session : authn.Session) : St W (User * error) :=
  '(user, e) <- RetrieveByID (users_ svc) (authn.UserID session) ;;
  if_err e return_ ret (User0, WrapE svcerr.ErrViewEntity e) ;;
  ret (user <| Creds := (Creds user) <| Secret := "" |> |>, None).

Definition ListUsers (session : authn.Session) (pm : Page) : St W (UsersPage * error) :=
  e <- checkSuperAdmin session ;;
  if_err e return_ ret (UsersPage0, e) ;;
  '(pg, e) <- RetrieveAll (users_ svc) (pm <| p_Role := AllRole |>) ;;
  if_err e return_ ret (UsersPage0, WrapE svcerr.ErrViewEntity e) ;;
  ret (pg, None).

Definition SearchUsers (pm : Page) : St W (UsersPage * error) :=
  let page := Page0 <| Offset := Offset pm |> <| Limit := Limit pm |> <| p_FirstName := p_FirstName pm |>
    <| p_LastName := p_LastName pm |> <| p_Username := p_Username pm |> <| p_Id := p_Id pm |>
    <| p_Role := UserRole |> in
  '(cp, e) <- repo_SearchUsers (users_ svc) page ;;
  if_err e return_ ret (UsersPage0, WrapE svcerr.ErrViewEntity e) ;;
  ret (cp, None).

Definition saveReq (session : authn.Session) (id : string) (usr : UserReq) : St W (User * error) :=
  t <- now ;;
  '(user, e) <- repo_Update (users_ svc) id
    (usr <| r_UpdatedAt := Some t |> <| r_UpdatedBy := Some (authn.UserID session) |>) ;;
  if_err e return_ ret (User0, WrapE svcerr.ErrUpdateEntity e) ;;
  ret (user, None).

Definition Update (session : authn.Session) (id : string) (usr : UserReq) : St W (User * error) :=
  e <- checkSelf session id ;;
  if_err e return_ ret (User0, e) ;;
  '(u, e) <- RetrieveByID (users_ svc) id ;;
  if_err e return_ ret (User0, WrapE svcerr.ErrUpdateEntity e) ;;
  if_ (AuthProvider u <>s "") && (changed (r_FirstName usr) (FirstName u) || changed (r_LastName usr) (LastName u)
        || changed (r_ProfilePicture usr) (ProfilePicture u))
    return_ ret (User0, Some svcerr.ErrExternalAuthProviderCouldNotUpdate) ;;
  saveReq session id usr.

Definition UpdateTags (session : authn.Session) (id : string) (usr : UserReq) : St W (User * error) :=
  e <- checkSelf session id ;;
  if_err e return_ ret (User0, e) ;;
  saveReq session id usr.

Definition UpdateProfilePicture (session : authn.Session) (id : string) (usr : UserReq) : St W (User * error) :=
  e <- checkSelf session id ;;
  if_err e return_ ret (User0, e) ;;
  '(u, e) <- RetrieveByID (users_ svc) id ;;
  if_err e return_ ret (User0, WrapE svcerr.ErrUpdateEntity e) ;;
  if_ AuthProvider u <>s "" return_ ret (User0, Some svcerr.ErrExternalAuthProviderCouldNotUpdate) ;;
  saveReq session id usr.

Definition UpdateEmail (session : authn.Session) (userID mail : string) : St W (User * error) :=
  e <- checkSelf session userID ;;
  if_err e return_ ret (User0, e) ;;
  '(oldUsr, e) <- RetrieveByID (users_ svc) userID ;;
  if_err e return_ ret (User0, WrapE svcerr.ErrUpdateEntity e) ;;
  if_ AuthProvider oldUsr <>s "" return_ ret (User0, Some svcerr.ErrExternalAuthProviderCouldNotUpdate) ;;
  if_ Email oldUsr =s mail return_ ret (User0, Some errSimilarUpdateEmail) ;;
  t <- now ;;
  '(user, e) <- repo_UpdateEmail (users_ svc)
    (User0 <| ID := userID |> <| Email := mail |> <| UpdatedAt := t |> <| UpdatedBy := authn.UserID session |>
       <| VerifiedAt := zeroTime |>) ;;
  if_err e return_ ret (User0, WrapE svcerr.ErrUpdateEntity e) ;;
  ret (user, None).

Definition SendPasswordReset (mail : string) : St W error :=
  '(user, e) <- RetrieveByEmail (users_ svc) mail ;;
  if_err e return_ ret (WrapE svcerr.ErrViewEntity e) ;;
  '(tok, e) <- token_Issue (token svc) (MkIssueReq (ID user) (tokenRole (Role user)) keys.RecoveryKey false "") ;;
  if_err e return_ ret (WrapE errRecoveryToken e) ;;
  e <- email_SendPasswordReset (email svc) [mail] (Username (Creds user)) (AccessToken tok) ;;
  if_err e return_ ret (Some (NewInternalErrorWithErr e)) ;;
  ret None.

Definition ResetSecret (session : authn.Session) (secret : string) : St W error :=
  '(u, e) <- RetrieveByID (users_ svc) (authn.UserID session) ;;
  if_err e return_ ret (WrapE svcerr.ErrViewEntity e) ;;
  '(secret, e) <- keys.Hash (hasher svc) secret ;;
  if_err e return_ ret (WrapE svcerr.ErrMalformedEntity e) ;;
  t <- now ;;
  '(_, e) <- repo_UpdateSecret (users_ svc)
    (User0 <| ID := ID u |> <| Email := Email u |> <| Creds := MkCredentials "" secret |> <| UpdatedAt := t |>
       <| UpdatedBy := authn.UserID session |>) ;;
  if_err e return_ ret (WrapE svcerr.ErrAuthorization e) ;;
  ret None.

Definition UpdateSecret (session : authn.Session) (oldSecret newSecret : string) : St W (User * error) :=
  '(dbUser, e) <- RetrieveByID (users_ svc) (authn.UserID session) ;;
  if_err e return_ ret (User0, WrapE svcerr.ErrViewEntity e) ;;
  '(_, e) <- IssueToken (Username (Creds dbUser)) oldSecret "" ;;
  if_err e return_ ret (User0, e) ;;
  '(newSecret, e) <- keys.Hash (hasher svc) newSecret ;;
  if_err e return_ ret (User0, WrapE svcerr.ErrMalformedEntity e) ;;
  t <- now ;;
  '(dbUser, e) <- repo_UpdateSecret (users_ svc)
    (dbUser <| Creds := (Creds dbUser) <| Secret := newSecret |> |> <| UpdatedAt := t |>
       <| UpdatedBy := authn.UserID session |>) ;;
  if_err e return_ ret (User0, WrapE svcerr.ErrUpdateEntity e) ;;
  ret (dbUser, None).

Definition UpdateUsername (session : authn.Session) (id username : string) : St W (User * error) :=
  e <- checkSelf session id ;;
  if_err e return_ ret (User0, e) ;;
  t <- now ;;
  '(user, e) <- repo_UpdateUsername (users_ svc)
    (User0 <| ID := id |> <| Creds := MkCredentials username "" |> <| UpdatedAt := t |>
       <| UpdatedBy := authn.UserID session |>) ;;
  if_err e return_ ret (User0, WrapE svcerr.ErrUpdateEntity e) ;;
  ret (user, None).

Definition UpdateRole (session : authn.Session) (usr : User) : St W (User * error) :=
  e <- checkSuperAdmin session ;;
  if_err e return_ ret (User0, e) ;;
  t <- now ;;
  let usr := User0 <| ID := ID usr |> <| Role := Role usr |> <| UpdatedAt := t |>
               <| UpdatedBy := authn.UserID session |> in
  e <- updateUserPolicy (ID usr) (Role usr) ;;
  if_err e return_ ret (User0, e) ;;
  '(u, e) <- repo_UpdateRole (users_ svc) usr ;;
  match e with
  | Some _ =>
      errRollback <- updateUserPolicy (ID usr) UserRole ;;
      if_err errRollback return_ ret (User0, Wrap errRollback e) ;;
      ret (User0, WrapE svcerr.ErrUpdateEntity e)
  | None => ret (u, None)
  end.

Definition changeUserStatus (session : authn.Session) (user : User) : St W (User * error) :=
  e <- checkSelf session (ID user) ;;
  if_err e return_ ret (User0, e) ;;
  '(dbu, e) <- RetrieveByID (users_ svc) (ID user) ;;
  if_err e return_ ret (User0, WrapE svcerr.ErrViewEntity e) ;;
  if_ N.eqb (Status dbu) (Status user) return_ ret (User0, Some svcerr.ErrStatusAlreadyAssigned) ;;
  '(user, e) <- ChangeStatus (users_ svc) (user <| UpdatedBy := authn.UserID session |>) ;;
  if_err e return_ ret (User0, WrapE svcerr.ErrUpdateEntity e) ;;
  ret (user, None).

Definition Enable (session : authn.Session) (id : string) : St W (User * error) :=
  t <- now ;;
  '(user, e) <- changeUserStatus session (User0 <| ID := id |> <| UpdatedAt := t |> <| Status := EnabledStatus |>) ;;
  if_err e return_ ret (User0, WrapE svcerr.ErrEnableUser e) ;;
  ret (user, None).
Definition Disable (session : authn.Session) (id : string) : St W (User * error) :=
  t <- now ;;
  '(user, e) <- changeUserStatus session (User0 <| ID := id |> <| UpdatedAt := t |> <| Status := DisabledStatus |>) ;;
  if_err e return_ ret (User0, WrapE svcerr.ErrDisableUser e) ;;
  ret (user, None).
Definition Delete (session : authn.Session) (id : string) : St W error :=
  t <- now ;;
  '(_, e) <- changeUserStatus session (User0 <| ID := id |> <| UpdatedAt := t |> <| Status := DeletedStatus |>) ;;
  if_err e return_ ret e ;;
  ret None.

(** The verification step of OAuthCallback. *)
Definition oauthVerify (user u : User) : St W (User * error) :=
  if IsZero (VerifiedAt u) then
    t <- now ;;
    '(u, e) <- UpdateVerifiedAt (users_ svc) (user <| ID := ID u |> <| VerifiedAt := t |>) ;;
    if_err e return_ ret (User0, e) ;;
    ret (User0 <| ID := ID u |> <| Role := Role u |> <| VerifiedAt := VerifiedAt u |>, None)
  else ret (User0 <| ID := ID u |> <| Role := Role u |> <| VerifiedAt := VerifiedAt u |>, None).

(** The panic is that of generateUsername. *)
Definition OAuthCallback (user : User) : St W (option (User * error)) :=
  '(u, e) <~ call (RetrieveByEmail (users_ svc) (Email user)) ;;
  if Errors.Contains e (Some repoerr.ErrNotFound) then
    name <~ generateUsername now rand_Read NewV4 (Email user) ;;
    let user := user <| Creds := (Creds user) <| Username := name |> |> in
    '(u, e) <~ call (Register authn.Session0 user true) ;;
    if_err e return_ (
      if Errors.Contains e (Some errs.ErrUsernameNotAvailable) then pret (User0, Some errs.ErrTryAgain)
      else pret (User0, e)) ;;
    call (oauthVerify user u)
  else
    if_err e return_ pret (User0, e) ;;
    call (oauthVerify user u).

Definition OAuthAddUserPolicy (user : User) : St W error := addUserPolicy (ID user) (Role user).
Definition Identify (session : authn.Session) : St W (string * error) := ret (authn.UserID session, None).
End service.

(** ** src/users/delete_handler.go *)
Definition defLimit : N := 100.

(** [domains] is DeleteUserFromDomains: whether the user was deleted. *)
Record handler (W : Type) := {
  h_users : Repository W; h_domains : string -> St W (bool * error); h_policies : PolicyService W; deleteAfter : Z }.
Arguments h_users {W}. Arguments h_domains {W}. Arguments h_policies {W}. Arguments deleteAfter {W}.

Section handler.
Context {W : Type} (now : St W Time) (h : handler W).

Definition deletedPage : Page := Page0 <| Limit := defLimit |> <| Offset := 0%N |> <| p_Status := DeletedStatus |>.

(** The body of the loop over a page; errors are logged. *)
Definition deleteUser (u : User) : St W unit :=
  t <- now ;;
  if_ Z.ltb (t - UpdatedAt u) (deleteAfter h) return_ ret tt ;;
  '(deleted, e) <- h_domains h (ID u) ;;
  if_err e return_ ret tt ;;
  if_ negb deleted return_ ret tt ;;
  e <- DeletePolicyFilter (h_policies h) (Policy0 <| Subject := ID u |> <| SubjectType := UserType |>) ;;
  if_err e return_ ret tt ;;
  _ <- repo_Delete (h_users h) (ID u) ;;
  ret tt.

Fixpoint deleteUsers (us : list User) : St W unit :=
  match us with
  | [] => ret tt
  | u :: us => deleteUser u ;;; deleteUsers us
  end.

(** [None] when [fuel] rounds are not enough for the loop to end. *)
Fixpoint handle (fuel : nat) : St W (option unit) :=
  match fuel with
  | O => ret None
  | S fuel =>
      '(dbUsers, e) <- RetrieveAll (h_users h) deletedPage ;;
      if_err e return_ ret (Some tt) ;;
      if_ N.eqb (Total (up_Page dbUsers)) 0 return_ ret (Some tt) ;;
      deleteUsers (Users dbUsers) ;;;
      handle fuel
  end.
End handler.
End users.

(** ** src/users/private/service.go *)
Module users_private.
Import users.
Record service (W : Type) := { repo : Repository W }.
Arguments repo {W}.

Definition RetrieveByIDs {W} (svc : service W) (ids : list string) (offset limit : N) : St W (UsersPage * error) :=
  if_ length ids =? 0 return_ ret (UsersPage0, Some svcerr.ErrMalformedEntity) ;;
  let limit := if N.eqb limit 0 then N.of_nat (length ids) else limit in
  '(page, e) <- RetrieveAllByIDs (repo svc) (Page0 <| IDs := ids |> <| Offset := offset |> <| Limit := limit |>) ;;
  if_err e return_ ret (UsersPage0, WrapE svcerr.ErrViewEntity e) ;;
  ret (page, None).
End users_private.

(** ** Usernames *)
Section usernames.
Import users.
Local Arguments Ascii.eqb : simpl never.

Definition allowed (c : ascii) : bool := is_alnum c || is_dash c.

Lemma filter_chars_allowed n l : Forall (fun c => allowed c = true) (filter_chars n l).
Proof.
  revert n. induction l as [|c l IH]; simpl; intros n; [constructor|].
  fold (allowed c). destruct (allowed c) eqn:Ea; [|apply IH]. destruct (_ && _); [apply IH|]. by constructor.
Qed.

Lemma is_dash_mem c : is_dash c = mem c (chars "-_").
Proof. unfold is_dash, mem. simpl. by rewrite orb_false_r. Qed.

Lemma trim_left_suffix cs l : exists p, l = p ++ trim_left cs l.
Proof. destruct (drop_while_suffix (fun c => mem c cs) l) as (p & Hp & _). by exists p. Qed.
Lemma trim_right_prefix cs l : exists p, l = trim_right cs l ++ p.
Proof.
  unfold trim_right. destruct (drop_while_suffix (fun c => mem c cs) (rev l)) as (p & Hp & _). exists (rev p).
  by rewrite <- rev_app_distr, <- Hp, rev_involutive.
Qed.
Lemma trim_left_head cs l c : head (trim_left cs l) = Some c -> mem c cs = false.
Proof.
  unfold trim_left. destruct (drop_while _ l) as [|x r] eqn:E; [done|]. intros [= ->]. by apply drop_while_head in E.
Qed.
Lemma trim_right_last cs l c : last (trim_right cs l) = Some c -> mem c cs = false.
Proof.
  unfold trim_right. destruct (drop_while _ (rev l)) as [|x r] eqn:E; [done|]. simpl.
  rewrite last_snoc. intros [= ->]. by apply drop_while_head in E.
Qed.
Lemma prefix_head {A} (a b : list A) c : head a = Some c -> head (a ++ b) = Some c.
Proof. by destruct a. Qed.

(** The characters that a username may begin and end with. *)
Definition bounded_by_alnum (l : list ascii) : Prop :=
  (forall c, head l = Some c -> is_alnum c = true) /\ (forall c, last l = Some c -> is_alnum c = true).

Lemma allowed_not_dash c : allowed c = true -> mem c (chars "-_") = false -> is_alnum c = true.
Proof. unfold allowed. rewrite is_dash_mem. intros H Hm. by rewrite Hm, orb_false_r in H. Qed.

(** What is left of allowed characters whose first is none of the dashes. *)
Lemma trim_right_ok l : Forall (fun c => allowed c = true) l -> (forall c, head l = Some c -> is_alnum c = true) ->
  let r := trim_right (chars "-_") l in
  Forall (fun c => allowed c = true) r /\ bounded_by_alnum r /\ length r <= length l.
Proof.
  intros Hl Hh r. destruct (trim_right_prefix (chars "-_") l) as [p Hp]. fold r in Hp.
  assert (Hr : Forall (fun c => allowed c = true) r) by (rewrite Hp in Hl; by apply Forall_app in Hl as [? _]).
  split; [done|]. split; [split|].
  - intros c Hc. apply Hh. rewrite Hp. by apply prefix_head.
  - intros c Hc. apply allowed_not_dash; [|by apply trim_right_last in Hc].
    rewrite Forall_forall in Hr. apply Hr. apply last_Some in Hc as [l' ->]. set_solver.
  - rewrite Hp, length_app. lia.
Qed.

(** A sanitized name. *)
Lemma sanitizeForUsername_valid s maxLen : let r := chars (sanitizeForUsername s maxLen) in
  length r <= maxLen /\ Forall (fun c => allowed c = true) r /\ bounded_by_alnum r.
Proof.
  unfold sanitizeForUsername. destruct (String.eqb_spec s "") as [->|_]; [split; [simpl; lia|]; split; [by apply Forall_nil|]; by split|].
  cbv zeta. unfold Trim. rewrite !chars_str.
  set (f := filter_chars 0 (chars (ToLower s))). set (l := trim_left (chars "-_") f).
  assert (Hl : Forall (fun c => allowed c = true) l).
  { destruct (trim_left_suffix (chars "-_") f) as [p Hp]. pose proof (filter_chars_allowed 0 (chars (ToLower s))) as Hf.
    fold f in Hf. rewrite Hp in Hf. by apply Forall_app in Hf as [_ ?]. }
  assert (Hh : forall c, head l = Some c -> is_alnum c = true).
  { intros c Hc. apply allowed_not_dash; [|by apply trim_left_head in Hc].
    rewrite Forall_forall in Hl. apply Hl. destruct l as [|x l']; [done|]. injection Hc as ->. set_solver. }
  destruct (trim_right_ok l Hl Hh) as (Hr & [Hb1 Hb2] & _). set (r := trim_right (chars "-_") l) in *.
  destruct (Nat.ltb_spec maxLen (length r)) as [Hlt|Hge].
  - unfold TrimRight. rewrite !chars_str. destruct (trim_right_ok (take maxLen r)) as (H1 & H2 & H3).
    + by apply Forall_take.
    + intros c Hc. apply Hb1. rewrite <- (take_drop maxLen r). by apply prefix_head.
    + split_and!; [|done|done]. rewrite length_take in H3. lia.
  - rewrite chars_str. by split_and!.
Qed.
End usernames.

Section username_bounds.
Import users.
Context {W : Type} (now : St W Time) (rand_Read : nat -> St W (list ascii * error)) (NewV4 : St W (list ascii * error)).

(** A name part: lowercase letters, digits, hyphens and underscores, with a
    letter or digit at either end. *)
Definition name_part (l : list ascii) : Prop := Forall (fun c => allowed c = true) l /\ bounded_by_alnum l.

Lemma extractEmailPrefix_valid mail : let r := chars (extractEmailPrefix mail) in 1 <= length r <= 15 /\ name_part r.
Proof.
  assert (Hd : let r := chars defaultUsernamePrefix in 1 <= length r <= 15 /\ name_part r).
  { split; [simpl; lia|]. split; [by repeat constructor|]. split; intros c [= <-]; reflexivity. }
  assert (Hs : forall p, sanitizeForUsername p 15 <> "" ->
    let r := chars (sanitizeForUsername p 15) in 1 <= length r <= 15 /\ name_part r).
  { intros p Hne. destruct (sanitizeForUsername_valid p 15) as (Hl & Hf & Hb). split; [|done]. split; [|done].
    destruct (chars (sanitizeForUsername p 15)) eqn:E; [|simpl; lia]. by apply chars_nil in E. }
  unfold extractEmailPrefix. destruct (Split mail "@") as [|p ps]; [done|]. cbv zeta.
  destruct (usernameRegExp_matches _).
  - done.
  - destruct (String.eqb_spec (sanitizeForUsername p 15) "") as [_|Hne]; [done|]. by apply Hs.
Qed.

Lemma hex_digit_hex n : hex_digit n ∈ chars "0123456789abcdef".
Proof.
  unfold hex_digit. destruct (Nat.lt_ge_cases (N.to_nat n) 16) as [Hn|Hn].
  - apply list_elem_of_In, nth_In. simpl. lia.
  - rewrite nth_overflow by (simpl; lia). set_solver.
Qed.
Lemma hex_bytes_hex l : Forall (fun c => c ∈ chars "0123456789abcdef") (hex_bytes l).
Proof. induction l; simpl; [by apply Forall_nil|]. rewrite !Forall_cons. split_and!; [apply hex_digit_hex..|done]. Qed.
Lemma length_hex_bytes l : length (hex_bytes l) = 2 * length l.
Proof. induction l; simpl; lia. Qed.

(** The username made for a user who comes from an OAuth provider has at
    most 26 characters: a part taken from the email address, of 1 to 15
    characters that begins and ends with a letter or digit, an underscore and
    ten hexadecimal digits; as long as random bytes can be read there is
    one. *)
Lemma generateUsername_valid mail w bs w1 (Hrand : rand_Read 8 w = ((bs, None), w1)) (Hlen : length bs = 8) :
  exists p suffix, generateUsername now rand_Read NewV4 mail w = (Some (p +:+ "_" +:+ suffix), w1)
    /\ 1 <= length (chars p) <= 15 /\ name_part (chars p)
    /\ length (chars suffix) = 10 /\ Forall (fun c => c ∈ chars "0123456789abcdef") (chars suffix)
    /\ length (chars (p +:+ "_" +:+ suffix)) <= 26.
Proof.
  unfold generateUsername, generateRandomID, pbind, bind. rewrite Hrand. unfold ret, first10.
  rewrite length_hex_bytes, Hlen. simpl.
  destruct (extractEmailPrefix_valid mail) as [Hp Hn]. exists (extractEmailPrefix mail), (str (take 10 (hex_bytes bs))).
  assert (Hs : length (take 10 (hex_bytes bs)) = 10) by (rewrite length_take, length_hex_bytes; lia).
  split; [done|]. rewrite !chars_app, !length_app, !chars_str, Hs. split_and!; try done; try lia.
  - apply Forall_take, hex_bytes_hex.
  - simpl. lia.
Qed.
End username_bounds.

(** ** What the service relies on: the table of users and the current
    verification of a user and email *)
Class UserRepoLaws {W} (repo : users.Repository W) (tuples : W -> gset Relationship) (table : W -> gmap string users.User) := {
  Save_ok u w u' w' : users.Save repo u w = ((u', None), w') ->
    table w !! users.ID u = None /\ table w' = <[users.ID u := u]> (table w);
  Save_returns u w u' w' : users.Save repo u w = ((u', None), w') -> users.ID u' = users.ID u;
  Save_err u w u' e w' : users.Save repo u w = ((u', Some e), w') -> table w' = table w;
  UpdateRole_ok u w u' w' : users.repo_UpdateRole repo u w = ((u', None), w') ->
    exists o, table w !! users.ID u = Some o
      /\ table w' = <[users.ID u := set_field users.Role (users.Role u) o]> (table w);
  UpdateRole_err u w u' e w' : users.repo_UpdateRole repo u w = ((u', Some e), w') -> table w' = table w;
  tuples_Save u : frames (users.Save repo u) tuples;
  tuples_UpdateRole u : frames (users.repo_UpdateRole repo u) tuples;
  tuples_CheckSuperAdmin id : frames (users.CheckSuperAdmin repo id) tuples;
  table_CheckSuperAdmin id : frames (users.CheckSuperAdmin repo id) table }.
#[export] Hint Resolve tuples_Save tuples_UpdateRole tuples_CheckSuperAdmin table_CheckSuperAdmin : frame.

(** What registration and roles rely on together: besides the laws, that the
    policy service, the clock, the identifiers and the hasher leave the table
    alone, and the last three the policies. *)
Class AccountsEnv {W} (now : St W Time) (svc : users.service W) (tuples : W -> gset Relationship)
    (table : W -> gmap string users.User) := {
  env_policies :: PolicyLaws (users.policy svc) tuples;
  env_repo :: UserRepoLaws (users.users_ svc) tuples table;
  add_table l : frames (policies.AddPolicies (users.policy svc) l) table;
  add1_table p : frames (policies.AddPolicy (users.policy svc) p) table;
  delete_table l : frames (policies.DeletePolicies (users.policy svc) l) table;
  filter_table p : frames (policies.DeletePolicyFilter (users.policy svc) p) table;
  now_tuples : frames now tuples; now_table : frames now table;
  id_tuples : frames (users.idProvider svc) tuples; id_table : frames (users.idProvider svc) table;
  hash_tuples s : frames (keys.Hash (users.hasher svc) s) tuples;
  hash_table s : frames (keys.Hash (users.hasher svc) s) table }.
#[export] Hint Resolve now_tuples now_table id_tuples id_table : frame.

(** ** Registration and roles *)
Section accounts.
Import policies users.
Context {W : Type} (now : St W Time) (svc : service W).
Context (tuples : W -> gset Relationship) (table : W -> gmap string User) {AE : AccountsEnv now svc tuples table}.

(** Both parts of the state at once. *)
Definition both (w : W) := (tuples w, table w).
Lemma both_frames {A} (m : St W A) : frames m tuples -> frames m table -> frames m both.
Proof. intros H1 H2 w. unfold both. by rewrite H1, H2. Qed.
Lemma both_eq w w' : both w' = both w -> tuples w' = tuples w /\ table w' = table w.
Proof. by intros [= -> ->]. Qed.

Lemma checkSuperAdmin_frames session : frames (checkSuperAdmin svc session) both.
Proof.
  unfold checkSuperAdmin. destruct (negb _); [|apply frames_ret].
  apply frames_bind; [apply both_frames; [apply tuples_CheckSuperAdmin|apply table_CheckSuperAdmin]|]. intros [e|]; apply frames_ret.
Qed.
Lemma checkSuperAdmin_ok session w w' : checkSuperAdmin svc session w = (None, w') ->
  authn.SuperAdmin session = true \/ (CheckSuperAdmin (users_ svc) (authn.UserID session) w).1 = None.
Proof.
  unfold checkSuperAdmin, bind. destruct (authn.SuperAdmin session); [by left|]. simpl.
  destruct (CheckSuperAdmin _ _ w) as [[e|] w1]; [by intros [= ?%WrapE_inv]|by right].
Qed.
Lemma hashSecret_frames u : frames (hashSecret svc u) both.
Proof.
  unfold hashSecret. destruct (_ <>s _); [|apply frames_ret].
  apply frames_bind; [apply both_frames; [apply hash_tuples|apply hash_table]|]. intros [h [e|]]; apply frames_ret.
Qed.
Lemma hashSecret_keeps u w u' w' : hashSecret svc u w = ((u', None), w') ->
  Role u' = Role u /\ Status u' = Status u /\ Email u' = Email u /\ Username (Creds u') = Username (Creds u).
Proof.
  unfold hashSecret, bind. destruct (_ <>s _); [|by intros [= <- _]].
  destruct (keys.Hash _ _ w) as [[h [e|]] w1]; [intros [= _ H _]; by apply WrapE_inv in H|by intros [= <- _]].
Qed.

(** The error of a failed rollback of Register. *)
Definition register_undo_failed (e : error) : Prop :=
  exists er e0, e = Wrap (WrapE apiutil.ErrRollbackTx (Some er)) e0.

(** The part of Register from the policies on. *)
Lemma register_tail u w u' e w' :
  (e0 <- addUserPolicy svc (ID u) (Role u) ;;
   if_err e0 return_ ret (User0, WrapE svcerr.ErrAddPolicies e0) ;;
   defer_err (
     '(user, e) <- Save (users_ svc) u ;;
     if_err e return_ ret (User0, WrapE svcerr.ErrCreateEntity e) ;;
     ret (user, None)) (rollbackRegister svc u)) w = ((u', e), w') ->
  match e with
  | None => table w !! ID u = None /\ table w' = <[ID u := u]> (table w)
            /\ tuples w' = tuples w ∪ rel_set (userPolicies (ID u) (Role u))
  | Some _ => table w' = table w /\ (tuples w' = tuples w \/ register_undo_failed e)
  end.
Proof.
  unfold addUserPolicy, defer_err, bind at 1 2, ret.
  destruct (AddPolicies (policy svc) _ w) as [ea w1] eqn:E1.
  pose proof (frames_eq _ table _ _ _ (add_table _) E1) as Ht1. destruct ea as [ea|].
  { apply AddPolicies_err in E1. destruct (Wrap_some svcerr.ErrAddPolicies (Some ea)) as [x Hx]. unfold WrapE. rewrite Hx.
    destruct (Wrap_some svcerr.ErrAddPolicies (Some x)) as [y Hy]. rewrite Hy. intros [= <- <- <-]. split; [done|by left]. }
  apply AddPolicies_ok in E1 as [Ht Hdisj]. unfold bind at 1. unfold bind at 1.
  destruct (Save (users_ svc) u w1) as [[us es] w2] eqn:E2.
  pose proof (frames_eq _ tuples _ _ _ (tuples_Save u) E2) as Hs2. destruct es as [es|].
  - apply Save_err in E2. destruct (WrapE svcerr.ErrCreateEntity (Some es)) as [x|] eqn:Hx; [|by apply WrapE_not_nil in Hx].
    unfold rollbackRegister, addUserPolicyRollback, bind at 1 2 3, ret.
    destruct (DeletePolicies (policy svc) _ w2) as [ed w3] eqn:E3.
    pose proof (frames_eq _ table _ _ _ (delete_table _) E3) as Ht3. destruct ed as [ed|].
    + apply DeletePolicies_err in E3. destruct (WrapE svcerr.ErrDeletePolicies (Some ed)) as [y|] eqn:Hy; [|by apply WrapE_not_nil in Hy].
      unfold bind, ret. destruct (WrapE apiutil.ErrRollbackTx (Some y)) as [z|] eqn:Hz; [|by apply WrapE_not_nil in Hz].
      destruct (Wrap_some z (Some x)) as [v Hv]. rewrite Hv. intros [= <- <- <-].
      split; [congruence|]. right. exists y, (Some x). by rewrite Hz, Hv.
    + apply DeletePolicies_ok in E3. unfold bind, ret. intros [= <- <- <-]. split; [congruence|]. left. set_solver.
  - apply Save_ok in E2 as [Hn Hi]. intros [= <- <- <-]. split_and!; congruence.
Qed.

(** C23: Register stores the user together with the policies of the role, the
    administrator's included, or returns an error and leaves users and
    policies as they were, unless a rollback failed; unless it is a
    self-registration it takes an administrator to do so. *)
Theorem Register_atomic session u self w u' e w' (Hrun : Register now svc session u self w = ((u', e), w')) :
  match e with
  | None => exists id stored, ID stored = id /\ Role stored = Role u /\ (Role u = UserRole \/ Role u = AdminRole)
      /\ table w !! id = None /\ table w' = <[id := stored]> (table w)
      /\ tuples w' = tuples w ∪ rel_set (userPolicies id (Role u))
      /\ (self = false -> authn.SuperAdmin session = true \/ (CheckSuperAdmin (users_ svc) (authn.UserID session) w).1 = None)
  | Some _ => table w' = table w /\ (tuples w' = tuples w \/ register_undo_failed e)
  end.
Proof.
  revert Hrun. unfold Register, bind at 1.
  destruct ((if self then ret None else checkSuperAdmin svc session) w) as [ec w1] eqn:E1.
  assert (H1 : both w1 = both w).
  { destruct self; [by injection E1 as _ <-|]. by apply (frames_eq _ both _ _ _ (checkSuperAdmin_frames session)) in E1. }
  apply both_eq in H1 as [Hp1 Ht1]. destruct ec as [ec|]; [unfold ret; intros [= <- <- <-]; split; [done|by left]|].
  assert (Hadm : self = false -> authn.SuperAdmin session = true \/ (CheckSuperAdmin (users_ svc) (authn.UserID session) w).1 = None)
    by (intros ->; by apply checkSuperAdmin_ok in E1).
  unfold bind at 1. destruct (idProvider svc w1) as [[id ei] w2] eqn:E2. frame_all tuples. frame_all table.
  destruct ei as [ei|]; [unfold ret; destruct (Wrap_some svcerr.ErrIssueProviderID (Some ei)) as [x Hx];
    unfold WrapE; rewrite Hx; intros [= <- <- <-]; split; [congruence|left; congruence]|].
  unfold bind at 1. destruct (hashSecret svc u w2) as [[u2 eh] w3] eqn:E3.
  pose proof (frames_eq _ both _ _ _ (hashSecret_frames u) E3) as [Hp3 Ht3]%both_eq.
  destruct eh as [eh|]; [unfold ret; intros [= <- <- <-]; split; [congruence|left; congruence]|].
  apply hashSecret_keeps in E3 as (Hr & Hst & _).
  destruct (_ && _); [unfold ret; intros [= <- <- <-]; split; [congruence|left; congruence]|].
  destruct (negb (N.eqb (Role u2) UserRole) && negb (N.eqb (Role u2) AdminRole)) eqn:Erole;
    [unfold ret; intros [= <- <- <-]; split; [congruence|left; congruence]|].
  unfold bind at 1. destruct (now w3) as [t w4] eqn:E4. frame_all tuples. frame_all table.
  cbv zeta. intros Htail. apply register_tail in Htail. simpl in Htail. destruct e as [e|].
  - destruct Htail as [Htb Htu]. split; [congruence|]. destruct Htu as [Htu|?]; [left; congruence|by right].
  - destruct Htail as (Hn & Hi & Htu). match type of Hi with _ = <[_ := ?x]> _ => exists id, x end.
    split_and!; [done|exact Hr| |congruence|congruence|congruence|done].
    apply andb_false_iff in Erole as [Hz%negb_false_iff%N.eqb_eq|Hz%negb_false_iff%N.eqb_eq]; rewrite Hr in Hz; auto.
Qed.

(** The user that a successful registration returns. *)
Lemma register_returns u w u' w' :
  (e0 <- addUserPolicy svc (ID u) (Role u) ;;
   if_err e0 return_ ret (User0, WrapE svcerr.ErrAddPolicies e0) ;;
   defer_err (
     '(user, e) <- Save (users_ svc) u ;;
     if_err e return_ ret (User0, WrapE svcerr.ErrCreateEntity e) ;;
     ret (user, None)) (rollbackRegister svc u)) w = ((u', None), w') -> ID u' = ID u.
Proof.
  unfold addUserPolicy, defer_err, rollbackRegister, bind, ret. intros H. go_cases; try by eapply Save_returns.
  all: exfalso; match goal with
    | H : WrapE _ _ = None |- _ => by apply WrapE_not_nil in H
    | H : Wrap (WrapE ?a ?b) ?c = None |- _ =>
        let x := fresh in let E := fresh in
        destruct (WrapE a b) as [x|] eqn:E; [by destruct (Wrap_some x c) as [? ?]; congruence|by apply WrapE_not_nil in E] end.
Qed.

(** C1: a self-registration is not checked against the session at all: from
    every session it ends alike, and who names the administrator's role in it
    is then an administrator of the platform.  It is the user that the call
    creates, under the identifier it was given and with the email of the
    request, that becomes one, and nobody else does. *)
Theorem self_registration_grants_admin s1 s2 u w u' w' (Hrole : Role u = AdminRole)
    (Hrun : Register now svc s1 u true w = ((u', None), w')) :
  Register now svc s2 u true w = ((u', None), w')
  /\ (idProvider svc w).1 = (ID u', None)
  /\ table w !! ID u' = None
  /\ (exists row, table w' = <[ID u' := row]> (table w) /\ Role row = AdminRole /\ Email row = Email u
        /\ Username (Creds row) = Username (Creds u))
  /\ relationship (adminPolicy (ID u')) ∈ tuples w'
  /\ (forall id, id <> ID u' -> relationship (adminPolicy id) ∈ tuples w' <-> relationship (adminPolicy id) ∈ tuples w).
Proof.
  split; [exact Hrun|]. revert Hrun. unfold Register, bind at 1. unfold ret at 1. cbv beta iota.
  unfold bind at 1. destruct (idProvider svc w) as [[id [ei|]] w2] eqn:E2; [unfold ret; intros [= _ Hx _]; by apply WrapE_inv in Hx|].
  frame_all tuples. frame_all table.
  unfold bind at 1. destruct (hashSecret svc u w2) as [[u2 [eh|]] w3] eqn:E3; [by intros [=]|].
  pose proof (frames_eq _ both _ _ _ (hashSecret_frames u) E3) as [Hp3 Ht3]%both_eq.
  apply hashSecret_keeps in E3 as (Hr & _ & He & Hn). destruct (_ && _); [by intros [=]|]. destruct (_ && _); [by intros [=]|].
  unfold bind at 1. destruct (now w3) as [t w4] eqn:E4. frame_all tuples. frame_all table. cbv zeta. intros Hrun.
  pose proof (register_returns _ _ _ _ Hrun) as Hid. apply register_tail in Hrun as (Hnew & Hi & Ht). simpl in *. subst id.
  split_and!; [done|congruence| |rewrite Ht, Hr, Hrole; unfold rel_set, userPolicies; simpl; set_solver|].
  - eexists. split; [rewrite Hi; f_equal; congruence|]. simpl. split_and!; congruence.
  - intros id Hne. assert (Hw : tuples w4 = tuples w) by congruence. rewrite Ht, Hw, Hr, Hrole, elem_of_union.
    split; [intros [?|Hin]; [done|exfalso]|by left]. clear -Hne Hin. unfold rel_set, userPolicies in Hin. set_unfold in Hin.
    destruct Hin as (p & Hp & [->|[->|[]]]); unfold relationship in Hp; simpl in Hp; congruence.
Qed.

Lemma matches_admin id : id <> "" -> policy_matches (adminPolicy id) (relationship (adminPolicy id)) = true.
Proof.
  intros Hid. unfold policy_matches, filter_matches, spicedb.policyFilter, relationship, opt_match. simpl.
  apply String.eqb_neq in Hid as Hid'. rewrite Hid'. simpl. by rewrite Hid', String.eqb_refl.
Qed.

(** What updateUserPolicy does, also with the policies of others. *)
Lemma updateUserPolicy_ok id role w w' : id <> "" -> updateUserPolicy svc id role w = (None, w') ->
  table w' = table w /\ (role = AdminRole <-> relationship (adminPolicy id) ∈ tuples w').
Proof.
  intros Hid. unfold updateUserPolicy, bind. destruct (N.eqb_spec role AdminRole) as [->|Hr].
  - destruct (AddPolicy _ _ w) as [[e|] w1] eqn:E; [by intros [= ?%WrapE_inv]|].
    pose proof (frames_eq _ table _ _ _ (add1_table _) E). apply AddPolicy_ok in E as [Ht _]. intros [= <-].
    split; [done|]. rewrite Ht. split; [intros _; set_solver|done].
  - destruct (DeletePolicyFilter _ _ w) as [[e|] w1] eqn:E; [by intros [= ?%WrapE_inv]|].
    pose proof (frames_eq _ table _ _ _ (filter_table _) E). apply DeletePolicyFilter_ok in E as Ht.
    intros [= <-]. split; [done|]. split; [done|]. rewrite Ht. unfold remove_matching.
    intros [Hm _]%elem_of_filter. by rewrite matches_admin in Hm by exact Hid.
Qed.
Lemma updateUserPolicy_err id role w e w' : updateUserPolicy svc id role w = (Some e, w') -> both w' = both w.
Proof.
  unfold updateUserPolicy, both, bind. destruct (N.eqb role AdminRole).
  - destruct (AddPolicy _ _ w) as [[e1|] w1] eqn:E; [|done]. pose proof (frames_eq _ table _ _ _ (add1_table _) E).
    apply AddPolicy_err in E. intros [= _ <-]. congruence.
  - destruct (DeletePolicyFilter _ _ w) as [[e1|] w1] eqn:E; [|done]. pose proof (frames_eq _ table _ _ _ (filter_table _) E).
    apply DeletePolicyFilter_err in E. intros [= _ <-]. congruence.
Qed.

(** The roles in the table are those of the policies. *)
Definition role_in_sync (w : W) (id : string) : Prop :=
  forall u, table w !! id = Some u -> (Role u = AdminRole <-> relationship (adminPolicy id) ∈ tuples w).

(** After a successful UpdateRole the user is an administrator in the
    table and in the policies or in neither; where the row cannot be written
    the user is left without the administrator's policy, whatever the row
    says (unless the revert failed): an administrator whose demotion failed
    stays one in the table and is none in the policies. *)
Theorem UpdateRole_effect session usr w u' e w' (Hid : ID usr <> "")
    (Hrun : UpdateRole now svc session usr w = ((u', e), w')) :
  match e with
  | None => role_in_sync w' (ID usr)
      /\ exists o, table w !! ID usr = Some o /\ table w' = <[ID usr := o <| Role := Role usr |>]> (table w)
  | Some _ => both w' = both w
      \/ (table w' = table w
          /\ (relationship (adminPolicy (ID usr)) ∉ tuples w'
              \/ (exists e1 er, e = Wrap (Some er) e1
                  /\ (Role usr = AdminRole <-> relationship (adminPolicy (ID usr)) ∈ tuples w'))))
  end.
Proof.
  revert Hrun. unfold UpdateRole, bind at 1. destruct (checkSuperAdmin svc session w) as [ec w1] eqn:E1.
  pose proof (frames_eq _ both _ _ _ (checkSuperAdmin_frames session) E1) as H1.
  destruct ec as [ec|]; [unfold ret; intros [= _ <- <-]; by left|].
  unfold bind at 1. destruct (now w1) as [t w2] eqn:E2.
  pose proof (frames_eq _ both _ _ _ (both_frames now now_tuples now_table) E2) as H2. cbv zeta. simpl.
  unfold bind at 1. destruct (updateUserPolicy svc (ID usr) (Role usr) w2) as [ep w3] eqn:E3. destruct ep as [ep|].
  { apply updateUserPolicy_err in E3. unfold ret. intros [= _ <- <-]. left. congruence. }
  apply updateUserPolicy_ok in E3 as [Ht3 Hadm]; [|done]. apply both_eq in H1 as [_ H1], H2 as [_ H2].
  unfold bind at 1. destruct (repo_UpdateRole (users_ svc) _ w3) as [[us er] w4] eqn:E4.
  pose proof (frames_eq _ tuples _ _ _ (tuples_UpdateRole _) E4) as Ht4. destruct er as [er|].
  - apply UpdateRole_err in E4. unfold bind, ret.
    destruct (updateUserPolicy svc (ID usr) UserRole w4) as [eb w5] eqn:E5. destruct eb as [eb|].
    + apply updateUserPolicy_err in E5 as [Hp Ht]%both_eq. destruct (Wrap_some eb (Some er)) as [x Hx]. rewrite Hx.
      intros [= _ <- <-]. right. split; [congruence|]. right. exists (Some er), eb. split; [done|]. by rewrite Hp, Ht4.
    + apply updateUserPolicy_ok in E5 as [Ht5 Hno]; [|done]. destruct (WrapE svcerr.ErrUpdateEntity (Some er)) as [x|] eqn:Hx;
        [|by apply WrapE_not_nil in Hx]. intros [= _ <- <-]. right. split; [congruence|]. left. intros Hin. by apply Hno in Hin.
  - apply UpdateRole_ok in E4 as (o & Ho & Ht). unfold ret. intros [= _ <- <-]. simpl in Ho, Ht. split.
    + intros u. rewrite Ht, lookup_insert_eq, Ht4. by intros [= <-].
    + exists o. split; congruence.
Qed.
End accounts.

(** ** Email verification *)
Class VerificationLaws {W} (repo : users.Repository W) (verifs : W -> gmap (string * string) users.UserVerification) := {
  RetrieveVerification_ok uid em w v w' : users.RetrieveUserVerification repo uid em w = ((v, None), w') ->
    verifs w !! (uid, em) = Some v;
  UpdateVerification_ok v cur w w' : verifs w !! (users.UserID v, users.v_Email v) = Some cur ->
    users.UpdateUserVerification repo v w = (None, w') ->
    verifs w' = <[(users.UserID v, users.v_Email v) :=
      set_field users.UsedAt (users.UsedAt v) (set_field users.OTP (users.OTP v) cur)]> (verifs w);
  verifs_Retrieve uid em : frames (users.RetrieveUserVerification repo uid em) verifs;
  verifs_UpdateVerifiedAt u : frames (users.UpdateVerifiedAt repo u) verifs }.

Section verification_theory.
Import users.
Context {W : Type} (now : St W Time) (J : jsonlib) (svc : service W).
Context (verifs : W -> gmap (string * string) UserVerification) {VL : VerificationLaws (users_ svc) verifs}.
Context (now_verifs : frames now verifs) (now_nonzero : forall w, (now w).1 <> zeroTime).

(** The clock reads [t] in a state with the verifications of [w]. *)
Definition at_time (w : W) (t : Time) : Prop := exists v v', verifs v = verifs w /\ now v = (t, v').

Lemma Match_same u v : Match u v = None -> UserID u = UserID v /\ v_Email u = v_Email v /\ OTP u = OTP v.
Proof.
  unfold Match. destruct (String.eqb_spec (UserID u) (UserID v)), (String.eqb_spec (v_Email u) (v_Email v)),
    (String.eqb_spec (OTP u) (OTP v)); simpl; done.
Qed.
Lemma Valid_frames u : frames (Valid now u) verifs.
Proof.
  unfold Valid. repeat (case_match; [apply frames_ret|]). apply frames_bind; [done|]. intros t.
  repeat (case_match; [apply frames_ret|]). apply frames_ret.
Qed.
Lemma Valid_ok u w w' : Valid now u w = (None, w') ->
  UsedAt u = zeroTime /\ Before (ExpiresAt u) (v_CreatedAt u) = false /\ exists t, (now w).1 = t /\ After t (ExpiresAt u) = false.
Proof.
  unfold Valid, bind, ret. destruct (_ || _); [done|]. destruct (IsZero _); [done|]. destruct (IsZero (ExpiresAt u)); [done|].
  destruct (Before _ _); [done|]. destruct (now w) as [t w1]. destruct (After t _) eqn:Ea; [done|].
  unfold IsZero. destruct (Z.eqb_spec (UsedAt u) 0) as [Hz|]; [|done]. intros _. split_and!; [done|done|]. by exists t.
Qed.
Lemma Valid_used u w : UsedAt u <> zeroTime -> (Valid now u w).1 <> None.
Proof.
  intros Hu. unfold Valid, bind, ret. repeat (case_match; [done|]). destruct (now w) as [t w1]. case_match; [done|].
  unfold IsZero, zeroTime in *. apply Z.eqb_neq in Hu. by rewrite Hu.
Qed.

(** What the token has to say of the current verification. *)
Definition token_of (tok : string) (v : UserVerification) : Prop :=
  exists r, Decode J tok = (r, None) /\ UserID r = UserID v /\ v_Email r = v_Email v /\ OTP r = OTP v.

(** The states in which the verification of the token is used up. *)
Lemma VerifyEmail_used tok v w : token_of tok v -> verifs w !! (UserID v, v_Email v) = Some v -> UsedAt v <> zeroTime ->
  (VerifyEmail now J svc tok w).1.2 <> None.
Proof.
  intros (r & Hd & Hu & He & Ho) Hv Hused. unfold VerifyEmail. rewrite Hd. unfold bind at 1.
  destruct (RetrieveUserVerification _ _ _ w) as [[s [e|]] w1] eqn:E1; [apply WrapE_not_nil|].
  apply RetrieveVerification_ok in E1. rewrite Hu, He, Hv in E1. injection E1 as <-.
  destruct (Match v r) as [e|] eqn:Em; [apply WrapE_not_nil|]. unfold bind at 1.
  pose proof (Valid_used v w1 Hused) as Hx. destruct (Valid now v w1) as [[e|] w2]; [|done].
  destruct (is_sentinel _ _); [done|apply WrapE_not_nil].
Qed.

(** C11: VerifyEmail succeeds only with the one-time password of the current
    verification of its user and email, before it expires and when it has
    not been used, and uses it up: the same token is refused from then on,
    as long as no new verification is issued. *)
Theorem VerifyEmail_once tok w u w1 (Hrun : VerifyEmail now J svc tok w = ((u, None), w1)) :
  exists v t used, token_of tok v /\ verifs w !! (UserID v, v_Email v) = Some v
    /\ UsedAt v = zeroTime /\ at_time w t /\ (t <= ExpiresAt v)%Z /\ (v_CreatedAt v <= ExpiresAt v)%Z
    /\ used <> zeroTime /\ verifs w1 = <[(UserID v, v_Email v) := v <| UsedAt := used |>]> (verifs w)
    /\ forall w2, verifs w2 = verifs w1 -> (VerifyEmail now J svc tok w2).1.2 <> None.
Proof.
  revert Hrun. unfold VerifyEmail at 1. destruct (Decode J tok) as [r [e|]] eqn:Ed;
    [unfold ret; intros [= _ H _]; by apply WrapE_inv in H|].
  unfold bind at 1. destruct (RetrieveUserVerification _ _ _ w) as [[v [e|]] wa] eqn:E1;
    [unfold ret; intros [= _ H _]; by apply WrapE_inv in H|].
  pose proof (frames_eq _ verifs _ _ _ (verifs_Retrieve _ _) E1) as Hva. apply RetrieveVerification_ok in E1.
  destruct (Match v r) as [e|] eqn:Em; [unfold ret; intros [= _ H _]; by apply WrapE_inv in H|].
  apply Match_same in Em as (Hu & He & Ho). unfold bind at 1. destruct (Valid now v wa) as [[e|] wb] eqn:E2.
  { destruct (is_sentinel _ _); unfold ret; [done|]. intros [= _ H _]. by apply WrapE_inv in H. }
  pose proof (frames_eq _ verifs _ _ _ (Valid_frames v) E2) as Hvb.
  apply Valid_ok in E2 as (Hused & Hbef & t & Ht & Haft). unfold bind at 1. destruct (now wb) as [ut wc] eqn:E3.
  pose proof (frames_eq _ verifs _ _ _ now_verifs E3) as Hvc. cbv zeta. unfold bind at 1.
  assert (Hcur : verifs wc !! (UserID v, v_Email v) = Some v) by (rewrite Hvc, Hvb, Hva, Hu, He; done).
  destruct (UpdateUserVerification _ _ wc) as [[e|] wd] eqn:E4; [unfold ret; intros [= _ H _]; by apply WrapE_inv in H|].
  apply (UpdateVerification_ok _ v) in E4; [|exact Hcur]. simpl in E4. unfold bind at 1. destruct (now wd) as [t2 we] eqn:E5.
  pose proof (frames_eq _ verifs _ _ _ now_verifs E5) as Hve. unfold bind at 1.
  destruct (UpdateVerifiedAt _ _ we) as [[u2 eu] wf] eqn:E6.
  pose proof (frames_eq _ verifs _ _ _ (verifs_UpdateVerifiedAt _) E6) as Hvf.
  destruct (is_sentinel eu _); [by intros [=]|]. destruct eu as [eu|]; [unfold ret; intros [= _ H _]; by apply WrapE_inv in H|].
  unfold ret. intros [= _ <-].
  assert (Hnz : ut <> zeroTime) by (pose proof (now_nonzero wb) as Hz; by rewrite E3 in Hz).
  assert (Hfin : verifs wf = <[(UserID v, v_Email v) := v <| UsedAt := ut |>]> (verifs w)).
  { by rewrite Hvf, Hve, E4, Hvc, Hvb, Hva. }
  assert (Htok : token_of tok (v <| UsedAt := ut |>)) by (exists r; split; [exact Ed|]; simpl; split_and!; congruence).
  exists v, t, ut. split_and!; try done.
  - by rewrite <- Hva, <- Hvb, <- Hvc.
  - exists wa. destruct (now wa) as [t' w'] eqn:En. simpl in Ht. subst. eauto.
  - unfold After in Haft. lia.
  - unfold Before in Hbef. lia.
  - intros w2 Hw2. apply (VerifyEmail_used tok (v <| UsedAt := ut |>)); [done| |done].
    rewrite Hw2, Hfin. simpl. by rewrite lookup_insert_eq.
Qed.
End verification_theory.

(** ** Requests about other users *)
Section others.
Import users.
Context {W : Type} (now : St W Time) (svc : service W).

Inductive request :=
| ReqUpdate (id : string) (usr : UserReq) | ReqUpdateTags (id : string) (usr : UserReq)
| ReqUpdateProfilePicture (id : string) (usr : UserReq) | ReqUpdateEmail (id mail : string)
| ReqUpdateUsername (id name : string) | ReqEnable (id : string) | ReqDisable (id : string) | ReqDelete (id : string).
Definition target (r : request) : string :=
  match r with
  | ReqUpdate id _ | ReqUpdateTags id _ | ReqUpdateProfilePicture id _ | ReqUpdateEmail id _
  | ReqUpdateUsername id _ | ReqEnable id | ReqDisable id | ReqDelete id => id
  end.
Definition err_of {A} (m : St W (A * error)) : St W error := '(_, e) <- m ;; ret e.
Definition serve (session : authn.Session) (r : request) : St W error :=
  match r with
  | ReqUpdate id usr => err_of (Update now svc session id usr)
  | ReqUpdateTags id usr => err_of (UpdateTags now svc session id usr)
  | ReqUpdateProfilePicture id usr => err_of (UpdateProfilePicture now svc session id usr)
  | ReqUpdateEmail id mail => err_of (UpdateEmail now svc session id mail)
  | ReqUpdateUsername id name => err_of (UpdateUsername now svc session id name)
  | ReqEnable id => err_of (Enable now svc session id)
  | ReqDisable id => err_of (Disable now svc session id)
  | ReqDelete id => Delete now svc session id
  end.

(** A request to change another user fails for a caller who is not an
    administrator and changes nothing that reading the clock and asking for
    the administrator do not; what such a caller sees of another user are
    the public fields. *)
Lemma others_need_admin {V} (view : W -> V) session er
    (Hnow : frames now view) (Hcheck : forall w, exists w', CheckSuperAdmin (users_ svc) (authn.UserID session) w = (Some er, w') /\ view w' = view w)
    (Hno : authn.SuperAdmin session = false) :
  (forall r w, target r <> authn.UserID session -> (serve session r w).1 <> None /\ view (serve session r w).2 = view w)
  /\ forall id w u w', id <> authn.UserID session -> View svc session id w = ((u, None), w') ->
       Email u = "" /\ Secret (Creds u) = "" /\ PrivateMetadata u = None /\ Tags u = [].
Proof.
  assert (Hself : forall id w, id <> authn.UserID session ->
    exists w', checkSelf svc session id w = (WrapE svcerr.ErrAuthorization (Some er), w') /\ view w' = view w).
  { intros id w Hid. unfold checkSelf, checkSuperAdmin, bind, ret. rewrite Hno.
    destruct (String.eqb_spec (authn.UserID session) id) as [Heq|_]; [by symmetry in Heq|]. simpl.
    destruct (Hcheck w) as (w' & -> & Hv). by exists w'. }
  assert (Hx : exists x, WrapE svcerr.ErrAuthorization (Some er) = Some x) by apply Wrap_some.
  destruct Hx as [x Hx]. split.
  - assert (Hst : forall u w, ID u <> authn.UserID session ->
      exists w', changeUserStatus svc session u w = ((User0, Some x), w') /\ view w' = view w).
    { intros u w Hid. destruct (Hself (ID u) w Hid) as (w' & Hs & Hv). exists w'.
      unfold changeUserStatus, bind, ret. by rewrite Hs, Hx. }
    intros r w Ht. destruct r as [id usr|id usr|id usr|id mail|id name|id|id|id]; simpl in Ht |- *; unfold err_of.
    1-5: unfold Update, UpdateTags, UpdateProfilePicture, UpdateEmail, UpdateUsername, bind, ret;
      destruct (Hself id w Ht) as (w' & -> & Hv); rewrite Hx; (split; [done|exact Hv]).
    all: unfold Enable, Disable, Delete, bind, ret; pose proof (Hnow w) as Hn; destruct (now w) as [t w0]; simpl in Hn;
      match goal with |- context [changeUserStatus _ _ ?u w0] => destruct (Hst u w0 Ht) as (w' & -> & Hv) end;
      (split; [done || apply WrapE_not_nil|simpl; congruence]).
  - intros id w u w' Hid. unfold View, bind, ret. destruct (RetrieveByID _ id w) as [[s [e|]] w1]; [intros [= _ H _]; by apply WrapE_inv in H|].
    destruct (Hself id w1 Hid) as (w2 & -> & _). rewrite Hx. by intros [= <- _].
Qed.
End others.

(** ** The delete handler *)
Section delete_handler.
Import policies users.
Context {W : Type} (now : St W Time) (h : handler W).
(** The rows of the table. *)
Context (rows : W -> list User).
(** The users that the handler asks for: its page has the zero value of the
    role, which is that of a user, so that administrators are not among them. *)
Definition deletable (u : User) : Prop := Status u = DeletedStatus /\ Role u = UserRole.
#[local] Instance deletable_dec u : Decision (deletable u) := _.
Definition deleted (w : W) : list User := filter deletable (rows w).
(** A user of a page is a row without its secrets. *)
Definition of_row (u r : User) : Prop := ID u = ID r /\ UpdatedAt u = UpdatedAt r.
Context (retrieve_all : forall w, exists pg l w', RetrieveAll (h_users h) deletedPage w = ((pg, None), w')
  /\ rows w' = rows w /\ Total (up_Page pg) = N.of_nat (length (deleted w))
  /\ l ≡ₚ deleted w /\ Forall2 of_row (Users pg) (take 100 l)).
Context (now_rows : frames now rows).
(** The identifier is the primary key. *)
Definition keyed (w : W) : Prop := forall x y, x ∈ rows w -> y ∈ rows w -> ID x = ID y -> x = y.

Lemma page_of_rows us l w : l ≡ₚ deleted w -> Forall2 of_row us (take 100 l) ->
  Forall (fun u => exists r, r ∈ deleted w /\ of_row u r) us.
Proof.
  intros Hl Hp. apply Forall_forall. intros u Hu. apply list_elem_of_lookup in Hu as [i Hu].
  destruct (Forall2_lookup_l _ _ _ _ _ Hp Hu) as (r & Hr & Ho). exists r. split; [|done].
  rewrite <- Hl. apply list_elem_of_lookup_2 in Hr. by apply elem_of_take in Hr as (j & Hj & _); apply list_elem_of_lookup_2 in Hj.
Qed.
Lemma filter_same {A} (P Q : A -> Prop) `{!forall x, Decision (P x)} `{!forall x, Decision (Q x)} (l : list A) :
  (forall x, x ∈ l -> P x <-> Q x) -> filter P l = filter Q l.
Proof.
  induction l as [|x l IH]; intros Hl; [done|]. rewrite !filter_cons. rewrite IH by (intros y Hy; apply Hl; by right).
  specialize (Hl x ltac:(left)). repeat case_decide; tauto.
Qed.

Section all_due.
Context (T : Time) (clock : forall w, (T <= (now w).1)%Z).
Context (domains_ok : forall id w, exists w', h_domains h id w = ((true, None), w') /\ rows w' = rows w).
Context (policies_ok : forall p w, exists w', DeletePolicyFilter (h_policies h) p w = (None, w') /\ rows w' = rows w).
Context (delete_ok : forall id w, exists w', repo_Delete (h_users h) id w = (None, w')
  /\ rows w' = filter (fun u => ID u <> id) (rows w)).

Definition due (u : User) : Prop := (deleteAfter h <= T - UpdatedAt u)%Z.

Lemma deleteUser_due u w : due u -> rows (deleteUser now h u w).2 = filter (fun x => ID x <> ID u) (rows w).
Proof.
  intros Hdue. unfold deleteUser, bind, ret. pose proof (clock w) as Hc. pose proof (now_rows w) as Hn.
  destruct (now w) as [t w1]. simpl in Hc, Hn. unfold due in Hdue.
  destruct (Z.ltb_spec (t - UpdatedAt u) (deleteAfter h)) as [Hlt|_]; [lia|].
  destruct (domains_ok (ID u) w1) as (w2 & -> & H2). simpl.
  match goal with |- context [DeletePolicyFilter _ ?p w2] => destruct (policies_ok p w2) as (w3 & -> & H3) end.
  destruct (delete_ok (ID u) w3) as (w4 & -> & H4). simpl. by rewrite H4, H3, H2, Hn.
Qed.

Lemma deleteUsers_due us w : Forall due us ->
  rows (deleteUsers now h us w).2 = filter (fun x => Forall (fun u => ID x <> ID u) us) (rows w).
Proof.
  intros Hdue. revert w. induction Hdue as [|u us Hu _ IH]; simpl; intros w.
  - unfold ret. simpl. induction (rows w) as [|x l IHl]; [done|]. by rewrite filter_cons_True, <- IHl by constructor.
  - unfold bind. pose proof (deleteUser_due u w Hu) as H1. destruct (deleteUser now h u w) as [[] w1]. simpl in H1.
    rewrite IH, H1, list_filter_filter. apply list_filter_iff. intros x. rewrite Forall_cons. tauto.
Qed.

(** A round: what it removes was asked for, and something is removed. *)
Lemma round_due us l w w1 : keyed w -> Forall due (deleted w) -> rows w1 = rows w -> l ≡ₚ deleted w ->
  Forall2 of_row us (take 100 l) ->
  let w2 := (deleteUsers now h us w1).2 in
  keyed w2 /\ Forall due (deleted w2) /\ filter (fun u => ~ deletable u) (rows w2) = filter (fun u => ~ deletable u) (rows w)
  /\ (deleted w <> [] -> length (deleted w2) < length (deleted w)).
Proof.
  intros Hk Hdue H1 Hl Hp. pose proof (page_of_rows us l w Hl Hp) as Hr. rewrite Forall_forall in Hdue, Hr.
  assert (H2 : rows (deleteUsers now h us w1).2 = filter (fun x => Forall (fun u => ID x <> ID u) us) (rows w)).
  { rewrite <- H1. apply deleteUsers_due, Forall_forall. intros u Hu. destruct (Hr u Hu) as (r & Hin & _ & Ht).
    unfold due. rewrite Ht. by apply Hdue. }
  cbv zeta. unfold deleted, keyed. rewrite H2. split_and!.
  - intros x y [_ Hx]%list_elem_of_filter [_ Hy]%list_elem_of_filter. by apply Hk.
  - apply Forall_forall. intros x [Hd [_ Hx]%list_elem_of_filter]%list_elem_of_filter. apply Hdue. by apply list_elem_of_filter.
  - rewrite list_filter_filter. apply filter_same. intros x Hx. split; [tauto|]. intros Hd. split; [done|].
    apply Forall_forall. intros u Hu He. destruct (Hr u Hu) as (r & [Hin Hrow]%list_elem_of_filter & Hid & _).
    apply Hd. by rewrite (Hk x r Hx Hrow (eq_trans He Hid)).
  - intros Hne. rewrite list_filter_filter.
    rewrite (filter_same _ (fun x => Forall (fun u => ID x <> ID u) us /\ deletable x)) by (intros; tauto).
    rewrite <- list_filter_filter. destruct l as [|r l]; [by apply Permutation_nil in Hl|].
    inversion Hp as [|u r' us' l' [Hid _] _]; subst. apply (length_filter_lt _ _ r).
    + rewrite <- Hl. left.
    + rewrite Forall_cons. intros [Hno _]. by symmetry in Hid.
Qed.

(** C14: when every user that the handler asks for, marked as deleted and
    with the role of a user, is due, and the calls of the handler succeed,
    its loop ends: a round for each of them and one more are enough.  Exactly
    these users are then gone from the table; administrators that are marked
    as deleted stay, and so does everybody else. *)
Theorem handle_terminates w (Hkey : keyed w) (Hdue : Forall due (deleted w)) :
  exists w', handle now h (S (length (deleted w))) w = (Some tt, w') /\ rows w' = filter (fun u => ~ deletable u) (rows w).
Proof.
  assert (Hall : forall w, deleted w = [] -> rows w = filter (fun u => ~ deletable u) (rows w)).
  { unfold deleted. intros v. induction (rows v) as [|x r IH]; [done|]. rewrite !filter_cons. repeat case_decide; try done.
    intros E. f_equal. by apply IH. }
  remember (length (deleted w)) as n eqn:Hn. assert (Hle : length (deleted w) <= n) by lia. clear Hn.
  revert w Hkey Hdue Hle. induction n as [|n IH]; intros w Hkey Hdue Hle;
    change (handle now h (S ?k) w) with
      (('(dbUsers, e) <- RetrieveAll (h_users h) deletedPage ;;
        if_err e return_ ret (Some tt) ;;
        if_ N.eqb (Total (up_Page dbUsers)) 0 return_ ret (Some tt) ;;
        deleteUsers now h (Users dbUsers) ;;; handle now h k) w);
    unfold bind, ret; destruct (retrieve_all w) as (pg & l & w1 & -> & H1 & -> & Hl & Hp).
  - destruct (deleted w) as [|u r] eqn:E; simpl in Hle; [|lia]. exists w1. rewrite H1. auto.
  - destruct (N.eqb_spec (N.of_nat (length (deleted w))) 0) as [Hz|Hz].
    + exists w1. rewrite H1. split; [done|]. apply Hall, nil_length_inv. lia.
    + destruct (round_due (Users pg) l w w1 Hkey Hdue H1 Hl Hp) as (Hk2 & Hd2 & Hs & Hlt).
      destruct (deleteUsers now h _ w1) as [[] w2]. cbn [snd] in *.
      destruct (IH w2 Hk2 Hd2) as (w' & Hrun & Hrows); [|exists w'; by rewrite Hrows, Hs].
      assert (deleted w <> []) by (intros E; by rewrite E in Hz). specialize (Hlt H). lia.
Qed.
End all_due.

Section not_due.
Context (u0 : User) (early : forall w, ((now w).1 - UpdatedAt u0 < deleteAfter h)%Z).
Context (domains_keeps : forall id, frames (h_domains h id) rows).
Context (policies_keeps : forall p, frames (DeletePolicyFilter (h_policies h) p) rows).
Context (delete_one : forall id w, let w' := (repo_Delete (h_users h) id w).2 in
  rows w' = rows w \/ rows w' = filter (fun u => ID u <> id) (rows w)).

(** The user is there, and is the only one with this identifier. *)
Definition waits (w : W) : Prop := u0 ∈ deleted w /\ forall u, u ∈ rows w -> ID u = ID u0 -> u = u0.
Lemma waits_same w w' : rows w' = rows w -> waits w -> waits w'.
Proof. unfold waits, deleted. by intros ->. Qed.
Lemma waits_delete id w : id <> ID u0 -> waits w -> waits (repo_Delete (h_users h) id w).2.
Proof.
  intros Hid Hw. destruct (delete_one id w) as [Hd|Hd]; [by eapply waits_same|]. destruct Hw as [[Hin Hr]%list_elem_of_filter Hu].
  unfold waits, deleted. rewrite Hd. split; [by repeat (apply list_elem_of_filter; split)|].
  intros u [_ Hx]%list_elem_of_filter. by apply Hu.
Qed.

Lemma deleteUser_keeps u w : waits w -> (ID u = ID u0 -> UpdatedAt u = UpdatedAt u0) -> waits (deleteUser now h u w).2.
Proof.
  intros Hin Hu. unfold deleteUser, bind, ret. pose proof (early w) as He. pose proof (now_rows w) as Hn.
  destruct (now w) as [t w1]. simpl in He, Hn. destruct (Z.ltb_spec (t - UpdatedAt u) (deleteAfter h)) as [_|Hge];
    [by eapply waits_same|].
  assert (Hne : ID u <> ID u0) by (intros Hid; apply Hu in Hid; rewrite Hid in Hge; lia).
  pose proof (domains_keeps (ID u) w1) as Hd. destruct (h_domains h (ID u) w1) as [[b [e|]] w2]; simpl in Hd |- *;
    [eapply waits_same, Hin; congruence|]. destruct b; simpl; [|eapply waits_same, Hin; congruence].
  match goal with |- context [DeletePolicyFilter _ ?p w2] =>
    pose proof (policies_keeps p w2) as Hp; destruct (DeletePolicyFilter _ p w2) as [[e|] w3] end; simpl in Hp |- *;
    [eapply waits_same, Hin; congruence|].
  assert (Hw3 : waits w3) by (eapply waits_same, Hin; congruence).
  pose proof (waits_delete (ID u) w3 Hne Hw3) as Hdel. by destruct (repo_Delete _ _ w3) as [e w4].
Qed.
Lemma deleteUsers_keep us w : waits w -> Forall (fun u => ID u = ID u0 -> UpdatedAt u = UpdatedAt u0) us ->
  waits (deleteUsers now h us w).2.
Proof.
  intros Hin Hpage. revert w Hin. induction Hpage as [|u us Hu _ IHu]; intros w1 Hin1; [done|]. simpl. unfold bind.
  pose proof (deleteUser_keeps u w1 Hin1 Hu) as Hd. destruct (deleteUser now h u w1) as [[] w2]. by apply IHu.
Qed.

(** C15: while the clock has not reached the time at which some user that the
    handler asks for (marked as deleted, with the role of a user) is due, and
    its page can be read, the loop of the handler does not end, whatever its
    other calls do: it asks for the same page again at once, for any number
    of rounds, instead of waiting for its next tick.  The user stays. *)
Theorem handle_spins fuel w (Hin : waits w) : (handle now h fuel w).1 = None /\ u0 ∈ rows (handle now h fuel w).2.
Proof.
  revert w Hin. induction fuel as [|fuel IH]; intros w Hin; [split; [done|]; by destruct Hin as [[_ ?]%list_elem_of_filter _]|].
  simpl. unfold bind, ret. destruct (retrieve_all w) as (pg & l & w1 & -> & H1 & -> & Hl & Hp).
  destruct (N.eqb_spec (N.of_nat (length (deleted w))) 0) as [Hz|_].
  { destruct Hin as [Hin _]. destruct (deleted w); [by apply not_elem_of_nil in Hin|done]. }
  assert (Hpage : Forall (fun u => ID u = ID u0 -> UpdatedAt u = UpdatedAt u0) (Users pg)).
  { eapply Forall_impl; [exact (page_of_rows _ _ _ Hl Hp)|]. intros u (r & [_ Hr]%list_elem_of_filter & Hid & Ht) He.
    rewrite Ht. by rewrite (proj2 Hin r Hr (eq_trans (eq_sym Hid) He)). }
  pose proof (deleteUsers_keep (Users pg) w1 (waits_same _ _ H1 Hin) Hpage) as Hk.
  destruct (deleteUsers now h _ w1) as [[] w2]. by apply IH.
Qed.
End not_due.
End delete_handler.

(** ** A database in memory, for the examples *)
Module memusers.
Import policies users.
Record mem := MkMem { m_users : gmap string User; m_verifs : gmap (string * string) UserVerification; broken : bool }.
#[global] Instance mem_fields : Fields mem := fun m => MkMem (m_users m) (m_verifs m) (broken m).
Definition state : Type := memroles.state mem.
Definition table (s : state) := m_users s.2.
Definition verifs (s : state) := m_verifs s.2.
Definition put (t : gmap string User) (s : state) : state := (s.1, s.2 <| m_users := t |>).

Definition by_id (id : string) : St state (User * error) := fun s =>
  match table s !! id with Some u => ((u, None), s) | None => ((User0, Some repoerr.ErrNotFound), s) end.
Definition change (f : User -> User) (id : string) : St state (User * error) := fun s =>
  match table s !! id with
  | Some u => if broken s.2 then ((User0, Some repoerr.ErrUpdateEntity), s) else ((f u, None), put (<[id := f u]> (table s)) s)
  | None => ((User0, Some repoerr.ErrNotFound), s)
  end.
Definition find (p : User -> bool) : St state (User * error) := fun s =>
  (match List.find (fun kv => p kv.2) (map_to_list (table s)) with
   | Some kv => (kv.2, None) | None => (User0, Some repoerr.ErrNotFound) end, s).

Definition repo : Repository state :=
  {| RetrieveByID := by_id; RetrieveAll := fun _ => ret (UsersPage0, None);
     RetrieveByEmail := fun m => find (fun u => Email u =s m);
     RetrieveByUsername := fun n => find (fun u => Username (Creds u) =s n);
     repo_Update := fun id _ => by_id id;
     repo_UpdateUsername := fun u => change (set_field Creds (Creds u)) (ID u);
     repo_UpdateSecret := fun u => change (set_field Creds (Creds u)) (ID u);
     repo_UpdateEmail := fun u => change (set_field Email (Email u)) (ID u);
     repo_UpdateRole := fun u => change (set_field Role (Role u)) (ID u);
     UpdateVerifiedAt := fun u => change (set_field VerifiedAt (VerifiedAt u)) (ID u);
     ChangeStatus := fun u => change (set_field Status (Status u)) (ID u);
     repo_Delete := fun id s => (None, put (delete id (table s)) s);
     repo_SearchUsers := fun _ => ret (UsersPage0, None); RetrieveAllByIDs := fun pm s =>
       ((MkUsersPage (pm <| Total := N.of_nat (size (table s)) |>) (omap (fun id => table s !! id) (IDs pm)), None), s);
     CheckSuperAdmin := fun id s => (if bool_decide (Role <$> table s !! id = Some AdminRole) then None
                                     else Some repoerr.ErrNotFound, s);
     Save := fun u s => if is_nil (table s !! ID u) then ((u, None), put (<[ID u := u]> (table s)) s)
                        else ((User0, Some repoerr.ErrConflict), s);
     AddUserVerification := fun v s => (None, (s.1, s.2 <| m_verifs := <[(UserID v, v_Email v) := v]> (verifs s) |>));
     RetrieveUserVerification := fun uid em s => match verifs s !! (uid, em) with
       | Some v => ((v, None), s) | None => ((UserVerification0, Some repoerr.ErrNotFound), s) end;
     UpdateUserVerification := fun v s => match verifs s !! (UserID v, v_Email v) with
       | Some c => (None, (s.1, s.2 <| m_verifs :=
           <[(UserID v, v_Email v) := c <| OTP := OTP v |> <| UsedAt := UsedAt v |>]> (verifs s) |>))
       | None => (Some repoerr.ErrNotFound, s) end |}.

Definition svc : service state :=
  {| token := {| token_Issue := fun _ => ret (Token0, None); token_Refresh := fun _ _ => ret (Token0, None);
                 token_Revoke := fun _ _ => ret None; token_ListUserRefreshTokens := fun _ => ret ([], None) |};
     users_ := repo; idProvider := ret ("u1", None); policy := spicedb.NewPolicyService memroles.client;
     hasher := {| keys.Hash := fun s => ret (s, None); keys.Compare := fun _ _ => ret None |};
     email := {| email_SendPasswordReset := fun _ _ _ => ret None; email_SendVerification := fun _ _ _ => ret None |} |}.
(** Three fields separated by semicolons. *)
Definition J : jsonlib :=
  {| Marshal := fun v => (chars (UserID v +:+ ";" +:+ v_Email v +:+ ";" +:+ OTP v), None);
     Unmarshal := fun l => match Split (str l) ";" with
       | [a; b; c] => ((a, b, c), None) | _ => (("", "", ""), Some (Errorf "invalid character")) end |}.

Lemma change_frames {V} (view : state -> V) f id : (forall t s, view (put t s) = view s) -> frames (change f id) view.
Proof. intros Hv s. unfold change. repeat case_match; simplify_eq/=; by rewrite ?Hv. Qed.

#[export] Instance repo_laws : UserRepoLaws repo memroles.tuples table.
Proof.
  split; simpl; intros *; try (by intros w); try (by apply change_frames); try (by intros w; repeat case_match).
  - destruct (table w !! ID u) eqn:E; simpl; [done|]. by intros [= <- <-].
  - destruct (table w !! ID u) eqn:E; simpl; [done|]. by intros [= <- _].
  - destruct (table w !! ID u) eqn:E; simpl; try done; by intros [= <- <- <-].
  - unfold change. destruct (table w !! ID u) as [o|] eqn:E; [|done]. destruct (broken _); [done|].
    intros [= <- <-]. by exists o.
  - unfold change. destruct (table w !! ID u); [destruct (broken _)|]; by intros [= <- <- <-].
Qed.
#[export] Instance verification_laws : VerificationLaws repo verifs.
Proof.
  split; simpl; intros *; try (by apply change_frames); try (by intros w; repeat case_match).
  - destruct (verifs w !! (uid, em)) eqn:E; by intros [= <- <-].
  - intros ->. by intros [= <-].
Qed.
End memusers.

Module users_example.
Import policies users memusers.
Definition bob : User := User0 <| Email := "bob@example.com" |> <| Creds := MkCredentials "bob" "secret" |>.
Definition start : state := ((∅, ∅), MkMem ∅ ∅ false).
Definition admin_bob : User := bob <| Role := AdminRole |>.
Definition registered := Register memroles.now svc authn.Session0 admin_bob true start.

Lemma only_policies l p : frames (AddPolicies (policy svc) l) table /\ frames (AddPolicy (policy svc) p) table
  /\ frames (DeletePolicies (policy svc) l) table /\ frames (DeletePolicyFilter (policy svc) p) table.
Proof.
  split_and!; [by apply memroles.AddPolicies_frames|by apply memroles.AddPolicy_frames|
    by apply memroles.DeletePolicies_frames|by apply memroles.DeletePolicyFilter_frames].
Qed.

#[export] Instance accounts_env : AccountsEnv memroles.now svc memroles.tuples table.
Proof.
  split.
  - exact (@NewPolicyService_laws _ _ _ memroles.client_laws).
  - apply repo_laws.
  - intros l. apply (only_policies l Policy0).
  - intros p. apply (only_policies [] p).
  - intros l. apply (only_policies l Policy0).
  - intros p. apply (only_policies [] p).
  - by intros w.
  - by intros w.
  - by intros w.
  - by intros w.
  - by intros ? w.
  - by intros ? w.
Qed.

Lemma Register_atomic_witness :
  let run := Register memroles.now svc authn.Session0 admin_bob true start in
  run.1.2 = None
  /\ exists id stored, ID stored = id /\ Role stored = AdminRole /\ (AdminRole = UserRole \/ AdminRole = AdminRole)
      /\ table start !! id = None /\ table run.2 = <[id := stored]> (table start)
      /\ memroles.tuples run.2 = memroles.tuples start ∪ rel_set (userPolicies id AdminRole)
      /\ (true = false -> authn.SuperAdmin authn.Session0 = true \/ (CheckSuperAdmin repo "" start).1 = None).
Proof.
  cbv zeta.
  assert (Hn : (Register memroles.now svc authn.Session0 admin_bob true start).1.2 = None) by (vm_compute; reflexivity).
  split; [exact Hn|]. revert Hn.
  pose proof (Register_atomic memroles.now svc memroles.tuples table (AE := accounts_env)
    authn.Session0 admin_bob true start) as H.
  destruct (Register memroles.now svc authn.Session0 admin_bob true start) as [[u e] w'].
  cbn [fst snd]. intros ->. exact (H u None w' eq_refl).
Defined.

(** Whoever it is. *)
Lemma self_registration_grants_admin_witness :
  let run := Register memroles.now svc roles_example.alice admin_bob true start in
  run.1.2 = None /\ ID run.1.1 = "u1" /\ table start !! "u1" = None
  /\ relationship (adminPolicy "u1") ∈ memroles.tuples run.2.
Proof.
  cbv zeta.
  assert (Hn : (Register memroles.now svc roles_example.alice admin_bob true start).1.2 = None) by (vm_compute; reflexivity).
  assert (Hi : ID (Register memroles.now svc roles_example.alice admin_bob true start).1.1 = "u1") by (vm_compute; reflexivity).
  split; [exact Hn|]. split; [exact Hi|]. revert Hn Hi.
  pose proof (self_registration_grants_admin memroles.now svc memroles.tuples table (AE := accounts_env)
    roles_example.alice authn.Session0 admin_bob start) as H.
  destruct (Register memroles.now svc roles_example.alice admin_bob true start) as [[u e] w'].
  cbn [fst snd]. intros -> Hi. destruct (H u w' eq_refl eq_refl) as (_ & _ & Hnew & _ & Ht & _).
  rewrite Hi in Hnew, Ht. done.
Defined.

(** The demotion of bob by himself, when the table cannot be written. *)
Definition failing : state := (registered.2.1, registered.2.2 <| broken := true |>).
Definition root : authn.Session := authn.Session0 <| authn.SuperAdmin := true |>.

Lemma UpdateRole_effect_witness :
  let run := UpdateRole memroles.now svc root (bob <| ID := "u1" |>) failing in
  Role <$> table run.2 !! "u1" = Some AdminRole /\ run.1.2 <> None
  /\ (both memroles.tuples table run.2 = both memroles.tuples table failing
      \/ (table run.2 = table failing
          /\ (relationship (adminPolicy "u1") ∉ memroles.tuples run.2
              \/ (exists e1 er, run.1.2 = Wrap (Some er) e1
                  /\ (UserRole = AdminRole <-> relationship (adminPolicy "u1") ∈ memroles.tuples run.2))))).
Proof.
  cbv zeta. split; [vm_compute; reflexivity|].
  assert (Hn : is_nil (UpdateRole memroles.now svc root (bob <| ID := "u1" |>) failing).1.2 = false) by (vm_compute; reflexivity).
  pose proof (UpdateRole_effect memroles.now svc memroles.tuples table (AE := accounts_env) root (bob <| ID := "u1" |>) failing) as H.
  revert Hn. destruct (UpdateRole memroles.now svc root (bob <| ID := "u1" |>) failing) as [[u [e|]] w']; [|discriminate]. intros _. split; [discriminate|].
  exact (H u (Some e) w' ltac:(discriminate) eq_refl).
Defined.

(** A verification of bob's email. *)
Definition otp : UserVerification := MkUserVerification "u1" "bob@example.com" "pass" 1%Z 100%Z 0%Z.
Definition pending : state := (registered.2.1, registered.2.2 <| m_verifs := {[ ("u1", "bob@example.com") := otp ]} |>).
Definition tok : string := (Encode J otp).1.

Lemma VerifyEmail_once_witness :
  let run := VerifyEmail memroles.now J svc tok pending in
  run.1.2 = None /\ (VerifyEmail memroles.now J svc tok run.2).1.2 <> None.
Proof.
  cbv zeta. assert (Hn : (VerifyEmail memroles.now J svc tok pending).1.2 = None) by (vm_compute; reflexivity).
  split; [exact Hn|].
  pose proof (VerifyEmail_once memroles.now J svc verifs (VL := verification_laws) (fun _ => eq_refl)
    (fun _ => ltac:(discriminate)) tok pending) as H.
  revert Hn. destruct (VerifyEmail memroles.now J svc tok pending) as [[u e] w']. cbn [fst snd]. intros ->.
  destruct (H u w' eq_refl) as (_ & _ & _ & _ & _ & _ & _ & _ & _ & _ & _ & Honce). exact (Honce w' eq_refl).
Defined.

Definition mallory : authn.Session := authn.Session0 <| authn.UserID := "u2" |>.

(** Without an administrator: every check fails. *)
Definition lonely : service state :=
  {| token := token svc; idProvider := idProvider svc; policy := policy svc; hasher := hasher svc; email := email svc;
     users_ := {| RetrieveByID := by_id; RetrieveAll := RetrieveAll repo; RetrieveByEmail := RetrieveByEmail repo;
       RetrieveByUsername := RetrieveByUsername repo; repo_Update := repo_Update repo;
       repo_UpdateUsername := repo_UpdateUsername repo; repo_UpdateSecret := repo_UpdateSecret repo;
       repo_UpdateEmail := repo_UpdateEmail repo; repo_UpdateRole := repo_UpdateRole repo;
       UpdateVerifiedAt := UpdateVerifiedAt repo; ChangeStatus := ChangeStatus repo; repo_Delete := repo_Delete repo;
       repo_SearchUsers := repo_SearchUsers repo; RetrieveAllByIDs := RetrieveAllByIDs repo;
       CheckSuperAdmin := fun _ => ret (Some repoerr.ErrNotFound); Save := Save repo;
       AddUserVerification := AddUserVerification repo; RetrieveUserVerification := RetrieveUserVerification repo;
       UpdateUserVerification := UpdateUserVerification repo |} |}.

Lemma others_need_admin_witness :
  (serve memroles.now lonely mallory (ReqDelete "u1") registered.2).1 <> None
  /\ table (serve memroles.now lonely mallory (ReqDelete "u1") registered.2).2 = table registered.2.
Proof.
  refine (proj1 (others_need_admin memroles.now lonely table mallory repoerr.ErrNotFound (fun _ => eq_refl) _ eq_refl)
    (ReqDelete "u1") registered.2 _); [|discriminate].
  intros w. exists w. split; reflexivity.
Defined.

Definition eight : list ascii := chars "abcdefgh".
Lemma generateUsername_valid_witness :
  exists p suffix, generateUsername (W := unit) (ret 0%Z) (fun _ => ret (eight, None)) (ret ([], None)) "Jane-Doe@example.com" tt
      = (Some (p +:+ "_" +:+ suffix), tt)
    /\ 1 <= length (chars p) <= 15 /\ name_part (chars p)
    /\ length (chars suffix) = 10 /\ Forall (fun c => c ∈ chars "0123456789abcdef") (chars suffix)
    /\ length (chars (p +:+ "_" +:+ suffix)) <= 26.
Proof.
  exact (generateUsername_valid (ret 0%Z) (fun _ => ret (eight, None)) (ret ([], None)) "Jane-Doe@example.com" tt eight tt
    eq_refl eq_refl).
Defined.
(** Dashes that another character separated stay next to each other. *)
Lemma sanitize_keeps_double_dash : sanitizeForUsername "a-.-b" 15 = "a--b".
Proof. vm_compute. reflexivity. Qed.

(** A delete handler over a list of users, with a clock that stands at 10. *)
Definition cron : handler (list User) :=
  {| h_users := {| RetrieveByID := fun _ => ret (User0, None);
       RetrieveAll := fun _ l => let us := filter deletable l in
         ((MkUsersPage (Page0 <| Total := N.of_nat (length us) |>) (take 100 us), None), l);
       RetrieveByEmail := fun _ => ret (User0, None); RetrieveByUsername := fun _ => ret (User0, None);
       repo_Update := fun _ _ => ret (User0, None); repo_UpdateUsername := fun _ => ret (User0, None);
       repo_UpdateSecret := fun _ => ret (User0, None); repo_UpdateEmail := fun _ => ret (User0, None);
       repo_UpdateRole := fun _ => ret (User0, None); UpdateVerifiedAt := fun _ => ret (User0, None);
       ChangeStatus := fun _ => ret (User0, None); repo_Delete := fun id l => (None, filter (fun u => ID u <> id) l);
       repo_SearchUsers := fun _ => ret (UsersPage0, None); RetrieveAllByIDs := fun _ => ret (UsersPage0, None);
       CheckSuperAdmin := fun _ => ret None; Save := fun u => ret (u, None); AddUserVerification := fun _ => ret None;
       RetrieveUserVerification := fun _ _ => ret (UserVerification0, None); UpdateUserVerification := fun _ => ret None |};
     h_domains := fun _ => ret (true, None);
     h_policies := {| AddPolicy := fun _ => ret None; AddPolicies := fun _ => ret None;
                      DeletePolicyFilter := fun _ => ret None; DeletePolicies := fun _ => ret None |};
     deleteAfter := 5 |}.
Definition gone (id : string) (t : Time) : User := User0 <| ID := id |> <| Status := DeletedStatus |> <| UpdatedAt := t |>.
Definition ten : St (list User) Time := ret 10%Z.

Lemma cron_lists (w : list User) : exists pg l w', RetrieveAll (h_users cron) deletedPage w = ((pg, None), w')
  /\ w' = w /\ Total (up_Page pg) = N.of_nat (length (deleted id w)) /\ l ≡ₚ deleted id w /\ Forall2 of_row (Users pg) (take 100 l).
Proof.
  eexists _, (filter deletable w), w. split; [reflexivity|]. split_and!; try done.
  simpl. induction (take 100 _); constructor; [by split|done].
Defined.
(** An administrator who is marked as deleted stays. *)
Definition root_gone : User := (gone "r" 1%Z) <| Role := AdminRole |>.
Lemma handle_terminates_witness :
  exists w', handle ten cron 3 [gone "a" 1%Z; root_gone; gone "b" 5%Z] = (Some tt, w') /\ w' = [root_gone].
Proof.
  refine (handle_terminates ten cron id cron_lists (fun _ => eq_refl) 10%Z _ _ _ _ [gone "a" 1%Z; root_gone; gone "b" 5%Z] _ _).
  - intros w. apply Z.le_refl.
  - intros i w. by exists w.
  - intros p w. by exists w.
  - intros i w. by exists (filter (fun u => ID u <> i) w).
  - intros x y Hx Hy. apply list_elem_of_In in Hx, Hy. destruct Hx as [<-|[<-|[<-|[]]]], Hy as [<-|[<-|[<-|[]]]]; done.
  - repeat constructor; vm_compute; discriminate.
Defined.

Lemma handle_spins_witness : (handle ten cron 1000 [gone "a" 1%Z; gone "b" 6%Z]).1 = None.
Proof.
  refine (proj1 (handle_spins ten cron id cron_lists (fun _ => eq_refl) (gone "b" 6%Z) _ (fun _ _ => eq_refl) (fun _ _ => eq_refl) _ 1000
    [gone "a" 1%Z; gone "b" 6%Z] _)).
  - intros w. reflexivity.
  - intros i w. by right.
  - split; [right; left|]. intros u [->|[->|[]%not_elem_of_nil]%elem_of_cons]%elem_of_cons; [discriminate|done].
Defined.
End users_example.
