(* ===== verification/Permissions.v ===== *)
(** * pkg/permissions: operations of entities and the permissions they need

    Source: src/pkg/permissions/operations.go, entities.go, config.go; the
    operation tables of src/clients/operations, src/channels/operations,
    src/groups/operations, src/domains/operations and src/pkg/roles/roles.go;
    how src/cmd/*/main.go puts them together with a permissions file.

    Reading and parsing the file (os, yaml) is not modelled: a
    [PermissionConfig] is what the parser gives.  Where the code ranges over
    a map, the order is that of [map_to_list]; it decides only which of
    several errors is returned. *)

From S2P Require Import Prelude GoStd Errors Policies.

Module permissions.

(** ** src/pkg/permissions/operations.go *)
Definition ErrMergeInvalidOperations : err :=
  Sentinel "permissions.ErrMergeInvalidOperations" CustomError "failed to merge: invalid operations type".
Definition ErrRemoveInvalidOperations : err :=
  Sentinel "permissions.ErrRemoveInvalidOperations" CustomError "failed to remove: invalid operations type".

Definition Permission : Type := string.
(** Operation, ExternalOperation and RoleOperation are ints. *)
Definition Operation : Type := Z.
Definition RoleOperation : Type := Z.

Record OperationDetails := MkOperationDetails { Name : string; PermissionRequired : bool }.

Record operations := MkOperations { opPermission : gmap Z Permission; opDetails : gmap Z OperationDetails }.
#[global] Instance operations_fields : Fields operations := fun o => MkOperations (opPermission o) (opDetails o).

Definition newEmptyOperations (opdetails : gmap Z OperationDetails) : operations := MkOperations ∅ opdetails.

Definition OperationName (ops : operations) (op : Z) : string :=
  match opDetails ops !! op with
  | None => "UnknownOperation(" +:+ pretty op +:+ ")"
  | Some opDetail => Name opDetail
  end.

Definition permissionNotFound (opd : OperationDetails) : err :=
  Errorf ("permission related to operation name " +:+ Name opd +:+ " not found").

(** The body of addOperationPermission, over the operations left. *)
Fixpoint addOperationPermission_loop (opnamePerm : gmap string Permission) (l : list (Z * OperationDetails))
    (ops : operations) : operations * error :=
  match l with
  | [] => (ops, None)
  | (op, opd) :: l =>
      if PermissionRequired opd then
        match opnamePerm !! Name opd with
        | None => (ops, Some (permissionNotFound opd))
        | Some perm => addOperationPermission_loop opnamePerm l (ops <| opPermission := <[op := perm]> (opPermission ops) |>)
        end
      else addOperationPermission_loop opnamePerm l ops
  end.
Definition addOperationPermission (ops : operations) (opnamePerm : gmap string Permission) : operations * error :=
  addOperationPermission_loop opnamePerm (map_to_list (opDetails ops)) ops.

Fixpoint Validate_loop (ops : operations) (l : list (Z * OperationDetails)) : error :=
  match l with
  | [] => None
  | (op, opd) :: l =>
      if PermissionRequired opd && is_nil (opPermission ops !! op) then Some (permissionNotFound opd)
      else Validate_loop ops l
  end.
Definition Validate (ops : operations) : error := Validate_loop ops (map_to_list (opDetails ops)).

Definition NewOperations (opdetails : gmap Z OperationDetails) (opnamePerm : gmap string Permission)
    : option operations * error :=
  let ops := newEmptyOperations opdetails in
  let '(ops, e) := addOperationPermission ops opnamePerm in
  if_err e return_ (None, e) ;;
  if_err Validate ops return_ (None, Validate ops) ;;
  (Some ops, None).

Definition noPermissions (ops : operations) (op : Z) : err :=
  Errorf ("operation " +:+ OperationName ops op +:+ " doesn't have any permissions").

Definition GetPermission (ops : operations) (op : Z) : Permission * error :=
  match opPermission ops !! op with
  | Some perm => (perm, None)
  | None => ("", Some (noPermissions ops op))
  end.

Definition GetPermissionAndRequired (ops : operations) (op : Z) : Permission * bool * error :=
  match opDetails ops !! op with
  | None => ("", false, Some (Errorf ("operation not found " +:+ OperationName ops op)))
  | Some opd =>
      let perm := opPermission ops !! op in
      if_ PermissionRequired opd && is_nil perm return_ ("", false, Some (noPermissions ops op)) ;;
      (default "" perm, PermissionRequired opd, None)
  end.

(** Merge of two values of the only implementation. *)
Fixpoint Merge_loop (newOps : operations) (l : list (Z * OperationDetails)) (ops : operations) : operations * error :=
  match l with
  | [] => (ops, None)
  | (op, opd) :: l =>
      let ops := ops <| opDetails := <[op := opd]> (opDetails ops) |> in
      if PermissionRequired opd then
        match opPermission newOps !! op with
        | None => (ops, Some (Errorf ("missing permission for required operation " +:+ Name opd)))
        | Some perm => Merge_loop newOps l (ops <| opPermission := <[op := perm]> (opPermission ops) |>)
        end
      else Merge_loop newOps l ops
  end.
Definition Merge (ops newOps : operations) : operations * error :=
  Merge_loop newOps (map_to_list (opDetails newOps)) ops.

Definition Remove (ops remOps : operations) : operations * error :=
  (foldl (fun ops op => ops <| opDetails := base.delete op (opDetails ops) |> <| opPermission := base.delete op (opPermission ops) |>)
     ops (map fst (map_to_list (opDetails remOps))), None).

(** ** src/pkg/permissions/entities.go *)
Definition EntitiesPermission : Type := gmap string (gmap string Permission).
Definition EntitiesOperationDetails : Type := gmap string (gmap Z OperationDetails).
Definition ErrEntityTypeNotFound : err :=
  Sentinel "permissions.ErrEntityTypeNotFound" CustomError "entity type not found".
Definition entitiesOperations : Type := gmap string operations.

Fixpoint newEntitiesOperations_loop (entitiesPermission : EntitiesPermission)
    (l : list (string * gmap Z OperationDetails)) (eops : entitiesOperations) : option entitiesOperations * error :=
  match l with
  | [] => (Some eops, None)
  | (entity, opDetails) :: l =>
      match entitiesPermission !! entity with
      | None => (None, Some (Errorf (entity +:+ " entity permission not found ")))
      | Some opPerm =>
          match NewOperations opDetails opPerm with
          | (Some ops, None) => newEntitiesOperations_loop entitiesPermission l (<[entity := ops]> eops)
          | (_, e) => (None, Some (Foreign None
              ("failed to create new operations for " +:+ entity +:+ " entity: " +:+ from_option Error "" e) e))
          end
      end
  end.
Definition newEntitiesOperations (entitiesPermission : EntitiesPermission)
    (entitiesOperationDetails : EntitiesOperationDetails) : option entitiesOperations * error :=
  newEntitiesOperations_loop entitiesPermission (map_to_list entitiesOperationDetails) ∅.

Definition NewEntitiesOperations (entitiesPermission : EntitiesPermission)
    (entitiesOperationDetails : EntitiesOperationDetails) (filterEntities : list string)
    : option entitiesOperations * error :=
  if length filterEntities =? 0 then newEntitiesOperations entitiesPermission entitiesOperationDetails
  else
    newEntitiesOperations (filter (fun kv => kv.1 ∈ filterEntities) entitiesPermission)
      (filter (fun kv => kv.1 ∈ filterEntities) entitiesOperationDetails).

Definition entities_GetPermission (eo : entitiesOperations) (et : string) (op : Z) : Permission * error :=
  match eo !! et with
  | Some ops => GetPermission ops op
  | None => ("", Some ErrEntityTypeNotFound)
  end.
Definition entities_GetPermissionAndRequired (eo : entitiesOperations) (et : string) (op : Z)
    : Permission * bool * error :=
  match eo !! et with
  | Some ops => GetPermissionAndRequired ops op
  | None => ("", false, Some ErrEntityTypeNotFound)
  end.
Definition entities_OperationName (eo : entitiesOperations) (et : string) (op : Z) : string :=
  match eo !! et with Some ops => OperationName ops op | None => "" end.

Fixpoint entities_Validate_loop (l : list (string * operations)) : error :=
  match l with
  | [] => None
  | (et, ops) :: l =>
      match Validate ops with
      | Some e => Some (Foreign None ("entity type " +:+ et +:+ " failed to validate: " +:+ Error e) (Some e))
      | None => entities_Validate_loop l
      end
  end.
Definition entities_Validate (eo : entitiesOperations) : error := entities_Validate_loop (map_to_list eo).

Definition AddEntityOperations (eo : entitiesOperations) (et : string) (ops : operations) : entitiesOperations * error :=
  match eo !! et with
  | Some entityOperation => let '(o, e) := Merge entityOperation ops in (<[et := o]> eo, e)
  | None => (<[et := ops]> eo, None)
  end.
Definition RemoveEntityOperations (eo : entitiesOperations) (et : string) (ops : operations) : entitiesOperations * error :=
  match eo !! et with
  | Some entityOperation => let '(o, e) := Remove entityOperation ops in (<[et := o]> eo, e)
  | None => (eo, None)
  end.

(** ** src/pkg/permissions/config.go *)
Record EntityPermissions := MkEntityPermissions {
  Operations : list (gmap string string); RolesOperations : list (gmap string string) }.
Definition PermissionConfig : Type := gmap string EntityPermissions.

(** The loop over a list of operations: later entries take precedence, empty
    permissions are left out. *)
Definition namedPermissions (l : list (gmap string string)) : gmap string Permission :=
  foldl (fun acc op => map_fold (fun name perm acc => if perm <>s "" then <[name := perm]> acc else acc) acc op) ∅ l.

Definition GetEntityPermissions (pc : PermissionConfig) (entityType : string)
    : option (gmap string Permission * gmap string Permission) * error :=
  match pc !! entityType with
  | None => (None, Some (Errorf ("entity type " +:+ entityType +:+ " not found in permissions file")))
  | Some entityPerms => (Some (namedPermissions (Operations entityPerms), namedPermissions (RolesOperations entityPerms)), None)
  end.

Definition required (name : string) : OperationDetails := MkOperationDetails name true.
Definition optional (name : string) : OperationDetails := MkOperationDetails name false.
End permissions.
Import permissions.

(** ** src/clients/operations/operations.go *)
Module clients_ops.
Definition OpViewClient : Operation := 0%Z.
Definition OpUpdateClient : Operation := 1%Z.
Definition OpUpdateClientTags : Operation := 2%Z.
Definition OpUpdateClientSecret : Operation := 3%Z.
Definition OpEnableClient : Operation := 4%Z.
Definition OpDisableClient : Operation := 5%Z.
Definition OpDeleteClient : Operation := 6%Z.
Definition OpSetParentGroup : Operation := 7%Z.
Definition OpRemoveParentGroup : Operation := 8%Z.
Definition OpConnectToChannel : Operation := 9%Z.
Definition OpDisconnectFromChannel : Operation := 10%Z.
Definition OpListUserClients : Operation := 11%Z.
Definition OperationDetails : gmap Z OperationDetails := list_to_map [
  (OpViewClient, required "view");
  (OpUpdateClient, required "update");
  (OpUpdateClientTags, required "update_tags");
  (OpUpdateClientSecret, required "update_secret");
  (OpEnableClient, required "enable");
  (OpDisableClient, required "disable");
  (OpDeleteClient, required "delete");
  (OpSetParentGroup, required "set_parent_group");
  (OpRemoveParentGroup, required "remove_parent_group");
  (OpConnectToChannel, required "connect_to_channel");
  (OpDisconnectFromChannel, required "disconnect_from_channel");
  (OpListUserClients, optional "list_user_clients")].
End clients_ops.

(** ** src/channels/operations/operations.go *)
Module channels_ops.
Definition OpViewChannel : Operation := 0%Z.
Definition OpUpdateChannel : Operation := 1%Z.
Definition OpUpdateChannelTags : Operation := 2%Z.
Definition OpEnableChannel : Operation := 3%Z.
Definition OpDisableChannel : Operation := 4%Z.
Definition OpDeleteChannel : Operation := 5%Z.
Definition OpSetParentGroup : Operation := 6%Z.
Definition OpRemoveParentGroup : Operation := 7%Z.
Definition OpConnectClient : Operation := 8%Z.
Definition OpDisconnectClient : Operation := 9%Z.
Definition OpListUserChannels : Operation := 10%Z.
Definition OperationDetails : gmap Z OperationDetails := list_to_map [
  (OpViewChannel, required "view");
  (OpUpdateChannel, required "update");
  (OpUpdateChannelTags, required "update_tags");
  (OpEnableChannel, required "enable");
  (OpDisableChannel, required "disable");
  (OpDeleteChannel, required "delete");
  (OpSetParentGroup, required "set_parent_group");
  (OpRemoveParentGroup, required "remove_parent_group");
  (OpConnectClient, required "connect_client");
  (OpDisconnectClient, required "disconnect_client");
  (OpListUserChannels, optional "list_user_channels")].
End channels_ops.

(** ** src/groups/operations/operations.go *)
Module groups_ops.
Definition OpViewGroup : Operation := 0%Z.
Definition OpUpdateGroup : Operation := 1%Z.
Definition OpUpdateGroupTags : Operation := 2%Z.
Definition OpEnableGroup : Operation := 3%Z.
Definition OpDisableGroup : Operation := 4%Z.
Definition OpRetrieveGroupHierarchy : Operation := 5%Z.
Definition OpAddParentGroup : Operation := 6%Z.
Definition OpRemoveParentGroup : Operation := 7%Z.
Definition OpAddChildrenGroups : Operation := 8%Z.
Definition OpRemoveChildrenGroups : Operation := 9%Z.
Definition OpRemoveAllChildrenGroups : Operation := 10%Z.
Definition OpListChildrenGroups : Operation := 11%Z.
Definition OpDeleteGroup : Operation := 12%Z.
Definition OpGroupSetChildClient : Operation := 13%Z.
Definition OpGroupRemoveChildClient : Operation := 14%Z.
Definition OpGroupSetChildChannel : Operation := 15%Z.
Definition OpGroupRemoveChildChannel : Operation := 16%Z.
Definition OpListUserGroups : Operation := 17%Z.
Definition OperationDetails : gmap Z OperationDetails := list_to_map [
  (OpViewGroup, required "view");
  (OpUpdateGroup, required "update");
  (OpUpdateGroupTags, required "update_tags");
  (OpEnableGroup, required "enable");
  (OpDisableGroup, required "disable");
  (OpRetrieveGroupHierarchy, required "retrieve_group_hierarchy");
  (OpAddParentGroup, required "add_parent_group");
  (OpRemoveParentGroup, required "remove_parent_group");
  (OpAddChildrenGroups, required "add_children_groups");
  (OpRemoveChildrenGroups, required "remove_children_groups");
  (OpRemoveAllChildrenGroups, required "remove_all_children_groups");
  (OpListChildrenGroups, required "list_children_groups");
  (OpDeleteGroup, required "delete");
  (OpGroupSetChildClient, required "set_child_client");
  (OpGroupRemoveChildClient, required "remove_child_client");
  (OpGroupSetChildChannel, required "set_child_channel");
  (OpGroupRemoveChildChannel, required "remove_child_channel");
  (OpListUserGroups, optional "list_user_groups")].
End groups_ops.

(** ** src/domains/operations/operations.go *)
Module domains_ops.
Definition OpCreateDomain : Operation := 0%Z.
Definition OpUpdateDomain : Operation := 1%Z.
Definition OpRetrieveDomain : Operation := 2%Z.
Definition OpEnableDomain : Operation := 3%Z.
Definition OpDisableDomain : Operation := 4%Z.
Definition OpFreezeDomain : Operation := 5%Z.
Definition OpListDomains : Operation := 6%Z.
Definition OpSendDomainInvitation : Operation := 7%Z.
Definition OpListDomainInvitations : Operation := 8%Z.
Definition OpDeleteDomainInvitation : Operation := 9%Z.
Definition OpViewInvitation : Operation := 10%Z.
Definition OpListInvitations : Operation := 11%Z.
Definition OpAcceptInvitation : Operation := 12%Z.
Definition OpRejectInvitation : Operation := 13%Z.
Definition OpCreateDomainClients : Operation := 14%Z.
Definition OpListDomainClients : Operation := 15%Z.
Definition OpCreateDomainChannels : Operation := 16%Z.
Definition OpListDomainChannels : Operation := 17%Z.
Definition OpCreateDomainGroups : Operation := 18%Z.
Definition OpListDomainGroups : Operation := 19%Z.
Definition OperationDetails : gmap Z OperationDetails := list_to_map [
  (OpUpdateDomain, required "update");
  (OpRetrieveDomain, required "read");
  (OpListDomains, required "list");
  (OpEnableDomain, required "enable");
  (OpDisableDomain, required "disable");
  (OpFreezeDomain, optional "freeze");
  (OpCreateDomain, optional "create");
  (OpSendDomainInvitation, required "send_invitation");
  (OpDeleteDomainInvitation, required "delete_invitation");
  (OpListDomainInvitations, required "list_domain_invitation");
  (OpViewInvitation, optional "view_invitation");
  (OpListInvitations, optional "list_invitation");
  (OpAcceptInvitation, optional "accept_invitation");
  (OpRejectInvitation, optional "reject_invitation");
  (OpCreateDomainClients, required "create_clients");
  (OpListDomainClients, required "list_clients");
  (OpCreateDomainChannels, required "create_channels");
  (OpListDomainChannels, required "list_channels");
  (OpCreateDomainGroups, required "create_groups");
  (OpListDomainGroups, required "list_groups")].
End domains_ops.

(** ** src/pkg/roles/roles.go: the operations on roles *)
Module roles_ops.
Definition OpAddRole : RoleOperation := 0%Z.
Definition OpRemoveRole : RoleOperation := 1%Z.
Definition OpUpdateRoleName : RoleOperation := 2%Z.
Definition OpRetrieveRole : RoleOperation := 3%Z.
Definition OpRetrieveAllRoles : RoleOperation := 4%Z.
Definition OpRoleAddActions : RoleOperation := 5%Z.
Definition OpRoleListActions : RoleOperation := 6%Z.
Definition OpRoleCheckActionsExists : RoleOperation := 7%Z.
Definition OpRoleRemoveActions : RoleOperation := 8%Z.
Definition OpRoleRemoveAllActions : RoleOperation := 9%Z.
Definition OpRoleAddMembers : RoleOperation := 10%Z.
Definition OpRoleListMembers : RoleOperation := 11%Z.
Definition OpRoleCheckMembersExists : RoleOperation := 12%Z.
Definition OpRoleRemoveMembers : RoleOperation := 13%Z.
Definition OpRoleRemoveAllMembers : RoleOperation := 14%Z.
Definition OpListAvailableActions : RoleOperation := 15%Z.
Definition Operations_ : gmap Z OperationDetails := list_to_map [
  (OpAddRole, required "add");
  (OpRemoveRole, required "remove");
  (OpUpdateRoleName, required "update");
  (OpRetrieveRole, required "retrieve");
  (OpRetrieveAllRoles, required "retrieve_all");
  (OpRoleAddActions, required "add_actions");
  (OpRoleListActions, required "list_actions");
  (OpRoleCheckActionsExists, required "check_actions_exists");
  (OpRoleRemoveActions, required "remove_actions");
  (OpRoleRemoveAllActions, required "remove_all_actions");
  (OpRoleAddMembers, required "add_members");
  (OpRoleListMembers, required "list_members");
  (OpRoleCheckMembersExists, required "check_members_exists");
  (OpRoleRemoveMembers, required "remove_members");
  (OpRoleRemoveAllMembers, required "remove_all_members");
  (OpListAvailableActions, optional "list_available_actions")].
End roles_ops.

(** ** src/docker/permission.yaml, the permissions file that ships *)
Module shipped.
Definition item (name perm : string) : gmap string string := {[ name := perm ]}.
(** The roles_operations of the four entities are the same. *)
Definition roles_operations : list (gmap string string) := [
  item "add" "manage_role_permission";
  item "remove" "manage_role_permission";
  item "update" "manage_role_permission";
  item "retrieve" "view_role_users_permission";
  item "retrieve_all" "view_role_users_permission";
  item "add_actions" "manage_role_permission";
  item "list_actions" "view_role_users_permission";
  item "check_actions_exists" "view_role_users_permission";
  item "remove_actions" "manage_role_permission";
  item "remove_all_actions" "manage_role_permission";
  item "add_members" "add_role_users_permission";
  item "list_members" "view_role_users_permission";
  item "check_members_exists" "view_role_users_permission";
  item "remove_members" "remove_role_users_permission";
  item "remove_all_members" "remove_role_users_permission"].
Definition clients : EntityPermissions := MkEntityPermissions [
  item "view" "read_permission";
  item "update" "update_permission";
  item "update_tags" "update_permission";
  item "update_secret" "update_permission";
  item "enable" "update_permission";
  item "disable" "update_permission";
  item "delete" "delete_permission";
  item "set_parent_group" "set_parent_group_permission";
  item "remove_parent_group" "set_parent_group_permission";
  item "connect_to_channel" "connect_to_channel_permission";
  item "disconnect_from_channel" "connect_to_channel_permission"] roles_operations.
Definition channels : EntityPermissions := MkEntityPermissions [
  item "view" "read_permission";
  item "update" "update_permission";
  item "update_tags" "update_permission";
  item "enable" "update_permission";
  item "disable" "update_permission";
  item "delete" "delete_permission";
  item "set_parent_group" "set_parent_group_permission";
  item "remove_parent_group" "set_parent_group_permission";
  item "connect_client" "connect_to_client_permission";
  item "disconnect_client" "connect_to_client_permission"] roles_operations.
Definition groups : EntityPermissions := MkEntityPermissions [
  item "view" "read_permission";
  item "update" "update_permission";
  item "update_tags" "update_permission";
  item "enable" "update_permission";
  item "disable" "update_permission";
  item "delete" "delete_permission";
  item "retrieve_group_hierarchy" "read_permission";
  item "add_parent_group" "set_parent_permission";
  item "remove_parent_group" "set_parent_permission";
  item "add_children_groups" "set_child_permission";
  item "remove_children_groups" "set_child_permission";
  item "remove_all_children_groups" "set_child_permission";
  item "list_children_groups" "read_permission";
  item "set_child_client" "set_child_permission";
  item "remove_child_client" "set_child_permission";
  item "set_child_channel" "set_child_permission";
  item "remove_child_channel" "set_child_permission"] roles_operations.
Definition domains : EntityPermissions := MkEntityPermissions [
  item "create" "create_permission";
  item "update" "update_permission";
  item "read" "read_permission";
  item "enable" "enable_permission";
  item "disable" "disable_permission";
  item "list" "read_permission";
  item "send_invitation" "manage_role_permission";
  item "list_invitation" "membership_permission";
  item "list_domain_invitation" "manage_role_permission";
  item "delete_invitation" "manage_role_permission";
  item "create_clients" "client_create_permission";
  item "list_clients" "client_read_permission";
  item "create_channels" "channel_create_permission";
  item "list_channels" "channel_read_permission";
  item "create_groups" "group_create_permission";
  item "list_groups" "group_read_permission"] roles_operations.
Definition config : PermissionConfig := list_to_map [
  ("clients", clients);
  ("channels", channels);
  ("groups", groups);
  ("domains", domains)].
End shipped.
(** ** src/cmd: how each service reads its operations from the file *)
Module wiring.
(** [fmt.Errorf(msg + ": %w", err)] *)
Definition wrapf (msg : string) (e : error) : error :=
  Some (Foreign None (msg +:+ ": " +:+ from_option Error "" e) e).
Definition try {A B} (r : option A * error) (msg : string) (k : A -> option B * error) : option B * error :=
  match r with (Some a, None) => k a | (_, e) => (None, wrapf msg e) end.

Definition newOps (entitiesPermission : EntitiesPermission) (details : EntitiesOperationDetails)
    (rolePerm : gmap string Permission) : option (entitiesOperations * operations) * error :=
  try (NewEntitiesOperations entitiesPermission details []) "failed to create entities operations" (fun entitiesOps =>
  try (NewOperations roles_ops.Operations_ rolePerm) "failed to create role operations" (fun roleOps =>
  (Some (entitiesOps, roleOps), None))).

(** src/cmd/clients/main.go *)
Definition clients_newService (permConfig : PermissionConfig) : option (entitiesOperations * operations) * error :=
  try (GetEntityPermissions permConfig "clients") "failed to get client permissions" (fun '(clientOps, clientRoleOps) =>
  try (GetEntityPermissions permConfig "domains") "failed to get domain permissions" (fun '(domainOps, _) =>
  try (GetEntityPermissions permConfig "groups") "failed to get group permissions" (fun '(groupOps, _) =>
  newOps (list_to_map [(policies.ClientType, clientOps); (policies.DomainType, domainOps); (policies.GroupType, groupOps)])
    (list_to_map [(policies.ClientType, clients_ops.OperationDetails); (policies.DomainType, domains_ops.OperationDetails);
                  (policies.GroupType, groups_ops.OperationDetails)])
    clientRoleOps))).

(** src/cmd/channels/main.go *)
Definition channels_newService (permConfig : PermissionConfig) : option (entitiesOperations * operations) * error :=
  try (GetEntityPermissions permConfig "channels") "failed to get channel permissions" (fun '(channelOps, channelRoleOps) =>
  try (GetEntityPermissions permConfig "domains") "failed to get domain permissions" (fun '(domainOps, _) =>
  try (GetEntityPermissions permConfig "groups") "failed to get group permissions" (fun '(groupOps, _) =>
  try (GetEntityPermissions permConfig "clients") "failed to get client permissions" (fun '(clientOps, _) =>
  newOps (list_to_map [(policies.ChannelType, channelOps); (policies.DomainType, domainOps);
                       (policies.GroupType, groupOps); (policies.ClientType, clientOps)])
    (list_to_map [(policies.ChannelType, channels_ops.OperationDetails); (policies.DomainType, domains_ops.OperationDetails);
                  (policies.GroupType, groups_ops.OperationDetails); (policies.ClientType, clients_ops.OperationDetails)])
    channelRoleOps)))).

(** src/cmd/groups/main.go *)
Definition groups_newService (permConfig : PermissionConfig) : option (entitiesOperations * operations) * error :=
  try (GetEntityPermissions permConfig "groups") "failed to get group permissions" (fun '(groupOps, groupRoleOps) =>
  try (GetEntityPermissions permConfig "domains") "failed to get domain permissions" (fun '(domainOps, _) =>
  newOps (list_to_map [(policies.GroupType, groupOps); (policies.DomainType, domainOps)])
    (list_to_map [(policies.GroupType, groups_ops.OperationDetails); (policies.DomainType, domains_ops.OperationDetails)])
    groupRoleOps)).

(** src/cmd/domains/main.go *)
Definition domains_newService (permConfig : PermissionConfig) : option (entitiesOperations * operations) * error :=
  try (GetEntityPermissions permConfig "domains") "failed to get domain permissions" (fun '(domainOps, domainRoleOps) =>
  newOps (list_to_map [(policies.DomainType, domainOps)])
    (list_to_map [(policies.DomainType, domains_ops.OperationDetails)])
    domainRoleOps).
End wiring.

(** ** What NewOperations, Merge and NewEntitiesOperations make of their
    arguments *)
Section operations_theory.

(** The permission that a table of details and one of named permissions give
    an operation. *)
Definition permission_of (details : gmap Z OperationDetails) (named : gmap string Permission) (op : Z) : option Permission :=
  match details !! op with
  | Some opd => if PermissionRequired opd then named !! Name opd else None
  | None => None
  end.
Definition missing (details : gmap Z OperationDetails) (named : gmap string Permission) : Prop :=
  exists op opd, details !! op = Some opd /\ PermissionRequired opd = true /\ named !! Name opd = None.

Lemma Validate_loop_iff ops l :
  Validate_loop ops l = None <->
  Forall (fun '(op, opd) => PermissionRequired opd = true -> is_Some (opPermission ops !! op)) l.
Proof.
  induction l as [|[op opd] l IH]; simpl; [by split|]. rewrite Forall_cons, <- IH.
  destruct (PermissionRequired opd), (opPermission ops !! op); simpl; naive_solver.
Qed.
Lemma Validate_iff ops :
  Validate ops = None <->
  forall op opd, opDetails ops !! op = Some opd -> PermissionRequired opd = true -> is_Some (opPermission ops !! op).
Proof.
  unfold Validate. rewrite Validate_loop_iff, Forall_forall. split.
  - intros H op opd Hop. apply (H (op, opd)). by apply elem_of_map_to_list.
  - intros H [op opd] Hop. apply H. by apply elem_of_map_to_list.
Qed.

Lemma addOperationPermission_loop_spec named l ops : NoDup l.*1 ->
  let r := addOperationPermission_loop named l ops in
  opDetails r.1 = opDetails ops
  /\ (r.2 <> None -> exists op opd, (op, opd) ∈ l /\ PermissionRequired opd = true /\ named !! Name opd = None)
  /\ (r.2 = None ->
        (forall op opd, (op, opd) ∈ l -> PermissionRequired opd = true ->
           exists perm, named !! Name opd = Some perm /\ opPermission r.1 !! op = Some perm)
        /\ (forall op, (forall opd, (op, opd) ∈ l -> PermissionRequired opd = false) ->
              opPermission r.1 !! op = opPermission ops !! op)).
Proof.
  revert ops. induction l as [|[op opd] l IH]; intros ops.
  { intros _ r. split_and!; [done|done|]. intros _. split; [set_solver|done]. }
  rewrite fmap_cons. intros [Hop Hnd]%NoDup_cons r.
  assert (Hnew : forall opd', (op, opd') ∉ l) by (intros opd' H; apply Hop; apply (list_elem_of_fmap_2 fst) in H; done).
  unfold r. simpl. destruct (PermissionRequired opd) eqn:Hreq.
  - destruct (named !! Name opd) as [perm|] eqn:Hperm.
    + destruct (IH (ops <| opPermission := <[op:=perm]> (opPermission ops) |>) Hnd) as (Hd & Herr & Hok).
      split_and!; [done|set_solver|]. intros Hnone. destruct (Hok Hnone) as [Hin Hout]. split.
      * intros op' opd' [[= -> ->]|Hl]%elem_of_cons Hr; [|eauto].
        exists perm. split; [done|]. rewrite Hout by (intros opd' H; by destruct (Hnew opd')). apply lookup_insert_eq.
      * intros op' Hop'. destruct (decide (op' = op)) as [->|Hne].
        { specialize (Hop' opd). rewrite Hop' in Hreq; [done|set_solver]. }
        rewrite Hout by (intros; apply Hop'; set_solver). by apply lookup_insert_ne.
    + simpl. split_and!; [done| |done]. intros _. exists op, opd. set_solver.
  - destruct (IH ops Hnd) as (Hd & Herr & Hok). split_and!; [done|set_solver|].
    intros Hnone. destruct (Hok Hnone) as [Hin Hout]. split.
    + intros op' opd' [[= -> ->]|Hl]%elem_of_cons Hr; [congruence|eauto].
    + intros op' Hop'. apply Hout. intros; apply Hop'; set_solver.
Qed.

(** NewOperations succeeds exactly when every operation that requires a
    permission finds one under its name; the operations then have the given
    details, pass Validate, and each has the permission of its name if it
    requires one and none otherwise. *)
Theorem NewOperations_spec details named :
  match NewOperations details named with
  | (Some ops, e) => e = None /\ ~ missing details named /\ Validate ops = None /\ opDetails ops = details
      /\ (forall op, opPermission ops !! op = permission_of details named op)
  | (None, e) => is_Some e /\ missing details named
  end.
Proof.
  unfold NewOperations, addOperationPermission. cbv zeta.
  destruct (addOperationPermission_loop_spec named (map_to_list details) (newEmptyOperations details))
    as (Hd & Herr & Hok); [apply NoDup_fst_map_to_list|].
  change (opDetails (newEmptyOperations details)) with details in *.
  destruct (addOperationPermission_loop named (map_to_list details) (newEmptyOperations details)) as [ops [e|]]; simpl in *.
  { split; [done|]. destruct Herr as (op & opd & Hl & ?); [done|]. exists op, opd.
    by rewrite <- elem_of_map_to_list. }
  destruct (Hok eq_refl) as [Hin Hout].
  assert (Hv : Validate ops = None).
  { apply Validate_iff. rewrite Hd. intros op opd Hop Hr. destruct (Hin op opd) as (perm & _ & ->); [|done|done].
    by apply elem_of_map_to_list. }
  rewrite Hv. split_and!; [done| |done|done|].
  - intros (op & opd & Hop & Hr & Hn). destruct (Hin op opd) as (perm & Hp & _); [by apply elem_of_map_to_list|done|congruence].
  - intros op. unfold permission_of. destruct (details !! op) as [opd|] eqn:Hop.
    + destruct (PermissionRequired opd) eqn:Hr.
      * destruct (Hin op opd) as (perm & -> & ->); [by apply elem_of_map_to_list|done|done].
      * rewrite Hout; [done|]. intros opd' Hl%elem_of_map_to_list. congruence.
    + rewrite Hout; [done|]. intros opd' Hl%elem_of_map_to_list. congruence.
Qed.

(** Merge puts the operations of another table over those of the first. *)
Lemma Merge_loop_spec newOps l ops : NoDup l.*1 ->
  Forall (fun '(op, opd) => PermissionRequired opd = true -> is_Some (opPermission newOps !! op)) l ->
  let r := Merge_loop newOps l ops in
  r.2 = None /\ opDetails r.1 = list_to_map l ∪ opDetails ops
  /\ forall op, opPermission r.1 !! op = match (list_to_map l : gmap Z OperationDetails) !! op with
                  | Some opd => if PermissionRequired opd then opPermission newOps !! op else opPermission ops !! op
                  | None => opPermission ops !! op end.
Proof.
  revert ops. induction l as [|[op opd] l IH]; intros ops.
  { intros _ _ r. split_and!; [done|simpl; by rewrite map_empty_union|done]. }
  rewrite fmap_cons. intros [Hop Hnd]%NoDup_cons [Hreq Hall]%Forall_cons r.
  assert (Hnone : (list_to_map l : gmap Z OperationDetails) !! op = None) by by apply not_elem_of_list_to_map_1.
  unfold r. simpl. destruct (PermissionRequired opd) eqn:Hr.
  - destruct (Hreq eq_refl) as [perm Hp]. rewrite Hp.
    match goal with |- context [Merge_loop newOps l ?o] => destruct (IH o Hnd Hall) as (-> & -> & Hperm) end. simpl in *. split_and!; [done| |].
    + by rewrite <- insert_union_l, insert_union_r.
    + intros op'. rewrite Hperm. destruct (decide (op' = op)) as [->|Hne].
      * by rewrite Hnone, !lookup_insert_eq, Hr, Hp.
      * by rewrite (lookup_insert_ne (list_to_map l)), (lookup_insert_ne (opPermission ops)).
  - match goal with |- context [Merge_loop newOps l ?o] => destruct (IH o Hnd Hall) as (-> & -> & Hperm) end.
    simpl in *. split_and!; [done| |].
    + by rewrite <- insert_union_l, insert_union_r.
    + intros op'. rewrite Hperm. destruct (decide (op' = op)) as [->|Hne].
      * by rewrite Hnone, !lookup_insert_eq, Hr.
      * by rewrite (lookup_insert_ne (list_to_map l)).
Qed.
Lemma Merge_valid ops newOps : Validate ops = None -> Validate newOps = None ->
  let r := Merge ops newOps in
  r.2 = None /\ Validate r.1 = None /\ opDetails r.1 = opDetails newOps ∪ opDetails ops
  /\ forall op, opPermission r.1 !! op = match opDetails newOps !! op with
                  | Some opd => if PermissionRequired opd then opPermission newOps !! op else opPermission ops !! op
                  | None => opPermission ops !! op end.
Proof.
  intros Ho Hn r. destruct (Merge_loop_spec newOps (map_to_list (opDetails newOps)) ops) as (He & Hd & Hp).
  { apply NoDup_fst_map_to_list. }
  { by apply Validate_loop_iff. }
  rewrite list_to_map_to_list in Hd, Hp. split_and!; [done| |done|done].
  apply Validate_iff. intros op opd. unfold r, Merge. rewrite Hd, lookup_union_Some_raw, Hp.
  intros [Hop|[-> Hop]] Hr.
  - rewrite Hop, Hr. by apply (proj1 (Validate_iff newOps) Hn op opd).
  - by apply (proj1 (Validate_iff ops) Ho op opd).
Qed.
End operations_theory.

(** The operations of a service, where it has started. *)
Definition entities_of (r : option (entitiesOperations * operations) * error) : entitiesOperations :=
  match r with (Some (eo, _), None) => eo | _ => ∅ end.
Definition roles_of (r : option (entitiesOperations * operations) * error) : operations :=
  match r with (Some (_, ro), None) => ro | _ => newEmptyOperations ∅ end.

(** The file that ships gives every service its operations, and they pass
    Validate. *)
Definition wired (r : option (entitiesOperations * operations) * error) : bool :=
  match r with
  | (Some (eo, ro), None) => is_nil (entities_Validate eo) && is_nil (Validate ro)
  | _ => false
  end.
Lemma shipped_file_complete :
  forallb wired
    [wiring.clients_newService shipped.config; wiring.channels_newService shipped.config;
     wiring.groups_newService shipped.config; wiring.domains_newService shipped.config] = true.
Proof. vm_compute. reflexivity. Qed.
