(* ===== verification/Authz.v ===== *)
(** * Authentication and authorization of a request

    Source: src/pkg/authn/middleware.go, authsvc/authn.go and
    src/api/http/util/token.go (from the HTTP request to the session);
    src/pkg/authz/authz.go and authsvc/authz.go (the authorization library of
    every service); src/auth/api/grpc/utils.go and auth/client.go, server.go,
    endpoint.go, requests.go (the auth service behind gRPC); src/pkg/domains.

    The connection is a parameter of the gRPC client; [in_process] is the one
    that hands a request to the server and its status back.  Deadlines are
    not modelled. *)

From S2P Require Import Prelude GoStd Errors Policies Authn Pat Auth Domains.

Module authz.
(** ** src/pkg/authz/authz.go *)
Record PolicyReq := MkPolicyReq {
  Domain : string; Subject : string; SubjectType : string; SubjectKind : string; SubjectRelation : string;
  Object : string; ObjectKind : string; ObjectType : string; Relation : string; Permission : string }.
#[global] Instance PolicyReq_fields : Fields PolicyReq := fun r =>
  MkPolicyReq (Domain r) (Subject r) (SubjectType r) (SubjectKind r) (SubjectRelation r)
    (Object r) (ObjectKind r) (ObjectType r) (Relation r) (Permission r).
Definition PolicyReq0 : PolicyReq := MkPolicyReq "" "" "" "" "" "" "" "" "" "".

Record PATReq := MkPATReq {
  PatID : string; pat_Domain : string; Operation : string; UserID : string; EntityID : string; EntityType : string }.

Record Authorization (W : Type) := { Authorize : PolicyReq -> option PATReq -> St W error }.
Arguments Authorize {W}.
End authz.

(** ** src/auth/api/grpc *)
Module auth_grpc.
Import authz.

(** The messages AuthZReq and AuthNRes; the policy has no object kind. *)
Definition AuthZReq : Type := PolicyReq * option PATReq.
Record AuthNRes := MkAuthNRes { Id : string; UserId : string; UserRole : N; Verified : bool }.
Definition AuthNRes0 : AuthNRes := MkAuthNRes "" "" 0 false.

(** A connection to the server. *)
Record ClientConn (W : Type) := {
  invoke_Authenticate : string -> St W (AuthNRes + GrpcError);
  invoke_Authorize : AuthZReq -> St W (bool + GrpcError) }.
Arguments invoke_Authenticate {W}. Arguments invoke_Authorize {W}.

(** grpcAuthV1.AuthServiceClient *)
Record AuthServiceClient (W : Type) := {
  client_Authenticate : string -> St W (AuthNRes * error);
  client_Authorize : AuthZReq -> St W (bool * error) }.
Arguments client_Authenticate {W}. Arguments client_Authorize {W}.

(** *** utils.go *)
Definition EncodeError (e : error) : option GrpcError :=
  match e with
  | None => None
  | Some x =>
      let same s := is_sentinel e s in let has s := Contains e (Some s) in
      let status c := Some (GStatus c (Error x)) in
      if has errs.ErrMalformedEntity || has svcerr.ErrInvalidPolicy || same apiutil.ErrInvalidAuthKey
         || same apiutil.ErrMissingID || same apiutil.ErrMissingMemberType || same apiutil.ErrMissingPolicySub
         || same apiutil.ErrMissingPolicyObj || same apiutil.ErrMalformedPolicyAct || same apiutil.ErrMissingUserID
         || same apiutil.ErrMissingPATID
      then status InvalidArgument
      else if has svcerr.ErrAuthentication || has keys.ErrKeyExpired || same apiutil.ErrMissingEmail
              || same apiutil.ErrBearerToken
      then status Unauthenticated
      else if has svcerr.ErrAuthorization || has svcerr.ErrDomainAuthorization then status PermissionDenied
      else if has svcerr.ErrNotFound then status NotFound
      else if has svcerr.ErrConflict then status AlreadyExists
      else status Internal
  end.

Definition DecodeError (e : GrpcError) : error :=
  match e with
  | GOther e => Some e
  | GStatus c msg =>
      match c with
      | NotFound => WrapE svcerr.ErrNotFound (Some (New msg))
      | InvalidArgument => WrapE errs.ErrMalformedEntity (Some (New msg))
      | AlreadyExists => WrapE svcerr.ErrConflict (Some (New msg))
      | Unauthenticated => WrapE svcerr.ErrAuthentication (Some (New msg))
      | OK => if msg <>s "" then WrapE errs.ErrUnidentified (Some (New msg)) else None
      | FailedPrecondition => WrapE errs.ErrMalformedEntity (Some (New msg))
      | PermissionDenied => WrapE svcerr.ErrAuthorization (Some (New msg))
      | _ => WrapE (Errorf ("unexpected gRPC status: " +:+ spicedb.code_string c
                            +:+ " (status code:" +:+ spicedb.code_string c +:+ ")")) (Some (New msg))
      end
  end.

(** *** auth/requests.go *)
Record authReq := MkAuthReq {
  rq_Domain : string; rq_SubjectType : string; rq_SubjectKind : string; rq_Subject : string; rq_Relation : string;
  rq_Permission : string; rq_ObjectType : string; rq_Object : string;
  rq_UserID : string; rq_PatID : string; rq_EntityType : string; rq_Operation : string; rq_EntityID : string }.

Definition authenticateReq_validate (token : string) : error :=
  if token =s "" then Some apiutil.ErrBearerToken else None.

Definition validate (req : authReq) : error :=
  let patErr :=
    if rq_PatID req <>s "" then
      if rq_UserID req =s "" then Some apiutil.ErrMissingUserID
      else if rq_EntityID req =s "" then Some apiutil.ErrMissingID
      else if rq_EntityType req =s "" then Some apiutil.ErrMissingPolicyObj
      else None
    else None in
  if_err patErr return_ patErr ;;
  if_ (rq_Subject req =s "") || (rq_SubjectType req =s "") return_ Some apiutil.ErrMissingPolicySub ;;
  if_ (rq_Object req =s "") || (rq_ObjectType req =s "") return_ Some apiutil.ErrMissingPolicyObj ;;
  if_ rq_Permission req =s "" return_ Some apiutil.ErrMalformedPolicyPer ;;
  None.

(** *** auth/client.go, server.go: from the message to the request and back *)
Definition decodeAuthorizeRequest (req : AuthZReq) : authReq :=
  let '(p, pat) := req in
  let g {A} (f : PATReq -> A) (d : A) := from_option f d pat in
  MkAuthReq (Domain p) (SubjectType p) (SubjectKind p) (Subject p) (Relation p) (Permission p) (ObjectType p) (Object p)
    (g UserID "") (g PatID "") (g EntityType "") (g Operation "") (g EntityID "").
Definition encodeAuthorizeRequest (req : authReq) : AuthZReq :=
  (PolicyReq0 <| Domain := rq_Domain req |> <| SubjectType := rq_SubjectType req |> <| Subject := rq_Subject req |>
     <| SubjectKind := rq_SubjectKind req |> <| Relation := rq_Relation req |> <| Permission := rq_Permission req |>
     <| ObjectType := rq_ObjectType req |> <| Object := rq_Object req |>,
   if rq_PatID req <>s "" then
     Some (MkPATReq (rq_PatID req) (rq_Domain req) (rq_Operation req) (rq_UserID req) (rq_EntityID req) (rq_EntityType req))
   else None).

Section client.
Context {W : Type} (conn : ClientConn W).
(** The deadline of the call is left out. *)
Definition Authenticate (token : string) : St W (AuthNRes * error) :=
  r <- invoke_Authenticate conn token ;;
  match r with inl res => ret (res, None) | inr e => ret (AuthNRes0, DecodeError e) end.
Definition Authorize (req : AuthZReq) : St W (bool * error) :=
  r <- invoke_Authorize conn (encodeAuthorizeRequest (decodeAuthorizeRequest req)) ;;
  match r with inl authorized => ret (authorized, None) | inr e => ret (false, DecodeError e) end.
Definition NewAuthClient : AuthServiceClient W := {| client_Authenticate := Authenticate; client_Authorize := Authorize |}.
End client.

Section server.
Context {W : Type} (U : UUIDLib) (svc : auth.service W).

(** *** auth/endpoint.go; the result of authenticateEndpoint is [None] where
    Identify panics. *)
Definition authenticateEndpoint (token : string) : St W (option (AuthNRes * error)) :=
  if_err authenticateReq_validate token return_ pret (AuthNRes0, authenticateReq_validate token) ;;
  '(key, e) <~ auth.Identify U svc token ;;
  if_err e return_ pret (AuthNRes0, e) ;;
  pret (MkAuthNRes (keys.ID key) (keys.Subject key) (keys.Role key) (keys.Verified key), None).

Definition authorizeEndpoint (req : authReq) : St W (bool * error) :=
  if_err validate req return_ ret (false, validate req) ;;
  let '(pat, e) :=
    if rq_PatID req <>s "" then
      match pat.ParseEntityType (rq_EntityType req) with
      | (entityType, None) =>
          (Some (pat.MkPATAuthz (rq_PatID req) (rq_UserID req) entityType (rq_EntityID req) (rq_Operation req) (rq_Domain req)), None)
      | (_, e) => (None, e)
      end
    else (None, None) in
  if_err e return_ ret (false, e) ;;
  e <- auth.Authorize svc
         (policies.Policy0 <| policies.Domain := rq_Domain req |> <| policies.SubjectType := rq_SubjectType req |>
            <| policies.SubjectKind := rq_SubjectKind req |> <| policies.Subject := rq_Subject req |>
            <| policies.Relation := rq_Relation req |> <| policies.Permission := rq_Permission req |>
            <| policies.ObjectType := rq_ObjectType req |> <| policies.Object := rq_Object req |>) pat ;;
  if_err e return_ ret (false, e) ;;
  ret (true, None).

(** The server over a connection: an error becomes a status.  [EncodeError]
    gives one for every error. *)
Definition server_Authorize (req : AuthZReq) : St W (bool + GrpcError) :=
  '(authorized, e) <- authorizeEndpoint (decodeAuthorizeRequest req) ;;
  match EncodeError e with Some g => ret (inr g) | None => ret (inl authorized) end.
(** A panic ends the server, and the caller sees the connection break. *)
Definition server_Authenticate (token : string) : St W (AuthNRes + GrpcError) :=
  r <- authenticateEndpoint token ;;
  match r with
  | None => ret (inr (GStatus Unavailable "connection closed"))
  | Some (res, e) => match EncodeError e with Some g => ret (inr g) | None => ret (inl res) end
  end.
Definition in_process : ClientConn W :=
  {| invoke_Authenticate := server_Authenticate; invoke_Authorize := server_Authorize |}.
End server.
End auth_grpc.

(** ** src/pkg/authz/authsvc/authz.go *)
Module authsvc.
Import policies authz auth_grpc.

(** src/pkg/domains/psvc/authz.go *)
Definition psvc_RetrieveStatus {W} (psvc : domains_private.service W) (id : string) : St W (N * error) :=
  '(status, e) <- domains_private.RetrieveStatus psvc id ;;
  if_err e return_ ret (domains.AllStatus, WrapE svcerr.ErrViewEntity e) ;;
  ret (status, None).

Record authorization (W : Type) := {
  authSvcClient : AuthServiceClient W;
  (** domains.Authorization *)
  RetrieveStatus : string -> St W (N * error) }.
Arguments authSvcClient {W}. Arguments RetrieveStatus {W}.

Section authorization.
Context {W : Type} (a : authorization W).

(** What checkDomain asks the auth service. *)
Definition domainReq (subjectType subject permission objectType object : string) : AuthZReq :=
  (PolicyReq0 <| authz.Subject := subject |> <| authz.SubjectType := subjectType |> <| authz.Permission := permission |>
     <| authz.Object := object |> <| authz.ObjectType := objectType |>, None).

Definition checkDomain (subjectType subject domainID : string) : St W error :=
  '(status, e) <- RetrieveStatus a domainID ;;
  if_err e return_ ret (WrapE svcerr.ErrViewEntity e) ;;
  if N.eqb status domains.FreezeStatus then
    '(_, e) <- client_Authorize (authSvcClient a)
                 (domainReq subjectType subject AdminPermission PlatformType SuperMQObject) ;;
    ret e
  else if N.eqb status domains.DisabledStatus then
    '(_, e) <- client_Authorize (authSvcClient a) (domainReq subjectType subject AdminPermission DomainType domainID) ;;
    ret e
  else if N.eqb status domains.EnabledStatus then
    '(_, e) <- client_Authorize (authSvcClient a)
                 (domainReq subjectType subject MembershipPermission DomainType domainID) ;;
    ret e
  else ret (Some svcerr.ErrInvalidStatus).

(** The requests whose domain is looked at. *)
Definition checked (pr : PolicyReq) : bool :=
  (authz.SubjectType pr =s UserType)
  && ((authz.ObjectType pr =s GroupType) || (authz.ObjectType pr =s ClientType) || (authz.ObjectType pr =s DomainType)).

Definition Authorize (pr : PolicyReq) (pat : option PATReq) : St W error :=
  e <- (if checked pr then
          if (authz.Domain pr =s "") && (authz.ObjectType pr <>s DomainType) then ret (Some svcerr.ErrDomainAuthorization)
          else
            let domainID := if authz.Domain pr =s "" then authz.Object pr else authz.Domain pr in
            e <- checkDomain (authz.SubjectType pr) (authz.Subject pr) domainID ;;
            if_err e return_ ret (WrapE svcerr.ErrDomainAuthorization e) ;;
            ret None
        else ret None) ;;
  if_err e return_ ret e ;;
  '(res, e) <- client_Authorize (authSvcClient a) (pr <| authz.ObjectKind := "" |>, pat) ;;
  if_err e return_ ret (WrapE errs.ErrAuthorization e) ;;
  if_ negb res return_ ret (Some errs.ErrAuthorization) ;;
  ret None.

Definition NewAuthorization : Authorization W := {| authz.Authorize := Authorize |}.
End authorization.
End authsvc.

(** ** src/pkg/authn: from a request to a session *)
Module authn_middleware.
Import policies authn auth_grpc.

(** src/pkg/authn/authsvc/authn.go *)
Definition Authenticate {W} (authSvcClient : AuthServiceClient W) (token : string) : St W (Session * error) :=
  '(res, e) <- client_Authenticate authSvcClient token ;;
  if_err e return_ ret (Session0, WrapE errs.ErrAuthentication e) ;;
  if_ Id res <>s "" return_ ret
    (Session0 <| Type_ := PersonalAccessToken |> <| PatID := Id res |> <| UserID := UserId res |> <| Role := UserRole res |>, None) ;;
  ret (Session0 <| Type_ := AccessToken |> <| UserID := UserId res |> <| Role := UserRole res |>
         <| authn.Verified := Verified res |>, None).

(** src/api/http/util/token.go *)
Definition BearerPrefix := "Bearer ".
Definition ExtractBearerToken (authorization : string) : string :=
  if negb (HasPrefix authorization BearerPrefix) then "" else TrimPrefix authorization BearerPrefix.

Record middlewareOptions := MkOptions { domainCheck : bool; allowUnverifiedUser : bool }.
#[global] Instance middlewareOptions_fields : Fields middlewareOptions := fun o =>
  MkOptions (domainCheck o) (allowUnverifiedUser o).
Definition defaultMiddlewareOptions : middlewareOptions := MkOptions true false.

Definition MiddlewareOption : Type := middlewareOptions -> middlewareOptions.
Definition WithDomainCheck (enabled : bool) : MiddlewareOption := fun o => o <| domainCheck := enabled |>.
Definition WithAllowUnverifiedUser (allowed : bool) : MiddlewareOption := fun o => o <| allowUnverifiedUser := allowed |>.
Definition WithDefaultMiddlewareOptions : MiddlewareOption := fun o =>
  o <| domainCheck := domainCheck defaultMiddlewareOptions |>
    <| allowUnverifiedUser := allowUnverifiedUser defaultMiddlewareOptions |>.

(** [env]: the variable SMQ_ALLOW_UNVERIFIED_USER, if set to a value that
    strconv.ParseBool understands. *)
Definition NewAuthNMiddleware (env : option bool) (options : list MiddlewareOption) : list MiddlewareOption :=
  [WithDefaultMiddlewareOptions]
  ++ (if bool_decide (env = Some true) then [WithAllowUnverifiedUser true] else [])
  ++ options.
Definition WithOptions (a options : list MiddlewareOption) : list MiddlewareOption := a ++ options.
Definition getMiddlewareOptions (a : list MiddlewareOption) : middlewareOptions :=
  foldl (fun opts option => option opts) defaultMiddlewareOptions a.

(** What the handler of a request is run with: a session, or the error and
    status it is answered with.  [header] is the Authorization header,
    [domain] the URL parameter domainID. *)
Definition Middleware {W} (authenticate : string -> St W (Session * error)) (options : list MiddlewareOption)
    (header domain : string) : St W (Session + err * Z) :=
  let opts := getMiddlewareOptions options in
  let token := ExtractBearerToken header in
  if_ token =s "" return_ ret (inr (apiutil.ErrBearerToken, 401%Z)) ;;
  '(resp, e) <- authenticate token ;;
  match e with
  | Some e => ret (inr (e, 401%Z))
  | None =>
      if_ N.eqb (Type_ resp) AccessToken && negb (allowUnverifiedUser opts) && negb (N.eqb (Role resp) SuperAdminRole)
          && negb (authn.Verified resp)
        return_ ret (inr (apiutil.ErrEmailNotVerified, 401%Z)) ;;
      if domainCheck opts then
        if_ domain =s "" return_ ret (inr (apiutil.ErrMissingDomainID, 400%Z)) ;;
        let resp := resp <| DomainID := domain |> in
        let resp := if N.eqb (Role resp) SuperAdminRole then resp <| DomainUserID := UserID resp |>
                    else if N.eqb (Role resp) authn.UserRole then resp <| DomainUserID := EncodeDomainUserID domain (UserID resp) |>
                    else resp in
        ret (inl resp)
      else ret (inl resp)
  end.
End authn_middleware.

(** ** What an authorization decides

    The auth service and its client are read-only: the answers of the policy
    evaluator, of the scopes of personal access tokens and of the status of
    the domains are functions of a [view] of the state, which the calls
    leave as it is.  An evaluator that fails counts as one that denies. *)
Class AuthzLaws {W V} (view : W -> V) (svc : auth.service W) (retrieve : string -> St W (N * error))
    (allowed : V -> policies.Policy -> bool) (scoped : V -> pat.PATAuthz -> bool) (status : V -> string -> option N) := {
  CheckPolicy_decides pr w : let r := policies.CheckPolicy (auth.evaluator svc) pr w in
    view r.2 = view w /\ (r.1 = None <-> allowed (view w) pr = true);
  CheckScope_decides p w :
    let r := pat.pats_CheckScope (auth.pats svc) (pat.pa_UserID p) (pat.pa_PatID p) (pat.pa_EntityType p)
               (pat.pa_Domain p) (pat.pa_Operation p) (pat.pa_EntityID p) w in
    view r.2 = view w /\ (r.1 = None <-> scoped (view w) p = true);
  RetrieveStatus_decides d w : let r := retrieve d w in
    view r.2 = view w /\ match r.1 with (s, None) => status (view w) d = Some s | _ => status (view w) d = None end }.

Section decision.
Import policies authz auth_grpc authsvc.
Context {V : Type} (allowed : V -> Policy -> bool) (scoped : V -> pat.PATAuthz -> bool) (status : V -> string -> option N).

Definition policy_of (r : PolicyReq) : Policy :=
  Policy0 <| policies.Domain := authz.Domain r |> <| policies.SubjectType := authz.SubjectType r |>
    <| policies.SubjectKind := authz.SubjectKind r |> <| policies.Subject := authz.Subject r |>
    <| policies.Relation := authz.Relation r |> <| policies.Permission := authz.Permission r |>
    <| policies.ObjectType := authz.ObjectType r |> <| policies.Object := authz.Object r |>.

Definition complete (r : PolicyReq) : bool :=
  (authz.Subject r <>s "") && (authz.SubjectType r <>s "") && (authz.Object r <>s "") && (authz.ObjectType r <>s "")
  && (authz.Permission r <>s "").

(** The scope that a request with a personal access token needs. *)
Definition in_scope (v : V) (r : PolicyReq) (p : option PATReq) : bool :=
  match p with
  | Some p =>
      (PatID p =s "")
      || (UserID p <>s "") && (EntityID p <>s "")
         && match pat.ParseEntityType (EntityType p) with
            | (et, None) => scoped v (pat.MkPATAuthz (PatID p) (UserID p) et (EntityID p) (Operation p) (authz.Domain r))
            | _ => false
            end
  | None => true
  end.

(** What the auth service decides. *)
Definition grants (v : V) (r : PolicyReq) (p : option PATReq) : bool :=
  complete r && in_scope v r p && ((authz.ObjectType r <>s PlatformType) || (authz.Object r =s SuperMQObject))
  && allowed v (policy_of r).

(** What the subject must be in the domain, by its status. *)
Definition gate (v : V) (r : PolicyReq) : bool :=
  if checked r then
    if (authz.Domain r =s "") && (authz.ObjectType r <>s DomainType) then false
    else
      let d := if authz.Domain r =s "" then authz.Object r else authz.Domain r in
      let may perm objectType object := let q := domainReq (authz.SubjectType r) (authz.Subject r) perm objectType object in
        grants v q.1 q.2 in
      match status v d with
      | Some s =>
          if N.eqb s domains.FreezeStatus then may AdminPermission PlatformType SuperMQObject
          else if N.eqb s domains.DisabledStatus then may AdminPermission DomainType d
          else if N.eqb s domains.EnabledStatus then may MembershipPermission DomainType d
          else false
      | None => false
      end
  else true.

Definition permits (v : V) (r : PolicyReq) (p : option PATReq) : bool := gate v r && grants v r p.
End decision.

Section decides.
Import authz auth_grpc authsvc policies.
Context {W V : Type} (view : W -> V) (U : UUIDLib) (svc : auth.service W) (retrieve : string -> St W (N * error)).
Context (allowed : V -> Policy -> bool) (scoped : V -> pat.PATAuthz -> bool) (status : V -> string -> option N).
Context {L : AuthzLaws view svc retrieve allowed scoped status}.

(** A call that leaves the view alone and gives no error exactly where [b]
    holds. *)
Definition decides {A} (m : St W A) (err_of : A -> error) (b : V -> bool) : Prop :=
  forall w, view (m w).2 = view w /\ (err_of (m w).1 = None <-> b (view w) = true).

Lemma decides_run {A} (m : St W A) f b w : decides m f b ->
  exists a w', m w = (a, w') /\ view w' = view w /\ is_nil (f a) = b (view w).
Proof.
  intros H. destruct (H w) as [Hv He]. exists (m w).1, (m w).2. rewrite <- surjective_pairing.
  split_and!; [done..|]. destruct (f (m w).1), (b (view w)); simpl; naive_solver.
Qed.
Lemma decides_ext {A} (m : St W A) f (b b' : V -> bool) : (forall v, b v = b' v) -> decides m f b -> decides m f b'.
Proof. intros Hb H w. by rewrite <- Hb. Qed.
Lemma decides_ret {A} (a : A) f : decides (ret a) f (fun _ => is_nil (f a)).
Proof. intros w. split; [done|]. simpl. by destruct (f a). Qed.
Lemma decides_step {A B} (m : St W A) f b1 (k : A -> St W B) g b2 :
  decides m f b1 -> (forall a, f a <> None -> decides (k a) g (fun _ => false)) ->
  (forall a, f a = None -> decides (k a) g b2) -> decides (bind m k) g (fun v => b1 v && b2 v).
Proof.
  intros Hm Hbad Hk w. unfold bind. destruct (Hm w) as [Hv He]. destruct (m w) as [a w1]. simpl in *.
  destruct (b1 (view w)).
  - destruct (Hk a (proj2 He eq_refl) w1) as [Hv2 He2]. rewrite <- Hv. split; [congruence|done].
  - destruct (Hbad a (fun H => ltac:(by apply He in H)) w1) as [Hv2 He2]. split; [congruence|]. simpl. tauto.
Qed.
Lemma decides_error {A} (a : A) f : f a <> None -> decides (ret a) f (fun _ => false).
Proof. intros H w. split; [done|]. simpl. by split. Qed.

Lemma auth_Authorize_decides pr p :
  decides (auth.Authorize svc pr p) id
    (fun v => from_option (scoped v) true p && ((ObjectType pr <>s PlatformType) || (Object pr =s SuperMQObject)) && allowed v pr).
Proof.
  eapply decides_ext; [intros v; apply andb_assoc|].
  unfold auth.Authorize. apply decides_step with (f := id).
  - destruct p as [p|]; [|apply decides_ret]. unfold auth.AuthorizePAT.
    eapply decides_ext; [intros v; apply andb_true_r|].
    eapply decides_step with (f := id) (b1 := fun v => scoped v p); [exact (CheckScope_decides (AuthzLaws := L) p)| |].
    + intros [e|]; [intros _; apply decides_error, WrapE_not_nil|done].
    + intros ? [= ->]. apply (decides_ret None).
  - intros [e|] He; [by apply decides_error|done].
  - intros ? [= ->]. unfold auth.PolicyValidation.
    assert (Hb : (ObjectType pr =s PlatformType) && (Object pr <>s SuperMQObject)
                 = negb ((ObjectType pr <>s PlatformType) || (Object pr =s SuperMQObject)))
      by by destruct (ObjectType pr =s PlatformType), (Object pr =s SuperMQObject).
    rewrite Hb. destruct ((ObjectType pr <>s PlatformType) || (Object pr =s SuperMQObject)); simpl.
    + eapply decides_ext; [intros v; apply andb_true_r|]. eapply decides_step with (f := id) (b1 := fun v => allowed v pr).
      * unfold auth.checkPolicy. eapply decides_ext; [intros v; apply andb_true_r|].
        eapply decides_step with (f := id) (b1 := fun v => allowed v pr); [exact (CheckPolicy_decides (AuthzLaws := L) pr)| |].
        -- intros [e|]; [intros _; apply decides_error, WrapE_not_nil|done].
        -- intros ? [= ->]. apply (decides_ret None).
      * intros [e|] He; [by apply decides_error|done].
      * intros ? [= ->]. apply (decides_ret None).
    + apply decides_error, WrapE_not_nil.
Qed.

(** The fields of a request that reach the service. *)
Lemma encode_decode_authreq q : encodeAuthorizeRequest (decodeAuthorizeRequest (encodeAuthorizeRequest q)) = encodeAuthorizeRequest q.
Proof. unfold encodeAuthorizeRequest. destruct q as [? ? ? ? ? ? ? ? ? patID ? ? ?]. simpl. by destruct (patID =s "") eqn:E; simpl; rewrite ?E. Qed.
Lemma grants_encode v r p : let '(r', p') := encodeAuthorizeRequest (decodeAuthorizeRequest (r, p)) in
  grants allowed scoped v r' p' = grants allowed scoped v r p.
Proof.
  unfold encodeAuthorizeRequest, decodeAuthorizeRequest, grants. simpl.
  destruct p as [p|]; simpl; [|done]. by destruct (PatID p =s "") eqn:E; simpl; rewrite ?E.
Qed.

Lemma validate_nil req : is_nil (validate req) =
  ((rq_PatID req =s "") || (rq_UserID req <>s "") && (rq_EntityID req <>s "") && (rq_EntityType req <>s ""))
  && complete (encodeAuthorizeRequest req).1.
Proof.
  unfold validate, complete, encodeAuthorizeRequest. simpl.
  by destruct (rq_PatID req =s ""), (rq_UserID req =s ""), (rq_EntityID req =s ""), (rq_EntityType req =s ""),
    (rq_Subject req =s ""), (rq_SubjectType req =s ""), (rq_Object req =s ""), (rq_ObjectType req =s ""), (rq_Permission req =s "").
Qed.

Lemma authorize_tail pol pa :
  decides (e <- auth.Authorize svc pol pa ;; if_err e return_ ret (false, e) ;; ret (true, None)) snd
    (fun v => from_option (scoped v) true pa && ((ObjectType pol <>s PlatformType) || (Object pol =s SuperMQObject))
              && allowed v pol).
Proof.
  eapply decides_ext; [intros v; apply andb_true_r|]. apply decides_step with (f := id).
  - exact (auth_Authorize_decides pol pa).
  - intros [e|] He; [by apply decides_error|done].
  - intros ? [= ->]. exact (decides_ret (true, None) snd).
Qed.

Lemma authorizeEndpoint_decides req :
  decides (authorizeEndpoint svc req) snd (fun v => let '(r, p) := encodeAuthorizeRequest req in grants allowed scoped v r p).
Proof.
  pose proof (validate_nil req) as Hval. unfold authorizeEndpoint, grants.
  destruct (encodeAuthorizeRequest req) as [r p] eqn:Henc. unfold encodeAuthorizeRequest in Henc. injection Henc as <- <-.
  simpl in Hval. destruct (validate req) as [e|]; simpl in Hval.
  { eapply decides_ext; [|by apply (decides_error (false, Some e) snd)]. intros v. simpl. symmetry.
    destruct (complete _); simpl in *; [|done]. rewrite andb_true_r in Hval.
    unfold in_scope. destruct (rq_PatID req =s "") eqn:Hp; [done|]. simpl. rewrite Hp. simpl in *.
    destruct (rq_UserID req =s ""); [done|]. destruct (rq_EntityID req =s ""); [done|]. simpl in *.
    symmetry in Hval. apply negb_false_iff, String.eqb_eq in Hval. by rewrite Hval. }
  symmetry in Hval. apply andb_true_iff in Hval as [Hpat Hcomplete].
  destruct (rq_PatID req =s "") eqn:Hp; simpl.
  - eapply decides_ext; [|exact (authorize_tail _ None)]. intros v. simpl. by rewrite Hcomplete.
  - simpl in Hpat. apply andb_true_iff in Hpat as [[Hu He]%andb_true_iff _].
    destruct (pat.ParseEntityType (rq_EntityType req)) as [et [e|]] eqn:Het.
    + eapply decides_ext; [|by apply (decides_error (false, Some e) snd)]. intros v. unfold in_scope. simpl.
      by rewrite Hp, Hu, He, andb_false_r.
    + eapply decides_ext; [|exact (authorize_tail _ (Some _))]. intros v. unfold in_scope. simpl.
      by rewrite Hcomplete, Hp, Hu, He.
Qed.

(** An error of the server is an error of the client. *)
Lemma error_over_grpc e : match EncodeError (Some e) with Some g => DecodeError g <> None | None => False end.
Proof.
  unfold EncodeError. cbv zeta. repeat match goal with |- context [if ?b then _ else _] => destruct b end;
    apply WrapE_not_nil.
Qed.

Lemma authorizeEndpoint_true req w : (authorizeEndpoint svc req w).1.2 = None -> (authorizeEndpoint svc req w).1.1 = true.
Proof.
  unfold authorizeEndpoint. destruct (validate req); [done|].
  assert (Ht : forall pol pa, let m := e <- auth.Authorize svc pol pa ;; if_err e return_ ret (false, e) ;; ret (true, None) in
    (m w).1.2 = None -> (m w).1.1 = true).
  { intros pol pa m. unfold m, bind, ret. by destruct (auth.Authorize svc pol pa w) as [[e|] w1]. }
  destruct (rq_PatID req <>s ""); [|apply Ht].
  destruct (pat.ParseEntityType (rq_EntityType req)) as [et [e|]]; [done|apply Ht].
Qed.

Definition auth_client : AuthServiceClient W := NewAuthClient (in_process U svc).

Lemma client_Authorize_run r p w : exists res e w',
  client_Authorize auth_client (r, p) w = ((res, e), w') /\ view w' = view w
  /\ is_nil e = grants allowed scoped (view w) r p /\ (e = None -> res = true).
Proof.
  pose proof (grants_encode (view w) r p) as Hg.
  change (client_Authorize auth_client (r, p)) with (auth_grpc.Authorize (in_process U svc) (r, p)).
  unfold auth_grpc.Authorize, in_process. cbn [invoke_Authorize]. unfold server_Authorize, bind, ret.
  set (q := encodeAuthorizeRequest (decodeAuthorizeRequest (r, p))) in *.
  pose proof (authorizeEndpoint_decides (decodeAuthorizeRequest q) w) as [Hv He].
  pose proof (authorizeEndpoint_true (decodeAuthorizeRequest q) w) as Ht.
  unfold q in He. rewrite encode_decode_authreq in He. fold q in He.
  set (req := decodeAuthorizeRequest q) in *. clearbody req. destruct q as [r' p'].
  destruct (authorizeEndpoint svc req w) as [[b [e|]] w1]; cbn [fst snd] in *.
  - pose proof (error_over_grpc e) as Herr. destruct (EncodeError (Some e)) as [g|]; [|done].
    exists false, (DecodeError g), w1. split_and!; [done|done| |done].
    rewrite <- Hg. destruct (DecodeError g); [|done]. simpl.
    destruct (grants allowed scoped (view w) r' p') eqn:E; [|done].
    by pose proof (proj2 He eq_refl).
  - exists b, None, w1. split_and!; [done|done| |done]. rewrite <- Hg. symmetry. by apply He.
Qed.
Lemma client_Authorize_decides r p :
  decides (client_Authorize auth_client (r, p)) snd (fun v => grants allowed scoped v r p).
Proof.
  intros w. destruct (client_Authorize_run r p w) as (res & e & w' & -> & Hv & He & _). split; [done|].
  simpl. rewrite <- He. by destruct e.
Qed.

Definition authz_service : authorization W := {| authSvcClient := auth_client; RetrieveStatus := retrieve |}.

Lemma checkDomain_decides subjectType subject d :
  decides (checkDomain authz_service subjectType subject d) id (fun v =>
    let may perm objectType object := grants allowed scoped v (domainReq subjectType subject perm objectType object).1 None in
    match status v d with
    | Some s =>
        if N.eqb s domains.FreezeStatus then may AdminPermission PlatformType SuperMQObject
        else if N.eqb s domains.DisabledStatus then may AdminPermission DomainType d
        else if N.eqb s domains.EnabledStatus then may MembershipPermission DomainType d
        else false
    | None => false
    end).
Proof.
  intros w. unfold checkDomain, bind, ret.
  destruct (RetrieveStatus_decides (AuthzLaws := L) d w) as [Hv Hs].
  change (RetrieveStatus authz_service d w) with (retrieve d w).
  destruct (retrieve d w) as [[s [e|]] w1]; simpl in Hv, Hs; rewrite Hs.
  { split; [done|]. split; [intros H; by destruct (WrapE_inv _ _ _ H)|done]. }
  assert (Hask : forall perm ot o,
    let '((_, e), w2) := client_Authorize auth_client (domainReq subjectType subject perm ot o) w1 in
    view w2 = view w /\ (e = None <-> grants allowed scoped (view w) (domainReq subjectType subject perm ot o).1 None = true)).
  { intros perm ot o. destruct (client_Authorize_decides (domainReq subjectType subject perm ot o).1 None w1) as [Hv2 He2].
    change ((domainReq subjectType subject perm ot o).1, None) with (domainReq subjectType subject perm ot o) in *.
    destruct (client_Authorize _ _ w1) as [[b e] w2]. rewrite Hv in He2. simpl in *. split; [congruence|done]. }
  change (authSvcClient authz_service) with auth_client.
  repeat match goal with |- context [if ?b then _ else _] => destruct b end;
    try (match goal with |- context [client_Authorize auth_client (domainReq _ _ ?perm ?ot ?o) w1] =>
           specialize (Hask perm ot o) end; by destruct (client_Authorize _ _ w1) as [[b e] w2]).
  by split.
Qed.

Lemma authorization_decides pr p : decides (Authorize authz_service pr p) id (fun v => permits allowed scoped status v pr p).
Proof.
unfold Authorize, permits. apply decides_step with (f := id).
  - unfold gate. destruct (checked pr); [|apply (decides_ret None)].
    destruct ((authz.Domain pr =s "") && (authz.ObjectType pr <>s DomainType)); [by apply decides_error|]. cbv zeta.
    eapply decides_ext; [intros v; apply andb_true_r|].
    eapply decides_step with (f := id); [apply checkDomain_decides| |].
    + intros [e|]; [intros _; apply decides_error, WrapE_not_nil|done].
    + intros ? [= ->]. apply (decides_ret None).
  - intros [e|] He; [by apply decides_error|done].
  - intros ? [= ->]. intros w'. unfold bind, ret. change (authSvcClient authz_service) with auth_client.
    destruct (client_Authorize_run (pr <| authz.ObjectKind := "" |>) p w') as (res & e & w2 & -> & Hv & He & Hres).
    change (grants allowed scoped (view w') (pr <| authz.ObjectKind := "" |>) p) with (grants allowed scoped (view w') pr p) in He.
    destruct e as [e|]; simpl in He.
    + simpl. split; [done|]. rewrite <- He. split; [intros H; by destruct (WrapE_inv _ _ _ H)|done].
    + rewrite (Hres eq_refl). simpl. split; [done|]. by rewrite <- He.
Qed.

(** C8: an authorization request of a service - through the library of the
    services, the gRPC client and server and the auth service - succeeds
    exactly when the policy evaluator grants the subject the permission on
    the object, a personal access token has the scope, and a user who acts on
    a group, a client or a domain is a member of the domain where it is
    enabled, its administrator where it is disabled, and an administrator of
    the platform where it is frozen. *)
Theorem Authorize_decides pr p w :
  let '(e, w') := Authorize authz_service pr p w in
  view w' = view w /\ (e = None <-> permits allowed scoped status (view w) pr p = true).
Proof. destruct (authorization_decides pr p w) as [Hv He]. by destruct (Authorize authz_service pr p w). Qed.
End decides.

(** The channels of a domain are usable whatever the status of the domain. *)
Lemma channel_domain_unchecked {V} allowed scoped (status : V -> string -> option N) v r p :
  authz.ObjectType r = policies.ChannelType -> permits allowed scoped status v r p = grants allowed scoped v r p.
Proof. intros Hc. unfold permits, gate, authsvc.checked. rewrite Hc. by rewrite andb_false_r. Qed.

(** ** A concrete auth service: its policies, the scopes of its tokens and
    the status of the domains are fixed *)
Module memauthz.
Import policies.
Record policy_key := MkKey { k_subject : string; k_permission : string; k_type : string; k_object : string }.
#[global] Instance policy_key_eq : EqDecision policy_key.
Proof. solve_decision. Defined.

Section mem.
Context (allows : list policy_key) (scopes : list pat.Scope) (statuses : list (string * N)).
Definition allowed (pr : Policy) : bool :=
  bool_decide (MkKey (Subject pr) (Permission pr) (ObjectType pr) (Object pr) ∈ allows).
(** The scopes stored for a token. *)
Definition scoped (p : pat.PATAuthz) : bool :=
  existsb (fun s => (pat.sc_PatID s =s pat.pa_PatID p)
    && pat.Authorized (Some s) (pat.pa_EntityType p) (pat.pa_Domain p) (pat.pa_Operation p) (pat.pa_EntityID p)) scopes.
Definition status (d : string) : option N := (list_to_map statuses : gmap string N) !! d.

Definition verdict (b : bool) : error := if b then None else Some (Errorf "denied").
Definition svc : auth.service memauth.state :=
  let s := memauth.svc in
  {| auth.keys := auth.keys s;
     auth.pats := let r := memauth.repo in
       {| pat.pats_Save := pat.pats_Save r; pat.pats_Retrieve := pat.pats_Retrieve r;
          pat.pats_RetrieveScope := pat.pats_RetrieveScope r;
          pat.pats_RetrieveSecretAndRevokeStatus := pat.pats_RetrieveSecretAndRevokeStatus r;
          pat.pats_UpdateName := pat.pats_UpdateName r; pat.pats_UpdateDescription := pat.pats_UpdateDescription r;
          pat.pats_UpdateTokenHash := pat.pats_UpdateTokenHash r; pat.pats_RetrieveAll := pat.pats_RetrieveAll r;
          pat.pats_Revoke := pat.pats_Revoke r; pat.pats_Reactivate := pat.pats_Reactivate r;
          pat.pats_Remove := pat.pats_Remove r; pat.pats_RemoveAllPAT := pat.pats_RemoveAllPAT r;
          pat.pats_AddScope := pat.pats_AddScope r; pat.pats_RemoveScope := pat.pats_RemoveScope r;
          pat.pats_CheckScope := fun user id et d op e => ret (verdict (scoped (pat.MkPATAuthz id user et e op d)));
          pat.pats_RemoveAllScope := pat.pats_RemoveAllScope r |};
     auth.tokensCache := auth.tokensCache s; auth.hasher := auth.hasher s; auth.idProvider := auth.idProvider s;
     auth.evaluator := {| CheckPolicy := fun pr => ret (verdict (allowed pr)) |};
     auth.policysvc := auth.policysvc s; auth.tokenizer := auth.tokenizer s;
     auth.loginDuration := 10; auth.refreshDuration := 100; auth.invitationDuration := 5 |}.
Definition retrieve (d : string) : St memauth.state (N * error) :=
  ret (match status d with Some s => (s, None) | None => (domains.AllStatus, Some svcerr.ErrNotFound) end).

#[export] Instance laws : AuthzLaws (fun _ => tt) svc retrieve (fun _ => allowed) (fun _ => scoped) (fun _ => status).
Proof.
  split.
  - intros pr w r. split; [done|]. unfold r. simpl. by destruct (allowed pr).
  - intros p w r. split; [done|]. unfold r. simpl. destruct p as [id user et e op d]. simpl.
    by destruct (scoped _).
  - intros d w r. split; [done|]. unfold r, retrieve. simpl. by destruct (status d).
Qed.
End mem.

Import authz authsvc.
(** A member of the domain d1, enabled, who may read the entities of it and
    has no other permission but to connect the channel to clients, and her
    token t1, whose one scope is to view the clients of d1; an administrator
    of the platform and another user of it. *)
Definition allows : list policy_key :=
  [MkKey "d1_alice" MembershipPermission DomainType "d1"; MkKey "d1_alice" "read_permission" ClientType "c1";
   MkKey "d1_alice" "read_permission" ChannelType "ch1"; MkKey "d1_alice" "connect_to_client_permission" ChannelType "ch1";
   MkKey "d1_alice" "read_permission" GroupType "g1"; MkKey "d1_alice" "read_permission" DomainType "d1";
   MkKey "d1_alice" "view_role_users_permission" ClientType "c1";
   MkKey "root" AdminPermission PlatformType SuperMQObject; MkKey "bob" MembershipPermission PlatformType SuperMQObject].
Definition scopes : list pat.Scope := [pat.MkScope "s1" "t1" "d1" pat.ClientsType "*" "view"].
Definition statuses : list (string * N) := [("d1", domains.EnabledStatus); ("d2", domains.DisabledStatus)].
Definition service := authz_service memauth.lib (svc allows scopes) (retrieve statuses).
Definition request (perm ot o : string) : PolicyReq :=
  PolicyReq0 <| authz.Domain := "d1" |> <| authz.Subject := "d1_alice" |> <| authz.SubjectType := UserType |>
    <| authz.Permission := perm |> <| authz.ObjectType := ot |> <| authz.Object := o |>.
Definition with_token (op : string) : PATReq := MkPATReq "t1" "d1" op "alice" "c1" "clients".

Lemma Authorize_decides_witness :
  (Authorize service (request "read_permission" ClientType "c1") (Some (with_token "view")) memauth.s0).1 = None
  /\ (Authorize service (request "read_permission" ClientType "c1") (Some (with_token "delete")) memauth.s0).1 <> None
  /\ (Authorize service (request "delete_permission" ClientType "c1") None memauth.s0).1 <> None.
Proof.
  pose proof (fun r p => Authorize_decides (fun _ => tt) memauth.lib (svc allows scopes) (retrieve statuses)
    (fun _ => allowed allows) (fun _ => scoped scopes) (fun _ => status statuses) r p memauth.s0) as H.
  split_and!.
  - specialize (H (request "read_permission" ClientType "c1") (Some (with_token "view"))).
    fold service in H. destruct (Authorize service _ _ _) as [e w']. apply (proj2 H). vm_compute. reflexivity.
  - specialize (H (request "read_permission" ClientType "c1") (Some (with_token "delete"))).
    fold service in H. destruct (Authorize service _ _ _) as [e w']. intros He. apply (proj2 H) in He.
    revert He. vm_compute. discriminate.
  - specialize (H (request "delete_permission" ClientType "c1") None).
    fold service in H. destruct (Authorize service _ _ _) as [e w']. intros He. apply (proj2 H) in He.
    revert He. vm_compute. discriminate.
Defined.
End memauthz.
