(* ===== verification/Grpc.v ===== *)
(** * The gRPC servers and clients between the services

    Source: src/clients/api/grpc, src/channels/api/grpc, src/groups/api/grpc,
    src/domains/api/grpc, src/users/api/grpc, src/auth/api/grpc/token.

    Each package has a server in front of a private service and a client that
    the other services hold.  A connection is a record of the methods a client
    can invoke, a parameter of the client; [in_process] is the one that hands
    the message to the server and gives its answer or status back.  The
    go-kit transport (a server decodes the message, calls the endpoint and
    encodes its answer, the first error ends the call; a client encodes,
    invokes and decodes) is written out as [serve] and [invoke]; deadlines
    are left out.  The theorems say what the interfaces that the callers are
    proved against (Connections.v, Channels.v) become over these clients. *)

From S2P Require Import Prelude GoStd Errors Policies Authn Roles Pat Auth Connections Hierarchy.
From S2P Require Import Clients Domains Channels Groups Users Authz.

(** ** What go-kit does with the functions it is given *)
Section kit.
Context {W Req R Res Msg : Type}.

(** A server: the answer, or [d] and the error of the first step that has one. *)
Definition serve (d : Msg) (dec : Req -> R * error) (endpoint : R -> St W (Res * error)) (enc : Res -> Msg * error)
    (req : Req) : St W (Msg * error) :=
  let '(r, e) := dec req in
  if_err e return_ ret (d, e) ;;
  '(res, e) <- endpoint r ;;
  if_err e return_ ret (d, e) ;;
  ret (enc res).

(** The methods of the servers: an error becomes a status. *)
Definition status_of (encodeError : error -> option GrpcError) (m : St W (Msg * error)) : St W (Msg + GrpcError) :=
  '(res, e) <- m ;;
  match encodeError e with Some g => ret (inr g) | None => ret (inl res) end.

(** A client's endpoint. *)
Definition invoke (enc : R -> Req) (conn : Req -> St W (Msg + GrpcError)) (dec : Msg -> Res * error) (r : R)
    : St W (Res + GrpcError) :=
  res <- conn (enc r) ;;
  match res with
  | inl m => match dec m with (a, None) => ret (inl a) | (_, Some e) => ret (inr (GOther e)) end
  | inr g => ret (inr g)
  end.
End kit.

(** An answer that an endpoint gives where the service returned no error. *)
Definition answer {W A Res} (d : Res) (m : St W (A * error)) (f : A -> Res) : St W (Res * error) :=
  '(a, e) <- m ;;
  if_err e return_ ret (d, e) ;;
  ret (f a, None).
Definition acknowledge {W Res} (d ok : Res) (m : St W error) : St W (Res * error) :=
  e <- m ;;
  if_err e return_ ret (d, e) ;;
  ret (ok, None).

Definition uint8 : N -> N := connections.uint8.

(** ** src/clients/api/grpc *)
Module clients_grpc.
Import grpc.

(** *** server.go: the status of an error *)
Definition encodeError (e : error) : option GrpcError :=
  match e with
  | None => None
  | Some x =>
      let same s := is_sentinel e s in let has s := Contains e (Some s) in
      let status c := Some (GStatus c (Error x)) in
      if has errs.ErrMalformedEntity || same apiutil.ErrInvalidAuthKey || same apiutil.ErrMissingID
         || same apiutil.ErrMissingMemberType || same apiutil.ErrMissingPolicySub || same apiutil.ErrMissingPolicyObj
         || same apiutil.ErrMalformedPolicyAct
      then status InvalidArgument
      else if has svcerr.ErrAuthentication || has keys.ErrKeyExpired || same apiutil.ErrMissingEmail
              || same apiutil.ErrBearerToken
      then status Unauthenticated
      else if has svcerr.ErrAuthorization then status PermissionDenied
      else status Internal
  end.

(** *** client.go: the error of a status *)
Definition decodeError (e : GrpcError) : error :=
  match e with
  | GOther e => Some e
  | GStatus c msg =>
      match c with
      | Unauthenticated => WrapE svcerr.ErrAuthentication (Some (New msg))
      | PermissionDenied => WrapE svcerr.ErrAuthorization (Some (New msg))
      | InvalidArgument => WrapE errs.ErrMalformedEntity (Some (New msg))
      | FailedPrecondition => WrapE errs.ErrMalformedEntity (Some (New msg))
      | NotFound => WrapE svcerr.ErrNotFound (Some (New msg))
      | AlreadyExists => WrapE svcerr.ErrConflict (Some (New msg))
      | OK => if msg <>s "" then WrapE errs.ErrUnidentified (Some (New msg)) else None
      | _ => WrapE (Errorf ("unexpected gRPC status: " +:+ spicedb.code_string c
                            +:+ " (status code:" +:+ spicedb.code_string c +:+ ")")) (Some (New msg))
      end
  end.

(** *** request.go and responses.go *)
Record authenticateReq := MkAuthenticateReq { Token : string }.
Record retrieveEntitiesReq := MkRetrieveEntitiesReq { Ids : list string }.
Record retrieveEntityReq := MkRetrieveEntityReq { rq_Id : string }.
Record removeChannelConnectionsReq := MkRemoveChannelConnectionsReq { channelID : string }.
Record UnsetParentGroupFromClientReq := MkUnsetParentGroupFromClientReq { parentGroupID : string }.
Record entity := MkEntity { id : string; domain : string; parentGroup : string; status : N }.
Definition entity0 : entity := MkEntity "" "" "" 0.
Record authenticateRes := MkAuthenticateRes { rs_id : string; authenticated : bool }.
Definition authenticateRes0 : authenticateRes := MkAuthenticateRes "" false.
Record retrieveEntitiesRes := MkRetrieveEntitiesRes { total : N; limit : N; offset : N; clients_ : list entity }.
Definition retrieveEntitiesRes0 : retrieveEntitiesRes := MkRetrieveEntitiesRes 0 0 0 [].
Record connection := MkConn { clientID : string; conn_channelID : string; domainID : string; connType : N }.
Record connectionsReq := MkConnectionsReq { connections_ : list connection }.
Record connectionsRes := MkConnectionsRes { ok : bool }.

(** *** The messages (generated code): AuthnRes, RetrieveEntitiesRes; a
    Connection and an EntityBasic are those of Connections.v. *)
Record AuthnRes := MkAuthnRes { Authenticated : bool; AuthnId : string }.
Definition AuthnRes0 : AuthnRes := MkAuthnRes false "".
Record RetrieveEntitiesRes := MkRetrieveEntities { Total : N; Limit : N; Offset : N; Entities : list EntityBasic }.
Definition RetrieveEntitiesRes0 : RetrieveEntitiesRes := MkRetrieveEntities 0 0 0 [].

Record ClientConn (W : Type) := {
  invoke_Authenticate : string -> St W (AuthnRes + GrpcError);
  invoke_RetrieveEntity : string -> St W (EntityBasic + GrpcError);
  invoke_RetrieveEntities : list string -> St W (RetrieveEntitiesRes + GrpcError);
  invoke_AddConnections : list Connection -> St W (bool + GrpcError);
  invoke_RemoveConnections : list Connection -> St W (bool + GrpcError);
  invoke_RemoveChannelConnections : string -> St W (unit + GrpcError);
  invoke_UnsetParentGroupFromClient : string -> St W (unit + GrpcError) }.
Arguments invoke_Authenticate {W}. Arguments invoke_RetrieveEntity {W}. Arguments invoke_RetrieveEntities {W}.
Arguments invoke_AddConnections {W}. Arguments invoke_RemoveConnections {W}.
Arguments invoke_RemoveChannelConnections {W}. Arguments invoke_UnsetParentGroupFromClient {W}.

(** *** endpoint.go *)
Section endpoints.
Context {W : Type} (svc : clients_private.service W).
Definition authenticateEndpoint (req : authenticateReq) : St W (authenticateRes * error) :=
  answer authenticateRes0 (clients_private.Authenticate svc (Token req)) (fun id => MkAuthenticateRes id true).
Definition basic (c : clients.Client) : entity :=
  MkEntity (clients.ID c) (clients.Domain c) (clients.ParentGroup c) (uint8 (clients.Status c)).
Definition retrieveEntityEndpoint (req : retrieveEntityReq) : St W (entity * error) :=
  answer entity0 (clients_private.RetrieveById svc (rq_Id req)) basic.
Definition retrieveEntitiesEndpoint (req : retrieveEntitiesReq) : St W (retrieveEntitiesRes * error) :=
  answer retrieveEntitiesRes0 (clients_private.RetrieveByIds svc (Ids req))
    (fun tp => MkRetrieveEntitiesRes (clients.pg_Total (clients.cp_Page tp)) (clients.pg_Limit (clients.cp_Page tp))
                 (clients.pg_Offset (clients.cp_Page tp)) (map basic (clients.cp_Clients tp))).
Definition toConnection (c : connection) : clients.Connection :=
  clients.MkConnection (clientID c) (conn_channelID c) (domainID c) (connType c).
Definition addConnectionsEndpoint (req : connectionsReq) : St W (connectionsRes * error) :=
  acknowledge (MkConnectionsRes false) (MkConnectionsRes true)
    (clients_private.AddConnections svc (map toConnection (connections_ req))).
Definition removeConnectionsEndpoint (req : connectionsReq) : St W (connectionsRes * error) :=
  acknowledge (MkConnectionsRes false) (MkConnectionsRes true)
    (clients_private.RemoveConnections svc (map toConnection (connections_ req))).
Definition removeChannelConnectionsEndpoint (req : removeChannelConnectionsReq) : St W (unit * error) :=
  acknowledge tt tt (clients_private.RemoveChannelConnections svc (channelID req)).
Definition UnsetParentGroupFromClientEndpoint (req : UnsetParentGroupFromClientReq) : St W (unit * error) :=
  acknowledge tt tt (clients_private.UnsetParentGroupFromClient svc (parentGroupID req)).
End endpoints.

(** *** server.go *)
Definition decodeAuthorizeRequest (token : string) : authenticateReq * error := (MkAuthenticateReq token, None).
Definition encodeAuthorizeResponse (res : authenticateRes) : AuthnRes * error :=
  (MkAuthnRes (authenticated res) (rs_id res), None).
Definition server_decodeRetrieveEntityRequest (id : string) : retrieveEntityReq * error := (MkRetrieveEntityReq id, None).
Definition encodeRetrieveEntityResponse (res : entity) : EntityBasic * error :=
  (MkEntityBasic (id res) (domain res) (parentGroup res) (status res), None).
Definition decodeRetrieveEntitiesRequest (ids : list string) : retrieveEntitiesReq * error :=
  (MkRetrieveEntitiesReq ids, None).
Definition encodeRetrieveEntitiesResponse (res : retrieveEntitiesRes) : RetrieveEntitiesRes * error :=
  (MkRetrieveEntities (total res) (limit res) (offset res)
     (map (fun c => MkEntityBasic (id c) (domain c) (parentGroup c) (status c)) (clients_ res)), None).

(** The loop over the connections of a request. *)
Fixpoint decodeConnections (conns : list connection) (cs : list Connection) : connectionsReq * error :=
  match cs with
  | [] => (MkConnectionsReq conns, None)
  | c :: cs =>
      let connType := uint8 (conn_Type c) in
      if_err connections.CheckConnType connType return_ (MkConnectionsReq [], connections.CheckConnType connType) ;;
      decodeConnections (conns ++ [MkConn (ClientId c) (ChannelId c) (conn_DomainId c) connType]) cs
  end.
Definition decodeAddConnectionsRequest : list Connection -> connectionsReq * error := decodeConnections [].
Definition encodeAddConnectionsResponse (res : connectionsRes) : bool * error := (ok res, None).
Definition decodeRemoveConnectionsRequest : list Connection -> connectionsReq * error := decodeConnections [].
Definition encodeRemoveConnectionsResponse (res : connectionsRes) : bool * error := (ok res, None).
Definition decodeRemoveChannelConnectionsRequest (id : string) : removeChannelConnectionsReq * error :=
  (MkRemoveChannelConnectionsReq id, None).
Definition encodeRemoveChannelConnectionsResponse (_ : unit) : unit * error := (tt, None).
Definition decodeUnsetParentGroupFromClientRequest (id : string) : UnsetParentGroupFromClientReq * error :=
  (MkUnsetParentGroupFromClientReq id, None).
Definition encodeUnsetParentGroupFromClientResponse (_ : unit) : unit * error := (tt, None).

Section server.
Context {W : Type} (svc : clients_private.service W).
Definition server_Authenticate (req : string) : St W (AuthnRes + GrpcError) :=
  status_of encodeError (serve AuthnRes0 decodeAuthorizeRequest (authenticateEndpoint svc) encodeAuthorizeResponse req).
Definition server_RetrieveEntity (req : string) : St W (EntityBasic + GrpcError) :=
  status_of encodeError
    (serve EntityBasic0 server_decodeRetrieveEntityRequest (retrieveEntityEndpoint svc) encodeRetrieveEntityResponse req).
Definition server_RetrieveEntities (req : list string) : St W (RetrieveEntitiesRes + GrpcError) :=
  status_of encodeError
    (serve RetrieveEntitiesRes0 decodeRetrieveEntitiesRequest (retrieveEntitiesEndpoint svc) encodeRetrieveEntitiesResponse req).
Definition server_AddConnections (req : list Connection) : St W (bool + GrpcError) :=
  status_of encodeError
    (serve false decodeAddConnectionsRequest (addConnectionsEndpoint svc) encodeAddConnectionsResponse req).
Definition server_RemoveConnections (req : list Connection) : St W (bool + GrpcError) :=
  status_of encodeError
    (serve false decodeRemoveConnectionsRequest (removeConnectionsEndpoint svc) encodeRemoveConnectionsResponse req).
Definition server_RemoveChannelConnections (req : string) : St W (unit + GrpcError) :=
  status_of encodeError
    (serve tt decodeRemoveChannelConnectionsRequest (removeChannelConnectionsEndpoint svc)
       encodeRemoveChannelConnectionsResponse req).
Definition server_UnsetParentGroupFromClient (req : string) : St W (unit + GrpcError) :=
  status_of encodeError
    (serve tt decodeUnsetParentGroupFromClientRequest (UnsetParentGroupFromClientEndpoint svc)
       encodeUnsetParentGroupFromClientResponse req).
(** NewServer *)
Definition in_process : ClientConn W := {|
  invoke_Authenticate := server_Authenticate; invoke_RetrieveEntity := server_RetrieveEntity;
  invoke_RetrieveEntities := server_RetrieveEntities; invoke_AddConnections := server_AddConnections;
  invoke_RemoveConnections := server_RemoveConnections;
  invoke_RemoveChannelConnections := server_RemoveChannelConnections;
  invoke_UnsetParentGroupFromClient := server_UnsetParentGroupFromClient |}.
End server.

(** *** client.go *)
Definition encodeAuthenticateRequest (req : authenticateReq) : string := Token req.
Definition decodeAuthenticateResponse (res : AuthnRes) : authenticateRes * error :=
  (MkAuthenticateRes (AuthnId res) (Authenticated res), None).
Definition encodeRetrieveEntityRequest (id : string) : string := id.
Definition decodeRetrieveEntityResponse (e : EntityBasic) : entity * error :=
  (MkEntity (Id e) (DomainId e) (ParentGroupId e) (uint8 (Status e)), None).
Definition encodeRetrieveEntitiesRequest (ids : list string) : list string := ids.
Definition decodeRetrieveEntitiesResponse (res : RetrieveEntitiesRes) : retrieveEntitiesRes * error :=
  (MkRetrieveEntitiesRes (Total res) (Limit res) (Offset res)
     (map (fun e => MkEntity (Id e) (DomainId e) (ParentGroupId e) (uint8 (Status e))) (Entities res)), None).
Definition encodeAddConnectionsRequest (req : list clients.Connection) : list Connection :=
  map (fun r => MkConnection (clients.ClientID r) (clients.ChannelID r) (clients.DomainID r) (clients.Type_ r)) req.
Definition decodeAddConnectionsResponse (res : bool) : connectionsRes * error := (MkConnectionsRes res, None).
Definition encodeRemoveConnectionsRequest (req : list clients.Connection) : list Connection :=
  map (fun r => MkConnection (clients.ClientID r) (clients.ChannelID r) (clients.DomainID r) (clients.Type_ r)) req.
Definition decodeRemoveConnectionsResponse (res : bool) : connectionsRes * error := (MkConnectionsRes res, None).
Definition encodeRemoveChannelConnectionsRequest (id : string) : string := id.
Definition decodeRemoveChannelConnectionsResponse (u : unit) : unit * error := (u, None).
Definition encodeUnsetParentGroupFromClientRequest (id : string) : string := id.
Definition decodeUnsetParentGroupFromClientResponse (u : unit) : unit * error := (u, None).

Section client.
Context {W : Type} (conn : ClientConn W).
Definition Authenticate (token : string) : St W (AuthnRes * error) :=
  res <- invoke encodeAuthenticateRequest (invoke_Authenticate conn) decodeAuthenticateResponse (MkAuthenticateReq token) ;;
  match res with
  | inl ar => ret (MkAuthnRes (authenticated ar) (rs_id ar), None)
  | inr e => ret (AuthnRes0, decodeError e)
  end.
(** The parent group of the entity is not copied. *)
Definition RetrieveEntity (id : string) : St W (EntityBasic * error) :=
  res <- invoke encodeRetrieveEntityRequest (invoke_RetrieveEntity conn) decodeRetrieveEntityResponse id ;;
  match res with
  | inl ebr => ret (MkEntityBasic (clients_grpc.id ebr) (domain ebr) "" (status ebr), None)
  | inr e => ret (EntityBasic0, decodeError e)
  end.
Definition RetrieveEntities (ids : list string) : St W (RetrieveEntitiesRes * error) :=
  res <- invoke encodeRetrieveEntitiesRequest (invoke_RetrieveEntities conn) decodeRetrieveEntitiesResponse ids ;;
  match res with
  | inl ep => ret (MkRetrieveEntities (total ep) (limit ep) (offset ep)
                     (map (fun c => MkEntityBasic (id c) (domain c) "" (status c)) (clients_ ep)), None)
  | inr e => ret (RetrieveEntitiesRes0, decodeError e)
  end.
(** The connections of the message as the service's. *)
Definition fromMessage (c : Connection) : clients.Connection :=
  clients.MkConnection (ClientId c) (ChannelId c) (conn_DomainId c) (uint8 (conn_Type c)).
Definition AddConnections (req : list Connection) : St W (bool * error) :=
  res <- invoke encodeAddConnectionsRequest (invoke_AddConnections conn) decodeAddConnectionsResponse (map fromMessage req) ;;
  match res with inl cr => ret (ok cr, None) | inr e => ret (false, decodeError e) end.
Definition RemoveConnections (req : list Connection) : St W (bool * error) :=
  res <- invoke encodeRemoveConnectionsRequest (invoke_RemoveConnections conn) decodeRemoveConnectionsResponse
           (map fromMessage req) ;;
  match res with inl cr => ret (ok cr, None) | inr e => ret (false, decodeError e) end.
Definition RemoveChannelConnections (channelID : string) : St W error :=
  res <- invoke encodeRemoveChannelConnectionsRequest (invoke_RemoveChannelConnections conn)
           decodeRemoveChannelConnectionsResponse channelID ;;
  match res with inl _ => ret None | inr e => ret (decodeError e) end.
Definition UnsetParentGroupFromClient (parentGroupID : string) : St W error :=
  res <- invoke encodeUnsetParentGroupFromClientRequest (invoke_UnsetParentGroupFromClient conn)
           decodeUnsetParentGroupFromClientResponse parentGroupID ;;
  match res with inl _ => ret None | inr e => ret (decodeError e) end.
(** What the channels and groups services call; they look at the error only. *)
Definition NewClient : ClientsServiceClient W := {|
  clients_RetrieveEntity := RetrieveEntity;
  clients_AddConnections := fun cs => '(_, e) <- AddConnections cs ;; ret e;
  clients_RemoveConnections := fun cs => '(_, e) <- RemoveConnections cs ;; ret e;
  clients_RemoveChannelConnections := RemoveChannelConnections;
  clients_UnsetParentGroupFromClient := UnsetParentGroupFromClient |}.
End client.
End clients_grpc.

(** ** src/channels/api/grpc *)
Module channels_grpc.
Import grpc.

(** *** server.go and client.go: the same status codes as those of the clients *)
Definition encodeError : error -> option GrpcError := clients_grpc.encodeError.
Definition decodeError : GrpcError -> error := clients_grpc.decodeError.

(** *** request.go *)
Definition errDomainID : err := Sentinel "channels_grpc.errDomainID" CustomError "domain id required for users".
Record authorizeReq := MkAuthorizeReq {
  domainID : string; channelID : string; clientID : string; clientType : string; connType : N }.
Definition authorizeReq0 : authorizeReq := MkAuthorizeReq "" "" "" "" 0.
Definition authorizeReq_validate (req : authorizeReq) : error :=
  if_ (clientType req =s policies.UserType) && (domainID req =s "") return_ Some errDomainID ;;
  None.
Record removeClientConnectionsReq := MkRemoveClientConnectionsReq { rq_clientID : string }.
Record unsetParentGroupFromChannelsReq := MkUnsetParentGroupFromChannelsReq { parentGroupID : string }.
Record retrieveEntityReq := MkRetrieveEntityReq { rq_Id : string }.
Record retrieveIDByRouteReq := MkRetrieveIDByRouteReq { route : string; rq_domainID : string }.
Definition retrieveIDByRouteReq_validate (req : retrieveIDByRouteReq) : error :=
  if_ route req =s "" return_ Some apiutil.ErrMissingRoute ;;
  if_ rq_domainID req =s "" return_ Some apiutil.ErrMissingDomainID ;;
  None.

(** *** responses.go *)
Record channelBasic := MkChannelBasic { id : string; domain : string; parentGroup : string; status : N }.
Definition channelBasic0 : channelBasic := MkChannelBasic "" "" "" 0.

(** The message RetrieveIDByRouteReq is the pair of route and domain;
    AuthzReq has the fields of the service's request. *)
Record ClientConn (W : Type) := {
  invoke_Authorize : channels.AuthzReq -> St W (bool + GrpcError);
  invoke_RemoveClientConnections : string -> St W (unit + GrpcError);
  invoke_UnsetParentGroupFromChannels : string -> St W (unit + GrpcError);
  invoke_RetrieveEntity : string -> St W (EntityBasic + GrpcError);
  invoke_RetrieveIDByRoute : string * string -> St W (EntityBasic + GrpcError) }.
Arguments invoke_Authorize {W}. Arguments invoke_RemoveClientConnections {W}.
Arguments invoke_UnsetParentGroupFromChannels {W}. Arguments invoke_RetrieveEntity {W}.
Arguments invoke_RetrieveIDByRoute {W}.

(** *** endpoint.go *)
Section endpoints.
Context {W : Type} (svc : channels_private.service W).
Definition authorizeEndpoint (req : authorizeReq) : St W (bool * error) :=
  if_err authorizeReq_validate req return_ ret (false, authorizeReq_validate req) ;;
  acknowledge false true
    (channels_private.Authorize svc
       (channels.MkAuthzReq (domainID req) (channelID req) (clientID req) (clientType req) (connType req))).
Definition removeClientConnectionsEndpoint (req : removeClientConnectionsReq) : St W (unit * error) :=
  acknowledge tt tt (channels_private.RemoveClientConnections svc (rq_clientID req)).
Definition unsetParentGroupFromChannelsEndpoint (req : unsetParentGroupFromChannelsReq) : St W (unit * error) :=
  acknowledge tt tt (channels_private.UnsetParentGroupFromChannels svc (parentGroupID req)).
Definition retrieveEntityEndpoint (req : retrieveEntityReq) : St W (channelBasic * error) :=
  answer channelBasic0 (channels_private.RetrieveByID svc (rq_Id req))
    (fun c => MkChannelBasic (channels.ID c) (channels.Domain c) (channels.ParentGroup c) (uint8 (channels.Status c))).
Definition retrieveIDByRouteEndpoint (req : retrieveIDByRouteReq) : St W (string * error) :=
  if_err retrieveIDByRouteReq_validate req return_ ret ("", retrieveIDByRouteReq_validate req) ;;
  answer "" (channels_private.RetrieveIDByRoute svc (route req) (rq_domainID req)) (fun id => id).
End endpoints.

(** *** server.go *)
Definition decodeAuthorizeRequest (req : channels.AuthzReq) : authorizeReq * error :=
  let connType := uint8 (channels.az_Type req) in
  if_err connections.CheckConnType connType return_ (authorizeReq0, connections.CheckConnType connType) ;;
  (MkAuthorizeReq (channels.az_DomainID req) (channels.az_ChannelID req) (channels.az_ClientID req)
     (channels.az_ClientType req) connType, None).
Definition encodeAuthorizeResponse (authorized : bool) : bool * error := (authorized, None).
Definition decodeRemoveClientConnectionsRequest (id : string) : removeClientConnectionsReq * error :=
  (MkRemoveClientConnectionsReq id, None).
Definition encodeRemoveClientConnectionsResponse (_ : unit) : unit * error := (tt, None).
Definition decodeUnsetParentGroupFromChannelsRequest (id : string) : unsetParentGroupFromChannelsReq * error :=
  (MkUnsetParentGroupFromChannelsReq id, None).
Definition encodeUnsetParentGroupFromChannelsResponse (_ : unit) : unit * error := (tt, None).
Definition decodeRetrieveEntityRequest (id : string) : retrieveEntityReq * error := (MkRetrieveEntityReq id, None).
Definition encodeRetrieveEntityResponse (res : channelBasic) : EntityBasic * error :=
  (MkEntityBasic (id res) (domain res) (parentGroup res) (status res), None).
Definition decodeRetrieveIDByRouteRequest (req : string * string) : retrieveIDByRouteReq * error :=
  (MkRetrieveIDByRouteReq req.1 req.2, None).
Definition encodeRetrieveIDByRouteResponse (id : string) : EntityBasic * error := (MkEntityBasic id "" "" 0, None).

Section server.
Context {W : Type} (svc : channels_private.service W).
Definition server_Authorize (req : channels.AuthzReq) : St W (bool + GrpcError) :=
  status_of encodeError (serve false decodeAuthorizeRequest (authorizeEndpoint svc) encodeAuthorizeResponse req).
Definition server_RemoveClientConnections (req : string) : St W (unit + GrpcError) :=
  status_of encodeError
    (serve tt decodeRemoveClientConnectionsRequest (removeClientConnectionsEndpoint svc)
       encodeRemoveClientConnectionsResponse req).
Definition server_UnsetParentGroupFromChannels (req : string) : St W (unit + GrpcError) :=
  status_of encodeError
    (serve tt decodeUnsetParentGroupFromChannelsRequest (unsetParentGroupFromChannelsEndpoint svc)
       encodeUnsetParentGroupFromChannelsResponse req).
Definition server_RetrieveEntity (req : string) : St W (EntityBasic + GrpcError) :=
  status_of encodeError
    (serve EntityBasic0 decodeRetrieveEntityRequest (retrieveEntityEndpoint svc) encodeRetrieveEntityResponse req).
Definition server_RetrieveIDByRoute (req : string * string) : St W (EntityBasic + GrpcError) :=
  status_of encodeError
    (serve EntityBasic0 decodeRetrieveIDByRouteRequest (retrieveIDByRouteEndpoint svc) encodeRetrieveIDByRouteResponse req).
(** NewServer *)
Definition in_process : ClientConn W := {|
  invoke_Authorize := server_Authorize; invoke_RemoveClientConnections := server_RemoveClientConnections;
  invoke_UnsetParentGroupFromChannels := server_UnsetParentGroupFromChannels;
  invoke_RetrieveEntity := server_RetrieveEntity; invoke_RetrieveIDByRoute := server_RetrieveIDByRoute |}.
End server.

(** *** client.go *)
Definition encodeAuthorizeRequest (req : authorizeReq) : channels.AuthzReq :=
  channels.MkAuthzReq (domainID req) (channelID req) (clientID req) (clientType req) (connType req).
Definition decodeAuthorizeResponse (res : bool) : bool * error := (res, None).
(** The other messages are passed on as they are. *)
Definition same {A} (a : A) : A * error := (a, None).

Section client.
Context {W : Type} (conn : ClientConn W).
Definition Authorize (req : channels.AuthzReq) : St W (bool * error) :=
  res <- invoke encodeAuthorizeRequest (invoke_Authorize conn) decodeAuthorizeResponse
           (MkAuthorizeReq (channels.az_DomainID req) (channels.az_ChannelID req) (channels.az_ClientID req)
              (channels.az_ClientType req) (uint8 (channels.az_Type req))) ;;
  match res with inl authorized => ret (authorized, None) | inr e => ret (false, decodeError e) end.
Definition RemoveClientConnections (clientID : string) : St W error :=
  res <- invoke (fun x => x) (invoke_RemoveClientConnections conn) same clientID ;;
  match res with inl _ => ret None | inr e => ret (decodeError e) end.
Definition UnsetParentGroupFromChannels (parentGroupID : string) : St W error :=
  res <- invoke (fun x => x) (invoke_UnsetParentGroupFromChannels conn) same parentGroupID ;;
  match res with inl _ => ret None | inr e => ret (decodeError e) end.
Definition RetrieveEntity (id : string) : St W (EntityBasic * error) :=
  res <- invoke (fun x => x) (invoke_RetrieveEntity conn) same id ;;
  match res with inl r => ret (r, None) | inr e => ret (EntityBasic0, decodeError e) end.
Definition RetrieveIDByRoute (route domainID : string) : St W (EntityBasic * error) :=
  res <- invoke (fun x => x) (invoke_RetrieveIDByRoute conn) same (route, domainID) ;;
  match res with inl r => ret (r, None) | inr e => ret (EntityBasic0, decodeError e) end.
(** What the clients and groups services call. *)
Definition NewClient : ChannelsServiceClient W := {|
  channels_RemoveClientConnections := RemoveClientConnections;
  channels_UnsetParentGroupFromChannels := UnsetParentGroupFromChannels |}.
End client.
End channels_grpc.

(** ** src/groups/api/grpc *)
Module groups_grpc.
Import grpc.
Definition encodeError : error -> option GrpcError := clients_grpc.encodeError.
Definition decodeError : GrpcError -> error := clients_grpc.decodeError.

Record retrieveEntityReq := MkRetrieveEntityReq { rq_Id : string }.
Record groupBasic := MkGroupBasic { id : string; domain : string; parentGroup : string; status : N }.
Definition groupBasic0 : groupBasic := MkGroupBasic "" "" "" 0.

Record ClientConn (W : Type) := { invoke_RetrieveEntity : string -> St W (EntityBasic + GrpcError) }.
Arguments invoke_RetrieveEntity {W}.

Definition decodeRetrieveEntityRequest (id : string) : retrieveEntityReq * error := (MkRetrieveEntityReq id, None).
Definition encodeRetrieveEntityResponse (res : groupBasic) : EntityBasic * error :=
  (MkEntityBasic (id res) (domain res) (parentGroup res) (status res), None).
Section server.
Context {W : Type} (svc : groups_private.service W).
Definition retrieveEntityEndpoint (req : retrieveEntityReq) : St W (groupBasic * error) :=
  answer groupBasic0 (groups_private.RetrieveById svc (rq_Id req))
    (fun g => MkGroupBasic (groups.ID g) (groups.Domain g) (groups.Parent g) (uint8 (groups.Status g))).
Definition server_RetrieveEntity (req : string) : St W (EntityBasic + GrpcError) :=
  status_of encodeError
    (serve EntityBasic0 decodeRetrieveEntityRequest retrieveEntityEndpoint encodeRetrieveEntityResponse req).
(** NewServer *)
Definition in_process : ClientConn W := {| invoke_RetrieveEntity := server_RetrieveEntity |}.
End server.

Section client.
Context {W : Type} (conn : ClientConn W).
Definition RetrieveEntity (id : string) : St W (EntityBasic * error) :=
  res <- invoke (fun x => x) (invoke_RetrieveEntity conn) (fun m => (m, None)) id ;;
  match res with inl r => ret (r, None) | inr e => ret (EntityBasic0, decodeError e) end.
Definition NewClient : GroupsServiceClient W := {| groups_RetrieveEntity := RetrieveEntity |}.
End client.
End groups_grpc.

(** ** src/domains/api/grpc *)
Module domains_grpc.
Import grpc.

(** *** requests.go *)
Definition deleteUserPoliciesReq_validate (ID : string) : error := if ID =s "" then Some apiutil.ErrMissingID else None.
Definition retrieveStatusReq_validate (ID : string) : error := if ID =s "" then Some apiutil.ErrMissingID else None.
Definition retrieveIDByRouteReq_validate (Route : string) : error :=
  if Route =s "" then Some apiutil.ErrMissingRoute else None.

Record ClientConn (W : Type) := {
  invoke_DeleteUserFromDomains : string -> St W (bool + GrpcError);
  invoke_RetrieveStatus : string -> St W (EntityBasic + GrpcError);
  invoke_RetrieveIDByRoute : string -> St W (EntityBasic + GrpcError) }.
Arguments invoke_DeleteUserFromDomains {W}. Arguments invoke_RetrieveStatus {W}. Arguments invoke_RetrieveIDByRoute {W}.

(** *** endpoint.go and server.go; a request is its one field. *)
Definition field (s : string) : string * error := (s, None).
Definition encodeDeleteUserResponse (deleted : bool) : bool * error := (deleted, None).
Definition encodeRetrieveStatusResponse (status : N) : EntityBasic * error := (MkEntityBasic "" "" "" status, None).
Definition encodeRetrieveIDByRouteResponse (id : string) : EntityBasic * error := (MkEntityBasic id "" "" 0, None).
Section server.
Context {W : Type} (svc : domains_private.service W).
Definition deleteUserFromDomainsEndpoint (ID : string) : St W (bool * error) :=
  if_err deleteUserPoliciesReq_validate ID return_ ret (false, deleteUserPoliciesReq_validate ID) ;;
  acknowledge false true (domains_private.DeleteUserFromDomains svc ID).
Definition retrieveStatusEndpoint (ID : string) : St W (N * error) :=
  if_err retrieveStatusReq_validate ID return_ ret (0%N, retrieveStatusReq_validate ID) ;;
  answer 0%N (domains_private.RetrieveStatus svc ID) uint8.
Definition retrieveIDByRouteEndpoint (Route : string) : St W (string * error) :=
  if_err retrieveIDByRouteReq_validate Route return_ ret ("", retrieveIDByRouteReq_validate Route) ;;
  answer "" (domains_private.RetrieveIDByRoute svc Route) (fun id => id).

Definition server_DeleteUserFromDomains (req : string) : St W (bool + GrpcError) :=
  status_of auth_grpc.EncodeError (serve false field deleteUserFromDomainsEndpoint encodeDeleteUserResponse req).
Definition server_RetrieveStatus (req : string) : St W (EntityBasic + GrpcError) :=
  status_of auth_grpc.EncodeError (serve EntityBasic0 field retrieveStatusEndpoint encodeRetrieveStatusResponse req).
Definition server_RetrieveIDByRoute (req : string) : St W (EntityBasic + GrpcError) :=
  status_of auth_grpc.EncodeError (serve EntityBasic0 field retrieveIDByRouteEndpoint encodeRetrieveIDByRouteResponse req).
(** NewDomainsServer *)
Definition in_process : ClientConn W := {|
  invoke_DeleteUserFromDomains := server_DeleteUserFromDomains; invoke_RetrieveStatus := server_RetrieveStatus;
  invoke_RetrieveIDByRoute := server_RetrieveIDByRoute |}.
End server.

(** *** client.go *)
Definition decodeDeleteUserResponse (res : bool) : bool * error := (res, None).
Definition decodeRetrieveStatusResponse (res : EntityBasic) : N * error := (uint8 (Status res), None).
Definition decodeRetrieveIDByRouteResponse (res : EntityBasic) : string * error := (Id res, None).
Section client.
Context {W : Type} (conn : ClientConn W).
Definition DeleteUserFromDomains (id : string) : St W (bool * error) :=
  res <- invoke (fun x => x) (invoke_DeleteUserFromDomains conn) decodeDeleteUserResponse id ;;
  match res with inl deleted => ret (deleted, None) | inr e => ret (false, auth_grpc.DecodeError e) end.
Definition RetrieveStatus (id : string) : St W (EntityBasic * error) :=
  res <- invoke (fun x => x) (invoke_RetrieveStatus conn) decodeRetrieveStatusResponse id ;;
  match res with
  | inl status => ret (MkEntityBasic "" "" "" status, None)
  | inr e => ret (EntityBasic0, auth_grpc.DecodeError e)
  end.
Definition RetrieveIDByRoute (route : string) : St W (EntityBasic * error) :=
  res <- invoke (fun x => x) (invoke_RetrieveIDByRoute conn) decodeRetrieveIDByRouteResponse route ;;
  match res with
  | inl id => ret (MkEntityBasic id "" "" 0, None)
  | inr e => ret (EntityBasic0, auth_grpc.DecodeError e)
  end.
End client.
End domains_grpc.

(** src/pkg/domains/grpcclient/authz.go: the status of a domain for the
    authorization library and the channels service. *)
Definition grpcclient_RetrieveStatus {W} (conn : domains_grpc.ClientConn W) (id : string) : St W (N * error) :=
  '(res, e) <- domains_grpc.RetrieveStatus conn id ;;
  if_err e return_ ret (domains.AllStatus, e) ;;
  ret (uint8 (grpc.Status res), None).

(** ** src/auth/api/grpc/token *)
Module token_grpc.
Import users.

(** *** requests.go; KeyType and Role are 32 bits wide, as in the message. *)
Record issueReq := MkIssueReq {
  userID : string; userRole : N; keyType : N; verified : bool; description : string }.
Definition issueReq_validate (req : issueReq) : error :=
  if_ negb (N.eqb (keyType req) keys.AccessKey) && negb (N.eqb (keyType req) keys.APIKey)
      && negb (N.eqb (keyType req) keys.RecoveryKey) && negb (N.eqb (keyType req) keys.InvitationKey)
    return_ Some apiutil.ErrInvalidAuthKey ;;
  None.
Record refreshReq := MkRefreshReq { refreshToken : string; rf_verified : bool }.
Definition refreshReq_validate (req : refreshReq) : error :=
  if_ refreshToken req =s "" return_ Some apiutil.ErrMissingSecret ;;
  None.
Record revokeReq := MkRevokeReq { rv_userID : string; tokenID : string }.
Definition revokeReq_validate (req : revokeReq) : error :=
  if_ tokenID req =s "" return_ Some apiutil.ErrMissingID ;;
  None.
Definition listUserRefreshTokensReq_validate (userID : string) : error :=
  if_ userID =s "" return_ Some apiutil.ErrMissingID ;;
  None.

(** *** responses.go *)
Record issueRes := MkIssueRes { accessToken : string; rs_refreshToken : string; accessType : string }.
Definition issueRes0 : issueRes := MkIssueRes "" "" "".

Record ClientConn (W : Type) := {
  invoke_Issue : IssueReq -> St W (Token + GrpcError);
  invoke_Refresh : string * bool -> St W (Token + GrpcError);
  invoke_Revoke : string * string -> St W (unit + GrpcError);
  invoke_ListUserRefreshTokens : string -> St W (list RefreshTokenInfo + GrpcError) }.
Arguments invoke_Issue {W}. Arguments invoke_Refresh {W}. Arguments invoke_Revoke {W}.
Arguments invoke_ListUserRefreshTokens {W}.

(** *** endpoint.go *)
Definition issued (tkn : keys.Token) : issueRes :=
  MkIssueRes (keys.AccessToken tkn) (keys.RefreshToken tkn) (keys.AccessType tkn).
Section endpoints.
Context {W : Type} (now : St W Time) (svc : auth.service W).
Definition issueEndpoint (req : issueReq) : St W (issueRes * error) :=
  if_err issueReq_validate req return_ ret (issueRes0, issueReq_validate req) ;;
  let key := keys.Key0 <| keys.Type_ := keyType req |> <| keys.Subject := userID req |> <| keys.Role := userRole req |>
               <| keys.Verified := verified req |> <| keys.Description := description req |> in
  answer issueRes0 (auth.Issue now svc "" key) issued.
Definition refreshEndpoint (req : refreshReq) : St W (issueRes * error) :=
  if_err refreshReq_validate req return_ ret (issueRes0, refreshReq_validate req) ;;
  let key := keys.Key0 <| keys.Type_ := keys.RefreshKey |> <| keys.Verified := rf_verified req |> in
  answer issueRes0 (auth.Issue now svc (refreshToken req) key) issued.
Definition revokeEndpoint (req : revokeReq) : St W (unit * error) :=
  if_err revokeReq_validate req return_ ret (tt, revokeReq_validate req) ;;
  acknowledge tt tt (auth.RevokeToken svc (rv_userID req) (tokenID req)).
Definition listUserRefreshTokensEndpoint (userID : string) : St W (list keys.TokenInfo * error) :=
  if_err listUserRefreshTokensReq_validate userID return_ ret ([], listUserRefreshTokensReq_validate userID) ;;
  answer [] (auth.ListUserRefreshTokens svc userID) (fun tokens => tokens).
End endpoints.

(** *** server.go *)
Definition decodeIssueRequest (req : IssueReq) : issueReq * error :=
  (MkIssueReq (iss_UserId req) (iss_UserRole req) (iss_Type req) (iss_Verified req) (iss_Description req), None).
Definition decodeRefreshRequest (req : string * bool) : refreshReq * error := (MkRefreshReq req.1 req.2, None).
Definition encodeIssueResponse (res : issueRes) : Token * error :=
  (MkToken (accessToken res) (Some (rs_refreshToken res)) (accessType res), None).
Definition decodeRevokeRequest (req : string * string) : revokeReq * error := (MkRevokeReq req.1 req.2, None).
Definition encodeRevokeResponse (_ : unit) : unit * error := (tt, None).
Definition decodeListUserRefreshTokensRequest (userID : string) : string * error := (userID, None).
Definition encodeListUserRefreshTokensResponse (tokens : list keys.TokenInfo) : list RefreshTokenInfo * error :=
  (map (fun t => MkRefreshTokenInfo (keys.ti_ID t) (keys.ti_Description t)) tokens, None).

Section server.
Context {W : Type} (now : St W Time) (svc : auth.service W).
Definition server_Issue (req : IssueReq) : St W (Token + GrpcError) :=
  status_of auth_grpc.EncodeError (serve Token0 decodeIssueRequest (issueEndpoint now svc) encodeIssueResponse req).
Definition server_Refresh (req : string * bool) : St W (Token + GrpcError) :=
  status_of auth_grpc.EncodeError (serve Token0 decodeRefreshRequest (refreshEndpoint now svc) encodeIssueResponse req).
Definition server_Revoke (req : string * string) : St W (unit + GrpcError) :=
  status_of auth_grpc.EncodeError (serve tt decodeRevokeRequest (revokeEndpoint svc) encodeRevokeResponse req).
Definition server_ListUserRefreshTokens (req : string) : St W (list RefreshTokenInfo + GrpcError) :=
  status_of auth_grpc.EncodeError
    (serve [] decodeListUserRefreshTokensRequest (listUserRefreshTokensEndpoint svc) encodeListUserRefreshTokensResponse req).
(** NewTokenServer *)
Definition in_process : ClientConn W := {|
  invoke_Issue := server_Issue; invoke_Refresh := server_Refresh; invoke_Revoke := server_Revoke;
  invoke_ListUserRefreshTokens := server_ListUserRefreshTokens |}.
End server.

(** *** client.go *)
Definition encodeIssueRequest (req : issueReq) : IssueReq :=
  users.MkIssueReq (userID req) (userRole req) (keyType req) (verified req) (description req).
Definition encodeRefreshRequest (req : refreshReq) : string * bool := (refreshToken req, rf_verified req).
Definition encodeRevokeRequest (req : revokeReq) : string * string := (rv_userID req, tokenID req).
Definition encodeListUserRefreshTokensRequest (userID : string) : string := userID.
(** The four decoders of answers return the message. *)
Definition same {A} (a : A) : A * error := (a, None).
Section client.
Context {W : Type} (conn : ClientConn W).
Definition Issue (req : IssueReq) : St W (Token * error) :=
  res <- invoke encodeIssueRequest (invoke_Issue conn) same
           (MkIssueReq (iss_UserId req) (iss_UserRole req) (iss_Type req) (iss_Verified req) (iss_Description req)) ;;
  match res with inl t => ret (t, None) | inr e => ret (Token0, auth_grpc.DecodeError e) end.
Definition Refresh (token : string) (verified : bool) : St W (Token * error) :=
  res <- invoke encodeRefreshRequest (invoke_Refresh conn) same (MkRefreshReq token verified) ;;
  match res with inl t => ret (t, None) | inr e => ret (Token0, auth_grpc.DecodeError e) end.
Definition Revoke (userID tokenID : string) : St W error :=
  res <- invoke encodeRevokeRequest (invoke_Revoke conn) same (MkRevokeReq userID tokenID) ;;
  match res with inl _ => ret None | inr e => ret (auth_grpc.DecodeError e) end.
Definition ListUserRefreshTokens (userID : string) : St W (list RefreshTokenInfo * error) :=
  res <- invoke encodeListUserRefreshTokensRequest (invoke_ListUserRefreshTokens conn) same userID ;;
  match res with inl l => ret (l, None) | inr e => ret ([], auth_grpc.DecodeError e) end.
Definition NewTokenClient : TokenServiceClient W := {|
  token_Issue := Issue; token_Refresh := Refresh; token_Revoke := Revoke;
  token_ListUserRefreshTokens := ListUserRefreshTokens |}.
End client.
End token_grpc.

(** ** src/users/api/grpc *)
Module users_grpc.
Import users.

(** The protobuf library: the messages Struct and Timestamp. *)
Record protolib := {
  Struct : Type;
  NewStruct : list (string * Json) -> Struct * error;
  AsMap : Struct -> list (string * Json);
  Timestamp : Type;
  timestamp_New : Time -> Timestamp;
  AsTime : Timestamp -> Time }.

Section lib.
Context (P : protolib).

(** The message User *)
Record pbUser := MkPbUser {
  pb_Id : string; pb_FirstName : string; pb_LastName : string; pb_Tags : list string;
  pb_Metadata : option (Struct P); pb_PrivateMetadata : option (Struct P); pb_Status : N; pb_Role : N;
  pb_ProfilePicture : string; pb_Username : string; pb_Email : string; pb_UpdatedBy : string;
  pb_AuthProvider : string; pb_Permissions : list string;
  pb_CreatedAt : option (Timestamp P); pb_UpdatedAt : option (Timestamp P); pb_VerifiedAt : option (Timestamp P) }.
Record RetrieveUsersRes := MkRetrieveUsersRes {
  rr_Total : N; rr_Limit : N; rr_Offset : N; rr_Users : list pbUser }.
Definition RetrieveUsersRes0 : RetrieveUsersRes := MkRetrieveUsersRes 0 0 0 [].

(** *** requests.go and responses.go *)
Record retrieveUsersReq := MkRetrieveUsersReq { ids : list string; offset : N; limit : N }.
Definition validate (req : retrieveUsersReq) : error :=
  if_ Nat.eqb (length (ids req)) 0 return_ Some apiutil.ErrMissingUserID ;;
  None.
Record retrieveUsersRes := MkRes { rs_users : list User; rs_total : N; rs_limit : N; rs_offset : N }.
Definition retrieveUsersRes0 : retrieveUsersRes := MkRes [] 0 0 0.

(** *** server.go *)
Definition toStruct (m : Metadata) : option (Struct P) * error :=
  match m with
  | None => (None, None)
  | Some m => let '(s, e) := NewStruct P m in
              if_err e return_ (None, WrapE svcerr.ErrViewEntity e) ;; (Some s, None)
  end.
Definition toTimestamp (t : Time) : option (Timestamp P) := if IsZero t then None else Some (timestamp_New P t).
Definition toProtoUser (u : User) : option pbUser * error :=
  let '(metadata, e) := toStruct (u_Metadata u) in
  if_err e return_ (None, e) ;;
  let '(privateMetadata, e) := toStruct (PrivateMetadata u) in
  if_err e return_ (None, e) ;;
  (Some (MkPbUser (ID u) (FirstName u) (LastName u) (Tags u) metadata privateMetadata (Status u) (Role u)
     (ProfilePicture u) (Username (Creds u)) (Email u) (UpdatedBy u) (AuthProvider u) (Permissions u)
     (toTimestamp (CreatedAt u)) (toTimestamp (UpdatedAt u)) (toTimestamp (VerifiedAt u))), None).
Fixpoint toProtoUsers (us : list User) : list pbUser * error :=
  match us with
  | [] => ([], None)
  | u :: us =>
      match toProtoUser u with
      | (Some pu, None) => let '(res, e) := toProtoUsers us in if_err e return_ ([], e) ;; (pu :: res, None)
      | (_, e) => ([], e)
      end
  end.
Definition decodeRetrieveUsersRequest (req : retrieveUsersReq) : retrieveUsersReq * error :=
  (MkRetrieveUsersReq (ids req) (offset req) (limit req), None).
Definition encodeRetrieveUsersResponse (res : retrieveUsersRes) : RetrieveUsersRes * error :=
  let '(usersPB, e) := toProtoUsers (rs_users res) in
  if_err e return_ (RetrieveUsersRes0, e) ;;
  (MkRetrieveUsersRes (rs_total res) (rs_limit res) (rs_offset res) usersPB, None).

(** *** endpoint.go *)
Section server.
Context {W : Type} (svc : users_private.service W).
Definition retrieveUsersEndpoint (req : retrieveUsersReq) : St W (retrieveUsersRes * error) :=
  if_err validate req return_ ret (retrieveUsersRes0, validate req) ;;
  answer retrieveUsersRes0 (users_private.RetrieveByIDs svc (ids req) (offset req) (limit req))
    (fun page => MkRes (Users page) (Total (up_Page page)) (Limit (up_Page page)) (Offset (up_Page page))).
Definition server_RetrieveUsers (req : retrieveUsersReq) : St W (RetrieveUsersRes + GrpcError) :=
  status_of auth_grpc.EncodeError
    (serve RetrieveUsersRes0 decodeRetrieveUsersRequest retrieveUsersEndpoint encodeRetrieveUsersResponse req).
End server.

(** *** client.go *)
Definition userFromProto (u : pbUser) : User :=
  User0 <| ID := pb_Id u |> <| FirstName := pb_FirstName u |> <| LastName := pb_LastName u |> <| Tags := pb_Tags u |>
    <| u_Metadata := AsMap P <$> pb_Metadata u |> <| PrivateMetadata := AsMap P <$> pb_PrivateMetadata u |>
    <| Status := uint8 (pb_Status u) |> <| Role := uint8 (pb_Role u) |> <| ProfilePicture := pb_ProfilePicture u |>
    <| Creds := MkCredentials (pb_Username u) "" |> <| Email := pb_Email u |> <| UpdatedBy := pb_UpdatedBy u |>
    <| Permissions := pb_Permissions u |> <| AuthProvider := pb_AuthProvider u |>
    <| CreatedAt := from_option (AsTime P) zeroTime (pb_CreatedAt u) |>
    <| UpdatedAt := from_option (AsTime P) zeroTime (pb_UpdatedAt u) |>
    <| VerifiedAt := from_option (AsTime P) zeroTime (pb_VerifiedAt u) |>.
Definition usersFromProto (us : list pbUser) : list User * error := (map userFromProto us, None).
Definition decodeRetrieveUsersResponse (res : RetrieveUsersRes) : retrieveUsersRes * error :=
  let '(usersDomain, e) := usersFromProto (rr_Users res) in
  if_err e return_ (retrieveUsersRes0, e) ;;
  (MkRes usersDomain (rr_Total res) (rr_Limit res) (rr_Offset res), None).
Definition encodeRetrieveUsersRequest (req : retrieveUsersReq) : retrieveUsersReq :=
  MkRetrieveUsersReq (ids req) (offset req) (limit req).
(** The client encodes the users it has decoded once more. *)
Definition RetrieveUsers {W} (conn : retrieveUsersReq -> St W (RetrieveUsersRes + GrpcError)) (req : retrieveUsersReq)
    : St W (RetrieveUsersRes * error) :=
  res <- invoke encodeRetrieveUsersRequest conn decodeRetrieveUsersResponse
           (MkRetrieveUsersReq (ids req) (offset req) (limit req)) ;;
  match res with
  | inl rur =>
      let '(usersPB, e) := toProtoUsers (rs_users rur) in
      if_err e return_ ret (RetrieveUsersRes0, e) ;;
      ret (MkRetrieveUsersRes (rs_total rur) (rs_limit rur) (rs_offset rur) usersPB, None)
  | inr e => ret (RetrieveUsersRes0, auth_grpc.DecodeError e)
  end.
End lib.
End users_grpc.

(** ** Errors over a connection *)
#[local] Arguments clients_grpc.encodeError : simpl never.
#[local] Arguments clients_grpc.decodeError : simpl never.
#[local] Arguments auth_grpc.EncodeError : simpl never.
#[local] Arguments auth_grpc.DecodeError : simpl never.
Lemma encodeError_some x : exists c m, clients_grpc.encodeError (Some x) = Some (GStatus c m) /\ c <> OK.
Proof. unfold clients_grpc.encodeError. repeat case_match; eexists _, _; by split. Qed.
Lemma auth_EncodeError_some x : exists c m, auth_grpc.EncodeError (Some x) = Some (GStatus c m) /\ c <> OK.
Proof. unfold auth_grpc.EncodeError. repeat case_match; eexists _, _; by split. Qed.
Lemma decodeError_some c m : c <> OK -> exists x, clients_grpc.decodeError (GStatus c m) = Some x.
Proof.
  intros Hc. destruct (clients_grpc.decodeError (GStatus c m)) as [x|] eqn:E; [by exists x|]. exfalso.
  destruct c; try done; by apply WrapE_not_nil in E.
Qed.
Lemma auth_DecodeError_some c m : c <> OK -> exists x, auth_grpc.DecodeError (GStatus c m) = Some x.
Proof.
  intros Hc. destruct (auth_grpc.DecodeError (GStatus c m)) as [x|] eqn:E; [by exists x|]. exfalso.
  destruct c; try done; by apply WrapE_not_nil in E.
Qed.

(** The error that a caller sees for an error of the service: one exactly
    where there is one. *)
Definition remote (e : error) : error := from_option clients_grpc.decodeError None (clients_grpc.encodeError e).
Definition auth_remote (e : error) : error := from_option auth_grpc.DecodeError None (auth_grpc.EncodeError e).
Lemma remote_nil e : remote e = None <-> e = None.
Proof.
  destruct e as [x|]; [|done]. unfold remote. destruct (encodeError_some x) as (c & m & -> & Hc).
  destruct (decodeError_some c m Hc) as [y Hy]. cbn [from_option]. by rewrite Hy.
Qed.
Lemma auth_remote_nil e : auth_remote e = None <-> e = None.
Proof.
  destruct e as [x|]; [|done]. unfold auth_remote. destruct (auth_EncodeError_some x) as (c & m & -> & Hc).
  destruct (auth_DecodeError_some c m Hc) as [y Hy]. cbn [from_option]. by rewrite Hy.
Qed.

(** A request served over a connection that leads to the server: what is
    invoked is what the server decodes, and the answer what it encodes. *)
Section calls.
Context {W Req R1 R2 Res1 Res2 Msg : Type} (d : Msg).
Context (enc : R1 -> Req) (dec : Req -> R2 * error) (endpoint : R2 -> St W (Res2 * error)).
Context (encR : Res2 -> Msg * error) (decR : Msg -> Res1 * error).

Lemma invoke_served encodeError r w :
  (forall x, exists g, encodeError (Some x) = Some g) -> encodeError None = None ->
  invoke enc (fun req => status_of encodeError (serve d dec endpoint encR req)) decR r w
  = match dec (enc r) with
    | (_, Some e) => (inr (default (GOther e) (encodeError (Some e))), w)
    | (r2, None) =>
        match endpoint r2 w with
        | ((_, Some e), w') => (inr (default (GOther e) (encodeError (Some e))), w')
        | ((res, None), w') =>
            match encR res with
            | (_, Some e) => (inr (default (GOther e) (encodeError (Some e))), w')
            | (m, None) => (match decR m with (a, None) => inl a | (_, Some e) => inr (GOther e) end, w')
            end
        end
    end.
Proof.
  intros Hs Hn. unfold invoke, status_of, serve, bind, ret.
  destruct (dec (enc r)) as [r2 [e|]]; [destruct (Hs e) as [g ->]; done|].
  destruct (endpoint r2 w) as [[res [e|]] w1]; [destruct (Hs e) as [g ->]; done|].
  destruct (encR res) as [m [e|]]; [destruct (Hs e) as [g ->]; done|].
  rewrite Hn. by destruct (decR m) as [a [e|]].
Qed.
End calls.

Lemma clients_statuses : (forall x, exists g, clients_grpc.encodeError (Some x) = Some g)
  /\ clients_grpc.encodeError None = None.
Proof. split; [|done]. intros x. destruct (encodeError_some x) as (c & m & -> & _). by eexists. Qed.
Lemma auth_statuses : (forall x, exists g, auth_grpc.EncodeError (Some x) = Some g) /\ auth_grpc.EncodeError None = None.
Proof. split; [|done]. intros x. destruct (auth_EncodeError_some x) as (c & m & -> & _). by eexists. Qed.

(** ** The clients service over gRPC *)
Section clients_over_grpc.
Import grpc.
Context {W : Type} (svc : clients_private.service W).
Local Abbreviation client := (clients_grpc.NewClient (clients_grpc.in_process svc)).

Definition valid_type (t : N) : Prop := connections.CheckConnType (uint8 t) = None.
#[global] Instance valid_type_dec t : Decision (valid_type t).
Proof. unfold valid_type. destruct (connections.CheckConnType _); [by right|by left]. Defined.

Lemma uint8_idem t : uint8 (uint8 t) = uint8 t.
Proof. unfold uint8, connections.uint8. by rewrite N.Div0.mod_mod. Qed.
Lemma uint8_small t : (t < 256)%N -> uint8 t = t.
Proof. intros H. unfold uint8, connections.uint8. by apply N.mod_small. Qed.

Lemma decodeConnections_ok acc cs : Forall (fun c => valid_type (conn_Type c)) cs ->
  clients_grpc.decodeConnections acc cs
  = (clients_grpc.MkConnectionsReq
       (acc ++ map (fun c => clients_grpc.MkConn (ClientId c) (ChannelId c) (conn_DomainId c) (uint8 (conn_Type c))) cs), None).
Proof.
  intros H. revert acc. induction H as [|c cs Hc _ IH]; intros acc; cbn [clients_grpc.decodeConnections map].
  - by rewrite app_nil_r.
  - unfold valid_type in Hc. rewrite Hc, IH, <- app_assoc. done.
Qed.
Lemma decodeConnections_bad acc cs : ~ Forall (fun c => valid_type (conn_Type c)) cs ->
  exists r e, clients_grpc.decodeConnections acc cs = (r, Some e).
Proof.
  revert acc. induction cs as [|c cs IH]; intros acc H; [by destruct H|]. cbn [clients_grpc.decodeConnections].
  destruct (connections.CheckConnType (uint8 (conn_Type c))) as [e|] eqn:E; [by eexists _, e|].
  apply IH. intros Hcs. apply H. by constructor.
Qed.

(** Both lists of connections that a client sends reach the service as they
    are, with types of eight bits, or none of them where a type is unknown. *)
Lemma connections_served (send : list clients.Connection -> St W error) cs w e w' :
  (res <- invoke clients_grpc.encodeAddConnectionsRequest
     (fun req => status_of clients_grpc.encodeError (serve false (clients_grpc.decodeConnections [])
        (fun req => acknowledge (clients_grpc.MkConnectionsRes false) (clients_grpc.MkConnectionsRes true)
           (send (map clients_grpc.toConnection (clients_grpc.connections_ req))))
        clients_grpc.encodeAddConnectionsResponse req))
     clients_grpc.decodeAddConnectionsResponse (map clients_grpc.fromMessage cs) ;;
   match res with inl cr => ret (clients_grpc.ok cr, None) | inr e => ret (false, clients_grpc.decodeError e) end) w = (e, w') ->
  if decide (Forall (fun c => valid_type (conn_Type c)) cs)
  then exists e0, send (map clients_grpc.fromMessage cs) w = (e0, w') /\ e.2 = remote e0
  else e.2 <> None /\ w' = w.
Proof.
  unfold bind at 1. destruct clients_statuses as [Hs Hn].
  rewrite (invoke_served false _ _ _ _ _ clients_grpc.encodeError _ w Hs Hn).
  set (cs1 := clients_grpc.encodeAddConnectionsRequest (map clients_grpc.fromMessage cs)).
  assert (Hcs1 : Forall (fun c => valid_type (conn_Type c)) cs1 <-> Forall (fun c => valid_type (conn_Type c)) cs).
  { unfold cs1, clients_grpc.encodeAddConnectionsRequest. rewrite map_map, Forall_map. unfold valid_type. simpl.
    apply Forall_iff. intros c. simpl. by rewrite uint8_idem. }
  destruct (decide _) as [H|H].
  - rewrite (decodeConnections_ok [] cs1) by (by apply Hcs1). cbn [app clients_grpc.connections_].
    unfold acknowledge, bind at 1. unfold cs1, clients_grpc.encodeAddConnectionsRequest. rewrite !map_map.
    rewrite (map_ext _ clients_grpc.fromMessage).
    2:{ intros c. unfold clients_grpc.toConnection, clients_grpc.fromMessage. cbn. by rewrite uint8_idem. }
    destruct (send _ w) as [[x|] w1].
    + cbv [ret]. destruct (Hs x) as [g Hg]. rewrite Hg. intros [= <- <-]. exists (Some x). split; [done|].
      unfold remote. by rewrite Hg.
    + intros [= <- <-]. by exists None.
  - destruct (decodeConnections_bad [] cs1) as (r & x & ->); [by rewrite Hcs1|]. intros [= <- <-]. simpl.
    split; [|done]. destruct (encodeError_some x) as (c & m & -> & Hc). simpl.
    destruct (decodeError_some c m Hc) as [y Hy]. by rewrite Hy.
Qed.

Lemma AddConnections_served cs w e w' : clients_AddConnections client cs w = (e, w') ->
  if decide (Forall (fun c => valid_type (conn_Type c)) cs)
  then exists e0, clients_private.AddConnections svc (map clients_grpc.fromMessage cs) w = (e0, w') /\ e = remote e0
  else e <> None /\ w' = w.
Proof.
  simpl. unfold bind at 1. destruct (clients_grpc.AddConnections _ cs w) as [r w1] eqn:E. destruct r as [b e1].
  intros [= <- <-]. by apply (connections_served (clients_private.AddConnections svc)) in E.
Qed.
Lemma RemoveConnections_served cs w e w' : clients_RemoveConnections client cs w = (e, w') ->
  if decide (Forall (fun c => valid_type (conn_Type c)) cs)
  then exists e0, clients_private.RemoveConnections svc (map clients_grpc.fromMessage cs) w = (e0, w') /\ e = remote e0
  else e <> None /\ w' = w.
Proof.
  simpl. unfold bind at 1. destruct (clients_grpc.RemoveConnections _ cs w) as [r w1] eqn:E. destruct r as [b e1].
  intros [= <- <-]. by apply (connections_served (clients_private.RemoveConnections svc)) in E.
Qed.
Lemma RetrieveEntity_served id w : clients_RetrieveEntity client id w
  = match clients_private.RetrieveById svc id w with
    | ((c, None), w') =>
        ((MkEntityBasic (clients.ID c) (clients.Domain c) "" (uint8 (clients.Status c)), None), w')
    | ((_, Some e), w') => ((EntityBasic0, remote (Some e)), w')
    end.
Proof.
  simpl. unfold clients_grpc.RetrieveEntity, bind at 1. destruct clients_statuses as [Hs Hn].
  unfold clients_grpc.in_process, clients_grpc.invoke_RetrieveEntity, clients_grpc.server_RetrieveEntity.
  rewrite (invoke_served EntityBasic0 _ _ _ _ _ clients_grpc.encodeError id w Hs Hn). simpl.
  unfold clients_grpc.retrieveEntityEndpoint, clients_grpc.encodeRetrieveEntityRequest, answer, bind, ret. simpl.
  destruct (clients_private.RetrieveById svc id w) as [[c [e|]] w1]; simpl.
  - unfold remote. destruct (Hs e) as [g Hg]. by rewrite Hg.
  - by rewrite uint8_idem.
Qed.
End clients_over_grpc.

(** ** The channels service over gRPC *)
Lemma channels_Authorize_served {W} (svc : channels_private.service W) req w :
  channels_grpc.Authorize (channels_grpc.in_process svc) req w
  = let t := uint8 (channels.az_Type req) in
    match connections.CheckConnType t with
    | Some e => ((false, remote (Some e)), w)
    | None =>
        if (channels.az_ClientType req =s policies.UserType) && (channels.az_DomainID req =s "")
        then ((false, remote (Some channels_grpc.errDomainID)), w)
        else match channels_private.Authorize svc
                     (channels.MkAuthzReq (channels.az_DomainID req) (channels.az_ChannelID req) (channels.az_ClientID req)
                        (channels.az_ClientType req) t) w with
             | (Some e, w') => ((false, remote (Some e)), w')
             | (None, w') => ((true, None), w')
             end
    end.
Proof.
  unfold channels_grpc.Authorize, bind at 1. destruct clients_statuses as [Hs Hn].
  unfold channels_grpc.in_process, channels_grpc.invoke_Authorize, channels_grpc.server_Authorize.
  rewrite (invoke_served false _ _ _ _ _ channels_grpc.encodeError _ w Hs Hn).
  unfold channels_grpc.encodeError, channels_grpc.decodeError.
  assert (Hd : forall x, clients_grpc.decodeError (default (GOther x) (clients_grpc.encodeError (Some x))) = remote (Some x)).
  { intros x. unfold remote. by destruct (Hs x) as [g ->]. }
  unfold channels_grpc.decodeAuthorizeRequest, channels_grpc.encodeAuthorizeRequest. simpl. rewrite uint8_idem.
  destruct (connections.CheckConnType _) as [e|]; [cbv [ret]; by rewrite Hd|].
  unfold channels_grpc.authorizeEndpoint, channels_grpc.authorizeReq_validate, acknowledge, bind, ret. simpl.
  destruct (_ && _); simpl; [exact (f_equal (fun e => ((false, e), w)) (Hd channels_grpc.errDomainID))|].
  destruct (channels_private.Authorize svc _ w) as [[e|] w1]; simpl; [by rewrite Hd|done].
Qed.

(** ** Connecting channels and clients, end to end

    The channels service, the gRPC client of the clients service, the server
    and the private clients service.  [connected] and [linked] are the tables
    of connections of the two services, [chRow] and [clRow] the rows their
    repositories have of a channel and of a client. *)
Definition link (c : channels.Connection) : clients.Connection :=
  clients.MkConnection (channels.ClientID c) (channels.ChannelID c) (channels.DomainID c) (channels.Type_ c).

Class ConnectTables {W} (R : channels.Repository W) (C : clients.Repository W)
    (connected : W -> channels.Connection -> Prop) (linked : W -> clients.Connection -> Prop)
    (chRow : W -> string -> option channels.Channel) (clRow : W -> string -> option clients.Client) : Prop := {
  tab_Check c : frames (channels.CheckConnection R c) (fun w => (connected w, linked w, chRow w, clRow w));
  tab_Check_not_found c w e w' : channels.CheckConnection R c w = (e, w') ->
    is_sentinel e repoerr.ErrNotFound = true -> ~ connected w c;
  tab_channel id : frames (channels.RetrieveByID R id) (fun w => (connected w, linked w, chRow w, clRow w));
  tab_channel_row id w c w' : channels.RetrieveByID R id w = ((c, None), w') -> chRow w id = Some c;
  tab_client id : frames (clients.RetrieveByID C id) (fun w => (connected w, linked w, chRow w, clRow w));
  tab_client_row id w c w' : clients.RetrieveByID C id w = ((c, None), w') -> clRow w id = Some c;
  link_Add cs w e w' : clients.repo_AddConnections C cs w = (e, w') ->
    connected w' = connected w /\ forall c, linked w' c <-> linked w c \/ (e = None /\ c ∈ cs);
  tab_Add cs w e w' : channels.repo_AddConnections R cs w = (e, w') ->
    linked w' = linked w /\ forall c, connected w' c <-> connected w c \/ (e = None /\ c ∈ cs);
  link_Remove cs w e w' : clients.repo_RemoveConnections C cs w = (e, w') ->
    connected w' = connected w /\ forall c, linked w' c <-> linked w c /\ ~ (e = None /\ c ∈ cs);
  tab_Remove cs w e w' : channels.repo_RemoveConnections R cs w = (e, w') ->
    linked w' = linked w /\ forall c, connected w' c <-> connected w c /\ ~ (e = None /\ c ∈ cs) }.

Section connect_over_grpc.
Import grpc channels.
Context {W : Type} (svc : service W) (csvc : clients_private.service W).
Context (connected : W -> Connection -> Prop) (linked : W -> clients.Connection -> Prop).
Context (chRow : W -> string -> option Channel) (clRow : W -> string -> option clients.Client).
Context {CT : ConnectTables (repo svc) (clients_private.repo csvc) connected linked chRow clRow}.
Context (over_grpc : clients svc = clients_grpc.NewClient (clients_grpc.in_process csvc)).

(** A message as a row of the clients service, which has types of eight bits. *)
Definition row_of (w : W) (c : grpc.Connection) : Prop :=
  (grpc.conn_Type c < 256)%N /\ linked w (clients_grpc.fromMessage c).

(** What the service's answer has of a client's row. *)
Definition entity (c : clients.Client) : EntityBasic :=
  MkEntityBasic (clients.ID c) (clients.Domain c) "" (uint8 (clients.Status c)).
Definition entity_row (w : W) (id : string) : option EntityBasic := entity <$> clRow w id.

Lemma tables_over_grpc {A} (m : St W A) : frames m (fun w => (connected w, linked w, chRow w, clRow w)) ->
  frames m (conn_tables connected row_of chRow entity_row).
Proof.
  intros H w. specialize (H w). injection H as H1 H2 H3 H4. unfold conn_tables, row_of, entity_row.
  by rewrite H1, H2, H3, H4.
Qed.

Lemma fromMessage_elem c cs : Forall (fun c => grpc.conn_Type c < 256)%N cs -> (grpc.conn_Type c < 256)%N ->
  clients_grpc.fromMessage c ∈ map clients_grpc.fromMessage cs <-> c ∈ cs.
Proof.
  rewrite Forall_forall. intros Hcs Hc. rewrite elem_of_map_list. split; [|intros H; by exists c].
  intros (d & Hd & E). specialize (Hcs d Hd). destruct c as [c1 c2 c3 t], d as [d1 d2 d3 t'].
  unfold clients_grpc.fromMessage in E. simpl in *. rewrite !uint8_small in E by done. by injection E as -> -> -> ->.
Qed.

(** The clients service over gRPC is what the channels service relies on. *)
Lemma grpc_connection_laws : ConnectionLaws (repo svc) (clients svc) connected row_of chRow entity_row.
Proof.
  split; intros *.
  - apply tables_over_grpc, tab_Check.
  - apply tab_Check_not_found.
  - apply tables_over_grpc, tab_channel.
  - apply tab_channel_row.
  - intros w. pose proof (tables_over_grpc _ (tab_client id) w) as H. rewrite over_grpc, RetrieveEntity_served.
    unfold clients_private.RetrieveById. by destruct (clients.RetrieveByID _ id w) as [[c [e|]] w1].
  - rewrite over_grpc, RetrieveEntity_served. unfold clients_private.RetrieveById.
    destruct (clients.RetrieveByID _ id w) as [[c [e|]] w1] eqn:E.
    + intros H. injection H as _ H _. by apply (remote_nil (Some e)) in H.
    + intros [= <- _]. unfold entity_row. by rewrite (tab_client_row _ _ _ _ E).
  - intros Hcs. rewrite over_grpc. intros H%AddConnections_served. destruct (decide _) as [Hv|Hv].
    + destruct H as (e0 & [Hc Hl]%link_Add & ->). split; [done|]. intros c. unfold row_of.
      rewrite Hl, remote_nil. destruct (N.ltb_spec (grpc.conn_Type c) 256) as [Hlt|Hge].
      * rewrite fromMessage_elem by done. naive_solver.
      * split; [lia|]. intros [[? _]|[_ Hin]]; [lia|]. rewrite Forall_forall in Hcs. apply Hcs in Hin. lia.
    + destruct H as [He ->]. split; [done|]. naive_solver.
  - intros [Hl Hc]%tab_Add. split; [|done]. unfold row_of. by rewrite Hl.
  - intros Hcs. rewrite over_grpc. intros H%RemoveConnections_served. destruct (decide _) as [Hv|Hv].
    + destruct H as (e0 & [Hc Hl]%link_Remove & ->). split; [done|]. intros c. unfold row_of.
      rewrite Hl, remote_nil. destruct (N.ltb_spec (grpc.conn_Type c) 256) as [Hlt|Hge]; [|lia].
      rewrite fromMessage_elem by done. naive_solver.
    + destruct H as [He ->]. split; [done|]. naive_solver.
  - intros [Hl Hc]%tab_Remove. split; [|done]. unfold row_of. by rewrite Hl.
Qed.

(** In state [w] the clients repository has the client, enabled and in the
    domain of the session; the message has eight bits of the status. *)
Definition client_enabled (w : W) (session : authn.Session) (id : string) : Prop :=
  exists c, clRow w id = Some c /\ uint8 (clients.Status c) = EnabledStatus /\ clients.Domain c = authn.DomainID session.
Lemma client_ok_enabled w session id : client_ok entity_row w session id -> client_enabled w session id.
Proof. intros (en & (c & Hc & ->)%fmap_Some & Hs & Hd). by exists c. Qed.

Lemma row_of_link w c : (Type_ c < 256)%N -> row_of w (toCli c) <-> linked w (link c).
Proof.
  intros Hc. unfold row_of, clients_grpc.fromMessage, link. simpl. rewrite uint8_small by done. naive_solver.
Qed.
Lemma toCli_elem c new : toCli c ∈ map toCli new <-> c ∈ new.
Proof.
  rewrite elem_of_map_list. split; [|intros H; by exists c]. intros (d & Hd & E).
  destruct c, d. unfold toCli in E. simpl in E. by injection E as -> -> -> ->.
Qed.

End connect_over_grpc.

(** ** Users over gRPC *)
Class ProtoLaws (P : users_grpc.protolib) : Prop := {
  AsMap_NewStruct m s : users_grpc.NewStruct P m = (s, None) -> users_grpc.AsMap P s = m;
  AsTime_New t : users_grpc.AsTime P (users_grpc.timestamp_New P t) = t }.

Section users_over_grpc.
Import users users_grpc.
Context (P : protolib) {PL : ProtoLaws P}.

(** What a User message does not carry. *)
Definition without_secret (u : User) : User := u <| Creds := MkCredentials (Username (Creds u)) "" |>.
Definition uint8_fields (u : User) : Prop := (Status u < 256 /\ Role u < 256)%N.

Lemma toStruct_back m s : toStruct P m = (s, None) -> AsMap P <$> s = m.
Proof.
  destruct m as [m|]; simpl; [|by intros [= <-]]. destruct (NewStruct P m) as [x [e|]] eqn:E.
  - intros [= _ H]. by apply WrapE_not_nil in H.
  - intros [= <-]. simpl. by rewrite (AsMap_NewStruct m).
Qed.
Lemma toTimestamp_back t : from_option (AsTime P) zeroTime (toTimestamp P t) = t.
Proof.
  unfold toTimestamp, IsZero. destruct (Z.eqb_spec t 0) as [->|Ht]; [done|]. simpl. apply AsTime_New.
Qed.
Lemma toProtoUser_back u pu : uint8_fields u -> toProtoUser P u = (Some pu, None) -> userFromProto P pu = without_secret u.
Proof.
  intros [Hs Hr]. unfold toProtoUser. destruct (toStruct P (u_Metadata u)) as [m [e|]] eqn:Em; [done|].
  destruct (toStruct P (PrivateMetadata u)) as [pm [e|]] eqn:Ep; [done|]. intros [= <-].
  apply toStruct_back in Em, Ep. destruct u. unfold userFromProto, without_secret. simpl in *.
  unfold set_field. simpl. by rewrite Em, Ep, !toTimestamp_back, !uint8_small.
Qed.
Lemma toProtoUser_without_secret u : toProtoUser P (without_secret u) = toProtoUser P u.
Proof. by destruct u. Qed.
Lemma toProtoUser_some u : toProtoUser P u <> (None, None).
Proof. unfold toProtoUser. by destruct (toStruct P (u_Metadata u)) as [? [?|]], (toStruct P (PrivateMetadata u)) as [? [?|]]. Qed.
Lemma toProtoUsers_back us pus : Forall uint8_fields us -> toProtoUsers P us = (pus, None) ->
  map (userFromProto P) pus = map without_secret us /\ toProtoUsers P (map (userFromProto P) pus) = (pus, None).
Proof.
  intros H. revert pus. induction H as [|u us Hu _ IH]; intros pus; simpl; [by intros [= <-]|].
  destruct (toProtoUser P u) as [[pu|] [e|]] eqn:Eu; try done; [|by apply toProtoUser_some in Eu].
  destruct (toProtoUsers P us) as [res [e|]]; [done|]. intros [= <-]. simpl.
  destruct (IH res eq_refl) as [Hm Hb]. rewrite (toProtoUser_back u pu Hu Eu). split; [by rewrite Hm|].
  by rewrite toProtoUser_without_secret, Eu, Hb.
Qed.

(** Users over gRPC.  Where the private service of the users gives a page
    of users and each of them can be encoded, the client gives its caller the
    page with a message for each user, from which the user is recovered as it
    was, except that the secret of the credentials is left out; for an error of the
    service, or a request without identifiers, it gives an error. *)
Theorem RetrieveUsers_over_grpc {W} (svc : users_private.service W) ids offset limit w r e w'
    (Hrun : RetrieveUsers P (server_RetrieveUsers P svc) (MkRetrieveUsersReq ids offset limit) w = ((r, e), w'))
    (Hwidth : forall page, (users_private.RetrieveByIDs svc ids offset limit w).1 = (page, None) ->
       Forall uint8_fields (Users page)) :
  (ids = [] -> e <> None /\ w' = w)
  /\ (ids <> [] -> exists page e0, users_private.RetrieveByIDs svc ids offset limit w = ((page, e0), w')
      /\ (e = None <-> e0 = None /\ (toProtoUsers P (Users page)).2 = None)
      /\ (e = None -> map (userFromProto P) (rr_Users P r) = map without_secret (Users page)
            /\ rr_Total P r = Total (up_Page page) /\ rr_Limit P r = Limit (up_Page page)
            /\ rr_Offset P r = Offset (up_Page page))).
Proof.
  revert Hrun. unfold RetrieveUsers, bind at 1. destruct auth_statuses as [Hs Hn]. unfold server_RetrieveUsers.
  rewrite (invoke_served (RetrieveUsersRes0 P) _ _ _ _ _ auth_grpc.EncodeError _ w Hs Hn).
  assert (Herr : forall x, auth_grpc.DecodeError (default (GOther x) (auth_grpc.EncodeError (Some x))) <> None).
  { intros x. destruct (auth_EncodeError_some x) as (c & m & -> & Hc). simpl.
    destruct (auth_DecodeError_some c m Hc) as [y ->]. done. }
  unfold decodeRetrieveUsersRequest, retrieveUsersEndpoint, encodeRetrieveUsersRequest, validate, answer, bind, ret. simpl.
  destruct ids as [|i l]; simpl.
  { intros [= <- <- <-]. split; [|done]. intros _. split; [exact (Herr apiutil.ErrMissingUserID)|done]. }
  destruct (users_private.RetrieveByIDs svc (i :: l) offset limit w) as [[page [x|]] w1] eqn:E; simpl in *.
  { intros [= <- <- <-]. split; [done|]. intros _. exists page, (Some x). split; [done|]. specialize (Herr x).
    split; [by split; [intros ?|intros [? _]]|by intros ?]. }
  specialize (Hwidth page eq_refl). unfold encodeRetrieveUsersResponse. simpl.
  destruct (toProtoUsers P (Users page)) as [pus [x|]] eqn:Ep; simpl.
  { intros [= <- <- <-]. split; [done|]. intros _. exists page, None. split; [done|]. specialize (Herr x).
    rewrite Ep. split; [by split; [intros ?|intros [_ ?]]|by intros ?]. }
  destruct (toProtoUsers_back _ _ Hwidth Ep) as [Hm Hb]. rewrite Hb. intros [= <- <- <-]. split; [done|].
  intros _. exists page, None. rewrite Ep. by split_and!.
Qed.
End users_over_grpc.

(** ** The token service over gRPC

    A request that is not valid is refused without a call of the auth
    service; every other one is the call of that service, with its answer or
    the status of its error. *)
Section tokens_over_grpc.
Import users token_grpc.
Context {W : Type} (now : St W Time) (svc : auth.service W).
Local Abbreviation client := (NewTokenClient (in_process now svc)).

Definition token_of (t : keys.Token) : Token :=
  MkToken (keys.AccessToken t) (Some (keys.RefreshToken t)) (keys.AccessType t).
Definition issue_key (req : IssueReq) : keys.Key :=
  keys.Key0 <| keys.Type_ := iss_Type req |> <| keys.Subject := iss_UserId req |> <| keys.Role := iss_UserRole req |>
    <| keys.Verified := iss_Verified req |> <| keys.Description := iss_Description req |>.
Definition refresh_key (verified : bool) : keys.Key :=
  keys.Key0 <| keys.Type_ := keys.RefreshKey |> <| keys.Verified := verified |>.
Definition issuable (t : N) : bool :=
  N.eqb t keys.AccessKey || N.eqb t keys.APIKey || N.eqb t keys.RecoveryKey || N.eqb t keys.InvitationKey.
Definition carried {A B} (d : B) (f : A -> B) (r : (A * error) * W) : (B * error) * W :=
  match r with ((a, None), w) => ((f a, None), w) | ((_, Some e), w) => ((d, auth_remote (Some e)), w) end.

Lemma remote_default e : auth_grpc.DecodeError (default (GOther e) (auth_grpc.EncodeError (Some e))) = auth_remote (Some e).
Proof. unfold auth_remote. destruct (auth_EncodeError_some e) as (c & m & -> & _). done. Qed.

Theorem token_service_over_grpc w :
  (forall req, token_Issue client req w
     = if issuable (iss_Type req) then carried Token0 token_of (auth.Issue now svc "" (issue_key req) w)
       else ((Token0, auth_remote (Some apiutil.ErrInvalidAuthKey)), w))
  /\ (forall token v, token_Refresh client token v w
     = if token =s "" then ((Token0, auth_remote (Some apiutil.ErrMissingSecret)), w)
       else carried Token0 token_of (auth.Issue now svc token (refresh_key v) w))
  /\ (forall u id, token_Revoke client u id w
     = if id =s "" then (auth_remote (Some apiutil.ErrMissingID), w)
       else let (e, w') := auth.RevokeToken svc u id w in (auth_remote e, w'))
  /\ (forall u, token_ListUserRefreshTokens client u w
     = if u =s "" then (([], auth_remote (Some apiutil.ErrMissingID)), w)
       else carried [] (map (fun t => MkRefreshTokenInfo (keys.ti_ID t) (keys.ti_Description t)))
              (auth.ListUserRefreshTokens svc u w)).
Proof.
  destruct auth_statuses as [Hs Hn]. split_and!.
  - intros req. simpl. unfold Issue, bind at 1, in_process, invoke_Issue, server_Issue.
    rewrite (invoke_served Token0 _ _ _ _ _ auth_grpc.EncodeError _ w Hs Hn).
    unfold decodeIssueRequest, encodeIssueRequest, issueEndpoint, issueReq_validate, answer, bind, ret.
    cbn [iss_UserId iss_UserRole iss_Type iss_Verified iss_Description userID userRole keyType verified description].
    rewrite <- !negb_orb. fold (issuable (iss_Type req)). destruct (issuable (iss_Type req)); cbn [negb].
    + fold (issue_key req). destruct (auth.Issue now svc "" (issue_key req) w) as [[t [e|]] w1]; cbn; [|done].
      by rewrite remote_default.
    + by rewrite remote_default.
  - intros token v. simpl. unfold Refresh, bind at 1, in_process, invoke_Refresh, server_Refresh.
    rewrite (invoke_served Token0 _ _ _ _ _ auth_grpc.EncodeError _ w Hs Hn).
    unfold decodeRefreshRequest, encodeRefreshRequest, refreshEndpoint, refreshReq_validate, answer, bind, ret.
    cbn [fst snd refreshToken rf_verified]. destruct (token =s ""); [by rewrite remote_default|].
    fold (refresh_key v). destruct (auth.Issue now svc token (refresh_key v) w) as [[t [e|]] w1]; cbn; [|done].
    by rewrite remote_default.
  - intros u id. simpl. unfold Revoke, bind at 1, in_process, invoke_Revoke, server_Revoke.
    rewrite (invoke_served tt _ _ _ _ _ auth_grpc.EncodeError _ w Hs Hn).
    unfold decodeRevokeRequest, encodeRevokeRequest, revokeEndpoint, revokeReq_validate, acknowledge, bind, ret.
    cbn [fst snd rv_userID tokenID]. destruct (id =s ""); [by rewrite remote_default|].
    destruct (auth.RevokeToken svc u id w) as [[e|] w1]; cbn; [|done]. by rewrite remote_default.
  - intros u. simpl. unfold ListUserRefreshTokens, bind at 1, in_process, invoke_ListUserRefreshTokens, server_ListUserRefreshTokens.
    rewrite (invoke_served [] _ _ _ _ _ auth_grpc.EncodeError _ w Hs Hn).
    unfold decodeListUserRefreshTokensRequest, encodeListUserRefreshTokensRequest, listUserRefreshTokensEndpoint,
      listUserRefreshTokensReq_validate, answer, bind, ret.
    destruct (u =s ""); [by rewrite remote_default|].
    destruct (auth.ListUserRefreshTokens svc u w) as [[l [e|]] w1]; cbn; [|done]. by rewrite remote_default.
Qed.
End tokens_over_grpc.

(** ** Examples *)
Module grpc_example.
Import memchannels channels_example.

(** The channels of [channels_example] with the clients service behind gRPC;
    every client is enabled and in domain d. *)
Definition message (c : clients.Connection) : grpc.Connection :=
  grpc.MkConnection (clients.ClientID c) (clients.ChannelID c) (clients.DomainID c) (clients.Type_ c).
Definition crepo : clients.Repository state :=
  {| clients.RetrieveByID := fun id => ret (clients.Client0 <| clients.ID := id |> <| clients.Domain := "d" |>, None);
     clients.RetrieveByIDWithRoles := fun _ _ => ret (clients.Client0, None);
     clients.RetrieveAll := fun _ => ret (clients.ClientsPage0, None);
     clients.RetrieveUserClients := fun _ _ _ => ret (clients.ClientsPage0, None);
     clients.repo_RetrieveByIds := fun _ => ret (clients.ClientsPage0, None);
     clients.repo_Update := fun c => ret (c, None); clients.repo_UpdateTags := fun c => ret (c, None);
     clients.repo_UpdateSecret := fun c => ret (c, None); clients.ChangeStatus := fun c => ret (c, None);
     clients.repo_Delete := fun _ => ret None; clients.Save := fun cs => ret (cs, None);
     clients.RetrieveBySecret := fun _ _ _ => ret (clients.Client0, Some repoerr.ErrNotFound);
     clients.repo_AddConnections := fun cs s => (None, (s.1, s.2 <| m_cli := map message cs ++ m_cli s.2 |>));
     clients.repo_RemoveConnections := fun cs s => (None, (s.1, s.2 <| m_cli := without (map message cs) (m_cli s.2) |>));
     clients.DoesClientHaveConnections := fun _ => ret (false, None);
     clients.repo_RemoveChannelConnections := fun _ => ret None;
     clients.repo_SetParentGroup := fun _ => ret None; clients.repo_RemoveParentGroup := fun _ => ret None;
     clients.RetrieveParentGroupClients := fun _ => ret ([], None);
     clients.repo_UnsetParentGroupFromClient := fun _ => ret None; clients.role_repo := memroles.repo policies.ClientType |}.
Definition csvc : clients_private.service state :=
  {| clients_private.repo := crepo;
     clients_private.cache := {| clients.cache_Save := fun _ _ => ret None; clients.cache_ID := fun _ => ret ("", Some repoerr.ErrNotFound);
                                 clients.cache_Remove := fun _ => ret None |};
     clients_private.evaluator := {| policies.CheckPolicy := fun _ => ret None |};
     clients_private.policy := spicedb.NewPolicyService memroles.client |}.
Definition svc : channels.service state :=
  {| channels.repo := repo; channels.cache := channels_cache.NewChannelsCache cache 1;
     channels.policy := spicedb.NewPolicyService memroles.client; channels.idProvider := ret ("new", None);
     channels.clients := clients_grpc.NewClient (clients_grpc.in_process csvc);
     channels.groups := channels.groups memchannels.svc;
     channels.sidProvider := ret ("id", None); channels.availableActions := ["read"];
     channels.builtInRoles := [("admin", ["read"])] |}.
Definition linked (s : state) (c : clients.Connection) : Prop := message c ∈ m_cli s.2.

Lemma elem_of_messages c cs : message c ∈ map message cs <-> c ∈ cs.
Proof.
  rewrite elem_of_map_list. split; [|intros H; by exists c]. intros (d & Hd & E). destruct c, d.
  unfold message in E. simpl in E. by injection E as -> -> -> ->.
Qed.
Definition client_row (s : state) (id : string) : option clients.Client :=
  Some (clients.Client0 <| clients.ID := id |> <| clients.Domain := "d" |>).
Lemma connect_tables : ConnectTables repo crepo connected linked row client_row.
Proof.
  split; simpl; intros *; try (by intros w); try (intros w; by case_match).
  - case_bool_decide as Hc; intros [= <- <-]; done.
  - unfold row. case_match; [|done]. by intros [= -> <-].
  - by intros [= <- <-].
  - intros [= <- <-]. split; [done|]. intros c. unfold linked. simpl. rewrite elem_of_app, elem_of_messages. naive_solver.
  - intros [= <- <-]. split; [done|]. intros c. unfold connected. simpl. rewrite elem_of_app. naive_solver.
  - intros [= <- <-]. split; [done|]. intros c. unfold linked. simpl.
    rewrite elem_of_without, elem_of_messages. naive_solver.
  - intros [= <- <-]. split; [done|]. intros c. unfold connected. simpl. rewrite elem_of_without. naive_solver.
Qed.

Definition joined := channels.Connect svc roles_example.alice ["c"] ["a"; "b"] [connections.Publish] created_.

(** Where NotFound is wrapped, as by the private service of the channels,
    the caller of the clients', channels' and groups' servers cannot tell it
    from an internal error; the caller of the auth service can. *)
Definition not_found : err := default errs.ErrMalformedEntity (WrapE svcerr.ErrViewEntity (Some svcerr.ErrNotFound)).
Example not_found_lost :
  Contains (remote (Some not_found)) (Some svcerr.ErrNotFound) = false
  /\ Contains (auth_remote (Some not_found)) (Some svcerr.ErrNotFound) = true.
Proof. split; vm_compute; reflexivity. Qed.

(** Users with metadata. *)
Definition proto : users_grpc.protolib :=
  {| users_grpc.Struct := list (string * Json); users_grpc.NewStruct := fun m => (m, None); users_grpc.AsMap := fun m => m;
     users_grpc.Timestamp := Z; users_grpc.timestamp_New := fun t => t; users_grpc.AsTime := fun t => t |}.
Lemma proto_laws : ProtoLaws proto.
Proof. split; simpl; [by intros m s [= <-]|done]. Qed.
Definition usvc : users_private.service memusers.state := {| users_private.repo := memusers.repo |}.
Definition bob : users.User :=
  users_example.bob <| users.ID := "u1" |> <| users.u_Metadata := Some [("age", JString "7")] |> <| users.CreatedAt := 5%Z |>.
Definition users_start : memusers.state := memusers.put {["u1" := bob]} users_example.start.
Definition asked :=
  users_grpc.RetrieveUsers proto (users_grpc.server_RetrieveUsers proto usvc) (users_grpc.MkRetrieveUsersReq ["u1"; "u2"] 0 0)
    users_start.
Lemma RetrieveUsers_over_grpc_witness :
  is_nil asked.1.2 = true /\ map (users_grpc.userFromProto proto) (users_grpc.rr_Users proto asked.1.1) = [without_secret bob].
Proof.
  assert (Hn : asked.1.2 = None) by (vm_compute; reflexivity). split; [by rewrite Hn|].
  destruct (RetrieveUsers_over_grpc proto (PL := proto_laws) usvc ["u1"; "u2"] 0 0 users_start asked.1.1 asked.1.2 asked.2)
    as [_ H].
  - unfold asked. by rewrite <- !surjective_pairing.
  - vm_compute. intros page [= <-]. repeat constructor.
  - destruct (H ltac:(discriminate)) as (page & e0 & E & _ & Hm). destruct (Hm Hn) as [-> _].
    assert (Hp : (users_private.RetrieveByIDs usvc ["u1"; "u2"] 0 0 users_start).1.1 = page) by (by rewrite E).
    rewrite <- Hp. vm_compute. reflexivity.
Defined.
End grpc_example.
