(* ===== verification/Adapters.v ===== *)
(** * The messaging adapters: MQTT, HTTP with WebSocket, and CoAP

    Source: src/mqtt/handler.go, src/mqtt/forwarder.go, src/http/handler.go,
    src/http/adapter.go, src/http/client.go, src/coap/handler.go,
    src/coap/adapter.go.  The proxy (mgate) calls the handlers with the
    session of the connection; the gRPC clients (in Grpc.v, as the examples
    use them), the message broker and the authentication of users are
    parameters.  Log output is left out. *)

From S2P Require Import Prelude GoStd Errors Policies Authn Roles Connections Channels Topics Grpc.

(** ** What the adapters call *)
Module edge.
(** The session of mgate; a handler gets a pointer to it, or none. *)
Record Session := MkSession { ID : string; Username : string; Password : string }.
#[global] Instance Session_fields : Fields Session := fun s => MkSession (ID s) (Username s) (Password s).

Record Authenticator (W : Type) := {
  (* (authenticated, id) *)
  clients_Authenticate : string -> St W ((bool * string) * error) }.
Arguments clients_Authenticate {W}.
Record Authorizer (W : Type) := { channels_Authorize : channels.AuthzReq -> St W (bool * error) }.
Arguments channels_Authorize {W}.
Record Authentication (W : Type) := { users_Authenticate : string -> St W (authn.Session * error) }.
Arguments users_Authenticate {W}.

Record TopicParser (W : Type) := {
  ParsePublishTopic : string -> bool -> St W (option messaging.result);
  ParseSubscribeTopic : string -> bool -> St W (option messaging.result) }.
Arguments ParsePublishTopic {W}. Arguments ParseSubscribeTopic {W}.

Record MessageHandler (W : Type) := { Handle : messaging.Message -> St W error; Cancel : St W error }.
Arguments Handle {W}. Arguments Cancel {W}.
(** DeliveryPolicy and Ordered are left at their zero values by the adapters. *)
Record SubscriberConfig (W : Type) := MkSubscriberConfig {
  sc_ID : string; sc_ClientID : string; sc_Topic : string; sc_Handler : MessageHandler W }.
Arguments sc_ID {W}. Arguments sc_ClientID {W}. Arguments sc_Topic {W}. Arguments sc_Handler {W}.
Arguments MkSubscriberConfig {W}.
Record PubSub (W : Type) := {
  Publish : string -> messaging.Message -> St W error;
  Subscribe : SubscriberConfig W -> St W error;
  Unsubscribe : string -> string -> St W error }.
Arguments Publish {W}. Arguments Subscribe {W}. Arguments Unsubscribe {W}.

(** The parser of pkg/messaging. *)
Definition topic_parser {W} (uuid : messaging.uuidlib) (p : messaging.parser W) : TopicParser W :=
  {| ParsePublishTopic := messaging.parser_ParsePublishTopic uuid p;
     ParseSubscribeTopic := messaging.parser_ParseSubscribeTopic uuid p |}.

Definition authzReq (typ : N) (clientType clientID chanID domainID : string) : channels.AuthzReq :=
  channels.MkAuthzReq domainID chanID clientID clientType typ.

(** apiutil *)
Definition BearerPrefix := "Bearer ".
Definition ClientPrefix := "Client ".
Definition BasicAuthPrefix := "Basic ".
End edge.

(** ** src/mqtt *)
Module mqtt.
Import edge.
Definition protocol := "mqtt".
Definition ErrClientNotInitialized : err := Sentinel "mqtt.ErrClientNotInitialized" CustomError "client is not initialized".
Definition ErrMissingClientID : err := Sentinel "mqtt.ErrMissingClientID" CustomError "client_id not found".
Definition ErrMissingTopicPub : err :=
  Sentinel "mqtt.ErrMissingTopicPub" CustomError "failed to publish due to missing topic".
Definition ErrMissingTopicSub : err :=
  Sentinel "mqtt.ErrMissingTopicSub" CustomError "failed to subscribe due to missing topic".
Definition ErrFailedConnect : err := Sentinel "mqtt.ErrFailedConnect" CustomError "failed to connect".
Definition ErrFailedSubscribe : err := Sentinel "mqtt.ErrFailedSubscribe" CustomError "failed to subscribe".
Definition ErrFailedUnsubscribe : err := Sentinel "mqtt.ErrFailedUnsubscribe" CustomError "failed to unsubscribe".
Definition ErrFailedPublish : err := Sentinel "mqtt.ErrFailedPublish" CustomError "failed to publish".
Definition ErrFailedDisconnect : err := Sentinel "mqtt.ErrFailedDisconnect" CustomError "failed to disconnect".
Definition ErrFailedPublishToMsgBroker : err :=
  Sentinel "mqtt.ErrFailedPublishToMsgBroker" CustomError "failed to publish to supermq message broker".
Definition errInvalidUserId : err := Sentinel "mqtt.errInvalidUserId" CustomError "invalid user id".

Record handler (W : Type) := {
  publisher : PubSub W; clients : Authenticator W; channels : Authorizer W; parser : TopicParser W }.
Arguments publisher {W}. Arguments clients {W}. Arguments channels {W}. Arguments parser {W}.

Section handler.
Context {W : Type} (now : St W Time) (h : handler W).

Definition AuthConnect (session : option Session) : St W error :=
  match session with
  | None => ret (Some ErrClientNotInitialized)
  | Some s =>
      if_ ID s =s "" return_ ret (Some ErrMissingClientID) ;;
      '((authenticated, id), e) <- clients_Authenticate (clients h)
        (authn.AuthPack authn.BasicAuth (Username s) (Password s)) ;;
      if_err e return_ ret (WrapE svcerr.ErrAuthentication e) ;;
      if_ negb authenticated return_ ret (Some svcerr.ErrAuthentication) ;;
      if_ (Username s <>s "") && (id <>s Username s) return_ ret (Some errInvalidUserId) ;;
      ret None
  end.

Definition authAccess (clientID domainID chanID : string) (msgType topicType : N) : St W error :=
  if N.eqb topicType messaging.HealthType then ret None
  else
    '(authorized, e) <- channels_Authorize (channels h)
      (authzReq msgType policies.ClientType clientID chanID domainID) ;;
    if_err e return_ ret e ;;
    if_ negb authorized return_ ret (Some svcerr.ErrAuthorization) ;;
    ret None.

Definition AuthPublish (session : option Session) (topic : option string) : St W (option error) :=
  match topic, session with
  | None, _ => pret (Some ErrMissingTopicPub)
  | Some _, None => pret (Some ErrClientNotInitialized)
  | Some topic, Some s =>
      '((domainID, chanID, _, topicType), e) <~ ParsePublishTopic (parser h) topic false ;;
      if_err e return_ pret e ;;
      call (authAccess (Username s) domainID chanID connections.Publish topicType)
  end.

Fixpoint authTopics (s : Session) (topics : list string) : St W (option error) :=
  match topics with
  | [] => pret None
  | topic :: topics =>
      '((domainID, chanID, _, topicType), e) <~ ParseSubscribeTopic (parser h) topic false ;;
      if_err e return_ pret e ;;
      e <~ call (authAccess (Username s) domainID chanID connections.Subscribe topicType) ;;
      if_err e return_ pret e ;;
      authTopics s topics
  end.

Definition AuthSubscribe (session : option Session) (topics : option (list string)) : St W (option error) :=
  match session, topics with
  | None, _ => pret (Some ErrClientNotInitialized)
  | Some _, None => pret (Some ErrMissingTopicSub)
  | Some s, Some topics => authTopics s topics
  end.

Definition Connect (session : option Session) : error :=
  match session with None => WrapE ErrFailedConnect (Some ErrClientNotInitialized) | Some _ => None end.
Definition Subscribe (session : option Session) : error :=
  match session with None => WrapE ErrFailedSubscribe (Some ErrClientNotInitialized) | Some _ => None end.
Definition Unsubscribe (session : option Session) : error :=
  match session with None => WrapE ErrFailedUnsubscribe (Some ErrClientNotInitialized) | Some _ => None end.
Definition Disconnect (session : option Session) : error :=
  match session with None => WrapE ErrFailedDisconnect (Some ErrClientNotInitialized) | Some _ => None end.

(** A nil topic or payload is dereferenced. *)
Definition Publish (session : option Session) (topic : option string) (payload : option (list ascii))
    : St W (option error) :=
  match session, topic with
  | None, _ => pret (WrapE ErrFailedPublish (Some ErrClientNotInitialized))
  | Some _, None => panic
  | Some s, Some topic =>
      '((domainID, chanID, subTopic, topicType), e) <~ ParsePublishTopic (parser h) topic false ;;
      if_err e return_ pret (WrapE ErrFailedPublish e) ;;
      match payload with
      | None => panic
      | Some payload =>
          t <- now ;;
          let msg := messaging.MkMessage chanID domainID subTopic (Username s) protocol payload t in
          if N.eqb topicType messaging.MessageType then
            e <- edge.Publish (publisher h) (messaging.EncodeMessageTopic msg) msg ;;
            if_err e return_ pret (WrapE ErrFailedPublishToMsgBroker e) ;;
            pret None
          else pret None
      end
  end.

(** The forwarder: the publication runs in a goroutine of its own whose error
    is logged; here it runs at once. *)
Definition forward (pub : PubSub W) (msg : messaging.Message) : St W error :=
  if_ messaging.Protocol msg =s protocol return_ ret None ;;
  _ <- edge.Publish pub (messaging.EncodeMessageMQTTTopic msg) msg ;;
  ret None.
End handler.
End mqtt.

(** ** src/http *)
Module http.
Import edge.
Definition protocol := "http".
Definition errClientNotInitialized : err := Sentinel "http.errClientNotInitialized" CustomError "client is not initialized".
Definition errMissingTopicPub : err :=
  Sentinel "http.errMissingTopicPub" CustomError "failed to publish due to missing topic".
Definition errMissingTopicSub : err :=
  Sentinel "http.errMissingTopicSub" CustomError "failed to subscribe due to missing topic".
Definition errFailedPublish : err := Sentinel "http.errFailedPublish" CustomError "failed to publish".
Definition errFailedPublishToMsgBroker : err :=
  Sentinel "http.errFailedPublishToMsgBroker" CustomError "failed to publish to supermq message broker".
Definition errInvalidAuthFormat : err := Sentinel "http.errInvalidAuthFormat" CustomError "invalid basic auth format".
Definition errInvalidClientType : err := Sentinel "http.errInvalidClientType" CustomError "invalid client type".
Definition ErrFailedSubscription : err :=
  Sentinel "http.ErrFailedSubscription" CustomError "failed to subscribe to a channel".
Definition ErrFailedSubscribe : err :=
  Sentinel "http.ErrFailedSubscribe" CustomError "failed to unsubscribe from topic".
Definition ErrEmptyTopic : err := Sentinel "http.ErrEmptyTopic" CustomError "empty topic".

(** SplitN(s, ":", 2) has two parts exactly where Cut finds the separator. *)
Definition decodeAuth (s : string) : (string * string) * error :=
  match URLEncoding.DecodeString s with
  | None => (("", ""), Some authn.CorruptInputError)
  | Some db =>
      let '(clientID, secret, found) := Cut (str db) ":" in
      if_ negb found return_ (("", ""), Some errInvalidAuthFormat) ;;
      ((clientID, secret), None)
  end.

(** The choice of authAccess and authorize: the token with the type of its
    bearer. *)
Definition credentials (username password domainID : string) : (string * string) * error :=
  if HasPrefix password BearerPrefix then ((TrimPrefix password BearerPrefix, policies.UserType), None)
  else if (username <>s "") && (password <>s "") then
    ((authn.AuthPack authn.BasicAuth username password, policies.ClientType), None)
  else if HasPrefix password BasicAuthPrefix then
    let '((username, password), e) := decodeAuth (TrimPrefix password BasicAuthPrefix) in
    if_err e return_ (("", ""), WrapE svcerr.ErrAuthentication e) ;;
    ((authn.AuthPack authn.BasicAuth username password, policies.ClientType), None)
  else ((authn.AuthPack authn.DomainAuth domainID (TrimPrefix password ClientPrefix), policies.ClientType), None).

(** [proxyError] is NewHTTPProxyError of mgate: an error with a status code. *)
Record handler (W : Type) := {
  pubsub : PubSub W; clients : Authenticator W; channels : Authorizer W; h_authn : Authentication W;
  parser : TopicParser W; proxyError : Z -> error -> err }.
Arguments pubsub {W}. Arguments clients {W}. Arguments channels {W}. Arguments h_authn {W}.
Arguments parser {W}. Arguments proxyError {W}.

Section handler.
Context {W : Type} (now : St W Time) (h : handler W).

Definition AuthConnect (session : option Session) : error :=
  match session with
  | None => Some errClientNotInitialized
  | Some s =>
      if Password s =s "" then Some (proxyError h 400 (WrapE apiutil.ErrValidation (Some apiutil.ErrBearerKey)))
      else None
  end.

Definition authenticate (authType token domainID : string) : St W ((string * string) * error) :=
  if authType =s policies.UserType then
    '(authnSession, e) <- users_Authenticate (h_authn h) token ;;
    if_err e return_ ret (("", ""), e) ;;
    if_ N.eqb (authn.Role authnSession) authn.SuperAdminRole
      return_ ret ((authn.UserID authnSession, authn.UserID authnSession), None) ;;
    ret ((authn.UserID authnSession, policies.EncodeDomainUserID domainID (authn.UserID authnSession)), None)
  else if authType =s policies.ClientType then
    '((authenticated, id), e) <- clients_Authenticate (clients h) token ;;
    if_err e return_ ret (("", ""), e) ;;
    if_ negb authenticated return_ ret (("", ""), Some svcerr.ErrAuthentication) ;;
    ret ((id, id), None)
  else ret (("", ""), Some errInvalidClientType).

Definition authAccess (username password domainID chanID : string) (msgType topicType : N) : St W (string * error) :=
  let '((token, clientType), e) := credentials username password domainID in
  if_err e return_ ret ("", e) ;;
  '((id, subject), e) <- authenticate clientType token domainID ;;
  if_err e return_ ret ("", Some (proxyError h 401 (WrapE svcerr.ErrAuthentication e))) ;;
  if_ N.eqb topicType messaging.HealthType return_ ret (id, None) ;;
  '(authorized, e) <- channels_Authorize (channels h) (authzReq msgType clientType subject chanID domainID) ;;
  if_err e return_ ret ("", Some (proxyError h 401 (WrapE svcerr.ErrAuthentication e))) ;;
  if_ negb authorized return_ ret ("", Some (proxyError h 401 (Some svcerr.ErrAuthentication))) ;;
  ret (id, None).

(** The session is a pointer: AuthPublish writes the user name into it. *)
Definition AuthPublish (session : option Session) (topic : option string) : St W (option (option Session * error)) :=
  match topic, session with
  | None, _ => pret (session, Some errMissingTopicPub)
  | Some _, None => pret (session, Some errClientNotInitialized)
  | Some topic, Some s =>
      '((domainID, channelID, _, topicType), e) <~ ParsePublishTopic (parser h) topic true ;;
      if_err e return_ pret (session, Some (proxyError h 400 (WrapE errFailedPublish e))) ;;
      '(clientID, e) <~ call (authAccess (Username s) (Password s) domainID channelID connections.Publish topicType) ;;
      if_err e return_ pret (session, e) ;;
      pret (Some (if Username s =s "" then s <| Username := clientID |> else s), None)
  end.

Fixpoint authTopics (s : Session) (topics : list string) : St W (option error) :=
  match topics with
  | [] => pret None
  | topic :: topics =>
      '((domainID, channelID, _, topicType), e) <~ ParseSubscribeTopic (parser h) topic true ;;
      if_err e return_ pret e ;;
      '(_, e) <~ call (authAccess (Username s) (Password s) domainID channelID connections.Subscribe topicType) ;;
      if_err e return_ pret e ;;
      authTopics s topics
  end.

Definition AuthSubscribe (session : option Session) (topics : option (list string)) : St W (option error) :=
  match session, topics with
  | None, _ => pret (Some errClientNotInitialized)
  | Some _, None => pret (Some errMissingTopicSub)
  | Some s, Some topics => authTopics s topics
  end.

(** A nil topic or payload is dereferenced. *)
Definition Publish (session : option Session) (topic : option string) (payload : option (list ascii))
    : St W (option error) :=
  match session, payload, topic with
  | None, _, _ => pret (Some errClientNotInitialized)
  | Some _, None, _ => panic
  | Some _, Some [], _ => pret None
  | Some _, Some _, None => panic
  | Some s, Some payload, Some topic =>
      '((domainID, channelID, subtopic, topicType), e) <~ ParsePublishTopic (parser h) topic true ;;
      if_err e return_ pret (WrapE errFailedPublish e) ;;
      t <- now ;;
      let msg := messaging.MkMessage channelID domainID subtopic (Username s) protocol payload t in
      if N.eqb topicType messaging.MessageType then
        e <- edge.Publish (pubsub h) (messaging.EncodeMessageTopic msg) msg ;;
        if_err e return_ pret (Some (proxyError h 500 (WrapE errFailedPublishToMsgBroker e))) ;;
        pret None
      else pret None
  end.

Definition Subscribe (session : option Session) : error :=
  match session with None => Some errClientNotInitialized | Some _ => None end.
End handler.
End http.

(** ** src/http/adapter.go and client.go: subscriptions over WebSocket *)
Module ws.
Import edge http.
Definition errHandlerBlockedMsgChan : err :=
  Sentinel "http.errHandlerBlockedMsgChan" CustomError "message handler msg chan blocked (full)".
Definition errFailedToWriteMsg : err :=
  Sentinel "http.errFailedToWriteMsg" CustomError "failed to write message to connection".
Definition msg_capacity : nat := 1024.

(** A client is shared by the adapter, the broker and the two pumps of the
    connection: [load] and [store] reach it in the state. *)
Record Client := MkClient { id : string; msg : list messaging.Message }.
#[global] Instance Client_fields : Fields Client := fun c => MkClient (id c) (msg c).
Definition NewClient (sessionID : string) : Client := MkClient sessionID [].
Record ref (W : Type) := { load : W -> Client; store : Client -> W -> W }.
Arguments load {W}. Arguments store {W}.
(** The connection of gorilla/websocket; a nil one is [None]. *)
Record Conn (W : Type) := { Close : St W error; WriteMessage : list ascii -> St W error }.
Arguments Close {W}. Arguments WriteMessage {W}.

Record adapterService (W : Type) := {
  clients : Authenticator W; channels : Authorizer W; s_authn : Authentication W; pubsub : PubSub W }.
Arguments clients {W}. Arguments channels {W}. Arguments s_authn {W}. Arguments pubsub {W}.

Section client.
Context {W : Type} (c : ref W) (conn : option (Conn W)).

(** The send does not wait: a full channel is an error. *)
Definition Handle (m : messaging.Message) : St W error := fun w =>
  let cl := load c w in
  if Nat.ltb (length (msg cl)) msg_capacity then (None, store c (cl <| msg := msg cl ++ [m] |>) w)
  else (Some errHandlerBlockedMsgChan, w).

Definition Cancel : St W error :=
  match conn with None => ret None | Some conn => Close conn end.

(** One turn of writePump for a message: nothing while the channel is empty. *)
Definition writeNext : St W (option error) := fun w =>
  match msg (load c w), conn with
  | m :: ms, Some conn =>
      (e <- WriteMessage conn (messaging.Payload m) ;;
       if_err e return_ ret (Some (WrapE errFailedToWriteMsg e)) ;;
       ret (Some None)) (store c ((load c w) <| msg := ms |>) w)
  | _, _ => (None, w)
  end.

Definition client_handler : MessageHandler W := {| edge.Handle := Handle; edge.Cancel := Cancel |}.
End client.

Section service.
Context {W : Type} (svc : adapterService W).

Definition authenticate (authType token : string) : St W (string * error) :=
  if authType =s policies.UserType then
    '(authnSession, e) <- users_Authenticate (s_authn svc) token ;;
    if_err e return_ ret ("", e) ;;
    ret (authn.UserID authnSession, None)
  else if authType =s policies.ClientType then
    '((authenticated, id), e) <- clients_Authenticate (clients svc) token ;;
    if_err e return_ ret ("", e) ;;
    if_ negb authenticated return_ ret ("", Some svcerr.ErrAuthentication) ;;
    ret (id, None)
  else ret ("", Some errInvalidClientType).

Definition authorize (username password domainID chanID : string) (msgType topicType : N) : St W (string * error) :=
  let '((token, clientType), e) := credentials username password domainID in
  if_err e return_ ret ("", e) ;;
  '(id, e) <- authenticate clientType token ;;
  if_err e return_ ret ("", WrapE svcerr.ErrAuthentication e) ;;
  if_ N.eqb topicType messaging.HealthType return_ ret (id, None) ;;
  '(authorized, e) <- channels_Authorize (channels svc) (authzReq msgType clientType id chanID domainID) ;;
  if_err e return_ ret ("", WrapE svcerr.ErrAuthorization e) ;;
  if_ negb authorized return_ ret ("", WrapE svcerr.ErrAuthorization e) ;;
  ret (id, None).

Definition Subscribe (sessionID username password domainID channelID subtopic : string) (topicType : N)
    (c : ref W) (conn : option (Conn W)) : St W error :=
  if_ ((channelID =s "") && negb (N.eqb topicType messaging.HealthType)) || (password =s "") || (domainID =s "")
    return_ ret (Some svcerr.ErrAuthentication) ;;
  '(clientID, e) <- authorize username password domainID channelID connections.Subscribe topicType ;;
  if_err e return_ ret (Some svcerr.ErrAuthorization) ;;
  (fun w => (tt, store c ((load c w) <| id := clientID |>) w)) ;;;
  if_ N.eqb topicType messaging.HealthType return_ ret None ;;
  e <- edge.Subscribe (pubsub svc) (MkSubscriberConfig sessionID clientID
         (messaging.EncodeTopic domainID channelID subtopic) (client_handler c conn)) ;;
  if_err e return_ ret (WrapE ErrFailedSubscription e) ;;
  ret None.

Definition Unsubscribe (sessionID domainID channelID subtopic : string) (topicType : N) : St W error :=
  if N.eqb topicType messaging.MessageType then
    e <- edge.Unsubscribe (pubsub svc) sessionID (messaging.EncodeTopic domainID channelID subtopic) ;;
    if_err e return_ ret (WrapE ErrFailedSubscribe e) ;;
    ret None
  else ret None.
End service.
End ws.

(** ** src/coap *)
Module coap.
Import edge.
Definition errClientNotInitialized : err := Sentinel "coap.errClientNotInitialized" CustomError "client is not initialized".
Definition errMissingTopicPub : err :=
  Sentinel "coap.errMissingTopicPub" CustomError "failed to publish due to missing topic".
Definition errMissingTopicSub : err :=
  Sentinel "coap.errMissingTopicSub" CustomError "failed to subscribe due to missing topic".
Definition errFailedPublish : err := Sentinel "coap.errFailedPublish" CustomError "failed to publish".
Definition errFailedToDisconnectClient : err :=
  Sentinel "coap.errFailedToDisconnectClient" CustomError "failed to disconnect client".

(** [proxyError] is NewCOAPProxyError of mgate. *)
Record handler (W : Type) := {
  clients : Authenticator W; channels : Authorizer W; parser : TopicParser W; proxyError : Z -> error -> err }.
Arguments clients {W}. Arguments channels {W}. Arguments parser {W}. Arguments proxyError {W}.

Section handler.
Context {W : Type} (h : handler W).

Definition authAccess (secret domainID chanID : string) (msgType topicType : N) : St W (string * error) :=
  '((authenticated, id), e) <- clients_Authenticate (clients h) (authn.AuthPack authn.DomainAuth domainID secret) ;;
  if_err e return_ ret ("", Some (proxyError h 401 (Some svcerr.ErrAuthentication))) ;;
  if_ negb authenticated return_ ret ("", Some (proxyError h 401 (Some svcerr.ErrAuthentication))) ;;
  if_ N.eqb topicType messaging.HealthType return_ ret (id, None) ;;
  '(authorized, e) <- channels_Authorize (channels h) (authzReq msgType policies.ClientType id chanID domainID) ;;
  if_err e return_ ret ("", Some (proxyError h 401 (WrapE svcerr.ErrAuthentication e))) ;;
  if_ negb authorized return_ ret ("", Some (proxyError h 401 (Some svcerr.ErrAuthentication))) ;;
  ret (id, None).

Definition AuthPublish (session : option Session) (topic : option string) : St W (option (option Session * error)) :=
  match topic, session with
  | None, _ => pret (session, Some errMissingTopicPub)
  | Some _, None => pret (session, Some errClientNotInitialized)
  | Some topic, Some s =>
      '((domainID, channelID, _, topicType), e) <~ ParsePublishTopic (parser h) topic true ;;
      if_err e return_ pret (session, Some (proxyError h 400 (WrapE errFailedPublish e))) ;;
      '(clientID, e) <~ call (authAccess (Password s) domainID channelID connections.Publish topicType) ;;
      if_err e return_ pret (session, e) ;;
      pret (Some (s <| Username := clientID |>), None)
  end.

Fixpoint authTopics (s : Session) (topics : list string) : St W (option error) :=
  match topics with
  | [] => pret None
  | topic :: topics =>
      '((domainID, channelID, _, topicType), e) <~ ParseSubscribeTopic (parser h) topic true ;;
      if_err e return_ pret e ;;
      '(_, e) <~ call (authAccess (Password s) domainID channelID connections.Subscribe topicType) ;;
      if_err e return_ pret e ;;
      authTopics s topics
  end.

Definition AuthSubscribe (session : option Session) (topics : option (list string)) : St W (option error) :=
  match session, topics with
  | None, _ => pret (Some errClientNotInitialized)
  | Some _, None => pret (Some errMissingTopicSub)
  | Some s, Some topics => authTopics s topics
  end.
End handler.

Record adapterService (W : Type) := { s_clients : Authenticator W; s_channels : Authorizer W; pubsub : PubSub W }.
Arguments s_clients {W}. Arguments s_channels {W}. Arguments pubsub {W}.
(** The client of an observation: its token and how messages reach it. *)
Record Client (W : Type) := MkClient { Token : string; client_handler : MessageHandler W }.
Arguments Token {W}. Arguments client_handler {W}. Arguments MkClient {W}.
Record ac (W : Type) := MkAc {
  clientID : string; channelID : string; domainID : string; subTopic : string;
  a_channels : Authorizer W; a_client : Client W }.
Arguments clientID {W}. Arguments channelID {W}. Arguments domainID {W}. Arguments subTopic {W}.
Arguments a_channels {W}. Arguments a_client {W}. Arguments MkAc {W}.

Section observe.
Context {W : Type} (a : ac W).

Definition Cancel : St W error := edge.Cancel (client_handler (a_client a)).

Definition disconnect (e : error) : St W error :=
  disErr <- Cancel ;;
  if_err disErr return_ ret (Wrap e (WrapE errFailedToDisconnectClient disErr)) ;;
  ret e.

Definition Handle (m : messaging.Message) : St W error :=
  '(authorized, e) <- channels_Authorize (a_channels a)
    (authzReq connections.Subscribe policies.ClientType (clientID a) (channelID a) (domainID a)) ;;
  if_err e return_ disconnect e ;;
  if_ negb authorized return_ disconnect (Some svcerr.ErrAuthorization) ;;
  edge.Handle (client_handler (a_client a)) m.
End observe.

Section adapter.
Context {W : Type} (svc : adapterService W).

Definition newAuthzClient (clientID domainID channelID subTopic : string) (channels : Authorizer W) (client : Client W)
    : ac W := MkAc clientID channelID domainID subTopic channels client.

(** The message is a pointer; its publisher is set before it is published. *)
Definition Publish (key : string) (msg : messaging.Message) (topicType : N) : St W error :=
  '((authenticated, id), e) <- clients_Authenticate (s_clients svc)
    (authn.AuthPack authn.DomainAuth (messaging.Domain msg) key) ;;
  if_err e return_ ret (WrapE svcerr.ErrAuthentication e) ;;
  if_ negb authenticated return_ ret (Some svcerr.ErrAuthentication) ;;
  if_ N.eqb topicType messaging.HealthType return_ ret None ;;
  let msg := msg <| messaging.Publisher := id |> in
  edge.Publish (pubsub svc) (messaging.EncodeMessageTopic msg) msg.

Definition Subscribe (key domainID chanID subtopic : string) (c : Client W) : St W error :=
  '((authenticated, id), e) <- clients_Authenticate (s_clients svc) (authn.AuthPack authn.DomainAuth domainID key) ;;
  if_err e return_ ret (WrapE svcerr.ErrAuthentication e) ;;
  if_ negb authenticated return_ ret (Some svcerr.ErrAuthentication) ;;
  let authzc := newAuthzClient id domainID chanID subtopic (s_channels svc) c in
  edge.Subscribe (pubsub svc) (MkSubscriberConfig (Token c) id (messaging.EncodeTopic domainID chanID subtopic)
    {| edge.Handle := Handle authzc; edge.Cancel := Cancel authzc |}).

Definition Unsubscribe (key domainID chanID subtopic token : string) : St W error :=
  '((authenticated, id), e) <- clients_Authenticate (s_clients svc) (authn.AuthPack authn.DomainAuth domainID key) ;;
  if_err e return_ ret (WrapE svcerr.ErrAuthentication e) ;;
  if_ negb authenticated return_ ret (Some svcerr.ErrAuthentication) ;;
  edge.Unsubscribe (pubsub svc) token (messaging.EncodeTopic domainID chanID subtopic).

Definition DisconnectHandler (domainID chanID subtopic token : string) : St W error :=
  edge.Unsubscribe (pubsub svc) token (messaging.EncodeTopic domainID chanID subtopic).
End adapter.
End coap.

(** ** What the adapters may rely on *)
Section interfaces.
Context {W : Type}.

(** Without resolution a parser answers as the pure function, in the states
    in which its cache is in order. *)
Class ParserOk (p : edge.TopicParser W) (I : W -> Prop) :=
  parse_publish topic w r w' : I w -> edge.ParsePublishTopic p topic false w = (r, w') ->
    agree r (messaging.ParsePublishTopic topic) /\ I w'.

(** An accepted request is a permitted one. *)
Class AuthorizerOk (a : edge.Authorizer W) (permitted : channels.AuthzReq -> W -> W -> Prop) :=
  authorized_permitted req w w' : edge.channels_Authorize a req w = ((true, None), w') -> permitted req w w'.

#[export] Instance topic_parser_ok uuid (p : messaging.parser W) (entries : W -> gmap string messaging.parsedTopic)
    {CL : CacheLaws (messaging.cache p) entries}
    (Hframe : forall b d c, frames (messaging.resolve_topic uuid p b d c) entries) :
  ParserOk (edge.topic_parser uuid p) (cache_sound uuid entries false).
Proof. intros topic w r w' HI Hrun. by eapply cached_parser_pure. Qed.

(** What the channels service asks of a request it accepts. *)
Definition channel_permits (svc : channels_private.service W) (req : channels.AuthzReq) (w w' : W) : Prop :=
  exists w1, domain_enabled svc req w w1
    /\ ((channels.az_ClientType req = policies.UserType /\ channels.az_DomainID req <> "" /\ user_permitted svc req w1 w')
        \/ (channels.az_ClientType req = policies.ClientType /\ client_connected svc req w1 w')).

(** The gRPC client of the adapters, in front of the server of the channels
    service. *)
Definition grpc_authorizer (svc : channels_private.service W) : edge.Authorizer W :=
  {| edge.channels_Authorize := channels_grpc.Authorize (channels_grpc.in_process svc) |}.

#[export] Instance grpc_authorizer_ok svc :
  AuthorizerOk (grpc_authorizer svc) (fun req => channel_permits svc
    (channels.MkAuthzReq (channels.az_DomainID req) (channels.az_ChannelID req) (channels.az_ClientID req)
       (channels.az_ClientType req) (connections.uint8 (channels.az_Type req)))).
Proof.
  intros req w w'. simpl. rewrite channels_Authorize_served.
  cbv zeta. unfold uint8. destruct (connections.CheckConnType (connections.uint8 (channels.az_Type req))) as [e|]; [by intros [=]|].
  destruct (channels.az_ClientType req =s policies.UserType) eqn:Eu, (channels.az_DomainID req =s "") eqn:Ed; simpl;
    try (by intros [=]);
  (destruct (channels_private.Authorize svc _ w) as [[e|] w1] eqn:Ea; [by intros [=]|]; intros [= <-];
   apply channel_Authorize_iff in Ea as (w2 & Hd & Hp); exists w2; split; [done|]; simpl in *;
   go_bool; naive_solver).
Qed.

(** And every permitted request of a known connection type is accepted. *)
Lemma grpc_authorizer_complete svc req w w' : connections.CheckConnType (connections.uint8 (channels.az_Type req)) = None ->
  channel_permits svc (channels.MkAuthzReq (channels.az_DomainID req) (channels.az_ChannelID req) (channels.az_ClientID req)
    (channels.az_ClientType req) (connections.uint8 (channels.az_Type req))) w w' ->
  edge.channels_Authorize (grpc_authorizer svc) req w = ((true, None), w').
Proof.
  intros Ht (w1 & Hd & Hp). simpl. rewrite channels_Authorize_served. cbv zeta. unfold uint8. rewrite Ht.
  assert (Hv : (channels.az_ClientType req =s policies.UserType) && (channels.az_DomainID req =s "") = false).
  { destruct Hp as [(_ & Hne & _)|[Hc _]]; simpl in *.
    - apply String.eqb_neq in Hne as ->. by rewrite andb_false_r.
    - by rewrite Hc. }
  rewrite Hv. rewrite (proj2 (channel_Authorize_iff svc _ w w')); [done|]. exists w1. split; [done|]. simpl in *. naive_solver.
Qed.
End interfaces.

(** ** MQTT *)
Section mqtt_theory.
Import edge mqtt.
Context {W : Type} (now : St W Time) (h : mqtt.handler W) (I : W -> Prop) (permitted : channels.AuthzReq -> W -> W -> Prop).
Context `{HP : !ParserOk (mqtt.parser h) I} `{HA : !AuthorizerOk (mqtt.channels h) permitted}.

Lemma mqtt_authAccess_ok u d c mt ty w w' : authAccess h u d c mt ty w = (None, w') ->
  ty = messaging.HealthType \/ permitted (authzReq mt policies.ClientType u c d) w w'.
Proof.
  unfold authAccess. destruct (N.eqb_spec ty messaging.HealthType) as [->|_]; [by left|]. unfold bind.
  destruct (channels_Authorize _ _ w) as [[[] [e|]] w1] eqn:Ea; try (by intros [=]).
  intros [= <-]. right. by apply authorized_permitted in Ea.
Qed.

(** The parts of a topic that AuthPublish accepted. *)
Lemma mqtt_AuthPublish_ok s topic w w' : I w -> AuthPublish h (Some s) (Some topic) w = (Some None, w') ->
  exists d c sub ty, messaging.ParsePublishTopic topic = Some ((d, c, sub, ty), None)
    /\ (ty = messaging.HealthType
        \/ exists u, permitted (authzReq connections.Publish policies.ClientType (Username s) c d) u w').
Proof.
  intros HI. unfold AuthPublish, pbind, bind.
  destruct (ParsePublishTopic _ topic false w) as [r w1] eqn:Ep. apply parse_publish in Ep as [Hr _]; [|done].
  destruct r as [[[[[d c] sub] ty] [e|]]|]; try (by intros [=]). unfold call, bind.
  destruct (authAccess h _ d c _ ty w1) as [e w2] eqn:Ea. intros [= -> <-]. simpl in Hr. rewrite <- Hr.
  exists d, c, sub, ty. split; [done|]. apply mqtt_authAccess_ok in Ea as [?|?]; eauto.
Qed.

(** C4: whatever the MQTT handler publishes for a topic that AuthPublish has
    accepted goes to the domain, channel and subtopic of that topic, in the
    name of the session's client, and that client was permitted to publish
    to the channel (when the gRPC client leads to the channels service: the
    domain is enabled and the client is connected); for a health check topic
    nothing is published.  The two handlers parse the topic each on its own,
    with a cache in between. *)
Theorem mqtt_publishes_where_authorized s topic payload w w1 v e v' (HIw : I w) (HIv : I v)
    (Hauth : AuthPublish h (Some s) (Some topic) w = (Some None, w1))
    (Hpub : Publish now h (Some s) (Some topic) (Some payload) v = (Some e, v')) :
  exists d c sub ty t v1, messaging.ParsePublishTopic topic = Some ((d, c, sub, ty), None)
    /\ ((ty = messaging.HealthType /\ e = None /\ v' = v1)
        \/ (ty = messaging.MessageType
            /\ (exists u, permitted (authzReq connections.Publish policies.ClientType (Username s) c d) u w1)
            /\ exists be, edge.Publish (publisher h) (messaging.EncodeTopicSuffix d c sub)
                     (messaging.MkMessage c d sub (Username s) "mqtt" payload t) v1 = (be, v')
                 /\ (e = None <-> be = None))).
Proof.
  apply mqtt_AuthPublish_ok in Hauth as (d & c & sub & ty & Ht & Hp); [|done]. revert Hpub.
  unfold Publish, pbind, bind. destruct (ParsePublishTopic _ topic false v) as [r v0] eqn:Ep.
  apply parse_publish in Ep as [Hr _]; [|done]. rewrite Ht in Hr.
  destruct r as [[[[[d' c'] sub'] ty'] [e'|]]|]; simplify_eq/=.
  destruct (now v0) as [t v1]. intros Hrun. exists d, c, sub, ty, t, v1. split; [done|].
  destruct (ParsePublishTopic_type _ _ _ _ _ Ht) as [->| ->]; simpl in Hrun; [right|left; by injection Hrun as <- <-].
  split; [done|]. destruct Hp as [?|Hp]; [done|]. split; [exact Hp|].
  unfold messaging.EncodeMessageTopic in Hrun; simpl in Hrun.
  destruct (edge.Publish _ _ _ v1) as [[be|] v2]; injection Hrun as <- <-; eexists; (split; [done|]); [|done].
  split; [|done]. by intros ?%WrapE_inv.
Qed.
End mqtt_theory.

(** ** HTTP *)
Section http_theory.
Import edge http.
Context {W : Type} (now : St W Time) (h : http.handler W).

(** A publisher with a bearer token may give any user name with it:
    AuthPublish answers the same whatever the name is, and keeps it, and what
    is then published is published in this name, so the publisher of such a
    message is whoever the bearer of the token says. *)
Theorem http_publisher_unchecked s u topic w w1 (Hu : u <> "") (Hs : Username s <> "")
    (Hbearer : HasPrefix (Password s) BearerPrefix = true)
    (Hauth : AuthPublish h (Some s) (Some topic) w = (Some (Some s, None), w1)) :
  AuthPublish h (Some (s <| Username := u |>)) (Some topic) w = (Some (Some (s <| Username := u |>), None), w1)
  /\ forall payload v d c sub v1 t v2, payload <> [] ->
       ParsePublishTopic (parser h) topic true v = (Some ((d, c, sub, messaging.MessageType), None), v1) ->
       now v1 = (t, v2) ->
       let msg := messaging.MkMessage c d sub u "http" payload t in
       (Publish now h (Some (s <| Username := u |>)) (Some topic) (Some payload) v).2
       = (edge.Publish (pubsub h) (messaging.EncodeTopicSuffix d c sub) msg v2).2.
Proof.
  split.
  - revert Hauth. unfold AuthPublish, authAccess, credentials, pbind, bind, call; simpl.
    destruct (ParsePublishTopic _ topic true w) as [[[[[[d c] sub] ty] [e|]]|] w0]; try (by intros [=]).
    unfold bind. rewrite Hbearer. apply String.eqb_neq in Hu, Hs. rewrite Hu, Hs.
    destruct (authenticate h _ _ d w0) as [[[id subject] [e|]] w2]; [by intros [=]|].
    destruct (N.eqb ty messaging.HealthType); [by intros [= <-]|].
    destruct (channels_Authorize _ _ w2) as [[[] [e|]] w3]; simpl; try (by intros [=]); by intros [= <-].
  - intros payload v d c sub v1 t v2 Hne Hparse Hnow. unfold Publish. destruct payload as [|x payload]; [done|].
    unfold pbind, bind. rewrite Hparse, Hnow. simpl. unfold messaging.EncodeMessageTopic; simpl.
    by destruct (edge.Publish _ _ _ v2) as [[be|] v3].
Qed.
End http_theory.

(** ** WebSocket *)
Section ws_theory.
Import edge ws.
Context {W : Type} (c : ref W) (conn : option (Conn W)).
Context (load_store : forall x w, load c (store c x w) = x).

(** [frames_sent] are the payloads that the connection took: those of the
    writes that returned no error. *)
Context (frames_sent : W -> list (list ascii)).
Context (store_sent : forall x w, frames_sent (store c x w) = frames_sent w).
Context (write_ok : forall k p w w', conn = Some k -> WriteMessage k p w = (None, w') -> frames_sent w' = frames_sent w ++ [p]).
Context (write_err : forall k p w e w', conn = Some k -> WriteMessage k p w = (Some e, w') -> frames_sent w' = frames_sent w).
Context (write_keeps : forall k p, conn = Some k -> frames (WriteMessage k p) (fun w => msg (load c w))).

(** What happens to a client since it was made: Handle accepts a message (these
    are listed) or refuses it, writePump takes its turn, and whatever else
    happens in the program.  writePump ends with the first write that fails:
    then it is no longer [up]. *)
Inductive ws_run : list messaging.Message -> bool -> W -> Prop :=
| ws_start w : msg (load c w) = [] -> frames_sent w = [] -> ws_run [] true w
| ws_accept acc up w1 m w2 : ws_run acc up w1 -> Handle c m w1 = (None, w2) -> ws_run (acc ++ [m]) up w2
| ws_refuse acc up w1 m e w2 : ws_run acc up w1 -> Handle c m w1 = (Some e, w2) -> ws_run acc up w2
| ws_write acc w1 r w2 : ws_run acc true w1 -> writeNext c conn w1 = (r, w2) ->
    ws_run acc (match r with Some (Some _) => false | _ => true end) w2
| ws_other acc up w1 w2 :
    ws_run acc up w1 -> msg (load c w2) = msg (load c w1) -> frames_sent w2 = frames_sent w1 -> ws_run acc up w2.

Lemma Handle_cases m w : let q := msg (load c w) in
  (length q < 1024 /\ (Handle c m w).1 = None /\ msg (load c (Handle c m w).2) = q ++ [m])
  \/ (1024 <= length q /\ Handle c m w = (Some errHandlerBlockedMsgChan, w)).
Proof.
  unfold Handle, msg_capacity. destruct (Nat.ltb_spec (length (msg (load c w))) 1024) as [Hl|Hl]; [left|by right].
  simpl. by rewrite load_store.
Qed.

Lemma Handle_sent m w : frames_sent (Handle c m w).2 = frames_sent w.
Proof. unfold Handle. destruct (Nat.ltb _ _); simpl; [apply store_sent|done]. Qed.

(** A turn of writePump. *)
Lemma writeNext_cases w r w' : writeNext c conn w = (r, w') ->
  (r = None /\ w' = w)
  \/ exists m ms, msg (load c w) = m :: ms /\ msg (load c w') = ms
       /\ match r with
          | Some None => frames_sent w' = frames_sent w ++ [messaging.Payload m]
          | Some (Some _) => frames_sent w' = frames_sent w
          | None => False
          end.
Proof.
  unfold writeNext. destruct (msg (load c w)) as [|m ms] eqn:Hq; [intros [= <- <-]; by left|].
  destruct conn as [k|] eqn:Hc; [|intros [= <- <-]; by left]. unfold bind, ret.
  destruct (WriteMessage k _ _) as [[e|] w3] eqn:Ew; intros [= <- <-]; right; exists m, ms;
    pose proof (frames_eq _ _ _ _ _ (write_keeps k _ eq_refl) Ew) as Hf; simpl in Hf; rewrite load_store in Hf;
    (split_and!; [done|exact Hf|]).
  - destruct (WrapE errFailedToWriteMsg _) eqn:Hx; [|by apply WrapE_not_nil in Hx].
    by rewrite (write_err _ _ _ _ _ eq_refl Ew), store_sent.
  - by rewrite (write_ok _ _ _ _ eq_refl Ew), store_sent.
Qed.

(** C31: the payloads that a subscription's connection took, followed by those
    that wait, are the payloads of the messages that its client accepted, in
    that order, none twice and none left out but the one whose write failed,
    which ends the writing.  At most 1024 wait, and a message is refused, with
    an error and nothing changed, only when as many do. *)
Theorem ws_queue_fifo acc up w (Hrun : ws_run acc up w) :
  (exists lost, map messaging.Payload acc = frames_sent w ++ lost ++ map messaging.Payload (msg (load c w))
     /\ length lost <= 1 /\ (up = true -> lost = []))
  /\ length (msg (load c w)) <= 1024
  /\ forall m, (Handle c m w).1 <> None <-> length (msg (load c w)) = 1024.
Proof.
  assert (H : (exists lost, map messaging.Payload acc = frames_sent w ++ lost ++ map messaging.Payload (msg (load c w))
     /\ length lost <= 1 /\ (up = true -> lost = [])) /\ length (msg (load c w)) <= 1024).
  { induction Hrun as [w Hw Hs|acc up w1 m w2 _ [(lost & Ha & Hl) Hlen] Hh|acc up w1 m e w2 _ IH Hh
                      |acc w1 r w2 _ [(lost & Ha & _ & Hup) Hlen] Hh|acc up w1 w2 _ IH Hq Hs].
    - rewrite Hw, Hs. split; [by exists []; simpl; auto|simpl; lia].
    - pose proof (Handle_sent m w1) as Hs. destruct (Handle_cases m w1) as [(Hlt & _ & Hq)|[_ Hq]]; rewrite Hh in *; [|done].
      simpl in Hq, Hs. rewrite Hq, Hs, !map_app, Ha, length_app. simpl. split; [|lia].
      exists lost. by rewrite <- !app_assoc.
    - destruct (Handle_cases m w1) as [(_ & He & _)|[_ Hq]]; [by rewrite Hh in He|]. rewrite Hh in Hq.
      by injection Hq as _ ->.
    - rewrite (Hup eq_refl) in Ha. clear Hup. simpl in Ha.
      apply writeNext_cases in Hh as [[-> ->]|(m & ms & Hq & Hq' & Hs)]; [split; [by exists []; simpl; auto|done]|].
      rewrite Hq in Ha, Hlen. rewrite Hq'. simpl in Ha, Hlen. split; [|lia]. destruct r as [[e|]|]; [| |done].
      + exists [messaging.Payload m]. rewrite Hs, Ha. split_and!; [done|simpl; lia|done].
      + exists []. rewrite Hs, Ha, <- app_assoc. split_and!; [done|simpl; lia|done].
    - by rewrite Hq, Hs. }
  destruct H as [Ha Hl]. split_and!; [done|done|]. intros m.
  destruct (Handle_cases m w) as [(Hlt & -> & _)|[Hge ->]]; simpl; split; [by intros []|lia|lia|done].
Qed.

(** Where the subject of a user differs: the WebSocket service asks for the
    plain user, the handler for the user in the domain. *)
Lemma ws_subject svc id d chanID mt ty w token w1 session :
  users_Authenticate (s_authn svc) token w = ((session, None), w1) -> ty <> messaging.HealthType ->
  ws.authorize svc id ("Bearer " +:+ token) d chanID mt ty w
  = (('(authorized, e) <- channels_Authorize (ws.channels svc)
       (authzReq mt policies.UserType (authn.UserID session) chanID d) ;;
     if_err e return_ ret ("", WrapE svcerr.ErrAuthorization e) ;;
     if_ negb authorized return_ ret ("", WrapE svcerr.ErrAuthorization e) ;;
     ret (authn.UserID session, None)) : St W (string * error)) w1.
Proof.
  intros Ha Hty. unfold ws.authorize, http.credentials. rewrite authn.HasPrefix_app, authn.TrimPrefix_app.
  apply N.eqb_neq in Hty. unfold ws.authenticate, bind; simpl. by rewrite Ha, Hty.
Qed.
Lemma http_subject h d chanID mt ty w username token w1 session :
  users_Authenticate (http.h_authn h) token w = ((session, None), w1) -> ty <> messaging.HealthType ->
  authn.Role session <> authn.SuperAdminRole ->
  http.authAccess h username ("Bearer " +:+ token) d chanID mt ty w
  = (('(authorized, e) <- channels_Authorize (http.channels h)
       (authzReq mt policies.UserType (policies.EncodeDomainUserID d (authn.UserID session)) chanID d) ;;
     if_err e return_ ret ("", Some (http.proxyError h 401 (WrapE svcerr.ErrAuthentication e))) ;;
     if_ negb authorized return_ ret ("", Some (http.proxyError h 401 (Some svcerr.ErrAuthentication))) ;;
     ret (authn.UserID session, None)) : St W (string * error)) w1.
Proof.
  intros Ha Hty Hr. unfold http.authAccess, http.credentials. rewrite authn.HasPrefix_app, authn.TrimPrefix_app.
  apply N.eqb_neq in Hty, Hr. unfold http.authenticate, bind; simpl. rewrite Ha, Hr. unfold ret; simpl. by rewrite Hty.
Qed.
End ws_theory.

(** ** CoAP *)
Section coap_theory.
Import edge coap.
Context {W : Type} (a : ac W) (permitted : channels.AuthzReq -> W -> W -> Prop).
Context `{HA : !AuthorizerOk (a_channels a) permitted}.

(** The request that an observation makes for each message; what is permitted
    is also accepted. *)
Definition observe_request : channels.AuthzReq :=
  authzReq connections.Subscribe policies.ClientType (clientID a) (channelID a) (domainID a).
Context (permitted_authorized : forall w w',
  permitted observe_request w w' -> channels_Authorize (a_channels a) observe_request w = ((true, None), w')).

(** The calls of the observing client, as its [log] has them. *)
Inductive client_call := Given (m : messaging.Message) | Cancelled.
Context (log : W -> list client_call).
Context (handle_log : forall m w e w', edge.Handle (client_handler (a_client a)) m w = (e, w') -> log w' = log w ++ [Given m]).
Context (cancel_log : forall w e w', edge.Cancel (client_handler (a_client a)) w = (e, w') -> log w' = log w ++ [Cancelled]).
Context (authorize_log : forall req, frames (channels_Authorize (a_channels a) req) log).

Lemma disconnect_effect x w e w' : disconnect a (Some x) w = (e, w') -> e <> None /\ log w' = log w ++ [Cancelled].
Proof.
  unfold disconnect, coap.Cancel, bind, ret. destruct (edge.Cancel _ w) as [de w1] eqn:Ec. apply cancel_log in Ec.
  destruct de as [de|]; intros [= <- <-]; (split; [|done]); [|done].
  destruct (Wrap_some x (WrapE errFailedToDisconnectClient (Some de))) as [y Hy]. by rewrite Hy.
Qed.

(** One message: it is given to the client exactly where the client is
    permitted to subscribe in the state in which the message arrives. *)
Lemma coap_Handle_cases m w e w' : coap.Handle a m w = (e, w') ->
  (exists w1, permitted observe_request w w1 /\ edge.Handle (client_handler (a_client a)) m w1 = (e, w')
     /\ log w' = log w ++ [Given m])
  \/ ((forall w1, ~ permitted observe_request w w1) /\ e <> None /\ log w' = log w ++ [Cancelled]).
Proof.
  unfold coap.Handle, bind. fold observe_request.
  destruct (channels_Authorize _ _ w) as [[ok er] w1] eqn:Ea.
  pose proof (frames_eq _ _ _ _ _ (authorize_log _) Ea) as Hf.
  assert (Hdis : forall x, (ok, er) <> (true, None) -> disconnect a (Some x) w1 = (e, w') ->
    (forall w1, ~ permitted observe_request w w1) /\ e <> None /\ log w' = log w ++ [Cancelled]).
  { intros x Hne [He Hl]%disconnect_effect. rewrite Hf in Hl. split_and!; [|done|done].
    intros v Hv%permitted_authorized. rewrite Ea in Hv. by injection Hv as -> -> _. }
  destruct ok, er as [x|]; simpl; try (intros H; right; by eapply Hdis).
  intros Hh. left. exists w1. split_and!; [by apply authorized_permitted in Ea|done|].
  rewrite <- Hf. by eapply handle_log.
Qed.

(** What becomes of the messages that the broker hands over one after the
    other, beginning in state [w]: the answers that the broker gets, the calls
    of the client, and the state after them. *)
Inductive outcomes : W -> list messaging.Message -> list error -> list client_call -> W -> Prop :=
| no_messages w : outcomes w [] [] [] w
| delivered w w1 m e w2 ms es calls w' :
    permitted observe_request w w1 -> edge.Handle (client_handler (a_client a)) m w1 = (e, w2) ->
    outcomes w2 ms es calls w' -> outcomes w (m :: ms) (e :: es) (Given m :: calls) w'
| dropped w m x w2 ms es calls w' :
    (forall w1, ~ permitted observe_request w w1) -> coap.Handle a m w = (Some x, w2) ->
    outcomes w2 ms es calls w' -> outcomes w (m :: ms) (Some x :: es) (Cancelled :: calls) w'.

Fixpoint broker (ms : list messaging.Message) : St W (list error) :=
  match ms with
  | [] => ret []
  | m :: ms => e <- coap.Handle a m ;; es <- broker ms ;; ret (e :: es)
  end.

(** C24: of the messages that the broker hands to a CoAP observation, exactly
    those are given to the client, in order, for which the client was
    permitted to subscribe in the state in which the message arrived, and the
    broker gets the client's answer; for each of the others the client is
    cancelled instead, and the broker gets an error. *)
Theorem coap_observes_while_authorized ms w es w' (Hrun : broker ms w = (es, w')) :
  exists calls, log w' = log w ++ calls /\ outcomes w ms es calls w'.
Proof.
  revert w es Hrun. induction ms as [|m ms IH]; simpl; intros w es.
  - intros [= <- <-]. exists []. split; [by rewrite app_nil_r|constructor].
  - unfold bind, ret. destruct (coap.Handle a m w) as [e w1] eqn:Eh.
    destruct (broker ms w1) as [es1 w2] eqn:Eb. intros [= <- <-]. apply IH in Eb as (calls & Hl & Ho).
    destruct (coap_Handle_cases _ _ _ _ Eh) as [(w0 & Hp & Hh & Hl1)|(Hp & He & Hl1)].
    + exists (Given m :: calls). split; [by rewrite Hl, Hl1, <- app_assoc|]. by econstructor.
    + exists (Cancelled :: calls). split; [by rewrite Hl, Hl1, <- app_assoc|].
      destruct e as [x|]; [by econstructor|done].
Qed.
End coap_theory.

(** ** Examples *)
Module adapters_example.
Import edge.

(** MQTT over the channels service of [channels_example], where client a is
    connected to channel c; the topic cache forgets at once. *)
Definition forgetful : messaging.parser memchannels.state :=
  {| messaging.cache := {| messaging.cache_Get := fun _ => ret None; messaging.cache_Set := fun _ _ => ret tt |};
     messaging.p_resolver := {| messaging.channels_RetrieveIDByRoute := fun _ _ => ret ("", Some repoerr.ErrNotFound);
                                messaging.domains_RetrieveIDByRoute := fun _ => ret ("", Some repoerr.ErrNotFound) |} |}.
Definition nothing (_ : memchannels.state) : gmap string messaging.parsedTopic := ∅.
#[export] Instance forgetful_laws : CacheLaws (messaging.cache forgetful) nothing.
Proof. split; simpl; intros *; [by intros [= <- <-]|]. intros _. apply map_empty_subseteq. Qed.
Lemma forgetful_resolves b d c : frames (messaging.resolve_topic topics_example.uuid forgetful b d c) nothing.
Proof. by intros w. Qed.

Definition quiet {W} : PubSub W :=
  {| Publish := fun _ _ => ret None; Subscribe := fun _ => ret None; Unsubscribe := fun _ _ => ret None |}.
Definition mqtt_handler : mqtt.handler memchannels.state :=
  {| mqtt.publisher := quiet; mqtt.clients := {| clients_Authenticate := fun _ => ret ((true, "a"), None) |};
     mqtt.channels := grpc_authorizer memchannels.priv;
     mqtt.parser := topic_parser topics_example.uuid forgetful |}.
Definition client_a : Session := MkSession "s1" "a" "secret".
Definition topic := "m/d/c/c/lamp".
Definition online : memchannels.state := channels_example.joined.2.
Definition admitted := mqtt.AuthPublish mqtt_handler (Some client_a) (Some topic) online.
Definition published :=
  mqtt.Publish memroles.now mqtt_handler (Some client_a) (Some topic) (Some (chars "on")) online.

Lemma mqtt_publishes_where_authorized_witness :
  admitted.1 = Some None /\ published.1 = Some None
  /\ exists d c sub ty t v1, messaging.ParsePublishTopic topic = Some ((d, c, sub, ty), None)
    /\ ((ty = messaging.HealthType /\ None = None :> error /\ published.2 = v1)
        \/ (ty = messaging.MessageType
            /\ (exists u, channel_permits memchannels.priv (channels.MkAuthzReq d c "a" policies.ClientType 1) u admitted.2)
            /\ exists be, edge.Publish quiet (messaging.EncodeTopicSuffix d c sub)
                     (messaging.MkMessage c d sub "a" "mqtt" (chars "on") t) v1 = (be, published.2)
                 /\ (None = None :> error <-> be = None))).
Proof.
  assert (H1 : admitted.1 = Some None) by (vm_compute; reflexivity).
  assert (H2 : published.1 = Some None) by (vm_compute; reflexivity).
  split; [exact H1|]. split; [exact H2|].
  pose proof (mqtt_publishes_where_authorized memroles.now mqtt_handler (cache_sound topics_example.uuid nothing false) _
    (HP := topic_parser_ok topics_example.uuid forgetful nothing forgetful_resolves)
    (HA := grpc_authorizer_ok memchannels.priv) client_a topic (chars "on") online admitted.2 online None published.2) as H.
  apply H.
  - intros t v Hv. exact (False_ind _ (lookup_empty_Some t v Hv)).
  - intros t v Hv. exact (False_ind _ (lookup_empty_Some t v Hv)).
  - exact (eq_trans (surjective_pairing admitted) (f_equal (fun r => (r, admitted.2)) H1)).
  - exact (eq_trans (surjective_pairing published) (f_equal (fun r => (r, published.2)) H2)).
Defined.

(** An HTTP publisher with a valid user token, and the messages published. *)
Definition http_handler : http.handler (list messaging.Message) :=
  {| http.pubsub := {| Publish := fun _ m log => (None, log ++ [m]); Subscribe := fun _ => ret None; Unsubscribe := fun _ _ => ret None |};
     http.clients := {| clients_Authenticate := fun _ => ret ((false, ""), Some svcerr.ErrAuthentication) |};
     http.channels := {| channels_Authorize := fun _ => ret (true, None) |};
     http.h_authn := {| users_Authenticate := fun _ => ret (authn.Session0 <| authn.UserID := "alice" |>, None) |};
     http.parser := {| ParsePublishTopic := fun t _ => ret (messaging.ParsePublishTopic t);
                       ParseSubscribeTopic := fun t _ => ret (messaging.ParseSubscribeTopic t) |};
     http.proxyError := fun _ e => match e with Some e => e | None => svcerr.ErrAuthentication end |}.
Definition named (name : string) : Session := MkSession "s" name "Bearer token".

Lemma http_publisher_unchecked_witness :
  (http.AuthPublish http_handler (Some (named "bob")) (Some topic) []).1 = Some (Some (named "bob"), None)
  /\ map messaging.Publisher (http.Publish (ret 0%Z) http_handler (Some (named "bob")) (Some topic) (Some (chars "on")) []).2 = ["bob"].
Proof.
  assert (H : http.AuthPublish http_handler (Some (named "x")) (Some topic) [] = (Some (Some (named "x"), None), []))
    by (vm_compute; reflexivity).
  destruct (http_publisher_unchecked (ret 0%Z) http_handler (named "x") "bob" topic [] [] ltac:(discriminate)
    ltac:(discriminate) ltac:(vm_compute; reflexivity) H) as [H1 H2].
  split; [exact (f_equal fst H1)|].
  refine (eq_trans (f_equal (map messaging.Publisher) (H2 (chars "on") [] "d" "c" "lamp" [] 0%Z [] _ _ _)) _);
    [discriminate|vm_compute; reflexivity..].
Defined.

(** A WebSocket client and what its connection took: one message is sent and
    one waits. *)
Definition ws_state : Type := ws.Client * list (list ascii).
Definition self : ws.ref ws_state := {| ws.load := fst; ws.store := fun c s => (c, s.2) |}.
Definition socket : option (ws.Conn ws_state) :=
  Some {| ws.Close := ret None; ws.WriteMessage := fun p s => (None, (s.1, s.2 ++ [p])) |}.
Definition hello : messaging.Message := messaging.Message0 <| messaging.Payload := chars "hello" |>.
Definition bye : messaging.Message := messaging.Message0 <| messaging.Payload := chars "bye" |>.
Definition ws0 : ws_state := (ws.NewClient "s", []).
Definition ws1 : ws_state := (ws.Handle self hello ws0).2.
Definition ws2 : ws_state := (ws.Handle self bye ws1).2.
Definition ws3 : ws_state := (ws.writeNext self socket ws2).2.

Lemma ws_queue_fifo_witness : ws3.2 = [chars "hello"] /\ ws.msg ws3.1 = [bye]
  /\ exists lost, map messaging.Payload [hello; bye] = ws3.2 ++ lost ++ map messaging.Payload (ws.msg ws3.1)
       /\ length lost <= 1 /\ (true = true -> lost = []).
Proof.
  split; [reflexivity|]. split; [reflexivity|].
  assert (Hrun : ws_run self socket snd [hello; bye] true ws3).
  { eapply (ws_write self socket snd [hello; bye] ws2 (Some None)); [|reflexivity].
    eapply (ws_accept self socket snd [hello] true ws1 bye); [|reflexivity].
    eapply (ws_accept self socket snd [] true ws0 hello); [|reflexivity]. by apply ws_start. }
  refine (proj1 (ws_queue_fifo self socket (fun _ _ => eq_refl) snd (fun _ _ => eq_refl) _ _ _ _ _ _ Hrun)).
  - intros k p w w' [= <-]. simpl. by intros [= <-].
  - intros k p w e w' [= <-]. done.
  - intros k p [= <-]. by intros w.
Defined.

(** A CoAP observation that is permitted for the first message only: the
    state counts the messages asked about. *)
Definition coap_state : Type := nat * list client_call.
Definition observer : coap.Client coap_state :=
  coap.MkClient "t" {| Handle := fun m s => (None, (s.1, s.2 ++ [Given m])); Cancel := fun s => (None, (s.1, s.2 ++ [Cancelled])) |}.
Definition observation : coap.ac coap_state :=
  coap.MkAc "a" "c" "d" "lamp" {| channels_Authorize := fun _ s => ((Nat.eqb s.1 0, None), (S s.1, s.2)) |} observer.
Definition asked_first (_ : channels.AuthzReq) (s s' : coap_state) : Prop := s.1 = 0 /\ s' = (1, s.2).
#[export] Instance observation_ok : AuthorizerOk (coap.a_channels observation) asked_first.
Proof. intros req [n l] w'. simpl. intros [= H%Nat.eqb_eq <-]. by subst. Qed.
Definition observed := broker observation [hello; hello] (0, []).

Lemma coap_observes_while_authorized_witness :
  observed.1 = [None; Some svcerr.ErrAuthorization] /\ observed.2.2 = [Given hello; Cancelled]
  /\ exists calls, observed.2.2 = [] ++ calls /\ outcomes observation asked_first (0, []) [hello; hello] observed.1 calls observed.2.
Proof.
  split; [vm_compute; reflexivity|]. split; [vm_compute; reflexivity|].
  refine (coap_observes_while_authorized observation asked_first _ snd _ _ _ [hello; hello] (0, []) observed.1 observed.2 (surjective_pairing _)).
  - intros [n l] w'. unfold asked_first. simpl. by intros [-> ->].
  - intros m w e w'. by intros [= <- <-].
  - intros w e w'. by intros [= <- <-].
  - by intros req w.
Defined.
End adapters_example.
