(* ===== verification/Guards.v ===== *)
(** * The authorization middlewares: who may call what

    Source: src/clients/middleware/authorization.go, and the same file of
    channels, groups, domains and users;
    src/pkg/roles/rolemanager/middleware/authorization.go.

    A middleware has the interface of the service it wraps: it asks the
    authorization library and then calls the service or returns an error.
    The services are parameters here, records of their operations. *)

From S2P Require Import Prelude GoStd Errors Policies Authn Roles Pat Auth Connections Domains Clients Channels Groups Users.
From S2P Require Import Permissions Authz.
Import permissions.

(** ** src/pkg/roles/rolemanager/middleware *)
Module rolemgr.
Import authz.

(** roles.RoleManager *)
Record RoleManager (W : Type) := {
  svc_AddRole : authn.Session -> string -> string -> (list string) -> (list string) -> St W (roles.RoleProvision * error);
  svc_RemoveRole : authn.Session -> string -> string -> St W error;
  svc_UpdateRoleName : authn.Session -> string -> string -> string -> St W (roles.Role * error);
  svc_RetrieveRole : authn.Session -> string -> string -> St W (roles.Role * error);
  svc_RetrieveAllRoles : authn.Session -> string -> N -> N -> St W (roles.RolePage * error);
  svc_ListAvailableActions : authn.Session -> St W (list string * error);
  svc_RoleAddActions : authn.Session -> string -> string -> (list string) -> St W (list string * error);
  svc_RoleListActions : authn.Session -> string -> string -> St W (list string * error);
  svc_RoleCheckActionsExists : authn.Session -> string -> string -> (list string) -> St W (bool * error);
  svc_RoleRemoveActions : authn.Session -> string -> string -> (list string) -> St W error;
  svc_RoleRemoveAllActions : authn.Session -> string -> string -> St W error;
  svc_RoleAddMembers : authn.Session -> string -> string -> (list string) -> St W (list string * error);
  svc_RoleListMembers : authn.Session -> string -> string -> N -> N -> St W (roles.MembersPage * error);
  svc_RoleCheckMembersExists : authn.Session -> string -> string -> (list string) -> St W (bool * error);
  svc_RoleRemoveAllMembers : authn.Session -> string -> string -> St W error;
  svc_ListEntityMembers : authn.Session -> string -> roles.MembersRolePageQuery -> St W (roles.MembersRolePage * error);
  svc_RemoveEntityMembers : authn.Session -> string -> (list string) -> St W error;
  svc_RoleRemoveMembers : authn.Session -> string -> string -> (list string) -> St W error;
  svc_RemoveMemberFromAllRoles : authn.Session -> string -> St W error }.
Arguments svc_AddRole {W}. Arguments svc_RemoveRole {W}. Arguments svc_UpdateRoleName {W}.
Arguments svc_RetrieveRole {W}. Arguments svc_RetrieveAllRoles {W}. Arguments svc_ListAvailableActions {W}.
Arguments svc_RoleAddActions {W}. Arguments svc_RoleListActions {W}. Arguments svc_RoleCheckActionsExists {W}.
Arguments svc_RoleRemoveActions {W}. Arguments svc_RoleRemoveAllActions {W}. Arguments svc_RoleAddMembers {W}.
Arguments svc_RoleListMembers {W}. Arguments svc_RoleCheckMembersExists {W}. Arguments svc_RoleRemoveAllMembers {W}.
Arguments svc_ListEntityMembers {W}. Arguments svc_RemoveEntityMembers {W}. Arguments svc_RoleRemoveMembers {W}.
Arguments svc_RemoveMemberFromAllRoles {W}.

Record RoleManagerAuthorizationMiddleware (W : Type) := {
  entityType : string;
  svc : RoleManager W;
  ram_authz : Authorization W;
  ops : operations }.
Arguments entityType {W}. Arguments svc {W}. Arguments ram_authz {W}. Arguments ops {W}.

Definition NewAuthorization {W} (entityType : string) (svc : RoleManager W) (authz : Authorization W) (roleOps : operations)
    : option (RoleManagerAuthorizationMiddleware W) * error :=
  if_err Validate roleOps return_ (None, Validate roleOps) ;;
  (Some {| entityType := entityType; svc := svc; ram_authz := authz; ops := roleOps |}, None).

Section middleware.
Context {W : Type} (ram : RoleManagerAuthorizationMiddleware W).

Definition patEntityType (objectType : string) : option string :=
  if objectType =s policies.GroupType then Some (pat.EntityType_String pat.GroupsType)
  else if objectType =s policies.ClientType then Some (pat.EntityType_String pat.ClientsType)
  else if objectType =s policies.ChannelType then Some (pat.EntityType_String pat.ChannelsType)
  else None.

Definition authorize (session : authn.Session) (op : RoleOperation) (pr : PolicyReq) : St W error :=
  let pr := pr <| Domain := authn.DomainID session |> in
  let '(perm, e) := GetPermission (ops ram) op in
  if_err e return_ ret e ;;
  let pr := pr <| Permission := perm |> in
  let '(pat, e) :=
    if authn.PatID session <>s "" then
      let opName := OperationName (ops ram) op in
      match patEntityType (ObjectType pr) with
      | None => (None, WrapE errs.ErrAuthorization (Some (Errorf ("unsupported entity type for PAT: " +:+ ObjectType pr))))
      | Some patEntityType =>
          (Some (MkPATReq (authn.PatID session) (authn.DomainID session) (pat.RoleOperationPrefix +:+ opName)
                   (authn.UserID session) (Object pr) patEntityType), None)
      end
    else (None, None) in
  if_err e return_ ret e ;;
  e <- Authorize (ram_authz ram) pr pat ;;
  if_err e return_ ret (WrapE errs.ErrAuthorization e) ;;
  ret None.

(** The request of every operation. *)
Definition roleReq (session : authn.Session) (entityID : string) : PolicyReq :=
  PolicyReq0 <| Domain := authn.DomainID session |> <| Subject := authn.DomainUserID session |>
    <| SubjectType := policies.UserType |> <| SubjectKind := policies.UsersKind |>
    <| Object := entityID |> <| ObjectType := entityType ram |>.

(** The two loops of validateMembers. *)
Definition memberReq (session : authn.Session) (member : string) : PolicyReq :=
  let pr := PolicyReq0 <| Permission := policies.MembershipPermission |> <| SubjectType := policies.UserType |>
              <| SubjectKind := policies.UsersKind |> in
  if entityType ram =s policies.DomainType then
    pr <| Subject := member |> <| Object := policies.SuperMQObject |> <| ObjectType := policies.PlatformType |>
  else
    pr <| Subject := policies.EncodeDomainUserID (authn.DomainID session) member |>
       <| Object := authn.DomainID session |> <| ObjectType := policies.DomainType |>.
Definition validateMembers (session : authn.Session) (members : list string) : St W error :=
  r <- for_each members (fun member =>
         e <- Authorize (ram_authz ram) (memberReq session member) None ;;
         if_err e return_ ret (Some (WrapE (if entityType ram =s policies.DomainType then errs.ErrMissingMember
                                            else errs.ErrMissingDomainMember) e)) ;;
         ret None) ;;
  ret (default None r).

Definition AddRole (session : authn.Session) (entityID : string) (roleName : string) (optionalActions : list string) (optionalMembers : list string) : St W (roles.RoleProvision * error) :=
  e <- authorize session roles_ops.OpAddRole (roleReq session entityID) ;;
  if_err e return_ ret (roles.RoleProvision0, e) ;;
  e <- validateMembers session optionalMembers ;;
  if_err e return_ ret (roles.RoleProvision0, e) ;;
  svc_AddRole (svc ram) session entityID roleName optionalActions optionalMembers.
Definition RemoveRole (session : authn.Session) (entityID : string) (roleID : string) : St W error :=
  e <- authorize session roles_ops.OpRemoveRole (roleReq session entityID) ;;
  if_err e return_ ret e ;;
  svc_RemoveRole (svc ram) session entityID roleID.
Definition UpdateRoleName (session : authn.Session) (entityID : string) (roleID : string) (newRoleName : string) : St W (roles.Role * error) :=
  e <- authorize session roles_ops.OpUpdateRoleName (roleReq session entityID) ;;
  if_err e return_ ret (roles.Role0, e) ;;
  svc_UpdateRoleName (svc ram) session entityID roleID newRoleName.
Definition RetrieveRole (session : authn.Session) (entityID : string) (roleID : string) : St W (roles.Role * error) :=
  e <- authorize session roles_ops.OpRetrieveRole (roleReq session entityID) ;;
  if_err e return_ ret (roles.Role0, e) ;;
  svc_RetrieveRole (svc ram) session entityID roleID.
Definition RetrieveAllRoles (session : authn.Session) (entityID : string) (limit : N) (offset : N) : St W (roles.RolePage * error) :=
  e <- authorize session roles_ops.OpRetrieveAllRoles (roleReq session entityID) ;;
  if_err e return_ ret (roles.RolePage0, e) ;;
  svc_RetrieveAllRoles (svc ram) session entityID limit offset.
Definition ListAvailableActions (session : authn.Session) : St W (list string * error) :=
  svc_ListAvailableActions (svc ram) session.
Definition RoleAddActions (session : authn.Session) (entityID : string) (roleID : string) (actions : list string) : St W (list string * error) :=
  e <- authorize session roles_ops.OpRoleAddActions (roleReq session entityID) ;;
  if_err e return_ ret ([], e) ;;
  svc_RoleAddActions (svc ram) session entityID roleID actions.
Definition RoleListActions (session : authn.Session) (entityID : string) (roleID : string) : St W (list string * error) :=
  e <- authorize session roles_ops.OpRoleListActions (roleReq session entityID) ;;
  if_err e return_ ret ([], e) ;;
  svc_RoleListActions (svc ram) session entityID roleID.
Definition RoleCheckActionsExists (session : authn.Session) (entityID : string) (roleID : string) (actions : list string) : St W (bool * error) :=
  e <- authorize session roles_ops.OpRoleCheckActionsExists (roleReq session entityID) ;;
  if_err e return_ ret (false, e) ;;
  svc_RoleCheckActionsExists (svc ram) session entityID roleID actions.
Definition RoleRemoveActions (session : authn.Session) (entityID : string) (roleID : string) (actions : list string) : St W error :=
  e <- authorize session roles_ops.OpRoleRemoveActions (roleReq session entityID) ;;
  if_err e return_ ret e ;;
  svc_RoleRemoveActions (svc ram) session entityID roleID actions.
Definition RoleRemoveAllActions (session : authn.Session) (entityID : string) (roleID : string) : St W error :=
  e <- authorize session roles_ops.OpRoleRemoveAllActions (roleReq session entityID) ;;
  if_err e return_ ret e ;;
  svc_RoleRemoveAllActions (svc ram) session entityID roleID.
Definition RoleAddMembers (session : authn.Session) (entityID : string) (roleID : string) (members : list string) : St W (list string * error) :=
  e <- authorize session roles_ops.OpRoleAddMembers (roleReq session entityID) ;;
  if_err e return_ ret ([], e) ;;
  e <- validateMembers session members ;;
  if_err e return_ ret ([], e) ;;
  svc_RoleAddMembers (svc ram) session entityID roleID members.
Definition RoleListMembers (session : authn.Session) (entityID : string) (roleID : string) (limit : N) (offset : N) : St W (roles.MembersPage * error) :=
  e <- authorize session roles_ops.OpRoleListMembers (roleReq session entityID) ;;
  if_err e return_ ret (roles.MembersPage0, e) ;;
  svc_RoleListMembers (svc ram) session entityID roleID limit offset.
Definition RoleCheckMembersExists (session : authn.Session) (entityID : string) (roleID : string) (members : list string) : St W (bool * error) :=
  e <- authorize session roles_ops.OpRoleCheckMembersExists (roleReq session entityID) ;;
  if_err e return_ ret (false, e) ;;
  svc_RoleCheckMembersExists (svc ram) session entityID roleID members.
Definition RoleRemoveAllMembers (session : authn.Session) (entityID : string) (roleID : string) : St W error :=
  e <- authorize session roles_ops.OpRoleRemoveAllMembers (roleReq session entityID) ;;
  if_err e return_ ret e ;;
  svc_RoleRemoveAllMembers (svc ram) session entityID roleID.
Definition ListEntityMembers (session : authn.Session) (entityID : string) (pageQuery : roles.MembersRolePageQuery) : St W (roles.MembersRolePage * error) :=
  e <- authorize session roles_ops.OpRoleListMembers (roleReq session entityID) ;;
  if_err e return_ ret (roles.MembersRolePage0, e) ;;
  svc_ListEntityMembers (svc ram) session entityID pageQuery.
Definition RemoveEntityMembers (session : authn.Session) (entityID : string) (members : list string) : St W error :=
  e <- authorize session roles_ops.OpRoleRemoveAllMembers (roleReq session entityID) ;;
  if_err e return_ ret e ;;
  svc_RemoveEntityMembers (svc ram) session entityID members.
Definition RoleRemoveMembers (session : authn.Session) (entityID : string) (roleID : string) (members : list string) : St W error :=
  e <- authorize session roles_ops.OpRoleRemoveMembers (roleReq session entityID) ;;
  if_err e return_ ret e ;;
  svc_RoleRemoveMembers (svc ram) session entityID roleID members.
Definition RemoveMemberFromAllRoles (session : authn.Session) (memberID : string) : St W error :=
  svc_RemoveMemberFromAllRoles (svc ram) session memberID.
End middleware.
End rolemgr.

(** ** What the middlewares of the entities share: each package has its own
    copy of these two methods *)
Module mw.
Import authz.
Section mw.
Context {W : Type} (az : Authorization W) (entitiesOps : entitiesOperations).

(** authorize; [patType] is the entity type of the tokens' scopes, [anyOps]
    the operations for which the scope is asked for any entity. *)
Definition authorize (patType : N) (anyOps : list permissions.Operation) (session : authn.Session) (entityType : string) (op : permissions.Operation)
    (req : PolicyReq) : St W error :=
  let req := req <| Domain := authn.DomainID session |> in
  let '(perm, e) := entities_GetPermission entitiesOps entityType op in
  if_err e return_ ret e ;;
  let req := req <| Permission := perm |> in
  let pat :=
    if authn.PatID session <>s "" then
      let opName := entities_OperationName entitiesOps entityType op in
      let entityID := if existsb (Z.eqb op) anyOps then pat.AnyIDs else Object req in
      Some (MkPATReq (authn.PatID session) (authn.DomainID session) opName (authn.UserID session) entityID
              (pat.EntityType_String patType))
    else None in
  e <- Authorize az req pat ;;
  if_err e return_ ret e ;;
  ret None.

(** The check of the platform's administrator. *)
Definition superAdminReq (session : authn.Session) : PolicyReq :=
  PolicyReq0 <| SubjectType := policies.UserType |> <| Subject := authn.UserID session |>
    <| Permission := policies.AdminPermission |> <| ObjectType := policies.PlatformType |> <| Object := policies.SuperMQObject |>.
Definition checkSuperAdmin (session : authn.Session) : St W error :=
  if_ negb (N.eqb (authn.Role session) authn.SuperAdminRole) return_ ret (Some svcerr.ErrSuperAdminAction) ;;
  e <- Authorize az (superAdminReq session) None ;;
  if_err e return_ ret e ;;
  ret None.

(** [if err := checkSuperAdmin(session); err == nil { session.SuperAdmin = true }] *)
Definition asSuperAdmin (session : authn.Session) : St W authn.Session :=
  e <- checkSuperAdmin session ;;
  ret (if is_nil e then session <| authn.SuperAdmin := true |> else session).
End mw.

(** The requests: a user of the domain acts on an object; the second form
    has the kind of the subject too. *)
Definition req (session : authn.Session) (objectType object : string) : PolicyReq :=
  PolicyReq0 <| Domain := authn.DomainID session |> <| SubjectType := policies.UserType |>
    <| Subject := authn.DomainUserID session |> <| ObjectType := objectType |> <| Object := object |>.
Definition reqK (session : authn.Session) (objectType object : string) : PolicyReq :=
  (req session objectType object) <| SubjectKind := policies.UsersKind |>.
End mw.

(** ** src/clients/middleware/authorization.go *)
Module clients_mw.
Import authz mw.

Definition errView : err := Sentinel "clients.middleware.errView" CustomError "not authorized to view client".
Definition errUpdate : err := Sentinel "clients.middleware.errUpdate" CustomError "not authorized to update client".
Definition errUpdateTags : err := Sentinel "clients.middleware.errUpdateTags" CustomError "not authorized to update client tags".
Definition errUpdateSecret : err := Sentinel "clients.middleware.errUpdateSecret" CustomError "not authorized to update client secret".
Definition errEnable : err := Sentinel "clients.middleware.errEnable" CustomError "not authorized to enable client".
Definition errDisable : err := Sentinel "clients.middleware.errDisable" CustomError "not authorized to disable client".
Definition errDelete : err := Sentinel "clients.middleware.errDelete" CustomError "not authorized to delete client".
Definition errSetParentGroup : err := Sentinel "clients.middleware.errSetParentGroup" CustomError "not authorized to set parent group to client".
Definition errRemoveParentGroup : err := Sentinel "clients.middleware.errRemoveParentGroup" CustomError "not authorized to remove parent group from client".
Definition errDomainCreateClients : err := Sentinel "clients.middleware.errDomainCreateClients" CustomError "not authorized to create client in domain".
Definition errGroupSetChildClients : err := Sentinel "clients.middleware.errGroupSetChildClients" CustomError "not authorized to set child client for group".
Definition errGroupRemoveChildClients : err := Sentinel "clients.middleware.errGroupRemoveChildClients" CustomError "not authorized to remove child client for group".

Record Service (W : Type) := {
  svc_CreateClients : authn.Session -> (list clients.Client) -> St W (list clients.Client * list roles.RoleProvision * error);
  svc_View : authn.Session -> string -> bool -> St W (clients.Client * error);
  svc_ListClients : authn.Session -> clients.Page -> St W (clients.ClientsPage * error);
  svc_ListUserClients : authn.Session -> string -> clients.Page -> St W (clients.ClientsPage * error);
  svc_Update : authn.Session -> clients.Client -> St W (clients.Client * error);
  svc_UpdateTags : authn.Session -> clients.Client -> St W (clients.Client * error);
  svc_UpdateSecret : authn.Session -> string -> string -> St W (clients.Client * error);
  svc_Enable : authn.Session -> string -> St W (clients.Client * error);
  svc_Disable : authn.Session -> string -> St W (clients.Client * error);
  svc_Delete : authn.Session -> string -> St W error;
  svc_SetParentGroup : authn.Session -> string -> string -> St W error;
  svc_RemoveParentGroup : authn.Session -> string -> St W error }.
Arguments svc_CreateClients {W}. Arguments svc_View {W}. Arguments svc_ListClients {W}.
Arguments svc_ListUserClients {W}. Arguments svc_Update {W}. Arguments svc_UpdateTags {W}.
Arguments svc_UpdateSecret {W}. Arguments svc_Enable {W}. Arguments svc_Disable {W}. Arguments svc_Delete {W}.
Arguments svc_SetParentGroup {W}. Arguments svc_RemoveParentGroup {W}.


Record authorizationMiddleware (W : Type) := {
  svc : Service W;
  repo : clients.Repository W;
  az : Authorization W;
  entitiesOps : entitiesOperations }.
Arguments svc {W}. Arguments repo {W}. Arguments az {W}. Arguments entitiesOps {W}.

Definition NewAuthorization {W} (entityType : string) (svc : Service W) (rm : rolemgr.RoleManager W) (authz : Authorization W) (repo : clients.Repository W)
    (entitiesOps : entitiesOperations) (roleOps : operations)
    : option (authorizationMiddleware W * rolemgr.RoleManagerAuthorizationMiddleware W) * error :=
  if_err entities_Validate entitiesOps return_ (None, entities_Validate entitiesOps) ;;
  match rolemgr.NewAuthorization policies.ClientType rm authz roleOps with
  | (Some ram, None) => (Some ({| svc := svc; repo := repo; az := authz; entitiesOps := entitiesOps |}, ram), None)
  | (_, e) => (None, e)
  end.

Section middleware.
Context {W : Type} (am : authorizationMiddleware W).

Definition authorize : authn.Session -> string -> permissions.Operation -> PolicyReq -> St W error :=
  mw.authorize (az am) (entitiesOps am) pat.ClientsType
    [clients_ops.OpListUserClients; domains_ops.OpCreateDomainClients; domains_ops.OpListDomainClients].
Definition checkSuperAdmin : authn.Session -> St W error := mw.checkSuperAdmin (az am).

Definition CreateClients (session : authn.Session) (client : list clients.Client) : St W (list clients.Client * list roles.RoleProvision * error) :=
  e <- authorize session policies.DomainType domains_ops.OpCreateDomainClients (req session policies.DomainType (authn.DomainID session)) ;;
  if_err e return_ ret (([], []), Wrap e (Some errDomainCreateClients)) ;;
  svc_CreateClients (svc am) session client.
Definition View (session : authn.Session) (id : string) (withRoles : bool) : St W (clients.Client * error) :=
  e <- authorize session policies.ClientType clients_ops.OpViewClient (req session policies.ClientType id) ;;
  if_err e return_ ret (clients.Client0, Wrap e (Some errView)) ;;
  svc_View (svc am) session id withRoles.
Definition ListClients (session : authn.Session) (pm : clients.Page) : St W (clients.ClientsPage * error) :=
  session <- asSuperAdmin (az am) session ;;
  svc_ListClients (svc am) session pm.
Definition ListUserClients (session : authn.Session) (userID : string) (pm : clients.Page) : St W (clients.ClientsPage * error) :=
  e <- checkSuperAdmin session ;;
  if_err e return_ ret (clients.ClientsPage0, e) ;;
  svc_ListUserClients (svc am) session userID pm.
Definition Update (session : authn.Session) (client : clients.Client) : St W (clients.Client * error) :=
  e <- authorize session policies.ClientType clients_ops.OpUpdateClient (req session policies.ClientType (clients.ID client)) ;;
  if_err e return_ ret (clients.Client0, Wrap e (Some errUpdate)) ;;
  svc_Update (svc am) session client.
Definition UpdateTags (session : authn.Session) (client : clients.Client) : St W (clients.Client * error) :=
  e <- authorize session policies.ClientType clients_ops.OpUpdateClientTags (req session policies.ClientType (clients.ID client)) ;;
  if_err e return_ ret (clients.Client0, Wrap e (Some errUpdateTags)) ;;
  svc_UpdateTags (svc am) session client.
Definition UpdateSecret (session : authn.Session) (id : string) (key : string) : St W (clients.Client * error) :=
  e <- authorize session policies.ClientType clients_ops.OpUpdateClientSecret (req session policies.ClientType id) ;;
  if_err e return_ ret (clients.Client0, Wrap e (Some errUpdateSecret)) ;;
  svc_UpdateSecret (svc am) session id key.
Definition Enable (session : authn.Session) (id : string) : St W (clients.Client * error) :=
  e <- authorize session policies.ClientType clients_ops.OpEnableClient (req session policies.ClientType id) ;;
  if_err e return_ ret (clients.Client0, Wrap e (Some errEnable)) ;;
  svc_Enable (svc am) session id.
Definition Disable (session : authn.Session) (id : string) : St W (clients.Client * error) :=
  e <- authorize session policies.ClientType clients_ops.OpDisableClient (req session policies.ClientType id) ;;
  if_err e return_ ret (clients.Client0, Wrap e (Some errDisable)) ;;
  svc_Disable (svc am) session id.
Definition Delete (session : authn.Session) (id : string) : St W error :=
  e <- authorize session policies.ClientType clients_ops.OpDeleteClient (req session policies.ClientType id) ;;
  if_err e return_ ret (Wrap e (Some errDelete)) ;;
  svc_Delete (svc am) session id.
Definition SetParentGroup (session : authn.Session) (parentGroupID : string) (id : string) : St W error :=
  e <- authorize session policies.ClientType clients_ops.OpSetParentGroup (req session policies.ClientType id) ;;
  if_err e return_ ret (Wrap e (Some errSetParentGroup)) ;;
  e <- authorize session policies.GroupType groups_ops.OpGroupSetChildClient (req session policies.GroupType parentGroupID) ;;
  if_err e return_ ret (Wrap e (Some errGroupSetChildClients)) ;;
  svc_SetParentGroup (svc am) session parentGroupID id.
Definition RemoveParentGroup (session : authn.Session) (id : string) : St W error :=
  e <- authorize session policies.ClientType clients_ops.OpRemoveParentGroup (req session policies.ClientType id) ;;
  if_err e return_ ret (Wrap e (Some errRemoveParentGroup)) ;;
  '(th, e) <- clients.RetrieveByID (repo am) id ;;
  if_err e return_ ret (WrapE svcerr.ErrRemoveEntity e) ;;
  if clients.ParentGroup th <>s "" then
    e <- authorize session policies.GroupType groups_ops.OpGroupRemoveChildClient (req session policies.GroupType (clients.ParentGroup th)) ;;
    if_err e return_ ret (Wrap e (Some errGroupRemoveChildClients)) ;;
    svc_RemoveParentGroup (svc am) session id
  else ret None.
End middleware.
End clients_mw.

(** ** src/channels/middleware/authorization.go *)
Module channels_mw.
Import authz mw.

Definition errView : err := Sentinel "channels.middleware.errView" CustomError "not authorized to view channel".
Definition errList : err := Sentinel "channels.middleware.errList" CustomError "not authorized to list user channels".
Definition errUpdate : err := Sentinel "channels.middleware.errUpdate" CustomError "not authorized to update channel".
Definition errUpdateTags : err := Sentinel "channels.middleware.errUpdateTags" CustomError "not authorized to update channel tags".
Definition errEnable : err := Sentinel "channels.middleware.errEnable" CustomError "not authorized to enable channel".
Definition errDisable : err := Sentinel "channels.middleware.errDisable" CustomError "not authorized to disable channel".
Definition errDelete : err := Sentinel "channels.middleware.errDelete" CustomError "not authorized to delete channel".
Definition errConnect : err := Sentinel "channels.middleware.errConnect" CustomError "not authorized to connect to channel".
Definition errDisconnect : err := Sentinel "channels.middleware.errDisconnect" CustomError "not authorized to disconnect from channel".
Definition errSetParentGroup : err := Sentinel "channels.middleware.errSetParentGroup" CustomError "not authorized to set parent group to channel".
Definition errRemoveParentGroup : err := Sentinel "channels.middleware.errRemoveParentGroup" CustomError "not authorized to remove parent group from channel".
Definition errDomainCreateChannels : err := Sentinel "channels.middleware.errDomainCreateChannels" CustomError "not authorized to create channel in domain".
Definition errGroupSetChildChannels : err := Sentinel "channels.middleware.errGroupSetChildChannels" CustomError "not authorized to set child channel for group".
Definition errGroupRemoveChildChannels : err := Sentinel "channels.middleware.errGroupRemoveChildChannels" CustomError "not authorized to remove child channel for group".
Definition errClientDisConnectChannels : err := Sentinel "channels.middleware.errClientDisConnectChannels" CustomError "not authorized to disconnect channel for client".
Definition errClientConnectChannels : err := Sentinel "channels.middleware.errClientConnectChannels" CustomError "not authorized to connect channel for client".

Record Service (W : Type) := {
  svc_CreateChannels : authn.Session -> (list channels.Channel) -> St W (list channels.Channel * list roles.RoleProvision * error);
  svc_ViewChannel : authn.Session -> string -> bool -> St W (channels.Channel * error);
  svc_ListChannels : authn.Session -> channels.Page -> St W (channels.ChannelsPage * error);
  svc_ListUserChannels : authn.Session -> string -> channels.Page -> St W (channels.ChannelsPage * error);
  svc_UpdateChannel : authn.Session -> channels.Channel -> St W (channels.Channel * error);
  svc_UpdateChannelTags : authn.Session -> channels.Channel -> St W (channels.Channel * error);
  svc_EnableChannel : authn.Session -> string -> St W (channels.Channel * error);
  svc_DisableChannel : authn.Session -> string -> St W (channels.Channel * error);
  svc_RemoveChannel : authn.Session -> string -> St W error;
  svc_Connect : authn.Session -> (list string) -> (list string) -> (list N) -> St W error;
  svc_Disconnect : authn.Session -> (list string) -> (list string) -> (list N) -> St W error;
  svc_SetParentGroup : authn.Session -> string -> string -> St W error;
  svc_RemoveParentGroup : authn.Session -> string -> St W error }.
Arguments svc_CreateChannels {W}. Arguments svc_ViewChannel {W}. Arguments svc_ListChannels {W}.
Arguments svc_ListUserChannels {W}. Arguments svc_UpdateChannel {W}. Arguments svc_UpdateChannelTags {W}.
Arguments svc_EnableChannel {W}. Arguments svc_DisableChannel {W}. Arguments svc_RemoveChannel {W}.
Arguments svc_Connect {W}. Arguments svc_Disconnect {W}. Arguments svc_SetParentGroup {W}.
Arguments svc_RemoveParentGroup {W}.


Record authorizationMiddleware (W : Type) := {
  svc : Service W;
  repo : channels.Repository W;
  az : Authorization W;
  entitiesOps : entitiesOperations }.
Arguments svc {W}. Arguments repo {W}. Arguments az {W}. Arguments entitiesOps {W}.

Definition NewAuthorization {W} (entityType : string) (svc : Service W) (rm : rolemgr.RoleManager W) (authz : Authorization W) (repo : channels.Repository W)
    (entitiesOps : entitiesOperations) (roleOps : operations)
    : option (authorizationMiddleware W * rolemgr.RoleManagerAuthorizationMiddleware W) * error :=
  if_err entities_Validate entitiesOps return_ (None, entities_Validate entitiesOps) ;;
  match rolemgr.NewAuthorization policies.ChannelType rm authz roleOps with
  | (Some ram, None) => (Some ({| svc := svc; repo := repo; az := authz; entitiesOps := entitiesOps |}, ram), None)
  | (_, e) => (None, e)
  end.

Section middleware.
Context {W : Type} (am : authorizationMiddleware W).

Definition authorize : authn.Session -> string -> permissions.Operation -> PolicyReq -> St W error :=
  mw.authorize (az am) (entitiesOps am) pat.ChannelsType
    [channels_ops.OpListUserChannels; domains_ops.OpCreateDomainChannels; domains_ops.OpListDomainChannels].
Definition checkSuperAdmin : authn.Session -> St W error := mw.checkSuperAdmin (az am).

(** A loop that authorizes an operation on every entity of a list. *)
Definition authorizeAll (session : authn.Session) (entityType : string) (op : permissions.Operation) (wrapper : err) (ids : list string) : St W error :=
  r <- for_each ids (fun id =>
         e <- authorize session entityType op (req session entityType id) ;;
         if_err e return_ ret (Some (Wrap e (Some wrapper))) ;;
         ret None) ;;
  ret (default None r).

Definition CreateChannels (session : authn.Session) (chs : list channels.Channel) : St W (list channels.Channel * list roles.RoleProvision * error) :=
  e <- authorize session policies.DomainType domains_ops.OpCreateDomainChannels (req session policies.DomainType (authn.DomainID session)) ;;
  if_err e return_ ret (([], []), Wrap e (Some errDomainCreateChannels)) ;;
  r <- for_each chs (fun ch =>
         e <- (if channels.ParentGroup ch <>s "" then
                 authorize session policies.GroupType groups_ops.OpGroupSetChildChannel
                   (req session policies.GroupType (channels.ParentGroup ch))
               else ret None) ;;
         if_err e return_ ret (Some (([], []), Wrap e (Wrap (Some errGroupSetChildChannels) (Some (Errorf ("channel name " +:+ channels.Name ch
           +:+ " parent group id " +:+ channels.ParentGroup ch)))))) ;;
         ret None) ;;
  match r with
  | Some r => ret r
  | None => svc_CreateChannels (svc am) session chs
  end.
Definition ViewChannel (session : authn.Session) (id : string) (withRoles : bool) : St W (channels.Channel * error) :=
  e <- authorize session policies.ChannelType channels_ops.OpViewChannel (req session policies.ChannelType id) ;;
  if_err e return_ ret (channels.Channel0, Wrap e (Some errView)) ;;
  svc_ViewChannel (svc am) session id withRoles.
Definition ListChannels (session : authn.Session) (pm : channels.Page) : St W (channels.ChannelsPage * error) :=
  session <- asSuperAdmin (az am) session ;;
  svc_ListChannels (svc am) session pm.
Definition ListUserChannels (session : authn.Session) (userID : string) (pm : channels.Page) : St W (channels.ChannelsPage * error) :=
  e <- checkSuperAdmin session ;;
  if_err e return_ ret (channels.ChannelsPage0, Wrap e (Some errList)) ;;
  svc_ListUserChannels (svc am) session userID pm.
Definition UpdateChannel (session : authn.Session) (channel : channels.Channel) : St W (channels.Channel * error) :=
  e <- authorize session policies.ChannelType channels_ops.OpUpdateChannel (req session policies.ChannelType (channels.ID channel)) ;;
  if_err e return_ ret (channels.Channel0, Wrap e (Some errUpdate)) ;;
  svc_UpdateChannel (svc am) session channel.
Definition UpdateChannelTags (session : authn.Session) (channel : channels.Channel) : St W (channels.Channel * error) :=
  e <- authorize session policies.ChannelType channels_ops.OpUpdateChannelTags (req session policies.ChannelType (channels.ID channel)) ;;
  if_err e return_ ret (channels.Channel0, Wrap e (Some errUpdateTags)) ;;
  svc_UpdateChannelTags (svc am) session channel.
Definition EnableChannel (session : authn.Session) (id : string) : St W (channels.Channel * error) :=
  e <- authorize session policies.ChannelType channels_ops.OpEnableChannel (req session policies.ChannelType id) ;;
  if_err e return_ ret (channels.Channel0, Wrap e (Some errEnable)) ;;
  svc_EnableChannel (svc am) session id.
Definition DisableChannel (session : authn.Session) (id : string) : St W (channels.Channel * error) :=
  e <- authorize session policies.ChannelType channels_ops.OpDisableChannel (req session policies.ChannelType id) ;;
  if_err e return_ ret (channels.Channel0, Wrap e (Some errDisable)) ;;
  svc_DisableChannel (svc am) session id.
Definition RemoveChannel (session : authn.Session) (id : string) : St W error :=
  e <- authorize session policies.ChannelType channels_ops.OpDeleteChannel (req session policies.ChannelType id) ;;
  if_err e return_ ret (Wrap e (Some errDelete)) ;;
  svc_RemoveChannel (svc am) session id.
Definition Connect (session : authn.Session) (chIDs : list string) (thIDs : list string) (connTypes : list N) : St W error :=
  e <- authorizeAll session policies.ChannelType channels_ops.OpConnectClient errConnect chIDs ;;
  if_err e return_ ret e ;;
  e <- authorizeAll session policies.ClientType clients_ops.OpConnectToChannel errClientConnectChannels thIDs ;;
  if_err e return_ ret e ;;
  svc_Connect (svc am) session chIDs thIDs connTypes.
Definition Disconnect (session : authn.Session) (chIDs : list string) (thIDs : list string) (connTypes : list N) : St W error :=
  e <- authorizeAll session policies.ChannelType channels_ops.OpDisconnectClient errDisconnect chIDs ;;
  if_err e return_ ret e ;;
  e <- authorizeAll session policies.ClientType clients_ops.OpDisconnectFromChannel errClientDisConnectChannels thIDs ;;
  if_err e return_ ret e ;;
  svc_Disconnect (svc am) session chIDs thIDs connTypes.
Definition SetParentGroup (session : authn.Session) (parentGroupID : string) (id : string) : St W error :=
  e <- authorize session policies.ChannelType channels_ops.OpSetParentGroup (req session policies.ChannelType id) ;;
  if_err e return_ ret (Wrap e (Some errSetParentGroup)) ;;
  e <- authorize session policies.GroupType groups_ops.OpGroupSetChildChannel (req session policies.GroupType parentGroupID) ;;
  if_err e return_ ret (Wrap e (Some errGroupSetChildChannels)) ;;
  svc_SetParentGroup (svc am) session parentGroupID id.
Definition RemoveParentGroup (session : authn.Session) (id : string) : St W error :=
  e <- authorize session policies.ChannelType channels_ops.OpSetParentGroup (req session policies.ChannelType id) ;;
  if_err e return_ ret (Wrap e (Some errRemoveParentGroup)) ;;
  '(ch, e) <- channels.RetrieveByID (repo am) id ;;
  if_err e return_ ret (WrapE svcerr.ErrRemoveEntity e) ;;
  if channels.ParentGroup ch <>s "" then
    e <- authorize session policies.GroupType groups_ops.OpGroupRemoveChildChannel (req session policies.GroupType (channels.ParentGroup ch)) ;;
    if_err e return_ ret (Wrap e (Some errGroupRemoveChildChannels)) ;;
    svc_RemoveParentGroup (svc am) session id
  else ret None.
End middleware.
End channels_mw.

(** ** src/groups/middleware/authorization.go *)
Module groups_mw.
Import authz mw.

Definition errView : err := Sentinel "groups.middleware.errView" CustomError "not authorized to view group".
Definition errUpdate : err := Sentinel "groups.middleware.errUpdate" CustomError "not authorized to update group".
Definition errUpdateTags : err := Sentinel "groups.middleware.errUpdateTags" CustomError "not authorized to update group tags".
Definition errEnable : err := Sentinel "groups.middleware.errEnable" CustomError "not authorized to enable group".
Definition errDisable : err := Sentinel "groups.middleware.errDisable" CustomError "not authorized to disable group".
Definition errDelete : err := Sentinel "groups.middleware.errDelete" CustomError "not authorized to delete group".
Definition errViewHierarchy : err := Sentinel "groups.middleware.errViewHierarchy" CustomError "not authorized to view group parent/children hierarchy".
Definition errListChildrenGroups : err := Sentinel "groups.middleware.errListChildrenGroups" CustomError "not authorized to view chidden groups of group".
Definition errSetParentGroup : err := Sentinel "groups.middleware.errSetParentGroup" CustomError "not authorized to set parent group to group".
Definition errRemoveParentGroup : err := Sentinel "groups.middleware.errRemoveParentGroup" CustomError "not authorized to remove parent group from group".
Definition errSetChildrenGroups : err := Sentinel "groups.middleware.errSetChildrenGroups" CustomError "not authorized to set children groups to group".
Definition errRemoveChildrenGroups : err := Sentinel "groups.middleware.errRemoveChildrenGroups" CustomError "not authorized to remove children groups from group".
Definition errParentGroupSetChildGroup : err := Sentinel "groups.middleware.errParentGroupSetChildGroup" CustomError "not authorized to set child group in parent group".
Definition errParentGroupRemoveChildGroup : err := Sentinel "groups.middleware.errParentGroupRemoveChildGroup" CustomError "not authorized to remove child group from parent group".
Definition errChildGroupSetParentGroup : err := Sentinel "groups.middleware.errChildGroupSetParentGroup" CustomError "not authorized to set parent group to child group".
Definition errDomainCreateGroups : err := Sentinel "groups.middleware.errDomainCreateGroups" CustomError "not authorized to create groups in domain".
Definition errDomainListGroups : err := Sentinel "groups.middleware.errDomainListGroups" CustomError "not authorized to list groups in domain".

Record Service (W : Type) := {
  svc_CreateGroup : authn.Session -> groups.Group -> St W (groups.Group * list roles.RoleProvision * error);
  svc_UpdateGroup : authn.Session -> groups.Group -> St W (groups.Group * error);
  svc_UpdateGroupTags : authn.Session -> groups.Group -> St W (groups.Group * error);
  svc_ViewGroup : authn.Session -> string -> bool -> St W (groups.Group * error);
  svc_ListGroups : authn.Session -> groups.PageMeta -> St W (groups.Page * error);
  svc_ListUserGroups : authn.Session -> string -> groups.PageMeta -> St W (groups.Page * error);
  svc_EnableGroup : authn.Session -> string -> St W (groups.Group * error);
  svc_DisableGroup : authn.Session -> string -> St W (groups.Group * error);
  svc_DeleteGroup : authn.Session -> string -> St W error;
  svc_RetrieveGroupHierarchy : authn.Session -> string -> groups.HierarchyPageMeta -> St W (groups.HierarchyPage * error);
  svc_AddParentGroup : authn.Session -> string -> string -> St W error;
  svc_RemoveParentGroup : authn.Session -> string -> St W error;
  svc_AddChildrenGroups : authn.Session -> string -> (list string) -> St W error;
  svc_RemoveChildrenGroups : authn.Session -> string -> (list string) -> St W error;
  svc_RemoveAllChildrenGroups : authn.Session -> string -> St W error;
  svc_ListChildrenGroups : authn.Session -> string -> Z -> Z -> groups.PageMeta -> St W (groups.Page * error) }.
Arguments svc_CreateGroup {W}. Arguments svc_UpdateGroup {W}. Arguments svc_UpdateGroupTags {W}.
Arguments svc_ViewGroup {W}. Arguments svc_ListGroups {W}. Arguments svc_ListUserGroups {W}.
Arguments svc_EnableGroup {W}. Arguments svc_DisableGroup {W}. Arguments svc_DeleteGroup {W}.
Arguments svc_RetrieveGroupHierarchy {W}. Arguments svc_AddParentGroup {W}. Arguments svc_RemoveParentGroup {W}.
Arguments svc_AddChildrenGroups {W}. Arguments svc_RemoveChildrenGroups {W}.
Arguments svc_RemoveAllChildrenGroups {W}. Arguments svc_ListChildrenGroups {W}.


Record authorizationMiddleware (W : Type) := {
  svc : Service W;
  repo : groups.Repository W;
  az : Authorization W;
  entitiesOps : entitiesOperations }.
Arguments svc {W}. Arguments repo {W}. Arguments az {W}. Arguments entitiesOps {W}.

Definition NewAuthorization {W} (entityType : string) (svc : Service W) (rm : rolemgr.RoleManager W) (authz : Authorization W) (repo : groups.Repository W)
    (entitiesOps : entitiesOperations) (roleOps : operations)
    : option (authorizationMiddleware W * rolemgr.RoleManagerAuthorizationMiddleware W) * error :=
  if_err entities_Validate entitiesOps return_ (None, entities_Validate entitiesOps) ;;
  match rolemgr.NewAuthorization policies.GroupType rm authz roleOps with
  | (Some ram, None) => (Some ({| svc := svc; repo := repo; az := authz; entitiesOps := entitiesOps |}, ram), None)
  | (_, e) => (None, e)
  end.

Section middleware.
Context {W : Type} (am : authorizationMiddleware W).

Definition authorize : authn.Session -> string -> permissions.Operation -> PolicyReq -> St W error :=
  mw.authorize (az am) (entitiesOps am) pat.GroupsType [domains_ops.OpListDomainGroups; domains_ops.OpCreateDomainGroups].
Definition checkSuperAdmin : authn.Session -> St W error := mw.checkSuperAdmin (az am).

Definition CreateGroup (session : authn.Session) (g : groups.Group) : St W (groups.Group * list roles.RoleProvision * error) :=
  e <- authorize session policies.DomainType domains_ops.OpCreateDomainGroups (reqK session policies.DomainType (authn.DomainID session)) ;;
  if_err e return_ ret ((groups.Group0, []), WrapE errDomainCreateGroups e) ;;
  e <- (if groups.Parent g <>s "" then authorize session policies.GroupType groups_ops.OpAddChildrenGroups
                (reqK session policies.GroupType (groups.Parent g))
        else ret None) ;;
  if_err e return_ ret ((groups.Group0, []), WrapE errParentGroupSetChildGroup e) ;;
  svc_CreateGroup (svc am) session g.
Definition UpdateGroup (session : authn.Session) (g : groups.Group) : St W (groups.Group * error) :=
  e <- authorize session policies.GroupType groups_ops.OpUpdateGroup (reqK session policies.GroupType (groups.ID g)) ;;
  if_err e return_ ret (groups.Group0, WrapE errUpdate e) ;;
  svc_UpdateGroup (svc am) session g.
Definition UpdateGroupTags (session : authn.Session) (group : groups.Group) : St W (groups.Group * error) :=
  e <- authorize session policies.GroupType groups_ops.OpUpdateGroupTags (req session policies.GroupType (groups.ID group)) ;;
  if_err e return_ ret (groups.Group0, WrapE errUpdateTags e) ;;
  svc_UpdateGroupTags (svc am) session group.
Definition ViewGroup (session : authn.Session) (id : string) (withRoles : bool) : St W (groups.Group * error) :=
  e <- authorize session policies.GroupType groups_ops.OpViewGroup (reqK session policies.GroupType id) ;;
  if_err e return_ ret (groups.Group0, WrapE errView e) ;;
  svc_ViewGroup (svc am) session id withRoles.
Definition ListGroups (session : authn.Session) (gm : groups.PageMeta) : St W (groups.Page * error) :=
  e <- checkSuperAdmin session ;;
  if_ is_nil e return_ svc_ListGroups (svc am) (session <| authn.SuperAdmin := true |>) gm ;;
  e <- authorize session policies.DomainType domains_ops.OpListDomainGroups (reqK session policies.DomainType (authn.DomainID session)) ;;
  if_err e return_ ret (groups.Page0, WrapE errDomainListGroups e) ;;
  svc_ListGroups (svc am) session gm.
Definition ListUserGroups (session : authn.Session) (userID : string) (pm : groups.PageMeta) : St W (groups.Page * error) :=
  e <- checkSuperAdmin session ;;
  if_ is_nil e return_ svc_ListGroups (svc am) (session <| authn.SuperAdmin := true |>) pm ;;
  e <- authorize session policies.DomainType domains_ops.OpListDomainGroups (reqK session policies.DomainType (authn.DomainID session)) ;;
  if_err e return_ ret (groups.Page0, WrapE errDomainListGroups e) ;;
  svc_ListUserGroups (svc am) session userID pm.
Definition EnableGroup (session : authn.Session) (id : string) : St W (groups.Group * error) :=
  e <- authorize session policies.GroupType groups_ops.OpEnableGroup (req session policies.GroupType id) ;;
  if_err e return_ ret (groups.Group0, WrapE errEnable e) ;;
  svc_EnableGroup (svc am) session id.
Definition DisableGroup (session : authn.Session) (id : string) : St W (groups.Group * error) :=
  e <- authorize session policies.GroupType groups_ops.OpDisableGroup (req session policies.GroupType id) ;;
  if_err e return_ ret (groups.Group0, WrapE errDisable e) ;;
  svc_DisableGroup (svc am) session id.
Definition DeleteGroup (session : authn.Session) (id : string) : St W error :=
  e <- authorize session policies.GroupType groups_ops.OpDeleteGroup (req session policies.GroupType id) ;;
  if_err e return_ ret (WrapE errDelete e) ;;
  svc_DeleteGroup (svc am) session id.
Definition RetrieveGroupHierarchy (session : authn.Session) (id : string) (hm : groups.HierarchyPageMeta) : St W (groups.HierarchyPage * error) :=
  e <- authorize session policies.GroupType groups_ops.OpRetrieveGroupHierarchy (req session policies.GroupType id) ;;
  if_err e return_ ret (groups.HierarchyPage0, WrapE errViewHierarchy e) ;;
  svc_RetrieveGroupHierarchy (svc am) session id hm.
Definition AddParentGroup (session : authn.Session) (id : string) (parentID : string) : St W error :=
  e <- authorize session policies.GroupType groups_ops.OpAddParentGroup (req session policies.GroupType id) ;;
  if_err e return_ ret (WrapE errSetParentGroup e) ;;
  e <- authorize session policies.GroupType groups_ops.OpAddChildrenGroups (req session policies.GroupType parentID) ;;
  if_err e return_ ret (WrapE errParentGroupSetChildGroup e) ;;
  svc_AddParentGroup (svc am) session id parentID.
Definition RemoveParentGroup (session : authn.Session) (id : string) : St W error :=
  e <- authorize session policies.GroupType groups_ops.OpRemoveParentGroup (req session policies.GroupType id) ;;
  if_err e return_ ret (WrapE errRemoveParentGroup e) ;;
  '(group, e) <- groups.RetrieveByID (repo am) id ;;
  if_err e return_ ret (WrapE svcerr.ErrViewEntity e) ;;
  e <- (if groups.Parent group <>s "" then authorize session policies.GroupType groups_ops.OpRemoveParentGroup
                (req session policies.GroupType (groups.Parent group))
        else ret None) ;;
  if_err e return_ ret (WrapE errParentGroupRemoveChildGroup e) ;;
  svc_RemoveParentGroup (svc am) session id.
Definition AddChildrenGroups (session : authn.Session) (id : string) (childrenGroupIDs : list string) : St W error :=
  e <- authorize session policies.GroupType groups_ops.OpAddChildrenGroups (req session policies.GroupType id) ;;
  if_err e return_ ret (WrapE errSetChildrenGroups e) ;;
  r <- for_each childrenGroupIDs (fun childID =>
         e <- authorize session policies.GroupType groups_ops.OpAddParentGroup (req session policies.GroupType childID) ;;
         if_err e return_ ret (Some (WrapE errChildGroupSetParentGroup (WrapE (Errorf ("child group id: " +:+ childID)) e))) ;;
         ret None) ;;
  match r with
  | Some r => ret r
  | None => svc_AddChildrenGroups (svc am) session id childrenGroupIDs
  end.
Definition RemoveChildrenGroups (session : authn.Session) (id : string) (childrenGroupIDs : list string) : St W error :=
  e <- authorize session policies.GroupType groups_ops.OpRemoveChildrenGroups (req session policies.GroupType id) ;;
  if_err e return_ ret (WrapE errRemoveChildrenGroups e) ;;
  svc_RemoveChildrenGroups (svc am) session id childrenGroupIDs.
Definition RemoveAllChildrenGroups (session : authn.Session) (id : string) : St W error :=
  e <- authorize session policies.GroupType groups_ops.OpRemoveAllChildrenGroups (req session policies.GroupType id) ;;
  if_err e return_ ret e ;;
  svc_RemoveAllChildrenGroups (svc am) session id.
Definition ListChildrenGroups (session : authn.Session) (id : string) (startLevel : Z) (endLevel : Z) (pm : groups.PageMeta) : St W (groups.Page * error) :=
  e <- authorize session policies.GroupType groups_ops.OpListChildrenGroups (req session policies.GroupType id) ;;
  if_err e return_ ret (groups.Page0, WrapE errListChildrenGroups e) ;;
  svc_ListChildrenGroups (svc am) session id startLevel endLevel pm.
End middleware.
End groups_mw.

(** ** src/domains/middleware/authorization.go *)
Module domains_mw.
Import authz mw.


Record Service (W : Type) := {
  svc_CreateDomain : authn.Session -> domains.Domain -> St W (domains.Domain * list roles.RoleProvision * error);
  svc_RetrieveDomain : authn.Session -> string -> bool -> St W (domains.Domain * error);
  svc_UpdateDomain : authn.Session -> string -> domains.DomainReq -> St W (domains.Domain * error);
  svc_EnableDomain : authn.Session -> string -> St W (domains.Domain * error);
  svc_DisableDomain : authn.Session -> string -> St W (domains.Domain * error);
  svc_FreezeDomain : authn.Session -> string -> St W (domains.Domain * error);
  svc_ListDomains : authn.Session -> domains.Page -> St W (domains.DomainsPage * error);
  svc_SendInvitation : authn.Session -> domains.Invitation -> St W (domains.Invitation * error);
  svc_ListInvitations : authn.Session -> domains.InvitationPageMeta -> St W (domains.InvitationPage * error);
  svc_ListDomainInvitations : authn.Session -> domains.InvitationPageMeta -> St W (domains.InvitationPage * error);
  svc_AcceptInvitation : authn.Session -> string -> St W (domains.Invitation * error);
  svc_RejectInvitation : authn.Session -> string -> St W (domains.Invitation * error);
  svc_DeleteInvitation : authn.Session -> string -> string -> St W error }.
Arguments svc_CreateDomain {W}. Arguments svc_RetrieveDomain {W}. Arguments svc_UpdateDomain {W}.
Arguments svc_EnableDomain {W}. Arguments svc_DisableDomain {W}. Arguments svc_FreezeDomain {W}.
Arguments svc_ListDomains {W}. Arguments svc_SendInvitation {W}. Arguments svc_ListInvitations {W}.
Arguments svc_ListDomainInvitations {W}. Arguments svc_AcceptInvitation {W}. Arguments svc_RejectInvitation {W}.
Arguments svc_DeleteInvitation {W}.


Record authorizationMiddleware (W : Type) := {
  svc : Service W;
  az : Authorization W;
  entitiesOps : entitiesOperations }.
Arguments svc {W}. Arguments az {W}. Arguments entitiesOps {W}.

Definition NewAuthorization {W} (entityType : string) (svc : Service W) (rm : rolemgr.RoleManager W) (authz : Authorization W)
    (entitiesOps : entitiesOperations) (roleOps : operations)
    : option (authorizationMiddleware W * rolemgr.RoleManagerAuthorizationMiddleware W) * error :=
  if_err entities_Validate entitiesOps return_ (None, entities_Validate entitiesOps) ;;
  match rolemgr.NewAuthorization entityType rm authz roleOps with
  | (Some ram, None) => (Some ({| svc := svc; az := authz; entitiesOps := entitiesOps |}, ram), None)
  | (_, e) => (None, e)
  end.

Section middleware.
Context {W : Type} (am : authorizationMiddleware W).

Definition authorize : authn.Session -> string -> permissions.Operation -> PolicyReq -> St W error :=
  mw.authorize (az am) (entitiesOps am) pat.DomainsType [].
Definition checkSuperAdmin : authn.Session -> St W error := mw.checkSuperAdmin (az am).

(** The platform's administrator, with the kind of the subject. *)
Definition platformReq (session : authn.Session) : PolicyReq :=
  (superAdminReq session) <| SubjectKind := policies.UsersKind |>.
Definition checkAdmin (session : authn.Session) : St W error :=
  let r := PolicyReq0 <| SubjectType := policies.UserType |> <| SubjectKind := policies.UsersKind |>
             <| Subject := authn.DomainUserID session |> <| Permission := policies.AdminPermission |>
             <| ObjectType := policies.DomainType |> <| Object := authn.DomainID session |> in
  e <- Authorize (az am) r None ;;
  if_ is_nil e return_ ret None ;;
  e <- Authorize (az am) (platformReq session) None ;;
  if_ is_nil e return_ ret None ;;
  ret (Some svcerr.ErrAuthorization).

(** The requests of this package leave the domain to [authorize]. *)
Definition domainReq (session : authn.Session) (object : string) : PolicyReq :=
  PolicyReq0 <| Subject := authn.DomainUserID session |> <| SubjectType := policies.UserType |>
    <| SubjectKind := policies.UsersKind |> <| Object := object |> <| ObjectType := policies.DomainType |>.

Definition CreateDomain (session : authn.Session) (d : domains.Domain) : St W (domains.Domain * list roles.RoleProvision * error) :=
  svc_CreateDomain (svc am) session d.
Definition RetrieveDomain (session : authn.Session) (id : string) (withRoles : bool) : St W (domains.Domain * error) :=
  e <- checkSuperAdmin session ;;
  if_ is_nil e return_ svc_RetrieveDomain (svc am) (session <| authn.SuperAdmin := true |>) id withRoles ;;
  e <- authorize session policies.DomainType domains_ops.OpRetrieveDomain (domainReq session id) ;;
  if_err e return_ ret (domains.Domain0, e) ;;
  svc_RetrieveDomain (svc am) session id withRoles.
Definition UpdateDomain (session : authn.Session) (id : string) (d : domains.DomainReq) : St W (domains.Domain * error) :=
  e <- authorize session policies.DomainType domains_ops.OpUpdateDomain (domainReq session id) ;;
  if_err e return_ ret (domains.Domain0, e) ;;
  svc_UpdateDomain (svc am) session id d.
Definition EnableDomain (session : authn.Session) (id : string) : St W (domains.Domain * error) :=
  e <- authorize session policies.DomainType domains_ops.OpEnableDomain (domainReq session id) ;;
  if_err e return_ ret (domains.Domain0, e) ;;
  svc_EnableDomain (svc am) session id.
Definition DisableDomain (session : authn.Session) (id : string) : St W (domains.Domain * error) :=
  e <- authorize session policies.DomainType domains_ops.OpDisableDomain (domainReq session id) ;;
  if_err e return_ ret (domains.Domain0, e) ;;
  svc_DisableDomain (svc am) session id.
Definition FreezeDomain (session : authn.Session) (id : string) : St W (domains.Domain * error) :=
  e <- Authorize (az am) (platformReq session) None ;;
  if_err e return_ ret (domains.Domain0, e) ;;
  svc_FreezeDomain (svc am) session id.
Definition ListDomains (session : authn.Session) (page : domains.Page) : St W (domains.DomainsPage * error) :=
  session <- asSuperAdmin (az am) session ;;
  svc_ListDomains (svc am) session page.
Definition SendInvitation (session : authn.Session) (invitation : domains.Invitation) : St W (domains.Invitation * error) :=
  e <- authorize session policies.DomainType domains_ops.OpSendDomainInvitation (domainReq session (authn.DomainID session)) ;;
  if_err e return_ ret (domains.Invitation0, e) ;;
  e <- checkAdmin session ;;
  if_err e return_ ret (domains.Invitation0, e) ;;
  svc_SendInvitation (svc am) session invitation.
Definition ListInvitations (session : authn.Session) (page : domains.InvitationPageMeta) : St W (domains.InvitationPage * error) :=
  svc_ListInvitations (svc am) session page.
Definition ListDomainInvitations (session : authn.Session) (page : domains.InvitationPageMeta) : St W (domains.InvitationPage * error) :=
  e <- authorize session policies.DomainType domains_ops.OpListDomainInvitations (domainReq session (authn.DomainID session)) ;;
  if_err e return_ ret (domains.InvitationPage0, e) ;;
  svc_ListDomainInvitations (svc am) session page.
Definition AcceptInvitation (session : authn.Session) (domainID : string) : St W (domains.Invitation * error) :=
  svc_AcceptInvitation (svc am) session domainID.
Definition RejectInvitation (session : authn.Session) (domainID : string) : St W (domains.Invitation * error) :=
  svc_RejectInvitation (svc am) session domainID.
Definition DeleteInvitation (session : authn.Session) (inviteeUserID : string) (domainID : string) : St W error :=
  e <- authorize session policies.DomainType domains_ops.OpDeleteDomainInvitation (domainReq session (authn.DomainID session)) ;;
  if_err e return_ ret e ;;
  svc_DeleteInvitation (svc am) session inviteeUserID domainID.
End middleware.
End domains_mw.

(** ** src/users/middleware/authorization.go *)
Module users_mw.
Import authz mw.

Record Service (W : Type) := {
  svc_SendVerification : authn.Session -> St W error;
  svc_VerifyEmail : string -> St W (users.User * error);
  svc_Register : authn.Session -> users.User -> bool -> St W (users.User * error);
  svc_View : authn.Session -> string -> St W (users.User * error);
  svc_ViewProfile : authn.Session -> St W (users.User * error);
  svc_ListUsers : authn.Session -> users.Page -> St W (users.UsersPage * error);
  svc_SearchUsers : users.Page -> St W (users.UsersPage * error);
  svc_Update : authn.Session -> string -> users.UserReq -> St W (users.User * error);
  svc_UpdateTags : authn.Session -> string -> users.UserReq -> St W (users.User * error);
  svc_UpdateEmail : authn.Session -> string -> string -> St W (users.User * error);
  svc_UpdateUsername : authn.Session -> string -> string -> St W (users.User * error);
  svc_UpdateProfilePicture : authn.Session -> string -> users.UserReq -> St W (users.User * error);
  svc_SendPasswordReset : string -> St W error;
  svc_UpdateSecret : authn.Session -> string -> string -> St W (users.User * error);
  svc_ResetSecret : authn.Session -> string -> St W error;
  svc_UpdateRole : authn.Session -> users.User -> St W (users.User * error);
  svc_Enable : authn.Session -> string -> St W (users.User * error);
  svc_Disable : authn.Session -> string -> St W (users.User * error);
  svc_Delete : authn.Session -> string -> St W error;
  svc_Identify : authn.Session -> St W (string * error);
  svc_IssueToken : string -> string -> string -> St W (users.Token * error);
  svc_RefreshToken : authn.Session -> string -> St W (users.Token * error);
  svc_RevokeRefreshToken : authn.Session -> string -> St W error;
  svc_ListActiveRefreshTokens : authn.Session -> St W (list users.RefreshTokenInfo * error);
  svc_OAuthCallback : users.User -> St W (option (users.User * error));
  svc_OAuthAddUserPolicy : users.User -> St W error }.
Arguments svc_SendVerification {W}. Arguments svc_VerifyEmail {W}. Arguments svc_Register {W}.
Arguments svc_View {W}. Arguments svc_ViewProfile {W}. Arguments svc_ListUsers {W}. Arguments svc_SearchUsers {W}.
Arguments svc_Update {W}. Arguments svc_UpdateTags {W}. Arguments svc_UpdateEmail {W}.
Arguments svc_UpdateUsername {W}. Arguments svc_UpdateProfilePicture {W}. Arguments svc_SendPasswordReset {W}.
Arguments svc_UpdateSecret {W}. Arguments svc_ResetSecret {W}. Arguments svc_UpdateRole {W}.
Arguments svc_Enable {W}. Arguments svc_Disable {W}. Arguments svc_Delete {W}. Arguments svc_Identify {W}.
Arguments svc_IssueToken {W}. Arguments svc_RefreshToken {W}. Arguments svc_RevokeRefreshToken {W}.
Arguments svc_ListActiveRefreshTokens {W}. Arguments svc_OAuthCallback {W}. Arguments svc_OAuthAddUserPolicy {W}.

Record authorizationMiddleware (W : Type) := { svc : Service W; az : Authorization W; selfRegister : bool }.
Arguments svc {W}. Arguments az {W}. Arguments selfRegister {W}.
Definition NewAuthorization {W} (svc : Service W) (authz : Authorization W) (selfRegister : bool) : authorizationMiddleware W :=
  {| svc := svc; az := authz; selfRegister := selfRegister |}.

Section middleware.
Context {W : Type} (am : authorizationMiddleware W).

Definition checkSuperAdmin : authn.Session -> St W error := mw.checkSuperAdmin (az am).
Definition authorize (session : authn.Session) (domain subjType subjKind subj perm objType obj : string) : St W error :=
  let req := PolicyReq0 <| Domain := domain |> <| SubjectType := subjType |> <| SubjectKind := subjKind |>
    <| Subject := subj |> <| Permission := perm |> <| ObjectType := objType |> <| Object := obj |> in
  let pat := if authn.PatID session <>s "" then
               Some (MkPATReq (authn.PatID session) domain perm (authn.UserID session) subj (pat.EntityType_String pat.UsersType))
             else None in
  e <- Authorize (az am) req pat ;;
  if_err e return_ ret e ;;
  ret None.
(** A member of the platform. *)
Definition authorizeMember (session : authn.Session) (userID : string) : St W error :=
  authorize session "" policies.UserType policies.UsersKind userID policies.MembershipPermission policies.PlatformType
    policies.SuperMQObject.

Definition SendVerification (session : authn.Session) : St W error :=
  svc_SendVerification (svc am) session.
Definition VerifyEmail (verificationToken : string) : St W (users.User * error) :=
  svc_VerifyEmail (svc am) verificationToken.
Definition Register (session : authn.Session) (user : users.User) (selfRegister : bool) : St W (users.User * error) :=
  session <- (if selfRegister then asSuperAdmin (az am) session else ret session) ;;
  svc_Register (svc am) session user selfRegister.
Definition View (session : authn.Session) (id : string) : St W (users.User * error) :=
  session <- asSuperAdmin (az am) session ;;
  svc_View (svc am) session id.
Definition ViewProfile (session : authn.Session) : St W (users.User * error) :=
  svc_ViewProfile (svc am) session.
Definition ListUsers (session : authn.Session) (pm : users.Page) : St W (users.UsersPage * error) :=
  session <- asSuperAdmin (az am) session ;;
  svc_ListUsers (svc am) session pm.
Definition SearchUsers (pm : users.Page) : St W (users.UsersPage * error) :=
  svc_SearchUsers (svc am) pm.
Definition Update (session : authn.Session) (id : string) (user : users.UserReq) : St W (users.User * error) :=
  session <- asSuperAdmin (az am) session ;;
  svc_Update (svc am) session id user.
Definition UpdateTags (session : authn.Session) (id : string) (user : users.UserReq) : St W (users.User * error) :=
  session <- asSuperAdmin (az am) session ;;
  svc_UpdateTags (svc am) session id user.
Definition UpdateEmail (session : authn.Session) (id : string) (email : string) : St W (users.User * error) :=
  session <- asSuperAdmin (az am) session ;;
  svc_UpdateEmail (svc am) session id email.
Definition UpdateUsername (session : authn.Session) (id : string) (username : string) : St W (users.User * error) :=
  session <- asSuperAdmin (az am) session ;;
  svc_UpdateUsername (svc am) session id username.
Definition UpdateProfilePicture (session : authn.Session) (id : string) (usr : users.UserReq) : St W (users.User * error) :=
  session <- asSuperAdmin (az am) session ;;
  svc_UpdateProfilePicture (svc am) session id usr.
Definition SendPasswordReset (email : string) : St W error :=
  svc_SendPasswordReset (svc am) email.
Definition UpdateSecret (session : authn.Session) (oldSecret : string) (newSecret : string) : St W (users.User * error) :=
  svc_UpdateSecret (svc am) session oldSecret newSecret.
Definition ResetSecret (session : authn.Session) (secret : string) : St W error :=
  svc_ResetSecret (svc am) session secret.
Definition UpdateRole (session : authn.Session) (user : users.User) : St W (users.User * error) :=
  e <- checkSuperAdmin session ;;
  if_err e return_ ret (users.User0, e) ;;
  let session := session <| authn.SuperAdmin := true |> in
  e <- authorizeMember session (users.ID user) ;;
  if_err e return_ ret (users.User0, e) ;;
  svc_UpdateRole (svc am) session user.
Definition Enable (session : authn.Session) (id : string) : St W (users.User * error) :=
  session <- asSuperAdmin (az am) session ;;
  svc_Enable (svc am) session id.
Definition Disable (session : authn.Session) (id : string) : St W (users.User * error) :=
  session <- asSuperAdmin (az am) session ;;
  svc_Disable (svc am) session id.
Definition Delete (session : authn.Session) (id : string) : St W error :=
  session <- asSuperAdmin (az am) session ;;
  svc_Delete (svc am) session id.
Definition Identify (session : authn.Session) : St W (string * error) :=
  svc_Identify (svc am) session.
Definition IssueToken (username : string) (secret : string) (description : string) : St W (users.Token * error) :=
  svc_IssueToken (svc am) username secret description.
Definition RefreshToken (session : authn.Session) (refreshToken : string) : St W (users.Token * error) :=
  svc_RefreshToken (svc am) session refreshToken.
Definition RevokeRefreshToken (session : authn.Session) (tokenID : string) : St W error :=
  svc_RevokeRefreshToken (svc am) session tokenID.
Definition ListActiveRefreshTokens (session : authn.Session) : St W (list users.RefreshTokenInfo * error) :=
  svc_ListActiveRefreshTokens (svc am) session.
Definition OAuthCallback (user : users.User) : St W (option (users.User * error)) :=
  svc_OAuthCallback (svc am) user.
Definition OAuthAddUserPolicy (user : users.User) : St W error :=
  e <- authorizeMember authn.Session0 (users.ID user) ;;
  if_ is_nil e return_ ret None ;;
  svc_OAuthAddUserPolicy (svc am) user.
End middleware.
End users_mw.

(** ** The middlewares as reference monitors

    An authorization decides by a view of the state, which it leaves as it
    is ([Authorize_decides] shows it for the one of Authz.v).  A call is
    [monitored] where it runs the service exactly when the need of the call
    is met, and otherwise returns an error without running it. *)
Section monitor.
Import authz.
Context {W V : Type} (view : W -> V).

Definition monitored {A} (m inner : St W A) (err_of : A -> error) (need : V -> bool) : Prop :=
  forall w, exists w1, view w1 = view w
    /\ if need (view w) then m w = inner w1 else err_of (m w).1 <> None /\ (m w).2 = w1.

Lemma monitored_ext {A} (m inner : St W A) f need need' :
  (forall v, need v = need' v) -> monitored m inner f need -> monitored m inner f need'.
Proof. intros Hn H w. rewrite <- Hn. apply H. Qed.
Lemma monitored_run {A} (m : St W A) f : monitored m m f (fun _ => true).
Proof. intros w. by exists w. Qed.
Lemma monitored_step {A} (c : St W error) b (bad : error -> A) (m inner : St W A) f need :
  decides view c id b -> monitored m inner f need -> (forall e, f (bad (Some e)) <> None) ->
  monitored (e <- c ;; if_err e return_ ret (bad e) ;; m) inner f (fun v => b v && need v).
Proof.
  intros Hc Hm Hbad w. destruct (decides_run view c id b w Hc) as (e & w1 & Hw & Hv & He).
  unfold bind, id in *. rewrite Hw, <- He. destruct e as [e|]; simpl.
  - exists w1. split; [done|]. split; [apply Hbad|done].
  - destruct (Hm w1) as (w2 & Hv2 & H2). rewrite Hv in H2, Hv2. by exists w2.
Qed.
Lemma monitored_step1 {A} (c : St W error) b (bad : error -> A) (inner : St W A) f :
  decides view c id b -> (forall e, f (bad (Some e)) <> None) ->
  monitored (e <- c ;; if_err e return_ ret (bad e) ;; inner) inner f b.
Proof.
  intros Hc Hbad. eapply monitored_ext; [intros v; apply andb_true_r|].
  apply monitored_step; [done|apply monitored_run|done].
Qed.

Lemma decides_for_each {A} (xs : list A) (c : A -> St W error) (b : A -> V -> bool) (g : A -> error -> error) :
  (forall x, decides view (c x) id (b x)) -> (forall x e, g x (Some e) <> None) ->
  decides view (r <- for_each xs (fun x => e <- c x ;; if_err e return_ ret (Some (g x e)) ;; ret None) ;; ret (default None r))
    id (fun v => forallb (fun x => b x v) xs).
Proof.
  intros Hc Hg. induction xs as [|x xs IH]; intros w; [by split|].
  simpl for_each. destruct (decides_run view (c x) id (b x) w (Hc x)) as (e & w1 & Hw & Hv & He).
  unfold bind, ret, id in *. rewrite Hw. simpl forallb. rewrite <- He. destruct e as [e|]; simpl.
  - split; [done|]. split; [intros H; by destruct (Hg x e)|done].
  - destruct (IH w1) as [Hv2 H2]. unfold bind, ret in *. rewrite Hv in Hv2, H2. by destruct (for_each xs _ w1).
Qed.

Lemma monitored_for_each {X A} (xs : list X) (c : X -> St W error) (b : X -> V -> bool) (g : X -> error -> A) (m inner : St W A) f need :
  (forall x, decides view (c x) id (b x)) -> (forall x e, f (g x (Some e)) <> None) -> monitored m inner f need ->
  monitored (r <- for_each xs (fun x => e <- c x ;; if_err e return_ ret (Some (g x e)) ;; ret None) ;;
             match r with Some r => ret r | None => m end) inner f (fun v => forallb (fun x => b x v) xs && need v).
Proof.
  intros Hc Hg Hm. induction xs as [|x xs IH]; intros w; [exact (Hm w)|].
  simpl for_each. destruct (decides_run view (c x) id (b x) w (Hc x)) as (e & w1 & Hw & Hv & He).
  unfold bind, ret, id in *. rewrite Hw. simpl forallb. rewrite <- He. destruct e as [e|]; simpl.
  - exists w1. split; [done|]. split; [apply Hg|done].
  - destruct (IH w1) as (w2 & Hv2 & H2). rewrite Hv in Hv2, H2. by exists w2.
Qed.

Context (az : Authorization W) (permit : V -> PolicyReq -> option PATReq -> bool).
Hypothesis az_decides : forall r p, decides view (Authorize az r p) id (fun v => permit v r p).

(** What a session may do: its user, or her token, has the permission on the
    object; [scope] is the entity type, the operation and the entity that a
    token must have been given. *)
Definition token_of (session : authn.Session) (scope : N * string * string) : option PATReq :=
  let '(entityType, operation, entity) := scope in
  if authn.PatID session <>s "" then
    Some (MkPATReq (authn.PatID session) (authn.DomainID session) operation (authn.UserID session) entity
            (pat.EntityType_String entityType))
  else None.
Definition mayReq (session : authn.Session) (perm : string) (r : PolicyReq) (scope : N * string * string) (v : V) : bool :=
  permit v ((r <| Domain := authn.DomainID session |>) <| Permission := perm |>) (token_of session scope).
Definition may (session : authn.Session) (perm objectType object : string) : N * string * string -> V -> bool :=
  mayReq session perm (mw.req session objectType object).
Definition mayK (session : authn.Session) (perm objectType object : string) : N * string * string -> V -> bool :=
  mayReq session perm (mw.reqK session objectType object).

Lemma authorize_decides eo patType anyOps session et op r perm :
  entities_GetPermission eo et op = (perm, None) ->
  decides view (mw.authorize az eo patType anyOps session et op r) id
    (mayReq session perm r (patType, entities_OperationName eo et op, if existsb (Z.eqb op) anyOps then pat.AnyIDs else Object r)).
Proof.
  intros Hp. unfold mw.authorize, mayReq, token_of. rewrite Hp. cbv zeta.
  match goal with |- context [Authorize az ?r ?p] => pose proof (az_decides r p) as H end.
  eapply decides_ext; [intros v; apply andb_true_r|]. eapply decides_step with (f := id); [exact H| |].
  - intros [e|] He; [by apply decides_error|done].
  - intros ? [= ->]. apply (decides_ret view None).
Qed.

Lemma authorize_as eo patType anyOps session et op r perm name entity :
  entities_GetPermission eo et op = (perm, None) -> entities_OperationName eo et op = name ->
  (if existsb (Z.eqb op) anyOps then pat.AnyIDs else Object r) = entity ->
  decides view (mw.authorize az eo patType anyOps session et op r) id (mayReq session perm r (patType, name, entity)).
Proof. intros Hp <- <-. by apply authorize_decides. Qed.

(** The administrator of the platform, who is asked for in person and not by
    a token. *)
Definition superAdmin (session : authn.Session) (v : V) : bool :=
  N.eqb (authn.Role session) authn.SuperAdminRole && permit v (mw.superAdminReq session) None.
Lemma checkSuperAdmin_decides session : decides view (mw.checkSuperAdmin az session) id (superAdmin session).
Proof.
  unfold mw.checkSuperAdmin, superAdmin. destruct (N.eqb (authn.Role session) authn.SuperAdminRole); simpl; [|by apply decides_error].
  eapply decides_ext; [intros v; apply andb_true_r|]. eapply decides_step with (f := id); [apply az_decides| |].
  - intros [e|] He; [by apply decides_error|done].
  - intros ? [= ->]. apply (decides_ret view None).
Qed.
(** A call that runs the service with the session of an administrator where
    it is one, and with its own otherwise. *)
Definition elevated {A} (session : authn.Session) (m : St W A) (inner : authn.Session -> St W A) : Prop :=
  forall w, exists w1, view w1 = view w
    /\ m w = inner (if superAdmin session (view w) then session <| authn.SuperAdmin := true |> else session) w1.
(** A call that runs [alt] where [b] holds and goes on with [rest] otherwise. *)
Definition alternative {A} (m : St W A) (b : V -> bool) (alt rest : St W A) : Prop :=
  forall w, exists w1, view w1 = view w /\ m w = if b (view w) then alt w1 else rest w1.
Lemma alternative_step {A} (c : St W error) b (alt rest : St W A) :
  decides view c id b -> alternative (e <- c ;; if_ is_nil e return_ alt ;; rest) b alt rest.
Proof.
  intros Hc w. destruct (decides_run view c id b w Hc) as (e & w1 & Hw & Hv & He). exists w1. split; [done|].
  unfold bind, id in *. by rewrite Hw, <- He; destruct e.
Qed.
Lemma asSuperAdmin_elevated {A} session (inner : authn.Session -> St W A) :
  elevated session (session' <- mw.asSuperAdmin az session ;; inner session') inner.
Proof.
  intros w. destruct (decides_run view _ id _ w (checkSuperAdmin_decides session)) as (e & w1 & Hw & Hv & He).
  exists w1. split; [done|]. unfold mw.asSuperAdmin, bind, ret, id in *. by rewrite Hw, <- He.
Qed.
End monitor.

Lemma Some_not_None {A} (x : A) : Some x <> None.
Proof. discriminate. Qed.

(** One check of a middleware with the operations of the shipped file, the
    errors it ends with. *)
Ltac not_nil := let e := fresh in intros e; cbn [snd id]; first [apply WrapE_not_nil | exact (WrapE_not_nil e _) | apply Some_not_None].
Ltac check_shipped Hops :=
  eapply authorize_as; [eassumption|rewrite Hops; vm_compute; reflexivity|rewrite Hops; vm_compute; reflexivity|reflexivity].
Ltac monitor_step Hops :=
  first [ apply monitored_step1; [check_shipped Hops|not_nil]
        | apply monitored_step; [check_shipped Hops| |not_nil] ].

(** ** The access matrix of the clients service *)
Section clients_matrix.
Import authz clients_mw.
Context {W V : Type} (view : W -> V) (am : authorizationMiddleware W) (permit : V -> PolicyReq -> option PATReq -> bool).

(** C7: with the permissions that ship, every call of the clients service
    runs exactly where the user, or her token, has the permission of the
    matrix on the entity of the call, and else ends with an error; lists are
    unrestricted and see more for an administrator of the platform.  To take
    the parent from a client needs a permission on the parent too, which is
    looked up in between; for it a token needs the scope of any entity. *)
Theorem clients_access_matrix
    (az_decides : forall r p, decides view (Authorize (az am) r p) id (fun v => permit v r p))
    (shipped : entitiesOps am = entities_of (wiring.clients_newService shipped.config)) s :
  let may := may permit s in let d := authn.DomainID s in
  let clients name entity := (pat.ClientsType, name, entity) in
  (forall cs, monitored view (CreateClients am s cs) (svc_CreateClients (svc am) s cs) snd
     (may "client_create_permission" policies.DomainType d (clients "create_clients" "*")))
  /\ (forall id b, monitored view (View am s id b) (svc_View (svc am) s id b) snd
     (may "read_permission" policies.ClientType id (clients "view" id)))
  /\ (forall c, monitored view (Update am s c) (svc_Update (svc am) s c) snd
     (may "update_permission" policies.ClientType (clients.ID c) (clients "update" (clients.ID c))))
  /\ (forall c, monitored view (UpdateTags am s c) (svc_UpdateTags (svc am) s c) snd
     (may "update_permission" policies.ClientType (clients.ID c) (clients "update_tags" (clients.ID c))))
  /\ (forall id key, monitored view (UpdateSecret am s id key) (svc_UpdateSecret (svc am) s id key) snd
     (may "update_permission" policies.ClientType id (clients "update_secret" id)))
  /\ (forall id, monitored view (Enable am s id) (svc_Enable (svc am) s id) snd
     (may "update_permission" policies.ClientType id (clients "enable" id)))
  /\ (forall id, monitored view (Disable am s id) (svc_Disable (svc am) s id) snd
     (may "update_permission" policies.ClientType id (clients "disable" id)))
  /\ (forall id, monitored view (Delete am s id) (svc_Delete (svc am) s id) Datatypes.id
     (may "delete_permission" policies.ClientType id (clients "delete" id)))
  /\ (forall g id, monitored view (SetParentGroup am s g id) (svc_SetParentGroup (svc am) s g id) Datatypes.id (fun v =>
       may "set_parent_group_permission" policies.ClientType id (clients "set_parent_group" id) v
       && may "set_child_permission" policies.GroupType g (clients "set_child_client" g) v))
  /\ (forall id, exists remove, (forall g, monitored view (remove g) (svc_RemoveParentGroup (svc am) s id) Datatypes.id
         (may "set_child_permission" policies.GroupType g (clients "remove_child_client" "*")))
       /\ monitored view (RemoveParentGroup am s id)
            ('(th, e) <- clients.RetrieveByID (repo am) id ;;
             if_err e return_ ret (WrapE svcerr.ErrRemoveEntity e) ;;
             if clients.ParentGroup th <>s "" then remove (clients.ParentGroup th) else ret None) Datatypes.id
            (may "set_parent_group_permission" policies.ClientType id (clients "remove_parent_group" id)))
  /\ (forall u pm, monitored view (ListUserClients am s u pm) (svc_ListUserClients (svc am) s u pm) snd (superAdmin permit s))
  /\ (forall pm, elevated view permit s (ListClients am s pm) (fun s => svc_ListClients (svc am) s pm)).
Proof.
  cbv zeta. split_and!; intros; unfold CreateClients, View, Update, UpdateTags, UpdateSecret, Enable, Disable, Delete,
    SetParentGroup; try monitor_step shipped.
  - apply monitored_step1; [|not_nil]. check_shipped shipped.
  - eexists (fun g => e <- authorize am s policies.GroupType groups_ops.OpGroupRemoveChildClient (mw.req s policies.GroupType g) ;;
                     if_err e return_ ret (Wrap e (Some errGroupRemoveChildClients)) ;; svc_RemoveParentGroup (svc am) s id).
    split; [intros g|]; unfold RemoveParentGroup; monitor_step shipped.
  - unfold ListUserClients. apply monitored_step1; [apply checkSuperAdmin_decides; exact az_decides|not_nil].
  - apply asSuperAdmin_elevated; exact az_decides.
Qed.
End clients_matrix.

(** ** The access matrix of the channels service *)
Section channels_matrix.
Import authz channels_mw.
Context {W V : Type} (view : W -> V) (am : authorizationMiddleware W) (permit : V -> PolicyReq -> option PATReq -> bool).

(** C32: the same for the channels service: to connect clients to channels
    needs a permission on every one of the channels and of the clients. *)
Theorem channels_access_matrix
    (az_decides : forall r p, decides view (Authorize (az am) r p) id (fun v => permit v r p))
    (shipped : entitiesOps am = entities_of (wiring.channels_newService shipped.config)) s :
  let may := may permit s in let d := authn.DomainID s in
  let channels name entity := (pat.ChannelsType, name, entity) in
  let set_child g := may "set_child_permission" policies.GroupType g (channels "set_child_channel" g) in
  (forall cs, monitored view (CreateChannels am s cs) (svc_CreateChannels (svc am) s cs) snd (fun v =>
     may "channel_create_permission" policies.DomainType d (channels "create_channels" "*") v
     && forallb (fun c => if channels.ParentGroup c <>s "" then set_child (channels.ParentGroup c) v else true) cs))
  /\ (forall id b, monitored view (ViewChannel am s id b) (svc_ViewChannel (svc am) s id b) snd
     (may "read_permission" policies.ChannelType id (channels "view" id)))
  /\ (forall c, monitored view (UpdateChannel am s c) (svc_UpdateChannel (svc am) s c) snd
     (may "update_permission" policies.ChannelType (channels.ID c) (channels "update" (channels.ID c))))
  /\ (forall c, monitored view (UpdateChannelTags am s c) (svc_UpdateChannelTags (svc am) s c) snd
     (may "update_permission" policies.ChannelType (channels.ID c) (channels "update_tags" (channels.ID c))))
  /\ (forall id, monitored view (EnableChannel am s id) (svc_EnableChannel (svc am) s id) snd
     (may "update_permission" policies.ChannelType id (channels "enable" id)))
  /\ (forall id, monitored view (DisableChannel am s id) (svc_DisableChannel (svc am) s id) snd
     (may "update_permission" policies.ChannelType id (channels "disable" id)))
  /\ (forall id, monitored view (RemoveChannel am s id) (svc_RemoveChannel (svc am) s id) Datatypes.id
     (may "delete_permission" policies.ChannelType id (channels "delete" id)))
  /\ (forall chs ths ts, monitored view (Connect am s chs ths ts) (svc_Connect (svc am) s chs ths ts) Datatypes.id (fun v =>
       forallb (fun c => may "connect_to_client_permission" policies.ChannelType c (channels "connect_client" c) v) chs
       && forallb (fun t => may "connect_to_channel_permission" policies.ClientType t (channels "connect_to_channel" t) v) ths))
  /\ (forall chs ths ts, monitored view (Disconnect am s chs ths ts) (svc_Disconnect (svc am) s chs ths ts) Datatypes.id (fun v =>
       forallb (fun c => may "connect_to_client_permission" policies.ChannelType c (channels "disconnect_client" c) v) chs
       && forallb (fun t => may "connect_to_channel_permission" policies.ClientType t (channels "disconnect_from_channel" "*") v) ths))
  /\ (forall g id, monitored view (SetParentGroup am s g id) (svc_SetParentGroup (svc am) s g id) Datatypes.id (fun v =>
       may "set_parent_group_permission" policies.ChannelType id (channels "set_parent_group" id) v && set_child g v))
  /\ (forall id, exists remove, (forall g, monitored view (remove g) (svc_RemoveParentGroup (svc am) s id) Datatypes.id
         (may "set_child_permission" policies.GroupType g (channels "remove_child_channel" "*")))
       /\ monitored view (RemoveParentGroup am s id)
            ('(ch, e) <- channels.RetrieveByID (repo am) id ;;
             if_err e return_ ret (WrapE svcerr.ErrRemoveEntity e) ;;
             if channels.ParentGroup ch <>s "" then remove (channels.ParentGroup ch) else ret None) Datatypes.id
            (may "set_parent_group_permission" policies.ChannelType id (channels "set_parent_group" id)))
  /\ (forall u pm, monitored view (ListUserChannels am s u pm) (svc_ListUserChannels (svc am) s u pm) snd (superAdmin permit s))
  /\ (forall pm, elevated view permit s (ListChannels am s pm) (fun s => svc_ListChannels (svc am) s pm)).
Proof.
  assert (all : forall et op wrapper ids perm name entity,
    (forall x, decides view (authorize am s et op (mw.req s et x)) id (may permit s perm et x (pat.ChannelsType, name, entity x))) ->
    decides view (authorizeAll am s et op wrapper ids) id
      (fun v => forallb (fun x => may permit s perm et x (pat.ChannelsType, name, entity x) v) ids)).
  { intros et op wrapper ids perm name entity H. unfold authorizeAll.
    apply (decides_for_each view ids (fun x => authorize am s et op (mw.req s et x))
      (fun x => may permit s perm et x (pat.ChannelsType, name, entity x)) (fun _ e => Wrap e (Some wrapper)) H).
    intros _ e. exact (WrapE_not_nil e _). }
  cbv zeta. split_and!; intros; unfold CreateChannels, ViewChannel, UpdateChannel, UpdateChannelTags, EnableChannel,
    DisableChannel, RemoveChannel, SetParentGroup; try monitor_step shipped.
  - eapply monitored_ext; [intros v; apply andb_true_r|].
    apply monitored_for_each with (b := fun c v => if channels.ParentGroup c <>s "" then
      may permit s "set_child_permission" policies.GroupType (channels.ParentGroup c)
        (pat.ChannelsType, "set_child_channel", channels.ParentGroup c) v else true).
    + intros c. destruct (channels.ParentGroup c <>s ""); [check_shipped shipped|apply (decides_ret view None)].
    + intros c e. exact (WrapE_not_nil e _).
    + apply monitored_run.
  - unfold Connect. apply monitored_step; [|apply monitored_step1|not_nil]; [| |not_nil]; apply all; intros x; check_shipped shipped.
  - unfold Disconnect. apply monitored_step; [|apply monitored_step1|not_nil]; [| |not_nil]; apply all with (entity := fun x => _);
      intros x; check_shipped shipped.
  - apply monitored_step1; [check_shipped shipped|not_nil].
  - eexists (fun g => e <- authorize am s policies.GroupType groups_ops.OpGroupRemoveChildChannel (mw.req s policies.GroupType g) ;;
                     if_err e return_ ret (Wrap e (Some errGroupRemoveChildChannels)) ;; svc_RemoveParentGroup (svc am) s id).
    split; [intros g|]; unfold RemoveParentGroup; monitor_step shipped.
  - unfold ListUserChannels. apply monitored_step1; [apply checkSuperAdmin_decides; exact az_decides|not_nil].
  - apply asSuperAdmin_elevated; exact az_decides.
Qed.
End channels_matrix.

(** ** The access matrix of the groups service *)
Section groups_matrix.
Import authz groups_mw.
Context {W V : Type} (view : W -> V) (am : authorizationMiddleware W) (permit : V -> PolicyReq -> option PATReq -> bool).

(** C33: the same for the groups service: to link a group to a parent needs a
    permission on both.  Two entries are not what they seem to mean: the
    parent is taken from a group with the permission to set the parent of the
    parent group, and an administrator of the platform who lists the groups
    of a user gets all groups. *)
Theorem groups_access_matrix
    (az_decides : forall r p, decides view (Authorize (az am) r p) id (fun v => permit v r p))
    (shipped : entitiesOps am = entities_of (wiring.groups_newService shipped.config)) s :
  let may := may permit s in let mayK := mayK permit s in let d := authn.DomainID s in
  let groups name entity := (pat.GroupsType, name, entity) in
  let admin := s <| authn.SuperAdmin := true |> in
  let list := mayK "group_read_permission" policies.DomainType d (groups "list_groups" "*") in
  let g := policies.GroupType in
  (forall x, monitored view (CreateGroup am s x) (svc_CreateGroup (svc am) s x) snd (fun v =>
     mayK "group_create_permission" policies.DomainType d (groups "create_groups" "*") v
     && if groups.Parent x <>s "" then mayK "set_child_permission" g (groups.Parent x) (groups "add_children_groups" (groups.Parent x)) v
        else true))
  /\ (forall x, monitored view (UpdateGroup am s x) (svc_UpdateGroup (svc am) s x) snd
     (mayK "update_permission" g (groups.ID x) (groups "update" (groups.ID x))))
  /\ (forall x, monitored view (UpdateGroupTags am s x) (svc_UpdateGroupTags (svc am) s x) snd
     (may "update_permission" g (groups.ID x) (groups "update_tags" (groups.ID x))))
  /\ (forall id b, monitored view (ViewGroup am s id b) (svc_ViewGroup (svc am) s id b) snd
     (mayK "read_permission" g id (groups "view" id)))
  /\ (forall id, monitored view (EnableGroup am s id) (svc_EnableGroup (svc am) s id) snd
     (may "update_permission" g id (groups "enable" id)))
  /\ (forall id, monitored view (DisableGroup am s id) (svc_DisableGroup (svc am) s id) snd
     (may "update_permission" g id (groups "disable" id)))
  /\ (forall id, monitored view (DeleteGroup am s id) (svc_DeleteGroup (svc am) s id) Datatypes.id
     (may "delete_permission" g id (groups "delete" id)))
  /\ (forall id hm, monitored view (RetrieveGroupHierarchy am s id hm) (svc_RetrieveGroupHierarchy (svc am) s id hm) snd
     (may "read_permission" g id (groups "retrieve_group_hierarchy" id)))
  /\ (forall id p, monitored view (AddParentGroup am s id p) (svc_AddParentGroup (svc am) s id p) Datatypes.id (fun v =>
       may "set_parent_permission" g id (groups "add_parent_group" id) v
       && may "set_child_permission" g p (groups "add_children_groups" p) v))
  /\ (forall id, exists remove, (forall p, monitored view (remove p) (svc_RemoveParentGroup (svc am) s id) Datatypes.id
         (fun v => if p <>s "" then may "set_parent_permission" g p (groups "remove_parent_group" p) v else true))
       /\ monitored view (RemoveParentGroup am s id)
            ('(x, e) <- groups.RetrieveByID (repo am) id ;;
             if_err e return_ ret (WrapE svcerr.ErrViewEntity e) ;;
             remove (groups.Parent x)) Datatypes.id
            (may "set_parent_permission" g id (groups "remove_parent_group" id)))
  /\ (forall id cs, monitored view (AddChildrenGroups am s id cs) (svc_AddChildrenGroups (svc am) s id cs) Datatypes.id (fun v =>
       may "set_child_permission" g id (groups "add_children_groups" id) v
       && forallb (fun c => may "set_parent_permission" g c (groups "add_parent_group" c) v) cs))
  /\ (forall id cs, monitored view (RemoveChildrenGroups am s id cs) (svc_RemoveChildrenGroups (svc am) s id cs) Datatypes.id
     (may "set_child_permission" g id (groups "remove_children_groups" id)))
  /\ (forall id, monitored view (RemoveAllChildrenGroups am s id) (svc_RemoveAllChildrenGroups (svc am) s id) Datatypes.id
     (may "set_child_permission" g id (groups "remove_all_children_groups" id)))
  /\ (forall id l u pm, monitored view (ListChildrenGroups am s id l u pm) (svc_ListChildrenGroups (svc am) s id l u pm) snd
     (may "read_permission" g id (groups "list_children_groups" id)))
  /\ (forall pm, exists rest, alternative view (ListGroups am s pm) (superAdmin permit s) (svc_ListGroups (svc am) admin pm) rest
       /\ monitored view rest (svc_ListGroups (svc am) s pm) snd list)
  /\ (forall u pm, exists rest, alternative view (ListUserGroups am s u pm) (superAdmin permit s) (svc_ListGroups (svc am) admin pm) rest
       /\ monitored view rest (svc_ListUserGroups (svc am) s u pm) snd list).
Proof.
  assert (super : decides view (checkSuperAdmin am s) id (superAdmin permit s))
    by (apply checkSuperAdmin_decides; exact az_decides).
  cbv zeta. split_and!; intros; unfold CreateGroup, UpdateGroup, UpdateGroupTags, ViewGroup, EnableGroup, DisableGroup,
    DeleteGroup, RetrieveGroupHierarchy, AddParentGroup, AddChildrenGroups, RemoveChildrenGroups,
    RemoveAllChildrenGroups, ListChildrenGroups; try monitor_step shipped.
  - apply monitored_step1; [|not_nil].
    destruct (groups.Parent x <>s ""); [check_shipped shipped|apply (decides_ret view None)].
  - apply monitored_step1; [check_shipped shipped|not_nil].
  - eexists (fun p => e <- (if p <>s "" then authorize am s policies.GroupType groups_ops.OpRemoveParentGroup
                                               (mw.req s policies.GroupType p) else ret None) ;;
                      if_err e return_ ret (WrapE errParentGroupRemoveChildGroup e) ;; svc_RemoveParentGroup (svc am) s id).
    split; [intros p|unfold RemoveParentGroup; monitor_step shipped].
    apply monitored_step1; [|not_nil]. destruct (p <>s ""); [check_shipped shipped|apply (decides_ret view None)].
  - eapply monitored_ext; [intros v; apply andb_true_r|].
    apply monitored_for_each with (b := fun c => may permit s "set_parent_permission" policies.GroupType c
      (pat.GroupsType, "add_parent_group", c)).
    + intros c. check_shipped shipped.
    + intros c e. apply WrapE_not_nil.
    + apply monitored_run.
  - eexists. split; [apply (alternative_step view); exact super|monitor_step shipped].
  - eexists. split; [apply (alternative_step view); exact super|monitor_step shipped].
Qed.
End groups_matrix.

(** ** The access matrix of the domains service *)
Section domains_matrix.
Import authz domains_mw.
Context {W V : Type} (view : W -> V) (am : authorizationMiddleware W) (permit : V -> PolicyReq -> option PATReq -> bool).

(** The administrator of the domain of the session, or of the platform, in
    person. *)
Definition domainAdmin (s : authn.Session) (v : V) : bool :=
  permit v (PolicyReq0 <| SubjectType := policies.UserType |> <| SubjectKind := policies.UsersKind |>
              <| Subject := authn.DomainUserID s |> <| Permission := policies.AdminPermission |>
              <| ObjectType := policies.DomainType |> <| Object := authn.DomainID s |>) None
  || permit v (platformReq s) None.

(** C35: the same for the domains service.  To freeze a domain and to view
    any domain as an administrator of the platform no scope of the token is
    asked for; creating domains and answering invitations is unrestricted. *)
Theorem domains_access_matrix
    (az_decides : forall r p, decides view (Authorize (az am) r p) id (fun v => permit v r p))
    (shipped : entitiesOps am = entities_of (wiring.domains_newService shipped.config)) s :
  let may := mayK permit s in let d := authn.DomainID s in
  let domains name entity := (pat.DomainsType, name, entity) in
  let admin := s <| authn.SuperAdmin := true |> in
  (forall id b, exists rest, alternative view (RetrieveDomain am s id b) (superAdmin permit s) (svc_RetrieveDomain (svc am) admin id b) rest
     /\ monitored view rest (svc_RetrieveDomain (svc am) s id b) snd
          (may "read_permission" policies.DomainType id (domains "read" id)))
  /\ (forall id x, monitored view (UpdateDomain am s id x) (svc_UpdateDomain (svc am) s id x) snd
     (may "update_permission" policies.DomainType id (domains "update" id)))
  /\ (forall id, monitored view (EnableDomain am s id) (svc_EnableDomain (svc am) s id) snd
     (may "enable_permission" policies.DomainType id (domains "enable" id)))
  /\ (forall id, monitored view (DisableDomain am s id) (svc_DisableDomain (svc am) s id) snd
     (may "disable_permission" policies.DomainType id (domains "disable" id)))
  /\ (forall id, monitored view (FreezeDomain am s id) (svc_FreezeDomain (svc am) s id) snd (fun v => permit v (platformReq s) None))
  /\ (forall i, monitored view (SendInvitation am s i) (svc_SendInvitation (svc am) s i) snd (fun v =>
       may "manage_role_permission" policies.DomainType d (domains "send_invitation" d) v && domainAdmin s v))
  /\ (forall p, monitored view (ListDomainInvitations am s p) (svc_ListDomainInvitations (svc am) s p) snd
     (may "manage_role_permission" policies.DomainType d (domains "list_domain_invitation" d)))
  /\ (forall u i, monitored view (DeleteInvitation am s u i) (svc_DeleteInvitation (svc am) s u i) Datatypes.id
     (may "manage_role_permission" policies.DomainType d (domains "delete_invitation" d)))
  /\ (forall p, elevated view permit s (ListDomains am s p) (fun s => svc_ListDomains (svc am) s p))
  /\ (forall x, CreateDomain am s x = svc_CreateDomain (svc am) s x)
  /\ (forall i, AcceptInvitation am s i = svc_AcceptInvitation (svc am) s i)
  /\ (forall i, RejectInvitation am s i = svc_RejectInvitation (svc am) s i)
  /\ (forall p, ListInvitations am s p = svc_ListInvitations (svc am) s p).
Proof.
  assert (super : decides view (checkSuperAdmin am s) id (superAdmin permit s))
    by (apply checkSuperAdmin_decides; exact az_decides).
  assert (admin : decides view (checkAdmin am s) id (domainAdmin s)).
  { intros w. unfold checkAdmin, domainAdmin. cbv zeta.
    match goal with |- context [Authorize (az am) ?r None] =>
      destruct (decides_run view _ id _ w (az_decides r None)) as (e & w1 & Hw & Hv & He) end.
    destruct (decides_run view _ id _ w1 (az_decides (platformReq s) None)) as (e2 & w2 & Hw2 & Hv2 & He2).
    rewrite Hv in He2, Hv2. rewrite <- He, <- He2. unfold bind, ret, id in *. rewrite Hw. clear shipped.
    destruct e; simpl; [|by split]. rewrite Hw2. by destruct e2. }
  assert (ask : forall op x perm name,
    entities_GetPermission (entitiesOps am) policies.DomainType op = (perm, None) ->
    entities_OperationName (entitiesOps am) policies.DomainType op = name ->
    decides view (authorize am s policies.DomainType op (domainReq s x)) id
      (mayK permit s perm policies.DomainType x (pat.DomainsType, name, x))).
  { intros op x perm name Hp Hn. exact (authorize_as view (az am) permit az_decides (entitiesOps am) pat.DomainsType []
      s policies.DomainType op (domainReq s x) perm name x Hp Hn eq_refl). }
  cbv zeta. split_and!; intros; try reflexivity;
    unfold UpdateDomain, EnableDomain, DisableDomain, SendInvitation, ListDomainInvitations, DeleteInvitation;
    try ((first [apply monitored_step1; [|not_nil] | apply monitored_step; [| |not_nil]]);
         [apply ask; rewrite shipped; vm_compute; reflexivity|..]).
  - eexists. split; [apply (alternative_step view); exact super|]. apply monitored_step1; [|not_nil].
    apply ask; rewrite shipped; vm_compute; reflexivity.
  - unfold FreezeDomain. apply monitored_step1; [apply az_decides|not_nil].
  - apply monitored_step1; [exact admin|not_nil].
  - apply asSuperAdmin_elevated; exact az_decides.
Qed.
End domains_matrix.

(** ** The access matrix of the roles of an entity *)
Section roles_matrix.
Import authz rolemgr.
Context {W V : Type} (view : W -> V) (ram : RoleManagerAuthorizationMiddleware W) (permit : V -> PolicyReq -> option PATReq -> bool).

(** A user has the permission on the entity; a token also needs the scope of
    the operation on roles, and there is none for the roles of a domain. *)
Definition mayRole (s : authn.Session) (perm operation entity : string) (v : V) : bool :=
  let r := (roleReq ram s entity) <| Permission := perm |> in
  if authn.PatID s <>s "" then
    match patEntityType (entityType ram) with
    | Some t => permit v r (Some (MkPATReq (authn.PatID s) (authn.DomainID s) ("role_" +:+ operation) (authn.UserID s) entity t))
    | None => false
    end
  else permit v r None.

(** The permissions on roles are the same for the four kinds of entities. *)
Lemma same_role_operations : Forall (eq (roles_of (wiring.clients_newService shipped.config)))
  (map roles_of [wiring.channels_newService shipped.config; wiring.groups_newService shipped.config;
                 wiring.domains_newService shipped.config]).
Proof. vm_compute. repeat constructor. Qed.

Lemma role_authorize_decides s op entity perm operation
    (az_decides : forall r p, decides view (Authorize (ram_authz ram) r p) id (fun v => permit v r p)) :
  GetPermission (ops ram) op = (perm, None) -> OperationName (ops ram) op = operation ->
  decides view (authorize ram s op (roleReq ram s entity)) id (mayRole s perm operation entity).
Proof.
  intros Hp Ho. unfold authorize, mayRole. rewrite Hp, Ho. cbv zeta.
  assert (Hask : forall p, decides view (e <- Authorize (ram_authz ram) ((roleReq ram s entity) <| Permission := perm |>) p ;;
      if_err e return_ ret (WrapE errs.ErrAuthorization e) ;; ret None) id
      (fun v => permit v ((roleReq ram s entity) <| Permission := perm |>) p)).
  { intros p. eapply decides_ext; [intros v; apply andb_true_r|].
    eapply decides_step with (f := id); [apply az_decides| |].
    - intros [e|] He; [apply decides_error, WrapE_not_nil|done].
    - intros ? [= ->]. apply (decides_ret view None). }
  destruct (authn.PatID s <>s ""); [|exact (Hask None)].
  match goal with |- context [patEntityType ?x] => change x with (entityType ram) end.
  destruct (patEntityType (entityType ram)) as [t|]; [exact (Hask (Some _))|].
  match goal with |- context [WrapE ?a ?b] => pose proof (WrapE_not_nil a b); destruct (WrapE a b) end; [|done].
  by apply decides_error.
Qed.

(** C34: who manages the roles of an entity: adding, changing and removing
    roles needs one permission, looking at them another, adding members a
    third and removing them a fourth; a new member must be a member of the
    domain, or of the platform for the roles of a domain. *)
Theorem roles_access_matrix
    (az_decides : forall r p, decides view (Authorize (ram_authz ram) r p) id (fun v => permit v r p))
    (shipped : ops ram = roles_of (wiring.clients_newService shipped.config)) s :
  let manage := mayRole s "manage_role_permission" in let look := mayRole s "view_role_users_permission" in
  let add := mayRole s "add_role_users_permission" in let remove := mayRole s "remove_role_users_permission" in
  let members ms v := forallb (fun m => permit v (memberReq ram s m) None) ms in
  (forall e n a ms, monitored view (AddRole ram s e n a ms) (svc_AddRole (svc ram) s e n a ms) snd (fun v => manage "add" e v && members ms v))
  /\ (forall e r, monitored view (RemoveRole ram s e r) (svc_RemoveRole (svc ram) s e r) Datatypes.id (manage "remove" e))
  /\ (forall e r n, monitored view (UpdateRoleName ram s e r n) (svc_UpdateRoleName (svc ram) s e r n) snd (manage "update" e))
  /\ (forall e r, monitored view (RetrieveRole ram s e r) (svc_RetrieveRole (svc ram) s e r) snd (look "retrieve" e))
  /\ (forall e l o, monitored view (RetrieveAllRoles ram s e l o) (svc_RetrieveAllRoles (svc ram) s e l o) snd (look "retrieve_all" e))
  /\ (forall e r a, monitored view (RoleAddActions ram s e r a) (svc_RoleAddActions (svc ram) s e r a) snd (manage "add_actions" e))
  /\ (forall e r, monitored view (RoleListActions ram s e r) (svc_RoleListActions (svc ram) s e r) snd (look "list_actions" e))
  /\ (forall e r a, monitored view (RoleCheckActionsExists ram s e r a) (svc_RoleCheckActionsExists (svc ram) s e r a) snd
        (look "check_actions_exists" e))
  /\ (forall e r a, monitored view (RoleRemoveActions ram s e r a) (svc_RoleRemoveActions (svc ram) s e r a) Datatypes.id
        (manage "remove_actions" e))
  /\ (forall e r, monitored view (RoleRemoveAllActions ram s e r) (svc_RoleRemoveAllActions (svc ram) s e r) Datatypes.id
        (manage "remove_all_actions" e))
  /\ (forall e r ms, monitored view (RoleAddMembers ram s e r ms) (svc_RoleAddMembers (svc ram) s e r ms) snd
        (fun v => add "add_members" e v && members ms v))
  /\ (forall e r l o, monitored view (RoleListMembers ram s e r l o) (svc_RoleListMembers (svc ram) s e r l o) snd (look "list_members" e))
  /\ (forall e r ms, monitored view (RoleCheckMembersExists ram s e r ms) (svc_RoleCheckMembersExists (svc ram) s e r ms) snd
        (look "check_members_exists" e))
  /\ (forall e r ms, monitored view (RoleRemoveMembers ram s e r ms) (svc_RoleRemoveMembers (svc ram) s e r ms) Datatypes.id
        (remove "remove_members" e))
  /\ (forall e r, monitored view (RoleRemoveAllMembers ram s e r) (svc_RoleRemoveAllMembers (svc ram) s e r) Datatypes.id
        (remove "remove_all_members" e))
  /\ (forall e q, monitored view (ListEntityMembers ram s e q) (svc_ListEntityMembers (svc ram) s e q) snd (look "list_members" e))
  /\ (forall e ms, monitored view (RemoveEntityMembers ram s e ms) (svc_RemoveEntityMembers (svc ram) s e ms) Datatypes.id
        (remove "remove_all_members" e))
  /\ (forall m, RemoveMemberFromAllRoles ram s m = svc_RemoveMemberFromAllRoles (svc ram) s m)
  /\ ListAvailableActions ram s = svc_ListAvailableActions (svc ram) s.
Proof.
  assert (members : forall ms, decides view (validateMembers ram s ms) id (fun v => forallb (fun m => permit v (memberReq ram s m) None) ms)).
  { intros ms. unfold validateMembers.
    apply (decides_for_each view ms (fun m => Authorize (ram_authz ram) (memberReq ram s m) None)
      (fun m v => permit v (memberReq ram s m) None)
      (fun _ e => WrapE (if entityType ram =s policies.DomainType then errs.ErrMissingMember else errs.ErrMissingDomainMember) e)).
    - intros m. apply az_decides.
    - intros m e. apply WrapE_not_nil. }
  cbv zeta. split_and!; intros; try reflexivity;

    unfold AddRole, RemoveRole, UpdateRoleName, RetrieveRole, RetrieveAllRoles, RoleAddActions, RoleListActions,
      RoleCheckActionsExists, RoleRemoveActions, RoleRemoveAllActions, RoleAddMembers, RoleListMembers,
      RoleCheckMembersExists, RoleRemoveMembers, RoleRemoveAllMembers, ListEntityMembers, RemoveEntityMembers;
    first [ apply monitored_step1; [|not_nil] | apply monitored_step; [|apply monitored_step1; [apply members|not_nil]|not_nil] ];
    (apply role_authorize_decides; [exact az_decides|rewrite shipped; vm_compute; reflexivity
                                   |rewrite shipped; vm_compute; reflexivity]).
Qed.
End roles_matrix.

(** ** The access matrix of the users service *)
Section users_matrix.
Import authz users_mw.
Context {W V : Type} (view : W -> V) (am : authorizationMiddleware W) (permit : V -> PolicyReq -> option PATReq -> bool).

(** Of the users service only the change of a role is guarded, by the
    administrator of the platform (and the scope of a token).  The other
    calls run with the session of an administrator where it is one, decided
    by the user's role and policy alone: no scope of a personal access token
    is asked for.  A policy is added for an external login only where the
    user is not a member of the platform yet. *)
Theorem users_access_matrix
    (az_decides : forall r p, decides view (Authorize (az am) r p) id (fun v => permit v r p)) s :
  let elevated {A} := @elevated W V view permit A s in
  let member session u v := permit v (PolicyReq0 <| SubjectType := policies.UserType |> <| SubjectKind := policies.UsersKind |>
      <| Subject := u |> <| Permission := policies.MembershipPermission |> <| ObjectType := policies.PlatformType |>
      <| Object := policies.SuperMQObject |>)
    (if authn.PatID session <>s "" then
       Some (MkPATReq (authn.PatID session) "" policies.MembershipPermission (authn.UserID session) u "users") else None) in
  (forall u, monitored view (UpdateRole am s u) (svc_UpdateRole (svc am) (s <| authn.SuperAdmin := true |>) u) snd
     (fun v => superAdmin permit s v && member s (users.ID u) v))
  /\ (forall u, alternative view (OAuthAddUserPolicy am u) (member authn.Session0 (users.ID u)) (ret None)
                  (svc_OAuthAddUserPolicy (svc am) u))
  /\ (forall u, elevated (Register am s u true) (fun s => svc_Register (svc am) s u true))
  /\ (forall u, Register am s u false = svc_Register (svc am) s u false)
  /\ (forall id, elevated (View am s id) (fun s => svc_View (svc am) s id))
  /\ (forall pm, elevated (ListUsers am s pm) (fun s => svc_ListUsers (svc am) s pm))
  /\ (forall id u, elevated (Update am s id u) (fun s => svc_Update (svc am) s id u))
  /\ (forall id u, elevated (UpdateTags am s id u) (fun s => svc_UpdateTags (svc am) s id u))
  /\ (forall id e, elevated (UpdateEmail am s id e) (fun s => svc_UpdateEmail (svc am) s id e))
  /\ (forall id n, elevated (UpdateUsername am s id n) (fun s => svc_UpdateUsername (svc am) s id n))
  /\ (forall id u, elevated (UpdateProfilePicture am s id u) (fun s => svc_UpdateProfilePicture (svc am) s id u))
  /\ (forall id, elevated (Enable am s id) (fun s => svc_Enable (svc am) s id))
  /\ (forall id, elevated (Disable am s id) (fun s => svc_Disable (svc am) s id))
  /\ (forall id, elevated (Delete am s id) (fun s => svc_Delete (svc am) s id))
  /\ (forall o n, UpdateSecret am s o n = svc_UpdateSecret (svc am) s o n).
Proof.
  assert (member : forall session u, decides view (authorizeMember am session u) id (fun v =>
    permit v (PolicyReq0 <| SubjectType := policies.UserType |> <| SubjectKind := policies.UsersKind |>
      <| Subject := u |> <| Permission := policies.MembershipPermission |> <| ObjectType := policies.PlatformType |>
      <| Object := policies.SuperMQObject |>)
    (if authn.PatID session <>s "" then
       Some (MkPATReq (authn.PatID session) "" policies.MembershipPermission (authn.UserID session) u "users") else None))).
  { intros session u. unfold authorizeMember, authorize. cbv zeta.
    eapply decides_ext; [intros v; apply andb_true_r|]. eapply decides_step with (f := id); [apply az_decides| |].
    - intros [e|] He; [by apply decides_error|done].
    - intros ? [= ->]. apply (decides_ret view None). }
  cbv zeta. split_and!; intros; try reflexivity.
  - unfold UpdateRole. apply monitored_step; [by apply checkSuperAdmin_decides| |done].
    apply monitored_step1; [exact (member (s <| authn.SuperAdmin := true |>) (users.ID u))|done].
  - apply (alternative_step view), member.
  - by apply asSuperAdmin_elevated.
  - by apply asSuperAdmin_elevated.
  - by apply asSuperAdmin_elevated.
  - by apply asSuperAdmin_elevated.
  - by apply asSuperAdmin_elevated.
  - by apply asSuperAdmin_elevated.
  - by apply asSuperAdmin_elevated.
  - by apply asSuperAdmin_elevated.
  - by apply asSuperAdmin_elevated.
  - by apply asSuperAdmin_elevated.
  - by apply asSuperAdmin_elevated.
Qed.
End users_matrix.

(** ** The services behind the middlewares, as src/cmd/*/main.go puts them *)
Module services.
Section services.
Context {W : Type} (now : St W Time).

Definition roles_manager (p : roles.ProvisionManageService W) : rolemgr.RoleManager W := {|
  rolemgr.svc_AddRole := roles.AddRole now p; rolemgr.svc_RemoveRole := roles.RemoveRole p;
  rolemgr.svc_UpdateRoleName := roles.UpdateRoleName now p; rolemgr.svc_RetrieveRole := roles.RetrieveRole p;
  rolemgr.svc_RetrieveAllRoles := roles.RetrieveAllRoles p; rolemgr.svc_ListAvailableActions := roles.ListAvailableActions p;
  rolemgr.svc_RoleAddActions := roles.RoleAddActions now p; rolemgr.svc_RoleListActions := roles.RoleListActions p;
  rolemgr.svc_RoleCheckActionsExists := roles.RoleCheckActionsExists p;
  rolemgr.svc_RoleRemoveActions := roles.RoleRemoveActions now p;
  rolemgr.svc_RoleRemoveAllActions := roles.RoleRemoveAllActions now p;
  rolemgr.svc_RoleAddMembers := roles.RoleAddMembers now p; rolemgr.svc_RoleListMembers := roles.RoleListMembers p;
  rolemgr.svc_RoleCheckMembersExists := roles.RoleCheckMembersExists p;
  rolemgr.svc_RoleRemoveAllMembers := roles.RoleRemoveAllMembers now p;
  rolemgr.svc_ListEntityMembers := roles.ListEntityMembers p; rolemgr.svc_RemoveEntityMembers := roles.RemoveEntityMembers p;
  rolemgr.svc_RoleRemoveMembers := roles.RoleRemoveMembers now p;
  rolemgr.svc_RemoveMemberFromAllRoles := roles.RemoveMemberFromAllRoles p |}.

Definition clients_service (s : clients.service W) : clients_mw.Service W := {|
  clients_mw.svc_CreateClients := clients.CreateClients now s; clients_mw.svc_View := clients.View s;
  clients_mw.svc_ListClients := clients.ListClients s; clients_mw.svc_ListUserClients := clients.ListUserClients s;
  clients_mw.svc_Update := clients.Update now s; clients_mw.svc_UpdateTags := clients.UpdateTags now s;
  clients_mw.svc_UpdateSecret := clients.UpdateSecret now s; clients_mw.svc_Enable := clients.Enable now s;
  clients_mw.svc_Disable := clients.Disable now s; clients_mw.svc_Delete := clients.Delete s;
  clients_mw.svc_SetParentGroup := clients.SetParentGroup now s;
  clients_mw.svc_RemoveParentGroup := clients.RemoveParentGroup now s |}.

Definition channels_service (s : channels.service W) : channels_mw.Service W := {|
  channels_mw.svc_CreateChannels := channels.CreateChannels now s; channels_mw.svc_ViewChannel := channels.ViewChannel s;
  channels_mw.svc_ListChannels := channels.ListChannels s; channels_mw.svc_ListUserChannels := channels.ListUserChannels s;
  channels_mw.svc_UpdateChannel := channels.UpdateChannel now s;
  channels_mw.svc_UpdateChannelTags := channels.UpdateChannelTags now s;
  channels_mw.svc_EnableChannel := channels.EnableChannel now s; channels_mw.svc_DisableChannel := channels.DisableChannel now s;
  channels_mw.svc_RemoveChannel := channels.RemoveChannel s; channels_mw.svc_Connect := channels.Connect s;
  channels_mw.svc_Disconnect := channels.Disconnect s; channels_mw.svc_SetParentGroup := channels.SetParentGroup now s;
  channels_mw.svc_RemoveParentGroup := channels.RemoveParentGroup now s |}.

Definition groups_service (s : groups.service W) : groups_mw.Service W := {|
  groups_mw.svc_CreateGroup := groups.CreateGroup now s; groups_mw.svc_UpdateGroup := groups.UpdateGroup now s;
  groups_mw.svc_UpdateGroupTags := groups.UpdateGroupTags now s; groups_mw.svc_ViewGroup := groups.ViewGroup s;
  groups_mw.svc_ListGroups := groups.ListGroups s; groups_mw.svc_ListUserGroups := groups.ListUserGroups s;
  groups_mw.svc_EnableGroup := groups.EnableGroup now s; groups_mw.svc_DisableGroup := groups.DisableGroup now s;
  groups_mw.svc_DeleteGroup := groups.DeleteGroup s; groups_mw.svc_RetrieveGroupHierarchy := groups.RetrieveGroupHierarchy s;
  groups_mw.svc_AddParentGroup := groups.AddParentGroup s; groups_mw.svc_RemoveParentGroup := groups.RemoveParentGroup s;
  groups_mw.svc_AddChildrenGroups := groups.AddChildrenGroups s;
  groups_mw.svc_RemoveChildrenGroups := groups.RemoveChildrenGroups s;
  groups_mw.svc_RemoveAllChildrenGroups := groups.RemoveAllChildrenGroups s;
  groups_mw.svc_ListChildrenGroups := groups.ListChildrenGroups s |}.

Definition domains_service (s : domains.service W) : domains_mw.Service W := {|
  domains_mw.svc_CreateDomain := domains.CreateDomain now s; domains_mw.svc_RetrieveDomain := domains.RetrieveDomain s;
  domains_mw.svc_UpdateDomain := domains.UpdateDomain now s; domains_mw.svc_EnableDomain := domains.EnableDomain now s;
  domains_mw.svc_DisableDomain := domains.DisableDomain now s; domains_mw.svc_FreezeDomain := domains.FreezeDomain now s;
  domains_mw.svc_ListDomains := domains.ListDomains s; domains_mw.svc_SendInvitation := domains.SendInvitation now s;
  domains_mw.svc_ListInvitations := domains.ListInvitations s;
  domains_mw.svc_ListDomainInvitations := domains.ListDomainInvitations s;
  domains_mw.svc_AcceptInvitation := domains.AcceptInvitation now s;
  domains_mw.svc_RejectInvitation := domains.RejectInvitation now s;
  domains_mw.svc_DeleteInvitation := domains.DeleteInvitation s |}.

Definition users_service (rand_Read : nat -> St W (list ascii * error)) (NewV4 : St W (list ascii * error)) (J : users.jsonlib)
    (ParseAddress : string -> bool) (s : users.service W) : users_mw.Service W := {|
  users_mw.svc_SendVerification := users.SendVerification now rand_Read J s; users_mw.svc_VerifyEmail := users.VerifyEmail now J s;
  users_mw.svc_Register := users.Register now s; users_mw.svc_View := users.View s; users_mw.svc_ViewProfile := users.ViewProfile s;
  users_mw.svc_ListUsers := users.ListUsers s; users_mw.svc_SearchUsers := users.SearchUsers s;
  users_mw.svc_Update := users.Update now s; users_mw.svc_UpdateTags := users.UpdateTags now s;
  users_mw.svc_UpdateEmail := users.UpdateEmail now s; users_mw.svc_UpdateUsername := users.UpdateUsername now s;
  users_mw.svc_UpdateProfilePicture := users.UpdateProfilePicture now s;
  users_mw.svc_SendPasswordReset := users.SendPasswordReset s; users_mw.svc_UpdateSecret := users.UpdateSecret now ParseAddress s;
  users_mw.svc_ResetSecret := users.ResetSecret now s; users_mw.svc_UpdateRole := users.UpdateRole now s;
  users_mw.svc_Enable := users.Enable now s; users_mw.svc_Disable := users.Disable now s; users_mw.svc_Delete := users.Delete now s;
  users_mw.svc_Identify := users.Identify; users_mw.svc_IssueToken := users.IssueToken ParseAddress s;
  users_mw.svc_RefreshToken := users.RefreshToken s; users_mw.svc_RevokeRefreshToken := users.RevokeRefreshToken s;
  users_mw.svc_ListActiveRefreshTokens := users.ListActiveRefreshTokens s;
  users_mw.svc_OAuthCallback := users.OAuthCallback now rand_Read NewV4 s;
  users_mw.svc_OAuthAddUserPolicy := users.OAuthAddUserPolicy s |}.
End services.
End services.

(** ** The services behind the middlewares over a concrete auth service *)
Module guards_example.
Import authz memauthz services.

(** The auth service of Authz.v, which is apart from the state of the
    services; its answers do not depend on a state. *)
Definition az {W} : Authorization W :=
  {| Authorize := fun r p w => ((authsvc.Authorize service r p memauth.s0).1, w) |}.
Definition permit {W} (v : W) : PolicyReq -> option PATReq -> bool :=
  permits (fun _ => allowed allows) (fun _ => scoped scopes) (fun _ => status statuses) v.
Lemma az_decides {W} r p : decides (fun w : W => w) (Authorize az r p) id (fun v => permit v r p).
Proof.
  intros w. destruct (authorization_decides (fun _ => tt) memauth.lib (svc allows scopes) (retrieve statuses)
    (fun _ => allowed allows) (fun _ => scoped scopes) (fun _ => status statuses) r p memauth.s0) as [_ H].
  split; [done|exact H].
Qed.

(** Alice in the domain d1, with a password and with her token t1; someone
    who is not a member. *)
Definition alice : authn.Session :=
  authn.Session0 <| authn.UserID := "alice" |> <| authn.DomainID := "d1" |> <| authn.DomainUserID := "d1_alice" |>
    <| authn.Role := authn.UserRole |>.
Definition token : authn.Session := alice <| authn.PatID := "t1" |> <| authn.Type_ := authn.PersonalAccessToken |>.

(** Runs a monitored call, its need decided by computation. *)
Ltac run_monitored H s0 :=
  let w1 := fresh in let R := fresh in
  destruct (H s0) as (w1 & -> & R);
  match type of R with if ?b then _ else _ =>
    first [change b with true in R | change b with false in R] end; cbv iota in R.

Definition client_c1 : clients.Client := clients.Client0 <| clients.ID := "c1" |>.
Definition clients_state : memclients.state := ((∅, ∅), ({[ "c1" := client_c1 ]}, ∅)).
Definition clients_am : clients_mw.authorizationMiddleware memclients.state := {|
  clients_mw.svc := clients_service memroles.now memclients.svc; clients_mw.repo := memclients.repo; clients_mw.az := az;
  clients_mw.entitiesOps := entities_of (wiring.clients_newService shipped.config) |}.

(** Alice may view the client, and so may her token; she may not delete it. *)
Lemma clients_access_matrix_witness :
  (clients_mw.View clients_am alice "c1" false clients_state).1 = (client_c1, None)
  /\ (clients_mw.View clients_am token "c1" false clients_state).1 = (client_c1, None)
  /\ (clients_mw.Delete clients_am alice "c1" clients_state).1 <> None.
Proof.
  pose proof (clients_access_matrix (fun w => w) clients_am permit az_decides eq_refl) as M. split_and!.
  - destruct (M alice) as (_ & H & _). specialize (H "c1" false). run_monitored H clients_state. by rewrite H1.
  - destruct (M token) as (_ & H & _). specialize (H "c1" false). run_monitored H clients_state. by rewrite H1.
  - destruct (M alice) as (_ & _ & _ & _ & _ & _ & _ & H & _). specialize (H "c1"). run_monitored H clients_state. apply H1.
Defined.

(** Connecting the channel, which she may connect, needs a permission on the
    client as well. *)
Definition channel_ch1 : channels.Channel := channels.Channel0 <| channels.ID := "ch1" |>.
Definition channels_state : memchannels.state := ((∅, ∅), memchannels.MkMem {[ "ch1" := channel_ch1 ]} [] [] ∅).
Definition channels_am : channels_mw.authorizationMiddleware memchannels.state := {|
  channels_mw.svc := channels_service memroles.now memchannels.svc; channels_mw.repo := memchannels.repo; channels_mw.az := az;
  channels_mw.entitiesOps := entities_of (wiring.channels_newService shipped.config) |}.
Lemma channels_access_matrix_witness :
  (channels_mw.ViewChannel channels_am alice "ch1" false channels_state).1 = (channel_ch1, None)
  /\ (channels_mw.ViewChannel channels_am token "ch1" false channels_state).1.2 <> None
  /\ (channels_mw.Connect channels_am alice ["ch1"] ["c1"] [1%N] channels_state).1 <> None.
Proof.
  pose proof (channels_access_matrix (fun w => w) channels_am permit az_decides eq_refl) as M. split_and!.
  - destruct (M alice) as (_ & H & _). specialize (H "ch1" false). run_monitored H channels_state. by rewrite H1.
  - destruct (M token) as (_ & H & _). specialize (H "ch1" false). run_monitored H channels_state. apply H1.
  - destruct (M alice) as (_ & _ & _ & _ & _ & _ & _ & H & _). specialize (H ["ch1"] ["c1"] [1%N]).
    run_monitored H channels_state. apply H1.
Defined.

Definition group_g1 : groups.Group := groups.Group0 <| groups.ID := "g1" |>.
Definition groups_state : memgroups.state := ((∅, ∅), {[ "g1" := group_g1 ]}).
Definition groups_am : groups_mw.authorizationMiddleware memgroups.state := {|
  groups_mw.svc := groups_service memroles.now (memgroups.svc false); groups_mw.repo := memgroups.repo false; groups_mw.az := az;
  groups_mw.entitiesOps := entities_of (wiring.groups_newService shipped.config) |}.
Lemma groups_access_matrix_witness :
  (groups_mw.ViewGroup groups_am alice "g1" false groups_state).1 = (group_g1, None)
  /\ (groups_mw.ViewGroup groups_am token "g1" false groups_state).1.2 <> None
  /\ (groups_mw.DeleteGroup groups_am alice "g1" groups_state).1 <> None.
Proof.
  pose proof (groups_access_matrix (fun w => w) groups_am permit az_decides eq_refl) as M. split_and!.
  - destruct (M alice) as (_ & _ & _ & H & _). specialize (H "g1" false). run_monitored H groups_state. by rewrite H1.
  - destruct (M token) as (_ & _ & _ & H & _). specialize (H "g1" false). run_monitored H groups_state. apply H1.
  - destruct (M alice) as (_ & _ & _ & _ & _ & _ & H & _). specialize (H "g1"). run_monitored H groups_state. apply H1.
Defined.

(** The administrator of the platform freezes the domain; Alice may not. *)
Definition root : authn.Session :=
  authn.Session0 <| authn.UserID := "root" |> <| authn.Role := authn.SuperAdminRole |>.
Definition domain_d1 : domains.Domain := domains.Domain0 <| domains.ID := "d1" |>.
Definition domains_state : memdomains.state := ((∅, ∅), memdomains.MkMem {[ "d1" := domain_d1 ]} ∅ ∅).
Definition domains_am : domains_mw.authorizationMiddleware memdomains.state := {|
  domains_mw.svc := domains_service memroles.now memdomains.svc; domains_mw.az := az;
  domains_mw.entitiesOps := entities_of (wiring.domains_newService shipped.config) |}.
Lemma domains_access_matrix_witness :
  (domains_mw.FreezeDomain domains_am root "d1" domains_state).1.2 = None
  /\ (domains_mw.FreezeDomain domains_am alice "d1" domains_state).1.2 <> None
  /\ (domains_mw.UpdateDomain domains_am alice "d1" (domains.DomainReq0) domains_state).1.2 <> None.
Proof.
  pose proof (domains_access_matrix (fun w => w) domains_am permit az_decides eq_refl) as M. split_and!.
  - destruct (M root) as (_ & _ & _ & _ & H & _). specialize (H "d1"). run_monitored H domains_state. rewrite H1. vm_compute. reflexivity.
  - destruct (M alice) as (_ & _ & _ & _ & H & _). specialize (H "d1"). run_monitored H domains_state. apply H1.
  - destruct (M alice) as (_ & H & _). specialize (H "d1" domains.DomainReq0). run_monitored H domains_state. apply H1.
Defined.

(** Alice may look at the roles of the client and not change them. *)
Definition clients_ram : rolemgr.RoleManagerAuthorizationMiddleware (memroles.state unit) := {|
  rolemgr.entityType := policies.ClientType; rolemgr.svc := roles_manager memroles.now roles_example.svc;
  rolemgr.ram_authz := az; rolemgr.ops := roles_of (wiring.clients_newService shipped.config) |}.
Definition roles_state : memroles.state unit := ((∅, ∅), tt).
Lemma roles_access_matrix_witness :
  rolemgr.RetrieveAllRoles clients_ram alice "c1" 10 0 roles_state = roles.RetrieveAllRoles roles_example.svc alice "c1" 10 0 roles_state
  /\ (rolemgr.AddRole clients_ram alice "c1" "r" [] [] roles_state).1.2 <> None.
Proof.
  pose proof (roles_access_matrix (fun w => w) clients_ram permit az_decides eq_refl alice) as M. split_and!.
  - destruct M as (_ & _ & _ & _ & H & _). specialize (H "c1" 10%N 0%N). run_monitored H roles_state. exact H1.
  - destruct M as (H & _). specialize (H "c1" "r" [] []). run_monitored H roles_state. apply H1.
Defined.

(** An administrator makes another user an administrator, whom he cannot make
    of someone the platform does not know. *)
Definition user_bob : users.User := users.User0 <| users.ID := "bob" |> <| users.Role := users.AdminRole |>.
Definition users_state : memusers.state := ((∅, ∅), memusers.MkMem {[ "bob" := users.User0 <| users.ID := "bob" |> ]} ∅ false).
Definition zeros {W} (n : nat) : St W (list ascii * error) := ret (repeat "000"%char n, None).
Definition users_am : users_mw.authorizationMiddleware memusers.state := {|
  users_mw.svc := users_service memroles.now zeros (zeros 16) memusers.J (fun _ => true) memusers.svc;
  users_mw.az := az; users_mw.selfRegister := false |}.
Lemma users_access_matrix_witness :
  (users_mw.UpdateRole users_am root user_bob users_state).1.2 = None
  /\ (users_mw.UpdateRole users_am root (user_bob <| users.ID := "eve" |>) users_state).1.2 <> None
  /\ (users_mw.UpdateRole users_am alice user_bob users_state).1.2 <> None.
Proof.
  pose proof (users_access_matrix (fun w => w) users_am permit az_decides) as M. split_and!.
  - destruct (M root) as (H & _). specialize (H user_bob). run_monitored H users_state. rewrite H1. vm_compute. reflexivity.
  - destruct (M root) as (H & _). specialize (H (user_bob <| users.ID := "eve" |>)). run_monitored H users_state. apply H1.
  - destruct (M alice) as (H & _). specialize (H user_bob). run_monitored H users_state. apply H1.
Defined.
End guards_example.
