(* ===== verification/ChannelsHttp.v ===== *)
(** * ChannelsHttp: the HTTP layer of the channels service

    Source: src/channels/api/http (requests.go, decode.go, endpoints.go,
    responses.go, transport.go); the routes of roles, which transport.go adds,
    are in RolesHttp.v.

    [channels_called_admissibly]: the service is only called with arguments
    that are admissible ([agree]): two services that agree on those cannot be
    told apart over HTTP. *)

From S2P Require Import Prelude GoStd GoNum GoUrl Errors Authn Roles Connections Channels Topics Guards Http.
Import http.

Module channels_http.
(** ** requests.go *)
Section requests.
Context (uuid : messaging.uuidlib).

Record createChannelReq := MkCreateChannelReq { cc_Channel : channels.Channel }.
(** The checks of one channel, in the order of the two requests. *)
Definition createChannelReq_validate (req : createChannelReq) : error :=
  let ch := cc_Channel req in
  if_ Nat.ltb MaxNameSize (String.length (channels.Name ch)) return_ Some apiutil.ErrNameSize ;;
  if_ (channels.ID ch <>s "") && (TrimSpace (channels.ID ch) =s "") return_ Some apiutil.ErrMissingChannelID ;;
  if channels.Route ch <>s "" then
    if_err ValidateRoute (channels.Route ch) return_ ValidateRoute (channels.Route ch) ;;
    if_ is_nil (ValidateUUID uuid (channels.Route ch)) return_ Some apiutil.ErrInvalidRouteFormat ;;
    None
  else None.

Record createChannelsReq := MkCreateChannelsReq { cs_Channels : list channels.Channel }.
Fixpoint validateChannels (chs : list channels.Channel) : error :=
  match chs with
  | [] => None
  | channel :: chs =>
      if_ (channels.ID channel <>s "") && (TrimSpace (channels.ID channel) =s "") return_ Some apiutil.ErrMissingChannelID ;;
      if_ Nat.ltb MaxNameSize (String.length (channels.Name channel)) return_ Some apiutil.ErrNameSize ;;
      if channels.Route channel <>s "" then
        if_err ValidateRoute (channels.Route channel) return_ ValidateRoute (channels.Route channel) ;;
        if_ is_nil (ValidateUUID uuid (channels.Route channel)) return_ Some apiutil.ErrInvalidRouteFormat ;;
        validateChannels chs
      else validateChannels chs
  end.
Definition createChannelsReq_validate (req : createChannelsReq) : error :=
  if_ Nat.eqb (length (cs_Channels req)) 0 return_ Some apiutil.ErrEmptyList ;;
  validateChannels (cs_Channels req).

Record viewChannelReq := MkViewChannelReq { v_id : string; v_roles : bool }.
Definition viewChannelReq_validate (req : viewChannelReq) : error :=
  if_ v_id req =s "" return_ Some apiutil.ErrMissingID ;;
  None.

Record listChannelsReq := MkListChannelsReq { l_Page : channels.Page; l_userID : string }.
Definition listChannelsReq_validate (req : listChannelsReq) : error :=
  let pm := l_Page req in
  if_ N.ltb MaxLimitSize (channels.pg_Limit pm) || N.ltb (channels.pg_Limit pm) 1 return_ Some apiutil.ErrLimitSize ;;
  if_ Nat.ltb MaxNameSize (String.length (channels.pg_Name pm)) return_ Some apiutil.ErrNameSize ;;
  if_ negb (existsb (String.eqb (channels.pg_Order pm)) [""; NameOrder; CreatedAtOrder; UpdatedAtOrder])
  return_ Some apiutil.ErrInvalidOrder ;;
  if_ (channels.pg_Dir pm <>s "") && ((channels.pg_Dir pm <>s DescDir) && (channels.pg_Dir pm <>s AscDir))
  return_ Some apiutil.ErrInvalidDirection ;;
  if channels.pg_ConnectionType pm <>s "" then
    let '(_, err) := connections.ParseConnType (channels.pg_ConnectionType pm) in
    if_err err return_ Some apiutil.ErrValidation ;;
    None
  else None.

Record updateChannelReq := MkUpdateChannelReq { u_id : string; u_Name : string; u_Metadata : Metadata; u_Tags : list string }.
Definition updateChannelReq_validate (req : updateChannelReq) : error :=
  if_ u_id req =s "" return_ Some apiutil.ErrMissingID ;;
  if_ Nat.ltb MaxNameSize (String.length (u_Name req)) return_ Some apiutil.ErrNameSize ;;
  None.
Record updateChannelTagsReq := MkUpdateChannelTagsReq { ut_id : string; ut_Tags : list string }.
Definition updateChannelTagsReq_validate (req : updateChannelTagsReq) : error :=
  if_ ut_id req =s "" return_ Some apiutil.ErrMissingID ;;
  None.
Record setChannelParentGroupReq := MkSetChannelParentGroupReq { sp_id : string; sp_ParentGroupID : string }.
Definition setChannelParentGroupReq_validate (req : setChannelParentGroupReq) : error :=
  if_ sp_id req =s "" return_ Some apiutil.ErrMissingID ;;
  if_ sp_ParentGroupID req =s "" return_ Some apiutil.ErrMissingParentGroupID ;;
  None.
Record removeChannelParentGroupReq := MkRemoveChannelParentGroupReq { rp_id : string }.
Definition removeChannelParentGroupReq_validate (req : removeChannelParentGroupReq) : error :=
  if_ rp_id req =s "" return_ Some apiutil.ErrMissingID ;;
  None.
Record changeChannelStatusReq := MkChangeChannelStatusReq { st_id : string }.
Definition changeChannelStatusReq_validate (req : changeChannelStatusReq) : error :=
  if_ st_id req =s "" return_ Some apiutil.ErrMissingID ;;
  None.
Record deleteChannelReq := MkDeleteChannelReq { d_id : string }.
Definition deleteChannelReq_validate (req : deleteChannelReq) : error :=
  if_ d_id req =s "" return_ Some apiutil.ErrMissingID ;;
  None.

Record connectChannelClientsRequest := MkConnectChannelClientsRequest {
  c1_channelID : string; c1_ClientIDs : list string; c1_Types : list N }.
Definition connectChannelClientsRequest_validate (req : connectChannelClientsRequest) : error :=
  if_ (c1_channelID req =s "") || (TrimSpace (c1_channelID req) =s "") return_ Some apiutil.ErrMissingID ;;
  if_ Nat.eqb (length (c1_ClientIDs req)) 0 return_ Some apiutil.ErrMissingID ;;
  validateIDs uuid (c1_ClientIDs req)
    (if_ Nat.eqb (length (c1_Types req)) 0 return_ Some apiutil.ErrMissingConnectionType ;; None).
Record disconnectChannelClientsRequest := MkDisconnectChannelClientsRequest {
  d1_channelID : string; d1_ClientIds : list string; d1_Types : list N }.
Definition disconnectChannelClientsRequest_validate (req : disconnectChannelClientsRequest) : error :=
  if_ d1_channelID req =s "" return_ Some apiutil.ErrMissingID ;;
  if_err ValidateUUID uuid (d1_channelID req) return_ ValidateUUID uuid (d1_channelID req) ;;
  if_ Nat.eqb (length (d1_ClientIds req)) 0 return_ Some apiutil.ErrMissingID ;;
  validateIDs uuid (d1_ClientIds req)
    (if_ Nat.eqb (length (d1_Types req)) 0 return_ Some apiutil.ErrMissingConnectionType ;; None).

Record connectRequest := MkConnectRequest { c_ChannelIds : list string; c_ClientIds : list string; c_Types : list N }.
Definition blank (id : string) : bool := TrimSpace id =s "".
Definition connectRequest_validate (req : connectRequest) : error :=
  if_ Nat.eqb (length (c_ChannelIds req)) 0 return_ Some apiutil.ErrMissingID ;;
  if_ existsb blank (c_ChannelIds req) return_ Some apiutil.ErrMissingChannelID ;;
  if_ Nat.eqb (length (c_ClientIds req)) 0 return_ Some apiutil.ErrMissingID ;;
  if_ existsb blank (c_ClientIds req) return_ Some apiutil.ErrMissingChannelID ;;
  if_ Nat.eqb (length (c_Types req)) 0 return_ Some apiutil.ErrMissingConnectionType ;;
  None.
Record disconnectRequest := MkDisconnectRequest { dc_ChannelIds : list string; dc_ClientIds : list string; dc_Types : list N }.
Definition disconnectRequest_validate (req : disconnectRequest) : error :=
  if_ Nat.eqb (length (dc_ChannelIds req)) 0 return_ Some apiutil.ErrMissingID ;;
  validateIDs uuid (dc_ChannelIds req)
    (if_ Nat.eqb (length (dc_ClientIds req)) 0 return_ Some apiutil.ErrMissingID ;;
     validateIDs uuid (dc_ClientIds req)
       (if_ Nat.eqb (length (dc_Types req)) 0 return_ Some apiutil.ErrMissingConnectionType ;; None)).
End requests.

(** ** responses.go *)
Inductive response :=
| createChannelRes (c : channels.Channel) (created : bool)
| viewChannelRes (c : channels.Channel)
| channelsPageRes (Limit Offset Total : N) (Channels : list channels.Channel)
| changeChannelStatusRes (c : channels.Channel)
| updateChannelRes (c : channels.Channel)
| setChannelParentGroupRes | removeChannelParentGroupRes | deleteChannelRes
| connectChannelClientsRes | disconnectChannelClientsRes | connectRes | disconnectRes.
Definition response_Code (res : response) : Z :=
  match res with
  | createChannelRes _ created => if created then StatusCreated else StatusOK
  | viewChannelRes _ | channelsPageRes _ _ _ _ | changeChannelStatusRes _ | updateChannelRes _
  | setChannelParentGroupRes => StatusOK
  | removeChannelParentGroupRes | deleteChannelRes | disconnectChannelClientsRes | disconnectRes => StatusNoContent
  | connectChannelClientsRes | connectRes => StatusCreated
  end.
Definition response_Headers (res : response) : list (string * string) :=
  match res with
  | createChannelRes c created => if created then [("Location", "/channels/" +:+ channels.ID c)] else []
  | _ => []
  end.
Definition response_Empty (res : response) : bool :=
  match res with
  | createChannelRes _ _ | viewChannelRes _ | channelsPageRes _ _ _ _ | changeChannelStatusRes _ | updateChannelRes _ => false
  | _ => true
  end.
#[export] Instance channels_response : Response response :=
  { Code := response_Code; Headers := response_Headers; Empty := response_Empty }.

(** ** decode.go *)
Section decode.
Context (unmarshal : string -> err + Metadata) (Quote : string -> string) {B : Type}.
Context `{!Unmarshal B channels.Channel} `{!Unmarshal B (list channels.Channel)} `{!Unmarshal B updateChannelReq}
  `{!Unmarshal B updateChannelTagsReq} `{!Unmarshal B setChannelParentGroupReq} `{!Unmarshal B connectChannelClientsRequest}
  `{!Unmarshal B disconnectChannelClientsRequest} `{!Unmarshal B connectRequest} `{!Unmarshal B disconnectRequest}.

Definition decodeViewChannel (r : Request) (_ : B) : error + viewChannelReq :=
  roles <-? ReadBoolQuery Quote r RolesKey false ;;
  inr (MkViewChannelReq (URLParam r "channelID") roles).
Definition decodeCreateChannelReq (r : Request) (b : B) : error + createChannelReq :=
  c <-! decodeBody r channels.Channel0 b ;;
  inr (MkCreateChannelReq c).
Definition decodeCreateChannelsReq (r : Request) (b : B) : error + createChannelsReq :=
  cs <-! decodeBody r [] b ;;
  inr (MkCreateChannelsReq cs).
Definition decodeListChannels (r : Request) (_ : B) : error + listChannelsReq :=
  name <-? ReadStringQuery r NameKey "" ;;
  tags <-? ReadStringQuery r TagsKey "" ;;
  let tq := if tags <>s "" then channels.ToTagsQuery tags else channels.TagsQuery0 in
  s <-? ReadStringQuery r StatusKey channels.Enabled ;;
  status <-? (let '(st, err) := channels.ToStatus s in if_err err return_ inl err ;; inr st) ;;
  meta <-? ReadMetadataQuery unmarshal r MetadataKey None ;;
  offset <-? ReadNumQuery Quote Uint64 r OffsetKey DefOffset ;;
  limit <-? ReadNumQuery Quote Uint64 r LimitKey DefLimit ;;
  dir <-? ReadStringQuery r DirKey DefDir ;;
  order <-? ReadStringQuery r OrderKey DefOrder ;;
  allActions <-? ReadStringQuery r ActionsKey "" ;;
  let actions := readActions allActions in
  roleID <-? ReadStringQuery r RoleIDKey "" ;;
  roleName <-? ReadStringQuery r RoleNameKey "" ;;
  accessType <-? ReadStringQuery r AccessTypeKey "" ;;
  userID <-? ReadStringQuery r UserKey "" ;;
  groupID <-? nullable_Parse (Query r) GroupKey ;;
  clientID <-? ReadStringQuery r ClientKey "" ;;
  id <-? ReadStringQuery r IDOrder "" ;;
  ot <-? ReadBoolQuery Quote r OnlyTotal false ;;
  connectionType <-? ReadStringQuery r ConnTypeKey "" ;;
  cfrom <-? ReadStringQuery r "created_from" "" ;;
  cto <-? ReadStringQuery r "created_to" "" ;;
  createdFrom <-! readTime cfrom ;;
  createdTo <-! readTime cto ;;
  inr (MkListChannelsReq (channels.Page0 <| channels.pg_Name := name |> <| channels.pg_Tags := tq |>
    <| channels.pg_Status := status |> <| channels.pg_Metadata := meta |> <| channels.pg_RoleName := roleName |>
    <| channels.pg_RoleID := roleID |> <| channels.pg_Actions := actions |> <| channels.pg_AccessType := accessType |>
    <| channels.pg_Order := order |> <| channels.pg_Dir := dir |> <| channels.pg_Offset := Z.to_N offset |>
    <| channels.pg_Limit := Z.to_N limit |> <| channels.pg_Group := groupID |> <| channels.pg_Client := clientID |>
    <| channels.pg_ConnectionType := connectionType |> <| channels.pg_ID := id |> <| channels.pg_OnlyTotal := ot |>
    <| channels.pg_CreatedFrom := createdFrom |> <| channels.pg_CreatedTo := createdTo |>) userID).
Definition decodeUpdateChannel (r : Request) (b : B) : error + updateChannelReq :=
  decodeBody r (MkUpdateChannelReq (URLParam r "channelID") "" None []) b.
Definition decodeUpdateChannelTags (r : Request) (b : B) : error + updateChannelTagsReq :=
  decodeBody r (MkUpdateChannelTagsReq (URLParam r "channelID") []) b.
Definition decodeSetChannelParentGroupStatus (r : Request) (b : B) : error + setChannelParentGroupReq :=
  decodeBody r (MkSetChannelParentGroupReq (URLParam r "channelID") "") b.
Definition decodeRemoveChannelParentGroupStatus (r : Request) (_ : B) : error + removeChannelParentGroupReq :=
  inr (MkRemoveChannelParentGroupReq (URLParam r "channelID")).
Definition decodeChangeChannelStatus (r : Request) (_ : B) : error + changeChannelStatusReq :=
  inr (MkChangeChannelStatusReq (URLParam r "channelID")).
Definition decodeDeleteChannelReq (r : Request) (_ : B) : error + deleteChannelReq :=
  inr (MkDeleteChannelReq (URLParam r "channelID")).
Definition decodeConnectChannelClientRequest (r : Request) (b : B) : error + connectChannelClientsRequest :=
  decodeBody r (MkConnectChannelClientsRequest (URLParam r "channelID") [] []) b.
Definition decodeDisconnectChannelClientsRequest (r : Request) (b : B) : error + disconnectChannelClientsRequest :=
  decodeBody r (MkDisconnectChannelClientsRequest (URLParam r "channelID") [] []) b.
Definition decodeConnectRequest (r : Request) (b : B) : error + connectRequest := decodeBody r (MkConnectRequest [] [] []) b.
Definition decodeDisconnectRequest (r : Request) (b : B) : error + disconnectRequest :=
  decodeBody r (MkDisconnectRequest [] [] []) b.
End decode.

(** ** endpoints.go *)
Section endpoints.
Context (uuid : messaging.uuidlib) {W : Type} (svc : channels_mw.Service W).

Definition createChannelEndpoint (ctx : option authn.Session) (req : createChannelReq) : St W (option (error + response)) :=
  if_err createChannelReq_validate uuid req return_ pret (inl (WrapE apiutil.ErrValidation (createChannelReq_validate uuid req))) ;;
  session <-ctx ctx or_return pret (inl (Some svcerr.ErrAuthentication)) ;;
  '(cs, _, err) <~ call (channels_mw.svc_CreateChannels svc session [cc_Channel req]) ;;
  if_err err return_ pret (inl err) ;;
  match cs with c :: _ => pret (inr (createChannelRes c true)) | [] => panic end.
Definition createChannelsEndpoint (ctx : option authn.Session) (req : createChannelsReq) : St W (option (error + response)) :=
  if_err createChannelsReq_validate uuid req return_ pret (inl (WrapE apiutil.ErrValidation (createChannelsReq_validate uuid req))) ;;
  session <-ctx ctx or_return pret (inl (Some svcerr.ErrAuthentication)) ;;
  '(cs, _, err) <~ call (channels_mw.svc_CreateChannels svc session (cs_Channels req)) ;;
  if_err err return_ pret (inl err) ;;
  pret (inr (channelsPageRes 0 0 (N.of_nat (length cs)) cs)).
Definition viewChannelEndpoint (ctx : option authn.Session) (req : viewChannelReq) : St W (option (error + response)) :=
  if_err viewChannelReq_validate req return_ pret (inl (WrapE apiutil.ErrValidation (viewChannelReq_validate req))) ;;
  session <-ctx ctx or_return pret (inl (Some svcerr.ErrAuthentication)) ;;
  '(c, err) <~ call (channels_mw.svc_ViewChannel svc session (v_id req) (v_roles req)) ;;
  if_err err return_ pret (inl err) ;;
  pret (inr (viewChannelRes c)).
Definition listChannelsEndpoint (ctx : option authn.Session) (req : listChannelsReq) : St W (option (error + response)) :=
  if_err listChannelsReq_validate req return_ pret (inl (WrapE apiutil.ErrValidation (listChannelsReq_validate req))) ;;
  session <-ctx ctx or_return pret (inl (Some svcerr.ErrAuthentication)) ;;
  '(page, err) <~ call (if l_userID req <>s ""
                        then channels_mw.svc_ListUserChannels svc session (l_userID req) (l_Page req)
                        else channels_mw.svc_ListChannels svc session (l_Page req)) ;;
  if_err err return_ pret (inl err) ;;
  let pm := channels.cp_Page page in
  pret (inr (channelsPageRes (channels.pg_Limit pm) (channels.pg_Offset pm) (channels.pg_Total pm) (channels.cp_Channels page))).
Definition updateChannelEndpoint (ctx : option authn.Session) (req : updateChannelReq) : St W (option (error + response)) :=
  if_err updateChannelReq_validate req return_ pret (inl (WrapE apiutil.ErrValidation (updateChannelReq_validate req))) ;;
  session <-ctx ctx or_return pret (inl (Some svcerr.ErrAuthentication)) ;;
  '(c, err) <~ call (channels_mw.svc_UpdateChannel svc session (channels.Channel0 <| channels.ID := u_id req |>
    <| channels.Name := u_Name req |> <| channels.Metadata_ := u_Metadata req |>)) ;;
  if_err err return_ pret (inl err) ;;
  pret (inr (updateChannelRes c)).
Definition updateChannelTagsEndpoint (ctx : option authn.Session) (req : updateChannelTagsReq) : St W (option (error + response)) :=
  if_err updateChannelTagsReq_validate req return_ pret (inl (WrapE apiutil.ErrValidation (updateChannelTagsReq_validate req))) ;;
  session <-ctx ctx or_return pret (inl (Some svcerr.ErrAuthentication)) ;;
  '(c, err) <~ call (channels_mw.svc_UpdateChannelTags svc session (channels.Channel0 <| channels.ID := ut_id req |>
    <| channels.Tags := ut_Tags req |>)) ;;
  if_err err return_ pret (inl err) ;;
  pret (inr (updateChannelRes c)).
Definition setChannelParentGroupEndpoint (ctx : option authn.Session) (req : setChannelParentGroupReq) : St W (option (error + response)) :=
  if_err setChannelParentGroupReq_validate req return_ pret (inl (WrapE apiutil.ErrValidation (setChannelParentGroupReq_validate req))) ;;
  session <-ctx ctx or_return pret (inl (Some svcerr.ErrAuthentication)) ;;
  err <~ call (channels_mw.svc_SetParentGroup svc session (sp_ParentGroupID req) (sp_id req)) ;;
  if_err err return_ pret (inl err) ;;
  pret (inr setChannelParentGroupRes).
Definition removeChannelParentGroupEndpoint (ctx : option authn.Session) (req : removeChannelParentGroupReq) : St W (option (error + response)) :=
  if_err removeChannelParentGroupReq_validate req return_ pret (inl (WrapE apiutil.ErrValidation (removeChannelParentGroupReq_validate req))) ;;
  session <-ctx ctx or_return pret (inl (Some svcerr.ErrAuthentication)) ;;
  err <~ call (channels_mw.svc_RemoveParentGroup svc session (rp_id req)) ;;
  if_err err return_ pret (inl err) ;;
  pret (inr removeChannelParentGroupRes).
Definition enableChannelEndpoint (ctx : option authn.Session) (req : changeChannelStatusReq) : St W (option (error + response)) :=
  if_err changeChannelStatusReq_validate req return_ pret (inl (WrapE apiutil.ErrValidation (changeChannelStatusReq_validate req))) ;;
  session <-ctx ctx or_return pret (inl (Some svcerr.ErrAuthentication)) ;;
  '(c, err) <~ call (channels_mw.svc_EnableChannel svc session (st_id req)) ;;
  if_err err return_ pret (inl err) ;;
  pret (inr (changeChannelStatusRes c)).
Definition disableChannelEndpoint (ctx : option authn.Session) (req : changeChannelStatusReq) : St W (option (error + response)) :=
  if_err changeChannelStatusReq_validate req return_ pret (inl (WrapE apiutil.ErrValidation (changeChannelStatusReq_validate req))) ;;
  session <-ctx ctx or_return pret (inl (Some svcerr.ErrAuthentication)) ;;
  '(c, err) <~ call (channels_mw.svc_DisableChannel svc session (st_id req)) ;;
  if_err err return_ pret (inl err) ;;
  pret (inr (changeChannelStatusRes c)).
Definition connectChannelClientEndpoint (ctx : option authn.Session) (req : connectChannelClientsRequest) : St W (option (error + response)) :=
  if_err connectChannelClientsRequest_validate uuid req return_ pret (inl (WrapE apiutil.ErrValidation (connectChannelClientsRequest_validate uuid req))) ;;
  session <-ctx ctx or_return pret (inl (Some svcerr.ErrAuthentication)) ;;
  err <~ call (channels_mw.svc_Connect svc session [c1_channelID req] (c1_ClientIDs req) (c1_Types req)) ;;
  if_err err return_ pret (inl err) ;;
  pret (inr connectChannelClientsRes).
Definition disconnectChannelClientsEndpoint (ctx : option authn.Session) (req : disconnectChannelClientsRequest) : St W (option (error + response)) :=
  if_err disconnectChannelClientsRequest_validate uuid req return_ pret (inl (WrapE apiutil.ErrValidation (disconnectChannelClientsRequest_validate uuid req))) ;;
  session <-ctx ctx or_return pret (inl (Some svcerr.ErrAuthentication)) ;;
  err <~ call (channels_mw.svc_Disconnect svc session [d1_channelID req] (d1_ClientIds req) (d1_Types req)) ;;
  if_err err return_ pret (inl err) ;;
  pret (inr disconnectChannelClientsRes).
Definition connectEndpoint (ctx : option authn.Session) (req : connectRequest) : St W (option (error + response)) :=
  if_err connectRequest_validate req return_ pret (inl (WrapE apiutil.ErrValidation (connectRequest_validate req))) ;;
  session <-ctx ctx or_return pret (inl (Some svcerr.ErrAuthentication)) ;;
  err <~ call (channels_mw.svc_Connect svc session (c_ChannelIds req) (c_ClientIds req) (c_Types req)) ;;
  if_err err return_ pret (inl err) ;;
  pret (inr connectRes).
Definition disconnectEndpoint (ctx : option authn.Session) (req : disconnectRequest) : St W (option (error + response)) :=
  if_err disconnectRequest_validate uuid req return_ pret (inl (WrapE apiutil.ErrValidation (disconnectRequest_validate uuid req))) ;;
  session <-ctx ctx or_return pret (inl (Some svcerr.ErrAuthentication)) ;;
  err <~ call (channels_mw.svc_Disconnect svc session (dc_ChannelIds req) (dc_ClientIds req) (dc_Types req)) ;;
  if_err err return_ pret (inl err) ;;
  pret (inr disconnectRes).
Definition deleteChannelEndpoint (ctx : option authn.Session) (req : deleteChannelReq) : St W (option (error + response)) :=
  if_err deleteChannelReq_validate req return_ pret (inl (WrapE apiutil.ErrValidation (deleteChannelReq_validate req))) ;;
  session <-ctx ctx or_return pret (inl (Some svcerr.ErrAuthentication)) ;;
  err <~ call (channels_mw.svc_RemoveChannel svc session (d_id req)) ;;
  if_err err return_ pret (inl err) ;;
  pret (inr deleteChannelRes).
End endpoints.

(** ** transport.go *)
Section transport.
Context (uuid : messaging.uuidlib) {W : Type} (svc : channels_mw.Service W).
Context (unmarshal : string -> err + Metadata) (Quote : string -> string) {B : Type}.
Context `{!Unmarshal B channels.Channel} `{!Unmarshal B (list channels.Channel)} `{!Unmarshal B updateChannelReq}
  `{!Unmarshal B updateChannelTagsReq} `{!Unmarshal B setChannelParentGroupReq} `{!Unmarshal B connectChannelClientsRequest}
  `{!Unmarshal B disconnectChannelClientsRequest} `{!Unmarshal B connectRequest} `{!Unmarshal B disconnectRequest}.
Definition MakeHandler : list (route W B response) :=
  let base := "/{domainID}/channels" in
  let one := base +:+ "/{channelID}" in
  [ MkRoute POST (base +:+ "/") (handle decodeCreateChannelReq (createChannelEndpoint uuid svc));
    MkRoute POST (base +:+ "/bulk") (handle decodeCreateChannelsReq (createChannelsEndpoint uuid svc));
    MkRoute GET (base +:+ "/") (handle (decodeListChannels unmarshal Quote) (listChannelsEndpoint svc));
    MkRoute POST (base +:+ "/connect") (handle decodeConnectRequest (connectEndpoint svc));
    MkRoute POST (base +:+ "/disconnect") (handle decodeDisconnectRequest (disconnectEndpoint uuid svc));
    MkRoute GET (one +:+ "/") (handle (decodeViewChannel Quote) (viewChannelEndpoint svc));
    MkRoute PATCH (one +:+ "/") (handle decodeUpdateChannel (updateChannelEndpoint svc));
    MkRoute PATCH (one +:+ "/tags") (handle decodeUpdateChannelTags (updateChannelTagsEndpoint svc));
    MkRoute DELETE (one +:+ "/") (handle decodeDeleteChannelReq (deleteChannelEndpoint svc));
    MkRoute POST (one +:+ "/enable") (handle decodeChangeChannelStatus (enableChannelEndpoint svc));
    MkRoute POST (one +:+ "/disable") (handle decodeChangeChannelStatus (disableChannelEndpoint svc));
    MkRoute POST (one +:+ "/parent") (handle decodeSetChannelParentGroupStatus (setChannelParentGroupEndpoint svc));
    MkRoute DELETE (one +:+ "/parent") (handle decodeRemoveChannelParentGroupStatus (removeChannelParentGroupEndpoint svc));
    MkRoute POST (one +:+ "/connect") (handle decodeConnectChannelClientRequest (connectChannelClientEndpoint uuid svc));
    MkRoute POST (one +:+ "/disconnect") (handle decodeDisconnectChannelClientsRequest (disconnectChannelClientsEndpoint uuid svc))].
End transport.
End channels_http.

(** ** What reaches the service *)
Module channels_http_theory.
Import http_theory channels_http.

(** The arguments that pass the validation of the requests. *)
Section admissible.
Context (uuid : messaging.uuidlib).
Definition route_ok (route : string) : Prop :=
  route = "" \/ routeRegExp route = true /\ GoStd.Contains route "__" = false /\ GoStd.Contains route "--" = false /\ ~ uuid_ok uuid route.
Definition channel_ok (c : channels.Channel) : Prop :=
  name_ok (channels.Name c) /\ (channels.ID c = "" \/ TrimSpace (channels.ID c) <> "")
  /\ route_ok (channels.Route c).
Definition page_ok (pm : channels.Page) : Prop :=
  limit_ok (channels.pg_Limit pm) /\ name_ok (channels.pg_Name pm) /\ order_ok (channels.pg_Order pm) /\ dir_ok (channels.pg_Dir pm)
  /\ (channels.pg_ConnectionType pm = "" \/ (connections.ParseConnType (channels.pg_ConnectionType pm)).2 = None).
Definition ids_ok (ok : string -> Prop) (ids : list string) : Prop := ids <> [] /\ Forall ok ids.
(** The lists of /connect hold no blank; those of /{channelID}/connect come
    with one channel and UUIDs of clients. *)
Definition not_blank (id : string) : Prop := TrimSpace id <> "".
Definition connect_ok (chs cls : list string) (types : list N) : Prop :=
  types <> [] /\ ids_ok not_blank chs /\ (ids_ok not_blank cls \/ ids_ok (uuid_ok uuid) cls).
Definition disconnect_ok (chs cls : list string) (types : list N) : Prop :=
  types <> [] /\ ids_ok (uuid_ok uuid) chs /\ ids_ok (uuid_ok uuid) cls.

Record agree {W} (svc svc' : channels_mw.Service W) : Prop := {
  agree_CreateChannels : forall s cs, cs <> [] -> Forall channel_ok cs ->
    channels_mw.svc_CreateChannels svc s cs = channels_mw.svc_CreateChannels svc' s cs;
  agree_ViewChannel : forall s id r, id <> "" -> channels_mw.svc_ViewChannel svc s id r = channels_mw.svc_ViewChannel svc' s id r;
  agree_ListChannels : forall s pm, page_ok pm -> channels_mw.svc_ListChannels svc s pm = channels_mw.svc_ListChannels svc' s pm;
  agree_ListUserChannels : forall s u pm, u <> "" -> page_ok pm ->
    channels_mw.svc_ListUserChannels svc s u pm = channels_mw.svc_ListUserChannels svc' s u pm;
  agree_UpdateChannel : forall s c, channels.ID c <> "" -> name_ok (channels.Name c) ->
    channels_mw.svc_UpdateChannel svc s c = channels_mw.svc_UpdateChannel svc' s c;
  agree_UpdateChannelTags : forall s c, channels.ID c <> "" ->
    channels_mw.svc_UpdateChannelTags svc s c = channels_mw.svc_UpdateChannelTags svc' s c;
  agree_EnableChannel : forall s id, id <> "" -> channels_mw.svc_EnableChannel svc s id = channels_mw.svc_EnableChannel svc' s id;
  agree_DisableChannel : forall s id, id <> "" -> channels_mw.svc_DisableChannel svc s id = channels_mw.svc_DisableChannel svc' s id;
  agree_RemoveChannel : forall s id, id <> "" -> channels_mw.svc_RemoveChannel svc s id = channels_mw.svc_RemoveChannel svc' s id;
  agree_Connect : forall s chs cls types, connect_ok chs cls types ->
    channels_mw.svc_Connect svc s chs cls types = channels_mw.svc_Connect svc' s chs cls types;
  agree_Disconnect : forall s chs cls types, disconnect_ok chs cls types ->
    channels_mw.svc_Disconnect svc s chs cls types = channels_mw.svc_Disconnect svc' s chs cls types;
  agree_SetParentGroup : forall s g id, g <> "" -> id <> "" ->
    channels_mw.svc_SetParentGroup svc s g id = channels_mw.svc_SetParentGroup svc' s g id;
  agree_RemoveParentGroup : forall s id, id <> "" ->
    channels_mw.svc_RemoveParentGroup svc s id = channels_mw.svc_RemoveParentGroup svc' s id }.

(** Each validation, when it passes. *)
Lemma route_test_ok route (k : error) :
  (if route <>s "" then
     if_err ValidateRoute route return_ ValidateRoute route ;;
     if_ is_nil (ValidateUUID uuid route) return_ Some apiutil.ErrInvalidRouteFormat ;;
     k
   else k) = None -> route_ok route /\ k = None.
Proof.
  unfold route_ok. rewrite <-ValidateUUID_spec. intros H. destruct (route =s "") eqn:E; go_bool; [by auto|].
  cbn in H. destruct (ValidateRoute route) eqn:R; [done|]. apply ValidateRoute_None in R.
  destruct (ValidateUUID uuid route); [|done]. split; [right|done]. destruct R as (?&?&?). repeat split; done.
Qed.
Lemma createChannelReq_ok req : createChannelReq_validate uuid req = None -> channel_ok (cc_Channel req).
Proof.
  unfold createChannelReq_validate, channel_ok. intros H.
  destruct (Nat.ltb _ _) eqn:N; [done|]. destruct (_ && _) eqn:B; [done|]. apply route_test_ok in H as [? _].
  apply Nat.ltb_ge in N. split; [done|]. split; [|done].
  apply andb_false_iff in B as [B|B]; go_bool; auto.
Qed.
Lemma validateChannels_ok cs : validateChannels uuid cs = None -> Forall (channel_ok) cs.
Proof.
  induction cs as [|c cs IH]; cbn [validateChannels]; intros H; [done|].
  destruct (_ && _) eqn:B; [done|]. destruct (Nat.ltb _ _) eqn:N; [done|]. apply route_test_ok in H as [? H].
  constructor; [|auto]. apply Nat.ltb_ge in N. split; [done|]. split; [|done].
  apply andb_false_iff in B as [B|B]; go_bool; auto.
Qed.
Lemma listChannelsReq_ok req : listChannelsReq_validate req = None -> page_ok (l_Page req).
Proof.
  unfold listChannelsReq_validate, page_ok. destruct (_ || _) eqn:L; [done|]. destruct (Nat.ltb _ _) eqn:N; [done|].
  destruct (negb (existsb _ _)) eqn:O; [done|]. destruct (_ && (_ && _)) eqn:D; [done|]. intros C.
  repeat split; auto using limit_test_ok, name_test_ok, order_test_ok, dir_test_ok.
  1,2: apply limit_test_ok in L as []; done.
  destruct (_ =s "") eqn:E in C; go_bool; [auto|]. cbn in C. right.
  destruct (connections.ParseConnType _) as [? []]; done.
Qed.
Lemma existsb_blank ids : existsb blank ids = false -> Forall not_blank ids.
Proof.
  induction ids as [|id ids IH]; cbn; intros H; [done|]. apply orb_false_iff in H as [B H].
  constructor; [|auto]. unfold blank in B. by go_bool.
Qed.
Lemma connectChannelClientsRequest_ok req : connectChannelClientsRequest_validate uuid req = None ->
  connect_ok [c1_channelID req] (c1_ClientIDs req) (c1_Types req).
Proof.
  unfold connectChannelClientsRequest_validate, connect_ok, ids_ok. destruct (_ || _) eqn:B; [done|].
  destruct (Nat.eqb _ _) eqn:L; [done|]. intros H. apply validateIDs_ok in H as [F H].
  destruct (Nat.eqb _ _) eqn:T in H; [done|]. apply orb_false_iff in B as [_ B]. go_bool.
  repeat split; eauto using not_empty_list.
Qed.
Lemma disconnectChannelClientsRequest_ok req : disconnectChannelClientsRequest_validate uuid req = None ->
  disconnect_ok [d1_channelID req] (d1_ClientIds req) (d1_Types req).
Proof.
  unfold disconnectChannelClientsRequest_validate, disconnect_ok, ids_ok. destruct (_ =s "") eqn:B; [done|].
  destruct (ValidateUUID uuid _) eqn:U; [done|]. apply ValidateUUID_spec in U.
  destruct (Nat.eqb _ _) eqn:L; [done|]. intros H. apply validateIDs_ok in H as [F H].
  destruct (Nat.eqb _ _) eqn:T in H; [done|]. repeat split; eauto using not_empty_list.
Qed.
Lemma connectRequest_ok req : connectRequest_validate req = None ->
  connect_ok (c_ChannelIds req) (c_ClientIds req) (c_Types req).
Proof.
  unfold connectRequest_validate, connect_ok, ids_ok. destruct (Nat.eqb (length (c_ChannelIds req)) 0) eqn:L; [done|].
  destruct (existsb _ (c_ChannelIds req)) eqn:B; [done|]. destruct (Nat.eqb (length (c_ClientIds req)) 0) eqn:L'; [done|].
  destruct (existsb _ (c_ClientIds req)) eqn:B'; [done|]. destruct (Nat.eqb (length (c_Types req)) 0) eqn:T; [done|].
  intros _. split; [by apply not_empty_list|]. split; [|left]; auto using not_empty_list, existsb_blank.
Qed.
Lemma disconnectRequest_ok req : disconnectRequest_validate uuid req = None ->
  disconnect_ok (dc_ChannelIds req) (dc_ClientIds req) (dc_Types req).
Proof.
  unfold disconnectRequest_validate, disconnect_ok, ids_ok. destruct (Nat.eqb (length (dc_ChannelIds req)) 0) eqn:L; [done|].
  intros H. apply validateIDs_ok in H as [F H]. destruct (Nat.eqb (length (dc_ClientIds req)) 0) eqn:L'; [done|].
  apply validateIDs_ok in H as [F' H]. destruct (Nat.eqb _ _) eqn:T in H; [done|].
  repeat split; eauto using not_empty_list.
Qed.
Lemma updateChannelReq_ok req : updateChannelReq_validate req = None ->
  u_id req <> "" /\ name_ok (u_Name req).
Proof.
  unfold updateChannelReq_validate. destruct (_ =s "") eqn:E; [done|]. destruct (Nat.ltb _ _) eqn:N; [done|].
  go_bool. apply Nat.ltb_ge in N. done.
Qed.

(** ** Handlers *)
Section handlers.
Context {W : Type} (svc svc' : channels_mw.Service W).
Context (unmarshal : string -> err + Metadata) (Quote : string -> string) {B : Type}.
Context `{!Unmarshal B channels.Channel} `{!Unmarshal B (list channels.Channel)} `{!Unmarshal B updateChannelReq}
  `{!Unmarshal B updateChannelTagsReq} `{!Unmarshal B setChannelParentGroupReq} `{!Unmarshal B connectChannelClientsRequest}
  `{!Unmarshal B disconnectChannelClientsRequest} `{!Unmarshal B connectRequest} `{!Unmarshal B disconnectRequest}.

(** C29: Over HTTP the channels service is only called with admissible
    arguments, whatever the requests: identifiers are given, names and pages
    are within their limits, orders, directions and types of connection are
    known, a route is well formed and no UUID, and there is something to
    connect or disconnect, none of it blank.  Two services that agree on such
    arguments answer every request, at every route, alike. *)
Theorem channels_called_admissibly : agree svc svc' ->
  Forall2 same_route (MakeHandler uuid svc unmarshal Quote (B := B)) (MakeHandler uuid svc' unmarshal Quote (B := B)).
Proof.
  intros [CC ? LC LUC UC ? ? ? ? ? ? ? ?]. unfold MakeHandler.
  repeat constructor; apply same_handle; intros ctx req; apply endpoint_agree; intros H s.
  all: try by eauto using id_test_ok, connectRequest_ok, disconnectRequest_ok, connectChannelClientsRequest_ok,
    disconnectChannelClientsRequest_ok.
  - apply CC; [done|]. by apply Forall_singleton, createChannelReq_ok.
  - unfold createChannelsReq_validate in H. destruct (Nat.eqb _ _) eqn:L; [done|].
    apply CC; [by apply not_empty_list|by apply validateChannels_ok].
  - apply listChannelsReq_ok in H. destruct (l_userID req <>s "") eqn:U; [|by apply LC]. go_bool. by apply LUC.
  - apply updateChannelReq_ok in H as []. by apply UC.
  - apply two_tests_ok in H as []. auto.
Qed.
End handlers.
End admissible.
End channels_http_theory.

(** ** Two services that differ outside of what is admissible *)
Module channels_http_example.
Import http_theory channels_http channels_http_theory.
Definition uuid : messaging.uuidlib :=
  {| messaging.FromString := fun s => if HasPrefix s "id" then (s, None) else ("", Some (Errorf "incorrect UUID")) |}.
(** A body that changes nothing, and a service that counts its calls. *)
#[local] Instance any_body {T} : Unmarshal unit T := fun req _ => inr req.
Definition tick {A} (a : A) : St nat A := fun n => (a, S n).
Definition counting (remove : string -> St nat error) (list : channels.Page -> St nat (channels.ChannelsPage * error)) : channels_mw.Service nat := {|
  channels_mw.svc_CreateChannels := fun _ cs => tick (cs, [], None);
  channels_mw.svc_ViewChannel := fun _ id _ => tick (channels.Channel0 <| channels.ID := id |>, None);
  channels_mw.svc_ListChannels := fun _ pm => list pm;
  channels_mw.svc_ListUserChannels := fun _ _ pm => list pm;
  channels_mw.svc_UpdateChannel := fun _ c => tick (c, None);
  channels_mw.svc_UpdateChannelTags := fun _ c => tick (c, None);
  channels_mw.svc_EnableChannel := fun _ id => tick (channels.Channel0, None);
  channels_mw.svc_DisableChannel := fun _ id => tick (channels.Channel0, None);
  channels_mw.svc_RemoveChannel := fun _ id => remove id;
  channels_mw.svc_Connect := fun _ _ _ _ => tick None;
  channels_mw.svc_Disconnect := fun _ _ _ _ => tick None;
  channels_mw.svc_SetParentGroup := fun _ _ _ => tick None;
  channels_mw.svc_RemoveParentGroup := fun _ _ => tick None |}.
Definition page (pm : channels.Page) : St nat (channels.ChannelsPage * error) :=
  tick (channels.MkChannelsPage pm [], None).
(** One of the services takes an empty identifier, and a page without a
    limit, for all the channels. *)
Definition careful := counting (fun _ => tick None) page.
Definition careless := counting (fun id => if id =s "" then fun n => (None, 1000%nat) else tick None)
  (fun pm => if N.eqb (channels.pg_Limit pm) 0 then fun n => ((channels.MkChannelsPage pm [], None), 1000%nat) else page pm).
Lemma they_agree : agree uuid careful careless.
Proof.
  split; try done; cbn.
  - intros _ pm ([L _]&_). destruct (N.eqb_spec (channels.pg_Limit pm) 0); [lia|done].
  - intros _ _ pm _ ([L _]&_). destruct (N.eqb_spec (channels.pg_Limit pm) 0); [lia|done].
  - intros _ id I. by destruct (String.eqb_spec id "").
Qed.

Definition request (q : string) (id : string) : Request := MkRequest q "" ContentType (fun _ => id).
Definition ask (svc : channels_mw.Service nat) (i : nat) (r : Request) : option (option (Z * option string) * nat) :=
  match (MakeHandler uuid svc (fun _ => inr None) id (B := unit)) !! i with
  | Some rt =>
      let '(a, n) := serve rt (Some (authn.Session0 <| authn.UserID := "u" |>)) r tt 0%nat in
      Some ((fun a => (status a, message a)) <$> a, n)
  | None => None
  end.
(** The service is not asked to delete nothing, nor for a page of 0 or 101;
    it is for one of 100. *)
Lemma channels_called_admissibly_witness :
  ask careless 8 (request "" "") = Some (Some (400%Z, Some "missing entity id"), 0%nat)
  /\ ask careless 8 (request "" "c") = Some (Some (204%Z, None), 1%nat)
  /\ ask careless 2 (request "limit=0" "") = Some (Some (400%Z, Some "invalid limit size"), 0%nat)
  /\ ask careless 2 (request "limit=101&name=a" "") = Some (Some (400%Z, Some "invalid limit size"), 0%nat)
  /\ ask careless 2 (request "limit=100&name=a" "") = Some (Some (200%Z, None), 1%nat)
  /\ Forall2 same_route (MakeHandler uuid careful (fun _ => inr None) id (B := unit))
       (MakeHandler uuid careless (fun _ => inr None) id (B := unit)).
Proof.
  do 5 (split; [vm_compute; reflexivity|]).
  exact (channels_called_admissibly uuid careful careless _ _ they_agree).
Defined.
End channels_http_example.
