(* ===== verification/ClientsHttp.v ===== *)
(** * ClientsHttp: the HTTP layer of the clients service

    Source: src/clients/api/http (requests.go, decode.go, endpoints.go,
    responses.go, clients.go), in the terms of Http.v; the routes of roles are
    in RolesHttp.v.

    [clients_called_admissibly] is for this service what
    ChannelsHttp's theorem is for the channels. *)

From S2P Require Import Prelude GoStd GoNum GoUrl Errors Authn Roles Clients Topics Guards Http.
Import http.

Module clients_http.
(** ** requests.go *)
Record createClientReq := MkCreateClientReq { cc_client : clients.Client }.
Definition createClientReq_validate (uuid : messaging.uuidlib) (req : createClientReq) : error :=
  if_ Nat.ltb MaxNameSize (String.length (clients.Name (cc_client req))) return_ Some apiutil.ErrNameSize ;;
  if_ clients.ID (cc_client req) <>s "" return_ ValidateUUID uuid (clients.ID (cc_client req)) ;;
  None.

Record createClientsReq := MkCreateClientsReq { cs_Clients : list clients.Client }.
Fixpoint validateClients (uuid : messaging.uuidlib) (cs : list clients.Client) : error :=
  match cs with
  | [] => None
  | c :: cs =>
      let rest := if_ Nat.ltb MaxNameSize (String.length (clients.Name c)) return_ Some apiutil.ErrNameSize ;;
                  validateClients uuid cs in
      if clients.ID c <>s "" then
        if_err ValidateUUID uuid (clients.ID c) return_ ValidateUUID uuid (clients.ID c) ;;
        rest
      else rest
  end.
Definition createClientsReq_validate (uuid : messaging.uuidlib) (req : createClientsReq) : error :=
  if_ Nat.eqb (length (cs_Clients req)) 0 return_ Some apiutil.ErrEmptyList ;;
  validateClients uuid (cs_Clients req).

Record viewClientReq := MkViewClientReq { v_id : string; v_roles : bool }.
Definition viewClientReq_validate (req : viewClientReq) : error :=
  if_ v_id req =s "" return_ Some apiutil.ErrMissingID ;;
  None.
(** No endpoint reads these two. *)
Record viewClientPermsReq := MkViewClientPermsReq { vp_id : string }.
Definition viewClientPermsReq_validate (req : viewClientPermsReq) : error :=
  if_ vp_id req =s "" return_ Some apiutil.ErrMissingID ;;
  None.
Record listMembersReq := MkListMembersReq { lm_Page : clients.Page; lm_groupID : string }.
Definition listMembersReq_validate (req : listMembersReq) : error :=
  if_ lm_groupID req =s "" return_ Some apiutil.ErrMissingID ;;
  None.

Record listClientsReq := MkListClientsReq { l_Page : clients.Page; l_userID : string }.
Definition listClientsReq_validate (req : listClientsReq) : error :=
  let pm := l_Page req in
  if_ N.ltb MaxLimitSize (clients.pg_Limit pm) || N.ltb (clients.pg_Limit pm) 1 return_ Some apiutil.ErrLimitSize ;;
  if_ Nat.ltb MaxNameSize (String.length (clients.pg_Name pm)) return_ Some apiutil.ErrNameSize ;;
  if_ negb (existsb (String.eqb (clients.pg_Order pm)) [""; NameOrder; CreatedAtOrder; UpdatedAtOrder])
  return_ Some apiutil.ErrInvalidOrder ;;
  if_ (clients.pg_Dir pm <>s "") && ((clients.pg_Dir pm <>s DescDir) && (clients.pg_Dir pm <>s AscDir))
  return_ Some apiutil.ErrInvalidDirection ;;
  None.

Record updateClientReq := MkUpdateClientReq {
  u_id : string; u_Name : string; u_Metadata : Metadata; u_PrivateMetadata : Metadata; u_Tags : list string }.
Definition updateClientReq_validate (req : updateClientReq) : error :=
  if_ u_id req =s "" return_ Some apiutil.ErrMissingID ;;
  if_ Nat.ltb MaxNameSize (String.length (u_Name req)) return_ Some apiutil.ErrNameSize ;;
  None.
Record updateClientTagsReq := MkUpdateClientTagsReq { ut_id : string; ut_Tags : list string }.
Definition updateClientTagsReq_validate (req : updateClientTagsReq) : error :=
  if_ ut_id req =s "" return_ Some apiutil.ErrMissingID ;;
  None.
Record updateClientCredentialsReq := MkUpdateClientCredentialsReq { us_id : string; us_Secret : string }.
Definition updateClientCredentialsReq_validate (req : updateClientCredentialsReq) : error :=
  if_ us_id req =s "" return_ Some apiutil.ErrMissingID ;;
  if_ us_Secret req =s "" return_ Some apiutil.ErrMissingSecret ;;
  None.
Record changeClientStatusReq := MkChangeClientStatusReq { st_id : string }.
Definition changeClientStatusReq_validate (req : changeClientStatusReq) : error :=
  if_ st_id req =s "" return_ Some apiutil.ErrMissingID ;;
  None.
Record setClientParentGroupReq := MkSetClientParentGroupReq { sp_id : string; sp_ParentGroupID : string }.
Definition setClientParentGroupReq_validate (req : setClientParentGroupReq) : error :=
  if_ sp_id req =s "" return_ Some apiutil.ErrMissingID ;;
  if_ sp_ParentGroupID req =s "" return_ Some apiutil.ErrMissingParentGroupID ;;
  None.
Record removeClientParentGroupReq := MkRemoveClientParentGroupReq { rp_id : string }.
Definition removeClientParentGroupReq_validate (req : removeClientParentGroupReq) : error :=
  if_ rp_id req =s "" return_ Some apiutil.ErrMissingID ;;
  None.
Record deleteClientReq := MkDeleteClientReq { d_id : string }.
Definition deleteClientReq_validate (req : deleteClientReq) : error :=
  if_ d_id req =s "" return_ Some apiutil.ErrMissingID ;;
  None.

(** ** responses.go *)
Inductive response :=
| createClientRes (c : clients.Client) (created : bool)
| updateClientRes (c : clients.Client)
| viewClientRes (c : clients.Client)
| clientsPageRes (Limit Offset Total : N) (Clients : list clients.Client)
| changeClientStatusRes (c : clients.Client)
| setParentGroupRes | removeParentGroupRes | deleteClientRes.
Definition response_Code (res : response) : Z :=
  match res with
  | createClientRes _ created => if created then StatusCreated else StatusOK
  | updateClientRes _ | viewClientRes _ | clientsPageRes _ _ _ _ | changeClientStatusRes _ | setParentGroupRes => StatusOK
  | removeParentGroupRes | deleteClientRes => StatusNoContent
  end.
Definition response_Headers (res : response) : list (string * string) :=
  match res with
  | createClientRes c created => if created then [("Location", "/clients/" +:+ clients.ID c)] else []
  | _ => []
  end.
Definition response_Empty (res : response) : bool :=
  match res with
  | setParentGroupRes | removeParentGroupRes | deleteClientRes => true
  | _ => false
  end.
#[export] Instance clients_response : Response response :=
  { Code := response_Code; Headers := response_Headers; Empty := response_Empty }.

(** ** decode.go *)
Section decode.
Context (unmarshal : string -> err + Metadata) (Quote : string -> string) {B : Type}.
Context `{!Unmarshal B clients.Client} `{!Unmarshal B (list clients.Client)} `{!Unmarshal B updateClientReq}
  `{!Unmarshal B updateClientTagsReq} `{!Unmarshal B updateClientCredentialsReq} `{!Unmarshal B setClientParentGroupReq}.

Definition decodeViewClient (r : Request) (_ : B) : error + viewClientReq :=
  roles <-? ReadBoolQuery Quote r RolesKey false ;;
  inr (MkViewClientReq (URLParam r "clientID") roles).
Definition decodeListClients (r : Request) (_ : B) : error + listClientsReq :=
  name <-? ReadStringQuery r NameKey "" ;;
  tags <-? ReadStringQuery r TagsKey "" ;;
  let tq := if tags <>s "" then clients.ToTagsQuery tags else clients.TagsQuery0 in
  s <-? ReadStringQuery r StatusKey clients.Enabled ;;
  status <-? (let '(st, err) := clients.ToStatus s in if_err err return_ inl err ;; inr st) ;;
  meta <-? ReadMetadataQuery unmarshal r MetadataKey None ;;
  offset <-? ReadNumQuery Quote Uint64 r OffsetKey DefOffset ;;
  limit <-? ReadNumQuery Quote Uint64 r LimitKey DefLimit ;;
  dir <-? ReadStringQuery r DirKey DefDir ;;
  order <-? ReadStringQuery r OrderKey DefOrder ;;
  allActions <-? ReadStringQuery r ActionsKey "" ;;
  let actions := readActions allActions in
  roleID <-? ReadStringQuery r RoleIDKey "" ;;
  roleName <-? ReadStringQuery r RoleNameKey "" ;;
  accessType <-? ReadStringQuery r AccessTypeKey "" ;;
  userID <-? ReadStringQuery r UserKey "" ;;
  groupID <-? ReadStringQuery r GroupKey "" ;;
  let groupPtr := if Has (Query r) GroupKey then Some groupID else None in
  channelID <-? ReadStringQuery r ChannelKey "" ;;
  connType <-? ReadStringQuery r ConnTypeKey "" ;;
  id <-? ReadStringQuery r IDOrder "" ;;
  ot <-? ReadBoolQuery Quote r OnlyTotal false ;;
  cfrom <-? ReadStringQuery r "created_from" "" ;;
  cto <-? ReadStringQuery r "created_to" "" ;;
  createdFrom <-! readTime cfrom ;;
  createdTo <-! readTime cto ;;
  inr (MkListClientsReq (clients.Page0 <| clients.pg_Name := name |> <| clients.pg_Tags := tq |>
    <| clients.pg_Status := status |> <| clients.pg_Metadata := meta |> <| clients.pg_RoleName := roleName |>
    <| clients.pg_RoleID := roleID |> <| clients.pg_Actions := actions |> <| clients.pg_AccessType := accessType |>
    <| clients.pg_Order := order |> <| clients.pg_Dir := dir |> <| clients.pg_Offset := Z.to_N offset |>
    <| clients.pg_Limit := Z.to_N limit |> <| clients.pg_Group := groupPtr |> <| clients.pg_Channel := channelID |>
    <| clients.pg_ConnectionType := connType |> <| clients.pg_ID := id |> <| clients.pg_OnlyTotal := ot |>
    <| clients.pg_CreatedFrom := createdFrom |> <| clients.pg_CreatedTo := createdTo |>) userID).
Definition decodeUpdateClient (r : Request) (b : B) : error + updateClientReq :=
  decodeBody r (MkUpdateClientReq (URLParam r "clientID") "" None None []) b.
Definition decodeUpdateClientTags (r : Request) (b : B) : error + updateClientTagsReq :=
  decodeBody r (MkUpdateClientTagsReq (URLParam r "clientID") []) b.
Definition decodeUpdateClientCredentials (r : Request) (b : B) : error + updateClientCredentialsReq :=
  decodeBody r (MkUpdateClientCredentialsReq (URLParam r "clientID") "") b.
Definition decodeCreateClientReq (r : Request) (b : B) : error + createClientReq :=
  c <-! decodeBody r clients.Client0 b ;;
  inr (MkCreateClientReq c).
Definition decodeCreateClientsReq (r : Request) (b : B) : error + createClientsReq :=
  cs <-! decodeBody r [] b ;;
  inr (MkCreateClientsReq cs).
Definition decodeChangeClientStatus (r : Request) (_ : B) : error + changeClientStatusReq :=
  inr (MkChangeClientStatusReq (URLParam r "clientID")).
Definition decodeSetClientParentGroupStatus (r : Request) (b : B) : error + setClientParentGroupReq :=
  decodeBody r (MkSetClientParentGroupReq (URLParam r "clientID") "") b.
Definition decodeRemoveClientParentGroupStatus (r : Request) (_ : B) : error + removeClientParentGroupReq :=
  inr (MkRemoveClientParentGroupReq (URLParam r "clientID")).
Definition decodeDeleteClientReq (r : Request) (_ : B) : error + deleteClientReq :=
  inr (MkDeleteClientReq (URLParam r "clientID")).
End decode.

(** ** endpoints.go *)
Section endpoints.
Context (uuid : messaging.uuidlib) {W : Type} (svc : clients_mw.Service W).

Definition createClientEndpoint (ctx : option authn.Session) (req : createClientReq) : St W (option (error + response)) :=
  if_err createClientReq_validate uuid req return_ pret (inl (WrapE apiutil.ErrValidation (createClientReq_validate uuid req))) ;;
  session <-ctx ctx or_return pret (inl (Some svcerr.ErrAuthentication)) ;;
  '(cs, _, err) <~ call (clients_mw.svc_CreateClients svc session [cc_client req]) ;;
  if_err err return_ pret (inl err) ;;
  match cs with c :: _ => pret (inr (createClientRes c true)) | [] => panic end.
Definition createClientsEndpoint (ctx : option authn.Session) (req : createClientsReq) : St W (option (error + response)) :=
  if_err createClientsReq_validate uuid req return_ pret (inl (WrapE apiutil.ErrValidation (createClientsReq_validate uuid req))) ;;
  session <-ctx ctx or_return pret (inl (Some svcerr.ErrAuthentication)) ;;
  '(cs, _, err) <~ call (clients_mw.svc_CreateClients svc session (cs_Clients req)) ;;
  if_err err return_ pret (inl err) ;;
  pret (inr (clientsPageRes 0 0 (N.of_nat (length cs)) cs)).
Definition viewClientEndpoint (ctx : option authn.Session) (req : viewClientReq) : St W (option (error + response)) :=
  if_err viewClientReq_validate req return_ pret (inl (WrapE apiutil.ErrValidation (viewClientReq_validate req))) ;;
  session <-ctx ctx or_return pret (inl (Some svcerr.ErrAuthentication)) ;;
  '(c, err) <~ call (clients_mw.svc_View svc session (v_id req) (v_roles req)) ;;
  if_err err return_ pret (inl err) ;;
  pret (inr (viewClientRes c)).
Definition listClientsEndpoint (ctx : option authn.Session) (req : listClientsReq) : St W (option (error + response)) :=
  if_err listClientsReq_validate req return_ pret (inl (WrapE apiutil.ErrValidation (listClientsReq_validate req))) ;;
  session <-ctx ctx or_return pret (inl (Some svcerr.ErrAuthentication)) ;;
  '(page, err) <~ call (if l_userID req <>s ""
                        then clients_mw.svc_ListUserClients svc session (l_userID req) (l_Page req)
                        else clients_mw.svc_ListClients svc session (l_Page req)) ;;
  if_err err return_ pret (inl err) ;;
  let pm := clients.cp_Page page in
  pret (inr (clientsPageRes (clients.pg_Limit pm) (clients.pg_Offset pm) (clients.pg_Total pm) (clients.cp_Clients page))).
Definition updateClientEndpoint (ctx : option authn.Session) (req : updateClientReq) : St W (option (error + response)) :=
  if_err updateClientReq_validate req return_ pret (inl (WrapE apiutil.ErrValidation (updateClientReq_validate req))) ;;
  session <-ctx ctx or_return pret (inl (Some svcerr.ErrAuthentication)) ;;
  '(c, err) <~ call (clients_mw.svc_Update svc session (clients.Client0 <| clients.ID := u_id req |>
    <| clients.Name := u_Name req |> <| clients.Metadata_ := u_Metadata req |> <| clients.PrivateMetadata := u_PrivateMetadata req |>)) ;;
  if_err err return_ pret (inl err) ;;
  pret (inr (updateClientRes c)).
Definition updateClientTagsEndpoint (ctx : option authn.Session) (req : updateClientTagsReq) : St W (option (error + response)) :=
  if_err updateClientTagsReq_validate req return_ pret (inl (WrapE apiutil.ErrValidation (updateClientTagsReq_validate req))) ;;
  session <-ctx ctx or_return pret (inl (Some svcerr.ErrAuthentication)) ;;
  '(c, err) <~ call (clients_mw.svc_UpdateTags svc session (clients.Client0 <| clients.ID := ut_id req |>
    <| clients.Tags := ut_Tags req |>)) ;;
  if_err err return_ pret (inl err) ;;
  pret (inr (updateClientRes c)).
Definition updateClientSecretEndpoint (ctx : option authn.Session) (req : updateClientCredentialsReq) : St W (option (error + response)) :=
  if_err updateClientCredentialsReq_validate req return_ pret (inl (WrapE apiutil.ErrValidation (updateClientCredentialsReq_validate req))) ;;
  session <-ctx ctx or_return pret (inl (Some svcerr.ErrAuthentication)) ;;
  '(c, err) <~ call (clients_mw.svc_UpdateSecret svc session (us_id req) (us_Secret req)) ;;
  if_err err return_ pret (inl err) ;;
  pret (inr (updateClientRes c)).
Definition enableClientEndpoint (ctx : option authn.Session) (req : changeClientStatusReq) : St W (option (error + response)) :=
  if_err changeClientStatusReq_validate req return_ pret (inl (WrapE apiutil.ErrValidation (changeClientStatusReq_validate req))) ;;
  session <-ctx ctx or_return pret (inl (Some svcerr.ErrAuthentication)) ;;
  '(c, err) <~ call (clients_mw.svc_Enable svc session (st_id req)) ;;
  if_err err return_ pret (inl err) ;;
  pret (inr (changeClientStatusRes c)).
Definition disableClientEndpoint (ctx : option authn.Session) (req : changeClientStatusReq) : St W (option (error + response)) :=
  if_err changeClientStatusReq_validate req return_ pret (inl (WrapE apiutil.ErrValidation (changeClientStatusReq_validate req))) ;;
  session <-ctx ctx or_return pret (inl (Some svcerr.ErrAuthentication)) ;;
  '(c, err) <~ call (clients_mw.svc_Disable svc session (st_id req)) ;;
  if_err err return_ pret (inl err) ;;
  pret (inr (changeClientStatusRes c)).
Definition setClientParentGroupEndpoint (ctx : option authn.Session) (req : setClientParentGroupReq) : St W (option (error + response)) :=
  if_err setClientParentGroupReq_validate req return_ pret (inl (WrapE apiutil.ErrValidation (setClientParentGroupReq_validate req))) ;;
  session <-ctx ctx or_return pret (inl (Some svcerr.ErrAuthentication)) ;;
  err <~ call (clients_mw.svc_SetParentGroup svc session (sp_ParentGroupID req) (sp_id req)) ;;
  if_err err return_ pret (inl err) ;;
  pret (inr setParentGroupRes).
Definition removeClientParentGroupEndpoint (ctx : option authn.Session) (req : removeClientParentGroupReq) : St W (option (error + response)) :=
  if_err removeClientParentGroupReq_validate req return_ pret (inl (WrapE apiutil.ErrValidation (removeClientParentGroupReq_validate req))) ;;
  session <-ctx ctx or_return pret (inl (Some svcerr.ErrAuthentication)) ;;
  err <~ call (clients_mw.svc_RemoveParentGroup svc session (rp_id req)) ;;
  if_err err return_ pret (inl err) ;;
  pret (inr removeParentGroupRes).
Definition deleteClientEndpoint (ctx : option authn.Session) (req : deleteClientReq) : St W (option (error + response)) :=
  if_err deleteClientReq_validate req return_ pret (inl (WrapE apiutil.ErrValidation (deleteClientReq_validate req))) ;;
  session <-ctx ctx or_return pret (inl (Some svcerr.ErrAuthentication)) ;;
  err <~ call (clients_mw.svc_Delete svc session (d_id req)) ;;
  if_err err return_ pret (inl err) ;;
  pret (inr deleteClientRes).
End endpoints.

(** ** clients.go *)
Section transport.
Context (uuid : messaging.uuidlib) {W : Type} (svc : clients_mw.Service W).
Context (unmarshal : string -> err + Metadata) (Quote : string -> string) {B : Type}.
Context `{!Unmarshal B clients.Client} `{!Unmarshal B (list clients.Client)} `{!Unmarshal B updateClientReq}
  `{!Unmarshal B updateClientTagsReq} `{!Unmarshal B updateClientCredentialsReq} `{!Unmarshal B setClientParentGroupReq}.
Definition clientsHandler : list (route W B response) :=
  let base := "/{domainID}/clients" in
  let one := base +:+ "/{clientID}" in
  [ MkRoute POST (base +:+ "/") (handle decodeCreateClientReq (createClientEndpoint uuid svc));
    MkRoute GET (base +:+ "/") (handle (decodeListClients unmarshal Quote) (listClientsEndpoint svc));
    MkRoute POST (base +:+ "/bulk") (handle decodeCreateClientsReq (createClientsEndpoint uuid svc));
    MkRoute GET (one +:+ "/") (handle (decodeViewClient Quote) (viewClientEndpoint svc));
    MkRoute PATCH (one +:+ "/") (handle decodeUpdateClient (updateClientEndpoint svc));
    MkRoute PATCH (one +:+ "/tags") (handle decodeUpdateClientTags (updateClientTagsEndpoint svc));
    MkRoute PATCH (one +:+ "/secret") (handle decodeUpdateClientCredentials (updateClientSecretEndpoint svc));
    MkRoute POST (one +:+ "/enable") (handle decodeChangeClientStatus (enableClientEndpoint svc));
    MkRoute POST (one +:+ "/disable") (handle decodeChangeClientStatus (disableClientEndpoint svc));
    MkRoute POST (one +:+ "/parent") (handle decodeSetClientParentGroupStatus (setClientParentGroupEndpoint svc));
    MkRoute DELETE (one +:+ "/parent") (handle decodeRemoveClientParentGroupStatus (removeClientParentGroupEndpoint svc));
    MkRoute DELETE (one +:+ "/") (handle decodeDeleteClientReq (deleteClientEndpoint svc))].
End transport.
End clients_http.

(** ** What reaches the service *)
Module clients_http_theory.
Import http_theory clients_http.
Section theory.
Context (uuid : messaging.uuidlib) {W : Type} (svc svc' : clients_mw.Service W).
Definition client_ok (c : clients.Client) : Prop :=
  name_ok (clients.Name c) /\ (clients.ID c = "" \/ uuid_ok uuid (clients.ID c)).
Definition page_ok (pm : clients.Page) : Prop :=
  limit_ok (clients.pg_Limit pm) /\ name_ok (clients.pg_Name pm) /\ order_ok (clients.pg_Order pm) /\ dir_ok (clients.pg_Dir pm).
Record agree : Prop := {
  agree_CreateClients : forall s cs, cs <> [] -> Forall client_ok cs ->
    clients_mw.svc_CreateClients svc s cs = clients_mw.svc_CreateClients svc' s cs;
  agree_View : forall s id r, id <> "" -> clients_mw.svc_View svc s id r = clients_mw.svc_View svc' s id r;
  agree_ListClients : forall s pm, page_ok pm -> clients_mw.svc_ListClients svc s pm = clients_mw.svc_ListClients svc' s pm;
  agree_ListUserClients : forall s u pm, u <> "" -> page_ok pm ->
    clients_mw.svc_ListUserClients svc s u pm = clients_mw.svc_ListUserClients svc' s u pm;
  agree_Update : forall s c, clients.ID c <> "" -> name_ok (clients.Name c) ->
    clients_mw.svc_Update svc s c = clients_mw.svc_Update svc' s c;
  agree_UpdateTags : forall s c, clients.ID c <> "" -> clients_mw.svc_UpdateTags svc s c = clients_mw.svc_UpdateTags svc' s c;
  agree_UpdateSecret : forall s id secret, id <> "" -> secret <> "" ->
    clients_mw.svc_UpdateSecret svc s id secret = clients_mw.svc_UpdateSecret svc' s id secret;
  agree_Enable : forall s id, id <> "" -> clients_mw.svc_Enable svc s id = clients_mw.svc_Enable svc' s id;
  agree_Disable : forall s id, id <> "" -> clients_mw.svc_Disable svc s id = clients_mw.svc_Disable svc' s id;
  agree_Delete : forall s id, id <> "" -> clients_mw.svc_Delete svc s id = clients_mw.svc_Delete svc' s id;
  agree_SetParentGroup : forall s g id, g <> "" -> id <> "" ->
    clients_mw.svc_SetParentGroup svc s g id = clients_mw.svc_SetParentGroup svc' s g id;
  agree_RemoveParentGroup : forall s id, id <> "" ->
    clients_mw.svc_RemoveParentGroup svc s id = clients_mw.svc_RemoveParentGroup svc' s id }.

Lemma createClientReq_ok req : createClientReq_validate uuid req = None -> client_ok (cc_client req).
Proof.
  unfold createClientReq_validate. destruct (Nat.ltb _ _) eqn:N; [done|]. apply name_test_ok in N. intros H.
  split; [done|]. destruct (clients.ID _ <>s "") eqn:E; go_bool; [right; by apply ValidateUUID_spec|by left].
Qed.
Lemma validateClients_ok cs : validateClients uuid cs = None -> Forall client_ok cs.
Proof.
  induction cs as [|c cs IH]; cbn [validateClients]; intros H; [done|].
  destruct (clients.ID c <>s "") eqn:E; [destruct (ValidateUUID uuid (clients.ID c)) eqn:U; [done|]|];
    destruct (Nat.ltb _ _) eqn:N in H; try done; apply name_test_ok in N; constructor; auto; split; auto; go_bool; auto.
  right. by apply ValidateUUID_spec.
Qed.
Lemma listClientsReq_ok req : listClientsReq_validate req = None -> page_ok (l_Page req).
Proof.
  unfold listClientsReq_validate, page_ok. destruct (_ || _) eqn:L; [done|]. destruct (Nat.ltb _ _) eqn:N; [done|].
  destruct (negb (existsb _ _)) eqn:O; [done|]. destruct (_ && (_ && _)) eqn:D; [done|]. intros _.
  split; [|split; [|split]]; auto using limit_test_ok, name_test_ok, order_test_ok, dir_test_ok.
Qed.
Lemma updateClientReq_ok req : updateClientReq_validate req = None -> u_id req <> "" /\ name_ok (u_Name req).
Proof.
  unfold updateClientReq_validate. destruct (_ =s "") eqn:E; [done|]. destruct (Nat.ltb _ _) eqn:N; [done|].
  go_bool. by apply name_test_ok in N.
Qed.

Context (unmarshal : string -> err + Metadata) (Quote : string -> string) {B : Type}.
Context `{!Unmarshal B clients.Client} `{!Unmarshal B (list clients.Client)} `{!Unmarshal B updateClientReq}
  `{!Unmarshal B updateClientTagsReq} `{!Unmarshal B updateClientCredentialsReq} `{!Unmarshal B setClientParentGroupReq}.
(** Over HTTP the clients service is only called with admissible arguments. *)
Theorem clients_called_admissibly : agree ->
  Forall2 same_route (clientsHandler uuid svc unmarshal Quote (B := B)) (clientsHandler uuid svc' unmarshal Quote (B := B)).
Proof.
  intros [CC ? LC LUC UC ? US ? ? ? SP ?]. unfold clientsHandler.
  repeat constructor; apply same_handle; intros ctx req; apply endpoint_agree; intros H s.
  all: try by eauto using id_test_ok.
  - apply CC; [done|]. by apply Forall_singleton, createClientReq_ok.
  - apply listClientsReq_ok in H. destruct (l_userID req <>s "") eqn:U; [|by apply LC]. go_bool. by apply LUC.
  - unfold createClientsReq_validate in H. destruct (Nat.eqb _ _) eqn:L; [done|].
    apply CC; [by apply not_empty_list|by apply validateClients_ok].
  - apply updateClientReq_ok in H as []. by apply UC.
  - apply two_tests_ok in H as []. by apply US.
  - apply two_tests_ok in H as []. auto.
Qed.
End theory.
End clients_http_theory.
