(* ===== verification/GroupsHttp.v ===== *)
(** * GroupsHttp: the HTTP layer of the groups service

    Source: src/groups/api/http (requests.go, decode.go, endpoints.go,
    responses.go, transport.go), in the terms of Http.v; the routes of roles
    are in RolesHttp.v.

    The tree of a hierarchy is built with pointers, in whatever order Go goes
    through its maps: [tree_of_a_hierarchy] says that every group of the page
    is in it once, below its parent.  [groups_called_admissibly] is for this
    service what ChannelsHttp's theorem is for the channels. *)

From S2P Require Import Prelude GoStd GoNum GoUrl Errors Authn Roles Groups Topics Guards Http.
Import http.

Module groups_http.
(** src/groups/groups.go *)
Definition MaxLevel : N := 20.

(** ** requests.go *)
Record createGroupReq := MkCreateGroupReq { cg_Group : groups.Group }.
Definition createGroupReq_validate (req : createGroupReq) : error :=
  if_ Nat.ltb MaxNameSize (String.length (groups.Name (cg_Group req))) || (groups.Name (cg_Group req) =s "")
  return_ Some apiutil.ErrNameSize ;;
  None.
Record updateGroupReq := MkUpdateGroupReq { u_id : string; u_Name : string; u_Description : option string; u_Metadata : Metadata }.
Definition updateGroupReq_validate (req : updateGroupReq) : error :=
  if_ u_id req =s "" return_ Some apiutil.ErrMissingID ;;
  if_ Nat.ltb MaxNameSize (String.length (u_Name req)) return_ Some apiutil.ErrNameSize ;;
  None.
Record updateGroupTagsReq := MkUpdateGroupTagsReq { ut_id : string; ut_Tags : list string }.
Definition updateGroupTagsReq_validate (req : updateGroupTagsReq) : error :=
  if_ ut_id req =s "" return_ Some apiutil.ErrMissingID ;;
  None.
Record listGroupsReq := MkListGroupsReq { l_PageMeta : groups.PageMeta; l_userID : string; l_groupID : string }.
Definition listGroupsReq_validate (req : listGroupsReq) : error :=
  let pm := l_PageMeta req in
  if_ N.ltb MaxLimitSize (groups.pm_Limit pm) || N.ltb (groups.pm_Limit pm) 1 return_ Some apiutil.ErrLimitSize ;;
  if_ (l_userID req <>s "") && (l_groupID req <>s "") return_ Some apiutil.ErrMultipleEntitiesFilter ;;
  if_ negb (existsb (String.eqb (groups.pm_Order pm)) [""; NameOrder; CreatedAtOrder; UpdatedAtOrder])
  return_ Some apiutil.ErrInvalidOrder ;;
  if_ (groups.pm_Dir pm <>s "") && ((groups.pm_Dir pm <>s DescDir) && (groups.pm_Dir pm <>s AscDir))
  return_ Some apiutil.ErrInvalidDirection ;;
  None.
Record groupReq := MkGroupReq { g_id : string; g_roles : bool }.
Definition groupReq_validate (req : groupReq) : error :=
  if_ g_id req =s "" return_ Some apiutil.ErrMissingID ;;
  None.
Record changeGroupStatusReq := MkChangeGroupStatusReq { st_id : string }.
Definition changeGroupStatusReq_validate (req : changeGroupStatusReq) : error :=
  if_ st_id req =s "" return_ Some apiutil.ErrMissingID ;;
  None.
Record retrieveGroupHierarchyReq := MkRetrieveGroupHierarchyReq { h_Meta : groups.HierarchyPageMeta; h_id : string }.
Definition retrieveGroupHierarchyReq_validate (req : retrieveGroupHierarchyReq) : error :=
  if_ N.ltb MaxLevel (groups.hm_Level (h_Meta req)) return_ Some apiutil.ErrLevel ;;
  if_ h_id req =s "" return_ Some apiutil.ErrMissingID ;;
  None.
Record addParentGroupReq := MkAddParentGroupReq { ap_id : string; ap_ParentID : string }.
Definition addParentGroupReq_validate (uuid : messaging.uuidlib) (req : addParentGroupReq) : error :=
  if_ ap_id req =s "" return_ Some apiutil.ErrMissingID ;;
  if_err ValidateUUID uuid (ap_ParentID req) return_ ValidateUUID uuid (ap_ParentID req) ;;
  if_ ap_id req =s ap_ParentID req return_ Some apiutil.ErrSelfParentingNotAllowed ;;
  None.
Record removeParentGroupReq := MkRemoveParentGroupReq { rp_id : string }.
Definition removeParentGroupReq_validate (req : removeParentGroupReq) : error :=
  if_ rp_id req =s "" return_ Some apiutil.ErrMissingID ;;
  None.
Record addChildrenGroupsReq := MkAddChildrenGroupsReq { ac_id : string; ac_ChildrenIDs : list string }.
Fixpoint validateChildren (uuid : messaging.uuidlib) (id : string) (ids : list string) : error :=
  match ids with
  | [] => None
  | childID :: ids =>
      if_err ValidateUUID uuid childID return_ ValidateUUID uuid childID ;;
      if_ id =s childID return_ Some apiutil.ErrSelfParentingNotAllowed ;;
      validateChildren uuid id ids
  end.
Definition addChildrenGroupsReq_validate (uuid : messaging.uuidlib) (req : addChildrenGroupsReq) : error :=
  if_ ac_id req =s "" return_ Some apiutil.ErrMissingID ;;
  if_ Nat.eqb (length (ac_ChildrenIDs req)) 0 return_ Some apiutil.ErrMissingChildrenGroupIDs ;;
  validateChildren uuid (ac_id req) (ac_ChildrenIDs req).
Record removeChildrenGroupsReq := MkRemoveChildrenGroupsReq { rc_id : string; rc_ChildrenIDs : list string }.
Definition removeChildrenGroupsReq_validate (uuid : messaging.uuidlib) (req : removeChildrenGroupsReq) : error :=
  if_ rc_id req =s "" return_ Some apiutil.ErrMissingID ;;
  if_ Nat.eqb (length (rc_ChildrenIDs req)) 0 return_ Some apiutil.ErrMissingChildrenGroupIDs ;;
  validateIDs uuid (rc_ChildrenIDs req) None.
Record removeAllChildrenGroupsReq := MkRemoveAllChildrenGroupsReq { ra_id : string }.
Definition removeAllChildrenGroupsReq_validate (req : removeAllChildrenGroupsReq) : error :=
  if_ ra_id req =s "" return_ Some apiutil.ErrMissingID ;;
  None.
Record listChildrenGroupsReq := MkListChildrenGroupsReq {
  lc_id : string; lc_startLevel : Z; lc_endLevel : Z; lc_PageMeta : groups.PageMeta }.
Definition listChildrenGroupsReq_validate (req : listChildrenGroupsReq) : error :=
  if_ lc_id req =s "" return_ Some apiutil.ErrMissingID ;;
  if_ N.ltb MaxLimitSize (groups.pm_Limit (lc_PageMeta req)) || N.ltb (groups.pm_Limit (lc_PageMeta req)) 1
  return_ Some apiutil.ErrLimitSize ;;
  None.

(** ** responses.go *)
Record retrieveGroupHierarchyRes := MkRetrieveGroupHierarchyRes { rh_Level : N; rh_Direction : Z; rh_Groups : list groups.Group }.
Inductive response :=
| viewGroupRes (g : groups.Group)
| createGroupRes (g : groups.Group) (created : bool)
| groupPageRes (Limit Offset Total : N) (Groups : list groups.Group)
| updateGroupRes (g : groups.Group)
| changeStatusRes (g : groups.Group)
| deleteGroupRes (deleted : bool)
| hierarchyRes (res : retrieveGroupHierarchyRes)
| addParentGroupRes | removeParentGroupRes | addChildrenGroupsRes | removeChildrenGroupsRes | removeAllChildrenGroupsRes
| listChildrenGroupsRes (Limit Offset Total : N) (Groups : list groups.Group).
Definition response_Code (res : response) : Z :=
  match res with
  | createGroupRes _ created => if created then StatusCreated else StatusOK
  | deleteGroupRes deleted => if deleted then StatusNoContent else StatusBadRequest
  | removeParentGroupRes | removeChildrenGroupsRes | removeAllChildrenGroupsRes => StatusNoContent
  | viewGroupRes _ | groupPageRes _ _ _ _ | updateGroupRes _ | changeStatusRes _ | hierarchyRes _
  | addParentGroupRes | addChildrenGroupsRes | listChildrenGroupsRes _ _ _ _ => StatusOK
  end.
Definition response_Headers (res : response) : list (string * string) :=
  match res with
  | createGroupRes g created => if created then [("Location", "/groups/" +:+ groups.ID g)] else []
  | _ => []
  end.
Definition response_Empty (res : response) : bool :=
  match res with
  | deleteGroupRes _ | addParentGroupRes | removeParentGroupRes | addChildrenGroupsRes | removeChildrenGroupsRes
  | removeAllChildrenGroupsRes => true
  | _ => false
  end.
#[export] Instance groups_response : Response response :=
  { Code := response_Code; Headers := response_Headers; Empty := response_Empty }.

(** ** decode.go *)
Section decode.
Context (unmarshal : string -> err + Metadata) (Quote : string -> string) {B : Type}.
Context `{!Unmarshal B groups.Group} `{!Unmarshal B updateGroupReq} `{!Unmarshal B updateGroupTagsReq}
  `{!Unmarshal B addParentGroupReq} `{!Unmarshal B addChildrenGroupsReq} `{!Unmarshal B removeChildrenGroupsReq}.

Definition decodeHierarchyPageMeta (r : Request) : error + groups.HierarchyPageMeta :=
  level <-? ReadNumQuery Quote Uint64 r LevelKey DefLevel ;;
  tree <-? ReadBoolQuery Quote r TreeKey false ;;
  hierarchyDir <-? ReadNumQuery Quote Int64 r DirKey (-1)%Z ;;
  inr (groups.MkHierarchyPageMeta (Z.to_N level) hierarchyDir tree).
Definition decodePageMeta (r : Request) : error + groups.PageMeta :=
  s <-? ReadStringQuery r StatusKey groups.Enabled ;;
  st <-? (let '(st, err) := groups.ToStatus s in if_err err return_ inl err ;; inr st) ;;
  offset <-? ReadNumQuery Quote Uint64 r OffsetKey DefOffset ;;
  limit <-? ReadNumQuery Quote Uint64 r LimitKey DefLimit ;;
  name <-? ReadStringQuery r NameKey "" ;;
  id <-? ReadStringQuery r IDOrder "" ;;
  meta <-? ReadMetadataQuery unmarshal r MetadataKey None ;;
  allActions <-? ReadStringQuery r ActionsKey "" ;;
  let actions := readActions allActions in
  roleID <-? ReadStringQuery r RoleIDKey "" ;;
  roleName <-? ReadStringQuery r RoleNameKey "" ;;
  accessType <-? ReadStringQuery r AccessTypeKey "" ;;
  rootGroup <-? ReadBoolQuery Quote r RootGroupKey false ;;
  ot <-? ReadBoolQuery Quote r OnlyTotal false ;;
  order <-? ReadStringQuery r OrderKey DefOrder ;;
  dir <-? ReadStringQuery r DirKey DefDir ;;
  tags <-? ReadStringQuery r TagsKey "" ;;
  let tq := if tags <>s "" then groups.ToTagsQuery tags else groups.TagsQuery0 in
  cfrom <-? ReadStringQuery r "created_from" "" ;;
  cto <-? ReadStringQuery r "created_to" "" ;;
  createdFrom <-! readTime cfrom ;;
  createdTo <-! readTime cto ;;
  inr (groups.PageMeta0 <| groups.pm_Offset := Z.to_N offset |> <| groups.pm_Limit := Z.to_N limit |>
    <| groups.pm_Name := name |> <| groups.pm_ID := id |> <| groups.pm_Metadata := meta |> <| groups.pm_Status := st |>
    <| groups.pm_RoleName := roleName |> <| groups.pm_RoleID := roleID |> <| groups.pm_Actions := actions |>
    <| groups.pm_AccessType := accessType |> <| groups.pm_RootGroup := rootGroup |> <| groups.pm_OnlyTotal := ot |>
    <| groups.pm_Order := order |> <| groups.pm_Dir := dir |> <| groups.pm_Tags := tq |>
    <| groups.pm_CreatedFrom := createdFrom |> <| groups.pm_CreatedTo := createdTo |>).

Definition DecodeGroupCreate (r : Request) (b : B) : error + createGroupReq :=
  g <-! decodeBody r groups.Group0 b ;;
  inr (MkCreateGroupReq g).
Definition DecodeListGroupsRequest (r : Request) (_ : B) : error + listGroupsReq :=
  pm <-! decodePageMeta r ;;
  userID <-? ReadStringQuery r UserKey "" ;;
  groupID <-? ReadStringQuery r GroupKey "" ;;
  inr (MkListGroupsReq pm userID groupID).
Definition DecodeGroupUpdate (r : Request) (b : B) : error + updateGroupReq :=
  decodeBody r (MkUpdateGroupReq (URLParam r "groupID") "" None None) b.
Definition decodeUpdateGroupTags (r : Request) (b : B) : error + updateGroupTagsReq :=
  decodeBody r (MkUpdateGroupTagsReq (URLParam r "groupID") []) b.
Definition DecodeGroupRequest (r : Request) (_ : B) : error + groupReq :=
  roles <-? ReadBoolQuery Quote r RolesKey false ;;
  inr (MkGroupReq (URLParam r "groupID") roles).
Definition DecodeChangeGroupStatusRequest (r : Request) (_ : B) : error + changeGroupStatusReq :=
  inr (MkChangeGroupStatusReq (URLParam r "groupID")).
Definition decodeRetrieveGroupHierarchy (r : Request) (_ : B) : error + retrieveGroupHierarchyReq :=
  hm <-! decodeHierarchyPageMeta r ;;
  inr (MkRetrieveGroupHierarchyReq hm (URLParam r "groupID")).
Definition decodeAddParentGroupRequest (r : Request) (b : B) : error + addParentGroupReq :=
  decodeBody r (MkAddParentGroupReq (URLParam r "groupID") "") b.
Definition decodeRemoveParentGroupRequest (r : Request) (_ : B) : error + removeParentGroupReq :=
  inr (MkRemoveParentGroupReq (URLParam r "groupID")).
Definition decodeAddChildrenGroupsRequest (r : Request) (b : B) : error + addChildrenGroupsReq :=
  decodeBody r (MkAddChildrenGroupsReq (URLParam r "groupID") []) b.
Definition decodeRemoveChildrenGroupsRequest (r : Request) (b : B) : error + removeChildrenGroupsReq :=
  decodeBody r (MkRemoveChildrenGroupsReq (URLParam r "groupID") []) b.
Definition decodeRemoveAllChildrenGroupsRequest (r : Request) (_ : B) : error + removeAllChildrenGroupsReq :=
  inr (MkRemoveAllChildrenGroupsReq (URLParam r "groupID")).
Definition decodeListChildrenGroupsRequest (r : Request) (_ : B) : error + listChildrenGroupsReq :=
  pm <-! decodePageMeta r ;;
  startLevel <-? ReadNumQuery Quote Int64 r StartLevelKey DefStartLevel ;;
  endLevel <-? ReadNumQuery Quote Int64 r EndLevelKey DefEndLevel ;;
  inr (MkListChildrenGroupsReq (URLParam r "groupID") startLevel endLevel pm).
End decode.

(** ** The tree of a hierarchy
    The maps of buildGroupsResponseTree, and the pointers in them: a group is
    denoted by its identifier, [groupsMap] holds the groups of the page (of
    several with one identifier the first) and [parentsMap] the children of
    each.  [order1] to [order3] are the orders in which the loops go through
    groupsMap. *)
Definition groupsMap (page : list groups.Group) : gmap string groups.Group :=
  foldl (fun m g => match m !! groups.ID g with Some _ => m | None => <[groups.ID g := g]> m end) ∅ page.
Definition add_child (m : gmap string groups.Group) (ps : gmap string (list string)) (id : string) : gmap string (list string) :=
  match m !! id with
  | Some group =>
      match ps !! groups.Parent group with
      | Some children => <[groups.Parent group := children ++ [id]]> ps
      | None => ps
      end
  | None => ps
  end.
Definition parentsMap (m : gmap string groups.Group) (order : list string) : gmap string (list string) :=
  foldl (add_child m) ((fun _ => []) <$> m) order.
(** What the encoder of JSON makes of a group: it follows the pointers of
    its children, to any depth; [fuel] bounds the depth. *)
Fixpoint follow (m : gmap string groups.Group) (ps : gmap string (list string)) (fuel : nat) (id : string) : list groups.Group :=
  match fuel, m !! id with
  | S fuel, Some group =>
      match ps !! id with
      | Some children => [group <| groups.Children := concat (map (follow m ps fuel) children) |>]
      | None => [group]
      end
  | _, _ => []
  end.
Definition buildGroupsResponseTree (order1 order3 : list string) (page : groups.HierarchyPage) : retrieveGroupHierarchyRes :=
  let m := groupsMap (groups.hp_Groups page) in
  let ps := parentsMap m order1 in
  let root id := match m !! id with
                 | Some group => match ps !! groups.Parent group with
                                 | Some children => Nat.eqb (length children) 0
                                 | None => true
                                 end
                 | None => false
                 end in
  MkRetrieveGroupHierarchyRes (groups.hm_Level (groups.hp_Meta page)) (groups.hm_Direction (groups.hp_Meta page))
    (concat (map (follow m ps (length (groups.hp_Groups page))) (List.filter root order3))).

(** ** endpoints.go *)
Section endpoints.
Context (uuid : messaging.uuidlib) {W : Type} (svc : groups_mw.Service W).
(** The orders of the keys of a map in its loops; the second loop only sets
    fields. *)
Context (order1 order3 : gmap string groups.Group -> list string).

Definition CreateGroupEndpoint (ctx : option authn.Session) (req : createGroupReq) : St W (option (error + response)) :=
  if_err createGroupReq_validate req return_ pret (inl (WrapE apiutil.ErrValidation (createGroupReq_validate req))) ;;
  session <-ctx ctx or_return pret (inl (Some svcerr.ErrAuthentication)) ;;
  '(g, _, err) <~ call (groups_mw.svc_CreateGroup svc session (cg_Group req)) ;;
  if_err err return_ pret (inl err) ;;
  pret (inr (createGroupRes g true)).
Definition ViewGroupEndpoint (ctx : option authn.Session) (req : groupReq) : St W (option (error + response)) :=
  if_err groupReq_validate req return_ pret (inl (WrapE apiutil.ErrValidation (groupReq_validate req))) ;;
  session <-ctx ctx or_return pret (inl (Some svcerr.ErrAuthentication)) ;;
  '(g, err) <~ call (groups_mw.svc_ViewGroup svc session (g_id req) (g_roles req)) ;;
  if_err err return_ pret (inl err) ;;
  pret (inr (viewGroupRes g)).
Definition UpdateGroupEndpoint (ctx : option authn.Session) (req : updateGroupReq) : St W (option (error + response)) :=
  if_err updateGroupReq_validate req return_ pret (inl (WrapE apiutil.ErrValidation (updateGroupReq_validate req))) ;;
  session <-ctx ctx or_return pret (inl (Some svcerr.ErrAuthentication)) ;;
  '(g, err) <~ call (groups_mw.svc_UpdateGroup svc session (groups.Group0 <| groups.ID := u_id req |>
    <| groups.Name := u_Name req |> <| groups.Description := u_Description req |> <| groups.Metadata_ := u_Metadata req |>)) ;;
  if_err err return_ pret (inl err) ;;
  pret (inr (updateGroupRes g)).
Definition updateGroupTagsEndpoint (ctx : option authn.Session) (req : updateGroupTagsReq) : St W (option (error + response)) :=
  if_err updateGroupTagsReq_validate req return_ pret (inl (WrapE apiutil.ErrValidation (updateGroupTagsReq_validate req))) ;;
  session <-ctx ctx or_return pret (inl (Some svcerr.ErrAuthentication)) ;;
  '(g, err) <~ call (groups_mw.svc_UpdateGroupTags svc session (groups.Group0 <| groups.ID := ut_id req |>
    <| groups.Tags := ut_Tags req |>)) ;;
  if_err err return_ pret (inl err) ;;
  pret (inr (updateGroupRes g)).
Definition EnableGroupEndpoint (ctx : option authn.Session) (req : changeGroupStatusReq) : St W (option (error + response)) :=
  if_err changeGroupStatusReq_validate req return_ pret (inl (WrapE apiutil.ErrValidation (changeGroupStatusReq_validate req))) ;;
  session <-ctx ctx or_return pret (inl (Some svcerr.ErrAuthentication)) ;;
  '(g, err) <~ call (groups_mw.svc_EnableGroup svc session (st_id req)) ;;
  if_err err return_ pret (inl err) ;;
  pret (inr (changeStatusRes g)).
Definition DisableGroupEndpoint (ctx : option authn.Session) (req : changeGroupStatusReq) : St W (option (error + response)) :=
  if_err changeGroupStatusReq_validate req return_ pret (inl (WrapE apiutil.ErrValidation (changeGroupStatusReq_validate req))) ;;
  session <-ctx ctx or_return pret (inl (Some svcerr.ErrAuthentication)) ;;
  '(g, err) <~ call (groups_mw.svc_DisableGroup svc session (st_id req)) ;;
  if_err err return_ pret (inl err) ;;
  pret (inr (changeStatusRes g)).
Definition ListGroupsEndpoint (ctx : option authn.Session) (req : listGroupsReq) : St W (option (error + response)) :=
  if_err listGroupsReq_validate req return_ pret (inl (WrapE apiutil.ErrValidation (listGroupsReq_validate req))) ;;
  session <-ctx ctx or_return pret (inl (Some svcerr.ErrAuthentication)) ;;
  '(page, err) <~ call (if l_userID req <>s ""
                        then groups_mw.svc_ListUserGroups svc session (l_userID req) (l_PageMeta req)
                        else groups_mw.svc_ListGroups svc session (l_PageMeta req)) ;;
  if_err err return_ pret (inl err) ;;
  let pm := groups.pg_Meta page in
  pret (inr (groupPageRes (groups.pm_Limit pm) (groups.pm_Offset pm) (groups.pm_Total pm) (groups.Groups page))).
Definition DeleteGroupEndpoint (ctx : option authn.Session) (req : groupReq) : St W (option (error + response)) :=
  if_err groupReq_validate req return_ pret (inl (WrapE apiutil.ErrValidation (groupReq_validate req))) ;;
  session <-ctx ctx or_return pret (inl (Some svcerr.ErrAuthentication)) ;;
  err <~ call (groups_mw.svc_DeleteGroup svc session (g_id req)) ;;
  if_err err return_ pret (inl err) ;;
  pret (inr (deleteGroupRes true)).
Definition retrieveGroupHierarchyEndpoint (ctx : option authn.Session) (req : retrieveGroupHierarchyReq) : St W (option (error + response)) :=
  if_err retrieveGroupHierarchyReq_validate req return_ pret (inl (WrapE apiutil.ErrValidation (retrieveGroupHierarchyReq_validate req))) ;;
  session <-ctx ctx or_return pret (inl (Some svcerr.ErrAuthentication)) ;;
  '(hp, err) <~ call (groups_mw.svc_RetrieveGroupHierarchy svc session (h_id req) (h_Meta req)) ;;
  if_err err return_ pret (inl err) ;;
  if_ groups.hm_Tree (h_Meta req)
  return_ (let m := groupsMap (groups.hp_Groups hp) in pret (inr (hierarchyRes (buildGroupsResponseTree (order1 m) (order3 m) hp)))) ;;
  pret (inr (hierarchyRes (MkRetrieveGroupHierarchyRes (groups.hm_Level (groups.hp_Meta hp))
    (groups.hm_Direction (groups.hp_Meta hp)) (groups.hp_Groups hp)))).
Definition addParentGroupEndpoint (ctx : option authn.Session) (req : addParentGroupReq) : St W (option (error + response)) :=
  if_err addParentGroupReq_validate uuid req return_ pret (inl (WrapE apiutil.ErrValidation (addParentGroupReq_validate uuid req))) ;;
  session <-ctx ctx or_return pret (inl (Some svcerr.ErrAuthentication)) ;;
  err <~ call (groups_mw.svc_AddParentGroup svc session (ap_id req) (ap_ParentID req)) ;;
  if_err err return_ pret (inl err) ;;
  pret (inr addParentGroupRes).
Definition removeParentGroupEndpoint (ctx : option authn.Session) (req : removeParentGroupReq) : St W (option (error + response)) :=
  if_err removeParentGroupReq_validate req return_ pret (inl (WrapE apiutil.ErrValidation (removeParentGroupReq_validate req))) ;;
  session <-ctx ctx or_return pret (inl (Some svcerr.ErrAuthentication)) ;;
  err <~ call (groups_mw.svc_RemoveParentGroup svc session (rp_id req)) ;;
  if_err err return_ pret (inl err) ;;
  pret (inr removeParentGroupRes).
Definition addChildrenGroupsEndpoint (ctx : option authn.Session) (req : addChildrenGroupsReq) : St W (option (error + response)) :=
  if_err addChildrenGroupsReq_validate uuid req return_ pret (inl (WrapE apiutil.ErrValidation (addChildrenGroupsReq_validate uuid req))) ;;
  session <-ctx ctx or_return pret (inl (Some svcerr.ErrAuthentication)) ;;
  err <~ call (groups_mw.svc_AddChildrenGroups svc session (ac_id req) (ac_ChildrenIDs req)) ;;
  if_err err return_ pret (inl err) ;;
  pret (inr addChildrenGroupsRes).
Definition removeChildrenGroupsEndpoint (ctx : option authn.Session) (req : removeChildrenGroupsReq) : St W (option (error + response)) :=
  if_err removeChildrenGroupsReq_validate uuid req return_ pret (inl (WrapE apiutil.ErrValidation (removeChildrenGroupsReq_validate uuid req))) ;;
  session <-ctx ctx or_return pret (inl (Some svcerr.ErrAuthentication)) ;;
  err <~ call (groups_mw.svc_RemoveChildrenGroups svc session (rc_id req) (rc_ChildrenIDs req)) ;;
  if_err err return_ pret (inl err) ;;
  pret (inr removeChildrenGroupsRes).
Definition removeAllChildrenGroupsEndpoint (ctx : option authn.Session) (req : removeAllChildrenGroupsReq) : St W (option (error + response)) :=
  if_err removeAllChildrenGroupsReq_validate req return_ pret (inl (WrapE apiutil.ErrValidation (removeAllChildrenGroupsReq_validate req))) ;;
  session <-ctx ctx or_return pret (inl (Some svcerr.ErrAuthentication)) ;;
  err <~ call (groups_mw.svc_RemoveAllChildrenGroups svc session (ra_id req)) ;;
  if_err err return_ pret (inl err) ;;
  pret (inr removeAllChildrenGroupsRes).
Definition listChildrenGroupsEndpoint (ctx : option authn.Session) (req : listChildrenGroupsReq) : St W (option (error + response)) :=
  if_err listChildrenGroupsReq_validate req return_ pret (inl (WrapE apiutil.ErrValidation (listChildrenGroupsReq_validate req))) ;;
  session <-ctx ctx or_return pret (inl (Some svcerr.ErrAuthentication)) ;;
  '(page, err) <~ call (groups_mw.svc_ListChildrenGroups svc session (lc_id req) (lc_startLevel req) (lc_endLevel req) (lc_PageMeta req)) ;;
  if_err err return_ pret (inl err) ;;
  let pm := groups.pg_Meta page in
  pret (inr (listChildrenGroupsRes (groups.pm_Limit pm) (groups.pm_Offset pm) (groups.pm_Total pm) (groups.Groups page))).
End endpoints.

(** ** transport.go *)
Section transport.
Context (uuid : messaging.uuidlib) {W : Type} (svc : groups_mw.Service W) (order1 order3 : gmap string groups.Group -> list string).
Context (unmarshal : string -> err + Metadata) (Quote : string -> string) {B : Type}.
Context `{!Unmarshal B groups.Group} `{!Unmarshal B updateGroupReq} `{!Unmarshal B updateGroupTagsReq}
  `{!Unmarshal B addParentGroupReq} `{!Unmarshal B addChildrenGroupsReq} `{!Unmarshal B removeChildrenGroupsReq}.
Definition MakeHandler : list (route W B response) :=
  let base := "/{domainID}/groups" in
  let one := base +:+ "/{groupID}" in
  [ MkRoute POST (base +:+ "/") (handle DecodeGroupCreate (CreateGroupEndpoint svc));
    MkRoute GET (base +:+ "/") (handle (DecodeListGroupsRequest unmarshal Quote) (ListGroupsEndpoint svc));
    MkRoute GET (one +:+ "/") (handle (DecodeGroupRequest Quote) (ViewGroupEndpoint svc));
    MkRoute PUT (one +:+ "/") (handle DecodeGroupUpdate (UpdateGroupEndpoint svc));
    MkRoute PATCH (one +:+ "/tags") (handle decodeUpdateGroupTags (updateGroupTagsEndpoint svc));
    MkRoute DELETE (one +:+ "/") (handle (DecodeGroupRequest Quote) (DeleteGroupEndpoint svc));
    MkRoute POST (one +:+ "/enable") (handle DecodeChangeGroupStatusRequest (EnableGroupEndpoint svc));
    MkRoute POST (one +:+ "/disable") (handle DecodeChangeGroupStatusRequest (DisableGroupEndpoint svc));
    MkRoute GET (one +:+ "/hierarchy") (handle (decodeRetrieveGroupHierarchy Quote) (retrieveGroupHierarchyEndpoint svc order1 order3));
    MkRoute POST (one +:+ "/parent/") (handle decodeAddParentGroupRequest (addParentGroupEndpoint uuid svc));
    MkRoute DELETE (one +:+ "/parent/") (handle decodeRemoveParentGroupRequest (removeParentGroupEndpoint svc));
    MkRoute POST (one +:+ "/children/") (handle decodeAddChildrenGroupsRequest (addChildrenGroupsEndpoint uuid svc));
    MkRoute DELETE (one +:+ "/children/") (handle decodeRemoveChildrenGroupsRequest (removeChildrenGroupsEndpoint uuid svc));
    MkRoute DELETE (one +:+ "/children/all") (handle decodeRemoveAllChildrenGroupsRequest (removeAllChildrenGroupsEndpoint svc));
    MkRoute GET (one +:+ "/children/") (handle (decodeListChildrenGroupsRequest unmarshal Quote) (listChildrenGroupsEndpoint svc))].
End transport.
End groups_http.

(** ** The tree holds every group once *)
Module groups_tree.
Import groups_http.

(** The identifiers in a tree, from the top. *)
Fixpoint ids (g : groups.Group) : list string :=
  groups.ID g :: concat (map ids (groups.Children g)).
(** A tree of groups of the page, each child below its parent. *)
#[local] Set Warnings "-register-all".
Inductive placed (page : list groups.Group) : groups.Group -> Prop :=
| Placed g cs : g ∈ page -> Forall (fun c => groups.Parent c = groups.ID g) cs -> Forall (placed page) cs ->
    placed page (g <| groups.Children := cs |>).

Lemma concat_permutation {A} (ls ls' : list (list A)) : Forall2 Permutation ls ls' -> concat ls ≡ₚ concat ls'.
Proof. induction 1; cbn; [done|]. by f_equiv. Qed.
Lemma filter_swap {A} (P Q : A -> bool) l : (forall x, In x l -> P x = Q x) -> List.filter P l = List.filter Q l.
Proof.
  induction l as [|x l IH]; intros H; cbn; [done|]. rewrite (H x (or_introl eq_refl)), IH; [done|].
  intros y I. apply H. by right.
Qed.
Lemma filter_perm {A} (f : A -> bool) l l' : l ≡ₚ l' -> List.filter f l ≡ₚ List.filter f l'.
Proof.
  induction 1 as [|x l l' P IH|x y l|l l' l2 P IH P' IH']; cbn; [done| | |by etransitivity].
  - destruct (f x); [by apply perm_skip|done].
  - destruct (f x), (f y); done || apply perm_swap.
Qed.
Lemma filter_true {A} (l : list A) : List.filter (fun _ => true) l = l.
Proof. induction l; cbn; congruence. Qed.
(** A list comes apart along a key. *)
Lemma partition_by {A K} `{EqDecision K} (key : A -> K) (l : list A) (ks : list K) : NoDup ks ->
  concat (map (fun k => List.filter (fun x => bool_decide (key x = k)) l) ks) ≡ₚ List.filter (fun x => bool_decide (key x ∈ ks)) l.
Proof.
  induction 1 as [|k ks K' N IH]; cbn.
  - induction l as [|x l IH]; cbn; [done|]. rewrite bool_decide_eq_false_2; [done|]. set_solver.
  - rewrite IH. clear IH. induction l as [|x l IH]; cbn; [done|].
    destruct (decide (key x = k)) as [E|E].
    + rewrite (bool_decide_eq_true_2 (key x = k)) by done. rewrite (bool_decide_eq_false_2 (key x ∈ ks)) by congruence.
      rewrite (bool_decide_eq_true_2 (key x ∈ k :: ks)) by set_solver. cbn. by rewrite IH.
    + rewrite (bool_decide_eq_false_2 (key x = k)) by done.
      destruct (decide (key x ∈ ks)) as [I|I].
      * rewrite (bool_decide_eq_true_2 (key x ∈ ks)) by done. rewrite (bool_decide_eq_true_2 (key x ∈ k :: ks)) by set_solver.
        rewrite <-IH. by rewrite <-Permutation_middle.
      * rewrite (bool_decide_eq_false_2 (key x ∈ ks)) by done. rewrite (bool_decide_eq_false_2 (key x ∈ k :: ks)) by set_solver.
        done.
Qed.

(** *** The maps *)
Lemma groupsMap_lookup page id g : NoDup (map groups.ID page) ->
  groupsMap page !! id = Some g <-> g ∈ page /\ groups.ID g = id.
Proof.
  unfold groupsMap. intros Nodup.
  assert (G : forall m : gmap string groups.Group, (forall g', g' ∈ page -> m !! groups.ID g' = None) ->
    foldl (fun m g => match m !! groups.ID g with Some _ => m | None => <[groups.ID g := g]> m end) m page !! id = Some g
    <-> m !! id = Some g \/ g ∈ page /\ groups.ID g = id).
  { induction page as [|x l IH]; intros m F; cbn; [set_solver|].
    rewrite F by set_solver. inversion Nodup as [|? ? X N]; subst. rewrite IH; [|done|].
    - destruct (decide (groups.ID x = id)) as [E|E].
      + subst id. rewrite lookup_insert_eq. rewrite F by set_solver. set_solver.
      + rewrite lookup_insert_ne by done. set_solver.
    - intros g' I. rewrite lookup_insert_ne; [apply F; set_solver|]. intros E. apply X. rewrite E.
      by apply list_elem_of_fmap_2. }
  rewrite G by (intros; apply lookup_empty). rewrite lookup_empty. naive_solver.
Qed.
(** Each group of the page has its children, in the order of the loop. *)
Lemma parentsMap_lookup (m : gmap string groups.Group) (order : list string) id :
  Forall (fun i => is_Some (m !! i)) order ->
  parentsMap m order !! id = (fun _ => List.filter (fun i => bool_decide (groups.Parent <$> m !! i = Some id)) order) <$> m !! id.
Proof.
  unfold parentsMap. intros D.
  assert (G : forall ps : gmap string (list string), foldl (add_child m) ps order !! id
    = (fun children => children ++ List.filter (fun i => bool_decide (groups.Parent <$> m !! i = Some id)) order) <$> ps !! id).
  { induction D as [|i order [g G] D IH]; intros ps; cbn; [destruct (ps !! id); cbn; by rewrite ?app_nil_r|].
    rewrite IH. unfold add_child. rewrite G. cbn. destruct (decide (groups.Parent g = id)) as [E|E].
    - rewrite bool_decide_eq_true_2 by by rewrite E. rewrite E. destruct (ps !! id) eqn:P; rewrite ?lookup_insert_eq, ?P; cbn; [|done].
      by rewrite <-app_assoc.
    - rewrite bool_decide_eq_false_2 by by intros [= ?].
      destruct (ps !! groups.Parent g); [by rewrite lookup_insert_ne|done]. }
  rewrite G, lookup_fmap. by destruct (m !! id).
Qed.

Section tree.
Context (page : list groups.Group) (Nodup : NoDup (map groups.ID page)).
Context (rank : string -> nat).
Context (acyclic : forall g p, g ∈ page -> p ∈ page -> groups.Parent g = groups.ID p -> (rank (groups.ID p) < rank (groups.ID g))%nat).
Context (order1 order3 : list string) (Perm1 : order1 ≡ₚ map groups.ID page) (Perm3 : order3 ≡ₚ map groups.ID page).
Let m := groupsMap page.
Let ps := parentsMap m order1.
Let all := map groups.ID page.

Definition parent (id : string) : option string := groups.Parent <$> m !! id.
Definition kids (id : string) : list string := List.filter (fun i => bool_decide (parent i = Some id)) order1.

Lemma m_all id : is_Some (m !! id) <-> id ∈ all.
Proof.
  split.
  - intros [g G]. apply groupsMap_lookup in G as [I <-]; [|done]. by apply list_elem_of_fmap_2.
  - intros I. apply list_elem_of_fmap in I as (g&->&I). exists g. by apply groupsMap_lookup.
Qed.
Lemma ps_lookup id : id ∈ all -> ps !! id = Some (kids id).
Proof.
  intros I. apply m_all in I as [g G]. unfold ps. rewrite parentsMap_lookup.
  - by rewrite G.
  - apply Forall_forall. intros i I. apply m_all. unfold all. by rewrite <-Perm1.
Qed.
Lemma kids_all id : incl (kids id) all.
Proof.
  intros i I. apply filter_In in I as [I _]. apply list_elem_of_In. unfold all. rewrite <-Perm1. by apply list_elem_of_In.
Qed.

(** *** Depths *)
Fixpoint up (fuel : nat) (id : string) : nat :=
  match fuel, parent id with
  | S fuel, Some p => if bool_decide (p ∈ all) then S (up fuel p) else 0
  | _, _ => 0
  end.
Definition depth (id : string) : nat := up (S (rank id)) id.
Lemma parent_rank id p : parent id = Some p -> p ∈ all -> (rank p < rank id)%nat.
Proof.
  unfold parent. intros H I. destruct (m !! id) as [g|] eqn:G; [|done]. cbn in H. injection H as H.
  apply groupsMap_lookup in G as [J <-]; [|done]. apply list_elem_of_fmap in I as (q&->&K). by apply acyclic.
Qed.
Lemma up_enough fuel id : (rank id < fuel)%nat -> up fuel id = depth id.
Proof.
  unfold depth. remember (S (rank id)) as k eqn:K. assert (Hk : (rank id < k)%nat) by lia. clear K.
  revert k id Hk. induction fuel as [|fuel IH]; intros k id Hk Hf; [lia|]. destruct k as [|k]; [lia|]. cbn.
  destruct (parent id) as [p|] eqn:P; [|done]. destruct (bool_decide_reflect (p ∈ all)); [|done].
  pose proof (parent_rank id p P ltac:(done)). f_equal. apply IH; lia.
Qed.
Lemma depth_eq id p : parent id = Some p -> depth id = if bool_decide (p ∈ all) then S (depth p) else 0%nat.
Proof.
  intros P. unfold depth at 1. cbn. rewrite P. destruct (bool_decide_reflect (p ∈ all)); [|done].
  f_equal. apply up_enough. by apply parent_rank.
Qed.
Lemma parent_all id : id ∈ all -> exists p, parent id = Some p.
Proof. intros I. apply m_all in I as [g G]. exists (groups.Parent g). unfold parent. by rewrite G. Qed.
(** Above a group of some depth there is one of each smaller depth. *)
Lemma depth_below id k : id ∈ all -> (k <= depth id)%nat -> exists i, i ∈ all /\ depth i = k.
Proof.
  remember (depth id) as d eqn:D. revert id D. induction d as [|d IH]; intros id D I L.
  - exists id. split; [done|lia].
  - destruct (decide (k = S d)) as [->|N]; [by exists id|].
    destruct (parent_all id I) as [p P]. rewrite (depth_eq id p P) in D.
    destruct (bool_decide_reflect (p ∈ all)); [|done]. injection D as D. apply (IH p); auto. lia.
Qed.
Lemma depth_bound id : id ∈ all -> (depth id < length page)%nat.
Proof.
  intros I. assert (L : (length (seq 0 (S (depth id))) <= length (map depth all))%nat).
  { apply NoDup_incl_length; [apply NoDup_ListNoDup, NoDup_seq|]. intros k K. apply in_seq in K.
    destruct (depth_below id k I) as (i&J&<-); [lia|]. apply in_map. by apply list_elem_of_In. }
  rewrite length_seq in L. unfold all in L. rewrite !length_map in L. lia.
Qed.

(** *** The encoder goes down the tree, one depth after the other *)
Definition all_ids (fuel : nat) (l : list string) : list string :=
  concat (map ids (concat (map (follow m ps fuel) l))).
Lemma all_ids_cons fuel id l : all_ids fuel (id :: l) = concat (map ids (follow m ps fuel id)) ++ all_ids fuel l.
Proof. unfold all_ids. cbn. by rewrite map_app, concat_app. Qed.
Lemma all_ids_app fuel l l' : all_ids fuel (l ++ l') = all_ids fuel l ++ all_ids fuel l'.
Proof. unfold all_ids. by rewrite map_app, concat_app, map_app, concat_app. Qed.
Lemma follow_ids fuel id : id ∈ all -> concat (map ids (follow m ps (S fuel) id)) = id :: all_ids fuel (kids id).
Proof.
  intros I. cbn [follow]. rewrite (ps_lookup id I). pose proof I as J. apply m_all in J as [g G]. rewrite G.
  cbn. rewrite app_nil_r. apply groupsMap_lookup in G as [_ <-]; done.
Qed.
Lemma all_ids_down fuel l : incl l all -> all_ids (S fuel) l ≡ₚ l ++ all_ids fuel (concat (map kids l)).
Proof.
  induction l as [|id l IH]; intros I; [done|].
  assert (Hid : id ∈ all) by (apply list_elem_of_In, I; by left).
  rewrite all_ids_cons, (follow_ids fuel id Hid), IH by (intros i H; apply I; by right).
  cbn [app map concat]. apply perm_skip. rewrite all_ids_app, !app_assoc. f_equiv. apply Permutation_app_comm.
Qed.

Definition at_depth (k : nat) : list string := List.filter (fun i => bool_decide (depth i = k)) all.
Lemma order1_filter (f : string -> bool) : List.filter f order1 ≡ₚ List.filter f all.
Proof. by apply filter_perm. Qed.
Lemma kids_depth k l : l ≡ₚ at_depth k -> concat (map kids l) ≡ₚ at_depth (S k).
Proof.
  intros P. assert (N : NoDup (map Some l)).
  { apply NoDup_fmap_2; [apply _|]. rewrite P. by apply NoDup_ListNoDup, List.NoDup_filter, NoDup_ListNoDup. }
  transitivity (List.filter (fun i => bool_decide (parent i ∈ map Some l)) all).
  - rewrite <-order1_filter, <-(partition_by parent order1 (map Some l) N), map_map. done.
  - apply Permutation_refl'. apply filter_swap. intros i I. apply list_elem_of_In in I.
    destruct (parent_all i I) as [p H]. rewrite H. apply bool_decide_ext. rewrite (depth_eq i p H).
    transitivity (p ∈ at_depth k); [rewrite <-P, <-(list_elem_of_fmap_inj Some l p); done|].
    rewrite list_elem_of_In. unfold at_depth. rewrite filter_In, bool_decide_eq_true, <-list_elem_of_In.
    case_bool_decide; [split; [intros []; congruence|intros [= ?]; done]|naive_solver].
Qed.
Lemma all_ids_layers fuel : forall k l, l ≡ₚ at_depth k -> all_ids fuel l ≡ₚ concat (map at_depth (seq k fuel)).
Proof.
  induction fuel as [|fuel IH]; intros k l P.
  - unfold all_ids. replace (concat (map (follow m ps 0) l)) with (@nil groups.Group); [done|]. clear. induction l; done.
  - rewrite all_ids_down.
    + cbn [seq map concat]. rewrite (IH (S k)) by (by apply kids_depth). by f_equiv.
    + intros i I. apply (Permutation_in _ P) in I. by apply filter_In in I as [].
Qed.

(** The roots are the groups whose parent is not in the page. *)
Lemma root_depth id : id ∈ all -> match m !! id with
    | Some group => match ps !! groups.Parent group with Some children => Nat.eqb (length children) 0 | None => true end
    | None => false
    end = bool_decide (depth id = 0%nat).
Proof.
  intros I. pose proof I as J. apply m_all in J as [g G]. rewrite G.
  assert (P : parent id = Some (groups.Parent g)) by (unfold parent; by rewrite G). rewrite (depth_eq id _ P).
  destruct (bool_decide_reflect (groups.Parent g ∈ all)) as [D|D].
  - rewrite (ps_lookup _ D), bool_decide_eq_false_2 by done. apply Nat.eqb_neq. intros L. apply length_zero_iff_nil in L.
    assert (K : In id (kids (groups.Parent g))).
    { apply filter_In. split; [apply list_elem_of_In; rewrite Perm1; done|]. by apply bool_decide_eq_true. }
    by rewrite L in K.
  - rewrite bool_decide_eq_true_2 by done. destruct (ps !! groups.Parent g) eqn:E; [|done].
    exfalso. apply D. unfold ps in E. rewrite parentsMap_lookup in E.
    + destruct (m !! groups.Parent g) eqn:M; [|done]. apply m_all. by rewrite M.
    + apply Forall_forall. intros i H. apply m_all. unfold all. by rewrite <-Perm1.
Qed.
Lemma follow_placed fuel : forall id, Forall (fun g => placed page g /\ parent id = Some (groups.Parent g)) (follow m ps fuel id).
Proof.
  induction fuel as [|fuel IH]; intros id; cbn; [done|]. destruct (m !! id) as [g|] eqn:G; [|done].
  assert (I : id ∈ all) by (apply m_all; by rewrite G). rewrite (ps_lookup id I).
  assert (P : parent id = Some (groups.Parent g)) by (unfold parent; by rewrite G).
  apply groupsMap_lookup in G as [J E]; [|done]. constructor; [|done]. split; [|done].
  assert (F : Forall (fun c => groups.Parent c = groups.ID g /\ placed page c) (concat (map (follow m ps fuel) (kids id)))).
  { apply Forall_concat, Forall_map, Forall_forall. intros i K. apply list_elem_of_In, filter_In in K as [_ K].
    apply bool_decide_eq_true in K. eapply Forall_impl; [apply IH|]. intros c [? C]. split; [|done]. congruence. }
  constructor; [done| |]; eapply Forall_impl; [exact F| |exact F|]; naive_solver.
Qed.

Definition is_root (id : string) : bool :=
  match m !! id with
  | Some group => match ps !! groups.Parent group with Some children => Nat.eqb (length children) 0 | None => true end
  | None => false
  end.
Lemma roots_depth : List.filter is_root order3 ≡ₚ at_depth 0.
Proof.
  rewrite (filter_perm is_root _ _ Perm3). apply Permutation_refl', filter_swap. intros i I. apply root_depth.
  by apply list_elem_of_In.
Qed.
Lemma tree_ids : all_ids (length page) (List.filter is_root order3) ≡ₚ all.
Proof.
  rewrite (all_ids_layers _ 0 _ roots_depth). unfold at_depth.
  rewrite (partition_by depth all (seq 0 (length page))) by apply NoDup_seq.
  apply Permutation_refl'. transitivity (List.filter (fun _ => true) all); [|apply filter_true].
  apply filter_swap. intros i I. apply bool_decide_eq_true. apply elem_of_seq.
  pose proof (depth_bound i ltac:(by apply list_elem_of_In)). lia.
Qed.
Lemma tree_placed : Forall (fun g => placed page g /\ groups.Parent g ∉ all)
  (concat (map (follow m ps (length page)) (List.filter is_root order3))).
Proof.
  apply Forall_concat, Forall_map, Forall_forall. intros i K. apply list_elem_of_In in K.
  apply (Permutation_in _ roots_depth), filter_In in K as [I D]. apply bool_decide_eq_true in D.
  eapply Forall_impl; [apply follow_placed|]. intros g [Pl P]. split; [done|]. rewrite (depth_eq i _ P) in D. by case_bool_decide.
Qed.
End tree.

(** C28: The tree of a page of groups holds every group of the page exactly
    once, in whatever order Go goes through its maps, where no group is above
    itself: each below its parent, and at the top those whose parent is not
    in the page. *)
Theorem tree_of_a_hierarchy (page : groups.HierarchyPage) (rank : string -> nat) (order1 order3 : list string) :
  NoDup (map groups.ID (groups.hp_Groups page)) ->
  (forall g p, g ∈ groups.hp_Groups page -> p ∈ groups.hp_Groups page -> groups.Parent g = groups.ID p ->
     (rank (groups.ID p) < rank (groups.ID g))%nat) ->
  order1 ≡ₚ map groups.ID (groups.hp_Groups page) -> order3 ≡ₚ map groups.ID (groups.hp_Groups page) ->
  let tree := rh_Groups (buildGroupsResponseTree order1 order3 page) in
  concat (map ids tree) ≡ₚ map groups.ID (groups.hp_Groups page)
  /\ Forall (fun g => placed (groups.hp_Groups page) g /\ groups.Parent g ∉ map groups.ID (groups.hp_Groups page)) tree.
Proof.
  intros N A P1 P3. split; [exact (tree_ids _ N rank A _ _ P1 P3)|exact (tree_placed _ N rank A _ _ P1 P3)].
Qed.
End groups_tree.

(** ** An example *)
Module groups_tree_example.
Import groups_http groups_tree.
Definition group (id parent : string) : groups.Group := groups.Group0 <| groups.ID := id |> <| groups.Parent := parent |>.
(** The parent of a is not in the page. *)
Definition page : groups.HierarchyPage :=
  groups.MkHierarchyPage (groups.MkHierarchyPageMeta 3 (-1) true) [group "a" "x"; group "c" "a"; group "d" "c"; group "b" "a"].
Definition rank (id : string) : nat := if id =s "a" then 0 else if id =s "d" then 2 else 1.
Definition tree := rh_Groups (buildGroupsResponseTree ["d"; "b"; "a"; "c"] ["c"; "d"; "b"; "a"] page).
Lemma tree_of_a_hierarchy_witness :
  map ids tree = [["a"; "b"; "c"; "d"]]
  /\ concat (map ids tree) ≡ₚ map groups.ID (groups.hp_Groups page)
  /\ Forall (fun g => placed (groups.hp_Groups page) g /\ groups.Parent g ∉ map groups.ID (groups.hp_Groups page)) tree.
Proof.
  split; [reflexivity|]. apply (tree_of_a_hierarchy page rank); [| |apply (bool_decide_unpack _); vm_compute; exact I..].
  - apply (bool_decide_unpack _). vm_compute. exact I.
  - intros g p G P E. apply list_elem_of_In in G, P. cbn in G, P.
    destruct G as [<-|[<-|[<-|[<-|[]]]]], P as [<-|[<-|[<-|[<-|[]]]]]; cbn in E; try discriminate E; cbn; lia.
Defined.
End groups_tree_example.

(** ** What reaches the service *)
Module groups_http_theory.
Import http_theory groups_http.
Section theory.
Context (uuid : messaging.uuidlib) {W : Type} (svc svc' : groups_mw.Service W).
Definition page_ok (pm : groups.PageMeta) : Prop :=
  limit_ok (groups.pm_Limit pm) /\ order_ok (groups.pm_Order pm) /\ dir_ok (groups.pm_Dir pm).
(** A group is not its own parent, nor among its children to be; these are
    given, but may be removed from themselves. *)
Definition children_ok (id : string) (children : list string) : Prop :=
  children <> [] /\ Forall (uuid_ok uuid) children.
Record agree : Prop := {
  agree_CreateGroup : forall s g, groups.Name g <> "" -> name_ok (groups.Name g) ->
    groups_mw.svc_CreateGroup svc s g = groups_mw.svc_CreateGroup svc' s g;
  agree_ViewGroup : forall s id r, id <> "" -> groups_mw.svc_ViewGroup svc s id r = groups_mw.svc_ViewGroup svc' s id r;
  agree_UpdateGroup : forall s g, groups.ID g <> "" -> name_ok (groups.Name g) ->
    groups_mw.svc_UpdateGroup svc s g = groups_mw.svc_UpdateGroup svc' s g;
  agree_UpdateGroupTags : forall s g, groups.ID g <> "" -> groups_mw.svc_UpdateGroupTags svc s g = groups_mw.svc_UpdateGroupTags svc' s g;
  agree_EnableGroup : forall s id, id <> "" -> groups_mw.svc_EnableGroup svc s id = groups_mw.svc_EnableGroup svc' s id;
  agree_DisableGroup : forall s id, id <> "" -> groups_mw.svc_DisableGroup svc s id = groups_mw.svc_DisableGroup svc' s id;
  agree_ListGroups : forall s pm, page_ok pm -> groups_mw.svc_ListGroups svc s pm = groups_mw.svc_ListGroups svc' s pm;
  agree_ListUserGroups : forall s u pm, u <> "" -> page_ok pm ->
    groups_mw.svc_ListUserGroups svc s u pm = groups_mw.svc_ListUserGroups svc' s u pm;
  agree_DeleteGroup : forall s id, id <> "" -> groups_mw.svc_DeleteGroup svc s id = groups_mw.svc_DeleteGroup svc' s id;
  agree_RetrieveGroupHierarchy : forall s id hm, id <> "" -> (groups.hm_Level hm <= 20)%N ->
    groups_mw.svc_RetrieveGroupHierarchy svc s id hm = groups_mw.svc_RetrieveGroupHierarchy svc' s id hm;
  agree_AddParentGroup : forall s id p, id <> "" -> uuid_ok uuid p -> id <> p ->
    groups_mw.svc_AddParentGroup svc s id p = groups_mw.svc_AddParentGroup svc' s id p;
  agree_RemoveParentGroup : forall s id, id <> "" -> groups_mw.svc_RemoveParentGroup svc s id = groups_mw.svc_RemoveParentGroup svc' s id;
  agree_AddChildrenGroups : forall s id cs, id <> "" -> children_ok id cs -> id ∉ cs ->
    groups_mw.svc_AddChildrenGroups svc s id cs = groups_mw.svc_AddChildrenGroups svc' s id cs;
  agree_RemoveChildrenGroups : forall s id cs, id <> "" -> children_ok id cs ->
    groups_mw.svc_RemoveChildrenGroups svc s id cs = groups_mw.svc_RemoveChildrenGroups svc' s id cs;
  agree_RemoveAllChildrenGroups : forall s id, id <> "" ->
    groups_mw.svc_RemoveAllChildrenGroups svc s id = groups_mw.svc_RemoveAllChildrenGroups svc' s id;
  agree_ListChildrenGroups : forall s id a b pm, id <> "" -> limit_ok (groups.pm_Limit pm) ->
    groups_mw.svc_ListChildrenGroups svc s id a b pm = groups_mw.svc_ListChildrenGroups svc' s id a b pm }.

Lemma createGroupReq_ok req : createGroupReq_validate req = None -> groups.Name (cg_Group req) <> "" /\ name_ok (groups.Name (cg_Group req)).
Proof.
  unfold createGroupReq_validate. destruct (_ || _) eqn:E; [done|]. intros _. apply orb_false_iff in E as [N E].
  go_bool. by apply name_test_ok in N.
Qed.
Lemma updateGroupReq_ok req : updateGroupReq_validate req = None -> u_id req <> "" /\ name_ok (u_Name req).
Proof.
  unfold updateGroupReq_validate. destruct (_ =s "") eqn:E; [done|]. destruct (Nat.ltb _ _) eqn:N; [done|].
  go_bool. by apply name_test_ok in N.
Qed.
Lemma listGroupsReq_ok req : listGroupsReq_validate req = None -> page_ok (l_PageMeta req).
Proof.
  unfold listGroupsReq_validate, page_ok. destruct (_ || _) eqn:L; [done|]. destruct (_ && _) eqn:F; [done|].
  destruct (negb (existsb _ _)) eqn:O; [done|]. destruct (_ && (_ && _)) eqn:D; [done|]. intros _.
  split; [|split]; auto using limit_test_ok, order_test_ok, dir_test_ok.
Qed.
Lemma retrieveGroupHierarchyReq_ok req : retrieveGroupHierarchyReq_validate req = None ->
  h_id req <> "" /\ (groups.hm_Level (h_Meta req) <= 20)%N.
Proof.
  unfold retrieveGroupHierarchyReq_validate. destruct (N.ltb _ _) eqn:L; [done|]. apply N.ltb_ge in L. intros H.
  by apply id_test_ok in H.
Qed.
Lemma addParentGroupReq_ok req : addParentGroupReq_validate uuid req = None ->
  ap_id req <> "" /\ uuid_ok uuid (ap_ParentID req) /\ ap_id req <> ap_ParentID req.
Proof.
  unfold addParentGroupReq_validate. destruct (_ =s "") eqn:E; [done|]. destruct (ValidateUUID _ _) eqn:U; [done|].
  destruct (_ =s ap_ParentID req) eqn:S; [done|]. apply ValidateUUID_spec in U. by go_bool.
Qed.
Lemma validateChildren_ok id cs : validateChildren uuid id cs = None -> Forall (uuid_ok uuid) cs /\ id ∉ cs.
Proof.
  induction cs as [|c cs IH]; cbn; intros H; [split; [done|apply not_elem_of_nil]|].
  destruct (ValidateUUID uuid c) eqn:U; [done|]. apply ValidateUUID_spec in U. destruct (id =s c) eqn:E; [done|].
  destruct (IH H). go_bool. split; [by constructor|set_solver].
Qed.
Lemma addChildrenGroupsReq_ok req : addChildrenGroupsReq_validate uuid req = None ->
  ac_id req <> "" /\ children_ok (ac_id req) (ac_ChildrenIDs req) /\ ac_id req ∉ ac_ChildrenIDs req.
Proof.
  unfold addChildrenGroupsReq_validate, children_ok. destruct (_ =s "") eqn:E; [done|]. destruct (Nat.eqb _ _) eqn:L; [done|].
  intros H. apply validateChildren_ok in H as []. go_bool. eauto using not_empty_list.
Qed.
Lemma removeChildrenGroupsReq_ok req : removeChildrenGroupsReq_validate uuid req = None ->
  rc_id req <> "" /\ children_ok (rc_id req) (rc_ChildrenIDs req).
Proof.
  unfold removeChildrenGroupsReq_validate, children_ok. destruct (_ =s "") eqn:E; [done|]. destruct (Nat.eqb _ _) eqn:L; [done|].
  intros H. apply validateIDs_ok in H as []. go_bool. eauto using not_empty_list.
Qed.
Lemma listChildrenGroupsReq_ok req : listChildrenGroupsReq_validate req = None ->
  lc_id req <> "" /\ limit_ok (groups.pm_Limit (lc_PageMeta req)).
Proof.
  unfold listChildrenGroupsReq_validate. destruct (_ =s "") eqn:E; [done|]. destruct (_ || _) eqn:L; [done|].
  apply limit_test_ok in L. by go_bool.
Qed.

Context (order1 order3 : gmap string groups.Group -> list string).
Context (unmarshal : string -> err + Metadata) (Quote : string -> string) {B : Type}.
Context `{!Unmarshal B groups.Group} `{!Unmarshal B updateGroupReq} `{!Unmarshal B updateGroupTagsReq}
  `{!Unmarshal B addParentGroupReq} `{!Unmarshal B addChildrenGroupsReq} `{!Unmarshal B removeChildrenGroupsReq}.
(** Over HTTP the groups service is only called with admissible arguments. *)
Theorem groups_called_admissibly : agree ->
  Forall2 same_route (MakeHandler uuid svc order1 order3 unmarshal Quote (B := B)) (MakeHandler uuid svc' order1 order3 unmarshal Quote (B := B)).
Proof.
  intros [CG ? UG ? ? ? LG LUG ? RH AP ? AC RC ? LC]. unfold MakeHandler.
  repeat constructor; apply same_handle; intros ctx req; apply endpoint_agree; intros H s.
  all: try by eauto using id_test_ok.
  - apply createGroupReq_ok in H as []. by apply CG.
  - apply listGroupsReq_ok in H. destruct (l_userID req <>s "") eqn:U; [|by apply LG]. go_bool. by apply LUG.
  - apply updateGroupReq_ok in H as []. by apply UG.
  - apply retrieveGroupHierarchyReq_ok in H as []. by apply RH.
  - apply addParentGroupReq_ok in H as (?&?&?). by apply AP.
  - apply addChildrenGroupsReq_ok in H as (?&?&?). by apply AC.
  - apply removeChildrenGroupsReq_ok in H as []. by apply RC.
  - apply listChildrenGroupsReq_ok in H as []. by apply LC.
Qed.
End theory.
End groups_http_theory.
