(* ===== verification/DomainsHttp.v ===== *)
(** * DomainsHttp: the HTTP layer of the domains service

    Source: src/domains/api/http (requests.go, decode.go, endpoint.go,
    responses.go, transport.go), in the terms of Http.v; the routes of roles
    are in RolesHttp.v.

    [domains_called_admissibly] is for this service what ChannelsHttp's
    theorem is for the channels; its [domain_ok] shows what the requests
    leave unchecked: the name and the route of a domain that comes with an
    identifier, and the limit of a page of domains. *)

From S2P Require Import Prelude GoStd GoNum GoUrl Errors Authn Roles Domains Topics Guards Http.
Import http.

Module domains_http.
(** ** requests.go *)
Definition maxLimitSize : N := 100.
Definition validateRoute (uuid : messaging.uuidlib) (route : string) : error :=
  if_ is_nil (ValidateUUID uuid route) return_ None ;;
  if_err ValidateRoute route return_ ValidateRoute route ;;
  None.
Record createDomainReq := MkCreateDomainReq {
  cd_ID : string; cd_Name : string; cd_Metadata : Metadata; cd_Tags : list string; cd_Route : string }.
Definition createDomainReq_validate (uuid : messaging.uuidlib) (req : createDomainReq) : error :=
  if_ cd_ID req <>s "" return_ ValidateUUID uuid (cd_ID req) ;;
  if_ cd_Name req =s "" return_ Some apiutil.ErrMissingName ;;
  if_ cd_Route req =s "" return_ Some apiutil.ErrMissingRoute ;;
  if_err validateRoute uuid (cd_Route req) return_ validateRoute uuid (cd_Route req) ;;
  None.
Record retrieveDomainRequest := MkRetrieveDomainRequest { rd_domainID : string; rd_roles : bool }.
Definition retrieveDomainRequest_validate (req : retrieveDomainRequest) : error :=
  if_ rd_domainID req =s "" return_ Some apiutil.ErrMissingID ;;
  None.
Record updateDomainReq := MkUpdateDomainReq {
  u_domainID : string; u_Name : option string; u_Metadata : option Metadata; u_Tags : option (list string) }.
Definition updateDomainReq_validate (req : updateDomainReq) : error :=
  if_ u_domainID req =s "" return_ Some apiutil.ErrMissingID ;;
  None.
Record listDomainsReq := MkListDomainsReq { l_Page : domains.Page }.
Definition listDomainsReq_validate (req : listDomainsReq) : error :=
  let pm := l_Page req in
  if_ negb (existsb (String.eqb (domains.pg_Order pm)) [""; NameOrder; CreatedAtOrder; UpdatedAtOrder])
  return_ Some apiutil.ErrInvalidOrder ;;
  if_ (domains.pg_Dir pm <>s "") && ((domains.pg_Dir pm <>s DescDir) && (domains.pg_Dir pm <>s AscDir))
  return_ Some apiutil.ErrInvalidDirection ;;
  None.
Record enableDomainReq := MkEnableDomainReq { e_domainID : string }.
Definition enableDomainReq_validate (req : enableDomainReq) : error :=
  if_ e_domainID req =s "" return_ Some apiutil.ErrMissingID ;;
  None.
Record disableDomainReq := MkDisableDomainReq { di_domainID : string }.
Definition disableDomainReq_validate (req : disableDomainReq) : error :=
  if_ di_domainID req =s "" return_ Some apiutil.ErrMissingID ;;
  None.
Record freezeDomainReq := MkFreezeDomainReq { f_domainID : string }.
Definition freezeDomainReq_validate (req : freezeDomainReq) : error :=
  if_ f_domainID req =s "" return_ Some apiutil.ErrMissingID ;;
  None.
Record sendInvitationReq := MkSendInvitationReq { s_InviteeUserID : string; s_RoleID : string; s_Resend : bool }.
Definition sendInvitationReq_validate (req : sendInvitationReq) : error :=
  if_ (s_InviteeUserID req =s "") || (s_RoleID req =s "") return_ Some apiutil.ErrMissingID ;;
  None.
Record listInvitationsReq := MkListInvitationsReq { li_Meta : domains.InvitationPageMeta }.
Definition listInvitationsReq_validate (req : listInvitationsReq) : error :=
  if_ N.ltb maxLimitSize (domains.im_Limit (li_Meta req)) || N.ltb (domains.im_Limit (li_Meta req)) 1
  return_ Some apiutil.ErrLimitSize ;;
  None.
Record acceptInvitationReq := MkAcceptInvitationReq { a_DomainID : string }.
Definition acceptInvitationReq_validate (req : acceptInvitationReq) : error :=
  if_ a_DomainID req =s "" return_ Some apiutil.ErrMissingDomainID ;;
  None.
Record deleteInvitationReq := MkDeleteInvitationReq { dl_UserID : string; dl_domainID : string }.
Definition deleteInvitationReq_validate (req : deleteInvitationReq) : error :=
  if_ dl_UserID req =s "" return_ Some apiutil.ErrMissingID ;;
  if_ dl_domainID req =s "" return_ Some apiutil.ErrMissingDomainID ;;
  None.

(** ** responses.go *)
Inductive response :=
| createDomainRes (d : domains.Domain)
| retrieveDomainRes (d : domains.Domain)
| updateDomainRes (d : domains.Domain)
| listDomainsRes (p : domains.DomainsPage)
| enableDomainRes | disableDomainRes | freezeDomainRes
| sendInvitationRes (Message : string)
| listInvitationsRes (p : domains.InvitationPage)
| acceptInvitationRes | deleteInvitationRes | rejectInvitationRes.
Definition response_Code (res : response) : Z :=
  match res with
  | createDomainRes _ | sendInvitationRes _ => StatusCreated
  | acceptInvitationRes | deleteInvitationRes | rejectInvitationRes => StatusNoContent
  | retrieveDomainRes _ | updateDomainRes _ | listDomainsRes _ | enableDomainRes | disableDomainRes | freezeDomainRes
  | listInvitationsRes _ => StatusOK
  end.
Definition response_Headers (res : response) : list (string * string) := [].
Definition response_Empty (res : response) : bool :=
  match res with
  | createDomainRes _ | retrieveDomainRes _ | updateDomainRes _ | listDomainsRes _ | listInvitationsRes _ => false
  | _ => true
  end.
#[export] Instance domains_response : Response response :=
  { Code := response_Code; Headers := response_Headers; Empty := response_Empty }.

(** ** decode.go *)
Definition inviteeUserIDKey := "invitee_user_id".
Definition domainIDKey := "domain_id".
Definition invitedByKey := "invited_by".
Definition roleIDKey := "role_id".
Definition stateKey := "state".
Section decode.
Context (unmarshal : string -> err + Metadata) (Quote : string -> string) {B : Type}.
Context `{!Unmarshal B createDomainReq} `{!Unmarshal B updateDomainReq} `{!Unmarshal B sendInvitationReq}
  `{!Unmarshal B acceptInvitationReq} `{!Unmarshal B deleteInvitationReq}.

Definition decodeCreateDomainRequest (r : Request) (b : B) : error + createDomainReq :=
  decodeBody r (MkCreateDomainReq "" "" None [] "") b.
Definition decodeRetrieveDomainRequest (r : Request) (_ : B) : error + retrieveDomainRequest :=
  roles <-? ReadBoolQuery Quote r RolesKey false ;;
  inr (MkRetrieveDomainRequest (URLParam r "domainID") roles).
Definition decodeUpdateDomainRequest (r : Request) (b : B) : error + updateDomainReq :=
  decodeBody r (MkUpdateDomainReq (URLParam r "domainID") None None None) b.
Definition decodePageRequest (r : Request) : error + domains.Page :=
  s <-? ReadStringQuery r StatusKey domains.Enabled ;;
  st <-? (let '(st, err) := domains.ToStatus s in if_err err return_ inl err ;; inr st) ;;
  o <-? ReadNumQuery Quote Uint64 r OffsetKey DefOffset ;;
  or <-? ReadStringQuery r OrderKey DefOrder ;;
  dir <-? ReadStringQuery r DirKey DefDir ;;
  l <-? ReadNumQuery Quote Uint64 r LimitKey DefLimit ;;
  m <-? ReadMetadataQuery unmarshal r MetadataKey None ;;
  n <-? ReadStringQuery r NameKey "" ;;
  t <-? ReadStringQuery r TagsKey "" ;;
  let tq := if t <>s "" then domains.ToTagsQuery t else domains.TagsQuery0 in
  allActions <-? ReadStringQuery r ActionsKey "" ;;
  let actions := readActions allActions in
  roleID <-? ReadStringQuery r RoleIDKey "" ;;
  roleName <-? ReadStringQuery r RoleNameKey "" ;;
  id <-? ReadStringQuery r IDOrder "" ;;
  ot <-? ReadBoolQuery Quote r OnlyTotal false ;;
  cfrom <-? ReadStringQuery r "created_from" "" ;;
  cto <-? ReadStringQuery r "created_to" "" ;;
  createdFrom <-! readTime cfrom ;;
  createdTo <-! readTime cto ;;
  inr (domains.Page0 <| domains.pg_Offset := Z.to_N o |> <| domains.pg_Order := or |> <| domains.pg_Dir := dir |>
    <| domains.pg_Limit := Z.to_N l |> <| domains.pg_Name := n |> <| domains.pg_Metadata := m |> <| domains.pg_Tags := tq |>
    <| domains.pg_RoleID := roleID |> <| domains.pg_RoleName := roleName |> <| domains.pg_Actions := actions |>
    <| domains.pg_Status := st |> <| domains.pg_ID := id |> <| domains.pg_OnlyTotal := ot |>
    <| domains.pg_CreatedFrom := createdFrom |> <| domains.pg_CreatedTo := createdTo |>).
Definition decodeListDomainRequest (r : Request) (_ : B) : error + listDomainsReq :=
  page <-! decodePageRequest r ;;
  inr (MkListDomainsReq page).
Definition decodeEnableDomainRequest (r : Request) (_ : B) : error + enableDomainReq := inr (MkEnableDomainReq (URLParam r "domainID")).
Definition decodeDisableDomainRequest (r : Request) (_ : B) : error + disableDomainReq := inr (MkDisableDomainReq (URLParam r "domainID")).
Definition decodeFreezeDomainRequest (r : Request) (_ : B) : error + freezeDomainReq := inr (MkFreezeDomainReq (URLParam r "domainID")).
Definition decodeSendInvitationReq (r : Request) (b : B) : error + sendInvitationReq :=
  decodeBody r (MkSendInvitationReq "" "" false) b.
Definition decodeListInvitationsReq (r : Request) (_ : B) : error + listInvitationsReq :=
  offset <-? ReadNumQuery Quote Uint64 r OffsetKey DefOffset ;;
  limit <-? ReadNumQuery Quote Uint64 r LimitKey DefLimit ;;
  inviteeUserID <-? ReadStringQuery r inviteeUserIDKey "" ;;
  invitedBy <-? ReadStringQuery r invitedByKey "" ;;
  roleID <-? ReadStringQuery r roleIDKey "" ;;
  domainID <-? ReadStringQuery r domainIDKey "" ;;
  st <-? ReadStringQuery r stateKey (domains.State_String domains.AllState) ;;
  state <-? (let '(state, err) := domains.ToState st in if_err err return_ inl err ;; inr state) ;;
  ot <-? ReadBoolQuery Quote r OnlyTotal false ;;
  inr (MkListInvitationsReq (domains.MkInvitationPageMeta (Z.to_N offset) (Z.to_N limit) ot invitedBy inviteeUserID domainID roleID "" state)).
Definition decodeAcceptInvitationReq (r : Request) (b : B) : error + acceptInvitationReq := decodeBody r (MkAcceptInvitationReq "") b.
(** The type of the content is not looked at. *)
Definition decodeDeleteInvitationReq (r : Request) (b : B) : error + deleteInvitationReq :=
  decodeJSON (MkDeleteInvitationReq "" (URLParam r "domainID")) b.
End decode.

(** ** endpoint.go *)
Definition InvitationSent := "invitation sent".
Section endpoints.
Context (uuid : messaging.uuidlib) {W : Type} (svc : domains_mw.Service W).

Definition createDomainEndpoint (ctx : option authn.Session) (req : createDomainReq) : St W (option (error + response)) :=
  if_err createDomainReq_validate uuid req return_ pret (inl (createDomainReq_validate uuid req)) ;;
  session <-ctx ctx or_return pret (inl (Some svcerr.ErrAuthorization)) ;;
  '(domain, _, err) <~ call (domains_mw.svc_CreateDomain svc session (domains.Domain0 <| domains.ID := cd_ID req |> <| domains.Name := cd_Name req |>
    <| domains.Metadata_ := cd_Metadata req |> <| domains.Tags := cd_Tags req |> <| domains.Route := cd_Route req |>)) ;;
  if_err err return_ pret (inl err) ;;
  pret (inr (createDomainRes domain)).
Definition retrieveDomainEndpoint (ctx : option authn.Session) (req : retrieveDomainRequest) : St W (option (error + response)) :=
  if_err retrieveDomainRequest_validate req return_ pret (inl (retrieveDomainRequest_validate req)) ;;
  session <-ctx ctx or_return pret (inl (Some svcerr.ErrAuthorization)) ;;
  '(domain, err) <~ call (domains_mw.svc_RetrieveDomain svc session (rd_domainID req) (rd_roles req)) ;;
  if_err err return_ pret (inl err) ;;
  pret (inr (retrieveDomainRes domain)).
Definition updateDomainEndpoint (ctx : option authn.Session) (req : updateDomainReq) : St W (option (error + response)) :=
  if_err updateDomainReq_validate req return_ pret (inl (updateDomainReq_validate req)) ;;
  session <-ctx ctx or_return pret (inl (Some svcerr.ErrAuthorization)) ;;
  '(domain, err) <~ call (domains_mw.svc_UpdateDomain svc session (u_domainID req)
    (domains.DomainReq0 <| domains.rq_Name := u_Name req |> <| domains.rq_Metadata := u_Metadata req |> <| domains.rq_Tags := u_Tags req |>)) ;;
  if_err err return_ pret (inl err) ;;
  pret (inr (updateDomainRes domain)).
Definition listDomainsEndpoint (ctx : option authn.Session) (req : listDomainsReq) : St W (option (error + response)) :=
  if_err listDomainsReq_validate req return_ pret (inl (WrapE apiutil.ErrValidation (listDomainsReq_validate req))) ;;
  session <-ctx ctx or_return pret (inl (Some svcerr.ErrAuthorization)) ;;
  '(dp, err) <~ call (domains_mw.svc_ListDomains svc session (l_Page req)) ;;
  if_err err return_ pret (inl err) ;;
  pret (inr (listDomainsRes dp)).
Definition enableDomainEndpoint (ctx : option authn.Session) (req : enableDomainReq) : St W (option (error + response)) :=
  if_err enableDomainReq_validate req return_ pret (inl (enableDomainReq_validate req)) ;;
  session <-ctx ctx or_return pret (inl (Some svcerr.ErrAuthorization)) ;;
  '(_, err) <~ call (domains_mw.svc_EnableDomain svc session (e_domainID req)) ;;
  if_err err return_ pret (inl err) ;;
  pret (inr enableDomainRes).
Definition disableDomainEndpoint (ctx : option authn.Session) (req : disableDomainReq) : St W (option (error + response)) :=
  if_err disableDomainReq_validate req return_ pret (inl (disableDomainReq_validate req)) ;;
  session <-ctx ctx or_return pret (inl (Some svcerr.ErrAuthorization)) ;;
  '(_, err) <~ call (domains_mw.svc_DisableDomain svc session (di_domainID req)) ;;
  if_err err return_ pret (inl err) ;;
  pret (inr disableDomainRes).
Definition freezeDomainEndpoint (ctx : option authn.Session) (req : freezeDomainReq) : St W (option (error + response)) :=
  if_err freezeDomainReq_validate req return_ pret (inl (freezeDomainReq_validate req)) ;;
  session <-ctx ctx or_return pret (inl (Some svcerr.ErrAuthorization)) ;;
  '(_, err) <~ call (domains_mw.svc_FreezeDomain svc session (f_domainID req)) ;;
  if_err err return_ pret (inl err) ;;
  pret (inr freezeDomainRes).
Definition sendInvitationEndpoint (ctx : option authn.Session) (req : sendInvitationReq) : St W (option (error + response)) :=
  if_err sendInvitationReq_validate req return_ pret (inl (WrapE apiutil.ErrValidation (sendInvitationReq_validate req))) ;;
  session <-ctx ctx or_return pret (inl (Some svcerr.ErrAuthorization)) ;;
  '(_, err) <~ call (domains_mw.svc_SendInvitation svc session (domains.Invitation0 <| domains.InviteeUserID := s_InviteeUserID req |>
    <| domains.DomainID := authn.DomainID session |> <| domains.inv_RoleID := s_RoleID req |> <| domains.Resend := s_Resend req |>)) ;;
  if_err err return_ pret (inl err) ;;
  pret (inr (sendInvitationRes InvitationSent)).
Definition listDomainInvitationsEndpoint (ctx : option authn.Session) (req : listInvitationsReq) : St W (option (error + response)) :=
  if_err listInvitationsReq_validate req return_ pret (inl (WrapE apiutil.ErrValidation (listInvitationsReq_validate req))) ;;
  session <-ctx ctx or_return pret (inl (Some svcerr.ErrAuthorization)) ;;
  '(page, err) <~ call (domains_mw.svc_ListDomainInvitations svc session (li_Meta req)) ;;
  if_err err return_ pret (inl err) ;;
  pret (inr (listInvitationsRes page)).
Definition listUserInvitationsEndpoint (ctx : option authn.Session) (req : listInvitationsReq) : St W (option (error + response)) :=
  if_err listInvitationsReq_validate req return_ pret (inl (WrapE apiutil.ErrValidation (listInvitationsReq_validate req))) ;;
  session <-ctx ctx or_return pret (inl (Some svcerr.ErrAuthorization)) ;;
  '(page, err) <~ call (domains_mw.svc_ListInvitations svc session (li_Meta req)) ;;
  if_err err return_ pret (inl err) ;;
  pret (inr (listInvitationsRes page)).
Definition acceptInvitationEndpoint (ctx : option authn.Session) (req : acceptInvitationReq) : St W (option (error + response)) :=
  if_err acceptInvitationReq_validate req return_ pret (inl (WrapE apiutil.ErrValidation (acceptInvitationReq_validate req))) ;;
  session <-ctx ctx or_return pret (inl (Some svcerr.ErrAuthorization)) ;;
  '(_, err) <~ call (domains_mw.svc_AcceptInvitation svc session (a_DomainID req)) ;;
  if_err err return_ pret (inl err) ;;
  pret (inr acceptInvitationRes).
Definition rejectInvitationEndpoint (ctx : option authn.Session) (req : acceptInvitationReq) : St W (option (error + response)) :=
  if_err acceptInvitationReq_validate req return_ pret (inl (WrapE apiutil.ErrValidation (acceptInvitationReq_validate req))) ;;
  session <-ctx ctx or_return pret (inl (Some svcerr.ErrAuthorization)) ;;
  '(_, err) <~ call (domains_mw.svc_RejectInvitation svc session (a_DomainID req)) ;;
  if_err err return_ pret (inl err) ;;
  pret (inr rejectInvitationRes).
Definition deleteInvitationEndpoint (ctx : option authn.Session) (req : deleteInvitationReq) : St W (option (error + response)) :=
  if_err deleteInvitationReq_validate req return_ pret (inl (WrapE apiutil.ErrValidation (deleteInvitationReq_validate req))) ;;
  session <-ctx ctx or_return pret (inl (Some svcerr.ErrAuthorization)) ;;
  err <~ call (domains_mw.svc_DeleteInvitation svc (session <| authn.DomainID := dl_domainID req |>) (dl_UserID req) (dl_domainID req)) ;;
  if_err err return_ pret (inl err) ;;
  pret (inr deleteInvitationRes).
End endpoints.

(** ** transport.go *)
Section transport.
Context (uuid : messaging.uuidlib) {W : Type} (svc : domains_mw.Service W).
Context (unmarshal : string -> err + Metadata) (Quote : string -> string) {B : Type}.
Context `{!Unmarshal B createDomainReq} `{!Unmarshal B updateDomainReq} `{!Unmarshal B sendInvitationReq}
  `{!Unmarshal B acceptInvitationReq} `{!Unmarshal B deleteInvitationReq}.
Definition MakeHandler : list (route W B response) :=
  let base := "/domains" in
  let one := base +:+ "/{domainID}" in
  [ MkRoute POST (base +:+ "/") (handle decodeCreateDomainRequest (createDomainEndpoint uuid svc));
    MkRoute GET (base +:+ "/") (handle (decodeListDomainRequest unmarshal Quote) (listDomainsEndpoint svc));
    MkRoute GET (one +:+ "/") (handle (decodeRetrieveDomainRequest Quote) (retrieveDomainEndpoint svc));
    MkRoute PATCH (one +:+ "/") (handle decodeUpdateDomainRequest (updateDomainEndpoint svc));
    MkRoute POST (one +:+ "/enable") (handle decodeEnableDomainRequest (enableDomainEndpoint svc));
    MkRoute POST (one +:+ "/disable") (handle decodeDisableDomainRequest (disableDomainEndpoint svc));
    MkRoute POST (one +:+ "/freeze") (handle decodeFreezeDomainRequest (freezeDomainEndpoint svc));
    MkRoute POST (one +:+ "/invitations/") (handle decodeSendInvitationReq (sendInvitationEndpoint svc));
    MkRoute GET (one +:+ "/invitations/") (handle (decodeListInvitationsReq Quote) (listDomainInvitationsEndpoint svc));
    MkRoute DELETE (one +:+ "/invitations/") (handle decodeDeleteInvitationReq (deleteInvitationEndpoint svc));
    MkRoute GET "/invitations/" (handle (decodeListInvitationsReq Quote) (listUserInvitationsEndpoint svc));
    MkRoute POST "/invitations/accept" (handle decodeAcceptInvitationReq (acceptInvitationEndpoint svc));
    MkRoute POST "/invitations/reject" (handle decodeAcceptInvitationReq (rejectInvitationEndpoint svc))].
End transport.
End domains_http.

(** ** What reaches the service *)
Module domains_http_theory.
Import http_theory domains_http.
Section theory.
Context (uuid : messaging.uuidlib) {W : Type} (svc svc' : domains_mw.Service W).
(** A domain without identifier has a name and a route that is well formed or
    a UUID; one that comes with an identifier has just that. *)
Definition domain_ok (d : domains.Domain) : Prop :=
  if domains.ID d =s "" then domains.Name d <> "" /\ domains.Route d <> ""
    /\ (uuid_ok uuid (domains.Route d) \/ ValidateRoute (domains.Route d) = None)
  else uuid_ok uuid (domains.ID d).
Definition page_ok (pm : domains.Page) : Prop := order_ok (domains.pg_Order pm) /\ dir_ok (domains.pg_Dir pm).
Record agree : Prop := {
  agree_CreateDomain : forall s d, domain_ok d -> domains_mw.svc_CreateDomain svc s d = domains_mw.svc_CreateDomain svc' s d;
  agree_RetrieveDomain : forall s id r, id <> "" -> domains_mw.svc_RetrieveDomain svc s id r = domains_mw.svc_RetrieveDomain svc' s id r;
  agree_UpdateDomain : forall s id d, id <> "" -> domains_mw.svc_UpdateDomain svc s id d = domains_mw.svc_UpdateDomain svc' s id d;
  agree_EnableDomain : forall s id, id <> "" -> domains_mw.svc_EnableDomain svc s id = domains_mw.svc_EnableDomain svc' s id;
  agree_DisableDomain : forall s id, id <> "" -> domains_mw.svc_DisableDomain svc s id = domains_mw.svc_DisableDomain svc' s id;
  agree_FreezeDomain : forall s id, id <> "" -> domains_mw.svc_FreezeDomain svc s id = domains_mw.svc_FreezeDomain svc' s id;
  agree_ListDomains : forall s pm, page_ok pm -> domains_mw.svc_ListDomains svc s pm = domains_mw.svc_ListDomains svc' s pm;
  agree_SendInvitation : forall s i, domains.InviteeUserID i <> "" -> domains.inv_RoleID i <> "" ->
    domains.DomainID i = authn.DomainID s -> domains_mw.svc_SendInvitation svc s i = domains_mw.svc_SendInvitation svc' s i;
  agree_ListInvitations : forall s pm, limit_ok (domains.im_Limit pm) ->
    domains_mw.svc_ListInvitations svc s pm = domains_mw.svc_ListInvitations svc' s pm;
  agree_ListDomainInvitations : forall s pm, limit_ok (domains.im_Limit pm) ->
    domains_mw.svc_ListDomainInvitations svc s pm = domains_mw.svc_ListDomainInvitations svc' s pm;
  agree_AcceptInvitation : forall s id, id <> "" -> domains_mw.svc_AcceptInvitation svc s id = domains_mw.svc_AcceptInvitation svc' s id;
  agree_RejectInvitation : forall s id, id <> "" -> domains_mw.svc_RejectInvitation svc s id = domains_mw.svc_RejectInvitation svc' s id;
  agree_DeleteInvitation : forall s u id, u <> "" -> id <> "" -> authn.DomainID s = id ->
    domains_mw.svc_DeleteInvitation svc s u id = domains_mw.svc_DeleteInvitation svc' s u id }.

Lemma validateRoute_ok route : validateRoute uuid route = None -> uuid_ok uuid route \/ ValidateRoute route = None.
Proof.
  unfold validateRoute. destruct (ValidateUUID uuid route) eqn:U; cbn; [|left; by apply ValidateUUID_spec].
  destruct (ValidateRoute route); [done|by right].
Qed.
Lemma listDomainsReq_ok req : listDomainsReq_validate req = None -> page_ok (l_Page req).
Proof.
  unfold listDomainsReq_validate, page_ok. destruct (negb (existsb _ _)) eqn:O; [done|].
  destruct (_ && (_ && _)) eqn:D; [done|]. intros _. auto using order_test_ok, dir_test_ok.
Qed.
Lemma listInvitationsReq_ok req : listInvitationsReq_validate req = None -> limit_ok (domains.im_Limit (li_Meta req)).
Proof. unfold listInvitationsReq_validate. destruct (_ || _) eqn:L; [done|]. intros _. by apply limit_test_ok. Qed.

Context (unmarshal : string -> err + Metadata) (Quote : string -> string) {B : Type}.
Context `{!Unmarshal B createDomainReq} `{!Unmarshal B updateDomainReq} `{!Unmarshal B sendInvitationReq}
  `{!Unmarshal B acceptInvitationReq} `{!Unmarshal B deleteInvitationReq}.
(** Over HTTP the domains service is only called with admissible arguments. *)
Theorem domains_called_admissibly : agree ->
  Forall2 same_route (MakeHandler uuid svc unmarshal Quote (B := B)) (MakeHandler uuid svc' unmarshal Quote (B := B)).
Proof.
  intros [CD ? ? ? ? ? LD SI LI LDI ? ? DI]. unfold MakeHandler.
  repeat constructor; apply same_handle; intros ctx req; apply endpoint_agree; intros H s.
  all: try by eauto using id_test_ok, listInvitationsReq_ok, listDomainsReq_ok.
  - apply CD. unfold domain_ok, createDomainReq_validate in *. cbn in *. destruct (cd_ID req =s "") eqn:E; cbn in H.
    + destruct (cd_Name req =s "") eqn:N; [done|]. destruct (cd_Route req =s "") eqn:R; [done|]. go_bool.
      destruct (validateRoute uuid (cd_Route req)) eqn:V; [done|]. eauto using validateRoute_ok.
    + by apply ValidateUUID_spec.
  - unfold sendInvitationReq_validate in H. destruct (_ || _) eqn:E in H; [done|]. go_bool. by apply SI.
  - apply two_tests_ok in H as []. by apply DI.
Qed.
End theory.
End domains_http_theory.
