(* ===== verification/RolesHttp.v ===== *)
(** * RolesHttp: the HTTP layer of roles, which every entity service adds to its own

    Source: src/pkg/roles/rolemanager/api (requests.go, decoders.go,
    endpoints.go, responses.go, router.go), in the terms of Http.v.

    [roles_called_admissibly] is for role managers what ChannelsHttp's theorem
    is for the channels.  The route that removes members of an entity decodes
    the request of another endpoint: [remove_entity_members_panics]. *)

From S2P Require Import Prelude GoStd GoNum GoUrl Errors Authn Roles Topics Guards Http.
Import http.

Module roles_http.
(** ** requests.go *)
Record createRoleReq := MkCreateRoleReq {
  cr_token : string; cr_entityID : string; cr_RoleName : string; cr_OptionalActions : list string; cr_OptionalMembers : list string }.
Definition createRoleReq_validate (uuid : messaging.uuidlib) (req : createRoleReq) : error :=
  if_ cr_token req =s "" return_ Some apiutil.ErrBearerToken ;;
  if_err ValidateUUID uuid (cr_entityID req) return_ ValidateUUID uuid (cr_entityID req) ;;
  if_ Nat.eqb (String.length (cr_RoleName req)) 0 return_ Some apiutil.ErrMissingRoleName ;;
  if_ Nat.ltb 200 (String.length (cr_RoleName req)) return_ Some apiutil.ErrNameSize ;;
  None.
Record listRolesReq := MkListRolesReq {
  lr_token : string; lr_entityID : string; lr_limit : N; lr_offset : N }.
Definition listRolesReq_validate (req : listRolesReq) : error :=
  if_ lr_token req =s "" return_ Some apiutil.ErrBearerToken ;;
  if_ lr_entityID req =s "" return_ Some apiutil.ErrMissingID ;;
  if_ N.ltb MaxLimitSize (lr_limit req) || N.ltb (lr_limit req) 1 return_ Some apiutil.ErrLimitSize ;;
  None.
Record listEntityMembersReq := MkListEntityMembersReq {
  lm_token : string; lm_entityID : string; lm_limit : N; lm_offset : N; lm_dir : string; lm_order : string; lm_accessProviderID : string; lm_roleId : string; lm_roleName : string; lm_actions : list string; lm_accessType : string }.
Definition listEntityMembersReq_validate (req : listEntityMembersReq) : error :=
  if_ lm_token req =s "" return_ Some apiutil.ErrBearerToken ;;
  if_ lm_entityID req =s "" return_ Some apiutil.ErrMissingID ;;
  if_ N.ltb MaxLimitSize (lm_limit req) || N.ltb (lm_limit req) 1 return_ Some apiutil.ErrLimitSize ;;
  None.
Record removeEntityMembersReq := MkRemoveEntityMembersReq {
  rm_token : string; rm_entityID : string; rm_MemberIDs : list string }.
Definition removeEntityMembersReq_validate (req : removeEntityMembersReq) : error :=
  if_ rm_token req =s "" return_ Some apiutil.ErrBearerToken ;;
  if_ rm_entityID req =s "" return_ Some apiutil.ErrMissingID ;;
  if_ Nat.eqb (length (rm_MemberIDs req)) 0 return_ Some apiutil.ErrMissingMemberIDs ;;
  None.
Record viewRoleReq := MkViewRoleReq {
  vr_token : string; vr_entityID : string; vr_roleID : string }.
Definition viewRoleReq_validate (req : viewRoleReq) : error :=
  if_ vr_token req =s "" return_ Some apiutil.ErrBearerToken ;;
  if_ vr_entityID req =s "" return_ Some apiutil.ErrMissingID ;;
  if_ vr_roleID req =s "" return_ Some apiutil.ErrMissingRoleID ;;
  None.
Record updateRoleReq := MkUpdateRoleReq {
  ur_token : string; ur_entityID : string; ur_roleID : string; ur_Name : string }.
Definition updateRoleReq_validate (req : updateRoleReq) : error :=
  if_ ur_token req =s "" return_ Some apiutil.ErrBearerToken ;;
  if_ ur_entityID req =s "" return_ Some apiutil.ErrMissingID ;;
  if_ ur_roleID req =s "" return_ Some apiutil.ErrMissingRoleID ;;
  if_ ur_Name req =s "" return_ Some apiutil.ErrMissingRoleName ;;
  None.
Record deleteRoleReq := MkDeleteRoleReq {
  dr_token : string; dr_entityID : string; dr_roleID : string }.
Definition deleteRoleReq_validate (req : deleteRoleReq) : error :=
  if_ dr_token req =s "" return_ Some apiutil.ErrBearerToken ;;
  if_ dr_entityID req =s "" return_ Some apiutil.ErrMissingID ;;
  if_ dr_roleID req =s "" return_ Some apiutil.ErrMissingRoleID ;;
  None.
Record listAvailableActionsReq := MkListAvailableActionsReq {
  la_token : string }.
Definition listAvailableActionsReq_validate (req : listAvailableActionsReq) : error :=
  if_ la_token req =s "" return_ Some apiutil.ErrBearerToken ;;
  None.
Record addRoleActionsReq := MkAddRoleActionsReq {
  aa_token : string; aa_entityID : string; aa_roleID : string; aa_Actions : list string }.
Definition addRoleActionsReq_validate (req : addRoleActionsReq) : error :=
  if_ aa_token req =s "" return_ Some apiutil.ErrBearerToken ;;
  if_ aa_entityID req =s "" return_ Some apiutil.ErrMissingID ;;
  if_ aa_roleID req =s "" return_ Some apiutil.ErrMissingRoleID ;;
  if_ Nat.eqb (length (aa_Actions req)) 0 return_ Some apiutil.ErrMissingPolicyEntityType ;;
  None.
Record listRoleActionsReq := MkListRoleActionsReq {
  lra_token : string; lra_entityID : string; lra_roleID : string }.
Definition listRoleActionsReq_validate (req : listRoleActionsReq) : error :=
  if_ lra_token req =s "" return_ Some apiutil.ErrBearerToken ;;
  if_ lra_entityID req =s "" return_ Some apiutil.ErrMissingID ;;
  if_ lra_roleID req =s "" return_ Some apiutil.ErrMissingRoleID ;;
  None.
Record deleteRoleActionsReq := MkDeleteRoleActionsReq {
  da_token : string; da_entityID : string; da_roleID : string; da_Actions : list string }.
Definition deleteRoleActionsReq_validate (req : deleteRoleActionsReq) : error :=
  if_ da_token req =s "" return_ Some apiutil.ErrBearerToken ;;
  if_ da_entityID req =s "" return_ Some apiutil.ErrMissingID ;;
  if_ da_roleID req =s "" return_ Some apiutil.ErrMissingRoleID ;;
  if_ Nat.eqb (length (da_Actions req)) 0 return_ Some apiutil.ErrMissingPolicyEntityType ;;
  None.
Record deleteAllRoleActionsReq := MkDeleteAllRoleActionsReq {
  daa_token : string; daa_entityID : string; daa_roleID : string }.
Definition deleteAllRoleActionsReq_validate (req : deleteAllRoleActionsReq) : error :=
  if_ daa_token req =s "" return_ Some apiutil.ErrBearerToken ;;
  if_ daa_entityID req =s "" return_ Some apiutil.ErrMissingID ;;
  if_ daa_roleID req =s "" return_ Some apiutil.ErrMissingRoleID ;;
  None.
Record addRoleMembersReq := MkAddRoleMembersReq {
  am_token : string; am_entityID : string; am_roleID : string; am_Members : list string }.
Definition addRoleMembersReq_validate (req : addRoleMembersReq) : error :=
  if_ am_token req =s "" return_ Some apiutil.ErrBearerToken ;;
  if_ am_entityID req =s "" return_ Some apiutil.ErrMissingID ;;
  if_ am_roleID req =s "" return_ Some apiutil.ErrMissingRoleID ;;
  if_ Nat.eqb (length (am_Members req)) 0 return_ Some apiutil.ErrMissingRoleMembers ;;
  None.
Record listRoleMembersReq := MkListRoleMembersReq {
  lrm_token : string; lrm_entityID : string; lrm_roleID : string; lrm_limit : N; lrm_offset : N }.
Definition listRoleMembersReq_validate (req : listRoleMembersReq) : error :=
  if_ lrm_token req =s "" return_ Some apiutil.ErrBearerToken ;;
  if_ lrm_entityID req =s "" return_ Some apiutil.ErrMissingID ;;
  if_ lrm_roleID req =s "" return_ Some apiutil.ErrMissingRoleID ;;
  if_ N.ltb MaxLimitSize (lrm_limit req) || N.ltb (lrm_limit req) 1 return_ Some apiutil.ErrLimitSize ;;
  None.
Record deleteRoleMembersReq := MkDeleteRoleMembersReq {
  dm_token : string; dm_entityID : string; dm_roleID : string; dm_Members : list string }.
Definition deleteRoleMembersReq_validate (req : deleteRoleMembersReq) : error :=
  if_ dm_token req =s "" return_ Some apiutil.ErrBearerToken ;;
  if_ dm_entityID req =s "" return_ Some apiutil.ErrMissingID ;;
  if_ dm_roleID req =s "" return_ Some apiutil.ErrMissingRoleID ;;
  if_ Nat.eqb (length (dm_Members req)) 0 return_ Some apiutil.ErrMissingRoleMembers ;;
  None.
Record deleteAllRoleMembersReq := MkDeleteAllRoleMembersReq {
  dam_token : string; dam_entityID : string; dam_roleID : string }.
Definition deleteAllRoleMembersReq_validate (req : deleteAllRoleMembersReq) : error :=
  if_ dam_token req =s "" return_ Some apiutil.ErrBearerToken ;;
  if_ dam_entityID req =s "" return_ Some apiutil.ErrMissingID ;;
  if_ dam_roleID req =s "" return_ Some apiutil.ErrMissingRoleID ;;
  None.

(** ** responses.go *)
Inductive response :=
| createRoleRes (rp : roles.RoleProvision)
| listRolesRes (p : roles.RolePage)
| listEntityMembersRes (p : roles.MembersRolePage)
| deleteEntityMembersRes
| viewRoleRes (r : roles.Role)
| updateRoleRes (r : roles.Role)
| deleteRoleRes
| listAvailableActionsRes (AvailableActions : list string)
| addRoleActionsRes (Actions : list string)
| listRoleActionsRes (Actions : list string)
| deleteRoleActionsRes | deleteAllRoleActionsRes
| addRoleMembersRes (Members : list string)
| listRoleMembersRes (p : roles.MembersPage)
| deleteRoleMembersRes | deleteAllRoleMemberRes.
Definition response_Empty (res : response) : bool :=
  match res with
  | deleteEntityMembersRes | deleteRoleRes | deleteRoleActionsRes | deleteAllRoleActionsRes | deleteRoleMembersRes
  | deleteAllRoleMemberRes => true
  | _ => false
  end.
Definition response_Code (res : response) : Z :=
  match res with
  | createRoleRes _ => StatusCreated
  | deleteEntityMembersRes | deleteRoleRes | deleteRoleActionsRes | deleteAllRoleActionsRes | deleteRoleMembersRes
  | deleteAllRoleMemberRes => StatusNoContent
  | _ => StatusOK
  end.
Definition response_Headers (res : response) : list (string * string) := [].
#[export] Instance roles_response : Response response :=
  { Code := response_Code; Headers := response_Headers; Empty := response_Empty }.

(** ** decoders.go *)
Record Decoder := NewDecoder { entityIDTemplate : string }.
Section decode.
Context (d : Decoder) (Quote : string -> string) {B : Type}.
Context `{!Unmarshal B createRoleReq} `{!Unmarshal B removeEntityMembersReq} `{!Unmarshal B updateRoleReq}
  `{!Unmarshal B addRoleActionsReq} `{!Unmarshal B deleteRoleActionsReq} `{!Unmarshal B addRoleMembersReq}
  `{!Unmarshal B deleteRoleMembersReq}.
Definition entity (r : Request) : string := URLParam r (entityIDTemplate d).

Definition DecodeCreateRole (r : Request) (b : B) : error + createRoleReq :=
  decodeBody r (MkCreateRoleReq (ExtractBearerToken r) (entity r) "" [] []) b.
Definition DecodeListRoles (r : Request) (_ : B) : error + listRolesReq :=
  o <-? ReadNumQuery Quote Uint64 r OffsetKey DefOffset ;;
  l <-? ReadNumQuery Quote Uint64 r LimitKey DefLimit ;;
  inr (MkListRolesReq (ExtractBearerToken r) (entity r) (Z.to_N l) (Z.to_N o)).
Definition DecodeListEntityMembers (r : Request) (_ : B) : error + listEntityMembersReq :=
  o <-? ReadNumQuery Quote Uint64 r OffsetKey DefOffset ;;
  l <-? ReadNumQuery Quote Uint64 r LimitKey DefLimit ;;
  order <-? ReadStringQuery r OrderKey "" ;;
  dir <-? ReadStringQuery r LimitKey "" ;;
  accessProviderID <-? ReadStringQuery r AccessProviderIDKey "" ;;
  accessType <-? ReadStringQuery r AccessTypeKey "" ;;
  roleId <-? ReadStringQuery r RoleIDKey "" ;;
  roleName <-? ReadStringQuery r RoleNameKey "" ;;
  allActions <-? ReadStringQuery r ActionsKey "" ;;
  let actions := readActions allActions in
  inr (MkListEntityMembersReq (ExtractBearerToken r) (entity r) (Z.to_N l) (Z.to_N o) dir order accessProviderID roleId
    roleName actions accessType).
Definition DecodeRemoveEntityMembers (r : Request) (b : B) : error + removeEntityMembersReq :=
  decodeBody r (MkRemoveEntityMembersReq (ExtractBearerToken r) (entity r) []) b.
Definition DecodeViewRole (r : Request) (_ : B) : error + viewRoleReq :=
  inr (MkViewRoleReq (ExtractBearerToken r) (entity r) (URLParam r "roleID")).
Definition DecodeUpdateRole (r : Request) (b : B) : error + updateRoleReq :=
  decodeBody r (MkUpdateRoleReq (ExtractBearerToken r) (entity r) (URLParam r "roleID") "") b.
Definition DecodeDeleteRole (r : Request) (_ : B) : error + deleteRoleReq :=
  inr (MkDeleteRoleReq (ExtractBearerToken r) (entity r) (URLParam r "roleID")).
Definition DecodeListAvailableActions (r : Request) (_ : B) : error + listAvailableActionsReq :=
  inr (MkListAvailableActionsReq (ExtractBearerToken r)).
Definition DecodeAddRoleActions (r : Request) (b : B) : error + addRoleActionsReq :=
  decodeBody r (MkAddRoleActionsReq (ExtractBearerToken r) (entity r) (URLParam r "roleID") []) b.
Definition DecodeListRoleActions (r : Request) (_ : B) : error + listRoleActionsReq :=
  inr (MkListRoleActionsReq (ExtractBearerToken r) (entity r) (URLParam r "roleID")).
Definition DecodeDeleteRoleActions (r : Request) (b : B) : error + deleteRoleActionsReq :=
  decodeBody r (MkDeleteRoleActionsReq (ExtractBearerToken r) (entity r) (URLParam r "roleID") []) b.
Definition DecodeDeleteAllRoleActions (r : Request) (_ : B) : error + deleteAllRoleActionsReq :=
  inr (MkDeleteAllRoleActionsReq (ExtractBearerToken r) (entity r) (URLParam r "roleID")).
Definition DecodeAddRoleMembers (r : Request) (b : B) : error + addRoleMembersReq :=
  decodeBody r (MkAddRoleMembersReq (ExtractBearerToken r) (entity r) (URLParam r "roleID") []) b.
Definition DecodeListRoleMembers (r : Request) (_ : B) : error + listRoleMembersReq :=
  o <-? ReadNumQuery Quote Uint64 r OffsetKey DefOffset ;;
  l <-? ReadNumQuery Quote Uint64 r LimitKey DefLimit ;;
  inr (MkListRoleMembersReq (ExtractBearerToken r) (entity r) (URLParam r "roleID") (Z.to_N l) (Z.to_N o)).
Definition DecodeDeleteRoleMembers (r : Request) (b : B) : error + deleteRoleMembersReq :=
  decodeBody r (MkDeleteRoleMembersReq (ExtractBearerToken r) (entity r) (URLParam r "roleID") []) b.
Definition DecodeDeleteAllRoleMembers (r : Request) (_ : B) : error + deleteAllRoleMembersReq :=
  inr (MkDeleteAllRoleMembersReq (ExtractBearerToken r) (entity r) (URLParam r "roleID")).
End decode.

(** ** endpoints.go *)
Section endpoints.
Context (uuid : messaging.uuidlib) {W : Type} (svc : rolemgr.RoleManager W).

Definition CreateRoleEndpoint (ctx : option authn.Session) (req : createRoleReq) : St W (option (error + response)) :=
  if_err createRoleReq_validate uuid req return_ pret (inl (WrapE apiutil.ErrValidation (createRoleReq_validate uuid req))) ;;
  session <-ctx ctx or_return pret (inl (Some svcerr.ErrAuthentication)) ;;
  '(rp, err) <~ call (rolemgr.svc_AddRole svc session (cr_entityID req) (cr_RoleName req) (cr_OptionalActions req) (cr_OptionalMembers req)) ;;
  if_err err return_ pret (inl err) ;;
  pret (inr (createRoleRes rp)).
Definition ListRolesEndpoint (ctx : option authn.Session) (req : listRolesReq) : St W (option (error + response)) :=
  if_err listRolesReq_validate req return_ pret (inl (WrapE apiutil.ErrValidation (listRolesReq_validate req))) ;;
  session <-ctx ctx or_return pret (inl (Some svcerr.ErrAuthentication)) ;;
  '(ros, err) <~ call (rolemgr.svc_RetrieveAllRoles svc session (lr_entityID req) (lr_limit req) (lr_offset req)) ;;
  if_err err return_ pret (inl err) ;;
  pret (inr (listRolesRes ros)).
Definition ListEntityMembersEndpoint (ctx : option authn.Session) (req : listEntityMembersReq) : St W (option (error + response)) :=
  if_err listEntityMembersReq_validate req return_ pret (inl (WrapE apiutil.ErrValidation (listEntityMembersReq_validate req))) ;;
  session <-ctx ctx or_return pret (inl (Some svcerr.ErrAuthentication)) ;;
  '(mems, err) <~ call (rolemgr.svc_ListEntityMembers svc session (lm_entityID req)
    (roles.MkMembersRolePageQuery 0 (lm_offset req) (lm_limit req) (lm_order req) (lm_dir req) (lm_accessProviderID req)
       (lm_roleId req) (lm_roleName req) (lm_actions req) (lm_accessType req))) ;;
  if_err err return_ pret (inl err) ;;
  pret (inr (listEntityMembersRes mems)).
Definition RemoveEntityMembersEndpoint (ctx : option authn.Session) (req : removeEntityMembersReq) : St W (option (error + response)) :=
  if_err removeEntityMembersReq_validate req return_ pret (inl (WrapE apiutil.ErrValidation (removeEntityMembersReq_validate req))) ;;
  session <-ctx ctx or_return pret (inl (Some svcerr.ErrAuthentication)) ;;
  err <~ call (rolemgr.svc_RemoveEntityMembers svc session (rm_entityID req) (rm_MemberIDs req)) ;;
  if_err err return_ pret (inl err) ;;
  pret (inr deleteEntityMembersRes).
(** [req := request.(removeEntityMembersReq)] panics on another request. *)
Definition RemoveEntityMembersEndpoint_any (ctx : option authn.Session) (request : listEntityMembersReq + removeEntityMembersReq) : St W (option (error + response)) :=
  match request with
  | inr req => RemoveEntityMembersEndpoint ctx req
  | inl _ => panic
  end.
Definition ViewRoleEndpoint (ctx : option authn.Session) (req : viewRoleReq) : St W (option (error + response)) :=
  if_err viewRoleReq_validate req return_ pret (inl (WrapE apiutil.ErrValidation (viewRoleReq_validate req))) ;;
  session <-ctx ctx or_return pret (inl (Some svcerr.ErrAuthentication)) ;;
  '(ro, err) <~ call (rolemgr.svc_RetrieveRole svc session (vr_entityID req) (vr_roleID req)) ;;
  if_err err return_ pret (inl err) ;;
  pret (inr (viewRoleRes ro)).
Definition UpdateRoleEndpoint (ctx : option authn.Session) (req : updateRoleReq) : St W (option (error + response)) :=
  if_err updateRoleReq_validate req return_ pret (inl (WrapE apiutil.ErrValidation (updateRoleReq_validate req))) ;;
  session <-ctx ctx or_return pret (inl (Some svcerr.ErrAuthentication)) ;;
  '(ro, err) <~ call (rolemgr.svc_UpdateRoleName svc session (ur_entityID req) (ur_roleID req) (ur_Name req)) ;;
  if_err err return_ pret (inl err) ;;
  pret (inr (updateRoleRes ro)).
Definition DeleteRoleEndpoint (ctx : option authn.Session) (req : deleteRoleReq) : St W (option (error + response)) :=
  if_err deleteRoleReq_validate req return_ pret (inl (WrapE apiutil.ErrValidation (deleteRoleReq_validate req))) ;;
  session <-ctx ctx or_return pret (inl (Some svcerr.ErrAuthentication)) ;;
  err <~ call (rolemgr.svc_RemoveRole svc session (dr_entityID req) (dr_roleID req)) ;;
  if_err err return_ pret (inl err) ;;
  pret (inr deleteRoleRes).
Definition ListAvailableActionsEndpoint (ctx : option authn.Session) (req : listAvailableActionsReq) : St W (option (error + response)) :=
  if_err listAvailableActionsReq_validate req return_ pret (inl (WrapE apiutil.ErrValidation (listAvailableActionsReq_validate req))) ;;
  session <-ctx ctx or_return pret (inl (Some svcerr.ErrAuthentication)) ;;
  '(acts, err) <~ call (rolemgr.svc_ListAvailableActions svc session) ;;
  if_err err return_ pret (inl err) ;;
  pret (inr (listAvailableActionsRes acts)).
Definition AddRoleActionsEndpoint (ctx : option authn.Session) (req : addRoleActionsReq) : St W (option (error + response)) :=
  if_err addRoleActionsReq_validate req return_ pret (inl (WrapE apiutil.ErrValidation (addRoleActionsReq_validate req))) ;;
  session <-ctx ctx or_return pret (inl (Some svcerr.ErrAuthentication)) ;;
  '(caps, err) <~ call (rolemgr.svc_RoleAddActions svc session (aa_entityID req) (aa_roleID req) (aa_Actions req)) ;;
  if_err err return_ pret (inl err) ;;
  pret (inr (addRoleActionsRes caps)).
Definition ListRoleActionsEndpoint (ctx : option authn.Session) (req : listRoleActionsReq) : St W (option (error + response)) :=
  if_err listRoleActionsReq_validate req return_ pret (inl (WrapE apiutil.ErrValidation (listRoleActionsReq_validate req))) ;;
  session <-ctx ctx or_return pret (inl (Some svcerr.ErrAuthentication)) ;;
  '(caps, err) <~ call (rolemgr.svc_RoleListActions svc session (lra_entityID req) (lra_roleID req)) ;;
  if_err err return_ pret (inl err) ;;
  pret (inr (listRoleActionsRes caps)).
Definition DeleteRoleActionsEndpoint (ctx : option authn.Session) (req : deleteRoleActionsReq) : St W (option (error + response)) :=
  if_err deleteRoleActionsReq_validate req return_ pret (inl (WrapE apiutil.ErrValidation (deleteRoleActionsReq_validate req))) ;;
  session <-ctx ctx or_return pret (inl (Some svcerr.ErrAuthentication)) ;;
  err <~ call (rolemgr.svc_RoleRemoveActions svc session (da_entityID req) (da_roleID req) (da_Actions req)) ;;
  if_err err return_ pret (inl err) ;;
  pret (inr deleteRoleActionsRes).
Definition DeleteAllRoleActionsEndpoint (ctx : option authn.Session) (req : deleteAllRoleActionsReq) : St W (option (error + response)) :=
  if_err deleteAllRoleActionsReq_validate req return_ pret (inl (WrapE apiutil.ErrValidation (deleteAllRoleActionsReq_validate req))) ;;
  session <-ctx ctx or_return pret (inl (Some svcerr.ErrAuthentication)) ;;
  err <~ call (rolemgr.svc_RoleRemoveAllActions svc session (daa_entityID req) (daa_roleID req)) ;;
  if_err err return_ pret (inl err) ;;
  pret (inr deleteAllRoleActionsRes).
Definition AddRoleMembersEndpoint (ctx : option authn.Session) (req : addRoleMembersReq) : St W (option (error + response)) :=
  if_err addRoleMembersReq_validate req return_ pret (inl (WrapE apiutil.ErrValidation (addRoleMembersReq_validate req))) ;;
  session <-ctx ctx or_return pret (inl (Some svcerr.ErrAuthentication)) ;;
  '(members, err) <~ call (rolemgr.svc_RoleAddMembers svc session (am_entityID req) (am_roleID req) (am_Members req)) ;;
  if_err err return_ pret (inl err) ;;
  pret (inr (addRoleMembersRes members)).
Definition ListRoleMembersEndpoint (ctx : option authn.Session) (req : listRoleMembersReq) : St W (option (error + response)) :=
  if_err listRoleMembersReq_validate req return_ pret (inl (WrapE apiutil.ErrValidation (listRoleMembersReq_validate req))) ;;
  session <-ctx ctx or_return pret (inl (Some svcerr.ErrAuthentication)) ;;
  '(mp, err) <~ call (rolemgr.svc_RoleListMembers svc session (lrm_entityID req) (lrm_roleID req) (lrm_limit req) (lrm_offset req)) ;;
  if_err err return_ pret (inl err) ;;
  pret (inr (listRoleMembersRes mp)).
Definition DeleteRoleMembersEndpoint (ctx : option authn.Session) (req : deleteRoleMembersReq) : St W (option (error + response)) :=
  if_err deleteRoleMembersReq_validate req return_ pret (inl (WrapE apiutil.ErrValidation (deleteRoleMembersReq_validate req))) ;;
  session <-ctx ctx or_return pret (inl (Some svcerr.ErrAuthentication)) ;;
  err <~ call (rolemgr.svc_RoleRemoveMembers svc session (dm_entityID req) (dm_roleID req) (dm_Members req)) ;;
  if_err err return_ pret (inl err) ;;
  pret (inr deleteRoleMembersRes).
Definition DeleteAllRoleMembersEndpoint (ctx : option authn.Session) (req : deleteAllRoleMembersReq) : St W (option (error + response)) :=
  if_err deleteAllRoleMembersReq_validate req return_ pret (inl (WrapE apiutil.ErrValidation (deleteAllRoleMembersReq_validate req))) ;;
  session <-ctx ctx or_return pret (inl (Some svcerr.ErrAuthentication)) ;;
  err <~ call (rolemgr.svc_RoleRemoveAllMembers svc session (dam_entityID req) (dam_roleID req)) ;;
  if_err err return_ pret (inl err) ;;
  pret (inr deleteAllRoleMemberRes).
End endpoints.

(** ** router.go, the routes below those of the entity *)
Section router.
Context (uuid : messaging.uuidlib) {W : Type} (svc : rolemgr.RoleManager W) (d : Decoder) (Quote : string -> string) {B : Type}.
Context `{!Unmarshal B createRoleReq} `{!Unmarshal B removeEntityMembersReq} `{!Unmarshal B updateRoleReq}
  `{!Unmarshal B addRoleActionsReq} `{!Unmarshal B deleteRoleActionsReq} `{!Unmarshal B addRoleMembersReq}
  `{!Unmarshal B deleteRoleMembersReq}.
(** The route has the decoder of the list of members. *)
Definition removeEntityMembersRoute : route W B response :=
  MkRoute DELETE "/roles/" (handle
    (fun r b => match DecodeListEntityMembers d Quote r b with inl err => inl err | inr req => inr (inl req) end)
    (RemoveEntityMembersEndpoint_any svc)).
Definition EntityRoleMangerRouter : list (route W B response) :=
  let one := "/roles/{roleID}" in
  [ MkRoute POST "/roles/" (handle (DecodeCreateRole d) (CreateRoleEndpoint uuid svc));
    MkRoute GET "/roles/" (handle (DecodeListRoles d Quote) (ListRolesEndpoint svc));
    MkRoute GET "/roles/members" (handle (DecodeListEntityMembers d Quote) (ListEntityMembersEndpoint svc));
    removeEntityMembersRoute;
    MkRoute GET (one +:+ "/") (handle (DecodeViewRole d) (ViewRoleEndpoint svc));
    MkRoute PUT (one +:+ "/") (handle (DecodeUpdateRole d) (UpdateRoleEndpoint svc));
    MkRoute DELETE (one +:+ "/") (handle (DecodeDeleteRole d) (DeleteRoleEndpoint svc));
    MkRoute POST (one +:+ "/actions/") (handle (DecodeAddRoleActions d) (AddRoleActionsEndpoint svc));
    MkRoute GET (one +:+ "/actions/") (handle (DecodeListRoleActions d) (ListRoleActionsEndpoint svc));
    MkRoute POST (one +:+ "/actions/delete") (handle (DecodeDeleteRoleActions d) (DeleteRoleActionsEndpoint svc));
    MkRoute POST (one +:+ "/actions/delete-all") (handle (DecodeDeleteAllRoleActions d) (DeleteAllRoleActionsEndpoint svc));
    MkRoute POST (one +:+ "/members/") (handle (DecodeAddRoleMembers d) (AddRoleMembersEndpoint svc));
    MkRoute GET (one +:+ "/members/") (handle (DecodeListRoleMembers d Quote) (ListRoleMembersEndpoint svc));
    MkRoute POST (one +:+ "/members/delete") (handle (DecodeDeleteRoleMembers d) (DeleteRoleMembersEndpoint svc));
    MkRoute POST (one +:+ "/members/delete-all") (handle (DecodeDeleteAllRoleMembers d) (DeleteAllRoleMembersEndpoint svc))].
Definition EntityAvailableActionsRouter : list (route W B response) :=
  [ MkRoute GET "/roles/available-actions" (handle DecodeListAvailableActions (ListAvailableActionsEndpoint svc))].
End router.
End roles_http.

(** ** What reaches the role manager *)
Module roles_http_theory.
Import http_theory roles_http.
Section theory.
Context (uuid : messaging.uuidlib) {W : Type} (svc svc' : rolemgr.RoleManager W).
Record agree : Prop := {
  agree_AddRole : forall s id name actions members, uuid_ok uuid id -> (1 <= String.length name <= 200)%nat ->
    rolemgr.svc_AddRole svc s id name actions members = rolemgr.svc_AddRole svc' s id name actions members;
  agree_RemoveRole : forall s id r, id <> "" -> r <> "" -> rolemgr.svc_RemoveRole svc s id r = rolemgr.svc_RemoveRole svc' s id r;
  agree_UpdateRoleName : forall s id r name, id <> "" -> r <> "" -> name <> "" ->
    rolemgr.svc_UpdateRoleName svc s id r name = rolemgr.svc_UpdateRoleName svc' s id r name;
  agree_RetrieveRole : forall s id r, id <> "" -> r <> "" -> rolemgr.svc_RetrieveRole svc s id r = rolemgr.svc_RetrieveRole svc' s id r;
  agree_RetrieveAllRoles : forall s id l o, id <> "" -> limit_ok l ->
    rolemgr.svc_RetrieveAllRoles svc s id l o = rolemgr.svc_RetrieveAllRoles svc' s id l o;
  agree_ListAvailableActions : forall s, rolemgr.svc_ListAvailableActions svc s = rolemgr.svc_ListAvailableActions svc' s;
  agree_RoleAddActions : forall s id r l, id <> "" -> r <> "" -> l <> [] ->
    rolemgr.svc_RoleAddActions svc s id r l = rolemgr.svc_RoleAddActions svc' s id r l;
  agree_RoleListActions : forall s id r, id <> "" -> r <> "" -> rolemgr.svc_RoleListActions svc s id r = rolemgr.svc_RoleListActions svc' s id r;
  agree_RoleRemoveActions : forall s id r l, id <> "" -> r <> "" -> l <> [] ->
    rolemgr.svc_RoleRemoveActions svc s id r l = rolemgr.svc_RoleRemoveActions svc' s id r l;
  agree_RoleRemoveAllActions : forall s id r, id <> "" -> r <> "" ->
    rolemgr.svc_RoleRemoveAllActions svc s id r = rolemgr.svc_RoleRemoveAllActions svc' s id r;
  agree_RoleAddMembers : forall s id r l, id <> "" -> r <> "" -> l <> [] ->
    rolemgr.svc_RoleAddMembers svc s id r l = rolemgr.svc_RoleAddMembers svc' s id r l;
  agree_RoleListMembers : forall s id r l o, id <> "" -> r <> "" -> limit_ok l ->
    rolemgr.svc_RoleListMembers svc s id r l o = rolemgr.svc_RoleListMembers svc' s id r l o;
  agree_RoleRemoveMembers : forall s id r l, id <> "" -> r <> "" -> l <> [] ->
    rolemgr.svc_RoleRemoveMembers svc s id r l = rolemgr.svc_RoleRemoveMembers svc' s id r l;
  agree_RoleRemoveAllMembers : forall s id r, id <> "" -> r <> "" ->
    rolemgr.svc_RoleRemoveAllMembers svc s id r = rolemgr.svc_RoleRemoveAllMembers svc' s id r;
  agree_ListEntityMembers : forall s id q, id <> "" -> limit_ok (roles.q_Limit q) ->
    rolemgr.svc_ListEntityMembers svc s id q = rolemgr.svc_ListEntityMembers svc' s id q }.

Lemma createRoleReq_ok req : createRoleReq_validate uuid req = None ->
  uuid_ok uuid (cr_entityID req) /\ (1 <= String.length (cr_RoleName req) <= 200)%nat.
Proof.
  unfold createRoleReq_validate. destruct (_ =s "") eqn:T; [done|]. destruct (ValidateUUID _ _) eqn:U; [done|].
  destruct (Nat.eqb _ _) eqn:E; [done|]. destruct (Nat.ltb 200 _) eqn:L; [done|]. intros _.
  apply ValidateUUID_spec in U. apply Nat.eqb_neq in E. apply Nat.ltb_ge in L. split; [done|]. lia.
Qed.

Context (d : Decoder) (Quote : string -> string) {B : Type}.
Context `{!Unmarshal B createRoleReq} `{!Unmarshal B removeEntityMembersReq} `{!Unmarshal B updateRoleReq}
  `{!Unmarshal B addRoleActionsReq} `{!Unmarshal B deleteRoleActionsReq} `{!Unmarshal B addRoleMembersReq}
  `{!Unmarshal B deleteRoleMembersReq}.
(** Over HTTP a role manager is only called with admissible arguments; that
    members are removed from an entity is not among the calls. *)
Theorem roles_called_admissibly : agree ->
  Forall2 same_route (EntityRoleMangerRouter uuid svc d Quote (B := B) ++ EntityAvailableActionsRouter svc (B := B))
    (EntityRoleMangerRouter uuid svc' d Quote (B := B) ++ EntityAvailableActionsRouter svc' (B := B)).
Proof.
  intros [AR RR UR RT RA LA AA LAc RAc RAA AM LM RM RAM LE]. unfold EntityRoleMangerRouter, EntityAvailableActionsRouter. cbn [app].
  repeat constructor; try (by repeat split; intros; cbn; unfold handle; destruct (DecodeListEntityMembers d Quote _ _));
    try (apply same_handle; intros ctx req; apply endpoint_agree; intros H s).
  1: by apply createRoleReq_ok in H as []; apply AR.
  all: try (guards H; eauto using not_empty_list).
Qed.

(** The request to remove members of an entity never gets an answer, other
    than that its query is malformed: the endpoint panics on the request it
    is given, and nobody is removed. *)
Theorem remove_entity_members_panics (ctx : option authn.Session) (r : Request) (b : B) (w : W) :
  let '(answer, w') := serve (removeEntityMembersRoute svc d Quote (B := B)) ctx r b w in
  w' = w /\ (answer = None \/ exists err, DecodeListEntityMembers d Quote r b = inl err /\ answer = Some (encodeError err)).
Proof.
  cbn. unfold handle. destruct (DecodeListEntityMembers d Quote r b) as [e|req]; cbn; split; auto. right. eauto.
Qed.
End theory.
End roles_http_theory.
