(* ===== verification/UsersHttp.v ===== *)
(** * UsersHttp: the HTTP layer of the users service

    Source: src/users/api (requests.go, endpoints.go, responses.go, users.go),
    in the terms of Http.v.  Addresses are parsed by net/mail, URLs by
    net/url, and passwords match a regular expression of the configuration:
    parameters, as is the provider of OAuth.

    [users_called_admissibly] is for this service what ChannelsHttp's theorem
    is for the channels; [registration_ignores_role] and
    [username_may_be_address] are what the requests leave unchecked, and
    [callback_is_guarded] when a browser comes back from a provider with
    tokens. *)

From S2P Require Import Prelude GoStd GoNum GoUrl Errors Authn Topics Pat Auth Users Guards Http.
Import http.

Module users_http.
(** ** requests.go *)
Definition maxLimitSize : N := 100.
(** The functions of libraries. *)
Record validators := MkValidators { ParseAddress : string -> bool; url_Parse : string -> bool; passRegex : string -> bool }.
Section requests.
Context (v : validators).
(** src/users/users.go *)
Definition User_Validate (u : users.User) : error :=
  if_ negb (ParseAddress v (users.Email u)) return_ Some errs.ErrMalformedEntity ;;
  None.

Record createUserReq := MkCreateUserReq { cu_User : users.User }.
Definition createUserReq_validate (req : createUserReq) : error :=
  let u := cu_User req in
  let username := users.Username (users.Creds u) in
  if_ Nat.ltb MaxNameSize (String.length (users.FirstName u)) return_ Some apiutil.ErrNameSize ;;
  if_ Nat.ltb MaxNameSize (String.length (users.LastName u)) return_ Some apiutil.ErrNameSize ;;
  if_ users.FirstName u =s "" return_ Some apiutil.ErrMissingFirstName ;;
  if_ users.LastName u =s "" return_ Some apiutil.ErrMissingLastName ;;
  if_ username =s "" return_ Some apiutil.ErrMissingUsername ;;
  if_err ValidateUserName username return_ ValidateUserName username ;;
  if_ is_nil (ValidateEmail (ParseAddress v) username) return_ Some apiutil.ErrInvalidUsername ;;
  if_ users.Email u =s "" return_ Some apiutil.ErrMissingEmail ;;
  if_err ValidateEmail (ParseAddress v) (users.Email u) return_ ValidateEmail (ParseAddress v) (users.Email u) ;;
  if_ users.Secret (users.Creds u) =s "" return_ Some apiutil.ErrMissingPass ;;
  if_ negb (passRegex v (users.Secret (users.Creds u))) return_ Some apiutil.ErrPasswordFormat ;;
  if_ N.eqb (users.Status u) users.AllStatus return_ Some svcerr.ErrInvalidStatus ;;
  if_ (users.ProfilePicture u <>s "") && negb (url_Parse v (users.ProfilePicture u))
  return_ Some apiutil.ErrInvalidProfilePictureURL ;;
  User_Validate u.

Record sendVerificationReq := MkSendVerificationReq {}.
Record verifyEmailReq := MkVerifyEmailReq { ve_token : string }.
Definition verifyEmailReq_validate (req : verifyEmailReq) : error :=
  if_ ve_token req =s "" return_ Some apiutil.ErrInvalidVerification ;;
  None.
Record viewUserReq := MkViewUserReq { v_id : string }.
Definition viewUserReq_validate (req : viewUserReq) : error :=
  if_ v_id req =s "" return_ Some apiutil.ErrMissingID ;;
  None.

Record listUsersReq := MkListUsersReq {
  l_status : N; l_offset : N; l_limit : N; l_onlyTotal : bool; l_userName : string; l_tags : users.TagsQuery;
  l_firstName : string; l_lastName : string; l_email : string; l_metadata : Metadata; l_order : string; l_dir : string;
  l_id : string; l_createdFrom : Time; l_createdTo : Time }.
Definition listUsersReq_validate (req : listUsersReq) : error :=
  if_ N.ltb maxLimitSize (l_limit req) || N.ltb (l_limit req) 1 return_ Some apiutil.ErrLimitSize ;;
  if_ negb (existsb (String.eqb (l_order req)) [""; CreatedAtOrder; UpdatedAtOrder; FirstNameKey; LastNameKey; UsernameKey; EmailKey])
  return_ Some apiutil.ErrInvalidOrder ;;
  if_ (l_dir req <>s "") && ((l_dir req <>s AscDir) && (l_dir req <>s DescDir)) return_ Some apiutil.ErrInvalidDirection ;;
  None.
Record searchUsersReq := MkSearchUsersReq {
  s_Offset : N; s_Limit : N; s_Username : string; s_FirstName : string; s_LastName : string; s_Id : string;
  s_Order : string; s_Dir : string }.
Definition searchUsersReq_validate (req : searchUsersReq) : error :=
  if_ (s_Username req =s "") && (s_Id req =s "") && (s_FirstName req =s "") && (s_LastName req =s "")
  return_ Some apiutil.ErrEmptySearchQuery ;;
  None.
Record updateUserReq := MkUpdateUserReq {
  u_id : string; u_FirstName : option string; u_LastName : option string; u_Metadata : option Metadata;
  u_PrivateMetadata : option Metadata }.
Definition updateUserReq_validate (req : updateUserReq) : error :=
  if_ u_id req =s "" return_ Some apiutil.ErrMissingID ;;
  None.
Record updateUserTagsReq := MkUpdateUserTagsReq { ut_id : string; ut_Tags : option (list string) }.
Definition updateUserTagsReq_validate (req : updateUserTagsReq) : error :=
  if_ ut_id req =s "" return_ Some apiutil.ErrMissingID ;;
  None.
Record updateUserRoleReq := MkUpdateUserRoleReq { ur_id : string; ur_role : N; ur_Role : string }.
Definition updateUserRoleReq_validate (req : updateUserRoleReq) : error :=
  if_ ur_id req =s "" return_ Some apiutil.ErrMissingID ;;
  None.
Record updateEmailReq := MkUpdateEmailReq { ue_id : string; ue_Email : string }.
Definition updateEmailReq_validate (req : updateEmailReq) : error :=
  if_ ue_id req =s "" return_ Some apiutil.ErrMissingID ;;
  if_err ValidateEmail (ParseAddress v) (ue_Email req) return_ ValidateEmail (ParseAddress v) (ue_Email req) ;;
  None.
Record updateUserSecretReq := MkUpdateUserSecretReq { us_OldSecret : string; us_NewSecret : string }.
Definition updateUserSecretReq_validate (req : updateUserSecretReq) : error :=
  if_ (us_OldSecret req =s "") || (us_NewSecret req =s "") return_ Some apiutil.ErrMissingPass ;;
  if_ negb (passRegex v (us_NewSecret req)) return_ Some apiutil.ErrPasswordFormat ;;
  None.
Record updateUsernameReq := MkUpdateUsernameReq { un_id : string; un_Username : string }.
Definition updateUsernameReq_validate (req : updateUsernameReq) : error :=
  if_ un_id req =s "" return_ Some apiutil.ErrMissingID ;;
  if_ Nat.ltb MaxNameSize (String.length (un_Username req)) return_ Some apiutil.ErrNameSize ;;
  if_ un_Username req =s "" return_ Some apiutil.ErrMissingUsername ;;
  None.
Record updateProfilePictureReq := MkUpdateProfilePictureReq { up_id : string; up_ProfilePicture : option string }.
Definition updateProfilePictureReq_validate (req : updateProfilePictureReq) : error :=
  if_ up_id req =s "" return_ Some apiutil.ErrMissingID ;;
  match up_ProfilePicture req with
  | Some picture => if_ negb (url_Parse v picture) return_ Some apiutil.ErrInvalidProfilePictureURL ;; None
  | None => None
  end.
Record changeUserStatusReq := MkChangeUserStatusReq { st_id : string }.
Definition changeUserStatusReq_validate (req : changeUserStatusReq) : error :=
  if_ st_id req =s "" return_ Some apiutil.ErrMissingID ;;
  None.
Record loginUserReq := MkLoginUserReq { lo_Username : string; lo_Password : string; lo_Description : string }.
Definition loginUserReq_validate (req : loginUserReq) : error :=
  if_ lo_Username req =s "" return_ Some apiutil.ErrMissingUsernameEmail ;;
  if_ lo_Password req =s "" return_ Some apiutil.ErrMissingPass ;;
  None.
Record tokenReq := MkTokenReq { t_RefreshToken : string }.
Definition tokenReq_validate (req : tokenReq) : error :=
  if_ t_RefreshToken req =s "" return_ Some apiutil.ErrBearerToken ;;
  None.
Record revokeTokenReq := MkRevokeTokenReq { rv_TokenID : string }.
Definition revokeTokenReq_validate (req : revokeTokenReq) : error :=
  if_ rv_TokenID req =s "" return_ Some apiutil.ErrMissingID ;;
  None.
Record passResetReq := MkPassResetReq { pr_Email : string }.
Definition passResetReq_validate (req : passResetReq) : error :=
  if_ pr_Email req =s "" return_ Some apiutil.ErrMissingEmail ;;
  None.
Record resetTokenReq := MkResetTokenReq { rt_Password : string; rt_ConfPass : string }.
Definition resetTokenReq_validate (req : resetTokenReq) : error :=
  if_ rt_Password req =s "" return_ Some apiutil.ErrMissingPass ;;
  if_ rt_ConfPass req =s "" return_ Some apiutil.ErrMissingConfPass ;;
  if_ rt_Password req <>s rt_ConfPass req return_ Some apiutil.ErrInvalidResetPass ;;
  if_ negb (passRegex v (rt_ConfPass req)) return_ Some apiutil.ErrPasswordFormat ;;
  None.
End requests.

(** ** responses.go *)
Definition MailSent := "Email with reset link is sent".
Inductive response :=
| createUserRes (u : users.User) (created : bool)
| tokenRes (AccessToken RefreshToken AccessType : string)
| revokeRes
| listRefreshTokensRes (RefreshTokens : list users.RefreshTokenInfo)
| sendVerificationRes | verifyEmailRes
| updateUserRes (u : users.User)
| viewUserRes (u : users.User)
| usersPageRes (Limit Offset Total : N) (Users : list users.User)
| changeUserStatusRes (u : users.User)
| passResetReqRes (Msg : string)
| passChangeRes
| deleteUserRes (deleted : bool).
Definition response_Code (res : response) : Z :=
  match res with
  | createUserRes _ created => if created then StatusCreated else StatusOK
  | tokenRes _ _ _ | passResetReqRes _ | passChangeRes => StatusCreated
  | revokeRes => StatusNoContent
  | deleteUserRes deleted => if deleted then StatusNoContent else StatusOK
  | listRefreshTokensRes _ | sendVerificationRes | verifyEmailRes | updateUserRes _ | viewUserRes _ | usersPageRes _ _ _ _
  | changeUserStatusRes _ => StatusOK
  end.
Definition response_Headers (res : response) : list (string * string) :=
  match res with
  | createUserRes u created => if created then [("Location", "/users/" +:+ users.ID u)] else []
  | _ => []
  end.
Definition response_Empty (res : response) : bool :=
  match res with
  | tokenRes access refresh _ => (access =s "") || (refresh =s "")
  | revokeRes | sendVerificationRes | verifyEmailRes | deleteUserRes _ => true
  | _ => false
  end.
#[export] Instance users_response : Response response :=
  { Code := response_Code; Headers := response_Headers; Empty := response_Empty }.

(** ** users.go, the decoders *)
Section decode.
Context (unmarshal : string -> err + Metadata) (Quote : string -> string) {B : Type}.
Context `{!Unmarshal B createUserReq} `{!Unmarshal B revokeTokenReq} `{!Unmarshal B updateEmailReq}
  `{!Unmarshal B updateUserSecretReq} `{!Unmarshal B updateUserReq} `{!Unmarshal B updateUsernameReq}
  `{!Unmarshal B updateProfilePictureReq} `{!Unmarshal B updateUserTagsReq} `{!Unmarshal B updateUserRoleReq}
  `{!Unmarshal B resetTokenReq} `{!Unmarshal B loginUserReq} `{!Unmarshal B passResetReq}.
Definition decodeSendVerification (r : Request) (_ : B) : error + sendVerificationReq := inr MkSendVerificationReq.
Definition decodeVerifyEmail (r : Request) (_ : B) : error + verifyEmailReq :=
  token <-? ReadStringQuery r TokenKey "" ;;
  inr (MkVerifyEmailReq token).
Definition decodeViewUser (r : Request) (_ : B) : error + viewUserReq := inr (MkViewUserReq (URLParam r "id")).
Definition decodeViewProfile (r : Request) (_ : B) : error + () := inr ().
Definition decodeListUsers (r : Request) (_ : B) : error + listUsersReq :=
  s <-? ReadStringQuery r StatusKey users.Enabled ;;
  o <-? ReadNumQuery Quote Uint64 r OffsetKey DefOffset ;;
  l <-? ReadNumQuery Quote Uint64 r LimitKey DefLimit ;;
  m <-? ReadMetadataQuery unmarshal r MetadataKey None ;;
  n <-? ReadStringQuery r UsernameKey "" ;;
  d <-? ReadStringQuery r EmailKey "" ;;
  i <-? ReadStringQuery r FirstNameKey "" ;;
  f <-? ReadStringQuery r LastNameKey "" ;;
  t <-? ReadStringQuery r TagsKey "" ;;
  let tq := if t <>s "" then users.ToTagsQuery t else users.MkTagsQuery [] 0 in
  order <-? ReadStringQuery r OrderKey DefOrder ;;
  dir <-? ReadStringQuery r DirKey DefDir ;;
  id <-? ReadStringQuery r IDOrder "" ;;
  st <-? (let '(st, err) := users.ToStatus s in if_err err return_ inl err ;; inr st) ;;
  ot <-? ReadBoolQuery Quote r OnlyTotal false ;;
  cfrom <-? ReadStringQuery r "created_from" "" ;;
  cto <-? ReadStringQuery r "created_to" "" ;;
  createdFrom <-! readTime cfrom ;;
  createdTo <-! readTime cto ;;
  inr (MkListUsersReq st (Z.to_N o) (Z.to_N l) ot n tq i f d m order dir id createdFrom createdTo).
Definition decodeSearchUsers (r : Request) (_ : B) : error + searchUsersReq :=
  o <-? ReadNumQuery Quote Uint64 r OffsetKey DefOffset ;;
  l <-? ReadNumQuery Quote Uint64 r LimitKey DefLimit ;;
  n <-? ReadStringQuery r UsernameKey "" ;;
  f <-? ReadStringQuery r FirstNameKey "" ;;
  e <-? ReadStringQuery r LastNameKey "" ;;
  id <-? ReadStringQuery r IDOrder "" ;;
  order <-? ReadStringQuery r OrderKey DefOrder ;;
  dir <-? ReadStringQuery r DirKey DefDir ;;
  if_ existsb (fun field => (field <>s "") && Nat.ltb (String.length field) 3) [n; id]
  return_ inl (WrapE apiutil.ErrLenSearchQuery (Some apiutil.ErrValidation)) ;;
  inr (MkSearchUsersReq (Z.to_N o) (Z.to_N l) n f e id order dir).
Definition decodeUpdateUser (r : Request) (b : B) : error + updateUserReq :=
  decodeBody r (MkUpdateUserReq (URLParam r "id") None None None None) b.
Definition decodeUpdateUserTags (r : Request) (b : B) : error + updateUserTagsReq :=
  decodeBody r (MkUpdateUserTagsReq (URLParam r "id") None) b.
Definition decodeUpdateUserEmail (r : Request) (b : B) : error + updateEmailReq :=
  decodeBody r (MkUpdateEmailReq (URLParam r "id") "") b.
Definition decodeUpdateUserSecret (r : Request) (b : B) : error + updateUserSecretReq :=
  decodeBody r (MkUpdateUserSecretReq "" "") b.
Definition decodeUpdateUsername (r : Request) (b : B) : error + updateUsernameReq :=
  decodeBody r (MkUpdateUsernameReq (URLParam r "id") "") b.
Definition decodeUpdateUserProfilePicture (r : Request) (b : B) : error + updateProfilePictureReq :=
  decodeBody r (MkUpdateProfilePictureReq (URLParam r "id") None) b.
Definition decodePasswordResetRequest (r : Request) (b : B) : error + passResetReq :=
  if_ negb (GoStd.Contains (ContentTypeHeader r) ContentType) return_ inl (Some apiutil.ErrUnsupportedContentType) ;;
  decodeJSON (MkPassResetReq "") b.
Definition decodePasswordReset (r : Request) (b : B) : error + resetTokenReq := decodeBody r (MkResetTokenReq "" "") b.
Definition decodeUpdateUserRole (r : Request) (b : B) : error + updateUserRoleReq :=
  req <-! decodeBody r (MkUpdateUserRoleReq (URLParam r "id") 0 "") b ;;
  let '(role, err) := users.ToRole (ur_Role req) in
  if_err err return_ inl err ;;
  inr (MkUpdateUserRoleReq (ur_id req) role (ur_Role req)).
Definition decodeCredentials (r : Request) (b : B) : error + loginUserReq := decodeBody r (MkLoginUserReq "" "" "") b.
Definition decodeRefreshToken (r : Request) (_ : B) : error + tokenReq :=
  if_ negb (GoStd.Contains (ContentTypeHeader r) ContentType)
  return_ inl (WrapE apiutil.ErrValidation (Some apiutil.ErrUnsupportedContentType)) ;;
  inr (MkTokenReq (ExtractBearerToken r)).
Definition decodeRevokeRefreshToken (r : Request) (b : B) : error + revokeTokenReq := decodeBody r (MkRevokeTokenReq "") b.
Definition decodeListActiveRefreshTokens (r : Request) (_ : B) : error + () := inr ().
Definition decodeCreateUserReq (r : Request) (b : B) : error + createUserReq := decodeBody r (MkCreateUserReq users.User0) b.
Definition decodeChangeUserStatus (r : Request) (_ : B) : error + changeUserStatusReq := inr (MkChangeUserStatusReq (URLParam r "id")).
End decode.

(** ** endpoints.go *)
Section endpoints.
Context (v : validators) {W : Type} (svc : users_mw.Service W).

Definition registrationEndpoint (selfRegister : bool) (ctx : option authn.Session) (req : createUserReq) : St W (option (error + response)) :=
  if_err createUserReq_validate v req return_ pret (inl (WrapE apiutil.ErrValidation (createUserReq_validate v req))) ;;
  session <-ctx (if selfRegister then Some authn.Session0 else ctx) or_return pret (inl (Some svcerr.ErrAuthentication)) ;;
  '(user, err) <~ call (users_mw.svc_Register svc session (cu_User req) selfRegister) ;;
  if_err err return_ pret (inl err) ;;
  pret (inr (createUserRes user true)).
Definition sendVerificationEndpoint (ctx : option authn.Session) (_ : sendVerificationReq) : St W (option (error + response)) :=
  session <-ctx ctx or_return pret (inl (Some svcerr.ErrAuthentication)) ;;
  err <~ call (users_mw.svc_SendVerification svc session) ;;
  if_err err return_ pret (inl err) ;;
  pret (inr sendVerificationRes).
Definition verifyEmailEndpoint (_ : option authn.Session) (req : verifyEmailReq) : St W (option (error + response)) :=
  if_err verifyEmailReq_validate req return_ pret (inl (WrapE apiutil.ErrValidation (verifyEmailReq_validate req))) ;;
  '(_, err) <~ call (users_mw.svc_VerifyEmail svc (ve_token req)) ;;
  if_err err return_ pret (inl err) ;;
  pret (inr verifyEmailRes).
Definition viewEndpoint (ctx : option authn.Session) (req : viewUserReq) : St W (option (error + response)) :=
  if_err viewUserReq_validate req return_ pret (inl (WrapE apiutil.ErrValidation (viewUserReq_validate req))) ;;
  session <-ctx ctx or_return pret (inl (Some svcerr.ErrAuthentication)) ;;
  '(user, err) <~ call (users_mw.svc_View svc session (v_id req)) ;;
  if_err err return_ pret (inl err) ;;
  pret (inr (viewUserRes user)).
Definition viewProfileEndpoint (ctx : option authn.Session) (_ : ()) : St W (option (error + response)) :=
  session <-ctx ctx or_return pret (inl (Some svcerr.ErrAuthentication)) ;;
  '(client, err) <~ call (users_mw.svc_ViewProfile svc session) ;;
  if_err err return_ pret (inl err) ;;
  pret (inr (viewUserRes client)).
Definition listUsersEndpoint (ctx : option authn.Session) (req : listUsersReq) : St W (option (error + response)) :=
  if_err listUsersReq_validate req return_ pret (inl (WrapE apiutil.ErrValidation (listUsersReq_validate req))) ;;
  session <-ctx ctx or_return pret (inl (Some svcerr.ErrAuthentication)) ;;
  '(page, err) <~ call (users_mw.svc_ListUsers svc session (users.Page0 <| users.p_Status := l_status req |>
    <| users.Offset := l_offset req |> <| users.Limit := l_limit req |> <| users.OnlyTotal := l_onlyTotal req |>
    <| users.p_Username := l_userName req |> <| users.p_Tags := l_tags req |> <| users.p_Metadata := l_metadata req |>
    <| users.p_FirstName := l_firstName req |> <| users.p_LastName := l_lastName req |> <| users.p_Email := l_email req |>
    <| users.Order := l_order req |> <| users.Dir := l_dir req |> <| users.p_Id := l_id req |>
    <| users.CreatedFrom := l_createdFrom req |> <| users.CreatedTo := l_createdTo req |>)) ;;
  if_err err return_ pret (inl err) ;;
  let pm := users.up_Page page in
  pret (inr (usersPageRes (users.Limit pm) (users.Offset pm) (users.Total pm) (users.Users page))).
Definition searchUsersEndpoint (_ : option authn.Session) (req : searchUsersReq) : St W (option (error + response)) :=
  if_err searchUsersReq_validate req return_ pret (inl (WrapE apiutil.ErrValidation (searchUsersReq_validate req))) ;;
  '(page, err) <~ call (users_mw.svc_SearchUsers svc (users.Page0 <| users.Offset := s_Offset req |> <| users.Limit := s_Limit req |>
    <| users.p_Username := s_Username req |> <| users.p_FirstName := s_FirstName req |> <| users.p_LastName := s_LastName req |>
    <| users.p_Id := s_Id req |> <| users.Order := s_Order req |> <| users.Dir := s_Dir req |>)) ;;
  if_err err return_ pret (inl err) ;;
  let pm := users.up_Page page in
  pret (inr (usersPageRes (users.Limit pm) (users.Offset pm) (users.Total pm) (users.Users page))).
Definition updateEndpoint (ctx : option authn.Session) (req : updateUserReq) : St W (option (error + response)) :=
  if_err updateUserReq_validate req return_ pret (inl (WrapE apiutil.ErrValidation (updateUserReq_validate req))) ;;
  session <-ctx ctx or_return pret (inl (Some svcerr.ErrAuthentication)) ;;
  '(user, err) <~ call (users_mw.svc_Update svc session (u_id req) (users.UserReq0 <| users.r_FirstName := u_FirstName req |>
    <| users.r_LastName := u_LastName req |> <| users.r_Metadata := u_Metadata req |> <| users.r_PrivateMetadata := u_PrivateMetadata req |>)) ;;
  if_err err return_ pret (inl err) ;;
  pret (inr (updateUserRes user)).
Definition updateTagsEndpoint (ctx : option authn.Session) (req : updateUserTagsReq) : St W (option (error + response)) :=
  if_err updateUserTagsReq_validate req return_ pret (inl (WrapE apiutil.ErrValidation (updateUserTagsReq_validate req))) ;;
  session <-ctx ctx or_return pret (inl (Some svcerr.ErrAuthentication)) ;;
  '(user, err) <~ call (users_mw.svc_UpdateTags svc session (ut_id req) (users.UserReq0 <| users.r_Tags := ut_Tags req |>)) ;;
  if_err err return_ pret (inl err) ;;
  pret (inr (updateUserRes user)).
Definition updateEmailEndpoint (ctx : option authn.Session) (req : updateEmailReq) : St W (option (error + response)) :=
  if_err updateEmailReq_validate v req return_ pret (inl (WrapE apiutil.ErrValidation (updateEmailReq_validate v req))) ;;
  session <-ctx ctx or_return pret (inl (Some svcerr.ErrAuthentication)) ;;
  '(user, err) <~ call (users_mw.svc_UpdateEmail svc session (ue_id req) (ue_Email req)) ;;
  if_err err return_ pret (inl err) ;;
  pret (inr (updateUserRes user)).
Definition passwordResetRequestEndpoint (_ : option authn.Session) (req : passResetReq) : St W (option (error + response)) :=
  if_err passResetReq_validate req return_ pret (inl (WrapE apiutil.ErrValidation (passResetReq_validate req))) ;;
  err <~ call (users_mw.svc_SendPasswordReset svc (pr_Email req)) ;;
  if_err err return_ pret (inl err) ;;
  pret (inr (passResetReqRes MailSent)).
Definition passwordResetEndpoint (ctx : option authn.Session) (req : resetTokenReq) : St W (option (error + response)) :=
  if_err resetTokenReq_validate v req return_ pret (inl (WrapE apiutil.ErrValidation (resetTokenReq_validate v req))) ;;
  session <-ctx ctx or_return pret (inl (Some svcerr.ErrAuthentication)) ;;
  err <~ call (users_mw.svc_ResetSecret svc session (rt_Password req)) ;;
  if_err err return_ pret (inl err) ;;
  pret (inr passChangeRes).
Definition updateSecretEndpoint (ctx : option authn.Session) (req : updateUserSecretReq) : St W (option (error + response)) :=
  if_err updateUserSecretReq_validate v req return_ pret (inl (WrapE apiutil.ErrValidation (updateUserSecretReq_validate v req))) ;;
  session <-ctx ctx or_return pret (inl (Some svcerr.ErrAuthentication)) ;;
  '(user, err) <~ call (users_mw.svc_UpdateSecret svc session (us_OldSecret req) (us_NewSecret req)) ;;
  if_err err return_ pret (inl err) ;;
  pret (inr (updateUserRes user)).
Definition updateUsernameEndpoint (ctx : option authn.Session) (req : updateUsernameReq) : St W (option (error + response)) :=
  if_err updateUsernameReq_validate req return_ pret (inl (WrapE apiutil.ErrValidation (updateUsernameReq_validate req))) ;;
  session <-ctx ctx or_return pret (inl (Some svcerr.ErrAuthorization)) ;;
  '(user, err) <~ call (users_mw.svc_UpdateUsername svc session (un_id req) (un_Username req)) ;;
  if_err err return_ pret (inl err) ;;
  pret (inr (updateUserRes user)).
Definition updateProfilePictureEndpoint (ctx : option authn.Session) (req : updateProfilePictureReq) : St W (option (error + response)) :=
  if_err updateProfilePictureReq_validate v req return_ pret (inl (WrapE apiutil.ErrValidation (updateProfilePictureReq_validate v req))) ;;
  session <-ctx ctx or_return pret (inl (Some svcerr.ErrAuthorization)) ;;
  '(user, err) <~ call (users_mw.svc_UpdateProfilePicture svc session (up_id req) (users.UserReq0 <| users.r_ProfilePicture := up_ProfilePicture req |>)) ;;
  if_err err return_ pret (inl err) ;;
  pret (inr (updateUserRes user)).
Definition updateRoleEndpoint (ctx : option authn.Session) (req : updateUserRoleReq) : St W (option (error + response)) :=
  if_err updateUserRoleReq_validate req return_ pret (inl (WrapE apiutil.ErrValidation (updateUserRoleReq_validate req))) ;;
  session <-ctx ctx or_return pret (inl (Some svcerr.ErrAuthentication)) ;;
  '(user, err) <~ call (users_mw.svc_UpdateRole svc session (users.User0 <| users.ID := ur_id req |> <| users.Role := ur_role req |>)) ;;
  if_err err return_ pret (inl err) ;;
  pret (inr (updateUserRes user)).
(** The getters of a message: an absent refresh token is empty. *)
Definition toTokenRes (token : users.Token) : response :=
  tokenRes (users.AccessToken token) (match users.RefreshToken_ token with Some t => t | None => "" end) (users.AccessType token).
Definition issueTokenEndpoint (_ : option authn.Session) (req : loginUserReq) : St W (option (error + response)) :=
  if_err loginUserReq_validate req return_ pret (inl (WrapE apiutil.ErrValidation (loginUserReq_validate req))) ;;
  '(token, err) <~ call (users_mw.svc_IssueToken svc (lo_Username req) (lo_Password req) (lo_Description req)) ;;
  if_err err return_ pret (inl err) ;;
  pret (inr (toTokenRes token)).
Definition refreshTokenEndpoint (ctx : option authn.Session) (req : tokenReq) : St W (option (error + response)) :=
  if_err tokenReq_validate req return_ pret (inl (WrapE apiutil.ErrValidation (tokenReq_validate req))) ;;
  session <-ctx ctx or_return pret (inl (Some svcerr.ErrAuthentication)) ;;
  '(token, err) <~ call (users_mw.svc_RefreshToken svc session (t_RefreshToken req)) ;;
  if_err err return_ pret (inl err) ;;
  pret (inr (toTokenRes token)).
Definition revokeRefreshTokenEndpoint (ctx : option authn.Session) (req : revokeTokenReq) : St W (option (error + response)) :=
  if_err revokeTokenReq_validate req return_ pret (inl (WrapE apiutil.ErrValidation (revokeTokenReq_validate req))) ;;
  session <-ctx ctx or_return pret (inl (Some svcerr.ErrAuthentication)) ;;
  err <~ call (users_mw.svc_RevokeRefreshToken svc session (rv_TokenID req)) ;;
  if_err err return_ pret (inl err) ;;
  pret (inr revokeRes).
Definition listActiveRefreshTokensEndpoint (ctx : option authn.Session) (_ : ()) : St W (option (error + response)) :=
  session <-ctx ctx or_return pret (inl (Some svcerr.ErrAuthentication)) ;;
  '(refreshTokens, err) <~ call (users_mw.svc_ListActiveRefreshTokens svc session) ;;
  if_err err return_ pret (inl err) ;;
  pret (inr (listRefreshTokensRes refreshTokens)).
Definition enableEndpoint (ctx : option authn.Session) (req : changeUserStatusReq) : St W (option (error + response)) :=
  if_err changeUserStatusReq_validate req return_ pret (inl (WrapE apiutil.ErrValidation (changeUserStatusReq_validate req))) ;;
  session <-ctx ctx or_return pret (inl (Some svcerr.ErrAuthentication)) ;;
  '(user, err) <~ call (users_mw.svc_Enable svc session (st_id req)) ;;
  if_err err return_ pret (inl err) ;;
  pret (inr (changeUserStatusRes user)).
Definition disableEndpoint (ctx : option authn.Session) (req : changeUserStatusReq) : St W (option (error + response)) :=
  if_err changeUserStatusReq_validate req return_ pret (inl (WrapE apiutil.ErrValidation (changeUserStatusReq_validate req))) ;;
  session <-ctx ctx or_return pret (inl (Some svcerr.ErrAuthentication)) ;;
  '(user, err) <~ call (users_mw.svc_Disable svc session (st_id req)) ;;
  if_err err return_ pret (inl err) ;;
  pret (inr (changeUserStatusRes user)).
Definition deleteEndpoint (ctx : option authn.Session) (req : changeUserStatusReq) : St W (option (error + response)) :=
  if_err changeUserStatusReq_validate req return_ pret (inl (WrapE apiutil.ErrValidation (changeUserStatusReq_validate req))) ;;
  session <-ctx ctx or_return pret (inl (Some svcerr.ErrAuthentication)) ;;
  err <~ call (users_mw.svc_Delete svc session (st_id req)) ;;
  if_err err return_ pret (inl err) ;;
  pret (inr (deleteUserRes true)).
End endpoints.

(** ** users.go, the routes *)
Section transport.
Context (v : validators) {W : Type} (svc : users_mw.Service W) (selfRegister : bool).
Context (unmarshal : string -> err + Metadata) (Quote : string -> string) {B : Type}.
Context `{!Unmarshal B createUserReq} `{!Unmarshal B revokeTokenReq} `{!Unmarshal B updateEmailReq}
  `{!Unmarshal B updateUserSecretReq} `{!Unmarshal B updateUserReq} `{!Unmarshal B updateUsernameReq}
  `{!Unmarshal B updateProfilePictureReq} `{!Unmarshal B updateUserTagsReq} `{!Unmarshal B updateUserRoleReq}
  `{!Unmarshal B resetTokenReq} `{!Unmarshal B loginUserReq} `{!Unmarshal B passResetReq}.
Definition usersHandler : list (route W B response) :=
  [ MkRoute POST "/users/" (handle decodeCreateUserReq (registrationEndpoint v svc selfRegister));
    MkRoute POST "/users/send-verification" (handle decodeSendVerification (sendVerificationEndpoint svc));
    MkRoute GET "/users/profile" (handle decodeViewProfile (viewProfileEndpoint svc));
    MkRoute POST "/users/tokens/refresh" (handle decodeRefreshToken (refreshTokenEndpoint svc));
    MkRoute POST "/users/tokens/revoke" (handle decodeRevokeRefreshToken (revokeRefreshTokenEndpoint svc));
    MkRoute GET "/users/tokens/refresh-tokens" (handle decodeListActiveRefreshTokens (listActiveRefreshTokensEndpoint svc));
    MkRoute PATCH "/users/{id}/email" (handle decodeUpdateUserEmail (updateEmailEndpoint v svc));
    MkRoute GET "/users/{id}" (handle decodeViewUser (viewEndpoint svc));
    MkRoute GET "/users/" (handle (decodeListUsers unmarshal Quote) (listUsersEndpoint svc));
    MkRoute GET "/users/search" (handle (decodeSearchUsers Quote) (searchUsersEndpoint svc));
    MkRoute PATCH "/users/secret" (handle decodeUpdateUserSecret (updateSecretEndpoint v svc));
    MkRoute PATCH "/users/{id}" (handle decodeUpdateUser (updateEndpoint svc));
    MkRoute PATCH "/users/{id}/username" (handle decodeUpdateUsername (updateUsernameEndpoint svc));
    MkRoute PATCH "/users/{id}/picture" (handle decodeUpdateUserProfilePicture (updateProfilePictureEndpoint v svc));
    MkRoute PATCH "/users/{id}/tags" (handle decodeUpdateUserTags (updateTagsEndpoint svc));
    MkRoute PATCH "/users/{id}/role" (handle decodeUpdateUserRole (updateRoleEndpoint svc));
    MkRoute POST "/users/{id}/enable" (handle decodeChangeUserStatus (enableEndpoint svc));
    MkRoute POST "/users/{id}/disable" (handle decodeChangeUserStatus (disableEndpoint svc));
    MkRoute DELETE "/users/{id}" (handle decodeChangeUserStatus (deleteEndpoint svc));
    MkRoute PUT "/password/reset" (handle decodePasswordReset (passwordResetEndpoint v svc));
    MkRoute POST "/users/tokens/issue" (handle decodeCredentials (issueTokenEndpoint svc));
    MkRoute POST "/password/reset-request" (handle decodePasswordResetRequest (passwordResetRequestEndpoint svc));
    MkRoute GET "/verify-email" (handle decodeVerifyEmail (verifyEmailEndpoint svc))].

(** *** OAuth: pkg/oauth2 is the provider *)
Record Provider := {
  Name : string; State : string; RedirectURL : string; ErrorURL : string; IsEnabled : bool;
  Exchange : string -> St W (string * error); UserInfo : string -> St W (users.User * error) }.
(** Where the browser is sent, and with what cookies. *)
Record redirect := Redirect { url : string; rd_status : Z; cookies : list (string * string) }.
Definition StatusFound : Z := 302.
Definition StatusSeeOther : Z := 303.
Definition oauth2CallbackHandler (oauth : Provider) (tokenClient : users.TokenServiceClient W) (FormValue : string -> string)
    : St W (option redirect) :=
  let failed (msg : string) := pret (Redirect (ErrorURL oauth +:+ "?error=" +:+ msg) StatusSeeOther []) in
  if_ negb (IsEnabled oauth) return_ failed "oauth%20provider%20is%20disabled" ;;
  if_ FormValue "state" <>s State oauth return_ failed "invalid%20state" ;;
  let code := FormValue "code" in
  if code <>s "" then
    '(token, err) <~ call (Exchange oauth code) ;;
    match err with Some e => failed (Error e) | None =>
    '(user, err) <~ call (UserInfo oauth token) ;;
    match err with Some e => failed (Error e) | None =>
    let user := user <| users.AuthProvider := Name oauth |> in
    let user := if users.AuthProvider user =s "" then user <| users.AuthProvider := "oauth" |> else user in
    '(user, err) <~ users_mw.svc_OAuthCallback svc user ;;
    match err with Some e => failed (Error e) | None =>
    err <~ call (users_mw.svc_OAuthAddUserPolicy svc user) ;;
    match err with Some e => failed (Error e) | None =>
    '(jwt, err) <~ call (users.token_Issue tokenClient
       (users.MkIssueReq (users.ID user) keys.UserRole keys.AccessKey (negb (IsZero (users.VerifiedAt user))) "")) ;;
    match err with Some e => failed (Error e) | None =>
    pret (Redirect (RedirectURL oauth) StatusFound
      [("access_token", users.AccessToken jwt); ("refresh_token", match users.RefreshToken_ jwt with Some t => t | None => "" end)])
    end end end end end
  else failed "empty%20code".
End transport.
End users_http.

(** ** What reaches the service *)
Module users_http_theory.
Import http_theory users_http.
Section theory.
Context (v : validators) {W : Type} (svc svc' : users_mw.Service W) (selfRegister : bool).
Definition user_ok (u : users.User) : Prop :=
  name_ok (users.FirstName u) /\ users.FirstName u <> "" /\ name_ok (users.LastName u) /\ users.LastName u <> ""
  /\ ValidateUserName (users.Username (users.Creds u)) = None /\ ParseAddress v (users.Username (users.Creds u)) = false
  /\ ParseAddress v (users.Email u) = true /\ passRegex v (users.Secret (users.Creds u)) = true
  /\ users.Status u <> users.AllStatus /\ (users.ProfilePicture u = "" \/ url_Parse v (users.ProfilePicture u) = true).
Definition page_ok (pm : users.Page) : Prop :=
  limit_ok (users.Limit pm) /\ dir_ok (users.Dir pm)
  /\ users.Order pm ∈ [""; "created_at"; "updated_at"; "first_name"; "last_name"; "username"; "email"].
Record agree : Prop := {
  agree_SendVerification : forall s, users_mw.svc_SendVerification svc s = users_mw.svc_SendVerification svc' s;
  agree_VerifyEmail : forall t, t <> "" -> users_mw.svc_VerifyEmail svc t = users_mw.svc_VerifyEmail svc' t;
  (** Whoever registers without a session has the one of nobody. *)
  agree_Register : forall s u, user_ok u -> (selfRegister = true -> s = authn.Session0) ->
    users_mw.svc_Register svc s u selfRegister = users_mw.svc_Register svc' s u selfRegister;
  agree_View : forall s id, id <> "" -> users_mw.svc_View svc s id = users_mw.svc_View svc' s id;
  agree_ViewProfile : forall s, users_mw.svc_ViewProfile svc s = users_mw.svc_ViewProfile svc' s;
  agree_ListUsers : forall s pm, page_ok pm -> users_mw.svc_ListUsers svc s pm = users_mw.svc_ListUsers svc' s pm;
  agree_SearchUsers : forall pm,
    users.p_Username pm <> "" \/ users.p_Id pm <> "" \/ users.p_FirstName pm <> "" \/ users.p_LastName pm <> "" ->
    users_mw.svc_SearchUsers svc pm = users_mw.svc_SearchUsers svc' pm;
  agree_Update : forall s id u, id <> "" -> users_mw.svc_Update svc s id u = users_mw.svc_Update svc' s id u;
  agree_UpdateTags : forall s id u, id <> "" -> users_mw.svc_UpdateTags svc s id u = users_mw.svc_UpdateTags svc' s id u;
  agree_UpdateEmail : forall s id email, id <> "" -> ParseAddress v email = true ->
    users_mw.svc_UpdateEmail svc s id email = users_mw.svc_UpdateEmail svc' s id email;
  agree_UpdateUsername : forall s id name, id <> "" -> name <> "" -> name_ok name ->
    users_mw.svc_UpdateUsername svc s id name = users_mw.svc_UpdateUsername svc' s id name;
  agree_UpdateProfilePicture : forall s id u, id <> "" ->
    (forall picture, users.r_ProfilePicture u = Some picture -> url_Parse v picture = true) ->
    users_mw.svc_UpdateProfilePicture svc s id u = users_mw.svc_UpdateProfilePicture svc' s id u;
  agree_SendPasswordReset : forall email, email <> "" ->
    users_mw.svc_SendPasswordReset svc email = users_mw.svc_SendPasswordReset svc' email;
  agree_UpdateSecret : forall s old new, old <> "" -> new <> "" -> passRegex v new = true ->
    users_mw.svc_UpdateSecret svc s old new = users_mw.svc_UpdateSecret svc' s old new;
  agree_ResetSecret : forall s new, new <> "" -> passRegex v new = true ->
    users_mw.svc_ResetSecret svc s new = users_mw.svc_ResetSecret svc' s new;
  agree_UpdateRole : forall s u, users.ID u <> "" -> users_mw.svc_UpdateRole svc s u = users_mw.svc_UpdateRole svc' s u;
  agree_Enable : forall s id, id <> "" -> users_mw.svc_Enable svc s id = users_mw.svc_Enable svc' s id;
  agree_Disable : forall s id, id <> "" -> users_mw.svc_Disable svc s id = users_mw.svc_Disable svc' s id;
  agree_Delete : forall s id, id <> "" -> users_mw.svc_Delete svc s id = users_mw.svc_Delete svc' s id;
  agree_IssueToken : forall name password d, name <> "" -> password <> "" ->
    users_mw.svc_IssueToken svc name password d = users_mw.svc_IssueToken svc' name password d;
  agree_RefreshToken : forall s t, t <> "" -> users_mw.svc_RefreshToken svc s t = users_mw.svc_RefreshToken svc' s t;
  agree_RevokeRefreshToken : forall s t, t <> "" -> users_mw.svc_RevokeRefreshToken svc s t = users_mw.svc_RevokeRefreshToken svc' s t;
  agree_ListActiveRefreshTokens : forall s, users_mw.svc_ListActiveRefreshTokens svc s = users_mw.svc_ListActiveRefreshTokens svc' s }.

Lemma createUserReq_ok req : createUserReq_validate v req = None -> user_ok (cu_User req).
Proof.
  unfold createUserReq_validate, user_ok, User_Validate, ValidateEmail. intros H.
  apply guard_ok in H as [F H]. apply guard_ok in H as [L H]. apply name_test_ok in F, L.
  do 3 (apply guard_ok in H as [? H]). destruct (ValidateUserName _) eqn:U; [done|].
  apply guard_ok in H as [A H]. apply guard_ok in H as [_ H].
  destruct (ParseAddress v (users.Email _)); [cbn in H|done].
  do 4 (apply guard_ok in H as [? H]). go_bool.
  assert (P : users.ProfilePicture (cu_User req) = "" \/ url_Parse v (users.ProfilePicture (cu_User req)) = true).
  { match goal with P : _ && negb _ = false |- _ => apply andb_false_iff in P as [P|P]; go_bool; auto end. }
  destruct (ParseAddress v (users.Username _)); [done|]. repeat match goal with E : N.eqb _ _ = false |- _ => apply N.eqb_neq in E end.
  split_and!; done.
Qed.
Lemma listUsersReq_ok req : listUsersReq_validate req = None ->
  limit_ok (l_limit req) /\ dir_ok (l_dir req)
  /\ l_order req ∈ [""; "created_at"; "updated_at"; "first_name"; "last_name"; "username"; "email"].
Proof.
  unfold listUsersReq_validate. intros H. apply guard_ok in H as [L H]. apply guard_ok in H as [O H]. apply guard_ok in H as [D _].
  split; [by apply limit_test_ok|]. split.
  - apply dir_test_ok. by rewrite (andb_comm (_ <>s DescDir)).
  - apply negb_false_iff, existsb_exists in O as (o&I&E). go_bool. subst o. by apply list_elem_of_In.
Qed.
Lemma searchUsersReq_ok req : searchUsersReq_validate req = None ->
  s_Username req <> "" \/ s_Id req <> "" \/ s_FirstName req <> "" \/ s_LastName req <> "".
Proof.
  unfold searchUsersReq_validate. intros H. apply guard_ok in H as [H _]. repeat (apply andb_false_iff in H as [H|H]); go_bool; auto.
Qed.
Lemma updateProfilePictureReq_ok req : updateProfilePictureReq_validate v req = None ->
  up_id req <> "" /\ forall picture, up_ProfilePicture req = Some picture -> url_Parse v picture = true.
Proof.
  unfold updateProfilePictureReq_validate. intros H. apply guard_ok in H as [I H]. go_bool. split; [done|].
  intros picture E. rewrite E in H. guards H. done.
Qed.
(** The endpoints that need no session. *)
Lemma open_endpoint_agree {A R} (check : error) (reject : St W (option (error + R))) (f f' : St W A) (k : A -> St W (option (error + R))) :
  (check = None -> f = f') ->
  (if_err check return_ reject ;; x <~ call f ;; k x) = (if_err check return_ reject ;; x <~ call f' ;; k x).
Proof. intros H. destruct check; [done|]. by rewrite H. Qed.

Context (unmarshal : string -> err + Metadata) (Quote : string -> string) {B : Type}.
Context `{!Unmarshal B createUserReq} `{!Unmarshal B revokeTokenReq} `{!Unmarshal B updateEmailReq}
  `{!Unmarshal B updateUserSecretReq} `{!Unmarshal B updateUserReq} `{!Unmarshal B updateUsernameReq}
  `{!Unmarshal B updateProfilePictureReq} `{!Unmarshal B updateUserTagsReq} `{!Unmarshal B updateUserRoleReq}
  `{!Unmarshal B resetTokenReq} `{!Unmarshal B loginUserReq} `{!Unmarshal B passResetReq}.
(** Over HTTP the users service is only called with admissible arguments. *)
Theorem users_called_admissibly : agree ->
  Forall2 same_route (usersHandler v svc selfRegister unmarshal Quote (B := B)) (usersHandler v svc' selfRegister unmarshal Quote (B := B)).
Proof.
  intros [SV VE RG VI VP LU SU UP UT UE UN PP PR US RS UR EN DI DE IT RT RV LT]. unfold usersHandler.
  repeat constructor; apply same_handle; intros ctx req.
  { unfold registrationEndpoint. destruct (createUserReq_validate v req) eqn:V; [done|]. apply createUserReq_ok in V.
    destruct selfRegister; [by rewrite RG|]. destruct ctx; [by rewrite RG|done]. }
  1: unfold sendVerificationEndpoint; destruct ctx; [by rewrite SV|done].
  1: unfold viewProfileEndpoint; destruct ctx; [by rewrite VP|done].
  3: unfold listActiveRefreshTokensEndpoint; destruct ctx; [by rewrite LT|done].
  all: try (apply open_endpoint_agree; intros H); try (apply endpoint_agree; intros H s).
  all: try (guards H; eauto; fail).
  - unfold updateEmailReq_validate, ValidateEmail in H. apply guard_ok in H as [I H]. go_bool.
    destruct (ParseAddress v (ue_Email req)) eqn:P; [|done]. by apply UE.
  - apply listUsersReq_ok in H as (?&?&?). by apply LU.
  - apply searchUsersReq_ok in H. apply SU. cbn. tauto.
  - unfold updateUsernameReq_validate in H. apply guard_ok in H as [I H]. apply guard_ok in H as [N H]. apply name_test_ok in N.
    guards H. by apply UN.
  - apply updateProfilePictureReq_ok in H as []. by apply PP.
  - guards H. apply RS; [done|]. by match goal with E : rt_Password req = _ |- _ => rewrite E end.
Qed.
End theory.

(** What the validation of a registration does not look at: the role. *)
Lemma registration_ignores_role v (u : users.User) (role : N) :
  createUserReq_validate v (MkCreateUserReq (u <| users.Role := role |>)) = createUserReq_validate v (MkCreateUserReq u).
Proof. done. Qed.
(** A username may be changed to an address, which a registration refuses
    because a login with an address is taken for the email of a user. *)
Lemma username_may_be_address v id address : id <> "" -> address <> "" -> name_ok address -> ParseAddress v address = true ->
  updateUsernameReq_validate (MkUpdateUsernameReq id address) = None
  /\ forall u, users.Username (users.Creds u) = address -> createUserReq_validate v (MkCreateUserReq u) <> None.
Proof.
  intros I N L P. split.
  - unfold updateUsernameReq_validate. cbn [un_id un_Username]. apply Nat.ltb_ge in L. rewrite L.
    by destruct (String.eqb_spec id ""), (String.eqb_spec address "").
  - intros u U H. apply createUserReq_ok in H as (_&_&_&_&_&A&_). cbn in A. congruence.
Qed.

(** A browser comes back from a provider with tokens only where the provider
    is enabled, the state is the one it was sent with, and every step, from
    the code to the tokens, has succeeded. *)
Theorem callback_is_guarded {W} (svc : users_mw.Service W) (oauth : Provider (W := W)) tokenClient FormValue w rd w' :
  oauth2CallbackHandler svc oauth tokenClient FormValue w = (Some rd, w') -> cookies rd <> [] ->
  IsEnabled oauth = true /\ FormValue "state" = State oauth /\ FormValue "code" <> ""
  /\ url rd = RedirectURL oauth
  /\ exists token w1 user w2 user' w3 w4 jwt,
       Exchange oauth (FormValue "code") w = ((token, None), w1)
       /\ UserInfo oauth token w1 = ((user, None), w2)
       /\ users_mw.svc_OAuthCallback svc (user <| users.AuthProvider := if Name oauth =s "" then "oauth" else Name oauth |>) w2
          = (Some (user', None), w3)
       /\ users_mw.svc_OAuthAddUserPolicy svc user' w3 = (None, w4)
       /\ users.token_Issue tokenClient (users.MkIssueReq (users.ID user') keys.UserRole keys.AccessKey
            (negb (IsZero (users.VerifiedAt user'))) "") w4 = ((jwt, None), w')
       /\ cookies rd = [("access_token", users.AccessToken jwt);
            ("refresh_token", match users.RefreshToken_ jwt with Some t => t | None => "" end)].
Proof.
  intros H C. unfold oauth2CallbackHandler, call, pret, pbind in H. destruct (Name oauth =s "") eqn:N; cbn -[String.eqb] in H; rewrite ?N in H; go_cases; try done; go_bool.
  all: split_and!; try done; do 8 eexists; split_and!; eauto.
  all: by match goal with E : users.RefreshToken_ _ = _ |- _ => rewrite E end.
Qed.
End users_http_theory.
