(* ===== verification/Callout.v ===== *)
(** * The callout middlewares: other parties are asked before a call

    Source: src/pkg/callout/callout.go, src/pkg/roles/rolemanager/middleware/
    callout.go, and middleware/callout.go of clients, channels, groups and
    domains.

    A callout middleware has the interface of the service it wraps.  Before a
    call it sends a request that describes it to every address that is
    configured, and makes the call where all of them answered 200.  In
    cmd/*/main.go it is outside the authorization middleware.  HTTP (net/http)
    and the JSON text of a request (encoding/json) are parameters. *)

From S2P Require Import Prelude GoStd GoUrl Errors GoTime Policies Authn Roles Pat Connections Clients Domains Channels Groups.
From S2P Require Import Permissions Guards.
Import permissions.

(** ** src/pkg/callout/callout.go *)
Module callout.
Definition errFailedToRead : err := Sentinel "callout.errFailedToRead" CustomError "failed to read callout response body".

Record BaseRequest := MkBaseRequest {
  Operation : string; EntityType : string; EntityID : string; CallerID : string; CallerType : string;
  DomainID : string; Time_ : Time }.

(** The values of a payload. *)
Inductive any :=
| AString (s : string) | AStrings (l : list string) | ANum (n : Z) | ABool (b : bool) | AConnTypes (l : list N)
| AClients (l : list clients.Client) | AClientPage (p : clients.Page)
| AChannels (l : list channels.Channel) | AChannelPage (p : channels.Page)
| AGroups (l : list groups.Group) | AGroup (g : groups.Group) | AGroupPage (p : groups.PageMeta)
| AHierarchyPage (p : groups.HierarchyPageMeta)
| ADomainReq (d : domains.DomainReq) | ADomainPage (p : domains.Page)
| AInvitation (i : domains.Invitation) | AInvitationPage (p : domains.InvitationPageMeta)
| AMembersQuery (q : roles.MembersRolePageQuery).

Record Request := MkRequest { Base : BaseRequest; Payload : list (string * any) }.

(** [pld["entity_id"].(string)], or the empty string. *)
Fixpoint entity_id (pld : list (string * any)) : string :=
  match pld with
  | [] => ""
  | (k, v) :: pld => if k =s "entity_id" then match v with AString s => s | _ => "" end else entity_id pld
  end.

(** net/http and encoding/json.  A body is read with an error or without. *)
Record HttpRequest := MkHttpRequest { hr_Method : string; hr_URL : string; hr_Body : option (list ascii) }.
Record Response := MkResponse { StatusCode : Z; Body : string * error }.
Record httplib (W : Type) := {
  NewRequest : string -> string -> error;
  Do : HttpRequest -> St W (Response * error);
  MarshalRequest : Request -> list ascii * error;
  (** fmt.Sprintf("%v") of the values that are not strings *)
  Sprint : any -> string }.
Arguments NewRequest {W}. Arguments Do {W}. Arguments MarshalRequest {W}. Arguments Sprint {W}.
Definition MethodGet := "GET".
Definition MethodPost := "POST".
Definition StatusOK : Z := 200.

Section callout.
Context {W : Type} (H : httplib W).

(** The JSON object of a base request: empty strings are left out. *)
Definition baseFields (r : BaseRequest) : option (gmap string string) :=
  t ← MarshalText (Time_ r);
  Some (list_to_map (filter (fun kv => kv.2 <> "")
    [("operation", Operation r); ("entity_type", EntityType r); ("entity_id", EntityID r); ("caller_id", CallerID r);
     ("caller_type", CallerType r); ("domain_id", DomainID r); ("time", t)])).
Definition sprint (v : any) : string := match v with AString s => s | v => Sprint H v end.
(** The fields of the base request replace those of the payload. *)
Definition toURL (r : Request) : string * error :=
  match baseFields (Base r) with
  | None => ("", Some (Errorf "json: error calling MarshalJSON for type time.Time"))
  | Some base => (Encode (base ∪ list_to_map (map (fun kv => (kv.1, sprint kv.2)) (Payload r))), None)
  end.

Record callout := { urls : list string; method : string; allowedOperation : list string }.

(** The HTTP client of newCalloutClient is in [H]. *)
Definition New (cfg_URLs : list string) (cfg_Method : string) (cfg_Operations : list string) : option callout * error :=
  if_ (cfg_Method <>s MethodPost) && (cfg_Method <>s MethodGet)
    return_ (None, Some (Errorf ("unsupported auth callout method: " +:+ cfg_Method))) ;;
  (Some {| urls := cfg_URLs; method := cfg_Method; allowedOperation := cfg_Operations |}, None).

(** The request of makeRequest; there is none for another method, which New
    refuses. *)
Definition httpRequest (c : callout) (urlStr : string) (req : Request) : option HttpRequest * error :=
  if method c =s MethodGet then
    let '(query, e) := toURL req in
    if_err e return_ (None, e) ;;
    let url := urlStr +:+ "?" +:+ query in
    if_err NewRequest H (method c) url return_ (None, NewRequest H (method c) url) ;;
    (Some (MkHttpRequest (method c) url None), None)
  else if method c =s MethodPost then
    let '(data, e) := MarshalRequest H req in
    if_err e return_ (None, e) ;;
    if_err NewRequest H (method c) urlStr return_ (None, NewRequest H (method c) urlStr) ;;
    (Some (MkHttpRequest (method c) urlStr (Some data)), None)
  else (None, None).

Definition makeRequest (c : callout) (urlStr : string) (req : Request) : St W error :=
  match httpRequest c urlStr req with
  | (Some r, None) =>
      '(resp, e) <- Do H r ;;
      if_err e return_ ret e ;;
      if_ negb (Z.eqb (StatusCode resp) StatusOK) return_
        (let '(msg, e) := Body resp in
         if_err e return_ ret (NewSDKErrorWithStatus (WrapE errFailedToRead e) 500) ;;
         ret (NewSDKErrorWithStatus (Some (Errors.New msg)) (StatusCode resp))) ;;
      ret None
  | (_, e) => ret e
  end.

Definition Callout_callout (c : callout) (req : Request) : St W error :=
  if_ Nat.eqb (length (urls c)) 0 return_ ret None ;;
  if_ negb (bool_decide (Operation (Base req) ∈ allowedOperation c)) return_ ret None ;;
  r <- for_each (urls c) (fun url =>
         e <- makeRequest c url req ;;
         if_err e return_ ret (Some e) ;;
         ret None) ;;
  ret (default None r).
End callout.

(** The interface *)
Record Callout (W : Type) := { Callout_ : Request -> St W error }.
Arguments Callout_ {W}.
Definition NewCallout {W} (H : httplib W) (c : callout) : Callout W := {| Callout_ := Callout_callout H c |}.
End callout.

(** ** src/pkg/roles/rolemanager/middleware/callout.go *)
Module roles_callout.
Import callout.
Record RoleManagerCalloutMiddleware (W : Type) := {
  svc : rolemgr.RoleManager W; callout_ : Callout W; entityType : string; roleOps : operations }.
Arguments svc {W}. Arguments callout_ {W}. Arguments entityType {W}. Arguments roleOps {W}.
Definition NewCallout {W} (entityType : string) (svc : rolemgr.RoleManager W) (callout : Callout W) (roleOps : operations)
    : option (RoleManagerCalloutMiddleware W) * error :=
  if_err Validate roleOps return_ (None, Validate roleOps) ;;
  (Some {| svc := svc; callout_ := callout; entityType := entityType; roleOps := roleOps |}, None).

Section middleware.
Context {W : Type} (now : St W Time) (cm : RoleManagerCalloutMiddleware W).
Definition callOut (session : authn.Session) (op : permissions.RoleOperation) (pld : list (string * any)) : St W error :=
  t <- now ;;
  Callout_ (callout_ cm) (MkRequest
    (MkBaseRequest (OperationName (roleOps cm) op) (entityType cm) (entity_id pld) (authn.UserID session) policies.UserType
       (authn.DomainID session) t) pld).
Definition AddRole (session : authn.Session) (entityID : string) (roleName : string) (optionalActions : list string) (optionalMembers : list string) : St W (roles.RoleProvision * error) :=
  e <- callOut session roles_ops.OpAddRole
         [("entity_id", AString entityID); ("role_name", AString roleName); ("optional_actions", AStrings optionalActions); ("optional_members", AStrings optionalMembers); ("count", ANum 1)] ;;
  if_err e return_ ret (roles.RoleProvision0, e) ;;
  rolemgr.svc_AddRole (svc cm) session entityID roleName optionalActions optionalMembers.
Definition RemoveRole (session : authn.Session) (entityID : string) (roleID : string) : St W error :=
  e <- callOut session roles_ops.OpRemoveRole
         [("entity_id", AString entityID); ("role_id", AString roleID)] ;;
  if_err e return_ ret e ;;
  rolemgr.svc_RemoveRole (svc cm) session entityID roleID.
Definition UpdateRoleName (session : authn.Session) (entityID : string) (roleID : string) (newRoleName : string) : St W (roles.Role * error) :=
  e <- callOut session roles_ops.OpUpdateRoleName
         [("entity_id", AString entityID); ("role_id", AString roleID); ("new_role_name", AString newRoleName)] ;;
  if_err e return_ ret (roles.Role0, e) ;;
  rolemgr.svc_UpdateRoleName (svc cm) session entityID roleID newRoleName.
Definition RetrieveRole (session : authn.Session) (entityID : string) (roleID : string) : St W (roles.Role * error) :=
  e <- callOut session roles_ops.OpRetrieveRole
         [("entity_id", AString entityID); ("role_id", AString roleID)] ;;
  if_err e return_ ret (roles.Role0, e) ;;
  rolemgr.svc_RetrieveRole (svc cm) session entityID roleID.
Definition RetrieveAllRoles (session : authn.Session) (entityID : string) (limit : N) (offset : N) : St W (roles.RolePage * error) :=
  e <- callOut session roles_ops.OpRetrieveAllRoles
         [("entity_id", AString entityID); ("limit", ANum (Z.of_N limit)); ("offset", ANum (Z.of_N offset))] ;;
  if_err e return_ ret (roles.RolePage0, e) ;;
  rolemgr.svc_RetrieveAllRoles (svc cm) session entityID limit offset.
Definition ListAvailableActions (session : authn.Session) : St W (list string * error) :=
  e <- callOut session roles_ops.OpListAvailableActions
         [] ;;
  if_err e return_ ret ([], e) ;;
  rolemgr.svc_ListAvailableActions (svc cm) session.
Definition RoleAddActions (session : authn.Session) (entityID : string) (roleID : string) (actions : list string) : St W (list string * error) :=
  e <- callOut session roles_ops.OpRoleAddActions
         [("entity_id", AString entityID); ("role_id", AString roleID); ("actions", AStrings actions)] ;;
  if_err e return_ ret ([], e) ;;
  rolemgr.svc_RoleAddActions (svc cm) session entityID roleID actions.
Definition RoleListActions (session : authn.Session) (entityID : string) (roleID : string) : St W (list string * error) :=
  e <- callOut session roles_ops.OpRoleListActions
         [("entity_id", AString entityID); ("role_id", AString roleID)] ;;
  if_err e return_ ret ([], e) ;;
  rolemgr.svc_RoleListActions (svc cm) session entityID roleID.
Definition RoleCheckActionsExists (session : authn.Session) (entityID : string) (roleID : string) (actions : list string) : St W (bool * error) :=
  e <- callOut session roles_ops.OpRoleCheckActionsExists
         [("entity_id", AString entityID); ("role_id", AString roleID); ("actions", AStrings actions)] ;;
  if_err e return_ ret (false, e) ;;
  rolemgr.svc_RoleCheckActionsExists (svc cm) session entityID roleID actions.
Definition RoleRemoveActions (session : authn.Session) (entityID : string) (roleID : string) (actions : list string) : St W error :=
  e <- callOut session roles_ops.OpRoleRemoveActions
         [("entity_id", AString entityID); ("role_id", AString roleID); ("actions", AStrings actions)] ;;
  if_err e return_ ret e ;;
  rolemgr.svc_RoleRemoveActions (svc cm) session entityID roleID actions.
Definition RoleRemoveAllActions (session : authn.Session) (entityID : string) (roleID : string) : St W error :=
  e <- callOut session roles_ops.OpRoleRemoveAllActions
         [("entity_id", AString entityID); ("role_id", AString roleID)] ;;
  if_err e return_ ret e ;;
  rolemgr.svc_RoleRemoveAllActions (svc cm) session entityID roleID.
Definition RoleAddMembers (session : authn.Session) (entityID : string) (roleID : string) (members : list string) : St W (list string * error) :=
  e <- callOut session roles_ops.OpRoleAddMembers
         [("entity_id", AString entityID); ("role_id", AString roleID); ("members", AStrings members)] ;;
  if_err e return_ ret ([], e) ;;
  rolemgr.svc_RoleAddMembers (svc cm) session entityID roleID members.
Definition RoleListMembers (session : authn.Session) (entityID : string) (roleID : string) (limit : N) (offset : N) : St W (roles.MembersPage * error) :=
  e <- callOut session roles_ops.OpRoleListMembers
         [("entity_id", AString entityID); ("role_id", AString roleID); ("limit", ANum (Z.of_N limit)); ("offset", ANum (Z.of_N offset))] ;;
  if_err e return_ ret (roles.MembersPage0, e) ;;
  rolemgr.svc_RoleListMembers (svc cm) session entityID roleID limit offset.
Definition RoleCheckMembersExists (session : authn.Session) (entityID : string) (roleID : string) (members : list string) : St W (bool * error) :=
  e <- callOut session roles_ops.OpRoleCheckMembersExists
         [("entity_id", AString entityID); ("role_id", AString roleID); ("members", AStrings members)] ;;
  if_err e return_ ret (false, e) ;;
  rolemgr.svc_RoleCheckMembersExists (svc cm) session entityID roleID members.
Definition RoleRemoveAllMembers (session : authn.Session) (entityID : string) (roleID : string) : St W error :=
  e <- callOut session roles_ops.OpRoleRemoveAllMembers
         [("entity_id", AString entityID); ("role_id", AString roleID)] ;;
  if_err e return_ ret e ;;
  rolemgr.svc_RoleRemoveAllMembers (svc cm) session entityID roleID.
Definition ListEntityMembers (session : authn.Session) (entityID : string) (pageQuery : roles.MembersRolePageQuery) : St W (roles.MembersRolePage * error) :=
  e <- callOut session roles_ops.OpRoleListMembers
         [("entity_id", AString entityID); ("page_query", AMembersQuery pageQuery)] ;;
  if_err e return_ ret (roles.MembersRolePage0, e) ;;
  rolemgr.svc_ListEntityMembers (svc cm) session entityID pageQuery.
Definition RemoveEntityMembers (session : authn.Session) (entityID : string) (members : list string) : St W error :=
  e <- callOut session roles_ops.OpRoleRemoveAllMembers
         [("entity_id", AString entityID); ("members", AStrings members)] ;;
  if_err e return_ ret e ;;
  rolemgr.svc_RemoveEntityMembers (svc cm) session entityID members.
Definition RoleRemoveMembers (session : authn.Session) (entityID : string) (roleID : string) (members : list string) : St W error :=
  e <- callOut session roles_ops.OpRoleRemoveMembers
         [("entity_id", AString entityID); ("role_id", AString roleID); ("members", AStrings members)] ;;
  if_err e return_ ret e ;;
  rolemgr.svc_RoleRemoveMembers (svc cm) session entityID roleID members.
Definition RemoveMemberFromAllRoles (session : authn.Session) (memberID : string) : St W error := rolemgr.svc_RemoveMemberFromAllRoles (svc cm) session memberID.
Definition middleware : rolemgr.RoleManager W := {|
  rolemgr.svc_AddRole := AddRole;
  rolemgr.svc_RemoveRole := RemoveRole;
  rolemgr.svc_UpdateRoleName := UpdateRoleName;
  rolemgr.svc_RetrieveRole := RetrieveRole;
  rolemgr.svc_RetrieveAllRoles := RetrieveAllRoles;
  rolemgr.svc_ListAvailableActions := ListAvailableActions;
  rolemgr.svc_RoleAddActions := RoleAddActions;
  rolemgr.svc_RoleListActions := RoleListActions;
  rolemgr.svc_RoleCheckActionsExists := RoleCheckActionsExists;
  rolemgr.svc_RoleRemoveActions := RoleRemoveActions;
  rolemgr.svc_RoleRemoveAllActions := RoleRemoveAllActions;
  rolemgr.svc_RoleAddMembers := RoleAddMembers;
  rolemgr.svc_RoleListMembers := RoleListMembers;
  rolemgr.svc_RoleCheckMembersExists := RoleCheckMembersExists;
  rolemgr.svc_RoleRemoveAllMembers := RoleRemoveAllMembers;
  rolemgr.svc_ListEntityMembers := ListEntityMembers;
  rolemgr.svc_RemoveEntityMembers := RemoveEntityMembers;
  rolemgr.svc_RoleRemoveMembers := RoleRemoveMembers;
  rolemgr.svc_RemoveMemberFromAllRoles := RemoveMemberFromAllRoles |}.
End middleware.
End roles_callout.

(** ** src/clients/middleware/callout.go *)
Module clients_callout.
Import callout.
Record calloutMiddleware (W : Type) := {
  svc : clients_mw.Service W; repo : clients.Repository W; callout_ : Callout W; entitiesOps : entitiesOperations }.
Arguments svc {W}. Arguments repo {W}. Arguments callout_ {W}. Arguments entitiesOps {W}.
Definition NewCallout {W} (svc : clients_mw.Service W) (rm : rolemgr.RoleManager W) (repo : clients.Repository W)
    (entitiesOps : entitiesOperations) (roleOps : operations) (callout : Callout W)
    : option (calloutMiddleware W * roles_callout.RoleManagerCalloutMiddleware W) * error :=
  match roles_callout.NewCallout policies.ClientType rm callout roleOps with
  | (Some call, None) =>
      if_err entities_Validate entitiesOps return_ (None, entities_Validate entitiesOps) ;;
      (Some ({| svc := svc; repo := repo; callout_ := callout; entitiesOps := entitiesOps |}, call), None)
  | (_, e) => (None, e)
  end.

Section middleware.
Context {W : Type} (now : St W Time) (cm : calloutMiddleware W).
Definition callOut (session : authn.Session) (entityType : string) (op : permissions.Operation) (pld : list (string * any))
    : St W error :=
  t <- now ;;
  Callout_ (callout_ cm) (MkRequest
    (MkBaseRequest (entities_OperationName (entitiesOps cm) entityType op) entityType (entity_id pld) (authn.UserID session)
       policies.UserType (authn.DomainID session) t) pld).
Definition CreateClients (session : authn.Session) (client : list clients.Client) : St W (list clients.Client * list roles.RoleProvision * error) :=
  e <- callOut session policies.DomainType domains_ops.OpCreateDomainClients
         [("entities", AClients client); ("count", ANum (Z.of_nat (length client)))] ;;
  if_err e return_ ret (([], []), e) ;;
  clients_mw.svc_CreateClients (svc cm) session client.
Definition View (session : authn.Session) (id : string) (withRoles : bool) : St W (clients.Client * error) :=
  e <- callOut session policies.ClientType clients_ops.OpViewClient
         [("entity_id", AString id)] ;;
  if_err e return_ ret (clients.Client0, e) ;;
  clients_mw.svc_View (svc cm) session id withRoles.
Definition ListClients (session : authn.Session) (pm : clients.Page) : St W (clients.ClientsPage * error) :=
  e <- callOut session policies.DomainType domains_ops.OpListDomainClients
         [("pagemeta", AClientPage pm)] ;;
  if_err e return_ ret (clients.ClientsPage0, e) ;;
  clients_mw.svc_ListClients (svc cm) session pm.
Definition ListUserClients (session : authn.Session) (userID : string) (pm : clients.Page) : St W (clients.ClientsPage * error) :=
  e <- callOut session policies.ClientType clients_ops.OpListUserClients
         [("user_id", AString userID); ("pagemeta", AClientPage pm)] ;;
  if_err e return_ ret (clients.ClientsPage0, e) ;;
  clients_mw.svc_ListUserClients (svc cm) session userID pm.
Definition Update (session : authn.Session) (client : clients.Client) : St W (clients.Client * error) :=
  e <- callOut session policies.ClientType clients_ops.OpUpdateClient
         [("entity_id", AString (clients.ID client))] ;;
  if_err e return_ ret (clients.Client0, e) ;;
  clients_mw.svc_Update (svc cm) session client.
Definition UpdateTags (session : authn.Session) (client : clients.Client) : St W (clients.Client * error) :=
  e <- callOut session policies.ClientType clients_ops.OpUpdateClientTags
         [("entity_id", AString (clients.ID client))] ;;
  if_err e return_ ret (clients.Client0, e) ;;
  clients_mw.svc_UpdateTags (svc cm) session client.
Definition UpdateSecret (session : authn.Session) (id : string) (key : string) : St W (clients.Client * error) :=
  e <- callOut session policies.ClientType clients_ops.OpUpdateClientSecret
         [("entity_id", AString id)] ;;
  if_err e return_ ret (clients.Client0, e) ;;
  clients_mw.svc_UpdateSecret (svc cm) session id key.
Definition Enable (session : authn.Session) (id : string) : St W (clients.Client * error) :=
  e <- callOut session policies.ClientType clients_ops.OpEnableClient
         [("entity_id", AString id)] ;;
  if_err e return_ ret (clients.Client0, e) ;;
  clients_mw.svc_Enable (svc cm) session id.
Definition Disable (session : authn.Session) (id : string) : St W (clients.Client * error) :=
  e <- callOut session policies.ClientType clients_ops.OpDisableClient
         [("entity_id", AString id)] ;;
  if_err e return_ ret (clients.Client0, e) ;;
  clients_mw.svc_Disable (svc cm) session id.
Definition Delete (session : authn.Session) (id : string) : St W error :=
  e <- callOut session policies.ClientType clients_ops.OpDeleteClient
         [("entity_id", AString id)] ;;
  if_err e return_ ret e ;;
  clients_mw.svc_Delete (svc cm) session id.
Definition SetParentGroup (session : authn.Session) (parentGroupID : string) (id : string) : St W error :=
  e <- callOut session policies.ClientType clients_ops.OpSetParentGroup
         [("entity_id", AString id); ("parent_id", AString parentGroupID)] ;;
  if_err e return_ ret e ;;
  clients_mw.svc_SetParentGroup (svc cm) session parentGroupID id.
Definition RemoveParentGroup (session : authn.Session) (id : string) : St W error :=
  '(th, e) <- clients.RetrieveByID (repo cm) id ;;
  if_err e return_ ret e ;;
  e <- (if clients.ParentGroup th <>s "" then
          callOut session policies.ClientType clients_ops.OpRemoveParentGroup
            [("entity_id", AString id); ("parent_id", AString (clients.ParentGroup th))]
        else ret None) ;;
  if_err e return_ ret e ;;
  clients_mw.svc_RemoveParentGroup (svc cm) session id.
Definition middleware : clients_mw.Service W := {|
  clients_mw.svc_CreateClients := CreateClients;
  clients_mw.svc_View := View;
  clients_mw.svc_ListClients := ListClients;
  clients_mw.svc_ListUserClients := ListUserClients;
  clients_mw.svc_Update := Update;
  clients_mw.svc_UpdateTags := UpdateTags;
  clients_mw.svc_UpdateSecret := UpdateSecret;
  clients_mw.svc_Enable := Enable;
  clients_mw.svc_Disable := Disable;
  clients_mw.svc_Delete := Delete;
  clients_mw.svc_SetParentGroup := SetParentGroup;
  clients_mw.svc_RemoveParentGroup := RemoveParentGroup |}.
End middleware.
End clients_callout.

(** ** src/channels/middleware/callout.go *)
Module channels_callout.
Import callout.
Record calloutMiddleware (W : Type) := {
  svc : channels_mw.Service W; repo : channels.Repository W; callout_ : Callout W; entitiesOps : entitiesOperations }.
Arguments svc {W}. Arguments repo {W}. Arguments callout_ {W}. Arguments entitiesOps {W}.
Definition NewCallout {W} (svc : channels_mw.Service W) (rm : rolemgr.RoleManager W) (repo : channels.Repository W)
    (entitiesOps : entitiesOperations) (roleOps : operations) (callout : Callout W)
    : option (calloutMiddleware W * roles_callout.RoleManagerCalloutMiddleware W) * error :=
  match roles_callout.NewCallout policies.ChannelType rm callout roleOps with
  | (Some call, None) =>
      if_err entities_Validate entitiesOps return_ (None, entities_Validate entitiesOps) ;;
      (Some ({| svc := svc; repo := repo; callout_ := callout; entitiesOps := entitiesOps |}, call), None)
  | (_, e) => (None, e)
  end.

Section middleware.
Context {W : Type} (now : St W Time) (cm : calloutMiddleware W).
Definition callOut (session : authn.Session) (entityType : string) (op : permissions.Operation) (pld : list (string * any))
    : St W error :=
  t <- now ;;
  Callout_ (callout_ cm) (MkRequest
    (MkBaseRequest (entities_OperationName (entitiesOps cm) entityType op) entityType (entity_id pld) (authn.UserID session)
       policies.UserType (authn.DomainID session) t) pld).
Definition CreateChannels (session : authn.Session) (chs : list channels.Channel) : St W (list channels.Channel * list roles.RoleProvision * error) :=
  e <- callOut session policies.DomainType domains_ops.OpCreateDomainChannels
         [("entities", AChannels chs); ("count", ANum (Z.of_nat (length chs)))] ;;
  if_err e return_ ret (([], []), e) ;;
  channels_mw.svc_CreateChannels (svc cm) session chs.
Definition ViewChannel (session : authn.Session) (id : string) (withRoles : bool) : St W (channels.Channel * error) :=
  e <- callOut session policies.ChannelType channels_ops.OpViewChannel
         [("entity_id", AString id)] ;;
  if_err e return_ ret (channels.Channel0, e) ;;
  channels_mw.svc_ViewChannel (svc cm) session id withRoles.
Definition ListChannels (session : authn.Session) (pm : channels.Page) : St W (channels.ChannelsPage * error) :=
  e <- callOut session policies.DomainType domains_ops.OpListDomainChannels
         [("pagemeta", AChannelPage pm)] ;;
  if_err e return_ ret (channels.ChannelsPage0, e) ;;
  channels_mw.svc_ListChannels (svc cm) session pm.
Definition ListUserChannels (session : authn.Session) (userID : string) (pm : channels.Page) : St W (channels.ChannelsPage * error) :=
  e <- callOut session policies.ChannelType channels_ops.OpListUserChannels
         [("user_id", AString userID); ("pagemeta", AChannelPage pm)] ;;
  if_err e return_ ret (channels.ChannelsPage0, e) ;;
  channels_mw.svc_ListUserChannels (svc cm) session userID pm.
Definition UpdateChannel (session : authn.Session) (channel : channels.Channel) : St W (channels.Channel * error) :=
  e <- callOut session policies.ChannelType channels_ops.OpUpdateChannel
         [("entity_id", AString (channels.ID channel))] ;;
  if_err e return_ ret (channels.Channel0, e) ;;
  channels_mw.svc_UpdateChannel (svc cm) session channel.
Definition UpdateChannelTags (session : authn.Session) (channel : channels.Channel) : St W (channels.Channel * error) :=
  e <- callOut session policies.ChannelType channels_ops.OpUpdateChannelTags
         [("entity_id", AString (channels.ID channel))] ;;
  if_err e return_ ret (channels.Channel0, e) ;;
  channels_mw.svc_UpdateChannelTags (svc cm) session channel.
Definition EnableChannel (session : authn.Session) (id : string) : St W (channels.Channel * error) :=
  e <- callOut session policies.ChannelType channels_ops.OpEnableChannel
         [("entity_id", AString id)] ;;
  if_err e return_ ret (channels.Channel0, e) ;;
  channels_mw.svc_EnableChannel (svc cm) session id.
Definition DisableChannel (session : authn.Session) (id : string) : St W (channels.Channel * error) :=
  e <- callOut session policies.ChannelType channels_ops.OpDisableChannel
         [("entity_id", AString id)] ;;
  if_err e return_ ret (channels.Channel0, e) ;;
  channels_mw.svc_DisableChannel (svc cm) session id.
Definition RemoveChannel (session : authn.Session) (id : string) : St W error :=
  e <- callOut session policies.ChannelType channels_ops.OpDeleteChannel
         [("entity_id", AString id)] ;;
  if_err e return_ ret e ;;
  channels_mw.svc_RemoveChannel (svc cm) session id.
Definition Connect (session : authn.Session) (chIDs : list string) (thIDs : list string) (connTypes : list N) : St W error :=
  e <- callOut session policies.ChannelType channels_ops.OpConnectClient
         [("channel_ids", AStrings chIDs); ("client_ids", AStrings thIDs); ("connection_types", AConnTypes connTypes)] ;;
  if_err e return_ ret e ;;
  channels_mw.svc_Connect (svc cm) session chIDs thIDs connTypes.
Definition Disconnect (session : authn.Session) (chIDs : list string) (thIDs : list string) (connTypes : list N) : St W error :=
  e <- callOut session policies.ChannelType channels_ops.OpDisconnectClient
         [("channel_ids", AStrings chIDs); ("client_ids", AStrings thIDs); ("connection_types", AConnTypes connTypes)] ;;
  if_err e return_ ret e ;;
  channels_mw.svc_Disconnect (svc cm) session chIDs thIDs connTypes.
Definition SetParentGroup (session : authn.Session) (parentGroupID : string) (id : string) : St W error :=
  e <- callOut session policies.ChannelType channels_ops.OpSetParentGroup
         [("entity_id", AString id); ("parent_group_id", AString parentGroupID)] ;;
  if_err e return_ ret e ;;
  channels_mw.svc_SetParentGroup (svc cm) session parentGroupID id.
Definition RemoveParentGroup (session : authn.Session) (id : string) : St W error :=
  '(ch, e) <- channels.RetrieveByID (repo cm) id ;;
  if_err e return_ ret (WrapE svcerr.ErrRemoveEntity e) ;;
  e <- (if channels.ParentGroup ch <>s "" then
          callOut session policies.ChannelType channels_ops.OpRemoveParentGroup
            [("entity_id", AString id); ("parent_group_id", AString (channels.ParentGroup ch))]
        else ret None) ;;
  if_err e return_ ret e ;;
  channels_mw.svc_RemoveParentGroup (svc cm) session id.
Definition middleware : channels_mw.Service W := {|
  channels_mw.svc_CreateChannels := CreateChannels;
  channels_mw.svc_ViewChannel := ViewChannel;
  channels_mw.svc_ListChannels := ListChannels;
  channels_mw.svc_ListUserChannels := ListUserChannels;
  channels_mw.svc_UpdateChannel := UpdateChannel;
  channels_mw.svc_UpdateChannelTags := UpdateChannelTags;
  channels_mw.svc_EnableChannel := EnableChannel;
  channels_mw.svc_DisableChannel := DisableChannel;
  channels_mw.svc_RemoveChannel := RemoveChannel;
  channels_mw.svc_Connect := Connect;
  channels_mw.svc_Disconnect := Disconnect;
  channels_mw.svc_SetParentGroup := SetParentGroup;
  channels_mw.svc_RemoveParentGroup := RemoveParentGroup |}.
End middleware.
End channels_callout.

(** ** src/groups/middleware/callout.go *)
Module groups_callout.
Import callout.
Record calloutMiddleware (W : Type) := {
  svc : groups_mw.Service W; repo : groups.Repository W; callout_ : Callout W; entitiesOps : entitiesOperations }.
Arguments svc {W}. Arguments repo {W}. Arguments callout_ {W}. Arguments entitiesOps {W}.
Definition NewCallout {W} (svc : groups_mw.Service W) (rm : rolemgr.RoleManager W) (repo : groups.Repository W)
    (entitiesOps : entitiesOperations) (roleOps : operations) (callout : Callout W)
    : option (calloutMiddleware W * roles_callout.RoleManagerCalloutMiddleware W) * error :=
  match roles_callout.NewCallout policies.GroupType rm callout roleOps with
  | (Some call, None) =>
      if_err entities_Validate entitiesOps return_ (None, entities_Validate entitiesOps) ;;
      (Some ({| svc := svc; repo := repo; callout_ := callout; entitiesOps := entitiesOps |}, call), None)
  | (_, e) => (None, e)
  end.

Section middleware.
Context {W : Type} (now : St W Time) (cm : calloutMiddleware W).
Definition callOut (session : authn.Session) (entityType : string) (op : permissions.Operation) (pld : list (string * any))
    : St W error :=
  t <- now ;;
  Callout_ (callout_ cm) (MkRequest
    (MkBaseRequest (entities_OperationName (entitiesOps cm) entityType op) entityType (entity_id pld) (authn.UserID session)
       policies.UserType (authn.DomainID session) t) pld).
Definition CreateGroup (session : authn.Session) (g : groups.Group) : St W (groups.Group * list roles.RoleProvision * error) :=
  e <- callOut session policies.DomainType domains_ops.OpCreateDomainGroups
         [("entities", AGroups [g]); ("count", ANum 1)] ;;
  if_err e return_ ret ((groups.Group0, []), e) ;;
  groups_mw.svc_CreateGroup (svc cm) session g.
Definition UpdateGroup (session : authn.Session) (group : groups.Group) : St W (groups.Group * error) :=
  e <- callOut session policies.GroupType groups_ops.OpUpdateGroup
         [("entity_id", AString (groups.ID group)); ("group", AGroup group)] ;;
  if_err e return_ ret (groups.Group0, e) ;;
  groups_mw.svc_UpdateGroup (svc cm) session group.
Definition UpdateGroupTags (session : authn.Session) (group : groups.Group) : St W (groups.Group * error) :=
  e <- callOut session policies.GroupType groups_ops.OpUpdateGroupTags
         [("entity_id", AString (groups.ID group)); ("tags", AStrings (groups.Tags group))] ;;
  if_err e return_ ret (groups.Group0, e) ;;
  groups_mw.svc_UpdateGroupTags (svc cm) session group.
Definition ViewGroup (session : authn.Session) (id : string) (withRoles : bool) : St W (groups.Group * error) :=
  e <- callOut session policies.GroupType groups_ops.OpViewGroup
         [("entity_id", AString id)] ;;
  if_err e return_ ret (groups.Group0, e) ;;
  groups_mw.svc_ViewGroup (svc cm) session id withRoles.
Definition ListGroups (session : authn.Session) (gm : groups.PageMeta) : St W (groups.Page * error) :=
  e <- callOut session policies.DomainType domains_ops.OpListDomainGroups
         [("pagemeta", AGroupPage gm)] ;;
  if_err e return_ ret (groups.Page0, e) ;;
  groups_mw.svc_ListGroups (svc cm) session gm.
Definition ListUserGroups (session : authn.Session) (userID : string) (gm : groups.PageMeta) : St W (groups.Page * error) :=
  e <- callOut session policies.GroupType groups_ops.OpListUserGroups
         [("user_id", AString userID); ("pagemeta", AGroupPage gm)] ;;
  if_err e return_ ret (groups.Page0, e) ;;
  groups_mw.svc_ListUserGroups (svc cm) session userID gm.
Definition EnableGroup (session : authn.Session) (id : string) : St W (groups.Group * error) :=
  e <- callOut session policies.GroupType groups_ops.OpEnableGroup
         [("entity_id", AString id)] ;;
  if_err e return_ ret (groups.Group0, e) ;;
  groups_mw.svc_EnableGroup (svc cm) session id.
Definition DisableGroup (session : authn.Session) (id : string) : St W (groups.Group * error) :=
  e <- callOut session policies.GroupType groups_ops.OpDisableGroup
         [("entity_id", AString id)] ;;
  if_err e return_ ret (groups.Group0, e) ;;
  groups_mw.svc_DisableGroup (svc cm) session id.
Definition DeleteGroup (session : authn.Session) (id : string) : St W error :=
  e <- callOut session policies.GroupType groups_ops.OpDeleteGroup
         [("entity_id", AString id)] ;;
  if_err e return_ ret e ;;
  groups_mw.svc_DeleteGroup (svc cm) session id.
Definition RetrieveGroupHierarchy (session : authn.Session) (id : string) (hm : groups.HierarchyPageMeta) : St W (groups.HierarchyPage * error) :=
  e <- callOut session policies.GroupType groups_ops.OpRetrieveGroupHierarchy
         [("entity_id", AString id); ("hierarchy_pagemeta", AHierarchyPage hm)] ;;
  if_err e return_ ret (groups.HierarchyPage0, e) ;;
  groups_mw.svc_RetrieveGroupHierarchy (svc cm) session id hm.
Definition AddParentGroup (session : authn.Session) (id : string) (parentID : string) : St W error :=
  e <- callOut session policies.GroupType groups_ops.OpAddParentGroup
         [("entity_id", AString id); ("parent_id", AString parentID)] ;;
  if_err e return_ ret e ;;
  groups_mw.svc_AddParentGroup (svc cm) session id parentID.
Definition RemoveParentGroup (session : authn.Session) (id : string) : St W error :=
  '(group, e) <- groups.RetrieveByID (repo cm) id ;;
  if_err e return_ ret (WrapE svcerr.ErrViewEntity e) ;;
  e <- callOut session policies.GroupType groups_ops.OpRemoveParentGroup
         [("entity_id", AString id); ("parent_id", AString (groups.Parent group))] ;;
  if_err e return_ ret e ;;
  groups_mw.svc_RemoveParentGroup (svc cm) session id.
Definition AddChildrenGroups (session : authn.Session) (id : string) (childrenGroupIDs : list string) : St W error :=
  e <- callOut session policies.GroupType groups_ops.OpAddChildrenGroups
         [("entity_id", AString id); ("children_group_ids", AStrings childrenGroupIDs)] ;;
  if_err e return_ ret e ;;
  groups_mw.svc_AddChildrenGroups (svc cm) session id childrenGroupIDs.
Definition RemoveChildrenGroups (session : authn.Session) (id : string) (childrenGroupIDs : list string) : St W error :=
  e <- callOut session policies.GroupType groups_ops.OpRemoveChildrenGroups
         [("entity_id", AString id); ("children_group_ids", AStrings childrenGroupIDs)] ;;
  if_err e return_ ret e ;;
  groups_mw.svc_RemoveChildrenGroups (svc cm) session id childrenGroupIDs.
Definition RemoveAllChildrenGroups (session : authn.Session) (id : string) : St W error :=
  e <- callOut session policies.GroupType groups_ops.OpRemoveAllChildrenGroups
         [("entity_id", AString id)] ;;
  if_err e return_ ret e ;;
  groups_mw.svc_RemoveAllChildrenGroups (svc cm) session id.
Definition ListChildrenGroups (session : authn.Session) (id : string) (startLevel : Z) (endLevel : Z) (pm : groups.PageMeta) : St W (groups.Page * error) :=
  e <- callOut session policies.GroupType groups_ops.OpListChildrenGroups
         [("entity_id", AString id); ("start_level", ANum startLevel); ("end_level", ANum endLevel); ("pagemeta", AGroupPage pm)] ;;
  if_err e return_ ret (groups.Page0, e) ;;
  groups_mw.svc_ListChildrenGroups (svc cm) session id startLevel endLevel pm.
Definition middleware : groups_mw.Service W := {|
  groups_mw.svc_CreateGroup := CreateGroup;
  groups_mw.svc_UpdateGroup := UpdateGroup;
  groups_mw.svc_UpdateGroupTags := UpdateGroupTags;
  groups_mw.svc_ViewGroup := ViewGroup;
  groups_mw.svc_ListGroups := ListGroups;
  groups_mw.svc_ListUserGroups := ListUserGroups;
  groups_mw.svc_EnableGroup := EnableGroup;
  groups_mw.svc_DisableGroup := DisableGroup;
  groups_mw.svc_DeleteGroup := DeleteGroup;
  groups_mw.svc_RetrieveGroupHierarchy := RetrieveGroupHierarchy;
  groups_mw.svc_AddParentGroup := AddParentGroup;
  groups_mw.svc_RemoveParentGroup := RemoveParentGroup;
  groups_mw.svc_AddChildrenGroups := AddChildrenGroups;
  groups_mw.svc_RemoveChildrenGroups := RemoveChildrenGroups;
  groups_mw.svc_RemoveAllChildrenGroups := RemoveAllChildrenGroups;
  groups_mw.svc_ListChildrenGroups := ListChildrenGroups |}.
End middleware.
End groups_callout.

(** ** src/domains/middleware/callout.go *)
Module domains_callout.
Import callout.
Record calloutMiddleware (W : Type) := {
  svc : domains_mw.Service W; callout_ : Callout W; entitiesOps : entitiesOperations }.
Arguments svc {W}. Arguments callout_ {W}. Arguments entitiesOps {W}.
Definition NewCallout {W} (svc : domains_mw.Service W) (rm : rolemgr.RoleManager W)
    (entitiesOps : entitiesOperations) (roleOps : operations) (callout : Callout W)
    : option (calloutMiddleware W * roles_callout.RoleManagerCalloutMiddleware W) * error :=
  match roles_callout.NewCallout policies.DomainType rm callout roleOps with
  | (Some call, None) =>
      if_err entities_Validate entitiesOps return_ (None, entities_Validate entitiesOps) ;;
      (Some ({| svc := svc; callout_ := callout; entitiesOps := entitiesOps |}, call), None)
  | (_, e) => (None, e)
  end.

Section middleware.
Context {W : Type} (now : St W Time) (cm : calloutMiddleware W).
Definition callOut (session : authn.Session) (entityType : string) (op : permissions.Operation) (pld : list (string * any))
    : St W error :=
  t <- now ;;
  Callout_ (callout_ cm) (MkRequest
    (MkBaseRequest (entities_OperationName (entitiesOps cm) entityType op) entityType (entity_id pld) (authn.UserID session)
       policies.UserType (entity_id pld) t) pld).
Definition CreateDomain (session : authn.Session) (d : domains.Domain) : St W (domains.Domain * list roles.RoleProvision * error) :=
  e <- callOut session policies.DomainType domains_ops.OpCreateDomain
         [("entity_id", AString (domains.ID d))] ;;
  if_err e return_ ret ((domains.Domain0, []), e) ;;
  domains_mw.svc_CreateDomain (svc cm) session d.
Definition RetrieveDomain (session : authn.Session) (id : string) (withRoles : bool) : St W (domains.Domain * error) :=
  e <- callOut session policies.DomainType domains_ops.OpRetrieveDomain
         [("entity_id", AString id); ("with_roles", ABool withRoles)] ;;
  if_err e return_ ret (domains.Domain0, e) ;;
  domains_mw.svc_RetrieveDomain (svc cm) session id withRoles.
Definition UpdateDomain (session : authn.Session) (id : string) (d : domains.DomainReq) : St W (domains.Domain * error) :=
  e <- callOut session policies.DomainType domains_ops.OpUpdateDomain
         [("entity_id", AString id); ("domain_req", ADomainReq d)] ;;
  if_err e return_ ret (domains.Domain0, e) ;;
  domains_mw.svc_UpdateDomain (svc cm) session id d.
Definition EnableDomain (session : authn.Session) (id : string) : St W (domains.Domain * error) :=
  e <- callOut session policies.DomainType domains_ops.OpEnableDomain
         [("entity_id", AString id)] ;;
  if_err e return_ ret (domains.Domain0, e) ;;
  domains_mw.svc_EnableDomain (svc cm) session id.
Definition DisableDomain (session : authn.Session) (id : string) : St W (domains.Domain * error) :=
  e <- callOut session policies.DomainType domains_ops.OpDisableDomain
         [("entity_id", AString id)] ;;
  if_err e return_ ret (domains.Domain0, e) ;;
  domains_mw.svc_DisableDomain (svc cm) session id.
Definition FreezeDomain (session : authn.Session) (id : string) : St W (domains.Domain * error) :=
  e <- callOut session policies.DomainType domains_ops.OpFreezeDomain
         [("entity_id", AString id)] ;;
  if_err e return_ ret (domains.Domain0, e) ;;
  domains_mw.svc_FreezeDomain (svc cm) session id.
Definition ListDomains (session : authn.Session) (page : domains.Page) : St W (domains.DomainsPage * error) :=
  e <- callOut session policies.DomainType domains_ops.OpListDomains
         [("page", ADomainPage page)] ;;
  if_err e return_ ret (domains.DomainsPage0, e) ;;
  domains_mw.svc_ListDomains (svc cm) session page.
Definition SendInvitation (session : authn.Session) (invitation : domains.Invitation) : St W (domains.Invitation * error) :=
  e <- callOut session policies.DomainType domains_ops.OpSendDomainInvitation
         [("entity_id", AString (domains.DomainID invitation)); ("invitation", AInvitation invitation)] ;;
  if_err e return_ ret (domains.Invitation0, e) ;;
  domains_mw.svc_SendInvitation (svc cm) session invitation.
Definition ListInvitations (session : authn.Session) (page : domains.InvitationPageMeta) : St W (domains.InvitationPage * error) :=
  e <- callOut session policies.DomainType domains_ops.OpListInvitations
         [("page", AInvitationPage page)] ;;
  if_err e return_ ret (domains.InvitationPage0, e) ;;
  domains_mw.svc_ListInvitations (svc cm) session page.
Definition ListDomainInvitations (session : authn.Session) (page : domains.InvitationPageMeta) : St W (domains.InvitationPage * error) :=
  e <- callOut session policies.DomainType domains_ops.OpListDomainInvitations
         [("entity_id", AString (domains.im_DomainID page)); ("page", AInvitationPage page)] ;;
  if_err e return_ ret (domains.InvitationPage0, e) ;;
  domains_mw.svc_ListDomainInvitations (svc cm) session page.
Definition AcceptInvitation (session : authn.Session) (domainID : string) : St W (domains.Invitation * error) :=
  e <- callOut session policies.DomainType domains_ops.OpAcceptInvitation
         [("entity_id", AString domainID)] ;;
  if_err e return_ ret (domains.Invitation0, e) ;;
  domains_mw.svc_AcceptInvitation (svc cm) session domainID.
Definition RejectInvitation (session : authn.Session) (domainID : string) : St W (domains.Invitation * error) :=
  e <- callOut session policies.DomainType domains_ops.OpRejectInvitation
         [("entity_id", AString domainID)] ;;
  if_err e return_ ret (domains.Invitation0, e) ;;
  domains_mw.svc_RejectInvitation (svc cm) session domainID.
Definition DeleteInvitation (session : authn.Session) (inviteeUserID : string) (domainID : string) : St W error :=
  e <- callOut session policies.DomainType domains_ops.OpDeleteDomainInvitation
         [("entity_id", AString domainID); ("invitee_user_id", AString inviteeUserID)] ;;
  if_err e return_ ret e ;;
  domains_mw.svc_DeleteInvitation (svc cm) session inviteeUserID domainID.
Definition middleware : domains_mw.Service W := {|
  domains_mw.svc_CreateDomain := CreateDomain;
  domains_mw.svc_RetrieveDomain := RetrieveDomain;
  domains_mw.svc_UpdateDomain := UpdateDomain;
  domains_mw.svc_EnableDomain := EnableDomain;
  domains_mw.svc_DisableDomain := DisableDomain;
  domains_mw.svc_FreezeDomain := FreezeDomain;
  domains_mw.svc_ListDomains := ListDomains;
  domains_mw.svc_SendInvitation := SendInvitation;
  domains_mw.svc_ListInvitations := ListInvitations;
  domains_mw.svc_ListDomainInvitations := ListDomainInvitations;
  domains_mw.svc_AcceptInvitation := AcceptInvitation;
  domains_mw.svc_RejectInvitation := RejectInvitation;
  domains_mw.svc_DeleteInvitation := DeleteInvitation |}.
End middleware.
End domains_callout.

(** ** Calls of the services

    A call with its arguments, and the error it ends with.  Left out are
    RemoveParentGroup, which asks only for an entity that has a parent, and
    RemoveMemberFromAllRoles, for which nobody is asked. *)
Module roles_calls.
Import callout.
Inductive call :=
| AddRole (session : authn.Session) (entityID : string) (roleName : string) (optionalActions : list string) (optionalMembers : list string)
| RemoveRole (session : authn.Session) (entityID : string) (roleID : string)
| UpdateRoleName (session : authn.Session) (entityID : string) (roleID : string) (newRoleName : string)
| RetrieveRole (session : authn.Session) (entityID : string) (roleID : string)
| RetrieveAllRoles (session : authn.Session) (entityID : string) (limit : N) (offset : N)
| ListAvailableActions (session : authn.Session)
| RoleAddActions (session : authn.Session) (entityID : string) (roleID : string) (actions : list string)
| RoleListActions (session : authn.Session) (entityID : string) (roleID : string)
| RoleCheckActionsExists (session : authn.Session) (entityID : string) (roleID : string) (actions : list string)
| RoleRemoveActions (session : authn.Session) (entityID : string) (roleID : string) (actions : list string)
| RoleRemoveAllActions (session : authn.Session) (entityID : string) (roleID : string)
| RoleAddMembers (session : authn.Session) (entityID : string) (roleID : string) (members : list string)
| RoleListMembers (session : authn.Session) (entityID : string) (roleID : string) (limit : N) (offset : N)
| RoleCheckMembersExists (session : authn.Session) (entityID : string) (roleID : string) (members : list string)
| RoleRemoveAllMembers (session : authn.Session) (entityID : string) (roleID : string)
| ListEntityMembers (session : authn.Session) (entityID : string) (pageQuery : roles.MembersRolePageQuery)
| RemoveEntityMembers (session : authn.Session) (entityID : string) (members : list string)
| RoleRemoveMembers (session : authn.Session) (entityID : string) (roleID : string) (members : list string).
Definition run {W} (svc : rolemgr.RoleManager W) (c : call) : St W error :=
  match c with
  | AddRole session entityID roleName optionalActions optionalMembers => r <- rolemgr.svc_AddRole svc session entityID roleName optionalActions optionalMembers ;; ret r.2
  | RemoveRole session entityID roleID => rolemgr.svc_RemoveRole svc session entityID roleID
  | UpdateRoleName session entityID roleID newRoleName => r <- rolemgr.svc_UpdateRoleName svc session entityID roleID newRoleName ;; ret r.2
  | RetrieveRole session entityID roleID => r <- rolemgr.svc_RetrieveRole svc session entityID roleID ;; ret r.2
  | RetrieveAllRoles session entityID limit offset => r <- rolemgr.svc_RetrieveAllRoles svc session entityID limit offset ;; ret r.2
  | ListAvailableActions session => r <- rolemgr.svc_ListAvailableActions svc session ;; ret r.2
  | RoleAddActions session entityID roleID actions => r <- rolemgr.svc_RoleAddActions svc session entityID roleID actions ;; ret r.2
  | RoleListActions session entityID roleID => r <- rolemgr.svc_RoleListActions svc session entityID roleID ;; ret r.2
  | RoleCheckActionsExists session entityID roleID actions => r <- rolemgr.svc_RoleCheckActionsExists svc session entityID roleID actions ;; ret r.2
  | RoleRemoveActions session entityID roleID actions => rolemgr.svc_RoleRemoveActions svc session entityID roleID actions
  | RoleRemoveAllActions session entityID roleID => rolemgr.svc_RoleRemoveAllActions svc session entityID roleID
  | RoleAddMembers session entityID roleID members => r <- rolemgr.svc_RoleAddMembers svc session entityID roleID members ;; ret r.2
  | RoleListMembers session entityID roleID limit offset => r <- rolemgr.svc_RoleListMembers svc session entityID roleID limit offset ;; ret r.2
  | RoleCheckMembersExists session entityID roleID members => r <- rolemgr.svc_RoleCheckMembersExists svc session entityID roleID members ;; ret r.2
  | RoleRemoveAllMembers session entityID roleID => rolemgr.svc_RoleRemoveAllMembers svc session entityID roleID
  | ListEntityMembers session entityID pageQuery => r <- rolemgr.svc_ListEntityMembers svc session entityID pageQuery ;; ret r.2
  | RemoveEntityMembers session entityID members => rolemgr.svc_RemoveEntityMembers svc session entityID members
  | RoleRemoveMembers session entityID roleID members => rolemgr.svc_RoleRemoveMembers svc session entityID roleID members
  end.
Definition session_of (c : call) : authn.Session :=
  match c with
  | AddRole session _ _ _ _ => session
  | RemoveRole session _ _ => session
  | UpdateRoleName session _ _ _ => session
  | RetrieveRole session _ _ => session
  | RetrieveAllRoles session _ _ _ => session
  | ListAvailableActions session => session
  | RoleAddActions session _ _ _ => session
  | RoleListActions session _ _ => session
  | RoleCheckActionsExists session _ _ _ => session
  | RoleRemoveActions session _ _ _ => session
  | RoleRemoveAllActions session _ _ => session
  | RoleAddMembers session _ _ _ => session
  | RoleListMembers session _ _ _ _ => session
  | RoleCheckMembersExists session _ _ _ => session
  | RoleRemoveAllMembers session _ _ => session
  | ListEntityMembers session _ _ => session
  | RemoveEntityMembers session _ _ => session
  | RoleRemoveMembers session _ _ _ => session
  end.
Definition op_of (c : call) : Z :=
  match c with
  | AddRole _ _ _ _ _ => roles_ops.OpAddRole
  | RemoveRole _ _ _ => roles_ops.OpRemoveRole
  | UpdateRoleName _ _ _ _ => roles_ops.OpUpdateRoleName
  | RetrieveRole _ _ _ => roles_ops.OpRetrieveRole
  | RetrieveAllRoles _ _ _ _ => roles_ops.OpRetrieveAllRoles
  | ListAvailableActions _ => roles_ops.OpListAvailableActions
  | RoleAddActions _ _ _ _ => roles_ops.OpRoleAddActions
  | RoleListActions _ _ _ => roles_ops.OpRoleListActions
  | RoleCheckActionsExists _ _ _ _ => roles_ops.OpRoleCheckActionsExists
  | RoleRemoveActions _ _ _ _ => roles_ops.OpRoleRemoveActions
  | RoleRemoveAllActions _ _ _ => roles_ops.OpRoleRemoveAllActions
  | RoleAddMembers _ _ _ _ => roles_ops.OpRoleAddMembers
  | RoleListMembers _ _ _ _ _ => roles_ops.OpRoleListMembers
  | RoleCheckMembersExists _ _ _ _ => roles_ops.OpRoleCheckMembersExists
  | RoleRemoveAllMembers _ _ _ => roles_ops.OpRoleRemoveAllMembers
  | ListEntityMembers _ _ _ => roles_ops.OpRoleListMembers
  | RemoveEntityMembers _ _ _ => roles_ops.OpRoleRemoveAllMembers
  | RoleRemoveMembers _ _ _ _ => roles_ops.OpRoleRemoveMembers
  end.
Definition payload (c : call) : list (string * any) :=
  match c with
  | AddRole _ entityID roleName optionalActions optionalMembers => [("entity_id", AString entityID); ("role_name", AString roleName); ("optional_actions", AStrings optionalActions); ("optional_members", AStrings optionalMembers); ("count", ANum 1)]
  | RemoveRole _ entityID roleID => [("entity_id", AString entityID); ("role_id", AString roleID)]
  | UpdateRoleName _ entityID roleID newRoleName => [("entity_id", AString entityID); ("role_id", AString roleID); ("new_role_name", AString newRoleName)]
  | RetrieveRole _ entityID roleID => [("entity_id", AString entityID); ("role_id", AString roleID)]
  | RetrieveAllRoles _ entityID limit offset => [("entity_id", AString entityID); ("limit", ANum (Z.of_N limit)); ("offset", ANum (Z.of_N offset))]
  | ListAvailableActions _ => []
  | RoleAddActions _ entityID roleID actions => [("entity_id", AString entityID); ("role_id", AString roleID); ("actions", AStrings actions)]
  | RoleListActions _ entityID roleID => [("entity_id", AString entityID); ("role_id", AString roleID)]
  | RoleCheckActionsExists _ entityID roleID actions => [("entity_id", AString entityID); ("role_id", AString roleID); ("actions", AStrings actions)]
  | RoleRemoveActions _ entityID roleID actions => [("entity_id", AString entityID); ("role_id", AString roleID); ("actions", AStrings actions)]
  | RoleRemoveAllActions _ entityID roleID => [("entity_id", AString entityID); ("role_id", AString roleID)]
  | RoleAddMembers _ entityID roleID members => [("entity_id", AString entityID); ("role_id", AString roleID); ("members", AStrings members)]
  | RoleListMembers _ entityID roleID limit offset => [("entity_id", AString entityID); ("role_id", AString roleID); ("limit", ANum (Z.of_N limit)); ("offset", ANum (Z.of_N offset))]
  | RoleCheckMembersExists _ entityID roleID members => [("entity_id", AString entityID); ("role_id", AString roleID); ("members", AStrings members)]
  | RoleRemoveAllMembers _ entityID roleID => [("entity_id", AString entityID); ("role_id", AString roleID)]
  | ListEntityMembers _ entityID pageQuery => [("entity_id", AString entityID); ("page_query", AMembersQuery pageQuery)]
  | RemoveEntityMembers _ entityID members => [("entity_id", AString entityID); ("members", AStrings members)]
  | RoleRemoveMembers _ entityID roleID members => [("entity_id", AString entityID); ("role_id", AString roleID); ("members", AStrings members)]
  end.
End roles_calls.

Module clients_calls.
Import callout.
Inductive call :=
| CreateClients (session : authn.Session) (client : list clients.Client)
| View (session : authn.Session) (id : string) (withRoles : bool)
| ListClients (session : authn.Session) (pm : clients.Page)
| ListUserClients (session : authn.Session) (userID : string) (pm : clients.Page)
| Update (session : authn.Session) (client : clients.Client)
| UpdateTags (session : authn.Session) (client : clients.Client)
| UpdateSecret (session : authn.Session) (id : string) (key : string)
| Enable (session : authn.Session) (id : string)
| Disable (session : authn.Session) (id : string)
| Delete (session : authn.Session) (id : string)
| SetParentGroup (session : authn.Session) (parentGroupID : string) (id : string).
Definition run {W} (svc : clients_mw.Service W) (c : call) : St W error :=
  match c with
  | CreateClients session client => r <- clients_mw.svc_CreateClients svc session client ;; ret r.2
  | View session id withRoles => r <- clients_mw.svc_View svc session id withRoles ;; ret r.2
  | ListClients session pm => r <- clients_mw.svc_ListClients svc session pm ;; ret r.2
  | ListUserClients session userID pm => r <- clients_mw.svc_ListUserClients svc session userID pm ;; ret r.2
  | Update session client => r <- clients_mw.svc_Update svc session client ;; ret r.2
  | UpdateTags session client => r <- clients_mw.svc_UpdateTags svc session client ;; ret r.2
  | UpdateSecret session id key => r <- clients_mw.svc_UpdateSecret svc session id key ;; ret r.2
  | Enable session id => r <- clients_mw.svc_Enable svc session id ;; ret r.2
  | Disable session id => r <- clients_mw.svc_Disable svc session id ;; ret r.2
  | Delete session id => clients_mw.svc_Delete svc session id
  | SetParentGroup session parentGroupID id => clients_mw.svc_SetParentGroup svc session parentGroupID id
  end.
Definition session_of (c : call) : authn.Session :=
  match c with
  | CreateClients session _ => session
  | View session _ _ => session
  | ListClients session _ => session
  | ListUserClients session _ _ => session
  | Update session _ => session
  | UpdateTags session _ => session
  | UpdateSecret session _ _ => session
  | Enable session _ => session
  | Disable session _ => session
  | Delete session _ => session
  | SetParentGroup session _ _ => session
  end.
Definition type_of (c : call) : string :=
  match c with
  | CreateClients _ _ => policies.DomainType
  | View _ _ _ => policies.ClientType
  | ListClients _ _ => policies.DomainType
  | ListUserClients _ _ _ => policies.ClientType
  | Update _ _ => policies.ClientType
  | UpdateTags _ _ => policies.ClientType
  | UpdateSecret _ _ _ => policies.ClientType
  | Enable _ _ => policies.ClientType
  | Disable _ _ => policies.ClientType
  | Delete _ _ => policies.ClientType
  | SetParentGroup _ _ _ => policies.ClientType
  end.
Definition op_of (c : call) : Z :=
  match c with
  | CreateClients _ _ => domains_ops.OpCreateDomainClients
  | View _ _ _ => clients_ops.OpViewClient
  | ListClients _ _ => domains_ops.OpListDomainClients
  | ListUserClients _ _ _ => clients_ops.OpListUserClients
  | Update _ _ => clients_ops.OpUpdateClient
  | UpdateTags _ _ => clients_ops.OpUpdateClientTags
  | UpdateSecret _ _ _ => clients_ops.OpUpdateClientSecret
  | Enable _ _ => clients_ops.OpEnableClient
  | Disable _ _ => clients_ops.OpDisableClient
  | Delete _ _ => clients_ops.OpDeleteClient
  | SetParentGroup _ _ _ => clients_ops.OpSetParentGroup
  end.
Definition payload (c : call) : list (string * any) :=
  match c with
  | CreateClients _ client => [("entities", AClients client); ("count", ANum (Z.of_nat (length client)))]
  | View _ id _ => [("entity_id", AString id)]
  | ListClients _ pm => [("pagemeta", AClientPage pm)]
  | ListUserClients _ userID pm => [("user_id", AString userID); ("pagemeta", AClientPage pm)]
  | Update _ client => [("entity_id", AString (clients.ID client))]
  | UpdateTags _ client => [("entity_id", AString (clients.ID client))]
  | UpdateSecret _ id _ => [("entity_id", AString id)]
  | Enable _ id => [("entity_id", AString id)]
  | Disable _ id => [("entity_id", AString id)]
  | Delete _ id => [("entity_id", AString id)]
  | SetParentGroup _ parentGroupID id => [("entity_id", AString id); ("parent_id", AString parentGroupID)]
  end.
End clients_calls.

Module channels_calls.
Import callout.
Inductive call :=
| CreateChannels (session : authn.Session) (chs : list channels.Channel)
| ViewChannel (session : authn.Session) (id : string) (withRoles : bool)
| ListChannels (session : authn.Session) (pm : channels.Page)
| ListUserChannels (session : authn.Session) (userID : string) (pm : channels.Page)
| UpdateChannel (session : authn.Session) (channel : channels.Channel)
| UpdateChannelTags (session : authn.Session) (channel : channels.Channel)
| EnableChannel (session : authn.Session) (id : string)
| DisableChannel (session : authn.Session) (id : string)
| RemoveChannel (session : authn.Session) (id : string)
| Connect (session : authn.Session) (chIDs : list string) (thIDs : list string) (connTypes : list N)
| Disconnect (session : authn.Session) (chIDs : list string) (thIDs : list string) (connTypes : list N)
| SetParentGroup (session : authn.Session) (parentGroupID : string) (id : string).
Definition run {W} (svc : channels_mw.Service W) (c : call) : St W error :=
  match c with
  | CreateChannels session chs => r <- channels_mw.svc_CreateChannels svc session chs ;; ret r.2
  | ViewChannel session id withRoles => r <- channels_mw.svc_ViewChannel svc session id withRoles ;; ret r.2
  | ListChannels session pm => r <- channels_mw.svc_ListChannels svc session pm ;; ret r.2
  | ListUserChannels session userID pm => r <- channels_mw.svc_ListUserChannels svc session userID pm ;; ret r.2
  | UpdateChannel session channel => r <- channels_mw.svc_UpdateChannel svc session channel ;; ret r.2
  | UpdateChannelTags session channel => r <- channels_mw.svc_UpdateChannelTags svc session channel ;; ret r.2
  | EnableChannel session id => r <- channels_mw.svc_EnableChannel svc session id ;; ret r.2
  | DisableChannel session id => r <- channels_mw.svc_DisableChannel svc session id ;; ret r.2
  | RemoveChannel session id => channels_mw.svc_RemoveChannel svc session id
  | Connect session chIDs thIDs connTypes => channels_mw.svc_Connect svc session chIDs thIDs connTypes
  | Disconnect session chIDs thIDs connTypes => channels_mw.svc_Disconnect svc session chIDs thIDs connTypes
  | SetParentGroup session parentGroupID id => channels_mw.svc_SetParentGroup svc session parentGroupID id
  end.
Definition session_of (c : call) : authn.Session :=
  match c with
  | CreateChannels session _ => session
  | ViewChannel session _ _ => session
  | ListChannels session _ => session
  | ListUserChannels session _ _ => session
  | UpdateChannel session _ => session
  | UpdateChannelTags session _ => session
  | EnableChannel session _ => session
  | DisableChannel session _ => session
  | RemoveChannel session _ => session
  | Connect session _ _ _ => session
  | Disconnect session _ _ _ => session
  | SetParentGroup session _ _ => session
  end.
Definition type_of (c : call) : string :=
  match c with
  | CreateChannels _ _ => policies.DomainType
  | ViewChannel _ _ _ => policies.ChannelType
  | ListChannels _ _ => policies.DomainType
  | ListUserChannels _ _ _ => policies.ChannelType
  | UpdateChannel _ _ => policies.ChannelType
  | UpdateChannelTags _ _ => policies.ChannelType
  | EnableChannel _ _ => policies.ChannelType
  | DisableChannel _ _ => policies.ChannelType
  | RemoveChannel _ _ => policies.ChannelType
  | Connect _ _ _ _ => policies.ChannelType
  | Disconnect _ _ _ _ => policies.ChannelType
  | SetParentGroup _ _ _ => policies.ChannelType
  end.
Definition op_of (c : call) : Z :=
  match c with
  | CreateChannels _ _ => domains_ops.OpCreateDomainChannels
  | ViewChannel _ _ _ => channels_ops.OpViewChannel
  | ListChannels _ _ => domains_ops.OpListDomainChannels
  | ListUserChannels _ _ _ => channels_ops.OpListUserChannels
  | UpdateChannel _ _ => channels_ops.OpUpdateChannel
  | UpdateChannelTags _ _ => channels_ops.OpUpdateChannelTags
  | EnableChannel _ _ => channels_ops.OpEnableChannel
  | DisableChannel _ _ => channels_ops.OpDisableChannel
  | RemoveChannel _ _ => channels_ops.OpDeleteChannel
  | Connect _ _ _ _ => channels_ops.OpConnectClient
  | Disconnect _ _ _ _ => channels_ops.OpDisconnectClient
  | SetParentGroup _ _ _ => channels_ops.OpSetParentGroup
  end.
Definition payload (c : call) : list (string * any) :=
  match c with
  | CreateChannels _ chs => [("entities", AChannels chs); ("count", ANum (Z.of_nat (length chs)))]
  | ViewChannel _ id _ => [("entity_id", AString id)]
  | ListChannels _ pm => [("pagemeta", AChannelPage pm)]
  | ListUserChannels _ userID pm => [("user_id", AString userID); ("pagemeta", AChannelPage pm)]
  | UpdateChannel _ channel => [("entity_id", AString (channels.ID channel))]
  | UpdateChannelTags _ channel => [("entity_id", AString (channels.ID channel))]
  | EnableChannel _ id => [("entity_id", AString id)]
  | DisableChannel _ id => [("entity_id", AString id)]
  | RemoveChannel _ id => [("entity_id", AString id)]
  | Connect _ chIDs thIDs connTypes => [("channel_ids", AStrings chIDs); ("client_ids", AStrings thIDs); ("connection_types", AConnTypes connTypes)]
  | Disconnect _ chIDs thIDs connTypes => [("channel_ids", AStrings chIDs); ("client_ids", AStrings thIDs); ("connection_types", AConnTypes connTypes)]
  | SetParentGroup _ parentGroupID id => [("entity_id", AString id); ("parent_group_id", AString parentGroupID)]
  end.
End channels_calls.

Module groups_calls.
Import callout.
Inductive call :=
| CreateGroup (session : authn.Session) (g : groups.Group)
| UpdateGroup (session : authn.Session) (group : groups.Group)
| UpdateGroupTags (session : authn.Session) (group : groups.Group)
| ViewGroup (session : authn.Session) (id : string) (withRoles : bool)
| ListGroups (session : authn.Session) (gm : groups.PageMeta)
| ListUserGroups (session : authn.Session) (userID : string) (gm : groups.PageMeta)
| EnableGroup (session : authn.Session) (id : string)
| DisableGroup (session : authn.Session) (id : string)
| DeleteGroup (session : authn.Session) (id : string)
| RetrieveGroupHierarchy (session : authn.Session) (id : string) (hm : groups.HierarchyPageMeta)
| AddParentGroup (session : authn.Session) (id : string) (parentID : string)
| AddChildrenGroups (session : authn.Session) (id : string) (childrenGroupIDs : list string)
| RemoveChildrenGroups (session : authn.Session) (id : string) (childrenGroupIDs : list string)
| RemoveAllChildrenGroups (session : authn.Session) (id : string)
| ListChildrenGroups (session : authn.Session) (id : string) (startLevel : Z) (endLevel : Z) (pm : groups.PageMeta).
Definition run {W} (svc : groups_mw.Service W) (c : call) : St W error :=
  match c with
  | CreateGroup session g => r <- groups_mw.svc_CreateGroup svc session g ;; ret r.2
  | UpdateGroup session group => r <- groups_mw.svc_UpdateGroup svc session group ;; ret r.2
  | UpdateGroupTags session group => r <- groups_mw.svc_UpdateGroupTags svc session group ;; ret r.2
  | ViewGroup session id withRoles => r <- groups_mw.svc_ViewGroup svc session id withRoles ;; ret r.2
  | ListGroups session gm => r <- groups_mw.svc_ListGroups svc session gm ;; ret r.2
  | ListUserGroups session userID gm => r <- groups_mw.svc_ListUserGroups svc session userID gm ;; ret r.2
  | EnableGroup session id => r <- groups_mw.svc_EnableGroup svc session id ;; ret r.2
  | DisableGroup session id => r <- groups_mw.svc_DisableGroup svc session id ;; ret r.2
  | DeleteGroup session id => groups_mw.svc_DeleteGroup svc session id
  | RetrieveGroupHierarchy session id hm => r <- groups_mw.svc_RetrieveGroupHierarchy svc session id hm ;; ret r.2
  | AddParentGroup session id parentID => groups_mw.svc_AddParentGroup svc session id parentID
  | AddChildrenGroups session id childrenGroupIDs => groups_mw.svc_AddChildrenGroups svc session id childrenGroupIDs
  | RemoveChildrenGroups session id childrenGroupIDs => groups_mw.svc_RemoveChildrenGroups svc session id childrenGroupIDs
  | RemoveAllChildrenGroups session id => groups_mw.svc_RemoveAllChildrenGroups svc session id
  | ListChildrenGroups session id startLevel endLevel pm => r <- groups_mw.svc_ListChildrenGroups svc session id startLevel endLevel pm ;; ret r.2
  end.
Definition session_of (c : call) : authn.Session :=
  match c with
  | CreateGroup session _ => session
  | UpdateGroup session _ => session
  | UpdateGroupTags session _ => session
  | ViewGroup session _ _ => session
  | ListGroups session _ => session
  | ListUserGroups session _ _ => session
  | EnableGroup session _ => session
  | DisableGroup session _ => session
  | DeleteGroup session _ => session
  | RetrieveGroupHierarchy session _ _ => session
  | AddParentGroup session _ _ => session
  | AddChildrenGroups session _ _ => session
  | RemoveChildrenGroups session _ _ => session
  | RemoveAllChildrenGroups session _ => session
  | ListChildrenGroups session _ _ _ _ => session
  end.
Definition type_of (c : call) : string :=
  match c with
  | CreateGroup _ _ => policies.DomainType
  | UpdateGroup _ _ => policies.GroupType
  | UpdateGroupTags _ _ => policies.GroupType
  | ViewGroup _ _ _ => policies.GroupType
  | ListGroups _ _ => policies.DomainType
  | ListUserGroups _ _ _ => policies.GroupType
  | EnableGroup _ _ => policies.GroupType
  | DisableGroup _ _ => policies.GroupType
  | DeleteGroup _ _ => policies.GroupType
  | RetrieveGroupHierarchy _ _ _ => policies.GroupType
  | AddParentGroup _ _ _ => policies.GroupType
  | AddChildrenGroups _ _ _ => policies.GroupType
  | RemoveChildrenGroups _ _ _ => policies.GroupType
  | RemoveAllChildrenGroups _ _ => policies.GroupType
  | ListChildrenGroups _ _ _ _ _ => policies.GroupType
  end.
Definition op_of (c : call) : Z :=
  match c with
  | CreateGroup _ _ => domains_ops.OpCreateDomainGroups
  | UpdateGroup _ _ => groups_ops.OpUpdateGroup
  | UpdateGroupTags _ _ => groups_ops.OpUpdateGroupTags
  | ViewGroup _ _ _ => groups_ops.OpViewGroup
  | ListGroups _ _ => domains_ops.OpListDomainGroups
  | ListUserGroups _ _ _ => groups_ops.OpListUserGroups
  | EnableGroup _ _ => groups_ops.OpEnableGroup
  | DisableGroup _ _ => groups_ops.OpDisableGroup
  | DeleteGroup _ _ => groups_ops.OpDeleteGroup
  | RetrieveGroupHierarchy _ _ _ => groups_ops.OpRetrieveGroupHierarchy
  | AddParentGroup _ _ _ => groups_ops.OpAddParentGroup
  | AddChildrenGroups _ _ _ => groups_ops.OpAddChildrenGroups
  | RemoveChildrenGroups _ _ _ => groups_ops.OpRemoveChildrenGroups
  | RemoveAllChildrenGroups _ _ => groups_ops.OpRemoveAllChildrenGroups
  | ListChildrenGroups _ _ _ _ _ => groups_ops.OpListChildrenGroups
  end.
Definition payload (c : call) : list (string * any) :=
  match c with
  | CreateGroup _ g => [("entities", AGroups [g]); ("count", ANum 1)]
  | UpdateGroup _ group => [("entity_id", AString (groups.ID group)); ("group", AGroup group)]
  | UpdateGroupTags _ group => [("entity_id", AString (groups.ID group)); ("tags", AStrings (groups.Tags group))]
  | ViewGroup _ id _ => [("entity_id", AString id)]
  | ListGroups _ gm => [("pagemeta", AGroupPage gm)]
  | ListUserGroups _ userID gm => [("user_id", AString userID); ("pagemeta", AGroupPage gm)]
  | EnableGroup _ id => [("entity_id", AString id)]
  | DisableGroup _ id => [("entity_id", AString id)]
  | DeleteGroup _ id => [("entity_id", AString id)]
  | RetrieveGroupHierarchy _ id hm => [("entity_id", AString id); ("hierarchy_pagemeta", AHierarchyPage hm)]
  | AddParentGroup _ id parentID => [("entity_id", AString id); ("parent_id", AString parentID)]
  | AddChildrenGroups _ id childrenGroupIDs => [("entity_id", AString id); ("children_group_ids", AStrings childrenGroupIDs)]
  | RemoveChildrenGroups _ id childrenGroupIDs => [("entity_id", AString id); ("children_group_ids", AStrings childrenGroupIDs)]
  | RemoveAllChildrenGroups _ id => [("entity_id", AString id)]
  | ListChildrenGroups _ id startLevel endLevel pm => [("entity_id", AString id); ("start_level", ANum startLevel); ("end_level", ANum endLevel); ("pagemeta", AGroupPage pm)]
  end.
End groups_calls.

Module domains_calls.
Import callout.
Inductive call :=
| CreateDomain (session : authn.Session) (d : domains.Domain)
| RetrieveDomain (session : authn.Session) (id : string) (withRoles : bool)
| UpdateDomain (session : authn.Session) (id : string) (d : domains.DomainReq)
| EnableDomain (session : authn.Session) (id : string)
| DisableDomain (session : authn.Session) (id : string)
| FreezeDomain (session : authn.Session) (id : string)
| ListDomains (session : authn.Session) (page : domains.Page)
| SendInvitation (session : authn.Session) (invitation : domains.Invitation)
| ListInvitations (session : authn.Session) (page : domains.InvitationPageMeta)
| ListDomainInvitations (session : authn.Session) (page : domains.InvitationPageMeta)
| AcceptInvitation (session : authn.Session) (domainID : string)
| RejectInvitation (session : authn.Session) (domainID : string)
| DeleteInvitation (session : authn.Session) (inviteeUserID : string) (domainID : string).
Definition run {W} (svc : domains_mw.Service W) (c : call) : St W error :=
  match c with
  | CreateDomain session d => r <- domains_mw.svc_CreateDomain svc session d ;; ret r.2
  | RetrieveDomain session id withRoles => r <- domains_mw.svc_RetrieveDomain svc session id withRoles ;; ret r.2
  | UpdateDomain session id d => r <- domains_mw.svc_UpdateDomain svc session id d ;; ret r.2
  | EnableDomain session id => r <- domains_mw.svc_EnableDomain svc session id ;; ret r.2
  | DisableDomain session id => r <- domains_mw.svc_DisableDomain svc session id ;; ret r.2
  | FreezeDomain session id => r <- domains_mw.svc_FreezeDomain svc session id ;; ret r.2
  | ListDomains session page => r <- domains_mw.svc_ListDomains svc session page ;; ret r.2
  | SendInvitation session invitation => r <- domains_mw.svc_SendInvitation svc session invitation ;; ret r.2
  | ListInvitations session page => r <- domains_mw.svc_ListInvitations svc session page ;; ret r.2
  | ListDomainInvitations session page => r <- domains_mw.svc_ListDomainInvitations svc session page ;; ret r.2
  | AcceptInvitation session domainID => r <- domains_mw.svc_AcceptInvitation svc session domainID ;; ret r.2
  | RejectInvitation session domainID => r <- domains_mw.svc_RejectInvitation svc session domainID ;; ret r.2
  | DeleteInvitation session inviteeUserID domainID => domains_mw.svc_DeleteInvitation svc session inviteeUserID domainID
  end.
Definition session_of (c : call) : authn.Session :=
  match c with
  | CreateDomain session _ => session
  | RetrieveDomain session _ _ => session
  | UpdateDomain session _ _ => session
  | EnableDomain session _ => session
  | DisableDomain session _ => session
  | FreezeDomain session _ => session
  | ListDomains session _ => session
  | SendInvitation session _ => session
  | ListInvitations session _ => session
  | ListDomainInvitations session _ => session
  | AcceptInvitation session _ => session
  | RejectInvitation session _ => session
  | DeleteInvitation session _ _ => session
  end.
Definition type_of (c : call) : string :=
  match c with
  | CreateDomain _ _ => policies.DomainType
  | RetrieveDomain _ _ _ => policies.DomainType
  | UpdateDomain _ _ _ => policies.DomainType
  | EnableDomain _ _ => policies.DomainType
  | DisableDomain _ _ => policies.DomainType
  | FreezeDomain _ _ => policies.DomainType
  | ListDomains _ _ => policies.DomainType
  | SendInvitation _ _ => policies.DomainType
  | ListInvitations _ _ => policies.DomainType
  | ListDomainInvitations _ _ => policies.DomainType
  | AcceptInvitation _ _ => policies.DomainType
  | RejectInvitation _ _ => policies.DomainType
  | DeleteInvitation _ _ _ => policies.DomainType
  end.
Definition op_of (c : call) : Z :=
  match c with
  | CreateDomain _ _ => domains_ops.OpCreateDomain
  | RetrieveDomain _ _ _ => domains_ops.OpRetrieveDomain
  | UpdateDomain _ _ _ => domains_ops.OpUpdateDomain
  | EnableDomain _ _ => domains_ops.OpEnableDomain
  | DisableDomain _ _ => domains_ops.OpDisableDomain
  | FreezeDomain _ _ => domains_ops.OpFreezeDomain
  | ListDomains _ _ => domains_ops.OpListDomains
  | SendInvitation _ _ => domains_ops.OpSendDomainInvitation
  | ListInvitations _ _ => domains_ops.OpListInvitations
  | ListDomainInvitations _ _ => domains_ops.OpListDomainInvitations
  | AcceptInvitation _ _ => domains_ops.OpAcceptInvitation
  | RejectInvitation _ _ => domains_ops.OpRejectInvitation
  | DeleteInvitation _ _ _ => domains_ops.OpDeleteDomainInvitation
  end.
Definition payload (c : call) : list (string * any) :=
  match c with
  | CreateDomain _ d => [("entity_id", AString (domains.ID d))]
  | RetrieveDomain _ id withRoles => [("entity_id", AString id); ("with_roles", ABool withRoles)]
  | UpdateDomain _ id d => [("entity_id", AString id); ("domain_req", ADomainReq d)]
  | EnableDomain _ id => [("entity_id", AString id)]
  | DisableDomain _ id => [("entity_id", AString id)]
  | FreezeDomain _ id => [("entity_id", AString id)]
  | ListDomains _ page => [("page", ADomainPage page)]
  | SendInvitation _ invitation => [("entity_id", AString (domains.DomainID invitation)); ("invitation", AInvitation invitation)]
  | ListInvitations _ page => [("page", AInvitationPage page)]
  | ListDomainInvitations _ page => [("entity_id", AString (domains.im_DomainID page)); ("page", AInvitationPage page)]
  | AcceptInvitation _ domainID => [("entity_id", AString domainID)]
  | RejectInvitation _ domainID => [("entity_id", AString domainID)]
  | DeleteInvitation _ inviteeUserID domainID => [("entity_id", AString domainID); ("invitee_user_id", AString inviteeUserID)]
  end.
End domains_calls.

(** ** What a call needs *)
Section consent.
Import callout.
Context {W : Type}.

(** [outer] asks first: it ends with the error of the question, or as
    [inner] after it. *)
Definition consents (ask inner outer : St W error) : Prop :=
  forall w e w', outer w = (e, w') ->
    (exists w1, ask w = (None, w1) /\ inner w1 = (e, w')) \/ (e <> None /\ ask w = (e, w')).

Lemma consents_plain (ask inner : St W error) : consents ask inner (e <- ask ;; if_err e return_ ret e ;; inner).
Proof.
  intros w e w'. unfold bind, ret. destruct (ask w) as [[x|] w1]; [|by left; exists w1]. intros [= <- <-]. by right.
Qed.
Lemma consents_value {A} (ask : St W error) (inner : St W (A * error)) (z : A) :
  consents ask (r <- inner ;; ret r.2) (r <- (e <- ask ;; if_err e return_ ret (z, e) ;; inner) ;; ret r.2).
Proof.
  intros w e w'. unfold bind, ret. destruct (ask w) as [[x|] w1].
  - intros [= <- <-]. by right.
  - intros H. left. by exists w1.
Qed.

Context (now : St W Time).
Definition question (co : Callout W) (base : Time -> BaseRequest) (pld : list (string * any)) : St W error :=
  t <- now ;; Callout_ co (MkRequest (base t) pld).

(** The calls of the five services, each through its middleware. *)
Inductive any_call :=
| RoleCall (cm : roles_callout.RoleManagerCalloutMiddleware W) (c : roles_calls.call)
| ClientCall (cm : clients_callout.calloutMiddleware W) (c : clients_calls.call)
| ChannelCall (cm : channels_callout.calloutMiddleware W) (c : channels_calls.call)
| GroupCall (cm : groups_callout.calloutMiddleware W) (c : groups_calls.call)
| DomainCall (cm : domains_callout.calloutMiddleware W) (c : domains_calls.call).

Definition run_outer (c : any_call) : St W error :=
  match c with
  | RoleCall cm c => roles_calls.run (roles_callout.middleware now cm) c
  | ClientCall cm c => clients_calls.run (clients_callout.middleware now cm) c
  | ChannelCall cm c => channels_calls.run (channels_callout.middleware now cm) c
  | GroupCall cm c => groups_calls.run (groups_callout.middleware now cm) c
  | DomainCall cm c => domains_calls.run (domains_callout.middleware now cm) c
  end.
Definition run_inner (c : any_call) : St W error :=
  match c with
  | RoleCall cm c => roles_calls.run (roles_callout.svc cm) c
  | ClientCall cm c => clients_calls.run (clients_callout.svc cm) c
  | ChannelCall cm c => channels_calls.run (channels_callout.svc cm) c
  | GroupCall cm c => groups_calls.run (groups_callout.svc cm) c
  | DomainCall cm c => domains_calls.run (domains_callout.svc cm) c
  end.
Definition callout_of (c : any_call) : Callout W :=
  match c with
  | RoleCall cm _ => roles_callout.callout_ cm | ClientCall cm _ => clients_callout.callout_ cm
  | ChannelCall cm _ => channels_callout.callout_ cm | GroupCall cm _ => groups_callout.callout_ cm
  | DomainCall cm _ => domains_callout.callout_ cm
  end.
(** The name of the operation, as it is registered for the entity type. *)
Definition operation_of (c : any_call) : string :=
  match c with
  | RoleCall cm c => OperationName (roles_callout.roleOps cm) (roles_calls.op_of c)
  | ClientCall cm c => entities_OperationName (clients_callout.entitiesOps cm) (clients_calls.type_of c) (clients_calls.op_of c)
  | ChannelCall cm c =>
      entities_OperationName (channels_callout.entitiesOps cm) (channels_calls.type_of c) (channels_calls.op_of c)
  | GroupCall cm c => entities_OperationName (groups_callout.entitiesOps cm) (groups_calls.type_of c) (groups_calls.op_of c)
  | DomainCall cm c => entities_OperationName (domains_callout.entitiesOps cm) (domains_calls.type_of c) (domains_calls.op_of c)
  end.
Definition payload_of (c : any_call) : list (string * any) :=
  match c with
  | RoleCall _ c => roles_calls.payload c | ClientCall _ c => clients_calls.payload c
  | ChannelCall _ c => channels_calls.payload c | GroupCall _ c => groups_calls.payload c
  | DomainCall _ c => domains_calls.payload c
  end.
Definition caller_of (c : any_call) : authn.Session :=
  match c with
  | RoleCall _ c => roles_calls.session_of c | ClientCall _ c => clients_calls.session_of c
  | ChannelCall _ c => channels_calls.session_of c | GroupCall _ c => groups_calls.session_of c
  | DomainCall _ c => domains_calls.session_of c
  end.
Definition type_of (c : any_call) : string :=
  match c with
  | RoleCall cm _ => roles_callout.entityType cm | ClientCall _ c => clients_calls.type_of c
  | ChannelCall _ c => channels_calls.type_of c | GroupCall _ c => groups_calls.type_of c
  | DomainCall _ c => domains_calls.type_of c
  end.
Definition base_of (c : any_call) (t : Time) : BaseRequest :=
  let id := entity_id (payload_of c) in
  MkBaseRequest (operation_of c) (type_of c) id (authn.UserID (caller_of c)) policies.UserType
    (match c with DomainCall _ _ => id | _ => authn.DomainID (caller_of c) end) t.

Lemma calls_consent c : consents (question (callout_of c) (base_of c) (payload_of c)) (run_inner c) (run_outer c).
Proof.
  destruct c as [cm c|cm c|cm c|cm c|cm c]; destruct c; first [apply consents_plain|apply consents_value].
Qed.

(** *** The questions that are asked *)
Context (H : httplib W) (co : callout).
(** [log] has every request that was sent, with what came back for it. *)
Definition exchange : Type := HttpRequest * (Response * error).
Context {V : Type} (view : W -> V) (log : W -> list exchange).
Context (now_view : frames now view) (now_log : frames now log).
Context (do_view : forall r, frames (Do H r) view).
Context (do_log : forall r w x w', Do H r w = (x, w') -> log w' = log w ++ [(r, x)]).

Definition asked (req : Request) (url : string) (r : HttpRequest) : Prop := httpRequest H co url req = (Some r, None).
(** The request was answered, with 200. *)
Definition granted (x : exchange) : Prop := exists resp, x.2 = (resp, None) /\ StatusCode resp = StatusOK.
(** The error of one that was not: that of the request, or an SDK error with
    the body and the status of the answer. *)
Definition refusal (x : exchange) : error :=
  match x.2 with
  | (resp, None) =>
      match Body resp with
      | (msg, None) => NewSDKErrorWithStatus (Some (Errors.New msg)) (StatusCode resp)
      | (_, e) => NewSDKErrorWithStatus (WrapE errFailedToRead e) 500
      end
  | (_, e) => e
  end.

(** How a question ends at an address: the request could not be made and
    nothing was sent, or it was not granted. *)
Definition ended (req : Request) (url : string) (e : error) (q : list exchange) : Prop :=
  (q = [] /\ (httpRequest H co url req).2 = e)
  \/ exists x, q = [x] /\ asked req url x.1 /\ ~ granted x /\ e = refusal x.

Lemma refusal_not_nil x : ~ granted x -> refusal x <> None.
Proof.
  unfold granted, refusal. destruct x as [r [resp [x|]]]; simpl; [done|]. intros _.
  destruct (Body resp) as [msg [x|]]; [|done]. unfold NewSDKErrorWithStatus.
  destruct (WrapE errFailedToRead (Some x)) as [[]|] eqn:E; [done..|]. by apply WrapE_not_nil in E.
Qed.

Lemma makeRequest_cases url req w e w' : makeRequest H co url req w = (e, w') ->
  view w' = view w
  /\ match e with
     | None => (exists x, asked req url x.1 /\ granted x /\ log w' = log w ++ [x]) \/ httpRequest H co url req = (None, None)
     | Some _ => exists q, log w' = log w ++ q /\ ended req url e q
     end.
Proof.
  unfold makeRequest, asked.
  destruct (httpRequest H co url req) as [[r|] [x|]] eqn:Er;
    try (intros [= <- <-]; split; [done|]; exists []; rewrite app_nil_r; split; [done|]; left; by rewrite Er).
  2: { intros [= <- <-]. by split; [|right]. }
  unfold bind, ret. destruct (Do H r w) as [[resp er] w1] eqn:Ed.
  pose proof (frames_eq _ _ _ _ _ (do_view r) Ed) as Hv; pose proof (do_log _ _ _ _ Ed) as Hl.
  destruct er as [x|].
  { intros [= <- <-]. split; [done|]. exists [(r, (resp, Some x))]. split; [done|]. right. eexists. split; [done|].
    split; [done|]. split; [by intros (? & ? & ?)|done]. }
  destruct (Z.eqb_spec (StatusCode resp) StatusOK) as [Hs|Hs]; simpl.
  { intros [= <- <-]. split; [done|]. left. exists (r, (resp, None)). split; [done|]. split; [by exists resp|done]. }
  assert (Hng : ~ granted (r, (resp, None))) by (intros (y & [= <-] & ?); done).
  pose proof (refusal_not_nil _ Hng) as Hnn. intros Hr.
  assert (e = refusal (r, (resp, None)) /\ w' = w1) as [-> ->].
  { unfold refusal. simpl. destruct (Body resp) as [msg [x|]]; by injection Hr as <- <-. }
  split; [done|]. destruct (refusal _) eqn:Ex; [|done]. exists [(r, (resp, None))]. split; [done|].
  right. eexists. by rewrite Ex.
Qed.

(** All the addresses were asked, in order, and granted the call. *)
Definition all_granted (req : Request) (urls : list string) (xs : list exchange) : Prop :=
  Forall2 (fun url x => asked req url x.1) urls xs /\ Forall granted xs.

Lemma callout_loop req us w r w' : (forall url, httpRequest H co url req <> (None, None)) ->
  for_each us (fun url => e <- makeRequest H co url req ;; if_err e return_ ret (Some e) ;; ret None) w = (r, w') ->
  view w' = view w
  /\ match r with
     | None => exists xs, all_granted req us xs /\ log w' = log w ++ xs
     | Some e => e <> None /\ exists before url after xs q, us = before ++ url :: after /\ all_granted req before xs
         /\ log w' = log w ++ xs ++ q /\ ended req url e q
     end.
Proof.
  intros Hsome. revert w. induction us as [|u us IH]; intros w; cbn [for_each].
  { intros [= <- <-]. split; [done|]. exists []. by rewrite app_nil_r. }
  unfold bind, ret. destruct (makeRequest H co u req w) as [[x|] w1] eqn:E; apply makeRequest_cases in E as [Hv Hc].
  - intros [= <- <-]. split; [done|]. split; [done|]. destruct Hc as (q & Hl & Hq).
    exists [], u, us, [], q. by split_and!.
  - destruct Hc as [(q & Ha & Hg & Hl)|Hc]; [|by apply Hsome in Hc].
    intros [Hv' Hr]%IH. split; [congruence|]. destruct r as [e|].
    + destruct Hr as (He & b & url & a & xs & q' & -> & [Hb1 Hb2] & Hlog & Hend). split; [done|].
      exists (u :: b), url, a, (q :: xs), q'. split; [done|]. split; [split; by constructor|]. split; [|done].
      by rewrite Hlog, Hl, <- app_assoc.
    + destruct Hr as (xs & [Hb1 Hb2] & Hlog). exists (q :: xs). split; [split; by constructor|].
      by rewrite Hlog, Hl, <- app_assoc.
Qed.

(** The call is made, after all the addresses granted it; it is not made,
    since one of them ended the questions. *)
Definition made (req : Request) (inner : St W error) (w : W) (r : error * W) : Prop :=
  exists xs w1, all_granted req (urls co) xs /\ log w1 = log w ++ xs /\ view w1 = view w /\ inner w1 = r.
Definition stopped (req : Request) (w : W) (e : error) (w' : W) : Prop :=
  view w' = view w
  /\ exists before url after xs q, urls co = before ++ url :: after /\ all_granted req before xs
     /\ log w' = log w ++ xs ++ q /\ ended req url e q.

End consent.

(** ** Example: two addresses, one of which refuses to remove roles *)
Module callout_example.
Import callout.
Abbreviation state := (memroles.state (list exchange)).
Definition web : httplib state :=
  {| NewRequest := fun _ _ => None;
     Do := fun r s => let x := (MkResponse (if hr_URL r =s "https://b" then 403 else 200) ("no", None), None) in
       (x, (s.1, s.2 ++ [(r, x)]));
     MarshalRequest := fun req => (chars (Operation (Base req)), None);
     Sprint := fun _ => "" |}.
Definition config : callout := {| urls := ["https://a"; "https://b"]; method := MethodPost; allowedOperation := ["remove_role"] |}.
Definition ops : operations :=
  MkOperations ∅ {[roles_ops.OpRemoveRole := MkOperationDetails "remove_role" true;
                   roles_ops.OpAddRole := MkOperationDetails "add_role" true]}.
Definition manager : rolemgr.RoleManager state :=
  services.roles_manager memroles.now (memroles.svc "group" ["read"; "update"] [("admin", ["read"])]).
Definition cm : roles_callout.RoleManagerCalloutMiddleware state :=
  {| roles_callout.svc := manager; roles_callout.callout_ := NewCallout web config; roles_callout.entityType := "group";
     roles_callout.roleOps := ops |}.
Definition start : state := ((∅, ∅), []).
Definition removal : any_call := RoleCall cm (roles_calls.RemoveRole roles_example.alice "g1" "r1").
Definition addition : any_call := RoleCall cm (roles_calls.AddRole roles_example.alice "g1" "r" ["read"] []).
Definition refused := run_outer memroles.now removal start.
(** Nobody is asked about an operation that is not configured. *)
Example not_asked : let r := run_outer memroles.now addition start in r.1 = None /\ r.2.2 = [].
Proof. vm_compute. by split. Qed.
Example question_text :
  toURL web (MkRequest (MkBaseRequest "view" "client" "c 1" "u" "user" "" 0) [("entity_id", AString "c 2"); ("x", AString "a&b")])
  = ("caller_id=u&caller_type=user&entity_id=c+1&entity_type=client&operation=view&time=0001-01-01T00%3A00%3A00Z&x=a%26b", None).
Proof. vm_compute. reflexivity. Qed.

Definition question_of (c : any_call (W := state)) : Request := MkRequest (base_of c (memroles.now start).1) (payload_of c).
End callout_example.
