(* ===== verification/Events.v ===== *)
(** * Events: what a service tells the others

    Source: src/pkg/events/events.go and nats/publisher.go, subscriber.go
    (the event store of the default build); the role events of
    src/pkg/roles/rolemanager/events/events.go and streams.go and their
    consumer, src/pkg/roles/rolemanager/events/consumer.

    A service is wrapped in an event store, a middleware with the service's
    interface that publishes an event after every successful call.  An event
    is a map of strings to Go values ([event]); the publisher writes it as
    JSON, and the consumers of the other services get the decoded map.  The
    broker is a parameter.  JSON text is left out: a payload is the JSON
    value.  Nil and empty slices are one in the model and written as null;
    strings are taken to be valid UTF-8. *)

From S2P Require Import Prelude GoStd GoTime Errors Policies Authn Roles Pat Auth Connections Domains Clients Channels Groups.
From S2P Require Import Users Permissions Authz Guards.

(** ** src/pkg/events *)
Module events.
Definition is_empty {A} (l : list A) : bool := match l with [] => true | _ => false end.

(** The values of the events. *)
Inductive any :=
| AString (s : string)
| ABool (b : bool)
| AUint (n : N)
| AInt (z : Z)
| ATime (t : Time)
| AStrings (l : list string)
| AMetadata (m : Metadata)
| ANullable (v : option string)
| ARoles (l : list roles.RoleProvision)
| ATypes (l : list N).
(** map[string]any, the keys of which are distinct. *)
Definition event : Type := list (string * any).
Fixpoint remove (k : string) (m : event) : event :=
  match m with [] => [] | (k', v) :: m' => if k =s k' then remove k m' else (k', v) :: remove k m' end.
Definition put (k : string) (v : any) (m : event) : event := (k, v) :: remove k m.
(** [if c { val[k] = v }] *)
Definition put_if (c : bool) (k : string) (v : any) (m : event) : event := if c then put k v m else m.

Record Publisher (W : Type) := { Publish : string -> event -> St W error }.
Arguments Publish {W}.
(** The decoded event, which a handler gets. *)
Definition data : Type := list (string * Json).
Definition EventHandler (W : Type) : Type := data -> St W error.

(** *** encoding/json *)
Definition Z_text (z : Z) : string := if Z.ltb z 0 then "-" +:+ pretty (Z.to_N (- z)) else pretty (Z.to_N z).
Definition json_strings (l : list string) : Json := match l with [] => JNull | _ => JArray (map JString l) end.
Definition json_time (t : Time) : option Json := JString <$> MarshalText t.
(** roles.RoleProvision, with the tags of its fields. *)
Definition json_role (rp : roles.RoleProvision) : option Json :=
  let r := roles.Role_ rp in
  created ← json_time (roles.CreatedAt r); updated ← json_time (roles.UpdatedAt r);
  Some (JObject [("id", JString (roles.ID r)); ("name", JString (roles.Name r)); ("entity_id", JString (roles.EntityID r));
    ("created_by", JString (roles.CreatedBy r)); ("created_at", created); ("updated_by", JString (roles.UpdatedBy r));
    ("updated_at", updated); ("optional_actions", json_strings (roles.OptionalActions rp));
    ("optional_members", json_strings (roles.OptionalMembers rp))]).
Definition marshal (v : any) : option Json :=
  match v with
  | AString s => Some (JString s)
  | ABool b => Some (JBool b)
  | AUint n => Some (JNumber (pretty n))
  | AInt z => Some (JNumber (Z_text z))
  | ATime t => json_time t
  | AStrings l => Some (json_strings l)
  | AMetadata m => Some (from_option JObject JNull m)
  | ANullable v => Some (from_option JString JNull v)
  | ARoles [] => Some JNull
  | ARoles l => JArray <$> mapM json_role l
  | ATypes l => Some (json_strings (map connections.ConnType_String l))
  end.
Definition marshal_map (m : event) : option data :=
  mapM (fun kv => j ← marshal kv.2; Some (kv.1, j)) m.

(** *** nats/publisher.go, subscriber.go *)
Definition unixEpoch : Time := 62135596800 * Second.
Definition MarshalError : err := Errorf "json: error calling MarshalJSON for type time.Time: year outside of range [0,9999]".
Section nats.
Context {W : Type} (now : St W Time) (broker : string -> data -> St W error).
Definition nats_Publish (stream : string) (values : event) : St W error :=
  t <- now ;;
  let values := put "occurred_at" (AInt (t - unixEpoch)) values in
  match marshal_map values with
  | None => ret (Some MarshalError)
  | Some data => broker stream data
  end.
Definition NewPublisher : Publisher W := {| Publish := nats_Publish |}.
Definition nats_Handle (handler : EventHandler W) (payload : data) : St W error :=
  err <- handler payload ;;
  if_err err return_ ret (Some (Errorf ("failed to handle nats event: " +:+ from_option Error "" err))) ;;
  ret None.
End nats.

(** *** Type assertions on the decoded map *)
Definition as_string (d : data) (k : string) : option string :=
  match roles.map_lookup k d with Some (JString s) => Some s | _ => None end.
Definition as_array (d : data) (k : string) : option (list Json) :=
  match roles.map_lookup k d with Some (JArray l) => Some l | _ => None end.
Definition as_object (d : data) (k : string) : option data :=
  match roles.map_lookup k d with Some (JObject m) => Some m | _ => None end.
(** [s, ok := data[k].(string); if ok { t, err := time.Parse(layout, s) ...] *)
Definition as_time (d : data) (k : string) : option Time * error :=
  match as_string d k with
  | None => (None, None)
  | Some s => match Parse s with (t, None) => (Some t, None) | (_, e) => (None, e) end
  end.

(** [x, ok := o; if !ok { return r }] *)
Notation "x <-ok o 'or_return' r ;; k" := (match o with Some x => k | None => r end)
  (at level 20, o at level 99, r at level 99, k at level 200) : go_scope.
(** [if ok { r.f = x }] *)
Definition set_opt {T R} (set : T -> R -> R) (o : option T) (r : R) : R :=
  match o with Some x => set x r | None => r end.
End events.

(** ** Lookups in an event *)
Section lookup.
Import events roles.
Lemma lookup_remove k k' (m : event) :
  map_lookup k (remove k' m) = if k =s k' then None else map_lookup k m.
Proof.
  induction m as [|[x v] m IH]; simpl; [by destruct (k =s k')|].
  destruct (String.eqb_spec k' x) as [->|Hx]; simpl; rewrite IH.
  - by destruct (k =s x).
  - destruct (String.eqb_spec k x) as [->|]; [|done]. by destruct (String.eqb_spec x k') as [->|].
Qed.
Lemma lookup_put k k' v (m : event) : map_lookup k (put k' v m) = if k =s k' then Some v else map_lookup k m.
Proof. unfold put. simpl. rewrite lookup_remove. by destruct (k =s k'). Qed.
Lemma lookup_put_if c k k' v (m : event) :
  map_lookup k (put_if c k' v m) = if k =s k' then if c then Some v else map_lookup k m else map_lookup k m.
Proof. destruct c; simpl; [apply lookup_put|by destruct (k =s k')]. Qed.

(** The JSON of a field. *)
Lemma marshal_lookup m d k : marshal_map m = Some d ->
  map_lookup k d = map_lookup k m ≫= marshal /\ (is_Some (map_lookup k m) -> is_Some (map_lookup k m ≫= marshal)).
Proof.
  unfold marshal_map. revert d. induction m as [|[x v] m IH]; intros d; simpl; [intros [= <-]; split; [done|by intros []]|].
  destruct (marshal v) as [j|] eqn:Hj; simpl; [|done]. destruct (mapM _ m) as [d'|]; simpl; [|done].
  intros [= <-]. simpl. destruct (k =s x); simpl; [by rewrite Hj|by apply IH].
Qed.
End lookup.

(** ** src/pkg/roles/rolemanager/events/events.go: the events, as what their
    Encode gives from the fields of the struct *)
Module role_events.
Import events.
Definition AddRole := "role.add".
Definition RemoveRole := "role.remove".
Definition UpdateRole := "role.update".
Definition ViewRole := "role.view".
Definition ViewAllRole := "role.view_all".
Definition ListAvailableActions := "role.list_available_actions".
Definition AddRoleActions := "role.actions.add".
Definition ListRoleActions := "role.actions.ist".
Definition CheckRoleActions := "role.actions.check".
Definition RemoveRoleActions := "role.actions.remove".
Definition RemoveAllRoleActions := "role.actions.remove_all".
Definition AddRoleMembers := "role.members.add".
Definition ListRoleMembers := "role.members.list".
Definition CheckRoleMembers := "role.members.check".
Definition RemoveRoleMembers := "role.members.remove".
Definition RemoveRoleAllMembers := "role.members.remove_all".
Definition ListEntityMembers := "members.list".
Definition RemoveEntityMembers := "members.remove".
Definition RemoveMemberFromAllRoles := "role.members.remove_from_all_roles".

Definition addRoleEvent (operationPrefix : string) (rp : roles.RoleProvision) (requestID : string) : event :=
  [ ("operation", AString (operationPrefix +:+ AddRole));
    ("id", AString (roles.ID (roles.Role_ rp)));
    ("name", AString (roles.Name (roles.Role_ rp)));
    ("entity_id", AString (roles.EntityID (roles.Role_ rp)));
    ("created_by", AString (roles.CreatedBy (roles.Role_ rp)));
    ("created_at", ATime (roles.CreatedAt (roles.Role_ rp)));
    ("updated_by", AString (roles.UpdatedBy (roles.Role_ rp)));
    ("updated_at", ATime (roles.UpdatedAt (roles.Role_ rp)));
    ("optional_actions", AStrings (roles.OptionalActions rp));
    ("optional_members", AStrings (roles.OptionalMembers rp));
    ("request_id", AString requestID)].
Definition removeRoleEvent (operationPrefix : string) (entityID : string) (roleID : string) (requestID : string) : event :=
  [ ("operation", AString (operationPrefix +:+ RemoveRole));
    ("entity_id", AString entityID);
    ("role_id", AString roleID);
    ("request_id", AString requestID)].
Definition updateRoleEvent (operationPrefix : string) (role : roles.Role) (requestID : string) : event :=
  [ ("operation", AString (operationPrefix +:+ UpdateRole));
    ("id", AString (roles.ID role));
    ("name", AString (roles.Name role));
    ("entity_id", AString (roles.EntityID role));
    ("created_by", AString (roles.CreatedBy role));
    ("created_at", ATime (roles.CreatedAt role));
    ("updated_by", AString (roles.UpdatedBy role));
    ("updated_at", ATime (roles.UpdatedAt role));
    ("request_id", AString requestID)].
Definition retrieveRoleEvent (operationPrefix : string) (role : roles.Role) (requestID : string) : event :=
  [ ("operation", AString (operationPrefix +:+ ViewRole));
    ("id", AString (roles.ID role));
    ("name", AString (roles.Name role));
    ("entity_id", AString (roles.EntityID role));
    ("created_by", AString (roles.CreatedBy role));
    ("created_at", ATime (roles.CreatedAt role));
    ("updated_by", AString (roles.UpdatedBy role));
    ("updated_at", ATime (roles.UpdatedAt role));
    ("request_id", AString requestID)].
Definition retrieveAllRolesEvent (operationPrefix : string) (entityID : string) (limit : N) (offset : N) (requestID : string) : event :=
  [ ("operation", AString (operationPrefix +:+ ViewAllRole));
    ("entity_id", AString entityID);
    ("limit", AUint limit);
    ("offset", AUint offset);
    ("request_id", AString requestID)].
Definition listAvailableActionsEvent (operationPrefix : string) (requestID : string) : event :=
  [ ("operation", AString (operationPrefix +:+ ListAvailableActions));
    ("request_id", AString requestID)].
Definition roleAddActionsEvent (operationPrefix : string) (entityID : string) (roleID : string) (actions : list string) (requestID : string) : event :=
  [ ("operation", AString (operationPrefix +:+ AddRoleActions));
    ("entity_id", AString entityID);
    ("role_id", AString roleID);
    ("actions", AStrings actions);
    ("request_id", AString requestID)].
Definition roleListActionsEvent (operationPrefix : string) (entityID : string) (roleID : string) (requestID : string) : event :=
  [ ("operation", AString (operationPrefix +:+ ListRoleActions));
    ("entity_id", AString entityID);
    ("role_id", AString roleID);
    ("request_id", AString requestID)].
Definition roleCheckActionsExistsEvent (operationPrefix : string) (entityID : string) (roleID : string) (actions : list string) (isAllExists : bool) (requestID : string) : event :=
  [ ("operation", AString (operationPrefix +:+ CheckRoleActions));
    ("entity_id", AString entityID);
    ("role_id", AString roleID);
    ("actions", AStrings actions);
    ("is_all_exists", ABool isAllExists);
    ("request_id", AString requestID)].
Definition roleRemoveActionsEvent (operationPrefix : string) (entityID : string) (roleID : string) (actions : list string) (requestID : string) : event :=
  [ ("operation", AString (operationPrefix +:+ RemoveRoleActions));
    ("entity_id", AString entityID);
    ("role_id", AString roleID);
    ("actions", AStrings actions);
    ("request_id", AString requestID)].
Definition roleRemoveAllActionsEvent (operationPrefix : string) (entityID : string) (roleID : string) (requestID : string) : event :=
  [ ("operation", AString (operationPrefix +:+ RemoveAllRoleActions));
    ("entity_id", AString entityID);
    ("role_id", AString roleID);
    ("request_id", AString requestID)].
Definition roleAddMembersEvent (operationPrefix : string) (entityID : string) (roleID : string) (members : list string) (requestID : string) : event :=
  [ ("operation", AString (operationPrefix +:+ AddRoleMembers));
    ("entity_id", AString entityID);
    ("role_id", AString roleID);
    ("members", AStrings members);
    ("request_id", AString requestID)].
Definition roleListMembersEvent (operationPrefix : string) (entityID : string) (roleID : string) (limit : N) (offset : N) (requestID : string) : event :=
  [ ("operation", AString (operationPrefix +:+ ListRoleMembers));
    ("entity_id", AString entityID);
    ("role_id", AString roleID);
    ("limit", AUint limit);
    ("offset", AUint offset);
    ("request_id", AString requestID)].
Definition roleCheckMembersExistsEvent (operationPrefix : string) (entityID : string) (roleID : string) (members : list string) (requestID : string) : event :=
  [ ("operation", AString (operationPrefix +:+ CheckRoleMembers));
    ("entity_id", AString entityID);
    ("role_id", AString roleID);
    ("members", AStrings members);
    ("request_id", AString requestID)].
Definition roleRemoveMembersEvent (operationPrefix : string) (entityID : string) (roleID : string) (members : list string) (requestID : string) : event :=
  [ ("operation", AString (operationPrefix +:+ RemoveRoleMembers));
    ("entity_id", AString entityID);
    ("role_id", AString roleID);
    ("members", AStrings members);
    ("request_id", AString requestID)].
Definition roleRemoveAllMembersEvent (operationPrefix : string) (entityID : string) (roleID : string) (requestID : string) : event :=
  [ ("operation", AString (operationPrefix +:+ RemoveRoleAllMembers));
    ("entity_id", AString entityID);
    ("role_id", AString roleID);
    ("request_id", AString requestID)].
Definition listEntityMembersEvent (operationPrefix : string) (entityID : string) (limit : N) (offset : N) (requestID : string) : event :=
  [ ("operation", AString (operationPrefix +:+ ListEntityMembers));
    ("entity_id", AString entityID);
    ("limit", AUint limit);
    ("offset", AUint offset);
    ("request_id", AString requestID)].
Definition removeEntityMembersEvent (operationPrefix : string) (entityID : string) (members : list string) (requestID : string) : event :=
  [ ("operation", AString (operationPrefix +:+ RemoveEntityMembers));
    ("entity_id", AString entityID);
    ("members", AStrings members);
    ("request_id", AString requestID)].
Definition removeMemberFromAllRolesEvent (operationPrefix : string) (memberID : string) (requestID : string) : event :=
  [ ("operation", AString (operationPrefix +:+ RemoveMemberFromAllRoles));
    ("member_id", AString memberID);
    ("request_id", AString requestID)].
End role_events.

(** ** src/pkg/roles/rolemanager/events/streams.go; the request identifier of
    the context is [reqID] *)
Module role_store.
Import events role_events.
Definition supermqPrefix := "supermq.".
Definition rolesPrefix := "roles".
Section store.
Context {W : Type} (publisher : Publisher W) (svc : rolemgr.RoleManager W) (operationPrefix : string) (reqID : string).
Definition streamID : string := supermqPrefix +:+ operationPrefix +:+ rolesPrefix.

Definition AddRole (session : authn.Session) (entityID : string) (roleName : string) (optionalActions : list string) (optionalMembers : list string) : St W (roles.RoleProvision * error) :=
  '(nrp, err) <- rolemgr.svc_AddRole svc session entityID roleName optionalActions optionalMembers ;;
  if_err err return_ ret (nrp, err) ;;
  err <- Publish publisher streamID (addRoleEvent operationPrefix nrp reqID) ;;
  if_err err return_ ret (nrp, err) ;;
  ret (nrp, None).
Definition RemoveRole (session : authn.Session) (entityID : string) (roleID : string) : St W error :=
  err <- rolemgr.svc_RemoveRole svc session entityID roleID ;;
  if_err err return_ ret err ;;
  err <- Publish publisher streamID (removeRoleEvent operationPrefix entityID roleID reqID) ;;
  if_err err return_ ret err ;;
  ret None.
Definition UpdateRoleName (session : authn.Session) (entityID : string) (roleID : string) (newRoleName : string) : St W (roles.Role * error) :=
  '(ro, err) <- rolemgr.svc_UpdateRoleName svc session entityID roleID newRoleName ;;
  if_err err return_ ret (ro, err) ;;
  err <- Publish publisher streamID (updateRoleEvent operationPrefix ro reqID) ;;
  if_err err return_ ret (ro, err) ;;
  ret (ro, None).
Definition RetrieveRole (session : authn.Session) (entityID : string) (roleID : string) : St W (roles.Role * error) :=
  '(ro, err) <- rolemgr.svc_RetrieveRole svc session entityID roleID ;;
  if_err err return_ ret (ro, err) ;;
  err <- Publish publisher streamID (retrieveRoleEvent operationPrefix ro reqID) ;;
  if_err err return_ ret (ro, err) ;;
  ret (ro, None).
Definition RetrieveAllRoles (session : authn.Session) (entityID : string) (limit : N) (offset : N) : St W (roles.RolePage * error) :=
  '(rp, err) <- rolemgr.svc_RetrieveAllRoles svc session entityID limit offset ;;
  if_err err return_ ret (rp, err) ;;
  err <- Publish publisher streamID (retrieveAllRolesEvent operationPrefix entityID limit offset reqID) ;;
  if_err err return_ ret (rp, err) ;;
  ret (rp, None).
Definition ListAvailableActions (session : authn.Session) : St W (list string * error) :=
  '(actions, err) <- rolemgr.svc_ListAvailableActions svc session ;;
  if_err err return_ ret (actions, err) ;;
  err <- Publish publisher streamID (listAvailableActionsEvent operationPrefix reqID) ;;
  if_err err return_ ret (actions, err) ;;
  ret (actions, None).
Definition RoleAddActions (session : authn.Session) (entityID : string) (roleID : string) (actions : list string) : St W (list string * error) :=
  '(actions, err) <- rolemgr.svc_RoleAddActions svc session entityID roleID actions ;;
  if_err err return_ ret (actions, err) ;;
  err <- Publish publisher streamID (roleAddActionsEvent operationPrefix entityID roleID actions reqID) ;;
  if_err err return_ ret (actions, err) ;;
  ret (actions, None).
Definition RoleListActions (session : authn.Session) (entityID : string) (roleID : string) : St W (list string * error) :=
  '(actions, err) <- rolemgr.svc_RoleListActions svc session entityID roleID ;;
  if_err err return_ ret (actions, err) ;;
  err <- Publish publisher streamID (roleListActionsEvent operationPrefix entityID roleID reqID) ;;
  if_err err return_ ret (actions, err) ;;
  ret (actions, None).
Definition RoleCheckActionsExists (session : authn.Session) (entityID : string) (roleID : string) (actions : list string) : St W (bool * error) :=
  '(isAllExists, err) <- rolemgr.svc_RoleCheckActionsExists svc session entityID roleID actions ;;
  if_err err return_ ret (isAllExists, err) ;;
  err <- Publish publisher streamID (roleCheckActionsExistsEvent operationPrefix entityID roleID actions isAllExists reqID) ;;
  if_err err return_ ret (isAllExists, err) ;;
  ret (isAllExists, None).
Definition RoleRemoveActions (session : authn.Session) (entityID : string) (roleID : string) (actions : list string) : St W error :=
  err <- rolemgr.svc_RoleRemoveActions svc session entityID roleID actions ;;
  if_err err return_ ret err ;;
  err <- Publish publisher streamID (roleRemoveActionsEvent operationPrefix entityID roleID actions reqID) ;;
  if_err err return_ ret err ;;
  ret None.
Definition RoleRemoveAllActions (session : authn.Session) (entityID : string) (roleID : string) : St W error :=
  err <- rolemgr.svc_RoleRemoveAllActions svc session entityID roleID ;;
  if_err err return_ ret err ;;
  err <- Publish publisher streamID (roleRemoveAllActionsEvent operationPrefix entityID roleID reqID) ;;
  if_err err return_ ret err ;;
  ret None.
Definition RoleAddMembersEventPublisher (entityID roleID : string) (members : list string) : St W error :=
  err <- Publish publisher streamID (roleAddMembersEvent operationPrefix entityID roleID members reqID) ;;
  if_err err return_ ret err ;;
  ret None.
Definition RoleAddMembers (session : authn.Session) (entityID roleID : string) (members : list string) : St W (list string * error) :=
  '(mems, err) <- rolemgr.svc_RoleAddMembers svc session entityID roleID members ;;
  if_err err return_ ret (mems, err) ;;
  err <- RoleAddMembersEventPublisher entityID roleID mems ;;
  ret (mems, err).
Definition RoleListMembers (session : authn.Session) (entityID : string) (roleID : string) (limit : N) (offset : N) : St W (roles.MembersPage * error) :=
  '(mp, err) <- rolemgr.svc_RoleListMembers svc session entityID roleID limit offset ;;
  if_err err return_ ret (mp, err) ;;
  err <- Publish publisher streamID (roleListMembersEvent operationPrefix entityID roleID limit offset reqID) ;;
  if_err err return_ ret (mp, err) ;;
  ret (mp, None).
Definition RoleCheckMembersExists (session : authn.Session) (entityID : string) (roleID : string) (members : list string) : St W (bool * error) :=
  '(isAllExists, err) <- rolemgr.svc_RoleCheckMembersExists svc session entityID roleID members ;;
  if_err err return_ ret (isAllExists, err) ;;
  err <- Publish publisher streamID (roleCheckMembersExistsEvent operationPrefix entityID roleID members reqID) ;;
  if_err err return_ ret (isAllExists, err) ;;
  ret (isAllExists, None).
Definition RoleRemoveMembers (session : authn.Session) (entityID : string) (roleID : string) (members : list string) : St W error :=
  err <- rolemgr.svc_RoleRemoveMembers svc session entityID roleID members ;;
  if_err err return_ ret err ;;
  err <- Publish publisher streamID (roleRemoveMembersEvent operationPrefix entityID roleID members reqID) ;;
  if_err err return_ ret err ;;
  ret None.
Definition RoleRemoveAllMembers (session : authn.Session) (entityID : string) (roleID : string) : St W error :=
  err <- rolemgr.svc_RoleRemoveAllMembers svc session entityID roleID ;;
  if_err err return_ ret err ;;
  err <- Publish publisher streamID (roleRemoveAllMembersEvent operationPrefix entityID roleID reqID) ;;
  if_err err return_ ret err ;;
  ret None.
Definition ListEntityMembers (session : authn.Session) (entityID : string) (pageQuery : roles.MembersRolePageQuery) : St W (roles.MembersRolePage * error) :=
  '(mems, err) <- rolemgr.svc_ListEntityMembers svc session entityID pageQuery ;;
  if_err err return_ ret (mems, err) ;;
  err <- Publish publisher streamID (listEntityMembersEvent operationPrefix entityID (roles.q_Limit pageQuery) (roles.q_Offset pageQuery) reqID) ;;
  if_err err return_ ret (mems, err) ;;
  ret (mems, None).
Definition RemoveEntityMembers (session : authn.Session) (entityID : string) (members : list string) : St W error :=
  err <- rolemgr.svc_RemoveEntityMembers svc session entityID members ;;
  if_err err return_ ret err ;;
  err <- Publish publisher streamID (removeEntityMembersEvent operationPrefix entityID members reqID) ;;
  if_err err return_ ret err ;;
  ret None.
Definition RemoveMemberFromAllRoles (session : authn.Session) (memberID : string) : St W error :=
  err <- rolemgr.svc_RemoveMemberFromAllRoles svc session memberID ;;
  if_err err return_ ret err ;;
  err <- Publish publisher streamID (removeMemberFromAllRolesEvent operationPrefix memberID reqID) ;;
  if_err err return_ ret err ;;
  ret None.

Definition NewRoleManagerEventStore : rolemgr.RoleManager W :=
  {| rolemgr.svc_AddRole := AddRole;
     rolemgr.svc_RemoveRole := RemoveRole;
     rolemgr.svc_UpdateRoleName := UpdateRoleName;
     rolemgr.svc_RetrieveRole := RetrieveRole;
     rolemgr.svc_RetrieveAllRoles := RetrieveAllRoles;
     rolemgr.svc_ListAvailableActions := ListAvailableActions;
     rolemgr.svc_RoleAddActions := RoleAddActions;
     rolemgr.svc_RoleListActions := RoleListActions;
     rolemgr.svc_RoleCheckActionsExists := RoleCheckActionsExists;
     rolemgr.svc_RoleRemoveActions := RoleRemoveActions;
     rolemgr.svc_RoleRemoveAllActions := RoleRemoveAllActions;
     rolemgr.svc_RoleListMembers := RoleListMembers;
     rolemgr.svc_RoleCheckMembersExists := RoleCheckMembersExists;
     rolemgr.svc_RoleRemoveMembers := RoleRemoveMembers;
     rolemgr.svc_RoleRemoveAllMembers := RoleRemoveAllMembers;
     rolemgr.svc_ListEntityMembers := ListEntityMembers;
     rolemgr.svc_RemoveEntityMembers := RemoveEntityMembers;
     rolemgr.svc_RemoveMemberFromAllRoles := RemoveMemberFromAllRoles;
     rolemgr.svc_RoleAddMembers := RoleAddMembers |}.
End store.
End role_store.

(** ** src/pkg/roles/rolemanager/events/consumer/decode.go *)
Module role_consumer.
Import events.
Definition errID : err := Sentinel "rconsumer.errID" CustomError "missing or invalid 'id'".
Definition errRoleID : err := Sentinel "rconsumer.errRoleID" CustomError "missing or invalid 'role_id'".
Definition errName : err := Sentinel "rconsumer.errName" CustomError "missing or invalid 'name'".
Definition errEntityID : err := Sentinel "rconsumer.errEntityID" CustomError "missing or invalid 'entity_id'".
Definition errActions : err := Sentinel "rconsumer.errActions" CustomError "missing or invalid 'actions'".
Definition errMembers : err := Sentinel "rconsumer.errMembers" CustomError "missing or invalid 'members'".
Definition errCreatedAt : err := Sentinel "rconsumer.errCreatedAt" CustomError "failed to parse 'created_at' time".
Definition errUpdatedAt : err := Sentinel "rconsumer.errUpdatedAt" CustomError "failed to parse 'updated_at' time".
Definition errNotString : err := Sentinel "rconsumer.errNotString" CustomError "not string type".
Definition errInvalidRoleProvision : err := Sentinel "rconsumer.errInvalidRoleProvision" CustomError "invalid 'role_provisions'".
Definition errRoleProvision : err :=
  Sentinel "rconsumer.errRoleProvision" CustomError "failed to convert role_provisions interface'".
Definition errRoleProvisionMembers : err :=
  Sentinel "rconsumer.errRoleProvisionMembers" CustomError "failed to convert role_provisions member interface'".
Definition errRoleProvisionActions : err :=
  Sentinel "rconsumer.errRoleProvisionActions" CustomError "failed to convert role_provisions action interface'".

Definition ToRole (d : data) : roles.Role * error :=
  let r := roles.Role0 in
  id <-ok as_string d "id" or_return (roles.Role0, Some errID) ;;
  let r := r <| roles.ID := id |> in
  name <-ok as_string d "name" or_return (roles.Role0, Some errName) ;;
  let r := r <| roles.Name := name |> in
  eid <-ok as_string d "entity_id" or_return (roles.Role0, Some errEntityID) ;;
  let r := r <| roles.EntityID := eid |> in
  let '(cat, err) := as_time d "created_at" in
  if_err err return_ (roles.Role0, WrapE errCreatedAt err) ;;
  let r := set_opt (set_field roles.CreatedAt) cat r in
  let r := set_opt (set_field roles.CreatedBy) (as_string d "created_by") r in
  let '(uat, err) := as_time d "updated_at" in
  if_err err return_ (roles.Role0, WrapE errUpdatedAt err) ;;
  let r := set_opt (set_field roles.UpdatedAt) uat r in
  let r := set_opt (set_field roles.UpdatedBy) (as_string d "updated_by") r in
  (r, None).

Fixpoint ToStrings (l : list Json) : list string * error :=
  match l with
  | [] => ([], None)
  | JString s :: l' => let '(strs, err) := ToStrings l' in
      if_err err return_ ([], err) ;; (s :: strs, None)
  | _ => ([], Some errNotString)
  end.
(** [if ok { a, err := ToStrings(x); if err != nil { return errors.Wrap(e, err) } }] *)
Definition opt_strings (e : err) (o : option (list Json)) : option (list string) * error :=
  match o with
  | None => (None, None)
  | Some l => match ToStrings l with (s, None) => (Some s, None) | (_, err) => (None, WrapE e err) end
  end.

Definition ToRoleProvision (d : data) : roles.RoleProvision * error :=
  let '(r, err) := ToRole d in
  if_err err return_ (roles.RoleProvision0, err) ;;
  let rp := roles.RoleProvision0 <| roles.Role_ := r |> in
  let '(a, err) := opt_strings errRoleProvisionActions (as_array d "optional_actions") in
  if_err err return_ (roles.RoleProvision0, err) ;;
  let rp := set_opt (set_field roles.OptionalActions) a rp in
  let '(m, err) := opt_strings errRoleProvisionMembers (as_array d "optional_members") in
  if_err err return_ (roles.RoleProvision0, err) ;;
  let rp := set_opt (set_field roles.OptionalMembers) m rp in
  (rp, None).

Fixpoint ToRoleProvisions (l : list Json) : list roles.RoleProvision * error :=
  match l with
  | [] => ([], None)
  | JObject irp :: l' =>
      let '(rp, err) := ToRoleProvision irp in
      if_err err return_ ([], WrapE errRoleProvision err) ;;
      let '(rps, err) := ToRoleProvisions l' in
      if_err err return_ ([], err) ;;
      (rp :: rps, None)
  | _ => ([], Some errInvalidRoleProvision)
  end.

(** ** consumer/streams.go *)
(** [fmt.Errorf("failed to consume %s ... event : %w", entityType, err)] *)
Definition consumeError (entityType what : string) (e : error) : error :=
  Some (Foreign None ("failed to consume " +:+ entityType +:+ " " +:+ what +:+ " event : " +:+ from_option Error "" e) e).
Section handler.
Context {W : Type} (entityType : string) (repo : roles.Repository W).
Local Abbreviation fail := (consumeError entityType).

Definition AddEntityRoleHandler (d : data) : St W error :=
  let '(rps, err) := ToRoleProvision d in
  if_err err return_ ret (fail "add role" err) ;;
  '(_, err) <- roles.AddRoles repo [rps] ;;
  if_ negb (is_nil err) && negb (Contains err (Some repoerr.ErrConflict)) return_ ret (fail "add role" err) ;;
  ret None.
Definition UpdateEntityRoleHandler (d : data) : St W error :=
  let '(ro, err) := ToRole d in
  if_err err return_ ret (fail "update role" err) ;;
  '(_, err) <- roles.UpdateRole repo ro ;;
  if_err err return_ ret (fail "update role" err) ;;
  ret None.
Definition RemoveEntityRoleHandler (d : data) : St W error :=
  id <-ok as_string d "role_id" or_return ret (fail "remove role" (Some errRoleID)) ;;
  err <- roles.RemoveRoles repo [id] ;;
  if_err err return_ ret (fail "remove role" err) ;;
  ret None.
Definition AddEntityRoleActionsHandler (d : data) : St W error :=
  id <-ok as_string d "role_id" or_return ret (fail "add role actions" (Some errRoleID)) ;;
  iacts <-ok as_array d "actions" or_return ret (fail "add role actions" (Some errActions)) ;;
  let '(acts, err) := ToStrings iacts in
  if_err err return_ ret (fail "add role actions" err) ;;
  '(_, err) <- roles.repo_RoleAddActions repo (roles.Role0 <| roles.ID := id |>) acts ;;
  if_err err return_ ret (fail "add role actions" err) ;;
  ret None.
Definition RemoveEntityRoleActionsHandler (d : data) : St W error :=
  id <-ok as_string d "role_id" or_return ret (fail "add role actions" (Some errRoleID)) ;;
  iacts <-ok as_array d "actions" or_return ret (fail "add role actions" (Some errActions)) ;;
  let '(acts, err) := ToStrings iacts in
  if_err err return_ ret (fail "add role actions" err) ;;
  err <- roles.repo_RoleRemoveActions repo (roles.Role0 <| roles.ID := id |>) acts ;;
  if_err err return_ ret (fail "add role actions" err) ;;
  ret None.
Definition RemoveAllEntityRoleActionsHandler (d : data) : St W error :=
  id <-ok as_string d "role_id" or_return ret (fail "remove role all actions" (Some errRoleID)) ;;
  err <- roles.repo_RoleRemoveAllActions repo (roles.Role0 <| roles.ID := id |>) ;;
  if_err err return_ ret (fail "remove role all actions" err) ;;
  ret None.
Definition AddEntityRoleMembersHandler (d : data) : St W error :=
  id <-ok as_string d "role_id" or_return ret (fail "add role members" (Some errRoleID)) ;;
  entityID <-ok as_string d "entity_id" or_return ret (fail "remove role all members" (Some errEntityID)) ;;
  imems <-ok as_array d "members" or_return ret (fail "add role members" (Some errMembers)) ;;
  let '(mems, err) := ToStrings imems in
  if_err err return_ ret (fail "add role members" err) ;;
  '(_, err) <- roles.repo_RoleAddMembers repo (roles.Role0 <| roles.ID := id |> <| roles.EntityID := entityID |>) mems ;;
  if_err err return_ ret (fail "add role members" err) ;;
  ret None.
Definition RemoveEntityRoleMembersHandler (d : data) : St W error :=
  id <-ok as_string d "role_id" or_return ret (fail "remove role members" (Some errRoleID)) ;;
  imems <-ok as_array d "members" or_return ret (fail "remove role members" (Some errMembers)) ;;
  let '(mems, err) := ToStrings imems in
  if_err err return_ ret (fail "remove role members" err) ;;
  err <- roles.repo_RoleRemoveMembers repo (roles.Role0 <| roles.ID := id |>) mems ;;
  if_err err return_ ret (fail "remove role members" err) ;;
  ret None.
Definition RemoveAllMembersFromEntityRoleHandler (d : data) : St W error :=
  id <-ok as_string d "role_id" or_return ret (fail "remove role all members" (Some errRoleID)) ;;
  err <- roles.repo_RoleRemoveAllMembers repo (roles.Role0 <| roles.ID := id |>) ;;
  if_err err return_ ret (fail "remove role all members" err) ;;
  ret None.
Definition RemoveEntityMembersHandler (d : data) : St W error :=
  entityID <-ok as_string d "entity_id" or_return ret (fail "remove role all members" (Some errEntityID)) ;;
  imems <-ok as_array d "members" or_return ret (fail "remove role members" (Some errMembers)) ;;
  let '(mems, err) := ToStrings imems in
  if_err err return_ ret (fail "remove role members" err) ;;
  ret None.
Definition RemoveMemberFromAllEntityHandler (d : data) : St W error := ret None.

(** NewEventHandler and Handle: the operation of a role event of the entity. *)
Definition Handle (op : string) (d : data) : St W error :=
  let is_op o := op =s (entityType +:+ "." +:+ o) in
  if is_op role_events.AddRole then AddEntityRoleHandler d
  else if is_op role_events.RemoveRole then RemoveEntityRoleHandler d
  else if is_op role_events.UpdateRole then UpdateEntityRoleHandler d
  else if is_op role_events.AddRoleActions then AddEntityRoleActionsHandler d
  else if is_op role_events.RemoveRoleActions then RemoveEntityRoleActionsHandler d
  else if is_op role_events.RemoveAllRoleActions then RemoveAllEntityRoleActionsHandler d
  else if is_op role_events.AddRoleMembers then AddEntityRoleMembersHandler d
  else if is_op role_events.RemoveRoleMembers then RemoveEntityRoleMembersHandler d
  else if is_op role_events.RemoveRoleAllMembers then RemoveAllMembersFromEntityRoleHandler d
  else if is_op role_events.RemoveEntityMembers then RemoveEntityMembersHandler d
  else if is_op role_events.RemoveMemberFromAllRoles then RemoveMemberFromAllEntityHandler d
  else ret None.
End handler.
End role_consumer.

(** ** Reading back a published field *)
Section payload.
Import events roles role_consumer.

Definition string_of (v : any) : option string :=
  match v with AString s => Some s | ATime t => MarshalText t | ANullable v => v | _ => None end.
Definition array_of (v : any) : option (list Json) :=
  match v with
  | AStrings ((_ :: _) as l) => Some (map JString l)
  | ARoles ((_ :: _) as l) => mapM json_role l
  | ATypes ((_ :: _) as l) => Some (map JString (map connections.ConnType_String l))
  | _ => None
  end.
Definition object_of (v : any) : option data := match v with AMetadata m => m | _ => None end.

Local Ltac destruct_json :=
  unfold json_time in *; simpl in *;
  repeat match goal with
    | H : context [MarshalText ?t] |- _ => destruct (MarshalText t)
    | H : context [json_role ?r] |- _ => destruct (json_role r)
    | H : context [mapM json_role ?l] |- _ => destruct (mapM json_role l)
    end; simpl in *.
Lemma as_string_marshal m d k : marshal_map m = Some d -> as_string d k = map_lookup k m ≫= string_of.
Proof.
  intros Hm. destruct (marshal_lookup m d k Hm) as [Hl Hs]. unfold as_string. rewrite Hl.
  destruct (map_lookup k m) as [v|]; [|done]. simpl in *. specialize (Hs ltac:(done)). revert Hs.
  destruct v as [| | | |t|[]|[]|[]|[]|[]]; simpl; intros Hs; try done.
  all: destruct_json; try done.
  all: try by destruct Hs.
Qed.
Lemma as_array_marshal m d k : marshal_map m = Some d -> as_array d k = map_lookup k m ≫= array_of.
Proof.
  intros Hm. destruct (marshal_lookup m d k Hm) as [Hl Hs]. unfold as_array. rewrite Hl.
  destruct (map_lookup k m) as [v|]; [|done]. simpl in *. specialize (Hs ltac:(done)). revert Hs.
  destruct v as [| | | |t|[]|[]|[]|[]|[]]; simpl; intros Hs; try done.
  all: destruct_json; try done.
  all: try by destruct Hs.
Qed.
Lemma as_object_marshal m d k : marshal_map m = Some d -> as_object d k = map_lookup k m ≫= object_of.
Proof.
  intros Hm. destruct (marshal_lookup m d k Hm) as [Hl Hs]. unfold as_object. rewrite Hl.
  destruct (map_lookup k m) as [v|]; [|done]. simpl in *. specialize (Hs ltac:(done)). revert Hs.
  destruct v as [| | | |t|[]|[]|[]|[]|[]]; simpl; intros Hs; try done.
  all: destruct_json; try done.
  all: try by destruct Hs.
Qed.

(** A time, when the field is present. *)
Definition time_of (v : any) : option Time * error :=
  match v with ATime t => (Some t, None) | _ => (None, None) end.
(** A time that is required. *)
Lemma marshal_time m d k t : marshal_map m = Some d -> (0 <= t)%Z -> map_lookup k m = Some (ATime t) ->
  exists s, MarshalText t = Some s /\ Parse s = (t, None).
Proof.
  intros Hm Ht Hk. destruct (marshal_lookup m d k Hm) as [_ Hs]. rewrite Hk in Hs. specialize (Hs ltac:(done)).
  simpl in Hs. unfold json_time in Hs. destruct (MarshalText t) as [s|] eqn:E; [|by destruct Hs].
  exists s. split; [done|]. by apply Parse_MarshalText.
Qed.
Lemma as_time_marshal m d k t : marshal_map m = Some d -> (0 <= t)%Z ->
  map_lookup k m = Some (ATime t) -> as_time d k = (Some t, None).
Proof.
  intros Hm Ht Hk. unfold as_time. rewrite (as_string_marshal m d k Hm), Hk. simpl.
  destruct (marshal_time m d k t Hm Ht Hk) as (s & -> & E). by rewrite E.
Qed.
Lemma as_time_absent m d k : marshal_map m = Some d -> map_lookup k m = None -> as_time d k = (None, None).
Proof. intros Hm Hk. unfold as_time. by rewrite (as_string_marshal m d k Hm), Hk. Qed.

Lemma array_ne m d k l : marshal_map m = Some d -> map_lookup k m = Some (AStrings l) -> l <> [] ->
  as_array d k = Some (map JString l).
Proof. intros Hm Hk Hl. rewrite (as_array_marshal m d k Hm), Hk. by destruct l. Qed.
Lemma ToStrings_strings l : ToStrings (map JString l) = (l, None).
Proof. induction l as [|s l IH]; [done|]. simpl. by rewrite IH. Qed.

(** The fields of a role. *)
Definition role_ok (r : Role) : Prop := (0 <= CreatedAt r)%Z /\ (0 <= UpdatedAt r)%Z.
Definition role_fields (r : Role) : event :=
  [("id", AString (ID r)); ("name", AString (Name r)); ("entity_id", AString (EntityID r));
   ("created_by", AString (CreatedBy r)); ("created_at", ATime (CreatedAt r));
   ("updated_by", AString (UpdatedBy r)); ("updated_at", ATime (UpdatedAt r))].
Lemma ToRole_marshal m d r : marshal_map m = Some d -> role_ok r ->
  Forall (fun kv => map_lookup kv.1 m = Some kv.2) (role_fields r) -> ToRole d = (r, None).
Proof.
  intros Hm [Hc Hu] H. unfold role_fields in H. decompose_Forall. simpl in *. unfold ToRole.
  rewrite (as_time_marshal m d _ (CreatedAt r) Hm), (as_time_marshal m d _ (UpdatedAt r) Hm) by done.
  rewrite !(as_string_marshal m d _ Hm). simplify_option_eq.
  repeat match goal with Hk : map_lookup _ m = _ |- _ => rewrite Hk; clear Hk end. by destruct r.
Qed.
Definition provision_fields (rp : RoleProvision) : event :=
  role_fields (Role_ rp)
  ++ [("optional_actions", AStrings (OptionalActions rp)); ("optional_members", AStrings (OptionalMembers rp))].
Lemma opt_strings_marshal m d k e l : marshal_map m = Some d -> map_lookup k m = Some (AStrings l) ->
  opt_strings e (as_array d k) = (if is_empty l then None else Some l, None).
Proof.
  intros Hm Hk. rewrite (as_array_marshal m d k Hm), Hk. destruct l as [|s l]; [done|]. simpl.
  by rewrite ToStrings_strings.
Qed.
Lemma ToRoleProvision_marshal m d rp : marshal_map m = Some d -> role_ok (Role_ rp) ->
  Forall (fun kv => map_lookup kv.1 m = Some kv.2) (provision_fields rp) -> ToRoleProvision d = (rp, None).
Proof.
  intros Hm Hr [H1 H2]%Forall_app. decompose_Forall. simpl in *. unfold ToRoleProvision.
  rewrite (ToRole_marshal m d (Role_ rp)) by done. simpl.
  rewrite (opt_strings_marshal m d _ _ (OptionalActions rp)) by done. simpl.
  rewrite (opt_strings_marshal m d _ _ (OptionalMembers rp)) by done. simpl.
  destruct rp as [r acts ms]. by destruct acts, ms.
Qed.
Lemma json_role_fields rp j : json_role rp = Some j ->
  exists d, j = JObject d /\ marshal_map (provision_fields rp) = Some d.
Proof.
  unfold json_role, marshal_map. simpl.
  destruct (json_time (CreatedAt (Role_ rp))); simpl; [|done]. destruct (json_time (UpdatedAt (Role_ rp))); simpl; [|done].
  intros [= <-]. by eexists.
Qed.
Lemma ToRoleProvisions_marshal rps js : mapM json_role rps = Some js -> Forall (fun rp => role_ok (Role_ rp)) rps ->
  ToRoleProvisions js = (rps, None).
Proof.
  revert js. induction rps as [|rp rps IH]; intros js; simpl; [by intros [= <-]|].
  destruct (json_role rp) as [j|] eqn:Hj; simpl; [|done]. destruct (mapM json_role rps) as [js'|]; simpl; [|done].
  intros [= <-] [Hr Hrs]%Forall_cons. destruct (json_role_fields rp j Hj) as (d & -> & Hd). simpl.
  rewrite (ToRoleProvision_marshal _ d rp Hd Hr) by (repeat constructor). simpl. by rewrite (IH js').
Qed.
Lemma roles_provisioned_marshal m d k rps : marshal_map m = Some d -> map_lookup k m = Some (ARoles rps) -> rps <> [] ->
  Forall (fun rp => role_ok (Role_ rp)) rps ->
  exists js, as_array d k = Some js /\ ToRoleProvisions js = (rps, None).
Proof.
  intros Hm Hk Hn Hr. rewrite (as_array_marshal m d k Hm), Hk. simpl. destruct rps as [|rp rps]; [done|].
  destruct (marshal_lookup m d k Hm) as [_ Hs]. rewrite Hk in Hs. specialize (Hs ltac:(done)). simpl in Hs.
  change (is_Some (JArray <$> mapM json_role (rp :: rps))) in Hs.
  change (exists js, mapM json_role (rp :: rps) = Some js /\ ToRoleProvisions js = (rp :: rps, None)).
  destruct (mapM json_role (rp :: rps)) as [js|] eqn:E; [|by destruct Hs]. exists js. split; [done|].
  by apply ToRoleProvisions_marshal.
Qed.
End payload.


(** Reads a field of a published event, whose optional fields are there when
    their condition holds. *)
Ltac find_field := rewrite ?lookup_put, ?lookup_put_if; reflexivity.
Ltac read_array Hm Hl :=
  match goal with |- context [events.as_array _ ?k] => erewrite (array_ne _ _ k _ Hm); [|reflexivity|exact Hl] end;
  rewrite ToStrings_strings.

(** ** Calls of a service and their replay by a consumer

    [perform] runs a call of the service and gives the change its event tells;
    [publishing] is the same call through the event store.  [consume] handles
    the payload of an event, [replay] is what that comes to. *)
Module replication.
Import events.
Section replication.
Context {Op Change W V : Type} (now : St W Time) (broker : string -> data -> St W error).
Context (perform : Op -> St W (Change * error)) (stream : Change -> string) (encode : Change -> event).
Context (consume : data -> St V error) (replay : Change -> St V error) (ok : Change -> Prop).

Definition publishing (op : Op) : St W (Change * error) :=
  '(c, err) <- perform op ;;
  if_err err return_ ret (c, err) ;;
  err <- nats_Publish now broker (stream c) (encode c) ;;
  ret (c, err).

(** The changes of the calls that returned no error, in order. *)
Fixpoint calls (run : Op -> St W (Change * error)) (ops : list Op) : St W (list Change) :=
  match ops with
  | [] => ret []
  | op :: ops =>
      '(c, err) <- run op ;;
      cs <- calls run ops ;;
      ret (if is_nil err then c :: cs else cs)
  end.
Fixpoint handle_all {A} (f : A -> St V error) (l : list A) : St V (list error) :=
  match l with
  | [] => ret []
  | x :: l => e <- f x ;; es <- handle_all f l ;; ret (e :: es)
  end.
Lemma calls_ext (f g : Op -> St W (Change * error)) ops w : (forall op w, f op w = g op w) -> calls f ops w = calls g ops w.
Proof.
  intros H. revert w. induction ops as [|op ops IH]; intros w; [done|]. simpl. unfold bind. rewrite H.
  destruct (g op w) as [[c e] w']. by rewrite IH.
Qed.

Context (log : W -> list (string * data)).
Context (broker_log : forall s p w e w', broker s p w = (e, w') -> log w' = log w ++ if is_nil e then [(s, p)] else []).
Context (now_log : frames now log) (perform_log : forall op, frames (perform op) log).
Context (consumed : forall c t p v, ok c -> marshal_map (put "occurred_at" (AInt t) (encode c)) = Some p -> consume p v = replay c v).

Lemma publish_log s m w e w' : nats_Publish now broker s m w = (e, w') ->
  (e <> None /\ log w' = log w)
  \/ exists t p, e = None /\ marshal_map (put "occurred_at" (AInt t) m) = Some p /\ log w' = log w ++ [(s, p)].
Proof.
  unfold nats_Publish, bind. destruct (now w) as [t w1] eqn:Hn. pose proof (frames_eq _ _ _ _ _ now_log Hn) as Hl.
  destruct (marshal_map _) as [p|] eqn:Hm.
  - intros Hb. apply broker_log in Hb. rewrite Hl in Hb. destruct e; cbn [is_nil] in Hb; [left|right].
    + by rewrite app_nil_r in Hb.
    + by exists (t - unixEpoch)%Z, p.
  - intros [= <- <-]. by left.
Qed.

(** What was published is what was done, and replays as it. *)
Lemma calls_replayed ops w cs w' : calls publishing ops w = (cs, w') -> Forall ok cs ->
  exists msgs, log w' = log w ++ msgs /\ msgs.*1 = map stream cs
    /\ forall v, handle_all (fun m => consume m.2) msgs v = handle_all replay cs v.
Proof.
  revert w cs. induction ops as [|op ops IH]; intros w cs; simpl.
  { intros [= <- <-] _. exists []. by rewrite app_nil_r. }
  unfold bind at 1 2. destruct (publishing op w) as [[c e] w1] eqn:Hp. destruct (calls publishing ops w1) as [cs1 w2] eqn:Hc.
  intros [= <- <-] Hok. revert Hp. unfold publishing, bind. destruct (perform op w) as [[c0 e0] w0] eqn:H0.
  pose proof (frames_eq _ _ _ _ _ (perform_log op) H0) as Hl0. destruct e0 as [e0|].
  { intros [= <- <- <-]. simpl in Hok. destruct (IH _ _ Hc Hok) as (msgs & Hm & H). exists msgs. by rewrite Hm, Hl0. }
  destruct (nats_Publish now broker (stream c0) (encode c0) w0) as [e1 w1'] eqn:H1. intros [= <- <- <-].
  destruct (publish_log _ _ _ _ _ H1) as [[He Hl]|(t & p & -> & Hm & Hl)].
  - destruct e1; [|done]. simpl in Hok. destruct (IH _ _ Hc Hok) as (msgs & Hms & H). exists msgs. by rewrite Hms, Hl, Hl0.
  - simpl in Hok. apply Forall_cons in Hok as [Hoc Hok]. destruct (IH _ _ Hc Hok) as (msgs & Hms & Hs & H).
    exists ((stream c0, p) :: msgs). rewrite Hms, Hl, Hl0, <- app_assoc. split; [done|]. split; [by rewrite fmap_cons, Hs|].
    intros v. simpl. unfold bind. rewrite (consumed c0 t p v Hoc Hm). destruct (replay c0 v) as [e2 v2]. by rewrite H.
Qed.
End replication.
End replication.

(** A service, and a broker that keeps the messages. *)
Module logged.
Import events.
Section logged.
Context {S : Type}.
Definition state : Type := S * list (string * data).
Definition log (w : state) : list (string * data) := w.2.
Definition lift {A} (m : St S A) : St state A := fun w => let (a, s) := m w.1 in (a, (s, w.2)).
Definition broker (stream : string) (payload : data) : St state error := fun w => (None, (w.1, w.2 ++ [(stream, payload)])).
Lemma broker_log s p w e w' : broker s p w = (e, w') -> log w' = log w ++ if is_nil e then [(s, p)] else [].
Proof. by intros [= <- <-]. Qed.
Lemma lift_log {A} (m : St S A) : frames (lift m) log.
Proof. intros w. unfold lift. by destruct (m w.1). Qed.
Definition roles_manager (r : rolemgr.RoleManager S) : rolemgr.RoleManager state := {|
  rolemgr.svc_AddRole := fun a b c d e => lift (rolemgr.svc_AddRole r a b c d e);
  rolemgr.svc_RemoveRole := fun a b c => lift (rolemgr.svc_RemoveRole r a b c);
  rolemgr.svc_UpdateRoleName := fun a b c d => lift (rolemgr.svc_UpdateRoleName r a b c d);
  rolemgr.svc_RetrieveRole := fun a b c => lift (rolemgr.svc_RetrieveRole r a b c);
  rolemgr.svc_RetrieveAllRoles := fun a b c d => lift (rolemgr.svc_RetrieveAllRoles r a b c d);
  rolemgr.svc_ListAvailableActions := fun a => lift (rolemgr.svc_ListAvailableActions r a);
  rolemgr.svc_RoleAddActions := fun a b c d => lift (rolemgr.svc_RoleAddActions r a b c d);
  rolemgr.svc_RoleListActions := fun a b c => lift (rolemgr.svc_RoleListActions r a b c);
  rolemgr.svc_RoleCheckActionsExists := fun a b c d => lift (rolemgr.svc_RoleCheckActionsExists r a b c d);
  rolemgr.svc_RoleRemoveActions := fun a b c d => lift (rolemgr.svc_RoleRemoveActions r a b c d);
  rolemgr.svc_RoleRemoveAllActions := fun a b c => lift (rolemgr.svc_RoleRemoveAllActions r a b c);
  rolemgr.svc_RoleAddMembers := fun a b c d => lift (rolemgr.svc_RoleAddMembers r a b c d);
  rolemgr.svc_RoleListMembers := fun a b c d e => lift (rolemgr.svc_RoleListMembers r a b c d e);
  rolemgr.svc_RoleCheckMembersExists := fun a b c d => lift (rolemgr.svc_RoleCheckMembersExists r a b c d);
  rolemgr.svc_RoleRemoveAllMembers := fun a b c => lift (rolemgr.svc_RoleRemoveAllMembers r a b c);
  rolemgr.svc_ListEntityMembers := fun a b c => lift (rolemgr.svc_ListEntityMembers r a b c);
  rolemgr.svc_RemoveEntityMembers := fun a b c => lift (rolemgr.svc_RemoveEntityMembers r a b c);
  rolemgr.svc_RoleRemoveMembers := fun a b c d => lift (rolemgr.svc_RoleRemoveMembers r a b c d);
  rolemgr.svc_RemoveMemberFromAllRoles := fun a b => lift (rolemgr.svc_RemoveMemberFromAllRoles r a b) |}.
End logged.
Arguments state : clear implicits.
End logged.

(** ** What the role events stand for *)
Module role_changes.
Import events roles role_events role_consumer.

(** The role operations whose events a consumer acts upon, and RoleListActions'
    likes, which it ignores. *)
Inductive change :=
| RoleAdded (rp : RoleProvision)
| RoleRemoved (entityID roleID : string)
| RoleUpdated (ro : Role)
| ActionsAdded (entityID roleID : string) (actions : list string)
| ActionsRemoved (entityID roleID : string) (actions : list string)
| AllActionsRemoved (entityID roleID : string)
| MembersAdded (entityID roleID : string) (members : list string)
| MembersRemoved (entityID roleID : string) (members : list string)
| AllMembersRemoved (entityID roleID : string)
| RoleViewed (ro : Role)
| ActionsListed (entityID roleID : string)
| ActionsChecked (entityID roleID : string) (actions : list string) (isAllExists : bool)
| MembersListed (entityID roleID : string) (limit offset : N).

Definition published (operationPrefix reqID : string) (c : change) : event :=
  match c with
  | RoleAdded rp => addRoleEvent operationPrefix rp reqID
  | RoleRemoved e r => removeRoleEvent operationPrefix e r reqID
  | RoleUpdated ro => updateRoleEvent operationPrefix ro reqID
  | ActionsAdded e r l => roleAddActionsEvent operationPrefix e r l reqID
  | ActionsRemoved e r l => roleRemoveActionsEvent operationPrefix e r l reqID
  | AllActionsRemoved e r => roleRemoveAllActionsEvent operationPrefix e r reqID
  | MembersAdded e r l => roleAddMembersEvent operationPrefix e r l reqID
  | MembersRemoved e r l => roleRemoveMembersEvent operationPrefix e r l reqID
  | AllMembersRemoved e r => roleRemoveAllMembersEvent operationPrefix e r reqID
  | RoleViewed ro => retrieveRoleEvent operationPrefix ro reqID
  | ActionsListed e r => roleListActionsEvent operationPrefix e r reqID
  | ActionsChecked e r l b => roleCheckActionsExistsEvent operationPrefix e r l b reqID
  | MembersListed e r l o => roleListMembersEvent operationPrefix e r l o reqID
  end.

Section replay.
Context {W : Type} (entityType : string) (R : Repository W).
(** A call of the repository, its error wrapped by the consumer. *)
Definition report (what : string) (call : St W error) : St W error :=
  e <- call ;;
  if_err e return_ ret (consumeError entityType what e) ;;
  ret None.
Definition role_of (id : string) : Role := Role0 <| ID := id |>.
Definition drop_result {A} (c : St W (A * error)) : St W error := '(_, e) <- c ;; ret e.
(** The call of the repository of the consumer's service. *)
Definition replayed (c : change) : St W error :=
  match c with
  | RoleAdded rp =>
      '(_, e) <- AddRoles R [rp] ;;
      if_ negb (is_nil e) && negb (Contains e (Some repoerr.ErrConflict)) return_ ret (consumeError entityType "add role" e) ;;
      ret None
  | RoleRemoved _ r => report "remove role" (RemoveRoles R [r])
  | RoleUpdated ro => report "update role" (drop_result (roles.UpdateRole R ro))
  | ActionsAdded _ r l => report "add role actions" (drop_result (repo_RoleAddActions R (role_of r) l))
  | ActionsRemoved _ r l => report "add role actions" (repo_RoleRemoveActions R (role_of r) l)
  | AllActionsRemoved _ r => report "remove role all actions" (repo_RoleRemoveAllActions R (role_of r))
  | MembersAdded e r l =>
      report "add role members" (drop_result (repo_RoleAddMembers R ((role_of r) <| EntityID := e |>) l))
  | MembersRemoved _ r l => report "remove role members" (repo_RoleRemoveMembers R (role_of r) l)
  | AllMembersRemoved _ r => report "remove role all members" (repo_RoleRemoveAllMembers R (role_of r))
  | RoleViewed _ | ActionsListed _ _ | ActionsChecked _ _ _ _ | MembersListed _ _ _ _ => ret None
  end.
(** Times are after year 1, and the lists of the request are not empty (the
    HTTP layer refuses an empty one). *)
Definition change_ok (c : change) : Prop :=
  match c with
  | RoleAdded rp => role_ok (Role_ rp)
  | RoleUpdated ro => role_ok ro
  | ActionsAdded _ _ l | ActionsRemoved _ _ l | MembersAdded _ _ l | MembersRemoved _ _ l => l <> []
  | _ => True
  end.

Lemma prefix_eqb p a b : (p +:+ a =s p +:+ b) = (a =s b).
Proof. induction p as [|x p IH]; [done|]. simpl. by rewrite Ascii.eqb_refl. Qed.
Lemma prefix_op e a b : (((e +:+ ".") +:+ a) =s (e +:+ "." +:+ b)) = (a =s b).
Proof. rewrite <- str_assoc. simpl. rewrite prefix_eqb. reflexivity. Qed.

(** What the handler is given. *)
Definition consumed (payload : data) : St W error :=
  match as_string payload "operation" with
  | Some op => Handle entityType R op payload
  | None => ret None
  end.

Definition operation (c : change) : string :=
  match c with
  | RoleAdded _ => AddRole | RoleRemoved _ _ => RemoveRole | RoleUpdated _ => role_events.UpdateRole
  | ActionsAdded _ _ _ => AddRoleActions | ActionsRemoved _ _ _ => RemoveRoleActions
  | AllActionsRemoved _ _ => RemoveAllRoleActions | MembersAdded _ _ _ => AddRoleMembers
  | MembersRemoved _ _ _ => RemoveRoleMembers | AllMembersRemoved _ _ => RemoveRoleAllMembers
  | RoleViewed _ => ViewRole | ActionsListed _ _ => ListRoleActions | ActionsChecked _ _ _ _ => CheckRoleActions
  | MembersListed _ _ _ _ => ListRoleMembers
  end.
Lemma published_operation p reqID t c :
  map_lookup "operation" (put "occurred_at" (AInt t) (published p reqID c)) = Some (AString (p +:+ operation c)).
Proof. by destruct c. Qed.
Lemma role_change_consumed c reqID t payload w : change_ok c ->
  marshal_map (put "occurred_at" (AInt t) (published (entityType +:+ ".") reqID c)) = Some payload ->
  consumed payload w = replayed c w.
Proof.
  intros Hok Hm. unfold consumed. rewrite (as_string_marshal _ _ "operation" Hm), published_operation. simpl.
  unfold Handle. rewrite !prefix_op. destruct c; simpl in Hok |- *.
  all: unfold AddEntityRoleHandler, RemoveEntityRoleHandler, UpdateEntityRoleHandler, AddEntityRoleActionsHandler,
    RemoveEntityRoleActionsHandler, RemoveAllEntityRoleActionsHandler, AddEntityRoleMembersHandler,
    RemoveEntityRoleMembersHandler, RemoveAllMembersFromEntityRoleHandler, report, drop_result;
    rewrite ?bind_assoc, ?(as_string_marshal _ _ _ Hm); simpl.
  3: by rewrite (ToRole_marshal _ _ ro Hm) by (done || (repeat constructor)); unfold bind; go_cases.
  1: by rewrite (ToRoleProvision_marshal _ _ rp Hm) by (done || (repeat constructor)).
  all: try done.
  all: read_array Hm Hok; simpl; unfold role_of; simpl; go_cases; congruence.
Qed.
End replay.

(** The calls of a role manager that change roles. *)
Inductive call :=
| AddRoleCall (session : authn.Session) (entityID roleName : string) (optionalActions optionalMembers : list string)
| RemoveRoleCall (session : authn.Session) (entityID roleID : string)
| UpdateRoleNameCall (session : authn.Session) (entityID roleID newRoleName : string)
| RoleAddActionsCall (session : authn.Session) (entityID roleID : string) (actions : list string)
| RoleRemoveActionsCall (session : authn.Session) (entityID roleID : string) (actions : list string)
| RoleRemoveAllActionsCall (session : authn.Session) (entityID roleID : string)
| RoleAddMembersCall (session : authn.Session) (entityID roleID : string) (members : list string)
| RoleRemoveMembersCall (session : authn.Session) (entityID roleID : string) (members : list string)
| RoleRemoveAllMembersCall (session : authn.Session) (entityID roleID : string).

Section calls.
Context {W : Type}.
Definition run (svc : rolemgr.RoleManager W) (c : call) : St W (change * error) :=
  match c with
  | AddRoleCall s e n a m => '(rp, err) <- rolemgr.svc_AddRole svc s e n a m ;; ret (RoleAdded rp, err)
  | RemoveRoleCall s e r => err <- rolemgr.svc_RemoveRole svc s e r ;; ret (RoleRemoved e r, err)
  | UpdateRoleNameCall s e r n => '(ro, err) <- rolemgr.svc_UpdateRoleName svc s e r n ;; ret (RoleUpdated ro, err)
  | RoleAddActionsCall s e r l => '(l, err) <- rolemgr.svc_RoleAddActions svc s e r l ;; ret (ActionsAdded e r l, err)
  | RoleRemoveActionsCall s e r l => err <- rolemgr.svc_RoleRemoveActions svc s e r l ;; ret (ActionsRemoved e r l, err)
  | RoleRemoveAllActionsCall s e r => err <- rolemgr.svc_RoleRemoveAllActions svc s e r ;; ret (AllActionsRemoved e r, err)
  | RoleAddMembersCall s e r l => '(l, err) <- rolemgr.svc_RoleAddMembers svc s e r l ;; ret (MembersAdded e r l, err)
  | RoleRemoveMembersCall s e r l => err <- rolemgr.svc_RoleRemoveMembers svc s e r l ;; ret (MembersRemoved e r l, err)
  | RoleRemoveAllMembersCall s e r => err <- rolemgr.svc_RoleRemoveAllMembers svc s e r ;; ret (AllMembersRemoved e r, err)
  end.

Context (now : St W Time) (broker : string -> data -> St W error) (svc : rolemgr.RoleManager W) (operationPrefix reqID : string).
Definition stored : rolemgr.RoleManager W :=
  role_store.NewRoleManagerEventStore (NewPublisher now broker) svc operationPrefix reqID.
Definition stream (c : change) : string := role_store.streamID operationPrefix.
(** A call through the event store is the call, and then its event. *)
Lemma run_stored c w : run stored c w =
  replication.publishing now broker (run svc) stream (published operationPrefix reqID) c w.
Proof.
  unfold replication.publishing. destruct c; simpl; rewrite ?bind_assoc;
    unfold role_store.AddRole, role_store.RemoveRole, role_store.UpdateRoleName, role_store.RoleAddActions,
      role_store.RoleRemoveActions, role_store.RoleRemoveAllActions, role_store.RoleAddMembers,
      role_store.RoleAddMembersEventPublisher, role_store.RoleRemoveMembers, role_store.RoleRemoveAllMembers;
    unfold stream, bind, ret; go_cases; try done; try congruence.
Qed.
End calls.

(** C36: role changes reach the replicas.  Calls through the event store of a
    role manager publish one event per call that returned no error, in order
    and on the stream of the entity's roles; a consumer that handles those
    messages makes the calls of its own repository that each change stands
    for, with the identifiers, actions, members, role and times it was made
    with, and reports what they return. *)
Theorem role_changes_replicated {W V} (now : St W Time) (broker : string -> data -> St W error)
    (svc : rolemgr.RoleManager W) (entityType reqID : string) (R : Repository V) (log : W -> list (string * data))
    (broker_log : forall s p w e w', broker s p w = (e, w') -> log w' = log w ++ if is_nil e then [(s, p)] else [])
    (now_log : frames now log) (svc_log : forall c, frames (run svc c) log)
    cs w done w' (Hcalls : replication.calls (run (stored now broker svc (entityType +:+ ".") reqID)) cs w = (done, w'))
    (Hok : Forall change_ok done) :
  exists msgs, log w' = log w ++ msgs
    /\ msgs.*1 = map (stream (entityType +:+ ".")) done
    /\ forall v, replication.handle_all (fun m => consumed entityType R m.2) msgs v
              = replication.handle_all (replayed entityType R) done v.
Proof.
  rewrite (replication.calls_ext _ _ _ _ (run_stored now broker svc _ reqID)) in Hcalls.
  eapply replication.calls_replayed; eauto. intros c t p v. apply role_change_consumed.
Qed.
End role_changes.

Module role_changes_example.
Import role_changes.
Definition manager : rolemgr.RoleManager (logged.state (memroles.state unit)) :=
  logged.roles_manager (services.roles_manager memroles.now (memroles.svc "group" ["read"; "update"] [("admin", ["read"])])).
Definition requests : list call :=
  [RoleAddActionsCall roles_example.alice "g1" "r1" ["update"]; RoleRemoveActionsCall roles_example.alice "g1" "r1" ["read"];
   RoleRemoveAllMembersCall roles_example.alice "g1" "r1"].
Definition start : logged.state (memroles.state unit) := (((∅, ∅), tt), []).
Definition ran := replication.calls (run (stored (logged.lift memroles.now) logged.broker manager "group." "req")) requests start.
Lemma manager_log c : frames (run manager c) logged.log.
Proof. destruct c; simpl; (apply frames_bind; [apply logged.lift_log|]); try done; by intros [? ?]. Qed.
(** The three messages are handled by an empty copy. *)
Definition copy := replication.handle_all (fun m => consumed "group" (memroles.repo "group") m.2) (logged.log ran.2) (((∅, ∅), tt)).
Lemma role_changes_replicated_witness :
  copy.1 = [None; None; None] /\ size (memroles.grants copy.2) = 1%nat
  /\ exists msgs, logged.log ran.2 = [] ++ msgs /\ msgs.*1 = map (stream "group.") ran.1
    /\ forall v, replication.handle_all (fun m => consumed "group" (memroles.repo (T := unit) "group") m.2) msgs v
              = replication.handle_all (replayed "group" (memroles.repo (T := unit) "group")) ran.1 v.
Proof.
  split; [vm_compute; reflexivity|]. split; [vm_compute; reflexivity|].
  eapply (role_changes_replicated (logged.lift memroles.now) logged.broker manager "group" "req"
    (memroles.repo (T := unit) "group") logged.log logged.broker_log (logged.lift_log _) manager_log requests start ran.1 ran.2).
  - apply surjective_pairing.
  - vm_compute. repeat constructor; discriminate.
Defined.
End role_changes_example.
