(* ===== verification/Journal.v ===== *)
(** * Journal: what happened, and how much each client talks

    Source: src/journal/journal.go, service.go, events/consumer.go,
    middleware/authorization.go, postgres/journal.go and telemetry.go, with
    src/pkg/postgres/errors.go and error_handler.go; the events it counts are
    those of src/mqtt/events and src/pkg/messaging/events.

    The journal consumes the events of every service, keeps each as a row and
    counts, per client, the messages sent and received and the subscriptions.
    The tables are lists of rows ([DB]), a statement is a function of them
    that the migrations' keys, lengths and references restrict; the driver may
    fail at any statement ([faults]).  A method that can panic has an optional
    result.  JSON text is left out, as in Events.v.

    [Handle_consistent] is the invariant of the tables, [redelivery_changes_nothing]
    that an event that comes twice counts once, [inbound_is_journalled] that
    a client's counter is the number of its complete publish rows, and
    [recorded_time_near] how far the time of a row is from the publisher's. *)

From S2P Require Import Prelude GoStd GoTime GoNum Errors Policies Authn Roles Clients Topics Authz Guards.
From S2P Require Import Adapters Events.
From stdpp Require Import sorting.

(** ** src/pkg/postgres: errors.go and error_handler.go *)
Module postgres.
(** An error of the driver: one of the server, with its text, or another. *)
Inductive dberr :=
| PgError (Code text ConstraintName : string)
| DriverError (e : err).
Definition of_dberr (d : dberr) : err :=
  match d with PgError _ text _ => Foreign None text None | DriverError e => e end.

Definition errDuplicate := "23505".
Definition errTruncation := "22001".
Definition errFK := "23503".
Definition errInvalid := "22P02".
Definition errUntranslatable := "22P05".
Definition errInvalidChar := "22021".

Definition HandleError (wrapper : err) (d : dberr) : error :=
  match d with
  | PgError code _ _ =>
      if code =s errDuplicate then WrapE repoerr.ErrConflict (Some (of_dberr d))
      else if existsb (String.eqb code) [errInvalid; errInvalidChar; errTruncation; errUntranslatable]
      then WrapE repoerr.ErrMalformedEntity (Some (of_dberr d))
      else if code =s errFK then WrapE repoerr.ErrCreateEntity (Some (of_dberr d))
      else WrapE wrapper (Some (of_dberr d))
  | DriverError e => WrapE wrapper (Some e)
  end.

(** errHandler: the mapper of the names of constraints may be nil. *)
Definition errHandler : Type := option (string -> option err).
Definition errHandler_HandleError (eh : errHandler) (wrapper : err) (d : dberr) : error :=
  match d with
  | PgError code _ constraint =>
      if code =s errDuplicate then
        match eh ≫= (fun mapper => mapper constraint) with
        | Some knownErr => WrapE wrapper (Some knownErr)
        | None => WrapE wrapper (Some (of_dberr d))
        end
      else WrapE wrapper (Some (of_dberr d))
  | DriverError e => WrapE wrapper (Some e)
  end.
End postgres.

(** ** src/journal/journal.go *)
Module journal.
Definition EntityType : Type := N.
Definition UserEntity : EntityType := 0%N.
Definition GroupEntity : EntityType := 1%N.
Definition ClientEntity : EntityType := 2%N.
Definition ChannelEntity : EntityType := 3%N.
Definition userEntityType := "user".
Definition groupEntityType := "group".
Definition clientEntityType := "client".
Definition channelEntityType := "channel".

Definition EntityType_String (e : EntityType) : string :=
  match e with
  | 0%N => userEntityType | 1%N => groupEntityType | 2%N => clientEntityType | 3%N => channelEntityType
  | _ => ""
  end.
Definition ToEntityType (entityType : string) : EntityType * error :=
  if entityType =s userEntityType then (UserEntity, None)
  else if entityType =s groupEntityType then (GroupEntity, None)
  else if entityType =s clientEntityType then (ClientEntity, None)
  else if entityType =s channelEntityType then (ChannelEntity, None)
  else (0%N, Some apiutil.ErrInvalidEntityType).

Record Journal := MkJournal {
  ID : string; Domain : string; Operation : string; OccurredAt : Time; Attributes : events.data; Metadata : events.data }.
#[global] Instance Journal_fields : Fields Journal := fun j =>
  MkJournal (ID j) (Domain j) (Operation j) (OccurredAt j) (Attributes j) (Metadata j).
Record JournalsPage := MkJournalsPage { jp_Total : N; jp_Offset : N; jp_Limit : N; Journals : list Journal }.
Definition JournalsPage0 : JournalsPage := MkJournalsPage 0 0 0 [].
Record Page := MkPage {
  Offset : N; Limit : N; p_Operation : string; From : Time; To : Time; WithAttributes : bool; WithMetadata : bool;
  EntityID : string; EntityType_ : EntityType; Direction : string }.
#[global] Instance Page_fields : Fields Page := fun p =>
  MkPage (Offset p) (Limit p) (p_Operation p) (From p) (To p) (WithAttributes p) (WithMetadata p) (EntityID p)
    (EntityType_ p) (Direction p).

Record ClientTelemetry := MkClientTelemetry {
  ClientID : string; DomainID : string; Subscriptions : N; InboundMessages : N; OutboundMessages : N;
  FirstSeen : Time; LastSeen : Time }.
#[global] Instance ClientTelemetry_fields : Fields ClientTelemetry := fun c =>
  MkClientTelemetry (ClientID c) (DomainID c) (Subscriptions c) (InboundMessages c) (OutboundMessages c) (FirstSeen c)
    (LastSeen c).
Definition ClientTelemetry0 : ClientTelemetry := MkClientTelemetry "" "" 0 0 0 zeroTime zeroTime.
Record ClientSubscription := MkClientSubscription {
  sub_ID : string; SubscriberID : string; ChannelID : string; Subtopic : string; sub_ClientID : string }.
#[global] Instance ClientSubscription_fields : Fields ClientSubscription := fun s =>
  MkClientSubscription (sub_ID s) (SubscriberID s) (ChannelID s) (Subtopic s) (sub_ClientID s).
Definition ClientSubscription0 : ClientSubscription := MkClientSubscription "" "" "" "" "".

Record Repository (W : Type) := {
  repo_Save : Journal -> St W error;
  repo_RetrieveAll : Page -> St W (JournalsPage * error);
  repo_SaveClientTelemetry : ClientTelemetry -> St W error;
  repo_RetrieveClientTelemetry : string -> string -> St W (ClientTelemetry * error);
  repo_DeleteClientTelemetry : string -> string -> St W error;
  repo_AddSubscription : ClientSubscription -> St W error;
  repo_CountSubscriptions : string -> St W (N * error);
  repo_RemoveSubscription : string -> St W error;
  repo_IncrementInboundMessages : ClientTelemetry -> St W error;
  repo_IncrementOutboundMessages : string -> string -> St W error }.
Arguments repo_Save {W}. Arguments repo_RetrieveAll {W}. Arguments repo_SaveClientTelemetry {W}.
Arguments repo_RetrieveClientTelemetry {W}. Arguments repo_DeleteClientTelemetry {W}. Arguments repo_AddSubscription {W}.
Arguments repo_CountSubscriptions {W}. Arguments repo_RemoveSubscription {W}.
Arguments repo_IncrementInboundMessages {W}. Arguments repo_IncrementOutboundMessages {W}.

Record Service (W : Type) := {
  svc_Save : Journal -> St W (option error);
  svc_RetrieveAll : authn.Session -> Page -> St W (JournalsPage * error);
  svc_RetrieveClientTelemetry : authn.Session -> string -> St W (ClientTelemetry * error) }.
Arguments svc_Save {W}. Arguments svc_RetrieveAll {W}. Arguments svc_RetrieveClientTelemetry {W}.

(** *** service.go *)
Definition clientCreate := "client.create".
Definition clientRemove := "client.remove".
Definition mqttSubscribe := "mqtt.client_subscribe".
Definition mqttDisconnect := "mqtt.client_disconnect".
Definition messagingPublish := "messaging.client_publish".
Definition messagingSubscribe := "messaging.client_subscribe".
Definition messagingUnsubscribe := "messaging.client_unsubscribe".
Definition errSaveJournal : err := Sentinel "journal.errSaveJournal" CustomError "failed to save journal".
Definition errHandleTelemetry : err := Sentinel "journal.errHandleTelemetry" CustomError "failed to handle client telemetry".

Record clientEvent := MkClientEvent { ce_id : string; ce_domain : string; ce_createdAt : Time }.
Definition clientEvent0 : clientEvent := MkClientEvent "" "" zeroTime.
Record adapterEvent := MkAdapterEvent {
  ae_clientID : string; ae_channelID : string; ae_domainID : string; ae_subscriberID : string; ae_topic : string;
  ae_subtopic : string; ae_occurredAt : Time }.
#[global] Instance adapterEvent_fields : Fields adapterEvent := fun e =>
  MkAdapterEvent (ae_clientID e) (ae_channelID e) (ae_domainID e) (ae_subscriberID e) (ae_topic e) (ae_subtopic e)
    (ae_occurredAt e).
Definition adapterEvent0 : adapterEvent := MkAdapterEvent "" "" "" "" "" "" zeroTime.

Definition getStringAttribute (journal : Journal) (key : string) : string * error :=
  match events.as_string (Attributes journal) key with
  | Some value => (value, None)
  | None => ("", Some (Errorf ("missing or invalid " +:+ key +:+ " attribute")))
  end.

(** [created_at] is asserted to be a string without the second result: the
    call panics otherwise. *)
Definition toClientEvent (journal : Journal) (isCreate : bool) : option (clientEvent * error) :=
  let '(id, err) := getStringAttribute journal "id" in
  if_err err return_ Some (clientEvent0, err) ;;
  let '(domain, err) := getStringAttribute journal "domain" in
  if_err err return_ Some (clientEvent0, err) ;;
  if isCreate then
    match events.as_string (Attributes journal) "created_at" with
    | None => None
    | Some createdAtStr =>
        if createdAtStr <>s "" then
          let '(createdAt, err) := ParseRFC3339 createdAtStr in
          if_err err return_ Some (clientEvent0, Some (Errorf "invalid created_at format")) ;;
          Some (MkClientEvent id domain createdAt, None)
        else Some (MkClientEvent id domain zeroTime, None)
    end
  else Some (MkClientEvent id domain zeroTime, None).

Definition toPublishEvent (journal : Journal) : adapterEvent * error :=
  let '(clientID, err) := getStringAttribute journal "client_id" in
  if_err err return_ (adapterEvent0, err) ;;
  let '(channelID, err) := getStringAttribute journal "channel_id" in
  if_err err return_ (adapterEvent0, err) ;;
  let '(domainID, err) := getStringAttribute journal "domain_id" in
  if_err err return_ (adapterEvent0, err) ;;
  let '(subtopic, err) := getStringAttribute journal "subtopic" in
  if_err err return_ (adapterEvent0, err) ;;
  (adapterEvent0 <| ae_clientID := clientID |> <| ae_channelID := channelID |> <| ae_domainID := domainID |>
    <| ae_subtopic := subtopic |> <| ae_occurredAt := OccurredAt journal |>, None).
Definition toSubscribeEvent (journal : Journal) : adapterEvent * error :=
  let '(subscriberID, err) := getStringAttribute journal "subscriber_id" in
  if_err err return_ (adapterEvent0, err) ;;
  let '(topic, err) := getStringAttribute journal "topic" in
  if_err err return_ (adapterEvent0, err) ;;
  let '(clientID, err) := getStringAttribute journal "client_id" in
  let clientID := match err with Some _ => "" | None => clientID end in
  (adapterEvent0 <| ae_clientID := clientID |> <| ae_subscriberID := subscriberID |> <| ae_topic := topic |>, None).
Definition toUnsubscribeEvent (journal : Journal) : adapterEvent * error :=
  let '(subscriberID, err) := getStringAttribute journal "subscriber_id" in
  if_err err return_ (adapterEvent0, err) ;;
  let '(topic, err) := getStringAttribute journal "topic" in
  if_err err return_ (adapterEvent0, err) ;;
  (adapterEvent0 <| ae_subscriberID := subscriberID |> <| ae_topic := topic |>, None).
Definition toMqttSubscribeEvent (journal : Journal) : adapterEvent * error :=
  let '(clientID, err) := getStringAttribute journal "client_id" in
  if_err err return_ (adapterEvent0, err) ;;
  let '(subscriberID, err) := getStringAttribute journal "subscriber_id" in
  if_err err return_ (adapterEvent0, err) ;;
  let '(channelID, err) := getStringAttribute journal "channel_id" in
  if_err err return_ (adapterEvent0, err) ;;
  let '(subtopic, err) := getStringAttribute journal "subtopic" in
  if_err err return_ (adapterEvent0, err) ;;
  (adapterEvent0 <| ae_clientID := clientID |> <| ae_subscriberID := subscriberID |> <| ae_channelID := channelID |>
    <| ae_subtopic := subtopic |>, None).
Definition toMqttDisconnectEvent (journal : Journal) : adapterEvent * error :=
  let '(subscriberID, err) := getStringAttribute journal "subscriber_id" in
  if_err err return_ (adapterEvent0, err) ;;
  let '(clientID, err) := getStringAttribute journal "client_id" in
  if_err err return_ (adapterEvent0, err) ;;
  (adapterEvent0 <| ae_subscriberID := subscriberID |> <| ae_channelID := clientID |>, None).

Section service.
Context {W : Type} (idp : St W (string * error)) (repository : Repository W).

Definition addClientTelemetry (journal : Journal) : St W (option error) :=
  match toClientEvent journal true with
  | None => panic
  | Some (ce, err) =>
      if_err err return_ pret err ;;
      call (repo_SaveClientTelemetry repository (ClientTelemetry0 <| ClientID := ce_id ce |> <| DomainID := ce_domain ce |>
        <| FirstSeen := ce_createdAt ce |> <| LastSeen := ce_createdAt ce |>))
  end.
Definition removeClientTelemetry (journal : Journal) : St W (option error) :=
  match toClientEvent journal false with
  | None => panic
  | Some (ce, err) =>
      if_err err return_ pret err ;;
      call (repo_DeleteClientTelemetry repository (ce_id ce) (ce_domain ce))
  end.
(** [topics[1]] is out of range when the topic has no dot. *)
Definition addSubscription (journal : Journal) : St W (option error) :=
  let '(ae, err) := toSubscribeEvent journal in
  if_err err return_ pret err ;;
  let topics := Split (ae_topic ae) "."%char in
  let subtopic := if Nat.ltb 2 (length topics) then nth 2 topics "" else "" in
  '(id, err) <~ call idp ;;
  if_err err return_ pret err ;;
  match topics !! 1%nat with
  | None => panic
  | Some channel =>
      call (repo_AddSubscription repository
        (MkClientSubscription id (ae_subscriberID ae) channel subtopic (ae_clientID ae)))
  end.
Definition addMqttSubscription (journal : Journal) : St W (option error) :=
  let '(ae, err) := toMqttSubscribeEvent journal in
  if_err err return_ pret err ;;
  '(id, err) <~ call idp ;;
  if_err err return_ pret err ;;
  call (repo_AddSubscription repository
    (MkClientSubscription id (ae_subscriberID ae) (ae_channelID ae) (ae_subtopic ae) (ae_clientID ae))).
Definition removeSubscription (journal : Journal) : St W (option error) :=
  let '(ae, err) := toUnsubscribeEvent journal in
  if_err err return_ pret err ;;
  call (repo_RemoveSubscription repository (ae_subscriberID ae)).
Definition removeMqttSubscription (journal : Journal) : St W (option error) :=
  let '(ae, err) := toMqttDisconnectEvent journal in
  if_err err return_ pret err ;;
  call (repo_RemoveSubscription repository (ae_subscriberID ae)).
Definition updateMessageCount (journal : Journal) : St W (option error) :=
  let '(ae, err) := toPublishEvent journal in
  if_err err return_ pret err ;;
  err <~ call (repo_IncrementInboundMessages repository (ClientTelemetry0 <| ClientID := ae_clientID ae |>
    <| DomainID := ae_domainID ae |> <| FirstSeen := ae_occurredAt ae |> <| LastSeen := ae_occurredAt ae |>)) ;;
  if_err err return_ pret err ;;
  err <~ call (repo_IncrementOutboundMessages repository (ae_channelID ae) (ae_subtopic ae)) ;;
  if_err err return_ pret err ;;
  pret None.

Definition handleTelemetry (journal : Journal) : St W (option error) :=
  let op := Operation journal in
  if op =s clientCreate then addClientTelemetry journal
  else if op =s clientRemove then removeClientTelemetry journal
  else if op =s mqttSubscribe then addMqttSubscription journal
  else if op =s messagingSubscribe then addSubscription journal
  else if op =s messagingUnsubscribe then removeSubscription journal
  else if op =s messagingPublish then updateMessageCount journal
  else if op =s mqttDisconnect then removeMqttSubscription journal
  else pret None.

Definition Save (journal : Journal) : St W (option error) :=
  '(id, err) <~ call idp ;;
  if_err err return_ pret err ;;
  let journal := journal <| ID := id |> in
  err <~ call (repo_Save repository journal) ;;
  if_err err return_ pret (WrapE errSaveJournal err) ;;
  err <~ handleTelemetry journal ;;
  if_err err return_ pret (WrapE errHandleTelemetry err) ;;
  pret None.
Definition RetrieveAll (session : authn.Session) (page : Page) : St W (JournalsPage * error) :=
  '(journalPage, err) <- repo_RetrieveAll repository page ;;
  if_err err return_ ret (JournalsPage0, WrapE svcerr.ErrViewEntity err) ;;
  ret (journalPage, None).
Definition RetrieveClientTelemetry (session : authn.Session) (clientID : string) : St W (ClientTelemetry * error) :=
  '(ct, err) <- repo_RetrieveClientTelemetry repository clientID (authn.DomainID session) ;;
  if_err err return_ ret (ClientTelemetry0, WrapE svcerr.ErrViewEntity err) ;;
  '(subs, err) <- repo_CountSubscriptions repository clientID ;;
  if_err err return_ ret (ClientTelemetry0, WrapE svcerr.ErrViewEntity err) ;;
  ret (ct <| Subscriptions := subs |>, None).
Definition NewService : Service W :=
  {| svc_Save := Save; svc_RetrieveAll := RetrieveAll; svc_RetrieveClientTelemetry := RetrieveClientTelemetry |}.
End service.

(** *** middleware/authorization.go *)
Definition readPermission := "read_permission".
Section authorization.
Context {W : Type} (svc : Service W) (az : authz.Authorization W).
Definition am_Save (journal : Journal) : St W (option error) := svc_Save svc journal.
Definition am_RetrieveAll (session : authn.Session) (page : Page) : St W (JournalsPage * error) :=
  let '(permission, objectType, object, subject) :=
    if EntityType_String (EntityType_ page) =s policies.UserType
    then (policies.AdminPermission, policies.PlatformType, policies.SuperMQObject, authn.UserID session)
    else (readPermission, EntityType_String (EntityType_ page), EntityID page, authn.DomainUserID session) in
  let req := authz.PolicyReq0 <| authz.Domain := authn.DomainID session |> <| authz.SubjectType := policies.UserType |>
    <| authz.SubjectKind := policies.UsersKind |> <| authz.Subject := subject |> <| authz.Permission := permission |>
    <| authz.ObjectType := objectType |> <| authz.Object := object |> in
  err <- authz.Authorize az req None ;;
  if_err err return_ ret (JournalsPage0, err) ;;
  svc_RetrieveAll svc session page.
Definition am_RetrieveClientTelemetry (session : authn.Session) (clientID : string) : St W (ClientTelemetry * error) :=
  let req := authz.PolicyReq0 <| authz.Domain := authn.DomainID session |> <| authz.SubjectType := policies.UserType |>
    <| authz.SubjectKind := policies.UsersKind |> <| authz.Subject := authn.DomainUserID session |>
    <| authz.Permission := readPermission |> <| authz.ObjectType := policies.ClientType |>
    <| authz.Object := clientID |> in
  err <- authz.Authorize az req None ;;
  if_err err return_ ret (ClientTelemetry0, err) ;;
  svc_RetrieveClientTelemetry svc session clientID.
Definition NewAuthorization : Service W :=
  {| svc_Save := am_Save; svc_RetrieveAll := am_RetrieveAll; svc_RetrieveClientTelemetry := am_RetrieveClientTelemetry |}.
End authorization.

(** *** events/consumer.go *)
Section consumer.
Context {W : Type} (service : Service W).
(** [data["occurred_at"].(float64)] *)
Definition as_float (d : events.data) (k : string) : option float64 :=
  match roles.map_lookup k d with Some (JNumber n) => json_float n | _ => None end.
(** [delete(data, k)] *)
Fixpoint delete (k : string) (d : events.data) : events.data :=
  match d with [] => [] | (k', v) :: d' => if k =s k' then delete k d' else (k', v) :: delete k d' end.
(** Every error but that of Encode, which the decoded map has none of, is
    logged; the log is left out. *)
Definition Handle (data : events.data) : St W (option error) :=
  match events.as_string data "operation" with
  | None => pret None
  | Some operation =>
      let data := delete "operation" data in
      if operation =s "" then pret None else
      match as_float data "occurred_at" with
      | None => pret None
      | Some occurredAt =>
          let data := delete "occurred_at" data in
          if isZero occurredAt then pret None else
          let metadata := default [] (events.as_object data "metadata") in
          let data := delete "metadata" data in
          if events.is_empty data then pret None else
          _ <~ svc_Save service (MkJournal "" "" operation (events.unixEpoch + int64_of occurredAt)%Z data metadata) ;;
          pret None
      end
  end.
End consumer.
End journal.

(** ** src/journal/postgres *)
Module journal_postgres.
Import postgres journal.
Record dbClientTelemetry := MkDbClientTelemetry {
  t_ClientID : string; t_DomainID : string; t_Inbound : N; t_Outbound : N; t_FirstSeen : Time; t_LastSeen : option Time }.
#[global] Instance dbClientTelemetry_fields : Fields dbClientTelemetry := fun t =>
  MkDbClientTelemetry (t_ClientID t) (t_DomainID t) (t_Inbound t) (t_Outbound t) (t_FirstSeen t) (t_LastSeen t).
(** The tables, and what the driver says to the next statements: an error, or
    nothing when the list is over. *)
Record DB := MkDB {
  journals : list Journal; clients_telemetry : list dbClientTelemetry; subscriptions : list ClientSubscription;
  faults : list (option dberr) }.
#[global] Instance DB_fields : Fields DB := fun d =>
  MkDB (journals d) (clients_telemetry d) (subscriptions d) (faults d).

(** *** PostgreSQL *)
Definition fault : St DB (option dberr) := fun db =>
  (default None (head (faults db)), db <| faults := tail (faults db) |>).
(** A statement: it fails, or it has a result and new tables. *)
Definition statement {A} (f : DB -> dberr + A * DB) : St DB (dberr + A) :=
  d <- fault ;;
  match d with
  | Some d => ret (inl d)
  | None => fun db => match f db with inl d => (inl d, db) | inr (a, db) => (inr a, db) end
  end.
Definition unique_violation (constraint : string) : dberr := PgError errDuplicate "ERROR: duplicate key value" constraint.
Definition too_long : dberr := PgError errTruncation "ERROR: value too long for type character varying" "".
Definition out_of_range : dberr := PgError "22003" "ERROR: bigint out of range" "".
Definition maxBigint : N := 9223372036854775807%N.
(** VARCHAR(n), the characters of which are bytes here. *)
Definition fits (n : nat) (s : string) : bool := Nat.leb (String.length s) n.
(** TIMESTAMPTZ has microseconds. *)
Definition timestamp (t : Time) : Time := (t / 1000 * 1000)%Z.

(** errors.go *)
Definition GetError (constraint : string) : option err :=
  if constraint =s "journal_pkey" then Some (Err None RequestError "journal entry already exists" None) else None.
Definition eh : errHandler := Some GetError.

Section repository.
(** The clock, equality of two JSONB objects, and the text of a JSON value
    that is not a string. *)
Context (now : St DB Time) (jsonb_eq : events.data -> events.data -> bool) (jsonb_text : Json -> string).

(** *** journal.go *)
Definition toDBJournal (j : Journal) : St DB Journal :=
  if IsZero (OccurredAt j) then t <- now ;; ret (j <| OccurredAt := t |>) else ret j.
Definition insert_journal (j : Journal) : St DB (dberr + unit) := statement (fun db =>
  let j := j <| OccurredAt := timestamp (OccurredAt j) |> in
  if negb (fits 36 (ID j)) then inl too_long
  else if existsb (fun r => ID r =s ID j) (journals db) then inl (unique_violation "journal_pkey")
  else if existsb (fun r => (Operation r =s Operation j) && Z.eqb (OccurredAt r) (OccurredAt j)
                            && jsonb_eq (Attributes r) (Attributes j)) (journals db)
  then inl (unique_violation "journal_operation_occurred_at_attributes_key")
  else inr (tt, db <| journals := journals db ++ [j] |>)).
Definition Save (j : Journal) : St DB error :=
  let j := match events.as_string (Attributes j) "domain" with Some domain => j <| Domain := domain |> | None => j end in
  let j := if HasPrefix (Operation j) "domain."
           then match events.as_string (Attributes j) "id" with Some domain => j <| Domain := domain |> | None => j end
           else j in
  dbJournal <- toDBJournal j ;;
  r <- insert_journal dbJournal ;;
  match r with
  | inl d => ret (errHandler_HandleError eh repoerr.ErrCreateEntity d)
  | inr _ => ret None
  end.

(** [attributes->>'k' = :id], and [jsonb_exists_any(attributes->'k', array[:id])]. *)
Definition attribute_is (d : events.data) (k id : string) : bool :=
  match roles.map_lookup k d with
  | None | Some JNull => false
  | Some (JString s) => s =s id
  | Some v => jsonb_text v =s id
  end.
Definition attribute_has (d : events.data) (k id : string) : bool :=
  match roles.map_lookup k d with
  | Some (JString s) => s =s id
  | Some (JArray l) => existsb (fun v => match v with JString s => s =s id | _ => false end) l
  | Some (JObject m) => existsb (fun kv => kv.1 =s id) m
  | _ => false
  end.
(** EntityType.Query: the condition on a row; the empty text of an unknown
    type makes the query a syntax error. *)
Definition Query (e : EntityType) (id : string) (j : Journal) : bool :=
  let a := Attributes j in
  let of_entity prefix := HasPrefix (Operation j) prefix && (attribute_is a "id" id || attribute_is a "entity_id" id) in
  match e with
  | 0%N => (HasPrefix (Operation j) "user." && attribute_is a "id" id) || attribute_is a "user_id" id
  | 1%N => of_entity "group."
  | 2%N => of_entity "client." || attribute_has a "client_ids" id
  | 3%N => of_entity "channel." || attribute_has a "channel_ids" id
  | _ => false
  end.
Definition syntax_error : dberr := PgError "42601" "ERROR: syntax error" "".
Definition pageQuery (pm : Page) : dberr + (Journal -> bool) :=
  if (EntityID pm <>s "") && (EntityType_String (EntityType_ pm) =s "") then inl syntax_error else
  inr (fun j =>
    ((p_Operation pm =s "") || (Operation j =s p_Operation pm))
    && (IsZero (From pm) || (timestamp (From pm) <=? OccurredAt j)%Z)
    && (IsZero (To pm) || (OccurredAt j <=? timestamp (To pm))%Z)
    && ((EntityID pm =s "") || Query (EntityType_ pm) (EntityID pm) j)).
(** ORDER BY occurred_at; the order of rows of one instant is free. *)
Definition older (a b : Journal) : Prop := (OccurredAt a <= OccurredAt b)%Z.
#[global] Instance older_dec : RelDecision older.
Proof. intros a b. unfold older. apply _. Defined.
(** ASC or DESC, in any case; any other word is a syntax error. *)
Definition direction (d : string) : dberr + bool :=
  if existsb (String.eqb d) ["asc"; "ASC"] then inr true
  else if existsb (String.eqb d) ["desc"; "DESC"] then inr false else inl syntax_error.
Definition select_page (page : Page) : St DB (dberr + N * list Journal) := statement (fun db =>
  match pageQuery page, direction (Direction page) with
  | inr cond, inr asc =>
      let rows := List.filter cond (journals db) in
      let sorted := if asc then merge_sort older rows else merge_sort (flip older) rows in
      let columns j := j <| ID := "" |> <| Attributes := if WithAttributes page then Attributes j else [] |>
        <| Metadata := if WithMetadata page then Metadata j else [] |> in
      inr ((N.of_nat (length rows), columns <$> take (N.to_nat (Limit page)) (drop (N.to_nat (Offset page)) sorted)), db)
  | inl d, _ | _, inl d => inl d
  end).
Definition count_journals (page : Page) : St DB (dberr + N) := statement (fun db =>
  match pageQuery page with
  | inr cond => inr (N.of_nat (length (List.filter cond (journals db))), db)
  | inl d => inl d
  end).
(** The total comes with the rows; a page of none has no row to carry it. *)
Definition RetrieveAll (page : Page) : St DB (JournalsPage * error) :=
  let page := if Direction page =s "" then page <| Direction := "ASC" |> else page in
  r <- select_page page ;;
  match r with
  | inl d => ret (JournalsPage0, errHandler_HandleError eh repoerr.ErrViewEntity d)
  | inr (total, items) =>
      if negb (events.is_empty items) then ret (MkJournalsPage total (Offset page) (Limit page) items, None) else
      r <- count_journals page ;;
      match r with
      | inl d => ret (JournalsPage0, errHandler_HandleError eh repoerr.ErrViewEntity d)
      | inr total => ret (MkJournalsPage total (Offset page) (Limit page) items, None)
      end
  end.

(** *** telemetry.go *)
Definition toDBClientsTelemetry (ct : ClientTelemetry) : dbClientTelemetry :=
  MkDbClientTelemetry (ClientID ct) (DomainID ct) (InboundMessages ct) (OutboundMessages ct) (FirstSeen ct)
    (if Z.eqb (LastSeen ct) zeroTime then None else Some (LastSeen ct)).
Definition toClientsTelemetry (dbct : dbClientTelemetry) : ClientTelemetry :=
  MkClientTelemetry (t_ClientID dbct) (t_DomainID dbct) 0 (t_Inbound dbct) (t_Outbound dbct) (t_FirstSeen dbct)
    (default zeroTime (t_LastSeen dbct)).
Definition stored (t : dbClientTelemetry) : dbClientTelemetry :=
  t <| t_FirstSeen := timestamp (t_FirstSeen t) |> <| t_LastSeen := timestamp <$> t_LastSeen t |>.
Definition has_client (id : string) (db : DB) : bool := existsb (fun t => t_ClientID t =s id) (clients_telemetry db).

Definition SaveClientTelemetry (ct : ClientTelemetry) : St DB error :=
  let dbct := toDBClientsTelemetry ct in
  r <- statement (fun db =>
    if negb (fits 36 (t_ClientID dbct) && fits 36 (t_DomainID dbct)) then inl too_long
    else if has_client (t_ClientID dbct) db then inl (unique_violation "clients_telemetry_pkey")
    else inr (tt, db <| clients_telemetry := clients_telemetry db ++ [stored dbct] |>)) ;;
  match r with
  | inl d => ret (HandleError repoerr.ErrCreateEntity d)
  | inr _ => ret None
  end.
(** The subscriptions of the client go with its row (ON DELETE CASCADE). *)
Definition DeleteClientTelemetry (clientID domainID : string) : St DB error :=
  r <- statement (fun db =>
    let gone t := (t_ClientID t =s clientID) && (t_DomainID t =s domainID) in
    let left := List.filter (fun t => negb (gone t)) (clients_telemetry db) in
    inr (length (List.filter gone (clients_telemetry db)),
         db <| clients_telemetry := left |>
            <| subscriptions := List.filter (fun s => existsb (fun t => t_ClientID t =s sub_ClientID s) left)
                                  (subscriptions db) |>)) ;;
  match r with
  | inl d => ret (HandleError repoerr.ErrRemoveEntity d)
  | inr rows => if Nat.eqb rows 0 then ret (Some repoerr.ErrNotFound) else ret None
  end.
Definition RetrieveClientTelemetry (clientID domainID : string) : St DB (ClientTelemetry * error) :=
  r <- statement (fun db =>
    inr (List.filter (fun t => (t_ClientID t =s clientID) && (t_DomainID t =s domainID)) (clients_telemetry db), db)) ;;
  match r with
  | inl d => ret (ClientTelemetry0, HandleError repoerr.ErrViewEntity d)
  | inr (dbct :: _) => ret (toClientsTelemetry dbct, None)
  | inr [] => ret (ClientTelemetry0, Some repoerr.ErrNotFound)
  end.
(** INSERT ... SELECT: a row for each row of the client, of which there is
    one at most. *)
Definition AddSubscription (sub : ClientSubscription) : St DB error :=
  r <- statement (fun db =>
    if negb (has_client (sub_ClientID sub) db) then inr (tt, db)
    else if negb (fits 36 (sub_ID sub) && fits 1024 (SubscriberID sub) && fits 36 (ChannelID sub)
                  && fits 1024 (Subtopic sub)) then inl too_long
    else if existsb (fun s => sub_ID s =s sub_ID sub) (subscriptions db) then inl (unique_violation "subscriptions_pkey")
    else inr (tt, db <| subscriptions := subscriptions db ++ [sub] |>)) ;;
  match r with
  | inl d => ret (HandleError repoerr.ErrUpdateEntity d)
  | inr _ => ret None
  end.
Definition CountSubscriptions (clientID : string) : St DB (N * error) :=
  r <- statement (fun db =>
    inr (N.of_nat (length (List.filter (fun s => sub_ClientID s =s clientID) (subscriptions db))), db)) ;;
  match r with
  | inl d => ret (0%N, HandleError repoerr.ErrViewEntity d)
  | inr total => ret (total, None)
  end.
Definition RemoveSubscription (subscriberID : string) : St DB error :=
  r <- statement (fun db =>
    inr (tt, db <| subscriptions := List.filter (fun s => SubscriberID s <>s subscriberID) (subscriptions db) |>)) ;;
  match r with
  | inl d => ret (HandleError repoerr.ErrUpdateEntity d)
  | inr _ => ret None
  end.
(** INSERT ... ON CONFLICT (client_id) DO UPDATE. *)
Definition IncrementInboundMessages (ct : ClientTelemetry) : St DB error :=
  let dbct := stored (toDBClientsTelemetry ct) in
  r <- statement (fun db =>
    if negb (fits 36 (t_ClientID dbct) && fits 36 (t_DomainID dbct)) then inl too_long
    else if negb (has_client (t_ClientID dbct) db)
    then inr (1%nat, db <| clients_telemetry := clients_telemetry db ++ [dbct <| t_Inbound := 1%N |> <| t_Outbound := 0%N |>] |>)
    else if existsb (fun t => (t_ClientID t =s t_ClientID dbct) && N.leb maxBigint (t_Inbound t)) (clients_telemetry db)
    then inl out_of_range
    else inr (1%nat, db <| clients_telemetry := (fun t => if t_ClientID t =s t_ClientID dbct
      then t <| t_Inbound := (t_Inbound t + 1)%N |> <| t_LastSeen := t_LastSeen dbct |> else t) <$> clients_telemetry db |>)) ;;
  match r with
  | inl d => ret (HandleError repoerr.ErrUpdateEntity d)
  | inr rows => if Nat.eqb rows 0 then ret (Some repoerr.ErrNotFound) else ret None
  end.

(** GROUP BY client_id *)
Definition match_counts (channelID subtopic : string) (db : DB) : list (string * N) :=
  let matching := List.filter (fun s => (ChannelID s =s channelID) && (Subtopic s =s subtopic)) (subscriptions db) in
  (fun c => (c, N.of_nat (length (List.filter (fun s => sub_ClientID s =s c) matching))))
    <$> remove_dups (sub_ClientID <$> matching).
Definition add_outbound (count : N) (clientID : string) : St DB (dberr + unit) := statement (fun db =>
  if existsb (fun t => (t_ClientID t =s clientID) && N.ltb maxBigint (t_Outbound t + count)) (clients_telemetry db)
  then inl out_of_range
  else inr (tt, db <| clients_telemetry := (fun t => if t_ClientID t =s clientID
      then t <| t_Outbound := (t_Outbound t + count)%N |> else t) <$> clients_telemetry db |>)).
(** The loop over the rows: an error while the next one is fetched ends it.
    The updates are statements of the database, not of the transaction. *)
Fixpoint count_rows (rows : list (string * N)) : St DB (option error) :=
  match rows with
  | [] => ret None
  | (clientID, count) :: rows =>
      d <- fault ;;
      if_err d return_ ret None ;;
      d <- fault ;;
      match d with
      | Some d =>
          r <- fault ;;
          match r with
          | Some r => ret (Some (WrapE errs.ErrRollbackTx (Some (of_dberr r))))
          | None => ret (Some (HandleError repoerr.ErrUpdateEntity d))
          end
      | None =>
          u <- add_outbound count clientID ;;
          match u with
          | inl d =>
              r <- fault ;;
              match r with
              | Some r => ret (Some (WrapE errs.ErrRollbackTx (Some (of_dberr r))))
              | None => ret (Some (WrapE errs.ErrRollbackTx (Some (of_dberr d))))
              end
          | inr _ => count_rows rows
          end
      end
  end.
Definition IncrementOutboundMessages (channelID subtopic : string) : St DB error :=
  rows <- statement (fun db => inr (match_counts channelID subtopic db, db)) ;;
  match rows with
  | inl d => ret (HandleError repoerr.ErrUpdateEntity d)
  | inr rows =>
      tx <- fault ;;
      match tx with
      | Some d => ret (HandleError repoerr.ErrUpdateEntity d)
      | None =>
          r <- count_rows rows ;;
          match r with
          | Some e => ret e
          | None =>
              d <- fault ;;
              match d with
              | Some d => ret (HandleError repoerr.ErrUpdateEntity d)
              | None => ret None
              end
          end
      end
  end.

Definition NewRepository : Repository DB :=
  {| repo_Save := Save; repo_RetrieveAll := RetrieveAll; repo_SaveClientTelemetry := SaveClientTelemetry;
     repo_RetrieveClientTelemetry := RetrieveClientTelemetry; repo_DeleteClientTelemetry := DeleteClientTelemetry;
     repo_AddSubscription := AddSubscription; repo_CountSubscriptions := CountSubscriptions;
     repo_RemoveSubscription := RemoveSubscription; repo_IncrementInboundMessages := IncrementInboundMessages;
     repo_IncrementOutboundMessages := IncrementOutboundMessages |}.
End repository.
End journal_postgres.

(** ** src/pkg/messaging/events: what the adapters tell *)
Module messaging_events.
Import events.
Definition supermqPrefix := "supermq.".
Definition publishStream := supermqPrefix +:+ "publish".
Definition subscribeStream := supermqPrefix +:+ "subscribe".
Definition unsubscribeStream := supermqPrefix +:+ "unsubscribe".
Definition messagingPrefix := "messaging".
Definition clientPublish := messagingPrefix +:+ ".client_publish".
Definition clientSubscribe := messagingPrefix +:+ ".client_subscribe".
Definition clientUnsubscribe := messagingPrefix +:+ ".client_unsubscribe".
Definition publishEvent (domainID channelID clientID subtopic : string) : event :=
  [ ("operation", AString clientPublish); ("domain_id", AString domainID); ("channel_id", AString channelID);
    ("client_id", AString clientID); ("subtopic", AString subtopic)].
Definition subscribeEvent (operation subscriberID clientID topic : string) : event :=
  [ ("operation", AString operation); ("subscriber_id", AString subscriberID); ("client_id", AString clientID);
    ("topic", AString topic)].

Section middleware.
Context {W : Type} (ep : Publisher W) (pubsub : edge.PubSub W).
(** The same body in publisherES and pubsubES. *)
Definition Publish (topic : string) (msg : messaging.Message) : St W error :=
  err <- edge.Publish pubsub topic msg ;;
  if_err err return_ ret err ;;
  events.Publish ep publishStream
    (publishEvent (messaging.Domain msg) (messaging.Channel msg) (messaging.Publisher msg) (messaging.Subtopic msg)).
Definition Subscribe (cfg : edge.SubscriberConfig W) : St W error :=
  err <- edge.Subscribe pubsub cfg ;;
  if_err err return_ ret err ;;
  events.Publish ep subscribeStream
    (subscribeEvent clientSubscribe (edge.sc_ID cfg) (edge.sc_ClientID cfg) (edge.sc_Topic cfg)).
Definition Unsubscribe (id topic : string) : St W error :=
  err <- edge.Unsubscribe pubsub id topic ;;
  if_err err return_ ret err ;;
  events.Publish ep unsubscribeStream (subscribeEvent clientUnsubscribe id "" topic).
Definition NewPubSubMiddleware : edge.PubSub W :=
  {| edge.Publish := Publish; edge.Subscribe := Subscribe; edge.Unsubscribe := Unsubscribe |}.
End middleware.
End messaging_events.

(** ** src/mqtt/events *)
Module mqtt_events.
Import events.
Definition supermqPrefix := "supermq.".
Definition mqttPrefix := "mqtt".
Definition clientSubscribe := mqttPrefix +:+ ".client_subscribe".
Definition clientConnect := mqttPrefix +:+ ".client_connect".
Definition clientDisconnect := mqttPrefix +:+ ".client_disconnect".
Definition subscribeStream := supermqPrefix +:+ clientSubscribe.
Definition connectStream := supermqPrefix +:+ clientConnect.
Definition disconnectStream := supermqPrefix +:+ clientDisconnect.
Definition errFailedSession : err := Sentinel "mqttevents.errFailedSession" CustomError "failed to obtain session from context".
Definition connectEvent (operation clientID subscriberID instance : string) : event :=
  [ ("operation", AString operation); ("client_id", AString clientID); ("subscriber_id", AString subscriberID);
    ("instance", AString instance)].
Definition subscribeEvent (operation clientID subscriberID domainID channelID subtopic : string) : event :=
  [ ("operation", AString operation); ("client_id", AString clientID); ("subscriber_id", AString subscriberID);
    ("domainID", AString domainID); ("channel_id", AString channelID); ("subtopic", AString subtopic)].

(** session.Handler of mgate, with the session of the context: the calls
    that the store tells about. *)
Record Handler (W : Type) := {
  h_AuthConnect : option edge.Session -> St W error;
  h_Subscribe : option edge.Session -> list string -> St W error;
  h_Disconnect : option edge.Session -> St W error }.
Arguments h_AuthConnect {W}. Arguments h_Subscribe {W}. Arguments h_Disconnect {W}.
Section store.
Context {W : Type} (ep : Publisher W) (handler : Handler W) (instance : string).
Definition AuthConnect (session : option edge.Session) : St W error :=
  err <- h_AuthConnect handler session ;;
  if_err err return_ ret err ;;
  match session with
  | None => ret (Some errFailedSession)
  | Some s => events.Publish ep connectStream (connectEvent clientConnect (edge.Username s) (edge.ID s) instance)
  end.
Fixpoint publishTopics (s : edge.Session) (topics : list string) : St W (option error) :=
  match topics with
  | [] => pret None
  | topic :: topics =>
      match messaging.ParseSubscribeTopic topic with
      | None => panic
      | Some ((domainID, channelID, subTopic, _), err) =>
          if_err err return_ pret err ;;
          err <~ call (events.Publish ep subscribeStream
            (subscribeEvent clientSubscribe (edge.Username s) (edge.ID s) domainID channelID subTopic)) ;;
          if_err err return_ pret err ;;
          publishTopics s topics
      end
  end.
Definition Subscribe (session : option edge.Session) (topics : list string) : St W (option error) :=
  err <~ call (h_Subscribe handler session topics) ;;
  if_err err return_ pret err ;;
  match session with
  | None => pret (Some errFailedSession)
  | Some s => publishTopics s topics
  end.
Definition Disconnect (session : option edge.Session) : St W error :=
  err <- h_Disconnect handler session ;;
  if_err err return_ ret err ;;
  match session with
  | None => ret (Some errFailedSession)
  | Some s => events.Publish ep disconnectStream (connectEvent clientDisconnect (edge.Username s) (edge.ID s) instance)
  end.
End store.
End mqtt_events.

(** ** The tables stay consistent *)
Module journal_theory.
Import journal journal_postgres.

(** What the keys and references of the migrations promise. *)
Record consistent (db : DB) : Prop := {
  one_row_per_client : NoDup (t_ClientID <$> clients_telemetry db);
  one_row_per_subscription : NoDup (sub_ID <$> subscriptions db);
  one_row_per_entry : NoDup (ID <$> journals db);
  subscribers_known : Forall (fun s => has_client (sub_ClientID s) db = true) (subscriptions db) }.

Definition tables (db : DB) : list Journal * list dbClientTelemetry * list ClientSubscription :=
  (journals db, clients_telemetry db, subscriptions db).
Definition preserves {A} (P : DB -> Prop) (m : St DB A) : Prop := forall db, P db -> P (m db).2.

Lemma tables_journals a b : tables a = tables b -> journals a = journals b.
Proof. intros H. exact (f_equal (fun t => t.1.1) H). Qed.

(** A property of the tables that no fault of the driver changes. *)
Class OfTables (P : DB -> Prop) := of_tables : forall db db', tables db = tables db' -> P db -> P db'.

(** A property that holds after the driver was asked. *)
Class Asked (P : DB -> Prop) := asked : forall db, P db -> P (db <| faults := tail (faults db) |>).
#[global] Instance of_tables_asked P : OfTables P -> Asked P.
Proof. intros H db. by apply H. Qed.
(** The driver does not fail. *)
Definition quiet (db : DB) : Prop := faults db = [].
#[global] Instance quiet_asked : Asked quiet.
Proof. intros db H. unfold quiet in *. simpl. by rewrite H. Qed.

Section preserves.
Context (P : DB -> Prop).
Lemma preserves_frame {HP : OfTables P} {A} (m : St DB A) : frames m tables -> preserves P m.
Proof. intros H db. apply HP. by rewrite H. Qed.
Lemma preserves_ret {A} (a : A) : preserves P (ret a).
Proof. by intros db. Qed.
Lemma preserves_bind {A B} (m : St DB A) (f : A -> St DB B) :
  preserves P m -> (forall a, preserves P (f a)) -> preserves P (bind m f).
Proof. intros Hm Hf db H. unfold bind. specialize (Hm db H). destruct (m db) as [a db']. by apply Hf. Qed.
Lemma preserves_pbind {A B} (m : St DB (option A)) (f : A -> St DB (option B)) :
  preserves P m -> (forall a, preserves P (f a)) -> preserves P (pbind m f).
Proof. intros Hm Hf. apply preserves_bind; [done|]. intros [a|]; [apply Hf|apply preserves_ret]. Qed.
Lemma preserves_call {A} (m : St DB A) : preserves P m -> preserves P (call m).
Proof. intros H. apply preserves_bind; [done|]. intros a. apply preserves_ret. Qed.
Lemma preserves_fault {HP : Asked P} : preserves P fault.
Proof. intros db. by apply HP. Qed.
Lemma preserves_statement {HP : Asked P} {A} (f : DB -> postgres.dberr + A * DB) :
  (forall db a db', P db -> f db = inr (a, db') -> P db') -> preserves P (statement f).
Proof.
  intros Hf db H. apply HP in H as H'. unfold statement, bind, fault.
  destruct (default None (head (faults db))); simpl in *; [done|].
  destruct (f _) as [d|[a db']] eqn:E; simpl; [done|]. by apply (Hf _ _ _ H' E).
Qed.
End preserves.

(** Runs the tests between the calls. *)
Ltac preserve_step :=
  match goal with
  | |- preserves _ (bind _ _) => apply preserves_bind; [|intros]
  | |- preserves _ (pbind _ _) => apply preserves_pbind; [|intros]
  | |- preserves _ (call _) => apply preserves_call
  | |- preserves _ (ret _) => apply preserves_ret
  | |- preserves _ (pret _) => apply preserves_ret
  | |- preserves _ panic => apply preserves_ret
  | |- preserves _ fault => apply preserves_fault; apply _
  | |- preserves _ (match ?x with _ => _ end) => destruct x
  end.
Ltac preserve := repeat preserve_step.

#[global] Instance consistent_tables : OfTables consistent.
Proof.
  intros [] [] E [H1 H2 H3 H4]. unfold tables in E. simpl in *. injection E as -> -> ->. by split.
Qed.

Lemma existsb_false {A} (f : A -> bool) (l : list A) : existsb f l = false <-> Forall (fun x => f x = false) l.
Proof.
  induction l as [|x l IH]; simpl; [split; [constructor|done]|]. rewrite orb_false_iff, IH, Forall_cons. done.
Qed.
Lemma fresh_key {A} (key : A -> string) (k : string) (l : list A) :
  existsb (fun x => key x =s k) l = false -> k ∉ key <$> l.
Proof.
  rewrite existsb_false, Forall_forall. intros H Hin. apply list_elem_of_fmap in Hin as (x & -> & Hx).
  specialize (H _ Hx). simpl in H. by rewrite eqb_refl_s in H.
Qed.
Lemma NoDup_append {A} (l : list A) (x : A) : NoDup l -> x ∉ l -> NoDup (l ++ [x]).
Proof.
  intros Hl Hx. apply NoDup_app. split; [done|]. split; [|apply NoDup_singleton].
  intros y Hy ->%list_elem_of_singleton. done.
Qed.
Lemma sublist_List_filter {A} (f : A -> bool) (l : list A) : List.filter f l `sublist_of` l.
Proof. induction l as [|x l IH]; simpl; [constructor|]. destruct (f x); by constructor. Qed.
Lemma NoDup_key_filter {A B} (key : A -> B) (f : A -> bool) (l : list A) :
  NoDup (key <$> l) -> NoDup (key <$> List.filter f l).
Proof. intros H. eapply sublist_NoDup; [exact H|]. apply fmap_sublist, sublist_List_filter. Qed.
Lemma has_client_append id t (db : DB) l : clients_telemetry db = l ->
  existsb (fun t => t_ClientID t =s id) l = true -> existsb (fun t => t_ClientID t =s id) (l ++ [t]) = true.
Proof. intros _ H. rewrite existsb_app, H. done. Qed.
Lemma keys_map (f : dbClientTelemetry -> dbClientTelemetry) (l : list dbClientTelemetry) :
  (forall t, t_ClientID (f t) = t_ClientID t) -> t_ClientID <$> (f <$> l) = t_ClientID <$> l.
Proof. intros H. rewrite <- list_fmap_compose. apply list_fmap_ext. intros i t _. apply H. Qed.
Lemma has_client_map (f : dbClientTelemetry -> dbClientTelemetry) id (l : list dbClientTelemetry) :
  (forall t, t_ClientID (f t) = t_ClientID t) ->
  existsb (fun t => t_ClientID t =s id) (f <$> l) = existsb (fun t => t_ClientID t =s id) l.
Proof. intros H. induction l as [|t l IH]; [done|]. simpl. rewrite H. f_equal. apply IH. Qed.
Lemma Forall_List_filter {A} (P : A -> Prop) (f : A -> bool) (l : list A) : Forall P l -> Forall P (List.filter f l).
Proof. induction 1 as [|x l Hx _ IH]; simpl; [constructor|]. destruct (f x); [by constructor|done]. Qed.

(** The next test of a statement that had a result. *)
Tactic Notation "test" ident(E) "as" ident(H) :=
  match type of E with (if ?b then _ else _) = _ => destruct b eqn:H; [discriminate E|] end.
Tactic Notation "test" ident(E) := let H := fresh in test E as H; clear H.

Section consistency.
Context (now : St DB Time) (jsonb_eq : events.data -> events.data -> bool) (jsonb_text : Json -> string).
Context (idp : St DB (string * error)).
Hypothesis now_frames : frames now tables.
Hypothesis idp_frames : frames idp tables.
Let repo := NewRepository now jsonb_eq jsonb_text.
Let service := NewService idp repo.

Lemma insert_journal_consistent j : preserves consistent (insert_journal jsonb_eq j).
Proof.
  apply preserves_statement; [apply _|]. intros db [] db' [H1 H2 H3 H4] E. cbv zeta in E.
  test E. test E as Ek. test E.
  injection E as <-. split; simpl; [done..| |done]. rewrite fmap_app. apply NoDup_append; [done|].
  by apply (fresh_key ID).
Qed.
Lemma repo_Save_consistent j : preserves consistent (repo_Save repo j).
Proof.
  simpl. unfold Save, toDBJournal. cbv zeta.
  preserve; first [apply insert_journal_consistent | apply preserves_frame; [apply _|exact now_frames]].
Qed.

Lemma SaveClientTelemetry_consistent ct : preserves consistent (SaveClientTelemetry ct).
Proof.
  unfold SaveClientTelemetry. cbv zeta. preserve. apply preserves_statement; [apply _|].
  intros db [] db' [H1 H2 H3 H4] E. test E. test E as Ek.
  injection E as <-. split; simpl; [|done..|].
  - rewrite fmap_app. apply NoDup_append; [done|]. by apply (fresh_key t_ClientID).
  - eapply Forall_impl; [exact H4|]. intros s Hs. by apply (has_client_append _ _ db).
Qed.
Lemma DeleteClientTelemetry_consistent c d : preserves consistent (DeleteClientTelemetry c d).
Proof.
  unfold DeleteClientTelemetry. preserve. apply preserves_statement; [apply _|].
  intros db rows db' [H1 H2 H3 H4] E. injection E as _ <-. split; simpl; [by apply NoDup_key_filter..|done|].
  apply Forall_forall. intros s Hs%list_elem_of_In%filter_In. apply Hs.
Qed.
Lemma AddSubscription_consistent s : preserves consistent (AddSubscription s).
Proof.
  unfold AddSubscription. preserve. apply preserves_statement; [apply _|].
  intros db [] db' [H1 H2 H3 H4] E. destruct (has_client _ _) eqn:Ec; simpl in E; [|by simplify_eq].
  test E. test E as Ek. injection E as <-. split; simpl; [done| |done|].
  - rewrite fmap_app. apply NoDup_append; [done|]. by apply (fresh_key sub_ID).
  - apply Forall_app. split; [done|]. by constructor.
Qed.
Lemma RemoveSubscription_consistent id : preserves consistent (RemoveSubscription id).
Proof.
  unfold RemoveSubscription. preserve. apply preserves_statement; [apply _|].
  intros db [] db' [H1 H2 H3 H4] E. injection E as <-. split; simpl; [done|by apply NoDup_key_filter|done|].
  by apply Forall_List_filter.
Qed.
(** A change of the columns that are not keys. *)
Lemma update_consistent db f : consistent db -> (forall t, t_ClientID (f t) = t_ClientID t) ->
  consistent (db <| clients_telemetry := f <$> clients_telemetry db |>).
Proof.
  intros [H1 H2 H3 H4] Hf. split; simpl; [by rewrite keys_map|done..|].
  eapply Forall_impl; [exact H4|]. intros s Hs. unfold has_client in *. simpl. by rewrite has_client_map.
Qed.
Lemma IncrementInboundMessages_consistent ct : preserves consistent (IncrementInboundMessages ct).
Proof.
  unfold IncrementInboundMessages. cbv zeta. preserve. apply preserves_statement; [apply _|].
  intros db rows db' H E. test E. destruct (has_client _ db) eqn:Ek; simpl in E.
  - test E. injection E as _ <-. apply update_consistent; [done|].
    intros t. by destruct (_ =s _).
  - destruct H as [H1 H2 H3 H4]. injection E as _ <-. split; simpl; [|done..|].
    + rewrite fmap_app. apply NoDup_append; [done|]. by apply (fresh_key t_ClientID).
    + eapply Forall_impl; [exact H4|]. intros s Hs. by apply (has_client_append _ _ db).
Qed.
Lemma add_outbound_consistent count c : preserves consistent (add_outbound count c).
Proof.
  apply preserves_statement; [apply _|]. intros db [] db' H E. test E.
  injection E as <-. apply update_consistent; [done|]. intros t. by destruct (_ =s _).
Qed.
Lemma count_rows_consistent rows : preserves consistent (count_rows rows).
Proof.
  induction rows as [|[c n] rows IH]; simpl; [apply preserves_ret|].
  preserve; first [apply add_outbound_consistent | apply IH].
Qed.
Lemma IncrementOutboundMessages_consistent c s : preserves consistent (IncrementOutboundMessages c s).
Proof.
  unfold IncrementOutboundMessages. preserve; [|apply count_rows_consistent].
  apply preserves_statement; [apply _|]. intros db rows db' H E. by injection E as _ <-.
Qed.

Lemma Save_consistent j : preserves consistent (svc_Save service j).
Proof.
  simpl. unfold journal.Save, handleTelemetry, addClientTelemetry, removeClientTelemetry, addSubscription,
    addMqttSubscription, removeSubscription, removeMqttSubscription, updateMessageCount. cbv zeta.
  preserve; first [apply SaveClientTelemetry_consistent | apply DeleteClientTelemetry_consistent
    | apply AddSubscription_consistent | apply RemoveSubscription_consistent | apply IncrementInboundMessages_consistent
    | apply IncrementOutboundMessages_consistent | apply repo_Save_consistent
    | apply preserves_frame; [apply _|exact idp_frames]].
Qed.
Lemma Handle_consistent d : preserves consistent (Handle service d).
Proof.
  unfold Handle. cbv zeta. preserve. apply Save_consistent.
Qed.

End consistency.

Lemma errHandler_not_nil eh w d : postgres.errHandler_HandleError eh w d <> None.
Proof.
  unfold postgres.errHandler_HandleError. destruct d as [code text c|e]; [|apply WrapE_not_nil].
  destruct (code =s _); [|apply WrapE_not_nil]. destruct (eh ≫= _); apply WrapE_not_nil.
Qed.

(** ** The entry of an event *)
Definition entry (data : events.data) : option Journal :=
  operation ← events.as_string data "operation";
  let data := delete "operation" data in
  if operation =s "" then None else
  occurredAt ← as_float data "occurred_at";
  let data := delete "occurred_at" data in
  if isZero occurredAt then None else
  let attributes := delete "metadata" data in
  if events.is_empty attributes then None else
  Some (MkJournal "" "" operation (events.unixEpoch + int64_of occurredAt)%Z attributes
    (default [] (events.as_object data "metadata"))).
Lemma Handle_entry {W} (service : Service W) d w :
  Handle service d w = match entry d with
                       | None => (Some None, w)
                       | Some j => let '(r, w) := svc_Save service j w in (match r with Some _ => Some None | None => None end, w)
                       end.
Proof.
  unfold Handle, entry, pret, ret. destruct (events.as_string d "operation") as [op|]; simpl; [|done].
  destruct (op =s ""); [done|]. destruct (as_float _ _) as [f|]; simpl; [|done].
  destruct (isZero f); [done|]. destruct (events.is_empty _); [done|].
  unfold pbind, bind, ret. destruct (svc_Save _ _ w) as [[r|] w']; reflexivity.
Qed.

Lemma int64_of_bound f : (- 2 ^ 63 <= int64_of f <= maxInt64)%Z.
Proof.
  unfold int64_of, maxInt64. cbv zeta.
  match goal with |- context [if ?b then ?z else _] => destruct b eqn:E end; [go_bool|]; lia.
Qed.
(** No entry has the zero time, which would be replaced by the clock. *)
Lemma entry_time d j : entry d = Some j -> IsZero (OccurredAt j) = false.
Proof.
  unfold entry. destruct (events.as_string d "operation") as [op|]; simpl; [|done].
  destruct (op =s ""); [done|]. destruct (as_float _ _) as [f|]; simpl; [|done].
  destruct (isZero f); [done|]. destruct (events.is_empty _); [done|]. intros [= <-]. simpl. unfold IsZero.
  apply Z.eqb_neq. pose proof (int64_of_bound f). unfold events.unixEpoch, Second. lia.
Qed.

(** The time of the entry of an event that the event store published. *)
Lemma lookup_delete k k' d : k <> k' -> roles.map_lookup k (delete k' d) = roles.map_lookup k d.
Proof.
  intros Hk. induction d as [|[x v] d IH]; simpl; [done|]. destruct (String.eqb_spec k' x) as [<-|]; simpl; rewrite IH; [|done].
  by destruct (String.eqb_spec k k').
Qed.
Lemma json_float_text n : (0 < n < 2 ^ 62)%Z ->
  exists f, json_float (events.Z_text n) = Some f /\ isZero f = false /\ (Z.abs (int64_of f - n) <= 256)%Z.
Proof.
  intros Hn. unfold events.Z_text. destruct (Z.ltb_spec n 0); [lia|]. unfold json_float. rewrite number_parts_pretty.
  rewrite Z2N.id by lia. destruct (Z.eqb_spec n 0); [lia|]. cbn [Z.ltb Z.compare].
  rewrite Z.abs_eq, Z.pow_0_r, Z.mul_1_r by lia.
  destruct (float_of_Z_error n 9) as (f & -> & Hm & Hf); [lia..|]. cbv zeta in Hf. change (2 ^ 9)%Z with 512%Z in Hf.
  destruct (Z.ltb_spec n 0); [lia|]. cbn [mbind option_bind]. eexists. split; [reflexivity|]. split.
  { unfold isZero. simpl. by apply Z.eqb_neq. }
  unfold int64_of, maxInt64. cbn [mant fexp]. cbv zeta.
  destruct (if (fexp f <? 0)%Z then _ else _) as [|z|z]; [lia| |lia].
  destruct (Z.leb_spec (- 2 ^ 63) (Z.pos z)), (Z.leb_spec (Z.pos z) (2 ^ 63 - 1)); cbn [andb]; lia.
Qed.
Lemma entry_near t values data j : (0 < t - events.unixEpoch < 2 ^ 62)%Z ->
  events.marshal_map (events.put "occurred_at" (events.AInt (t - events.unixEpoch)) values) = Some data ->
  entry data = Some j -> (Z.abs (OccurredAt j - t) <= 256)%Z.
Proof.
  intros Ht Hm. apply (marshal_lookup _ _ "occurred_at") in Hm as [Hl _]. rewrite lookup_put in Hl. simpl in Hl.
  unfold entry. destruct (events.as_string data "operation") as [op|]; simpl; [|done].
  destruct (op =s ""); [done|]. unfold as_float. rewrite lookup_delete, Hl by done.
  destruct (json_float_text _ Ht) as (f & -> & Hz & Hn). simpl. rewrite Hz.
  destruct (events.is_empty _); [done|]. intros [= <-]. simpl. lia.
Qed.

(** What the repository finds when the entry was stored. *)
Definition clashes (jsonb_eq : events.data -> events.data -> bool) (j : Journal) (db : DB) : Prop :=
  exists r, r ∈ journals db /\ Operation r = Operation j /\ OccurredAt r = timestamp (OccurredAt j)
    /\ jsonb_eq (Attributes r) (Attributes j) = true.

(** ** The counters and the journal *)
(** Messages received from a client: what its row says. *)
Definition inbound (c : string) (db : DB) : N :=
  from_option t_Inbound 0%N (List.find (fun t => t_ClientID t =s c) (clients_telemetry db)).
(** The entry of a message of the client, with all its attributes and of
    lengths that the table takes. *)
Definition published_by (c : string) (j : Journal) : bool :=
  (Operation j =s messagingPublish) &&
  match toPublishEvent j with
  | (ae, None) => (ae_clientID ae =s c) && fits 36 c && fits 36 (ae_domainID ae)
  | _ => false
  end.
(** The event of the removal of the client. *)
Definition removes (c : string) (d : events.data) : bool :=
  match entry d with
  | Some j => (Operation j =s clientRemove) && ((getStringAttribute j "id").1 =s c)
  | None => false
  end.

Definition inbound_is (c : string) (n : N) (db : DB) : Prop := inbound c db = n.
#[global] Instance inbound_is_tables c n : OfTables (inbound_is c n).
Proof. intros [] [] E H. unfold tables in E. simpl in E. unfold inbound_is, inbound in *. simpl in *. congruence. Qed.

Lemma find_append {A} (f : A -> bool) l x :
  List.find f (l ++ [x]) = match List.find f l with Some y => Some y | None => if f x then Some x else None end.
Proof. induction l as [|y l IH]; simpl; [done|]. by destruct (f y). Qed.
Lemma find_map_key (f : dbClientTelemetry -> dbClientTelemetry) c l : (forall t, t_ClientID (f t) = t_ClientID t) ->
  List.find (fun t => t_ClientID t =s c) (f <$> l) = f <$> List.find (fun t => t_ClientID t =s c) l.
Proof. intros Hf. induction l as [|t l IH]; [done|]. cbn [fmap list_fmap List.find]. rewrite Hf. by destruct (_ =s c). Qed.
Lemma find_filter {A} (f g : A -> bool) l : (forall x, f x = true -> g x = true) ->
  List.find f (List.filter g l) = List.find f l.
Proof.
  intros H. induction l as [|x l IH]; [done|]. simpl. destruct (g x) eqn:Eg; simpl; [by destruct (f x)|].
  destruct (f x) eqn:Ef; [|done]. by rewrite (H _ Ef) in Eg.
Qed.
Lemma find_none_key c l : existsb (fun t => t_ClientID t =s c) l = false ->
  List.find (fun t => t_ClientID t =s c) l = None.
Proof. induction l as [|t l IH]; simpl; [done|]. by destruct (_ =s c). Qed.

Lemma find_none_iff c l : List.find (fun t => t_ClientID t =s c) l = None <-> existsb (fun t => t_ClientID t =s c) l = false.
Proof.
  split; [|apply find_none_key]. induction l as [|t l IH]; simpl; [done|]. by destruct (_ =s c).
Qed.
Lemma find_unique c t l : NoDup (t_ClientID <$> l) -> In t l -> t_ClientID t = c ->
  List.find (fun t => t_ClientID t =s c) l = Some t.
Proof.
  intros Hn Hin <-. induction l as [|u l IH]; [done|]. cbn [fmap list_fmap] in Hn. apply NoDup_cons in Hn as [Hu Hn].
  simpl. destruct Hin as [->|Hin]; [by rewrite eqb_refl_s|].
  destruct (String.eqb_spec (t_ClientID u) (t_ClientID t)) as [E|]; [|by apply IH].
  exfalso. apply Hu. rewrite E. apply list_elem_of_fmap. exists t. split; [done|]. by apply list_elem_of_In.
Qed.

(** Neither what was published to a client nor the rows of others count. *)
Lemma inbound_map c db f : (forall t, t_ClientID (f t) = t_ClientID t) -> (forall t, t_ClientID t = c -> t_Inbound (f t) = t_Inbound t) ->
  inbound c (db <| clients_telemetry := f <$> clients_telemetry db |>) = inbound c db.
Proof.
  intros Hk Hf. unfold inbound. simpl. rewrite find_map_key by done.
  destruct (List.find _ _) as [t|] eqn:E; [|done]. simpl. apply Hf. apply List.find_some in E as [_ E]. by go_bool.
Qed.
Lemma add_outbound_inbound c n count id : preserves (inbound_is c n) (add_outbound count id).
Proof.
  apply preserves_statement; [apply _|]. intros db [] db' H E. test E. injection E as <-. unfold inbound_is in *.
  rewrite <- H. apply inbound_map; intros t; by destruct (_ =s id).
Qed.
Lemma count_rows_inbound c n rows : preserves (inbound_is c n) (count_rows rows).
Proof.
  induction rows as [|[id k] rows IH]; simpl; [apply preserves_ret|].
  preserve; first [apply add_outbound_inbound | apply IH].
Qed.
Lemma IncrementOutboundMessages_inbound c n ch st : preserves (inbound_is c n) (IncrementOutboundMessages ch st).
Proof.
  unfold IncrementOutboundMessages. preserve; [|apply count_rows_inbound].
  apply preserves_statement; [apply _|]. intros db rows db' H E. by injection E as _ <-.
Qed.
Lemma SaveClientTelemetry_inbound c n ct : InboundMessages ct = 0%N -> preserves (inbound_is c n) (SaveClientTelemetry ct).
Proof.
  intros H0. unfold SaveClientTelemetry. cbv zeta. preserve. apply preserves_statement; [apply _|].
  intros db [] db' H E. test E. test E as Ek. injection E as <-. unfold inbound_is, inbound in *. simpl. rewrite find_append.
  destruct (List.find _ _) as [t|]; [done|]. simpl in *. rewrite <- H. destruct (_ =s c); [|done]. exact H0.
Qed.
Lemma DeleteClientTelemetry_inbound c n id d : id <> c -> preserves (inbound_is c n) (DeleteClientTelemetry id d).
Proof.
  intros Hne. unfold DeleteClientTelemetry. preserve. apply preserves_statement; [apply _|].
  intros db rows db' H E. injection E as _ <-. unfold inbound_is, inbound in *. simpl. rewrite find_filter; [done|].
  intros t Ht. go_bool. apply negb_true_iff, andb_false_iff. left. apply String.eqb_neq. congruence.
Qed.
Lemma AddSubscription_inbound c n s : preserves (inbound_is c n) (AddSubscription s).
Proof.
  unfold AddSubscription. preserve. apply preserves_statement; [apply _|]. intros db [] db' H E. by go_cases.
Qed.
Lemma RemoveSubscription_inbound c n id : preserves (inbound_is c n) (RemoveSubscription id).
Proof.
  unfold RemoveSubscription. preserve. apply preserves_statement; [apply _|]. intros db [] db' H E. by injection E as <-.
Qed.

Section deliveries.
Context (now : St DB Time) (jsonb_eq : events.data -> events.data -> bool) (jsonb_text : Json -> string).
Context (idp : St DB (string * error)).
Hypothesis now_frames : frames now tables.
Hypothesis idp_frames : frames idp tables.
Hypothesis jsonb_eq_refl : forall a, jsonb_eq a a = true.
Let repo := NewRepository now jsonb_eq jsonb_text.
Let service := NewService idp repo.

(** The deliveries of a list of events; a panic ends the process, which
    starts again. *)
Definition deliver (es : list events.data) (db : DB) : DB := foldl (fun db d => (Handle service d db).2) db es.
Definition empty (fs : list (option postgres.dberr)) : DB := MkDB [] [] [] fs.

(** The journal only grows, and telemetry leaves it alone. *)
Definition journal_is (l : list Journal) (db : DB) : Prop := journals db = l.
#[local] Instance journal_is_tables l : OfTables (journal_is l).
Proof. intros [] [] E H. unfold tables in E. simpl in E. unfold journal_is in *. simpl in *. congruence. Qed.
Definition stored_before (l : list Journal) (db : DB) : Prop := l `prefix_of` journals db.
#[local] Instance stored_before_tables l : OfTables (stored_before l).
Proof. intros [] [] E H. unfold tables in E. simpl in E. unfold stored_before in *. simpl in *. congruence. Qed.

Lemma statement_keeps {A} l (f : DB -> postgres.dberr + A * DB) :
  (forall db a db', f db = inr (a, db') -> journals db' = journals db) -> preserves (journal_is l) (statement f).
Proof.
  intros Hf. apply preserves_statement; [apply _|]. intros db a db' H E. unfold journal_is. by rewrite (Hf _ _ _ E).
Qed.
Ltac keep_statement := apply statement_keeps; intros ? ? ? E; go_cases; by simplify_eq.
Lemma count_rows_keeps l rows : preserves (journal_is l) (count_rows rows).
Proof.
  induction rows as [|[c n] rows IH]; simpl; [apply preserves_ret|]. preserve; [unfold add_outbound; keep_statement|apply IH].
Qed.
Lemma handleTelemetry_keeps l j : preserves (journal_is l) (handleTelemetry idp repo j).
Proof.
  unfold handleTelemetry, addClientTelemetry, removeClientTelemetry, addSubscription, addMqttSubscription,
    removeSubscription, removeMqttSubscription, updateMessageCount. cbv zeta. simpl repo_SaveClientTelemetry.
  preserve; simpl; unfold SaveClientTelemetry, DeleteClientTelemetry, AddSubscription, RemoveSubscription,
    IncrementInboundMessages, IncrementOutboundMessages; cbv zeta;
    preserve; first [keep_statement | apply count_rows_keeps | apply preserves_frame; [apply _|exact idp_frames]].
Qed.

Lemma Save_grows l j : preserves (stored_before l) (svc_Save service j).
Proof.
  simpl. unfold journal.Save. cbv zeta. preserve.
  - apply preserves_frame; [apply _|exact idp_frames].
  - simpl. unfold Save, toDBJournal. cbv zeta.
    preserve; try (apply preserves_frame; [apply _|exact now_frames]);
      (apply preserves_statement; [apply _|]; intros ? ? ? H E; go_cases; unfold stored_before in *; simpl; by apply prefix_app_r).
  - intros db H. unfold stored_before. by rewrite (handleTelemetry_keeps (journals db) _ db eq_refl).
Qed.
Lemma Handle_grows l d : preserves (stored_before l) (Handle service d).
Proof. unfold Handle. cbv zeta. preserve. apply Save_grows. Qed.
Lemma deliver_grows es : forall db, journals db `prefix_of` journals (deliver es db).
Proof.
  induction es as [|d es IH]; intros db; simpl; [done|]. etrans; [|apply IH].
  apply (Handle_grows (journals db) d db). by unfold stored_before.
Qed.
Lemma clashes_later j es db : clashes jsonb_eq j db -> clashes jsonb_eq j (deliver es db).
Proof.
  intros (r & Hr & H). exists r. split; [|done]. eapply elem_of_prefix; [exact Hr|apply deliver_grows].
Qed.

Ltac refused := intros [= <- <-]; left; split; [done|first [apply WrapE_not_nil | apply errHandler_not_nil]].
(** What saving an entry does with the journal: nothing when the entry is
    there, and otherwise it may store one. *)
Lemma repo_Save_spec j db e db' : IsZero (OccurredAt j) = false -> repo_Save repo j db = (e, db') ->
  (tables db' = tables db /\ e <> None)
  \/ (e = None /\ ~ clashes jsonb_eq j db /\ clashes jsonb_eq j db'
      /\ exists r, tables db' = (journals db ++ [r], clients_telemetry db, subscriptions db)
           /\ Operation r = Operation j /\ Attributes r = Attributes j /\ OccurredAt r = timestamp (OccurredAt j)).
Proof.
  simpl. unfold Save, toDBJournal. cbv zeta. intros Ht.
  set (j1 := match events.as_string (Attributes j) "domain" with Some _ => _ | None => j end).
  set (j2 := if HasPrefix (Operation j1) "domain." then _ else j1).
  assert (H1 : Operation j1 = Operation j /\ Attributes j1 = Attributes j /\ OccurredAt j1 = OccurredAt j)
    by (subst j1; by destruct (events.as_string _ _)).
  assert (H2 : Operation j2 = Operation j /\ Attributes j2 = Attributes j /\ OccurredAt j2 = OccurredAt j).
  { subst j2. destruct (HasPrefix _ _); [|done]. by destruct (events.as_string (Attributes j1) "id"). }
  clearbody j2. clear H1 j1. destruct H2 as (Eo & Ea & Et).
  rewrite Et, Ht. unfold bind at 1. cbn [ret]. unfold bind, insert_journal, statement, fault, bind, ret.
  destruct (default None (head (faults db))) as [f|]; simpl.
  { refused. }
  destruct (negb _); simpl; [refused|].
  destruct (existsb _ _); simpl; [refused|].
  destruct (existsb _ _) eqn:Ec; simpl; [refused|].
  intros [= <- <-]. right. split; [done|]. rewrite existsb_false, Forall_forall in Ec. split; [|split].
  - intros (r & Hr & Hro & Hrt & Hra). specialize (Ec r Hr). simpl in Ec.
    rewrite Et, Eo, Ea, Hro, Hrt, Hra, eqb_refl_s, Z.eqb_refl in Ec. done.
  - eexists. split; [simpl; apply elem_of_app; right; by apply list_elem_of_singleton|]. simpl.
    by rewrite Eo, Ea, Et, jsonb_eq_refl.
  - eexists. split; [reflexivity|]. simpl. by rewrite Eo, Ea, Et.
Qed.

(** An entry that is there is not counted again. *)
Lemma Handle_clash d j db : entry d = Some j -> clashes jsonb_eq j db -> tables (Handle service d db).2 = tables db.
Proof.
  intros Ed Hc. pose proof (entry_time _ _ Ed) as Ht. rewrite Handle_entry, Ed. simpl. unfold journal.Save, pbind, call, bind, ret.
  pose proof (idp_frames db) as Hi. destruct (idp db) as [[id err] db1]. simpl in Hi.
  destruct err; [done|]. cbv zeta.
  destruct (repo_Save repo (j <| ID := id |>) db1) as [e db2] eqn:E.
  apply repo_Save_spec in E as [[E Hne]|(_ & Hno & _)]; [|..|done].
  - destruct e; [|done]. simpl. by rewrite E.
  - exfalso. apply Hno. destruct Hc as (r & Hr & H). exists r. split; [|done]. by rewrite (tables_journals _ _ Hi).
Qed.

(** A delivery leaves the journal as it is, or adds its entry. *)
Lemma Handle_journal d db : journals (Handle service d db).2 = journals db
  \/ exists j r, entry d = Some j /\ journals (Handle service d db).2 = journals db ++ [r]
     /\ OccurredAt r = timestamp (OccurredAt j) /\ clashes jsonb_eq j (Handle service d db).2.
Proof.
  rewrite Handle_entry. destruct (entry d) as [j|] eqn:Ed; [|by left]. pose proof (entry_time _ _ Ed) as Ht. simpl.
  unfold journal.Save, pbind, call, bind, ret, pret.
  pose proof (idp_frames db) as Hi. destruct (idp db) as [[id err] db1]. simpl in Hi. pose proof (tables_journals _ _ Hi) as Hj.
  destruct err; [by left|]. cbv zeta. destruct (repo_Save repo (j <| ID := id |>) db1) as [e db2] eqn:E.
  apply repo_Save_spec in E as [[E Hn]|(-> & _ & Hc & r & E & _ & _ & Et)]; [| |done].
  - destruct e; [|done]. left. simpl. by rewrite (tables_journals _ _ E).
  - right. exists j, r. apply (f_equal (fun t => t.1.1)) in E. simpl in E. rewrite Hj in E.
    pose proof (handleTelemetry_keeps (journals db2) (j <| ID := id |>) db2 eq_refl) as Hk. unfold journal_is in Hk.
    destruct Hc as (r' & Hr & H).
    destruct (handleTelemetry idp repo _ db2) as [[[e|]|] db3]; simpl in *; rewrite Hk;
      (split; [done|]; split; [done|]; split; [done|]); exists r'; by rewrite Hk.
Qed.

(** The time of an entry is that of its publication, up to 1.3
    microseconds: the event store writes the nanoseconds of its clock as a
    number of JSON, the consumer reads it as a float64, and the table keeps
    microseconds (from 1970 until the year 2116). *)
Theorem recorded_time_near (t : Time) (stream : string) (values : events.event) (db : DB) (r : Journal) :
  (0 < t - events.unixEpoch < 2 ^ 62)%Z ->
  let publish := events.nats_Publish (fun w => (t, w)) (fun _ data w => (None, (Handle service data w).2)) in
  r ∈ journals (publish stream values db).2 -> r ∉ journals db ->
  (Z.abs (OccurredAt r - t) <= 1255)%Z.
Proof.
  intros Ht. cbv zeta. unfold events.nats_Publish, bind, ret. cbv zeta.
  destruct (events.marshal_map _) as [data|] eqn:Em; [|done]. cbn [snd].
  destruct (Handle_journal data db) as [->|(j & r' & Ed & -> & Et & _)]; [done|].
  intros [Hr|Hr%list_elem_of_singleton]%elem_of_app Hn; [done|]. subst r'. clear Hn.
  pose proof (entry_near _ _ _ _ Ht Em Ed) as Hj. rewrite Et. unfold timestamp.
  pose proof (Z.div_mod (OccurredAt j) 1000). pose proof (Z.mod_pos_bound (OccurredAt j) 1000). lia.
Qed.

(** *** Counting *)
Hypothesis now_quiet : frames now faults.
Hypothesis idp_quiet : frames idp faults.

Lemma statement_quiet {A} (f : DB -> postgres.dberr + A * DB) :
  (forall db a db', f db = inr (a, db') -> faults db' = faults db) -> preserves quiet (statement f).
Proof.
  intros Hf. apply preserves_statement; [apply _|]. intros db a db' H E. unfold quiet. by rewrite (Hf _ _ _ E).
Qed.
Lemma frames_quiet {A} (m : St DB A) : frames m faults -> preserves quiet m.
Proof. intros H db. unfold quiet. by rewrite H. Qed.
Ltac quiet_statement := apply statement_quiet; intros ? ? ? E; go_cases; by simplify_eq.
Lemma count_rows_quiet rows : preserves quiet (count_rows rows).
Proof.
  induction rows as [|[c n] rows IH]; simpl; [apply preserves_ret|]. preserve; [unfold add_outbound; quiet_statement|apply IH].
Qed.
Lemma repo_Save_quiet j : preserves quiet (repo_Save repo j).
Proof.
  simpl. unfold Save, toDBJournal, insert_journal. cbv zeta.
  preserve; first [quiet_statement | apply frames_quiet; exact now_quiet].
Qed.
Lemma Save_quiet j : preserves quiet (svc_Save service j).
Proof.
  simpl. unfold journal.Save, handleTelemetry, addClientTelemetry, removeClientTelemetry, addSubscription,
    addMqttSubscription, removeSubscription, removeMqttSubscription, updateMessageCount. cbv zeta.
  preserve; simpl; unfold Save, toDBJournal, insert_journal, SaveClientTelemetry, DeleteClientTelemetry, AddSubscription,
    RemoveSubscription, IncrementInboundMessages, IncrementOutboundMessages; cbv zeta;
    preserve; first [quiet_statement | apply count_rows_quiet | apply frames_quiet; first [exact idp_quiet | exact now_quiet]].
Qed.

Lemma Handle_quiet d : preserves quiet (Handle service d).
Proof. unfold Handle. cbv zeta. preserve. apply Save_quiet. Qed.

(** The upsert counts one for its client. *)
Lemma IncrementInboundMessages_inbound c ct db : quiet db -> consistent db -> (inbound c db < maxBigint)%N ->
  inbound c (IncrementInboundMessages ct db).2
  = (inbound c db + (if (ClientID ct =s c) && fits 36 (ClientID ct) && fits 36 (DomainID ct) then 1 else 0))%N.
Proof.
  intros Hq Hc Hmax. unfold IncrementInboundMessages, bind, statement, fault, ret. unfold quiet in Hq. cbn beta. unfold bind. cbn beta. rewrite Hq.
  cbn [head default from_option tail option_map]. cbv zeta. cbn [t_ClientID t_DomainID stored toDBClientsTelemetry].
  set (db0 := db <| faults := [] |>). assert (E0 : clients_telemetry db0 = clients_telemetry db) by done.
  change (inbound c db) with (inbound c db0) in *. assert (Hc0 : NoDup (t_ClientID <$> clients_telemetry db0)) by apply Hc.
  clearbody db0. simpl. destruct (fits 36 (ClientID ct)); simpl; [|by rewrite andb_false_r, N.add_0_r].
  destruct (fits 36 (DomainID ct)); simpl; [|by rewrite !andb_false_r, N.add_0_r].
  rewrite !andb_true_r. destruct (has_client (ClientID ct) db0) eqn:Eh; simpl.
  - destruct (existsb _ _) eqn:Ex; simpl.
    + destruct (String.eqb_spec (ClientID ct) c) as [<-|]; [|by rewrite N.add_0_r]. exfalso.
      apply existsb_exists in Ex as (t & Hin & Ht). apply andb_true_iff in Ht as [Hk Ht]. apply String.eqb_eq in Hk.
      apply N.leb_le in Ht. unfold inbound in Hmax. rewrite (find_unique (ClientID ct) t) in Hmax; [simpl in Hmax; lia|done..].
    + unfold inbound. simpl. rewrite find_map_key by (intros t; by destruct (_ =s _)).
      destruct (List.find _ _) as [t|] eqn:Ef; simpl.
      * apply List.find_some in Ef as [_ Ef]. go_bool. rewrite Ef. rewrite (String.eqb_sym c). by destruct (_ =s c); [|rewrite N.add_0_r].
      * destruct (String.eqb_spec (ClientID ct) c) as [<-|]; [|done]. unfold has_client in Eh. by rewrite find_none_iff, Eh in Ef.
  - unfold inbound. simpl. rewrite find_append. simpl. destruct (String.eqb_spec (ClientID ct) c) as [<-|]; simpl.
    + unfold has_client in Eh. by rewrite find_none_key.
    + destruct (List.find _ _); simpl; by rewrite N.add_0_r.
Qed.

(** Telemetry counts an entry that the table takes, once. *)
Lemma handleTelemetry_inbound c j db : quiet db -> consistent db -> (inbound c db < maxBigint)%N ->
  (Operation j = clientRemove -> (getStringAttribute j "id").1 <> c) ->
  inbound c (handleTelemetry idp repo j db).2 = (inbound c db + (if published_by c j then 1 else 0))%N.
Proof.
  intros Hq Hc Hmax Hrem. unfold handleTelemetry, published_by. destruct (Operation j =s messagingPublish) eqn:Ep.
  - apply String.eqb_eq in Ep. rewrite Ep. simpl (_ =s _). cbv iota. cbn [andb].
    unfold updateMessageCount. destruct (toPublishEvent j) as [ae [e|]]; [by rewrite N.add_0_r|].
    unfold pbind, call, bind, ret, pret. set (ct := set_field _ _ _).
    pose proof (IncrementInboundMessages_inbound c ct db Hq Hc Hmax) as H.
    replace ((ClientID ct =s c) && fits 36 (ClientID ct) && fits 36 (DomainID ct))
      with ((ae_clientID ae =s c) && fits 36 c && fits 36 (ae_domainID ae)) in H
      by (subst ct; simpl; by destruct (String.eqb_spec (ae_clientID ae) c) as [->|]).
    simpl. destruct (IncrementInboundMessages ct db) as [[e|] db1]; simpl in *; [done|].
    pose proof (IncrementOutboundMessages_inbound c (inbound c db1) (ae_channelID ae) (ae_subtopic ae) db1 eq_refl) as Ho.
    destruct (IncrementOutboundMessages _ _ db1) as [[e|] db2]; simpl in *; by rewrite Ho.
  - rewrite N.add_0_r. cbn [andb].
    enough (Hp : preserves (inbound_is c (inbound c db)) (handleTelemetry idp repo j)).
    { specialize (Hp db eq_refl). unfold handleTelemetry in Hp. by rewrite Ep in Hp. }
    unfold handleTelemetry. rewrite Ep. unfold addClientTelemetry, removeClientTelemetry, addSubscription,
      addMqttSubscription, removeSubscription, removeMqttSubscription. cbv zeta.
    destruct (Operation j =s clientCreate); [|destruct (Operation j =s clientRemove) eqn:Er].
    2: { apply String.eqb_eq in Er. specialize (Hrem Er). unfold toClientEvent.
      destruct (getStringAttribute j "id") as [id [e|]]; [preserve|]. destruct (getStringAttribute j "domain") as [dm [e|]]; [preserve|].
      apply preserves_call. by apply DeleteClientTelemetry_inbound. }
    all: preserve; first [by apply SaveClientTelemetry_inbound | apply AddSubscription_inbound
      | apply RemoveSubscription_inbound | apply preserves_frame; [apply _|exact idp_frames]].
Qed.

Definition counted (c : string) (db : DB) : Prop :=
  inbound c db = N.of_nat (length (List.filter (published_by c) (journals db))).
Lemma Handle_counted c d db : quiet db -> consistent db -> (N.of_nat (length (journals db)) < maxBigint)%N ->
  removes c d = false -> counted c db -> counted c (Handle service d db).2.
Proof.
  intros Hq Hc Hmax Hrem H. rewrite Handle_entry. unfold removes in Hrem. destruct (entry d) as [j|] eqn:Ed; [|done].
  pose proof (entry_time _ _ Ed) as Ht. simpl. unfold journal.Save, pbind, call, bind, ret, pret.
  assert (Hle : (inbound c db <= N.of_nat (length (journals db)))%N).
  { rewrite H. pose proof (sublist_length _ _ (sublist_List_filter (published_by c) (journals db))). lia. }
  assert (Hinb : forall db', clients_telemetry db' = clients_telemetry db -> inbound c db' = inbound c db)
    by (intros db' E; unfold inbound; by rewrite E).
  pose proof (idp_frames db) as Hi. pose proof (idp_quiet db) as Hiq. destruct (idp db) as [[id err] db1]. simpl in Hi, Hiq.
  assert (Hc1 : consistent db1) by (by apply (consistent_tables db)).
  pose proof (tables_journals _ _ Hi) as Hj. pose proof (f_equal (fun t => t.1.2) Hi) as Hct. simpl in Hct.
  destruct err; [unfold counted; simpl; by rewrite Hinb, Hj|].
  cbv zeta. destruct (repo_Save repo (j <| ID := id |>) db1) as [e db2] eqn:E.
  pose proof (repo_Save_consistent now jsonb_eq jsonb_text now_frames (j <| ID := id |>) db1 Hc1) as Hc2.
  pose proof (repo_Save_quiet (j <| ID := id |>) db1) as Hq2.
  change (NewRepository now jsonb_eq jsonb_text) with repo in Hc2. rewrite E in Hc2, Hq2. simpl in Hc2, Hq2.
  apply repo_Save_spec in E as [[E Hn]|(-> & _ & _ & r & E & Ero & Era & _)]; [| |done].
  { destruct e; [|done]. unfold counted. simpl. rewrite Hinb by (rewrite <- Hct; exact (f_equal (fun t => t.1.2) E)).
    by rewrite (tables_journals _ _ E), Hj. }
  pose proof (f_equal (fun t => t.1.1) E) as Ej. pose proof (f_equal (fun t => t.1.2) E) as Et. simpl in Ej, Et.
  assert (Hp : published_by c r = published_by c (j <| ID := id |>)).
  { unfold published_by, toPublishEvent, getStringAttribute. simpl in *. rewrite Ero, Era.
    repeat (destruct (events.as_string _ _); [|done]). done. }
  pose proof (handleTelemetry_keeps (journals db2) (j <| ID := id |>) db2 eq_refl) as Hk.
  assert (Hc' : inbound c (handleTelemetry idp repo (j <| ID := id |>) db2).2
    = (inbound c db2 + (if published_by c (j <| ID := id |>) then 1 else 0))%N).
  { apply handleTelemetry_inbound; [apply Hq2; unfold quiet in *; congruence|done|rewrite Hinb by congruence; lia|].
    simpl. intros Eop. rewrite Eop, eqb_refl_s in Hrem. simpl in Hrem. go_bool. exact Hrem. }
  rewrite (Hinb db2) in Hc' by congruence. unfold counted in *.
  assert (Hgoal : forall db3, journals db3 = journals db2 ->
    inbound c db3 = (inbound c db + (if published_by c (j <| ID := id |>) then 1 else 0))%N ->
    inbound c db3 = N.of_nat (length (List.filter (published_by c) (journals db3)))).
  { intros db3 -> ->. rewrite H, Ej, Hj, List.filter_app, length_app. cbn [List.filter]. rewrite Hp.
    destruct (published_by c (j <| ID := id |>)); cbn [length]; lia. }
  unfold journal_is in Hk. destruct (handleTelemetry idp repo _ db2) as [[[e|]|] db3]; simpl in *; by apply Hgoal.
Qed.

(** C12: An event that is delivered twice counts once.  When a delivery of
    an event has written to the journal, then after whatever else has been
    delivered, and whatever the driver did, a further delivery of the same
    event changes neither the journal nor the counters nor the subscriptions. *)
Theorem redelivery_changes_nothing (d : events.data) (es : list events.data) (db : DB) :
  journals (Handle service d db).2 <> journals db ->
  let later := deliver es (Handle service d db).2 in
  tables (Handle service d later).2 = tables later.
Proof.
  intros H. destruct (Handle_journal d db) as [|(j & r & Ed & _ & _ & Hc)]; [done|].
  apply (Handle_clash d j); [done|]. by apply clashes_later.
Qed.

Lemma Handle_length d db : length (journals (Handle service d db).2) <= S (length (journals db)).
Proof. destruct (Handle_journal d db) as [->|(j & r & _ & -> & _)]; rewrite ?length_app; simpl; lia. Qed.

(** C13: The counter of a client is what the journal says.  Over any sequence
    of at most [maxBigint] events delivered to an empty database whose driver
    does not fail, none of them the removal of the client, the number of
    messages that the telemetry has for the client is the number of its
    publish entries in the journal that the counter can take: those whose
    client_id, channel_id, domain_id and subtopic are all there as strings,
    with the identifiers of the client and of the domain at most 36 bytes
    long.  The sequence may hold creations, subscriptions, malformed events
    and repeated ones; a publish entry without one of the attributes is
    journalled and not counted. *)
Theorem inbound_is_journalled (c : string) (es : list events.data) :
  Forall (fun d => removes c d = false) es -> (N.of_nat (length es) <= maxBigint)%N ->
  inbound c (deliver es (empty [])) = N.of_nat (length (List.filter (published_by c) (journals (deliver es (empty []))))).
Proof.
  intros Hrem. assert (H : forall db, quiet db -> consistent db -> counted c db ->
    (N.of_nat (length (journals db) + length es) <= maxBigint)%N -> counted c (deliver es db)).
  { induction Hrem as [|d es' Hd _ IH]; intros db Hq Hc Hn Hmax; simpl in *; [done|]. apply IH.
    - by apply Handle_quiet.
    - by apply Handle_consistent.
    - apply Handle_counted; [done..|lia|done|done].
    - pose proof (Handle_length d db). lia. }
  intros Hmax. apply H; [done|split; simpl; constructor|done|simpl; lia].
Qed.
End deliveries.

Lemma split_letter c x l : x <> c -> split_bytes c (x :: c :: l) = [x] :: split_bytes c l.
Proof.
  intros Hx. change (x :: c :: l) with ([x] ++ c :: l). apply split_bytes_app.
  intros H%list_elem_of_singleton. congruence.
Qed.

(** ** What the adapters tell, and what the journal makes of it *)
Section adapters.
Context {W : Type} (idp : St W (string * error)) (repository : Repository W).

(** A subscription over HTTP, WebSocket or CoAP is filed under the domain in
    place of the channel, and under [c] in place of the subtopic: the topic
    that the adapters subscribe to begins with [m.]. *)
Theorem adapter_subscription_misfiled (operation subscriber client domain channel subtopic : string) (j : Journal) w :
  "."%char ∉ chars domain ->
  events.marshal_map (messaging_events.subscribeEvent operation subscriber client (messaging.EncodeTopic domain channel subtopic))
    = Some (Attributes j) ->
  addSubscription idp repository j w =
  ('(id, err) <~ call idp ;;
   if_err err return_ pret err ;;
   call (repo_AddSubscription repository (MkClientSubscription id subscriber domain "c" client))) w.
Proof.
  intros Hd E. injection E as E. unfold addSubscription, toSubscribeEvent, getStringAttribute, events.as_string.
  rewrite <- E. cbn [roles.map_lookup String.eqb Ascii.eqb Bool.eqb]. cbv iota beta zeta.
  assert (Hs : exists r, Split (messaging.EncodeTopic domain channel subtopic) "."%char = "m" :: domain :: "c" :: r).
  { unfold Split, messaging.EncodeTopic, messaging.EncodeTopicSuffix.
    destruct (subtopic <>s ""); rewrite ?chars_app.
    all: unfold messaging.MsgTopicPrefix, messaging.ChannelTopicPrefix; cbn [chars String.list_ascii_of_string app].
    all: rewrite <- ?app_assoc; cbn [app].
    all: rewrite split_letter, (split_bytes_app "."%char (chars domain)), split_letter by done.
    all: eexists; cbn [fmap list_fmap]; rewrite str_chars; reflexivity. }
  destruct Hs as [r Hs].
  match goal with |- context [Split ?t _] => change t with (messaging.EncodeTopic domain channel subtopic) end.
  rewrite Hs. reflexivity.
Qed.

(** The authorization of the journal asks for no scope: a personal access
    token reads what its user may read. *)
Lemma journal_ignores_scopes (az : authz.Authorization W) (s s' : authn.Session) (page : Page) :
  authn.DomainID s = authn.DomainID s' -> authn.UserID s = authn.UserID s' -> authn.DomainUserID s = authn.DomainUserID s' ->
  am_RetrieveAll (NewService idp repository) az s page = am_RetrieveAll (NewService idp repository) az s' page.
Proof. intros E1 E2 E3. unfold am_RetrieveAll. by rewrite E1, E2, E3. Qed.
End adapters.
End journal_theory.

(** ** A journal at work *)
Module journal_example.
Import journal journal_postgres journal_theory.

(** Equality of JSON values, the order of keys included. *)
Fixpoint json_eqb (a b : Json) : bool :=
  match a, b with
  | JNull, JNull => true
  | JBool x, JBool y => Bool.eqb x y
  | JNumber x, JNumber y | JString x, JString y => x =s y
  | JArray l, JArray l' =>
      (fix eqs (l l' : list Json) := match l, l' with
       | [], [] => true | x :: l, y :: l' => json_eqb x y && eqs l l' | _, _ => false end) l l'
  | JObject l, JObject l' =>
      (fix eqs (l l' : list (string * Json)) := match l, l' with
       | [], [] => true | (k, x) :: l, (k', y) :: l' => (k =s k') && json_eqb x y && eqs l l' | _, _ => false end) l l'
  | _, _ => false
  end.
Fixpoint json_eqb_refl (a : Json) : json_eqb a a = true.
Proof.
  destruct a as [|b|n|s|l|l]; simpl; [done|by destruct b|apply eqb_refl_s|apply eqb_refl_s|..].
  - induction l as [|x l IH]; [done|]. by rewrite json_eqb_refl, IH.
  - induction l as [|[k x] l IH]; [done|]. by rewrite eqb_refl_s, json_eqb_refl, IH.
Defined.
Definition jsonb_eq (a b : events.data) : bool := json_eqb (JObject a) (JObject b).
Lemma jsonb_eq_refl a : jsonb_eq a a = true.
Proof. apply json_eqb_refl. Qed.

Definition now : St DB Time := fun db => ((events.unixEpoch + 1700000000 * Second)%Z, db).
Definition idp : St DB (string * error) := fun db =>
  (("id-" +:+ pretty (length (journals db)) +:+ "-" +:+ pretty (length (subscriptions db)), None), db).
Definition service := NewService idp (NewRepository now jsonb_eq (fun _ => "")).
Definition consume (d : option events.data) (db : DB) : DB :=
  match d with Some d => (Handle service d db).2 | None => db end.
(** The event as the event store writes it, at a second and nanosecond. *)
Definition published (nsec : Z) (values : events.event) : option events.data :=
  events.marshal_map (events.put "occurred_at" (events.AInt (1700000000 * Second + nsec)%Z) values).

Definition created : option events.data := published 0 [("operation", events.AString clientCreate);
  ("id", events.AString "lamp"); ("domain", events.AString "d");
  ("created_at", events.ATime (events.unixEpoch + 1600000000 * Second)%Z)].
Definition message (channel subtopic : string) (nsec : Z) : option events.data :=
  published nsec (messaging_events.publishEvent "d" channel "lamp" subtopic).
Definition observed : option events.data :=
  published 1000 (messaging_events.subscribeEvent messaging_events.clientSubscribe "s" "lamp" (messaging.EncodeTopic "d" "ch" "st")).
Definition mqtt_observed : option events.data :=
  published 2000 (mqtt_events.subscribeEvent mqtt_events.clientSubscribe "lamp" "m" "d" "ch" "st").
Definition events_of (l : list (option events.data)) : list events.data := omap id l.
Definition history : list events.data := events_of [created; observed; mqtt_observed; message "ch" "st" 3000; message "ch" "st" 9000].
Definition final : DB := deliver now jsonb_eq (fun _ => "") idp history (empty []).

(** Two messages sent; of its two subscriptions only that over MQTT counts. *)
Example final_counters : (fun t => (t_ClientID t, t_Inbound t, t_Outbound t)) <$> clients_telemetry final = [("lamp", 2%N, 2%N)].
Proof. by vm_compute. Qed.
Example final_subscriptions : (fun s => (SubscriberID s, ChannelID s, Subtopic s)) <$> subscriptions final
  = [("s", "d", "c"); ("m", "ch", "st")].
Proof. by vm_compute. Qed.
(** Two messages of one client in the same microsecond are one entry, and count once. *)
Example same_microsecond : inbound "lamp" (deliver now jsonb_eq (fun _ => "") idp
  (events_of [message "ch" "st" 3000; message "ch" "st" 3500]) (empty [])) = 1%N.
Proof. by vm_compute. Qed.
(** A topic without a dot, or a creation without its time, ends the process. *)
Example no_dot_panics : exists d, published 0 (messaging_events.subscribeEvent messaging_events.clientSubscribe "s" "lamp" "topic") = Some d
  /\ (Handle service d (empty [])).1 = None.
Proof. eexists. split; [reflexivity|]. by vm_compute. Qed.
Example no_created_at_panics : exists d, published 0 [("operation", events.AString clientCreate); ("id", events.AString "lamp");
  ("domain", events.AString "d")] = Some d /\ (Handle service d (empty [])).1 = None.
Proof. eexists. split; [reflexivity|]. by vm_compute. Qed.
(** The driver fails at the second update: the call fails and the transaction
    is rolled back, but the first client keeps its count. *)
Definition two : DB := MkDB []
  [MkDbClientTelemetry "a" "d" 0 0 0%Z None; MkDbClientTelemetry "b" "d" 0 0 0%Z None]
  [MkClientSubscription "1" "s1" "ch" "st" "a"; MkClientSubscription "2" "s2" "ch" "st" "b"]
  [None; None; None; None; None; None; None; Some (postgres.DriverError (New "connection lost"))].
Example outbound_not_atomic : let '(e, db) := IncrementOutboundMessages "ch" "st" two in
  e <> None /\ t_Outbound <$> clients_telemetry db = [1%N; 0%N].
Proof. vm_compute. done. Qed.

Lemma redelivery_changes_nothing_witness :
  journals (Handle service (default [] created) (empty [])).2 <> journals (empty []) /\
  let later := deliver now jsonb_eq (fun _ => "") idp history (Handle service (default [] created) (empty [])).2 in
  tables (Handle service (default [] created) later).2 = tables later.
Proof.
  assert (H : journals (Handle service (default [] created) (empty [])).2 <> journals (empty [])) by (vm_compute; discriminate).
  split; [exact H|]. apply (redelivery_changes_nothing now jsonb_eq (fun _ => "") idp); [done|done|exact jsonb_eq_refl|exact H].
Defined.
Lemma inbound_is_journalled_witness : inbound "lamp" final = N.of_nat (length (List.filter (published_by "lamp") (journals final))).
Proof.
  apply (inbound_is_journalled now jsonb_eq (fun _ => "") idp); [done|done|exact jsonb_eq_refl|done|done| |].
  - repeat (constructor; [by vm_compute|]). constructor.
  - vm_compute. discriminate.
Defined.
Definition sent_at : Time := (events.unixEpoch + 1700000000 * Second + 123456789)%Z.
Definition sent : DB := (events.nats_Publish (fun w => (sent_at, w)) (fun _ data w => (None, (Handle service data w).2)) "s"
  (messaging_events.publishEvent "d" "ch" "lamp" "st") (empty [])).2.
Lemma recorded_time_near_witness : exists r, r ∈ journals sent /\ (Z.abs (OccurredAt r - sent_at) <= 1255)%Z.
Proof.
  eexists. split; [vm_compute; left|].
  apply (recorded_time_near now jsonb_eq (fun _ => "") idp) with (stream := "s") (values := messaging_events.publishEvent "d" "ch" "lamp" "st") (db := empty []);
    first [exact jsonb_eq_refl | by intros w | by vm_compute | by apply not_elem_of_nil | vm_compute; left].
Defined.
End journal_example.
