(* ===== verification/GroupEvents.v ===== *)
(** * Group events

    Sources: src/groups/events/events.go and streams.go, the event store of the
    groups service, and src/pkg/groups/events/consumer, which the channels and
    the clients services run over a copy of the groups table of their own.
    [group_changes] shows that the copies follow the groups: the events replay
    as the calls of the repository they tell of, and the parents of the groups
    are the same on both sides. *)

From S2P Require Import Prelude GoStd GoTime Errors Policies Authn Roles Connections Hierarchy Groups Guards Events.

(** ** src/groups/events/events.go *)
Module group_events.
Import events.
Definition groupPrefix := "group.".
Definition groupCreate := groupPrefix +:+ "create".
Definition groupUpdate := groupPrefix +:+ "update".
Definition groupUpdateTags := groupPrefix +:+ "update_tags".
Definition groupEnable := groupPrefix +:+ "enable".
Definition groupDisable := groupPrefix +:+ "disable".
Definition groupView := groupPrefix +:+ "view".
Definition groupList := groupPrefix +:+ "list".
Definition groupListUserGroups := groupPrefix +:+ "list_user_groups".
Definition groupRemove := groupPrefix +:+ "remove".
Definition groupRetrieveGroupHierarchy := groupPrefix +:+ "retrieve_group_hierarchy".
Definition groupAddParentGroup := groupPrefix +:+ "add_parent_group".
Definition groupRemoveParentGroup := groupPrefix +:+ "remove_parent_group".
Definition groupAddChildrenGroups := groupPrefix +:+ "add_children_groups".
Definition groupRemoveChildrenGroups := groupPrefix +:+ "remove_children_groups".
Definition groupRemoveAllChildrenGroups := groupPrefix +:+ "remove_all_children_groups".
Definition groupListChildrenGroups := groupPrefix +:+ "list_children_groups".

Definition createGroupEvent (group : groups.Group) (rolesProvisioned : list roles.RoleProvision) (session : authn.Session) (requestID : string) : event :=
  let val := [ ("operation", AString groupCreate);
      ("id", AString (groups.ID group));
      ("roles_provisioned", ARoles rolesProvisioned);
      ("status", AString (groups.Status_String (groups.Status group)));
      ("created_at", ATime (groups.CreatedAt group));
      ("domain", AString (authn.DomainID session));
      ("user_id", AString (authn.UserID session));
      ("token_type", AString (authn.TokenType_String (authn.Type_ session)));
      ("super_admin", ABool (authn.SuperAdmin session));
      ("request_id", AString requestID)] in
  let val := put_if (groups.Parent group <>s "") "parent" (AString (groups.Parent group)) val in
  let val := put_if (groups.Name group <>s "") "name" (AString (groups.Name group)) val in
  let val := put_if (negb (is_nil (groups.Description group))) "description" (ANullable (groups.Description group)) val in
  let val := put_if (negb (is_nil (groups.Metadata_ group))) "metadata" (AMetadata (groups.Metadata_ group)) val in
  let val := put_if (groups.Status_String (groups.Status group) <>s "") "status" (AString (groups.Status_String (groups.Status group))) val in
  val.
Definition updateGroupEvent (group : groups.Group) (session : authn.Session) (operation : string) (requestID : string) : event :=
  let val := [ ("operation", AString operation);
      ("updated_at", ATime (groups.UpdatedAt group));
      ("updated_by", AString (groups.UpdatedBy group));
      ("domain", AString (authn.DomainID session));
      ("user_id", AString (authn.UserID session));
      ("tags", AStrings (groups.Tags group));
      ("token_type", AString (authn.TokenType_String (authn.Type_ session)));
      ("super_admin", ABool (authn.SuperAdmin session));
      ("request_id", AString requestID)] in
  let val := put_if (groups.ID group <>s "") "id" (AString (groups.ID group)) val in
  let val := put_if (groups.Parent group <>s "") "parent" (AString (groups.Parent group)) val in
  let val := put_if (groups.Name group <>s "") "name" (AString (groups.Name group)) val in
  let val := put_if (negb (is_nil (groups.Description group))) "description" (ANullable (groups.Description group)) val in
  let val := put_if (negb (is_nil (groups.Metadata_ group))) "metadata" (AMetadata (groups.Metadata_ group)) val in
  let val := put_if (negb (IsZero (groups.CreatedAt group))) "created_at" (ATime (groups.CreatedAt group)) val in
  let val := put_if (groups.Status_String (groups.Status group) <>s "") "status" (AString (groups.Status_String (groups.Status group))) val in
  val.
Definition changeGroupStatusEvent (id : string) (operation : string) (status : string) (updatedAt : Time) (updatedBy : string) (session : authn.Session) (requestID : string) : event :=
  [ ("operation", AString operation);
    ("id", AString id);
    ("status", AString status);
    ("updated_at", ATime updatedAt);
    ("updated_by", AString updatedBy);
    ("domain", AString (authn.DomainID session));
    ("user_id", AString (authn.UserID session));
    ("token_type", AString (authn.TokenType_String (authn.Type_ session)));
    ("super_admin", ABool (authn.SuperAdmin session));
    ("request_id", AString requestID)].
Definition viewGroupEvent (group : groups.Group) (session : authn.Session) (requestID : string) : event :=
  let val := [ ("operation", AString groupView);
      ("id", AString (groups.ID group));
      ("domain", AString (authn.DomainID session));
      ("user_id", AString (authn.UserID session));
      ("token_type", AString (authn.TokenType_String (authn.Type_ session)));
      ("super_admin", ABool (authn.SuperAdmin session));
      ("request_id", AString requestID)] in
  let val := put_if (groups.Parent group <>s "") "parent" (AString (groups.Parent group)) val in
  let val := put_if (groups.Name group <>s "") "name" (AString (groups.Name group)) val in
  let val := put_if (negb (is_nil (groups.Description group))) "description" (ANullable (groups.Description group)) val in
  let val := put_if (negb (is_nil (groups.Metadata_ group))) "metadata" (AMetadata (groups.Metadata_ group)) val in
  let val := put_if (negb (IsZero (groups.CreatedAt group))) "created_at" (ATime (groups.CreatedAt group)) val in
  let val := put_if (negb (IsZero (groups.UpdatedAt group))) "updated_at" (ATime (groups.UpdatedAt group)) val in
  let val := put_if (groups.UpdatedBy group <>s "") "updated_by" (AString (groups.UpdatedBy group)) val in
  let val := put_if (groups.Status_String (groups.Status group) <>s "") "status" (AString (groups.Status_String (groups.Status group))) val in
  val.
Definition listGroupEvent (pm : groups.PageMeta) (domainID : string) (userID : string) (tokenType : string) (superAdmin : bool) (requestID : string) : event :=
  let val := [ ("operation", AString groupList);
      ("total", AUint (groups.pm_Total pm));
      ("offset", AUint (groups.pm_Offset pm));
      ("limit", AUint (groups.pm_Limit pm));
      ("domain", AString domainID);
      ("user_id", AString userID);
      ("token_type", AString tokenType);
      ("super_admin", ABool superAdmin);
      ("request_id", AString requestID)] in
  let val := put_if (groups.pm_Name pm <>s "") "name" (AString (groups.pm_Name pm)) val in
  let val := put_if (negb (is_empty (groups.Elements (groups.pm_Tags pm)))) "tag" (AStrings (groups.Elements (groups.pm_Tags pm))) val in
  let val := put_if (negb (is_nil (groups.pm_Metadata pm))) "metadata" (AMetadata (groups.pm_Metadata pm)) val in
  let val := put_if (groups.Status_String (groups.pm_Status pm) <>s "") "status" (AString (groups.Status_String (groups.pm_Status pm))) val in
  val.
Definition listUserGroupEvent (userID : string) (domainID : string) (pm : groups.PageMeta) (tokenType : string) (superAdmin : bool) (requestID : string) : event :=
  let val := [ ("operation", AString groupListUserGroups);
      ("user_id", AString userID);
      ("domain", AString domainID);
      ("total", AUint (groups.pm_Total pm));
      ("offset", AUint (groups.pm_Offset pm));
      ("limit", AUint (groups.pm_Limit pm));
      ("token_type", AString tokenType);
      ("super_admin", ABool superAdmin);
      ("request_id", AString requestID)] in
  let val := put_if (groups.pm_Name pm <>s "") "name" (AString (groups.pm_Name pm)) val in
  let val := put_if (negb (is_empty (groups.Elements (groups.pm_Tags pm)))) "tag" (AStrings (groups.Elements (groups.pm_Tags pm))) val in
  let val := put_if (negb (is_nil (groups.pm_Metadata pm))) "metadata" (AMetadata (groups.pm_Metadata pm)) val in
  let val := put_if (groups.Status_String (groups.pm_Status pm) <>s "") "status" (AString (groups.Status_String (groups.pm_Status pm))) val in
  val.
Definition deleteGroupEvent (id : string) (session : authn.Session) (requestID : string) : event :=
  [ ("operation", AString groupRemove);
    ("id", AString id);
    ("domain", AString (authn.DomainID session));
    ("user_id", AString (authn.UserID session));
    ("token_type", AString (authn.TokenType_String (authn.Type_ session)));
    ("super_admin", ABool (authn.SuperAdmin session));
    ("request_id", AString requestID)].
Definition retrieveGroupHierarchyEvent (id : string) (hm : groups.HierarchyPageMeta) (session : authn.Session) (requestID : string) : event :=
  [ ("operation", AString groupRetrieveGroupHierarchy);
    ("id", AString id);
    ("level", AUint (groups.hm_Level hm));
    ("direction", AInt (groups.hm_Direction hm));
    ("tree", ABool (groups.hm_Tree hm));
    ("domain", AString (authn.DomainID session));
    ("user_id", AString (authn.UserID session));
    ("token_type", AString (authn.TokenType_String (authn.Type_ session)));
    ("super_admin", ABool (authn.SuperAdmin session));
    ("request_id", AString requestID)].
Definition addParentGroupEvent (id : string) (parentID : string) (session : authn.Session) (requestID : string) : event :=
  [ ("operation", AString groupAddParentGroup);
    ("id", AString id);
    ("parent_id", AString parentID);
    ("domain", AString (authn.DomainID session));
    ("user_id", AString (authn.UserID session));
    ("token_type", AString (authn.TokenType_String (authn.Type_ session)));
    ("super_admin", ABool (authn.SuperAdmin session));
    ("request_id", AString requestID)].
Definition removeParentGroupEvent (id : string) (session : authn.Session) (requestID : string) : event :=
  [ ("operation", AString groupRemoveParentGroup);
    ("id", AString id);
    ("domain", AString (authn.DomainID session));
    ("user_id", AString (authn.UserID session));
    ("token_type", AString (authn.TokenType_String (authn.Type_ session)));
    ("super_admin", ABool (authn.SuperAdmin session));
    ("request_id", AString requestID)].
Definition addChildrenGroupsEvent (id : string) (childrenIDs : list string) (session : authn.Session) (requestID : string) : event :=
  [ ("operation", AString groupAddChildrenGroups);
    ("id", AString id);
    ("children_ids", AStrings childrenIDs);
    ("domain", AString (authn.DomainID session));
    ("user_id", AString (authn.UserID session));
    ("token_type", AString (authn.TokenType_String (authn.Type_ session)));
    ("super_admin", ABool (authn.SuperAdmin session));
    ("request_id", AString requestID)].
Definition removeChildrenGroupsEvent (id : string) (childrenIDs : list string) (session : authn.Session) (requestID : string) : event :=
  [ ("operation", AString groupRemoveChildrenGroups);
    ("id", AString id);
    ("children_ids", AStrings childrenIDs);
    ("domain", AString (authn.DomainID session));
    ("user_id", AString (authn.UserID session));
    ("token_type", AString (authn.TokenType_String (authn.Type_ session)));
    ("super_admin", ABool (authn.SuperAdmin session));
    ("request_id", AString requestID)].
Definition removeAllChildrenGroupsEvent (id : string) (session : authn.Session) (requestID : string) : event :=
  [ ("operation", AString groupRemoveAllChildrenGroups);
    ("id", AString id);
    ("domain", AString (authn.DomainID session));
    ("user_id", AString (authn.UserID session));
    ("token_type", AString (authn.TokenType_String (authn.Type_ session)));
    ("super_admin", ABool (authn.SuperAdmin session));
    ("request_id", AString requestID)].
Definition listChildrenGroupsEvent (id : string) (startLevel : Z) (endLevel : Z) (pm : groups.PageMeta) (domainID : string) (userID : string) (tokenType : string) (superAdmin : bool) (requestID : string) : event :=
  let val := [ ("operation", AString groupListChildrenGroups);
      ("id", AString id);
      ("start_level", AInt startLevel);
      ("end_level", AInt endLevel);
      ("total", AUint (groups.pm_Total pm));
      ("offset", AUint (groups.pm_Offset pm));
      ("limit", AUint (groups.pm_Limit pm));
      ("domain", AString domainID);
      ("user_id", AString userID);
      ("token_type", AString tokenType);
      ("super_admin", ABool superAdmin);
      ("request_id", AString requestID)] in
  let val := put_if (groups.pm_Name pm <>s "") "name" (AString (groups.pm_Name pm)) val in
  let val := put_if (negb (is_empty (groups.Elements (groups.pm_Tags pm)))) "tag" (AStrings (groups.Elements (groups.pm_Tags pm))) val in
  let val := put_if (negb (is_nil (groups.pm_Metadata pm))) "metadata" (AMetadata (groups.pm_Metadata pm)) val in
  let val := put_if (groups.Status_String (groups.pm_Status pm) <>s "") "status" (AString (groups.Status_String (groups.pm_Status pm))) val in
  val.
End group_events.

(** ** src/groups/events/streams.go *)
Module group_store.
Import events group_events.
Definition supermqPrefix := "supermq.".
Definition createStream := supermqPrefix +:+ groupCreate.
Definition updateStream := supermqPrefix +:+ groupUpdate.
Definition updateTagsStream := supermqPrefix +:+ groupUpdateTags.
Definition enableStream := supermqPrefix +:+ groupEnable.
Definition disableStream := supermqPrefix +:+ groupDisable.
Definition viewStream := supermqPrefix +:+ groupView.
Definition listStream := supermqPrefix +:+ groupList.
Definition listUserGroupsStream := supermqPrefix +:+ groupListUserGroups.
Definition removeStream := supermqPrefix +:+ groupRemove.
Definition retrieveHierarchyStream := supermqPrefix +:+ groupRetrieveGroupHierarchy.
Definition addParentStream := supermqPrefix +:+ groupAddParentGroup.
Definition removeParentStream := supermqPrefix +:+ groupRemoveParentGroup.
Definition addChildrenStream := supermqPrefix +:+ groupAddChildrenGroups.
Definition removeChildrenStream := supermqPrefix +:+ groupRemoveChildrenGroups.
Definition removeAllChildrenStream := supermqPrefix +:+ groupRemoveAllChildrenGroups.
Definition listChildrenStream := supermqPrefix +:+ groupListChildrenGroups.
Section store.
Context {W : Type} (publisher : Publisher W) (svc : groups_mw.Service W) (rsvc : rolemgr.RoleManager W) (reqID : string).
Definition CreateGroup (session : authn.Session) (group : groups.Group) : St W (groups.Group * list roles.RoleProvision * error) :=
  '((group, rps), err) <- groups_mw.svc_CreateGroup svc session group ;;
  if_err err return_ ret ((group, rps), err) ;;
  err <- Publish publisher createStream (createGroupEvent group rps session reqID) ;;
  if_err err return_ ret ((group, rps), err) ;;
  ret ((group, rps), None).
Definition UpdateGroup (session : authn.Session) (group : groups.Group) : St W (groups.Group * error) :=
  '(group, err) <- groups_mw.svc_UpdateGroup svc session group ;;
  if_err err return_ ret (group, err) ;;
  err <- Publish publisher updateStream (updateGroupEvent group session groupUpdate reqID) ;;
  if_err err return_ ret (group, err) ;;
  ret (group, None).
Definition UpdateGroupTags (session : authn.Session) (g : groups.Group) : St W (groups.Group * error) :=
  '(g, err) <- groups_mw.svc_UpdateGroupTags svc session g ;;
  if_err err return_ ret (g, err) ;;
  err <- Publish publisher updateTagsStream (updateGroupEvent g session groupUpdateTags reqID) ;;
  if_err err return_ ret (g, err) ;;
  ret (g, None).
Definition ViewGroup (session : authn.Session) (id : string) (withRoles : bool) : St W (groups.Group * error) :=
  '(group, err) <- groups_mw.svc_ViewGroup svc session id withRoles ;;
  if_err err return_ ret (group, err) ;;
  err <- Publish publisher viewStream (viewGroupEvent group session reqID) ;;
  if_err err return_ ret (group, err) ;;
  ret (group, None).
Definition ListGroups (session : authn.Session) (pm : groups.PageMeta) : St W (groups.Page * error) :=
  '(gp, err) <- groups_mw.svc_ListGroups svc session pm ;;
  if_err err return_ ret (gp, err) ;;
  err <- Publish publisher listStream (listGroupEvent pm (authn.DomainID session) (authn.UserID session) (authn.TokenType_String (authn.Type_ session)) (authn.SuperAdmin session) reqID) ;;
  if_err err return_ ret (gp, err) ;;
  ret (gp, None).
Definition ListUserGroups (session : authn.Session) (userID : string) (pm : groups.PageMeta) : St W (groups.Page * error) :=
  '(gp, err) <- groups_mw.svc_ListUserGroups svc session userID pm ;;
  if_err err return_ ret (gp, err) ;;
  err <- Publish publisher listUserGroupsStream (listUserGroupEvent userID (authn.DomainID session) pm (authn.TokenType_String (authn.Type_ session)) (authn.SuperAdmin session) reqID) ;;
  if_err err return_ ret (gp, err) ;;
  ret (gp, None).
Definition DeleteGroup (session : authn.Session) (id : string) : St W error :=
  err <- groups_mw.svc_DeleteGroup svc session id ;;
  if_err err return_ ret err ;;
  err <- Publish publisher removeStream (deleteGroupEvent id session reqID) ;;
  if_err err return_ ret err ;;
  ret None.
Definition RetrieveGroupHierarchy (session : authn.Session) (id : string) (hm : groups.HierarchyPageMeta) : St W (groups.HierarchyPage * error) :=
  '(g, err) <- groups_mw.svc_RetrieveGroupHierarchy svc session id hm ;;
  if_err err return_ ret (g, err) ;;
  err <- Publish publisher retrieveHierarchyStream (retrieveGroupHierarchyEvent id hm session reqID) ;;
  if_err err return_ ret (g, err) ;;
  ret (g, None).
Definition AddParentGroup (session : authn.Session) (id : string) (parentID : string) : St W error :=
  err <- groups_mw.svc_AddParentGroup svc session id parentID ;;
  if_err err return_ ret err ;;
  err <- Publish publisher addParentStream (addParentGroupEvent id parentID session reqID) ;;
  if_err err return_ ret err ;;
  ret None.
Definition RemoveParentGroup (session : authn.Session) (id : string) : St W error :=
  err <- groups_mw.svc_RemoveParentGroup svc session id ;;
  if_err err return_ ret err ;;
  err <- Publish publisher removeParentStream (removeParentGroupEvent id session reqID) ;;
  if_err err return_ ret err ;;
  ret None.
Definition AddChildrenGroups (session : authn.Session) (id : string) (childrenGroupIDs : list string) : St W error :=
  err <- groups_mw.svc_AddChildrenGroups svc session id childrenGroupIDs ;;
  if_err err return_ ret err ;;
  err <- Publish publisher addChildrenStream (addChildrenGroupsEvent id childrenGroupIDs session reqID) ;;
  if_err err return_ ret err ;;
  ret None.
Definition RemoveChildrenGroups (session : authn.Session) (id : string) (childrenGroupIDs : list string) : St W error :=
  err <- groups_mw.svc_RemoveChildrenGroups svc session id childrenGroupIDs ;;
  if_err err return_ ret err ;;
  err <- Publish publisher removeChildrenStream (removeChildrenGroupsEvent id childrenGroupIDs session reqID) ;;
  if_err err return_ ret err ;;
  ret None.
Definition RemoveAllChildrenGroups (session : authn.Session) (id : string) : St W error :=
  err <- groups_mw.svc_RemoveAllChildrenGroups svc session id ;;
  if_err err return_ ret err ;;
  err <- Publish publisher removeAllChildrenStream (removeAllChildrenGroupsEvent id session reqID) ;;
  if_err err return_ ret err ;;
  ret None.
Definition ListChildrenGroups (session : authn.Session) (id : string) (startLevel : Z) (endLevel : Z) (pm : groups.PageMeta) : St W (groups.Page * error) :=
  '(g, err) <- groups_mw.svc_ListChildrenGroups svc session id startLevel endLevel pm ;;
  if_err err return_ ret (g, err) ;;
  err <- Publish publisher listChildrenStream (listChildrenGroupsEvent id startLevel endLevel pm (authn.DomainID session) (authn.UserID session) (authn.TokenType_String (authn.Type_ session)) (authn.SuperAdmin session) reqID) ;;
  if_err err return_ ret (g, err) ;;
  ret (g, None).
Definition changeStatus (session : authn.Session) (operation stream : string) (group : groups.Group) : St W (groups.Group * error) :=
  err <- Publish publisher stream (changeGroupStatusEvent (groups.ID group) operation (groups.Status_String (groups.Status group))
           (groups.UpdatedAt group) (groups.UpdatedBy group) session reqID) ;;
  if_err err return_ ret (group, err) ;;
  ret (group, None).
Definition EnableGroup (session : authn.Session) (id : string) : St W (groups.Group * error) :=
  '(group, err) <- groups_mw.svc_EnableGroup svc session id ;;
  if_err err return_ ret (group, err) ;;
  changeStatus session groupEnable enableStream group.
Definition DisableGroup (session : authn.Session) (id : string) : St W (groups.Group * error) :=
  '(group, err) <- groups_mw.svc_DisableGroup svc session id ;;
  if_err err return_ ret (group, err) ;;
  changeStatus session groupDisable disableStream group.

(** New: the event store and the role manager it embeds. *)
Definition New : groups_mw.Service W * rolemgr.RoleManager W :=
  ({| groups_mw.svc_CreateGroup := CreateGroup;
     groups_mw.svc_UpdateGroup := UpdateGroup;
     groups_mw.svc_UpdateGroupTags := UpdateGroupTags;
     groups_mw.svc_ViewGroup := ViewGroup;
     groups_mw.svc_ListGroups := ListGroups;
     groups_mw.svc_ListUserGroups := ListUserGroups;
     groups_mw.svc_DeleteGroup := DeleteGroup;
     groups_mw.svc_RetrieveGroupHierarchy := RetrieveGroupHierarchy;
     groups_mw.svc_AddParentGroup := AddParentGroup;
     groups_mw.svc_RemoveParentGroup := RemoveParentGroup;
     groups_mw.svc_AddChildrenGroups := AddChildrenGroups;
     groups_mw.svc_RemoveChildrenGroups := RemoveChildrenGroups;
     groups_mw.svc_RemoveAllChildrenGroups := RemoveAllChildrenGroups;
     groups_mw.svc_ListChildrenGroups := ListChildrenGroups;
     groups_mw.svc_EnableGroup := EnableGroup;
     groups_mw.svc_DisableGroup := DisableGroup |},
   role_store.NewRoleManagerEventStore publisher rsvc groupPrefix reqID).
End store.
End group_store.

(** ** src/pkg/groups/events/consumer *)
Module group_consumer.
Import events role_consumer.
Definition errDecodeCreateGroupEvent : err := Sentinel "gconsumer.errDecodeCreateGroupEvent" CustomError "failed to decode group create event".
Definition errDecodeUpdateGroupEvent : err := Sentinel "gconsumer.errDecodeUpdateGroupEvent" CustomError "failed to decode group update event".
Definition errDecodeChangeStatusGroupEvent : err := Sentinel "gconsumer.errDecodeChangeStatusGroupEvent" CustomError "failed to decode group change status event".
Definition errDecodeRemoveGroupEvent : err := Sentinel "gconsumer.errDecodeRemoveGroupEvent" CustomError "failed to decode group remove event".
Definition errDecodeAddParentGroupEvent : err := Sentinel "gconsumer.errDecodeAddParentGroupEvent" CustomError "failed to decode group add parent event".
Definition errDecodeRemoveParentGroupEvent : err := Sentinel "gconsumer.errDecodeRemoveParentGroupEvent" CustomError "failed to decode group remove parent event".
Definition errDecodeAddChildrenGroupsEvent : err := Sentinel "gconsumer.errDecodeAddChildrenGroupsEvent" CustomError "failed to decode group add children groups event".
Definition errDecodeRemoveChildrenGroupsEvent : err := Sentinel "gconsumer.errDecodeRemoveChildrenGroupsEvent" CustomError "failed to decode group remove children groups event".
Definition errID : err := Sentinel "gconsumer.errID" CustomError "missing or invalid 'id'".
Definition errName : err := Sentinel "gconsumer.errName" CustomError "missing or invalid 'name'".
Definition errDomain : err := Sentinel "gconsumer.errDomain" CustomError "missing or invalid 'domain'".
Definition errParent : err := Sentinel "gconsumer.errParent" CustomError "missing or invalid 'parent'".
Definition errChildrenIDs : err := Sentinel "gconsumer.errChildrenIDs" CustomError "missing or invalid 'children_ids'".
Definition errStatus : err := Sentinel "gconsumer.errStatus" CustomError "missing or invalid 'status'".
Definition errConvertStatus : err := Sentinel "gconsumer.errConvertStatus" CustomError "failed to convert status".
Definition errCreatedAt : err := Sentinel "gconsumer.errCreatedAt" CustomError "failed to parse 'created_at' time".
Definition errUpdatedAt : err := Sentinel "gconsumer.errUpdatedAt" CustomError "failed to parse 'updated_at' time".
Definition stream := "events.supermq.group.*".
Definition create := "group.create".
Definition update := "group.update".
Definition enable := "group.enable".
Definition disable := "group.disable".
Definition remove := "group.remove".
Definition addParentGroup := "group.add_parent_group".
Definition removeParentGroup := "group.remove_parent_group".
Definition addChildrenGroups := "group.add_children_groups".
Definition removeChildrenGroups := "group.remove_children_groups".
Definition removeAllChildrenGroups := "group.remove_all_children_groups".
Definition errNoOperationKey : err := Sentinel "gconsumer.errNoOperationKey" CustomError "operation key is not found in event message".
Definition errCreateGroupEvent : err := Sentinel "gconsumer.errCreateGroupEvent" CustomError "failed to consume group create event".
Definition errUpdateGroupEvent : err := Sentinel "gconsumer.errUpdateGroupEvent" CustomError "failed to consume group update event".
Definition errChangeStatusGroupEvent : err := Sentinel "gconsumer.errChangeStatusGroupEvent" CustomError "failed to consume group change status event".
Definition errRemoveGroupEvent : err := Sentinel "gconsumer.errRemoveGroupEvent" CustomError "failed to consume group remove event".
Definition errAddParentGroupEvent : err := Sentinel "gconsumer.errAddParentGroupEvent" CustomError "failed to consume group add parent group event".
Definition errRemoveParentGroupEvent : err := Sentinel "gconsumer.errRemoveParentGroupEvent" CustomError "failed to consume group remove parent group event".
Definition errAddChildrenGroupEvent : err := Sentinel "gconsumer.errAddChildrenGroupEvent" CustomError "failed to consume group add children groups event".
Definition errRemoveChildrenGroupEvent : err := Sentinel "gconsumer.errRemoveChildrenGroupEvent" CustomError "failed to consume group remove children groups event".
Definition errRemoveAllChildrenGroupEvent : err := Sentinel "gconsumer.errRemoveAllChildrenGroupEvent" CustomError "failed to consume group remove all children groups event".

(** *** decode.go *)
Definition ToGroups (data : data) : groups.Group * error :=
  let g := groups.Group0 in
  x <-ok as_string data "id" or_return (groups.Group0, Some errID) ;;
  let g := g <| groups.ID := x |> in
  x <-ok as_string data "name" or_return (groups.Group0, Some errName) ;;
  let g := g <| groups.Name := x |> in
  x <-ok as_string data "domain" or_return (groups.Group0, Some errDomain) ;;
  let g := g <| groups.Domain := x |> in
  stat <-ok as_string data "status" or_return (groups.Group0, Some errStatus) ;;
  let (st, err) := groups.ToStatus stat in
  if_err err return_ (groups.Group0, WrapE errConvertStatus err) ;;
  let g := g <| groups.Status := st |> in
  cat <-ok as_string data "created_at" or_return (groups.Group0, Some errCreatedAt) ;;
  let (ct, err) := Parse cat in
  if_err err return_ (groups.Group0, WrapE errCreatedAt err) ;;
  let g := g <| groups.CreatedAt := ct |> in
  let g := set_opt (set_field groups.Description) (Some <$> as_string data "description") g in
  let g := set_opt (set_field groups.Parent) (as_string data "parent") g in
  let g := set_opt (set_field groups.Metadata_) (Some <$> as_object data "metadata") g in
  let g := set_opt (set_field groups.UpdatedBy) (as_string data "updated_by") g in
  let '(ut, err) := as_time data "updated_at" in
  if_err err return_ (groups.Group0, WrapE errUpdatedAt err) ;;
  let g := set_opt (set_field groups.UpdatedAt) ut g in
  (g, None).
Definition decodeCreateGroupEvent (data : data) : groups.Group * list roles.RoleProvision * error :=
  let '(c, err) := ToGroups data in
  if_err err return_ (groups.Group0, [], WrapE errDecodeCreateGroupEvent err) ;;
  irps <-ok as_array data "roles_provisioned" or_return
    (groups.Group0, [], WrapE errDecodeCreateGroupEvent (Some (New "missing or invalid 'roles_provisioned'"))) ;;
  let '(rps, err) := ToRoleProvisions irps in
  if_err err return_ (groups.Group0, [], WrapE errDecodeCreateGroupEvent err) ;;
  (c, rps, None).
Definition decodeUpdateGroupEvent (data : data) : groups.Group * error :=
  let '(c, err) := ToGroups data in
  if_err err return_ (groups.Group0, WrapE errDecodeUpdateGroupEvent err) ;;
  (c, None).
Definition ToGroupStatus (data : data) : groups.Group * error :=
  let g := groups.Group0 in
  x <-ok as_string data "id" or_return (groups.Group0, Some errID) ;;
  let g := g <| groups.ID := x |> in
  stat <-ok as_string data "status" or_return (groups.Group0, Some errStatus) ;;
  let (st, err) := groups.ToStatus stat in
  if_err err return_ (groups.Group0, WrapE errConvertStatus err) ;;
  let g := g <| groups.Status := st |> in
  let '(ut, err) := as_time data "updated_at" in
  if_err err return_ (groups.Group0, WrapE errUpdatedAt err) ;;
  let g := set_opt (set_field groups.UpdatedAt) ut g in
  let g := set_opt (set_field groups.UpdatedBy) (as_string data "updated_by") g in
  (g, None).
Definition decodeChangeStatusGroupEvent (data : data) : groups.Group * error :=
  let '(c, err) := ToGroupStatus data in
  if_err err return_ (groups.Group0, WrapE errDecodeChangeStatusGroupEvent err) ;;
  (c, None).
Definition decodeRemoveGroupEvent (data : data) : groups.Group * error :=
  let g := groups.Group0 in
  x <-ok as_string data "id" or_return (groups.Group0, WrapE errDecodeRemoveGroupEvent (Some errID)) ;;
  let g := g <| groups.ID := x |> in
  (g, None).
Definition decodeAddParentGroupEvent (data : data) : string * string * error :=
  id <-ok as_string data "id" or_return ("", "", WrapE errAddParentGroupEvent (Some errID)) ;;
  parent <-ok as_string data "parent_id" or_return ("", "", WrapE errDecodeAddParentGroupEvent (Some errParent)) ;;
  (id, parent, None).
Definition decodeRemoveParentGroupEvent (data : data) : string * error :=
  id <-ok as_string data "id" or_return ("", WrapE errDecodeRemoveParentGroupEvent (Some errID)) ;;
  (id, None).
Definition decodeAddChildrenGroupEvent (data : data) : string * list string * error :=
  id <-ok as_string data "id" or_return ("", [], WrapE errDecodeAddChildrenGroupsEvent (Some errID)) ;;
  chIDs <-ok as_array data "children_ids" or_return ("", [], WrapE errDecodeAddChildrenGroupsEvent (Some errChildrenIDs)) ;;
  let '(cids, err) := ToStrings chIDs in
  if_err err return_ ("", [], WrapE errDecodeAddChildrenGroupsEvent (WrapE errChildrenIDs err)) ;;
  (id, cids, None).
Definition decodeRemoveChildrenGroupEvent (data : data) : string * list string * error :=
  id <-ok as_string data "id" or_return ("", [], WrapE errDecodeRemoveChildrenGroupsEvent (Some errID)) ;;
  chIDs <-ok as_array data "children_ids" or_return ("", [], WrapE errDecodeRemoveChildrenGroupsEvent (Some errChildrenIDs)) ;;
  let '(cids, err) := ToStrings chIDs in
  if_err err return_ ("", [], WrapE errDecodeRemoveChildrenGroupsEvent (WrapE errChildrenIDs err)) ;;
  (id, cids, None).
Definition decodeRemoveAllChildrenGroupEvent (data : data) : string * error :=
  id <-ok as_string data "id" or_return ("", WrapE errDecodeRemoveChildrenGroupsEvent (Some errID)) ;;
  (id, None).

(** *** streams.go *)
Section handler.
Context {W : Type} (repo : groups.Repository W).
Definition createGroupHandler (data : data) : St W error :=
  let '(c, rps, err) := decodeCreateGroupEvent data in
  if_err err return_ ret (WrapE errCreateGroupEvent err) ;;
  '(_, err) <- groups.Save repo c ;;
  if_err err return_ ret (WrapE errCreateGroupEvent err) ;;
  '(_, err) <- roles.AddRoles (groups.role_repo repo) rps ;;
  if_err err return_ ret (WrapE errCreateGroupEvent err) ;;
  ret None.
Definition updateGroupHandler (data : data) : St W error :=
  let '(g, err) := decodeUpdateGroupEvent data in
  if_err err return_ ret (WrapE errUpdateGroupEvent err) ;;
  '(_, err) <- groups.repo_Update repo g ;;
  if_err err return_ ret (WrapE errUpdateGroupEvent err) ;;
  ret None.
Definition changeStatusGroupHandler (data : data) : St W error :=
  let '(g, err) := decodeChangeStatusGroupEvent data in
  if_err err return_ ret (WrapE errChangeStatusGroupEvent err) ;;
  '(_, err) <- groups.ChangeStatus repo g ;;
  if_err err return_ ret (WrapE errChangeStatusGroupEvent err) ;;
  ret None.
Definition removeGroupHandler (data : data) : St W error :=
  let '(g, err) := decodeRemoveGroupEvent data in
  if_err err return_ ret (WrapE errRemoveGroupEvent err) ;;
  err <- groups.repo_Delete repo (groups.ID g) ;;
  if_err err return_ ret (WrapE errRemoveGroupEvent err) ;;
  ret None.
Definition addParentGroupHandler (data : data) : St W error :=
  let '(id, parent, err) := decodeAddParentGroupEvent data in
  if_err err return_ ret (WrapE errAddParentGroupEvent err) ;;
  err <- groups.AssignParentGroup repo parent [id] ;;
  if_err err return_ ret (WrapE errAddParentGroupEvent err) ;;
  ret None.
Definition removeParentGroupHandler (data : data) : St W error :=
  let '(id, err) := decodeRemoveParentGroupEvent data in
  if_err err return_ ret (WrapE errRemoveParentGroupEvent err) ;;
  '(g, err) <- groups.RetrieveByID repo id ;;
  if_err err return_ ret (WrapE errRemoveParentGroupEvent err) ;;
  err <- groups.UnassignParentGroup repo (groups.Parent g) [id] ;;
  if_err err return_ ret (WrapE errRemoveParentGroupEvent err) ;;
  ret None.
Definition addChildrenGroupsHandler (data : data) : St W error :=
  let '(id, cids, err) := decodeAddChildrenGroupEvent data in
  if_err err return_ ret (WrapE errAddChildrenGroupEvent err) ;;
  err <- groups.AssignParentGroup repo id cids ;;
  if_err err return_ ret (WrapE errAddChildrenGroupEvent err) ;;
  ret None.
Definition removeChildrenGroupsHandler (data : data) : St W error :=
  let '(id, cids, err) := decodeRemoveChildrenGroupEvent data in
  if_err err return_ ret (WrapE errRemoveChildrenGroupEvent err) ;;
  err <- groups.UnassignParentGroup repo id cids ;;
  if_err err return_ ret (WrapE errRemoveChildrenGroupEvent err) ;;
  ret None.
Definition removeAllChildrenGroupsHandler (data : data) : St W error :=
  let '(id, err) := decodeRemoveAllChildrenGroupEvent data in
  if_err err return_ ret (WrapE errRemoveAllChildrenGroupEvent err) ;;
  err <- groups.UnassignAllChildrenGroups repo id ;;
  if_ negb (is_nil err) && negb (is_sentinel err repoerr.ErrNotFound) return_ ret (WrapE errRemoveAllChildrenGroupEvent err) ;;
  ret None.
Definition Handle (msg : data) : St W error :=
  match roles.map_lookup "operation" msg with
  | None => ret (Some errNoOperationKey)
  | Some (JString op) =>
      if (op =s create) then createGroupHandler msg
      else if (op =s update) then updateGroupHandler msg
      else if (op =s enable) || (op =s disable) then changeStatusGroupHandler msg
      else if (op =s remove) then removeGroupHandler msg
      else if (op =s addParentGroup) then addParentGroupHandler msg
      else if (op =s removeParentGroup) then removeParentGroupHandler msg
      else if (op =s addChildrenGroups) then addChildrenGroupsHandler msg
      else if (op =s removeChildrenGroups) then removeChildrenGroupsHandler msg
      else if (op =s removeAllChildrenGroups) then removeAllChildrenGroupsHandler msg
      else role_consumer.Handle "group" (groups.role_repo repo) op msg
  | Some _ => ret None
  end.
End handler.
End group_consumer.

(** ** What the events of the groups stand for *)
Module group_changes.
Import events roles group_events role_consumer group_consumer.

(** A change of the groups that a call made. *)
Inductive change :=
| GroupCreated (g : groups.Group) (rps : list RoleProvision)
| GroupUpdated (g : groups.Group)
| TagsUpdated (g : groups.Group)
| GroupEnabled (g : groups.Group)
| GroupDisabled (g : groups.Group)
| GroupRemoved (id : string)
| ParentAdded (id parentID : string)
| ParentRemoved (id : string)
| ChildrenAdded (id : string) (childrenIDs : list string)
| ChildrenRemoved (id : string) (childrenIDs : list string)
| AllChildrenRemoved (id : string).

Definition stream (c : authn.Session * change) : string :=
  match c.2 with
  | GroupCreated _ _ => group_store.createStream | GroupUpdated _ => group_store.updateStream
  | TagsUpdated _ => group_store.updateTagsStream | GroupEnabled _ => group_store.enableStream
  | GroupDisabled _ => group_store.disableStream | GroupRemoved _ => group_store.removeStream
  | ParentAdded _ _ => group_store.addParentStream | ParentRemoved _ => group_store.removeParentStream
  | ChildrenAdded _ _ => group_store.addChildrenStream | ChildrenRemoved _ _ => group_store.removeChildrenStream
  | AllChildrenRemoved _ => group_store.removeAllChildrenStream
  end.
Definition status_event (operation : string) (g : groups.Group) (session : authn.Session) (reqID : string) : event :=
  changeGroupStatusEvent (groups.ID g) operation (groups.Status_String (groups.Status g)) (groups.UpdatedAt g)
    (groups.UpdatedBy g) session reqID.
Definition published (reqID : string) (c : authn.Session * change) : event :=
  match c.2 with
  | GroupCreated g rps => createGroupEvent g rps c.1 reqID
  | GroupUpdated g => updateGroupEvent g c.1 groupUpdate reqID
  | TagsUpdated g => updateGroupEvent g c.1 groupUpdateTags reqID
  | GroupEnabled g => status_event groupEnable g c.1 reqID
  | GroupDisabled g => status_event groupDisable g c.1 reqID
  | GroupRemoved id => deleteGroupEvent id c.1 reqID
  | ParentAdded id p => addParentGroupEvent id p c.1 reqID
  | ParentRemoved id => removeParentGroupEvent id c.1 reqID
  | ChildrenAdded id l => addChildrenGroupsEvent id l c.1 reqID
  | ChildrenRemoved id l => removeChildrenGroupsEvent id l c.1 reqID
  | AllChildrenRemoved id => removeAllChildrenGroupsEvent id c.1 reqID
  end.

(** What the events keep of a group. *)
Definition created (session : authn.Session) (g : groups.Group) : groups.Group :=
  groups.Group0 <| groups.ID := groups.ID g |> <| groups.Name := groups.Name g |>
    <| groups.Domain := authn.DomainID session |> <| groups.Status := groups.Status g |>
    <| groups.CreatedAt := groups.CreatedAt g |> <| groups.Description := groups.Description g |>
    <| groups.Parent := groups.Parent g |> <| groups.Metadata_ := groups.Metadata_ g |>.
Definition updated (session : authn.Session) (g : groups.Group) : groups.Group :=
  (created session g) <| groups.UpdatedBy := groups.UpdatedBy g |> <| groups.UpdatedAt := groups.UpdatedAt g |>.
Definition status_of (g : groups.Group) : groups.Group :=
  groups.Group0 <| groups.ID := groups.ID g |> <| groups.Status := groups.Status g |>
    <| groups.UpdatedAt := groups.UpdatedAt g |> <| groups.UpdatedBy := groups.UpdatedBy g |>.

Section replay.
Context {V : Type} (R : groups.Repository V).
Definition report (e0 : err) (call : St V error) : St V error :=
  e <- call ;;
  if_err e return_ ret (WrapE e0 e) ;;
  ret None.
Definition drop_result {A} (c : St V (A * error)) : St V error := '(_, e) <- c ;; ret e.
(** The calls of the repository of a copy that the change stands for. *)
Definition replayed (c : authn.Session * change) : St V error :=
  match c.2 with
  | GroupCreated g rps =>
      e <- drop_result (groups.Save R (created c.1 g)) ;;
      if_err e return_ ret (WrapE errCreateGroupEvent e) ;;
      report errCreateGroupEvent (drop_result (AddRoles (groups.role_repo R) rps))
  | GroupUpdated g => report errUpdateGroupEvent (drop_result (groups.repo_Update R (updated c.1 g)))
  | TagsUpdated g => report errUpdateGroupEvent (drop_result (groups.repo_UpdateTags R g))
  | GroupEnabled g | GroupDisabled g =>
      report errChangeStatusGroupEvent (drop_result (groups.ChangeStatus R (status_of g)))
  | GroupRemoved id => report errRemoveGroupEvent (groups.repo_Delete R id)
  | ParentAdded id p => report errAddParentGroupEvent (groups.AssignParentGroup R p [id])
  | ParentRemoved id =>
      '(g, e) <- groups.RetrieveByID R id ;;
      if_err e return_ ret (WrapE errRemoveParentGroupEvent e) ;;
      report errRemoveParentGroupEvent (groups.UnassignParentGroup R (groups.Parent g) [id])
  | ChildrenAdded id l => report errAddChildrenGroupEvent (groups.AssignParentGroup R id l)
  | ChildrenRemoved id l => report errRemoveChildrenGroupEvent (groups.UnassignParentGroup R id l)
  | AllChildrenRemoved id =>
      e <- groups.UnassignAllChildrenGroups R id ;;
      if_ negb (is_nil e) && negb (is_sentinel e repoerr.ErrNotFound) return_ ret (WrapE errRemoveAllChildrenGroupEvent e) ;;
      ret None
  end.

(** The consumer has no case for an update of the tags: nothing is done. *)
Definition is_tags (c : change) : Prop := match c with TagsUpdated _ => True | _ => False end.
Definition consumed (c : authn.Session * change) : St V error :=
  match c.2 with TagsUpdated _ => ret None | _ => replayed c end.
Lemma consumed_replayed c : ~ is_tags c.2 -> consumed c = replayed c.
Proof. unfold consumed. by destruct c as [s []]. Qed.

(** Groups have an identifier, a name, a status and the time of their
    creation; lists are not empty. *)
Definition status_known (g : groups.Group) : Prop := groups.Status_String (groups.Status g) <> groups.Unknown.
Definition change_ok (c : authn.Session * change) : Prop :=
  match c.2 with
  | GroupCreated g rps =>
      groups.Name g <> "" /\ status_known g /\ (0 <= groups.CreatedAt g)%Z
      /\ rps <> [] /\ Forall (fun rp => role_ok (Role_ rp)) rps
  | GroupUpdated g =>
      groups.ID g <> "" /\ groups.Name g <> "" /\ status_known g /\ (0 < groups.CreatedAt g)%Z /\ (0 <= groups.UpdatedAt g)%Z
  | GroupEnabled g | GroupDisabled g => status_known g /\ (0 <= groups.UpdatedAt g)%Z
  | ChildrenAdded _ l | ChildrenRemoved _ l => l <> []
  | _ => True
  end.
Lemma group_ToStatus_String s : groups.Status_String s <> groups.Unknown -> groups.ToStatus (groups.Status_String s) = (s, None).
Proof.
  unfold groups.Status_String. intros H.
  repeat match goal with |- context [N.eqb ?a ?b] => destruct (N.eqb_spec a b); [by subst|] end. done.
Qed.

Lemma group_status_ne s : (groups.Status_String s =s "") = false.
Proof. unfold groups.Status_String. by repeat destruct (N.eqb _ _). Qed.
Lemma ToGroups_created m d s g rps reqID t : m = put "occurred_at" (AInt t) (createGroupEvent g rps s reqID) ->
  marshal_map m = Some d -> change_ok (s, GroupCreated g rps) -> ToGroups d = (created s g, None).
Proof.
  intros -> Hm (Hn & Hst & Hc & _). cbn [fst snd] in *. unfold ToGroups.
  rewrite !(as_string_marshal _ _ _ Hm), !(as_object_marshal _ _ _ Hm).
  destruct (marshal_time _ _ "created_at" (groups.CreatedAt g) Hm Hc) as (cat & Hcat & Hp).
  { unfold createGroupEvent. find_field. }
  rewrite (as_time_absent _ _ "updated_at" Hm) by (unfold createGroupEvent; find_field).
  unfold createGroupEvent. rewrite !lookup_put, !lookup_put_if. simpl.
  rewrite (proj2 (String.eqb_neq _ _) Hn). simpl.
  rewrite group_status_ne. simpl. rewrite group_ToStatus_String, Hcat by done. simpl. rewrite Hp.
  destruct (String.eqb_spec (groups.Parent g) "") as [Hpa|], (groups.Description g) eqn:Hd, (groups.Metadata_ g) eqn:Hme;
    simpl; unfold created; simpl; rewrite ?Hpa, ?Hd, ?Hme; reflexivity.
Qed.
Lemma ToGroups_updated m d s g op reqID t : m = put "occurred_at" (AInt t) (updateGroupEvent g s op reqID) ->
  marshal_map m = Some d -> change_ok (s, GroupUpdated g) -> ToGroups d = (updated s g, None).
Proof.
  intros -> Hm (Hid & Hn & Hst & Hc & Hu). cbn [fst snd] in *. unfold ToGroups.
  rewrite !(as_string_marshal _ _ _ Hm), !(as_object_marshal _ _ _ Hm).
  assert (Hz : IsZero (groups.CreatedAt g) = false) by (apply Z.eqb_neq; lia).
  destruct (marshal_time _ _ "created_at" (groups.CreatedAt g) Hm) as (cat & Hcat & Hp); [lia| |].
  { unfold updateGroupEvent. rewrite Hz. find_field. }
  rewrite (as_time_marshal _ _ "updated_at" (groups.UpdatedAt g) Hm Hu) by (unfold updateGroupEvent; find_field).
  unfold updateGroupEvent. rewrite !lookup_put, !lookup_put_if. simpl.
  rewrite (proj2 (String.eqb_neq _ _) Hn), (proj2 (String.eqb_neq _ _) Hid), Hz. simpl.
  rewrite group_status_ne. simpl. rewrite group_ToStatus_String, Hcat by done. simpl. rewrite Hp.
  destruct (String.eqb_spec (groups.Parent g) "") as [Hpa|], (groups.Description g) eqn:Hd, (groups.Metadata_ g) eqn:Hme;
    simpl; unfold updated, created; simpl; rewrite ?Hpa, ?Hd, ?Hme; reflexivity.
Qed.
Lemma ToGroupStatus_changed d s g op reqID t :
  marshal_map (put "occurred_at" (AInt t) (status_event op g s reqID)) = Some d ->
  status_known g /\ (0 <= groups.UpdatedAt g)%Z -> ToGroupStatus d = (status_of g, None).
Proof.
  intros Hm [Hst Hu]. unfold ToGroupStatus. rewrite (as_time_marshal _ _ "updated_at" (groups.UpdatedAt g) Hm Hu) by find_field.
  rewrite !(as_string_marshal _ _ _ Hm). simpl. by rewrite group_ToStatus_String by done.
Qed.

Definition operation (c : change) : string :=
  match c with
  | GroupCreated _ _ => groupCreate | GroupUpdated _ => groupUpdate | TagsUpdated _ => groupUpdateTags
  | GroupEnabled _ => groupEnable | GroupDisabled _ => groupDisable | GroupRemoved _ => groupRemove
  | ParentAdded _ _ => groupAddParentGroup | ParentRemoved _ => groupRemoveParentGroup
  | ChildrenAdded _ _ => groupAddChildrenGroups | ChildrenRemoved _ _ => groupRemoveChildrenGroups
  | AllChildrenRemoved _ => groupRemoveAllChildrenGroups
  end.
Lemma group_published_operation c reqID t :
  map_lookup "operation" (put "occurred_at" (AInt t) (published reqID c)) = Some (AString (operation c.2)).
Proof.
  destruct c as [s []]; cbn [published snd fst]; try reflexivity; unfold createGroupEvent, updateGroupEvent; find_field.
Qed.

(** The event of a change is consumed as the calls it stands for, but for an
    update of the tags. *)
Lemma group_change_consumed c reqID t payload v : change_ok c ->
  marshal_map (put "occurred_at" (AInt t) (published reqID c)) = Some payload ->
  Handle R payload v = consumed c v.
Proof.
  destruct c as [s c]. intros Hok Hm.
  destruct (marshal_lookup _ _ "operation" Hm) as [Hop _]. rewrite group_published_operation in Hop.
  unfold Handle. rewrite Hop. clear Hop. unfold consumed, replayed. destruct c; cbn [snd fst change_ok] in Hok |- *; simpl operation;
    cbn [mbind option_bind marshal].
  - change (createGroupHandler R payload v = replayed (s, GroupCreated g rps) v).
    unfold createGroupHandler, decodeCreateGroupEvent.
    rewrite (ToGroups_created _ _ s g rps reqID t eq_refl Hm Hok). destruct Hok as (_ & _ & _ & Hne & Hr).
    destruct (roles_provisioned_marshal _ _ "roles_provisioned" rps Hm) as (js & -> & Hjs); [|done|done|].
    { cbn [published snd fst]. unfold createGroupEvent. find_field. }
    rewrite Hjs. unfold replayed, report, drop_result. simpl. go_cases; congruence.
  - change (updateGroupHandler R payload v = replayed (s, GroupUpdated g) v).
    unfold updateGroupHandler, decodeUpdateGroupEvent.
    rewrite (ToGroups_updated _ _ s g groupUpdate reqID t eq_refl Hm Hok).
    unfold replayed, report, drop_result. simpl. go_cases; congruence.
  - done.
  - change (changeStatusGroupHandler R payload v = replayed (s, GroupEnabled g) v).
    unfold changeStatusGroupHandler, decodeChangeStatusGroupEvent. rewrite (ToGroupStatus_changed _ _ _ _ _ _ Hm Hok).
    unfold replayed, report, drop_result. simpl. go_cases; congruence.
  - change (changeStatusGroupHandler R payload v = replayed (s, GroupDisabled g) v).
    unfold changeStatusGroupHandler, decodeChangeStatusGroupEvent. rewrite (ToGroupStatus_changed _ _ _ _ _ _ Hm Hok).
    unfold replayed, report, drop_result. simpl. go_cases; congruence.
  - change (removeGroupHandler R payload v = replayed (s, GroupRemoved id) v).
    unfold removeGroupHandler, decodeRemoveGroupEvent. by rewrite !(as_string_marshal _ _ _ Hm).
  - change (addParentGroupHandler R payload v = replayed (s, ParentAdded id parentID) v).
    unfold addParentGroupHandler, decodeAddParentGroupEvent. by rewrite !(as_string_marshal _ _ _ Hm).
  - change (removeParentGroupHandler R payload v = replayed (s, ParentRemoved id) v).
    unfold removeParentGroupHandler, decodeRemoveParentGroupEvent. by rewrite !(as_string_marshal _ _ _ Hm).
  - change (addChildrenGroupsHandler R payload v = replayed (s, ChildrenAdded id childrenIDs) v).
    unfold addChildrenGroupsHandler, decodeAddChildrenGroupEvent.
    rewrite !(as_string_marshal _ _ _ Hm). read_array Hm Hok. done.
  - change (removeChildrenGroupsHandler R payload v = replayed (s, ChildrenRemoved id childrenIDs) v).
    unfold removeChildrenGroupsHandler, decodeRemoveChildrenGroupEvent.
    rewrite !(as_string_marshal _ _ _ Hm). read_array Hm Hok. done.
  - change (removeAllChildrenGroupsHandler R payload v = replayed (s, AllChildrenRemoved id) v).
    unfold removeAllChildrenGroupsHandler, decodeRemoveAllChildrenGroupEvent. by rewrite !(as_string_marshal _ _ _ Hm).
Qed.
End replay.

(** The calls that change groups. *)
Inductive call :=
| CreateGroupCall (session : authn.Session) (g : groups.Group)
| UpdateGroupCall (session : authn.Session) (g : groups.Group)
| UpdateGroupTagsCall (session : authn.Session) (g : groups.Group)
| EnableGroupCall (session : authn.Session) (id : string)
| DisableGroupCall (session : authn.Session) (id : string)
| DeleteGroupCall (session : authn.Session) (id : string)
| AddParentGroupCall (session : authn.Session) (id parentID : string)
| RemoveParentGroupCall (session : authn.Session) (id : string)
| AddChildrenGroupsCall (session : authn.Session) (id : string) (childrenGroupIDs : list string)
| RemoveChildrenGroupsCall (session : authn.Session) (id : string) (childrenGroupIDs : list string)
| RemoveAllChildrenGroupsCall (session : authn.Session) (id : string).

Section calls.
Context {W : Type}.
Definition run (svc : groups_mw.Service W) (c : call) : St W ((authn.Session * change) * error) :=
  match c with
  | CreateGroupCall s g => '(g, rps, e) <- groups_mw.svc_CreateGroup svc s g ;; ret ((s, GroupCreated g rps), e)
  | UpdateGroupCall s g => '(g, e) <- groups_mw.svc_UpdateGroup svc s g ;; ret ((s, GroupUpdated g), e)
  | UpdateGroupTagsCall s g => '(g, e) <- groups_mw.svc_UpdateGroupTags svc s g ;; ret ((s, TagsUpdated g), e)
  | EnableGroupCall s id => '(g, e) <- groups_mw.svc_EnableGroup svc s id ;; ret ((s, GroupEnabled g), e)
  | DisableGroupCall s id => '(g, e) <- groups_mw.svc_DisableGroup svc s id ;; ret ((s, GroupDisabled g), e)
  | DeleteGroupCall s id => e <- groups_mw.svc_DeleteGroup svc s id ;; ret ((s, GroupRemoved id), e)
  | AddParentGroupCall s id p => e <- groups_mw.svc_AddParentGroup svc s id p ;; ret ((s, ParentAdded id p), e)
  | RemoveParentGroupCall s id => e <- groups_mw.svc_RemoveParentGroup svc s id ;; ret ((s, ParentRemoved id), e)
  | AddChildrenGroupsCall s id l => e <- groups_mw.svc_AddChildrenGroups svc s id l ;; ret ((s, ChildrenAdded id l), e)
  | RemoveChildrenGroupsCall s id l => e <- groups_mw.svc_RemoveChildrenGroups svc s id l ;; ret ((s, ChildrenRemoved id l), e)
  | RemoveAllChildrenGroupsCall s id => e <- groups_mw.svc_RemoveAllChildrenGroups svc s id ;; ret ((s, AllChildrenRemoved id), e)
  end.

Context (now : St W Time) (broker : string -> data -> St W error) (svc : groups_mw.Service W).
Context (rsvc : rolemgr.RoleManager W) (reqID : string).
Definition stored : groups_mw.Service W := (group_store.New (NewPublisher now broker) svc rsvc reqID).1.
(** A call through the event store is the call, and then its event. *)
Lemma group_run_stored c w : run stored c w =
  replication.publishing now broker (run svc) stream (published reqID) c w.
Proof.
  unfold replication.publishing. destruct c; simpl; rewrite ?bind_assoc;
    unfold group_store.CreateGroup, group_store.UpdateGroup, group_store.UpdateGroupTags, group_store.EnableGroup,
      group_store.DisableGroup, group_store.changeStatus, group_store.DeleteGroup, group_store.AddParentGroup,
      group_store.RemoveParentGroup, group_store.AddChildrenGroups, group_store.RemoveChildrenGroups,
      group_store.RemoveAllChildrenGroups;
    unfold stream, published, status_event; simpl; unfold bind, ret; go_cases; try done; try congruence.
Qed.
End calls.

(** C37: the events of the groups service replay, in the services that keep a
    copy of its table, as the calls of the repository the changes stand for.
    Of the calls through the event store, each that returns no error publishes
    one event, in the order of the calls and on the stream of its kind, and
    the others publish none; the consumer that decodes the event makes the
    calls that the change stands for, with the group (without its tags),
    roles, parent and children of the change, and reports their errors.  This
    is so where none of the calls updates the tags, which the consumer
    ignores, and where every changed group has a name, a known status and,
    where its event carries one, a time of creation and an identifier, a
    created group has roles that the consumer can read, and no list of
    children is empty. *)
Theorem group_changes_replicated {W V} (now : St W Time) (broker : string -> data -> St W error)
    (svc : groups_mw.Service W) (rsvc : rolemgr.RoleManager W) (reqID : string) (R : groups.Repository V)
    (log : W -> list (string * data))
    (broker_log : forall s p w e w', broker s p w = (e, w') -> log w' = log w ++ if is_nil e then [(s, p)] else [])
    (now_log : frames now log) (svc_log : forall c, frames (run svc c) log)
    cs w done w' (Hcalls : replication.calls (run (stored now broker svc rsvc reqID)) cs w = (done, w'))
    (Hok : Forall change_ok done) (Htags : Forall (fun c => ~ is_tags c.2) done) :
  exists msgs, log w' = log w ++ msgs /\ msgs.*1 = map stream done
    /\ forall v, replication.handle_all (fun m => Handle R m.2) msgs v = replication.handle_all (replayed R) done v.
Proof.
  rewrite (replication.calls_ext _ _ _ _ (group_run_stored now broker svc rsvc reqID)) in Hcalls.
  eapply replication.calls_replayed with (ok := fun c => change_ok c /\ ~ is_tags c.2); eauto.
  - intros c t p v [Hc Ht] Hm. rewrite <- consumed_replayed by done. by eapply group_change_consumed.
  - by apply Forall_and.
Qed.
End group_changes.

(** ** The copies of the groups' hierarchy

    [tree] gives every group its parent.  The calls of the service and the
    replay of their events are both refinements of [apply], the change as an
    operation on the tree. *)
Definition tree (rows : gmap string groups.Group) : gmap string string := groups.Parent <$> rows.

Module tree_changes.
Import group_changes.
Definition reparent (f : string -> string -> string) (t : gmap string string) : gmap string string :=
  map_imap (fun x p => Some (f x p)) t.
Definition assign (p : string) (ids : list string) := reparent (fun x q => if bool_decide (x ∈ ids) then p else q).
Definition unassign (p : string) (ids : list string) :=
  reparent (fun x q => if bool_decide (x ∈ ids) && (q =s p) then "" else q).
Definition unassign_all (p : string) := reparent (fun x q => if q =s p then "" else q).
Definition apply (c : change) (t : gmap string string) : gmap string string :=
  match c with
  | GroupCreated g _ => <[groups.ID g := groups.Parent g]> t
  | GroupRemoved id => unassign_all id (delete id t)
  | ParentAdded id p => assign p [id] t
  | ParentRemoved id => assign "" [id] t
  | ChildrenAdded p ids => assign p ids t
  | ChildrenRemoved p ids => unassign p ids t
  | AllChildrenRemoved p => unassign_all p t
  | GroupUpdated _ | TagsUpdated _ | GroupEnabled _ | GroupDisabled _ => t
  end.
End tree_changes.

Lemma tree_ext (rows : gmap string groups.Group) (t : gmap string string) :
  dom rows = dom t -> (forall x p, t !! x = Some p -> parentOf rows x = p) -> tree rows = t.
Proof.
  intros Hd Hp. apply map_eq. intros x. unfold tree. rewrite lookup_fmap.
  destruct (t !! x) as [p|] eqn:Ht.
  - assert (is_Some (rows !! x)) as [g Hg] by (apply elem_of_dom; rewrite Hd; by eapply elem_of_dom_2).
    rewrite Hg. simpl. f_equal. rewrite <- (Hp _ _ Ht). unfold parentOf. by rewrite Hg.
  - apply fmap_None, not_elem_of_dom. rewrite Hd. by apply not_elem_of_dom.
Qed.
Lemma tree_lookup rows x p : tree rows !! x = Some p -> parentOf rows x = p /\ is_Some (rows !! x).
Proof. unfold tree, parentOf. rewrite lookup_fmap. destruct (rows !! x); naive_solver. Qed.
Lemma dom_tree rows : dom (tree rows) = dom rows.
Proof. apply dom_fmap_L. Qed.
Lemma reparent_lookup f t x : tree_changes.reparent f t !! x = f x <$> t !! x.
Proof. unfold tree_changes.reparent. rewrite map_lookup_imap. by destruct (t !! x). Qed.
Lemma dom_reparent f t : dom (tree_changes.reparent f t) = dom t.
Proof.
  apply set_eq. intros x. rewrite !elem_of_dom, reparent_lookup, fmap_is_Some. done.
Qed.
Lemma tree_reparent f rows rows' : dom rows' = dom rows ->
  (forall x p, tree rows !! x = Some p -> parentOf rows' x = f x p) ->
  tree rows' = tree_changes.reparent f (tree rows).
Proof.
  intros Hd Hp. apply tree_ext; [by rewrite dom_reparent, dom_tree|].
  intros x p. rewrite reparent_lookup. destruct (tree rows !! x) as [q|] eqn:Hq; simpl; [|done].
  intros [= <-]. by apply Hp.
Qed.

(** What the theorems on trees need of a repository besides GroupRepoLaws: that
    only Save and Delete change which groups there are, that an update does not
    touch the parent, and that ErrNotFound is what UnassignAllChildrenGroups
    returns of a group without children. *)
Class GroupTreeLaws {W : Type} (R : groups.Repository W) (rows : W -> gmap string groups.Group) : Prop := {
  dom_Assign p ids : frames (groups.AssignParentGroup R p ids) (fun w => dom (rows w));
  dom_Unassign p ids : frames (groups.UnassignParentGroup R p ids) (fun w => dom (rows w));
  dom_UnassignAll p : frames (groups.UnassignAllChildrenGroups R p) (fun w => dom (rows w));
  dom_ChangeStatus g : frames (groups.ChangeStatus R g) (fun w => dom (rows w));
  tree_Update g : frames (groups.repo_Update R g) (fun w => tree (rows w));
  tree_UpdateTags g : frames (groups.repo_UpdateTags R g) (fun w => tree (rows w));
  rows_AddRoles rps : frames (roles.AddRoles (groups.role_repo R) rps) rows;
  UnassignAll_not_found p w e w' : p <> "" -> groups.UnassignAllChildrenGroups R p w = (e, w') ->
    is_sentinel e repoerr.ErrNotFound = true -> forall x, parentOf (rows w) x <> p }.

(** *** The repository's operations on the tree *)
Section effects.
Import group_changes tree_changes.
Context {W : Type} (R : groups.Repository W) (tuples : W -> gset Relationship) (rows : W -> gmap string groups.Group).
Context {GL : GroupRepoLaws R tuples rows} {TL : GroupTreeLaws R rows}.

Lemma Assign_tree p ids w w' : groups.AssignParentGroup R p ids w = (None, w') ->
  tree (rows w') = assign p ids (tree (rows w)).
Proof.
  intros H. pose proof (frames_eq _ _ _ _ _ (dom_Assign p ids) H) as Hd. apply AssignParentGroup_effect in H as [_ H].
  apply tree_reparent; [done|]. intros x q Hq%tree_lookup. rewrite H. destruct Hq as [-> Hs].
  rewrite (bool_decide_true _ Hs), andb_true_r. by case_match.
Qed.
Lemma Unassign_tree p ids w w' : groups.UnassignParentGroup R p ids w = (None, w') ->
  tree (rows w') = unassign p ids (tree (rows w)).
Proof.
  intros H. pose proof (frames_eq _ _ _ _ _ (dom_Unassign p ids) H) as Hd. apply UnassignParentGroup_effect in H as [_ H].
  apply tree_reparent; [done|]. intros x q [Hq _]%tree_lookup. rewrite H, Hq. done.
Qed.
Lemma UnassignAll_tree p w w' : groups.UnassignAllChildrenGroups R p w = (None, w') ->
  tree (rows w') = unassign_all p (tree (rows w)).
Proof.
  intros H. pose proof (frames_eq _ _ _ _ _ (dom_UnassignAll p) H) as Hd. apply UnassignAllChildrenGroups_effect in H as [_ H].
  apply tree_reparent; [done|]. intros x q [Hq _]%tree_lookup. rewrite H, Hq. done.
Qed.
Lemma ChangeStatus_tree g w g' e w' : groups.ChangeStatus R g w = ((g', e), w') -> tree (rows w') = tree (rows w).
Proof.
  intros H. pose proof (frames_eq _ _ _ _ _ (dom_ChangeStatus g) H) as Hd. pose proof (ChangeStatus_rows _ _ _ _ _ H) as Hr.
  apply tree_ext; [by rewrite dom_tree|]. intros x p [Hp _]%tree_lookup. by rewrite Hr.
Qed.
Lemma Delete_tree id w w' : groups.repo_Delete R id w = (None, w') ->
  tree (rows w') = unassign_all id (delete id (tree (rows w))).
Proof.
  intros [Hd Hr]%Delete_ok. apply map_eq. intros x. unfold unassign_all. rewrite reparent_lookup. unfold tree. rewrite lookup_fmap.
  destruct (decide (x = id)) as [->|Hx].
  - rewrite lookup_delete_eq. simpl. assert (rows w' !! id = None) as -> by (apply not_elem_of_dom; rewrite Hd; set_solver). done.
  - rewrite lookup_delete_ne, lookup_fmap, Hr by done. destruct (rows w !! x) as [g|]; simpl; [|done].
    by destruct (groups.Parent g =s id).
Qed.
(** Removing the parent of one group. *)
Lemma unassign_own rows0 id : unassign (parentOf rows0 id) [id] (tree rows0) = assign "" [id] (tree rows0).
Proof.
  apply map_eq. intros x. unfold unassign, assign. rewrite !reparent_lookup.
  destruct (tree rows0 !! x) as [q|] eqn:Hq; [|done]. simpl. f_equal. apply tree_lookup in Hq as [Hq _].
  case_bool_decide as Hx; [|done]. apply list_elem_of_singleton in Hx as ->. rewrite <- Hq. by rewrite String.eqb_refl.
Qed.
Lemma assign_orphan rows0 id : parentOf rows0 id = "" -> assign "" [id] (tree rows0) = tree rows0.
Proof.
  intros Hp. apply map_eq. intros x. unfold assign. rewrite reparent_lookup.
  destruct (tree rows0 !! x) as [q|] eqn:Hq; [|done]. simpl. f_equal. apply tree_lookup in Hq as [Hq _].
  case_bool_decide as Hx; [|done]. apply list_elem_of_singleton in Hx as ->. congruence.
Qed.

Lemma UnassignAll_missing p w e w' : p <> "" -> groups.UnassignAllChildrenGroups R p w = (e, w') ->
  is_sentinel e repoerr.ErrNotFound = true -> tree (rows w') = unassign_all p (tree (rows w)).
Proof.
  intros Hp H Hn. pose proof (UnassignAll_not_found p w e w' Hp H Hn) as Hno.
  pose proof (frames_eq _ _ _ _ _ (dom_UnassignAll p) H) as Hd. apply UnassignAllChildrenGroups_effect in H as [_ H].
  apply tree_reparent; [done|]. intros x q [Hq _]%tree_lookup. rewrite H. destruct e; [|done].
  destruct (String.eqb_spec q p) as [E|_]; [|done]. specialize (Hno x). congruence.
Qed.

(** The replay of a change. *)
Definition names_group (c : change) : Prop := match c with AllChildrenRemoved id => id <> "" | _ => True end.
Lemma replayed_tree c w w' : names_group c.2 -> group_changes.replayed R c w = (None, w') ->
  tree (rows w') = apply c.2 (tree (rows w)).
Proof.
  destruct c as [s c]. unfold group_changes.replayed, group_changes.report, group_changes.drop_result. destruct c; simpl; intros Hc.
  all: go_unfold; repeat case_match; intros; simplify_eq; try (by exfalso; eapply WrapE_inv).
  all: try done.
  all: match goal with
    | H1 : groups.Save _ _ _ = _, H2 : roles.AddRoles _ _ _ = _ |- _ =>
        pose proof (frames_eq _ rows _ _ _ (rows_AddRoles _) H2) as ->; apply Save_ok in H1 as (_ & _ & _ & Hp & ->);
        unfold tree; rewrite fmap_insert; simpl in Hp; by rewrite Hp
    | H : groups.repo_Update _ _ _ = _ |- _ => exact (frames_eq _ _ _ _ _ (tree_Update _) H)
    | H : groups.repo_UpdateTags _ _ _ = _ |- _ => exact (frames_eq _ _ _ _ _ (tree_UpdateTags _) H)
    | H : groups.ChangeStatus _ _ _ = _ |- _ => by eapply ChangeStatus_tree
    | H : groups.repo_Delete _ _ _ = _ |- _ => by apply Delete_tree
    | H1 : groups.RetrieveByID _ _ _ = _, H2 : groups.UnassignParentGroup _ _ _ _ = _ |- _ =>
        apply Unassign_tree in H2; pose proof (frames_eq _ rows _ _ _ (rows_RetrieveByID _) H1) as Hr;
        apply RetrieveByID_row in H1 as (_ & _ & Hp); by rewrite H2, Hr, Hp, unassign_own
    | H : groups.AssignParentGroup _ _ _ _ = _ |- _ => by apply Assign_tree
    | H : groups.UnassignParentGroup _ _ _ _ = _ |- _ => by apply Unassign_tree
    | H : groups.UnassignAllChildrenGroups _ _ _ = (None, _) |- _ => by apply UnassignAll_tree
    | H : groups.UnassignAllChildrenGroups _ _ _ = _ |- _ =>
        eapply UnassignAll_missing; [done|done|]; apply negb_false_iff; assumption
    end.
Qed.
Lemma consumed_tree c w w' : names_group c.2 -> group_changes.consumed R c w = (None, w') ->
  tree (rows w') = apply c.2 (tree (rows w)).
Proof.
  unfold group_changes.consumed. destruct c as [s c]. cbn [snd]. intros Hn.
  destruct c; try (by apply (replayed_tree (s, _))). by intros [= <-].
Qed.
End effects.

(** *** The calls of the service on the tree *)
Section service.
Import policies groups group_changes tree_changes.
Context {W : Type} (now : St W Time) (svc : service W).
Context (tuples grants : W -> gset Relationship) (rows : W -> gmap string Group).
Context {RE : RolesEnv now (ProvisionManageService svc) tuples grants}.
Context {GL : GroupRepoLaws (repo svc) tuples rows} {TL : GroupTreeLaws (repo svc) rows}.
Context (now_rows : frames now rows) (id_rows : frames (idProvider svc) rows) (id_tuples : frames (idProvider svc) tuples).
Context (roles_rows : forall d u ids os ms,
  frames (roles.AddNewEntitiesRoles now (ProvisionManageService svc) d u ids os ms) rows).
Context (remove_rows : forall d u ids fs os,
  frames (roles.RemoveEntitiesRoles (ProvisionManageService svc) d u ids fs os) rows).
Context (add_rows : forall l, frames (AddPolicies (policy svc) l) rows).
Context (delete_rows : forall l, frames (DeletePolicies (policy svc) l) rows).
Context (filter_rows : forall p, frames (DeletePolicyFilter (policy svc) p) rows).
Context (unset_rows : forall g, frames (grpc.channels_UnsetParentGroupFromChannels (channels svc) g) rows
  /\ frames (grpc.clients_UnsetParentGroupFromClient (clients svc) g) rows).
Hint Resolve now_rows id_rows roles_rows remove_rows add_rows delete_rows filter_rows : frame.
Lemma unset_channels g : frames (grpc.channels_UnsetParentGroupFromChannels (channels svc) g) rows.
Proof. apply unset_rows. Qed.
Lemma unset_clients g : frames (grpc.clients_UnsetParentGroupFromClient (clients svc) g) rows.
Proof. apply unset_rows. Qed.
Hint Resolve unset_channels unset_clients : frame.

Lemma run_tree c w ch w' : run (services.groups_service now svc) c w = ((ch, None), w') ->
  tree (rows w') = apply ch.2 (tree (rows w)).
Proof.
  destruct c; simpl; unfold bind at 1.
  1: { destruct (CreateGroup now svc session g w) as [[[g' rps] e] w1] eqn:E. apply CreateGroup_spec with (tuples := tuples) (grants := grants) (rows := rows) in E; try done.
    unfold ret. intros [= <- -> <-]. destruct E as (new & _ & _ & -> & _). simpl. unfold tree. by rewrite fmap_insert. }
  all: unfold UpdateGroup, UpdateGroupTags, EnableGroup, DisableGroup, changeGroupStatus, DeleteGroup, AddParentGroup,
    RemoveParentGroup, AddChildrenGroups, RemoveChildrenGroups, RemoveAllChildrenGroups, hierarchy.undoAdd, hierarchy.undoDelete;
    go_unfold; repeat case_match; go_unfold; repeat case_match; intros; simplify_eq; try (by exfalso; eapply WrapE_inv);
    simpl; frame_all rows.
  all: match goal with
    | H : repo_Update _ _ _ = _ |- _ => pose proof (frames_eq _ _ _ _ _ (tree_Update _) H); congruence
    | H : repo_UpdateTags _ _ _ = _ |- _ => pose proof (frames_eq _ _ _ _ _ (tree_UpdateTags _) H); congruence
    | H1 : ChangeStatus _ _ _ = _, H2 : repo_Delete _ _ _ = _ |- _ =>
        apply (ChangeStatus_tree _ tuples rows) in H1; apply (Delete_tree _ tuples rows) in H2; congruence
    | H : ChangeStatus _ _ _ = _ |- _ => apply (ChangeStatus_tree _ tuples rows) in H; congruence
    | H1 : RetrieveByID _ _ _ = _, H2 : AssignParentGroup _ _ _ _ = _ |- _ =>
        apply (Assign_tree _ tuples rows) in H2; apply RetrieveByID_row in H1 as (_ & <- & _); congruence
    | H1 : RetrieveByID _ _ _ = _, H2 : UnassignParentGroup _ _ _ _ = _ |- _ =>
        apply (Unassign_tree _ tuples rows) in H2; apply RetrieveByID_row in H1 as (_ & <- & Hp); rewrite H2, Hp;
        rewrite <- unassign_own; congruence
    | H1 : RetrieveByID _ _ _ = _ |- _ =>
        apply RetrieveByID_row in H1 as (_ & _ & Hp); rewrite assign_orphan by (go_bool; congruence); congruence
    | H : AssignParentGroup _ _ _ _ = _ |- _ => apply (Assign_tree _ tuples rows) in H; congruence
    | H : UnassignParentGroup _ _ _ _ = _ |- _ => apply (Unassign_tree _ tuples rows) in H; congruence
    | H : UnassignAllChildrenGroups _ _ _ = _ |- _ => apply (UnassignAll_tree _ tuples rows) in H; congruence
    end.
Qed.
End service.

(** *** Delivery

    The service runs over [W], where its broker keeps the messages ([log]);
    a consumer over [V], with a repository of its own, has handled the first
    [n] of them.  Of the service only this is used: that a call which
    returns no error changes the tree as its change says, which [run_tree]
    shows of the groups service. *)
Class GroupTreeService {W : Type} (svc : groups_mw.Service W) (rows : W -> gmap string groups.Group) : Prop :=
  run_apply c w ch w' : group_changes.run svc c w = ((ch, None), w') ->
    tree (rows w') = tree_changes.apply ch.2 (tree (rows w)).

Section delivery.
Import groups group_changes tree_changes.
Context {W V : Type} (now : St W Time) (svc : groups_mw.Service W) (rows : W -> gmap string Group).
Context {GS : GroupTreeService svc rows} (now_rows : frames now rows).
Context (R : Repository V) (tuplesV : V -> gset Relationship) (rowsV : V -> gmap string Group).
Context {GLV : GroupRepoLaws R tuplesV rowsV} {TLV : GroupTreeLaws R rowsV}.
Context (rsvc : rolemgr.RoleManager W) (reqID : string) (log : W -> list (string * events.data)).
Context (broker : string -> events.data -> St W error).
Context (broker_log : forall s p w e w', broker s p w = (e, w') -> log w' = log w ++ if is_nil e then [(s, p)] else []).
Context (broker_rows : forall s p, frames (broker s p) rows).
Context (now_log : frames now log) (svc_log : forall c, frames (run svc c) log).
Hint Resolve now_rows broker_rows : frame.
Local Abbreviation stored_svc := (stored now broker svc rsvc reqID).

Inductive delivery_step : W * nat * V -> W * nat * V -> Prop :=
| step_call c w ch w' n v : run stored_svc c w = ((ch, None), w') -> change_ok ch -> names_group ch.2 ->
    delivery_step (w, n, v) (w', n, v)
| step_failed c w ch e w' n v : run stored_svc c w = ((ch, Some e), w') -> tree (rows w') = tree (rows w) ->
    delivery_step (w, n, v) (w', n, v)
| step_delivered w n s p v v' : log w !! n = Some (s, p) -> group_consumer.Handle R p v = (None, v') ->
    delivery_step (w, n, v) (w, S n, v').

(** The changes of the messages not handled yet lead from the copy to the
    groups. *)
Definition pending (p : string * events.data) (ch : authn.Session * change) : Prop :=
  names_group ch.2 /\ forall v, group_consumer.Handle R p.2 v = consumed R ch v.
Definition behind (s : W * nat * V) : Prop :=
  let '(w, n, v) := s in
  (n <= length (log w))%nat /\
  exists chs, Forall2 pending (drop n (log w)) chs /\ tree (rows w) = foldl (fun t ch => apply ch.2 t) (tree (rowsV v)) chs.

Lemma call_log c w ch e w' : run stored_svc c w = ((ch, e), w') ->
  match e with
  | Some _ => log w' = log w
  | None => change_ok ch -> exists s p, log w' = log w ++ [(s, p)] /\ (forall v, group_consumer.Handle R p v = consumed R ch v)
      /\ exists w1, run svc c w = ((ch, None), w1) /\ rows w' = rows w1
  end.
Proof.
  rewrite group_run_stored. unfold replication.publishing, bind. intros H.
  destruct (run svc c w) as [[ch0 e0] w1] eqn:E1.
  pose proof (frames_eq _ log _ _ _ (svc_log c) E1) as Hl1. destruct e0 as [e0|].
  { injection H as <- <- <-. done. }
  destruct (events.nats_Publish _ _ _ _ w1) as [e1 w2] eqn:E2. injection H as <- <- <-.
  destruct (replication.publish_log now broker log broker_log now_log _ _ _ _ _ E2) as [[He Hl]|(t & p & -> & Hm & Hl)].
  { destruct e1; [|done]. congruence. }
  intros Hok. exists (stream ch0), p. split; [congruence|]. split; [|exists w1; split; [done|]].
  - intros v. by eapply group_change_consumed.
  - revert E2. unfold events.nats_Publish, bind. destruct (now w1) as [t1 w3] eqn:En. frame_all rows.
    clear Hm. destruct (events.marshal_map _); intros Hb; [|done].
    pose proof (frames_eq _ rows _ _ _ (broker_rows _ _) Hb). congruence.
Qed.

Lemma behind_step s s' : delivery_step s s' -> behind s -> behind s'.
Proof.
  intros []; intros (Hn & chs & Hp & Ht).
  - pose proof (call_log _ _ _ _ _ H H0) as (st & p & Hl & Hc & w1 & Hr & Hrows).
    apply run_apply in Hr. split; [rewrite Hl, length_app; lia|]. exists (chs ++ [ch]). rewrite Hl, drop_app_le by done. split.
    + apply Forall2_app; [done|]. repeat constructor; done.
    + rewrite foldl_app. simpl. by rewrite <- Ht, <- Hr, Hrows.
  - pose proof (call_log _ _ _ _ _ H) as Hl. simpl in Hl. split; [by rewrite Hl|]. exists chs. by rewrite Hl, H0.
  - pose proof (lookup_lt_Some _ _ _ H) as Hlt. split; [lia|]. rewrite (drop_S _ _ _ H) in Hp.
    apply Forall2_cons_inv_l in Hp as (ch & chs' & [Hg Hh] & Hp & ->). exists chs'. split; [done|].
    rewrite Ht. simpl. rewrite Hh in H0. f_equal. symmetry. by eapply consumed_tree.
Qed.

(** C38: the copies of the groups' hierarchy follow it.  Start with equal trees
    and no message under way, and let the groups service get calls through its
    event store: calls that return no error and make a change whose event the
    consumer can read ([change_ok]: names, statuses, roles and lists are
    there), and calls that fail and leave the tree as it was, so that a change
    whose event could not be published is left out.  Whenever the messages
    are handled, in order and each without an error of the consumer, the
    copy's tree lacks exactly what the messages still under way carry, and
    once all are handled it is the tree of the groups service. *)
Theorem group_tree_replicated w0 v0 w n v (Hstart : tree (rows w0) = tree (rowsV v0))
    (Hsteps : rtc delivery_step (w0, length (log w0), v0) (w, n, v)) :
  behind (w, n, v) /\ (n = length (log w) -> tree (rowsV v) = tree (rows w)).
Proof.
  assert (H0 : behind (w0, length (log w0), v0)).
  { split; [done|]. exists []. by rewrite drop_all. }
  assert (H : behind (w, n, v)).
  { remember (w0, length (log w0), v0) as s0 eqn:E. clear E Hstart. remember (w, n, v) as s eqn:E. clear E.
    induction Hsteps; [done|]. apply IHHsteps. by eapply behind_step. }
  split; [exact H|]. intros ->. destruct H as (_ & chs & Hp & Ht). rewrite drop_all in Hp. inversion Hp. subst. by symmetry.
Qed.
End delivery.

(** *** The groups in memory and a copy of them *)
Module group_events_example.
Import policies groups group_changes.
#[export] Instance memgroups_tree_laws : GroupTreeLaws (memgroups.repo false) memgroups.rows.
Proof.
  assert (Hset : forall p keep, frames (memgroups.set_parent p keep) (fun w => dom (memgroups.rows w))).
  { intros p keep w. apply set_eq. intros x. unfold memgroups.set_parent, memgroups.put, memgroups.rows. simpl.
    rewrite !elem_of_dom, map_lookup_imap. by destruct (w.2 !! x). }
  split; simpl; try (intros *; apply Hset); try (intros *; by intros w).
  - intros g w. destruct (memgroups.rows w !! ID g) eqn:E; [|done]. unfold memgroups.put, memgroups.rows in *. simpl.
    rewrite dom_insert_L. apply subseteq_union_1_L. intros x ->%elem_of_singleton. by apply elem_of_dom.
  - intros rps w. by case_match.
  - by intros p e w w' _ [= <- <-].
Qed.

Definition lift_service {S} (s : groups_mw.Service S) : groups_mw.Service (logged.state S) := {|
  groups_mw.svc_CreateGroup := fun a b => logged.lift (groups_mw.svc_CreateGroup s a b);
  groups_mw.svc_UpdateGroup := fun a b => logged.lift (groups_mw.svc_UpdateGroup s a b);
  groups_mw.svc_UpdateGroupTags := fun a b => logged.lift (groups_mw.svc_UpdateGroupTags s a b);
  groups_mw.svc_ViewGroup := fun a b c => logged.lift (groups_mw.svc_ViewGroup s a b c);
  groups_mw.svc_ListGroups := fun a b => logged.lift (groups_mw.svc_ListGroups s a b);
  groups_mw.svc_ListUserGroups := fun a b c => logged.lift (groups_mw.svc_ListUserGroups s a b c);
  groups_mw.svc_EnableGroup := fun a b => logged.lift (groups_mw.svc_EnableGroup s a b);
  groups_mw.svc_DisableGroup := fun a b => logged.lift (groups_mw.svc_DisableGroup s a b);
  groups_mw.svc_DeleteGroup := fun a b => logged.lift (groups_mw.svc_DeleteGroup s a b);
  groups_mw.svc_RetrieveGroupHierarchy := fun a b c => logged.lift (groups_mw.svc_RetrieveGroupHierarchy s a b c);
  groups_mw.svc_AddParentGroup := fun a b c => logged.lift (groups_mw.svc_AddParentGroup s a b c);
  groups_mw.svc_RemoveParentGroup := fun a b => logged.lift (groups_mw.svc_RemoveParentGroup s a b);
  groups_mw.svc_AddChildrenGroups := fun a b c => logged.lift (groups_mw.svc_AddChildrenGroups s a b c);
  groups_mw.svc_RemoveChildrenGroups := fun a b c => logged.lift (groups_mw.svc_RemoveChildrenGroups s a b c);
  groups_mw.svc_RemoveAllChildrenGroups := fun a b => logged.lift (groups_mw.svc_RemoveAllChildrenGroups s a b);
  groups_mw.svc_ListChildrenGroups := fun a b c d e => logged.lift (groups_mw.svc_ListChildrenGroups s a b c d e) |}.
Lemma run_lift {S} (s : groups_mw.Service S) c w : run (lift_service s) c w = logged.lift (run s c) w.
Proof. destruct w as [w l]. destruct c; simpl; unfold logged.lift, bind, ret; simpl; by repeat case_match; simplify_eq. Qed.
Definition rows (w : logged.state memgroups.state) : gmap string Group := memgroups.rows w.1.
#[export] Instance lift_tree {S} (s : groups_mw.Service S) (rws : S -> gmap string Group) (GS : GroupTreeService s rws) :
  GroupTreeService (lift_service s) (fun w => rws w.1).
Proof.
  intros c [w l] ch w'. rewrite run_lift. unfold logged.lift. simpl.
  destruct (run s c w) as [[x e] w1] eqn:E. intros [= -> -> <-]. simpl. by eapply run_apply.
Qed.
#[export] Instance memgroups_service : GroupTreeService (services.groups_service memroles.now (memgroups.svc false)) memgroups.rows.
Proof.
  intros c w ch w'. eapply (run_tree memroles.now (memgroups.svc false) memroles.tuples memroles.grants memgroups.rows
    (RE := memroles.env _ _ _) (GL := memgroups.repo_laws false)); try done.
  all: intros; first [by apply memroles.create_frames | by apply memgroups.remove_frames
    | by apply (groups_example.policies_rows false)].
Qed.

(** A group is created under g1, another group becomes its child, and both
    are then taken apart; the copy starts with the same two roots. *)
Definition g1 : Group := Group0 <| ID := "g1" |>.
Definition g3 : Group := Group0 <| ID := "g3" |>.
Definition two : memgroups.state := (({[MkRel GroupType "g1" DomainRelation DomainType "d" ""; MkRel GroupType "g3" DomainRelation DomainType "d" ""]}, ∅), {["g1" := g1; "g3" := g3]}).
Definition start : logged.state memgroups.state := (two, []).
Definition svc := lift_service (services.groups_service memroles.now (memgroups.svc false)).
Definition rsvc : rolemgr.RoleManager (logged.state memgroups.state) :=
  logged.roles_manager (services.roles_manager memroles.now (ProvisionManageService (memgroups.svc false))).
Definition through := run (stored (logged.lift memroles.now) logged.broker svc rsvc "req").
Definition requests : list call :=
  [CreateGroupCall roles_example.alice groups_example.child; AddParentGroupCall roles_example.alice "g3" "g2";
   RemoveChildrenGroupsCall roles_example.alice "g1" ["g2"]; RemoveParentGroupCall roles_example.alice "g3"].
Definition ran := replication.calls through requests start.
Definition R := memgroups.repo false.
Definition copy := replication.handle_all (fun m => group_consumer.Handle R m.2) (logged.log ran.2) two.

Lemma svc_log c : frames (run svc c) logged.log.
Proof. intros w. unfold svc. rewrite run_lift. apply logged.lift_log. Qed.

Lemma group_changes_replicated_witness :
  copy.1 = [None; None; None; None] /\ ran.2.2.*1 = ["supermq.group.create"; "supermq.group.add_parent_group";
    "supermq.group.remove_children_groups"; "supermq.group.remove_parent_group"]
  /\ exists msgs, logged.log ran.2 = [] ++ msgs /\ msgs.*1 = map stream ran.1
    /\ forall v, replication.handle_all (fun m => group_consumer.Handle R m.2) msgs v
              = replication.handle_all (replayed R) ran.1 v.
Proof.
  split; [vm_compute; reflexivity|]. split; [vm_compute; reflexivity|].
  eapply (group_changes_replicated (logged.lift memroles.now) logged.broker svc rsvc "req" R logged.log logged.broker_log
    (logged.lift_log _) svc_log requests start ran.1 ran.2).
  - apply surjective_pairing.
  - vm_compute. repeat constructor; try discriminate.
  - vm_compute. repeat constructor; intros [].
Defined.

(** An update of the tags is published, and nothing comes of it. *)
Lemma tags_not_replicated :
  let retag := UpdateGroupTagsCall roles_example.alice (g1 <| Tags := ["blue"] |>) in
  let w := (through retag start).2 in
  map fst (logged.log w) = ["supermq.group.update_tags"]
  /\ forall v, replication.handle_all (fun m => group_consumer.Handle R m.2) (logged.log w) v = ([None], v).
Proof. cbv zeta. split; [vm_compute; reflexivity|]. intros v. vm_compute. reflexivity. Qed.

(** Two calls, then their two messages. *)
Definition c1 := CreateGroupCall roles_example.alice groups_example.child.
Definition c2 := AddParentGroupCall roles_example.alice "g3" "g2".
Definition w1 := (through c1 start).2.
Definition w2 := (through c2 w1).2.
Definition p1 := default [] (snd <$> logged.log w2 !! 0%nat).
Definition p2 := default [] (snd <$> logged.log w2 !! 1%nat).
Definition v1 := (group_consumer.Handle R p1 two).2.
Definition v2 := (group_consumer.Handle R p2 v1).2.
Lemma returns {A} (m : A * error * logged.state memgroups.state) : m.1.2 = None -> m = ((m.1.1, None), m.2).
Proof. destruct m as [[a e] w]. simpl. by intros ->. Qed.
Lemma handled (m : error * memgroups.state) : m.1 = None -> m = (None, m.2).
Proof. destruct m as [e w]. simpl. by intros ->. Qed.
Lemma group_tree_replicated_witness :
  map_to_list (tree (memgroups.rows v2)) = [("g3", "g2"); ("g1", ""); ("g2", "g1")]
  /\ tree (memgroups.rows v2) = tree (rows w2).
Proof.
  split; [vm_compute; reflexivity|].
  eapply (group_tree_replicated (logged.lift memroles.now) svc rows (fun _ => eq_refl) R memroles.tuples memgroups.rows
    (GLV := memgroups.repo_laws false) rsvc "req" logged.log logged.broker logged.broker_log (fun _ _ _ => eq_refl)
    (logged.lift_log _) svc_log start two w2 2%nat v2 eq_refl); [|vm_compute; reflexivity].
  apply (rtc_l _ _ (w1, 0%nat, two)); [|apply (rtc_l _ _ (w2, 0%nat, two)); [|apply (rtc_l _ _ (w2, 1%nat, v1)); [|apply rtc_once]]].
  - apply (step_call _ _ _ _ _ _ _ _ c1 _ (through c1 start).1.1).
    + apply (returns (through c1 start)). vm_compute. reflexivity.
    + vm_compute. split_and!; try discriminate. repeat constructor; discriminate.
    + vm_compute. exact I.
  - apply (step_call _ _ _ _ _ _ _ _ c2 _ (through c2 w1).1.1).
    + apply (returns (through c2 w1)). vm_compute. reflexivity.
    + vm_compute. exact I.
    + vm_compute. exact I.
  - apply (step_delivered _ _ _ _ _ _ _ _ _ _ "supermq.group.create" p1); [vm_compute; reflexivity|].
    apply (handled (group_consumer.Handle R p1 two)). vm_compute. reflexivity.
  - apply (step_delivered _ _ _ _ _ _ _ _ _ _ "supermq.group.add_parent_group" p2); [vm_compute; reflexivity|].
    apply (handled (group_consumer.Handle R p2 v1)). vm_compute. reflexivity.
Defined.
End group_events_example.
