(* ===== verification/ClientEvents.v ===== *)
(** * Client events

    Sources: src/clients/events/events.go and streams.go, the event store of
    the clients service, and src/pkg/clients/events/consumer, which decodes its
    events for a service that keeps a copy of the clients table. *)

From S2P Require Import Prelude GoStd GoTime Errors Policies Authn Roles Clients Guards Events.

(** ** src/clients/events/events.go *)
Module client_events.
Import events.
Definition clientPrefix := "client.".
Definition clientCreate := clientPrefix +:+ "create".
Definition clientUpdate := clientPrefix +:+ "update".
Definition clientUpdateTags := clientPrefix +:+ "update_tags".
Definition clientUpdateSecret := clientPrefix +:+ "update_secret".
Definition clientEnable := clientPrefix +:+ "enable".
Definition clientDisable := clientPrefix +:+ "disable".
Definition clientRemove := clientPrefix +:+ "remove".
Definition clientView := clientPrefix +:+ "view".
Definition clientList := clientPrefix +:+ "list".
Definition clientListByUser := clientPrefix +:+ "list_by_user".
Definition clientSetParent := clientPrefix +:+ "set_parent".
Definition clientRemoveParent := clientPrefix +:+ "remove_parent".

Definition createClientEvent (client : clients.Client) (rolesProvisioned : list roles.RoleProvision) (session : authn.Session) (requestID : string) : event :=
  let val := [ ("operation", AString clientCreate);
      ("id", AString (clients.ID client));
      ("roles_provisioned", ARoles rolesProvisioned);
      ("status", AString (clients.Status_String (clients.Status client)));
      ("created_at", ATime (clients.CreatedAt client));
      ("domain", AString (authn.DomainID session));
      ("user_id", AString (authn.UserID session));
      ("token_type", AString (authn.TokenType_String (authn.Type_ session)));
      ("super_admin", ABool (authn.SuperAdmin session));
      ("request_id", AString requestID)] in
  let val := put_if (clients.Name client <>s "") "name" (AString (clients.Name client)) val in
  let val := put_if (negb (is_empty (clients.Tags client))) "tags" (AStrings (clients.Tags client)) val in
  let val := put_if (negb (is_nil (clients.Metadata_ client))) "metadata" (AMetadata (clients.Metadata_ client)) val in
  let val := put_if (negb (is_nil (clients.PrivateMetadata client))) "private_metadata" (AMetadata (clients.PrivateMetadata client)) val in
  let val := put_if (clients.cr_Identity (clients.Credentials_ client) <>s "") "identity" (AString (clients.cr_Identity (clients.Credentials_ client))) val in
  val.
Definition updateClientEvent (client : clients.Client) (operation : string) (session : authn.Session) (requestID : string) : event :=
  let val := [ ("operation", AString operation);
      ("updated_at", ATime (clients.UpdatedAt client));
      ("updated_by", AString (clients.UpdatedBy client));
      ("domain", AString (authn.DomainID session));
      ("user_id", AString (authn.UserID session));
      ("token_type", AString (authn.TokenType_String (authn.Type_ session)));
      ("super_admin", ABool (authn.SuperAdmin session));
      ("request_id", AString requestID)] in
  let val := put_if (clients.ID client <>s "") "id" (AString (clients.ID client)) val in
  let val := put_if (clients.Name client <>s "") "name" (AString (clients.Name client)) val in
  let val := put_if (negb (is_empty (clients.Tags client))) "tags" (AStrings (clients.Tags client)) val in
  let val := put_if (clients.cr_Identity (clients.Credentials_ client) <>s "") "identity" (AString (clients.cr_Identity (clients.Credentials_ client))) val in
  let val := put_if (negb (is_nil (clients.Metadata_ client))) "metadata" (AMetadata (clients.Metadata_ client)) val in
  let val := put_if (negb (is_nil (clients.PrivateMetadata client))) "private_metadata" (AMetadata (clients.PrivateMetadata client)) val in
  let val := put_if (negb (IsZero (clients.CreatedAt client))) "created_at" (ATime (clients.CreatedAt client)) val in
  let val := put_if (clients.Status_String (clients.Status client) <>s "") "status" (AString (clients.Status_String (clients.Status client))) val in
  val.
Definition changeClientStatusEvent (id : string) (operation : string) (status : string) (updatedAt : Time) (updatedBy : string) (session : authn.Session) (requestID : string) : event :=
  [ ("operation", AString operation);
    ("id", AString id);
    ("status", AString status);
    ("updated_at", ATime updatedAt);
    ("updated_by", AString updatedBy);
    ("domain", AString (authn.DomainID session));
    ("user_id", AString (authn.UserID session));
    ("token_type", AString (authn.TokenType_String (authn.Type_ session)));
    ("super_admin", ABool (authn.SuperAdmin session));
    ("request_id", AString requestID)].
Definition viewClientEvent (client : clients.Client) (session : authn.Session) (requestID : string) : event :=
  let val := [ ("operation", AString clientView);
      ("id", AString (clients.ID client));
      ("domain", AString (authn.DomainID session));
      ("user_id", AString (authn.UserID session));
      ("token_type", AString (authn.TokenType_String (authn.Type_ session)));
      ("super_admin", ABool (authn.SuperAdmin session));
      ("request_id", AString requestID)] in
  let val := put_if (clients.Name client <>s "") "name" (AString (clients.Name client)) val in
  let val := put_if (negb (is_empty (clients.Tags client))) "tags" (AStrings (clients.Tags client)) val in
  let val := put_if (clients.cr_Identity (clients.Credentials_ client) <>s "") "identity" (AString (clients.cr_Identity (clients.Credentials_ client))) val in
  let val := put_if (negb (is_nil (clients.Metadata_ client))) "metadata" (AMetadata (clients.Metadata_ client)) val in
  let val := put_if (negb (is_nil (clients.PrivateMetadata client))) "private_metadata" (AMetadata (clients.PrivateMetadata client)) val in
  let val := put_if (negb (IsZero (clients.CreatedAt client))) "created_at" (ATime (clients.CreatedAt client)) val in
  let val := put_if (negb (IsZero (clients.UpdatedAt client))) "updated_at" (ATime (clients.UpdatedAt client)) val in
  let val := put_if (clients.UpdatedBy client <>s "") "updated_by" (AString (clients.UpdatedBy client)) val in
  let val := put_if (clients.Status_String (clients.Status client) <>s "") "status" (AString (clients.Status_String (clients.Status client))) val in
  val.
Definition listClientEvent (pm : clients.Page) (session : authn.Session) (requestID : string) : event :=
  let val := [ ("operation", AString clientList);
      ("total", AUint (clients.pg_Total pm));
      ("offset", AUint (clients.pg_Offset pm));
      ("limit", AUint (clients.pg_Limit pm));
      ("domain", AString (authn.DomainID session));
      ("user_id", AString (authn.UserID session));
      ("token_type", AString (authn.TokenType_String (authn.Type_ session)));
      ("super_admin", ABool (authn.SuperAdmin session));
      ("request_id", AString requestID)] in
  let val := put_if (clients.pg_Name pm <>s "") "name" (AString (clients.pg_Name pm)) val in
  let val := put_if (clients.pg_Order pm <>s "") "order" (AString (clients.pg_Order pm)) val in
  let val := put_if (clients.pg_Dir pm <>s "") "dir" (AString (clients.pg_Dir pm)) val in
  let val := put_if (negb (is_nil (clients.pg_Metadata pm))) "metadata" (AMetadata (clients.pg_Metadata pm)) val in
  let val := put_if (negb (is_empty (clients.Elements (clients.pg_Tags pm)))) "tag" (AStrings (clients.Elements (clients.pg_Tags pm))) val in
  let val := put_if (clients.Status_String (clients.pg_Status pm) <>s "") "status" (AString (clients.Status_String (clients.pg_Status pm))) val in
  let val := put_if (negb (is_empty (clients.pg_IDs pm))) "ids" (AStrings (clients.pg_IDs pm)) val in
  let val := put_if (clients.pg_Identity pm <>s "") "identity" (AString (clients.pg_Identity pm)) val in
  val.
Definition listUserClientEvent (userID : string) (pm : clients.Page) (session : authn.Session) (requestID : string) : event :=
  let val := [ ("operation", AString clientList);
      ("req_user_id", AString userID);
      ("total", AUint (clients.pg_Total pm));
      ("offset", AUint (clients.pg_Offset pm));
      ("limit", AUint (clients.pg_Limit pm));
      ("domain", AString (authn.DomainID session));
      ("user_id", AString (authn.UserID session));
      ("token_type", AString (authn.TokenType_String (authn.Type_ session)));
      ("super_admin", ABool (authn.SuperAdmin session));
      ("request_id", AString requestID)] in
  let val := put_if (clients.pg_Name pm <>s "") "name" (AString (clients.pg_Name pm)) val in
  let val := put_if (clients.pg_Order pm <>s "") "order" (AString (clients.pg_Order pm)) val in
  let val := put_if (clients.pg_Dir pm <>s "") "dir" (AString (clients.pg_Dir pm)) val in
  let val := put_if (negb (is_nil (clients.pg_Metadata pm))) "metadata" (AMetadata (clients.pg_Metadata pm)) val in
  let val := put_if (negb (is_empty (clients.Elements (clients.pg_Tags pm)))) "tag" (AStrings (clients.Elements (clients.pg_Tags pm))) val in
  let val := put_if (clients.Status_String (clients.pg_Status pm) <>s "") "status" (AString (clients.Status_String (clients.pg_Status pm))) val in
  let val := put_if (negb (is_empty (clients.pg_IDs pm))) "ids" (AStrings (clients.pg_IDs pm)) val in
  let val := put_if (clients.pg_Identity pm <>s "") "identity" (AString (clients.pg_Identity pm)) val in
  val.
Definition removeClientEvent (id : string) (session : authn.Session) (requestID : string) : event :=
  [ ("operation", AString clientRemove);
    ("id", AString id);
    ("domain", AString (authn.DomainID session));
    ("user_id", AString (authn.UserID session));
    ("token_type", AString (authn.TokenType_String (authn.Type_ session)));
    ("super_admin", ABool (authn.SuperAdmin session));
    ("request_id", AString requestID)].
Definition setParentGroupEvent (id : string) (parentGroupID : string) (session : authn.Session) (requestID : string) : event :=
  [ ("operation", AString clientSetParent);
    ("id", AString id);
    ("parent_group_id", AString parentGroupID);
    ("domain", AString (authn.DomainID session));
    ("user_id", AString (authn.UserID session));
    ("token_type", AString (authn.TokenType_String (authn.Type_ session)));
    ("super_admin", ABool (authn.SuperAdmin session));
    ("request_id", AString requestID)].
Definition removeParentGroupEvent (id : string) (session : authn.Session) (requestID : string) : event :=
  [ ("operation", AString clientRemoveParent);
    ("id", AString id);
    ("domain", AString (authn.DomainID session));
    ("user_id", AString (authn.UserID session));
    ("token_type", AString (authn.TokenType_String (authn.Type_ session)));
    ("super_admin", ABool (authn.SuperAdmin session));
    ("request_id", AString requestID)].
End client_events.

(** ** src/clients/events/streams.go *)
Module client_store.
Import events client_events.
Definition supermqPrefix := "supermq.".
Definition createStream := supermqPrefix +:+ clientCreate.
Definition updateStream := supermqPrefix +:+ clientUpdate.
Definition updateTagsStream := supermqPrefix +:+ clientUpdateTags.
Definition updateSecretStream := supermqPrefix +:+ clientUpdateSecret.
Definition enableStream := supermqPrefix +:+ clientEnable.
Definition disableStream := supermqPrefix +:+ clientDisable.
Definition removeStream := supermqPrefix +:+ clientRemove.
Definition viewStream := supermqPrefix +:+ clientView.
Definition listStream := supermqPrefix +:+ clientList.
Definition listByUserStream := supermqPrefix +:+ clientListByUser.
Definition setParentStream := supermqPrefix +:+ clientSetParent.
Definition removeParentStream := supermqPrefix +:+ clientRemoveParent.
Section store.
Context {W : Type} (publisher : Publisher W) (svc : clients_mw.Service W) (rsvc : rolemgr.RoleManager W) (reqID : string).
(** The loop of CreateClients: an event for each client. *)
Fixpoint publishCreated (session : authn.Session) (rps : list roles.RoleProvision) (clis : list clients.Client) : St W error :=
  match clis with
  | [] => ret None
  | cli :: clis =>
      err <- Publish publisher createStream (createClientEvent cli rps session reqID) ;;
      if_err err return_ ret err ;;
      publishCreated session rps clis
  end.
Definition CreateClients (session : authn.Session) (clients : list clients.Client)
    : St W (list clients.Client * list roles.RoleProvision * error) :=
  '(clis, rps, err) <- clients_mw.svc_CreateClients svc session clients ;;
  if_err err return_ ret ((clis, rps), err) ;;
  err <- publishCreated session rps clis ;;
  if_err err return_ ret ((clis, rps), err) ;;
  ret ((clis, rps), None).
Definition update (session : authn.Session) (operation stream : string) (client : clients.Client) : St W (clients.Client * error) :=
  err <- Publish publisher stream (updateClientEvent client operation session reqID) ;;
  if_err err return_ ret (client, err) ;;
  ret (client, None).
Definition Update (session : authn.Session) (client : clients.Client) : St W (clients.Client * error) :=
  '(cli, err) <- clients_mw.svc_Update svc session client ;;
  if_err err return_ ret (cli, err) ;;
  update session clientUpdate updateStream cli.
Definition UpdateTags (session : authn.Session) (client : clients.Client) : St W (clients.Client * error) :=
  '(cli, err) <- clients_mw.svc_UpdateTags svc session client ;;
  if_err err return_ ret (cli, err) ;;
  update session clientUpdateTags updateTagsStream cli.
Definition UpdateSecret (session : authn.Session) (id key : string) : St W (clients.Client * error) :=
  '(cli, err) <- clients_mw.svc_UpdateSecret svc session id key ;;
  if_err err return_ ret (cli, err) ;;
  update session clientUpdateSecret updateSecretStream cli.
Definition changeStatus (session : authn.Session) (operation stream : string) (cli : clients.Client) : St W (clients.Client * error) :=
  err <- Publish publisher stream (changeClientStatusEvent (clients.ID cli) operation (clients.Status_String (clients.Status cli))
           (clients.UpdatedAt cli) (clients.UpdatedBy cli) session reqID) ;;
  if_err err return_ ret (cli, err) ;;
  ret (cli, None).
Definition Enable (session : authn.Session) (id : string) : St W (clients.Client * error) :=
  '(cli, err) <- clients_mw.svc_Enable svc session id ;;
  if_err err return_ ret (cli, err) ;;
  changeStatus session clientEnable enableStream cli.
Definition Disable (session : authn.Session) (id : string) : St W (clients.Client * error) :=
  '(cli, err) <- clients_mw.svc_Disable svc session id ;;
  if_err err return_ ret (cli, err) ;;
  changeStatus session clientDisable disableStream cli.
Definition View (session : authn.Session) (id : string) (withRoles : bool) : St W (clients.Client * error) :=
  '(cli, err) <- clients_mw.svc_View svc session id withRoles ;;
  if_err err return_ ret (cli, err) ;;
  err <- Publish publisher viewStream (viewClientEvent cli session reqID) ;;
  if_err err return_ ret (cli, err) ;;
  ret (cli, None).
Definition ListClients (session : authn.Session) (pm : clients.Page) : St W (clients.ClientsPage * error) :=
  '(cp, err) <- clients_mw.svc_ListClients svc session pm ;;
  if_err err return_ ret (cp, err) ;;
  err <- Publish publisher listStream (listClientEvent pm session reqID) ;;
  if_err err return_ ret (cp, err) ;;
  ret (cp, None).
Definition ListUserClients (session : authn.Session) (userID : string) (pm : clients.Page) : St W (clients.ClientsPage * error) :=
  '(cp, err) <- clients_mw.svc_ListUserClients svc session userID pm ;;
  if_err err return_ ret (cp, err) ;;
  err <- Publish publisher listByUserStream (listUserClientEvent userID pm session reqID) ;;
  if_err err return_ ret (cp, err) ;;
  ret (cp, None).
Definition Delete (session : authn.Session) (id : string) : St W error :=
  err <- clients_mw.svc_Delete svc session id ;;
  if_err err return_ ret err ;;
  err <- Publish publisher removeStream (removeClientEvent id session reqID) ;;
  if_err err return_ ret err ;;
  ret None.
Definition SetParentGroup (session : authn.Session) (parentGroupID : string) (id : string) : St W error :=
  err <- clients_mw.svc_SetParentGroup svc session parentGroupID id ;;
  if_err err return_ ret err ;;
  err <- Publish publisher setParentStream (setParentGroupEvent id parentGroupID session reqID) ;;
  if_err err return_ ret err ;;
  ret None.
Definition RemoveParentGroup (session : authn.Session) (id : string) : St W error :=
  err <- clients_mw.svc_RemoveParentGroup svc session id ;;
  if_err err return_ ret err ;;
  err <- Publish publisher removeParentStream (removeParentGroupEvent id session reqID) ;;
  if_err err return_ ret err ;;
  ret None.
Definition NewEventStoreMiddleware : clients_mw.Service W * rolemgr.RoleManager W :=
  ({| clients_mw.svc_CreateClients := CreateClients;
     clients_mw.svc_View := View;
     clients_mw.svc_ListClients := ListClients;
     clients_mw.svc_ListUserClients := ListUserClients;
     clients_mw.svc_Delete := Delete;
     clients_mw.svc_SetParentGroup := SetParentGroup;
     clients_mw.svc_RemoveParentGroup := RemoveParentGroup;
     clients_mw.svc_Update := Update;
     clients_mw.svc_UpdateTags := UpdateTags;
     clients_mw.svc_UpdateSecret := UpdateSecret;
     clients_mw.svc_Enable := Enable;
     clients_mw.svc_Disable := Disable |},
   role_store.NewRoleManagerEventStore publisher rsvc clientPrefix reqID).
End store.
End client_store.

(** ** src/pkg/clients/events/consumer *)
Module client_consumer.
Import events role_consumer.
Definition errDecodeCreateClientEvent : err := Sentinel "cconsumer.errDecodeCreateClientEvent" CustomError "failed to decode client create event".
Definition errDecodeUpdateClientEvent : err := Sentinel "cconsumer.errDecodeUpdateClientEvent" CustomError "failed to decode client update event".
Definition errDecodeChangeStatusClientEvent : err := Sentinel "cconsumer.errDecodeChangeStatusClientEvent" CustomError "failed to decode client change status event".
Definition errDecodeRemoveClientEvent : err := Sentinel "cconsumer.errDecodeRemoveClientEvent" CustomError "failed to decode client remove event".
Definition errDecodeSetParentGroupEvent : err := Sentinel "cconsumer.errDecodeSetParentGroupEvent" CustomError "failed to decode client set parent event".
Definition errDecodeRemoveParentGroupEvent : err := Sentinel "cconsumer.errDecodeRemoveParentGroupEvent" CustomError "failed to decode client remove parent event".
Definition errID : err := Sentinel "cconsumer.errID" CustomError "missing or invalid 'id'".
Definition errDomain : err := Sentinel "cconsumer.errDomain" CustomError "missing or invalid 'domain'".
Definition errStatus : err := Sentinel "cconsumer.errStatus" CustomError "missing or invalid 'status'".
Definition errTags : err := Sentinel "cconsumer.errTags" CustomError "invalid 'tags'".
Definition errConvertStatus : err := Sentinel "cconsumer.errConvertStatus" CustomError "failed to convert status".
Definition errCreatedAt : err := Sentinel "cconsumer.errCreatedAt" CustomError "failed to parse 'created_at' time".
Definition errUpdatedAt : err := Sentinel "cconsumer.errUpdatedAt" CustomError "failed to parse 'updated_at' time".
Definition stream := "events.supermq.client.*".
Definition create := "client.create".
Definition update := "client.update".
Definition updateTags := "client.update_tags".
Definition enable := "client.enable".
Definition disable := "client.disable".
Definition remove := "client.remove".
Definition setParentGroup := "client.set_parent".
Definition removeParentGroup := "client.remove_parent".
Definition errNoOperationKey : err := Sentinel "cconsumer.errNoOperationKey" CustomError "operation key is not found in event message".
Definition errCreateClientEvent : err := Sentinel "cconsumer.errCreateClientEvent" CustomError "failed to consume client create event".
Definition errUpdateClientEvent : err := Sentinel "cconsumer.errUpdateClientEvent" CustomError "failed to consume client update event".
Definition errChangeStatusClientEvent : err := Sentinel "cconsumer.errChangeStatusClientEvent" CustomError "failed to consume client change status event".
Definition errRemoveClientEvent : err := Sentinel "cconsumer.errRemoveClientEvent" CustomError "failed to consume client remove event".
Definition errSetParentGroupEvent : err := Sentinel "cconsumer.errSetParentGroupEvent" CustomError "failed to consume client add parent group event".
Definition errRemoveParentGroupEvent : err := Sentinel "cconsumer.errRemoveParentGroupEvent" CustomError "failed to consume client remove parent group event".

(** *** decode.go *)
Definition ToClient (data : data) : clients.Client * error :=
  let c := clients.Client0 in
  x <-ok as_string data "id" or_return (clients.Client0, Some errID) ;;
  let c := c <| clients.ID := x |> in
  x <-ok as_string data "domain" or_return (clients.Client0, Some errDomain) ;;
  let c := c <| clients.Domain := x |> in
  stat <-ok as_string data "status" or_return (clients.Client0, Some errStatus) ;;
  let (st, err) := clients.ToStatus stat in
  if_err err return_ (clients.Client0, Some errConvertStatus) ;;
  let c := c <| clients.Status := st |> in
  cat <-ok as_string data "created_at" or_return (clients.Client0, Some errCreatedAt) ;;
  let (ct, err) := Parse cat in
  if_err err return_ (clients.Client0, WrapE errCreatedAt err) ;;
  let c := c <| clients.CreatedAt := ct |> in
  let c := set_opt (set_field clients.Name) (as_string data "name") c in
  let c := set_opt (set_field clients.Identity) (as_string data "identity") c in
  let c := set_opt (set_field clients.ParentGroup) (as_string data "parent_group_id") c in
  let '(l, err) := opt_strings errTags (as_array data "tags") in
  if_err err return_ (clients.Client0, err) ;;
  let c := set_opt (set_field clients.Tags) l c in
  let c := set_opt (set_field clients.Metadata_) (Some <$> as_object data "metadata") c in
  let c := set_opt (set_field clients.PrivateMetadata) (Some <$> as_object data "private_metadata") c in
  let c := set_opt (set_field clients.UpdatedBy) (as_string data "updated_by") c in
  let '(ut, err) := as_time data "updated_at" in
  if_err err return_ (clients.Client0, WrapE errUpdatedAt err) ;;
  let c := set_opt (set_field clients.UpdatedAt) ut c in
  (c, None).
Definition decodeCreateClientEvent (data : data) : clients.Client * list roles.RoleProvision * error :=
  let '(c, err) := ToClient data in
  if_err err return_ (clients.Client0, [], WrapE errDecodeCreateClientEvent err) ;;
  irps <-ok as_array data "roles_provisioned" or_return
    (clients.Client0, [], WrapE errDecodeCreateClientEvent (Some (New "missing or invalid 'roles_provisioned'"))) ;;
  let '(rps, err) := ToRoleProvisions irps in
  if_err err return_ (clients.Client0, [], WrapE errDecodeCreateClientEvent err) ;;
  (c, rps, None).
Definition decodeUpdateClientEvent (data : data) : clients.Client * error :=
  let '(c, err) := ToClient data in
  if_err err return_ (clients.Client0, WrapE errDecodeUpdateClientEvent err) ;;
  (c, None).
Definition ToClientStatus (data : data) : clients.Client * error :=
  let c := clients.Client0 in
  x <-ok as_string data "id" or_return (clients.Client0, Some errID) ;;
  let c := c <| clients.ID := x |> in
  stat <-ok as_string data "status" or_return (clients.Client0, Some errStatus) ;;
  let (st, err) := clients.ToStatus stat in
  if_err err return_ (clients.Client0, WrapE errConvertStatus err) ;;
  let c := c <| clients.Status := st |> in
  let '(ut, err) := as_time data "updated_at" in
  if_err err return_ (clients.Client0, WrapE errUpdatedAt err) ;;
  let c := set_opt (set_field clients.UpdatedAt) ut c in
  let c := set_opt (set_field clients.UpdatedBy) (as_string data "updated_by") c in
  (c, None).
Definition decodeChangeStatusClientEvent (data : data) : clients.Client * error :=
  let '(c, err) := ToClientStatus data in
  if_err err return_ (clients.Client0, WrapE errDecodeChangeStatusClientEvent err) ;;
  (c, None).
Definition decodeRemoveClientEvent (data : data) : clients.Client * error :=
  let c := clients.Client0 in
  x <-ok as_string data "id" or_return (clients.Client0, WrapE errDecodeRemoveClientEvent (Some errID)) ;;
  let c := c <| clients.ID := x |> in
  (c, None).
Definition decodeSetParentGroupEvent (data : data) : clients.Client * error :=
  let c := clients.Client0 in
  x <-ok as_string data "id" or_return (clients.Client0, WrapE errDecodeSetParentGroupEvent (Some errID)) ;;
  let c := c <| clients.ID := x |> in
  x <-ok as_string data "parent_group_id" or_return (clients.Client0, WrapE errDecodeSetParentGroupEvent (Some errID)) ;;
  let c := c <| clients.ParentGroup := x |> in
  (c, None).
Definition decodeRemoveParentGroupEvent (data : data) : clients.Client * error :=
  let c := clients.Client0 in
  x <-ok as_string data "id" or_return (clients.Client0, WrapE errDecodeRemoveParentGroupEvent (Some errID)) ;;
  let c := c <| clients.ID := x |> in
  (c, None).

(** *** streams.go *)
Section handler.
Context {W : Type} (repo : clients.Repository W).
Definition createClientHandler (data : data) : St W error :=
  let '(c, rps, err) := decodeCreateClientEvent data in
  if_err err return_ ret (WrapE errCreateClientEvent err) ;;
  '(_, err) <- clients.Save repo [c] ;;
  if_err err return_ ret (WrapE errCreateClientEvent err) ;;
  '(_, err) <- roles.AddRoles (clients.role_repo repo) rps ;;
  if_err err return_ ret (WrapE errCreateClientEvent err) ;;
  ret None.
Definition updateClientHandler (data : data) : St W error :=
  let '(c, err) := decodeUpdateClientEvent data in
  if_err err return_ ret (WrapE errUpdateClientEvent err) ;;
  '(_, err) <- clients.repo_Update repo c ;;
  if_err err return_ ret (WrapE errUpdateClientEvent err) ;;
  ret None.
Definition updateClientTagsHandler (data : data) : St W error :=
  let '(c, err) := decodeUpdateClientEvent data in
  if_err err return_ ret (WrapE errUpdateClientEvent err) ;;
  '(_, err) <- clients.repo_UpdateTags repo c ;;
  if_err err return_ ret (WrapE errUpdateClientEvent err) ;;
  ret None.
Definition changeStatusClientHandler (data : data) : St W error :=
  let '(c, err) := decodeChangeStatusClientEvent data in
  if_err err return_ ret (WrapE errChangeStatusClientEvent err) ;;
  '(_, err) <- clients.ChangeStatus repo c ;;
  if_err err return_ ret (WrapE errChangeStatusClientEvent err) ;;
  ret None.
Definition removeClientHandler (data : data) : St W error :=
  let '(c, err) := decodeRemoveClientEvent data in
  if_err err return_ ret (WrapE errRemoveClientEvent err) ;;
  err <- clients.repo_Delete repo [clients.ID c] ;;
  if_err err return_ ret (WrapE errRemoveClientEvent err) ;;
  ret None.
Definition setParentGroupHandler (data : data) : St W error :=
  let '(c, err) := decodeSetParentGroupEvent data in
  if_err err return_ ret (WrapE errSetParentGroupEvent err) ;;
  err <- clients.repo_SetParentGroup repo c ;;
  if_err err return_ ret (WrapE errSetParentGroupEvent err) ;;
  ret None.
Definition removeParentGroupHandler (data : data) : St W error :=
  let '(c, err) := decodeRemoveParentGroupEvent data in
  if_err err return_ ret (WrapE errRemoveParentGroupEvent err) ;;
  err <- clients.repo_RemoveParentGroup repo c ;;
  if_err err return_ ret (WrapE errRemoveParentGroupEvent err) ;;
  ret None.
Definition Handle (msg : data) : St W error :=
  match roles.map_lookup "operation" msg with
  | None => ret (Some errNoOperationKey)
  | Some (JString op) =>
      if (op =s create) then createClientHandler msg
      else if (op =s update) then updateClientHandler msg
      else if (op =s updateTags) then updateClientTagsHandler msg
      else if (op =s enable) || (op =s disable) then changeStatusClientHandler msg
      else if (op =s remove) then removeClientHandler msg
      else if (op =s setParentGroup) then setParentGroupHandler msg
      else if (op =s removeParentGroup) then removeParentGroupHandler msg
      else role_consumer.Handle "client" (clients.role_repo repo) op msg
  | Some _ => ret None
  end.
End handler.
End client_consumer.
