(* ===== verification/ChannelEvents.v ===== *)
(** * Channel events

    Sources: src/channels/events/events.go and streams.go, the event store of
    the channels service, and src/pkg/channels/events/consumer, which decodes
    its events for a service that keeps a copy of the channels table and of the
    connections. *)

From S2P Require Import Prelude GoStd GoTime Errors Policies Authn Roles Connections Channels Guards Events.

(** ** src/channels/events/events.go *)
Module channel_events.
Import events.
Definition channelPrefix := "channel.".
Definition channelCreate := channelPrefix +:+ "create".
Definition channelUpdate := channelPrefix +:+ "update".
Definition channelUpdateTags := channelPrefix +:+ "update_tags".
Definition channelEnable := channelPrefix +:+ "enable".
Definition channelDisable := channelPrefix +:+ "disable".
Definition channelRemove := channelPrefix +:+ "remove".
Definition channelView := channelPrefix +:+ "view".
Definition channelList := channelPrefix +:+ "list".
Definition channelListByUser := channelPrefix +:+ "list_by_user".
Definition channelConnect := channelPrefix +:+ "connect".
Definition channelDisconnect := channelPrefix +:+ "disconnect".
Definition channelSetParent := channelPrefix +:+ "set_parent".
Definition channelRemoveParent := channelPrefix +:+ "remove_parent".

Definition createChannelEvent (channel : channels.Channel) (rolesProvisioned : list roles.RoleProvision) (session : authn.Session) (requestID : string) : event :=
  let val := [ ("operation", AString channelCreate);
      ("id", AString (channels.ID channel));
      ("roles_provisioned", ARoles rolesProvisioned);
      ("route", AString (channels.Route channel));
      ("status", AString (channels.Status_String (channels.Status channel)));
      ("created_at", ATime (channels.CreatedAt channel));
      ("domain", AString (authn.DomainID session));
      ("user_id", AString (authn.UserID session));
      ("token_type", AString (authn.TokenType_String (authn.Type_ session)));
      ("super_admin", ABool (authn.SuperAdmin session));
      ("request_id", AString requestID)] in
  let val := put_if (channels.Name channel <>s "") "name" (AString (channels.Name channel)) val in
  let val := put_if (negb (is_empty (channels.Tags channel))) "tags" (AStrings (channels.Tags channel)) val in
  let val := put_if (negb (is_nil (channels.Metadata_ channel))) "metadata" (AMetadata (channels.Metadata_ channel)) val in
  val.
Definition updateChannelEvent (channel : channels.Channel) (session : authn.Session) (operation : string) (requestID : string) : event :=
  let val := [ ("operation", AString operation);
      ("updated_at", ATime (channels.UpdatedAt channel));
      ("updated_by", AString (channels.UpdatedBy channel));
      ("domain", AString (authn.DomainID session));
      ("user_id", AString (authn.UserID session));
      ("token_type", AString (authn.TokenType_String (authn.Type_ session)));
      ("super_admin", ABool (authn.SuperAdmin session));
      ("request_id", AString requestID)] in
  let val := put_if (channels.ID channel <>s "") "id" (AString (channels.ID channel)) val in
  let val := put_if (channels.Route channel <>s "") "route" (AString (channels.Route channel)) val in
  let val := put_if (channels.Name channel <>s "") "name" (AString (channels.Name channel)) val in
  let val := put_if (negb (is_empty (channels.Tags channel))) "tags" (AStrings (channels.Tags channel)) val in
  let val := put_if (negb (is_nil (channels.Metadata_ channel))) "metadata" (AMetadata (channels.Metadata_ channel)) val in
  let val := put_if (negb (IsZero (channels.CreatedAt channel))) "created_at" (ATime (channels.CreatedAt channel)) val in
  let val := put_if (channels.Status_String (channels.Status channel) <>s "") "status" (AString (channels.Status_String (channels.Status channel))) val in
  val.
Definition changeChannelStatusEvent (id : string) (operation : string) (status : string) (updatedAt : Time) (updatedBy : string) (session : authn.Session) (requestID : string) : event :=
  [ ("operation", AString operation);
    ("id", AString id);
    ("status", AString status);
    ("updated_at", ATime updatedAt);
    ("updated_by", AString updatedBy);
    ("domain", AString (authn.DomainID session));
    ("user_id", AString (authn.UserID session));
    ("token_type", AString (authn.TokenType_String (authn.Type_ session)));
    ("super_admin", ABool (authn.SuperAdmin session));
    ("request_id", AString requestID)].
Definition viewChannelEvent (channel : channels.Channel) (session : authn.Session) (requestID : string) : event :=
  let val := [ ("operation", AString channelView);
      ("id", AString (channels.ID channel));
      ("domain", AString (authn.DomainID session));
      ("user_id", AString (authn.UserID session));
      ("token_type", AString (authn.TokenType_String (authn.Type_ session)));
      ("super_admin", ABool (authn.SuperAdmin session));
      ("request_id", AString requestID)] in
  let val := put_if (channels.Name channel <>s "") "name" (AString (channels.Name channel)) val in
  let val := put_if (channels.Route channel <>s "") "route" (AString (channels.Route channel)) val in
  let val := put_if (negb (is_empty (channels.Tags channel))) "tags" (AStrings (channels.Tags channel)) val in
  let val := put_if (negb (is_nil (channels.Metadata_ channel))) "metadata" (AMetadata (channels.Metadata_ channel)) val in
  let val := put_if (negb (IsZero (channels.CreatedAt channel))) "created_at" (ATime (channels.CreatedAt channel)) val in
  let val := put_if (negb (IsZero (channels.UpdatedAt channel))) "updated_at" (ATime (channels.UpdatedAt channel)) val in
  let val := put_if (channels.UpdatedBy channel <>s "") "updated_by" (AString (channels.UpdatedBy channel)) val in
  let val := put_if (channels.Status_String (channels.Status channel) <>s "") "status" (AString (channels.Status_String (channels.Status channel))) val in
  val.
Definition listChannelEvent (pm : channels.Page) (session : authn.Session) (requestID : string) : event :=
  let val := [ ("operation", AString channelList);
      ("total", AUint (channels.pg_Total pm));
      ("offset", AUint (channels.pg_Offset pm));
      ("limit", AUint (channels.pg_Limit pm));
      ("domain", AString (authn.DomainID session));
      ("user_id", AString (authn.UserID session));
      ("token_type", AString (authn.TokenType_String (authn.Type_ session)));
      ("super_admin", ABool (authn.SuperAdmin session));
      ("request_id", AString requestID)] in
  let val := put_if (channels.pg_Name pm <>s "") "name" (AString (channels.pg_Name pm)) val in
  let val := put_if (channels.pg_Order pm <>s "") "order" (AString (channels.pg_Order pm)) val in
  let val := put_if (channels.pg_Dir pm <>s "") "dir" (AString (channels.pg_Dir pm)) val in
  let val := put_if (negb (is_nil (channels.pg_Metadata pm))) "metadata" (AMetadata (channels.pg_Metadata pm)) val in
  let val := put_if (negb (is_empty (channels.Elements (channels.pg_Tags pm)))) "tag" (AStrings (channels.Elements (channels.pg_Tags pm))) val in
  let val := put_if (channels.Status_String (channels.pg_Status pm) <>s "") "status" (AString (channels.Status_String (channels.pg_Status pm))) val in
  let val := put_if (negb (is_empty (channels.pg_IDs pm))) "ids" (AStrings (channels.pg_IDs pm)) val in
  val.
Definition listUserChannelsEvent (userID : string) (pm : channels.Page) (session : authn.Session) (requestID : string) : event :=
  let val := [ ("operation", AString channelListByUser);
      ("req_user_id", AString userID);
      ("total", AUint (channels.pg_Total pm));
      ("offset", AUint (channels.pg_Offset pm));
      ("limit", AUint (channels.pg_Limit pm));
      ("domain", AString (authn.DomainID session));
      ("user_id", AString (authn.UserID session));
      ("token_type", AString (authn.TokenType_String (authn.Type_ session)));
      ("super_admin", ABool (authn.SuperAdmin session));
      ("request_id", AString requestID)] in
  let val := put_if (channels.pg_Name pm <>s "") "name" (AString (channels.pg_Name pm)) val in
  let val := put_if (channels.pg_Order pm <>s "") "order" (AString (channels.pg_Order pm)) val in
  let val := put_if (channels.pg_Dir pm <>s "") "dir" (AString (channels.pg_Dir pm)) val in
  let val := put_if (negb (is_nil (channels.pg_Metadata pm))) "metadata" (AMetadata (channels.pg_Metadata pm)) val in
  let val := put_if (channels.pg_Domain pm <>s "") "domain" (AString (channels.pg_Domain pm)) val in
  let val := put_if (negb (is_empty (channels.Elements (channels.pg_Tags pm)))) "tag" (AStrings (channels.Elements (channels.pg_Tags pm))) val in
  let val := put_if (channels.Status_String (channels.pg_Status pm) <>s "") "status" (AString (channels.Status_String (channels.pg_Status pm))) val in
  let val := put_if (negb (is_empty (channels.pg_IDs pm))) "ids" (AStrings (channels.pg_IDs pm)) val in
  val.
Definition removeChannelEvent (id : string) (session : authn.Session) (requestID : string) : event :=
  [ ("operation", AString channelRemove);
    ("id", AString id);
    ("domain", AString (authn.DomainID session));
    ("user_id", AString (authn.UserID session));
    ("token_type", AString (authn.TokenType_String (authn.Type_ session)));
    ("super_admin", ABool (authn.SuperAdmin session));
    ("request_id", AString requestID)].
Definition connectEvent (chIDs : list string) (thIDs : list string) (types : list N) (session : authn.Session) (requestID : string) : event :=
  [ ("operation", AString channelConnect);
    ("client_ids", AStrings thIDs);
    ("channel_ids", AStrings chIDs);
    ("types", ATypes types);
    ("domain", AString (authn.DomainID session));
    ("user_id", AString (authn.UserID session));
    ("token_type", AString (authn.TokenType_String (authn.Type_ session)));
    ("super_admin", ABool (authn.SuperAdmin session));
    ("request_id", AString requestID)].
Definition disconnectEvent (chIDs : list string) (thIDs : list string) (types : list N) (session : authn.Session) (requestID : string) : event :=
  [ ("operation", AString channelDisconnect);
    ("client_ids", AStrings thIDs);
    ("channel_ids", AStrings chIDs);
    ("types", ATypes types);
    ("domain", AString (authn.DomainID session));
    ("user_id", AString (authn.UserID session));
    ("token_type", AString (authn.TokenType_String (authn.Type_ session)));
    ("super_admin", ABool (authn.SuperAdmin session));
    ("request_id", AString requestID)].
Definition setParentGroupEvent (id : string) (parentGroupID : string) (session : authn.Session) (requestID : string) : event :=
  [ ("operation", AString channelSetParent);
    ("id", AString id);
    ("parent_group_id", AString parentGroupID);
    ("domain", AString (authn.DomainID session));
    ("user_id", AString (authn.UserID session));
    ("token_type", AString (authn.TokenType_String (authn.Type_ session)));
    ("super_admin", ABool (authn.SuperAdmin session));
    ("request_id", AString requestID)].
Definition removeParentGroupEvent (id : string) (session : authn.Session) (requestID : string) : event :=
  [ ("operation", AString channelRemoveParent);
    ("id", AString id);
    ("domain", AString (authn.DomainID session));
    ("user_id", AString (authn.UserID session));
    ("token_type", AString (authn.TokenType_String (authn.Type_ session)));
    ("super_admin", ABool (authn.SuperAdmin session));
    ("request_id", AString requestID)].
End channel_events.

(** ** src/channels/events/streams.go *)
Module channel_store.
Import events channel_events.
Definition supermqPrefix := "supermq.".
Definition createStream := supermqPrefix +:+ channelCreate.
Definition updateStream := supermqPrefix +:+ channelUpdate.
Definition updateTagsStream := supermqPrefix +:+ channelUpdateTags.
Definition enableStream := supermqPrefix +:+ channelEnable.
Definition disableStream := supermqPrefix +:+ channelDisable.
Definition removeStream := supermqPrefix +:+ channelRemove.
Definition viewStream := supermqPrefix +:+ channelView.
Definition listStream := supermqPrefix +:+ channelList.
Definition listByUserStream := supermqPrefix +:+ channelListByUser.
Definition connectStream := supermqPrefix +:+ channelConnect.
Definition disconnectStream := supermqPrefix +:+ channelDisconnect.
Definition setParentStream := supermqPrefix +:+ channelSetParent.
Definition removeParentStream := supermqPrefix +:+ channelRemoveParent.
Section store.
Context {W : Type} (publisher : Publisher W) (svc : channels_mw.Service W) (rsvc : rolemgr.RoleManager W) (reqID : string).
(** The loop of CreateChannels: an event for each channel. *)
Fixpoint publishCreated (session : authn.Session) (rps : list roles.RoleProvision) (chs : list channels.Channel) : St W error :=
  match chs with
  | [] => ret None
  | ch :: chs =>
      err <- Publish publisher createStream (createChannelEvent ch rps session reqID) ;;
      if_err err return_ ret err ;;
      publishCreated session rps chs
  end.
Definition CreateChannels (session : authn.Session) (chs : list channels.Channel)
    : St W (list channels.Channel * list roles.RoleProvision * error) :=
  '(chs, rps, err) <- channels_mw.svc_CreateChannels svc session chs ;;
  if_err err return_ ret ((chs, rps), err) ;;
  err <- publishCreated session rps chs ;;
  if_err err return_ ret ((chs, rps), err) ;;
  ret ((chs, rps), None).
Definition changeStatus (session : authn.Session) (operation stream : string) (ch : channels.Channel) : St W (channels.Channel * error) :=
  err <- Publish publisher stream (changeChannelStatusEvent (channels.ID ch) operation (channels.Status_String (channels.Status ch))
           (channels.UpdatedAt ch) (channels.UpdatedBy ch) session reqID) ;;
  if_err err return_ ret (ch, err) ;;
  ret (ch, None).
Definition EnableChannel (session : authn.Session) (id : string) : St W (channels.Channel * error) :=
  '(ch, err) <- channels_mw.svc_EnableChannel svc session id ;;
  if_err err return_ ret (ch, err) ;;
  changeStatus session channelEnable enableStream ch.
Definition DisableChannel (session : authn.Session) (id : string) : St W (channels.Channel * error) :=
  '(ch, err) <- channels_mw.svc_DisableChannel svc session id ;;
  if_err err return_ ret (ch, err) ;;
  changeStatus session channelDisable disableStream ch.
Definition UpdateChannel (session : authn.Session) (ch : channels.Channel) : St W (channels.Channel * error) :=
  '(ch, err) <- channels_mw.svc_UpdateChannel svc session ch ;;
  if_err err return_ ret (ch, err) ;;
  err <- Publish publisher updateStream (updateChannelEvent ch session channelUpdate reqID) ;;
  if_err err return_ ret (ch, err) ;;
  ret (ch, None).
Definition UpdateChannelTags (session : authn.Session) (ch : channels.Channel) : St W (channels.Channel * error) :=
  '(ch, err) <- channels_mw.svc_UpdateChannelTags svc session ch ;;
  if_err err return_ ret (ch, err) ;;
  err <- Publish publisher updateTagsStream (updateChannelEvent ch session channelUpdateTags reqID) ;;
  if_err err return_ ret (ch, err) ;;
  ret (ch, None).
Definition ViewChannel (session : authn.Session) (id : string) (withRoles : bool) : St W (channels.Channel * error) :=
  '(chann, err) <- channels_mw.svc_ViewChannel svc session id withRoles ;;
  if_err err return_ ret (chann, err) ;;
  err <- Publish publisher viewStream (viewChannelEvent chann session reqID) ;;
  if_err err return_ ret (chann, err) ;;
  ret (chann, None).
Definition ListChannels (session : authn.Session) (pm : channels.Page) : St W (channels.ChannelsPage * error) :=
  '(cp, err) <- channels_mw.svc_ListChannels svc session pm ;;
  if_err err return_ ret (cp, err) ;;
  err <- Publish publisher listStream (listChannelEvent pm session reqID) ;;
  if_err err return_ ret (cp, err) ;;
  ret (cp, None).
Definition ListUserChannels (session : authn.Session) (userID : string) (pm : channels.Page) : St W (channels.ChannelsPage * error) :=
  '(cp, err) <- channels_mw.svc_ListUserChannels svc session userID pm ;;
  if_err err return_ ret (cp, err) ;;
  err <- Publish publisher listByUserStream (listUserChannelsEvent userID pm session reqID) ;;
  if_err err return_ ret (cp, err) ;;
  ret (cp, None).
Definition RemoveChannel (session : authn.Session) (id : string) : St W error :=
  err <- channels_mw.svc_RemoveChannel svc session id ;;
  if_err err return_ ret err ;;
  err <- Publish publisher removeStream (removeChannelEvent id session reqID) ;;
  if_err err return_ ret err ;;
  ret None.
Definition Connect (session : authn.Session) (chIDs : list string) (thIDs : list string) (connTypes : list N) : St W error :=
  err <- channels_mw.svc_Connect svc session chIDs thIDs connTypes ;;
  if_err err return_ ret err ;;
  err <- Publish publisher connectStream (connectEvent chIDs thIDs connTypes session reqID) ;;
  if_err err return_ ret err ;;
  ret None.
Definition Disconnect (session : authn.Session) (chIDs : list string) (thIDs : list string) (connTypes : list N) : St W error :=
  err <- channels_mw.svc_Disconnect svc session chIDs thIDs connTypes ;;
  if_err err return_ ret err ;;
  err <- Publish publisher disconnectStream (disconnectEvent chIDs thIDs connTypes session reqID) ;;
  if_err err return_ ret err ;;
  ret None.
Definition SetParentGroup (session : authn.Session) (parentGroupID : string) (id : string) : St W error :=
  err <- channels_mw.svc_SetParentGroup svc session parentGroupID id ;;
  if_err err return_ ret err ;;
  err <- Publish publisher setParentStream (setParentGroupEvent id parentGroupID session reqID) ;;
  if_err err return_ ret err ;;
  ret None.
Definition RemoveParentGroup (session : authn.Session) (id : string) : St W error :=
  err <- channels_mw.svc_RemoveParentGroup svc session id ;;
  if_err err return_ ret err ;;
  err <- Publish publisher removeParentStream (removeParentGroupEvent id session reqID) ;;
  if_err err return_ ret err ;;
  ret None.
Definition NewEventStoreMiddleware : channels_mw.Service W * rolemgr.RoleManager W :=
  ({| channels_mw.svc_CreateChannels := CreateChannels;
     channels_mw.svc_UpdateChannel := UpdateChannel;
     channels_mw.svc_UpdateChannelTags := UpdateChannelTags;
     channels_mw.svc_ViewChannel := ViewChannel;
     channels_mw.svc_ListChannels := ListChannels;
     channels_mw.svc_ListUserChannels := ListUserChannels;
     channels_mw.svc_RemoveChannel := RemoveChannel;
     channels_mw.svc_Connect := Connect;
     channels_mw.svc_Disconnect := Disconnect;
     channels_mw.svc_SetParentGroup := SetParentGroup;
     channels_mw.svc_RemoveParentGroup := RemoveParentGroup;
     channels_mw.svc_EnableChannel := EnableChannel;
     channels_mw.svc_DisableChannel := DisableChannel |},
   role_store.NewRoleManagerEventStore publisher rsvc channelPrefix reqID).
End store.
End channel_store.

(** ** src/pkg/channels/events/consumer *)
Module channel_consumer.
Import events role_consumer.
Definition errDecodeCreateChannelEvent : err := Sentinel "chconsumer.errDecodeCreateChannelEvent" CustomError "failed to decode channel create event".
Definition errDecodeUpdateChannelEvent : err := Sentinel "chconsumer.errDecodeUpdateChannelEvent" CustomError "failed to decode channel update event".
Definition errDecodeChangeStatusChannelEvent : err := Sentinel "chconsumer.errDecodeChangeStatusChannelEvent" CustomError "failed to decode channel change status event".
Definition errDecodeRemoveChannelEvent : err := Sentinel "chconsumer.errDecodeRemoveChannelEvent" CustomError "failed to decode channel remove event".
Definition errDecodeSetParentGroupEvent : err := Sentinel "chconsumer.errDecodeSetParentGroupEvent" CustomError "failed to decode channel set parent event".
Definition errDecodeRemoveParentGroupEvent : err := Sentinel "chconsumer.errDecodeRemoveParentGroupEvent" CustomError "failed to decode channel remove parent event".
Definition errDecodeConnectEvent : err := Sentinel "chconsumer.errDecodeConnectEvent" CustomError "failed to decode channel connect event".
Definition errDeocodeDisconnectEvent : err := Sentinel "chconsumer.errDeocodeDisconnectEvent" CustomError "failed to decode channel disconnect event".
Definition errID : err := Sentinel "chconsumer.errID" CustomError "missing or invalid 'id'".
Definition errDomain : err := Sentinel "chconsumer.errDomain" CustomError "missing or invalid 'domain'".
Definition errStatus : err := Sentinel "chconsumer.errStatus" CustomError "missing or invalid 'status'".
Definition errTags : err := Sentinel "chconsumer.errTags" CustomError "invalid 'tags'".
Definition errConvertStatus : err := Sentinel "chconsumer.errConvertStatus" CustomError "failed to convert status".
Definition errChannelIDs : err := Sentinel "chconsumer.errChannelIDs" CustomError "missing or invalid 'channel_ids' in connection".
Definition errClientIDs : err := Sentinel "chconsumer.errClientIDs" CustomError "missing or invalid 'client_ids' in connection".
Definition errConnType : err := Sentinel "chconsumer.errConnType" CustomError "missing or invalid 'type' in connection".
Definition errCreatedAt : err := Sentinel "chconsumer.errCreatedAt" CustomError "failed to parse 'created_at' time".
Definition errUpdatedAt : err := Sentinel "chconsumer.errUpdatedAt" CustomError "failed to parse 'updated_at' time".
Definition stream := "events.supermq.channel.*".
Definition create := "channel.create".
Definition update := "channel.update".
Definition updateTags := "channel.update_tags".
Definition enable := "channel.enable".
Definition disable := "channel.disable".
Definition remove := "channel.remove".
Definition connect := "channel.connect".
Definition disconnect := "channel.disconnect".
Definition setParentGroup := "channel.set_parent".
Definition removeParentGroup := "channel.remove_parent".
Definition errNoOperationKey : err := Sentinel "chconsumer.errNoOperationKey" CustomError "operation key is not found in event message".
Definition errCreateChannelEvent : err := Sentinel "chconsumer.errCreateChannelEvent" CustomError "failed to consume channel create event".
Definition errUpdateChannelEvent : err := Sentinel "chconsumer.errUpdateChannelEvent" CustomError "failed to consume channel update event".
Definition errChangeStatusChannelEvent : err := Sentinel "chconsumer.errChangeStatusChannelEvent" CustomError "failed to consume channel change status event".
Definition errRemoveChannelEvent : err := Sentinel "chconsumer.errRemoveChannelEvent" CustomError "failed to consume channel remove event".
Definition errConnectEvent : err := Sentinel "chconsumer.errConnectEvent" CustomError "failed to consume channel connect event".
Definition errDisconnectEvent : err := Sentinel "chconsumer.errDisconnectEvent" CustomError "failed to consume channel disconnect event".
Definition errSetParentGroupEvent : err := Sentinel "chconsumer.errSetParentGroupEvent" CustomError "failed to consume channel add parent group event".
Definition errRemoveParentGroupEvent : err := Sentinel "chconsumer.errRemoveParentGroupEvent" CustomError "failed to consume channel remove parent group event".

(** *** decode.go *)
Definition ToChannel (data : data) : channels.Channel * error :=
  let c := channels.Channel0 in
  x <-ok as_string data "id" or_return (channels.Channel0, Some errID) ;;
  let c := c <| channels.ID := x |> in
  x <-ok as_string data "domain" or_return (channels.Channel0, Some errDomain) ;;
  let c := c <| channels.Domain := x |> in
  stat <-ok as_string data "status" or_return (channels.Channel0, Some errStatus) ;;
  let (st, err) := channels.ToStatus stat in
  if_err err return_ (channels.Channel0, Some errConvertStatus) ;;
  let c := c <| channels.Status := st |> in
  cat <-ok as_string data "created_at" or_return (channels.Channel0, Some errCreatedAt) ;;
  let (ct, err) := Parse cat in
  if_err err return_ (channels.Channel0, WrapE errCreatedAt err) ;;
  let c := c <| channels.CreatedAt := ct |> in
  let c := set_opt (set_field channels.Name) (as_string data "name") c in
  let c := set_opt (set_field channels.ParentGroup) (as_string data "parent_group_id") c in
  let '(l, err) := opt_strings errTags (as_array data "tags") in
  if_err err return_ (channels.Channel0, err) ;;
  let c := set_opt (set_field channels.Tags) l c in
  let c := set_opt (set_field channels.Metadata_) (Some <$> as_object data "metadata") c in
  let c := set_opt (set_field channels.UpdatedBy) (as_string data "updated_by") c in
  let '(ut, err) := as_time data "updated_at" in
  if_err err return_ (channels.Channel0, WrapE errUpdatedAt err) ;;
  let c := set_opt (set_field channels.UpdatedAt) ut c in
  (c, None).
(** The loop over the types of ToConnections. *)
Fixpoint parseTypes (typs : list string) : list N * error :=
  match typs with
  | [] => ([], None)
  | typ :: typs =>
      let '(connType, err) := connections.ParseConnType typ in
      if_err err return_ ([], WrapE errConnType err) ;;
      let '(connTypes, err) := parseTypes typs in
      if_err err return_ ([], err) ;;
      (connType :: connTypes, None)
  end.
Definition ToConnections (data : data) : list channels.Connection * error :=
  domain <-ok as_string data "domain" or_return ([], Some errDomain) ;;
  ityp <-ok as_array data "types" or_return ([], Some errConnType) ;;
  let '(typs, err) := ToStrings ityp in
  if_err err return_ ([], WrapE errConnType err) ;;
  let '(connTypes, err) := parseTypes typs in
  if_err err return_ ([], err) ;;
  ichanIDs <-ok as_array data "channel_ids" or_return ([], Some errChannelIDs) ;;
  let '(channelIDs, err) := ToStrings ichanIDs in
  if_err err return_ ([], WrapE errChannelIDs err) ;;
  iclIDs <-ok as_array data "client_ids" or_return ([], Some errClientIDs) ;;
  let '(clientIDs, err) := ToStrings iclIDs in
  if_err err return_ ([], WrapE errClientIDs err) ;;
  (flat_map (fun chanID => flat_map (fun clientID => map (fun connType =>
     {| channels.ChannelID := chanID; channels.ClientID := clientID; channels.Type_ := connType; channels.DomainID := domain |})
     connTypes) clientIDs) channelIDs, None).
Definition decodeCreateChannelEvent (data : data) : channels.Channel * list roles.RoleProvision * error :=
  let '(c, err) := ToChannel data in
  if_err err return_ (channels.Channel0, [], WrapE errDecodeCreateChannelEvent err) ;;
  irps <-ok as_array data "roles_provisioned" or_return
    (channels.Channel0, [], WrapE errDecodeCreateChannelEvent (Some (New "missing or invalid 'roles_provisioned'"))) ;;
  let '(rps, err) := ToRoleProvisions irps in
  if_err err return_ (channels.Channel0, [], WrapE errDecodeCreateChannelEvent err) ;;
  (c, rps, None).
Definition decodeUpdateChannelEvent (data : data) : channels.Channel * error :=
  let '(c, err) := ToChannel data in
  if_err err return_ (channels.Channel0, WrapE errDecodeUpdateChannelEvent err) ;;
  (c, None).
Definition ToChannelStatus (data : data) : channels.Channel * error :=
  let c := channels.Channel0 in
  x <-ok as_string data "id" or_return (channels.Channel0, Some errID) ;;
  let c := c <| channels.ID := x |> in
  stat <-ok as_string data "status" or_return (channels.Channel0, Some errStatus) ;;
  let (st, err) := channels.ToStatus stat in
  if_err err return_ (channels.Channel0, WrapE errConvertStatus err) ;;
  let c := c <| channels.Status := st |> in
  let '(ut, err) := as_time data "updated_at" in
  if_err err return_ (channels.Channel0, WrapE errUpdatedAt err) ;;
  let c := set_opt (set_field channels.UpdatedAt) ut c in
  let c := set_opt (set_field channels.UpdatedBy) (as_string data "updated_by") c in
  (c, None).
Definition decodeChangeStatusChannelEvent (data : data) : channels.Channel * error :=
  let '(c, err) := ToChannelStatus data in
  if_err err return_ (channels.Channel0, WrapE errDecodeChangeStatusChannelEvent err) ;;
  (c, None).
Definition decodeRemoveChannelEvent (data : data) : channels.Channel * error :=
  let c := channels.Channel0 in
  x <-ok as_string data "id" or_return (channels.Channel0, WrapE errDecodeRemoveChannelEvent (Some errID)) ;;
  let c := c <| channels.ID := x |> in
  (c, None).
Definition decodeConnectEvent (data : data) : list channels.Connection * error :=
  let '(conns, err) := ToConnections data in
  if_err err return_ ([], WrapE errDecodeConnectEvent err) ;;
  (conns, None).
Definition decodeDisconnectEvent (data : data) : list channels.Connection * error :=
  let '(conns, err) := ToConnections data in
  if_err err return_ ([], WrapE errDeocodeDisconnectEvent err) ;;
  (conns, None).
Definition decodeSetParentGroupEvent (data : data) : channels.Channel * error :=
  let c := channels.Channel0 in
  x <-ok as_string data "id" or_return (channels.Channel0, WrapE errDecodeSetParentGroupEvent (Some errID)) ;;
  let c := c <| channels.ID := x |> in
  x <-ok as_string data "parent_group_id" or_return (channels.Channel0, WrapE errDecodeSetParentGroupEvent (Some errID)) ;;
  let c := c <| channels.ParentGroup := x |> in
  (c, None).
Definition decodeRemoveParentGroupEvent (data : data) : channels.Channel * error :=
  let c := channels.Channel0 in
  x <-ok as_string data "id" or_return (channels.Channel0, WrapE errDecodeRemoveParentGroupEvent (Some errID)) ;;
  let c := c <| channels.ID := x |> in
  (c, None).

(** *** streams.go *)
Section handler.
Context {W : Type} (repo : channels.Repository W).
Definition createChannelHandler (data : data) : St W error :=
  let '(c, rps, err) := decodeCreateChannelEvent data in
  if_err err return_ ret (WrapE errCreateChannelEvent err) ;;
  '(_, err) <- channels.Save repo [c] ;;
  if_err err return_ ret (WrapE errCreateChannelEvent err) ;;
  '(_, err) <- roles.AddRoles (channels.role_repo repo) rps ;;
  if_err err return_ ret (WrapE errCreateChannelEvent err) ;;
  ret None.
Definition updateChannelHandler (data : data) : St W error :=
  let '(c, err) := decodeUpdateChannelEvent data in
  if_err err return_ ret (WrapE errUpdateChannelEvent err) ;;
  '(_, err) <- channels.repo_Update repo c ;;
  if_err err return_ ret (WrapE errUpdateChannelEvent err) ;;
  ret None.
Definition updateChannelTagsHandler (data : data) : St W error :=
  let '(c, err) := decodeUpdateChannelEvent data in
  if_err err return_ ret (WrapE errUpdateChannelEvent err) ;;
  '(_, err) <- channels.repo_UpdateTags repo c ;;
  if_err err return_ ret (WrapE errUpdateChannelEvent err) ;;
  ret None.
Definition changeStatusChannelHandler (data : data) : St W error :=
  let '(c, err) := decodeChangeStatusChannelEvent data in
  if_err err return_ ret (WrapE errChangeStatusChannelEvent err) ;;
  '(_, err) <- channels.ChangeStatus repo c ;;
  if_err err return_ ret (WrapE errChangeStatusChannelEvent err) ;;
  ret None.
Definition removeChannelHandler (data : data) : St W error :=
  let '(c, err) := decodeRemoveChannelEvent data in
  if_err err return_ ret (WrapE errRemoveChannelEvent err) ;;
  err <- channels.repo_Remove repo [channels.ID c] ;;
  if_err err return_ ret (WrapE errRemoveChannelEvent err) ;;
  ret None.
Definition connectChannelHandler (data : data) : St W error :=
  let '(c, err) := decodeConnectEvent data in
  if_err err return_ ret (WrapE errConnectEvent err) ;;
  err <- channels.repo_AddConnections repo c ;;
  if_err err return_ ret (WrapE errConnectEvent err) ;;
  ret None.
Definition disconnectChannelHandler (data : data) : St W error :=
  let '(c, err) := decodeDisconnectEvent data in
  if_err err return_ ret (WrapE errDisconnectEvent err) ;;
  err <- channels.repo_RemoveConnections repo c ;;
  if_err err return_ ret (WrapE errDisconnectEvent err) ;;
  ret None.
Definition setParentGroupHandler (data : data) : St W error :=
  let '(c, err) := decodeSetParentGroupEvent data in
  if_err err return_ ret (WrapE errSetParentGroupEvent err) ;;
  err <- channels.repo_SetParentGroup repo c ;;
  if_err err return_ ret (WrapE errSetParentGroupEvent err) ;;
  ret None.
Definition removeParentGroupHandler (data : data) : St W error :=
  let '(c, err) := decodeRemoveParentGroupEvent data in
  if_err err return_ ret (WrapE errRemoveParentGroupEvent err) ;;
  err <- channels.repo_RemoveParentGroup repo c ;;
  if_err err return_ ret (WrapE errRemoveParentGroupEvent err) ;;
  ret None.
Definition Handle (msg : data) : St W error :=
  match roles.map_lookup "operation" msg with
  | None => ret (Some errNoOperationKey)
  | Some (JString op) =>
      if (op =s create) then createChannelHandler msg
      else if (op =s update) then updateChannelHandler msg
      else if (op =s updateTags) then updateChannelTagsHandler msg
      else if (op =s enable) || (op =s disable) then changeStatusChannelHandler msg
      else if (op =s remove) then removeChannelHandler msg
      else if (op =s connect) then connectChannelHandler msg
      else if (op =s disconnect) then disconnectChannelHandler msg
      else if (op =s setParentGroup) then setParentGroupHandler msg
      else if (op =s removeParentGroup) then removeParentGroupHandler msg
      else role_consumer.Handle "channel" (channels.role_repo repo) op msg
  | Some _ => ret None
  end.
End handler.
End channel_consumer.

(** ** Connections over the events *)
Section connections.
Import events channel_events role_consumer channel_consumer.
Definition product (domain : string) (chIDs thIDs : list string) (types : list N) : list channels.Connection :=
  flat_map (fun ch => flat_map (fun th => map (fun ty =>
    {| channels.ChannelID := ch; channels.ClientID := th; channels.Type_ := ty; channels.DomainID := domain |}) types) thIDs) chIDs.

Lemma parseTypes_String types : Forall (fun c => connections.CheckConnType c = None) types ->
  parseTypes (map connections.ConnType_String types) = (types, None).
Proof.
  induction types as [|c types IH]; [done|]. intros [Hc Ht]%Forall_cons. simpl.
  destruct (ConnType_roundtrip c "") as [H _]. rewrite (proj1 (H Hc)). by rewrite IH.
Qed.

Lemma ToConnections_marshal m d domain chIDs thIDs types : marshal_map m = Some d ->
  chIDs <> [] -> thIDs <> [] -> types <> [] -> Forall (fun c => connections.CheckConnType c = None) types ->
  Forall (fun kv => roles.map_lookup kv.1 m = Some kv.2)
    [("domain", AString domain); ("types", ATypes types); ("channel_ids", AStrings chIDs); ("client_ids", AStrings thIDs)] ->
  ToConnections d = (product domain chIDs thIDs types, None).
Proof.
  intros Hm Hch Hth Hty Hok H. decompose_Forall. simpl in *. unfold ToConnections.
  rewrite (as_string_marshal _ _ _ Hm), (array_ne _ _ _ _ Hm H1 Hch), (array_ne _ _ _ _ Hm H2 Hth).
  rewrite (as_array_marshal _ _ _ Hm), H, H0. simpl. destruct types as [|ty types]; [done|].
  change (array_of (ATypes (ty :: types))) with (Some (map JString (map connections.ConnType_String (ty :: types)))).
  rewrite !ToStrings_strings. cbv beta iota. by rewrite parseTypes_String.
Qed.

(** A message about connections is every channel, every client and every type
    of the request, in the domain of the caller. *)
Lemma connections_consumed {V} (R : channels.Repository V) session chIDs thIDs types reqID t payload v (on : bool)
    (Hm : marshal_map (put "occurred_at" (AInt t)
       ((if on then connectEvent else disconnectEvent) chIDs thIDs types session reqID)) = Some payload)
    (Hch : chIDs <> []) (Hth : thIDs <> []) (Hty : types <> []) (Hok : Forall (fun c => connections.CheckConnType c = None) types) :
  Handle R payload v =
    (e <- (if on then channels.repo_AddConnections R else channels.repo_RemoveConnections R)
            (product (authn.DomainID session) chIDs thIDs types) ;;
     ret (from_option (fun x => WrapE (if on then errConnectEvent else errDisconnectEvent) (Some x)) None e)) v.
Proof.
  destruct (marshal_lookup _ _ "operation" Hm) as [Hop _].
  assert (Hp : ToConnections payload = (product (authn.DomainID session) chIDs thIDs types, None)).
  { eapply ToConnections_marshal; [exact Hm|done..|]. destruct on; repeat constructor. }
  unfold Handle. rewrite Hop. clear Hop Hm. destruct on; simpl.
  - unfold connectChannelHandler, decodeConnectEvent. rewrite Hp. unfold bind. by case_match; case_match.
  - unfold disconnectChannelHandler, decodeDisconnectEvent. rewrite Hp. unfold bind. by case_match; case_match.
Qed.
End connections.
