(* ===== verification/DomainEvents.v ===== *)
(** * Domain events

    Sources: src/domains/events/events.go and streams.go, the event store of
    the domains service, and src/pkg/domains/events/consumer, which the
    clients, channels and groups services run over a copy of the domains of
    their own. *)

From S2P Require Import Prelude GoStd GoTime Errors Policies Authn Roles Domains Guards Events.

(** ** src/domains/events/events.go *)
Module domain_events.
Import events.
Definition domainPrefix := "domain.".
Definition domainCreate := domainPrefix +:+ "create".
Definition domainRetrieve := domainPrefix +:+ "retrieve".
Definition domainUpdate := domainPrefix +:+ "update".
Definition domainEnable := domainPrefix +:+ "enable".
Definition domainDisable := domainPrefix +:+ "disable".
Definition domainFreeze := domainPrefix +:+ "freeze".
Definition domainList := domainPrefix +:+ "list".
Definition invitationPrefix := "invitation.".
Definition invitationSend := invitationPrefix +:+ "send".
Definition invitationAccept := invitationPrefix +:+ "accept".
Definition invitationReject := invitationPrefix +:+ "reject".
Definition invitationList := invitationPrefix +:+ "list".
Definition invitationListDomain := invitationPrefix +:+ "list_domain".
Definition invitationDelete := invitationPrefix +:+ "delete".

Definition createDomainEvent (domain : domains.Domain) (rolesProvisioned : list roles.RoleProvision) (session : authn.Session) (requestID : string) : event :=
  let val := [ ("operation", AString domainCreate);
      ("id", AString (domains.ID domain));
      ("route", AString (domains.Route domain));
      ("status", AString (domains.Status_String (domains.Status domain)));
      ("created_at", ATime (domains.CreatedAt domain));
      ("created_by", AString (domains.CreatedBy domain));
      ("roles_provisioned", ARoles rolesProvisioned);
      ("user_id", AString (authn.UserID session));
      ("token_type", AString (authn.TokenType_String (authn.Type_ session)));
      ("super_admin", ABool (authn.SuperAdmin session));
      ("request_id", AString requestID)] in
  let val := put_if (domains.Name domain <>s "") "name" (AString (domains.Name domain)) val in
  let val := put_if (negb (is_empty (domains.Tags domain))) "tags" (AStrings (domains.Tags domain)) val in
  let val := put_if (negb (is_nil (domains.Metadata_ domain))) "metadata" (AMetadata (domains.Metadata_ domain)) val in
  val.
Definition retrieveDomainEvent (domain : domains.Domain) (session : authn.Session) (requestID : string) : event :=
  let val := [ ("operation", AString domainRetrieve);
      ("id", AString (domains.ID domain));
      ("route", AString (domains.Route domain));
      ("status", AString (domains.Status_String (domains.Status domain)));
      ("created_at", ATime (domains.CreatedAt domain));
      ("user_id", AString (authn.UserID session));
      ("token_type", AString (authn.TokenType_String (authn.Type_ session)));
      ("super_admin", ABool (authn.SuperAdmin session));
      ("request_id", AString requestID)] in
  let val := put_if (domains.Name domain <>s "") "name" (AString (domains.Name domain)) val in
  let val := put_if (negb (is_empty (domains.Tags domain))) "tags" (AStrings (domains.Tags domain)) val in
  let val := put_if (negb (is_nil (domains.Metadata_ domain))) "metadata" (AMetadata (domains.Metadata_ domain)) val in
  let val := put_if (negb (IsZero (domains.UpdatedAt domain))) "updated_at" (ATime (domains.UpdatedAt domain)) val in
  let val := put_if (domains.UpdatedBy domain <>s "") "updated_by" (AString (domains.UpdatedBy domain)) val in
  val.
Definition updateDomainEvent (domain : domains.Domain) (session : authn.Session) (requestID : string) : event :=
  let val := [ ("operation", AString domainUpdate);
      ("id", AString (domains.ID domain));
      ("route", AString (domains.Route domain));
      ("status", AString (domains.Status_String (domains.Status domain)));
      ("created_at", ATime (domains.CreatedAt domain));
      ("created_by", AString (domains.CreatedBy domain));
      ("updated_at", ATime (domains.UpdatedAt domain));
      ("updated_by", AString (domains.UpdatedBy domain));
      ("user_id", AString (authn.UserID session));
      ("token_type", AString (authn.TokenType_String (authn.Type_ session)));
      ("super_admin", ABool (authn.SuperAdmin session));
      ("request_id", AString requestID)] in
  let val := put_if (domains.Name domain <>s "") "name" (AString (domains.Name domain)) val in
  let val := put_if (negb (is_empty (domains.Tags domain))) "tags" (AStrings (domains.Tags domain)) val in
  let val := put_if (negb (is_nil (domains.Metadata_ domain))) "metadata" (AMetadata (domains.Metadata_ domain)) val in
  val.
Definition enableDomainEvent (domainID : string) (updatedAt : Time) (updatedBy : string) (session : authn.Session) (requestID : string) : event :=
  [ ("operation", AString domainEnable);
    ("id", AString domainID);
    ("updated_at", ATime updatedAt);
    ("updated_by", AString updatedBy);
    ("user_id", AString (authn.UserID session));
    ("token_type", AString (authn.TokenType_String (authn.Type_ session)));
    ("super_admin", ABool (authn.SuperAdmin session));
    ("request_id", AString requestID)].
Definition disableDomainEvent (domainID : string) (updatedAt : Time) (updatedBy : string) (session : authn.Session) (requestID : string) : event :=
  [ ("operation", AString domainDisable);
    ("id", AString domainID);
    ("updated_at", ATime updatedAt);
    ("updated_by", AString updatedBy);
    ("user_id", AString (authn.UserID session));
    ("token_type", AString (authn.TokenType_String (authn.Type_ session)));
    ("super_admin", ABool (authn.SuperAdmin session));
    ("request_id", AString requestID)].
Definition freezeDomainEvent (domainID : string) (updatedAt : Time) (updatedBy : string) (session : authn.Session) (requestID : string) : event :=
  [ ("operation", AString domainFreeze);
    ("id", AString domainID);
    ("updated_at", ATime updatedAt);
    ("updated_by", AString updatedBy);
    ("user_id", AString (authn.UserID session));
    ("token_type", AString (authn.TokenType_String (authn.Type_ session)));
    ("super_admin", ABool (authn.SuperAdmin session));
    ("request_id", AString requestID)].
Definition listDomainsEvent (pm : domains.Page) (total : N) (userID : string) (tokenType : string) (superAdmin : bool) (requestID : string) : event :=
  let val := [ ("operation", AString domainList);
      ("total", AUint total);
      ("offset", AUint (domains.pg_Offset pm));
      ("limit", AUint (domains.pg_Limit pm));
      ("user_id", AString userID);
      ("token_type", AString tokenType);
      ("super_admin", ABool superAdmin);
      ("request_id", AString requestID)] in
  let val := put_if (domains.pg_Name pm <>s "") "name" (AString (domains.pg_Name pm)) val in
  let val := put_if (domains.pg_Order pm <>s "") "order" (AString (domains.pg_Order pm)) val in
  let val := put_if (domains.pg_Dir pm <>s "") "dir" (AString (domains.pg_Dir pm)) val in
  let val := put_if (negb (is_nil (domains.pg_Metadata pm))) "metadata" (AMetadata (domains.pg_Metadata pm)) val in
  let val := put_if (negb (is_empty (domains.Elements (domains.pg_Tags pm)))) "tag" (AStrings (domains.Elements (domains.pg_Tags pm))) val in
  let val := put_if (domains.pg_RoleID pm <>s "") "role_id" (AString (domains.pg_RoleID pm)) val in
  let val := put_if (domains.pg_RoleName pm <>s "") "role_name" (AString (domains.pg_RoleName pm)) val in
  let val := put_if (negb (is_empty (domains.pg_Actions pm))) "actions" (AStrings (domains.pg_Actions pm)) val in
  let val := put_if (domains.Status_String (domains.pg_Status pm) <>s "") "status" (AString (domains.Status_String (domains.pg_Status pm))) val in
  let val := put_if (domains.pg_ID pm <>s "") "id" (AString (domains.pg_ID pm)) val in
  let val := put_if (negb (is_empty (domains.pg_IDs pm))) "ids" (AStrings (domains.pg_IDs pm)) val in
  let val := put_if (domains.pg_Identity pm <>s "") "identity" (AString (domains.pg_Identity pm)) val in
  let val := put_if (domains.pg_UserID pm <>s "") "user_id" (AString (domains.pg_UserID pm)) val in
  val.
Definition sendInvitationEvent (invitation : domains.Invitation) (session : authn.Session) (requestID : string) : event :=
  let val := [ ("operation", AString invitationSend);
      ("invitee_user_id", AString (domains.InviteeUserID invitation));
      ("domain_id", AString (domains.DomainID invitation));
      ("invited_by", AString (authn.UserID session));
      ("role_id", AString (domains.inv_RoleID invitation));
      ("token_type", AString (authn.TokenType_String (authn.Type_ session)));
      ("super_admin", ABool (authn.SuperAdmin session));
      ("request_id", AString requestID)] in
  let val := put_if (domains.DomainName invitation <>s "") "domain_name" (AString (domains.DomainName invitation)) val in
  let val := put_if (domains.inv_RoleName invitation <>s "") "role_name" (AString (domains.inv_RoleName invitation)) val in
  val.
Definition listInvitationsEvent (pm : domains.InvitationPageMeta) (session : authn.Session) (requestID : string) : event :=
  let val := [ ("operation", AString invitationList);
      ("offset", AUint (domains.im_Offset pm));
      ("limit", AUint (domains.im_Limit pm));
      ("user_id", AString (authn.UserID session));
      ("token_type", AString (authn.TokenType_String (authn.Type_ session)));
      ("request_id", AString requestID)] in
  let val := put_if (domains.im_InvitedBy pm <>s "") "invited_by" (AString (domains.im_InvitedBy pm)) val in
  let val := put_if (domains.im_InviteeUserID pm <>s "") "invitee_user_id" (AString (domains.im_InviteeUserID pm)) val in
  let val := put_if (domains.im_DomainID pm <>s "") "domain_id" (AString (domains.im_DomainID pm)) val in
  let val := put_if (domains.im_RoleID pm <>s "") "role_id" (AString (domains.im_RoleID pm)) val in
  let val := put_if (domains.State_String (domains.im_State pm) <>s domains.UnknownState) "state" (AString (domains.State_String (domains.im_State pm))) val in
  val.
Definition listDomainInvitationsEvent (pm : domains.InvitationPageMeta) (session : authn.Session) (requestID : string) : event :=
  let val := [ ("operation", AString invitationListDomain);
      ("offset", AUint (domains.im_Offset pm));
      ("limit", AUint (domains.im_Limit pm));
      ("domain_id", AString (authn.DomainID session));
      ("token_type", AString (authn.TokenType_String (authn.Type_ session)));
      ("super_admin", ABool (authn.SuperAdmin session));
      ("request_id", AString requestID)] in
  let val := put_if (domains.im_InvitedBy pm <>s "") "invited_by" (AString (domains.im_InvitedBy pm)) val in
  let val := put_if (domains.im_InviteeUserID pm <>s "") "invitee_user_id" (AString (domains.im_InviteeUserID pm)) val in
  let val := put_if (domains.im_RoleID pm <>s "") "role_id" (AString (domains.im_RoleID pm)) val in
  let val := put_if (domains.State_String (domains.im_State pm) <>s domains.UnknownState) "state" (AString (domains.State_String (domains.im_State pm))) val in
  val.
Definition acceptInvitationEvent (invitation : domains.Invitation) (session : authn.Session) (requestID : string) : event :=
  let val := [ ("operation", AString invitationAccept);
      ("domain_id", AString (domains.DomainID invitation));
      ("invitee_user_id", AString (authn.UserID session));
      ("invited_by", AString (domains.InvitedBy invitation));
      ("role_id", AString (domains.inv_RoleID invitation));
      ("token_type", AString (authn.TokenType_String (authn.Type_ session)));
      ("super_admin", ABool (authn.SuperAdmin session));
      ("request_id", AString requestID)] in
  let val := put_if (domains.DomainName invitation <>s "") "domain_name" (AString (domains.DomainName invitation)) val in
  let val := put_if (domains.inv_RoleName invitation <>s "") "role_name" (AString (domains.inv_RoleName invitation)) val in
  val.
Definition rejectInvitationEvent (invitation : domains.Invitation) (session : authn.Session) (requestID : string) : event :=
  let val := [ ("operation", AString invitationReject);
      ("domain_id", AString (domains.DomainID invitation));
      ("invitee_user_id", AString (authn.UserID session));
      ("invited_by", AString (domains.InvitedBy invitation));
      ("role_id", AString (domains.inv_RoleID invitation));
      ("token_type", AString (authn.TokenType_String (authn.Type_ session)));
      ("super_admin", ABool (authn.SuperAdmin session));
      ("request_id", AString requestID)] in
  let val := put_if (domains.DomainName invitation <>s "") "domain_name" (AString (domains.DomainName invitation)) val in
  let val := put_if (domains.inv_RoleName invitation <>s "") "role_name" (AString (domains.inv_RoleName invitation)) val in
  val.
Definition deleteInvitationEvent (inviteeUserID : string) (domainID : string) (session : authn.Session) (requestID : string) : event :=
  [ ("operation", AString invitationDelete);
    ("invitee_user_id", AString inviteeUserID);
    ("domain_id", AString domainID);
    ("token_type", AString (authn.TokenType_String (authn.Type_ session)));
    ("super_admin", ABool (authn.SuperAdmin session));
    ("request_id", AString requestID)].
End domain_events.

(** ** src/domains/events/streams.go *)
Module domain_store.
Import events domain_events.
Definition supermqPrefix := "supermq.".
Definition createStream := supermqPrefix +:+ domainCreate.
Definition retrieveStream := supermqPrefix +:+ domainRetrieve.
Definition updateStream := supermqPrefix +:+ domainUpdate.
Definition enableStream := supermqPrefix +:+ domainEnable.
Definition disableStream := supermqPrefix +:+ domainDisable.
Definition freezeStream := supermqPrefix +:+ domainFreeze.
Definition listStream := supermqPrefix +:+ domainList.
Definition sendInvitationStream := supermqPrefix +:+ invitationSend.
Definition acceptInvitationStream := supermqPrefix +:+ invitationAccept.
Definition rejectInvitationStream := supermqPrefix +:+ invitationReject.
Definition listInvitationsStream := supermqPrefix +:+ invitationList.
Definition listDomainInvitationsStream := supermqPrefix +:+ invitationListDomain.
Definition deleteInvitationStream := supermqPrefix +:+ invitationDelete.
Section store.
Context {W : Type} (publisher : Publisher W) (svc : domains_mw.Service W) (rsvc : rolemgr.RoleManager W) (reqID : string).
Definition CreateDomain (session : authn.Session) (domain : domains.Domain) : St W (domains.Domain * list roles.RoleProvision * error) :=
  '((domain, rps), err) <- domains_mw.svc_CreateDomain svc session domain ;;
  if_err err return_ ret ((domain, rps), err) ;;
  err <- Publish publisher createStream (createDomainEvent domain rps session reqID) ;;
  if_err err return_ ret ((domain, rps), err) ;;
  ret ((domain, rps), None).
Definition RetrieveDomain (session : authn.Session) (id : string) (withRoles : bool) : St W (domains.Domain * error) :=
  '(domain, err) <- domains_mw.svc_RetrieveDomain svc session id withRoles ;;
  if_err err return_ ret (domain, err) ;;
  err <- Publish publisher retrieveStream (retrieveDomainEvent domain session reqID) ;;
  if_err err return_ ret (domain, err) ;;
  ret (domain, None).
Definition UpdateDomain (session : authn.Session) (id : string) (d : domains.DomainReq) : St W (domains.Domain * error) :=
  '(domain, err) <- domains_mw.svc_UpdateDomain svc session id d ;;
  if_err err return_ ret (domain, err) ;;
  err <- Publish publisher updateStream (updateDomainEvent domain session reqID) ;;
  if_err err return_ ret (domain, err) ;;
  ret (domain, None).
Definition EnableDomain (session : authn.Session) (id : string) : St W (domains.Domain * error) :=
  '(domain, err) <- domains_mw.svc_EnableDomain svc session id ;;
  if_err err return_ ret (domain, err) ;;
  err <- Publish publisher enableStream (enableDomainEvent id (domains.UpdatedAt domain) (domains.UpdatedBy domain) session reqID) ;;
  if_err err return_ ret (domain, err) ;;
  ret (domain, None).
Definition DisableDomain (session : authn.Session) (id : string) : St W (domains.Domain * error) :=
  '(domain, err) <- domains_mw.svc_DisableDomain svc session id ;;
  if_err err return_ ret (domain, err) ;;
  err <- Publish publisher disableStream (disableDomainEvent id (domains.UpdatedAt domain) (domains.UpdatedBy domain) session reqID) ;;
  if_err err return_ ret (domain, err) ;;
  ret (domain, None).
Definition FreezeDomain (session : authn.Session) (id : string) : St W (domains.Domain * error) :=
  '(domain, err) <- domains_mw.svc_FreezeDomain svc session id ;;
  if_err err return_ ret (domain, err) ;;
  err <- Publish publisher freezeStream (freezeDomainEvent id (domains.UpdatedAt domain) (domains.UpdatedBy domain) session reqID) ;;
  if_err err return_ ret (domain, err) ;;
  ret (domain, None).
Definition ListDomains (session : authn.Session) (p : domains.Page) : St W (domains.DomainsPage * error) :=
  '(dp, err) <- domains_mw.svc_ListDomains svc session p ;;
  if_err err return_ ret (dp, err) ;;
  err <- Publish publisher listStream (listDomainsEvent p (domains.dp_Total dp) (authn.UserID session) (authn.TokenType_String (authn.Type_ session)) (authn.SuperAdmin session) reqID) ;;
  if_err err return_ ret (dp, err) ;;
  ret (dp, None).
Definition ListInvitations (session : authn.Session) (pm : domains.InvitationPageMeta) : St W (domains.InvitationPage * error) :=
  '(ip, err) <- domains_mw.svc_ListInvitations svc session pm ;;
  if_err err return_ ret (ip, err) ;;
  err <- Publish publisher listInvitationsStream (listInvitationsEvent pm session reqID) ;;
  if_err err return_ ret (ip, err) ;;
  ret (ip, None).
Definition ListDomainInvitations (session : authn.Session) (pm : domains.InvitationPageMeta) : St W (domains.InvitationPage * error) :=
  '(ip, err) <- domains_mw.svc_ListDomainInvitations svc session pm ;;
  if_err err return_ ret (ip, err) ;;
  err <- Publish publisher listDomainInvitationsStream (listDomainInvitationsEvent pm session reqID) ;;
  if_err err return_ ret (ip, err) ;;
  ret (ip, None).
Definition SendInvitation (session : authn.Session) (invitation : domains.Invitation) : St W (domains.Invitation * error) :=
  '(inv, err) <- domains_mw.svc_SendInvitation svc session invitation ;;
  if_err err return_ ret (domains.Invitation0, err) ;;
  err <- Publish publisher sendInvitationStream (sendInvitationEvent inv session reqID) ;;
  if_err err return_ ret (inv, err) ;;
  ret (inv, None).
Definition AcceptInvitation (session : authn.Session) (domainID : string) : St W (domains.Invitation * error) :=
  '(inv, err) <- domains_mw.svc_AcceptInvitation svc session domainID ;;
  if_err err return_ ret (inv, err) ;;
  err <- role_store.RoleAddMembersEventPublisher publisher domainPrefix reqID (domains.DomainID inv) (domains.inv_RoleID inv)
           [domains.InviteeUserID inv] ;;
  if_err err return_ ret (inv, err) ;;
  err <- Publish publisher acceptInvitationStream (acceptInvitationEvent inv session reqID) ;;
  if_err err return_ ret (inv, err) ;;
  ret (inv, None).
Definition RejectInvitation (session : authn.Session) (domainID : string) : St W (domains.Invitation * error) :=
  '(inv, err) <- domains_mw.svc_RejectInvitation svc session domainID ;;
  if_err err return_ ret (domains.Invitation0, err) ;;
  err <- Publish publisher rejectInvitationStream (rejectInvitationEvent inv session reqID) ;;
  if_err err return_ ret (inv, err) ;;
  ret (inv, None).
Definition DeleteInvitation (session : authn.Session) (inviteeUserID domainID : string) : St W error :=
  err <- domains_mw.svc_DeleteInvitation svc session inviteeUserID domainID ;;
  if_err err return_ ret err ;;
  Publish publisher deleteInvitationStream (deleteInvitationEvent inviteeUserID domainID session reqID).

Definition NewEventStoreMiddleware : domains_mw.Service W * rolemgr.RoleManager W :=
  ({| domains_mw.svc_CreateDomain := CreateDomain;
     domains_mw.svc_RetrieveDomain := RetrieveDomain;
     domains_mw.svc_UpdateDomain := UpdateDomain;
     domains_mw.svc_EnableDomain := EnableDomain;
     domains_mw.svc_DisableDomain := DisableDomain;
     domains_mw.svc_FreezeDomain := FreezeDomain;
     domains_mw.svc_ListDomains := ListDomains;
     domains_mw.svc_ListInvitations := ListInvitations;
     domains_mw.svc_ListDomainInvitations := ListDomainInvitations;
     domains_mw.svc_SendInvitation := SendInvitation;
     domains_mw.svc_AcceptInvitation := AcceptInvitation;
     domains_mw.svc_RejectInvitation := RejectInvitation;
     domains_mw.svc_DeleteInvitation := DeleteInvitation |},
   role_store.NewRoleManagerEventStore publisher rsvc domainPrefix reqID).
End store.
End domain_store.

(** ** src/pkg/domains/events/consumer *)
Module domain_consumer.
Import events role_consumer.
Definition errDecodeCreateDomainEvent : err := Sentinel "dconsumer.errDecodeCreateDomainEvent" CustomError "failed to decode domain create event".
Definition errDecodeUpdateDomainEvent : err := Sentinel "dconsumer.errDecodeUpdateDomainEvent" CustomError "failed to decode domain update event".
Definition errDecodeEnableDomainEvent : err := Sentinel "dconsumer.errDecodeEnableDomainEvent" CustomError "failed to decode domain enable event".
Definition errDecodeDisableDomainEvent : err := Sentinel "dconsumer.errDecodeDisableDomainEvent" CustomError "failed to decode domain disable event".
Definition errDecodeFreezeDomainEvent : err := Sentinel "dconsumer.errDecodeFreezeDomainEvent" CustomError "failed to decode domain freeze event".
Definition errDecodeRemoveDomainsEvent : err := Sentinel "dconsumer.errDecodeRemoveDomainsEvent" CustomError "failed to decode domain remove  event".
Definition errID : err := Sentinel "dconsumer.errID" CustomError "missing or invalid 'id'".
Definition errName : err := Sentinel "dconsumer.errName" CustomError "missing or invalid 'name'".
Definition errRoute : err := Sentinel "dconsumer.errRoute" CustomError "missing or invalid 'route'".
Definition errTags : err := Sentinel "dconsumer.errTags" CustomError "invalid 'tags'".
Definition errStatus : err := Sentinel "dconsumer.errStatus" CustomError "missing or invalid 'status'".
Definition errConvertStatus : err := Sentinel "dconsumer.errConvertStatus" CustomError "failed to convert status".
Definition errCreatedBy : err := Sentinel "dconsumer.errCreatedBy" CustomError "missing or invalid 'created_by'".
Definition errCreatedAt : err := Sentinel "dconsumer.errCreatedAt" CustomError "failed to parse 'created_at' time".
Definition errUpdatedAt : err := Sentinel "dconsumer.errUpdatedAt" CustomError "failed to parse 'updated_at' time".
Definition stream := "events.supermq.domain.*".
Definition create := "domain.create".
Definition update := "domain.update".
Definition enable := "domain.enable".
Definition disable := "domain.disable".
Definition freeze := "domain.freeze".
Definition delete := "domain.delete".
Definition userDelete := "domain.user_delete".
Definition errNoOperationKey : err := Sentinel "dconsumer.errNoOperationKey" CustomError "operation key is not found in event message".
Definition errCreateDomainEvent : err := Sentinel "dconsumer.errCreateDomainEvent" CustomError "failed to consume domain create event".
Definition errUpdateDomainEvent : err := Sentinel "dconsumer.errUpdateDomainEvent" CustomError "failed to consume domain update event".
Definition errEnableDomainGroupEvent : err := Sentinel "dconsumer.errEnableDomainGroupEvent" CustomError "failed to consume domain enable event".
Definition errDisableDomainGroupEvent : err := Sentinel "dconsumer.errDisableDomainGroupEvent" CustomError "failed to consume domain disable event".
Definition errFreezeDomainGroupEvent : err := Sentinel "dconsumer.errFreezeDomainGroupEvent" CustomError "failed to consume domain freeze event".
Definition errUserDeleteDomainEvent : err := Sentinel "dconsumer.errUserDeleteDomainEvent" CustomError "failed to consume domain user delete event".
Definition errDeleteDomainEvent : err := Sentinel "dconsumer.errDeleteDomainEvent" CustomError "failed to consume domain delete event".

(** *** decode.go *)
Definition ToDomains (data : data) : domains.Domain * error :=
  let d := domains.Domain0 in
  x <-ok as_string data "id" or_return (domains.Domain0, Some errID) ;;
  let d := d <| domains.ID := x |> in
  x <-ok as_string data "name" or_return (domains.Domain0, Some errName) ;;
  let d := d <| domains.Name := x |> in
  stat <-ok as_string data "status" or_return (domains.Domain0, Some errStatus) ;;
  let (st, err) := domains.ToStatus stat in
  if_err err return_ (domains.Domain0, WrapE errConvertStatus err) ;;
  let d := d <| domains.Status := st |> in
  x <-ok as_string data "route" or_return (domains.Domain0, Some errRoute) ;;
  let d := d <| domains.Route := x |> in
  x <-ok as_string data "created_by" or_return (domains.Domain0, Some errCreatedBy) ;;
  let d := d <| domains.CreatedBy := x |> in
  cat <-ok as_string data "created_at" or_return (domains.Domain0, Some errCreatedAt) ;;
  let (ct, err) := Parse cat in
  if_err err return_ (domains.Domain0, WrapE errCreatedAt err) ;;
  let d := d <| domains.CreatedAt := ct |> in
  let '(l, err) := opt_strings errTags (as_array data "tags") in
  if_err err return_ (domains.Domain0, err) ;;
  let d := set_opt (set_field domains.Tags) l d in
  let d := set_opt (set_field domains.Metadata_) (Some <$> as_object data "metadata") d in
  let d := set_opt (set_field domains.UpdatedBy) (as_string data "updated_by") d in
  let '(ut, err) := as_time data "updated_at" in
  if_err err return_ (domains.Domain0, WrapE errUpdatedAt err) ;;
  let d := set_opt (set_field domains.UpdatedAt) ut d in
  (d, None).
Definition decodeCreateDomainEvent (data : data) : domains.Domain * list roles.RoleProvision * error :=
  let '(c, err) := ToDomains data in
  if_err err return_ (domains.Domain0, [], WrapE errDecodeCreateDomainEvent err) ;;
  irps <-ok as_array data "roles_provisioned" or_return
    (domains.Domain0, [], WrapE errDecodeCreateDomainEvent (Some (New "missing or invalid 'roles_provisioned'"))) ;;
  let '(rps, err) := ToRoleProvisions irps in
  if_err err return_ (domains.Domain0, [], WrapE errDecodeCreateDomainEvent err) ;;
  (c, rps, None).
Definition decodeUpdateDomainEvent (data : data) : domains.Domain * error :=
  let d := domains.Domain0 in
  x <-ok as_string data "id" or_return (domains.Domain0, WrapE errDecodeUpdateDomainEvent (Some errID)) ;;
  let d := d <| domains.ID := x |> in
  let d := set_opt (set_field domains.Name) (as_string data "name") d in
  let d := set_opt (set_field domains.Route) (as_string data "route") d in
  let '(l, err) := opt_strings errDecodeUpdateDomainEvent (as_array data "tags") in
  if_err err return_ (domains.Domain0, err) ;;
  let d := set_opt (set_field domains.Tags) l d in
  let d := set_opt (set_field domains.Metadata_) (Some <$> as_object data "metadata") d in
  let d := set_opt (set_field domains.UpdatedBy) (as_string data "updated_by") d in
  let '(ut, err) := as_time data "updated_at" in
  if_err err return_ (domains.Domain0, WrapE errDecodeUpdateDomainEvent (WrapE errUpdatedAt err)) ;;
  let d := set_opt (set_field domains.UpdatedAt) ut d in
  (d, None).
Definition decodeEnableDomainEvent (data : data) : domains.Domain * error :=
  let d := domains.Domain0 in
  x <-ok as_string data "id" or_return (domains.Domain0, WrapE errDecodeEnableDomainEvent (Some errID)) ;;
  let d := d <| domains.ID := x |> in
  let d := set_opt (set_field domains.UpdatedBy) (as_string data "updated_by") d in
  let '(ut, err) := as_time data "updated_at" in
  if_err err return_ (domains.Domain0, WrapE errDecodeEnableDomainEvent (WrapE errUpdatedAt err)) ;;
  let d := set_opt (set_field domains.UpdatedAt) ut d in
  (d, None).
Definition decodeDisableDomainEvent (data : data) : domains.Domain * error :=
  let d := domains.Domain0 in
  x <-ok as_string data "id" or_return (domains.Domain0, WrapE errDecodeDisableDomainEvent (Some errID)) ;;
  let d := d <| domains.ID := x |> in
  let d := set_opt (set_field domains.UpdatedBy) (as_string data "updated_by") d in
  let '(ut, err) := as_time data "updated_at" in
  if_err err return_ (domains.Domain0, WrapE errDecodeDisableDomainEvent (WrapE errUpdatedAt err)) ;;
  let d := set_opt (set_field domains.UpdatedAt) ut d in
  (d, None).
Definition decodeFreezeDomainEvent (data : data) : domains.Domain * error :=
  let d := domains.Domain0 in
  x <-ok as_string data "id" or_return (domains.Domain0, WrapE errDecodeFreezeDomainEvent (Some errID)) ;;
  let d := d <| domains.ID := x |> in
  let d := set_opt (set_field domains.UpdatedBy) (as_string data "updated_by") d in
  let '(ut, err) := as_time data "updated_at" in
  if_err err return_ (domains.Domain0, WrapE errDecodeFreezeDomainEvent (WrapE errUpdatedAt err)) ;;
  let d := set_opt (set_field domains.UpdatedAt) ut d in
  (d, None).
Definition decodeUserDeleteDomainEvent (_ : data) : domains.Domain * error :=
  (domains.Domain0, Some (Errorf "not implemented decode domain user delete event ")).
Definition decodeDeleteDomainEvent (data : data) : domains.Domain * error :=
  let d := domains.Domain0 in
  x <-ok as_string data "id" or_return (domains.Domain0, WrapE errDecodeRemoveDomainsEvent (Some errID)) ;;
  let d := d <| domains.ID := x |> in
  (d, None).

(** *** stream.go *)
Section handler.
Context {W : Type} (repo : domains.Repository W).
Definition createDomainHandler (data : data) : St W error :=
  let '(c, rps, err) := decodeCreateDomainEvent data in
  if_err err return_ ret (WrapE errCreateDomainEvent err) ;;
  '(_, err) <- domains.SaveDomain repo c ;;
  if_err err return_ ret (WrapE errCreateDomainEvent err) ;;
  '(_, err) <- roles.AddRoles (domains.role_repo repo) rps ;;
  if_err err return_ ret (WrapE errCreateDomainEvent err) ;;
  ret None.
Definition updateDomainHandler (data : data) : St W error :=
  let '(d, err) := decodeUpdateDomainEvent data in
  if_err err return_ ret (WrapE errUpdateDomainEvent err) ;;
  '(_, err) <- domains.repo_UpdateDomain repo (domains.ID d) (domains.DomainReq0 <| domains.rq_Name := Some (domains.Name d) |>
    <| domains.rq_Metadata := Some (domains.Metadata_ d) |> <| domains.rq_Tags := Some (domains.Tags d) |>
    <| domains.rq_UpdatedBy := Some (domains.UpdatedBy d) |> <| domains.rq_UpdatedAt := Some (domains.UpdatedAt d) |>) ;;
  if_err err return_ ret (WrapE errUpdateDomainEvent err) ;;
  ret None.
Definition enableDomainHandler (data : data) : St W error :=
  let '(d, err) := decodeEnableDomainEvent data in
  if_err err return_ ret (WrapE errEnableDomainGroupEvent err) ;;
  '(_, err) <- domains.repo_UpdateDomain repo (domains.ID d) (domains.DomainReq0 <| domains.rq_Status := Some domains.EnabledStatus |>
    <| domains.rq_UpdatedBy := Some (domains.UpdatedBy d) |> <| domains.rq_UpdatedAt := Some (domains.UpdatedAt d) |>) ;;
  if_err err return_ ret (WrapE errEnableDomainGroupEvent err) ;;
  ret None.
Definition disableDomainHandler (data : data) : St W error :=
  let '(d, err) := decodeDisableDomainEvent data in
  if_err err return_ ret (WrapE errDisableDomainGroupEvent err) ;;
  '(_, err) <- domains.repo_UpdateDomain repo (domains.ID d) (domains.DomainReq0 <| domains.rq_Status := Some domains.DisabledStatus |>
    <| domains.rq_UpdatedBy := Some (domains.UpdatedBy d) |> <| domains.rq_UpdatedAt := Some (domains.UpdatedAt d) |>) ;;
  if_err err return_ ret (WrapE errDisableDomainGroupEvent err) ;;
  ret None.
Definition freezeDomainHandler (data : data) : St W error :=
  let '(d, err) := decodeFreezeDomainEvent data in
  if_err err return_ ret (WrapE errFreezeDomainGroupEvent err) ;;
  '(_, err) <- domains.repo_UpdateDomain repo (domains.ID d) (domains.DomainReq0 <| domains.rq_Status := Some domains.FreezeStatus |>
    <| domains.rq_UpdatedBy := Some (domains.UpdatedBy d) |> <| domains.rq_UpdatedAt := Some (domains.UpdatedAt d) |>) ;;
  if_err err return_ ret (WrapE errFreezeDomainGroupEvent err) ;;
  ret None.
Definition userDeleteDomainHandler (data : data) : St W error :=
  let '(_, err) := decodeUserDeleteDomainEvent data in
  if_err err return_ ret (WrapE errUserDeleteDomainEvent err) ;;
  ret (Some (Errorf "not implemented user delete domain handler")).
Definition deleteDomainHandler (data : data) : St W error :=
  let '(d, err) := decodeDeleteDomainEvent data in
  if_err err return_ ret (WrapE errDeleteDomainEvent err) ;;
  err <- domains.DeleteDomain repo (domains.ID d) ;;
  if_err err return_ ret (WrapE errDeleteDomainEvent err) ;;
  ret None.
Definition Handle (msg : data) : St W error :=
  match roles.map_lookup "operation" msg with
  | None => ret (Some errNoOperationKey)
  | Some (JString op) =>
      if (op =s create) then createDomainHandler msg
      else if (op =s update) then updateDomainHandler msg
      else if (op =s enable) then enableDomainHandler msg
      else if (op =s disable) then disableDomainHandler msg
      else if (op =s freeze) then freezeDomainHandler msg
      else if (op =s userDelete) then userDeleteDomainHandler msg
      else if (op =s delete) then deleteDomainHandler msg
      else role_consumer.Handle "domain" (domains.role_repo repo) op msg
  | Some _ => ret None
  end.
End handler.
End domain_consumer.

(** ** What the events of the domains stand for *)
Module domain_changes.
Import events roles domain_events role_consumer domain_consumer.

Inductive change :=
| DomainCreated (d : domains.Domain) (rps : list RoleProvision)
| DomainUpdated (d : domains.Domain)
| DomainEnabled (id : string) (d : domains.Domain)
| DomainDisabled (id : string) (d : domains.Domain)
| DomainFrozen (id : string) (d : domains.Domain).
Definition stream (c : authn.Session * change) : string :=
  match c.2 with
  | DomainCreated _ _ => domain_store.createStream | DomainUpdated _ => domain_store.updateStream
  | DomainEnabled _ _ => domain_store.enableStream | DomainDisabled _ _ => domain_store.disableStream
  | DomainFrozen _ _ => domain_store.freezeStream
  end.
Definition published (reqID : string) (c : authn.Session * change) : event :=
  match c.2 with
  | DomainCreated d rps => createDomainEvent d rps c.1 reqID
  | DomainUpdated d => updateDomainEvent d c.1 reqID
  | DomainEnabled id d => enableDomainEvent id (domains.UpdatedAt d) (domains.UpdatedBy d) c.1 reqID
  | DomainDisabled id d => disableDomainEvent id (domains.UpdatedAt d) (domains.UpdatedBy d) c.1 reqID
  | DomainFrozen id d => freezeDomainEvent id (domains.UpdatedAt d) (domains.UpdatedBy d) c.1 reqID
  end.
Definition operation (c : change) : string :=
  match c with
  | DomainCreated _ _ => domainCreate | DomainUpdated _ => domainUpdate | DomainEnabled _ _ => domainEnable
  | DomainDisabled _ _ => domainDisable | DomainFrozen _ _ => domainFreeze
  end.

(** What the event of a new domain keeps of it. *)
Definition created (d : domains.Domain) : domains.Domain :=
  domains.Domain0 <| domains.ID := domains.ID d |> <| domains.Name := domains.Name d |>
    <| domains.Status := domains.Status d |> <| domains.Route := domains.Route d |>
    <| domains.CreatedBy := domains.CreatedBy d |> <| domains.CreatedAt := domains.CreatedAt d |>
    <| domains.Tags := domains.Tags d |> <| domains.Metadata_ := domains.Metadata_ d |>.
Definition update_of (d : domains.Domain) : domains.DomainReq :=
  domains.DomainReq0 <| domains.rq_Name := Some (domains.Name d) |> <| domains.rq_Metadata := Some (domains.Metadata_ d) |>
    <| domains.rq_Tags := Some (domains.Tags d) |> <| domains.rq_UpdatedBy := Some (domains.UpdatedBy d) |>
    <| domains.rq_UpdatedAt := Some (domains.UpdatedAt d) |>.
Definition status_to (s : N) (d : domains.Domain) : domains.DomainReq :=
  domains.DomainReq0 <| domains.rq_Status := Some s |> <| domains.rq_UpdatedBy := Some (domains.UpdatedBy d) |>
    <| domains.rq_UpdatedAt := Some (domains.UpdatedAt d) |>.

Section replay.
Context {V : Type} (R : domains.Repository V).
Definition report (e0 : err) {A} (call : St V (A * error)) : St V error :=
  '(_, e) <- call ;;
  if_err e return_ ret (WrapE e0 e) ;;
  ret None.
(** The calls of the repository of the consumer's service. *)
Definition replayed (c : authn.Session * change) : St V error :=
  match c.2 with
  | DomainCreated d rps =>
      '(_, e) <- domains.SaveDomain R (created d) ;;
      if_err e return_ ret (WrapE errCreateDomainEvent e) ;;
      report errCreateDomainEvent (AddRoles (domains.role_repo R) rps)
  | DomainUpdated d => report errUpdateDomainEvent (domains.repo_UpdateDomain R (domains.ID d) (update_of d))
  | DomainEnabled id d => report errEnableDomainGroupEvent (domains.repo_UpdateDomain R id (status_to domains.EnabledStatus d))
  | DomainDisabled id d => report errDisableDomainGroupEvent (domains.repo_UpdateDomain R id (status_to domains.DisabledStatus d))
  | DomainFrozen id d => report errFreezeDomainGroupEvent (domains.repo_UpdateDomain R id (status_to domains.FreezeStatus d))
  end.
Definition change_ok (c : authn.Session * change) : Prop :=
  match c.2 with
  | DomainCreated d rps =>
      domains.Name d <> "" /\ domains.Status_String (domains.Status d) <> domains.Unknown /\ (0 <= domains.CreatedAt d)%Z
      /\ rps <> [] /\ Forall (fun rp => role_ok (Role_ rp)) rps
  | DomainUpdated d | DomainEnabled _ d | DomainDisabled _ d | DomainFrozen _ d => (0 <= domains.UpdatedAt d)%Z
  end.

Lemma ToDomains_created payload s d rps reqID t :
  marshal_map (put "occurred_at" (AInt t) (createDomainEvent d rps s reqID)) = Some payload ->
  change_ok (s, DomainCreated d rps) -> ToDomains payload = (created d, None).
Proof.
  intros Hm (Hn & Hst & Hc & _). cbn [fst snd] in *. unfold ToDomains.
  rewrite !(as_string_marshal _ _ _ Hm), !(as_object_marshal _ _ _ Hm).
  destruct (marshal_time _ _ "created_at" (domains.CreatedAt d) Hm Hc) as (cat & Hcat & Hp).
  { unfold createDomainEvent. find_field. }
  rewrite (as_time_absent _ _ "updated_at" Hm) by (unfold createDomainEvent; find_field).
  rewrite (as_array_marshal _ _ "tags" Hm). unfold createDomainEvent. rewrite !lookup_put, !lookup_put_if. simpl.
  rewrite (proj2 (String.eqb_neq _ _) Hn). simpl. rewrite ToStatus_String, Hcat by done. simpl. rewrite Hp.
  destruct (domains.Tags d) as [|tag tags] eqn:Ht, (domains.Metadata_ d) eqn:Hme; simpl;
    rewrite ?ToStrings_strings; unfold created; simpl; rewrite ?Ht, ?Hme; reflexivity.
Qed.
Lemma update_decoded payload s d reqID t :
  marshal_map (put "occurred_at" (AInt t) (updateDomainEvent d s reqID)) = Some payload -> (0 <= domains.UpdatedAt d)%Z ->
  exists d', decodeUpdateDomainEvent payload = (d', None) /\ domains.ID d' = domains.ID d /\ update_of d' = update_of d.
Proof.
  intros Hm Hu. unfold decodeUpdateDomainEvent. rewrite !(as_string_marshal _ _ _ Hm), !(as_object_marshal _ _ _ Hm).
  rewrite (as_time_marshal _ _ "updated_at" (domains.UpdatedAt d) Hm Hu) by (unfold updateDomainEvent; find_field).
  rewrite (as_array_marshal _ _ "tags" Hm). unfold updateDomainEvent. rewrite !lookup_put, !lookup_put_if. simpl.
  destruct (String.eqb_spec (domains.Name d) "") as [Hn|], (domains.Tags d) as [|tag tags] eqn:Ht, (domains.Metadata_ d) eqn:Hme;
    simpl; rewrite ?ToStrings_strings; simpl; eexists; (split; [reflexivity|]);
    unfold update_of; simpl; rewrite ?Hn, ?Ht, ?Hme; done.
Qed.

Lemma domain_published_operation c reqID t :
  map_lookup "operation" (put "occurred_at" (AInt t) (published reqID c)) = Some (AString (operation c.2)).
Proof.
  destruct c as [s []]; cbn [published snd fst]; try reflexivity; unfold createDomainEvent, updateDomainEvent; find_field.
Qed.

(** The event of a change is consumed as the calls it stands for. *)
Lemma domain_change_consumed c reqID t payload v : change_ok c ->
  marshal_map (put "occurred_at" (AInt t) (published reqID c)) = Some payload ->
  Handle R payload v = replayed c v.
Proof.
  destruct c as [s c]. intros Hok Hm.
  destruct (marshal_lookup _ _ "operation" Hm) as [Hop _]. rewrite domain_published_operation in Hop.
  unfold Handle. rewrite Hop. clear Hop. destruct c; simpl operation; cbn [mbind option_bind marshal].
  - change (createDomainHandler R payload v = replayed (s, DomainCreated d rps) v).
    unfold createDomainHandler, decodeCreateDomainEvent. rewrite (ToDomains_created _ s d rps reqID t Hm Hok).
    destruct Hok as (_ & _ & _ & Hne & Hr).
    destruct (roles_provisioned_marshal _ _ "roles_provisioned" rps Hm) as (js & -> & Hjs); [|done|done|].
    { cbn [published snd fst]. unfold createDomainEvent. find_field. }
    rewrite Hjs. done.
  - change (updateDomainHandler R payload v = replayed (s, DomainUpdated d) v).
    unfold updateDomainHandler. destruct (update_decoded _ s d reqID t Hm Hok) as (d' & -> & Hid & Hu).
    unfold replayed. cbn [snd]. rewrite <- Hid, <- Hu. done.
  - change (enableDomainHandler R payload v = replayed (s, DomainEnabled id d) v). cbn in Hok.
    unfold enableDomainHandler, decodeEnableDomainEvent.
    rewrite (as_time_marshal _ _ "updated_at" (domains.UpdatedAt d) Hm Hok), !(as_string_marshal _ _ _ Hm) by find_field. done.
  - change (disableDomainHandler R payload v = replayed (s, DomainDisabled id d) v). cbn in Hok.
    unfold disableDomainHandler, decodeDisableDomainEvent.
    rewrite (as_time_marshal _ _ "updated_at" (domains.UpdatedAt d) Hm Hok), !(as_string_marshal _ _ _ Hm) by find_field. done.
  - change (freezeDomainHandler R payload v = replayed (s, DomainFrozen id d) v). cbn in Hok.
    unfold freezeDomainHandler, decodeFreezeDomainEvent.
    rewrite (as_time_marshal _ _ "updated_at" (domains.UpdatedAt d) Hm Hok), !(as_string_marshal _ _ _ Hm) by find_field. done.
Qed.
End replay.

(** The calls that change domains. *)
Inductive call :=
| CreateDomainCall (session : authn.Session) (d : domains.Domain)
| UpdateDomainCall (session : authn.Session) (id : string) (r : domains.DomainReq)
| EnableDomainCall (session : authn.Session) (id : string)
| DisableDomainCall (session : authn.Session) (id : string)
| FreezeDomainCall (session : authn.Session) (id : string).

Section calls.
Context {W : Type}.
Definition run (svc : domains_mw.Service W) (c : call) : St W ((authn.Session * change) * error) :=
  match c with
  | CreateDomainCall s d => '(d, rps, e) <- domains_mw.svc_CreateDomain svc s d ;; ret ((s, DomainCreated d rps), e)
  | UpdateDomainCall s id r => '(d, e) <- domains_mw.svc_UpdateDomain svc s id r ;; ret ((s, DomainUpdated d), e)
  | EnableDomainCall s id => '(d, e) <- domains_mw.svc_EnableDomain svc s id ;; ret ((s, DomainEnabled id d), e)
  | DisableDomainCall s id => '(d, e) <- domains_mw.svc_DisableDomain svc s id ;; ret ((s, DomainDisabled id d), e)
  | FreezeDomainCall s id => '(d, e) <- domains_mw.svc_FreezeDomain svc s id ;; ret ((s, DomainFrozen id d), e)
  end.
Context (now : St W Time) (broker : string -> data -> St W error) (svc : domains_mw.Service W).
Context (rsvc : rolemgr.RoleManager W) (reqID : string).
Definition stored : domains_mw.Service W := (domain_store.NewEventStoreMiddleware (NewPublisher now broker) svc rsvc reqID).1.
Lemma domain_run_stored c w : run stored c w =
  replication.publishing now broker (run svc) stream (published reqID) c w.
Proof.
  unfold replication.publishing. destruct c; simpl; rewrite ?bind_assoc;
    unfold domain_store.CreateDomain, domain_store.UpdateDomain, domain_store.EnableDomain, domain_store.DisableDomain,
      domain_store.FreezeDomain;
    unfold stream, published; simpl; unfold bind, ret; go_cases; try done; try congruence.
Qed.
End calls.

(** The events of the domains service replay, in the services that keep
    a copy of the domains, as the calls of the repository they stand for: the
    new domain with its roles, the fields of an update (an emptied list of
    tags or metadata included), and the new status with who set it and when. *)
Theorem domain_changes_replicated {W V} (now : St W Time) (broker : string -> data -> St W error)
    (svc : domains_mw.Service W) (rsvc : rolemgr.RoleManager W) (reqID : string) (R : domains.Repository V)
    (log : W -> list (string * data))
    (broker_log : forall s p w e w', broker s p w = (e, w') -> log w' = log w ++ if is_nil e then [(s, p)] else [])
    (now_log : frames now log) (svc_log : forall c, frames (run svc c) log)
    cs w done w' (Hcalls : replication.calls (run (stored now broker svc rsvc reqID)) cs w = (done, w'))
    (Hok : Forall change_ok done) :
  exists msgs, log w' = log w ++ msgs /\ msgs.*1 = map stream done
    /\ forall v, replication.handle_all (fun m => Handle R m.2) msgs v = replication.handle_all (replayed R) done v.
Proof.
  rewrite (replication.calls_ext _ _ _ _ (domain_run_stored now broker svc rsvc reqID)) in Hcalls.
  eapply replication.calls_replayed; eauto. intros c t p v. apply domain_change_consumed.
Qed.
End domain_changes.

Module domain_events_example.
Import domains domain_changes.
Definition lift_service {S} (s : domains_mw.Service S) : domains_mw.Service (logged.state S) := {|
  domains_mw.svc_CreateDomain := fun a b => logged.lift (domains_mw.svc_CreateDomain s a b);
  domains_mw.svc_RetrieveDomain := fun a b c => logged.lift (domains_mw.svc_RetrieveDomain s a b c);
  domains_mw.svc_UpdateDomain := fun a b c => logged.lift (domains_mw.svc_UpdateDomain s a b c);
  domains_mw.svc_EnableDomain := fun a b => logged.lift (domains_mw.svc_EnableDomain s a b);
  domains_mw.svc_DisableDomain := fun a b => logged.lift (domains_mw.svc_DisableDomain s a b);
  domains_mw.svc_FreezeDomain := fun a b => logged.lift (domains_mw.svc_FreezeDomain s a b);
  domains_mw.svc_ListDomains := fun a b => logged.lift (domains_mw.svc_ListDomains s a b);
  domains_mw.svc_SendInvitation := fun a b => logged.lift (domains_mw.svc_SendInvitation s a b);
  domains_mw.svc_ListInvitations := fun a b => logged.lift (domains_mw.svc_ListInvitations s a b);
  domains_mw.svc_ListDomainInvitations := fun a b => logged.lift (domains_mw.svc_ListDomainInvitations s a b);
  domains_mw.svc_AcceptInvitation := fun a b => logged.lift (domains_mw.svc_AcceptInvitation s a b);
  domains_mw.svc_RejectInvitation := fun a b => logged.lift (domains_mw.svc_RejectInvitation s a b);
  domains_mw.svc_DeleteInvitation := fun a b c => logged.lift (domains_mw.svc_DeleteInvitation s a b c) |}.
Definition svc := lift_service (services.domains_service memroles.now memdomains.svc).
Lemma domain_svc_log c : frames (run svc c) logged.log.
Proof.
  destruct c; simpl; (apply frames_bind; [apply logged.lift_log|]); try (by intros [? ?]); by intros [[? ?] ?].
Qed.
Definition rsvc : rolemgr.RoleManager (logged.state memdomains.state) :=
  logged.roles_manager (services.roles_manager memroles.now (ProvisionManageService memdomains.svc)).
Definition none : memdomains.state := ((∅, ∅), memdomains.MkMem ∅ ∅ ∅).
Definition requests : list call :=
  [CreateDomainCall roles_example.alice (Domain0 <| Name := "home" |> <| Tags := ["a"] |>);
   UpdateDomainCall roles_example.alice "new" (DomainReq0 <| rq_Name := Some "house" |>);
   DisableDomainCall roles_example.alice "new"; DisableDomainCall roles_example.alice "old"].
Definition ran := replication.calls (run (stored (logged.lift memroles.now) logged.broker svc rsvc "req")) requests (none, []).
Definition R := memdomains.repo.
Definition copy := replication.handle_all (fun m => domain_consumer.Handle R m.2) (logged.log ran.2) none.
(** The domain is made, renamed and disabled; disabling one that does not
    exist publishes nothing. *)
Lemma domain_changes_replicated_witness :
  copy.1 = [None; None; None]
  /\ ((fun d => (Name d, Status d)) <$> memdomains.doms copy.2 !! "new") = Some ("house", DisabledStatus)
  /\ exists msgs, logged.log ran.2 = [] ++ msgs /\ msgs.*1 = map stream ran.1
    /\ forall v, replication.handle_all (fun m => domain_consumer.Handle R m.2) msgs v
              = replication.handle_all (replayed R) ran.1 v.
Proof.
  split; [vm_compute; reflexivity|]. split; [vm_compute; reflexivity|].
  eapply (domain_changes_replicated (logged.lift memroles.now) logged.broker svc rsvc "req" R logged.log logged.broker_log
    (logged.lift_log _) domain_svc_log requests (none, []) ran.1 ran.2).
  - apply surjective_pairing.
  - vm_compute. repeat constructor; discriminate.
Defined.
End domain_events_example.
