(* ===== verification/UserEvents.v ===== *)
(** * User events

    Sources: src/users/events/events.go and streams.go, the event store of the
    users service. *)

From S2P Require Import Prelude GoStd GoTime Errors Policies Authn Roles Users Guards Events.

(** ** src/users/events/events.go *)
Module user_events.
Import events.
Definition userPrefix := "user.".
Definition userCreate := userPrefix +:+ "create".
Definition userSendVerification := userPrefix +:+ "send_verification".
Definition userVerifyEmail := userPrefix +:+ "verify_email".
Definition userUpdate := userPrefix +:+ "update".
Definition userUpdateRole := userPrefix +:+ "update_role".
Definition userUpdateTags := userPrefix +:+ "update_tags".
Definition userUpdateSecret := userPrefix +:+ "update_secret".
Definition userUpdateUsername := userPrefix +:+ "update_username".
Definition userUpdateProfilePicture := userPrefix +:+ "update_profile_picture".
Definition userUpdateEmail := userPrefix +:+ "update_email".
Definition userEnable := userPrefix +:+ "enable".
Definition userDisable := userPrefix +:+ "disable".
Definition userView := userPrefix +:+ "view".
Definition profileView := userPrefix +:+ "view_profile".
Definition userList := userPrefix +:+ "list".
Definition userSearch := userPrefix +:+ "search".
Definition userIdentify := userPrefix +:+ "identify".
Definition issueToken := userPrefix +:+ "issue_token".
Definition refreshToken := userPrefix +:+ "refresh_token".
Definition revokeRefreshToken := userPrefix +:+ "revoke_refresh_token".
Definition resetSecret := userPrefix +:+ "reset_secret".
Definition sendPasswordReset := userPrefix +:+ "send_password_reset".
Definition oauthCallback := userPrefix +:+ "oauth_callback".
Definition addClientPolicy := userPrefix +:+ "add_policy".
Definition deleteUser := userPrefix +:+ "delete".

Definition createUserEvent (user : users.User) (session : authn.Session) (requestID : string) : event :=
  let val := [ ("operation", AString userCreate);
      ("id", AString (users.ID user));
      ("status", AString (users.Status_String (users.Status user)));
      ("created_at", ATime (users.CreatedAt user));
      ("token_type", AString (authn.TokenType_String (authn.Type_ session)));
      ("super_admin", ABool (authn.SuperAdmin session));
      ("request_id", AString requestID)] in
  let val := put_if (users.FirstName user <>s "") "first_name" (AString (users.FirstName user)) val in
  let val := put_if (users.LastName user <>s "") "last_name" (AString (users.LastName user)) val in
  let val := put_if (negb (is_empty (users.Tags user))) "tags" (AStrings (users.Tags user)) val in
  let val := put_if (negb (is_nil (users.u_Metadata user))) "metadata" (AMetadata (users.u_Metadata user)) val in
  let val := put_if (negb (is_nil (users.PrivateMetadata user))) "private_metadata" (AMetadata (users.PrivateMetadata user)) val in
  let val := put_if (users.Username (users.Creds user) <>s "") "username" (AString (users.Username (users.Creds user))) val in
  let val := put_if (users.Email user <>s "") "email" (AString (users.Email user)) val in
  val.
Definition sendVerificationEvent (session : authn.Session) (requestID : string) : event :=
  [ ("operation", AString userSendVerification);
    ("user_id", AString (authn.UserID session));
    ("token_type", AString (authn.TokenType_String (authn.Type_ session)));
    ("request_id", AString requestID)].
Definition verifyEmailEvent (requestID : string) (email : string) (userID : string) (verifiedAt : Time) : event :=
  [ ("operation", AString userVerifyEmail);
    ("request_id", AString requestID);
    ("email", AString email);
    ("user_id", AString userID);
    ("verified_at", ATime verifiedAt)].
Definition updateUserEvent (user : users.User) (operation : string) (session : authn.Session) (requestID : string) : event :=
  let val := [ ("operation", AString operation);
      ("updated_at", ATime (users.UpdatedAt user));
      ("updated_by", AString (users.UpdatedBy user));
      ("token_type", AString (authn.TokenType_String (authn.Type_ session)));
      ("super_admin", ABool (authn.SuperAdmin session));
      ("request_id", AString requestID)] in
  let val := put_if (users.ID user <>s "") "id" (AString (users.ID user)) val in
  let val := put_if (users.FirstName user <>s "") "first_name" (AString (users.FirstName user)) val in
  let val := put_if (users.LastName user <>s "") "last_name" (AString (users.LastName user)) val in
  let val := put_if (negb (is_empty (users.Tags user))) "tags" (AStrings (users.Tags user)) val in
  let val := put_if (users.Username (users.Creds user) <>s "") "username" (AString (users.Username (users.Creds user))) val in
  let val := put_if (users.Email user <>s "") "email" (AString (users.Email user)) val in
  let val := put_if (negb (is_nil (users.u_Metadata user))) "metadata" (AMetadata (users.u_Metadata user)) val in
  let val := put_if (negb (is_nil (users.PrivateMetadata user))) "private_metadata" (AMetadata (users.PrivateMetadata user)) val in
  let val := put_if (negb (IsZero (users.CreatedAt user))) "created_at" (ATime (users.CreatedAt user)) val in
  let val := put_if (users.Status_String (users.Status user) <>s "") "status" (AString (users.Status_String (users.Status user))) val in
  val.
Definition updateUsernameEvent (user : users.User) (session : authn.Session) (requestID : string) : event :=
  let val := [ ("operation", AString userUpdateUsername);
      ("updated_at", ATime (users.UpdatedAt user));
      ("updated_by", AString (users.UpdatedBy user));
      ("token_type", AString (authn.TokenType_String (authn.Type_ session)));
      ("super_admin", ABool (authn.SuperAdmin session));
      ("request_id", AString requestID)] in
  let val := put_if (users.ID user <>s "") "id" (AString (users.ID user)) val in
  let val := put_if (users.FirstName user <>s "") "first_name" (AString (users.FirstName user)) val in
  let val := put_if (users.LastName user <>s "") "last_name" (AString (users.LastName user)) val in
  let val := put_if (users.Username (users.Creds user) <>s "") "username" (AString (users.Username (users.Creds user))) val in
  val.
Definition updateProfilePictureEvent (user : users.User) (session : authn.Session) (requestID : string) : event :=
  let val := [ ("operation", AString userUpdateProfilePicture);
      ("updated_at", ATime (users.UpdatedAt user));
      ("updated_by", AString (users.UpdatedBy user));
      ("token_type", AString (authn.TokenType_String (authn.Type_ session)));
      ("super_admin", ABool (authn.SuperAdmin session));
      ("request_id", AString requestID)] in
  let val := put_if (users.ID user <>s "") "id" (AString (users.ID user)) val in
  let val := put_if (users.ProfilePicture user <>s "") "profile_picture" (AString (users.ProfilePicture user)) val in
  val.
Definition changeUserStatusEvent (id : string) (operation : string) (status : string) (updatedAt : Time) (updatedBy : string) (session : authn.Session) (requestID : string) : event :=
  [ ("operation", AString operation);
    ("id", AString id);
    ("status", AString status);
    ("updated_at", ATime updatedAt);
    ("updated_by", AString updatedBy);
    ("token_type", AString (authn.TokenType_String (authn.Type_ session)));
    ("super_admin", ABool (authn.SuperAdmin session));
    ("request_id", AString requestID)].
Definition viewUserEvent (user : users.User) (session : authn.Session) (requestID : string) : event :=
  let val := [ ("operation", AString userView);
      ("id", AString (users.ID user));
      ("token_type", AString (authn.TokenType_String (authn.Type_ session)));
      ("super_admin", ABool (authn.SuperAdmin session));
      ("request_id", AString requestID)] in
  let val := put_if (users.LastName user <>s "") "last_name" (AString (users.LastName user)) val in
  let val := put_if (users.FirstName user <>s "") "first_name" (AString (users.FirstName user)) val in
  let val := put_if (negb (is_empty (users.Tags user))) "tags" (AStrings (users.Tags user)) val in
  let val := put_if (users.Email user <>s "") "email" (AString (users.Email user)) val in
  let val := put_if (users.Username (users.Creds user) <>s "") "username" (AString (users.Username (users.Creds user))) val in
  let val := put_if (negb (is_nil (users.u_Metadata user))) "metadata" (AMetadata (users.u_Metadata user)) val in
  let val := put_if (negb (is_nil (users.PrivateMetadata user))) "private_metadata" (AMetadata (users.PrivateMetadata user)) val in
  let val := put_if (negb (IsZero (users.CreatedAt user))) "created_at" (ATime (users.CreatedAt user)) val in
  let val := put_if (negb (IsZero (users.UpdatedAt user))) "updated_at" (ATime (users.UpdatedAt user)) val in
  let val := put_if (users.UpdatedBy user <>s "") "updated_by" (AString (users.UpdatedBy user)) val in
  let val := put_if (users.Status_String (users.Status user) <>s "") "status" (AString (users.Status_String (users.Status user))) val in
  val.
Definition viewProfileEvent (user : users.User) (session : authn.Session) (requestID : string) : event :=
  let val := [ ("operation", AString profileView);
      ("id", AString (users.ID user));
      ("token_type", AString (authn.TokenType_String (authn.Type_ session)));
      ("super_admin", ABool (authn.SuperAdmin session));
      ("request_id", AString requestID)] in
  let val := put_if (users.FirstName user <>s "") "first_name" (AString (users.FirstName user)) val in
  let val := put_if (negb (is_empty (users.Tags user))) "tags" (AStrings (users.Tags user)) val in
  let val := put_if (users.Username (users.Creds user) <>s "") "username" (AString (users.Username (users.Creds user))) val in
  let val := put_if (negb (is_nil (users.u_Metadata user))) "metadata" (AMetadata (users.u_Metadata user)) val in
  let val := put_if (negb (is_nil (users.PrivateMetadata user))) "private_metadata" (AMetadata (users.PrivateMetadata user)) val in
  let val := put_if (negb (IsZero (users.CreatedAt user))) "created_at" (ATime (users.CreatedAt user)) val in
  let val := put_if (negb (IsZero (users.UpdatedAt user))) "updated_at" (ATime (users.UpdatedAt user)) val in
  let val := put_if (users.UpdatedBy user <>s "") "updated_by" (AString (users.UpdatedBy user)) val in
  let val := put_if (users.Status_String (users.Status user) <>s "") "status" (AString (users.Status_String (users.Status user))) val in
  let val := put_if (users.Email user <>s "") "email" (AString (users.Email user)) val in
  val.
Definition listUserEvent (pm : users.Page) (session : authn.Session) (requestID : string) : event :=
  let val := [ ("operation", AString userList);
      ("total", AUint (users.Total pm));
      ("offset", AUint (users.Offset pm));
      ("limit", AUint (users.Limit pm));
      ("token_type", AString (authn.TokenType_String (authn.Type_ session)));
      ("super_admin", ABool (authn.SuperAdmin session));
      ("request_id", AString requestID)] in
  let val := put_if (users.p_FirstName pm <>s "") "first_name" (AString (users.p_FirstName pm)) val in
  let val := put_if (users.p_LastName pm <>s "") "last_name" (AString (users.p_LastName pm)) val in
  let val := put_if (users.Order pm <>s "") "order" (AString (users.Order pm)) val in
  let val := put_if (users.Dir pm <>s "") "dir" (AString (users.Dir pm)) val in
  let val := put_if (negb (is_nil (users.p_Metadata pm))) "metadata" (AMetadata (users.p_Metadata pm)) val in
  let val := put_if (users.p_Domain pm <>s "") "domain" (AString (users.p_Domain pm)) val in
  let val := put_if (negb (is_empty (users.Elements (users.p_Tags pm)))) "tags" (AStrings (users.Elements (users.p_Tags pm))) val in
  let val := put_if (users.p_Permission pm <>s "") "permission" (AString (users.p_Permission pm)) val in
  let val := put_if (users.Status_String (users.p_Status pm) <>s "") "status" (AString (users.Status_String (users.p_Status pm))) val in
  let val := put_if (users.p_Username pm <>s "") "username" (AString (users.p_Username pm)) val in
  let val := put_if (users.p_Email pm <>s "") "email" (AString (users.p_Email pm)) val in
  val.
Definition searchUserEvent (pm : users.Page) (requestID : string) : event :=
  let val := [ ("operation", AString userSearch);
      ("total", AUint (users.Total pm));
      ("offset", AUint (users.Offset pm));
      ("limit", AUint (users.Limit pm));
      ("request_id", AString requestID)] in
  let val := put_if (users.p_Username pm <>s "") "username" (AString (users.p_Username pm)) val in
  let val := put_if (users.p_FirstName pm <>s "") "first_name" (AString (users.p_FirstName pm)) val in
  let val := put_if (users.p_LastName pm <>s "") "last_name" (AString (users.p_LastName pm)) val in
  let val := put_if (users.p_Email pm <>s "") "email" (AString (users.p_Email pm)) val in
  let val := put_if (users.p_Id pm <>s "") "id" (AString (users.p_Id pm)) val in
  val.
Definition identifyUserEvent (userID : string) (requestID : string) : event :=
  [ ("operation", AString userIdentify);
    ("id", AString userID);
    ("request_id", AString requestID)].
Definition issueTokenEvent (username : string) (requestID : string) : event :=
  [ ("operation", AString issueToken);
    ("username", AString username);
    ("request_id", AString requestID)].
Definition refreshTokenEvent (requestID : string) : event :=
  [ ("operation", AString refreshToken);
    ("request_id", AString requestID)].
Definition revokeRefreshTokenEvent (tokenID : string) (requestID : string) : event :=
  [ ("operation", AString revokeRefreshToken);
    ("token_id", AString tokenID);
    ("request_id", AString requestID)].
Definition resetSecretEvent (requestID : string) : event :=
  [ ("operation", AString resetSecret);
    ("request_id", AString requestID)].
Definition sendPasswordResetEvent (host : string) (email : string) (user : string) (requestID : string) : event :=
  [ ("operation", AString sendPasswordReset);
    ("host", AString host);
    ("email", AString email);
    ("user", AString user);
    ("request_id", AString requestID)].
Definition oauthCallbackEvent (userID : string) (requestID : string) : event :=
  [ ("operation", AString oauthCallback);
    ("user_id", AString userID);
    ("request_id", AString requestID)].
Definition deleteUserEvent (id : string) (session : authn.Session) (requestID : string) : event :=
  [ ("operation", AString deleteUser);
    ("id", AString id);
    ("token_type", AString (authn.TokenType_String (authn.Type_ session)));
    ("super_admin", ABool (authn.SuperAdmin session));
    ("request_id", AString requestID)].
Definition addUserPolicyEvent (id : string) (role : string) (session : authn.Session) (requestID : string) : event :=
  [ ("operation", AString addClientPolicy);
    ("id", AString id);
    ("role", AString role);
    ("token_type", AString (authn.TokenType_String (authn.Type_ session)));
    ("super_admin", ABool (authn.SuperAdmin session));
    ("request_id", AString requestID)].
End user_events.

(** ** src/users/events/streams.go *)
Module user_store.
Import events user_events.
Definition supermqPrefix := "supermq.".
Definition createStream := supermqPrefix +:+ userCreate.
Definition sendVerificationStream := supermqPrefix +:+ userSendVerification.
Definition verifyEmailStream := supermqPrefix +:+ userVerifyEmail.
Definition updateStream := supermqPrefix +:+ userUpdate.
Definition updateRoleStream := supermqPrefix +:+ userUpdateRole.
Definition updateTagsStream := supermqPrefix +:+ userUpdateTags.
Definition updateSecretStream := supermqPrefix +:+ userUpdateSecret.
Definition updateUsernameStream := supermqPrefix +:+ userUpdateUsername.
Definition updatePictureStream := supermqPrefix +:+ userUpdateProfilePicture.
Definition UpdateEmailStream := supermqPrefix +:+ userUpdateEmail.
Definition enableStream := supermqPrefix +:+ userEnable.
Definition disableStream := supermqPrefix +:+ userDisable.
Definition viewStream := supermqPrefix +:+ userView.
Definition viewProfileStream := supermqPrefix +:+ profileView.
Definition listStream := supermqPrefix +:+ userList.
Definition searchStream := supermqPrefix +:+ userSearch.
Definition identifyStream := supermqPrefix +:+ userIdentify.
Definition issueTokenStream := supermqPrefix +:+ issueToken.
Definition refreshTokenStream := supermqPrefix +:+ refreshToken.
Definition revokeRefreshTokenStream := supermqPrefix +:+ revokeRefreshToken.
Definition resetSecretStream := supermqPrefix +:+ resetSecret.
Definition sendPasswordResetStream := supermqPrefix +:+ sendPasswordReset.
Definition oauthStream := supermqPrefix +:+ oauthCallback.
Definition addPolicyStream := supermqPrefix +:+ addClientPolicy.
Definition deleteStream := supermqPrefix +:+ deleteUser.
Section store.
Context {W : Type} (publisher : Publisher W) (svc : users_mw.Service W) (reqID : string).
Definition update (session : authn.Session) (operation stream : string) (user : users.User) : St W (users.User * error) :=
  err <- Publish publisher stream (updateUserEvent user operation session reqID) ;;
  if_err err return_ ret (user, err) ;;
  ret (user, None).
Definition Update (session : authn.Session) (id : string) (usr : users.UserReq) : St W (users.User * error) :=
  '(user, err) <- users_mw.svc_Update svc session id usr ;;
  if_err err return_ ret (user, err) ;;
  update session userUpdate updateStream user.
Definition UpdateRole (session : authn.Session) (user : users.User) : St W (users.User * error) :=
  '(user, err) <- users_mw.svc_UpdateRole svc session user ;;
  if_err err return_ ret (user, err) ;;
  update session userUpdateRole updateRoleStream user.
Definition UpdateTags (session : authn.Session) (id : string) (usr : users.UserReq) : St W (users.User * error) :=
  '(user, err) <- users_mw.svc_UpdateTags svc session id usr ;;
  if_err err return_ ret (user, err) ;;
  update session userUpdateTags updateTagsStream user.
Definition UpdateSecret (session : authn.Session) (oldSecret newSecret : string) : St W (users.User * error) :=
  '(user, err) <- users_mw.svc_UpdateSecret svc session oldSecret newSecret ;;
  if_err err return_ ret (user, err) ;;
  update session userUpdateSecret updateSecretStream user.
Definition UpdateEmail (session : authn.Session) (id email : string) : St W (users.User * error) :=
  '(user, err) <- users_mw.svc_UpdateEmail svc session id email ;;
  if_err err return_ ret (user, err) ;;
  update session userUpdateEmail UpdateEmailStream user.
Definition changeStatus (session : authn.Session) (operation stream : string) (user : users.User) : St W (users.User * error) :=
  err <- Publish publisher stream (changeUserStatusEvent (users.ID user) operation (users.Status_String (users.Status user))
           (users.UpdatedAt user) (users.UpdatedBy user) session reqID) ;;
  if_err err return_ ret (user, err) ;;
  ret (user, None).
Definition Enable (session : authn.Session) (id : string) : St W (users.User * error) :=
  '(user, err) <- users_mw.svc_Enable svc session id ;;
  if_err err return_ ret (user, err) ;;
  changeStatus session userEnable enableStream user.
Definition Disable (session : authn.Session) (id : string) : St W (users.User * error) :=
  '(user, err) <- users_mw.svc_Disable svc session id ;;
  if_err err return_ ret (user, err) ;;
  changeStatus session userDisable disableStream user.
Definition SendVerification (session : authn.Session) : St W error :=
  err <- users_mw.svc_SendVerification svc session ;;
  if_err err return_ ret err ;;
  Publish publisher sendVerificationStream (sendVerificationEvent session reqID).
Definition SendPasswordReset (email : string) : St W error :=
  err <- users_mw.svc_SendPasswordReset svc email ;;
  if_err err return_ ret err ;;
  Publish publisher sendPasswordResetStream (sendPasswordResetEvent "" email "" reqID).
Definition RevokeRefreshToken (session : authn.Session) (tokenID : string) : St W error :=
  err <- users_mw.svc_RevokeRefreshToken svc session tokenID ;;
  if_err err return_ ret err ;;
  Publish publisher revokeRefreshTokenStream (revokeRefreshTokenEvent tokenID reqID).
Definition ResetSecret (session : authn.Session) (secret : string) : St W error :=
  err <- users_mw.svc_ResetSecret svc session secret ;;
  if_err err return_ ret err ;;
  Publish publisher resetSecretStream (resetSecretEvent reqID).
Definition Delete (session : authn.Session) (id : string) : St W error :=
  err <- users_mw.svc_Delete svc session id ;;
  if_err err return_ ret err ;;
  Publish publisher deleteStream (deleteUserEvent id session reqID).
Definition OAuthAddUserPolicy (user : users.User) : St W error :=
  err <- users_mw.svc_OAuthAddUserPolicy svc user ;;
  if_err err return_ ret err ;;
  Publish publisher addPolicyStream (addUserPolicyEvent (users.ID user) (users.Role_String (users.Role user)) authn.Session0 reqID).
(** The panic is that of generateUsername. *)
Definition OAuthCallback (user : users.User) : St W (option (users.User * error)) :=
  '(token, err) <~ users_mw.svc_OAuthCallback svc user ;;
  if_err err return_ pret (token, err) ;;
  err <~ call (Publish publisher oauthStream (oauthCallbackEvent (users.ID user) reqID)) ;;
  if_err err return_ pret (token, err) ;;
  pret (token, None).
Definition ListActiveRefreshTokens (session : authn.Session) : St W (list users.RefreshTokenInfo * error) :=
  users_mw.svc_ListActiveRefreshTokens svc session.
Definition Register (session : authn.Session) (user : users.User) (selfRegister : bool) : St W (users.User * error) :=
  '(user, err) <- users_mw.svc_Register svc session user selfRegister ;;
  if_err err return_ ret (user, err) ;;
  err <- Publish publisher createStream (createUserEvent user session reqID) ;;
  if_err err return_ ret (user, err) ;;
  ret (user, None).
Definition VerifyEmail (verificationToken : string) : St W (users.User * error) :=
  '(user, err) <- users_mw.svc_VerifyEmail svc verificationToken ;;
  if_err err return_ ret (user, err) ;;
  err <- Publish publisher verifyEmailStream (verifyEmailEvent reqID (users.Email user) (users.ID user) (users.VerifiedAt user)) ;;
  if_err err return_ ret (user, err) ;;
  ret (user, None).
Definition UpdateUsername (session : authn.Session) (id : string) (username : string) : St W (users.User * error) :=
  '(user, err) <- users_mw.svc_UpdateUsername svc session id username ;;
  if_err err return_ ret (user, err) ;;
  err <- Publish publisher updateUsernameStream (updateUsernameEvent user session reqID) ;;
  if_err err return_ ret (user, err) ;;
  ret (user, None).
Definition UpdateProfilePicture (session : authn.Session) (id : string) (usr : users.UserReq) : St W (users.User * error) :=
  '(user, err) <- users_mw.svc_UpdateProfilePicture svc session id usr ;;
  if_err err return_ ret (user, err) ;;
  err <- Publish publisher updatePictureStream (updateProfilePictureEvent user session reqID) ;;
  if_err err return_ ret (user, err) ;;
  ret (user, None).
Definition View (session : authn.Session) (id : string) : St W (users.User * error) :=
  '(user, err) <- users_mw.svc_View svc session id ;;
  if_err err return_ ret (user, err) ;;
  err <- Publish publisher viewStream (viewUserEvent user session reqID) ;;
  if_err err return_ ret (user, err) ;;
  ret (user, None).
Definition ViewProfile (session : authn.Session) : St W (users.User * error) :=
  '(user, err) <- users_mw.svc_ViewProfile svc session ;;
  if_err err return_ ret (user, err) ;;
  err <- Publish publisher viewProfileStream (viewProfileEvent user session reqID) ;;
  if_err err return_ ret (user, err) ;;
  ret (user, None).
Definition ListUsers (session : authn.Session) (pm : users.Page) : St W (users.UsersPage * error) :=
  '(cp, err) <- users_mw.svc_ListUsers svc session pm ;;
  if_err err return_ ret (cp, err) ;;
  err <- Publish publisher listStream (listUserEvent pm session reqID) ;;
  if_err err return_ ret (cp, err) ;;
  ret (cp, None).
Definition SearchUsers (pm : users.Page) : St W (users.UsersPage * error) :=
  '(cp, err) <- users_mw.svc_SearchUsers svc pm ;;
  if_err err return_ ret (cp, err) ;;
  err <- Publish publisher searchStream (searchUserEvent pm reqID) ;;
  if_err err return_ ret (cp, err) ;;
  ret (cp, None).
Definition Identify (session : authn.Session) : St W (string * error) :=
  '(userID, err) <- users_mw.svc_Identify svc session ;;
  if_err err return_ ret (userID, err) ;;
  err <- Publish publisher identifyStream (identifyUserEvent userID reqID) ;;
  if_err err return_ ret (userID, err) ;;
  ret (userID, None).
Definition IssueToken (username : string) (secret : string) (description : string) : St W (users.Token * error) :=
  '(token, err) <- users_mw.svc_IssueToken svc username secret description ;;
  if_err err return_ ret (token, err) ;;
  err <- Publish publisher issueTokenStream (issueTokenEvent username reqID) ;;
  if_err err return_ ret (token, err) ;;
  ret (token, None).
Definition RefreshToken (session : authn.Session) (refreshToken : string) : St W (users.Token * error) :=
  '(token, err) <- users_mw.svc_RefreshToken svc session refreshToken ;;
  if_err err return_ ret (token, err) ;;
  err <- Publish publisher refreshTokenStream (refreshTokenEvent reqID) ;;
  if_err err return_ ret (token, err) ;;
  ret (token, None).
Definition NewEventStoreMiddleware : users_mw.Service W :=
  {| users_mw.svc_Register := Register;
     users_mw.svc_VerifyEmail := VerifyEmail;
     users_mw.svc_UpdateUsername := UpdateUsername;
     users_mw.svc_UpdateProfilePicture := UpdateProfilePicture;
     users_mw.svc_View := View;
     users_mw.svc_ViewProfile := ViewProfile;
     users_mw.svc_ListUsers := ListUsers;
     users_mw.svc_SearchUsers := SearchUsers;
     users_mw.svc_Identify := Identify;
     users_mw.svc_IssueToken := IssueToken;
     users_mw.svc_RefreshToken := RefreshToken;
     users_mw.svc_Update := Update;
     users_mw.svc_UpdateRole := UpdateRole;
     users_mw.svc_UpdateTags := UpdateTags;
     users_mw.svc_UpdateSecret := UpdateSecret;
     users_mw.svc_UpdateEmail := UpdateEmail;
     users_mw.svc_Enable := Enable;
     users_mw.svc_Disable := Disable;
     users_mw.svc_SendVerification := SendVerification;
     users_mw.svc_SendPasswordReset := SendPasswordReset;
     users_mw.svc_RevokeRefreshToken := RevokeRefreshToken;
     users_mw.svc_ResetSecret := ResetSecret;
     users_mw.svc_Delete := Delete;
     users_mw.svc_OAuthAddUserPolicy := OAuthAddUserPolicy;
     users_mw.svc_OAuthCallback := OAuthCallback;
     users_mw.svc_ListActiveRefreshTokens := ListActiveRefreshTokens |}.
End store.
End user_store.
